(* ===== verification/_CoqProject ===== *)
-Q . S2P
Prelude.v
PyFloat.v
Json.v
JsonText.v
Sha256.v
Sha512.v
PyArith.v
Errors.v
Text.v
Canonical.v
LedgerRecord.v
Ledger.v
LedgerInv.v
LedgerSystem.v
LedgerSpec.v
LedgerLoad.v
Quota.v
LedgerWitness.v
Policy.v
Ingress.v
Status.v
Dispatch.v
DispatchInv.v
DispatchSettle.v
DispatchWitness.v
Gate.v
GateInv.v
GateProps.v
GateWitness.v
Application.v
WorkerErrors.v
WorkerCanonical.v
FixedPoint.v
FixedPointProps.v
TokenAccounting.v
ArtifactRef.v
WorkTicket.v
TicketRepository.v
Network.v
Sampler.v
ArtifactStore.v
Updates.v
WorkerState.v
ParameterSchema.v
BaselineConfig.v
DeltaSchema.v
LocalRound.v
RoundValidation.v
UpdateWriter.v
PublishProps.v
Engine.v
EngineProps.v
EngineSystem.v
EngineWitness.v
LiveCrypto.v
LivePreflight.v
PluginRegistry.v
PluginRunner.v
LiveDispatch.v
LiveProcess.v
EndToEnd.v
LiveProcessProps.v
TerminalResult.v
RoundTrip.v
LiveWitness.v
BundleVerifier.v
BundleVerifierProps.v
DataBinding.v
DataBindingProps.v
RuntimeConfig.v
RuntimeConfigProps.v
RuntimeIdentity.v
HttpHost.v
HttpProps.v
HttpDeployment.v
HttpWitness.v
HttpServer.v
HttpServerProps.v
WorkerRunner.v
IntegratedPort.v
