(* ===== verification/Prelude.v ===== *)
(** * Verification of the DeltaReduce controller and worker

    The repository holds a controller (src/delta-controller-python, package
    [deltacontroller]) that admits signed intents and dispatches them to worker
    processes, and a worker (src/delta-worker-python, package [deltatorrent])
    that runs one ticket of training and encodes its result.  This library
    models the parts that decide: what is admitted, what is durable, who may
    read or cancel, what a worker result must be bound to, which process owns a
    ticket, what the counters and the bytes of a result mean.

    ** Files and the code they model

    Foundations.  [Prelude]: results, ordered dicts, tactics and hints.
    [PyFloat], [Json], [JsonText]: Python numbers, JSON values, [json.dumps]
    and [json.loads] with their round trip.  [Sha256]: the digest, on bytes,
    checked on test vectors.  [Text]: code points, UTF-16 keys, strip, lines,
    hex. [Errors], [WorkerErrors]: the exceptions and the state monads of
    methods, the worker's with its weakest preconditions.

    Controller.  [Canonical] (canonical.py): canonical JSON, digests, signing.
    [LedgerRecord], [Ledger] (idempotency.py): records, reservations, durable
    admission, compare-and-set transitions, the append-only log and its
    poisoning.  [LedgerInv], [LedgerSystem]: the coherence invariant, runs of
    any interleaving of calls, properties of histories.  [LedgerLoad]: restart
    and torn appends.  [LedgerSpec]: an abstract registry of admissions and the
    refinement.  [Quota] (quota.py), [Policy] (auth.py, catalog.py), [Ingress]
    (ingress.py), [Status] (status.py).  [Dispatch], [DispatchInv],
    [DispatchSettle] (dispatch.py): the bounded queue of worker processes, its
    capacity, recovery, cancellation and settlement.  [WorkerRunner]
    (dispatch.py): watching one worker process, its environment and answer.
    [Gate], [GateInv], [GateProps] (gate.py): the whole admission over any
    dispatch port, with other threads between any two calls; [GateInv] has the
    ports of the queue and the mock.  [Application] (application.py):
    credentials, submission, cancellation.  [*Witness] files hold concrete
    runs.

    The controller's edge.  [RuntimeConfig], [RuntimeConfigProps],
    [RuntimeIdentity] (runtime_config.py): [urlsplit], the deployment
    descriptor, the signing identity and its bootstrap, remote tokens, the
    lease of the data directory.  [HttpHost], [HttpProps] (http_host.py, the
    request handler): from a parsed request to its response, over the interface
    [WorkingVersionApi]. [HttpDeployment]: the application as that interface,
    then handler, application and descriptor together.  [HttpServer],
    [HttpServerProps] (http_host.py, the server): slots, deadlines and shutdown
    under any interleaving.

    Worker.  [WorkerCanonical] (protocol/canonical.py).  [FixedPoint],
    [FixedPointProps] (reference/fixedpoint_encoder.py): [int] of text,
    rationals, quantization, envelopes, Merkle roots.  [TokenAccounting]
    (training/token_accounting.py). [ArtifactRef] (domain/manifests.py),
    [WorkTicket] (domain/tickets.py). [TicketRepository]
    (worker/repository.py): claims and outcomes as files shared by processes.
    [ArtifactStore] (artifacts/filesystem.py): files linked once,
    temporary files and their cleanup.  [Updates]
    (domain/updates.py): completions and candidates.  [Network]
    (domain/network.py and adapters/netem/simulated.py).

    Data and manifests.  [DataBinding], [DataBindingProps] (data/binding.py):
    proposals, decisions and resolved sets.  [BundleVerifier],
    [BundleVerifierProps] (domain/manifests.py, artifacts/verifier.py): run and
    checkpoint manifests, what a verified bundle contains.

    A round of training.  [PyArith]: float arithmetic the code does outside
    torch.  [WorkerState] (domain/worker_state.py, worker/telemetry.py): the
    states of a round and its events.  [Sampler] (training/data.py): tokenizer,
    windows, sampler. [ParameterSchema] (domain/parameters.py).
    [BaselineConfig] (training/config.py and the profiles of
    worker/validation.py). [DeltaSchema] (delta/*.py): schemas of modules,
    bundles, deltas, normalization.  [LocalRound] (training/local_round.py):
    one optimizer step.  [RoundValidation] (worker/validation.py): what a
    ticket is checked against.  [UpdateWriter], [PublishProps]
    (worker/update_writer.py): the publication of a round and its verification.
    [Engine], [EngineProps] (worker/engine.py): the whole round with its
    failure handler. [EngineSystem]: many processes running engines over one
    ticket repository and one store.  [EngineWitness]: concrete rounds, one of
    them crashing.

    The worker process, which runs what the controller dispatches.  [Sha512],
    [LiveCrypto] (live_execution/errors.py, crypto.py): its errors, its own RFC
    8785 serializer and Ed25519 verification over the integers. [LivePreflight]
    (preflight.py): what a bundle must prove before it runs.  [PluginRegistry]
    (model_plugins/base.py, registry.py, data/base.py, registry.py),
    [PluginRunner] (model_plugins/runner.py): bindings, runs and receipts.
    [LiveDispatch] (dispatch.py), [LiveProcess] (process.py): operations,
    timeouts, cancellation, the document answered. [LiveProcessProps]: what a
    dispatch can answer.  Between the two programs: [EndToEnd] (an admitted
    bundle passes the preflight), [TerminalResult] (an answer passes the
    queue's validation), [RoundTrip] (it is what the ledger records),
    [IntegratedPort] (dispatch.py: the port that runs the worker in the
    controller's process).  [LiveWitness]: one execution from the gate to the
    ledger.

    ** How state and calls correspond

    A method of an object is a function [M S A]: state in, state and result
    out, keeping every assignment made before an exception.  A body under a
    lock is one step; between two steps other threads may run ([GateInv.rely],
    the runs of [LedgerSystem], [TicketRepository.machine_step]).  What the
    surroundings decide is an argument: the outcome of an append or of a file
    access, clock readings, fresh execution ids, the behaviour of a worker
    process.  Python integers are [Z]; where the code bounds them (64-bit
    products, 16-bit values, [to_bytes]) the bound is written out.  Dicts keep
    insertion order ([odict]); indices that are only looked up are [gmap]s.
    Values the code inspects with [isinstance] are [json].

    Parameters.  [SchemaValidator] (the jsonschema package), [Ed25519] (the
    cryptography package, law: a signature verifies), [WorkerDispatchPort] (the
    protocol the gate calls; [PortLaws] are proved for the subprocess port, the
    integrated port and the mock), [IsoText] (RFC 3339 parsing of the standard
    library; the empty string is no date).  For a round: [TensorOps] (torch tensors), [TrainOps] and
    [ModelOps] (forward, backward, the optimizer, the parameters of the model),
    [WorkEnv] (clocks, the fault injector, the outcome of each store access and
    what other processes publish before it) and the safetensors codec, with the
    laws [codec_law] (what is saved loads back) and [equal_law].  For the
    worker process: [RFC8032] (a signature of the signing library passes the
    worker's verification), [IsoLaws] (a printed point in time reads back),
    [AdmissionSchema] (what the frozen
    schema says of grants) and [ResultSchemas] (the validators of receipts and
    errors accept what their schemas allow, which [TerminalResult] transcribes
    rule by rule), [PyText] ([str] of containers and
    exceptions); plugins and datasets are records of the operations of their
    protocols.

    ** What the theorems show

    Ledger: coherent indices under every interleaving; reload rebuilds the
    state; after a torn append a restart recovers
    the state before it or after it, or is refused when part of a record was
    written; terminal records are
    immutable; reservations are exclusive and waiting ends; a failed append
    poisons and closes; refinement of the abstract registry. Gate: what reaches
    dispatch is authorized, within quota, signed, unexpired and durable;
    reservations do not leak; failed dispatches settle. Queue: permits are
    conserved; a finished worker settles its execution; recovery fails exactly
    the orphans; a cancellation is final; a worker process is watched to its
    end or its deadline, and its result is the object it printed. Documents:
    canonical bytes identify documents; digests bind them up to an exhibited
    SHA-256 collision; ingress, policy, quota and result validation accept
    exactly what they should. Worker: one fresh claimant, one fingerprint and
    one outcome per ticket id under failures and crashes; exact token
    accounting; quantization is the nearest integer, ties to even; envelopes
    and Merkle roots determine what was encoded; published artifacts are never
    replaced, nor removed by a cleanup unless named as temporary files; an accepted completion is consistent and its document determines
    it; the simulated link delivers each frame once, within its bounds. Round:
    an optimizer step commits all of its micro-batches or none; a resolved
    ticket is bound to everything it names; an epoch draws each sample once; a
    normalized delta is the local delta over the steps, on exactly the schema's
    tensors.  Publication: the candidate comes last and all it names is
    readable; what was published verifies; a completion is final.  System:
    every result any process returns, under any interleaving and crash, is
    backed by a published completion of its ticket. Edge: an accepted
    descriptor is confined to its profile, and only requests it admits change
    the controller, each by exactly one operation under the credentials of its
    connection; a request is answered once,
    runtime errors included, as long as responses can be written; slots are conserved, deadlines
    enforced, and a shutdown leaves no connection open; a remote token is known
    by its hash alone; the signing identity is the worker's trust root,
    bootstrapped once; a data directory has one owner. Data: an authority
    resolves proposals to exactly its decisions, tickets name accepted
    assertions, and a verified bundle was all in the store. Between the
    programs: the two canonicalizers agree on documents without floats; what
    the gate admits the worker accepts while it is fresh; every document the
    worker answers the queue accepts; and the ledger ends with exactly that
    answer, through the queue as through the integrated port.  A multi-domain
    run is exactly its specifications.

    ** Fuel

    [acquire_loop] recurs on the clock readings it consumes and ends once one
    passes the deadline ([LedgerSystem.acquire_or_check_terminates]).
    [JsonText.scan_value] is given the length of its text, which
    [loads_dumps_sep] shows to be enough for every printed document;
    [Text.decode] likewise.  [merkle_loop] is given the number of leaves and
    never runs out ([FixedPointProps.merkle_root_binds]).  [sha_blocks]
    consumes 64 bytes a step.

    ** Not modelled

    Values interpolated into messages and the [details] of errors; the audit
    log; sockets and TLS beyond a response
    whose writing fails or times out, and the parsing of [http.server];
    command lines and signal handlers; the waiting loops of shutdown; what the
    operating system does with a worker process and its files; Python's
    recursion and integer-digit limits; tensor computation; data-set parsers,
    the numpy code of plugins and benchmark tooling; threads of a worker
    process that outlive their timeout; file modes and symbolic links;
    repository scripts. *)

From stdpp Require Export base tactics list strings gmap.
From Stdlib Require Export Ascii ZArith Lia.

(** ** Results: a Python call returns a value or raises *)

Declare Scope py_scope.
Delimit Scope py_scope with py.
Open Scope py_scope.

Section Result.
Context {E : Type}.

Inductive result (A : Type) : Type :=
| Ok (a : A)
| Raise (e : E).

Global Arguments Ok {_} _.
Global Arguments Raise {_} _.

Definition rbind {A B} (m : result A) (f : A -> result B) : result B :=
  match m with Ok a => f a | Raise e => Raise e end.

(** [if not b: raise e] *)
Definition require (b : bool) (e : E) : result unit :=
  if b then Ok tt else Raise e.

(** [for x in l: f x], stopping at the first exception. *)
Fixpoint rforall {A} (f : A -> result unit) (l : list A) : result unit :=
  match l with
  | [] => Ok tt
  | x :: r => rbind (f x) (fun _ => rforall f r)
  end.

(** [(f x for x in l)] collected into a list. *)
Fixpoint rmap {A B} (f : A -> result B) (l : list A) : result (list B) :=
  match l with
  | [] => Ok []
  | x :: r => rbind (f x) (fun y => rbind (rmap f r) (fun ys => Ok (y :: ys)))
  end.

(** [try: m  except Exception: raise e]: every exception becomes [e]. *)
Definition wrap {A} (m : result A) (e : E) : result A :=
  match m with Ok a => Ok a | Raise _ => Raise e end.
End Result.

Arguments result E A : clear implicits.

Notation "'let?' x := m 'in' k" := (rbind m (fun x => k))
  (at level 10, x name, m at level 100, k at level 200) : py_scope.
Notation "'let?' ' p := m 'in' k" := (rbind m (fun x => match x with p => k end))
  (at level 10, p pattern, m at level 100, k at level 200) : py_scope.
Notation "m ';?' k" := (rbind m (fun _ => k))
  (at level 199, right associativity) : py_scope.

Lemma rbind_Ok {E A B} (m : result E A) (f : A -> result E B) b :
  rbind m f = Ok b <-> exists a, m = Ok a /\ f a = Ok b.
Proof. destruct m; simpl; naive_solver. Qed.

Lemma rbind_unit_Ok {E B} (m : result E unit) (k : result E B) b :
  rbind m (fun _ => k) = Ok b <-> m = Ok tt /\ k = Ok b.
Proof. destruct m as [[]|]; simpl; naive_solver. Qed.

Lemma require_Ok {E} b (e : E) u : require b e = Ok u <-> b = true.
Proof. destruct b, u; simpl; naive_solver. Qed.

Lemma require_true {E} (e : E) : require true e = Ok tt.
Proof. done. Qed.

Lemma require_false {E} (e : E) : require false e = Raise e.
Proof. done. Qed.

Lemma rforall_Ok {E A} (f : A -> result E unit) l u :
  rforall f l = Ok u <-> Forall (fun x => f x = Ok tt) l.
Proof.
  destruct u. induction l as [|x l IH]; simpl.
  - split; auto.
  - rewrite rbind_unit_Ok, Forall_cons, IH. done.
Qed.

Lemma rmap_Ok {E A B} (f : A -> result E B) l ys :
  rmap f l = Ok ys <-> Forall2 (fun x y => f x = Ok y) l ys.
Proof.
  revert ys. induction l as [|x l IH]; intros ys; simpl.
  - split; [intros [= <-]; constructor|]. by inversion 1.
  - rewrite rbind_Ok. setoid_rewrite rbind_Ok. split.
    + intros (y & Hy & ys' & Hys & [= <-]). constructor; [done|]. by apply IH.
    + inversion 1 as [|? y ? ys' Hy Hys]; subst. exists y. split; [done|].
      exists ys'. by rewrite IH.
Qed.

Lemma wrap_Ok {E A} (m : result E A) e a : wrap m e = Ok a <-> m = Ok a.
Proof. destruct m; simpl; naive_solver. Qed.

(** ** Python's insertion-ordered [dict] with string keys *)

Abbreviation odict V := (list (string * V)).

Section OrderedDict.
Context {V : Type}.
Implicit Types (d : list (string * V)) (k : string) (v : V).

(** [d.get(k)] *)
Fixpoint od_get k d : option V :=
  match d with
  | [] => None
  | (k', v) :: r => if String.eqb k k' then Some v else od_get k r
  end.

(** [k in d] *)
Definition od_mem k d : bool :=
  match od_get k d with Some _ => true | None => false end.

(** [d[k] = v]: an existing key keeps its position. *)
Fixpoint od_set k v d : list (string * V) :=
  match d with
  | [] => [(k, v)]
  | (k', v') :: r =>
      if String.eqb k k' then (k', v) :: r else (k', v') :: od_set k v r
  end.

(** [d.pop(k, None)], the remaining dict *)
Fixpoint od_pop k d : list (string * V) :=
  match d with
  | [] => []
  | (k', v') :: r => if String.eqb k k' then r else (k', v') :: od_pop k r
  end.

Definition od_keys d : list string := map fst d.
Definition od_values d : list V := map snd d.

(** A dict has each key once. *)
Definition od_wf d : Prop := NoDup (od_keys d).

Lemma od_get_set_eq k v d : od_get k (od_set k v d) = Some v.
Proof.
  induction d as [|[k' v'] d IH]; simpl.
  - by rewrite String.eqb_refl.
  - destruct (String.eqb k k') eqn:E; simpl; by rewrite E.
Qed.

Lemma od_get_set_ne k k' v d : k <> k' -> od_get k (od_set k' v d) = od_get k d.
Proof.
  intros Hne. induction d as [|[k2 v2] d IH]; simpl.
  - by destruct (String.eqb_spec k k').
  - destruct (String.eqb_spec k' k2) as [->|]; simpl.
    + by destruct (String.eqb_spec k k2).
    + by rewrite IH.
Qed.

Lemma od_get_set k k' v d :
  od_get k (od_set k' v d) = if String.eqb k k' then Some v else od_get k d.
Proof.
  destruct (String.eqb_spec k k') as [->|];
    [apply od_get_set_eq|by apply od_get_set_ne].
Qed.

Lemma od_get_In k v d : od_get k d = Some v -> (k, v) ∈ d.
Proof.
  induction d as [|[k' v'] d IH]; simpl; [done|].
  destruct (String.eqb_spec k k') as [->|].
  - intros [= ->]. left.
  - intros. right. auto.
Qed.

Lemma od_In_get k v d : od_wf d -> (k, v) ∈ d -> od_get k d = Some v.
Proof.
  unfold od_wf. induction d as [|[k' v'] d IH]; simpl.
  - intros _ []%elem_of_nil.
  - intros [Hn Hd]%NoDup_cons [[= -> ->]|Hin]%elem_of_cons.
    + by rewrite String.eqb_refl.
    + destruct (String.eqb_spec k k') as [->|]; [|auto].
      exfalso. apply Hn. by apply (list_elem_of_fmap_2 fst _ (k', v)).
Qed.

Lemma od_get_None k d : od_get k d = None <-> k ∉ od_keys d.
Proof.
  unfold od_keys. induction d as [|[k' v'] d IH]; simpl.
  - split; [intros _ []%elem_of_nil|done].
  - destruct (String.eqb_spec k k') as [->|].
    + split; [done|]. intros []. left.
    + rewrite IH, not_elem_of_cons. naive_solver.
Qed.

Lemma od_get_keys k d : k ∈ od_keys d -> exists v, od_get k d = Some v.
Proof.
  intros Hin. destruct (od_get k d) eqn:E; [eauto|].
  by apply od_get_None in E.
Qed.

Lemma od_keys_set k v d :
  od_keys (od_set k v d) = if od_mem k d then od_keys d else od_keys d ++ [k].
Proof.
  unfold od_mem, od_keys. induction d as [|[k' v'] d IH]; simpl; [done|].
  destruct (String.eqb k k'); simpl; [done|].
  rewrite IH. by destruct (od_get k d).
Qed.

Lemma od_set_new k v d : od_get k d = None -> od_set k v d = d ++ [(k, v)].
Proof.
  induction d as [|[k' v'] d IH]; simpl; [done|].
  destruct (String.eqb k k'); [done|]. intros H. by rewrite IH.
Qed.

Lemma od_wf_set k v d : od_wf d -> od_wf (od_set k v d).
Proof.
  unfold od_wf. rewrite od_keys_set. unfold od_mem.
  destruct (od_get k d) eqn:E; [done|]. intros H.
  apply NoDup_app. split; [done|]. split.
  - intros x Hx ->%list_elem_of_singleton. by apply od_get_None in E.
  - apply NoDup_singleton.
Qed.

Lemma od_pop_submseteq k d x : x ∈ od_keys (od_pop k d) -> x ∈ od_keys d.
Proof.
  unfold od_keys. induction d as [|[k' v'] d IH]; simpl; [done|].
  destruct (String.eqb k k'); simpl; [by right|].
  intros [->|H]%elem_of_cons; [left|right; auto].
Qed.

Lemma od_wf_pop k d : od_wf d -> od_wf (od_pop k d).
Proof.
  unfold od_wf. induction d as [|[k' v'] d IH]; simpl; [done|].
  intros [Hn Hd]%NoDup_cons. destruct (String.eqb k k'); simpl; [done|].
  constructor; [|auto]. intros H. by apply Hn, (od_pop_submseteq k).
Qed.

Lemma od_get_pop_ne k k' d : k <> k' -> od_get k (od_pop k' d) = od_get k d.
Proof.
  intros Hne. induction d as [|[k2 v2] d IH]; simpl; [done|].
  destruct (String.eqb_spec k' k2) as [->|]; simpl.
  - by destruct (String.eqb_spec k k2).
  - by rewrite IH.
Qed.

Lemma od_get_pop_eq k d : od_wf d -> od_get k (od_pop k d) = None.
Proof.
  unfold od_wf. induction d as [|[k2 v2] d IH]; simpl; [done|].
  intros [Hn Hd]%NoDup_cons. destruct (String.eqb_spec k k2) as [->|Hne]; simpl.
  - by apply od_get_None.
  - destruct (String.eqb_spec k k2); [done|auto].
Qed.

Lemma od_pop_absent k d : od_get k d = None -> od_pop k d = d.
Proof.
  induction d as [|[k' v'] d IH]; simpl; [done|].
  destruct (String.eqb k k'); [done|]. intros H. by rewrite IH.
Qed.

Lemma od_pop_set k v d : od_get k d = None -> od_pop k (od_set k v d) = d.
Proof.
  induction d as [|[k' v'] d IH]; simpl.
  - by rewrite String.eqb_refl.
  - destruct (String.eqb k k') eqn:E; [done|]. simpl. rewrite E.
    intros H. by rewrite IH.
Qed.

Lemma od_set_set k v v' d : od_set k v (od_set k v' d) = od_set k v d.
Proof.
  induction d as [|[k2 v2] d IH]; simpl.
  - by rewrite String.eqb_refl.
  - destruct (String.eqb k k2) eqn:E; simpl; rewrite E; [done|]. by rewrite IH.
Qed.

Lemma od_set_same k v d : od_get k d = Some v -> od_set k v d = d.
Proof.
  induction d as [|[k' v'] d IH]; simpl; [done|].
  destruct (String.eqb k k'); [by intros [= ->]|]. intros H. by rewrite IH.
Qed.
End OrderedDict.

(** ** Proof automation shared by the development *)

(** [core_db]: inversion of monadic successes and of dict lookups. *)
Create HintDb delta discriminated.
Create Rewrite HintDb py_ok.
Create Rewrite HintDb od.

#[export] Hint Rewrite @rbind_unit_Ok @rbind_Ok @require_Ok @rforall_Ok @wrap_Ok
  : py_ok.
#[export] Hint Rewrite @od_get_set_eq : od.
#[export] Hint Rewrite @od_get_set_ne @od_get_pop_ne using congruence : od.
#[export] Hint Resolve od_wf_set od_wf_pop od_get_In od_In_get : delta.

(** Turn a successful monadic run in a hypothesis into its steps. *)
Ltac py_inv H :=
  repeat first
    [ progress autorewrite with py_ok in H
    | progress simpl in H ];
  repeat match type of H with
         | _ /\ _ => let H1 := fresh H in destruct H as [H1 H]; py_inv H1
         | exists _, _ => let x := fresh "x" in destruct H as [x H]
         end.

(** Split a hypothesis or the goal on every remaining [if]/[match]. *)
Ltac split_matches := repeat (case_match; simplify_eq/=; try done).

(** Boolean connectives to propositions. *)
Ltac bool_prop :=
  repeat match goal with
         | H : _ && _ = true |- _ => apply andb_true_iff in H; destruct H
         | H : _ || _ = false |- _ => apply orb_false_iff in H; destruct H
         | H : negb _ = true |- _ => apply negb_true_iff in H
         | H : negb _ = false |- _ => apply negb_false_iff in H
         | H : String.eqb _ _ = true |- _ => apply String.eqb_eq in H
         | H : String.eqb _ _ = false |- _ => apply String.eqb_neq in H
         | H : Z.eqb _ _ = true |- _ => apply Z.eqb_eq in H
         | H : Z.leb _ _ = true |- _ => apply Z.leb_le in H
         | H : Z.ltb _ _ = true |- _ => apply Z.ltb_lt in H
         | H : Z.leb _ _ = false |- _ => apply Z.leb_gt in H
         | H : Z.ltb _ _ = false |- _ => apply Z.ltb_ge in H
         end.

(** [s in {…}] for a literal set of strings *)
Definition str_in (s : string) (l : list string) : bool :=
  existsb (String.eqb s) l.

Lemma str_in_elem s l : str_in s l = true <-> s ∈ l.
Proof.
  unfold str_in. rewrite existsb_exists. split.
  - intros (x & Hx & E%String.eqb_eq). subst. by apply list_elem_of_In.
  - intros H. exists s. split; [by apply list_elem_of_In|apply String.eqb_refl].
Qed.

#[global] Arguments String.append !_ _ : simpl nomatch.

Lemma str_app_assoc (a b c : string) : a +:+ (b +:+ c) = (a +:+ b) +:+ c.
Proof. induction a as [|x a IH]; [reflexivity|]. simpl. by rewrite IH. Qed.

Lemma str_app_nil_r (a : string) : a +:+ EmptyString = a.
Proof. induction a as [|x a IH]; simpl; [done|]. by rewrite IH. Qed.

Lemma str_length_app (a b : string) :
  String.length (a +:+ b) = (String.length a + String.length b)%nat.
Proof. induction a as [|x a IH]; simpl; [done|]. by rewrite IH. Qed.
