(* ===== verification/PyFloat.v ===== *)
(** * Python integers and floats as text

    [str] of an [int], [int] of a digit string, and binary64 floats given by
    the shortest decimal that rounds to them (what [repr] prints), with the
    rounding of a decimal token to the nearest double ([float(token)]). *)

From S2P Require Import Prelude.
Open Scope Z_scope.
Open Scope py_scope.

(** ** Integers *)

Definition digit (d : Z) : ascii := ascii_of_nat (48 + Z.to_nat d).

Definition is_digit (c : ascii) : bool :=
  (48 <=? nat_of_ascii c)%nat && (nat_of_ascii c <=? 57)%nat.

Definition digit_val (c : ascii) : Z := Z.of_nat (nat_of_ascii c) - 48.

Arguments digit : simpl never.
Arguments is_digit : simpl never.
Arguments digit_val : simpl never.

(** Decimal digits of [n >= 0] in front of [acc]. *)
Fixpoint dec_digits (fuel : nat) (n : Z) (acc : string) : string :=
  match fuel with
  | O => String (digit (n mod 10)) acc
  | S k => if n <? 10 then String (digit n) acc
           else dec_digits k (n / 10) (String (digit (n mod 10)) acc)
  end.

Definition str_of_nonneg (n : Z) : string := dec_digits (Z.to_nat (Z.log2 n)) n EmptyString.

(** [str(z)] *)
Definition str_of_int (z : Z) : string :=
  if z <? 0 then String "-"%char (str_of_nonneg (- z)) else str_of_nonneg z.

(** The number a block of digits denotes. *)
Fixpoint digits_acc (acc : Z) (s : string) : Z :=
  match s with
  | EmptyString => acc
  | String c r => digits_acc (acc * 10 + digit_val c) r
  end.

Definition digits_val (s : string) : Z := digits_acc 0 s.

Fixpoint str_all (p : ascii -> bool) (s : string) : bool :=
  match s with EmptyString => true | String c r => p c && str_all p r end.

Lemma str_all_app p a b : str_all p (a +:+ b) = str_all p a && str_all p b.
Proof. induction a as [|c a IH]; simpl; [done|]. by rewrite IH, andb_assoc. Qed.

Lemma digit_spec d :
  0 <= d < 10 -> is_digit (digit d) = true /\ digit_val (digit d) = d.
Proof.
  intros H. assert (Hd : d = 0 \/ d = 1 \/ d = 2 \/ d = 3 \/ d = 4 \/ d = 5 \/ d = 6
                         \/ d = 7 \/ d = 8 \/ d = 9) by lia.
  destruct Hd as [->|[->|[->|[->|[->|[->|[->|[->|[->| ->]]]]]]]]]; vm_compute; done.
Qed.

Lemma digits_acc_app acc a b :
  digits_acc acc (a +:+ b) = digits_acc (digits_acc acc a) b.
Proof. revert acc. induction a as [|c a IH]; intros acc; simpl; [done|]. apply IH. Qed.

Lemma digits_acc_shift acc s :
  digits_acc acc s = acc * 10 ^ Z.of_nat (String.length s) + digits_val s.
Proof.
  unfold digits_val. revert acc. induction s as [|c s IH]; intros acc; simpl.
  - lia.
  - rewrite (IH (acc * 10 + digit_val c)). rewrite (IH (0 * 10 + digit_val c)).
    rewrite Nat2Z.inj_succ, Z.pow_succ_r by lia. lia.
Qed.

Lemma digits_val_app a b :
  digits_val (a +:+ b) = digits_val a * 10 ^ Z.of_nat (String.length b) + digits_val b.
Proof. unfold digits_val at 1. by rewrite digits_acc_app, digits_acc_shift. Qed.

Lemma dec_digits_spec fuel n acc :
  0 <= n < 2 ^ (Z.of_nat fuel + 1) ->
  exists c s, dec_digits fuel n acc = String c (s +:+ acc) /\
    str_all is_digit (String c s) = true /\ digits_val (String c s) = n /\
    (c = "0"%char -> n = 0 /\ s = EmptyString).
Proof.
  assert (base : forall n acc, 0 <= n < 10 ->
    exists c s, String (digit n) acc = String c (s +:+ acc) /\
      str_all is_digit (String c s) = true /\ digits_val (String c s) = n /\
      (c = "0"%char -> n = 0 /\ s = EmptyString)).
  { clear. intros n acc H. exists (digit n), EmptyString.
    destruct (digit_spec n H) as [H1 H2].
    split; [reflexivity|]. split; [apply andb_true_iff; split; [exact H1|reflexivity]|].
    split; [exact H2|]. intros E. split; [|reflexivity].
    rewrite <- H2, E. reflexivity. }
  revert n acc. induction fuel as [|k IH]; intros n acc Hn.
  - simpl in Hn. simpl. rewrite Z.mod_small by lia. apply base. lia.
  - simpl. destruct (Z.ltb_spec n 10); [apply base; lia|].
    rewrite Nat2Z.inj_succ, <- Z.add_1_r, Z.pow_add_r in Hn by lia.
    destruct (IH (n / 10) (String (digit (n mod 10)) acc)) as (c & s & E & Hd & Hv & Hz).
    { split; [apply Z.div_pos; lia|]. apply Z.div_lt_upper_bound; lia. }
    assert (Hm : 0 <= n mod 10 < 10) by (apply Z.mod_pos_bound; lia).
    destruct (digit_spec _ Hm) as [Hmd Hmv].
    revert E Hmd Hmv. generalize (digit (n mod 10)). intros dg E Hmd Hmv.
    exists c, (s +:+ String dg EmptyString).
    rewrite E. split; [|split; [|split]].
    + by rewrite <- str_app_assoc.
    + etransitivity; [exact (str_all_app is_digit (String c s) (String _ _))|].
      rewrite Hd. simpl. rewrite Hmd. reflexivity.
    + etransitivity; [exact (digits_val_app (String c s) (String _ _))|].
      rewrite Hv. change (digits_val (String ?x EmptyString)) with (digit_val x).
      rewrite Hmv. change (10 ^ _) with 10. pose proof (Z.div_mod n 10). lia.
    + intros Ez. destruct (Hz Ez) as [H0 _].
      pose proof (Z.div_mod n 10). lia.
Qed.

(** [str] of a non-negative int: digits, no leading zero, and its value. *)
Lemma str_of_nonneg_spec n :
  0 <= n ->
  exists c s, str_of_nonneg n = String c s /\ str_all is_digit (String c s) = true /\
    digits_val (String c s) = n /\ (c = "0"%char -> n = 0 /\ s = EmptyString).
Proof.
  intros Hn. unfold str_of_nonneg.
  destruct (dec_digits_spec (Z.to_nat (Z.log2 n)) n EmptyString) as (c & s & E & H).
  { split; [done|]. rewrite Z2Nat.id by apply Z.log2_nonneg.
    destruct (decide (n = 0)) as [->|]; [simpl; lia|].
    apply Z.log2_spec. lia. }
  exists c, s. split; [|exact H]. by rewrite E, str_app_nil_r.
Qed.

(** ** Floats *)

(** [FFin neg d e] is [± d * 10^e] with [d] free of trailing zeros. *)
Inductive pyfloat :=
| FNan
| FInf (neg : bool)
| FFin (neg : bool) (d e : Z).

#[export] Instance pyfloat_eq_dec : EqDecision pyfloat.
Proof. solve_decision. Defined.

Definition float_finite (f : pyfloat) : bool :=
  match f with FFin _ _ _ => true | _ => false end.

Definition float_is_zero (f : pyfloat) : bool :=
  match f with FFin _ 0 _ => true | _ => false end.

(** [floor (log2 (n / d))] for positive [n], [d]. *)
Definition flog2 (n d : Z) : Z :=
  let b := Z.log2 n - Z.log2 d in
  let fits := if 0 <=? b then d * 2 ^ b <=? n else d <=? n * 2 ^ (- b) in
  if fits then b else b - 1.

(** [n / d] rounded to the nearest integer, ties to even. *)
Definition round_half_even (n d : Z) : Z :=
  let q := n / d in
  let r := n mod d in
  if (d <? 2 * r) || ((2 * r =? d) && Z.odd q) then q + 1 else q.

(** The binary64 value [m * 2^q] nearest to [n / d], [None] on overflow. *)
Definition nearest_double (n d : Z) : option (Z * Z) :=
  let q := Z.max (-1074) (flog2 n d - 52) in
  let m := if 0 <=? q then round_half_even n (d * 2 ^ q)
           else round_half_even (n * 2 ^ (- q)) d in
  let '(m, q) := if m =? 2 ^ 53 then (2 ^ 52, q + 1) else (m, q) in
  if 971 <? q then None else Some (m, q).

Definition decimal_double (d e : Z) : option (Z * Z) :=
  if 0 <=? e then nearest_double (d * 10 ^ e) 1 else nearest_double d (10 ^ (- e)).

(** Drop trailing zeros of a positive digit block. *)
Fixpoint strip_zeros (fuel : nat) (d e : Z) : Z * Z :=
  match fuel with
  | O => (d, e)
  | S k => if (d mod 10 =? 0) && negb (d =? 0)
           then strip_zeros k (d / 10) (e + 1) else (d, e)
  end.

(** The [k]-digit decimals around [n / d], closest first, the even one of a tie. *)
Definition candidates (n d : Z) (t : Z) : list Z :=
  let '(a, b) := if 0 <=? t then (n, d * 10 ^ t) else (n * 10 ^ (- t), d) in
  let lo := a / b in
  let r := 2 * (a mod b) in
  if (r <? b) || ((r =? b) && Z.even lo) then [lo; lo + 1] else [lo + 1; lo].

(** Shortest decimal that rounds to the double [m * 2^q]: Python's [repr]. *)
Fixpoint shortest_from (fuel : nat) (digits : Z) (m q : Z) : Z * Z :=
  let '(n, d) := if 0 <=? q then (m * 2 ^ q, 1) else (m, 2 ^ (- q)) in
  let t0 := (flog2 n d * 30103) / 100000 + 1 - digits in
  let try1 t := List.find (fun c => bool_decide (decimal_double c t = Some (m, q)))
                  (candidates n d t) in
  match try1 (t0 + 1) with
  | Some c => (c, t0 + 1)
  | None =>
      match try1 t0 with
      | Some c => (c, t0)
      | None => match fuel with
                | O => (m, q)
                | S k => shortest_from k (digits + 1) m q
                end
      end
  end.

(** The float a decimal token denotes. *)
Definition float_of_decimal (neg : bool) (d e : Z) : pyfloat :=
  if d =? 0 then FFin neg 0 0
  else match decimal_double d e with
       | None => FInf neg
       | Some (0, _) => FFin neg 0 0
       | Some (m, q) =>
           let '(c, t) := shortest_from 17 1 m q in
           let '(c, t) := strip_zeros 20 c t in FFin neg c t
       end.

(** A value a Python float can have: its decimal is its own [repr]. *)
Definition float_wf (f : pyfloat) : bool :=
  match f with
  | FFin neg d e =>
      bool_decide (float_of_decimal neg d e = f) && (0 <=? d) &&
      ((d =? 0) || negb (d mod 10 =? 0))
  | _ => true
  end.

Fixpoint zeros (n : nat) : string :=
  match n with O => EmptyString | S k => String "0"%char (zeros k) end.

Fixpoint str_take (n : nat) (s : string) : string :=
  match n, s with
  | S k, String c r => String c (str_take k r)
  | _, _ => EmptyString
  end.

Fixpoint str_drop (n : nat) (s : string) : string :=
  match n, s with
  | S k, String _ r => str_drop k r
  | _, _ => s
  end.

(** [repr(f)]: exponent form outside [1e-4, 1e16). *)
Definition repr_float (f : pyfloat) : string :=
  match f with
  | FNan => "nan"
  | FInf neg => if neg then "-inf" else "inf"
  | FFin neg d e =>
      let sign := if neg then "-"%string else EmptyString in
      if d =? 0 then sign +:+ "0.0"
      else
        let ds := str_of_int d in
        let n := Z.of_nat (String.length ds) in
        let decpt := n + e in
        let len k := Z.to_nat k in
        sign +:+
        if (decpt <=? -4) || (16 <? decpt) then
          let x := decpt - 1 in
          let xs := str_of_int (Z.abs x) in
          str_take 1 ds +:+
          (if n =? 1 then EmptyString
           else "." +:+ str_drop 1 ds) +:+
          "e" +:+ (if x <? 0 then "-" else "+") +:+
          (if Z.abs x <? 10 then "0" +:+ xs else xs)
        else if decpt <=? 0 then "0." +:+ zeros (len (- decpt)) +:+ ds
        else if n <=? decpt then ds +:+ zeros (len (decpt - n)) +:+ ".0"
        else str_take (len decpt) ds +:+ "." +:+
             str_drop (len decpt) ds
  end.

(** [f == z] for an int [z]: exact comparison of the double with [z]. *)
Definition float_eq_int (f : pyfloat) (z : Z) : bool :=
  match f with
  | FFin neg d e =>
      if d =? 0 then z =? 0
      else match decimal_double d e with
           | Some (m, q) =>
               let m := if neg then - m else m in
               if 0 <=? q then m * 2 ^ q =? z else m =? z * 2 ^ (- q)
           | None => false
           end
  | _ => false
  end.

(** [f > z] for an int [z] *)
Definition float_gt_int (f : pyfloat) (z : Z) : bool :=
  match f with
  | FNan => false
  | FInf neg => negb neg
  | FFin neg d e =>
      if d =? 0 then z <? 0
      else match decimal_double d e with
           | Some (m, q) =>
               let m := if neg then - m else m in
               if 0 <=? q then z <? m * 2 ^ q else z * 2 ^ (- q) <? m
           | None => negb neg
           end
  end.

(** [f == g] for floats: [nan] differs from itself, [0.0 == -0.0]. *)
Definition float_eq (f g : pyfloat) : bool :=
  match f, g with
  | FNan, _ | _, FNan => false
  | _, _ => (float_is_zero f && float_is_zero g) || bool_decide (f = g)
  end.

Example repr_tenth : repr_float (float_of_decimal false 1 (-1)) = "0.1"%string.
Proof. vm_compute. reflexivity. Qed.
Example repr_one : repr_float (float_of_decimal false 10 (-1)) = "1.0"%string.
Proof. vm_compute. reflexivity. Qed.
Example repr_e22 : repr_float (float_of_decimal true 1 22) = "-1e+22"%string.
Proof. vm_compute. reflexivity. Qed.
Example repr_third :
  repr_float (float_of_decimal false 33333333333333333333 (-20))
  = "0.3333333333333333"%string.
Proof. vm_compute. reflexivity. Qed.
Example repr_sum :
  repr_float (float_of_decimal false 30000000000000004 (-17)) = "0.30000000000000004"%string.
Proof. vm_compute. reflexivity. Qed.
Example repr_min : repr_float (float_of_decimal false 49 (-325)) = "5e-324"%string.
Proof. vm_compute. reflexivity. Qed.
Example repr_huge : float_of_decimal false 1 400 = FInf false.
Proof. vm_compute. reflexivity. Qed.
