(* ===== verification/Json.v ===== *)
(** * JSON documents as Python objects

    The values [json.loads] builds and the program passes around: [None],
    [bool], [int], [float], [str], [list] and insertion-ordered [dict].  A
    [str] is held as its UTF-8 bytes (lone surrogates as their three-byte
    form).  Equality of documents is Python's [==]: dicts compare as maps,
    [bool] and [int] and [float] compare by value. *)

From S2P Require Import Prelude PyFloat.
Open Scope py_scope.

Inductive json : Type :=
| JNull
| JBool (b : bool)
| JInt (z : Z)
| JFloat (f : pyfloat)
| JStr (s : string)
| JArr (l : list json)
| JObj (o : list (string * json)).

Section JsonInd.
Context (P : json -> Prop)
  (Hnull : P JNull) (Hbool : forall b, P (JBool b)) (Hint : forall z, P (JInt z))
  (Hfloat : forall f, P (JFloat f)) (Hstr : forall s, P (JStr s))
  (Harr : forall l, Forall P l -> P (JArr l))
  (Hobj : forall o, Forall (fun kv => P kv.2) o -> P (JObj o)).

Fixpoint json_ind' (j : json) : P j :=
  match j with
  | JNull => Hnull
  | JBool b => Hbool b
  | JInt z => Hint z
  | JFloat f => Hfloat f
  | JStr s => Hstr s
  | JArr l =>
      Harr l ((fix go l : Forall P l :=
                 match l with
                 | [] => Forall_nil_2 _
                 | x :: r => Forall_cons_2 _ _ _ (json_ind' x) (go r)
                 end) l)
  | JObj o =>
      Hobj o ((fix go o : Forall (fun kv : string * json => P kv.2) o :=
                 match o with
                 | [] => Forall_nil_2 _
                 | kv :: r => Forall_cons_2 _ _ _ (json_ind' kv.2) (go r)
                 end) o)
  end.
End JsonInd.

(** ** Equality *)

(** Numbers: [True == 1], [1 == 1.0]. *)
Definition num_eq (a b : json) : option bool :=
  let int_of j := match j with
                  | JBool b => Some (if b then 1 else 0)%Z
                  | JInt z => Some z
                  | _ => None
                  end in
  match int_of a, int_of b with
  | Some x, Some y => Some (x =? y)%Z
  | Some x, None => match b with JFloat f => Some (float_eq_int f x) | _ => None end
  | None, Some y => match a with JFloat f => Some (float_eq_int f y) | _ => None end
  | None, None => match a, b with JFloat f, JFloat g => Some (float_eq f g) | _, _ => None end
  end.

(** [a == b] *)
Fixpoint py_eq (a b : json) : bool :=
  match a, b with
  | JNull, JNull => true
  | JStr s, JStr t => String.eqb s t
  | JArr l, JArr r =>
      (fix go l r : bool :=
         match l, r with
         | [], [] => true
         | x :: l, y :: r => py_eq x y && go l r
         | _, _ => false
         end) l r
  | JObj l, JObj r =>
      (length l =? length r)%nat &&
      forallb (fun kv => match od_get kv.1 r with
                         | Some w => py_eq kv.2 w
                         | None => false
                         end) l
  | _, _ => match num_eq a b with Some r => r | None => false end
  end.

Lemma py_eq_str j s : py_eq j (JStr s) = true <-> j = JStr s.
Proof.
  split.
  - destruct j; simpl; try done. intros H%String.eqb_eq. by subst.
  - intros ->. apply String.eqb_refl.
Qed.

(** Structural identity, the dicts in the same order. *)
Fixpoint json_eqb (a b : json) : bool :=
  match a, b with
  | JNull, JNull => true
  | JBool x, JBool y => Bool.eqb x y
  | JInt x, JInt y => (x =? y)%Z
  | JFloat x, JFloat y => bool_decide (x = y)
  | JStr x, JStr y => String.eqb x y
  | JArr l, JArr r =>
      (fix go l r : bool :=
         match l, r with
         | [], [] => true
         | x :: l, y :: r => json_eqb x y && go l r
         | _, _ => false
         end) l r
  | JObj l, JObj r =>
      (fix go l r : bool :=
         match l, r with
         | [], [] => true
         | kx :: l, ky :: r => String.eqb kx.1 ky.1 && json_eqb kx.2 ky.2 && go l r
         | _, _ => false
         end) l r
  | _, _ => false
  end.

Lemma json_eqb_eq a b : json_eqb a b = true <-> a = b.
Proof.
  revert b. induction a as [| | | | |l IH|o IH] using json_ind';
    intros c; destruct c as [| | | | |l'|o']; simpl; try (split; done).
  - rewrite Bool.eqb_true_iff. naive_solver.
  - rewrite Z.eqb_eq. naive_solver.
  - rewrite bool_decide_eq_true. naive_solver.
  - rewrite String.eqb_eq. naive_solver.
  - enough (H : forall l', _ l l' = true <-> l = l') by (rewrite H; naive_solver).
    clear l'. induction IH as [|x l Hx _ IHl]; intros [|y l']; try (split; done).
    rewrite andb_true_iff, Hx, IHl. naive_solver.
  - enough (H : forall o', _ o o' = true <-> o = o') by (rewrite H; naive_solver).
    clear o'. induction IH as [|[k x] o Hx _ IHo]; intros [|[k' y] o']; try (split; done).
    simpl in *. rewrite !andb_true_iff, String.eqb_eq, Hx, IHo. naive_solver.
Qed.

#[export] Instance json_eq_dec : EqDecision json.
Proof.
  intros a b. destruct (json_eqb a b) eqn:E.
  - left. by apply json_eqb_eq.
  - right. intros ->. enough (json_eqb b b = true) by congruence. by apply json_eqb_eq.
Defined.

(** ** Accessors *)

(** [x.get(k)] on a value known to be a dict; [None] is [JNull]. *)
Definition jget (k : string) (o : list (string * json)) : json :=
  match od_get k o with Some v => v | None => JNull end.

Definition is_none (j : json) : bool := match j with JNull => true | _ => false end.
Definition is_str (j : json) : bool := match j with JStr _ => true | _ => false end.
Definition is_obj (j : json) : bool := match j with JObj _ => true | _ => false end.
Definition is_bool (j : json) : bool := match j with JBool _ => true | _ => false end.

(** [isinstance(x, int)]: [bool] is a subclass of [int]. *)
Definition is_int (j : json) : bool :=
  match j with JInt _ | JBool _ => true | _ => false end.

(** Truth value of an object ([if x:]). *)
Definition truthy (j : json) : bool :=
  match j with
  | JNull => false
  | JBool b => b
  | JInt z => negb (z =? 0)%Z
  | JFloat f => negb (float_is_zero f)
  | JStr s => negb (String.eqb s EmptyString)
  | JArr l => match l with [] => false | _ => true end
  | JObj o => match o with [] => false | _ => true end
  end.

(** ** Well-formed documents: each dict has each key once, floats are doubles. *)

Fixpoint nodup_keys (l : list string) : bool :=
  match l with
  | [] => true
  | k :: r => negb (str_in k r) && nodup_keys r
  end.

Lemma nodup_keys_NoDup l : nodup_keys l = true <-> NoDup l.
Proof.
  induction l as [|k l IH]; simpl.
  - split; [constructor|done].
  - rewrite andb_true_iff, IH, NoDup_cons, negb_true_iff.
    rewrite <- not_true_iff_false, str_in_elem. done.
Qed.

Fixpoint json_wf (j : json) : bool :=
  match j with
  | JFloat f => float_finite f && float_wf f
  | JArr l => forallb json_wf l
  | JObj o => nodup_keys (map fst o) && forallb (fun kv => json_wf kv.2) o
  | _ => true
  end.

(** ** Nesting depth, counted the way the ingress check counts it *)

Fixpoint json_depth (j : json) : nat :=
  match j with
  | JArr l => S (list_max (map json_depth l))
  | JObj o => S (list_max (map (fun kv => json_depth kv.2) o))
  | _ => 1%nat
  end.

(** [py_eq] of a well-formed float-free document with itself. *)
Lemma py_eq_refl j :
  json_wf j = true -> py_eq j j = true.
Proof.
  induction j as [| b | z | f | s | l IH | o IH] using json_ind'; simpl; intros Hw.
  - done.
  - destruct b; done.
  - simpl. by rewrite Z.eqb_refl.
  - unfold num_eq. destruct f as [|n|n d e]; simpl in *; try done.
    unfold float_eq. rewrite bool_decide_eq_true_2 by done. apply orb_true_r.
  - apply String.eqb_refl.
  - induction IH as [|x l Hx Hl IHl]; simpl in *; [done|].
    apply andb_true_iff in Hw as [H1 H2]. rewrite Hx by done. by apply IHl.
  - apply andb_true_iff in Hw as [Hn Hw]. rewrite Nat.eqb_refl. simpl.
    apply nodup_keys_NoDup in Hn. apply forallb_forall. intros [k v] Hin. simpl.
    rewrite (od_In_get k v); [|exact Hn|by apply list_elem_of_In].
    rewrite Forall_forall in IH. rewrite forallb_forall in Hw.
    apply (IH (k, v)); [by apply list_elem_of_In|]. by apply (Hw (k, v)).
Qed.

(** A [py_eq]-comparison of [None] succeeds only on [None]. *)
Lemma py_eq_null j : py_eq j JNull = true <-> j = JNull.
Proof. destruct j; simpl; split; try done. Qed.

Example py_eq_dict_order :
  py_eq (JObj [("a", JInt 1); ("b", JBool true)])
        (JObj [("b", JInt 1); ("a", JFloat (FFin false 1 0))]) = true.
Proof. vm_compute. reflexivity. Qed.
