(* ===== verification/JsonText.v ===== *)
(** * JSON text: [json.dumps] and [json.loads]

    Text is the UTF-8 encoding of Python's [str].  [dumps] is
    [json.dumps(x, ensure_ascii=False)] with given separators; [loads] is the
    recursive-descent scanner of the [json] module (strict mode), with fuel the
    length of the text.  The round trip [loads (dumps j) = j] holds for every
    well-formed document. *)

From S2P Require Import Prelude PyFloat Json.
Open Scope string_scope.
Open Scope py_scope.

(** ** Characters *)

Definition chr (n : nat) : ascii := ascii_of_nat n.
Definition dquote : ascii := "034"%char.
Definition backslash : ascii := "092"%char.
Definition newline : ascii := "010"%char.

Definition ch_eq (a b : ascii) : bool := Ascii.eqb a b.

Definition is_ws (c : ascii) : bool :=
  ch_eq c " "%char || ch_eq c "009"%char || ch_eq c "010"%char || ch_eq c "013"%char.

Fixpoint skip_ws (s : string) : string :=
  match s with
  | String c r => if is_ws c then skip_ws r else s
  | EmptyString => EmptyString
  end.

(** ** Printing *)

Definition hex_digit (n : nat) : ascii :=
  if (n <? 10)%nat then ascii_of_nat (48 + n) else ascii_of_nat (87 + n).

(** One byte of a string literal: quote, backslash and controls are escaped. *)
Definition escape_char (c : ascii) : string :=
  if ch_eq c dquote then String backslash (String dquote EmptyString)
  else if ch_eq c backslash then String backslash (String backslash EmptyString)
  else if ch_eq c "010"%char then String backslash "n"
  else if ch_eq c "013"%char then String backslash "r"
  else if ch_eq c "009"%char then String backslash "t"
  else if ch_eq c "008"%char then String backslash "b"
  else if ch_eq c "012"%char then String backslash "f"
  else let n := nat_of_ascii c in
       if (n <? 32)%nat
       then String backslash ("u00" +:+ String (hex_digit (n / 16))
                                (String (hex_digit (n mod 16)) EmptyString))
       else String c EmptyString.

Fixpoint escape (s : string) : string :=
  match s with
  | EmptyString => EmptyString
  | String c r => escape_char c +:+ escape r
  end.

Definition quote (s : string) : string :=
  String dquote (escape s +:+ String dquote EmptyString).

Definition print_float (f : pyfloat) : string :=
  match f with
  | FNan => "NaN"
  | FInf neg => if neg then "-Infinity" else "Infinity"
  | FFin _ _ _ => repr_float f
  end.

(** [sep.join(l)] *)
Fixpoint join (sep : string) (l : list string) : string :=
  match l with
  | [] => EmptyString
  | [x] => x
  | x :: r => x +:+ sep +:+ join sep r
  end.

Section Dumps.
(** [separators=(isep, ksep)] *)
Context (isep ksep : string).

Fixpoint dumps (j : json) : string :=
  match j with
  | JNull => "null"
  | JBool b => if b then "true" else "false"
  | JInt z => str_of_int z
  | JFloat f => print_float f
  | JStr s => quote s
  | JArr l => "[" +:+ join isep (map dumps l) +:+ "]"
  | JObj o =>
      "{" +:+ join isep (map (fun kv => quote kv.1 +:+ ksep +:+ dumps kv.2) o) +:+ "}"
  end.
End Dumps.

(** The default separators, and the compact ones. *)
Definition dumps_default (j : json) : string := dumps ", " ": " j.
Definition dumps_compact (j : json) : string := dumps "," ":" j.

(** [allow_nan=False] raises [ValueError] on these. *)
Fixpoint has_nonfinite (j : json) : bool :=
  match j with
  | JFloat f => negb (float_finite f)
  | JArr l => existsb has_nonfinite l
  | JObj o => existsb (fun kv => has_nonfinite kv.2) o
  | _ => false
  end.

(** ** Scanning *)

Definition hex_val (c : ascii) : option Z :=
  let n := Z.of_nat (nat_of_ascii c) in
  if (48 <=? n)%Z && (n <=? 57)%Z then Some (n - 48)%Z
  else if (97 <=? n)%Z && (n <=? 102)%Z then Some (n - 87)%Z
  else if (65 <=? n)%Z && (n <=? 70)%Z then Some (n - 55)%Z
  else None.

Definition hex4 (a b c d : ascii) : option Z :=
  match hex_val a, hex_val b, hex_val c, hex_val d with
  | Some a, Some b, Some c, Some d => Some (((a * 16 + b) * 16 + c) * 16 + d)%Z
  | _, _, _, _ => None
  end.

(** UTF-8 bytes of a code point. *)
Definition utf8 (n : Z) : string :=
  let byte z := ascii_of_nat (Z.to_nat z) in
  let tail k := byte (128 + (n / k) mod 64)%Z in
  if (n <? 128)%Z then String (byte n) EmptyString
  else if (n <? 2048)%Z then
    String (byte (192 + n / 64)%Z) (String (tail 1%Z) EmptyString)
  else if (n <? 65536)%Z then
    String (byte (224 + n / 4096)%Z) (String (tail 64%Z) (String (tail 1%Z) EmptyString))
  else
    String (byte (240 + n / 262144)%Z)
      (String (tail 4096%Z) (String (tail 64%Z) (String (tail 1%Z) EmptyString))).

Definition simple_escape (c : ascii) : option ascii :=
  if ch_eq c dquote then Some dquote
  else if ch_eq c backslash then Some backslash
  else if ch_eq c "/"%char then Some "/"%char
  else if ch_eq c "b"%char then Some "008"%char
  else if ch_eq c "f"%char then Some "012"%char
  else if ch_eq c "n"%char then Some "010"%char
  else if ch_eq c "r"%char then Some "013"%char
  else if ch_eq c "t"%char then Some "009"%char
  else None.

Definition in_range (lo hi n : Z) : bool := (lo <=? n)%Z && (n <=? hi)%Z.

Definition prepend (p : string) (r : option (string * string)) : option (string * string) :=
  match r with Some (s, t) => Some (p +:+ s, t) | None => None end.

(** The rest of a string literal after its opening quote. *)
Fixpoint scan_string (s : string) : option (string * string) :=
  match s with
  | EmptyString => None
  | String c r =>
      if ch_eq c dquote then Some (EmptyString, r)
      else if ch_eq c backslash then
        match r with
        | EmptyString => None
        | String e r1 =>
            match simple_escape e with
            | Some x => prepend (String x EmptyString) (scan_string r1)
            | None =>
                if ch_eq e "u"%char then
                  match r1 with
                  | String h1 (String h2 (String h3 (String h4 r2))) =>
                      match hex4 h1 h2 h3 h4 with
                      | None => None
                      | Some n =>
                          if in_range 55296 56319 n then
                            match r2 with
                            | String b (String u (String g1 (String g2 (String g3 (String g4 r3))))) =>
                                if ch_eq b backslash && ch_eq u "u"%char then
                                  match hex4 g1 g2 g3 g4 with
                                  | Some m =>
                                      if in_range 56320 57343 m
                                      then prepend (utf8 (65536 + (n - 55296) * 1024 + (m - 56320))%Z)
                                             (scan_string r3)
                                      else prepend (utf8 n) (scan_string r2)
                                  | None => None
                                  end
                                else prepend (utf8 n) (scan_string r2)
                            | _ => prepend (utf8 n) (scan_string r2)
                            end
                          else prepend (utf8 n) (scan_string r2)
                      end
                  | _ => None
                  end
                else None
            end
        end
      else if (nat_of_ascii c <? 32)%nat then None
      else prepend (String c EmptyString) (scan_string r)
  end.

(** The longest block of digits. *)
Fixpoint scan_digits (s : string) : string * string :=
  match s with
  | String c r => if is_digit c then let '(d, t) := scan_digits r in (String c d, t)
                  else (EmptyString, s)
  | EmptyString => (EmptyString, EmptyString)
  end.

(** Integer part: [0] or a block not starting with [0]. *)
Definition scan_int (s : string) : option (string * string) :=
  match s with
  | String c r =>
      if ch_eq c "0"%char then Some ("0", r)
      else if is_digit c then Some (scan_digits s) else None
  | EmptyString => None
  end.

Definition scan_frac (s : string) : option (string * string) :=
  match s with
  | String c r =>
      if ch_eq c "."%char then
        match scan_digits r with
        | (EmptyString, _) => None
        | (d, t) => Some (d, t)
        end
      else None
  | EmptyString => None
  end.

Definition scan_exp (s : string) : option (Z * string) :=
  match s with
  | String c r =>
      if ch_eq c "e"%char || ch_eq c "E"%char then
        let '(neg, r1) :=
          match r with
          | String x r' => if ch_eq x "-"%char then (true, r')
                           else if ch_eq x "+"%char then (false, r') else (false, r)
          | EmptyString => (false, r)
          end in
        match scan_digits r1 with
        | (EmptyString, _) => None
        | (d, t) => Some ((if neg then - digits_val d else digits_val d)%Z, t)
        end
      else None
  | EmptyString => None
  end.

(** The float of a decimal token: exact trailing zeros dropped, then rounded. *)
Definition float_token (neg : bool) (ip fp : string) (e : Z) : pyfloat :=
  let ds := ip +:+ fp in
  let '(d, e) := strip_zeros (String.length ds) (digits_val ds)
                   (e - Z.of_nat (String.length fp))%Z in
  float_of_decimal neg d e.

Definition scan_unsigned (neg : bool) (s : string) : option (json * string) :=
  match scan_int s with
  | None => None
  | Some (ip, r) =>
      match scan_frac r with
      | Some (fp, r1) =>
          match scan_exp r1 with
          | Some (e, r2) => Some (JFloat (float_token neg ip fp e), r2)
          | None => Some (JFloat (float_token neg ip fp 0), r1)
          end
      | None =>
          match scan_exp r with
          | Some (e, r2) => Some (JFloat (float_token neg ip EmptyString e), r2)
          | None => Some (JInt (if neg then - digits_val ip else digits_val ip)%Z, r)
          end
      end
  end.

Definition scan_number (s : string) : option (json * string) :=
  match s with
  | String c r => if ch_eq c "-"%char then scan_unsigned true r else scan_unsigned false s
  | EmptyString => None
  end.

(** [s] without the prefix [p]. *)
Fixpoint strip_prefix (p s : string) : option string :=
  match p, s with
  | EmptyString, _ => Some s
  | String a p, String b s => if ch_eq a b then strip_prefix p s else None
  | _, EmptyString => None
  end.

Section Loads.
(** Whether [NaN], [Infinity] and [-Infinity] are accepted (the default) or
    handed to a [parse_constant] that raises. *)
Context (allow_constants : bool).

Definition scan_atom (s : string) : option (json * string) :=
  match strip_prefix "null" s with Some r => Some (JNull, r) | None =>
  match strip_prefix "true" s with Some r => Some (JBool true, r) | None =>
  match strip_prefix "false" s with Some r => Some (JBool false, r) | None =>
  match scan_number s with Some x => Some x | None =>
  if allow_constants then
    match strip_prefix "NaN" s with Some r => Some (JFloat FNan, r) | None =>
    match strip_prefix "Infinity" s with Some r => Some (JFloat (FInf false), r) | None =>
    match strip_prefix "-Infinity" s with Some r => Some (JFloat (FInf true), r) | None =>
    None end end end
  else None
  end end end end.

Fixpoint scan_value (fuel : nat) (s : string) : option (json * string) :=
  match fuel with
  | O => None
  | S n =>
      match s with
      | EmptyString => None
      | String c r =>
          if ch_eq c dquote then
            match scan_string r with Some (v, t) => Some (JStr v, t) | None => None end
          else if ch_eq c "{"%char then
            match skip_ws r with
            | EmptyString => None
            | String c2 t2 => if ch_eq c2 "}"%char then Some (JObj [], t2)
                              else scan_members n [] (String c2 t2)
            end
          else if ch_eq c "["%char then
            match skip_ws r with
            | EmptyString => None
            | String c2 t2 => if ch_eq c2 "]"%char then Some (JArr [], t2)
                              else scan_items n [] (String c2 t2)
            end
          else scan_atom s
      end
  end
with scan_items (fuel : nat) (acc : list json) (s : string) : option (json * string) :=
  match fuel with
  | O => None
  | S n =>
      match scan_value n s with
      | None => None
      | Some (v, t) =>
          match skip_ws t with
          | EmptyString => None
          | String c t =>
              if ch_eq c "]"%char then Some (JArr (acc ++ [v])%list, t)
              else if ch_eq c ","%char then scan_items n (acc ++ [v])%list (skip_ws t)
              else None
          end
      end
  end
with scan_members (fuel : nat) (acc : list (string * json)) (s : string)
    : option (json * string) :=
  match fuel with
  | O => None
  | S n =>
      match s with
      | EmptyString => None
      | String q r =>
          if ch_eq q dquote then
            match scan_string r with
            | None => None
            | Some (k, t) =>
                match skip_ws t with
                | EmptyString => None
                | String c t =>
                    if ch_eq c ":"%char then
                      match scan_value n (skip_ws t) with
                      | None => None
                      | Some (v, t) =>
                          match skip_ws t with
                          | EmptyString => None
                          | String c t =>
                              if ch_eq c "}"%char then Some (JObj (od_set k v acc), t)
                              else if ch_eq c ","%char
                              then scan_members n (od_set k v acc) (skip_ws t)
                              else None
                          end
                      end
                    else None
                end
            end
          else None
      end
  end.

(** [json.loads(s)]: one value and nothing but white space after it. *)
Definition loads (s : string) : option json :=
  match scan_value (S (String.length s)) (skip_ws s) with
  | Some (v, t) => match skip_ws t with EmptyString => Some v | _ => None end
  | None => None
  end.
End Loads.

(** ** Round trip *)

Lemma scan_escape_char c t :
  scan_string (escape_char c +:+ t) = prepend (String c EmptyString) (scan_string t).
Proof. destruct c as [[] [] [] [] [] [] [] []]; reflexivity. Qed.

Lemma prepend_prepend a b r : prepend a (prepend b r) = prepend (a +:+ b) r.
Proof. destruct r as [[s t]|]; simpl; [by rewrite str_app_assoc|done]. Qed.

Lemma scan_escape s t :
  scan_string (escape s +:+ String dquote t) = Some (s, t).
Proof.
  induction s as [|c s IH]; simpl; [done|].
  rewrite <- str_app_assoc, scan_escape_char, IH. done.
Qed.

(** *** Numbers *)

(** The text after a number does not continue it. *)
Definition num_end (t : string) : bool :=
  match t with
  | String c _ => negb (is_digit c || ch_eq c "."%char || ch_eq c "e"%char || ch_eq c "E"%char)
  | EmptyString => true
  end.

Definition digit_end (t : string) : bool :=
  match t with String c _ => negb (is_digit c) | EmptyString => true end.

Lemma num_end_digit t : num_end t = true -> digit_end t = true.
Proof.
  destruct t as [|c t]; simpl; [done|]. rewrite !negb_true_iff, !orb_false_iff. tauto.
Qed.

Lemma scan_digits_app s t :
  str_all is_digit s = true -> digit_end t = true -> scan_digits (s +:+ t) = (s, t).
Proof.
  intros Hs Ht. induction s as [|c s IH]; simpl in *.
  - destruct t as [|c t]; simpl in *; [done|].
    apply negb_true_iff in Ht. by rewrite Ht.
  - apply andb_true_iff in Hs as [-> Hs]. by rewrite (IH Hs).
Qed.

(** A digit block with no superfluous leading zero. *)
Definition int_block (s : string) : Prop :=
  exists c r, s = String c r /\ str_all is_digit s = true /\
              (c = "0"%char -> r = EmptyString).

Lemma int_block_zero : int_block "0".
Proof. exists "0"%char, EmptyString. done. Qed.

Lemma int_block_nonneg n : (0 <= n)%Z -> int_block (str_of_nonneg n).
Proof.
  intros Hn. destruct (str_of_nonneg_spec n Hn) as (c & r & -> & Hd & _ & Hz).
  exists c, r. split; [done|]. split; [done|]. intros E. by apply Hz.
Qed.

Lemma int_block_first c r r' : int_block (String c r) -> r <> EmptyString ->
  str_all is_digit r' = true -> int_block (String c r').
Proof.
  intros (c' & r2 & [= <- <-] & Hd & Hz) Hr Hr'. exists c, r'. simpl in *.
  apply andb_true_iff in Hd as [-> _]. rewrite Hr'.
  split; [done|]. split; [done|]. intros E. by apply Hz in E.
Qed.

Lemma scan_int_app s t :
  int_block s -> digit_end t = true -> scan_int (s +:+ t) = Some (s, t).
Proof.
  intros (c & r & -> & Hd & Hz) Ht. simpl. unfold ch_eq.
  destruct (Ascii.eqb_spec c "0"%char) as [->|Hne].
  - by rewrite (Hz eq_refl).
  - simpl in Hd. pose proof Hd as Hd'. apply andb_true_iff in Hd as [Hc Hr]. rewrite Hc.
    change (String c (r +:+ t)) with (String c r +:+ t).
    by rewrite scan_digits_app.
Qed.

Lemma scan_frac_app fp t :
  fp <> EmptyString -> str_all is_digit fp = true -> digit_end t = true ->
  scan_frac ("." +:+ fp +:+ t) = Some (fp, t).
Proof.
  intros Hne Hd Ht. change ("." +:+ fp +:+ t) with (String "."%char (fp +:+ t)).
  unfold scan_frac. simpl. rewrite scan_digits_app by done. by destruct fp.
Qed.

Lemma scan_exp_app (neg : bool) xs t :
  xs <> EmptyString -> str_all is_digit xs = true -> digit_end t = true ->
  scan_exp ("e" +:+ (if neg then "-" else "+") +:+ xs +:+ t)
  = Some ((if neg then - digits_val xs else digits_val xs)%Z, t).
Proof.
  intros Hne Hd Ht. destruct neg; simpl; rewrite scan_digits_app by done; by destruct xs.
Qed.

Lemma scan_frac_end t : num_end t = true -> scan_frac t = None.
Proof.
  destruct t as [|c t]; [done|]. simpl. rewrite negb_true_iff, !orb_false_iff.
  intros [[[_ H] _] _]. by rewrite H.
Qed.

Lemma scan_exp_end t : num_end t = true -> scan_exp t = None.
Proof.
  destruct t as [|c t]; [done|]. simpl. rewrite negb_true_iff, !orb_false_iff.
  intros [[_ H1] H2]. by rewrite H1, H2.
Qed.

Lemma scan_unsigned_int neg s t :
  int_block s -> num_end t = true ->
  scan_unsigned neg (s +:+ t) = Some (JInt (if neg then - digits_val s else digits_val s)%Z, t).
Proof.
  intros Hs Ht. unfold scan_unsigned.
  rewrite scan_int_app by auto using num_end_digit.
  by rewrite scan_frac_end, scan_exp_end.
Qed.

Lemma int_block_head s t : int_block s -> exists c r, s +:+ t = String c r /\ is_digit c = true.
Proof.
  intros (c & r & -> & Hd & _). exists c, (r +:+ t). split; [done|].
  simpl in Hd. by apply andb_true_iff in Hd as [Hd _].
Qed.

Lemma is_digit_not_minus c : is_digit c = true -> ch_eq c "-"%char = false.
Proof. destruct c as [[] [] [] [] [] [] [] []]; done. Qed.

Lemma scan_number_unsigned s t :
  int_block s -> scan_number (s +:+ t) = scan_unsigned false (s +:+ t).
Proof.
  intros Hs. destruct (int_block_head s t Hs) as (c & r & -> & Hc).
  unfold scan_number. by rewrite is_digit_not_minus.
Qed.

Lemma scan_number_int z t :
  num_end t = true -> scan_number (str_of_int z +:+ t) = Some (JInt z, t).
Proof.
  intros Ht. unfold str_of_int. destruct (Z.ltb_spec z 0).
  - simpl. rewrite scan_unsigned_int by (auto; apply int_block_nonneg; lia).
    destruct (str_of_nonneg_spec (- z)) as (c & r & -> & _ & -> & _); [lia|].
    by rewrite Z.opp_involutive.
  - rewrite scan_number_unsigned, scan_unsigned_int by (auto; by apply int_block_nonneg).
    by destruct (str_of_nonneg_spec z) as (c & r & -> & _ & -> & _).
Qed.

(** *** Floats *)

Lemma str_take_drop n s : str_take n s +:+ str_drop n s = s.
Proof. revert s. induction n as [|n IH]; intros [|c s]; simpl; try done. by rewrite IH. Qed.

Lemma str_all_take p n s : str_all p s = true -> str_all p (str_take n s) = true.
Proof.
  revert s. induction n as [|n IH]; intros [|c s]; simpl; try done.
  intros [-> H]%andb_true_iff. by apply IH.
Qed.

Lemma str_all_drop p n s : str_all p s = true -> str_all p (str_drop n s) = true.
Proof.
  revert s. induction n as [|n IH]; intros [|c s]; simpl; try done.
  intros [_ H]%andb_true_iff. by apply IH.
Qed.

Lemma str_length_drop n s : String.length (str_drop n s) = (String.length s - n)%nat.
Proof. revert s. induction n as [|n IH]; intros [|c s]; simpl; try done. Qed.

Lemma zeros_spec n : str_all is_digit (zeros n) = true /\ digits_val (zeros n) = 0%Z /\
                     String.length (zeros n) = n.
Proof.
  induction n as [|n (IH1 & IH2 & IH3)]; [done|]. simpl. rewrite IH1, IH3. done.
Qed.

Lemma strip_zeros_pow fuel d k e :
  (d <> 0)%Z -> (d mod 10 <> 0)%Z -> (k <= fuel)%nat ->
  strip_zeros fuel (d * 10 ^ Z.of_nat k) (e - Z.of_nat k) = (d, e).
Proof.
  intros Hd Hm. revert fuel e. induction k as [|k IH]; intros fuel e Hf.
  - simpl. rewrite Z.mul_1_r, Z.sub_0_r. destruct fuel; simpl; [done|].
    destruct (Z.eqb_spec (d mod 10) 0); [done|done].
  - destruct fuel as [|fuel]; [lia|]. simpl strip_zeros.
    rewrite Nat2Z.inj_succ, Z.pow_succ_r by lia.
    replace (d * (10 * 10 ^ Z.of_nat k))%Z with (d * 10 ^ Z.of_nat k * 10)%Z by lia.
    rewrite Z.mod_mul, Z.div_mul by lia. simpl.
    destruct (Z.eqb_spec (d * 10 ^ Z.of_nat k * 10) 0) as [E|_]; simpl.
    + pose proof (Z.pow_pos_nonneg 10 (Z.of_nat k)). nia.
    + replace (e - Z.succ (Z.of_nat k) + 1)%Z with (e - Z.of_nat k)%Z by lia.
      apply IH. lia.
Qed.

(** The token whose digits are those of [d], followed by [k] zeros. *)
Lemma float_token_eq neg ip fp d e k x :
  float_wf (FFin neg d e) = true ->
  digits_val (ip +:+ fp) = (d * 10 ^ Z.of_nat k)%Z ->
  (k <= String.length (ip +:+ fp))%nat ->
  (x - Z.of_nat (String.length fp) = e - Z.of_nat k)%Z ->
  float_token neg ip fp x = FFin neg d e.
Proof.
  simpl. rewrite !andb_true_iff, orb_true_iff, bool_decide_eq_true, negb_true_iff.
  rewrite Z.leb_le, Z.eqb_eq, Z.eqb_neq. intros [[Hw H0] Hd] Hv Hk He.
  unfold float_token. rewrite Hv, He.
  destruct (decide (d = 0)%Z) as [->|Hne].
  - rewrite <- Hw. generalize (e - Z.of_nat k)%Z.
    induction (String.length _) as [|m IH]; intros y; simpl; [done|done].
  - rewrite strip_zeros_pow; [done|done|by destruct Hd|done].
Qed.

Lemma scan_number_signed (neg : bool) s t :
  int_block s ->
  scan_number ((if neg then "-" else EmptyString) +:+ (s +:+ t))
  = scan_unsigned neg (s +:+ t).
Proof. intros Hs. destruct neg; simpl; [done|by apply scan_number_unsigned]. Qed.

Lemma scan_point neg ip fp d e k t :
  float_wf (FFin neg d e) = true -> num_end t = true ->
  int_block ip -> fp <> EmptyString -> str_all is_digit fp = true ->
  digits_val (ip +:+ fp) = (d * 10 ^ Z.of_nat k)%Z ->
  (k <= String.length (ip +:+ fp))%nat ->
  (- Z.of_nat (String.length fp) = e - Z.of_nat k)%Z ->
  scan_unsigned neg (ip +:+ ("." +:+ fp +:+ t)) = Some (JFloat (FFin neg d e), t).
Proof.
  intros Hw Ht Hip Hne Hd Hv Hk He. unfold scan_unsigned.
  rewrite scan_int_app by done.
  rewrite scan_frac_app, scan_exp_end by auto using num_end_digit.
  by rewrite (float_token_eq neg ip fp d e k 0).
Qed.

Lemma exponent_digits x :
  let xs := str_of_int (Z.abs x) in
  let xs' := if (Z.abs x <? 10)%Z then "0" +:+ xs else xs in
  xs' <> EmptyString /\ str_all is_digit xs' = true /\ digits_val xs' = Z.abs x.
Proof.
  unfold str_of_int. destruct (Z.ltb_spec (Z.abs x) 0); [lia|].
  destruct (str_of_nonneg_spec (Z.abs x)) as (c & r & -> & Hd & Hv & _); [lia|].
  simpl. destruct (Z.abs x <? 10)%Z; [|done].
  split; [done|]. split; [exact Hd|]. exact Hv.
Qed.

Lemma sign_exp (x : Z) :
  (if (x <? 0)%Z then - Z.abs x else Z.abs x)%Z = x.
Proof. destruct (Z.ltb_spec x 0); lia. Qed.

(** The exponent form of [repr]. *)
Lemma scan_exponent neg c r d e t :
  let n := Z.of_nat (String.length (String c r)) in
  let x := (n + e - 1)%Z in
  let xs := str_of_int (Z.abs x) in
  float_wf (FFin neg d e) = true -> num_end t = true ->
  int_block (String c r) -> digits_val (String c r) = d ->
  scan_unsigned neg
    (String c EmptyString +:+
     ((if (n =? 1)%Z then EmptyString else "." +:+ r) +:+
      ("e" +:+ (if (x <? 0)%Z then "-" else "+") +:+
       (if (Z.abs x <? 10)%Z then "0" +:+ xs else xs) +:+ t)))
  = Some (JFloat (FFin neg d e), t).
Proof.
  intros n x xs Hw Ht Hb Hv. destruct (exponent_digits x) as (Hx1 & Hx2 & Hx3).
  fold xs in Hx1, Hx2, Hx3. revert Hx1 Hx2 Hx3.
  generalize (if (Z.abs x <? 10)%Z then "0" +:+ xs else xs). intros ys Hx1 Hx2 Hx3.
  pose proof (scan_exp_app (x <? 0)%Z ys t Hx1 Hx2 (num_end_digit t Ht)) as Hexp.
  rewrite Hx3, sign_exp in Hexp. revert Hexp.
  generalize ((if (x <? 0)%Z then "-" else "+") +:+ ys +:+ t). intros w Hexp.
  assert (Hr : str_all is_digit r = true).
  { destruct Hb as (? & ? & [= <- <-] & Hd & _). simpl in Hd.
    by apply andb_true_iff in Hd as [_ Hd]. }
  assert (Hc : int_block (String c EmptyString)).
  { destruct Hb as (? & ? & [= <- <-] & Hd & _). exists c, EmptyString. simpl in *.
    apply andb_true_iff in Hd as [-> _]. done. }
  assert (Htok : float_token neg (String c EmptyString) r x = FFin neg d e).
  { apply (float_token_eq neg _ _ d e 0); [done| |simpl; lia|].
    - simpl in *. rewrite Hv. lia.
    - unfold x, n. simpl String.length. lia. }
  unfold scan_unsigned. destruct (Z.eqb_spec n 1) as [E|E].
  - assert (r = EmptyString) as -> by (unfold n in E; destruct r; simpl in E; [done|lia]).
    change (EmptyString +:+ ?z) with z.
    rewrite scan_int_app by done.
    change (scan_frac ("e" +:+ w)) with (@None (string * string)).
    rewrite Hexp, Htok. done.
  - assert (r <> EmptyString) by (intros ->; by unfold n in E).
    rewrite <- str_app_assoc. rewrite scan_int_app by done.
    rewrite scan_frac_app by done. by rewrite Hexp, Htok.
Qed.

Lemma float_wf_nonneg neg d e : float_wf (FFin neg d e) = true -> (0 <= d)%Z.
Proof. simpl. rewrite !andb_true_iff, Z.leb_le. tauto. Qed.

(** [repr(f)] scans back to [f]. *)
Lemma scan_number_float neg d e t :
  float_wf (FFin neg d e) = true -> num_end t = true ->
  scan_number (repr_float (FFin neg d e) +:+ t) = Some (JFloat (FFin neg d e), t).
Proof.
  intros Hw Ht. pose proof (float_wf_nonneg _ _ _ Hw) as Hd0.
  unfold repr_float. destruct (Z.eqb_spec d 0) as [->|Hne].
  { rewrite <- str_app_assoc. change ("0.0" +:+ t) with ("0" +:+ ("." +:+ "0" +:+ t)).
    rewrite scan_number_signed by exact int_block_zero.
    apply (scan_point neg _ _ 0 e 1); auto using int_block_zero; try (simpl; lia).
    simpl in Hw. rewrite !andb_true_iff, bool_decide_eq_true in Hw.
    destruct Hw as [[[= <-] _] _]. done. }
  assert (Es : str_of_int d = str_of_nonneg d)
    by (unfold str_of_int; destruct (Z.ltb_spec d 0); [lia|done]).
  rewrite Es. clear Es.
  pose proof (int_block_nonneg d Hd0) as Hb.
  destruct (str_of_nonneg_spec d Hd0) as (c & r & E & Hdig & Hv & Hz).
  rewrite E in *. clear E.
  set (ds := String c r) in *. set (n := Z.of_nat (String.length ds)).
  assert (Hn : (1 <= n)%Z) by (unfold n, ds; simpl; lia).
  destruct ((n + e <=? -4)%Z || (16 <? n + e)%Z) eqn:Hx.
  { pose proof (scan_exponent neg c r d e t Hw Ht Hb Hv) as H. cbv zeta in H.
    fold ds n in H. rewrite <- H.
    rewrite <- (scan_number_signed neg (String c EmptyString)).
    2:{ destruct Hb as (? & ? & [= <- <-] & Hd & _). exists c, EmptyString. simpl in *.
        apply andb_true_iff in Hd as [-> _]. done. }
    rewrite <- !str_app_assoc. done. }
  apply orb_false_iff in Hx as [Hx1%Z.leb_gt Hx2%Z.ltb_ge].
  destruct (Z.leb_spec (n + e) 0); [|destruct (Z.leb_spec n (n + e))].
  - rewrite <- !str_app_assoc.
    change ("0." +:+ ?w) with ("0" +:+ ("." +:+ w)).
    rewrite scan_number_signed by exact int_block_zero.
    rewrite (str_app_assoc (zeros _) ds t).
    destruct (zeros_spec (Z.to_nat (- (n + e)))) as (Z1 & Z2 & Z3).
    apply (scan_point neg _ _ d e 0); auto using int_block_zero; try lia.
    + by destruct (zeros _).
    + by rewrite str_all_app, Z1.
    + change (digits_val ("0" +:+ ?w)) with (digits_val w).
      rewrite digits_val_app, Z2, Hv. lia.
    + rewrite str_length_app, Z3, Nat2Z.inj_add. fold n. lia.
  - rewrite <- !str_app_assoc.
    change (".0" +:+ t) with ("." +:+ "0" +:+ t).
    rewrite (str_app_assoc ds).
    destruct (zeros_spec (Z.to_nat (n + e - n))) as (Z1 & Z2 & Z3).
    assert (Hb' : int_block (ds +:+ zeros (Z.to_nat (n + e - n)))).
    { exists c, (r +:+ zeros (Z.to_nat (n + e - n))). split; [done|].
      split; [rewrite str_all_app, Hdig, Z1; done|].
      intros Ec. destruct (Hz Ec) as [-> _]. done. }
    rewrite scan_number_signed by done.
    apply (scan_point neg _ _ d e (S (Z.to_nat (n + e - n)))); try done.
    + rewrite <- str_app_assoc, !digits_val_app, Hv. change (digits_val "0") with 0%Z.
      rewrite Z2, str_length_app, Z3. change (String.length "0") with 1%nat.
      rewrite Nat.add_comm. simpl (1 + _)%nat. lia.
    + rewrite <- str_app_assoc, !str_length_app, Z3. simpl. lia.
    + simpl String.length. lia.
  - rewrite <- !str_app_assoc.
    assert (Hk : (Z.to_nat (n + e) < String.length ds)%nat) by (unfold n in *; lia).
    assert (Hb' : int_block (str_take (Z.to_nat (n + e)) ds)).
    { unfold ds in *. destruct (Z.to_nat (n + e)) as [|k] eqn:Ek; [lia|]. simpl.
      apply (int_block_first c r); [done| |].
      - intros ->. simpl in Hk. lia.
      - apply str_all_take. simpl in Hdig. by apply andb_true_iff in Hdig as [_ ?]. }
    rewrite scan_number_signed by done.
    apply (scan_point neg _ _ d e 0); try done.
    + intros E. pose proof (str_length_drop (Z.to_nat (n + e)) ds) as L.
      rewrite E in L. change (String.length EmptyString) with O in L. lia.
    + by apply str_all_drop.
    + rewrite str_take_drop, Hv. simpl. lia.
    + lia.
    + rewrite str_length_drop. unfold n in *. lia.
Qed.

(** *** Documents *)

Lemma scan_items_S b n acc s :
  scan_items b (S n) acc s =
  match scan_value b n s with
  | None => None
  | Some (v, t) =>
      match skip_ws t with
      | EmptyString => None
      | String c t =>
          if ch_eq c "]"%char then Some (JArr (acc ++ [v])%list, t)
          else if ch_eq c ","%char then scan_items b n (acc ++ [v])%list (skip_ws t)
          else None
      end
  end.
Proof. reflexivity. Qed.

(** A member once its key is scanned. *)
Definition scan_member_value (b : bool) (n : nat) (acc : list (string * json)) (k t : string)
  : option (json * string) :=
  match skip_ws t with
  | EmptyString => None
  | String c t =>
      if ch_eq c ":"%char then
        match scan_value b n (skip_ws t) with
        | None => None
        | Some (v, t) =>
            match skip_ws t with
            | EmptyString => None
            | String c t =>
                if ch_eq c "}"%char then Some (JObj (od_set k v acc), t)
                else if ch_eq c ","%char
                then scan_members b n (od_set k v acc) (skip_ws t)
                else None
            end
        end
      else None
  end.

Lemma scan_members_S b n acc k t :
  scan_members b (S n) acc (quote k +:+ t) = scan_member_value b n acc k t.
Proof.
  change (quote k +:+ t)
    with (String dquote ((escape k +:+ String dquote EmptyString) +:+ t)).
  rewrite <- str_app_assoc. change (String dquote EmptyString +:+ t) with (String dquote t).
  cbn [scan_members]. rewrite scan_escape. reflexivity.
Qed.


(** A number token starts with a digit or a minus sign. *)
Definition num_start (c : ascii) : bool := is_digit c || ch_eq c "-"%char.

Lemma str_of_int_head z :
  exists c r, str_of_int z = String c r /\ num_start c = true.
Proof.
  unfold str_of_int, num_start. destruct (Z.ltb_spec z 0); [eauto|].
  destruct (int_block_nonneg z) as (c & r & -> & Hd & _); [done|].
  exists c, r. simpl in Hd. apply andb_true_iff in Hd as [-> _]. done.
Qed.

Lemma repr_float_head neg d e :
  (0 <= d)%Z -> exists c r, repr_float (FFin neg d e) = String c r /\ num_start c = true.
Proof.
  intros Hd. unfold repr_float. destruct neg.
  { destruct (d =? 0)%Z; simpl; eauto. }
  destruct (d =? 0)%Z; [simpl; eauto|].
  assert (Es : str_of_int d = str_of_nonneg d)
    by (unfold str_of_int; destruct (Z.ltb_spec d 0); [lia|done]).
  rewrite Es. clear Es.
  destruct (str_of_nonneg_spec d Hd) as (c & r & -> & Hdig & _).
  assert (Hc : num_start c = true).
  { unfold num_start. simpl in Hdig. by apply andb_true_iff in Hdig as [-> _]. }
  set (n := Z.of_nat _). simpl (EmptyString +:+ _).
  destruct ((n + e <=? -4)%Z || (16 <? n + e)%Z); [simpl; eauto|].
  destruct (Z.leb_spec (n + e) 0); [simpl; eauto|].
  destruct (n <=? n + e)%Z; [simpl; eauto|].
  destruct (Z.to_nat (n + e)) eqn:E; [lia|]. simpl. eauto.
Qed.

Lemma num_start_facts c r :
  num_start c = true ->
  ch_eq c dquote = false /\ ch_eq c "{"%char = false /\ ch_eq c "["%char = false /\
  is_ws c = false /\ ch_eq c "]"%char = false /\
  strip_prefix "null" (String c r) = None /\ strip_prefix "true" (String c r) = None /\
  strip_prefix "false" (String c r) = None.
Proof. destruct c as [[] [] [] [] [] [] [] []]; try done. Qed.

(** Fuel a document needs. *)
Fixpoint need (j : json) : nat :=
  match j with
  | JArr l => S (foldr (fun x n => S (need x + n)) 0 l)%nat
  | JObj o => S (foldr (fun kv n => S (need kv.2 + n)) 0 o)%nat
  | _ => 1%nat
  end.

Section RoundTrip.
Context (wi wk : string) (constants : bool)
  (Hwi : forall t, skip_ws (wi +:+ t) = skip_ws t)
  (Hwk : forall t, skip_ws (wk +:+ t) = skip_ws t).

Local Abbreviation isep := (String ","%char wi).
Local Abbreviation ksep := (String ":"%char wk).
Local Abbreviation dump := (dumps isep ksep).
Local Abbreviation member := (fun kv : string * json => quote kv.1 +:+ ksep +:+ dump kv.2).

Lemma dumps_head j :
  json_wf j = true ->
  exists c r, dump j = String c r /\ is_ws c = false /\ ch_eq c "]"%char = false.
Proof.
  destruct j as [|[]|z|f|s|l|o]; simpl; intros Hw; try (eauto; fail).
  - destruct (str_of_int_head z) as (c & r & -> & H).
    apply (num_start_facts c r) in H. exists c, r. tauto.
  - destruct f as [|n|n d e]; try done. apply andb_true_iff in Hw as [_ Hw].
    destruct (repr_float_head n d e) as (c & r & E & H).
    { by apply (float_wf_nonneg n d e). }
    apply (num_start_facts c r) in H. exists c, r. tauto.
Qed.

Lemma skip_ws_dump j t : json_wf j = true -> skip_ws (dump j +:+ t) = dump j +:+ t.
Proof.
  intros Hw. destruct (dumps_head j Hw) as (c & r & -> & H & _). simpl. by rewrite H.
Qed.

Lemma join_cons sep x l t :
  join sep (x :: l) +:+ t =
  x +:+ match l with [] => t | _ => sep +:+ join sep l +:+ t end.
Proof. destruct l; simpl; [done|]. by rewrite <- !str_app_assoc. Qed.

Local Arguments join : simpl never.

(** What scanning a value has to achieve. *)
Definition scans (j : json) : Prop :=
  json_wf j = true -> forall fuel t, (need j <= fuel)%nat -> num_end t = true ->
  scan_value constants fuel (dump j +:+ t) = Some (j, t).

Lemma scan_items_ok l : forall fuel acc t,
  l <> [] -> Forall scans l -> forallb json_wf l = true ->
  (foldr (fun x n => S (need x + n)) 0 l <= fuel)%nat ->
  scan_items constants fuel acc (join isep (map dump l) +:+ ("]" +:+ t))
  = Some (JArr (acc ++ l), t).
Proof.
  induction l as [|x l IH]; intros fuel acc t Hne HP Hw Hf; [done|].
  apply Forall_cons in HP as [Hx HP]. simpl in Hw, Hf.
  apply andb_true_iff in Hw as [Hwx Hw].
  destruct fuel as [|fuel]; [lia|]. cbn [map fst snd]. rewrite join_cons, scan_items_S.
  destruct l as [|y l].
  - cbn [map fst snd]. cbv iota. rewrite (Hx Hwx) by (done || lia). simpl. done.
  - cbn [map fst snd]. cbv iota.  rewrite (Hx Hwx) by (done || lia).
    simpl. rewrite Hwi, join_cons.
    assert (Hwy : json_wf y = true) by (simpl in Hw; by apply andb_true_iff in Hw as [? _]).
    rewrite skip_ws_dump by done. rewrite <- join_cons.
    change (dump y :: map dump l) with (map dump (y :: l)).
    change (String "]"%char t) with ("]" +:+ t).
    rewrite IH; [|done|done|done|simpl in *; lia].
    by rewrite <- app_assoc.
Qed.

Lemma skip_members k v l t :
  skip_ws (join isep ((quote k +:+ v) :: l) +:+ t) = join isep ((quote k +:+ v) :: l) +:+ t.
Proof. by rewrite join_cons. Qed.

Lemma scan_members_ok o : forall fuel acc t,
  o <> [] -> Forall (fun kv => scans kv.2) o ->
  NoDup (map fst (acc ++ o)) -> forallb (fun kv => json_wf kv.2) o = true ->
  (foldr (fun kv n => S (need kv.2 + n)) 0 o <= fuel)%nat ->
  scan_members constants fuel acc (join isep (map member o) +:+ ("}" +:+ t))
  = Some (JObj (acc ++ o), t).
Proof.
  induction o as [|[k x] o IH]; intros fuel acc t Hne HP Hn Hw Hf; [done|].
  apply Forall_cons in HP as [Hx HP]. simpl in Hw, Hf, Hx.
  apply andb_true_iff in Hw as [Hwx Hw].
  destruct fuel as [|fuel]; [lia|]. cbn [map fst snd]. rewrite join_cons.
  rewrite <- !str_app_assoc, scan_members_S. unfold scan_member_value.
  change (skip_ws (ksep +:+ ?z)) with (String ":"%char (wk +:+ z)). cbv iota.
  change (ch_eq ":"%char ":"%char) with true. cbv iota. rewrite Hwk.
  assert (Hk : od_get k acc = None).
  { apply od_get_None. unfold od_keys. rewrite map_app in Hn. simpl in Hn.
    apply NoDup_app in Hn as (_ & Hn & _). intros Hin. apply (Hn k Hin). left. }
  rewrite skip_ws_dump by done.
  assert (Hset : od_set k x acc = (acc ++ [(k, x)])%list) by by apply od_set_new.
  destruct o as [|[k' y] o].
  - cbn [map fst snd]. cbv iota. rewrite (Hx Hwx) by (done || lia). simpl. by rewrite Hset.
  - cbn [map fst snd]. cbv iota.  rewrite (Hx Hwx) by (done || lia).
    change (skip_ws (isep +:+ ?z)) with (String ","%char (wi +:+ z)). cbv iota.
    change (ch_eq ","%char "}"%char) with false.
    change (ch_eq ","%char ","%char) with true. cbv iota.
    rewrite Hwi, Hset, skip_members.
    change ((quote k' +:+ ksep +:+ dump y) :: map member o)
      with (map member ((k', y) :: o)).
    rewrite IH; [|done|done| |done|simpl in *; lia].
    + by rewrite <- app_assoc.
    + by rewrite <- app_assoc.
Qed.

Lemma scan_atom_num c r :
  num_start c = true -> scan_number (String c r) <> None ->
  scan_atom constants (String c r) = scan_number (String c r).
Proof.
  intros Hc Hn. destruct (num_start_facts c r Hc) as (_ & _ & _ & _ & _ & H1 & H2 & H3).
  unfold scan_atom. rewrite H1, H2, H3. by destruct (scan_number _).
Qed.

Lemma scan_value_num fuel c r t v :
  num_start c = true -> scan_number (String c r +:+ t) = Some (v, t) ->
  scan_value constants (S fuel) (String c r +:+ t) = Some (v, t).
Proof.
  intros Hc Hs. destruct (num_start_facts c (r +:+ t) Hc) as (H1 & H2 & H3 & _).
  change (String c r +:+ t) with (String c (r +:+ t)) in *.
  cbn [scan_value]. rewrite H1, H2, H3. rewrite scan_atom_num by (done || by rewrite Hs).
  exact Hs.
Qed.

Lemma scan_value_ok j : scans j.
Proof.
  induction j as [|b|z|f|s|l IH|o IH] using json_ind'; intros Hw fuel t Hf Ht;
    (destruct fuel as [|fuel]; [cbn in Hf; lia|]).
  - reflexivity.
  - destruct b; reflexivity.
  - cbn [dumps]. pose proof (scan_number_int z t Ht) as Hs.
    destruct (str_of_int_head z) as (c & r & E & Hc). rewrite E in *.
    by apply scan_value_num.
  - cbn [json_wf] in Hw. destruct f as [|n|n d e]; [done|done|].
    apply andb_true_iff in Hw as [_ Hw].
    cbn [dumps print_float]. pose proof (scan_number_float n d e t Hw Ht) as Hs.
    destruct (repr_float_head n d e) as (c & r & E & Hc); [by apply (float_wf_nonneg n d e)|].
    rewrite E in *. by apply scan_value_num.
  - cbn [dumps]. unfold quote.
    change (String dquote ?x +:+ t) with (String dquote (x +:+ t)).
    rewrite <- str_app_assoc. cbn [scan_value]. change (ch_eq dquote dquote) with true.
    cbv iota. change (String dquote EmptyString +:+ t) with (String dquote t).
    by rewrite scan_escape.
  - cbn [json_wf] in Hw. cbn [need] in Hf. cbn [dumps]. rewrite <- !str_app_assoc.
    destruct l as [|x l]; [reflexivity|].
    pose proof (scan_items_ok (x :: l) fuel [] t) as H. cbn [app] in H.
    rewrite <- H; [|done|exact IH|exact Hw|lia]. clear H.
    assert (Hwx : json_wf x = true) by (by apply andb_true_iff in Hw as [? _]).
    cbn [map]. rewrite join_cons.
    destruct (dumps_head x Hwx) as (c & r & -> & H1 & H2).
    cbn -[scan_items ch_eq]. change (ch_eq "["%char _) with false at 1 2.
    rewrite H1. cbv iota. rewrite H2. done.
  - cbn [json_wf] in Hw. apply andb_true_iff in Hw as [Hn Hw]. cbn [need] in Hf.
    apply nodup_keys_NoDup in Hn. cbn [dumps]. rewrite <- !str_app_assoc.
    destruct o as [|[k x] o]; [reflexivity|].
    pose proof (scan_members_ok ((k, x) :: o) fuel [] t) as H. cbn [app] in H.
    rewrite <- H; [|done|exact IH|exact Hn|exact Hw|lia]. clear H.
    cbn [map]. rewrite join_cons. reflexivity.
Qed.

Lemma need_length j : json_wf j = true -> (need j <= String.length (dump j))%nat.
Proof.
  induction j as [|b|z|f|s|l IH|o IH] using json_ind'; intros Hw;
    try (destruct (dumps_head _ Hw) as (c & r & -> & _); simpl; lia).
  - cbn [json_wf] in Hw. cbn [need dumps]. rewrite !str_length_app.
    change (String.length "[") with 1%nat. change (String.length "]") with 1%nat.
    enough (foldr (fun x n => S (need x + n)) 0 l
            <= S (String.length (join isep (map dump l))))%nat by lia.
    induction IH as [|x l Hx HF IHl]; [simpl; lia|].
    cbn [forallb] in Hw. apply andb_true_iff in Hw as [Hwx Hw].
    specialize (Hx Hwx). specialize (IHl Hw). cbn [foldr map].
    rewrite <- (str_app_nil_r (join isep (dump x :: map dump l))), join_cons.
    destruct l as [|y l]; [cbn [map]; rewrite str_length_app; cbn; lia|].
    cbn [map] in *. rewrite str_app_nil_r, !str_length_app. cbn [String.length]. lia.
  - cbn [json_wf] in Hw. apply andb_true_iff in Hw as [_ Hw]. cbn [need dumps].
    rewrite !str_length_app.
    change (String.length "{") with 1%nat. change (String.length "}") with 1%nat.
    enough (foldr (fun kv n => S (need kv.2 + n)) 0 o
            <= S (String.length (join isep (map member o))))%nat by lia.
    induction IH as [|[k x] o Hx HF IHo]; [simpl; lia|].
    cbn [forallb snd] in Hw, Hx. apply andb_true_iff in Hw as [Hwx Hw].
    specialize (Hx Hwx). specialize (IHo Hw). cbn [foldr map fst snd].
    rewrite <- (str_app_nil_r (join isep (_ :: map member o))), join_cons.
    destruct o as [|y o]; [cbn [map]; rewrite !str_length_app; cbn; lia|].
    cbn [map] in *. rewrite str_app_nil_r, !str_length_app. cbn [String.length]. lia.
Qed.

Lemma loads_dumps_sep j : json_wf j = true -> loads constants (dump j) = Some j.
Proof.
  intros Hw. unfold loads. pose proof (scan_value_ok j Hw) as H.
  rewrite <- (str_app_nil_r (dump j)) at 2. rewrite skip_ws_dump by done.
  rewrite H; [done| |done]. pose proof (need_length j Hw). lia.
Qed.
End RoundTrip.

(** [json.loads(json.dumps(x)) == x], default and compact separators. *)
Lemma loads_dumps_default b j : json_wf j = true -> loads b (dumps_default j) = Some j.
Proof. intros H. by apply (loads_dumps_sep " " " "). Qed.

Lemma loads_dumps_compact b j : json_wf j = true -> loads b (dumps_compact j) = Some j.
Proof. intros H. by apply (loads_dumps_sep EmptyString EmptyString). Qed.

(** Printing is injective on well-formed documents. *)
Lemma dumps_compact_inj j k :
  json_wf j = true -> json_wf k = true -> dumps_compact j = dumps_compact k -> j = k.
Proof.
  intros Hj Hk E. pose proof (loads_dumps_compact true j Hj) as H.
  rewrite E, (loads_dumps_compact true k Hk) in H. by injection H.
Qed.

#[export] Hint Resolve loads_dumps_default loads_dumps_compact : delta.

Example loads_nested :
  loads true (dumps_default
    (JObj [("k", JArr [JInt (-7); JNull; JBool true]);
           (String dquote (String newline EmptyString), JFloat (FFin true 125 (-2)))]))
  = Some (JObj [("k", JArr [JInt (-7); JNull; JBool true]);
           (String dquote (String newline EmptyString), JFloat (FFin true 125 (-2)))]).
Proof. vm_compute. reflexivity. Qed.
