(* ===== verification/Sha256.v ===== *)
(** * SHA-256 ([hashlib.sha256(...).hexdigest()]) on byte strings

    32-bit words are [Z] modulo [2^32]; the compression function follows
    FIPS 180-4.  Bytes are the characters of a [string]. *)

From S2P Require Import Prelude.
Open Scope Z_scope.

Definition w32 (x : Z) : Z := Z.land x 4294967295.
Definition add32 (x y : Z) : Z := w32 (x + y).
Definition rotr (n x : Z) : Z :=
  Z.lor (Z.shiftr x n) (w32 (Z.shiftl x (32 - n))).
Definition not32 (x : Z) : Z := Z.lxor x 4294967295.

Definition sha_k : list Z :=
  [1116352408; 1899447441; 3049323471; 3921009573; 961987163; 1508970993; 2453635748;
   2870763221; 3624381080; 310598401; 607225278; 1426881987; 1925078388; 2162078206;
   2614888103; 3248222580; 3835390401; 4022224774; 264347078; 604807628; 770255983;
   1249150122; 1555081692; 1996064986; 2554220882; 2821834349; 2952996808; 3210313671;
   3336571891; 3584528711; 113926993; 338241895; 666307205; 773529912; 1294757372;
   1396182291; 1695183700; 1986661051; 2177026350; 2456956037; 2730485921; 2820302411;
   3259730800; 3345764771; 3516065817; 3600352804; 4094571909; 275423344; 430227734;
   506948616; 659060556; 883997877; 958139571; 1322822218; 1537002063; 1747873779;
   1955562222; 2024104815; 2227730452; 2361852424; 2428436474; 2756734187; 3204031479;
   3329325298].

Definition sha_h0 : list Z :=
  [1779033703; 3144134277; 1013904242; 2773480762; 1359893119; 2600822924; 528734635;
   1541459225].

Definition bytes_of (s : string) : list Z :=
  map (fun c => Z.of_nat (nat_of_ascii c)) (String.list_ascii_of_string s).

(** [n] as [k] big-endian bytes. *)
Fixpoint be_bytes (k : nat) (n : Z) : list Z :=
  match k with
  | O => []
  | S k => be_bytes k (n / 256) ++ [n mod 256]
  end.

(** Padding to a multiple of 64 bytes. *)
Definition sha_pad (m : list Z) : list Z :=
  let len := Z.of_nat (length m) in
  m ++ [128] ++ repeat 0 (Z.to_nat ((55 - len) mod 64)) ++ be_bytes 8 (len * 8).

Fixpoint words (bs : list Z) : list Z :=
  match bs with
  | a :: b :: c :: d :: r => (((a * 256 + b) * 256 + c) * 256 + d) :: words r
  | _ => []
  end.

(** Message schedule, newest word first. *)
Fixpoint schedule (n : nat) (w : list Z) : list Z :=
  match n with
  | O => w
  | S n =>
      let at_ i := nth i w 0 in
      let s0 := let x := at_ 14%nat in
                Z.lxor (Z.lxor (rotr 7 x) (rotr 18 x)) (Z.shiftr x 3) in
      let s1 := let x := at_ 1%nat in
                Z.lxor (Z.lxor (rotr 17 x) (rotr 19 x)) (Z.shiftr x 10) in
      schedule n (w32 (at_ 15%nat + s0 + at_ 6%nat + s1) :: w)
  end.

Definition sha_round (st : list Z) (kw : Z * Z) : list Z :=
  match st with
  | [a; b; c; d; e; f; g; h] =>
      let s1 := Z.lxor (Z.lxor (rotr 6 e) (rotr 11 e)) (rotr 25 e) in
      let ch := Z.lxor (Z.land e f) (Z.land (not32 e) g) in
      let t1 := w32 (h + s1 + ch + fst kw + snd kw) in
      let s0 := Z.lxor (Z.lxor (rotr 2 a) (rotr 13 a)) (rotr 22 a) in
      let maj := Z.lxor (Z.lxor (Z.land a b) (Z.land a c)) (Z.land b c) in
      let t2 := w32 (s0 + maj) in
      [add32 t1 t2; a; b; c; add32 d t1; e; f; g]
  | _ => st
  end.

Definition sha_block (h : list Z) (block : list Z) : list Z :=
  let w := rev (schedule 48 (rev (words block))) in
  zip_with add32 h (fold_left sha_round (combine sha_k w) h).

Fixpoint sha_blocks (fuel : nat) (h : list Z) (m : list Z) : list Z :=
  match fuel, m with
  | S k, _ :: _ => sha_blocks k (sha_block h (take 64 m)) (drop 64 m)
  | _, _ => h
  end.

(** The 32 digest bytes. *)
Definition sha256_bytes (m : list Z) : list Z :=
  let p := sha_pad m in
  flat_map (be_bytes 4) (sha_blocks (length p) sha_h0 p).

Definition hex_char (n : Z) : ascii :=
  ascii_of_nat (Z.to_nat (if n <? 10 then 48 + n else 87 + n)).

Definition hex_of_bytes (l : list Z) : string :=
  String.string_of_list_ascii (flat_map (fun b => [hex_char (b / 16); hex_char (b mod 16)]) l).

(** [hashlib.sha256(s).hexdigest()] *)
Definition sha256_hex (s : string) : string := hex_of_bytes (sha256_bytes (bytes_of s)).

Example sha256_abc :
  sha256_hex "abc"
  = "ba7816bf8f01cfea414140de5dae2223b00361a396177a9cb410ff61f20015ad"%string.
Proof. vm_compute. reflexivity. Qed.

Example sha256_two_blocks :
  sha256_hex "abcdbcdecdefdefgefghfghighijhijkijkljklmklmnlmnomnopnopq"
  = "248d6a61d20638b8e5c026930c3e6039a33ce45964ff2167f6ecedd419db06c1"%string.
Proof. vm_compute. reflexivity. Qed.

Lemma be_bytes_length k n : length (be_bytes k n) = k.
Proof. revert n. induction k as [|k IH]; intros n; simpl; [done|]. rewrite length_app, IH. simpl. lia. Qed.

Lemma sha_block_length h b : length h = 8%nat -> length (sha_block h b) = 8%nat.
Proof.
  intros Hh. unfold sha_block.
  assert (H : forall l st, length st = 8%nat -> length (fold_left sha_round l st) = 8%nat).
  { intros l. induction l as [|kw l IH]; intros st Hst; simpl; [done|].
    apply IH. do 9 (destruct st as [|? st]; [done|]). done. }
  rewrite length_zip_with, (H _ h Hh). lia.
Qed.

Lemma sha_blocks_length fuel h m : length h = 8%nat -> length (sha_blocks fuel h m) = 8%nat.
Proof.
  revert h m. induction fuel as [|k IH]; intros h m Hh; simpl; [done|].
  destruct m; [done|]. apply IH. by apply sha_block_length.
Qed.

Lemma sha256_bytes_length m : length (sha256_bytes m) = 32%nat.
Proof.
  unfold sha256_bytes. pose proof (sha_blocks_length (length (sha_pad m)) sha_h0 (sha_pad m) eq_refl) as H.
  revert H. generalize (sha_blocks (length (sha_pad m)) sha_h0 (sha_pad m)). intros l H.
  do 9 (destruct l as [|? l]; [done|]). done.
Qed.

Lemma string_length_list l : String.length (String.string_of_list_ascii l) = length l.
Proof. induction l; simpl; congruence. Qed.

(** A digest is 64 characters. *)
Lemma sha256_hex_length s : String.length (sha256_hex s) = 64%nat.
Proof.
  unfold sha256_hex, hex_of_bytes. rewrite string_length_list.
  pose proof (sha256_bytes_length (bytes_of s)) as H. revert H.
  generalize (sha256_bytes (bytes_of s)). intros l H.
  assert (E : forall l : list Z, length (flat_map (fun b => [hex_char (b / 16); hex_char (b mod 16)]) l)
              = (2 * length l)%nat) by (clear; induction l; simpl; lia).
  rewrite E, H. done.
Qed.
