(* ===== verification/Sha512.v ===== *)
(** * SHA-512 ([hashlib.sha512(...).digest()]) on byte strings

    64-bit words are [Z] modulo [2^64]; FIPS 180-4 as in [Sha256]. *)

From S2P Require Import Prelude Sha256.
Open Scope Z_scope.

Definition w64 (x : Z) : Z := Z.land x 18446744073709551615.
Definition add64 (x y : Z) : Z := w64 (x + y).
Definition rotr64 (n x : Z) : Z := Z.lor (Z.shiftr x n) (w64 (Z.shiftl x (64 - n))).
Definition not64 (x : Z) : Z := Z.lxor x 18446744073709551615.

Definition sha512_k : list Z :=
  [4794697086780616226; 8158064640168781261; 13096744586834688815; 16840607885511220156;
   4131703408338449720; 6480981068601479193; 10538285296894168987; 12329834152419229976;
   15566598209576043074; 1334009975649890238; 2608012711638119052; 6128411473006802146;
   8268148722764581231; 9286055187155687089; 11230858885718282805; 13951009754708518548;
   16472876342353939154; 17275323862435702243; 1135362057144423861; 2597628984639134821;
   3308224258029322869; 5365058923640841347; 6679025012923562964; 8573033837759648693;
   10970295158949994411; 12119686244451234320; 12683024718118986047; 13788192230050041572;
   14330467153632333762; 15395433587784984357; 489312712824947311; 1452737877330783856;
   2861767655752347644; 3322285676063803686; 5560940570517711597; 5996557281743188959;
   7280758554555802590; 8532644243296465576; 9350256976987008742; 10552545826968843579;
   11727347734174303076; 12113106623233404929; 14000437183269869457; 14369950271660146224;
   15101387698204529176; 15463397548674623760; 17586052441742319658; 1182934255886127544;
   1847814050463011016; 2177327727835720531; 2830643537854262169; 3796741975233480872;
   4115178125766777443; 5681478168544905931; 6601373596472566643; 7507060721942968483;
   8399075790359081724; 8693463985226723168; 9568029438360202098; 10144078919501101548;
   10430055236837252648; 11840083180663258601; 13761210420658862357; 14299343276471374635;
   14566680578165727644; 15097957966210449927; 16922976911328602910; 17689382322260857208;
   500013540394364858; 748580250866718886; 1242879168328830382; 1977374033974150939;
   2944078676154940804; 3659926193048069267; 4368137639120453308; 4836135668995329356;
   5532061633213252278; 6448918945643986474; 6902733635092675308; 7801388544844847127].

Definition sha512_h0 : list Z :=
  [7640891576956012808; 13503953896175478587; 4354685564936845355; 11912009170470909681;
   5840696475078001361; 11170449401992604703; 2270897969802886507; 6620516959819538809].

(** Padding to a multiple of 128 bytes *)
Definition sha512_pad (m : list Z) : list Z :=
  let len := Z.of_nat (length m) in
  m ++ [128] ++ repeat 0 (Z.to_nat ((111 - len) mod 128)) ++ be_bytes 16 (len * 8).

Fixpoint words64 (n : nat) (bs : list Z) : list Z :=
  match n with
  | O => []
  | S k => fold_left (fun a b => a * 256 + b) (take 8 bs) 0 :: words64 k (drop 8 bs)
  end.

(** Message schedule, newest word first *)
Fixpoint schedule512 (n : nat) (w : list Z) : list Z :=
  match n with
  | O => w
  | S n =>
      let at_ i := nth i w 0 in
      let s0 := let x := at_ 14%nat in Z.lxor (Z.lxor (rotr64 1 x) (rotr64 8 x)) (Z.shiftr x 7) in
      let s1 := let x := at_ 1%nat in Z.lxor (Z.lxor (rotr64 19 x) (rotr64 61 x)) (Z.shiftr x 6) in
      schedule512 n (w64 (at_ 15%nat + s0 + at_ 6%nat + s1) :: w)
  end.

Definition sha512_round (st : list Z) (kw : Z * Z) : list Z :=
  match st with
  | [a; b; c; d; e; f; g; h] =>
      let s1 := Z.lxor (Z.lxor (rotr64 14 e) (rotr64 18 e)) (rotr64 41 e) in
      let ch := Z.lxor (Z.land e f) (Z.land (not64 e) g) in
      let t1 := w64 (h + s1 + ch + fst kw + snd kw) in
      let s0 := Z.lxor (Z.lxor (rotr64 28 a) (rotr64 34 a)) (rotr64 39 a) in
      let maj := Z.lxor (Z.lxor (Z.land a b) (Z.land a c)) (Z.land b c) in
      [add64 t1 (w64 (s0 + maj)); a; b; c; add64 d t1; e; f; g]
  | _ => st
  end.

Definition sha512_block (h : list Z) (block : list Z) : list Z :=
  let w := rev (schedule512 64 (rev (words64 16 block))) in
  zip_with add64 h (fold_left sha512_round (combine sha512_k w) h).

Fixpoint sha512_blocks (fuel : nat) (h : list Z) (m : list Z) : list Z :=
  match fuel, m with
  | S k, _ :: _ => sha512_blocks k (sha512_block h (take 128 m)) (drop 128 m)
  | _, _ => h
  end.

(** The 64 digest bytes *)
Definition sha512_bytes (m : list Z) : list Z :=
  let p := sha512_pad m in
  flat_map (be_bytes 8) (sha512_blocks (length p) sha512_h0 p).

Example sha512_abc :
  hex_of_bytes (sha512_bytes (bytes_of "abc"))
  = "ddaf35a193617abacc417349ae20413112e6fa4e89a97ea20a9eeee64b55d39a2192992a274fc1a836ba3c23a3feebbd454d4423643ce80e2a9ac94fa54ca49f"%string.
Proof. vm_compute. reflexivity. Qed.
