(* ===== verification/PyArith.v ===== *)
(** * Arithmetic on Python floats and [struct.pack]

    Sums, products, quotients and square roots of binary64 values, correctly
    rounded from the exact value; comparisons; the true division of integers;
    the bytes of a float in both widths. *)

From S2P Require Import Prelude PyFloat Sha256.
Open Scope string_scope.
Open Scope Z_scope.

(** The float [± m * 2^q] of a nearest double *)
Definition float_of_double (neg : bool) (r : option (Z * Z)) : pyfloat :=
  match r with
  | None => FInf neg
  | Some (0, _) => FFin neg 0 0
  | Some (m, q) =>
      let '(c, t) := shortest_from 17 1 m q in
      let '(c, t) := strip_zeros 20 c t in FFin neg c t
  end.

(** [± n / d] rounded, for [0 <= n] and [0 < d] *)
Definition float_of_ratio (neg : bool) (n d : Z) : pyfloat :=
  if n =? 0 then FFin neg 0 0 else float_of_double neg (nearest_double n d).

(** A finite float as [m * 2^q], [m] signed *)
Definition exact (neg : bool) (d e : Z) : Z * Z :=
  if d =? 0 then (0, 0)
  else match decimal_double d e with
       | Some (m, q) => (if neg then - m else m, q)
       | None => (0, 0)
       end.

(** [a / b] for two integers: [None] is the [OverflowError] *)
Definition int_true_div (a b : Z) : option pyfloat :=
  let neg := xorb (a <? 0) (b <? 0) in
  match float_of_ratio neg (Z.abs a) (Z.abs b) with
  | FInf _ => None
  | f => Some f
  end.

(** [float(n)] *)
Definition float_of_int (n : Z) : option pyfloat := int_true_div n 1.

Definition float_add (a b : pyfloat) : pyfloat :=
  match a, b with
  | FNan, _ | _, FNan => FNan
  | FInf s, FInf t => if Bool.eqb s t then FInf s else FNan
  | FInf s, _ | _, FInf s => FInf s
  | FFin s d e, FFin t d' e' =>
      let '(m, q) := exact s d e in
      let '(m', q') := exact t d' e' in
      let low := Z.min q q' in
      let sum := m * 2 ^ (q - low) + m' * 2 ^ (q' - low) in
      if sum =? 0 then FFin (s && t && (d =? 0) && (d' =? 0)) 0 0
      else if 0 <=? low then float_of_ratio (sum <? 0) (Z.abs sum * 2 ^ low) 1
      else float_of_ratio (sum <? 0) (Z.abs sum) (2 ^ (- low))
  end.

(** [a / b] for a positive finite [b] *)
Definition float_div (a b : pyfloat) : pyfloat :=
  match a, b with
  | FNan, _ | _, FNan => FNan
  | FInf s, FFin t _ _ => FInf (xorb s t)
  | FFin s _ _, FInf t => FFin (xorb s t) 0 0
  | FInf _, FInf _ => FNan
  | FFin s d e, FFin t d' e' =>
      let '(m, q) := exact s d e in
      let '(m', q') := exact t d' e' in
      if m' =? 0 then FNan
      else if 0 <=? q - q' then float_of_ratio (xorb s t) (Z.abs m * 2 ^ (q - q')) (Z.abs m')
      else float_of_ratio (xorb s t) (Z.abs m) (Z.abs m' * 2 ^ (q' - q))
  end.

Definition float_mul (a b : pyfloat) : pyfloat :=
  match a, b with
  | FNan, _ | _, FNan => FNan
  | FInf s, FInf t => FInf (xorb s t)
  | FInf s, FFin t d _ | FFin t d _, FInf s => if d =? 0 then FNan else FInf (xorb s t)
  | FFin s d e, FFin t d' e' =>
      let '(m, q) := exact s d e in
      let '(m', q') := exact t d' e' in
      let n := Z.abs (m * m') in
      if 0 <=? q + q' then float_of_ratio (xorb s t) (n * 2 ^ (q + q')) 1
      else float_of_ratio (xorb s t) n (2 ^ (- (q + q')))
  end.

(** [math.sqrt(f)], [None] for the [ValueError] of a negative: an integer root
    of at least 60 bits, with a sticky bit, is rounded once. *)
Definition float_sqrt (f : pyfloat) : option pyfloat :=
  match f with
  | FNan => Some FNan
  | FInf neg => if neg then None else Some f
  | FFin neg d e =>
      if d =? 0 then Some f else if neg then None else
      let '(m, q) := exact false d e in
      let k := 70 + q mod 2 in
      let n := m * 2 ^ (2 * k + q mod 2) in
      let r := Z.sqrt n in
      let sticky := 2 * r + (if r * r =? n then 0 else 1) in
      let p := q / 2 - k - 1 in
      Some (if 0 <=? p then float_of_ratio false (sticky * 2 ^ p) 1 else float_of_ratio false sticky (2 ^ (- p)))
  end.

(** [a < b]; a comparison with [nan] is false. *)
Definition float_lt (a b : pyfloat) : bool :=
  match a, b with
  | FNan, _ | _, FNan => false
  | FInf s, FInf t => s && negb t
  | FInf s, _ => s
  | _, FInf t => negb t
  | FFin s d e, FFin t d' e' =>
      let '(m, q) := exact s d e in
      let '(m', q') := exact t d' e' in
      let low := Z.min q q' in
      m * 2 ^ (q - low) <? m' * 2 ^ (q' - low)
  end.

(** [max(a, b)] *)
Definition float_max (a b : pyfloat) : pyfloat := if float_lt a b then b else a.

(** The 64 bits of a float: sign, biased exponent, fraction *)
Definition float_bits (f : pyfloat) : Z :=
  match f with
  | FNan => Z.shiftl 2047 52 + Z.shiftl 1 51
  | FInf neg => (if neg then Z.shiftl 1 63 else 0) + Z.shiftl 2047 52
  | FFin neg d e =>
      let '(m, q) := exact false d e in
      let magnitude := if m <? 2 ^ 52 then m else Z.shiftl (q + 1075) 52 + (m - 2 ^ 52) in
      (if neg then Z.shiftl 1 63 else 0) + magnitude
  end.

(** [struct.pack(">d", f).hex()] *)
Definition pack_double_hex (f : pyfloat) : string := hex_of_bytes (be_bytes 8 (float_bits f)).

(** [struct.pack(">f", f).hex()]: rounded to binary32, an [OverflowError] ([None])
    beyond it *)
Definition pack_single_hex (f : pyfloat) : option string :=
  let out s b := Some (hex_of_bytes (be_bytes 4 ((if s : bool then Z.shiftl 1 31 else 0) + b))) in
  match f with
  | FNan => out false (Z.shiftl 255 23 + Z.shiftl 1 22)
  | FInf neg => out neg (Z.shiftl 255 23)
  | FFin neg d e =>
      let '(m, q) := exact false d e in
      if m =? 0 then out neg 0
      else
        let p := Z.max (-149) (Z.log2 m + q - 23) in
        let r := if 0 <=? q - p then m * 2 ^ (q - p) else round_half_even m (2 ^ (p - q)) in
        let '(r, p) := if r =? 2 ^ 24 then (2 ^ 23, p + 1) else (r, p) in
        if 104 <? p then None
        else if r <? 2 ^ 23 then out neg r
        else out neg (Z.shiftl (p + 150) 23 + (r - 2 ^ 23))
  end.

Example pack_examples :
  map pack_double_hex [FFin false 1 0; FFin true 0 0; FFin false 1 (-1); FInf true]
  = ["3ff0000000000000"; "8000000000000000"; "3fb999999999999a"; "fff0000000000000"].
Proof. vm_compute. reflexivity. Qed.

Example add_examples :
  let f := float_of_decimal in
  (float_add (f false 1 (-1)) (f false 2 (-1)), float_add (f false 1 0) (f true 1 0),
   float_add (f false 1 308) (f false 17 307), float_add (FFin true 0 0) (FFin true 0 0))
  = (f false 30000000000000004 (-17), FFin false 0 0, FInf false, FFin true 0 0).
Proof. vm_compute. reflexivity. Qed.

Example div_examples :
  let f := float_of_decimal in
  (float_div (f false 1 0) (f false 3 0), float_div (f true 7 (-1)) (f false 4 0), int_true_div 300000 1000000000,
   int_true_div (10 ^ 400) 1, int_true_div (10 ^ 400) (10 ^ 399))
  = (f false 3333333333333333 (-16), f true 175 (-3), Some (f false 3 (-4)), None, Some (f false 1 1)).
Proof. vm_compute. reflexivity. Qed.

Example mul_sqrt_examples :
  let f := float_of_decimal in
  (float_mul (f false 1 (-1)) (f true 3 0), float_sqrt (f false 2 0), float_sqrt (f false 16 10), float_lt (f true 1 0) (f false 1 (-300)), float_max (f false 2 0) FNan)
  = (f true 30000000000000004 (-17), Some (f false 14142135623730951 (-16)),
     Some (f false 4 5), true, f false 2 0).
Proof. vm_compute. reflexivity. Qed.

Example pack_single_examples :
  map pack_single_hex [FFin false 1 0; float_of_decimal true 1 (-1); float_of_decimal false 34028234663852886 22;
                       float_of_decimal false 1 39; float_of_decimal false 1 (-45); FFin true 0 0]
  = [Some "3f800000"; Some "bdcccccd"; Some "7f7fffff"; None; Some "00000001"; Some "80000000"].
Proof. vm_compute. reflexivity. Qed.
