(* ===== verification/Errors.v ===== *)
(** * Exceptions and the state monad of the handlers

    [controller_error] has one constructor per class of
    [deltacontroller/errors.py]; [err_code], [err_category] and
    [err_retryable] are the constants its constructor passes to
    [ControllerError].  [exn] adds the built-in exceptions the code raises or
    catches.  A message is kept without the values interpolated into it, and
    the [details] dictionaries are not modelled.

    [M S A] is a method of an object with state [S]: it returns or raises and
    keeps every assignment made before the exception. *)

From S2P Require Import Prelude.
Open Scope string_scope.
Open Scope py_scope.

Inductive controller_error : Type :=
| SchemaVersionUnsupportedError
| SchemaValidationError
| JcsCanonicalizationError
| IntentDigestMismatchError
| AdmissionDigestMismatchError
| IntentExpiredError
| AdmissionExpiredError
| AuthenticationRequiredError
| AuthenticationFailedError
| UnauthorizedCallerError
| PolicyDeniedError
| RoleForbiddenError
| CatalogRefMismatchError
| UnknownPluginIdError
| UnknownDatasetIdError
| OperationScopeUnsupportedError
| IntentIdDigestConflictError
| IntentCollisionDetectedError
| QuotaExceededError
| WorkerDispatchFailedError
| AdmissionSignatureInvalidError
| AuthorizedExecutionParityMismatchError
| ReceiptLineageMismatchError
| ExecutionTimeoutError
| CancelledError
| StageCForbiddenError.

Definition err_code (e : controller_error) : string :=
  match e with
  | SchemaVersionUnsupportedError => "ERR_SCHEMA_VERSION_UNSUPPORTED"
  | SchemaValidationError => "ERR_SCHEMA_VALIDATION_FAILED"
  | JcsCanonicalizationError => "ERR_JCS_CANONICALIZATION_FAILED"
  | IntentDigestMismatchError => "ERR_INTENT_DIGEST_MISMATCH"
  | AdmissionDigestMismatchError => "ERR_ADMISSION_DIGEST_MISMATCH"
  | IntentExpiredError => "ERR_INTENT_EXPIRED"
  | AdmissionExpiredError => "ERR_ADMISSION_EXPIRED"
  | AuthenticationRequiredError => "ERR_AUTHENTICATION_REQUIRED"
  | AuthenticationFailedError => "ERR_AUTHENTICATION_FAILED"
  | UnauthorizedCallerError => "ERR_UNAUTHORIZED_CALLER"
  | PolicyDeniedError => "ERR_POLICY_DENIED"
  | RoleForbiddenError => "ERR_ROLE_FORBIDDEN"
  | CatalogRefMismatchError => "ERR_CATALOG_REF_MISMATCH"
  | UnknownPluginIdError => "ERR_UNKNOWN_PLUGIN_ID"
  | UnknownDatasetIdError => "ERR_UNKNOWN_DATASET_ID"
  | OperationScopeUnsupportedError => "ERR_OPERATION_SCOPE_UNSUPPORTED"
  | IntentIdDigestConflictError => "ERR_INTENT_ID_DIGEST_CONFLICT"
  | IntentCollisionDetectedError => "ERR_INTENT_COLLISION_DETECTED"
  | QuotaExceededError => "ERR_QUOTA_EXCEEDED"
  | WorkerDispatchFailedError => "ERR_WORKER_DISPATCH_FAILED"
  | AdmissionSignatureInvalidError => "ERR_ADMISSION_SIGNATURE_INVALID"
  | AuthorizedExecutionParityMismatchError => "ERR_AUTHORIZED_EXECUTION_PARITY_MISMATCH"
  | ReceiptLineageMismatchError => "ERR_RECEIPT_LINEAGE_MISMATCH"
  | ExecutionTimeoutError => "ERR_TIMEOUT"
  | CancelledError => "ERR_CANCELLED"
  | StageCForbiddenError => "ERR_STAGE_C_FORBIDDEN"
  end.

Definition err_category (e : controller_error) : string :=
  match e with
  | SchemaVersionUnsupportedError | SchemaValidationError => "SCHEMA"
  | JcsCanonicalizationError => "CANONICALIZATION"
  | IntentDigestMismatchError | AdmissionDigestMismatchError => "DIGEST"
  | IntentExpiredError | AdmissionExpiredError | UnauthorizedCallerError => "AUTHZ"
  | AuthenticationRequiredError | AuthenticationFailedError => "AUTHN"
  | PolicyDeniedError | RoleForbiddenError => "POLICY"
  | CatalogRefMismatchError | UnknownPluginIdError | UnknownDatasetIdError
  | OperationScopeUnsupportedError => "CATALOG"
  | IntentIdDigestConflictError | IntentCollisionDetectedError => "IDEMPOTENCY"
  | QuotaExceededError => "RESOURCE"
  | WorkerDispatchFailedError => "DISPATCH"
  | AdmissionSignatureInvalidError | ExecutionTimeoutError | CancelledError => "WORKER"
  | AuthorizedExecutionParityMismatchError | ReceiptLineageMismatchError => "LINEAGE"
  | StageCForbiddenError => "CONSENSUS_BOUNDARY"
  end.

Definition err_retryable (e : controller_error) : bool :=
  match e with
  | AuthenticationRequiredError | QuotaExceededError | WorkerDispatchFailedError
  | ExecutionTimeoutError | CancelledError => true
  | _ => false
  end.

#[export] Instance controller_error_eq_dec : EqDecision controller_error.
Proof. solve_decision. Defined.

(** Exceptions.  [ValueErr] stands for [ValueError] and its subclasses
    ([UnicodeError], [json.JSONDecodeError]); [OSErr] for [OSError] and its
    subclasses; [TimeoutErr] for the built-in [TimeoutError]. *)
Inductive exn : Type :=
| ControllerErr (e : controller_error) (message : string)
| ValueErr (message : string)
| TypeErr (message : string)
| KeyErr (message : string)
| RuntimeErr (message : string)
| AttributeErr (message : string)
| AssertionErr
| TimeoutErr (message : string)
| OSErr (message : string).

#[export] Instance exn_eq_dec : EqDecision exn.
Proof. solve_decision. Defined.

(** The class [except (KeyError, TypeError, ValueError)] catches. *)
Definition is_value_err (e : exn) : bool :=
  match e with ValueErr _ => true | _ => false end.
Definition is_key_type_value_err (e : exn) : bool :=
  match e with ValueErr _ | TypeErr _ | KeyErr _ => true | _ => false end.

(** [try: m  except C: raise e] for a class of exceptions *)
Definition wrap_if {A} (caught : exn -> bool) (m : result exn A) (e : exn) : result exn A :=
  match m with
  | Ok a => Ok a
  | Raise x => if caught x then Raise e else Raise x
  end.

Lemma wrap_if_Ok {A} c (m : result exn A) e a : wrap_if c m e = Ok a <-> m = Ok a.
Proof. destruct m as [|x]; simpl; [done|]. destruct (c x); done. Qed.
#[export] Hint Rewrite @wrap_if_Ok : py_ok.

(** [any(f(x) for x in l)] *)
Fixpoint rany {E A} (f : A -> result E bool) (l : list A) : result E bool :=
  match l with
  | [] => Ok false
  | x :: r => let? b := f x in if b then Ok true else rany f r
  end.

Lemma rany_false {E A} (f : A -> result E bool) l :
  rany f l = Ok false <-> Forall (fun x => f x = Ok false) l.
Proof.
  induction l as [|x l IH]; simpl.
  - split; [constructor|done].
  - rewrite Forall_cons, <- IH. destruct (f x) as [[]|]; simpl; naive_solver.
Qed.

(** ** Methods: state passing with exceptions *)

Definition M (S A : Type) : Type := S -> S * result exn A.

Section Monad.
Context {S : Type}.

Definition mret {A} (a : A) : M S A := fun s => (s, Ok a).
Definition mraise {A} (e : exn) : M S A := fun s => (s, Raise e).
Definition mbind {A B} (m : M S A) (f : A -> M S B) : M S B :=
  fun s => match m s with
           | (s', Ok a) => f a s'
           | (s', Raise e) => (s', Raise e)
           end.
Definition mget : M S S := fun s => (s, Ok s).
Definition mput (s : S) : M S unit := fun _ => (s, Ok tt).
Definition mmodify (f : S -> S) : M S unit := fun s => (f s, Ok tt).
(** A pure computation that may raise *)
Definition mlift {A} (r : result exn A) : M S A := fun s => (s, r).
Definition mrequire (b : bool) (e : exn) : M S unit := mlift (require b e).
(** [try: m  except BaseException: h; raise] *)
Definition mon_error {A} (m : M S A) (h : exn -> M S unit) : M S A :=
  fun s => match m s with
           | (s', Ok a) => (s', Ok a)
           | (s', Raise e) => match h e s' with
                              | (s2, Ok _) => (s2, Raise e)
                              | (s2, Raise e2) => (s2, Raise e2)
                              end
           end.
(** [try: m  except Exception as e: h e] *)
Definition mcatch {A} (m : M S A) (h : exn -> M S A) : M S A :=
  fun s => match m s with
           | (s', Ok a) => (s', Ok a)
           | (s', Raise e) => h e s'
           end.
End Monad.

Notation "'do!' x := m 'in' k" := (mbind m (fun x => k))
  (at level 10, x name, m at level 100, k at level 200) : py_scope.
Notation "m ';!' k" := (mbind m (fun _ => k))
  (at level 199, right associativity) : py_scope.

Lemma mbind_Ok {S A B} (m : M S A) (f : A -> M S B) s s' b :
  mbind m f s = (s', Ok b) <-> exists s1 a, m s = (s1, Ok a) /\ f a s1 = (s', Ok b).
Proof. unfold mbind. destruct (m s) as [s1 [a|e]]; naive_solver. Qed.

Lemma mlift_Ok {S A} (r : result exn A) (s s' : S) a :
  mlift r s = (s', Ok a) <-> s' = s /\ r = Ok a.
Proof. unfold mlift. naive_solver. Qed.

(** The error taxonomy is one to one: a code names one class. *)
Lemma err_code_inj e1 e2 : err_code e1 = err_code e2 -> e1 = e2.
Proof. destruct e1, e2; simpl; congruence. Qed.
