(* ===== verification/Text.v ===== *)
(** * Text: code points, UTF-16 keys, stripping, lines and hex

    A Python [str] is held as the UTF-8 bytes of its code points, a lone
    surrogate as its three-byte form.  [decode] recovers the code points,
    [utf16] the code units [str.encode("utf-16-be")] writes. *)

From S2P Require Import Prelude PyFloat Json JsonText.
Open Scope string_scope.
Open Scope Z_scope.
Open Scope py_scope.

Definition byte_val (c : ascii) : Z := Z.of_nat (nat_of_ascii c).
Definition byte_char (n : Z) : ascii := ascii_of_nat (Z.to_nat n).

(** ** Decoding UTF-8 *)

(** Code point and length a leading byte and its continuation bytes spell. *)
Definition decode_head (s : string) : option (Z * nat) :=
  let cont c := byte_val c - 128 in
  match s with
  | EmptyString => None
  | String a r =>
      let n := byte_val a in
      if n <? 128 then Some (n, 1%nat)
      else if n <? 224 then
        match r with
        | String b _ => Some ((n - 192) * 64 + cont b, 2%nat)
        | _ => None
        end
      else if n <? 240 then
        match r with
        | String b (String c _) => Some (((n - 224) * 64 + cont b) * 64 + cont c, 3%nat)
        | _ => None
        end
      else
        match r with
        | String b (String c (String d _)) =>
            Some ((((n - 240) * 64 + cont b) * 64 + cont c) * 64 + cont d, 4%nat)
        | _ => None
        end
  end.

(** Code points; [None] on bytes that are not the shortest UTF-8 form. *)
Fixpoint decode_fuel (fuel : nat) (s : string) : option (list Z) :=
  match fuel, s with
  | _, EmptyString => Some []
  | O, _ => None
  | S k, _ =>
      match decode_head s with
      | Some (n, w) =>
          if String.eqb (str_take w s) (utf8 n) && (0 <=? n) && (n <? 1114112) then
            match decode_fuel k (str_drop w s) with
            | Some l => Some (n :: l)
            | None => None
            end
          else None
      | None => None
      end
  end.

Definition decode (s : string) : option (list Z) := decode_fuel (String.length s) s.

Definition encode (l : list Z) : string := fold_right (fun n s => utf8 n +:+ s) EmptyString l.

Lemma decode_fuel_encode k s l : decode_fuel k s = Some l -> encode l = s.
Proof.
  revert s l. induction k as [|k IH]; intros s l.
  - destruct s; simpl; [|done]. by intros [= <-].
  - destruct s as [|a r]; [simpl; by intros [= <-]|].
    set (s := String a r). change (decode_fuel (S k) s) with
      (match decode_head s with
      | Some (n, w) =>
          if String.eqb (str_take w s) (utf8 n) && (0 <=? n) && (n <? 1114112) then
            match decode_fuel k (str_drop w s) with
            | Some l => Some (n :: l)
            | None => None
            end
          else None
      | None => None
      end).
    destruct (decode_head s) as [[n w]|]; [|done].
    destruct (String.eqb_spec (str_take w s) (utf8 n)) as [E|]; [|done].
    destruct ((0 <=? n) && (n <? 1114112)) eqn:R;
      [|rewrite <- andb_assoc, R; done].
    rewrite <- andb_assoc, R. change (true && true)%bool with true. cbv iota.
    destruct (decode_fuel k (str_drop w s)) as [l'|] eqn:D; [|done].
    intros [= <-]. cbn [encode fold_right]. fold (encode l').
    rewrite (IH _ _ D), <- E. apply str_take_drop.
Qed.

Lemma decode_inj s t l : decode s = Some l -> decode t = Some l -> s = t.
Proof. intros Hs%decode_fuel_encode Ht%decode_fuel_encode. congruence. Qed.

(** [s.encode(...)] succeeds: valid code points and no lone surrogate. *)
Definition is_surrogate (n : Z) : bool := in_range 55296 57343 n.
Definition encodable (s : string) : bool :=
  match decode s with
  | Some l => forallb (fun n => negb (is_surrogate n)) l
  | None => false
  end.

(** ** UTF-16 code units *)

Definition utf16_units (n : Z) : list Z :=
  if n <? 65536 then [n] else [55296 + (n - 65536) / 1024; 56320 + (n - 65536) mod 1024].

Definition utf16 (s : string) : option (list Z) :=
  match decode s with
  | Some l => if forallb (fun n => negb (is_surrogate n)) l
              then Some (flat_map utf16_units l) else None
  | None => None
  end.

Lemma utf16_units_inj l1 l2 :
  forallb (fun n => negb (is_surrogate n)) l1 = true ->
  forallb (fun n => negb (is_surrogate n)) l2 = true ->
  Forall (fun n => 0 <= n < 1114112) l1 -> Forall (fun n => 0 <= n < 1114112) l2 ->
  flat_map utf16_units l1 = flat_map utf16_units l2 -> l1 = l2.
Proof.
  revert l2. induction l1 as [|n l1 IH]; intros [|m l2]; cbn [flat_map forallb].
  - done.
  - unfold utf16_units. by case_match.
  - unfold utf16_units. by case_match.
  - unfold is_surrogate, in_range.
    intros [Hn H1]%andb_true_iff [Hm H2]%andb_true_iff [Bn B1]%Forall_cons [Bm B2]%Forall_cons.
    apply negb_true_iff, andb_false_iff in Hn, Hm. rewrite !Z.leb_gt in Hn, Hm.
    pose proof (Z.div_mod (n - 65536) 1024 ltac:(lia)) as En.
    pose proof (Z.div_mod (m - 65536) 1024 ltac:(lia)) as Em.
    pose proof (Z.mod_pos_bound (n - 65536) 1024 ltac:(lia)).
    pose proof (Z.mod_pos_bound (m - 65536) 1024 ltac:(lia)).
    unfold utf16_units at 1 3.
    destruct (Z.ltb_spec n 65536), (Z.ltb_spec m 65536); cbn [app]; intros E.
    + injection E as -> E. f_equal. by apply IH.
    + injection E as E1 E. exfalso. lia.
    + injection E as E1 E. exfalso. lia.
    + injection E as E1 E2 E. assert (n = m) as -> by lia. f_equal. by apply IH.
Qed.

Lemma decode_fuel_range k s l : decode_fuel k s = Some l -> Forall (fun n => 0 <= n < 1114112) l.
Proof.
  revert s l. induction k as [|k IH]; intros s l.
  - destruct s; cbn; [|done]. intros [= <-]. constructor.
  - destruct s as [|a r]; [cbn; intros [= <-]; constructor|].
    cbn [decode_fuel]. destruct (decode_head (String a r)) as [[n w]|]; [|done].
    destruct (String.eqb _ _); [|done]. cbn [andb].
    destruct (Z.leb_spec 0 n); [|done]. destruct (Z.ltb_spec n 1114112); [|done]. cbn [andb].
    destruct (decode_fuel k _) eqn:D; [|done]. intros [= <-]. constructor; [lia|]. by eapply IH.
Qed.

(** The sort key determines the string. *)
Lemma utf16_inj s t u : utf16 s = Some u -> utf16 t = Some u -> s = t.
Proof.
  unfold utf16. destruct (decode s) as [l1|] eqn:D1; [|done].
  destruct (decode t) as [l2|] eqn:D2; [|done].
  destruct (forallb _ l1) eqn:F1; [|done]. destruct (forallb _ l2) eqn:F2; [|done].
  intros [= <-] [= E]. apply (decode_inj s t l1); [done|].
  rewrite D2. f_equal. eapply utf16_units_inj; eauto using decode_fuel_range.
Qed.

Lemma utf16_encodable s : is_Some (utf16 s) <-> encodable s = true.
Proof.
  unfold utf16, encodable. destruct (decode s) as [l|]; [|split; [by intros []|done]].
  destruct (forallb _ l); split; try done; by intros [].
Qed.

(** Lexicographic order of code-unit lists (of their big-endian bytes) *)
Fixpoint units_le (a b : list Z) : bool :=
  match a, b with
  | [], _ => true
  | _ :: _, [] => false
  | x :: a, y :: b => (x <? y) || ((x =? y) && units_le a b)
  end.

Lemma units_le_total a b : units_le a b = true \/ units_le b a = true.
Proof.
  revert b. induction a as [|x a IH]; intros [|y b]; cbn; auto.
  destruct (IH b); destruct (Z.ltb_spec x y), (Z.ltb_spec y x); cbn; auto;
    assert (x = y) as -> by lia; rewrite Z.eqb_refl; cbn; auto.
Qed.

Lemma units_le_antisym a b : units_le a b = true -> units_le b a = true -> a = b.
Proof.
  revert b. induction a as [|x a IH]; intros [|y b]; cbn; try done.
  destruct (Z.ltb_spec x y), (Z.ltb_spec y x); cbn; try lia;
    destruct (Z.eqb_spec x y), (Z.eqb_spec y x); cbn; try done; try lia.
  subst. intros. f_equal. auto.
Qed.

Lemma units_le_trans a b c : units_le a b = true -> units_le b c = true -> units_le a c = true.
Proof.
  revert b c. induction a as [|x a IH]; intros [|y b] [|z c]; cbn; try done.
  rewrite !orb_true_iff, !andb_true_iff, !Z.ltb_lt, !Z.eqb_eq.
  intros [?|[-> ?]] [?|[-> ?]]; eauto; left; lia.
Qed.

(** ** [str.strip()], lines *)

Definition whitespace_points : list Z :=
  [9; 10; 11; 12; 13; 28; 29; 30; 31; 32; 133; 160; 5760; 8192; 8193; 8194; 8195; 8196;
   8197; 8198; 8199; 8200; 8201; 8202; 8232; 8233; 8239; 8287; 12288].

Definition whitespace_seqs : list string := Eval vm_compute in map utf8 whitespace_points.

Fixpoint strip_one (seqs : list string) (s : string) : option string :=
  match seqs with
  | [] => None
  | w :: r => match strip_prefix w s with Some t => Some t | None => strip_one r s end
  end.

Fixpoint strip_left (fuel : nat) (seqs : list string) (s : string) : string :=
  match fuel with
  | O => s
  | S k => match strip_one seqs s with Some t => strip_left k seqs t | None => s end
  end.

Fixpoint str_rev_acc (s acc : string) : string :=
  match s with
  | EmptyString => acc
  | String c r => str_rev_acc r (String c acc)
  end.
Definition str_rev (s : string) : string := str_rev_acc s EmptyString.

Definition lstrip (s : string) : string := strip_left (String.length s) whitespace_seqs s.
Definition rstrip (s : string) : string :=
  str_rev (strip_left (String.length s) (map str_rev whitespace_seqs) (str_rev s)).
(** [s.strip()] *)
Definition strip (s : string) : string := rstrip (lstrip s).

(** The lines of a text file, universal newlines, without their ends. *)
Fixpoint split_lines (s : string) : list string :=
  match s with
  | EmptyString => []
  | String c r =>
      if ch_eq c "010"%char then EmptyString :: split_lines r
      else if ch_eq c "013"%char then
        EmptyString :: match r with
                       | String c2 r2 => if ch_eq c2 "010"%char then split_lines r2
                                         else split_lines r
                       | EmptyString => []
                       end
      else match split_lines r with
           | [] => [String c EmptyString]
           | l :: ls => String c l :: ls
           end
  end.

(** ** Hex *)

Fixpoint to_hex (s : string) : string :=
  match s with
  | EmptyString => EmptyString
  | String c r =>
      let n := nat_of_ascii c in
      String (hex_digit (n / 16)) (String (hex_digit (n mod 16)) (to_hex r))
  end.

(** [bytes.fromhex]: ASCII whitespace is skipped between bytes. *)
Definition hex_space (c : ascii) : bool :=
  let n := byte_val c in in_range 9 13 n || (n =? 32).
Fixpoint from_hex (s : string) : option string :=
  match s with
  | EmptyString => Some EmptyString
  | String a r =>
      if hex_space a then from_hex r
      else match r with
           | String b r2 =>
               match hex_val a, hex_val b with
               | Some x, Some y =>
                   match from_hex r2 with
                   | Some t => Some (String (byte_char (x * 16 + y)) t)
                   | None => None
                   end
               | _, _ => None
               end
           | EmptyString => None
           end
  end.

Lemma from_hex_to_hex s : from_hex (to_hex s) = Some s.
Proof.
  induction s as [|c s IH]; [done|]. cbn [to_hex from_hex].
  assert (E : forall k, (k < 16)%nat -> hex_space (hex_digit k) = false /\
                       hex_val (hex_digit k) = Some (Z.of_nat k)).
  { intros k Hk. do 16 (destruct k as [|k]; [vm_compute; auto|]). lia. }
  assert (B : (nat_of_ascii c < 256)%nat) by apply nat_ascii_bounded.
  pose proof (Nat.div_mod_eq (nat_of_ascii c) 16) as D.
  pose proof (Nat.mod_upper_bound (nat_of_ascii c) 16 ltac:(lia)).
  assert (nat_of_ascii c / 16 < 16)%nat by (apply Nat.Div0.div_lt_upper_bound; lia).
  destruct (E (nat_of_ascii c / 16)%nat) as [-> ->]; [done|].
  destruct (E (nat_of_ascii c mod 16)%nat) as [_ ->]; [done|].
  rewrite IH. do 2 f_equal. unfold byte_char.
  replace (Z.to_nat _) with (nat_of_ascii c) by lia. apply ascii_nat_embedding.
Qed.

(** [re.fullmatch(r"[0-9a-f]{n}", s)] *)
Definition is_lower_hex (c : ascii) : bool :=
  let n := byte_val c in in_range 48 57 n || in_range 97 102 n.
Definition lower_hex (n : nat) (s : string) : bool :=
  (String.length s =? n)%nat && str_all is_lower_hex s.

(** [s.startswith(p)] *)
Definition starts_with (p s : string) : bool :=
  match strip_prefix p s with Some _ => true | None => false end.

(** ** A printed document is one line with nothing to strip *)

Definition not_eol (c : ascii) : bool := negb (ch_eq c "010"%char || ch_eq c "013"%char).
Definition no_eol (s : string) : bool := str_all not_eol s.

Lemma split_lines_app a b :
  no_eol a = true -> split_lines (a +:+ String "010"%char b) = a :: split_lines b.
Proof.
  unfold no_eol. induction a as [|c a IH]; [done|]. cbn [str_all]. unfold not_eol at 1.
  intros [Hc Ha]%andb_true_iff. apply negb_true_iff, orb_false_iff in Hc as [H1 H2].
  change (String c a +:+ String "010"%char b) with (String c (a +:+ String "010"%char b)).
  cbn [split_lines]. by rewrite H1, H2, IH.
Qed.

Lemma no_eol_app a b : no_eol (a +:+ b) = no_eol a && no_eol b.
Proof. apply str_all_app. Qed.

Lemma digits_no_eol s : str_all is_digit s = true -> no_eol s = true.
Proof.
  unfold no_eol. induction s as [|c s IH]; [done|]. cbn [str_all].
  intros [Hc Hs]%andb_true_iff. rewrite IH by done.
  destruct c as [[] [] [] [] [] [] [] []]; try done; vm_compute in Hc; done.
Qed.

Lemma str_of_nonneg_no_eol n : 0 <= n -> no_eol (str_of_nonneg n) = true.
Proof. intros (c & s & -> & H & _)%str_of_nonneg_spec. by apply digits_no_eol. Qed.

Lemma str_of_int_no_eol z : no_eol (str_of_int z) = true.
Proof.
  unfold str_of_int. destruct (Z.ltb_spec z 0); [|apply str_of_nonneg_no_eol; lia].
  apply (str_of_nonneg_no_eol (- z)). lia.
Qed.

Lemma str_of_int_digits d : 0 <= d -> str_all is_digit (str_of_int d) = true.
Proof.
  intros Hd. unfold str_of_int. destruct (Z.ltb_spec d 0); [lia|].
  by destruct (str_of_nonneg_spec d Hd) as (c & s & -> & Hdig & _).
Qed.

Lemma repr_float_no_eol neg d e : 0 <= d -> no_eol (repr_float (FFin neg d e)) = true.
Proof.
  intros Hd. unfold repr_float.
  pose proof (str_of_int_digits d Hd) as D. pose proof (str_of_int_no_eol (Z.abs (Z.of_nat (String.length (str_of_int d)) + e - 1))) as X.
  assert (T : forall n, no_eol (str_take n (str_of_int d)) = true)
    by (intros; by apply digits_no_eol, str_all_take).
  assert (R : forall n, no_eol (str_drop n (str_of_int d)) = true)
    by (intros; by apply digits_no_eol, str_all_drop).
  assert (Zs : forall n, no_eol (zeros n) = true)
    by (intros n; apply digits_no_eol; apply zeros_spec).
  apply digits_no_eol in D.
  repeat match goal with |- context [if ?b then _ else _] => destruct b end;
    by rewrite ?no_eol_app, ?T, ?R, ?Zs, ?D, ?X.
Qed.

Lemma escape_no_eol s : no_eol (escape s) = true.
Proof.
  induction s as [|c s IH]; [done|]. cbn [escape]. rewrite no_eol_app, IH.
  by destruct c as [[] [] [] [] [] [] [] []].
Qed.

Lemma quote_no_eol s : no_eol (quote s) = true.
Proof.
  unfold quote. change (no_eol (escape s +:+ String dquote EmptyString) = true).
  by rewrite no_eol_app, escape_no_eol.
Qed.

Lemma join_no_eol sep l :
  no_eol sep = true -> Forall (fun s => no_eol s = true) l -> no_eol (join sep l) = true.
Proof.
  intros Hs. induction 1 as [|x l Hx Hl IH]; [done|]. destruct l as [|y l]; [exact Hx|].
  change (join sep (x :: y :: l)) with (x +:+ sep +:+ join sep (y :: l)).
  by rewrite !no_eol_app, Hx, Hs, IH.
Qed.

(** [json.dumps] writes no line break. *)
Lemma dumps_no_eol isep ksep j :
  no_eol isep = true -> no_eol ksep = true -> json_wf j = true ->
  no_eol (dumps isep ksep j) = true.
Proof.
  intros Hi Hk. induction j as [| b | z | f | s | l IH | o IH] using json_ind'; intros Hw.
  - done.
  - by destruct b.
  - apply str_of_int_no_eol.
  - destruct f as [|n|n d e]; try done. cbn in Hw.
    apply repr_float_no_eol. by apply (float_wf_nonneg n d e).
  - apply quote_no_eol.
  - cbn [dumps]. rewrite !no_eol_app, join_no_eol; [done|done|].
    cbn in Hw. rewrite forallb_forall in Hw. rewrite Forall_forall in IH.
    apply Forall_forall. intros s (x & -> & Hx)%list_elem_of_fmap. apply IH; [done|]. apply Hw. by apply list_elem_of_In.
  - cbn [dumps]. rewrite !no_eol_app, join_no_eol; [done|done|].
    cbn in Hw. apply andb_true_iff in Hw as [_ Hw]. rewrite forallb_forall in Hw.
    rewrite Forall_forall in IH. apply Forall_forall. intros s ([k v] & -> & Hx)%list_elem_of_fmap.
    cbn [fst snd]. rewrite !no_eol_app, quote_no_eol, Hk. apply (IH (k, v)); [done|].
    apply (Hw (k, v)). by apply list_elem_of_In.
Qed.

(** A text between braces has nothing to strip. *)
Lemma str_rev_acc_app s acc : str_rev_acc s acc = str_rev_acc s EmptyString +:+ acc.
Proof.
  revert acc. induction s as [|c s IH]; intros acc; [done|]. cbn [str_rev_acc].
  rewrite (IH (String c acc)), (IH (String c EmptyString)), <- str_app_assoc. done.
Qed.

Lemma str_rev_app a b : str_rev (a +:+ b) = str_rev b +:+ str_rev a.
Proof.
  unfold str_rev. induction a as [|c a IH]; [by rewrite str_app_nil_r|].
  change (String c a +:+ b) with (String c (a +:+ b)). cbn [str_rev_acc].
  rewrite (str_rev_acc_app (a +:+ b)), (str_rev_acc_app a (String c EmptyString)), IH.
  by rewrite str_app_assoc.
Qed.

Lemma str_rev_involutive s : str_rev (str_rev s) = s.
Proof.
  induction s as [|c s IH]; [done|].
  change (String c s) with (String c EmptyString +:+ s) at 1. rewrite str_rev_app, str_rev_app, IH. done.
Qed.

Lemma strip_braces s : strip ("{" +:+ s +:+ "}") = "{" +:+ s +:+ "}".
Proof.
  assert (L : lstrip ("{" +:+ s +:+ "}") = "{" +:+ s +:+ "}") by reflexivity.
  unfold strip. rewrite L. unfold rstrip. rewrite str_app_assoc, str_rev_app.
  change (str_rev "}") with "}".
  assert (N : forall n t, strip_left n (map str_rev whitespace_seqs) ("}" +:+ t) = "}" +:+ t)
    by (intros [|n] t; reflexivity).
  rewrite N. change ("}" +:+ ?x) with (str_rev "}" +:+ x) at 1.
  rewrite <- str_rev_app, str_rev_involutive. done.
Qed.

(** Decoding and encodability of concatenations *)
Lemma decode_head_app s t n w :
  decode_head s = Some (n, w) -> decode_head (s +:+ t) = Some (n, w) /\ (1 <= w <= String.length s)%nat.
Proof.
  destruct s as [|a [|b [|c [|d r]]]]; cbn; intros E; repeat case_match; simplify_eq; cbn; split; try done; lia.
Qed.

Lemma str_take_app n s t : (n <= String.length s)%nat -> str_take n (s +:+ t) = str_take n s.
Proof.
  revert s. induction n as [|n IH]; intros [|c s]; cbn; try done; try lia.
  intros. rewrite IH by lia. done.
Qed.

Lemma str_drop_app n s t : (n <= String.length s)%nat -> str_drop n (s +:+ t) = str_drop n s +:+ t.
Proof.
  revert s. induction n as [|n IH]; intros [|c s]; cbn; try done; try lia.
  intros. by rewrite IH by lia.
Qed.

Lemma decode_fuel_more k k' s l :
  decode_fuel k s = Some l -> (k <= k')%nat -> decode_fuel k' s = Some l.
Proof.
  revert k' s l. induction k as [|k IH]; intros k' s l.
  - destruct s; cbn; [|done]. intros [= <-] _. by destruct k'.
  - destruct k' as [|k']; [lia|]. destruct s as [|a r]; [done|].
    cbn [decode_fuel]. destruct (decode_head (String a r)) as [[n w]|]; [|done].
    case_match; [|done]. destruct (decode_fuel k _) eqn:D; [|done].
    intros [= <-] Hk. by rewrite (IH k' _ _ D) by lia.
Qed.

Lemma decode_fuel_app k k' s t l m :
  decode_fuel k s = Some l -> decode_fuel k' t = Some m ->
  decode_fuel (k + k') (s +:+ t) = Some (l ++ m)%list.
Proof.
  revert s l. induction k as [|k IH]; intros s l.
  - destruct s; cbn; [|done]. by intros [= <-].
  - destruct s as [|a r].
    + cbn. intros [= <-] Ht. apply (decode_fuel_more k' (S (k + k'))); [done|lia].
    + intros Hs Ht. set (s := String a r) in *.
      assert (Es : decode_fuel (S k + k') (s +:+ t) =
        match decode_head (s +:+ t) with
        | Some (n, w) =>
            if String.eqb (str_take w (s +:+ t)) (utf8 n) && (0 <=? n) && (n <? 1114112) then
              match decode_fuel (k + k') (str_drop w (s +:+ t)) with
              | Some l => Some (n :: l) | None => None end
            else None
        | None => None
        end) by reflexivity.
      rewrite Es. clear Es. cbn [decode_fuel] in Hs.
      change (match s with EmptyString => Some [] | _ => ?x end) with x in Hs.
      destruct (decode_head s) as [[n w]|] eqn:Hh; [|done].
      destruct (decode_head_app s t n w Hh) as [-> Hw].
      rewrite str_take_app, str_drop_app by lia.
      destruct (_ && _); [|done]. destruct (decode_fuel k (str_drop w s)) eqn:D; [|done].
      injection Hs as <-. by rewrite (IH _ _ D Ht).
Qed.

Lemma encodable_app s t : encodable s = true -> encodable t = true -> encodable (s +:+ t) = true.
Proof.
  unfold encodable, decode. rewrite str_length_app.
  destruct (decode_fuel _ s) as [l|] eqn:Ds; [|done].
  destruct (decode_fuel _ t) as [m|] eqn:Dt; [|done].
  rewrite (decode_fuel_app _ _ _ _ _ _ Ds Dt), forallb_app. by intros -> ->.
Qed.

(** Appending a terminated line to a text made of terminated lines *)
Definition terminated (text : string) : Prop :=
  forall t, split_lines (text +:+ t) = (split_lines text ++ split_lines t)%list.

Lemma terminated_empty : terminated EmptyString.
Proof. by intros t. Qed.

Lemma terminated_line text line :
  terminated text -> no_eol line = true ->
  terminated (text +:+ line +:+ String newline EmptyString) /\
  split_lines (text +:+ line +:+ String newline EmptyString) = (split_lines text ++ [line])%list.
Proof.
  intros Ht Hl.
  assert (E : forall t, split_lines (line +:+ String newline EmptyString +:+ t) = line :: split_lines t)
    by (intros t; by apply split_lines_app).
  assert (E0 : split_lines (text +:+ line +:+ String newline EmptyString) = (split_lines text ++ [line])%list).
  { rewrite Ht. f_equal. rewrite <- (str_app_nil_r (String newline EmptyString)). apply E. }
  split; [|done]. intros t. rewrite E0. rewrite <- !str_app_assoc, Ht, E. by rewrite <- app_assoc.
Qed.
