(* ===== verification/Canonical.v ===== *)
(** * Canonical JSON, digests and signatures
    ([deltacontroller/canonical.py])

    [canonicalize_jcs] sorts the keys of every dict by their UTF-16 code units
    and prints without spaces; digests are SHA-256 of those bytes.  Ed25519 is
    third-party code: the class [Ed25519] holds its operations and the one law
    the code relies on. *)

From S2P Require Import Prelude PyFloat Json JsonText Text Sha256 Errors.
Open Scope string_scope.
Open Scope py_scope.

(** ** Sorting the members of a dict *)

(** [item.encode("utf-16-be")] of each key *)
Definition key_units (k : string) : result exn (list Z) :=
  match utf16 k with
  | Some u => Ok u
  | None => Raise (ValueErr "surrogates not allowed")
  end.

Definition keyed_item (V : Type) : Type := list Z * (string * V).

Fixpoint insert_item {V} (x : keyed_item V) (l : list (keyed_item V)) : list (keyed_item V) :=
  match l with
  | [] => [x]
  | y :: r => if units_le x.1 y.1 then x :: l else y :: insert_item x r
  end.

Definition sort_items {V} (l : list (keyed_item V)) : list (keyed_item V) := fold_right insert_item [] l.

Definition sorted_items (o : list (string * json)) : result exn (list (string * json)) :=
  let? keyed := rmap (fun kv => let? u := key_units kv.1 in Ok (u, kv)) o in
  Ok (map snd (sort_items keyed)).

Fixpoint _order_keys (obj : json) : result exn json :=
  match obj with
  | JObj o =>
      let? items :=
        (fix go o : result exn (list (string * json)) :=
           match o with
           | [] => Ok []
           | (k, v) :: r => let? v' := _order_keys v in let? r' := go r in Ok ((k, v') :: r')
           end) o in
      let? sorted := sorted_items items in
      Ok (JObj sorted)
  | JArr l =>
      let? l' := (fix go l : result exn (list json) :=
                    match l with
                    | [] => Ok []
                    | x :: r => let? x' := _order_keys x in let? r' := go r in Ok (x' :: r')
                    end) l in
      Ok (JArr l')
  | _ => Ok obj
  end.

(** ** Canonical bytes *)

Definition canonicalize_raw (value : json) : result exn string :=
  let? ordered := _order_keys value in
  require (negb (has_nonfinite ordered)) (ValueErr "Out of range float values are not JSON compliant") ;?
  let raw := dumps_compact ordered in
  require (encodable raw) (ValueErr "surrogates not allowed") ;?
  Ok raw.

Definition canonicalize_jcs (value : json) : result exn string :=
  wrap (canonicalize_raw value)
    (ControllerErr JcsCanonicalizationError "Failed to canonicalize document per RFC 8785").

Definition sha256_digest (canonical_bytes : string) : string :=
  "sha256:" +:+ sha256_hex canonical_bytes.

(** ** Digests of documents *)

Definition compute_intent_digest (intent_doc : odict json) : result exn string :=
  let? bytes := canonicalize_jcs (JObj (od_pop "intent_digest" intent_doc)) in
  Ok (sha256_digest bytes).

Definition verify_intent_digest (intent_doc : odict json) : result exn bool :=
  let declared := jget "intent_digest" intent_doc in
  if negb (truthy declared) then Ok false
  else let? expected := compute_intent_digest intent_doc in
       Ok (py_eq declared (JStr expected)).

Definition compute_admission_digest (admission_doc : odict json) : result exn string :=
  let? bytes := canonicalize_jcs
    (JObj (od_pop "authenticator" (od_pop "admission_digest" admission_doc))) in
  Ok (sha256_digest bytes).

Definition admission_signing_doc (admission_doc : odict json) : odict json :=
  match od_get "authenticator" admission_doc with
  | Some (JObj auth) =>
      od_set "authenticator" (JObj (od_pop "signature" auth)) admission_doc
  | _ => admission_doc
  end.

Definition get_admission_signing_payload (admission_doc : odict json) : result exn string :=
  canonicalize_jcs (JObj (admission_signing_doc admission_doc)).

(** ** Ed25519 *)

Class Ed25519 := {
  private_key : Type;
  public_key : Type;
  public_key_of : private_key -> public_key;
  public_bytes_raw : public_key -> string;
  ed_sign : private_key -> string -> string;
  (** [public_key.verify(signature, message)] returned without raising *)
  ed_verify : public_key -> string -> string -> bool;
  ed_verify_sign : forall sk m, ed_verify (public_key_of sk) (ed_sign sk m) m = true;
}.

Section Signatures.
Context {ED : Ed25519}.

Definition sign_admission (admission_doc : odict json) (sk : private_key)
  : result exn string :=
  let? payload := get_admission_signing_payload admission_doc in
  Ok (to_hex (ed_sign sk payload)).

Definition verify_admission_signature (admission_doc : odict json) (pk : public_key)
  : result exn bool :=
  match od_get "authenticator" admission_doc with
  | Some (JObj auth) =>
      match od_get "signature" auth with
      | Some (JStr sig_hex) =>
          match from_hex sig_hex with
          | None => Ok false
          | Some sig_bytes =>
              let? payload := get_admission_signing_payload admission_doc in
              Ok (ed_verify pk sig_bytes payload)
          end
      | _ => Ok false
      end
  | _ => Ok false
  end.

Definition get_public_key_hex (sk : private_key) : string :=
  to_hex (public_bytes_raw (public_key_of sk)).
End Signatures.

(** ** Documents equal up to the order of keys *)

(** [a == b] without Python's numeric coercions ([1], [1.0] and [True] differ). *)
Fixpoint doc_eq (a b : json) : bool :=
  match a, b with
  | JArr l, JArr r =>
      (fix go l r : bool :=
         match l, r with
         | [], [] => true
         | x :: l, y :: r => doc_eq x y && go l r
         | _, _ => false
         end) l r
  | JObj l, JObj r =>
      (length l =? length r)%nat &&
      forallb (fun kv => match od_get kv.1 r with
                         | Some w => doc_eq kv.2 w
                         | None => false
                         end) l
  | _, _ => json_eqb a b
  end.

(** *** Sorting *)

Lemma insert_item_comm {V} (x y : keyed_item V) l :
  x.1 <> y.1 -> insert_item x (insert_item y l) = insert_item y (insert_item x l).
Proof.
  intros Hne. assert (N : units_le x.1 y.1 = true -> units_le y.1 x.1 = true -> False).
  { intros. by apply Hne, units_le_antisym. }
  pose proof (units_le_total x.1 y.1) as T.
  pose proof (units_le_trans x.1 y.1) as T1. pose proof (units_le_trans y.1 x.1) as T2.
  induction l as [|z l IH]; cbn.
  - destruct (units_le x.1 y.1), (units_le y.1 x.1); naive_solver.
  - specialize (T1 z.1). specialize (T2 z.1).
    destruct (units_le y.1 z.1) eqn:Yz, (units_le x.1 z.1) eqn:Xz; cbn; rewrite ?Yz, ?Xz;
      destruct (units_le x.1 y.1) eqn:XY, (units_le y.1 x.1) eqn:YX; cbn; rewrite ?Yz, ?Xz;
      first [by rewrite IH | naive_solver].
Qed.

Lemma sort_items_perm_eq {V} (l l' : list (keyed_item V)) :
  NoDup (map fst l) -> l ≡ₚ l' -> sort_items l = sort_items l'.
Proof.
  unfold sort_items. intros Hn Hp. induction Hp as [|x l l' Hp IH|x y l|l1 l2 l3 H12 IH1 H23 IH2]; cbn.
  - done.
  - cbn in Hn. apply NoDup_cons in Hn as [_ Hn]. by rewrite IH.
  - cbn in Hn. apply NoDup_cons in Hn as [Hx _]. apply insert_item_comm.
    intros E. apply Hx. rewrite E. left.
  - rewrite IH1 by done. apply IH2. by rewrite <- H12.
Qed.

Lemma sort_items_perm {V} (l : list (keyed_item V)) : sort_items l ≡ₚ l.
Proof.
  unfold sort_items. induction l as [|x l IH]; [done|]. cbn.
  assert (E : forall (x : keyed_item V) l, insert_item x l ≡ₚ x :: l).
  { clear. intros x l. induction l as [|y l IH]; cbn; [done|]. destruct (units_le _ _); [done|].
    rewrite IH. constructor. }
  by rewrite E, IH.
Qed.

Lemma key_units_Ok k u : key_units k = Ok u <-> utf16 k = Some u.
Proof. unfold key_units. case_match; naive_solver. Qed.

(** The keys of a dict all have a sort key, or [_order_keys] raises. *)
Definition keys_ok {V} (o : list (string * V)) : bool :=
  forallb (fun kv => match utf16 kv.1 with Some _ => true | None => false end) o.
Definition with_units {V} (kv : string * V) : keyed_item V :=
  (match utf16 kv.1 with Some u => u | None => [] end, kv).
Definition unit_error : exn := ValueErr "surrogates not allowed".

Lemma sorted_items_eq o :
  sorted_items o = if keys_ok o then Ok (map snd (sort_items (map with_units o)))
                   else Raise unit_error.
Proof.
  unfold sorted_items.
  assert (E : rmap (fun kv => let? u := key_units kv.1 in Ok (u, kv)) o
              = if keys_ok o then Ok (map with_units o) else Raise unit_error).
  { unfold keys_ok, with_units, key_units. induction o as [|[k v] o IH]; [done|]. cbn in *. rewrite IH.
    destruct (utf16 k); cbn; [|done]. by destruct (forallb _ o). }
  rewrite E. by destruct (keys_ok o).
Qed.

Lemma sorted_items_perm o s : sorted_items o = Ok s -> s ≡ₚ o.
Proof.
  rewrite sorted_items_eq. case_match; [|done]. intros [= <-].
  rewrite sort_items_perm, map_map. cbn. by rewrite map_id.
Qed.

Lemma sorted_items_perm_eq o o' :
  NoDup (map fst o) -> o ≡ₚ o' -> sorted_items o = sorted_items o'.
Proof.
  intros Hn Hp. rewrite !sorted_items_eq.
  assert (K : keys_ok o = keys_ok o').
  { unfold keys_ok. apply eq_true_iff_eq. rewrite !forallb_forall. setoid_rewrite <- list_elem_of_In.
    by setoid_rewrite Hp. }
  rewrite <- K. destruct (keys_ok o) eqn:Ko; [|done]. do 2 f_equal.
  apply sort_items_perm_eq; [|by rewrite Hp].
  clear Hp K. unfold keys_ok in Ko. induction o as [|[k v] o IH]; cbn in *; [constructor|].
  apply andb_true_iff in Ko as [Kk Ko]. apply NoDup_cons in Hn as [Hk Hn].
  constructor; [|by apply IH]. intros Hin. apply Hk.
  rewrite map_map in Hin. apply list_elem_of_fmap in Hin as ([k' v'] & E & Hin). cbn in E.
  destruct (utf16 k) as [u|] eqn:U; [|done].
  apply list_elem_of_In in Hin. rewrite forallb_forall in Ko. pose proof (Ko _ Hin) as Kk'. cbn in Kk'.
  destruct (utf16 k') as [u'|] eqn:U'; [|done]. subst u'.
  rewrite (utf16_inj k k' u) by done. apply list_elem_of_fmap. exists (k', v'). split; [done|].
  by apply list_elem_of_In.
Qed.

(** *** Equations of [_order_keys] and [doc_eq] *)

Definition order_item (kv : string * json) : result exn (string * json) :=
  let? v' := _order_keys kv.2 in Ok (kv.1, v').

Lemma order_keys_obj o :
  _order_keys (JObj o) =
  let? items := rmap order_item o in let? sorted := sorted_items items in Ok (JObj sorted).
Proof.
  cbn [_order_keys]. f_equal. induction o as [|[k v] o IH]; [done|]. cbn [rmap]. rewrite IH.
  change (order_item (k, v)) with (let? v' := _order_keys v in Ok (k, v')).
  by destruct (_order_keys v).
Qed.

Lemma order_keys_arr l :
  _order_keys (JArr l) = let? l' := rmap _order_keys l in Ok (JArr l').
Proof. cbn [_order_keys]. f_equal. induction l as [|x l IH]; [done|]. cbn [rmap]. by rewrite IH. Qed.

Lemma doc_eq_arr l r :
  doc_eq (JArr l) (JArr r) = true <-> Forall2 (fun x y => doc_eq x y = true) l r.
Proof.
  cbn. revert r. induction l as [|x l IH]; intros [|y r].
  - split; [constructor|done].
  - split; [done|inversion 1].
  - split; [done|inversion 1].
  - by rewrite andb_true_iff, IH, Forall2_cons.
Qed.

Lemma doc_eq_obj l r :
  doc_eq (JObj l) (JObj r) = true <->
  length l = length r /\
  forall k v, (k, v) ∈ l -> exists w, od_get k r = Some w /\ doc_eq v w = true.
Proof.
  cbn. rewrite andb_true_iff, Nat.eqb_eq, forallb_forall. apply and_iff_compat_l. split.
  - intros H k v Hin%list_elem_of_In. specialize (H _ Hin). cbn in H. case_match; naive_solver.
  - intros H [k v] Hin%list_elem_of_In. destruct (H _ _ Hin) as (w & E & D). cbn. by rewrite E.
Qed.

(** *** Well-formed documents *)

Lemma json_wf_arr l : json_wf (JArr l) = true <-> Forall (fun x => json_wf x = true) l.
Proof. cbn. rewrite forallb_forall, Forall_forall. by setoid_rewrite list_elem_of_In. Qed.

Lemma json_wf_obj o :
  json_wf (JObj o) = true <-> NoDup (map fst o) /\ Forall (fun kv => json_wf kv.2 = true) o.
Proof.
  cbn. rewrite andb_true_iff, nodup_keys_NoDup, forallb_forall, Forall_forall.
  by setoid_rewrite list_elem_of_In.
Qed.

Lemma order_items_keys o items : rmap order_item o = Ok items -> map fst items = map fst o.
Proof.
  intros H%rmap_Ok. induction H as [|[k v] [k' v'] o items H _ IH]; [done|].
  cbn. rewrite IH. unfold order_item in H. cbn in H. py_inv H. by simplify_eq.
Qed.

Lemma order_items_In o items k v' :
  rmap order_item o = Ok items ->
  ((k, v') ∈ items <-> exists v, (k, v) ∈ o /\ _order_keys v = Ok v').
Proof.
  intros H%rmap_Ok. induction H as [|[k1 v1] [k2 v2] o items H _ IH].
  - split; [by intros ?%elem_of_nil|by intros (? & ?%elem_of_nil & _)].
  - unfold order_item in H. cbn in H. destruct (_order_keys v1) as [w|] eqn:E; [|done].
    injection H as <- <-. rewrite elem_of_cons, IH. setoid_rewrite elem_of_cons. split.
    + intros [[= -> ->]|(v & Hv & E')]; [exists v1; split; [by left|exact E]|exists v; eauto].
    + intros (v & [[= -> ->]|Hv] & E'); [left; congruence|right; eauto].
Qed.

Lemma order_keys_wf a a' : json_wf a = true -> _order_keys a = Ok a' -> json_wf a' = true.
Proof.
  revert a'. induction a as [| | | | |l IH|o IH] using json_ind'; intros a' Hw;
    try (cbn; intros [= <-]; exact Hw).
  - rewrite order_keys_arr, rbind_Ok. intros (l' & H%rmap_Ok & [= <-]).
    apply json_wf_arr in Hw. apply json_wf_arr.
    induction H as [|x y l l' Hx _ IHl]; [constructor|].
    apply Forall_cons in IH as [IHx IH]. apply Forall_cons in Hw as [Hx' Hw].
    constructor; auto.
  - rewrite order_keys_obj, rbind_Ok. intros (items & Hi & H). apply rbind_Ok in H as (s & Hs & [= <-]).
    apply json_wf_obj in Hw as [Hn Hw]. apply json_wf_obj. apply sorted_items_perm in Hs.
    rewrite Hs, (order_items_keys _ _ Hi). split; [done|].
    apply Forall_forall. intros [k v'] Hin. rewrite order_items_In in Hin by done.
    destruct Hin as (v & Hin & E). rewrite Forall_forall in IH, Hw.
    by eapply (IH (k, v)), E; [|apply (Hw (k, v))].
Qed.

Lemma order_keys_raise a e : _order_keys a = Raise e -> e = unit_error.
Proof.
  revert e. induction a as [| | | | |l IH|o IH] using json_ind'; intros e; try done.
  - rewrite order_keys_arr. destruct (rmap _ l) eqn:E; cbn; [done|]. intros [= ->].
    revert E. induction l as [|x l IHl]; cbn; [done|]. apply Forall_cons in IH as [Hx IH].
    destruct (_order_keys x) eqn:X; cbn; [|intros [= ->]; by apply Hx].
    destruct (rmap _ l); cbn; [done|]. intros [= ->]. by apply IHl.
  - rewrite order_keys_obj. destruct (rmap _ o) as [items|] eqn:E; cbn.
    + rewrite sorted_items_eq. destruct (keys_ok _); cbn; [done|]. by intros [= <-].
    + intros [= ->]. revert E. induction o as [|[k v] o IHo]; cbn; [done|].
      apply Forall_cons in IH as [Hx IH]. cbn in Hx.
      change (order_item (k, v)) with (let? v' := _order_keys v in Ok (k, v')).
      destruct (_order_keys v) eqn:X; cbn; [|intros [= ->]; by apply Hx].
      destruct (rmap _ o); cbn; [done|]. intros [= ->]. by apply IHo.
Qed.

(** *** Ordering identifies exactly the documents equal up to key order *)

Lemma doc_eq_atom a b :
  (forall l, a <> JArr l) -> (forall o, a <> JObj o) -> doc_eq a b = true <-> a = b.
Proof.
  intros Ha Ho. rewrite <- json_eqb_eq.
  destruct a; try (by destruct b); [by destruct (Ha l)|by destruct (Ho o)].
Qed.

(** Equal dicts, the second one listed in the key order of the first. *)
Lemma doc_eq_obj_perm o o' :
  NoDup (map fst o) -> doc_eq (JObj o) (JObj o') = true ->
  exists p, p ≡ₚ o' /\ Forall2 (fun x y => x.1 = y.1 /\ doc_eq x.2 y.2 = true) o p.
Proof.
  intros Hn [Hlen H]%doc_eq_obj.
  assert (E : exists p, Forall2 (fun x y => (x.1 = y.1 /\ doc_eq x.2 y.2 = true) /\ y ∈ o') o p).
  { clear Hlen Hn. induction o as [|[k v] o IH]; [by exists []|].
    destruct (H k v) as (w & Hw & D); [left|]. destruct IH as [p Hp]; [intros; apply H; by right|].
    exists ((k, w) :: p). constructor; [|done]. eauto using od_get_In. }
  destruct E as [p Hp]. exists p.
  assert (F : Forall2 (fun x y => x.1 = y.1 /\ doc_eq x.2 y.2 = true) o p)
    by (eapply Forall2_impl; [exact Hp|tauto]).
  split; [|exact F].
  assert (K : map fst p = map fst o) by (clear -F; induction F as [|x y l l2 [E _] _ IH]; cbn; congruence).
  apply submseteq_length_Permutation.
  - apply NoDup_submseteq; [apply (NoDup_fmap_1 fst); by rewrite <- K in Hn|].
    clear -Hp. intros y Hy. apply list_elem_of_lookup in Hy as [i Hi].
    by destruct (Forall2_lookup_r _ _ _ _ _ Hp Hi) as (x & _ & _ & ?).
  - rewrite <- Hlen, (Forall2_length _ _ _ F). done.
Qed.

Lemma order_item_raise kv e : order_item kv = Raise e -> e = unit_error.
Proof.
  unfold order_item. destruct (_order_keys kv.2) eqn:E; cbn; [done|].
  intros [= ->]. by eapply order_keys_raise.
Qed.

(** The dicts' items in any order are collected alike. *)
Lemma order_items_perm l l' :
  l ≡ₚ l' -> match rmap order_item l, rmap order_item l' with
             | Ok a, Ok b => a ≡ₚ b
             | Raise e, Raise e' => e = e'
             | _, _ => False
             end.
Proof.
  induction 1 as [|x l l' _ IH|x y l|l1 l2 l3 _ IH1 _ IH2]; cbn.
  - done.
  - destruct (order_item x); cbn; [|done].
    destruct (rmap _ l), (rmap _ l'); cbn; try done. by constructor.
  - pose proof (order_item_raise x) as Ex. pose proof (order_item_raise y) as Ey.
    destruct (order_item x), (order_item y); cbn; try (rewrite ?(Ex _ eq_refl), ?(Ey _ eq_refl); done);
      destruct (rmap _ l); cbn; auto; try constructor.
  - destruct (rmap _ l1), (rmap _ l2), (rmap _ l3); try done; congruence || by etransitivity.
Qed.

Lemma order_keys_doc_eq a b :
  json_wf a = true -> json_wf b = true -> doc_eq a b = true -> _order_keys a = _order_keys b.
Proof.
  revert b. induction a as [| | | | |l IH|o IH] using json_ind'; intros c Wa Wb H;
    try (apply doc_eq_atom in H; [by subst|done|done]).
  - destruct c as [| | | | |r|]; try done. rewrite !order_keys_arr. f_equal.
    apply doc_eq_arr in H. apply json_wf_arr in Wa, Wb.
    induction H as [|x y l r D _ IHl]; [done|]. apply Forall_cons in IH as [Hx IH].
    apply Forall_cons in Wa as [Wx Wa]. apply Forall_cons in Wb as [Wy Wb].
    cbn. by rewrite (Hx y), IHl.
  - destruct c as [| | | | | |o']; try done. rewrite !order_keys_obj.
    apply json_wf_obj in Wa as [Na Wa], Wb as [Nb Wb].
    destruct (doc_eq_obj_perm o o' Na H) as (p & Hp & F).
    assert (E : rmap order_item o = rmap order_item p).
    { rewrite <- Hp in Wb. clear -IH Wa Wb F.
      induction F as [|[k v] [k' w] o p [Ek D] _ IHF]; [done|]. cbn in Ek, D. subst k'.
      apply Forall_cons in IH as [Hx IH], Wa as [Wx Wa], Wb as [Wy Wb]. cbn in *.
      rewrite IHF by done. unfold order_item. cbn. by rewrite (Hx w). }
    rewrite E. pose proof (order_items_perm p o' Hp) as P.
    destruct (rmap order_item p) as [its|] eqn:Ep, (rmap order_item o') as [its'|] eqn:Eo; cbn; try done;
      [|congruence].
    rewrite (sorted_items_perm_eq its its'); [done| |done].
    rewrite (order_items_keys p its) by done. by rewrite Hp.
Qed.

Lemma order_keys_atom a b :
  (forall l, a <> JArr l) -> (forall o, a <> JObj o) -> _order_keys b = Ok a -> b = a.
Proof.
  intros Ha Ho. destruct b as [| | | | |l|o]; try (cbn; congruence).
  - rewrite order_keys_arr, rbind_Ok. intros (l' & _ & [= <-]). by destruct (Ha l').
  - rewrite order_keys_obj, rbind_Ok. intros (x & _ & H). apply rbind_Ok in H as (s & _ & [= <-]).
    by destruct (Ho s).
Qed.

Lemma order_keys_inj a b c :
  json_wf a = true -> json_wf b = true ->
  _order_keys a = Ok c -> _order_keys b = Ok c -> doc_eq a b = true.
Proof.
  revert b c. induction a as [| | | | |l IH|o IH] using json_ind'; intros d c Wa Wb;
    try (cbn [_order_keys]; intros [= <-] H; apply order_keys_atom in H; [|done|done]; subst;
         by apply doc_eq_atom).
  - rewrite order_keys_arr, rbind_Ok. intros (l' & Hl%rmap_Ok & [= <-]).
    destruct d as [| | | | |r|o]; try done;
      [|rewrite order_keys_obj, rbind_Ok; intros (x & _ & H); apply rbind_Ok in H as (? & _ & ?); done].
    rewrite order_keys_arr, rbind_Ok. intros (l2 & Hr%rmap_Ok & E); injection E as <-.
    apply doc_eq_arr. apply json_wf_arr in Wa, Wb. revert r Wb Hr.
    induction Hl as [|x y l l' Hx _ IHl]; intros r Wb Hr; inversion Hr; subst; [constructor|].
    apply Forall_cons in IH as [IHx IH], Wa as [Wx Wa], Wb as [Wy Wb]. constructor; eauto.
  - rewrite order_keys_obj, rbind_Ok. intros (its & Hi & H). apply rbind_Ok in H as (s & Hs & [= <-]).
    destruct d as [| | | | |r|o']; try done;
      [rewrite order_keys_arr, rbind_Ok; intros (x & _ & H); done|].
    rewrite order_keys_obj, rbind_Ok. intros (its' & Hi' & H). apply rbind_Ok in H as (s' & Hs' & [= ->]).
    apply sorted_items_perm in Hs, Hs'.
    assert (P : its ≡ₚ its') by by rewrite <- Hs.
    apply json_wf_obj in Wa as [Na Wa], Wb as [Nb Wb]. rewrite !Forall_forall in *.
    apply doc_eq_obj. split.
    + pose proof (order_items_keys _ _ Hi) as K1%(f_equal length).
      pose proof (order_items_keys _ _ Hi') as K2%(f_equal length).
      rewrite !length_map in K1, K2. rewrite <- K1, <- K2. by apply Permutation_length.
    + intros k v Hin. apply rmap_Ok in Hi as Hi2. apply list_elem_of_lookup in Hin as [i Hl].
      destruct (Forall2_lookup_l _ _ _ _ _ Hi2 Hl) as ([k' v'] & Hk' & E).
      unfold order_item in E. cbn in E. py_inv E. simplify_eq.
      assert (Hk : (k', v') ∈ its') by (rewrite <- P; by eapply list_elem_of_lookup_2).
      rewrite order_items_In in Hk by done. destruct Hk as (w & Hw & Ew).
      exists w. split; [by apply od_In_get|]. apply list_elem_of_lookup_2 in Hl.
      eapply (IH (k', v) Hl w _ (Wa _ Hl) (Wb _ Hw)); eassumption.
Qed.

Lemma canonicalize_jcs_Ok a x :
  canonicalize_jcs a = Ok x <->
  exists c, _order_keys a = Ok c /\ has_nonfinite c = false /\ encodable x = true /\
            x = dumps_compact c.
Proof.
  unfold canonicalize_jcs, canonicalize_raw. rewrite wrap_Ok, rbind_Ok.
  setoid_rewrite rbind_unit_Ok. setoid_rewrite rbind_unit_Ok. setoid_rewrite require_Ok.
  setoid_rewrite negb_true_iff. naive_solver.
Qed.

Lemma canonicalize_jcs_raise a e :
  canonicalize_jcs a = Raise e ->
  e = ControllerErr JcsCanonicalizationError "Failed to canonicalize document per RFC 8785".
Proof. unfold canonicalize_jcs, wrap. case_match; congruence. Qed.

(** Reordering the keys at any depth does not change the outcome. *)
Lemma canonicalize_jcs_doc_eq a b :
  json_wf a = true -> json_wf b = true -> doc_eq a b = true ->
  canonicalize_jcs a = canonicalize_jcs b.
Proof.
  intros Wa Wb D. unfold canonicalize_jcs, canonicalize_raw. by rewrite (order_keys_doc_eq a b).
Qed.

Lemma canonicalize_jcs_inj a b x :
  json_wf a = true -> json_wf b = true ->
  canonicalize_jcs a = Ok x -> canonicalize_jcs b = Ok x -> doc_eq a b = true.
Proof.
  intros Wa Wb (c & Ha & _ & _ & ->)%canonicalize_jcs_Ok (d & Hb & _ & _ & E)%canonicalize_jcs_Ok.
  eapply order_keys_inj; [done|done|exact Ha|].
  rewrite (dumps_compact_inj c d); eauto using order_keys_wf.
Qed.

(** Ordering keeps the document. *)
Lemma order_keys_same a c : json_wf a = true -> _order_keys a = Ok c -> doc_eq a c = true.
Proof.
  revert c. induction a as [| | | | |l IH|o IH] using json_ind'; intros c Wa;
    try (intros [= <-]; by apply doc_eq_atom).
  - rewrite order_keys_arr, rbind_Ok. intros (l' & H%rmap_Ok & [= <-]). apply doc_eq_arr.
    apply json_wf_arr in Wa. induction H as [|x y l l' Hx _ IHl]; [constructor|].
    apply Forall_cons in IH as [IHx IH], Wa as [Wx Wa]. constructor; auto.
  - intros Hc. pose proof (order_keys_wf _ _ Wa Hc) as Wc. revert Hc.
    rewrite order_keys_obj, rbind_Ok. intros (its & Hi & H). apply rbind_Ok in H as (s & Hs & [= <-]).
    apply sorted_items_perm in Hs. apply json_wf_obj in Wa as [_ Wa], Wc as [Ns _].
    rewrite !Forall_forall in *. apply doc_eq_obj. split.
    + pose proof (order_items_keys _ _ Hi) as K%(f_equal length). rewrite !length_map in K.
      rewrite <- K. symmetry. by apply Permutation_length.
    + intros k v Hin. apply rmap_Ok in Hi as Hi2. apply list_elem_of_lookup in Hin as Hl. destruct Hl as [i Hl].
      destruct (Forall2_lookup_l _ _ _ _ _ Hi2 Hl) as ([k' v'] & Hk' & E).
      unfold order_item in E. cbn in E. destruct (_order_keys v) as [v2|] eqn:Ev; [|done].
      injection E as -> ->. exists v'. split.
      * apply od_In_get; [done|]. rewrite Hs. by eapply list_elem_of_lookup_2.
      * exact (IH (k', v) Hin _ (Wa _ Hin) Ev).
Qed.

(** two JSON documents get the same canonical bytes exactly when they are
    equal up to the order of their keys, at every depth: [canonicalize_jcs] is
    insensitive to key order and injective on everything else. *)
Theorem canonicalize_jcs_iff a b x
  (Wa : json_wf a = true) (Wb : json_wf b = true) (Ha : canonicalize_jcs a = Ok x) :
  canonicalize_jcs b = Ok x <-> doc_eq a b = true.
Proof.
  split; [by apply canonicalize_jcs_inj|]. intros D. by rewrite <- (canonicalize_jcs_doc_eq a b).
Qed.

(** reading canonical bytes back with [json.loads] gives the document that
    was canonicalized, up to the order of its keys. *)
Theorem canonicalize_jcs_loads a x b
  (Wa : json_wf a = true) (Ha : canonicalize_jcs a = Ok x) :
  exists c, loads b x = Some c /\ doc_eq a c = true /\ _order_keys a = Ok c.
Proof.
  apply canonicalize_jcs_Ok in Ha as (c & Hc & _ & _ & ->). exists c.
  split; [by apply loads_dumps_compact, (order_keys_wf a)|].
  split; [by apply order_keys_same|done].
Qed.

Definition sample_doc : json :=
  JObj [("b", JArr [JInt 1; JObj [("z", JNull); ("a", JStr "x")]]); ("a", JBool true)].
Definition sample_doc' : json :=
  JObj [("a", JBool true); ("b", JArr [JInt 1; JObj [("a", JStr "x"); ("z", JNull)]])].

Example canonicalize_sample :
  canonicalize_jcs sample_doc = canonicalize_jcs sample_doc' /\
  sample_doc <> sample_doc'.
Proof. vm_compute. split; [reflexivity|discriminate]. Qed.

Definition sample_bytes : string :=
  Eval vm_compute in match canonicalize_jcs sample_doc with Ok x => x | Raise _ => EmptyString end.

Lemma canonicalize_jcs_iff_witness :
  canonicalize_jcs sample_doc' = Ok sample_bytes <-> doc_eq sample_doc sample_doc' = true.
Proof.
  apply (canonicalize_jcs_iff sample_doc sample_doc' sample_bytes); vm_compute; reflexivity.
Defined.

Lemma canonicalize_jcs_loads_witness :
  exists c, loads true sample_bytes = Some c /\ doc_eq sample_doc c = true /\
            _order_keys sample_doc = Ok c.
Proof. apply (canonicalize_jcs_loads sample_doc sample_bytes true); vm_compute; reflexivity. Defined.

(** ** Digests *)

Lemma od_pop_set_any {V} k (v : V) d : od_pop k (od_set k v d) = od_pop k d.
Proof.
  induction d as [|[k' v'] d IH]; cbn; [by rewrite String.eqb_refl|].
  destruct (String.eqb k k') eqn:E; cbn; rewrite E; [done|]. by rewrite IH.
Qed.

Lemma compute_intent_digest_stamp d doc :
  compute_intent_digest (od_set "intent_digest" d doc) = compute_intent_digest doc.
Proof. unfold compute_intent_digest. by rewrite od_pop_set_any. Qed.

Lemma compute_intent_digest_Ok doc d :
  compute_intent_digest doc = Ok d <->
  exists x, canonicalize_jcs (JObj (od_pop "intent_digest" doc)) = Ok x /\ d = sha256_digest x.
Proof. unfold compute_intent_digest. rewrite rbind_Ok. naive_solver. Qed.

Lemma verify_intent_digest_true doc :
  verify_intent_digest doc = Ok true <->
  exists d, od_get "intent_digest" doc = Some (JStr d) /\ compute_intent_digest doc = Ok d.
Proof.
  unfold verify_intent_digest, jget. split.
  - destruct (od_get "intent_digest" doc) as [v|]; [|done].
    destruct (truthy v); [|done]. cbn [negb]. rewrite rbind_Ok. intros (d & Hd & [= E]).
    apply py_eq_str in E as ->. eauto.
  - intros (d & -> & Hd). rewrite Hd.
    apply compute_intent_digest_Ok in Hd as (x & _ & ->). cbn. by rewrite !String.eqb_refl.
Qed.

(** a stamped intent verifies: writing the computed digest into
    ['intent_digest'], at whatever position, makes [verify_intent_digest] true
    and does not change the digest itself. *)
Theorem intent_digest_stamp_verifies doc d (H : compute_intent_digest doc = Ok d) :
  verify_intent_digest (od_set "intent_digest" (JStr d) doc) = Ok true /\
  compute_intent_digest (od_set "intent_digest" (JStr d) doc) = Ok d.
Proof.
  rewrite compute_intent_digest_stamp. split; [|done]. apply verify_intent_digest_true.
  exists d. by rewrite od_get_set_eq, compute_intent_digest_stamp.
Qed.

(** the digest binds the intent.  Two intents that both verify and declare
    the same digest agree on every other field, up to key order, unless their
    canonical bytes are a SHA-256 collision. *)
Theorem intent_digest_binds doc1 doc2
  (W1 : json_wf (JObj (od_pop "intent_digest" doc1)) = true)
  (W2 : json_wf (JObj (od_pop "intent_digest" doc2)) = true)
  (V1 : verify_intent_digest doc1 = Ok true) (V2 : verify_intent_digest doc2 = Ok true)
  (E : od_get "intent_digest" doc1 = od_get "intent_digest" doc2) :
  doc_eq (JObj (od_pop "intent_digest" doc1)) (JObj (od_pop "intent_digest" doc2)) = true \/
  exists x y, canonicalize_jcs (JObj (od_pop "intent_digest" doc1)) = Ok x /\
              canonicalize_jcs (JObj (od_pop "intent_digest" doc2)) = Ok y /\
              x <> y /\ sha256_hex x = sha256_hex y.
Proof.
  apply verify_intent_digest_true in V1 as (d & G1 & (x & X & ->)%compute_intent_digest_Ok).
  apply verify_intent_digest_true in V2 as (d2 & G2 & (y & Y & ->)%compute_intent_digest_Ok).
  rewrite G1, G2 in E. injection E as E.
  destruct (decide (x = y)) as [<-|Hne]; [left|right; eauto 10].
  by apply (canonicalize_jcs_inj _ _ x).
Qed.

Definition sample_intent : odict json :=
  [("intent_id", JStr "i1"); ("operation", JStr "TRAIN"); ("n", JInt 3)].
Definition sample_intent_digest : string := Eval vm_compute in
  match compute_intent_digest sample_intent with Ok d => d | Raise _ => EmptyString end.

Lemma intent_digest_stamp_verifies_witness :
  verify_intent_digest (od_set "intent_digest" (JStr sample_intent_digest) sample_intent) = Ok true /\
  compute_intent_digest (od_set "intent_digest" (JStr sample_intent_digest) sample_intent)
  = Ok sample_intent_digest.
Proof. apply intent_digest_stamp_verifies. vm_compute. reflexivity. Defined.

Lemma intent_digest_binds_witness :
  let doc1 := od_set "intent_digest" (JStr sample_intent_digest) sample_intent in
  let doc2 := ("intent_digest", JStr sample_intent_digest) :: rev sample_intent in
  doc_eq (JObj (od_pop "intent_digest" doc1)) (JObj (od_pop "intent_digest" doc2)) = true \/
  exists x y, canonicalize_jcs (JObj (od_pop "intent_digest" doc1)) = Ok x /\
              canonicalize_jcs (JObj (od_pop "intent_digest" doc2)) = Ok y /\
              x <> y /\ sha256_hex x = sha256_hex y.
Proof. apply intent_digest_binds; vm_compute; reflexivity. Defined.

(** ** Signatures *)

Section SignatureFacts.
Context {ED : Ed25519}.

(** The signed bytes do not depend on the signature field. *)
Lemma signing_payload_set_signature doc auth sig :
  od_get "authenticator" doc = Some (JObj auth) ->
  get_admission_signing_payload
    (od_set "authenticator" (JObj (od_set "signature" sig auth)) doc)
  = get_admission_signing_payload doc.
Proof.
  intros H. unfold get_admission_signing_payload, admission_signing_doc.
  by rewrite od_get_set_eq, H, od_set_set, od_pop_set_any.
Qed.

Lemma signed_doc_verifies doc auth sk sig
  (Ha : od_get "authenticator" doc = Some (JObj auth))
  (Hs : sign_admission doc sk = Ok sig) :
  verify_admission_signature
    (od_set "authenticator" (JObj (od_set "signature" (JStr sig) auth)) doc)
    (public_key_of sk) = Ok true.
Proof.
  unfold sign_admission in Hs. py_inv Hs. injection Hs as <-.
  unfold verify_admission_signature. rewrite !od_get_set_eq, from_hex_to_hex.
  rewrite (signing_payload_set_signature doc auth) by done. rewrite Hs0. cbn.
  by rewrite ed_verify_sign.
Qed.

(** an admission record signed by [sign_admission] and stored with that
    signature verifies under the signer's public key, whatever signature
    field the record held before. *)
Theorem sign_admission_verifies doc auth sk sig
  (Ha : od_get "authenticator" doc = Some (JObj auth))
  (Hs : sign_admission doc sk = Ok sig) :
  verify_admission_signature
    (od_set "authenticator" (JObj (od_set "signature" (JStr sig) auth)) doc)
    (public_key_of sk) = Ok true.
Proof. by apply signed_doc_verifies. Qed.

(** The verification accepts nothing but a signature of the canonical bytes. *)
Lemma verify_admission_signature_true doc pk :
  verify_admission_signature doc pk = Ok true ->
  exists auth hex sig payload,
    od_get "authenticator" doc = Some (JObj auth) /\
    od_get "signature" auth = Some (JStr hex) /\ from_hex hex = Some sig /\
    get_admission_signing_payload doc = Ok payload /\ ed_verify pk sig payload = true.
Proof.
  unfold verify_admission_signature. intros H.
  repeat (case_match; try done). py_inv H. injection H as H. naive_solver.
Qed.
End SignatureFacts.

(** An instance for evaluating the model: the key is the signature. *)
#[export, program] Instance toy_ed25519 : Ed25519 := {
  private_key := string; public_key := string;
  public_key_of sk := sk; public_bytes_raw pk := pk;
  ed_sign sk m := sha256_hex (sk +:+ m);
  ed_verify pk sig m := String.eqb sig (sha256_hex (pk +:+ m));
}.
Next Obligation. intros. apply String.eqb_refl. Defined.

Definition sample_admission : odict json :=
  [("admission_id", JStr "a1");
   ("authenticator", JObj [("algorithm", JStr "ED25519"); ("signature", JStr "old")])].
Definition sample_signature : string := Eval vm_compute in
  match sign_admission sample_admission "k" with Ok s => s | Raise _ => EmptyString end.

Lemma sign_admission_verifies_witness :
  verify_admission_signature
    (od_set "authenticator"
       (JObj (od_set "signature" (JStr sample_signature)
                [("algorithm", JStr "ED25519"); ("signature", JStr "old")])) sample_admission)
    (public_key_of (Ed25519 := toy_ed25519) "k") = Ok true.
Proof. apply sign_admission_verifies; vm_compute; reflexivity. Defined.
