(* ===== verification/LedgerRecord.v ===== *)
(** * Ledger records and their validation
    ([deltacontroller/idempotency.py], first half; [deltacontroller/schema.py])

    The JSON-Schema validator is third-party code: the class
    [SchemaValidator] says which documents it accepts under which alias. *)

From S2P Require Import Prelude PyFloat Json JsonText Text Sha256 Errors Canonical.
Open Scope string_scope.
Open Scope py_scope.

(** ** The schema registry *)

Class SchemaValidator := {
  (** [list(validator.iter_errors(document))] is empty *)
  schema_accepts : string -> json -> bool;
}.

Definition SCHEMA_FILES : list string :=
  ["execution-intent"; "admission-record"; "authorized-execution"; "execution-status";
   "preflight-error"; "receipt-lineage"].

Definition schema_validate `{SchemaValidator} (alias : string) (document : json)
  : result exn unit :=
  require (str_in alias SCHEMA_FILES) (KeyErr "Unknown schema alias") ;?
  require (schema_accepts alias document)
    (ControllerErr SchemaValidationError "Validation failed for schema").

(** ** Statuses *)

Definition NONTERMINAL_STATUSES : list string := ["ADMITTED"; "QUEUED"; "RUNNING"].
Definition TERMINAL_STATUSES : list string := ["COMPLETED"; "FAILED"; "TIMED_OUT"; "CANCELLED"].
Definition KNOWN_STATUSES : list string := (NONTERMINAL_STATUSES ++ TERMINAL_STATUSES)%list.

Definition _LEDGER_FIELDS : list string :=
  ["intent_id"; "intent_digest"; "authenticated_subject_id"; "execution_id"; "status";
   "created_at"; "updated_at"; "admission_record"; "receipt_digest"; "terminal_receipt";
   "error"; "retry_of_intent_id"; "operation"; "intent"].
Definition _REQUIRED_LEDGER_FIELDS : list string :=
  filter (fun f => negb (String.eqb f "intent")) _LEDGER_FIELDS.

Definition _LEGAL_TRANSITIONS (status : string) : list string :=
  if String.eqb status "ADMITTED" then
    ["QUEUED"; "RUNNING"; "COMPLETED"; "FAILED"; "TIMED_OUT"; "CANCELLED"]
  else if String.eqb status "QUEUED" then ["RUNNING"; "FAILED"; "TIMED_OUT"; "CANCELLED"]
  else if String.eqb status "RUNNING" then TERMINAL_STATUSES
  else [].

(** ** Snapshots *)

Definition _require_nonempty_string (value : json) : result exn string :=
  match value with
  | JStr s => require (negb (String.eqb s EmptyString))
                (ValueErr "Ledger field must be a non-empty string") ;? Ok s
  | _ => Raise (ValueErr "Ledger field must be a non-empty string")
  end.

Definition require_string_field (d : odict json) (field : string) : result exn unit :=
  let? s := _require_nonempty_string (jget field d) in Ok tt.

Definition require_optional_string (d : odict json) (field : string) : result exn unit :=
  if is_none (jget field d) then Ok tt else require_string_field d field.

Definition require_optional_object (d : odict json) (field : string) : result exn unit :=
  require (is_none (jget field d) || is_obj (jget field d))
    (ValueErr "Ledger field must be a JSON object or null").

(** [if field in doc and doc[field] != expected: raise] *)
Definition require_linked (doc : odict json) (msg : string) (link : string * json)
  : result exn unit :=
  match od_get link.1 doc with
  | Some v => require (py_eq v link.2) (ValueErr msg)
  | None => Ok tt
  end.

Definition _validate_snapshot_schema (data : json) : result exn (odict json) :=
  match data with
  | JObj d =>
      require (forallb (fun k => str_in k _LEDGER_FIELDS) (od_keys d) &&
               forallb (fun f => od_mem f d) _REQUIRED_LEDGER_FIELDS)
        (ValueErr "Ledger snapshot does not match the exact schema") ;?
      rforall (require_string_field d)
        ["intent_id"; "intent_digest"; "authenticated_subject_id"; "execution_id";
         "created_at"; "updated_at"] ;?
      let? status := _require_nonempty_string (jget "status" d) in
      require (str_in status KNOWN_STATUSES) (ValueErr "Unknown durable ledger status") ;?
      match jget "admission_record" d with
      | JObj admission =>
          rforall (require_optional_string d)
            ["receipt_digest"; "retry_of_intent_id"; "operation"] ;?
          rforall (require_optional_object d) ["terminal_receipt"; "error"; "intent"] ;?
          rforall (require_linked admission "Ledger admission_record does not match")
            [("intent_id", jget "intent_id" d); ("intent_digest", jget "intent_digest" d);
             ("execution_id", jget "execution_id" d)] ;?
          (match jget "authenticated_subject" admission with
           | JNull => Ok tt
           | JObj subject =>
               require_linked subject
                 "Ledger admission_record authenticated subject does not match"
                 ("subject_id", jget "authenticated_subject_id" d)
           | _ => Raise (ValueErr "Ledger admission_record.authenticated_subject must be an object")
           end) ;?
          (match jget "intent" d with
           | JObj intent =>
               rforall (require_linked intent "Ledger intent does not match")
                 [("intent_id", jget "intent_id" d); ("intent_digest", jget "intent_digest" d);
                  ("operation", jget "operation" d)]
           | _ => Ok tt
           end) ;?
          Ok d
      | _ => Raise (ValueErr "Ledger field 'admission_record' must be a JSON object")
      end
  | _ => Raise (ValueErr "Ledger snapshot must be a JSON object")
  end.

Record LedgerRecord := mkLedgerRecord {
  lr_intent_id : string;
  lr_intent_digest : string;
  lr_authenticated_subject_id : string;
  lr_execution_id : string;
  lr_status : string;
  lr_created_at : string;
  lr_updated_at : string;
  lr_admission_record : option (odict json);
  lr_receipt_digest : option string;
  lr_terminal_receipt : option (odict json);
  lr_error : option (odict json);
  lr_retry_of_intent_id : option string;
  lr_operation : option string;
  lr_intent : option (odict json);
}.

#[export] Instance ledger_record_eq_dec : EqDecision LedgerRecord.
Proof. solve_decision. Defined.

Definition of_opt_str (o : option string) : json :=
  match o with Some s => JStr s | None => JNull end.
Definition of_opt_obj (o : option (odict json)) : json :=
  match o with Some d => JObj d | None => JNull end.
Definition to_opt_str (j : json) : option string :=
  match j with JStr s => Some s | _ => None end.
Definition to_opt_obj (j : json) : option (odict json) :=
  match j with JObj d => Some d | _ => None end.
Definition to_str (j : json) : string := match j with JStr s => s | _ => EmptyString end.

(** [asdict(record)] *)
Definition to_dict (r : LedgerRecord) : odict json :=
  [("intent_id", JStr (lr_intent_id r));
   ("intent_digest", JStr (lr_intent_digest r));
   ("authenticated_subject_id", JStr (lr_authenticated_subject_id r));
   ("execution_id", JStr (lr_execution_id r));
   ("status", JStr (lr_status r));
   ("created_at", JStr (lr_created_at r));
   ("updated_at", JStr (lr_updated_at r));
   ("admission_record", of_opt_obj (lr_admission_record r));
   ("receipt_digest", of_opt_str (lr_receipt_digest r));
   ("terminal_receipt", of_opt_obj (lr_terminal_receipt r));
   ("error", of_opt_obj (lr_error r));
   ("retry_of_intent_id", of_opt_str (lr_retry_of_intent_id r));
   ("operation", of_opt_str (lr_operation r));
   ("intent", of_opt_obj (lr_intent r))].

(** [LedgerRecord.from_dict]; the validation has fixed the type of each field. *)
Definition from_dict (data : json) : result exn LedgerRecord :=
  let? d := _validate_snapshot_schema data in
  Ok {| lr_intent_id := to_str (jget "intent_id" d);
        lr_intent_digest := to_str (jget "intent_digest" d);
        lr_authenticated_subject_id := to_str (jget "authenticated_subject_id" d);
        lr_execution_id := to_str (jget "execution_id" d);
        lr_status := to_str (jget "status" d);
        lr_created_at := to_str (jget "created_at" d);
        lr_updated_at := to_str (jget "updated_at" d);
        lr_admission_record := to_opt_obj (jget "admission_record" d);
        lr_receipt_digest := to_opt_str (jget "receipt_digest" d);
        lr_terminal_receipt := to_opt_obj (jget "terminal_receipt" d);
        lr_error := to_opt_obj (jget "error" d);
        lr_retry_of_intent_id := to_opt_str (jget "retry_of_intent_id" d);
        lr_operation := to_opt_str (jget "operation" d);
        lr_intent := to_opt_obj (jget "intent" d) |}.

(** ** Terminal artifacts *)

Definition has_artifacts (r : LedgerRecord) : bool :=
  match lr_receipt_digest r, lr_terminal_receipt r, lr_error r with
  | None, None, None => false
  | _, _, _ => true
  end.

(** [doc[key]] of a dict, [KeyError] without it *)
Definition get_item (key : string) (d : odict json) : result exn json :=
  match od_get key d with Some v => Ok v | None => Raise (KeyErr key) end.

(** [doc.get(field)]: only a dict has [get]. *)
Definition attr_get (doc : json) (field : string) : result exn json :=
  match doc with
  | JObj d => Ok (jget field d)
  | _ => Raise (AttributeErr "object has no attribute 'get'")
  end.

Definition expected_lineage (r : LedgerRecord) (admission : odict json)
  (expected_producer_commit : option string) : odict json :=
  ([("intent_id", JStr (lr_intent_id r));
    ("intent_digest", JStr (lr_intent_digest r));
    ("execution_id", JStr (lr_execution_id r));
    ("admission_id", jget "admission_id" admission);
    ("admission_digest", jget "admission_digest" admission)]
   ++ match jget "policy_context" admission with
      | JObj policy_context => [("controller_commit", jget "controller_commit" policy_context)]
      | _ => []
      end
   ++ match expected_producer_commit with
      | Some commit => [("producer_commit", JStr commit)]
      | None => []
      end)%list.

Definition expected_workload (workload : odict json) : odict json :=
  [("catalog_backend_ref", jget "catalog_backend_ref" workload);
   ("backend_commit", jget "catalog_backend_ref" workload);
   ("model_plugin_id", jget "model_plugin_id" workload);
   ("dataset_id", jget "dataset_id" workload);
   ("executed_scope", jget "requested_scope" workload)].

(** One [any(...)] test of the receipt against the intent's workload *)
Definition workload_mismatch (receipt : odict json) (provenance : json) (fe : string * json)
  : result exn bool :=
  if negb (is_str fe.2) then Ok true
  else
    let? actual :=
      (if str_in fe.1 ["catalog_backend_ref"; "backend_commit"]
       then attr_get provenance fe.1
       else let? w := get_item "workload" receipt in attr_get w fe.1) in
    Ok (negb (py_eq actual fe.2)).

Definition lineage_field_mismatch (provenance : json) (fe : string * json) : result exn bool :=
  if negb (is_str fe.2) then Ok true
  else let? actual := attr_get provenance fe.1 in Ok (negb (py_eq actual fe.2)).

(** The lineage half of the [COMPLETED] branch *)
Definition validate_receipt_lineage (r : LedgerRecord) (receipt : odict json)
  (expected_producer_commit : option string) : result exn unit :=
  let? provenance := get_item "provenance" receipt in
  match lr_admission_record r with
  | None => Raise AssertionErr
  | Some admission =>
      let? mismatch := rany (lineage_field_mismatch provenance)
                         (expected_lineage r admission expected_producer_commit) in
      require (negb mismatch)
        (ValueErr "COMPLETED ledger receipt provenance does not match admission lineage") ;?
      match lr_intent r with
      | None => Ok tt
      | Some intent =>
          match jget "workload" intent with
          | JObj workload =>
              let? mismatch := rany (workload_mismatch receipt provenance)
                                 (expected_workload workload) in
              require (negb mismatch)
                (ValueErr "COMPLETED ledger receipt does not match intent workload lineage")
          | _ => Raise (ValueErr "COMPLETED ledger intent lacks workload lineage")
          end
      end
  end.

Definition is_type_or_value_err (e : exn) : bool :=
  match e with TypeErr _ | ValueErr _ => true | _ => false end.

Definition _validate_terminal_invariants `{SchemaValidator} (r : LedgerRecord)
  (expected_producer_commit : option string) : result exn unit :=
  if str_in (lr_status r) NONTERMINAL_STATUSES then
    require (negb (has_artifacts r))
      (ValueErr "Nonterminal ledger status cannot contain terminal artifacts")
  else if String.eqb (lr_status r) "COMPLETED" then
    match lr_error r with
    | Some _ => Raise (ValueErr "COMPLETED ledger snapshot cannot contain an error")
    | None =>
        if bool_decide (lr_operation r = Some "MATERIALIZE_DATASET") then
          require (negb (has_artifacts r))
            (ValueErr "MATERIALIZE_DATASET completion cannot contain a receipt")
        else
          match lr_receipt_digest r, lr_terminal_receipt r with
          | Some receipt_digest, Some receipt =>
              let? canonical := wrap_if is_type_or_value_err (canonicalize_jcs (JObj receipt))
                                  (ValueErr "COMPLETED ledger receipt is not canonical JSON") in
              require (String.eqb receipt_digest (sha256_digest canonical))
                (ValueErr "COMPLETED ledger receipt_digest does not match the receipt") ;?
              wrap (schema_validate "receipt-lineage" (JObj receipt))
                (ValueErr "COMPLETED ledger receipt fails the frozen receipt schema") ;?
              validate_receipt_lineage r receipt expected_producer_commit
          | _, _ => Raise (ValueErr "COMPLETED ledger snapshot requires a receipt and receipt_digest")
          end
    end
  else if str_in (lr_status r) ["FAILED"; "TIMED_OUT"; "CANCELLED"] then
    match lr_receipt_digest r, lr_terminal_receipt r with
    | None, None =>
        match lr_error r with
        | Some (_ :: _) => Ok tt
        | _ => Raise (ValueErr "ledger snapshot requires an error")
        end
    | _, _ => Raise (ValueErr "ledger snapshot cannot contain a receipt")
    end
  else Raise (ValueErr "Unknown durable ledger status").

(** ** History *)

(** [==] of two field values.  A value compares equal to itself as an object
    before its content is looked at ([NaN] inside a shared document). *)
Definition obj_eq (a b : json) : bool := bool_decide (a = b) || py_eq a b.

Definition field_eq (a b : LedgerRecord) (field : string) : bool :=
  obj_eq (jget field (to_dict a)) (jget field (to_dict b)).

(** [previous == current] *)
Definition record_eq (a b : LedgerRecord) : bool := forallb (field_eq a b) _LEDGER_FIELDS.

Definition immutable_fields : list string :=
  ["intent_digest"; "authenticated_subject_id"; "execution_id"; "created_at";
   "admission_record"; "retry_of_intent_id"; "operation"; "intent"].

Definition _validate_history_transition (previous current : LedgerRecord) : result exn unit :=
  rforall (fun field => require (field_eq previous current field)
                          (ValueErr "Immutable ledger field changed")) immutable_fields ;?
  if str_in (lr_status previous) TERMINAL_STATUSES then
    require (record_eq previous current) (ValueErr "Terminal ledger history was modified")
  else if String.eqb (lr_status previous) (lr_status current) then
    require (record_eq previous current)
      (ValueErr "Ledger status was rewritten without a transition")
  else
    require (str_in (lr_status current) (_LEGAL_TRANSITIONS (lr_status previous)))
      (ValueErr "Illegal ledger status transition").

(** ** Facts *)

Lemma validate_snapshot_same data d :
  _validate_snapshot_schema data = Ok d -> data = JObj d.
Proof.
  unfold _validate_snapshot_schema. destruct data as [| | | | | |d']; try done.
  rewrite !rbind_unit_Ok. intros (_ & _ & H). apply rbind_Ok in H as (st & _ & H).
  apply rbind_unit_Ok in H as [_ H]. destruct (jget "admission_record" d'); try done.
  rewrite !rbind_unit_Ok in H. by destruct H as (_ & _ & _ & _ & _ & [= ->]).
Qed.

(** A snapshot is accepted as a whole, and only strings, dicts or [None] stand
    where the dataclass declares them. *)
Lemma validate_snapshot_fields d :
  _validate_snapshot_schema (JObj d) = Ok d ->
  (forall f, f ∈ ["intent_id"; "intent_digest"; "authenticated_subject_id"; "execution_id";
                  "created_at"; "updated_at"; "status"] ->
     exists s, jget f d = JStr s /\ s <> EmptyString) /\
  (exists st, jget "status" d = JStr st /\ st ∈ KNOWN_STATUSES) /\
  (exists a, jget "admission_record" d = JObj a) /\
  (forall f, f ∈ ["receipt_digest"; "retry_of_intent_id"; "operation"] ->
     jget f d = JNull \/ exists s, jget f d = JStr s /\ s <> EmptyString) /\
  (forall f, f ∈ ["terminal_receipt"; "error"; "intent"] ->
     jget f d = JNull \/ exists o, jget f d = JObj o).
Proof.
  assert (S : forall f, require_string_field d f = Ok tt ->
                exists s, jget f d = JStr s /\ s <> EmptyString).
  { intros f. unfold require_string_field, _require_nonempty_string. destruct (jget f d); try done.
    destruct (String.eqb_spec s EmptyString); [done|]. eauto. }
  unfold _validate_snapshot_schema. rewrite !rbind_unit_Ok. intros (_ & Hs & H).
  apply rbind_Ok in H as (st & Hst & H). apply rbind_unit_Ok in H as [Hk H].
  destruct (jget "admission_record" d) as [| | | | | |a] eqn:Ha; try done.
  rewrite !rbind_unit_Ok in H. destruct H as (Ho & Hd & _).
  apply rforall_Ok in Hs, Ho, Hd. rewrite !Forall_forall in Hs, Ho, Hd.
  apply require_Ok, str_in_elem in Hk.
  assert (E : exists s, jget "status" d = JStr s /\ s <> EmptyString /\ s = st).
  { unfold _require_nonempty_string in Hst. destruct (jget "status" d); try done.
    destruct (String.eqb_spec s EmptyString); [done|]. injection Hst as ->. eauto. }
  destruct E as (s & E & Hne & ->). split; [|split; [eauto|split; [eauto|split]]].
  - intros f Hf. destruct (decide (f = "status")) as [->|Hf2]; [eauto|].
    apply S, Hs. clear -Hf Hf2. rewrite !elem_of_cons in *. naive_solver.
  - intros f Hf. specialize (Ho f Hf). unfold require_optional_string in Ho.
    destruct (jget f d) eqn:J; try (right; rewrite <- J; by apply S). by left.
  - intros f Hf. specialize (Hd f Hf). unfold require_optional_object in Hd.
    destruct (jget f d); cbn in Hd; try done; eauto.
Qed.

Lemma to_opt_obj_of o : to_opt_obj (of_opt_obj o) = o.
Proof. by destruct o. Qed.
Lemma to_opt_str_of o : to_opt_str (of_opt_str o) = o.
Proof. by destruct o. Qed.

Lemma from_dict_to_dict r :
  _validate_snapshot_schema (JObj (to_dict r)) = Ok (to_dict r) ->
  from_dict (JObj (to_dict r)) = Ok r.
Proof.
  intros H. unfold from_dict. rewrite H. clear H. destruct r. cbn.
  by rewrite !to_opt_obj_of, !to_opt_str_of.
Qed.

(** Every accepted snapshot is the record [from_dict] builds, field by field
    (a missing ['intent'] reads as [None]). *)
Lemma from_dict_fields d r :
  from_dict (JObj d) = Ok r ->
  forall f, f ∈ _LEDGER_FIELDS -> jget f (to_dict r) = jget f d.
Proof.
  unfold from_dict. rewrite rbind_Ok. intros (d' & H & [= <-]).
  pose proof (validate_snapshot_same _ _ H) as [= ->].
  apply validate_snapshot_fields in H as (Hs & _ & (a & Ha) & Ho & Hd).
  assert (S : forall f, str_in f ["intent_id"; "intent_digest"; "authenticated_subject_id";
                "execution_id"; "created_at"; "updated_at"; "status"] = true ->
              JStr (to_str (jget f d')) = jget f d').
  { intros f Hf%str_in_elem. by destruct (Hs f Hf) as (s & -> & _). }
  assert (O : forall f, str_in f ["receipt_digest"; "retry_of_intent_id"; "operation"] = true ->
              of_opt_str (to_opt_str (jget f d')) = jget f d').
  { intros f Hf%str_in_elem. by destruct (Ho f Hf) as [->|(s & -> & _)]. }
  assert (D : forall f, str_in f ["terminal_receipt"; "error"; "intent"] = true ->
              of_opt_obj (to_opt_obj (jget f d')) = jget f d').
  { intros f Hf%str_in_elem. by destruct (Hd f Hf) as [->|(o & ->)]. }
  assert (A : of_opt_obj (to_opt_obj (jget "admission_record" d')) = jget "admission_record" d')
    by by rewrite Ha.
  apply (proj1 (Forall_forall _ _)). unfold _LEDGER_FIELDS.
  repeat (apply Forall_cons_2;
    [cbn beta; first [apply S; reflexivity | apply O; reflexivity | apply D; reflexivity | apply A]|]).
  constructor.
Qed.

Lemma obj_eq_refl j : obj_eq j j = true.
Proof. unfold obj_eq. by rewrite bool_decide_eq_true_2. Qed.

Lemma obj_eq_str s t : obj_eq (JStr s) (JStr t) = true <-> s = t.
Proof.
  unfold obj_eq. rewrite orb_true_iff, bool_decide_eq_true, py_eq_str. naive_solver.
Qed.

Lemma record_eq_refl r : record_eq r r = true.
Proof. apply forallb_forall. intros. apply obj_eq_refl. Qed.

Lemma nonterminal_not_terminal s : s ∈ NONTERMINAL_STATUSES -> str_in s TERMINAL_STATUSES = false.
Proof. unfold NONTERMINAL_STATUSES. set_unfold. by intros [->|[->|[->|[]]]]. Qed.

(** The history check accepts exactly: the same record again, or, from a
    nonterminal status, a legal next status with every immutable field kept. *)
Lemma validate_history_Ok p c :
  _validate_history_transition p c = Ok tt <->
  Forall (fun f => field_eq p c f = true) immutable_fields /\
  (if str_in (lr_status p) TERMINAL_STATUSES || String.eqb (lr_status p) (lr_status c)
   then record_eq p c = true
   else lr_status c ∈ _LEGAL_TRANSITIONS (lr_status p)).
Proof.
  unfold _validate_history_transition. rewrite rbind_unit_Ok, rforall_Ok, !Forall_forall.
  setoid_rewrite require_Ok.
  destruct (str_in _ TERMINAL_STATUSES); cbn [orb]; rewrite ?require_Ok; [done|].
  destruct (String.eqb _ _); rewrite require_Ok, ?str_in_elem; done.
Qed.
