(* ===== verification/Ledger.v ===== *)
(** * The idempotency ledger ([IdempotencyLedger] of
    [deltacontroller/idempotency.py])

    Every method body runs under the ledger's lock, so it is one function on
    the state.  The log file is its text; the outcome of an append (done, or
    failed after some bytes reached the file) is an argument, as are the
    clock readings.  [acquire_or_check] gives up the lock while it waits: its
    loop takes the list of wake-ups, each with the clock reading of that
    iteration and what the other threads did to the ledger meanwhile. *)

From S2P Require Import Prelude PyFloat Json JsonText Text Sha256 Errors Canonical LedgerRecord.
Open Scope string_scope.
Open Scope py_scope.

Record Reservation := mkReservation {
  rs_intent_id : string;
  rs_intent_digest : string;
  rs_caller_subject_id : string;
  rs_created_at : string;
  rs_committed_record : option LedgerRecord;
  rs_failed : bool;
}.

Record IdempotencyLedger := mkLedger {
  persistence : option string;
  expected_producer_commit : option string;
  by_intent_id : odict LedgerRecord;
  by_digest : gmap string string;
  by_execution_id : gmap string string;
  reservations : odict Reservation;
  poisoned_reason : option exn;
}.

(** Assignments to the attributes *)
Definition set_persistence (p : option string) (l : IdempotencyLedger) :=
  mkLedger p (expected_producer_commit l) (by_intent_id l) (by_digest l) (by_execution_id l)
    (reservations l) (poisoned_reason l).
Definition set_indices (bi : odict LedgerRecord) (bd be : gmap string string)
  (l : IdempotencyLedger) :=
  mkLedger (persistence l) (expected_producer_commit l) bi bd be
    (reservations l) (poisoned_reason l).
Definition set_reservations (r : odict Reservation) (l : IdempotencyLedger) :=
  mkLedger (persistence l) (expected_producer_commit l) (by_intent_id l) (by_digest l)
    (by_execution_id l) r (poisoned_reason l).
Definition set_poisoned (e : exn) (l : IdempotencyLedger) :=
  mkLedger (persistence l) (expected_producer_commit l) (by_intent_id l) (by_digest l)
    (by_execution_id l) (reservations l) (Some e).

Definition mark_failed (r : Reservation) : Reservation :=
  mkReservation (rs_intent_id r) (rs_intent_digest r) (rs_caller_subject_id r)
    (rs_created_at r) (rs_committed_record r) true.

(** ** Persistence *)

(** What the file system does with one append. *)
Inductive append_outcome :=
| AppendOk
| AppendFails (written : nat) (e : exn).

Definition record_line (r : LedgerRecord) : string :=
  dumps_default (JObj (to_dict r)) +:+ String newline EmptyString.

Definition _persist_append (io : append_outcome) (r : LedgerRecord)
  : M IdempotencyLedger unit :=
  fun l =>
    match persistence l with
    | None => (l, Ok tt)
    | Some text =>
        let line := record_line r in
        match io with
        | AppendOk =>
            if encodable line then (set_persistence (Some (text +:+ line)) l, Ok tt)
            else (l, Raise (ValueErr "surrogates not allowed"))
        | AppendFails written e =>
            (set_persistence
               (Some (text +:+ if encodable line then str_take written line else EmptyString)) l,
             Raise e)
        end
    end.

Definition _raise_if_poisoned : M IdempotencyLedger unit :=
  fun l =>
    match poisoned_reason l with
    | Some _ => (l, Raise (RuntimeErr "Idempotency ledger is fail-closed"))
    | None => (l, Ok tt)
    end.

Definition poison (reservation_intent_id : option string) (e : exn)
  : M IdempotencyLedger unit :=
  fun l =>
    let l := set_poisoned e l in
    match reservation_intent_id with
    | None => (l, Ok tt)
    | Some k =>
        match od_get k (reservations l) with
        | None => (l, Ok tt)
        | Some r => (set_reservations (od_set k (mark_failed r) (reservations l)) l, Ok tt)
        end
    end.

Definition _persist_or_poison (io : append_outcome) (r : LedgerRecord)
  (reservation_intent_id : option string) : M IdempotencyLedger unit :=
  mon_error (_persist_append io r) (poison reservation_intent_id).

(** ** Checks against the committed records *)

Definition unauthorized : exn :=
  ControllerErr UnauthorizedCallerError "Caller subject is not authorized to query or replay intent".
Definition digest_conflict : exn :=
  ControllerErr IntentIdDigestConflictError "Payload digest conflicts with previously admitted digest".
Definition collision : exn :=
  ControllerErr IntentCollisionDetectedError "Digest was already submitted under another intent_id".
Definition unauthorized_in_flight : exn :=
  ControllerErr UnauthorizedCallerError "Caller subject is not authorized to access in-flight intent".
Definition digest_conflict_in_flight : exn :=
  ControllerErr IntentIdDigestConflictError "Payload digest conflicts with in-flight digest".
Definition collision_in_flight : exn :=
  ControllerErr IntentCollisionDetectedError "Digest is currently reserved under another intent_id".

Definition check_committed (intent_id intent_digest caller_subject_id : string)
  (l : IdempotencyLedger) : result exn (option LedgerRecord) :=
  match od_get intent_id (by_intent_id l) with
  | Some existing =>
      if negb (String.eqb (lr_authenticated_subject_id existing) caller_subject_id)
      then Raise unauthorized
      else if negb (String.eqb (lr_intent_digest existing) intent_digest)
      then Raise digest_conflict
      else Ok (Some existing)
  | None =>
      match by_digest l !! intent_digest with
      | Some prior_intent_id =>
          if negb (String.eqb prior_intent_id intent_id) then Raise collision else Ok None
      | None => Ok None
      end
  end.

Definition check_intent (intent_id intent_digest caller_subject_id : string)
  : M IdempotencyLedger (option LedgerRecord) :=
  _raise_if_poisoned ;!
  do! l := mget in mlift (check_committed intent_id intent_digest caller_subject_id l).

(** ** Acquiring a reservation *)

Inductive acquire_outcome :=
| Committed (r : LedgerRecord)
| Reserved
| Waiting.

(** One pass of the [while True] body; [monotonic] is the clock reading of an
    iteration that finds an identical reservation in flight. *)
Definition acquire_iteration (intent_id intent_digest caller_subject_id now : string)
  (deadline monotonic : Z) : M IdempotencyLedger acquire_outcome :=
  _raise_if_poisoned ;!
  do! l := mget in
  do! existing := mlift (check_committed intent_id intent_digest caller_subject_id l) in
  match existing with
  | Some r => mret (Committed r)
  | None =>
      match od_get intent_id (reservations l) with
      | Some res =>
          if negb (String.eqb (rs_caller_subject_id res) caller_subject_id)
          then mraise unauthorized_in_flight
          else if negb (String.eqb (rs_intent_digest res) intent_digest)
          then mraise digest_conflict_in_flight
          else if (deadline - monotonic <=? 0)%Z
          then mraise (TimeoutErr "Timed out waiting for in-flight intent")
          else mret Waiting
      | None =>
          if existsb (fun r => String.eqb (rs_intent_digest r) intent_digest
                               && negb (String.eqb (rs_intent_id r) intent_id))
               (od_values (reservations l))
          then mraise collision_in_flight
          else
            mput (set_reservations
                    (od_set intent_id
                       (mkReservation intent_id intent_digest caller_subject_id now None false)
                       (reservations l)) l) ;!
            mret Reserved
      end
  end.

(** A wake-up from [self._cond.wait]: what the other threads did, then the
    clock reading of the next iteration. *)
Record wakeup := mkWakeup {
  others : IdempotencyLedger -> IdempotencyLedger;
  monotonic_at : Z;
}.

(** The loop; [Ok None] is a caller still waiting when the listed wake-ups end. *)
Fixpoint acquire_loop (intent_id intent_digest caller_subject_id now : string)
  (deadline monotonic : Z) (wakes : list wakeup)
  : M IdempotencyLedger (option (option LedgerRecord)) :=
  do! outcome := acquire_iteration intent_id intent_digest caller_subject_id now deadline monotonic in
  match outcome with
  | Committed r => mret (Some (Some r))
  | Reserved => mret (Some None)
  | Waiting =>
      match wakes with
      | [] => mret None
      | w :: rest =>
          mmodify (others w) ;!
          acquire_loop intent_id intent_digest caller_subject_id now deadline (monotonic_at w) rest
      end
  end.

Definition acquire_or_check (intent_id intent_digest caller_subject_id now : string)
  (timeout start : Z) (wakes : list wakeup)
  : M IdempotencyLedger (option (option LedgerRecord)) :=
  acquire_loop intent_id intent_digest caller_subject_id now (start + timeout) start wakes.

(** ** Committing and releasing *)

Definition release_reservation (intent_id : string) : M IdempotencyLedger unit :=
  do! l := mget in
  match poisoned_reason l with
  | Some _ => mret tt
  | None => mput (set_reservations (od_pop intent_id (reservations l)) l)
  end.

Section Ledger.
Context `{SchemaValidator}.

Definition commit_admission (intent_id intent_digest caller_subject_id execution_id : string)
  (admission_record : odict json) (intent : option (odict json))
  (retry_of_intent_id operation : option string) (status now : string) (io : append_outcome)
  : M IdempotencyLedger LedgerRecord :=
  mrequire (String.eqb status "ADMITTED")
    (ValueErr "A durable ledger history must begin with status 'ADMITTED'") ;!
  _raise_if_poisoned ;!
  do! l := mget in
  match od_get intent_id (reservations l) with
  | None => mraise (RuntimeErr "No active reservation for intent")
  | Some reservation =>
      mrequire (String.eqb (rs_intent_digest reservation) intent_digest
                && String.eqb (rs_caller_subject_id reservation) caller_subject_id)
        (RuntimeErr "Reservation identity mismatch for intent") ;!
      mrequire (negb (od_mem intent_id (by_intent_id l)))
        (RuntimeErr "Intent was committed while reserved") ;!
      let record :=
        {| lr_intent_id := intent_id;
           lr_intent_digest := intent_digest;
           lr_authenticated_subject_id := caller_subject_id;
           lr_execution_id := execution_id;
           lr_status := status;
           lr_created_at := now;
           lr_updated_at := now;
           lr_admission_record := Some admission_record;
           lr_receipt_digest := None;
           lr_terminal_receipt := None;
           lr_error := None;
           lr_retry_of_intent_id := retry_of_intent_id;
           lr_operation := operation;
           lr_intent := intent |} in
      mlift (_validate_snapshot_schema (JObj (to_dict record))) ;!
      mlift (_validate_terminal_invariants record None) ;!
      _persist_or_poison io record (Some intent_id) ;!
      mmodify (fun l =>
        set_reservations (od_pop intent_id (reservations l))
          (set_indices (od_set intent_id record (by_intent_id l))
             (<[intent_digest := intent_id]> (by_digest l))
             (<[execution_id := intent_id]> (by_execution_id l)) l)) ;!
      mret record
  end.

Definition record_admission (intent_id intent_digest caller_subject_id execution_id : string)
  (admission_record : odict json) (intent : option (odict json))
  (retry_of_intent_id operation : option string) (now : string) (start : Z)
  (wakes : list wakeup) (io : append_outcome) : M IdempotencyLedger (option LedgerRecord) :=
  do! acquired := acquire_or_check intent_id intent_digest caller_subject_id now 30000 start wakes in
  match acquired with
  | None => mret None
  | Some (Some existing) => mret (Some existing)
  | Some None =>
      do! r := mon_error
        (commit_admission intent_id intent_digest caller_subject_id execution_id
           admission_record intent retry_of_intent_id operation "ADMITTED" now io)
        (fun _ => release_reservation intent_id) in
      mret (Some r)
  end.

(** ** Status transitions *)

Definition no_artifacts (receipt_digest : option string)
  (terminal_receipt error : option (odict json)) : bool :=
  match receipt_digest, terminal_receipt, error with None, None, None => true | _, _, _ => false end.

(** The artifacts stored with the next status *)
Definition next_artifacts (status : string) (receipt_digest : option string)
  (terminal_receipt error : option (odict json))
  : result exn (option string * option (odict json) * option (odict json)) :=
  if String.eqb status "COMPLETED" then Ok (receipt_digest, terminal_receipt, None)
  else if str_in status ["FAILED"; "TIMED_OUT"; "CANCELLED"] then
    match error with
    | None => Raise (ValueErr "error is required for terminal status")
    | Some e => Ok (None, None, Some e)
    end
  else if no_artifacts receipt_digest terminal_receipt error then Ok (None, None, None)
  else Raise (ValueErr "Nonterminal status cannot contain terminal artifacts").

(** [dataclasses.replace(record, ...)] *)
Definition replace_status (r : LedgerRecord) (status updated_at : string)
  (artifacts : option string * option (odict json) * option (odict json)) : LedgerRecord :=
  {| lr_intent_id := lr_intent_id r;
     lr_intent_digest := lr_intent_digest r;
     lr_authenticated_subject_id := lr_authenticated_subject_id r;
     lr_execution_id := lr_execution_id r;
     lr_status := status;
     lr_created_at := lr_created_at r;
     lr_updated_at := updated_at;
     lr_admission_record := lr_admission_record r;
     lr_receipt_digest := artifacts.1.1;
     lr_terminal_receipt := artifacts.1.2;
     lr_error := artifacts.2;
     lr_retry_of_intent_id := lr_retry_of_intent_id r;
     lr_operation := lr_operation r;
     lr_intent := lr_intent r |}.

Definition lookup_execution (execution_id : string) (l : IdempotencyLedger)
  : result exn (string * LedgerRecord) :=
  match by_execution_id l !! execution_id with
  | None => Raise (KeyErr "Unknown execution_id")
  | Some intent_id =>
      if String.eqb intent_id EmptyString then Raise (KeyErr "Unknown execution_id")
      else match od_get intent_id (by_intent_id l) with
           | None => Raise (KeyErr intent_id)
           | Some r => Ok (intent_id, r)
           end
  end.

Definition transition_execution (execution_id : string) (expected_statuses : list string)
  (status : string) (receipt_digest : option string)
  (terminal_receipt error : option (odict json)) (now : string) (io : append_outcome)
  : M IdempotencyLedger (option LedgerRecord) :=
  mrequire (str_in status KNOWN_STATUSES) (ValueErr "Unknown execution status") ;!
  mrequire (match expected_statuses with [] => false | _ => true end
            && forallb (fun s => str_in s KNOWN_STATUSES) expected_statuses)
    (ValueErr "expected_statuses must contain only known execution statuses") ;!
  _raise_if_poisoned ;!
  do! l := mget in
  do! found := mlift (lookup_execution execution_id l) in
  let intent_id := found.1 in
  let record := found.2 in
  if negb (str_in (lr_status record) expected_statuses) then mret None
  else if str_in (lr_status record) TERMINAL_STATUSES then
    if String.eqb (lr_status record) status && no_artifacts receipt_digest terminal_receipt error
    then mret (Some record) else mret None
  else if String.eqb (lr_status record) status && no_artifacts receipt_digest terminal_receipt error
  then mret (Some record)
  else
    mrequire (str_in status (_LEGAL_TRANSITIONS (lr_status record)))
      (ValueErr "Illegal execution status transition") ;!
    do! artifacts := mlift (next_artifacts status receipt_digest terminal_receipt error) in
    let next_record := replace_status record status now artifacts in
    mlift (_validate_snapshot_schema (JObj (to_dict next_record))) ;!
    mlift (_validate_terminal_invariants next_record (expected_producer_commit l)) ;!
    mlift (_validate_history_transition record next_record) ;!
    _persist_or_poison io next_record None ;!
    mmodify (fun l => set_indices (od_set intent_id next_record (by_intent_id l))
                        (by_digest l) (by_execution_id l) l) ;!
    mret (Some next_record).

(** ** Reads *)

Definition get_by_intent_id (intent_id : string) (l : IdempotencyLedger) : option LedgerRecord :=
  od_get intent_id (by_intent_id l).

Definition get_by_execution_id (execution_id : string) (l : IdempotencyLedger)
  : option LedgerRecord :=
  match by_execution_id l !! execution_id with
  | None => None
  | Some intent_id =>
      if String.eqb intent_id EmptyString then None else od_get intent_id (by_intent_id l)
  end.

Definition update_execution (execution_id status : string) (receipt_digest : option string)
  (terminal_receipt error : option (odict json)) (now : string) (io : append_outcome)
  : M IdempotencyLedger LedgerRecord :=
  do! transitioned :=
    transition_execution execution_id (NONTERMINAL_STATUSES ++ [status])%list status
      receipt_digest terminal_receipt error now io in
  match transitioned with
  | Some r => mret r
  | None =>
      do! l := mget in
      match get_by_execution_id execution_id l with
      | Some existing => mret existing
      | None => mraise (KeyErr "Unknown execution_id")
      end
  end.

Definition get_receipt_for_subject (execution_id authenticated_subject_id : string)
  (l : IdempotencyLedger) : result exn (option (odict json)) :=
  match get_by_execution_id execution_id l with
  | None => Ok None
  | Some r =>
      if negb (String.eqb (lr_authenticated_subject_id r) authenticated_subject_id)
      then Raise (ControllerErr UnauthorizedCallerError "Subject cannot read execution")
      else Ok (lr_terminal_receipt r)
  end.

Definition list_records : M IdempotencyLedger (list LedgerRecord) :=
  _raise_if_poisoned ;! do! l := mget in mret (od_values (by_intent_id l)).

Definition is_nonterminal (r : LedgerRecord) : bool := str_in (lr_status r) NONTERMINAL_STATUSES.

Definition list_nonterminal_records : M IdempotencyLedger (list LedgerRecord) :=
  do! rs := list_records in mret (filter is_nonterminal rs).

(** Reservations before the caller's, [None] when it holds none *)
Fixpoint reservations_before (intent_id : string) (rs : odict Reservation) : option nat :=
  match rs with
  | [] => None
  | (k, _) :: rest =>
      if String.eqb k intent_id then Some O
      else match reservations_before intent_id rest with Some n => Some (S n) | None => None end
  end.

Definition nonterminal_count (l : IdempotencyLedger) : nat :=
  length (filter is_nonterminal (od_values (by_intent_id l))).

Definition active_count (reservation_intent_id : option string) : M IdempotencyLedger nat :=
  _raise_if_poisoned ;!
  do! l := mget in
  let count := nonterminal_count l in
  match reservation_intent_id with
  | None => mret (count + length (reservations l))%nat
  | Some k =>
      match reservations_before k (reservations l) with
      | Some n => mret (count + n)%nat
      | None => mraise (KeyErr "Unknown reservation intent_id")
      end
  end.

(** ** Reading the log back *)

Definition empty_ledger (persistence expected : option string) : IdempotencyLedger :=
  mkLedger persistence expected [] ∅ ∅ [] None.

(** One snapshot applied to the indices, after its history checks *)
Definition apply_snapshot (r : LedgerRecord) (l : IdempotencyLedger)
  : result exn IdempotencyLedger :=
  match od_get (lr_intent_id r) (by_intent_id l) with
  | None =>
      require (String.eqb (lr_status r) "ADMITTED")
        (ValueErr "first status for intent_id must be ADMITTED")
  | Some previous =>
      wrap_if is_value_err (_validate_history_transition previous r)
        (ValueErr "Invalid idempotency ledger snapshot")
  end ;?
  require (match by_digest l !! lr_intent_digest r with
           | Some owner => String.eqb owner (lr_intent_id r)
           | None => true
           end) (ValueErr "Ledger digest is owned by multiple intents") ;?
  require (match by_execution_id l !! lr_execution_id r with
           | Some owner => String.eqb owner (lr_intent_id r)
           | None => true
           end) (ValueErr "Ledger execution_id is owned by multiple intents") ;?
  Ok (set_indices (od_set (lr_intent_id r) r (by_intent_id l))
        (<[lr_intent_digest r := lr_intent_id r]> (by_digest l))
        (<[lr_execution_id r := lr_intent_id r]> (by_execution_id l)) l).

Definition parse_snapshot (expected : option string) (line : string)
  : result exn LedgerRecord :=
  wrap_if is_key_type_value_err
    (let? data := match loads false line with
                  | Some j => Ok j
                  | None => Raise (ValueErr "json")
                  end in
     let? checked := _validate_snapshot_schema data in
     let? r := from_dict (JObj checked) in
     _validate_terminal_invariants r expected ;?
     Ok r)
    (ValueErr "Invalid idempotency ledger snapshot").

Definition load_line (line : string) (l : IdempotencyLedger) : result exn IdempotencyLedger :=
  let line := strip line in
  if String.eqb line EmptyString then Ok l
  else let? r := parse_snapshot (expected_producer_commit l) line in apply_snapshot r l.

Fixpoint load_lines (lines : list string) (l : IdempotencyLedger)
  : result exn IdempotencyLedger :=
  match lines with
  | [] => Ok l
  | line :: rest => let? l' := load_line line l in load_lines rest l'
  end.

Definition _load_from_disk (text : string) (l : IdempotencyLedger)
  : result exn IdempotencyLedger :=
  require (encodable text) (ValueErr "invalid UTF-8") ;?
  load_lines (split_lines text) l.

(** The constructor, [persistence] being the content of an existing file. *)
Definition new_ledger (persistence : option string) (expected : option string)
  : result exn IdempotencyLedger :=
  require (match expected with Some c => lower_hex 40 c | None => true end)
    (ValueErr "expected_producer_commit must be a 40-character lowercase build SHA") ;?
  match persistence with
  | None => Ok (empty_ledger None expected)
  | Some text => _load_from_disk text (empty_ledger (Some text) expected)
  end.
End Ledger.
