(* ===== verification/LedgerInv.v ===== *)
(** * What every method does to the ledger, and the index invariant

    One lemma per method that says which states it can leave behind
    ([acquire_cases], [commit_cases], [transition_cases]), the coherence
    invariant of the three indices and the reservations, and its preservation. *)

From S2P Require Import Prelude PyFloat Json JsonText Text Sha256 Errors Canonical LedgerRecord Ledger.
Open Scope string_scope.
Open Scope py_scope.

Section LedgerInv.
Context `{SchemaValidator}.

(** ** Effects of the methods *)

(** The log after a successful append *)
Definition appended (r : LedgerRecord) (p : option string) : option string :=
  match p with Some text => Some (text +:+ record_line r) | None => None end.

(** The log after a failed one: some first bytes of the line may be there. *)
Definition failed_log (io : append_outcome) (r : LedgerRecord) (p : option string) : option string :=
  match p with
  | None => None
  | Some text =>
      match io with
      | AppendOk => Some text
      | AppendFails n _ =>
          Some (text +:+ if encodable (record_line r) then str_take n (record_line r) else EmptyString)
      end
  end.

Definition mark_reservation (k : option string) (l : IdempotencyLedger) : IdempotencyLedger :=
  match k with
  | None => l
  | Some k => match od_get k (reservations l) with
              | None => l
              | Some r => set_reservations (od_set k (mark_failed r) (reservations l)) l
              end
  end.

(** An append succeeds and only the log grows, or the ledger is poisoned. *)
Lemma persist_cases io r k l l' res :
  _persist_or_poison io r k l = (l', res) ->
  (res = Ok tt /\ l' = set_persistence (appended r (persistence l)) l /\
   (persistence l <> None -> encodable (record_line r) = true /\ io = AppendOk)) \/
  (exists e, res = Raise e /\
     l' = mark_reservation k (set_poisoned e (set_persistence (failed_log io r (persistence l)) l))).
Proof.
  unfold _persist_or_poison, mon_error, _persist_append, appended, failed_log.
  assert (P : forall e p, poison k e (set_persistence p l)
              = (mark_reservation k (set_poisoned e (set_persistence p l)), Ok tt)).
  { intros e p. unfold poison, mark_reservation. destruct k as [k|]; [|done]. cbn.
    by destruct (od_get k (reservations l)). }
  destruct (persistence l) as [text|] eqn:Pl.
  - destruct io as [|n e]; [destruct (encodable (record_line r))|].
    + intros [= <- <-]. left. eauto.
    + assert (E : l = set_persistence (Some text) l) by (rewrite <- Pl; by destruct l).
      rewrite E at 1. rewrite P. intros [= <- <-]. right. eauto.
    + rewrite P. intros [= <- <-]. right. eauto.
  - intros [= <- <-]. left. split; [done|]. split; [|done]. rewrite <- Pl. by destruct l.
Qed.

Lemma check_committed_Ok id dg who l o :
  check_committed id dg who l = Ok o ->
  od_get id (by_intent_id l) = o /\
  match o with
  | Some r => lr_authenticated_subject_id r = who /\ lr_intent_digest r = dg
  | None => forall k, by_digest l !! dg = Some k -> k = id
  end.
Proof.
  unfold check_committed. destruct (od_get id (by_intent_id l)) as [r|].
  - destruct (String.eqb_spec (lr_authenticated_subject_id r) who); [|done].
    destruct (String.eqb_spec (lr_intent_digest r) dg); [|done]. by intros [= <-].
  - destruct (by_digest l !! dg) as [k|]; [|intros [= <-]; by split].
    destruct (String.eqb_spec k id); [|done]. intros [= <-]. split; [done|]. congruence.
Qed.

Definition new_reservation (id dg who now : string) : Reservation :=
  mkReservation id dg who now None false.

Lemma poisoned_raise l e : poisoned_reason l = Some e ->
  _raise_if_poisoned l = (l, Raise (RuntimeErr "Idempotency ledger is fail-closed")).
Proof. unfold _raise_if_poisoned. by intros ->. Qed.

Lemma not_poisoned l : poisoned_reason l = None -> _raise_if_poisoned l = (l, Ok tt).
Proof. unfold _raise_if_poisoned. by intros ->. Qed.

(** [acquire_iteration] changes the ledger only when it takes a reservation,
    and takes one only for an intent and a digest nobody holds. *)
Lemma acquire_cases id dg who now dl t l l' res :
  acquire_iteration id dg who now dl t l = (l', res) ->
  (l' = l /\ res <> Ok Reserved) \/
  (res = Ok Reserved /\ poisoned_reason l = None /\
   l' = set_reservations (od_set id (new_reservation id dg who now) (reservations l)) l /\
   od_get id (by_intent_id l) = None /\ od_get id (reservations l) = None /\
   (forall k, by_digest l !! dg = Some k -> k = id) /\
   (forall k r, (k, r) ∈ reservations l -> rs_intent_digest r = dg -> rs_intent_id r = id)).
Proof.
  unfold acquire_iteration, mbind at 1, _raise_if_poisoned.
  destruct (poisoned_reason l) eqn:P; [intros [= <- <-]; by left|].
  unfold mbind, mget, mlift, mret, mraise, mput.
  destruct (check_committed id dg who l) as [o|] eqn:C; [|intros [= <- <-]; by left].
  apply check_committed_Ok in C as [Hi Ho]. destruct o as [r|]; [intros [= <- <-]; by left|].
  destruct (od_get id (reservations l)) as [rs|] eqn:R.
  - repeat case_match; intros [= <- <-]; by left.
  - destruct (existsb _ _) eqn:X; intros [= <- <-]; [by left|right]. repeat (split; [done|]).
    intros k r Hin Hd. destruct (decide (rs_intent_id r = id)) as [|Hne]; [done|exfalso].
    enough (existsb (fun r => String.eqb (rs_intent_digest r) dg && negb (String.eqb (rs_intent_id r) id))
             (od_values (reservations l)) = true) by congruence.
    apply existsb_exists. exists r. split.
    + apply list_elem_of_In. apply list_elem_of_fmap. by exists (k, r).
    + rewrite Hd, String.eqb_refl. cbn. by apply negb_true_iff, String.eqb_neq.
Qed.

Lemma release_cases id l l' res :
  release_reservation id l = (l', res) ->
  res = Ok tt /\
  ((l' = l /\ poisoned_reason l <> None) \/
   (poisoned_reason l = None /\ l' = set_reservations (od_pop id (reservations l)) l)).
Proof.
  unfold release_reservation, mbind, mget, mret, mput.
  destruct (poisoned_reason l); intros [= <- <-]; naive_solver.
Qed.

Definition admitted_record (id dg who exec : string) (adm : odict json)
  (intent : option (odict json)) (retry op : option string) (now : string) : LedgerRecord :=
  {| lr_intent_id := id; lr_intent_digest := dg; lr_authenticated_subject_id := who;
     lr_execution_id := exec; lr_status := "ADMITTED"; lr_created_at := now;
     lr_updated_at := now; lr_admission_record := Some adm; lr_receipt_digest := None;
     lr_terminal_receipt := None; lr_error := None; lr_retry_of_intent_id := retry;
     lr_operation := op; lr_intent := intent |}.

(** A record that passes the checks made before every append *)
Definition record_ok (expected : option string) (r : LedgerRecord) : Prop :=
  _validate_snapshot_schema (JObj (to_dict r)) = Ok (to_dict r) /\
  _validate_terminal_invariants r expected = Ok tt.

Definition committed_state (id : string) (r : LedgerRecord) (l : IdempotencyLedger) :=
  set_reservations (od_pop id (reservations l))
    (set_indices (od_set id r (by_intent_id l))
       (<[lr_intent_digest r := id]> (by_digest l))
       (<[lr_execution_id r := id]> (by_execution_id l))
       (set_persistence (appended r (persistence l)) l)).

Lemma commit_cases id dg who exec adm intent retry op st now io l l' res :
  commit_admission id dg who exec adm intent retry op st now io l = (l', res) ->
  let r := admitted_record id dg who exec adm intent retry op now in
  (l' = l /\ exists e, res = Raise e) \/
  (st = "ADMITTED" /\ poisoned_reason l = None /\ od_get id (by_intent_id l) = None /\
   (exists rs, od_get id (reservations l) = Some rs /\ rs_intent_digest rs = dg /\
               rs_caller_subject_id rs = who) /\
   record_ok None r /\
   ((res = Ok r /\ l' = committed_state id r l /\
     (persistence l <> None -> encodable (record_line r) = true /\ io = AppendOk)) \/
    (exists e, res = Raise e /\
       l' = mark_reservation (Some id)
              (set_poisoned e (set_persistence (failed_log io r (persistence l)) l))))).
Proof.
  unfold commit_admission, mrequire, mlift. unfold mbind at 1.
  destruct (String.eqb_spec st "ADMITTED") as [->|]; [|intros [= <- <-]; left; eauto].
  cbn [require]. unfold mbind at 1, _raise_if_poisoned.
  destruct (poisoned_reason l) eqn:P; [intros [= <- <-]; left; eauto|].
  unfold mbind at 1, mget.
  destruct (od_get id (reservations l)) as [rs|] eqn:R; [|intros [= <- <-]; left; eauto].
  unfold mbind at 1. destruct (String.eqb_spec (rs_intent_digest rs) dg) as [Hd|]; cbn [andb require];
    [|intros [= <- <-]; left; eauto].
  destruct (String.eqb_spec (rs_caller_subject_id rs) who) as [Hw|]; cbn [require];
    [|intros [= <- <-]; left; eauto].
  unfold mbind at 1, od_mem. destruct (od_get id (by_intent_id l)) eqn:B; cbn [negb require];
    [intros [= <- <-]; left; eauto|].
  fold (admitted_record id dg who exec adm intent retry op now).
  set (r := admitted_record id dg who exec adm intent retry op now).
  unfold mbind at 1. destruct (_validate_snapshot_schema (JObj (to_dict r))) as [d|] eqn:V;
    [|intros [= <- <-]; left; eauto].
  unfold mbind at 1. destruct (_validate_terminal_invariants r None) as [[]|] eqn:T;
    [|intros [= <- <-]; left; eauto].
  pose proof (validate_snapshot_same _ _ V) as [= <-].
  unfold mbind at 1. destruct (_persist_or_poison io r (Some id) l) as [l1 res1] eqn:E.
  apply persist_cases in E as [(-> & -> & Hp)|(e & -> & ->)]; intros [= <- <-]; right;
    repeat (split; [by eauto|]); [left|right; eauto].
  split; [done|]. split; [done|exact Hp].
Qed.

Definition transitioned_state (id : string) (r : LedgerRecord) (l : IdempotencyLedger) :=
  set_indices (od_set id r (by_intent_id l)) (by_digest l) (by_execution_id l)
    (set_persistence (appended r (persistence l)) l).

(** [transition_execution] appends exactly one validated legal successor of the
    current record, or leaves the ledger as it is, or poisons it. *)
Lemma transition_cases exec exp st rd tr err now io l l' res :
  transition_execution exec exp st rd tr err now io l = (l', res) ->
  (l' = l /\
   ((exists e, res = Raise e) \/ res = Ok None \/
    (exists id r, lookup_execution exec l = Ok (id, r) /\ res = Ok (Some r) /\
                  lr_status r = st /\ lr_status r ∈ exp))) \/
  (poisoned_reason l = None /\
   exists id r art, lookup_execution exec l = Ok (id, r) /\ lr_status r ∈ exp /\
     (lr_status r ∉ TERMINAL_STATUSES) /\ st ∈ _LEGAL_TRANSITIONS (lr_status r) /\
     next_artifacts st rd tr err = Ok art /\
     let r' := replace_status r st now art in
     record_ok (expected_producer_commit l) r' /\
     _validate_history_transition r r' = Ok tt /\
     ((res = Ok (Some r') /\ l' = transitioned_state id r' l /\
       (persistence l <> None -> encodable (record_line r') = true /\ io = AppendOk)) \/
      (exists e, res = Raise e /\
         l' = set_poisoned e (set_persistence (failed_log io r' (persistence l)) l)))).
Proof.
  unfold transition_execution, mrequire, mlift. unfold mbind at 1.
  destruct (str_in st KNOWN_STATUSES); [|intros [= <- <-]; left; eauto].
  cbn [require]. unfold mbind at 1.
  destruct (andb _ (forallb _ exp)); cbn [require]; [|intros [= <- <-]; left; eauto].
  unfold mbind at 1, _raise_if_poisoned.
  destruct (poisoned_reason l) eqn:P; [intros [= <- <-]; left; eauto|].
  unfold mbind at 1, mget. unfold mbind at 1.
  destruct (lookup_execution exec l) as [[id r]|] eqn:L; [|intros [= <- <-]; left; eauto].
  cbn [fst snd]. destruct (str_in (lr_status r) exp) eqn:X; cbn [negb];
    [|intros [= <- <-]; left; eauto].
  apply str_in_elem in X as Xin.
  unfold mret. destruct (str_in (lr_status r) TERMINAL_STATUSES) eqn:Te.
  { destruct (String.eqb_spec (lr_status r) st); cbn [andb]; [case_match|];
      intros [= <- <-]; left; eauto 10. }
  destruct (String.eqb (lr_status r) st && _) eqn:Same.
  { apply andb_true_iff in Same as [Same%String.eqb_eq _]. intros [= <- <-]. left. eauto 10. }
  unfold mbind at 1. destruct (str_in st (_LEGAL_TRANSITIONS _)) eqn:Lg; cbn [require];
    [|intros [= <- <-]; left; eauto].
  unfold mbind at 1. destruct (next_artifacts st rd tr err) as [art|] eqn:A;
    [|intros [= <- <-]; left; eauto].
  unfold mbind at 1. set (r' := replace_status r st now art).
  destruct (_validate_snapshot_schema (JObj (to_dict r'))) as [d|] eqn:V;
    [|intros [= <- <-]; left; eauto].
  unfold mbind at 1. destruct (_validate_terminal_invariants r' _) as [[]|] eqn:T;
    [|intros [= <- <-]; left; eauto].
  unfold mbind at 1. destruct (_validate_history_transition r r') as [[]|] eqn:Hi;
    [|intros [= <- <-]; left; eauto].
  pose proof (validate_snapshot_same _ _ V) as [= <-].
  apply str_in_elem in X, Lg. rewrite <- not_true_iff_false, str_in_elem in Te.
  unfold mbind at 1. destruct (_persist_or_poison io r' None l) as [l1 res1] eqn:E.
  apply persist_cases in E as [(-> & -> & Hp)|(e & -> & ->)]; intros [= <- <-]; right;
    (split; [done|]; exists id, r, art; do 7 (split; [by eauto|])); [left|right; eauto].
  split; [done|]. split; [done|exact Hp].
Qed.

(** ** The invariant *)

Record ledger_inv (l : IdempotencyLedger) : Prop := {
  inv_wf : od_wf (by_intent_id l);
  (** every record is found under its three keys and passes validation *)
  inv_record : forall k r, od_get k (by_intent_id l) = Some r ->
    lr_intent_id r = k /\ by_digest l !! lr_intent_digest r = Some k /\
    by_execution_id l !! lr_execution_id r = Some k /\
    record_ok (expected_producer_commit l) r;
  (** the reverse indices point at records that carry the key *)
  inv_digest : forall d k, by_digest l !! d = Some k ->
    exists r, od_get k (by_intent_id l) = Some r /\ lr_intent_digest r = d;
  inv_exec : forall e k, by_execution_id l !! e = Some k ->
    exists r, od_get k (by_intent_id l) = Some r /\ lr_execution_id r = e;
  (** a reservation excludes a record and any other holder of its digest *)
  inv_res_wf : od_wf (reservations l);
  inv_res : forall k rs, od_get k (reservations l) = Some rs ->
    rs_intent_id rs = k /\ od_get k (by_intent_id l) = None /\
    by_digest l !! rs_intent_digest rs = None;
  inv_res_digest : forall k1 k2 r1 r2,
    od_get k1 (reservations l) = Some r1 -> od_get k2 (reservations l) = Some r2 ->
    rs_intent_digest r1 = rs_intent_digest r2 -> k1 = k2;
}.

Lemma inv_empty p ex : ledger_inv (empty_ledger p ex).
Proof.
  constructor; cbn; try done; try apply NoDup_nil_2.
Qed.

Lemma inv_set_persistence p l : ledger_inv l -> ledger_inv (set_persistence p l).
Proof. by intros []; constructor. Qed.

Lemma inv_set_poisoned e l : ledger_inv l -> ledger_inv (set_poisoned e l).
Proof. by intros []; constructor. Qed.

Lemma inv_mark k l : ledger_inv l -> ledger_inv (mark_reservation k l).
Proof.
  intros Hi. unfold mark_reservation. destruct k as [k|]; [|done].
  destruct (od_get k (reservations l)) as [rs|] eqn:E; [|done].
  assert (G : forall k' r, od_get k' (od_set k (mark_failed rs) (reservations l)) = Some r ->
              exists r0, od_get k' (reservations l) = Some r0 /\
                rs_intent_id r0 = rs_intent_id r /\ rs_intent_digest r0 = rs_intent_digest r).
  { intros k' r. rewrite od_get_set. destruct (String.eqb_spec k' k) as [->|]; [|eauto].
    intros [= <-]. eauto. }
  destruct Hi. constructor; cbn; try done.
  - auto with delta.
  - intros k' r (r0 & Hr & <- & <-)%G. eauto.
  - intros k1 k2 r1 r2 (s1 & H1 & _ & <-)%G (s2 & H2 & _ & <-)%G. eauto.
Qed.

Lemma inv_reserve id dg who now l :
  ledger_inv l ->
  od_get id (by_intent_id l) = None -> od_get id (reservations l) = None ->
  (forall k, by_digest l !! dg = Some k -> k = id) ->
  (forall k r, (k, r) ∈ reservations l -> rs_intent_digest r = dg -> rs_intent_id r = id) ->
  ledger_inv (set_reservations (od_set id (new_reservation id dg who now) (reservations l)) l).
Proof.
  intros [] Hb Hr Hd Ho.
  assert (Hdg : by_digest l !! dg = None).
  { destruct (by_digest l !! dg) as [k|] eqn:E; [|done]. pose proof (Hd k eq_refl) as ->.
    destruct (inv_digest0 _ _ E) as (r & G & _). congruence. }
  assert (Hfree : forall k r, od_get k (reservations l) = Some r -> rs_intent_digest r <> dg).
  { intros k r G E. pose proof (Ho _ _ (od_get_In _ _ _ G) E) as E2.
    destruct (inv_res0 _ _ G) as (E3 & _). congruence. }
  constructor; cbn; try done.
  - auto with delta.
  - intros k rs. rewrite od_get_set. destruct (String.eqb_spec k id) as [->|]; [|eauto].
    intros [= <-]. done.
  - intros k1 k2 r1 r2. rewrite !od_get_set.
    destruct (String.eqb_spec k1 id) as [->|], (String.eqb_spec k2 id) as [->|]; try done; eauto.
    + intros [= <-] G2 E. by destruct (Hfree _ _ G2).
    + intros G1 [= <-] E. by destruct (Hfree _ _ G1).
Qed.

Lemma inv_release id l : ledger_inv l -> ledger_inv (set_reservations (od_pop id (reservations l)) l).
Proof.
  intros [].
  assert (G : forall k r, od_get k (od_pop id (reservations l)) = Some r ->
                          od_get k (reservations l) = Some r).
  { intros k r. destruct (decide (k = id)) as [->|]; [by rewrite od_get_pop_eq|].
    by rewrite od_get_pop_ne. }
  constructor; cbn; eauto. auto with delta.
Qed.

Lemma inv_commit id r l rs :
  ledger_inv l -> od_get id (reservations l) = Some rs -> rs_intent_digest rs = lr_intent_digest r ->
  lr_intent_id r = id -> by_execution_id l !! lr_execution_id r = None ->
  record_ok (expected_producer_commit l) r ->
  ledger_inv (committed_state id r l).
Proof.
  intros Hi Hrs Hd <- He Hok. pose proof (inv_res _ Hi _ _ Hrs) as (_ & Hb & Hdn).
  rewrite Hd in Hdn.
  assert (G : forall k rr, od_get k (od_pop (lr_intent_id r) (reservations l)) = Some rr ->
                od_get k (reservations l) = Some rr /\ k <> lr_intent_id r).
  { intros k rr. destruct (decide (k = lr_intent_id r)) as [->|];
      [rewrite od_get_pop_eq; [done|apply Hi]|]. by rewrite od_get_pop_ne. }
  destruct Hi. constructor; cbn.
  - auto with delta.
  - intros k r2. rewrite od_get_set. destruct (String.eqb_spec k (lr_intent_id r)) as [->|Hne].
    + intros [= <-]. by rewrite !lookup_insert_eq.
    + intros G2. destruct (inv_record0 _ _ G2) as (E1 & E2 & E3 & E4).
      rewrite !lookup_insert_ne by congruence. done.
  - intros d k. rewrite lookup_insert_Some. intros [[<- <-]|[Hne G2]].
    + exists r. by rewrite od_get_set_eq.
    + destruct (inv_digest0 _ _ G2) as (r2 & G3 & E). exists r2.
      rewrite od_get_set_ne; [done|]. congruence.
  - intros e k. rewrite lookup_insert_Some. intros [[<- <-]|[Hne G2]].
    + exists r. by rewrite od_get_set_eq.
    + destruct (inv_exec0 _ _ G2) as (r2 & G3 & E). exists r2.
      rewrite od_get_set_ne; [done|]. congruence.
  - auto with delta.
  - intros k rr [G2 Hne]%G. destruct (inv_res0 _ _ G2) as (E1 & E2 & E3).
    split; [done|]. rewrite od_get_set_ne by done. split; [done|].
    rewrite lookup_insert_ne; [done|]. intros E. apply Hne.
    eapply inv_res_digest0; eauto. congruence.
  - intros k1 k2 r1 r2 [G1 _]%G [G2 _]%G. eauto.
Qed.

Lemma lookup_execution_inv exec l id r :
  ledger_inv l -> lookup_execution exec l = Ok (id, r) ->
  od_get id (by_intent_id l) = Some r /\ lr_execution_id r = exec /\ lr_intent_id r = id.
Proof.
  intros [] . unfold lookup_execution. destruct (by_execution_id l !! exec) as [k|] eqn:E; [|done].
  destruct (String.eqb k EmptyString); [done|].
  destruct (od_get k (by_intent_id l)) as [r'|] eqn:G; [|done]. intros [= <- <-].
  destruct (inv_exec0 _ _ E) as (r2 & G2 & Ee). split; [done|]. split; [congruence|].
  by destruct (inv_record0 _ _ G).
Qed.

Lemma inv_transition id r st now art l :
  ledger_inv l -> od_get id (by_intent_id l) = Some r ->
  record_ok (expected_producer_commit l) (replace_status r st now art) ->
  ledger_inv (transitioned_state id (replace_status r st now art) l).
Proof.
  intros Hi G Hok. pose proof (inv_record _ Hi _ _ G) as (E1 & E2 & E3 & _).
  destruct Hi. constructor; cbn; try done.
  - auto with delta.
  - intros k r2. rewrite od_get_set. destruct (String.eqb_spec k id) as [->|]; [|eauto].
    intros [= <-]. done.
  - intros d k Hd. destruct (inv_digest0 _ _ Hd) as (r2 & G2 & E).
    rewrite od_get_set. destruct (String.eqb_spec k id) as [->|]; [|eauto].
    eexists. split; [done|]. cbn. congruence.
  - intros d k Hd. destruct (inv_exec0 _ _ Hd) as (r2 & G2 & E).
    rewrite od_get_set. destruct (String.eqb_spec k id) as [->|]; [|eauto].
    eexists. split; [done|]. cbn. congruence.
  - intros k rs Hrs. destruct (inv_res0 _ _ Hrs) as (? & Hn & ?). split; [done|]. split; [|done].
    rewrite od_get_set_ne; [done|]. congruence.
Qed.
End LedgerInv.
