(* ===== verification/LedgerSystem.v ===== *)
(** * The ledger under any interleaving of its methods

    [ledger_step] is one lock-protected method call by any thread, with any
    arguments and any outcome of the append it makes; [rtc ledger_step] is an
    interleaving.  The theorems hold for every reachable ledger: coherent
    indices, exclusive reservations, legal histories, immutable terminal
    records, idempotent resubmission and fail-closed poisoning. *)

From stdpp Require Import relations.
From S2P Require Import Prelude PyFloat Json JsonText Text Sha256 Errors Canonical LedgerRecord Ledger LedgerInv.
Open Scope string_scope.
Open Scope py_scope.

Section LedgerSystem.
Context `{SchemaValidator}.

(** [execution_id]s come from [uuid.uuid4()]: a commit uses a fresh one. *)
Inductive ledger_step : relation IdempotencyLedger :=
| step_acquire id dg who now dl t l l' res :
    acquire_iteration id dg who now dl t l = (l', res) -> ledger_step l l'
| step_release id l l' res :
    release_reservation id l = (l', res) -> ledger_step l l'
| step_commit id dg who exec adm intent retry op st now io l l' res :
    by_execution_id l !! exec = None ->
    commit_admission id dg who exec adm intent retry op st now io l = (l', res) ->
    ledger_step l l'
| step_transition exec exp st rd tr err now io l l' res :
    transition_execution exec exp st rd tr err now io l = (l', res) -> ledger_step l l'.

(** A record's next version: a legal status change that touches nothing but
    the status, the update time and the terminal artifacts. *)
Definition record_step (r r' : LedgerRecord) : Prop :=
  exists st now art, r' = replace_status r st now art /\ st ∈ _LEGAL_TRANSITIONS (lr_status r).

(** ** Preservation *)

Lemma admitted_ok_any r ex :
  lr_status r = "ADMITTED" -> record_ok None r -> record_ok ex r.
Proof.
  intros E [H1 H2]. split; [done|]. revert H2. unfold _validate_terminal_invariants. by rewrite E.
Qed.

Lemma ledger_step_expected l l' :
  ledger_step l l' -> expected_producer_commit l' = expected_producer_commit l.
Proof.
  assert (M : forall k l, expected_producer_commit (mark_reservation k l) = expected_producer_commit l).
  { intros [k|] l0; cbn; [|done]. by case_match. }
  intros [id dg who now dl t l1 l2 res E|id l1 l2 res E
         |id dg who exec adm intent retry op st now io l1 l2 res _ E
         |exec exp st rd tr err now io l1 l2 res E].
  - apply acquire_cases in E as [[-> _]|(_ & _ & -> & _)]; done.
  - apply release_cases in E as [_ [[-> _]|[_ ->]]]; done.
  - apply commit_cases in E as [[-> _]|(_ & _ & _ & _ & _ & [(_ & -> & _)|(e & _ & ->)])];
      try done. by rewrite M.
  - apply transition_cases in E as [[-> _]|(_ & ? & ? & ? & _ & _ & _ & _ & _ & _ & _ & E)]; [done|].
    destruct E as [(_ & -> & _)|(e & _ & ->)]; done.
Qed.

Lemma ledger_step_inv l l' : ledger_step l l' -> ledger_inv l -> ledger_inv l'.
Proof.
  intros [id dg who now dl t l1 l2 res E|id l1 l2 res E
         |id dg who exec adm intent retry op st now io l1 l2 res Hf E
         |exec exp st rd tr err now io l1 l2 res E] Hi.
  - apply acquire_cases in E as [[-> _]|(_ & _ & -> & ? & ? & ? & ?)]; [done|].
    by apply inv_reserve.
  - apply release_cases in E as [_ [[-> _]|[_ ->]]]; [done|by apply inv_release].
  - apply commit_cases in E as [[-> _]|(_ & _ & _ & (rs & G & Hd & _) & Hok & [(_ & -> & _)|(e & _ & ->)])].
    + done.
    + by apply (inv_commit _ _ _ rs).
    + by apply inv_mark, inv_set_poisoned, inv_set_persistence.
  - apply transition_cases in E
      as [[-> _]|(_ & id & r & art & L & _ & _ & _ & _ & Hok & _ & [(_ & -> & _)|(e & _ & ->)])].
    + done.
    + apply lookup_execution_inv in L as (G & _ & _); [|done]. by apply inv_transition.
    + by apply inv_set_poisoned, inv_set_persistence.
Qed.

Lemma ledger_steps_inv l l' : rtc ledger_step l l' -> ledger_inv l -> ledger_inv l'.
Proof. induction 1; eauto using ledger_step_inv. Qed.

Lemma mark_by_intent k l : by_intent_id (mark_reservation k l) = by_intent_id l.
Proof. destruct k as [k|]; cbn; [|done]. by case_match. Qed.

Lemma mark_by_digest k l : by_digest (mark_reservation k l) = by_digest l.
Proof. destruct k as [k|]; cbn; [|done]. by case_match. Qed.

(** A record survives a step unchanged or takes one legal transition. *)
Lemma ledger_step_record l l' k r :
  ledger_step l l' -> ledger_inv l -> od_get k (by_intent_id l) = Some r ->
  exists r', od_get k (by_intent_id l') = Some r' /\ (r' = r \/ record_step r r').
Proof.
  intros [id dg who now dl t l1 l2 res E|id l1 l2 res E
         |id dg who exec adm intent retry op st now io l1 l2 res Hf E
         |exec exp st rd tr err now io l1 l2 res E] Hi G.
  - apply acquire_cases in E as [[-> _]|(_ & _ & -> & _)]; eauto.
  - apply release_cases in E as [_ [[-> _]|[_ ->]]]; eauto.
  - apply commit_cases in E as [[-> _]|(_ & _ & Hn & _ & _ & [(_ & -> & _)|(e & _ & ->)])].
    + eauto.
    + exists r. split; [|by left]. cbn. rewrite od_get_set_ne; [done|]. congruence.
    + rewrite mark_by_intent. eauto.
  - apply transition_cases in E
      as [[-> _]|(_ & id & r0 & art & L & _ & _ & Hl & _ & _ & _ & [(_ & -> & _)|(e & _ & ->)])];
      [by eauto| |by eauto].
    apply lookup_execution_inv in L as (G0 & _ & _); [|done]. cbn. rewrite od_get_set.
    destruct (String.eqb_spec k id) as [->|]; [|eauto]. eexists. split; [done|]. right.
    rewrite G in G0. injection G0 as ->. by exists st, now, art.
Qed.

Lemma ledger_steps_record l l' k r :
  rtc ledger_step l l' -> ledger_inv l -> od_get k (by_intent_id l) = Some r ->
  exists r', od_get k (by_intent_id l') = Some r' /\ rtc record_step r r'.
Proof.
  intros Hs. revert r. induction Hs as [l|l1 l2 l3 H12 _ IH]; intros r Hi G; [by eauto using rtc_refl|].
  destruct (ledger_step_record _ _ _ _ H12 Hi G) as (r2 & G2 & S12).
  destruct (IH r2) as (r3 & G3 & S23); [by eapply ledger_step_inv|done|].
  exists r3. split; [done|]. destruct S12 as [->|S12]; [done|]. by eapply rtc_l.
Qed.

Lemma legal_terminal s t : s ∈ TERMINAL_STATUSES -> t ∉ _LEGAL_TRANSITIONS s.
Proof.
  unfold TERMINAL_STATUSES. rewrite !elem_of_cons. intros [->|[->|[->|[->|?%elem_of_nil]]]]; try done;
    apply not_elem_of_nil.
Qed.

Lemma terminal_no_step r r' :
  lr_status r ∈ TERMINAL_STATUSES -> rtc record_step r r' -> r' = r.
Proof.
  intros Ht Hs. destruct Hs as [|r r1 r2 (st & now & art & -> & Hl) _]; [done|].
  by apply legal_terminal in Hl.
Qed.

(** Fields no transition touches *)
Definition identity_of (r : LedgerRecord) :=
  (lr_intent_id r, lr_intent_digest r, lr_authenticated_subject_id r, lr_execution_id r,
   lr_created_at r, lr_admission_record r, lr_retry_of_intent_id r, lr_operation r, lr_intent r).

Lemma record_steps_identity r r' :
  rtc record_step r r' ->
  identity_of r' = identity_of r /\
  rtc (fun s t => t ∈ _LEGAL_TRANSITIONS s) (lr_status r) (lr_status r').
Proof.
  induction 1 as [r|r1 r2 r3 (st & now & art & -> & Hl) _ [IH1 IH2]]; [by split; [|apply rtc_refl]|].
  split; [by rewrite IH1|]. by eapply rtc_l.
Qed.

(** ** Properties *)

(** C1: in every ledger reachable from an empty one by any interleaving of
    method calls, the three indices agree, every record is valid, and no two
    records share a digest or an execution id. *)
Theorem reachable_ledger_coherent p ex l
  (Hr : rtc ledger_step (empty_ledger p ex) l) :
  ledger_inv l /\
  forall k1 k2 r1 r2,
    od_get k1 (by_intent_id l) = Some r1 -> od_get k2 (by_intent_id l) = Some r2 ->
    lr_intent_digest r1 = lr_intent_digest r2 \/ lr_execution_id r1 = lr_execution_id r2 ->
    k1 = k2.
Proof.
  pose proof (ledger_steps_inv _ _ Hr (inv_empty p ex)) as Hi. split; [done|].
  intros k1 k2 r1 r2 (_ & D1 & E1 & _)%(inv_record _ Hi) (_ & D2 & E2 & _)%(inv_record _ Hi) [E|E];
    rewrite E in *; congruence.
Qed.

(** C20: a terminal record is never modified, replaced or removed, whatever
    calls follow. *)
Theorem terminal_record_immutable l l' k r
  (Hi : ledger_inv l) (Hs : rtc ledger_step l l')
  (Hg : od_get k (by_intent_id l) = Some r) (Ht : lr_status r ∈ TERMINAL_STATUSES) :
  od_get k (by_intent_id l') = Some r.
Proof.
  destruct (ledger_steps_record _ _ _ _ Hs Hi Hg) as (r' & G & S).
  by apply terminal_no_step in S as ->.
Qed.

(** an admitted intent is never lost: later ledgers hold it under the same
    id with the same digest, owner, execution id, admission record and intent,
    and its status has moved along legal transitions only. *)
Theorem record_history_legal l l' k r
  (Hi : ledger_inv l) (Hs : rtc ledger_step l l') (Hg : od_get k (by_intent_id l) = Some r) :
  exists r', od_get k (by_intent_id l') = Some r' /\ identity_of r' = identity_of r /\
    rtc (fun s t => t ∈ _LEGAL_TRANSITIONS s) (lr_status r) (lr_status r').
Proof.
  destruct (ledger_steps_record _ _ _ _ Hs Hi Hg) as (r' & G & S). eauto using record_steps_identity.
Qed.

Lemma acquire_committed id dg who now dl t l r :
  poisoned_reason l = None -> od_get id (by_intent_id l) = Some r ->
  acquire_iteration id dg who now dl t l =
  (l, if negb (String.eqb (lr_authenticated_subject_id r) who) then Raise unauthorized
      else if negb (String.eqb (lr_intent_digest r) dg) then Raise digest_conflict
      else Ok (Committed r)).
Proof.
  intros P G. unfold acquire_iteration, mbind at 1. rewrite (not_poisoned _ P).
  unfold mbind, mget, mlift, mret, check_committed. rewrite G.
  by destruct (negb _); [|destruct (negb _)].
Qed.

(** resubmission.  Once an intent is committed, every later call of
    [acquire_or_check] for it, in whatever reachable unpoisoned ledger, leaves
    the ledger alone and: returns the record of the same execution to its
    owner; is unauthorized for another subject; conflicts on another digest;
    and the same digest under a new intent id is a collision. *)
Theorem resubmission_outcomes l l' id r who dg now dl t
  (Hi : ledger_inv l) (Hs : rtc ledger_step l l') (Hp : poisoned_reason l' = None)
  (Hg : od_get id (by_intent_id l) = Some r) :
  (exists r', identity_of r' = identity_of r /\
     acquire_iteration id (lr_intent_digest r) (lr_authenticated_subject_id r) now dl t l'
     = (l', Ok (Committed r'))) /\
  (who <> lr_authenticated_subject_id r ->
     acquire_iteration id dg who now dl t l' = (l', Raise unauthorized)) /\
  (dg <> lr_intent_digest r ->
     acquire_iteration id dg (lr_authenticated_subject_id r) now dl t l'
     = (l', Raise digest_conflict)) /\
  (forall id', od_get id' (by_intent_id l') = None ->
     acquire_iteration id' (lr_intent_digest r) who now dl t l' = (l', Raise collision)).
Proof.
  destruct (ledger_steps_record _ _ _ _ Hs Hi Hg) as (r' & G & [I _]%record_steps_identity).
  pose proof (ledger_steps_inv _ _ Hs Hi) as Hi'.
  destruct (inv_record _ Hi' _ _ G) as (_ & D & _ & _).
  unfold identity_of in I. injection I as I1 I2 I3 I4 I5 I6 I7 I8 I9.
  rewrite <- I2, <- I3. split; [|split; [|split]].
  - exists r'. unfold identity_of. split; [congruence|].
    rewrite (acquire_committed _ _ _ _ _ _ _ r') by done. by rewrite !String.eqb_refl.
  - intros Hw. rewrite (acquire_committed _ _ _ _ _ _ _ r') by done.
    by destruct (String.eqb_spec (lr_authenticated_subject_id r') who).
  - intros Hd. rewrite (acquire_committed _ _ _ _ _ _ _ r') by done. rewrite String.eqb_refl. cbn [negb].
    by destruct (String.eqb_spec (lr_intent_digest r') dg).
  - intros id' Hn. unfold acquire_iteration, mbind at 1. rewrite (not_poisoned _ Hp).
    unfold mbind, mget, mlift, check_committed. rewrite Hn, D.
    destruct (String.eqb_spec id id') as [->|]; [congruence|done].
Qed.

(** a reservation is exclusive: while an intent is reserved, nobody gets a
    second reservation for its id or for its digest, and no record exists
    under either. *)
Theorem reservation_exclusive l id rs id' dg' who now dl t l'
  (Hi : ledger_inv l) (Hg : od_get id (reservations l) = Some rs)
  (Ha : acquire_iteration id' dg' who now dl t l = (l', Ok Reserved)) :
  id' <> id /\ dg' <> rs_intent_digest rs /\
  od_get id (reservations l') = Some rs /\
  od_get id (by_intent_id l') = None /\ by_digest l' !! rs_intent_digest rs = None.
Proof.
  apply acquire_cases in Ha as [[_ ?]|(_ & _ & -> & Hb & Hr & _ & Ho)]; [done|].
  assert (Hne : id' <> id) by congruence.
  destruct (inv_res _ Hi _ _ Hg) as (E & Hb' & Hd'). split; [done|]. split.
  - intros ->. apply Hne. rewrite <- (Ho _ _ (od_get_In _ _ _ Hg) eq_refl). done.
  - cbn. by rewrite od_get_set_ne.
Qed.

(** C25: [commit_admission] is all or nothing.  It returns only a record that is
    appended to the log, indexed under its three keys and whose reservation is
    consumed; when it raises, the three indices are unchanged and either the
    ledger is exactly as before or it is poisoned. *)
Theorem commit_admission_atomic id dg who exec adm intent retry op st now io l l' res
  (Hc : commit_admission id dg who exec adm intent retry op st now io l = (l', res)) :
  match res with
  | Ok r =>
      r = admitted_record id dg who exec adm intent retry op now /\ st = "ADMITTED" /\
      od_get id (reservations l) <> None /\
      persistence l' = appended r (persistence l) /\ (persistence l <> None -> io = AppendOk) /\
      by_intent_id l' = od_set id r (by_intent_id l) /\
      by_digest l' !! dg = Some id /\ by_execution_id l' !! exec = Some id /\
      reservations l' = od_pop id (reservations l)
  | Raise _ =>
      by_intent_id l' = by_intent_id l /\ by_digest l' = by_digest l /\
      by_execution_id l' = by_execution_id l /\ (l' = l \/ poisoned_reason l' <> None)
  end.
Proof.
  apply commit_cases in Hc
    as [[-> [e ->]]|(-> & _ & _ & (rs & G & _) & _ & [(-> & -> & Hp)|(e & -> & ->)])].
  - auto.
  - repeat (split; [first [done | congruence | naive_solver | cbn; by rewrite lookup_insert_eq]|]). done.
  - unfold mark_reservation. case_match; cbn; repeat (split; [done|]); by right.
Qed.

Lemma lookup_execution_get exec l r :
  ledger_inv l -> get_by_execution_id exec l = Some r ->
  exists id, lookup_execution exec l = Ok (id, r) /\ od_get id (by_intent_id l) = Some r.
Proof.
  intros Hi. unfold get_by_execution_id, lookup_execution.
  destruct (by_execution_id l !! exec) as [k|]; [|done]. destruct (String.eqb k EmptyString); [done|].
  intros E. exists k. by rewrite E.
Qed.

(** [transition_execution] on an execution whose status is not expected, or is
    terminal: the comparison fails and nothing is written. *)
Lemma transition_compare_fails exec exp st rd tr err now io l id r :
  poisoned_reason l = None -> lookup_execution exec l = Ok (id, r) ->
  str_in st KNOWN_STATUSES = true -> exp <> [] ->
  forallb (fun s => str_in s KNOWN_STATUSES) exp = true ->
  str_in (lr_status r) exp = false \/
  (lr_status r ∈ TERMINAL_STATUSES /\
   (lr_status r <> st \/ no_artifacts rd tr err = false)) ->
  transition_execution exec exp st rd tr err now io l = (l, Ok None).
Proof.
  intros P L K Ne F Hc. unfold transition_execution, mrequire, mlift, mbind at 1. rewrite K. cbn [require].
  unfold mbind at 1. destruct exp as [|x exp]; [done|]. rewrite F. cbn [require andb].
  unfold mbind at 1. rewrite (not_poisoned _ P). unfold mbind, mget. rewrite L. cbn [fst snd].
  destruct (str_in (lr_status r) (x :: exp)); [|done]. destruct Hc as [?|[Ht Hc]]; [done|].
  apply str_in_elem in Ht. rewrite Ht. cbn [negb].
  destruct (String.eqb_spec (lr_status r) st), (no_artifacts rd tr err); try done. naive_solver.
Qed.

(** Repeating the current status without artifacts is a read. *)
Lemma transition_same_status exec exp st err rd tr now io l id r :
  poisoned_reason l = None -> lookup_execution exec l = Ok (id, r) ->
  str_in st KNOWN_STATUSES = true -> forallb (fun s => str_in s KNOWN_STATUSES) exp = true ->
  str_in (lr_status r) exp = true -> lr_status r = st -> no_artifacts rd tr err = true ->
  transition_execution exec exp st rd tr err now io l = (l, Ok (Some r)).
Proof.
  intros P L K F X E N. unfold transition_execution, mrequire, mlift, mbind at 1. rewrite K. cbn [require].
  unfold mbind at 1. destruct exp as [|x exp]; [done|]. rewrite F. cbn [require andb].
  unfold mbind at 1. rewrite (not_poisoned _ P). unfold mbind, mget. rewrite L. cbn [fst snd].
  rewrite X, E, N, String.eqb_refl. cbn. by case_match.
Qed.

(** a worker result that arrives after the execution reached a terminal
    status changes nothing: [update_execution] returns the terminal record
    that won, so no receipt is attached after a cancellation. *)
Theorem late_update_keeps_terminal exec st rd tr err now io l r
  (Hi : ledger_inv l) (Hp : poisoned_reason l = None)
  (Hg : get_by_execution_id exec l = Some r) (Ht : lr_status r ∈ TERMINAL_STATUSES)
  (Hk : st ∈ KNOWN_STATUSES) :
  update_execution exec st rd tr err now io l = (l, Ok r).
Proof.
  destruct (lookup_execution_get _ _ _ Hi Hg) as (id & L & _).
  apply str_in_elem in Hk as K.
  assert (F : forallb (fun s => str_in s KNOWN_STATUSES) (NONTERMINAL_STATUSES ++ [st]) = true).
  { rewrite forallb_app. cbn [forallb]. by rewrite K. }
  unfold update_execution, mbind at 1.
  destruct (decide (lr_status r = st /\ no_artifacts rd tr err = true)) as [[E N]|Hn].
  - rewrite (transition_same_status _ _ _ _ _ _ _ _ _ id r); try done.
    rewrite E. apply str_in_elem. set_solver.
  - rewrite (transition_compare_fails _ _ _ _ _ _ _ _ _ id r); try done.
    + unfold mbind, mget. by rewrite Hg.
    + right. split; [done|]. destruct (decide (lr_status r = st)); [right|by left].
      destruct (no_artifacts rd tr err); naive_solver.
Qed.

(** What a transition that returns a record has done *)
Lemma transition_result exec exp st rd tr err now io l l' r' :
  ledger_inv l ->
  transition_execution exec exp st rd tr err now io l = (l', Ok (Some r')) ->
  get_by_execution_id exec l' = Some r' /\ lr_status r' = st /\
  exists r, get_by_execution_id exec l = Some r /\ lr_status r ∈ exp /\
    ((l' = l /\ r' = r) \/
     (record_step r r' /\ persistence l' = appended r' (persistence l) /\
      record_ok (expected_producer_commit l) r')).
Proof.
  intros Hi Ht.
  assert (G : forall id r, lookup_execution exec l = Ok (id, r) ->
              get_by_execution_id exec l = Some r /\ by_execution_id l !! exec = Some id /\
              String.eqb id EmptyString = false).
  { intros id r. unfold lookup_execution, get_by_execution_id.
    destruct (by_execution_id l !! exec) as [k|]; [|done].
    destruct (String.eqb k EmptyString) eqn:E; [done|]. destruct (od_get k _) eqn:E2; [|done].
    intros [= <- <-]. auto. }
  apply transition_cases in Ht
    as [[-> [[e ?]|[?|(id & r & L & [= ->] & Hst & Hx)]]]|(_ & id & r & art & L & Hx & _ & Hl & _ & Hok & _ & E)];
    try done.
  - apply G in L as (L & _). repeat (split; [done|]). exists r. auto.
  - destruct E as [([= ->] & -> & _)|(e & ? & _)]; [|done].
    apply G in L as (L & Le & Ln). split; [|split; [done|]].
    + unfold get_by_execution_id. cbn. by rewrite Le, Ln, od_get_set_eq.
    + exists r. repeat (split; [done|]). right. split; [by exists st, now, art|]. done.
Qed.

Lemma transition_none exec exp st rd tr err now io l l' :
  transition_execution exec exp st rd tr err now io l = (l', Ok None) -> l' = l.
Proof.
  intros [[-> _]|(_ & id & r & art & _ & _ & _ & _ & _ & _ & _ & [(? & _)|(e & ? & _)])]%transition_cases;
    done.
Qed.

(** compare-and-set.  A transition that returns a record found the current
    status among the expected ones; either it changed nothing and the record
    already had that status, or it stored and appended exactly the validated
    successor with the new status.  It returns [None] only without any
    effect. *)
Theorem transition_compare_and_set exec exp st rd tr err now io l l' res
  (Hi : ledger_inv l)
  (Ht : transition_execution exec exp st rd tr err now io l = (l', Ok res)) :
  match res with
  | None => l' = l
  | Some r' =>
      get_by_execution_id exec l' = Some r' /\ lr_status r' = st /\
      exists r, get_by_execution_id exec l = Some r /\ lr_status r ∈ exp /\
        ((l' = l /\ r' = r) \/
         (record_step r r' /\ persistence l' = appended r' (persistence l) /\
          record_ok (expected_producer_commit l) r'))
  end.
Proof. destruct res; [by eapply transition_result|by eapply transition_none]. Qed.

Lemma poisoned_steps l l' e : poisoned_reason l = Some e -> rtc ledger_step l l' -> l' = l.
Proof.
  intros Hp Hs. induction Hs as [|l1 l2 l3 H12 _ IH]; [done|].
  assert (E12 : l2 = l1); [|subst; auto].
  destruct H12 as [id dg who now dl t l1 l2 res E|id l1 l2 res E
       |id dg who exec adm intent retry op st now io l1 l2 res _ E
       |exec exp st rd tr err now io l1 l2 res E].
  + apply acquire_cases in E as [[-> _]|(_ & ? & _)]; congruence.
  + apply release_cases in E as [_ [[-> _]|[? _]]]; congruence.
  + apply commit_cases in E as [[-> _]|(_ & ? & _)]; congruence.
  + apply transition_cases in E as [[-> _]|(? & _)]; congruence.
Qed.

(** poisoning is permanent and fail-closed: after a failed append no call
    changes the ledger any more, no reservation is taken or released, and
    admission, listing and counting raise. *)
Theorem poisoned_fail_closed l l' e
  (Hp : poisoned_reason l = Some e) (Hs : rtc ledger_step l l') :
  l' = l /\
  (forall id dg who now dl t, exists x, acquire_iteration id dg who now dl t l = (l, Raise x)) /\
  (forall id dg who exec adm intent retry op st now io, exists x,
     commit_admission id dg who exec adm intent retry op st now io l = (l, Raise x)) /\
  (forall exec exp st rd tr err now io, exists x,
     transition_execution exec exp st rd tr err now io l = (l, Raise x)) /\
  (exists x, list_records l = (l, Raise x)) /\
  (forall k, exists x, active_count k l = (l, Raise x)).
Proof.
  assert (A : forall id dg who now dl t, exists x, acquire_iteration id dg who now dl t l = (l, Raise x)).
  { intros. unfold acquire_iteration, mbind at 1. rewrite (poisoned_raise _ _ Hp). eauto. }
  assert (C : forall id dg who exec adm intent retry op st now io, exists x,
     commit_admission id dg who exec adm intent retry op st now io l = (l, Raise x)).
  { intros. unfold commit_admission, mrequire, mlift, mbind at 1.
    destruct (require _ _) as [[]|]; [|eauto]. unfold mbind at 1. rewrite (poisoned_raise _ _ Hp). eauto. }
  assert (T : forall exec exp st rd tr err now io, exists x,
     transition_execution exec exp st rd tr err now io l = (l, Raise x)).
  { intros. unfold transition_execution, mrequire, mlift, mbind at 1.
    destruct (require _ _) as [[]|]; [|eauto]. unfold mbind at 1.
    destruct (require _ _) as [[]|]; [|eauto]. unfold mbind at 1. rewrite (poisoned_raise _ _ Hp). eauto. }
  split; [|repeat (split; [done|])].
  - by eapply poisoned_steps.
  - split.
    + unfold list_records, mbind. rewrite (poisoned_raise _ _ Hp). eauto.
    + intros. unfold active_count, mbind. rewrite (poisoned_raise _ _ Hp). eauto.
Qed.

(** ** The waiting loop *)

(** What the other threads do between wake-ups is a sequence of steps. *)
Definition wakes_ok (wakes : list wakeup) : Prop :=
  Forall (fun w => forall l, rtc ledger_step l (others w l)) wakes.

Lemma acquire_loop_steps id dg who now dl t wakes l l' res :
  wakes_ok wakes -> acquire_loop id dg who now dl t wakes l = (l', res) ->
  rtc ledger_step l l'.
Proof.
  revert t l. induction wakes as [|w wakes IH]; intros t l Hw; cbn [acquire_loop]; unfold mbind at 1;
    destruct (acquire_iteration id dg who now dl t l) as [l1 res1] eqn:A;
    pose proof (step_acquire _ _ _ _ _ _ _ _ _ A) as S; destruct res1 as [[r| |]|e];
    try (intros [= <- <-]; by apply rtc_once).
  apply Forall_cons in Hw as [Hw1 Hw]. unfold mbind, mmodify. intros E.
  eapply rtc_l; [exact S|]. etransitivity; [apply Hw1|]. by eapply IH.
Qed.

(** C39: the wait of [acquire_or_check] ends: as soon as one wake-up reads a
    clock at or past the deadline, the call has returned or raised, whatever
    the other threads do. *)
Theorem acquire_or_check_terminates id dg who now timeout start wakes l l' res
  (Hd : Exists (fun w => (start + timeout <= monotonic_at w)%Z) wakes)
  (Ha : acquire_or_check id dg who now timeout start wakes l = (l', res)) :
  res <> Ok None.
Proof.
  unfold acquire_or_check in Ha. revert Ha. set (dl := (start + timeout)%Z) in *.
  generalize start at 1 as t. intros t. revert t l.
  assert (W : forall t l l1, acquire_iteration id dg who now dl t l = (l1, Ok Waiting) -> (t < dl)%Z).
  { intros t l0 l1. unfold acquire_iteration, mbind, _raise_if_poisoned, mget, mlift, mret, mraise, mput.
    destruct (poisoned_reason l0); [done|]. destruct (check_committed _ _ _ _) as [[|]|]; try done.
    destruct (od_get id (reservations l0)); [|by case_match].
    destruct (negb _); [done|]. destruct (negb _); [done|]. destruct (Z.leb_spec (dl - t) 0); [done|]. lia. }
  induction Hd as [w wakes Hw|w wakes _ IH]; intros t l0; cbn [acquire_loop]; unfold mbind at 1;
    destruct (acquire_iteration id dg who now dl t l0) as [l1 [[r| |]|e]] eqn:A;
    try (intros [= <- <-]; done); unfold mbind at 1, mmodify; [|apply IH].
  intros E ->. destruct wakes as [|w2 wakes]; cbn [acquire_loop] in E; unfold mbind at 1 in E;
    destruct (acquire_iteration id dg who now dl (monotonic_at w) _) as [l2 [[r| |]|e]] eqn:A2;
    try done; apply W in A2; lia.
Qed.

(** The composite methods are sequences of steps. *)
Lemma record_admission_steps id dg who exec adm intent retry op now start wakes io l l' res :
  wakes_ok wakes ->
  (forall l1, rtc ledger_step l l1 -> by_execution_id l1 !! exec = None) ->
  record_admission id dg who exec adm intent retry op now start wakes io l = (l', res) ->
  rtc ledger_step l l'.
Proof.
  intros Hw Hf. unfold record_admission, mbind at 1, acquire_or_check.
  destruct (acquire_loop _ _ _ _ _ _ _ l) as [l1 r1] eqn:A. apply acquire_loop_steps in A; [|done].
  destruct r1 as [[[r|]|]|e]; try (intros [= <- <-]; done).
  unfold mbind, mon_error.
  destruct (commit_admission _ _ _ _ _ _ _ _ _ _ _ l1) as [l2 r2] eqn:C.
  assert (S : rtc ledger_step l l2) by (eapply rtc_r; [exact A|]; eapply step_commit; [by apply Hf|exact C]).
  destruct r2 as [r|e]; [by intros [= <- <-]|].
  destruct (release_reservation id l2) as [l3 r3] eqn:R.
  assert (S3 : rtc ledger_step l l3) by (eapply rtc_r; [exact S|]; by eapply step_release).
  by destruct r3; intros [= <- <-].
Qed.

Lemma update_execution_step exec st rd tr err now io l l' res :
  update_execution exec st rd tr err now io l = (l', res) -> ledger_step l l'.
Proof.
  unfold update_execution, mbind at 1.
  destruct (transition_execution _ _ _ _ _ _ _ _ l) as [l1 r1] eqn:T. apply step_transition in T.
  destruct r1 as [[r|]|e]; [by intros [= <- <-]| |by intros [= <- <-]].
  unfold mbind, mget. case_match; by intros [= <- <-].
Qed.
End LedgerSystem.
