(* ===== verification/LedgerSpec.v ===== *)
(** * What the ledger promises, and that it keeps it

    The abstract registry is a map from intent ids to an immutable identity and
    a status.  It has two steps: admit a new intent, whose digest and execution
    id are new too, and advance a status along the legal transitions.  The
    ledger, with its three indices, reservations, log and poisoning, refines
    it: every method call is one abstract step or none. *)

From stdpp Require Import relations.
From S2P Require Import Prelude PyFloat Json JsonText Text Sha256 Errors Canonical LedgerRecord Ledger LedgerInv LedgerSystem.
Open Scope string_scope.
Open Scope py_scope.

Record entry := mkEntry {
  en_digest : string;
  en_owner : string;
  en_execution : string;
  en_status : string;
}.

Abbreviation registry := (gmap string entry).

(** Two entries that may not coexist *)
Definition clash (a b : entry) : Prop :=
  en_digest a = en_digest b \/ en_execution a = en_execution b.

Definition with_status (st : string) (e : entry) : entry :=
  mkEntry (en_digest e) (en_owner e) (en_execution e) st.

Inductive registry_step : relation registry :=
| reg_admit s id e :
    s !! id = None -> en_status e = "ADMITTED" ->
    (forall id' e', s !! id' = Some e' -> ~ clash e e') ->
    registry_step s (<[id := e]> s)
| reg_advance s id e st :
    s !! id = Some e -> st ∈ _LEGAL_TRANSITIONS (en_status e) ->
    registry_step s (<[id := with_status st e]> s).

(** ** The abstraction *)

Definition entry_of (r : LedgerRecord) : entry :=
  mkEntry (lr_intent_digest r) (lr_authenticated_subject_id r) (lr_execution_id r) (lr_status r).

Definition registry_of (l : IdempotencyLedger) : registry :=
  list_to_map (map (fun kv => (kv.1, entry_of kv.2)) (by_intent_id l)).

Lemma registry_lookup l id : registry_of l !! id = entry_of <$> od_get id (by_intent_id l).
Proof.
  unfold registry_of. induction (by_intent_id l) as [|[k r] d IH]; [apply lookup_empty|].
  cbn [map od_get fst snd]. rewrite list_to_map_cons. destruct (String.eqb_spec id k) as [->|].
  - by rewrite lookup_insert_eq.
  - by rewrite lookup_insert_ne by done.
Qed.

Lemma registry_set id r l l' :
  by_intent_id l' = od_set id r (by_intent_id l) ->
  registry_of l' = <[id := entry_of r]> (registry_of l).
Proof.
  intros E. apply map_eq. intros k. rewrite registry_lookup, E, od_get_set.
  destruct (String.eqb_spec k id) as [->|].
  - by rewrite lookup_insert_eq.
  - by rewrite lookup_insert_ne, registry_lookup by done.
Qed.

Section Refinement.
Context `{SchemaValidator}.

Lemma ledger_step_refines l l' :
  ledger_step l l' -> ledger_inv l ->
  registry_of l' = registry_of l \/ registry_step (registry_of l) (registry_of l').
Proof.
  assert (Same : forall l1 l2, by_intent_id l1 = by_intent_id l2 -> registry_of l1 = registry_of l2).
  { intros l1 l2 E. apply map_eq. intros k. by rewrite !registry_lookup, E. }
  intros [id dg who now dl t l1 l2 res E|id l1 l2 res E
         |id dg who exec adm intent retry op st now io l1 l2 res Hf E
         |exec exp st rd tr err now io l1 l2 res E] Hi.
  - left. apply acquire_cases in E as [[-> _]|(_ & _ & -> & _)]; by apply Same.
  - left. apply release_cases in E as [_ [[-> _]|[_ ->]]]; by apply Same.
  - apply commit_cases in E as [[-> _]|(_ & _ & Hn & (rs & G & Hd & _) & _ & [(_ & -> & _)|(e & _ & ->)])].
    + by left.
    + right. match goal with |- registry_step _ (registry_of ?L) => rewrite (registry_set id _ l1 L eq_refl) end. apply reg_admit; [by rewrite registry_lookup, Hn|done|].
      intros id' e'. rewrite registry_lookup. destruct (od_get id' (by_intent_id l1)) as [r'|] eqn:G'; [|done].
      intros [= <-]. destruct (inv_record _ Hi _ _ G') as (_ & B1 & B2 & _).
      destruct (inv_res _ Hi _ _ G) as (_ & _ & B3). rewrite Hd in B3.
      intros [C|C]; cbn in C; congruence.
    + left. apply Same. by rewrite mark_by_intent.
  - apply transition_cases in E
      as [[-> _]|(_ & id & r & art & L & _ & _ & Hl & _ & _ & _ & [(_ & -> & _)|(e & _ & ->)])].
    + by left.
    + right. match goal with |- registry_step _ (registry_of ?L) => rewrite (registry_set id _ l1 L eq_refl) end.
      apply lookup_execution_inv in L as (G & _ & _); [|done].
      apply (reg_advance _ id (entry_of r) st); [by rewrite registry_lookup, G|done].
    + left. by apply Same.
Qed.

(** C17: refinement.  Every run of the ledger, under any interleaving, any clock
    and any append failure, is a run of the abstract registry; every read by
    intent id, and every COMMITTED answer, is the abstract entry. *)
Theorem ledger_refines_registry p ex l (Hs : rtc ledger_step (empty_ledger p ex) l) :
  rtc registry_step ∅ (registry_of l) /\
  (forall id, registry_of l !! id = entry_of <$> get_by_intent_id id l) /\
  (forall id dg who now dl t l' r,
     acquire_iteration id dg who now dl t l = (l', Ok (Committed r)) ->
     registry_of l !! id = Some (mkEntry dg who (lr_execution_id r) (lr_status r))).
Proof.
  split; [|split].
  - assert (G : forall l0, rtc ledger_step l0 l -> ledger_inv l0 -> rtc registry_step (registry_of l0) (registry_of l)).
    { clear. induction 1 as [l|l1 l2 l3 S _ IH]; intros Hi; [apply rtc_refl|].
      destruct (ledger_step_refines _ _ S Hi) as [<-|R];
        [|eapply rtc_l; [exact R|]]; apply IH; by eapply ledger_step_inv. }
    apply (G _ Hs), inv_empty.
  - intros id. apply registry_lookup.
  - intros id dg who now dl t l' r E. rewrite registry_lookup. revert E.
    unfold acquire_iteration. unfold mbind at 1, _raise_if_poisoned. destruct (poisoned_reason l); [done|].
    unfold mbind at 1, mget. unfold mbind at 1, mlift.
    destruct (check_committed id dg who l) as [o|e] eqn:C; [|done].
    apply check_committed_Ok in C as [G X]. rewrite G. destruct o as [r0|].
    + destruct X as [<- <-]. unfold mret. by intros [= _ <-].
    + intros E. exfalso. revert E. unfold mbind, mlift, mret, mraise, mput. repeat case_match; done.
Qed.
End Refinement.
