(* ===== verification/LedgerLoad.v ===== *)
(** * Durability of the ledger

    The log is the concatenation of one JSON line per accepted record, and
    reading it back rebuilds the indices: after any interleaving of calls the
    constructor recovers the ledger (without its in-memory reservations) from
    its own log.  A crash in the middle of an append recovers the state before
    the append when nothing reached the file and the state after it when the
    whole line did. *)

From stdpp Require Import relations.
From S2P Require Import Prelude PyFloat Json JsonText Text Sha256 Errors Canonical LedgerRecord Ledger LedgerInv LedgerSystem.
Open Scope string_scope.
Open Scope py_scope.

(** ** A truncated document is no document

    Scanning looks at the text beyond a value only to see that a number ends. *)

Lemma prepend_Some p x v t : prepend p x = Some (v, t) <-> exists v', x = Some (v', t) /\ v = p +:+ v'.
Proof.
  destruct x as [[v' t']|]; split; try done.
  - intros [= <- <-]. by exists v'.
  - by intros (? & [= -> ->] & ->).
  - by intros (? & ? & _).
Qed.

(** The text after a first half of a surrogate pair *)
Definition scan_low (n : Z) (r2 : string) : option (string * string) :=
  match r2 with
  | String b (String u (String g1 (String g2 (String g3 (String g4 r3))))) =>
      if ch_eq b backslash && ch_eq u "u"%char then
        match hex4 g1 g2 g3 g4 with
        | Some m =>
            if in_range 56320 57343 m
            then prepend (utf8 (65536 + (n - 55296) * 1024 + (m - 56320))%Z) (scan_string r3)
            else prepend (utf8 n) (scan_string r2)
        | None => None
        end
      else prepend (utf8 n) (scan_string r2)
  | _ => prepend (utf8 n) (scan_string r2)
  end.

Lemma scan_low_other n b u r :
  ch_eq b backslash && ch_eq u "u"%char = false ->
  scan_low n (String b (String u r)) = prepend (utf8 n) (scan_string (String b (String u r))).
Proof. intros E. unfold scan_low. do 4 (destruct r as [|? r]; [reflexivity|]). by rewrite E. Qed.

Definition extends (f : string -> option (string * string)) (s : string) : Prop :=
  forall v t q, f s = Some (v, t) -> f (s +:+ q) = Some (v, t +:+ q).

Lemma prepend_extends p s v t q :
  extends scan_string s -> prepend p (scan_string s) = Some (v, t) -> prepend p (scan_string (s +:+ q)) = Some (v, t +:+ q).
Proof. intros X (v' & E & ->)%prepend_Some. apply prepend_Some. exists v'. by split; [apply X|]. Qed.

Lemma scan_low_extends n r2 :
  (forall s, (String.length s <= String.length r2)%nat -> extends scan_string s) -> extends (scan_low n) r2.
Proof.
  intros IH v t q H. assert (X : extends scan_string r2) by by apply IH.
  destruct r2 as [|b [|u r]].
  - discriminate H.
  - destruct (ch_eq b backslash) eqn:B; [apply Ascii.eqb_eq in B as ->; cbn in H; discriminate H|].
    apply (prepend_extends _ _ _ _ q X) in H. destruct q as [|u q]; [exact H|].
    change (String b EmptyString +:+ String u q) with (String b (String u q)) in *. by rewrite scan_low_other by by rewrite B.
  - destruct (ch_eq b backslash && ch_eq u "u"%char) eqn:B.
    + apply andb_true_iff in B as [B%Ascii.eqb_eq U%Ascii.eqb_eq]. subst.
      do 4 (destruct r as [|? r]; [cbn in H; discriminate H|]).
      revert H. unfold scan_low. cbn [String.append]. change (ch_eq backslash backslash && ch_eq "u"%char "u"%char) with true.
      destruct (hex4 _ _ _ _) as [m|]; [|done]. destruct (in_range 56320 57343 m).
      * apply prepend_extends. apply IH. cbn. lia.
      * exact (prepend_extends _ _ _ _ q X).
    + rewrite scan_low_other in H by done. cbn [String.append]. rewrite scan_low_other by done. exact (prepend_extends _ _ _ _ q X H).
Qed.

Lemma scan_string_extends s : extends scan_string s.
Proof.
  induction s as [s IH] using (induction_ltof1 _ String.length). unfold ltof in IH.
  intros v t q H. destruct s as [|c r]; [done|]. revert H. cbn [String.append].
  change (scan_string (String c r)) with
    (if ch_eq c dquote then Some (EmptyString, r)
     else if ch_eq c backslash then
       match r with
       | EmptyString => None
       | String e r1 =>
           match simple_escape e with
           | Some x => prepend (String x EmptyString) (scan_string r1)
           | None =>
               if ch_eq e "u"%char then
                 match r1 with
                 | String h1 (String h2 (String h3 (String h4 r2))) =>
                     match hex4 h1 h2 h3 h4 with
                     | None => None
                     | Some n => if in_range 55296 56319 n then scan_low n r2 else prepend (utf8 n) (scan_string r2)
                     end
                 | _ => None
                 end
               else None
           end
       end
     else if (nat_of_ascii c <? 32)%nat then None
     else prepend (String c EmptyString) (scan_string r)).
  change (scan_string (String c (r +:+ q))) with
    (if ch_eq c dquote then Some (EmptyString, r +:+ q)
     else if ch_eq c backslash then
       match r +:+ q with
       | EmptyString => None
       | String e r1 =>
           match simple_escape e with
           | Some x => prepend (String x EmptyString) (scan_string r1)
           | None =>
               if ch_eq e "u"%char then
                 match r1 with
                 | String h1 (String h2 (String h3 (String h4 r2))) =>
                     match hex4 h1 h2 h3 h4 with
                     | None => None
                     | Some n => if in_range 55296 56319 n then scan_low n r2 else prepend (utf8 n) (scan_string r2)
                     end
                 | _ => None
                 end
               else None
           end
       end
     else if (nat_of_ascii c <? 32)%nat then None
     else prepend (String c EmptyString) (scan_string (r +:+ q))).
  destruct (ch_eq c dquote); [by intros [= <- <-]|]. destruct (ch_eq c backslash).
  - destruct r as [|e r1]; [done|]. cbn [String.append]. destruct (simple_escape e); [apply prepend_extends, IH; cbn; lia|].
    destruct (ch_eq e "u"%char); [|done]. do 4 (destruct r1 as [|? r1]; [done|]). cbn [String.append].
    destruct (hex4 _ _ _ _) as [n|]; [|done]. destruct (in_range 55296 56319 n).
    + apply scan_low_extends. intros s Hs. apply IH. cbn. lia.
    + apply prepend_extends, IH. cbn. lia.
  - destruct (nat_of_ascii c <? 32)%nat; [done|]. apply prepend_extends, IH. cbn. lia.
Qed.

Lemma skip_ws_extends s c t q : skip_ws s = String c t -> skip_ws (s +:+ q) = String c (t +:+ q).
Proof.
  induction s as [|x s IH]; [done|]. cbn [String.append skip_ws]. destruct (is_ws x); [exact IH|]. by intros [= -> ->].
Qed.

Lemma strip_prefix_extends p s r q : strip_prefix p s = Some r -> strip_prefix p (s +:+ q) = Some (r +:+ q).
Proof.
  revert s. induction p as [|a p IH]; intros s; [by intros [= ->]|]. destruct s as [|b s]; [done|].
  cbn [String.append strip_prefix]. destruct (ch_eq a b); [apply IH|done].
Qed.

Lemma scan_digits_extends s d r q : scan_digits s = (d, r) -> r <> EmptyString -> scan_digits (s +:+ q) = (d, r +:+ q).
Proof.
  revert d. induction s as [|c s IH]; intros d; [by intros [= <- <-]|]. cbn [String.append scan_digits].
  destruct (is_digit c); [|by intros [= <- <-]]. destruct (scan_digits s) as [d' t'].
  intros [= <- <-] N. by rewrite (IH _ eq_refl N).
Qed.

(** A number cannot go on in [t], and there is something in [t]. *)
Definition ended (t : string) : bool := match t with EmptyString => false | String _ _ => num_end t end.

Lemma ended_extends t q : ended t = true -> num_end (t +:+ q) = true.
Proof. by destruct t. Qed.

Lemma scan_exp_extends s e t q : scan_exp s = Some (e, t) -> t <> EmptyString -> scan_exp (s +:+ q) = Some (e, t +:+ q).
Proof.
  destruct s as [|c r]; [done|]. cbn [String.append scan_exp]. destruct (_ || _); [|done].
  destruct r as [|x r]; [done|]. cbn [String.append].
  assert (D : forall r1 (neg : bool), match scan_digits r1 with (EmptyString, _) => None
      | (d, u) => Some ((if neg then - digits_val d else digits_val d)%Z, u) end = Some (e, t) -> t <> EmptyString ->
    match scan_digits (r1 +:+ q) with (EmptyString, _) => None
      | (d, u) => Some ((if neg then - digits_val d else digits_val d)%Z, u) end = Some (e, t +:+ q)).
  { intros r1 neg. destruct (scan_digits r1) as [d u] eqn:S. intros H N.
    assert (u = t) as -> by (destruct d; congruence). rewrite (scan_digits_extends _ _ _ q S N). destruct d; [done|]. by injection H as <-. }
  destruct (ch_eq x "-"%char); [exact (D r true)|]. destruct (ch_eq x "+"%char); [exact (D r false)|]. exact (D (String x r) false).
Qed.

Lemma scan_frac_extends s fp t q : scan_frac s = Some (fp, t) -> t <> EmptyString -> scan_frac (s +:+ q) = Some (fp, t +:+ q).
Proof.
  destruct s as [|c r]; [done|]. cbn [String.append scan_frac]. destruct (ch_eq c "."%char); [|done].
  destruct (scan_digits r) as [d u] eqn:S. intros H N. assert (u = t) as -> by (destruct d; congruence).
  rewrite (scan_digits_extends _ _ _ q S N). destruct d; [done|]. by injection H as <-.
Qed.

Lemma scan_int_extends s ip t q : scan_int s = Some (ip, t) -> t <> EmptyString -> scan_int (s +:+ q) = Some (ip, t +:+ q).
Proof.
  destruct s as [|c r]; [done|]. cbn [String.append scan_int]. destruct (ch_eq c "0"%char); [by intros [= <- <-]|].
  destruct (is_digit c) eqn:D; [|done]. intros [= S] N. f_equal. exact (scan_digits_extends (String c r) _ _ q S N).
Qed.

Lemma scan_unsigned_extends neg s v t q :
  scan_unsigned neg s = Some (v, t) -> ended t = true -> scan_unsigned neg (s +:+ q) = Some (v, t +:+ q).
Proof.
  unfold scan_unsigned. destruct (scan_int s) as [[ip r]|] eqn:I; [|done]. intros H E.
  assert (Ne : t <> EmptyString) by (by intros ->).
  assert (Nr : r <> EmptyString) by (intros ->; cbn in H; congruence).
  rewrite (scan_int_extends _ _ _ q I Nr). destruct (scan_frac r) as [[fp r1]|] eqn:F.
  - assert (N1 : r1 <> EmptyString) by (intros ->; cbn in H; congruence). rewrite (scan_frac_extends _ _ _ q F N1).
    destruct (scan_exp r1) as [[e r2]|] eqn:X; injection H as <- <-.
    + by rewrite (scan_exp_extends _ _ _ q X Ne).
    + by rewrite (scan_exp_end _ (ended_extends _ q E)).
  - destruct (scan_exp r) as [[e r2]|] eqn:X; injection H as <- <-.
    + destruct r as [|c r]; [done|]. assert (scan_frac (String c r +:+ q) = None) as ->.
      { cbn [String.append scan_frac]. destruct (ch_eq c "."%char) eqn:Dt; [|done]. apply Ascii.eqb_eq in Dt as ->. discriminate X. }
      by rewrite (scan_exp_extends _ _ _ q X Ne).
    + by rewrite (scan_frac_end _ (ended_extends _ q E)), (scan_exp_end _ (ended_extends _ q E)).
Qed.

Lemma scan_number_extends s v t q :
  scan_number s = Some (v, t) -> ended t = true -> scan_number (s +:+ q) = Some (v, t +:+ q).
Proof.
  destruct s as [|c r]; [done|]. cbn [String.append scan_number]. destruct (ch_eq c "-"%char); [apply scan_unsigned_extends|].
  exact (scan_unsigned_extends false (String c r) v t q).
Qed.

Lemma scan_atom_extends s v t q :
  scan_atom false s = Some (v, t) -> ended t = true -> scan_atom false (s +:+ q) = Some (v, t +:+ q).
Proof.
  intros H E. assert (P : forall a p, strip_prefix (String a p) s = None -> strip_prefix (String a p) (s +:+ q) = None \/
    exists r, s = String a r).
  { intros a p. destruct s as [|c r]; [discriminate H|]. cbn [String.append strip_prefix].
    destruct (ch_eq a c) eqn:C; [|by left]. apply Ascii.eqb_eq in C as <-. right. by exists r. }
  revert H. unfold scan_atom.
  destruct (strip_prefix "null" s) as [r|] eqn:S1; [intros [= <- <-]; by rewrite (strip_prefix_extends _ _ _ q S1)|].
  destruct (strip_prefix "true" s) as [r|] eqn:S2.
  { intros [= <- <-]. destruct (P _ _ S1) as [->|[r' ->]]; [|discriminate S2]. by rewrite (strip_prefix_extends _ _ _ q S2). }
  destruct (strip_prefix "false" s) as [r|] eqn:S3.
  { intros [= <- <-]. destruct (P _ _ S1) as [->|[r' ->]]; [|discriminate S3].
    destruct (P _ _ S2) as [->|[r' ->]]; [|discriminate S3]. by rewrite (strip_prefix_extends _ _ _ q S3). }
  destruct (scan_number s) as [[v' t']|] eqn:S4; [|done]. intros [= <- <-].
  destruct (P _ _ S1) as [->|[r' ->]]; [|discriminate S4]. destruct (P _ _ S2) as [->|[r' ->]]; [|discriminate S4].
  destruct (P _ _ S3) as [->|[r' ->]]; [|discriminate S4]. by rewrite (scan_number_extends _ _ _ q S4 E).
Qed.

Lemma ended_by t c r : skip_ws t = String c r -> num_end (String c EmptyString) = true -> ended t = true.
Proof.
  destruct t as [|x t]; [done|]. cbn [skip_ws]. destruct (is_ws x) eqn:W.
  - intros _ _. unfold is_ws in W. rewrite !orb_true_iff in W. by destruct W as [[[W|W]|W]|W]; apply Ascii.eqb_eq in W as ->.
  - by intros [= -> ->].
Qed.

(** A delimited value *)
Definition opens (s : string) : bool :=
  match s with String c _ => ch_eq c dquote || ch_eq c "{"%char || ch_eq c "["%char | EmptyString => false end.

Lemma scan_extends n :
  (forall s v t, scan_value false n s = Some (v, t) -> ended t = true \/ opens s = true ->
     forall m q, (n <= m)%nat -> scan_value false m (s +:+ q) = Some (v, t +:+ q)) /\
  (forall acc s v t, scan_items false n acc s = Some (v, t) ->
     forall m q, (n <= m)%nat -> scan_items false m acc (s +:+ q) = Some (v, t +:+ q)) /\
  (forall acc s v t, scan_members false n acc s = Some (v, t) ->
     forall m q, (n <= m)%nat -> scan_members false m acc (s +:+ q) = Some (v, t +:+ q)).
Proof.
  induction n as [|n (IHv & IHi & IHm)]; [done|]. repeat split.
  - intros s v t H E m q L. destruct m as [|m]; [lia|]. apply le_S_n in L. revert H. cbn [scan_value].
    destruct s as [|c r]; [done|]. cbn [String.append opens] in *. destruct (ch_eq c dquote).
    { destruct (scan_string r) as [[k u]|] eqn:S; [|done]. intros [= <- <-]. by rewrite (scan_string_extends _ _ _ q S). }
    destruct (ch_eq c "{"%char).
    { destruct (skip_ws r) as [|c2 t2] eqn:W; [done|]. rewrite (skip_ws_extends _ _ _ q W). destruct (ch_eq c2 "}"%char); [by intros [= <- <-]|].
      intros H. exact (IHm _ _ _ _ H m q L). }
    destruct (ch_eq c "["%char).
    { destruct (skip_ws r) as [|c2 t2] eqn:W; [done|]. rewrite (skip_ws_extends _ _ _ q W). destruct (ch_eq c2 "]"%char); [by intros [= <- <-]|].
      intros H. exact (IHi _ _ _ _ H m q L). }
    destruct E as [E|E]; [|discriminate E]. intros H. exact (scan_atom_extends (String c r) _ _ q H E).
  - intros acc s v t H m q L. destruct m as [|m]; [lia|]. apply le_S_n in L. revert H. rewrite !scan_items_S.
    destruct (scan_value false n s) as [[x u]|] eqn:V; [|done]. destruct (skip_ws u) as [|c w] eqn:W; [done|].
    destruct (ch_eq c "]"%char) eqn:C1; [|destruct (ch_eq c ","%char) eqn:C2; [|done]]; intros H.
    + apply Ascii.eqb_eq in C1 as ->. rewrite (IHv _ _ _ V (or_introl (ended_by _ _ _ W eq_refl)) m q L), (skip_ws_extends _ _ _ q W). by injection H as <- <-.
    + apply Ascii.eqb_eq in C2 as ->. rewrite (IHv _ _ _ V (or_introl (ended_by _ _ _ W eq_refl)) m q L), (skip_ws_extends _ _ _ q W).
      destruct (skip_ws w) as [|c w'] eqn:W2; [destruct n as [|[|n]]; discriminate H|]. change (ch_eq "," "]") with false. change (ch_eq "," ",") with true.
      cbn beta iota. rewrite (skip_ws_extends _ _ _ q W2). exact (IHi _ _ _ _ H m q L).
  - intros acc s v t H m q L. destruct m as [|m]; [lia|]. apply le_S_n in L. revert H. cbn [scan_members].
    destruct s as [|c r]; [done|]. cbn [String.append]. destruct (ch_eq c dquote); [|done].
    destruct (scan_string r) as [[k u]|] eqn:S; [|done]. rewrite (scan_string_extends _ _ _ q S).
    destruct (skip_ws u) as [|c1 u1] eqn:W1; [done|]. rewrite (skip_ws_extends _ _ _ q W1). destruct (ch_eq c1 ":"%char); [|done].
    destruct (scan_value false n (skip_ws u1)) as [[x w]|] eqn:V; [|done].
    destruct (skip_ws u1) as [|c2 u2] eqn:W2; [destruct n; discriminate V|]. rewrite (skip_ws_extends _ _ _ q W2).
    destruct (skip_ws w) as [|c3 w3] eqn:W3; [done|].
    destruct (ch_eq c3 "}"%char) eqn:C1; [|destruct (ch_eq c3 ","%char) eqn:C2; [|done]]; intros H.
    + apply Ascii.eqb_eq in C1 as ->. rewrite (IHv _ _ _ V (or_introl (ended_by _ _ _ W3 eq_refl)) m q L : scan_value _ _ (String c2 (u2 +:+ q)) = _), (skip_ws_extends _ _ _ q W3). by injection H as <- <-.
    + apply Ascii.eqb_eq in C2 as ->. rewrite (IHv _ _ _ V (or_introl (ended_by _ _ _ W3 eq_refl)) m q L : scan_value _ _ (String c2 (u2 +:+ q)) = _), (skip_ws_extends _ _ _ q W3).
      change (ch_eq "," "}") with false. change (ch_eq "," ",") with true. cbn beta iota.
      destruct (skip_ws w3) as [|c4 w4] eqn:W4; [destruct n; discriminate H|]. rewrite (skip_ws_extends _ _ _ q W4). exact (IHm _ _ _ _ H m q L).
Qed.

(** No proper prefix of a printed object parses. *)
Lemma truncated_object o p q :
  json_wf (JObj o) = true -> dumps_default (JObj o) = p +:+ q -> q <> EmptyString -> loads false p = None.
Proof.
  intros W D N. destruct (loads false p) as [v|] eqn:L; [|done]. exfalso. revert L. unfold loads.
  destruct p as [|c p]; [done|]. assert (c = "{"%char) as -> by by injection D.
  change (skip_ws (String "{"%char p)) with (String "{"%char p).
  destruct (scan_value false _ _) as [[v' t]|] eqn:Sv; [|done]. intros _.
  set (n := S (String.length (String "{"%char p))) in *.
  pose proof (proj1 (scan_extends n) _ _ _ Sv (or_intror eq_refl) (Nat.max n (need (JObj o))) q ltac:(lia)) as X.
  rewrite <- D, <- (str_app_nil_r (dumps_default _)) in X.
  rewrite (scan_value_ok " " " " false (fun _ => eq_refl) (fun _ => eq_refl) (JObj o) W) in X; [|lia|done].
  injection X as _ X. destruct t; [by destruct N|discriminate X].
Qed.

(** Nor does an object with more than white space after it. *)
Lemma glued_object o c s : json_wf (JObj o) = true -> is_ws c = false -> num_end (String c s) = true ->
  loads false (dumps_default (JObj o) +:+ String c s) = None.
Proof.
  intros W C E. unfold loads. assert (Sk : skip_ws (dumps_default (JObj o) +:+ String c s) = dumps_default (JObj o) +:+ String c s)
    by by apply skip_ws_dump. rewrite Sk.
  rewrite (scan_value_ok " " " " false (fun _ => eq_refl) (fun _ => eq_refl) (JObj o) W); [| |exact E].
  - cbn [skip_ws]. by rewrite C.
  - pose proof (need_length " " " " (JObj o) W). rewrite str_length_app. unfold dumps_default in *. lia.
Qed.

(** Stripping a text that starts with a brace leaves a prefix of it. *)
Definition no_brace (c : ascii) : bool := negb (ch_eq c "{"%char).

Lemma strip_one_prefix seqs s t :
  forallb (str_all no_brace) seqs = true -> strip_one seqs s = Some t -> exists a, s = a +:+ t /\ str_all no_brace a = true.
Proof.
  induction seqs as [|w seqs IH]; [done|]. cbn [forallb strip_one]. intros [W F]%andb_true_iff.
  destruct (strip_prefix w s) as [u|] eqn:P; [|by apply IH]. intros [= <-]. exists w. split; [|done].
  clear W F IH. revert s P. induction w as [|a w IH]; intros s; [by intros [= ->]|]. destruct s as [|b s]; [done|]. cbn [strip_prefix].
  destruct (ch_eq a b) eqn:E; [|done]. apply Ascii.eqb_eq in E as <-. intros P. cbn. f_equal. by apply IH.
Qed.

Lemma strip_left_prefix seqs n s :
  forallb (str_all no_brace) seqs = true -> exists a, s = a +:+ strip_left n seqs s /\ str_all no_brace a = true.
Proof.
  intros F. revert s. induction n as [|n IH]; intros s; [by exists EmptyString|]. cbn [strip_left].
  destruct (strip_one seqs s) as [t|] eqn:S; [|by exists EmptyString]. apply strip_one_prefix in S as (a & -> & A); [|done].
  destruct (IH t) as (b & E & B). exists (a +:+ b). rewrite <- str_app_assoc, <- E. split; [done|]. by rewrite str_all_app, A, B.
Qed.

Lemma strip_open p : exists p' w, strip (String "{"%char p) = String "{"%char p' /\ p = p' +:+ w.
Proof.
  assert (L : lstrip (String "{"%char p) = String "{"%char p) by reflexivity. unfold strip. rewrite L. clear L. unfold rstrip.
  destruct (strip_left_prefix (map str_rev whitespace_seqs) (String.length (String "{"%char p)) (str_rev (String "{"%char p)) eq_refl)
    as (a & E & A). revert E. generalize (strip_left (String.length (String "{"%char p)) (map str_rev whitespace_seqs) (str_rev (String "{"%char p))).
  intros b E. assert (R : String "{"%char p = str_rev b +:+ str_rev a) by by rewrite <- str_rev_app, <- E, str_rev_involutive.
  destruct (str_rev b) as [|c p'] eqn:B.
  - exfalso. assert (b = EmptyString) as -> by by rewrite <- (str_rev_involutive b), B.
    rewrite str_app_nil_r in E. change (String "{"%char p) with ("{" +:+ p) in E. rewrite str_rev_app in E. subst a.
    rewrite str_all_app in A. apply andb_true_iff in A as [_ A]. discriminate A.
  - injection R as <- ->. by exists p', (str_rev a).
Qed.

Lemma split_lines_one p : p <> EmptyString -> no_eol p = true -> split_lines p = [p].
Proof.
  induction p as [|c p IH]; [done|]. unfold no_eol in *. cbn [str_all split_lines]. unfold not_eol at 1.
  intros _ [C P]%andb_true_iff. apply negb_true_iff, orb_false_iff in C as [-> ->]. destruct p as [|c' p]; [done|].
  rewrite IH by done. done.
Qed.

Lemma no_eol_prefix a b : no_eol (a +:+ b) = true -> no_eol a = true.
Proof. rewrite no_eol_app. by intros [? _]%andb_true_iff. Qed.

Section LedgerLoad.
Context `{SchemaValidator}.

Definition record_wf (r : LedgerRecord) : Prop := json_wf (JObj (to_dict r)) = true.

(** ** One line *)

Lemma dump_record_shape r :
  exists s, dumps_default (JObj (to_dict r)) = "{" +:+ s +:+ "}".
Proof. by eexists. Qed.

Lemma load_record_line r l :
  record_wf r -> record_ok (expected_producer_commit l) r ->
  load_line (dumps_default (JObj (to_dict r))) l = apply_snapshot r l.
Proof.
  intros Hw [Hs Ht]. unfold load_line.
  destruct (dump_record_shape r) as [s E].
  assert (S : strip (dumps_default (JObj (to_dict r))) = dumps_default (JObj (to_dict r)))
    by (rewrite E; apply strip_braces).
  rewrite S. destruct (String.eqb_spec (dumps_default (JObj (to_dict r))) EmptyString) as [E0|_];
    [rewrite E in E0; done|].
  unfold parse_snapshot. rewrite loads_dumps_default by done. cbn [rbind].
  rewrite Hs. cbn [rbind]. rewrite from_dict_to_dict by done. cbn [rbind].
  by rewrite Ht.
Qed.

Lemma apply_snapshot_persistence r l p :
  apply_snapshot r (set_persistence p l) =
  rbind (apply_snapshot r l) (fun l' => Ok (set_persistence p l')).
Proof.
  unfold apply_snapshot. cbn.
  match goal with |- rbind ?m _ = _ => destruct m end; [|done]. cbn [rbind].
  destruct (require _ _); [|done]. cbn [rbind]. by destruct (require _ _).
Qed.

Lemma load_lines_persistence ls l p :
  load_lines ls (set_persistence p l) =
  rbind (load_lines ls l) (fun l' => Ok (set_persistence p l')).
Proof.
  revert l. induction ls as [|x ls IH]; intros l; [done|]. cbn [load_lines].
  assert (E : load_line x (set_persistence p l) = rbind (load_line x l) (fun l' => Ok (set_persistence p l'))).
  { unfold load_line. destruct (String.eqb _ _); [done|]. cbn.
    destruct (parse_snapshot _ _); [|done]. cbn. apply apply_snapshot_persistence. }
  rewrite E. destruct (load_line x l); [|done]. cbn. apply IH.
Qed.

Lemma load_lines_app a b l :
  load_lines (a ++ b) l = rbind (load_lines a l) (load_lines b).
Proof.
  revert l. induction a as [|x a IH]; intros l; [done|]. cbn [app load_lines].
  destruct (load_line x l); [|done]. cbn [rbind]. apply IH.
Qed.

(** ** The log rebuilds the ledger *)

(** The ledger as a new process sees it *)
Definition restarted (l : IdempotencyLedger) : IdempotencyLedger :=
  mkLedger (persistence l) (expected_producer_commit l) (by_intent_id l) (by_digest l)
    (by_execution_id l) [] None.

Definition log_rebuilds (text : string) (l : IdempotencyLedger) : Prop :=
  terminated text /\ encodable text = true /\
  _load_from_disk text (empty_ledger (Some text) (expected_producer_commit l))
  = Ok (set_persistence (Some text) (restarted l)).

Definition durable (l : IdempotencyLedger) : Prop :=
  forall text, persistence l = Some text -> log_rebuilds text l.

Lemma load_appended text r l l' p :
  log_rebuilds text l -> record_wf r -> record_ok (expected_producer_commit l) r ->
  encodable (record_line r) = true ->
  apply_snapshot r (restarted l) = Ok (set_persistence p (restarted l')) ->
  expected_producer_commit l' = expected_producer_commit l ->
  log_rebuilds (text +:+ record_line r) l'.
Proof.
  intros (Ht & He & Hload) Hw Hok Hl Ha Hex.
  assert (N : no_eol (dumps_default (JObj (to_dict r))) = true) by (by apply dumps_no_eol).
  destruct (terminated_line text _ Ht N) as [Ht' Hsplit].
  fold (record_line r) in Ht', Hsplit.
  split; [done|]. split; [by apply encodable_app|].
  unfold _load_from_disk in *. rewrite encodable_app by done. cbn [require rbind].
  rewrite He in Hload. cbn [require rbind] in Hload.
  rewrite Hsplit, load_lines_app, Hex.
  change (empty_ledger (Some (text +:+ record_line r)) (expected_producer_commit l))
    with (set_persistence (Some (text +:+ record_line r))
            (empty_ledger (Some text) (expected_producer_commit l))).
  rewrite load_lines_persistence, Hload. cbn [rbind].
  set (l1 := set_persistence (Some (text +:+ record_line r)) (set_persistence (Some text) (restarted l))).
  cbn [load_lines]. rewrite load_record_line by done.
  change l1 with (set_persistence (Some (text +:+ record_line r)) (restarted l)).
  rewrite apply_snapshot_persistence, Ha. done.
Qed.

(** *** The two kinds of appended record *)

Lemma apply_admission id r l :
  ledger_inv l -> lr_intent_id r = id -> lr_status r = "ADMITTED" ->
  od_get id (by_intent_id l) = None -> by_digest l !! lr_intent_digest r = None ->
  by_execution_id l !! lr_execution_id r = None ->
  apply_snapshot r (restarted l) = Ok (set_persistence (persistence l) (restarted (committed_state id r l))).
Proof.
  intros Hi <- Hs Hn Hd He. unfold apply_snapshot. cbn. rewrite Hn, Hs, Hd, He. done.
Qed.

Lemma apply_transition id r r' l :
  ledger_inv l -> od_get id (by_intent_id l) = Some r -> identity_of r' = identity_of r ->
  _validate_history_transition r r' = Ok tt ->
  apply_snapshot r' (restarted l) =
  Ok (set_persistence (persistence l) (restarted (transitioned_state id r' l))).
Proof.
  intros Hi Hg Hid Hh. destruct (inv_record _ Hi _ _ Hg) as (E & D & X & _).
  unfold identity_of in Hid. injection Hid as I1 I2 I3 I4 I5 I6 I7 I8 I9.
  unfold apply_snapshot. cbn. rewrite I1, I2, I4, E, Hg, Hh. cbn [wrap_if rbind].
  rewrite D, X, !String.eqb_refl. cbn. unfold set_indices, restarted. cbn.
  by rewrite !insert_id.
Qed.

Lemma log_rebuilds_same text l l' :
  by_intent_id l' = by_intent_id l -> by_digest l' = by_digest l ->
  by_execution_id l' = by_execution_id l ->
  expected_producer_commit l' = expected_producer_commit l ->
  log_rebuilds text l -> log_rebuilds text l'.
Proof.
  intros E1 E2 E3 E4 (Ht & He & Hl). split; [done|]. split; [done|].
  rewrite E4, Hl. unfold restarted. cbn. by rewrite E1, E2, E3, E4.
Qed.

(** ** Preservation *)

(** A step of a running service: all stored documents are finite JSON. *)
Definition stored_wf (l : IdempotencyLedger) : Prop :=
  forall k r, od_get k (by_intent_id l) = Some r -> record_wf r.

Definition service_step : relation IdempotencyLedger := fun l l' =>
  ledger_step l l' /\ stored_wf l' /\ poisoned_reason l' = None.

Lemma mark_poisoned k e l :
  poisoned_reason l = Some e -> poisoned_reason (mark_reservation k l) = Some e.
Proof. intros P. destruct k as [k|]; cbn; [|done]. by case_match. Qed.

Lemma service_step_durable l l' :
  service_step l l' -> ledger_inv l -> durable l -> durable l'.
Proof.
  intros (S & Hw & Hp) Hi Hd text Ht.
  destruct S as [id dg who now dl t l1 l2 res E|id l1 l2 res E
         |id dg who exec adm intent retry op st now io l1 l2 res Hf E
         |exec exp st rd tr err now io l1 l2 res E].
  - apply acquire_cases in E as [[-> _]|(_ & _ & -> & _)]; [by apply Hd|].
    eapply log_rebuilds_same, Hd; done.
  - apply release_cases in E as [_ [[-> _]|[_ ->]]]; [by apply Hd|].
    eapply log_rebuilds_same, Hd; done.
  - apply commit_cases in E
      as [[-> _]|(_ & _ & Hn & (rs & G & Hdg & _) & Hok & [(_ & -> & He)|(e & _ & ->)])];
      [by apply Hd| |erewrite mark_poisoned in Hp; [|done]; done].
    set (r := admitted_record id dg who exec adm intent retry op now) in *.
    unfold committed_state in Ht. cbn in Ht. unfold appended in Ht.
    destruct (persistence l1) as [text0|] eqn:P; [|done]. injection Ht as <-.
    eapply (load_appended _ _ l1); try done.
    + by apply Hd.
    + apply (Hw id). unfold committed_state. cbn. by rewrite od_get_set_eq.
    + by apply He.
    + apply apply_admission; try done. cbn. rewrite <- Hdg. by apply (inv_res _ Hi _ _ G).
  - apply transition_cases in E
      as [[-> _]|(_ & id & r & art & L & _ & _ & _ & _ & Hok & Hh & [(_ & -> & He)|(e & _ & ->)])];
      [by apply Hd| |done].
    set (r' := replace_status r st now art) in *.
    apply lookup_execution_inv in L as (G & _ & _); [|done].
    unfold transitioned_state in Ht. cbn in Ht. unfold appended in Ht.
    destruct (persistence l1) as [text0|] eqn:P; [|done]. injection Ht as <-.
    eapply (load_appended _ _ l1); try done.
    + by apply Hd.
    + apply (Hw id). unfold transitioned_state. cbn. by rewrite od_get_set_eq.
    + by apply He.
    + by apply (apply_transition id r).
Qed.

Lemma durable_empty p ex : p = None \/ p = Some EmptyString -> durable (empty_ledger p ex).
Proof.
  intros [->| ->] text; [done|]. intros [= <-]. split; [apply terminated_empty|]. done.
Qed.

Lemma service_steps_durable l l' :
  rtc service_step l l' -> ledger_inv l -> durable l -> ledger_inv l' /\ durable l'.
Proof.
  induction 1 as [l|l1 l2 l3 H12 _ IH]; [done|]. intros Hi Hd. apply IH.
  - destruct H12 as [S _]. by eapply ledger_step_inv.
  - by eapply service_step_durable.
Qed.

Lemma service_steps_expected l l' :
  rtc service_step l l' -> expected_producer_commit l' = expected_producer_commit l.
Proof.
  induction 1 as [|l1 l2 l3 [H12 _] _ IH]; [done|]. rewrite IH. by apply ledger_step_expected.
Qed.

(** ** Properties *)

(** C8: crash recovery.  Start from an absent or empty log, run any
    interleaving of calls on finite JSON documents without a failed append:
    constructing a new ledger from the resulting file succeeds and gives back
    every record and index, with no reservation. *)
Theorem restart_recovers_ledger ex l
  (Hex : match ex with Some c => lower_hex 40 c = true | None => True end)
  (Hs : rtc service_step (empty_ledger (Some EmptyString) ex) l)
  (Hp : persistence l <> None) :
  new_ledger (persistence l) ex = Ok (restarted l).
Proof.
  destruct (service_steps_durable _ _ Hs (inv_empty _ _)) as [_ Hd]; [apply durable_empty; auto|].
  pose proof (service_steps_expected _ _ Hs) as E. cbn in E.
  destruct (persistence l) as [text|] eqn:P; [|done]. unfold new_ledger.
  assert (R : require match ex with Some c => lower_hex 40 c | None => true end
     (ValueErr "expected_producer_commit must be a 40-character lowercase build SHA") = Ok tt)
    by (destruct ex as [c|]; [by rewrite Hex|done]).
  rewrite R. cbn [rbind]. destruct (Hd text P) as (_ & _ & Hl). rewrite E in Hl. rewrite Hl.
  f_equal. unfold restarted, set_persistence. cbn. by rewrite P.
Qed.

Lemma str_take_all n s : (String.length s <= n)%nat -> str_take n s = s.
Proof.
  revert n. induction s as [|c s IH]; intros [|n]; cbn; try done; try lia.
  intros. by rewrite IH by lia.
Qed.

(** A call whose append of [r] failed after [n] bytes; [post] is the state it
    would have reached. *)
Inductive torn_append (l : IdempotencyLedger) (n : nat) :
  LedgerRecord -> IdempotencyLedger -> IdempotencyLedger -> Prop :=
| torn_commit id dg who exec adm intent retry op st now x l' :
    by_execution_id l !! exec = None ->
    commit_admission id dg who exec adm intent retry op st now (AppendFails n x) l = (l', Raise x) ->
    poisoned_reason l = None -> poisoned_reason l' <> None ->
    torn_append l n (admitted_record id dg who exec adm intent retry op now)
      (committed_state id (admitted_record id dg who exec adm intent retry op now) l) l'
| torn_transition exec exp st rd tr err now x l' id r art :
    transition_execution exec exp st rd tr err now (AppendFails n x) l = (l', Raise x) ->
    poisoned_reason l = None -> poisoned_reason l' <> None ->
    lookup_execution exec l = Ok (id, r) -> next_artifacts st rd tr err = Ok art ->
    torn_append l n (replace_status r st now art)
      (transitioned_state id (replace_status r st now art) l) l'.

Lemma torn_append_effect l n r post l' :
  torn_append l n r post l' -> ledger_inv l ->
  record_ok (expected_producer_commit l) r /\
  (exists x, persistence l' = failed_log (AppendFails n x) r (persistence l)) /\
  by_intent_id l' = by_intent_id l /\
  expected_producer_commit post = expected_producer_commit l /\
  (exists p, apply_snapshot r (restarted l) = Ok (set_persistence p (restarted post))).
Proof.
  intros [id dg who exec adm intent retry op st now x l1 Hf E Hp0 Hp
         |exec exp st rd tr err now x l1 id r0 art E Hp0 Hp L A] Hi.
  - apply commit_cases in E
      as [[-> _]|(_ & P & Hn & (rs & G & Hdg & _) & Hok & [(? & _)|(e & _ & ->)])]; try done.
    split; [by apply admitted_ok_any|]. split; [|split; [by rewrite mark_by_intent|split; [done|]]].
    + exists x. unfold mark_reservation. by case_match.
    + eexists. apply apply_admission; try done. cbn. rewrite <- Hdg. by apply (inv_res _ Hi _ _ G).
  - apply transition_cases in E
      as [[-> _]|(P & id' & r' & art' & L' & _ & _ & _ & A' & Hok & Hh & [(? & _)|(e & _ & ->)])]; try done.
    rewrite L in L'. injection L' as <- <-. rewrite A in A'. injection A' as <-.
    split; [done|]. split; [by exists x|]. split; [done|]. split; [done|].
    apply lookup_execution_inv in L as (G & _ & _); [|done].
    eexists. by apply (apply_transition id r0).
Qed.

Lemma record_dump_wf r : record_wf r -> no_eol (dumps_default (JObj (to_dict r))) = true.
Proof. intros W. by apply dumps_no_eol. Qed.

(** Reading a durable log with something more on its last line *)
Lemma load_last text l line p :
  log_rebuilds text l -> no_eol line = true -> line <> EmptyString -> encodable (text +:+ line) = true ->
  _load_from_disk (text +:+ line) (empty_ledger p (expected_producer_commit l)) = load_line line (set_persistence p (restarted l)).
Proof.
  intros (Ht & He & Hl) N Ne E. unfold _load_from_disk in *. rewrite He in Hl. cbn [require rbind] in Hl.
  rewrite E, (Ht line), (split_lines_one line Ne N), load_lines_app. cbn [require rbind].
  change (empty_ledger p (expected_producer_commit l)) with (set_persistence p (empty_ledger (Some text) (expected_producer_commit l))).
  rewrite load_lines_persistence, Hl. cbn [rbind load_lines].
  change (set_persistence p (set_persistence (Some text) (restarted l))) with (set_persistence p (restarted l)).
  by destruct (load_line _ _).
Qed.

(** A line that is no document stops the load. *)
Lemma load_line_unparsed line l :
  strip line <> EmptyString -> loads false (strip line) = None -> exists m, load_line line l = Raise (ValueErr m).
Proof.
  intros N L. unfold load_line. destruct (String.eqb_spec (strip line) EmptyString) as [|_]; [done|].
  unfold parse_snapshot. rewrite L. cbn. by eexists.
Qed.

(** A part of a record's document, as the last line *)
Lemma load_torn text l r p n :
  log_rebuilds text l -> record_wf r -> (0 < n < String.length (dumps_default (JObj (to_dict r))))%nat ->
  exists m, _load_from_disk (text +:+ str_take n (record_line r)) (empty_ledger p (expected_producer_commit l)) = Raise (ValueErr m).
Proof.
  intros Lr W [N1 N2]. unfold record_line. rewrite str_take_app by lia.
  pose proof (record_dump_wf r W) as Ne. pose proof (str_take_drop n (dumps_default (JObj (to_dict r)))) as D.
  rewrite <- D in Ne. apply no_eol_prefix in Ne.
  assert (Nd : str_drop n (dumps_default (JObj (to_dict r))) <> EmptyString).
  { intros E. apply (f_equal String.length) in E. rewrite str_length_drop in E. change (String.length EmptyString) with 0%nat in E. lia. }
  destruct (encodable (text +:+ str_take n (dumps_default (JObj (to_dict r))))) eqn:E;
    [|unfold _load_from_disk; rewrite E; by eexists].
  destruct (dump_record_shape r) as [s Sh]. destruct n as [|n]; [lia|]. 
  assert (T : str_take (S n) (dumps_default (JObj (to_dict r))) = String "{"%char (str_take n (s +:+ "}"))) by by rewrite Sh.
  rewrite (load_last text l) by (done || by rewrite T).
  apply load_line_unparsed; rewrite T; destruct (strip_open (str_take n (s +:+ "}"))) as (p' & w & -> & Ew); [done|].
  rewrite T, Ew in D. apply (truncated_object (to_dict r) _ (w +:+ str_drop (S n) (dumps_default (JObj (to_dict r))))); [exact W| |].
  - rewrite str_app_assoc. exact (eq_sym D).
  - intros X. apply Nd. by destruct w.
Qed.

(** A record appended to a log whose last line has no end *)
Lemma load_glued text l r r2 p :
  log_rebuilds text l -> record_wf r -> record_wf r2 ->
  exists m, _load_from_disk ((text +:+ dumps_default (JObj (to_dict r))) +:+ record_line r2)
              (empty_ledger p (expected_producer_commit l)) = Raise (ValueErr m).
Proof.
  intros Lr W W2. destruct (encodable ((text +:+ dumps_default (JObj (to_dict r))) +:+ record_line r2)) eqn:E;
    [|unfold _load_from_disk; rewrite E; by eexists].
  destruct Lr as (Ht & He & Hl). destruct (dump_record_shape r) as [s Sh]. destruct (dump_record_shape r2) as [s2 Sh2].
  pose proof (record_dump_wf r W) as N. pose proof (record_dump_wf r2 W2) as N2.
  set (d := dumps_default (JObj (to_dict r))) in *. set (d2 := dumps_default (JObj (to_dict r2))) in *.
  assert (Nl : no_eol (d +:+ d2) = true) by by rewrite no_eol_app, N, N2.
  destruct (terminated_line text (d +:+ d2) Ht Nl) as [_ Sp].
  assert (Eq : (text +:+ d) +:+ record_line r2 = text +:+ (d +:+ d2) +:+ String newline EmptyString)
    by (unfold record_line; fold d2; by rewrite !str_app_assoc).
  rewrite Eq in *. unfold _load_from_disk in *. rewrite He in Hl. cbn [require rbind] in Hl. rewrite E, Sp, load_lines_app. cbn [require rbind].
  change (empty_ledger p (expected_producer_commit l)) with (set_persistence p (empty_ledger (Some text) (expected_producer_commit l))).
  rewrite load_lines_persistence, Hl. cbn [rbind load_lines].
  assert (St : strip (d +:+ d2) = d +:+ d2).
  { rewrite Sh, Sh2. replace (("{" +:+ s +:+ "}") +:+ "{" +:+ s2 +:+ "}") with ("{" +:+ (s +:+ "}" +:+ "{" +:+ s2) +:+ "}")
      by by rewrite !str_app_assoc. apply strip_braces. }
  destruct (load_line_unparsed (d +:+ d2) (set_persistence p (set_persistence (Some text) (restarted l)))) as [m ->].
  - rewrite St, Sh. done.
  - rewrite St, Sh2. by apply (glued_object (to_dict r) "{"%char (s2 +:+ "}")).
  - by exists m.
Qed.

(** C38: a torn append is never read as something else.  When the append of a
    record fails after [n] bytes, a restart recovers exactly the ledger before
    the call if nothing was written, raises if a part of the record's document
    was written, and recovers exactly the ledger the call would have made if
    the whole document was, with or without its line feed.  Without it the log
    is one that cannot be appended to: a restart after the next record raises. *)
Theorem torn_append_recovery l n r post l' text
  (Hi : ledger_inv l) (Hd : durable l) (Ht : persistence l = Some text)
  (Hw : record_wf r) (He : encodable (dumps_default (JObj (to_dict r))) = true)
  (Hc : torn_append l n r post l') :
  let size := String.length (dumps_default (JObj (to_dict r))) in
  exists text', persistence l' = Some text' /\
  let reload := _load_from_disk text' (empty_ledger (Some text') (expected_producer_commit l)) in
  (n = 0%nat -> reload = Ok (set_persistence (Some text') (restarted l))) /\
  ((0 < n < size)%nat -> exists m, reload = Raise (ValueErr m)) /\
  ((size <= n)%nat -> reload = Ok (set_persistence (Some text') (restarted post))) /\
  (n = size -> forall r2, record_wf r2 -> exists m,
     _load_from_disk (text' +:+ record_line r2) (empty_ledger (Some (text' +:+ record_line r2)) (expected_producer_commit l))
     = Raise (ValueErr m)).
Proof.
  destruct (torn_append_effect _ _ _ _ _ Hc Hi) as (Hok & (x & Hp) & _ & Hex & (p & Ha)).
  assert (Hl : encodable (record_line r) = true) by (apply encodable_app; [exact He|reflexivity]).
  pose proof (Hd _ Ht) as Lr. rewrite Ht in Hp. cbn [failed_log] in Hp. rewrite Hl in Hp.
  eexists. split; [exact Hp|]. cbn zeta. split; [|split; [|split]].
  - intros ->. cbn [str_take]. rewrite str_app_nil_r. apply Lr.
  - intros N. by apply load_torn.
  - intros N. destruct (Nat.eq_dec n (String.length (dumps_default (JObj (to_dict r))))) as [->|Ne].
    + unfold record_line. rewrite str_take_app, str_take_all by lia.
      rewrite (load_last text l); [|done|by apply record_dump_wf|by destruct (dump_record_shape r) as [s ->]|by apply encodable_app; [apply Lr|]].
      rewrite load_record_line by done. by rewrite apply_snapshot_persistence, Ha.
    + rewrite str_take_all by (unfold record_line; rewrite str_length_app; change (String.length (String newline EmptyString)) with 1%nat; lia).
      rewrite <- Hex.
      by eapply load_appended.
  - intros -> r2 W2. unfold record_line at 1 3. rewrite str_take_app, str_take_all by lia. by apply load_glued.
Qed.
End LedgerLoad.
