(* ===== verification/Quota.v ===== *)
(** * Resource grants and the concurrency limit ([deltacontroller/quota.py])

    The last part proves the limit for the ledger: whatever the interleaving
    of admissions, the executions that are active never outnumber
    [max_concurrency]. *)

From stdpp Require Import relations.
From S2P Require Import Prelude PyFloat Json JsonText Text Sha256 Errors Canonical LedgerRecord Ledger LedgerInv LedgerSystem.
Open Scope string_scope.
Open Scope Z_scope.
Open Scope py_scope.

Definition CEILING_MAX_MEMORY_BYTES : Z := 8 * 1024 * 1024 * 1024.
Definition DEFAULT_MAX_MEMORY_BYTES : Z := 2 * 1024 * 1024 * 1024.
Definition DEFAULT_TIMEOUT_SECONDS : Z := 900.
Definition MAX_TIMEOUT_SECONDS : Z := 3600.
Definition DEFAULT_MAX_CONCURRENCY : Z := 4.

(** [timeout_seconds] is the requested JSON number or the default. *)
Record ResourceGrants := mkGrants {
  max_memory_bytes : Z;
  timeout_seconds : json;
  allow_downloads : bool;
}.

Definition grants_to_dict (g : ResourceGrants) : odict json :=
  [("max_memory_bytes", JInt (max_memory_bytes g));
   ("timeout_seconds", timeout_seconds g);
   ("allow_downloads", JBool (allow_downloads g))].

Record QuotaManager := mkQuota {
  max_concurrency : Z;
  default_memory_bytes : Z;
  ceiling_memory_bytes : Z;
  default_timeout_seconds : Z;
  max_timeout_seconds : Z;
  policy_allow_downloads : bool;
}.

Definition default_quota : QuotaManager :=
  mkQuota DEFAULT_MAX_CONCURRENCY DEFAULT_MAX_MEMORY_BYTES CEILING_MAX_MEMORY_BYTES
    DEFAULT_TIMEOUT_SECONDS MAX_TIMEOUT_SECONDS false.

(** [v > z] for an int [z]: only numbers compare. *)
Definition py_gt (v : json) (z : Z) : result exn bool :=
  match v with
  | JInt n => Ok (z <? n)
  | JBool b => Ok (z <? if b then 1 else 0)
  | JFloat f => Ok (float_gt_int f z)
  | _ => Raise (TypeErr "'>' not supported")
  end.

Definition quota_exceeded (m : string) : exn := ControllerErr QuotaExceededError m.

Definition evaluate_grants (q : QuotaManager) (intent_doc : odict json)
  (current_active_count : Z) : result exn ResourceGrants :=
  require (negb ((default_memory_bytes q <? 1)
                 || (ceiling_memory_bytes q <? default_memory_bytes q)
                 || (CEILING_MAX_MEMORY_BYTES <? ceiling_memory_bytes q)))
    (quota_exceeded "Configured memory grant is outside the fail-closed policy bounds") ;?
  require (negb (max_concurrency q <=? current_active_count))
    (quota_exceeded "Concurrency limit reached") ;?
  let constraints := match od_get "execution_constraints" intent_doc with
                     | Some c => c
                     | None => JObj []
                     end in
  let? requested_timeout := attr_get constraints "timeout_seconds" in
  let? timeout :=
    (if is_none requested_timeout then Ok (JInt (default_timeout_seconds q))
     else
       let? over := py_gt requested_timeout (max_timeout_seconds q) in
       require (negb over) (quota_exceeded "Requested timeout exceeds maximum allowed limit") ;?
       Ok requested_timeout) in
  Ok (mkGrants (default_memory_bytes q) timeout (policy_allow_downloads q)).

(** ** Grants *)

(** grants are within policy: memory is the configured default and never
    above the absolute ceiling, the timeout never exceeds the maximum, the
    downloads flag is the policy's and nothing the intent says, and a grant is
    given only below the concurrency limit. *)
Theorem evaluate_grants_within_policy q intent n g
  (Hq : default_timeout_seconds q <= max_timeout_seconds q)
  (Hg : evaluate_grants q intent n = Ok g) :
  1 <= max_memory_bytes g <= CEILING_MAX_MEMORY_BYTES /\
  max_memory_bytes g = default_memory_bytes q /\
  py_gt (timeout_seconds g) (max_timeout_seconds q) = Ok false /\
  allow_downloads g = policy_allow_downloads q /\
  n < max_concurrency q.
Proof.
  unfold evaluate_grants in Hg. apply rbind_unit_Ok in Hg as [Hm Hg].
  apply require_Ok, negb_true_iff in Hm. apply rbind_unit_Ok in Hg as [Hc Hg].
  apply require_Ok, negb_true_iff, Z.leb_gt in Hc.
  apply orb_false_iff in Hm as [Hm H3]. apply orb_false_iff in Hm as [H1 H2].
  apply Z.ltb_ge in H1, H2, H3.
  apply rbind_Ok in Hg as (rt & _ & Hg). apply rbind_Ok in Hg as (t & Ht & [= <-]). cbn.
  repeat (split; [first [done|lia]|]). split; [|split; [done|lia]].
  destruct (is_none rt).
  - injection Ht as <-. cbn. f_equal. apply Z.ltb_ge. lia.
  - apply rbind_Ok in Ht as (b & Hb & Ht). apply rbind_unit_Ok in Ht as [Hr [= <-]].
    apply require_Ok, negb_true_iff in Hr. by rewrite Hb, Hr.
Qed.

Lemma evaluate_grants_within_policy_witness :
  let g := mkGrants DEFAULT_MAX_MEMORY_BYTES (JInt 60) false in
  1 <= max_memory_bytes g <= CEILING_MAX_MEMORY_BYTES /\
  max_memory_bytes g = default_memory_bytes default_quota /\
  py_gt (timeout_seconds g) (max_timeout_seconds default_quota) = Ok false /\
  allow_downloads g = policy_allow_downloads default_quota /\
  3 < max_concurrency default_quota.
Proof.
  apply (evaluate_grants_within_policy default_quota
           [("execution_constraints", JObj [("timeout_seconds", JInt 60)])] 3).
  - vm_compute. discriminate.
  - vm_compute. reflexivity.
Defined.

(** ** The concurrency limit *)

Section ConcurrencyLimit.
Context `{SchemaValidator} (q : QuotaManager).

(** Reservations that are still held *)
Definition still_held (l : IdempotencyLedger) (granted : gset string) : gset string :=
  filter (fun id => od_mem id (reservations l) = true) granted.

(** Steps of concurrent admissions.  An admission commits only after
    [evaluate_grants] accepted the [active_count] of its own reservation;
    [granted] holds the reservations that passed it. *)
Inductive admission_step : relation (IdempotencyLedger * gset string) :=
| adm_grant id intent n g l granted :
    active_count (Some id) l = (l, Ok n) ->
    evaluate_grants q intent (Z.of_nat n) = Ok g ->
    admission_step (l, granted) (l, {[id]} ∪ granted)
| adm_commit id dg who exec adm intent retry op st now io l l' res granted :
    id ∈ granted -> by_execution_id l !! exec = None ->
    commit_admission id dg who exec adm intent retry op st now io l = (l', res) ->
    admission_step (l, granted) (l', still_held l' granted)
| adm_acquire id dg who now dl t l l' res granted :
    acquire_iteration id dg who now dl t l = (l', res) ->
    admission_step (l, granted) (l', still_held l' granted)
| adm_release id l l' res granted :
    release_reservation id l = (l', res) ->
    admission_step (l, granted) (l', still_held l' granted)
| adm_transition exec exp st rd tr err now io l l' res granted :
    transition_execution exec exp st rd tr err now io l = (l', res) ->
    admission_step (l, granted) (l', still_held l' granted).

(** *** Positions of reservations *)

Lemma before_Some k (rs : odict Reservation) :
  is_Some (reservations_before k rs) <-> is_Some (od_get k rs).
Proof.
  induction rs as [|[k' r] rs IH]; cbn; [done|].
  rewrite (String.eqb_sym k' k). destruct (String.eqb k k'); [split; eauto|].
  rewrite <- IH. destruct (reservations_before k rs); split; intros [? ?]; eauto; done.
Qed.

Lemma before_set_new k k' r (rs : odict Reservation) p :
  reservations_before k rs = Some p -> od_get k' rs = None ->
  reservations_before k (od_set k' r rs) = Some p.
Proof.
  intros Hp Hn. rewrite od_set_new by done. revert p Hp. clear Hn.
  induction rs as [|[k2 r2] rs IH]; cbn; [done|]. intros p.
  destruct (String.eqb k2 k); [done|].
  destruct (reservations_before k rs) as [n|]; [|done]. by rewrite (IH n).
Qed.

Lemma before_set_same k k' r r0 (rs : odict Reservation) :
  od_get k' rs = Some r0 ->
  reservations_before k (od_set k' r rs) = reservations_before k rs.
Proof.
  induction rs as [|[k2 r2] rs IH]; cbn; [done|].
  destruct (String.eqb_spec k' k2) as [->|]; [done|]. cbn. intros E. by rewrite IH.
Qed.

(** Dropping a reservation moves the later ones up by one. *)
Lemma before_pop k k' (rs : odict Reservation) p p' :
  k <> k' -> reservations_before k rs = Some p -> reservations_before k' rs = Some p' ->
  p <> p' /\
  reservations_before k (od_pop k' rs) = Some (if (p' <? p)%nat then (p - 1)%nat else p).
Proof.
  intros Hne. revert p p'. induction rs as [|[k2 r2] rs IH]; cbn; [done|]. intros p p'.
  destruct (String.eqb_spec k2 k) as [E|Hk], (String.eqb_spec k2 k') as [E'|Hk'];
    [congruence| | |].
  - intros [= <-]. destruct (reservations_before k' rs) as [n|]; [|done]. intros [= <-].
    destruct (String.eqb_spec k' k2); [congruence|]. cbn. by rewrite E, String.eqb_refl.
  - destruct (reservations_before k rs) as [n|] eqn:En; [|done]. intros [= <-] [= <-].
    rewrite E', String.eqb_refl, En. split; [done|]. cbn. f_equal. lia.
  - destruct (reservations_before k rs) as [n|]; [|done].
    destruct (reservations_before k' rs) as [n'|]; [|done]. intros [= <-] [= <-].
    destruct (IH n n' eq_refl eq_refl) as [Hnn E].
    destruct (String.eqb_spec k' k2); [congruence|]. cbn [reservations_before].
    destruct (String.eqb_spec k2 k); [done|]. rewrite E. split; [lia|].
    apply f_equal. destruct (Nat.ltb_spec n' n), (Nat.leb_spec (S n') n); lia.
Qed.

(** *** Counting active records *)

Definition nt_count (d : odict LedgerRecord) : nat :=
  length (filter is_nonterminal (od_values d)).

Lemma nt_count_cons k r d :
  nt_count ((k, r) :: d) = ((if is_nonterminal r then 1 else 0) + nt_count d)%nat.
Proof.
  unfold nt_count, od_values. cbn [map snd]. rewrite filter_cons.
  by destruct (is_nonterminal r).
Qed.

Lemma nt_count_set_new k r d :
  od_get k d = None -> nt_count (od_set k r d) = (nt_count d + if is_nonterminal r then 1 else 0)%nat.
Proof.
  induction d as [|[k' r'] d IH]; cbn [od_get od_set]; intros E.
  - rewrite nt_count_cons. unfold nt_count. cbn. lia.
  - destruct (String.eqb k k'); [done|]. rewrite !nt_count_cons, IH by done. lia.
Qed.

Lemma nt_count_set_same k r r' d :
  od_get k d = Some r -> is_nonterminal r = true -> (nt_count (od_set k r' d) <= nt_count d)%nat.
Proof.
  induction d as [|[k2 r2] d IH]; cbn [od_get od_set]; [done|].
  destruct (String.eqb k k2).
  - intros [= ->] E. rewrite !nt_count_cons, E. destruct (is_nonterminal r'); lia.
  - intros E1 E2. rewrite !nt_count_cons. specialize (IH E1 E2). lia.
Qed.

Lemma known_nonterminal r :
  lr_status r ∈ KNOWN_STATUSES -> lr_status r ∉ TERMINAL_STATUSES -> is_nonterminal r = true.
Proof.
  unfold KNOWN_STATUSES, is_nonterminal. rewrite elem_of_app, str_in_elem. naive_solver.
Qed.

(** *** The invariant *)

Record limit_inv (l : IdempotencyLedger) (granted : gset string) : Prop := {
  lim_ledger : ledger_inv l;
  lim_count : Z.of_nat (nonterminal_count l) <= max_concurrency q;
  lim_granted : forall id, id ∈ granted ->
    exists p, reservations_before id (reservations l) = Some p /\
              Z.of_nat (nonterminal_count l + p + 1) <= max_concurrency q;
}.

Lemma still_held_spec l granted id :
  id ∈ still_held l granted <-> id ∈ granted /\ is_Some (od_get id (reservations l)).
Proof.
  unfold still_held. rewrite elem_of_filter. unfold od_mem. destruct (od_get id _); split.
  - intros [_ ?]. eauto.
  - intros [? _]. eauto.
  - by intros [? _].
  - by intros [_ [? ?]].
Qed.

Lemma limit_grant id intent n g l granted :
  limit_inv l granted -> active_count (Some id) l = (l, Ok n) ->
  evaluate_grants q intent (Z.of_nat n) = Ok g -> limit_inv l ({[id]} ∪ granted).
Proof.
  intros Hi Ha Hg. split; [apply Hi|apply Hi|].
  intros id' [->%elem_of_singleton|Hin]%elem_of_union; [|by apply Hi].
  unfold active_count, mbind, mget, mret, mraise in Ha.
  destruct (_raise_if_poisoned l) as [l1 [[]|]] eqn:R; [|done].
  unfold _raise_if_poisoned in R. destruct (poisoned_reason l); [done|]. injection R as <-.
  destruct (reservations_before id (reservations l)) as [p|]; [|done]. injection Ha as <-.
  exists p. split; [done|]. unfold evaluate_grants in Hg.
  apply rbind_unit_Ok in Hg as [_ Hg]. apply rbind_unit_Ok in Hg as [Hc _].
  apply require_Ok, negb_true_iff, Z.leb_gt in Hc. lia.
Qed.

Lemma limit_commit id dg who exec adm intent retry op st now io l l' res granted :
  limit_inv l granted -> id ∈ granted -> by_execution_id l !! exec = None ->
  commit_admission id dg who exec adm intent retry op st now io l = (l', res) ->
  limit_inv l' (still_held l' granted).
Proof.
  intros Hi Hid Hf E.
  assert (Hl : ledger_inv l') by (eapply ledger_step_inv; [eapply step_commit|]; eauto; apply Hi).
  destruct (lim_granted _ _ Hi _ Hid) as (p & Hp & Hn).
  apply commit_cases in E
    as [[-> _]|(_ & _ & Hb & (rs & G & _) & _ & [(_ & -> & _)|(e & _ & ->)])].
  - split; [done|apply Hi|]. intros k [Hk _]%still_held_spec. by apply Hi.
  - set (r := admitted_record id dg who exec adm intent retry op now) in *.
    assert (C : nonterminal_count (committed_state id r l) = (nonterminal_count l + 1)%nat)
      by (by apply nt_count_set_new).
    split; [done|rewrite C; lia|]. rewrite C.
    intros k [Hk [rk Hr]]%still_held_spec. cbn [committed_state reservations set_reservations] in *.
    assert (Hne : k <> id).
    { intros ->. rewrite od_get_pop_eq in Hr; [done|apply Hi]. }
    destruct (lim_granted _ _ Hi _ Hk) as (pk & Hpk & Hnk).
    destruct (before_pop k id _ _ _ Hne Hpk Hp) as [Hpp ->].
    eexists. split; [done|]. destruct (Nat.ltb_spec p pk); lia.
  - split; [done| |]; unfold nonterminal_count; rewrite mark_by_intent; [apply Hi|].
    intros k [Hk _]%still_held_spec. destruct (lim_granted _ _ Hi _ Hk) as (pk & Hpk & Hnk).
    exists pk. split; [|done]. unfold mark_reservation. cbn. rewrite G. cbn.
    by erewrite before_set_same.
Qed.

Lemma limit_acquire id dg who now dl t l l' res granted :
  limit_inv l granted -> acquire_iteration id dg who now dl t l = (l', res) ->
  limit_inv l' (still_held l' granted).
Proof.
  intros Hi E.
  assert (Hl : ledger_inv l') by (eapply ledger_step_inv; [by eapply step_acquire|apply Hi]).
  apply acquire_cases in E as [[-> _]|(_ & _ & -> & _ & Hr & _)].
  - split; [done|apply Hi|]. intros k [Hk _]%still_held_spec. by apply Hi.
  - split; [done|apply Hi|]. intros k [Hk _]%still_held_spec.
    destruct (lim_granted _ _ Hi _ Hk) as (pk & Hpk & Hnk). exists pk.
    split; [|done]. by apply before_set_new.
Qed.

Lemma limit_release id l l' res granted :
  limit_inv l granted -> release_reservation id l = (l', res) ->
  limit_inv l' (still_held l' granted).
Proof.
  intros Hi E.
  assert (Hl : ledger_inv l') by (eapply ledger_step_inv; [by eapply step_release|apply Hi]).
  apply release_cases in E as [_ [[-> _]|[_ ->]]];
    (split; [done|apply Hi|]; intros k [Hk [rk Hr]]%still_held_spec).
  - by apply Hi.
  - destruct (lim_granted _ _ Hi _ Hk) as (pk & Hpk & Hnk).
    cbn [set_reservations reservations] in *.
    assert (Hne : k <> id).
    { intros ->. rewrite od_get_pop_eq in Hr; [done|apply Hi]. }
    destruct (reservations_before id (reservations l)) as [p|] eqn:Hp.
    + destruct (before_pop k id _ _ _ Hne Hpk Hp) as [Hpp ->].
      eexists. split; [done|]. change (nonterminal_count (set_reservations _ l)) with (nonterminal_count l).
      destruct (Nat.ltb_spec p pk); lia.
    + rewrite od_pop_absent; [eauto|]. destruct (od_get id (reservations l)) eqn:G; [|done].
      assert (X : is_Some (reservations_before id (reservations l))) by (apply before_Some; eauto).
      rewrite Hp in X. by destruct X.
Qed.

Lemma limit_transition exec exp st rd tr err now io l l' res granted :
  limit_inv l granted -> transition_execution exec exp st rd tr err now io l = (l', res) ->
  limit_inv l' (still_held l' granted).
Proof.
  intros Hi E.
  assert (Hl : ledger_inv l') by (eapply ledger_step_inv; [by eapply step_transition|apply Hi]).
  apply transition_cases in E
    as [[-> _]|(_ & id & r & art & L & _ & Hnt & _ & _ & Hok & _ & [(_ & -> & _)|(e & _ & ->)])].
  - split; [done|apply Hi|]. intros k [Hk _]%still_held_spec. by apply Hi.
  - apply lookup_execution_inv in L as (G & _ & _); [|apply Hi].
    destruct (inv_record _ (lim_ledger _ _ Hi) _ _ G) as (_ & _ & _ & [Hs _]).
    apply validate_snapshot_fields in Hs as (_ & (st0 & Est & Hk) & _).
    cbn in Est. injection Est as <-.
    pose proof (known_nonterminal _ Hk Hnt) as Hn.
    assert (C : (nonterminal_count (transitioned_state id (replace_status r st now art) l)
                 <= nonterminal_count l)%nat) by (by eapply nt_count_set_same).
    pose proof (lim_count _ _ Hi). split; [done|lia|].
    intros k [Hk' _]%still_held_spec. destruct (lim_granted _ _ Hi _ Hk') as (pk & Hpk & Hnk).
    exists pk. split; [done|lia].
  - split; [done|apply Hi|]. intros k [Hk _]%still_held_spec. by apply Hi.
Qed.

Lemma admission_step_inv s s' :
  admission_step s s' -> limit_inv s.1 s.2 -> limit_inv s'.1 s'.2.
Proof.
  intros []; cbn; eauto using limit_grant, limit_commit, limit_acquire, limit_release, limit_transition.
Qed.

(** the concurrency limit.  Start from a ledger without reservations and
    within the limit; let any number of admissions reserve, check their quota,
    commit, release and change status in any order.  The active executions
    never outnumber [max_concurrency], and every reservation that passed its
    check can still be committed within it. *)
Theorem concurrency_limit l0 l granted
  (Hi : ledger_inv l0) (Hn : Z.of_nat (nonterminal_count l0) <= max_concurrency q)
  (Hs : rtc admission_step (l0, ∅) (l, granted)) :
  Z.of_nat (nonterminal_count l) <= max_concurrency q /\
  forall id, id ∈ granted -> Z.of_nat (nonterminal_count l) < max_concurrency q.
Proof.
  assert (J : forall s s', rtc admission_step s s' -> limit_inv s.1 s.2 -> limit_inv s'.1 s'.2).
  { induction 1; eauto using admission_step_inv. }
  assert (Hl : limit_inv l granted).
  { apply (J _ _ Hs). split; [done|done|]. cbn. intros id []%not_elem_of_empty. }
  split; [apply Hl|]. intros id Hid. destruct (lim_granted _ _ Hl _ Hid) as (p & _ & ?). lia.
Qed.
End ConcurrencyLimit.
