(* ===== verification/LedgerWitness.v ===== *)
(** * The ledger theorems on a concrete run

    A run of the ledger evaluated step by step: an intent is reserved,
    committed and cancelled.  Each witness applies a theorem of
    [LedgerSystem], [LedgerLoad] or [Quota] to it; the last examples run the log
    through a restart. *)

From stdpp Require Import relations.
From S2P Require Import Prelude PyFloat Json JsonText Text Sha256 Errors Canonical LedgerRecord Ledger LedgerInv LedgerSystem LedgerSpec LedgerLoad Quota.
Open Scope string_scope.
Open Scope py_scope.

(** A validator that accepts every document *)
#[export] Instance accept_all : SchemaValidator := {| schema_accepts _ _ := true |}.

Definition demo_admission : odict json := [("admission_id", JStr "a1"); ("limit", JInt 3)].
Definition demo_error : odict json := [("code", JStr "ERR_CANCELLED")].

Definition demo0 : IdempotencyLedger := empty_ledger (Some EmptyString) None.
Definition demo_reserve := acquire_iteration "i1" "sha256:aa" "alice" "t0" 30000 0.
Definition demo_commit := commit_admission "i1" "sha256:aa" "alice" "e1" demo_admission None None
  (Some "TRAIN") "ADMITTED" "t1".
Definition demo_cancel := transition_execution "e1" NONTERMINAL_STATUSES "CANCELLED" None None
  (Some demo_error) "t2".
Definition demo1 : IdempotencyLedger := Eval vm_compute in fst (demo_reserve demo0).
Definition demo2 : IdempotencyLedger := Eval vm_compute in fst (demo_commit AppendOk demo1).
Definition demo3 : IdempotencyLedger := Eval vm_compute in fst (demo_cancel AppendOk demo2).
Definition demo_poisoned : IdempotencyLedger :=
  Eval vm_compute in fst (demo_commit (AppendFails 7 (OSErr "EIO")) demo1).

Definition demo_admitted : LedgerRecord :=
  admitted_record "i1" "sha256:aa" "alice" "e1" demo_admission None None (Some "TRAIN") "t1".
Definition demo_cancelled : LedgerRecord :=
  replace_status demo_admitted "CANCELLED" "t2" (None, None, Some demo_error).

Lemma demo_step01 : ledger_step demo0 demo1.
Proof. eapply (step_acquire "i1" "sha256:aa" "alice" "t0" 30000 0). vm_compute. reflexivity. Qed.
Lemma demo_step12 : ledger_step demo1 demo2.
Proof.
  eapply (step_commit "i1" "sha256:aa" "alice" "e1" demo_admission None None (Some "TRAIN")
            "ADMITTED" "t1" AppendOk); vm_compute; reflexivity.
Qed.
Lemma demo_step23 : ledger_step demo2 demo3.
Proof.
  eapply (step_transition "e1" NONTERMINAL_STATUSES "CANCELLED" None None (Some demo_error) "t2"
            AppendOk). vm_compute. reflexivity.
Qed.

Lemma demo_steps02 : rtc ledger_step demo0 demo2.
Proof. eapply rtc_l; [apply demo_step01|]. apply rtc_once, demo_step12. Qed.
Lemma demo_steps03 : rtc ledger_step demo0 demo3.
Proof. eapply rtc_r; [apply demo_steps02|apply demo_step23]. Qed.
Lemma demo_inv1 : ledger_inv demo1.
Proof. eapply ledger_step_inv; [apply demo_step01|apply inv_empty]. Qed.
Lemma demo_inv2 : ledger_inv demo2.
Proof. eapply ledger_steps_inv; [apply demo_steps02|apply inv_empty]. Qed.
Lemma demo_inv3 : ledger_inv demo3.
Proof. eapply ledger_steps_inv; [apply demo_steps03|apply inv_empty]. Qed.

Lemma reachable_ledger_coherent_witness :
  ledger_inv demo3 /\
  forall k1 k2 r1 r2,
    od_get k1 (by_intent_id demo3) = Some r1 -> od_get k2 (by_intent_id demo3) = Some r2 ->
    lr_intent_digest r1 = lr_intent_digest r2 \/ lr_execution_id r1 = lr_execution_id r2 ->
    k1 = k2.
Proof. apply (reachable_ledger_coherent (Some EmptyString) None). apply demo_steps03. Defined.

Lemma terminal_record_immutable_witness :
  od_get "i1" (by_intent_id demo3) = Some demo_cancelled.
Proof.
  apply (terminal_record_immutable demo3 demo3 "i1" demo_cancelled).
  - apply demo_inv3.
  - apply rtc_refl.
  - vm_compute. reflexivity.
  - apply str_in_elem. vm_compute. reflexivity.
Defined.

Lemma record_history_legal_witness :
  exists r', od_get "i1" (by_intent_id demo3) = Some r' /\ identity_of r' = identity_of demo_admitted /\
    rtc (fun s t => t ∈ _LEGAL_TRANSITIONS s) "ADMITTED" (lr_status r').
Proof.
  apply (record_history_legal demo2 demo3 "i1" demo_admitted).
  - apply demo_inv2.
  - apply rtc_once, demo_step23.
  - vm_compute. reflexivity.
Defined.

Lemma resubmission_outcomes_witness :
  (exists r', identity_of r' = identity_of demo_admitted /\
     acquire_iteration "i1" "sha256:aa" "alice" "t9" 0 0 demo3 = (demo3, Ok (Committed r'))) /\
  ("bob" <> "alice" ->
     acquire_iteration "i1" "sha256:bb" "bob" "t9" 0 0 demo3 = (demo3, Raise unauthorized)) /\
  ("sha256:bb" <> "sha256:aa" ->
     acquire_iteration "i1" "sha256:bb" "alice" "t9" 0 0 demo3 = (demo3, Raise digest_conflict)) /\
  (forall id', od_get id' (by_intent_id demo3) = None ->
     acquire_iteration id' "sha256:aa" "bob" "t9" 0 0 demo3 = (demo3, Raise collision)).
Proof.
  apply (resubmission_outcomes demo2 demo3 "i1" demo_admitted "bob" "sha256:bb" "t9" 0 0).
  - apply demo_inv2.
  - apply rtc_once, demo_step23.
  - vm_compute. reflexivity.
  - vm_compute. reflexivity.
Defined.

Definition demo_second_reservation : IdempotencyLedger :=
  Eval vm_compute in fst (acquire_iteration "i2" "sha256:bb" "bob" "t0" 30000 0 demo1).

Lemma reservation_exclusive_witness :
  let rs := new_reservation "i1" "sha256:aa" "alice" "t0" in
  "i2" <> "i1" /\ "sha256:bb" <> rs_intent_digest rs /\
  od_get "i1" (reservations demo_second_reservation) = Some rs /\
  od_get "i1" (by_intent_id demo_second_reservation) = None /\
  by_digest demo_second_reservation !! rs_intent_digest rs = None.
Proof.
  apply (reservation_exclusive demo1 "i1" (new_reservation "i1" "sha256:aa" "alice" "t0")
           "i2" "sha256:bb" "bob" "t0" 30000 0 demo_second_reservation).
  - apply demo_inv1.
  - vm_compute. reflexivity.
  - vm_compute. reflexivity.
Defined.

Lemma commit_admission_atomic_witness :
  by_intent_id demo_poisoned = by_intent_id demo1 /\ by_digest demo_poisoned = by_digest demo1 /\
  by_execution_id demo_poisoned = by_execution_id demo1 /\
  (demo_poisoned = demo1 \/ poisoned_reason demo_poisoned <> None).
Proof.
  apply (commit_admission_atomic "i1" "sha256:aa" "alice" "e1" demo_admission None None
           (Some "TRAIN") "ADMITTED" "t1" (AppendFails 7 (OSErr "EIO")) demo1 demo_poisoned
           (Raise (OSErr "EIO"))).
  vm_compute. reflexivity.
Defined.

Lemma late_update_keeps_terminal_witness :
  update_execution "e1" "COMPLETED" (Some "sha256:cc") (Some [("x", JInt 1)]) None "t5" AppendOk demo3
  = (demo3, Ok demo_cancelled).
Proof.
  apply late_update_keeps_terminal.
  - apply demo_inv3.
  - vm_compute. reflexivity.
  - vm_compute. reflexivity.
  - apply str_in_elem. vm_compute. reflexivity.
  - apply str_in_elem. vm_compute. reflexivity.
Defined.

Lemma transition_compare_and_set_witness :
  get_by_execution_id "e1" demo3 = Some demo_cancelled /\ lr_status demo_cancelled = "CANCELLED" /\
  exists r, get_by_execution_id "e1" demo2 = Some r /\ lr_status r ∈ NONTERMINAL_STATUSES /\
    ((demo3 = demo2 /\ demo_cancelled = r) \/
     (record_step r demo_cancelled /\ persistence demo3 = appended demo_cancelled (persistence demo2) /\
      record_ok (expected_producer_commit demo2) demo_cancelled)).
Proof.
  apply (transition_compare_and_set "e1" NONTERMINAL_STATUSES "CANCELLED" None None (Some demo_error)
           "t2" AppendOk demo2 demo3 (Some demo_cancelled)).
  - apply demo_inv2.
  - vm_compute. reflexivity.
Defined.

Lemma poisoned_fail_closed_witness :
  demo_poisoned = demo_poisoned /\
  (forall id dg who now dl t, exists x,
     acquire_iteration id dg who now dl t demo_poisoned = (demo_poisoned, Raise x)) /\
  (forall id dg who exec adm intent retry op st now io, exists x,
     commit_admission id dg who exec adm intent retry op st now io demo_poisoned
     = (demo_poisoned, Raise x)) /\
  (forall exec exp st rd tr err now io, exists x,
     transition_execution exec exp st rd tr err now io demo_poisoned = (demo_poisoned, Raise x)) /\
  (exists x, list_records demo_poisoned = (demo_poisoned, Raise x)) /\
  (forall k, exists x, active_count k demo_poisoned = (demo_poisoned, Raise x)).
Proof.
  apply (poisoned_fail_closed demo_poisoned demo_poisoned (OSErr "EIO")).
  - vm_compute. reflexivity.
  - apply rtc_refl.
Defined.

(** Another caller waits for the reservation and gives up at its deadline. *)
Lemma acquire_or_check_terminates_witness :
  Raise (TimeoutErr "Timed out waiting for in-flight intent") <> @Ok exn (option (option LedgerRecord)) None.
Proof.
  apply (acquire_or_check_terminates "i1" "sha256:aa" "alice" "t0" 100 0
           [mkWakeup (fun l => l) 40; mkWakeup (fun l => l) 100] demo1 demo1).
  - apply Exists_cons_tl, Exists_cons_hd. vm_compute. discriminate.
  - vm_compute. reflexivity.
Defined.

Lemma one_record_wf l r : by_intent_id l = [("i1", r)] -> record_wf r -> stored_wf l.
Proof. intros E Hw k r'. rewrite E. cbn. case_match; [by intros [= <-]|done]. Qed.

Lemma demo_service_steps02 : rtc service_step demo0 demo2.
Proof.
  eapply rtc_l; [|apply rtc_once].
  - split; [apply demo_step01|split; [|reflexivity]]. intros k r'. done.
  - split; [apply demo_step12|split; [|reflexivity]].
    apply (one_record_wf _ demo_admitted); vm_compute; reflexivity.
Qed.

Lemma demo_service_steps : rtc service_step demo0 demo3.
Proof.
  eapply rtc_r; [apply demo_service_steps02|].
  split; [apply demo_step23|split; [|reflexivity]].
  apply (one_record_wf _ demo_cancelled); vm_compute; reflexivity.
Qed.

Lemma restart_recovers_ledger_witness : new_ledger (persistence demo3) None = Ok (restarted demo3).
Proof.
  apply restart_recovers_ledger.
  - exact I.
  - apply demo_service_steps.
  - vm_compute. discriminate.
Defined.

Lemma demo2_durable : durable demo2.
Proof.
  eapply service_steps_durable; [apply demo_service_steps02|apply inv_empty|].
  apply durable_empty. by right.
Qed.

(** The cancellation's append fails after 40 bytes of its document. *)
Definition demo_part : IdempotencyLedger := Eval vm_compute in
  (transition_execution "e1" NONTERMINAL_STATUSES "CANCELLED" None None (Some demo_error) "t2"
     (AppendFails 40 (OSErr "ENOSPC")) demo2).1.

Lemma torn_append_recovery_witness :
  (40 < String.length (dumps_default (JObj (to_dict demo_cancelled))))%nat /\
  exists text' m, persistence demo_part = Some text' /\
    _load_from_disk text' (empty_ledger (Some text') (expected_producer_commit demo2)) = Raise (ValueErr m).
Proof.
  assert (L : (40 < String.length (dumps_default (JObj (to_dict demo_cancelled))))%nat)
    by (apply Nat.ltb_lt; vm_compute; reflexivity).
  split; [exact L|].
  destruct (torn_append_recovery demo2 40 demo_cancelled (transitioned_state "i1" demo_cancelled demo2) demo_part
    (match persistence demo2 with Some text => text | None => EmptyString end)) as (text' & P & _ & T & _).
  - apply demo_inv2.
  - apply demo2_durable.
  - vm_compute. reflexivity.
  - vm_compute. reflexivity.
  - vm_compute. reflexivity.
  - apply (torn_transition demo2 40 "e1" NONTERMINAL_STATUSES "CANCELLED" None None
             (Some demo_error) "t2" (OSErr "ENOSPC") demo_part "i1" demo_admitted);
      vm_compute; try reflexivity; discriminate.
  - destruct T as [m T]; [split; [apply Nat.ltb_lt; reflexivity|exact L]|]. by exists text', m.
Defined.

(** One slot: the reservation that passed its check commits. *)
Definition one_slot : QuotaManager := mkQuota 1 DEFAULT_MAX_MEMORY_BYTES CEILING_MAX_MEMORY_BYTES 900 3600 false.

Lemma concurrency_limit_witness :
  (Z.of_nat (nonterminal_count demo2) <= max_concurrency one_slot)%Z /\
  forall id, id ∈ still_held demo2 ({["i1"]} ∪ still_held demo1 ∅) ->
             (Z.of_nat (nonterminal_count demo2) < max_concurrency one_slot)%Z.
Proof.
  apply (concurrency_limit one_slot demo0 demo2).
  - apply inv_empty.
  - vm_compute. discriminate.
  - eapply rtc_l; [|eapply rtc_l; [|apply rtc_once]].
    + apply (adm_acquire one_slot "i1" "sha256:aa" "alice" "t0" 30000 0 demo0 demo1 (Ok Reserved)).
      vm_compute. reflexivity.
    + apply (adm_grant one_slot "i1" [] 0 (mkGrants DEFAULT_MAX_MEMORY_BYTES (JInt 900) false) demo1);
        vm_compute; reflexivity.
    + apply (adm_commit one_slot "i1" "sha256:aa" "alice" "e1" demo_admission None None (Some "TRAIN")
               "ADMITTED" "t1" AppendOk demo1 demo2 (Ok demo_admitted)).
      * set_solver.
      * vm_compute. reflexivity.
      * vm_compute. reflexivity.
Defined.

(** ** A log whose last line break is missing

    An append cut one byte short leaves a complete document without its line
    break.  A restart accepts it, and the next append is written on the same
    line: from then on the log cannot be read. *)

Definition log_without_break : string :=
  Eval vm_compute in dumps_default (JObj (to_dict demo_admitted)).
Definition ledger_without_break : IdempotencyLedger :=
  set_persistence (Some log_without_break) (restarted demo2).
Definition cancelled_without_break : IdempotencyLedger :=
  Eval vm_compute in fst (demo_cancel AppendOk ledger_without_break).
Definition log_after_cancel : string :=
  Eval vm_compute in log_without_break +:+ record_line demo_cancelled.

Theorem missing_line_break_corrupts_log :
  new_ledger (Some log_without_break) None = Ok ledger_without_break /\
  demo_cancel AppendOk ledger_without_break = (cancelled_without_break, Ok (Some demo_cancelled)) /\
  persistence cancelled_without_break = Some log_after_cancel /\
  new_ledger (Some log_after_cancel) None = Raise (ValueErr "Invalid idempotency ledger snapshot").
Proof. repeat split; vm_compute; reflexivity. Qed.

Lemma ledger_refines_registry_witness :
  rtc registry_step ∅ (registry_of demo3) /\
  (forall id, registry_of demo3 !! id = entry_of <$> get_by_intent_id id demo3) /\
  (forall id dg who now dl t l' r,
     acquire_iteration id dg who now dl t demo3 = (l', Ok (Committed r)) ->
     registry_of demo3 !! id = Some (mkEntry dg who (lr_execution_id r) (lr_status r))).
Proof. apply (ledger_refines_registry (Some EmptyString) None demo3). apply demo_steps03. Defined.
