(* ===== verification/Policy.v ===== *)
(** * Authentication, governance policy and the frozen catalog
    ([deltacontroller/auth.py], [deltacontroller/catalog.py])

    Documents are JSON values: a field may hold anything, and looking an
    unhashable value (a list or a dict) up in a set or a dict is a
    [TypeError]. *)

From S2P Require Import Prelude PyFloat Json JsonText Text Sha256 Errors.
Open Scope string_scope.
Open Scope py_scope.

(** [value in some_set_of_strings] *)
Definition in_set (value : json) (l : list string) : result exn bool :=
  match value with
  | JStr s => Ok (str_in s l)
  | JArr _ | JObj _ => Raise (TypeErr "unhashable type")
  | _ => Ok false
  end.

(** [some_dict.get(value)] for a dict with string keys *)
Definition dict_get {V} (value : json) (d : odict V) : result exn (option V) :=
  match value with
  | JStr s => Ok (od_get s d)
  | JArr _ | JObj _ => Raise (TypeErr "unhashable type")
  | _ => Ok None
  end.

(** ** Authentication *)

Record AuthenticatedSubject := mkSubject {
  subject_id : string;
  authenticated_via : string;
  effective_roles : list string;
}.

Definition subject_to_dict (s : AuthenticatedSubject) : odict json :=
  [("subject_id", JStr (subject_id s));
   ("authenticated_via", JStr (authenticated_via s));
   ("effective_roles", JArr (map JStr (effective_roles s)))].

Record StaticAuthenticationPort := mkAuthPort {
  token_map : odict AuthenticatedSubject;
  allow_local_peer : bool;
  peer_subjects : odict AuthenticatedSubject;
}.

Definition auth_failed (m : string) : exn := ControllerErr AuthenticationFailedError m.

Definition authenticate_token (p : StaticAuthenticationPort) (credentials : odict json)
  : result exn AuthenticatedSubject :=
  let token := jget "token" credentials in
  if negb (truthy token) then Raise (auth_failed "Invalid or unknown bearer token")
  else
    let? found := dict_get token (token_map p) in
    match found with
    | Some s => Ok s
    | None => Raise (auth_failed "Invalid or unknown bearer token")
    end.

Definition authenticate_local_peer (p : StaticAuthenticationPort) (credentials : odict json)
  : result exn AuthenticatedSubject :=
  require (allow_local_peer p) (auth_failed "Local peer authentication disabled") ;?
  match (match jget "subject_id" credentials with
         | JStr peer_id => od_get peer_id (peer_subjects p)
         | _ => None
         end) with
  | None => Raise (auth_failed "Unknown local peer identity")
  | Some s =>
      require (String.eqb (authenticated_via s) "LOCAL_PEER_CREDENTIAL")
        (auth_failed "Trusted identity mapping does not match LOCAL_PEER_CREDENTIAL") ;?
      Ok s
  end.

Definition authenticate_mtls (p : StaticAuthenticationPort) (credentials : odict json)
  : result exn AuthenticatedSubject :=
  let cert_cn := jget "client_cn" credentials in
  require (truthy cert_cn) (auth_failed "Missing mTLS client certificate common name") ;?
  let? found := dict_get cert_cn (peer_subjects p) in
  match found with
  | None => Raise (auth_failed "Unknown mTLS client identity")
  | Some s =>
      require (String.eqb (authenticated_via s) "MTLS")
        (auth_failed "Trusted identity mapping does not match MTLS") ;?
      Ok s
  end.

(** [credentials] is a dict or [None]. *)
Definition authenticate (p : StaticAuthenticationPort) (credentials : option (odict json))
  : result exn AuthenticatedSubject :=
  match credentials with
  | None | Some [] =>
      Raise (ControllerErr AuthenticationRequiredError "No authentication credentials provided")
  | Some c =>
      let auth_type := jget "type" c in
      if py_eq auth_type (JStr "TOKEN") then authenticate_token p c
      else if py_eq auth_type (JStr "LOCAL_PEER_CREDENTIAL") then authenticate_local_peer p c
      else if py_eq auth_type (JStr "MTLS") then authenticate_mtls p c
      else Raise (auth_failed "Unsupported authentication credential type")
  end.

(** ** Governance policy *)

Definition REQUIRED_ROLES_BY_OPERATION : odict (list string) :=
  [("TRAIN_TICKET", ["OPERATOR"]);
   ("EVALUATE_CHECKPOINT", ["OPERATOR"; "RESEARCHER"]);
   ("MATERIALIZE_DATASET", ["OPERATOR"; "RESEARCHER"])].

(** [REQUIRED_ROLES_BY_OPERATION.get(str(operation))]: no other value prints
    as one of the operation names. *)
Definition required_roles (operation : json) : option (list string) :=
  match operation with
  | JStr s => od_get s REQUIRED_ROLES_BY_OPERATION
  | _ => None
  end.

Definition evaluate_admission (subject : AuthenticatedSubject) (intent_doc : odict json)
  : result exn unit :=
  match required_roles (jget "operation" intent_doc) with
  | None => Raise (ControllerErr PolicyDeniedError "Operation is not recognized in governance policy")
  | Some roles =>
      require (existsb (fun r => str_in r roles) (effective_roles subject))
        (ControllerErr RoleForbiddenError "Subject cannot authorize operation")
  end.

(** ** Catalog *)

Definition FROZEN_CATALOG_REF : string := "670b58f6458fe84620f4f9f46401f855d04ae05d".
Definition DEFAULT_KNOWN_PLUGINS : list string := ["tabular-10gene-phenotype-v1"].
Definition DEFAULT_KNOWN_DATASETS : list string := ["synthetic-10gene-cohort-v1"].
Definition ALLOWED_CAPABILITY_MATRIX : odict (list string) :=
  [("TRAIN_TICKET", ["PLUGIN_BOUNDARY"]);
   ("EVALUATE_CHECKPOINT", ["PLUGIN_BOUNDARY"; "MODEL_DATASET_BINDING_ONLY"]);
   ("MATERIALIZE_DATASET", ["PLUGIN_BOUNDARY"; "MODEL_DATASET_BINDING_ONLY"])].

Record CatalogValidator := mkCatalog {
  catalog_backend_ref : string;
  known_plugins : list string;
  known_datasets : list string;
  capability_matrix : odict (list string);
}.

Definition default_catalog : CatalogValidator :=
  mkCatalog FROZEN_CATALOG_REF DEFAULT_KNOWN_PLUGINS DEFAULT_KNOWN_DATASETS
    ALLOWED_CAPABILITY_MATRIX.

Definition catalog_validate (c : CatalogValidator) (workload : odict json) (operation : json)
  : result exn unit :=
  require (py_eq (jget "catalog_backend_ref" workload) (JStr (catalog_backend_ref c)))
    (ControllerErr CatalogRefMismatchError "Workload catalog_backend_ref does not match") ;?
  let? plugin_known := in_set (jget "model_plugin_id" workload) (known_plugins c) in
  require plugin_known (ControllerErr UnknownPluginIdError "Model plugin ID not found") ;?
  let? dataset_known := in_set (jget "dataset_id" workload) (known_datasets c) in
  require dataset_known (ControllerErr UnknownDatasetIdError "Dataset ID not found") ;?
  let? scopes := dict_get operation (capability_matrix c) in
  match scopes with
  | None => Raise (ControllerErr OperationScopeUnsupportedError
                     "Operation is not supported by capability matrix")
  | Some allowed_scopes =>
      let? scope_allowed := in_set (jget "requested_scope" workload) allowed_scopes in
      require scope_allowed
        (ControllerErr OperationScopeUnsupportedError "Operation does not support scope")
  end.

(** ** Properties *)

Lemma in_set_true v l : in_set v l = Ok true <-> exists s, v = JStr s /\ s ∈ l.
Proof.
  destruct v; cbn; split; try done; try (by intros (? & ? & _)).
  - intros [= E]. apply str_in_elem in E. eauto.
  - intros (x & [= ->] & E). apply str_in_elem in E. by rewrite E.
Qed.

Lemma dict_get_Some {V} v (d : odict V) x :
  dict_get v d = Ok (Some x) <-> exists s, v = JStr s /\ od_get s d = Some x.
Proof.
  destruct v; cbn; split; try done; try (by intros (? & ? & _)).
  - intros [= E]. eauto.
  - by intros (t & [= ->] & ->).
Qed.

(** authentication yields only trusted identities.  Whatever the caller
    sends, a subject comes out only of the configured token map or of the peer
    map, looked up by the credential's key and with the mechanism that mapping
    declares; roles and ids in the request are never used. *)
Theorem authenticate_trusted p credentials s
  (Ha : authenticate p credentials = Ok s) :
  exists c, credentials = Some c /\
  ((exists token, jget "type" c = JStr "TOKEN" /\ jget "token" c = JStr token /\
      token <> EmptyString /\ od_get token (token_map p) = Some s) \/
   (exists peer, jget "type" c = JStr "LOCAL_PEER_CREDENTIAL" /\ allow_local_peer p = true /\
      jget "subject_id" c = JStr peer /\ od_get peer (peer_subjects p) = Some s /\
      authenticated_via s = "LOCAL_PEER_CREDENTIAL") \/
   (exists cn, jget "type" c = JStr "MTLS" /\ jget "client_cn" c = JStr cn /\
      cn <> EmptyString /\ od_get cn (peer_subjects p) = Some s /\ authenticated_via s = "MTLS")).
Proof.
  destruct credentials as [[|kv c]|]; try done. cbn [authenticate] in Ha. exists (kv :: c).
  split; [done|].
  destruct (py_eq _ (JStr "TOKEN")) eqn:E1; [|destruct (py_eq _ (JStr "LOCAL_PEER_CREDENTIAL")) eqn:E2;
    [|destruct (py_eq _ (JStr "MTLS")) eqn:E3; [|done]]].
  - apply py_eq_str in E1. left. unfold authenticate_token in Ha.
    destruct (truthy _) eqn:T; [|done]. apply rbind_Ok in Ha as (o & Hd & Ho).
    destruct o as [s'|]; [|done]. injection Ho as ->. apply dict_get_Some in Hd as (t & Et & G).
    exists t. rewrite Et in T. repeat (split; [done|]). split; [|done]. by intros ->.
  - apply py_eq_str in E2. right. left. unfold authenticate_local_peer in Ha.
    apply rbind_unit_Ok in Ha as [Hl%require_Ok Ha].
    destruct (jget "subject_id" (kv :: c)) as [| | | |peer| |] eqn:Ep; try done.
    destruct (od_get peer (peer_subjects p)) as [s'|] eqn:G; [|done].
    apply rbind_unit_Ok in Ha as [Hv%require_Ok%String.eqb_eq [= ->]]. by exists peer.
  - apply py_eq_str in E3. right. right. unfold authenticate_mtls in Ha.
    apply rbind_unit_Ok in Ha as [T%require_Ok Ha]. apply rbind_Ok in Ha as (o & Hd & Ha).
    destruct o as [s'|]; [|done]. apply rbind_unit_Ok in Ha as [Hv%require_Ok%String.eqb_eq [= ->]].
    apply dict_get_Some in Hd as (t & Et & G). exists t. rewrite Et in T.
    repeat (split; [done|]). split; [by intros ->|done].
Qed.

Definition demo_operator : AuthenticatedSubject := mkSubject "alice" "TOKEN" ["OPERATOR"].
Definition demo_port : StaticAuthenticationPort := mkAuthPort [("s3cret", demo_operator)] false [].
Definition demo_credentials : odict json :=
  [("type", JStr "TOKEN"); ("token", JStr "s3cret"); ("effective_roles", JArr [JStr "AUDITOR"])].

Lemma authenticate_trusted_witness :
  exists c, Some demo_credentials = Some c /\
  ((exists token, jget "type" c = JStr "TOKEN" /\ jget "token" c = JStr token /\
      token <> EmptyString /\ od_get token (token_map demo_port) = Some demo_operator) \/
   (exists peer, jget "type" c = JStr "LOCAL_PEER_CREDENTIAL" /\ allow_local_peer demo_port = true /\
      jget "subject_id" c = JStr peer /\ od_get peer (peer_subjects demo_port) = Some demo_operator /\
      authenticated_via demo_operator = "LOCAL_PEER_CREDENTIAL") \/
   (exists cn, jget "type" c = JStr "MTLS" /\ jget "client_cn" c = JStr cn /\
      cn <> EmptyString /\ od_get cn (peer_subjects demo_port) = Some demo_operator /\
      authenticated_via demo_operator = "MTLS")).
Proof. apply (authenticate_trusted demo_port (Some demo_credentials)). reflexivity. Defined.

(** what policy and catalog accept together: a known operation the subject
    has a role for, on the frozen catalog with a known plugin and dataset, in a
    scope the capability matrix lists for that operation. *)
Theorem policy_and_catalog_accept c subject intent workload :
  (evaluate_admission subject intent = Ok tt /\
   catalog_validate c workload (jget "operation" intent) = Ok tt) <->
  exists op roles role plugin dataset scope scopes,
    jget "operation" intent = JStr op /\
    od_get op REQUIRED_ROLES_BY_OPERATION = Some roles /\
    role ∈ roles /\ role ∈ effective_roles subject /\
    jget "catalog_backend_ref" workload = JStr (catalog_backend_ref c) /\
    jget "model_plugin_id" workload = JStr plugin /\ plugin ∈ known_plugins c /\
    jget "dataset_id" workload = JStr dataset /\ dataset ∈ known_datasets c /\
    od_get op (capability_matrix c) = Some scopes /\
    jget "requested_scope" workload = JStr scope /\ scope ∈ scopes.
Proof.
  unfold evaluate_admission, catalog_validate. split.
  - intros [He Hc]. destruct (required_roles _) as [roles|] eqn:R; [|done].
    apply require_Ok, existsb_exists in He as (role & Hin%list_elem_of_In & Hr%str_in_elem).
    unfold required_roles in R. destruct (jget "operation" intent) as [| | | |op| |]; try done.
    apply rbind_unit_Ok in Hc as [Hb%require_Ok%py_eq_str Hc].
    apply rbind_Ok in Hc as (b1 & H1 & Hc). apply rbind_unit_Ok in Hc as [->%require_Ok Hc].
    apply rbind_Ok in Hc as (b2 & H2 & Hc). apply rbind_unit_Ok in Hc as [->%require_Ok Hc].
    apply rbind_Ok in Hc as (o & Ho & Hc). destruct o as [scopes|]; [|done].
    apply rbind_Ok in Hc as (b3 & H3 & ->%require_Ok).
    apply in_set_true in H1 as (plugin & ? & ?), H2 as (dataset & ? & ?), H3 as (scope & ? & ?).
    injection Ho as Ho. exists op, roles, role, plugin, dataset, scope, scopes. done.
  - intros (op & roles & role & plugin & dataset & scope & scopes & Eo & R & H1 & H2 & Eb & Ep & H3 & Ed & H4 & Es & Er & H5).
    rewrite Eo, Eb, Ep, Ed, Er. cbn [required_roles dict_get in_set rbind]. rewrite R, Es.
    apply str_in_elem in H1, H3, H4, H5. rewrite H3, H4, H5, py_eq_refl by done. split; [|done].
    apply require_Ok, existsb_exists. exists role. split; [by apply list_elem_of_In|done].
Qed.
