(* ===== verification/Ingress.v ===== *)
(** * Bounded ingress parsing ([deltacontroller/ingress.py])

    The request is bytes, text or an already parsed document; the checks run
    in the code's order: size, UTF-8, JSON, object, depth, schema, digest,
    expiry.  [datetime.fromisoformat] and [isoformat] are given by the class
    [IsoText]: the accepted texts depend on the Python version. *)

From S2P Require Import Prelude PyFloat Json JsonText Text Sha256 Errors Canonical LedgerRecord.
Open Scope string_scope.
Open Scope Z_scope.
Open Scope py_scope.

(** ** Points in time *)

(** A [datetime]: microseconds on the UTC time line of an aware value, of its
    own wall clock for a naive one. *)
Record moment := mkMoment {
  instant : Z;
  utc_offset : option Z;
}.

#[export] Instance moment_eq_dec : EqDecision moment.
Proof. solve_decision. Defined.

Definition aware (m : moment) : bool := match utc_offset m with Some _ => true | None => false end.

Class IsoText := {
  fromisoformat : string -> option moment;
  isoformat : moment -> string;
}.

(** [a <= b]; an aware and a naive value do not compare. *)
Definition moment_le (a b : moment) : result exn bool :=
  if Bool.eqb (aware a) (aware b) then Ok (instant a <=? instant b)
  else Raise (TypeErr "can't compare offset-naive and offset-aware datetimes").

(** [min(a, b)] *)
Definition moment_min (a b : moment) : result exn moment :=
  let? le := moment_le a b in Ok (if le then a else b).

(** [s.replace("Z", "+00:00")] *)
Fixpoint replace_z (s : string) : string :=
  match s with
  | EmptyString => EmptyString
  | String c r => if ch_eq c "Z"%char then "+00:00" +:+ replace_z r else String c (replace_z r)
  end.

(** ** The checks *)

Definition MAX_INGRESS_BYTES : Z := 10 * 1024 * 1024.
Definition MAX_JSON_DEPTH : nat := 32.

Definition schema_error (m : string) : exn := ControllerErr SchemaValidationError m.

Fixpoint _check_depth (val : json) (current_depth : nat) : result exn unit :=
  require (current_depth <=? MAX_JSON_DEPTH)%nat
    (schema_error "Payload exceeds maximum nested depth of 32") ;?
  match val with
  | JObj o => (fix go (o : list (string * json)) : result exn unit :=
                 match o with
                 | [] => Ok tt
                 | kv :: r => _check_depth kv.2 (S current_depth) ;? go r
                 end) o
  | JArr l => (fix go (l : list json) : result exn unit :=
                 match l with
                 | [] => Ok tt
                 | x :: r => _check_depth x (S current_depth) ;? go r
                 end) l
  | _ => Ok tt
  end.

Inductive raw_intent :=
| RawBytes (b : string)
| RawText (s : string)
| RawDict (o : odict json).

Definition string_bytes (s : string) : Z := Z.of_nat (String.length s).

Definition load_payload (text : string) : result exn json :=
  match loads true text with
  | Some j => Ok j
  | None => Raise (schema_error "Malformed JSON payload")
  end.

Definition read_payload (max_bytes : Z) (raw : raw_intent) : result exn json :=
  match raw with
  | RawBytes b =>
      require (negb (max_bytes <? string_bytes b))
        (schema_error "Payload size exceeds maximum") ;?
      require (encodable b) (schema_error "Payload is not valid UTF-8") ;?
      load_payload b
  | RawText s =>
      require (encodable s) (ValueErr "surrogates not allowed") ;?
      require (negb (max_bytes <? string_bytes s))
        (schema_error "Payload size exceeds maximum") ;?
      load_payload s
  | RawDict o => Ok (JObj o)
  end.

Section Ingress.
Context `{SchemaValidator} `{IsoText}.

(** [datetime.fromisoformat(value.replace("Z", "+00:00"))] *)
Definition parse_timestamp (value : json) : option moment :=
  match value with
  | JStr s => fromisoformat (replace_z s)
  | _ => None
  end.

Definition check_expiry (data : odict json) (now : moment) : result exn unit :=
  let expires_at_str := jget "expires_at" data in
  if truthy expires_at_str then
    match parse_timestamp expires_at_str with
    | None => Raise (schema_error "Invalid ISO-8601 date-time format for expires_at")
    | Some expires_at =>
        let? expired := moment_le expires_at now in
        require (negb expired) (ControllerErr IntentExpiredError "Intent expired")
    end
  else Ok tt.

Definition parse_intent (max_bytes : Z) (raw : raw_intent) (now : moment)
  : result exn (odict json) :=
  let? payload := read_payload max_bytes raw in
  match payload with
  | JObj data =>
      _check_depth payload 1 ;?
      schema_validate "execution-intent" payload ;?
      let? recomputed := compute_intent_digest data in
      require (py_eq (jget "intent_digest" data) (JStr recomputed))
        (ControllerErr IntentDigestMismatchError "Declared digest does not match recomputed") ;?
      check_expiry data now ;?
      Ok data
  | _ => Raise (schema_error "Top-level JSON payload must be an object")
  end.
End Ingress.

(** ** Properties *)

Lemma check_depth_obj o d :
  _check_depth (JObj o) d = Ok tt <->
  (d <= MAX_JSON_DEPTH)%nat /\ Forall (fun kv => _check_depth kv.2 (S d) = Ok tt) o.
Proof.
  cbn [_check_depth]. rewrite rbind_unit_Ok, require_Ok, Nat.leb_le. apply and_iff_compat_l.
  induction o as [|[k v] o IH]; [split; [constructor|done]|].
  by rewrite rbind_unit_Ok, Forall_cons, IH.
Qed.

Lemma check_depth_arr l d :
  _check_depth (JArr l) d = Ok tt <->
  (d <= MAX_JSON_DEPTH)%nat /\ Forall (fun x => _check_depth x (S d) = Ok tt) l.
Proof.
  cbn [_check_depth]. rewrite rbind_unit_Ok, require_Ok, Nat.leb_le. apply and_iff_compat_l.
  induction l as [|x l IH]; [split; [constructor|done]|].
  by rewrite rbind_unit_Ok, Forall_cons, IH.
Qed.

(** A bound on the depth of every child is a bound on their maximum. *)
Lemma depth_children {A} (f : A -> nat) (chk : A -> result exn unit) l d :
  Forall (fun x => chk x = Ok tt <-> (S d + f x <= S MAX_JSON_DEPTH)%nat) l ->
  ((d <= MAX_JSON_DEPTH)%nat /\ Forall (fun x => chk x = Ok tt) l) <->
  (d + S (list_max (map f l)) <= S MAX_JSON_DEPTH)%nat.
Proof.
  intros IH. rewrite Forall_forall in IH. rewrite Forall_forall. split.
  - intros [Hd Hc]. assert (M : (list_max (map f l) <= MAX_JSON_DEPTH - d)%nat); [|lia].
    apply list_max_le, Forall_forall. intros n (x & -> & Hx)%list_elem_of_fmap.
    apply IH in Hx as E. apply Hc, E in Hx. lia.
  - intros M. split; [lia|]. intros x Hx. apply IH; [done|].
    assert (L : (list_max (map f l) <= MAX_JSON_DEPTH - d)%nat) by lia.
    apply list_max_le in L. rewrite Forall_forall in L.
    specialize (L (f x) (list_elem_of_fmap_2 f _ _ Hx)). lia.
Qed.

(** The recursive check is a bound on the nesting depth. *)
Lemma check_depth_spec v d :
  _check_depth v d = Ok tt <-> (d + json_depth v <= S MAX_JSON_DEPTH)%nat.
Proof.
  revert d. induction v as [| | | | |l IH|o IH] using json_ind'; intros d;
    try (cbn [_check_depth json_depth]; rewrite rbind_unit_Ok, require_Ok, Nat.leb_le; split; [lia|]; split; [lia|done]).
  - rewrite check_depth_arr. apply depth_children.
    eapply Forall_impl; [exact IH|]. intros x Hx. apply Hx.
  - rewrite check_depth_obj. apply (depth_children (fun kv => json_depth kv.2)).
    eapply Forall_impl; [exact IH|]. intros x Hx. apply Hx.
Qed.

Section IngressFacts.
Context `{SchemaValidator} `{IsoText}.

Lemma parse_intent_iff max_bytes raw now data :
  parse_intent max_bytes raw now = Ok data <->
  read_payload max_bytes raw = Ok (JObj data) /\
  (json_depth (JObj data) <= MAX_JSON_DEPTH)%nat /\
  schema_accepts "execution-intent" (JObj data) = true /\
  verify_intent_digest data = Ok true /\
  (truthy (jget "expires_at" data) = true ->
   exists t, parse_timestamp (jget "expires_at" data) = Some t /\
             aware t = aware now /\ instant now < instant t).
Proof.
  unfold parse_intent.
  assert (X : check_expiry data now = Ok tt <->
    (truthy (jget "expires_at" data) = true ->
     exists t, parse_timestamp (jget "expires_at" data) = Some t /\
               aware t = aware now /\ instant now < instant t)).
  { unfold check_expiry. destruct (truthy _); [|done].
    destruct (parse_timestamp _) as [t|]; [|split; [done|intros H1; by destruct H1 as (? & ? & _)]].
    unfold moment_le. destruct (Bool.eqb (aware t) (aware now)) eqn:Ea; cbn [rbind].
    - apply Bool.eqb_prop in Ea. rewrite require_Ok, negb_true_iff, Z.leb_gt. split; [eauto|].
      intros H1. destruct H1 as (t' & [= <-] & _ & ?); done.
    - split; [done|]. intros H1. destruct H1 as (t' & [= <-] & E & _); [done|].
      rewrite E, Bool.eqb_reflx in Ea. done. }
  assert (D : verify_intent_digest data = Ok true <->
    exists d, compute_intent_digest data = Ok d /\ py_eq (jget "intent_digest" data) (JStr d) = true).
  { rewrite verify_intent_digest_true. setoid_rewrite py_eq_str. unfold jget.
    split; [intros (d & -> & ?); eauto|]. intros (d & Hd & E). exists d. split; [|done].
    destruct (od_get "intent_digest" data); congruence. }
  rewrite D, <- X. rewrite rbind_Ok. split.
  - intros (payload & Hr & Hp). destruct payload as [| | | | | |o]; try done.
    apply rbind_unit_Ok in Hp as [Hdepth Hp]. apply rbind_unit_Ok in Hp as [Hs Hp].
    apply rbind_Ok in Hp as (d & Hd & Hp). apply rbind_unit_Ok in Hp as [He%require_Ok Hp].
    apply rbind_unit_Ok in Hp as [Hx [= ->]]. apply check_depth_spec in Hdepth.
    apply rbind_unit_Ok in Hs as [_ Hs%require_Ok].
    split; [done|]. split; [lia|]. split; [done|]. split; [by exists d|done].
  - intros (Hr & Hdepth & Hs & (d & Hd & He) & Hx). exists (JObj data). split; [done|].
    assert (C : _check_depth (JObj data) 1 = Ok tt) by (apply check_depth_spec; lia).
    rewrite C. cbn [rbind]. unfold schema_validate. rewrite Hs. cbn [rbind require].
    rewrite Hd. cbn [rbind]. by rewrite He, Hx.
Qed.

(** what ingress accepts.  [parse_intent] returns a document exactly when
    the payload reads as a JSON object within the size bound, nested at most 32
    levels, valid against the intent schema, declaring its own digest, and not
    expired at [now]; and it returns that document unchanged. *)
Theorem parse_intent_accepts max_bytes raw now data :
  parse_intent max_bytes raw now = Ok data <->
  read_payload max_bytes raw = Ok (JObj data) /\
  (json_depth (JObj data) <= MAX_JSON_DEPTH)%nat /\
  schema_accepts "execution-intent" (JObj data) = true /\
  verify_intent_digest data = Ok true /\
  (truthy (jget "expires_at" data) = true ->
   exists t, parse_timestamp (jget "expires_at" data) = Some t /\
             aware t = aware now /\ instant now < instant t).
Proof. apply parse_intent_iff. Qed.

(** every rejection of a byte payload is a typed [ControllerError], except
    that a timestamp without offset makes the expiry comparison raise
    [TypeError] (the schema does not enforce the format of [expires_at]). *)
Theorem parse_intent_errors_typed max_bytes b now e
  (He : parse_intent max_bytes (RawBytes b) now = Raise e) :
  (exists c m, e = ControllerErr c m) \/
  (e = TypeErr "can't compare offset-naive and offset-aware datetimes" /\
   exists data t, parse_timestamp (jget "expires_at" data) = Some t /\ aware t <> aware now).
Proof.
  assert (R : forall x, read_payload max_bytes (RawBytes b) = Raise x -> exists c m, x = ControllerErr c m).
  { intros x. cbn. unfold load_payload. destruct (negb _); [|intros [= <-]; unfold schema_error; eauto].
    cbn. destruct (encodable b); [|intros [= <-]; unfold schema_error; eauto]. cbn.
    destruct (loads true b); [done|]. intros [= <-]. unfold schema_error. eauto. }
  assert (Dp : forall v d x, _check_depth v d = Raise x -> exists c m, x = ControllerErr c m).
  { intros v. induction v as [| | | | |l IH|o IH] using json_ind'; intros d x; cbn [_check_depth];
      (destruct (require _ _) as [[]|y] eqn:Rq;
        [cbn [rbind]|unfold require in Rq; case_match; [done|]; injection Rq as <-; cbn;
                     intros [= <-]; unfold schema_error; eauto]); try done.
    - induction IH as [|y l Hy _ IHl]; [done|]. destruct (_check_depth y (S d)) as [[]|z] eqn:Z;
        cbn [rbind]; [exact IHl|]. intros [= <-]. by eapply Hy.
    - induction IH as [|y l Hy _ IHl]; [done|]. destruct (_check_depth y.2 (S d)) as [[]|z] eqn:Z;
        cbn [rbind]; [exact IHl|]. intros [= <-]. by eapply Hy. }
  unfold parse_intent in He.
  destruct (read_payload max_bytes (RawBytes b)) as [p|x] eqn:Rp; cbn [rbind] in He;
    [|injection He as <-; left; by apply R].
  destruct p as [| | | | | |data]; try (injection He as <-; left; unfold schema_error; by eauto).
  destruct (_check_depth (JObj data) 1) as [[]|x] eqn:C; cbn [rbind] in He;
    [|injection He as <-; left; by eapply Dp].
  unfold schema_validate in He. destruct (str_in _ _) eqn:Si; [|done]. cbn [require rbind] in He.
  destruct (schema_accepts _ _); cbn [require rbind] in He; [|injection He as <-; left; by eauto].
  destruct (compute_intent_digest data) as [d|x] eqn:Cd; cbn [rbind] in He.
  2: { injection He as <-. left. unfold compute_intent_digest in Cd.
       destruct (canonicalize_jcs _) eqn:Cj; [done|]. injection Cd as <-.
       apply canonicalize_jcs_raise in Cj as ->. eauto. }
  destruct (py_eq _ _); cbn [require rbind] in He; [|injection He as <-; left; by eauto].
  unfold check_expiry in He. destruct (truthy _); [|done].
  destruct (parse_timestamp (jget "expires_at" data)) as [t|] eqn:T; cbn [rbind] in He;
    [|injection He as <-; left; unfold schema_error; by eauto].
  unfold moment_le in He. destruct (Bool.eqb (aware t) (aware now)) eqn:Ea; cbn [rbind] in He.
  - destruct (negb _); cbn in He; [done|]. injection He as <-. left. eauto.
  - injection He as <-. right. split; [done|]. exists data, t. split; [done|].
    intros E. rewrite E, Bool.eqb_reflx in Ea. done.
Qed.
End IngressFacts.

(** A reader of two timestamps, one with and one without offset *)
#[export] Instance toy_iso : IsoText := {|
  fromisoformat s := if String.eqb s "2030-01-01T00:00:00+00:00" then Some (mkMoment 2000 (Some 0))
                     else if String.eqb s "2030-01-01T00:00:00" then Some (mkMoment 2000 None)
                     else None;
  isoformat m := match utc_offset m with
                 | Some _ => "2030-01-01T00:00:00+00:00"
                 | None => "2030-01-01T00:00:00"
                 end
|}.

Section IngressWitness.
(** Witnesses use a schema that accepts every document. *)
Definition any_schema : SchemaValidator := {| schema_accepts _ _ := true |}.
Existing Instance any_schema.

Definition naive_intent : odict json :=
  [("intent_id", JStr "i1"); ("expires_at", JStr "2030-01-01T00:00:00")].
Definition naive_payload : string := Eval vm_compute in
  match compute_intent_digest naive_intent with
  | Ok d => dumps_default (JObj (od_set "intent_digest" (JStr d) naive_intent))
  | Raise _ => EmptyString
  end.

Lemma parse_intent_errors_typed_witness :
  let e := TypeErr "can't compare offset-naive and offset-aware datetimes" in
  (exists c m, e = ControllerErr c m) \/
  (e = TypeErr "can't compare offset-naive and offset-aware datetimes" /\
   exists data t, parse_timestamp (jget "expires_at" data) = Some t /\
                  aware t <> aware (mkMoment 1000 (Some 0))).
Proof.
  apply (parse_intent_errors_typed MAX_INGRESS_BYTES naive_payload (mkMoment 1000 (Some 0))).
  vm_compute. reflexivity.
Defined.
End IngressWitness.
