(* ===== verification/Status.v ===== *)
(** * The execution status read model ([deltacontroller/status.py]) *)

From S2P Require Import Prelude PyFloat Json JsonText Text Sha256 Errors Canonical LedgerRecord.
Open Scope string_scope.
Open Scope py_scope.

Definition VALID_STATES : list string :=
  ["ADMITTED"; "QUEUED"; "RUNNING"; "COMPLETED"; "FAILED"; "TIMED_OUT"; "CANCELLED";
   "STALE_UNAVAILABLE"].
Definition TERMINAL_STATES : list string := ["COMPLETED"; "FAILED"; "TIMED_OUT"; "CANCELLED"].

(** [doc[key] = value] when the value is truthy *)
Definition nonempty_opt (s : option string) : bool :=
  match s with Some EmptyString | None => false | Some _ => true end.

(** The receipt digest a completed document carries *)
Definition completed_digest (operation : string) (receipt_digest : option string)
  : result exn (odict json) :=
  match nonempty_opt receipt_digest, receipt_digest with
  | true, Some d => Ok [("receipt_digest", JStr d)]
  | _, _ =>
      if String.eqb operation "MATERIALIZE_DATASET" then Ok []
      else Raise (ValueErr "receipt_digest is required when state is COMPLETED")
  end.

Definition failure_descriptor (error : option (odict json)) : result exn (odict json) :=
  match error with
  | None | Some [] => Raise (ValueErr "error descriptor is required")
  | Some e => Ok [("error", JObj e)]
  end.

Section Status.
Context `{SchemaValidator}.

Definition build_execution_status
  (execution_id intent_id intent_digest : string) (admission_id admission_digest : json)
  (state operation : string) (receipt_digest : option string) (error : option (odict json))
  (updated_at : option string) (now : string) (validate : bool) : result exn (odict json) :=
  require (str_in state VALID_STATES) (ValueErr "Invalid state") ;?
  let now_iso := match updated_at with
                 | Some (String _ _ as t) => t
                 | _ => now
                 end in
  let doc :=
    [("schema_version", JStr "1.0.0");
     ("execution_id", JStr execution_id);
     ("intent_id", JStr intent_id);
     ("intent_digest", JStr intent_digest);
     ("admission_id", admission_id);
     ("admission_digest", admission_digest);
     ("operation", JStr operation);
     ("state", JStr state);
     ("updated_at", JStr now_iso);
     ("terminal", JBool (str_in state TERMINAL_STATES))] in
  let? receipt := (if String.eqb state "COMPLETED"
                   then completed_digest operation receipt_digest else Ok []) in
  let? failure := (if str_in state ["FAILED"; "TIMED_OUT"; "CANCELLED"]
                   then failure_descriptor error else Ok []) in
  let doc := (doc ++ receipt ++ failure)%list in
  (if validate then schema_validate "execution-status" (JObj doc) else Ok tt) ;?
  Ok doc.

(** the status document says what it carries: its [terminal] flag is set
    exactly for the four terminal states, a receipt digest appears only in a
    completed document (and always there unless the operation is
    MATERIALIZE_DATASET), and an error appears exactly in a failed, timed-out
    or cancelled one; with validation on, the document matches its schema. *)
Theorem execution_status_consistent eid iid dg aid adg state op rd err upd now v doc
  (Hb : build_execution_status eid iid dg aid adg state op rd err upd now v = Ok doc) :
  jget "execution_id" doc = JStr eid /\ jget "state" doc = JStr state /\
  jget "terminal" doc = JBool (str_in state TERMINAL_STATES) /\
  (od_mem "receipt_digest" doc = true -> state = "COMPLETED") /\
  (state = "COMPLETED" -> op <> "MATERIALIZE_DATASET" ->
     exists d, rd = Some d /\ jget "receipt_digest" doc = JStr d) /\
  (od_mem "error" doc = true <-> state ∈ ["FAILED"; "TIMED_OUT"; "CANCELLED"]) /\
  (v = true -> schema_accepts "execution-status" (JObj doc) = true).
Proof.
  unfold build_execution_status in Hb. apply rbind_unit_Ok in Hb as [_ Hb].
  apply rbind_Ok in Hb as (receipt & Hr & Hb). apply rbind_Ok in Hb as (failure & Hf & Hb).
  apply rbind_unit_Ok in Hb as [Hv [= <-]].
  assert (R : (receipt = [] /\ (state = "COMPLETED" -> op = "MATERIALIZE_DATASET")) \/
              (state = "COMPLETED" /\ exists d, rd = Some d /\ receipt = [("receipt_digest", JStr d)])).
  { destruct (String.eqb_spec state "COMPLETED") as [->|]; [|injection Hr as <-; by left].
    unfold completed_digest in Hr. destruct rd as [[|c d]|]; cbn in Hr.
    - destruct (String.eqb_spec op "MATERIALIZE_DATASET"); [|done]. injection Hr as <-. by left.
    - injection Hr as <-. right. eauto.
    - destruct (String.eqb_spec op "MATERIALIZE_DATASET"); [|done]. injection Hr as <-. by left. }
  assert (F : if str_in state ["FAILED"; "TIMED_OUT"; "CANCELLED"]
              then exists e, failure = [("error", JObj e)] else failure = []).
  { destruct (str_in state _); [|by injection Hf as <-].
    unfold failure_descriptor in Hf. destruct err as [[|]|]; try done. injection Hf as <-. eauto. }
  rewrite <- str_in_elem.
  assert (V : v = true -> schema_accepts "execution-status"
            (JObj (([("schema_version", JStr "1.0.0"); ("execution_id", JStr eid); ("intent_id", JStr iid);
             ("intent_digest", JStr dg); ("admission_id", aid); ("admission_digest", adg);
             ("operation", JStr op); ("state", JStr state);
             ("updated_at", JStr match upd with Some (String _ _ as t) => t | _ => now end);
             ("terminal", JBool (str_in state TERMINAL_STATES))] ++ receipt ++ failure)%list)) = true).
  { intros ->. by apply rbind_unit_Ok in Hv as [_ Hv%require_Ok]. }
  split; [reflexivity|]. split; [reflexivity|]. split; [reflexivity|].
  clear Hv Hr Hf.
  destruct (str_in state ["FAILED"; "TIMED_OUT"; "CANCELLED"]) eqn:S;
    [destruct F as [e ->]|subst failure];
    destruct R as [[-> Rm]|(-> & d & -> & ->)]; try done;
    repeat (split; [first [done | by intros ? ?; naive_solver | by eauto]|]); done.
Qed.
End Status.

Lemma execution_status_consistent_witness :
  let H := {| schema_accepts _ _ := true |} in
  let doc := [("schema_version", JStr "1.0.0"); ("execution_id", JStr "e1"); ("intent_id", JStr "i1");
     ("intent_digest", JStr "d"); ("admission_id", JStr "a1"); ("admission_digest", JStr "ad");
     ("operation", JStr "TRAIN_TICKET"); ("state", JStr "COMPLETED"); ("updated_at", JStr "t");
     ("terminal", JBool true); ("receipt_digest", JStr "r")] in
  jget "execution_id" doc = JStr "e1" /\ jget "state" doc = JStr "COMPLETED" /\
  jget "terminal" doc = JBool (str_in "COMPLETED" TERMINAL_STATES) /\
  (od_mem "receipt_digest" doc = true -> "COMPLETED" = "COMPLETED") /\
  ("COMPLETED" = "COMPLETED" -> "TRAIN_TICKET" <> "MATERIALIZE_DATASET" ->
     exists d, Some "r" = Some d /\ jget "receipt_digest" doc = JStr d) /\
  (od_mem "error" doc = true <-> "COMPLETED" ∈ ["FAILED"; "TIMED_OUT"; "CANCELLED"]) /\
  (true = true -> schema_accepts "execution-status" (JObj doc) = true).
Proof.
  intros H doc.
  apply (execution_status_consistent "e1" "i1" "d" (JStr "a1") (JStr "ad") "COMPLETED" "TRAIN_TICKET"
           (Some "r") None (Some "t") "n" true doc). reflexivity.
Defined.
