(* ===== verification/Dispatch.v ===== *)
(** * The asynchronous worker queue ([SubprocessWorkerDispatchPort] of
    [deltacontroller/dispatch.py])

    The port shares the ledger with the gate; its own state is the semaphore,
    the capacity reservations, the jobs and the accepting flag.  A method's
    locked block is one function on that state.  [dispatch] has two locked
    blocks, the publication and, when it raises, the cleanup: other threads
    may run in between, so the two are separate steps, as are the two halves
    of a worker thread's [_run_job] around the worker process.  Whether the
    executor takes a job and what the process returns are arguments. *)

From S2P Require Import Prelude PyFloat Json JsonText Text Sha256 Errors Canonical LedgerRecord Ledger.
Open Scope string_scope.
Open Scope py_scope.

(** ** Errors stored in the ledger *)

(** The error codes are those of the taxonomy; [message[:512]]. *)
Definition _error (error_code category : string) (retryable : bool) (message : string)
  : odict json :=
  [("schema_version", JStr "1.0.0");
   ("error_code", JStr error_code);
   ("category", JStr category);
   ("retryable", JBool retryable);
   ("message", JStr (str_take 512 message))].

Definition cancelled_error : odict json :=
  _error "ERR_CANCELLED" "WORKER" true "Execution was cancelled".
Definition process_cancelled_error : odict json :=
  _error "ERR_CANCELLED" "WORKER" true "Worker process was cancelled".
Definition timed_out_error : odict json :=
  _error "ERR_TIMEOUT" "WORKER" true "Worker process exceeded its deadline".
Definition process_failed_error : odict json :=
  _error "ERR_WORKER_DISPATCH_FAILED" "DISPATCH" true "Worker process failed".
Definition submission_failed_error : odict json :=
  _error "ERR_WORKER_DISPATCH_FAILED" "DISPATCH" true "Worker queue submission failed".
Definition orphaned_error : odict json :=
  _error "ERR_WORKER_DISPATCH_FAILED" "DISPATCH" true
    "Controller restarted with an orphaned nonterminal execution".

Definition dispatch_failed (m : string) : exn := ControllerErr WorkerDispatchFailedError m.
Definition queue_exhausted : exn :=
  ControllerErr QuotaExceededError "Worker process queue capacity is exhausted".

(** ** The port *)

(** [job_id] is the identity of the object ([is]). *)
Record QueuedExecution := mkJob {
  job_id : nat;
  job_execution_id : string;
  job_bundle : odict json;
  cancellation_requested : bool;
  future : bool;
}.

Record DispatchPort := mkPort {
  port_ledger : IdempotencyLedger;
  producer_commit : string;
  total_capacity : nat;
  capacity : nat;
  jobs : odict QueuedExecution;
  capacity_reservations : gset string;
  accepting : bool;
  next_job_id : nat;
}.

Definition set_port_ledger (l : IdempotencyLedger) (p : DispatchPort) :=
  mkPort l (producer_commit p) (total_capacity p) (capacity p) (jobs p)
    (capacity_reservations p) (accepting p) (next_job_id p).
Definition set_capacity (c : nat) (p : DispatchPort) :=
  mkPort (port_ledger p) (producer_commit p) (total_capacity p) c (jobs p)
    (capacity_reservations p) (accepting p) (next_job_id p).
Definition set_jobs (j : odict QueuedExecution) (p : DispatchPort) :=
  mkPort (port_ledger p) (producer_commit p) (total_capacity p) (capacity p) j
    (capacity_reservations p) (accepting p) (next_job_id p).
Definition set_capacity_reservations (r : gset string) (p : DispatchPort) :=
  mkPort (port_ledger p) (producer_commit p) (total_capacity p) (capacity p) (jobs p)
    r (accepting p) (next_job_id p).
Definition set_accepting (a : bool) (p : DispatchPort) :=
  mkPort (port_ledger p) (producer_commit p) (total_capacity p) (capacity p) (jobs p)
    (capacity_reservations p) a (next_job_id p).
Definition set_next_job_id (n : nat) (p : DispatchPort) :=
  mkPort (port_ledger p) (producer_commit p) (total_capacity p) (capacity p) (jobs p)
    (capacity_reservations p) (accepting p) n.

(** A ledger method called by the port *)
Definition on_ledger {A} (m : M IdempotencyLedger A) : M DispatchPort A :=
  fun p => let '(l, r) := m (port_ledger p) in (set_port_ledger l p, r).

(** [self._capacity.acquire(blocking=False)] *)
Definition try_acquire : M DispatchPort bool :=
  fun p => match capacity p with
           | O => (p, Ok false)
           | S n => (set_capacity n p, Ok true)
           end.

(** [self._capacity.release()] of a bounded semaphore *)
Definition release_permit : M DispatchPort unit :=
  fun p => if (capacity p <? total_capacity p)%nat
           then (set_capacity (S (capacity p)) p, Ok tt)
           else (p, Raise (ValueErr "Semaphore released too many times")).

Definition reserve_capacity (intent_id : string) : M DispatchPort unit :=
  do! p := mget in
  mrequire (accepting p) (dispatch_failed "Worker queue is shutting down") ;!
  mrequire (bool_decide (intent_id ∉ capacity_reservations p))
    (dispatch_failed "Worker capacity is already reserved for intent") ;!
  do! acquired := try_acquire in
  mrequire acquired queue_exhausted ;!
  mmodify (fun p => set_capacity_reservations ({[intent_id]} ∪ capacity_reservations p) p).

Definition release_capacity_reservation (intent_id : string) : M DispatchPort unit :=
  do! p := mget in
  if bool_decide (intent_id ∈ capacity_reservations p) then
    mput (set_capacity_reservations (capacity_reservations p ∖ {[intent_id]}) p) ;!
    release_permit
  else mret tt.

(** ** Dispatching *)

Section Dispatch.
Context `{SchemaValidator}.

(** The identities [dispatch] reads from the bundle *)
Definition bundle_path (bundle : odict json) (a b : string) : result exn json :=
  let? x := get_item a bundle in
  match x with
  | JObj o => get_item b o
  | _ => Raise (TypeErr "object is not subscriptable")
  end.

Definition as_string (j : json) : result exn string :=
  match j with JStr s => Ok s | _ => Raise (TypeErr "not a string") end.

Definition bundle_ids (bundle : odict json) : result exn (string * string) :=
  schema_validate "authorized-execution" (JObj bundle) ;?
  let? e := bundle_path bundle "admission" "execution_id" in
  let? i := bundle_path bundle "intent" "intent_id" in
  let? e := as_string e in
  let? i := as_string i in
  Ok (e, i).

(** Local variables of one [dispatch] call *)
Record dispatch_locals := mkLocals {
  loc_execution_id : string;
  loc_job_id : nat;
  capacity_owned : bool;
  queued_committed : bool;
}.

Definition take_capacity (intent_id : string) : M DispatchPort unit :=
  do! p := mget in
  if bool_decide (intent_id ∈ capacity_reservations p)
  then mput (set_capacity_reservations (capacity_reservations p ∖ {[intent_id]}) p)
  else
    mrequire (accepting p) (dispatch_failed "Worker queue is shutting down") ;!
    do! acquired := try_acquire in
    mrequire acquired queue_exhausted.

Definition add_job (execution_id : string) (bundle : odict json) (id : nat) (submitted : bool)
  : M DispatchPort unit :=
  mmodify (fun p => set_jobs (od_set execution_id (mkJob id execution_id bundle false submitted)
                                (jobs p)) p).

(** The locked publication block, with the locals it leaves behind.
    [submitted] says whether [self._executor.submit] returns or raises. *)
Definition dispatch_publish (execution_id intent_id : string) (bundle : odict json) (now : string)
  (io : append_outcome) (submitted : bool) (p : DispatchPort)
  : DispatchPort * dispatch_locals * result exn unit :=
  let id := next_job_id p in
  let p := set_next_job_id (S id) p in
  match take_capacity intent_id p with
  | (p, Raise e) => (p, mkLocals execution_id id false false, Raise e)
  | (p, Ok _) =>
      match on_ledger (transition_execution execution_id ["ADMITTED"] "QUEUED" None None None now io) p with
      | (p, Raise e) => (p, mkLocals execution_id id true false, Raise e)
      | (p, Ok None) =>
          (p, mkLocals execution_id id true false,
           Raise (dispatch_failed "Execution was not ADMITTED when the Worker queue accepted it"))
      | (p, Ok (Some _)) =>
          match add_job execution_id bundle id submitted p with
          | (p, _) => (p, mkLocals execution_id id true true,
                       if submitted then Ok tt
                       else Raise (RuntimeErr "cannot schedule new futures after shutdown"))
          end
      end
  end.

Definition owns_job (execution_id : string) (id : nat) (p : DispatchPort) : bool :=
  match od_get execution_id (jobs p) with
  | Some j => (job_id j =? id)%nat
  | None => false
  end.

(** The locked cleanup block of the exception handler *)
Definition dispatch_cleanup (loc : dispatch_locals) : M DispatchPort unit :=
  mmodify (fun p => if owns_job (loc_execution_id loc) (loc_job_id loc) p
                    then set_jobs (od_pop (loc_execution_id loc) (jobs p)) p else p) ;!
  if capacity_owned loc then release_permit else mret tt.

(** The rest of the handler *)
Definition dispatch_fail (loc : dispatch_locals) (now : string) (io : append_outcome)
  : M DispatchPort unit :=
  if queued_committed loc then
    do! r := on_ledger (transition_execution (loc_execution_id loc) ["QUEUED"] "FAILED" None None
                          (Some submission_failed_error) now io) in
    mret tt
  else mret tt.

Definition queued_ack (execution_id intent_id : string) : odict json :=
  [("dispatched", JBool true); ("execution_id", JStr execution_id);
   ("intent_id", JStr intent_id); ("status", JStr "QUEUED")].

(** The whole call; [others1] and [others2] are the other threads' steps
    before the handler's two parts. *)
Definition dispatch (bundle : odict json) (now now2 : string) (io io2 : append_outcome)
  (submitted : bool) (others1 others2 : DispatchPort -> DispatchPort)
  : M DispatchPort (odict json) :=
  fun p =>
    match bundle_ids bundle with
    | Raise e => (p, Raise e)
    | Ok (execution_id, intent_id) =>
        match dispatch_publish execution_id intent_id bundle now io submitted p with
        | (p, loc, Ok _) => (p, Ok (queued_ack execution_id intent_id))
        | (p, loc, Raise e) =>
            (mmodify others1 ;! dispatch_cleanup loc ;!
             mmodify others2 ;! dispatch_fail loc now2 io2 ;!
             mraise e) p
        end
    end.

(** The done callback of a future *)
Definition _finish_job (execution_id : string) (id : nat) : M DispatchPort unit :=
  do! p := mget in
  if owns_job execution_id id p then
    mput (set_jobs (od_pop execution_id (jobs p)) p) ;! release_permit
  else mret tt.

(** ** Worker results *)

(** [any(doc.get(key) != value for ...)] *)
Definition any_mismatch (doc : json) (expected : odict json) : result exn bool :=
  rany (fun kv => let? v := attr_get doc kv.1 in Ok (negb (py_eq v kv.2))) expected.

(** [d.get(key, {})] *)
Definition get_or_empty (key : string) (d : odict json) : json :=
  match od_get key d with Some v => v | None => JObj [] end.

(** [bundle["intent"]["workload"][key]] *)
Definition workload_item (bundle : odict json) (key : string) : result exn json :=
  let? w := bundle_path bundle "intent" "workload" in
  match w with
  | JObj o => get_item key o
  | _ => Raise (TypeErr "object is not subscriptable")
  end.

Definition bundle_controller_commit (bundle : odict json) : result exn json :=
  let? c := bundle_path bundle "admission" "policy_context" in
  match c with
  | JObj o => get_item "controller_commit" o
  | _ => Raise (TypeErr "object is not subscriptable")
  end.

Definition expected_provenance (bundle : odict json) (producer : string)
  : result exn (odict json) :=
  let? intent_id := bundle_path bundle "intent" "intent_id" in
  let? intent_digest := bundle_path bundle "intent" "intent_digest" in
  let? admission_id := bundle_path bundle "admission" "admission_id" in
  let? admission_digest := bundle_path bundle "admission" "admission_digest" in
  let? execution_id := bundle_path bundle "admission" "execution_id" in
  let? controller := bundle_controller_commit bundle in
  let? catalog := workload_item bundle "catalog_backend_ref" in
  Ok [("intent_id", intent_id); ("intent_digest", intent_digest);
      ("admission_id", admission_id); ("admission_digest", admission_digest);
      ("execution_id", execution_id); ("controller_commit", controller);
      ("catalog_backend_ref", catalog); ("backend_commit", catalog);
      ("producer_commit", JStr producer)].

Definition expected_receipt_workload (bundle : odict json) : result exn (odict json) :=
  let? plugin := workload_item bundle "model_plugin_id" in
  let? dataset := workload_item bundle "dataset_id" in
  let? scope := workload_item bundle "requested_scope" in
  Ok [("model_plugin_id", plugin); ("dataset_id", dataset); ("executed_scope", scope)].

(** The checks of a receipt that completes the execution *)
Definition validate_receipt (bundle : odict json) (producer : string)
  (receipt : odict json) (receipt_digest : json) : result exn unit :=
  schema_validate "receipt-lineage" (JObj receipt) ;?
  let? provenance := expected_provenance bundle producer in
  let? bad := any_mismatch (get_or_empty "provenance" receipt) provenance in
  require (negb bad) (dispatch_failed "Worker receipt provenance mismatch") ;?
  let? workload := expected_receipt_workload bundle in
  let? bad := any_mismatch (get_or_empty "workload" receipt) workload in
  require (negb bad) (dispatch_failed "Worker receipt workload mismatch") ;?
  let? bytes := canonicalize_jcs (JObj receipt) in
  require (py_eq receipt_digest (JStr (sha256_digest bytes)))
    (dispatch_failed "Worker receipt digest mismatch").

(** [value is True] *)
Definition is_true (j : json) : bool := match j with JBool b => b | _ => false end.

(** [status in TERMINAL_STATUSES]; a list or a dict is unhashable. *)
Definition status_in (status : json) (l : list string) : result exn bool :=
  match status with
  | JStr s => Ok (str_in s l)
  | JArr _ | JObj _ => Raise (TypeErr "unhashable type")
  | _ => Ok false
  end.

Definition _validate_terminal_result (producer : string) (bundle : odict json) (result : json)
  : Prelude.result exn (odict json) :=
  match result with
  | JObj result =>
      let? execution_id := bundle_path bundle "admission" "execution_id" in
      let? intent_id := bundle_path bundle "intent" "intent_id" in
      let? operation := bundle_path bundle "intent" "operation" in
      require (py_eq (jget "execution_id" result) execution_id
               && py_eq (jget "intent_id" result) intent_id)
        (dispatch_failed "Worker terminal identity mismatch") ;?
      require (py_eq (jget "operation" result) operation)
        (dispatch_failed "Worker terminal operation mismatch") ;?
      require (is_bool (jget "dispatched" result))
        (dispatch_failed "Worker terminal result lacks dispatched boolean") ;?
      let status := jget "status" result in
      let? terminal := status_in status TERMINAL_STATUSES in
      require terminal (dispatch_failed "Worker process did not return a terminal status") ;?
      let receipt := jget "receipt" result in
      let receipt_digest := jget "receipt_digest" result in
      let error := jget "error" result in
      (if py_eq status (JStr "COMPLETED") then
         require (is_true (jget "dispatched" result) && is_none error)
           (dispatch_failed "Completed Worker result is inconsistent") ;?
         if py_eq operation (JStr "MATERIALIZE_DATASET") then
           require (is_none receipt && is_none receipt_digest)
             (dispatch_failed "MATERIALIZE_DATASET cannot return a terminal receipt")
         else
           match receipt with
           | JObj receipt => validate_receipt bundle producer receipt receipt_digest
           | _ => Raise (dispatch_failed "Completed Worker result lacks a receipt")
           end
       else
         require (is_none receipt && is_none receipt_digest)
           (dispatch_failed "Failed Worker result contains a receipt") ;?
         require (is_obj error) (dispatch_failed "Failed Worker result lacks an error") ;?
         schema_validate "preflight-error" error ;?
         require (negb (py_eq status (JStr "TIMED_OUT") || py_eq status (JStr "CANCELLED"))
                  || is_true (jget "dispatched" result))
           (dispatch_failed "Worker state requires an attempted dispatch")) ;?
      Ok result
  | _ => Raise (dispatch_failed "Worker terminal result must be an object")
  end.

(** What the worker process comes back with *)
Inductive runner_outcome :=
| RunResult (result : json)
| RunCancelled
| RunTimedOut
| RunRaised (e : exn).

(** First half of [_run_job]: whether the worker process is started *)
Definition run_job_start (execution_id : string) (cancelled : bool) (now : string)
  (io : append_outcome) : M DispatchPort bool :=
  if cancelled then mret false
  else
    do! running := on_ledger (transition_execution execution_id ["QUEUED"] "RUNNING" None None None now io) in
    mret (match running with Some _ => true | None => false end).

Definition finish_running (execution_id status : string) (error : odict json) (now : string)
  (io : append_outcome) : M DispatchPort unit :=
  do! r := on_ledger (transition_execution execution_id ["RUNNING"] status None None (Some error) now io) in
  mret tt.

(** Second half: the result, the cancellation, the timeout or the failure is
    recorded against [RUNNING]; a result that is rejected, by the port or by
    the ledger, is a failure. *)
Definition run_job_finish (execution_id : string) (bundle : odict json) (outcome : runner_outcome)
  (now : string) (io io2 : append_outcome) : M DispatchPort unit :=
  match outcome with
  | RunCancelled => finish_running execution_id "CANCELLED" process_cancelled_error now io
  | RunTimedOut => finish_running execution_id "TIMED_OUT" timed_out_error now io
  | RunRaised _ => finish_running execution_id "FAILED" process_failed_error now io
  | RunResult raw =>
      mcatch
        (do! p := mget in
         do! result := mlift (_validate_terminal_result (producer_commit p) bundle raw) in
         do! r := on_ledger
           (transition_execution execution_id ["RUNNING"] (to_str (jget "status" result))
              (to_opt_str (jget "receipt_digest" result)) (to_opt_obj (jget "receipt" result))
              (to_opt_obj (jget "error" result)) now io) in
         mret tt)
        (fun _ => finish_running execution_id "FAILED" process_failed_error now io2)
  end.

(** ** Cancellation, recovery, shutdown *)

Definition signal_job (execution_id : string) : M DispatchPort unit :=
  mmodify (fun p =>
    match od_get execution_id (jobs p) with
    | Some j => set_jobs (od_set execution_id
                  (mkJob (job_id j) (job_execution_id j) (job_bundle j) true (future j)) (jobs p)) p
    | None => p
    end).

Definition cancel (execution_id now : string) (io : append_outcome)
  : M DispatchPort (option LedgerRecord) :=
  do! p := mget in
  match get_by_execution_id execution_id (port_ledger p) with
  | None => mraise (KeyErr "Unknown execution_id")
  | Some current =>
      if str_in (lr_status current) TERMINAL_STATUSES then mret None
      else
        do! cancelled := on_ledger (transition_execution execution_id NONTERMINAL_STATUSES "CANCELLED"
                                      None None (Some cancelled_error) now io) in
        match cancelled with
        | None =>
            do! p := mget in
            match get_by_execution_id execution_id (port_ledger p) with
            | None => mraise (KeyErr "Unknown execution_id")
            | Some _ => mret None
            end
        | Some r => signal_job execution_id ;! mret (Some r)
        end
  end.

(** The loop of [recover_orphans], one append outcome per record *)
Fixpoint recover_records (active : list string) (records : list LedgerRecord) (now : string)
  (ios : list append_outcome) (recovered : nat) : M DispatchPort nat :=
  match records with
  | [] => mret recovered
  | r :: rest =>
      if str_in (lr_execution_id r) active then recover_records active rest now ios recovered
      else
        let io := match ios with io :: _ => io | [] => AppendOk end in
        do! t := on_ledger (transition_execution (lr_execution_id r) [lr_status r] "FAILED" None None
                              (Some orphaned_error) now io) in
        recover_records active rest now (tail ios)
          (match t with Some _ => S recovered | None => recovered end)
  end.

Definition recover_orphans (now : string) (ios : list append_outcome) : M DispatchPort nat :=
  do! p := mget in
  let active := od_keys (jobs p) in
  do! records := on_ledger list_nonterminal_records in
  recover_records active records now ios 0.

(** [shutdown] first stops the queue from taking work. *)
Definition stop_accepting (timeout_seconds : Z) : M DispatchPort unit :=
  mrequire (0 <=? timeout_seconds)%Z (ValueErr "timeout_seconds must be non-negative") ;!
  mmodify (set_accepting false).

(** The constructor, on a ledger already loaded *)
Definition new_port (l : IdempotencyLedger) (commit : string) (max_workers max_queue : Z)
  (recover_on_startup : bool) (now : string) (ios : list append_outcome)
  : result exn (DispatchPort * nat) :=
  require (lower_hex 40 commit) (ValueErr "producer_commit must be an explicit 40-character build SHA") ;?
  require ((1 <=? max_workers)%Z && (0 <=? max_queue)%Z)
    (ValueErr "max_workers must be positive and max_queue must be non-negative") ;?
  let total := Z.to_nat (max_workers + max_queue) in
  let p := mkPort l commit total total [] ∅ true 0 in
  if recover_on_startup then
    let? n := (recover_orphans now ios p).2 in
    Ok ((recover_orphans now ios p).1, n)
  else Ok (p, O).
End Dispatch.
