(* ===== verification/DispatchInv.v ===== *)
(** * Capacity accounting of the worker queue

    [port_step] is one locked block of any thread: reserving and releasing
    capacity, the publication of a dispatch and its cleanup, the callback of a
    finished job, cancellation signals, shutdown, and any ledger method run by
    another thread.  Between a failed publication and its cleanup the call's
    locals are [pending].  The invariant counts every permit of the semaphore:
    free, reserved, held by a job, or held by a pending cleanup. *)

From stdpp Require Import relations.
From S2P Require Import Prelude PyFloat Json JsonText Text Sha256 Errors Canonical LedgerRecord Ledger LedgerInv LedgerSystem Dispatch.
Open Scope string_scope.
Open Scope nat_scope.
Open Scope py_scope.

Section DispatchInv.
Context `{SchemaValidator}.
(** [max_workers + max_queue] *)
Context (total : nat).

Inductive port_step : relation (DispatchPort * list dispatch_locals) :=
| ps_reserve id p p' res pend :
    reserve_capacity id p = (p', res) -> port_step (p, pend) (p', pend)
| ps_release id p p' res pend :
    release_capacity_reservation id p = (p', res) -> port_step (p, pend) (p', pend)
| ps_publish eid iid bundle now io submitted p p' loc pend :
    dispatch_publish eid iid bundle now io submitted p = (p', loc, Ok tt) ->
    port_step (p, pend) (p', pend)
| ps_publish_fails eid iid bundle now io submitted p p' loc e pend :
    dispatch_publish eid iid bundle now io submitted p = (p', loc, Raise e) ->
    port_step (p, pend) (p', loc :: pend)
| ps_cleanup loc p p' res pend1 pend2 :
    dispatch_cleanup loc p = (p', res) ->
    port_step (p, (pend1 ++ loc :: pend2)%list) (p', (pend1 ++ pend2)%list)
| ps_finish eid id p p' res pend :
    (** only the future of a submitted job calls back *)
    (forall j, od_get eid (jobs p) = Some j -> job_id j = id -> future j = true) ->
    _finish_job eid id p = (p', res) -> port_step (p, pend) (p', pend)
| ps_signal eid p p' res pend :
    signal_job eid p = (p', res) -> port_step (p, pend) (p', pend)
| ps_stop t p p' res pend :
    stop_accepting t p = (p', res) -> port_step (p, pend) (p', pend)
| ps_ledger l' p pend :
    ledger_step (port_ledger p) l' -> port_step (p, pend) (set_port_ledger l' p, pend).

(** ** Executions in the ledger *)

Lemma get_by_execution_step l l' eid r :
  ledger_step l l' -> ledger_inv l -> get_by_execution_id eid l = Some r ->
  exists r', get_by_execution_id eid l' = Some r' /\ (r' = r \/ record_step r r').
Proof.
  intros S Hi G. unfold get_by_execution_id in G.
  destruct (by_execution_id l !! eid) as [k|] eqn:E; [|done].
  destruct (String.eqb k EmptyString) eqn:Ek; [done|].
  destruct (ledger_step_record _ _ _ _ S Hi G) as (r' & G' & R).
  pose proof (ledger_step_inv _ _ S Hi) as Hi'.
  destruct (inv_exec _ Hi _ _ E) as (r0 & G0 & Ee). rewrite G in G0. injection G0 as <-.
  destruct (inv_record _ Hi' _ _ G') as (_ & _ & X & _).
  assert (Ex : lr_execution_id r' = eid).
  { destruct R as [->|(st & now & art & -> & _)]; done. }
  exists r'. split; [|done]. unfold get_by_execution_id. rewrite Ex in X. by rewrite X, Ek.
Qed.

Lemma not_admitted_again s t : t ∈ _LEGAL_TRANSITIONS s -> t <> "ADMITTED".
Proof.
  unfold _LEGAL_TRANSITIONS. intros Ht ->. apply str_in_elem in Ht. revert Ht.
  repeat case_match; done.
Qed.

Lemma get_not_admitted_step l l' eid r :
  ledger_step l l' -> ledger_inv l -> get_by_execution_id eid l = Some r ->
  lr_status r <> "ADMITTED" ->
  exists r', get_by_execution_id eid l' = Some r' /\ lr_status r' <> "ADMITTED".
Proof.
  intros S Hi G Hn. destruct (get_by_execution_step _ _ _ _ S Hi G) as (r' & G' & R).
  exists r'. split; [done|]. destruct R as [->|(st & now & art & -> & Hl)]; [done|].
  by eapply not_admitted_again.
Qed.

(** ** The invariant *)

(** A pending cleanup that still holds a permit of its own *)
Definition holds_permit (p : DispatchPort) (loc : dispatch_locals) : bool :=
  capacity_owned loc && negb (owns_job (loc_execution_id loc) (loc_job_id loc) p).

Fixpoint permits_pending (p : DispatchPort) (pend : list dispatch_locals) : nat :=
  match pend with
  | [] => 0
  | loc :: r => (if holds_permit p loc then 1 else 0) + permits_pending p r
  end.

Record port_inv (p : DispatchPort) (pend : list dispatch_locals) : Prop := {
  pi_total : total_capacity p = total;
  pi_ledger : ledger_inv (port_ledger p);
  pi_jobs_wf : od_wf (jobs p);
  (** a job's execution has left ADMITTED *)
  pi_jobs : forall eid j, od_get eid (jobs p) = Some j ->
    job_id j < next_job_id p /\
    exists r, get_by_execution_id eid (port_ledger p) = Some r /\ lr_status r <> "ADMITTED";
  pi_pend_fresh : Forall (fun loc => loc_job_id loc < next_job_id p) pend;
  pi_pend_nodup : NoDup (map loc_job_id pend);
  (** a pending call's job was never submitted and its permit is owned *)
  pi_pend_job : forall loc j, loc ∈ pend -> od_get (loc_execution_id loc) (jobs p) = Some j ->
    job_id j = loc_job_id loc -> future j = false /\ capacity_owned loc = true;
  pi_permits : capacity p + size (capacity_reservations p) + length (jobs p)
               + permits_pending p pend = total_capacity p;
}.

Lemma permits_pending_ext p p' pend :
  (forall loc, loc ∈ pend -> owns_job (loc_execution_id loc) (loc_job_id loc) p' =
                             owns_job (loc_execution_id loc) (loc_job_id loc) p) ->
  permits_pending p' pend = permits_pending p pend.
Proof.
  induction pend as [|loc pend IH]; cbn; [done|]. intros E. unfold holds_permit.
  rewrite (E loc) by left. rewrite IH; [done|]. intros. apply E. by right.
Qed.

Lemma permits_pending_app p a b :
  permits_pending p (a ++ b) = permits_pending p a + permits_pending p b.
Proof. induction a as [|x a IH]; cbn; [done|]. rewrite IH. lia. Qed.

Lemma length_set_new {V} k (v : V) d : od_get k d = None -> length (od_set k v d) = S (length d).
Proof. intros E. rewrite od_set_new by done. rewrite length_app. cbn. lia. Qed.

Lemma length_set_same {V} k (v v0 : V) d : od_get k d = Some v0 -> length (od_set k v d) = length d.
Proof.
  induction d as [|[k' w] d IH]; cbn; [done|]. destruct (String.eqb k k'); cbn; [done|].
  intros E. by rewrite IH.
Qed.

Lemma length_pop {V} k (v : V) d : od_get k d = Some v -> S (length (od_pop k d)) = length d.
Proof.
  induction d as [|[k' w] d IH]; cbn; [done|]. destruct (String.eqb k k'); cbn; [done|].
  intros E. by rewrite IH.
Qed.

(** ** Preservation, block by block *)

Lemma inv_set_ledger l' p pend :
  port_inv p pend -> ledger_step (port_ledger p) l' -> port_inv (set_port_ledger l' p) pend.
Proof.
  intros [] S. constructor; try done.
  - by eapply ledger_step_inv.
  - intros eid j Hj. destruct (pi_jobs0 _ _ Hj) as (Hid & r & G & Hn). split; [done|].
    by eapply get_not_admitted_step.
  - by rewrite (permits_pending_ext p).
Qed.

Lemma inv_next p pend : port_inv p pend -> port_inv (set_next_job_id (S (next_job_id p)) p) pend.
Proof.
  intros []. constructor; try done; cbn.
  - intros eid j Hj. destruct (pi_jobs0 _ _ Hj) as (Hid & Hr). split; [lia|done].
  - eapply Forall_impl; [exact pi_pend_fresh0|]. cbn. lia.
  - by rewrite (permits_pending_ext p).
Qed.

(** Permits and reservations only: the jobs and the ledger stay. *)
Lemma inv_permits p c r a pend :
  port_inv p pend ->
  c + size r = capacity p + size (capacity_reservations p) ->
  port_inv (mkPort (port_ledger p) (producer_commit p) (total_capacity p) c (jobs p) r a
              (next_job_id p)) pend.
Proof.
  intros [] E. constructor; try done. cbn.
  rewrite (permits_pending_ext p) by done. lia.
Qed.

Lemma reserve_inv id p p' res pend :
  port_inv p pend -> reserve_capacity id p = (p', res) -> port_inv p' pend.
Proof.
  intros Hi. unfold reserve_capacity, mrequire, mlift, mbind, mget, try_acquire, mmodify.
  destruct (accepting p) eqn:Ha; [|by intros [= <- _]]. cbn [require].
  destruct (bool_decide_reflect (id ∉ capacity_reservations p)) as [Hn|]; [|by intros [= <- _]].
  cbn [require]. destruct (capacity p) as [|c] eqn:C; [by intros [= <- _]|]. intros [= <- _]. cbn.
  apply (inv_permits p c ({[id]} ∪ capacity_reservations p) (accepting p)); [done|].
  rewrite size_union by set_solver. rewrite size_singleton. lia.
Qed.

Lemma release_inv id p p' res pend :
  port_inv p pend -> release_capacity_reservation id p = (p', res) ->
  port_inv p' pend /\ res = Ok tt.
Proof.
  intros Hi. unfold release_capacity_reservation, mbind, mget, mput, release_permit, mret.
  destruct (bool_decide_reflect (id ∈ capacity_reservations p)) as [Hin|];
    [|by intros [= <- <-]].
  assert (Sz : size (capacity_reservations p ∖ {[id]}) + 1 = size (capacity_reservations p)).
  { rewrite size_difference by set_solver. rewrite size_singleton.
    assert (size (capacity_reservations p) <> 0); [|lia].
    intros E%size_empty_inv. set_solver. }
  cbn [capacity total_capacity set_capacity_reservations].
  destruct (Nat.ltb_spec (capacity p) (total_capacity p)) as [Hlt|Hge].
  - intros [= <- <-]. split; [|done].
    apply (inv_permits p (S (capacity p)) (capacity_reservations p ∖ {[id]}) (accepting p)); [done|lia].
  - pose proof (pi_permits _ _ Hi). lia.
Qed.

Lemma stop_inv t p p' res pend :
  port_inv p pend -> stop_accepting t p = (p', res) -> port_inv p' pend.
Proof.
  intros Hi. unfold stop_accepting, mrequire, mlift, mbind, mmodify.
  destruct (require _ _); intros [= <- _]; [|done].
  by apply (inv_permits p (capacity p) (capacity_reservations p) false).
Qed.

Lemma signal_inv eid p p' res pend :
  port_inv p pend -> signal_job eid p = (p', res) -> port_inv p' pend.
Proof.
  intros Hi. unfold signal_job, mmodify. destruct (od_get eid (jobs p)) as [j|] eqn:G; intros [= <- _]; [|done].
  set (j' := mkJob (job_id j) (job_execution_id j) (job_bundle j) true (future j)).
  assert (L : forall k x, od_get k (od_set eid j' (jobs p)) = Some x ->
     exists y, od_get k (jobs p) = Some y /\ job_id x = job_id y /\ future x = future y).
  { intros k x. rewrite od_get_set. destruct (String.eqb_spec k eid) as [->|]; [|eauto].
    intros [= <-]. eauto. }
  destruct Hi. constructor; cbn; try done.
  - auto with delta.
  - intros k x (y & Hy & -> & _)%L. eauto.
  - intros loc x Hl (y & Hy & -> & ->)%L E. eauto.
  - rewrite (length_set_same _ _ j) by done. rewrite (permits_pending_ext p); [done|].
    intros loc _. unfold owns_job. cbn. rewrite od_get_set.
    destruct (String.eqb_spec (loc_execution_id loc) eid) as [->|]; [by rewrite G|done].
Qed.

(** *** Releasing a permit that is accounted for *)

Lemma release_permit_Ok p :
  capacity p < total_capacity p -> release_permit p = (set_capacity (S (capacity p)) p, Ok tt).
Proof. unfold release_permit. by intros ->%Nat.ltb_lt. Qed.

Lemma owns_job_true eid id p :
  owns_job eid id p = true <-> exists j, od_get eid (jobs p) = Some j /\ job_id j = id.
Proof.
  unfold owns_job. destruct (od_get eid (jobs p)) as [j|].
  - rewrite Nat.eqb_eq. naive_solver.
  - naive_solver.
Qed.

(** Removing a job and giving its permit back *)
Definition without_job (eid : string) (p : DispatchPort) : DispatchPort :=
  set_capacity (S (capacity p)) (set_jobs (od_pop eid (jobs p)) p).

Lemma get_without k eid (d : odict QueuedExecution) j :
  od_wf d -> od_get k (od_pop eid d) = Some j -> od_get k d = Some j /\ k <> eid.
Proof.
  intros Hw. destruct (decide (k = eid)) as [->|]; [by rewrite od_get_pop_eq|].
  by rewrite od_get_pop_ne.
Qed.

Lemma without_job_owns eid p loc :
  od_wf (jobs p) ->
  owns_job (loc_execution_id loc) (loc_job_id loc) (without_job eid p) =
  if String.eqb (loc_execution_id loc) eid then false
  else owns_job (loc_execution_id loc) (loc_job_id loc) p.
Proof.
  intros Hw. unfold owns_job. cbn. destruct (String.eqb_spec (loc_execution_id loc) eid) as [->|].
  - by rewrite od_get_pop_eq.
  - by rewrite od_get_pop_ne.
Qed.

Lemma without_job_inv eid j p pend :
  port_inv p pend -> od_get eid (jobs p) = Some j ->
  (forall loc, loc ∈ pend -> loc_execution_id loc = eid -> job_id j <> loc_job_id loc) ->
  port_inv (without_job eid p) pend.
Proof.
  intros Hi Hj Hn. pose proof (pi_permits _ _ Hi) as E. pose proof (length_pop eid j (jobs p) Hj) as L.
  destruct Hi. constructor; cbn; try done.
  - auto with delta.
  - intros k x [Hx _]%get_without; eauto.
  - intros loc x Hl [Hx _]%get_without; eauto.
  - rewrite (permits_pending_ext p); [lia|].
    intros loc Hl. rewrite without_job_owns by done.
    destruct (String.eqb_spec (loc_execution_id loc) eid) as [Ee|]; [|done].
    symmetry. apply not_true_iff_false. rewrite owns_job_true. intros (x & Hx & Ex).
    rewrite Ee, Hj in Hx. injection Hx as <-. by apply (Hn loc).
Qed.

Lemma finish_inv eid id p p' res pend :
  port_inv p pend ->
  (forall j, od_get eid (jobs p) = Some j -> job_id j = id -> future j = true) ->
  _finish_job eid id p = (p', res) -> port_inv p' pend /\ res = Ok tt.
Proof.
  intros Hi Hf. unfold _finish_job, mbind, mget, mput, mret.
  destruct (owns_job eid id p) eqn:O; [|by intros [= <- <-]].
  apply owns_job_true in O as (j & Hj & Hid).
  pose proof (length_pop eid j (jobs p) Hj) as L. pose proof (pi_permits _ _ Hi) as E.
  rewrite release_permit_Ok by (cbn; lia). intros [= <- <-]. split; [|done].
  apply (without_job_inv eid j); [done|done|].
  intros loc Hl Ee Eq. destruct (pi_pend_job _ _ Hi loc j Hl) as [F _]; [by rewrite Ee|done|].
  rewrite (Hf j Hj Hid) in F. done.
Qed.

(** *** Publication *)

Lemma on_ledger_transition eid exp st rd tr err now io p p' res :
  on_ledger (transition_execution eid exp st rd tr err now io) p = (p', res) ->
  exists l', p' = set_port_ledger l' p /\ ledger_step (port_ledger p) l' /\
    transition_execution eid exp st rd tr err now io (port_ledger p) = (l', res).
Proof.
  unfold on_ledger. destruct (transition_execution _ _ _ _ _ _ _ _ _) as [l' r] eqn:T.
  intros [= <- <-]. exists l'. split; [done|]. split; [by eapply step_transition|done].
Qed.

(** Capacity is either taken from the caller's reservation or acquired. *)
Lemma take_capacity_cases iid p p' res :
  take_capacity iid p = (p', res) ->
  (exists e, res = Raise e /\ p' = p) \/
  (res = Ok tt /\ exists c r,
     p' = mkPort (port_ledger p) (producer_commit p) (total_capacity p) c (jobs p) r
            (accepting p) (next_job_id p) /\
     c + size r + 1 = capacity p + size (capacity_reservations p)).
Proof.
  unfold take_capacity, mrequire, mlift, mbind, mget, mput, try_acquire.
  destruct (bool_decide_reflect (iid ∈ capacity_reservations p)) as [Hin|].
  - intros [= <- <-]. right. split; [done|].
    exists (capacity p), (capacity_reservations p ∖ {[iid]}). split; [done|].
    rewrite size_difference by set_solver. rewrite size_singleton.
    assert (size (capacity_reservations p) <> 0); [|lia].
    intros E%size_empty_inv. set_solver.
  - destruct (accepting p) eqn:A; cbn [require]; [|intros [= <- <-]; left; eauto].
    destruct (capacity p) as [|c] eqn:C; cbn [require]; intros [= <- <-]; [left; eauto|right].
    split; [done|]. exists c, (capacity_reservations p). split; [by rewrite <- A|lia].
Qed.

(** A publication that raised: the invariant with its cleanup pending. *)
Lemma pending_inv p q loc c r pend :
  port_inv p pend ->
  c + size r + (if capacity_owned loc then 1 else 0) = capacity p + size (capacity_reservations p) ->
  loc_job_id loc = next_job_id p ->
  q = mkPort (port_ledger p) (producer_commit p) (total_capacity p) c (jobs p) r (accepting p)
        (S (next_job_id p)) ->
  port_inv q (loc :: pend).
Proof.
  intros Hi E Hid ->.
  assert (N : forall j, od_get (loc_execution_id loc) (jobs p) = Some j -> job_id j <> loc_job_id loc).
  { intros j Hj. destruct (pi_jobs _ _ Hi _ _ Hj). lia. }
  assert (O : owns_job (loc_execution_id loc) (loc_job_id loc) p = false).
  { apply not_true_iff_false. rewrite owns_job_true. intros (j & Hj & Ej). by apply (N j). }
  destruct Hi. constructor; cbn; try done.
  - intros eid j Hj. destruct (pi_jobs0 _ _ Hj) as [? ?]. split; [lia|done].
  - constructor; [lia|]. eapply Forall_impl; [exact pi_pend_fresh0|]. cbn. lia.
  - constructor; [|done]. intros (loc2 & E2 & Hin)%list_elem_of_fmap.
    rewrite Forall_forall in pi_pend_fresh0. specialize (pi_pend_fresh0 _ Hin). lia.
  - intros loc2 j [->|Hin]%elem_of_cons Hj Ej; [by destruct (N j)|eauto].
  - rewrite (permits_pending_ext p) by done. unfold holds_permit.
    change (owns_job _ _ _) with (owns_job (loc_execution_id loc) (loc_job_id loc) p).
    rewrite O. destruct (capacity_owned loc); cbn; lia.
Qed.

(** The job of a published dispatch is new: its record was ADMITTED. *)
Lemma published_inv p q eid bundle submitted c r l' rec now io pend :
  port_inv p pend ->
  c + size r + 1 = capacity p + size (capacity_reservations p) ->
  transition_execution eid ["ADMITTED"] "QUEUED" None None None now io (port_ledger p)
  = (l', Ok (Some rec)) ->
  q = mkPort l' (producer_commit p) (total_capacity p) c
        (od_set eid (mkJob (next_job_id p) eid bundle false submitted) (jobs p)) r (accepting p)
        (S (next_job_id p)) ->
  port_inv q (if submitted then pend else mkLocals eid (next_job_id p) true true :: pend) /\
  get_by_execution_id eid l' = Some rec /\ lr_status rec = "QUEUED".
Proof.
  intros Hi E T ->.
  pose proof (transition_result _ _ _ _ _ _ _ _ _ _ _ (pi_ledger _ _ Hi) T) as (G & St & r0 & G0 & Hx & _).
  apply list_elem_of_singleton in Hx.
  assert (N : od_get eid (jobs p) = None).
  { destruct (od_get eid (jobs p)) as [j|] eqn:Hj; [|done].
    destruct (pi_jobs _ _ Hi _ _ Hj) as (_ & r1 & G1 & Hn). congruence. }
  split; [|done].
  assert (S : ledger_step (port_ledger p) l') by (by eapply step_transition).
  set (job := mkJob (next_job_id p) eid bundle false submitted).
  set (q := mkPort _ _ _ _ _ _ _ _).
  assert (O : forall loc, loc ∈ pend -> owns_job (loc_execution_id loc) (loc_job_id loc) q =
                                        owns_job (loc_execution_id loc) (loc_job_id loc) p).
  { intros loc Hl. unfold owns_job, q. cbn. rewrite od_get_set.
    destruct (String.eqb_spec (loc_execution_id loc) eid) as [->|]; [|done]. rewrite N. cbn.
    apply Nat.eqb_neq. pose proof (pi_pend_fresh _ _ Hi) as F. rewrite Forall_forall in F.
    specialize (F _ Hl). lia. }
  destruct Hi.
  assert (J : forall k j, od_get k (od_set eid job (jobs p)) = Some j ->
     (k = eid /\ j = job) \/ (k <> eid /\ od_get k (jobs p) = Some j)).
  { intros k j. rewrite od_get_set. destruct (String.eqb_spec k eid) as [->|]; [|auto].
    intros [= <-]. auto. }
  constructor; cbn; try done.
  - by eapply ledger_step_inv.
  - auto with delta.
  - intros k j [[-> ->]|[_ Hj]]%J.
    + split; [cbn; lia|]. exists rec. split; [done|]. by rewrite St.
    + destruct (pi_jobs0 _ _ Hj) as (? & r1 & G1 & Hn). split; [lia|].
      by eapply get_not_admitted_step.
  - destruct submitted; [|constructor; [cbn; lia|]];
      (eapply Forall_impl; [exact pi_pend_fresh0|]; cbn; lia).
  - destruct submitted; [done|]. constructor; [|done].
    intros (loc2 & E2 & Hin)%list_elem_of_fmap. cbn in E2.
    rewrite Forall_forall in pi_pend_fresh0. specialize (pi_pend_fresh0 _ Hin). lia.
  - assert (P : forall loc j, loc ∈ pend -> od_get (loc_execution_id loc) (od_set eid job (jobs p)) = Some j ->
       job_id j = loc_job_id loc -> future j = false /\ capacity_owned loc = true).
    { intros loc j Hin [[_ ->]|[_ Hj]]%J Ej; [|eauto].
      rewrite Forall_forall in pi_pend_fresh0. specialize (pi_pend_fresh0 _ Hin). cbn in Ej. lia. }
    intros loc j Hin. destruct submitted; [by apply P|].
    apply elem_of_cons in Hin as [->|Hin]; [|by apply P].
    intros [[_ ->]|[? _]]%J _; [done|done].
  - rewrite length_set_new by done.
    assert (Q : permits_pending q (if submitted then pend else mkLocals eid (next_job_id p) true true :: pend)
                = permits_pending p pend).
    { destruct submitted; [by apply permits_pending_ext|]. cbn [permits_pending].
      rewrite (permits_pending_ext p q pend) by done. unfold holds_permit. cbn [capacity_owned].
      replace (owns_job _ _ q) with true; [done|]. symmetry. apply owns_job_true.
      exists job. unfold q. cbn. by rewrite od_get_set_eq. }
    rewrite Q. lia.
Qed.

Lemma publish_inv eid iid bundle now io submitted p p' loc res pend :
  port_inv p pend -> dispatch_publish eid iid bundle now io submitted p = (p', loc, res) ->
  (res = Ok tt /\ port_inv p' pend /\
   exists r, get_by_execution_id eid (port_ledger p') = Some r /\ lr_status r = "QUEUED") \/
  (exists e, res = Raise e /\ port_inv p' (loc :: pend)).
Proof.
  intros Hi. unfold dispatch_publish.
  destruct (take_capacity iid (set_next_job_id (S (next_job_id p)) p)) as [p1 r1] eqn:T.
  apply take_capacity_cases in T as [(e & -> & ->)|(-> & c & r & -> & E)]; cbn in *.
  - intros [= <- <- <-]. right. exists e. split; [done|].
    eapply (pending_inv p _ _ (capacity p) (capacity_reservations p)); cbn; [done|lia|done|done].
  - match goal with |- context [on_ledger ?m ?x] => set (p1 := x); destruct (on_ledger m p1) as [p2 r2] eqn:L end.
    apply on_ledger_transition in L as (l' & -> & S & Tr). cbn in Tr.
    assert (Hp : forall loc, loc_job_id loc = next_job_id p -> capacity_owned loc = true ->
                 port_inv (set_port_ledger l' p1) (loc :: pend)).
    { intros loc0 H1 H2. apply inv_set_ledger; [|done].
      eapply (pending_inv p _ _ c r); [done|rewrite H2; lia|done|done]. }
    destruct r2 as [[rec|]|e].
    + unfold add_job, mmodify. destruct submitted; intros [= <- <- <-].
      * left. split; [done|].
        destruct (published_inv p _ eid bundle true c r l' rec now io pend Hi E Tr eq_refl)
          as (Hq & G & St). split; [exact Hq|]. exists rec. done.
      * right. eexists. split; [done|].
        by destruct (published_inv p _ eid bundle false c r l' rec now io pend Hi E Tr eq_refl)
          as (Hq & _).
    + intros [= <- <- <-]. right. eexists. split; [done|]. by apply Hp.
    + intros [= <- <- <-]. right. eexists. split; [done|]. by apply Hp.
Qed.

(** *** Cleanup *)

Lemma nodup_drop (a b : list dispatch_locals) loc :
  NoDup (map loc_job_id (a ++ loc :: b)) ->
  NoDup (map loc_job_id (a ++ b)) /\
  forall loc2, loc2 ∈ (a ++ b)%list -> loc_job_id loc2 <> loc_job_id loc.
Proof.
  rewrite <- (Permutation_middle a b loc). cbn. intros [Hn Hd]%NoDup_cons. split; [done|].
  intros loc2 Hin E. apply Hn. rewrite <- E. by apply (list_elem_of_fmap_2 loc_job_id).
Qed.

Lemma drop_pending p loc a b :
  port_inv p (a ++ loc :: b)%list -> holds_permit p loc = false ->
  port_inv p (a ++ b)%list.
Proof.
  intros [] Hh. constructor; try done.
  - apply Forall_app in pi_pend_fresh0 as [? [? ?]%Forall_cons]. by apply Forall_app.
  - by apply nodup_drop in pi_pend_nodup0 as [? _].
  - intros loc2 j Hin. apply pi_pend_job0. set_solver.
  - revert pi_permits0. rewrite !permits_pending_app. cbn. rewrite Hh. lia.
Qed.

Lemma cleanup_inv loc p p' res a b :
  port_inv p (a ++ loc :: b)%list -> dispatch_cleanup loc p = (p', res) ->
  port_inv p' (a ++ b)%list /\ res = Ok tt.
Proof.
  intros Hi. unfold dispatch_cleanup, mbind, mmodify, mret.
  assert (Hin : loc ∈ (a ++ loc :: b)%list) by set_solver.
  assert (Hne : forall loc2, loc2 ∈ (a ++ b)%list -> loc_job_id loc2 <> loc_job_id loc).
  { by destruct (nodup_drop _ _ _ (pi_pend_nodup _ _ Hi)). }
  pose proof (pi_permits _ _ Hi) as E. rewrite permits_pending_app in E. cbn in E.
  unfold holds_permit in E.
  destruct (owns_job (loc_execution_id loc) (loc_job_id loc) p) eqn:O.
  - apply owns_job_true in O as O'. destruct O' as (j & Hj & Ej).
    destruct (pi_pend_job _ _ Hi loc j Hin Hj Ej) as [_ Hc]. rewrite Hc.
    pose proof (length_pop _ _ _ Hj) as L.
    rewrite release_permit_Ok by (cbn; lia). intros [= <- <-]. split; [|done].
    apply (without_job_inv _ j); [|done|].
    + apply (drop_pending _ loc); [done|]. unfold holds_permit. rewrite O. apply andb_false_r.
    + intros loc2 H2 _ E2. apply (Hne loc2); [done|]. congruence.
  - destruct (capacity_owned loc) eqn:Hc.
    + cbn in E. rewrite release_permit_Ok by lia. intros [= <- <-]. split; [|done].
      assert (Hh : holds_permit p loc = true) by (unfold holds_permit; by rewrite O, Hc).
      destruct Hi. constructor; cbn; try done.
      * apply Forall_app in pi_pend_fresh0 as [? [? ?]%Forall_cons]. by apply Forall_app.
      * by apply nodup_drop in pi_pend_nodup0 as [? _].
      * intros loc2 j H2. apply pi_pend_job0. set_solver.
      * rewrite (permits_pending_ext p) by done. rewrite permits_pending_app. lia.
    + intros [= <- <-]. split; [|done]. apply (drop_pending _ loc); [done|].
      unfold holds_permit. by rewrite Hc.
Qed.

Lemma port_step_inv s s' : port_step s s' -> port_inv s.1 s.2 -> port_inv s'.1 s'.2.
Proof.
  intros S Hi. destruct S as [id p p' res pend E|id p p' res pend E
    |eid iid bundle now io submitted p p' loc pend E|eid iid bundle now io submitted p p' loc e pend E
    |loc p p' res a b E|eid id p p' res pend Hf E|eid p p' res pend E|t p p' res pend E|l' p pend E]; cbn [fst snd] in *.
  - by eapply reserve_inv.
  - by destruct (release_inv _ _ _ _ _ Hi E).
  - by destruct (publish_inv _ _ _ _ _ _ _ _ _ _ _ Hi E) as [(_ & ? & _)|(? & ? & _)].
  - destruct (publish_inv _ _ _ _ _ _ _ _ _ _ _ Hi E) as [(? & _)|(? & _ & ?)]; done.
  - by destruct (cleanup_inv _ _ _ _ _ _ Hi E).
  - by destruct (finish_inv _ _ _ _ _ _ Hi Hf E).
  - by eapply signal_inv.
  - by eapply stop_inv.
  - by apply inv_set_ledger.
Qed.

Lemma port_steps_inv s s' : rtc port_step s s' -> port_inv s.1 s.2 -> port_inv s'.1 s'.2.
Proof. induction 1; eauto using port_step_inv. Qed.

(** A port as its constructor makes it *)
Definition fresh_port (l : IdempotencyLedger) (commit : string) : DispatchPort :=
  mkPort l commit total total [] ∅ true 0.

Lemma fresh_port_inv l commit : ledger_inv l -> port_inv (fresh_port l commit) [].
Proof.
  intros Hi. constructor; cbn; try done; try apply NoDup_nil_2; try constructor.
  rewrite size_empty. lia.
Qed.

(** ** Properties *)

(** C12: the queue is bounded and its semaphore is exact.  After any
    interleaving of reservations, dispatches, failures, cleanups, completions,
    cancellations and ledger traffic, free permits, reservations, jobs and
    pending cleanups add up to [max_workers + max_queue]; so jobs and
    reservations never exceed it, and once they are all gone every permit is
    free again. *)
Theorem queue_capacity_exact l commit p pend
  (Hl : ledger_inv l) (Hs : rtc port_step (fresh_port l commit, []) (p, pend)) :
  capacity p + size (capacity_reservations p) + length (jobs p) + permits_pending p pend = total /\
  length (jobs p) + size (capacity_reservations p) <= total /\
  (jobs p = [] -> capacity_reservations p = ∅ -> pend = [] -> capacity p = total).
Proof.
  pose proof (port_steps_inv _ _ Hs (fresh_port_inv l commit Hl)) as Hi. cbn in Hi.
  pose proof (pi_permits _ _ Hi) as E. rewrite (pi_total _ _ Hi) in E.
  split; [done|]. split; [lia|]. intros Ej Er ->. rewrite Ej, Er in E. cbn in E.
  rewrite size_empty in E. lia.
Qed.

(** the bounded semaphore is never over-released: in every reachable state
    releasing a reservation, finishing a job and cleaning up a failed dispatch
    return normally, and a dispatch that is acknowledged has durably moved its
    execution to QUEUED and registered its job. *)
Theorem queue_operations_safe l commit p pend
  (Hl : ledger_inv l) (Hs : rtc port_step (fresh_port l commit, []) (p, pend)) :
  (forall id, (release_capacity_reservation id p).2 = Ok tt) /\
  (forall loc a b, pend = (a ++ loc :: b)%list -> (dispatch_cleanup loc p).2 = Ok tt) /\
  (forall eid id, (forall j, od_get eid (jobs p) = Some j -> job_id j = id -> future j = true) ->
     (_finish_job eid id p).2 = Ok tt) /\
  (forall eid iid bundle now io submitted p' loc,
     dispatch_publish eid iid bundle now io submitted p = (p', loc, Ok tt) ->
     exists r, get_by_execution_id eid (port_ledger p') = Some r /\ lr_status r = "QUEUED").
Proof.
  pose proof (port_steps_inv _ _ Hs (fresh_port_inv l commit Hl)) as Hi. cbn in Hi.
  split; [|split; [|split]].
  - intros id. destruct (release_capacity_reservation id p) as [p' r] eqn:E.
    by destruct (release_inv _ _ _ _ _ Hi E).
  - intros loc a b ->. destruct (dispatch_cleanup loc p) as [p' r] eqn:E.
    by destruct (cleanup_inv _ _ _ _ _ _ Hi E).
  - intros eid id Hf. destruct (_finish_job eid id p) as [p' r] eqn:E.
    by destruct (finish_inv _ _ _ _ _ _ Hi Hf E).
  - intros eid iid bundle now io submitted p' loc E.
    by destruct (publish_inv _ _ _ _ _ _ _ _ _ _ _ Hi E) as [(_ & _ & ?)|(? & ? & _)].
Qed.
End DispatchInv.
