(* ===== verification/DispatchSettle.v ===== *)
(** * How executions settle

    The worker queue records every failure as a transition to [FAILED],
    [TIMED_OUT] or [CANCELLED] with an error document.  Such a transition is
    always admissible: from a nonterminal record it either succeeds or poisons
    the ledger.  From this follow what [_run_job], [cancel] and
    [recover_orphans] leave behind, and what a worker result must satisfy to be
    recorded. *)

From stdpp Require Import relations.
From S2P Require Import Prelude PyFloat Json JsonText Text Sha256 Errors Canonical LedgerRecord Ledger LedgerInv LedgerSystem Dispatch.
Open Scope string_scope.
Open Scope py_scope.

Definition FAILURE_STATUSES : list string := ["FAILED"; "TIMED_OUT"; "CANCELLED"].

(** The record a failure leaves *)
Definition failed_record (r : LedgerRecord) (st now : string) (e : odict json) : LedgerRecord :=
  replace_status r st now (None, None, Some e).

(** The record a worker's document leaves *)
Definition recorded (r : LedgerRecord) (result : odict json) (now : string) : LedgerRecord :=
  replace_status r (to_str (jget "status" result)) now
    (to_opt_str (jget "receipt_digest" result), to_opt_obj (jget "receipt" result), to_opt_obj (jget "error" result)).

(** The append of a record's line cannot fail. *)
Definition append_ok (io : append_outcome) (r : LedgerRecord) (l : IdempotencyLedger) : Prop :=
  persistence l = None \/ (io = AppendOk /\ encodable (record_line r) = true).

Section Settle.
Context `{SchemaValidator}.

Lemma replace_status_snapshot r st now art :
  _validate_snapshot_schema (JObj (to_dict r)) = Ok (to_dict r) ->
  st ∈ KNOWN_STATUSES -> now <> EmptyString -> art.1.1 <> Some EmptyString ->
  let r' := replace_status r st now art in
  _validate_snapshot_schema (JObj (to_dict r')) = Ok (to_dict r').
Proof.
  intros Hs Hk Hn Ha. cbn zeta. set (r' := replace_status _ _ _ _).
  assert (J : forall f, str_in f ["status"; "updated_at"; "receipt_digest"; "terminal_receipt"; "error"] = false ->
                jget f (to_dict r') = jget f (to_dict r)).
  { intros f Hf. unfold jget, to_dict, r'. cbn [od_get].
    repeat match goal with |- context [String.eqb f ?k] =>
      destruct (String.eqb_spec f k) as [->|]; [first [discriminate Hf|reflexivity]|] end. reflexivity. }
  assert (S : forall f t, jget f (to_dict r') = JStr t -> t <> EmptyString ->
              require_string_field (to_dict r') f = Ok tt).
  { intros f t E Ht. unfold require_string_field, _require_nonempty_string. rewrite E.
    by destruct (String.eqb_spec t EmptyString). }
  assert (SJ : forall f, str_in f ["status"; "updated_at"; "receipt_digest"; "terminal_receipt"; "error"] = false ->
     require_string_field (to_dict r') f = require_string_field (to_dict r) f).
  { intros f Hf. unfold require_string_field. by rewrite J. }
  unfold _validate_snapshot_schema in *.
  match goal with |- context [require ?b ?e] => assert (K : b = true) by reflexivity; rewrite K; clear K end.
  cbn [require rbind].
  rewrite !rbind_unit_Ok in Hs. destruct Hs as (_ & Hf & Hs).
  rewrite (J "admission_record"), (J "intent_id"), (J "intent_digest"), (J "execution_id"),
    (J "authenticated_subject_id"), (J "intent"), (J "operation") by reflexivity.
  rewrite rbind_unit_Ok. split.
  { rewrite !rforall_Ok, !Forall_cons in *. destruct Hf as (H1 & H2 & H3 & H4 & H5 & H6 & _).
    rewrite !SJ by reflexivity. repeat split; try done. by apply (S "updated_at" now). }
  change (jget "status" (to_dict r')) with (JStr st).
  unfold _require_nonempty_string at 1.
  destruct (String.eqb_spec st EmptyString) as [->|]; [by apply str_in_elem in Hk|].
  cbn [negb require rbind]. rewrite (proj2 (str_in_elem _ _) Hk). cbn [require rbind].
  apply rbind_Ok in Hs as (st0 & _ & Hs). apply rbind_unit_Ok in Hs as [_ Hs].
  destruct (jget "admission_record" (to_dict r)); try done.
  rewrite !rbind_unit_Ok in *. destruct Hs as (Ho & Hd & H1 & H2 & H3 & _).
  split; [|split; [|done]].
  - rewrite !rforall_Ok, !Forall_cons in *. destruct Ho as (_ & Ho2 & Ho3 & _).
    split; [|unfold require_optional_string in *; rewrite <- !J, <- !SJ in Ho2, Ho3 by reflexivity; done].
    destruct art as [[[rd|] tr] er]; [|done]. cbn [fst] in Ha.
    unfold require_optional_string. cbn [is_none]. apply (S "receipt_digest" rd); [done|by intros ->].
  - rewrite !rforall_Ok, !Forall_cons in *. destruct Hd as (_ & _ & Hd3 & _).
    split; [by destruct art as [[? []] ?]|]. split; [by destruct art as [? []]|].
    unfold require_optional_object in *. by rewrite <- !J in Hd3 by reflexivity.
Qed.

Lemma failure_status_facts st :
  st ∈ FAILURE_STATUSES ->
  st ∈ KNOWN_STATUSES /\ st ∈ TERMINAL_STATUSES /\
  str_in st NONTERMINAL_STATUSES = false /\ String.eqb st "COMPLETED" = false.
Proof.
  unfold FAILURE_STATUSES. rewrite !elem_of_cons, elem_of_nil.
  intros [->|[->|[->|[]]]]; repeat split; try apply str_in_elem; reflexivity.
Qed.

Lemma failed_record_ok ex r st now e :
  record_ok ex r -> st ∈ FAILURE_STATUSES -> now <> EmptyString -> e <> [] ->
  record_ok ex (failed_record r st now e).
Proof.
  intros [Hs _] Hst Hn He. destruct (failure_status_facts st Hst) as (Hk & _ & Hnt & Hc).
  split; [by apply replace_status_snapshot|]. unfold _validate_terminal_invariants.
  change (lr_status (failed_record r st now e)) with st. rewrite Hnt, Hc.
  apply str_in_elem in Hst. unfold FAILURE_STATUSES in Hst. rewrite Hst. by destruct e.
Qed.

Lemma nonterminal_known s : s ∈ NONTERMINAL_STATUSES -> str_in s KNOWN_STATUSES = true.
Proof. intros Hs. apply str_in_elem. unfold KNOWN_STATUSES. apply elem_of_app. by left. Qed.

Lemma nonterminal_legal s st :
  s ∈ NONTERMINAL_STATUSES -> st ∈ FAILURE_STATUSES -> str_in st (_LEGAL_TRANSITIONS s) = true.
Proof.
  unfold NONTERMINAL_STATUSES, FAILURE_STATUSES. rewrite !elem_of_cons, !elem_of_nil.
  intros [->|[->|[->|[]]]] [->|[->|[->|[]]]]; reflexivity.
Qed.

Lemma history_settled r st now art :
  lr_status r ∈ NONTERMINAL_STATUSES -> str_in st (_LEGAL_TRANSITIONS (lr_status r)) = true ->
  str_in st NONTERMINAL_STATUSES = false -> _validate_history_transition r (replace_status r st now art) = Ok tt.
Proof.
  intros Hr Hl Hst. apply validate_history_Ok. split.
  - repeat (apply Forall_cons_2; [apply obj_eq_refl|]). constructor.
  - rewrite (nonterminal_not_terminal _ Hr). cbn [orb lr_status replace_status].
    destruct (String.eqb_spec (lr_status r) st) as [E|].
    + apply str_in_elem in Hr. rewrite E in Hr. congruence.
    + by apply str_in_elem.
Qed.

(** ** Failing an execution *)

Lemma lookup_of_get exec l r :
  ledger_inv l -> get_by_execution_id exec l = Some r ->
  lookup_execution exec l = Ok (lr_intent_id r, r) /\ lr_execution_id r = exec /\
  record_ok (expected_producer_commit l) r /\ od_get (lr_intent_id r) (by_intent_id l) = Some r.
Proof.
  intros Hi. unfold get_by_execution_id, lookup_execution.
  destruct (by_execution_id l !! exec) as [k|] eqn:E; [|done].
  destruct (String.eqb k EmptyString); [done|]. intros G. rewrite G.
  destruct (inv_record _ Hi _ _ G) as (-> & _ & _ & Hok).
  destruct (inv_exec _ Hi _ _ E) as (r0 & G0 & E0). rewrite G in G0. injection G0 as <-. done.
Qed.

Lemma transitioned_get eid l r r' :
  ledger_inv l -> get_by_execution_id (lr_execution_id r) l = Some r ->
  get_by_execution_id eid (transitioned_state (lr_intent_id r) r' l) =
  if String.eqb eid (lr_execution_id r) then Some r' else get_by_execution_id eid l.
Proof.
  intros Hi G. destruct (lookup_of_get _ _ _ Hi G) as (_ & _ & _ & Gi). revert G.
  unfold get_by_execution_id. cbn. destruct (String.eqb_spec eid (lr_execution_id r)) as [->|Hne].
  - destruct (by_execution_id l !! _) as [k|]; [|done]. destruct (String.eqb k EmptyString); [done|].
    intros G. destruct (inv_record _ Hi _ _ G) as (<- & _). by rewrite od_get_set_eq.
  - intros _. destruct (by_execution_id l !! eid) as [k|] eqn:E; [|done].
    destruct (String.eqb k EmptyString); [done|]. rewrite od_get_set_ne; [done|]. intros ->.
    destruct (inv_exec _ Hi _ _ E) as (r0 & G0 & E0). rewrite Gi in G0. by injection G0 as <-.
Qed.

(** A legal settlement of a nonterminal execution is recorded, unless its append
    poisons the ledger. *)
Lemma settle_transition exec exp st rd tr er art now io l r :
  ledger_inv l -> poisoned_reason l = None -> get_by_execution_id exec l = Some r ->
  lr_status r ∈ exp -> forallb (fun s => str_in s KNOWN_STATUSES) exp = true ->
  lr_status r ∈ NONTERMINAL_STATUSES -> st ∈ KNOWN_STATUSES -> str_in st NONTERMINAL_STATUSES = false ->
  str_in st (_LEGAL_TRANSITIONS (lr_status r)) = true -> next_artifacts st rd tr er = Ok art ->
  let r' := replace_status r st now art in
  let out := transition_execution exec exp st rd tr er now io l in
  record_ok (expected_producer_commit l) r' ->
  (out = (transitioned_state (lr_intent_id r) r' l, Ok (Some r')) \/
   (~ append_ok io r' l /\ exists x, out.2 = Raise x /\ poisoned_reason out.1 = Some x)).
Proof.
  intros Hi Hp G Hx Hk Hn Hks Hnt Hl A. cbn zeta. intros [V T].
  destruct (lookup_of_get _ _ _ Hi G) as (L & Ee & Hok & Gi).
  pose proof (history_settled r st now art Hn Hl Hnt) as Hh.
  unfold transition_execution, mrequire, mlift, mbind, mget, mret, _raise_if_poisoned.
  rewrite (proj2 (str_in_elem _ _) Hks), Hk, Hp.
  replace (match exp with [] => false | _ => true end) with true
    by (destruct exp; [by apply elem_of_nil in Hx|done]).
  cbn [andb require]. rewrite L. cbn [fst snd].
  rewrite (proj2 (str_in_elem _ _) Hx), (nonterminal_not_terminal _ Hn). cbn [negb].
  replace (String.eqb (lr_status r) st) with false
    by (destruct (String.eqb_spec (lr_status r) st) as [E|]; [apply str_in_elem in Hn; congruence|done]).
  rewrite Hl. cbn [andb require]. rewrite A, V, T, Hh.
  destruct (_persist_or_poison io (replace_status r st now art) None l) as [l1 res] eqn:P.
  apply persist_cases in P as Pc. destruct Pc as [(-> & -> & _)|(x & -> & ->)]; [by left|right].
  split; [|by exists x].
  intros [Hm|[-> Hen]]; revert P; unfold _persist_or_poison, mon_error, _persist_append.
  - by rewrite Hm.
  - destruct (persistence l); [by rewrite Hen|done].
Qed.

(** A settlement whose record the ledger's rules refuse raises and changes nothing. *)
Lemma settle_rejected exec exp st rd tr er art now io l r :
  ledger_inv l -> poisoned_reason l = None -> get_by_execution_id exec l = Some r ->
  lr_status r ∈ exp -> forallb (fun s => str_in s KNOWN_STATUSES) exp = true ->
  lr_status r ∈ NONTERMINAL_STATUSES -> st ∈ KNOWN_STATUSES -> str_in st NONTERMINAL_STATUSES = false ->
  str_in st (_LEGAL_TRANSITIONS (lr_status r)) = true -> next_artifacts st rd tr er = Ok art ->
  ~ record_ok (expected_producer_commit l) (replace_status r st now art) ->
  exists x, transition_execution exec exp st rd tr er now io l = (l, Raise x).
Proof.
  intros Hi Hp G Hx Hk Hn Hks Hnt Hl A No. destruct (lookup_of_get _ _ _ Hi G) as (L & _).
  unfold transition_execution, mrequire, mlift, mbind, mget, mret, _raise_if_poisoned.
  rewrite (proj2 (str_in_elem _ _) Hks), Hk, Hp.
  replace (match exp with [] => false | _ => true end) with true
    by (destruct exp; [by apply elem_of_nil in Hx|done]).
  cbn [andb require]. rewrite L. cbn [fst snd].
  rewrite (proj2 (str_in_elem _ _) Hx), (nonterminal_not_terminal _ Hn). cbn [negb].
  replace (String.eqb (lr_status r) st) with false
    by (destruct (String.eqb_spec (lr_status r) st) as [E|]; [apply str_in_elem in Hn; congruence|done]).
  rewrite Hl. cbn [andb require]. rewrite A.
  destruct (_validate_snapshot_schema _) as [d|x] eqn:V; [|by exists x].
  destruct (_validate_terminal_invariants _ _) as [[]|x] eqn:T; [|by exists x].
  destruct No. split; [|exact T]. pose proof (validate_snapshot_same _ _ V) as [= <-]. exact V.
Qed.

Lemma fail_transition exec exp st e now io l r :
  ledger_inv l -> poisoned_reason l = None -> get_by_execution_id exec l = Some r ->
  lr_status r ∈ exp -> forallb (fun s => str_in s KNOWN_STATUSES) exp = true ->
  lr_status r ∈ NONTERMINAL_STATUSES -> st ∈ FAILURE_STATUSES -> now <> EmptyString -> e <> [] ->
  let r' := failed_record r st now e in
  let out := transition_execution exec exp st None None (Some e) now io l in
  (out = (transitioned_state (lr_intent_id r) r' l, Ok (Some r')) \/
   (~ append_ok io r' l /\ exists x, out.2 = Raise x /\ poisoned_reason out.1 = Some x)).
Proof.
  intros Hi Hp G Hx Hk Hn Hst Hnow He. destruct (lookup_of_get _ _ _ Hi G) as (_ & _ & Hok & _).
  destruct (failure_status_facts st Hst) as (Hks & _ & Hnt & Hc).
  apply settle_transition; try done; [by apply nonterminal_legal| |by apply failed_record_ok].
  unfold next_artifacts. rewrite Hc. apply str_in_elem in Hst. unfold FAILURE_STATUSES in Hst. by rewrite Hst.
Qed.

(** ** Recovery of orphans *)

(** What recovery makes of a record *)
Definition recovered (active : list string) (now : string) (r : LedgerRecord) : LedgerRecord :=
  if is_nonterminal r && negb (str_in (lr_execution_id r) active)
  then failed_record r "FAILED" now orphaned_error else r.

Definition orphans (active : list string) (rs : list LedgerRecord) : list LedgerRecord :=
  List.filter (fun r => negb (str_in (lr_execution_id r) active)) rs.

Lemma transition_raise_or exec exp st rd tr err now io p p' res :
  on_ledger (transition_execution exec exp st rd tr err now io) p = (p', res) ->
  exists l', transition_execution exec exp st rd tr err now io (port_ledger p) = (l', res) /\
             p' = set_port_ledger l' p.
Proof.
  unfold on_ledger. destruct (transition_execution _ _ _ _ _ _ _ _ _). intros [= <- <-]. eauto.
Qed.

Lemma poisoned_transition exec exp st rd tr err now io l e :
  poisoned_reason l = Some e -> forall x, (transition_execution exec exp st rd tr err now io l).2 <> Ok x.
Proof.
  intros Hp x. unfold transition_execution, mrequire, mlift, mbind.
  destruct (str_in st KNOWN_STATUSES); [|done]. cbn [require].
  destruct (andb _ _); [|done]. cbn [require]. by rewrite (poisoned_raise _ _ Hp).
Qed.

Lemma recover_records_spec active now rs : forall ios n p p' n',
  ledger_inv (port_ledger p) -> now <> EmptyString ->
  NoDup (map lr_execution_id rs) ->
  (forall r, r ∈ rs -> get_by_execution_id (lr_execution_id r) (port_ledger p) = Some r /\
                       is_nonterminal r = true) ->
  recover_records active rs now ios n p = (p', Ok n') ->
  n' = (n + length (orphans active rs))%nat /\ jobs p' = jobs p /\ ledger_inv (port_ledger p') /\
  forall eid, get_by_execution_id eid (port_ledger p') =
    if str_in eid (map lr_execution_id rs)
    then recovered active now <$> get_by_execution_id eid (port_ledger p)
    else get_by_execution_id eid (port_ledger p).
Proof.
  induction rs as [|r rs IH]; intros ios n p p' n' Hi Hnow Hnd Hr; cbn [recover_records].
  { intros [= <- <-]. split; [unfold orphans; cbn [List.filter length]; lia|]. done. }
  cbn [map] in Hnd. apply NoDup_cons in Hnd as [Hni Hnd].
  destruct (Hr r) as [G Hn]; [by left|].
  unfold orphans. cbn [List.filter]. destruct (str_in (lr_execution_id r) active) eqn:Ha; cbn [negb].
  { intros E. destruct (IH _ _ _ _ _ Hi Hnow Hnd (fun x Hx => Hr x (list_elem_of_further _ _ _ Hx)) E)
      as (-> & Ej & Hi' & Hg).
    repeat (split; [done|]). intros eid. rewrite Hg. cbn [map]. unfold str_in at 2. cbn [existsb].
    fold (str_in eid (map lr_execution_id rs)).
    destruct (String.eqb_spec eid (lr_execution_id r)) as [->|]; cbn [orb]; [|done].
    rewrite G. cbn. unfold recovered. rewrite Ha, andb_false_r. by case_match. }
  set (io := match ios with io :: _ => io | [] => AppendOk end).
  unfold mbind at 1.
  destruct (on_ledger _ p) as [p1 [t|x]] eqn:T; [|done].
  apply transition_raise_or in T as (l1 & T & ->).
  destruct (poisoned_reason (port_ledger p)) as [x|] eqn:Hp.
  { exfalso. by apply (poisoned_transition (lr_execution_id r) [lr_status r] "FAILED" None None
      (Some orphaned_error) now io _ _ Hp t); rewrite T. }
  assert (Hst : lr_status r ∈ NONTERMINAL_STATUSES) by by apply str_in_elem.
  assert (F : transition_execution (lr_execution_id r) [lr_status r] "FAILED" None None
      (Some orphaned_error) now io (port_ledger p) =
    (transitioned_state (lr_intent_id r) (failed_record r "FAILED" now orphaned_error) (port_ledger p),
     Ok (Some (failed_record r "FAILED" now orphaned_error)))).
  { destruct (fail_transition (lr_execution_id r) [lr_status r] "FAILED" orphaned_error now io
      (port_ledger p) r) as [F|(_ & x & E & _)]; try done.
    - by left.
    - cbn [forallb]. rewrite andb_true_r. by apply nonterminal_known.
    - by left.
    - rewrite T in E. done. }
  rewrite F in T. injection T as <- <-.
  set (r' := failed_record r "FAILED" now orphaned_error) in *.
  intros E. apply IH in E as (-> & Ej & Hi' & Hg); try done.
  - cbn in Ej. split; [unfold orphans; cbn [length]; lia|]. split; [done|]. split; [done|]. intros eid. rewrite Hg. cbn [map].
    unfold str_in at 2. cbn [existsb]. fold (str_in eid (map lr_execution_id rs)).
    cbn [port_ledger set_port_ledger]. rewrite transitioned_get by done.
    destruct (String.eqb_spec eid (lr_execution_id r)) as [->|]; cbn [orb]; [|done].
    assert (Q : str_in (lr_execution_id r) (map lr_execution_id rs) = false)
      by (apply not_true_iff_false; by rewrite str_in_elem).
    rewrite Q, G. cbn. unfold recovered. by rewrite Hn, Ha.
  - cbn. eapply ledger_step_inv; [|exact Hi]. by eapply step_transition.
  - intros r0 Hr0. destruct (Hr r0) as [G0 Hn0]; [by right|]. split; [|done].
    cbn. rewrite transitioned_get by done.
    destruct (String.eqb_spec (lr_execution_id r0) (lr_execution_id r)) as [Ee|]; [|done].
    exfalso. apply Hni. rewrite <- Ee. by apply (list_elem_of_fmap_2 lr_execution_id).
Qed.

Lemma recover_records_total active now rs : forall ios n p,
  ledger_inv (port_ledger p) -> now <> EmptyString -> NoDup (map lr_execution_id rs) ->
  (forall r, r ∈ rs -> get_by_execution_id (lr_execution_id r) (port_ledger p) = Some r /\
                       is_nonterminal r = true) ->
  poisoned_reason (port_ledger p) = None ->
  persistence (port_ledger p) = None \/
    (Forall (eq AppendOk) ios /\
     forall r, r ∈ rs -> encodable (record_line (failed_record r "FAILED" now orphaned_error)) = true) ->
  exists p' m, recover_records active rs now ios n p = (p', Ok m).
Proof.
  induction rs as [|r rs IH]; intros ios n p Hi Hnow Hnd Hr Hp Ha; cbn [recover_records].
  { by eexists _, _. }
  cbn [map] in Hnd. apply NoDup_cons in Hnd as [Hni Hnd].
  destruct (Hr r) as [G Hn]; [by left|].
  destruct (str_in (lr_execution_id r) active) eqn:Hact.
  { apply IH; try done.
    - intros r0 Hr0. apply Hr. by right.
    - destruct Ha as [?|[? He]]; [by left|right]. split; [done|]. intros r0 Hr0. apply He. by right. }
  set (io := match ios with io :: _ => io | [] => AppendOk end).
  set (r' := failed_record r "FAILED" now orphaned_error).
  assert (Hst : lr_status r ∈ NONTERMINAL_STATUSES) by by apply str_in_elem.
  assert (F : transition_execution (lr_execution_id r) [lr_status r] "FAILED" None None
      (Some orphaned_error) now io (port_ledger p) =
    (transitioned_state (lr_intent_id r) r' (port_ledger p), Ok (Some r'))).
  { destruct (fail_transition (lr_execution_id r) [lr_status r] "FAILED" orphaned_error now io
      (port_ledger p) r) as [F|[X _]]; try done; [by left| |by left|].
    - cbn [forallb]. rewrite andb_true_r. by apply nonterminal_known.
    - exfalso. apply X. destruct Ha as [?|[Hf He]]; [by left|right]. split; [|apply He; by left].
      unfold io. by destruct Hf. }
  unfold mbind at 1, on_ledger at 1. rewrite F.
  assert (S : ledger_step (port_ledger p) (transitioned_state (lr_intent_id r) r' (port_ledger p)))
    by (by eapply step_transition).
  apply IH; try done.
  - by eapply ledger_step_inv.
  - intros r0 Hr0. destruct (Hr r0) as [G0 Hn0]; [by right|]. split; [|done].
    cbn. rewrite transitioned_get by done.
    destruct (String.eqb_spec (lr_execution_id r0) (lr_execution_id r)) as [Ee|]; [|done].
    exfalso. apply Hni. rewrite <- Ee. by apply (list_elem_of_fmap_2 lr_execution_id).
  - destruct Ha as [E|[Hf He]]; [left; cbn; by rewrite E|right].
    split; [by destruct Hf|]. intros r0 Hr0. apply He. by right.
Qed.

(** The nonterminal records, as [list_nonterminal_records] returns them *)
Definition nonterminal_records (l : IdempotencyLedger) : list LedgerRecord :=
  filter is_nonterminal (od_values (by_intent_id l)).

Lemma list_nonterminal_eq l :
  list_nonterminal_records l =
  match poisoned_reason l with
  | Some _ => (l, Raise (RuntimeErr "Idempotency ledger is fail-closed"))
  | None => (l, Ok (nonterminal_records l))
  end.
Proof.
  unfold list_nonterminal_records, list_records, mbind, _raise_if_poisoned.
  by destruct (poisoned_reason l).
Qed.

Lemma values_nodup {V K} (f : V -> K) (back : K -> option string) (d : odict V) :
  od_wf d -> (forall k v, (k, v) ∈ d -> back (f v) = Some k) -> NoDup (map f (od_values d)).
Proof.
  unfold od_wf, od_keys, od_values. induction d as [|[k v] d IH]; cbn; [constructor|].
  intros [Hn Hd]%NoDup_cons Hb. constructor.
  - intros (v' & E & Hin)%list_elem_of_fmap. apply list_elem_of_fmap in Hin as ([k' w] & -> & Hin).
    cbn in E. assert (back (f w) = Some k') as B' by (apply Hb; by right).
    rewrite <- E, (Hb k v) in B' by left. injection B' as <-.
    apply Hn. by apply (list_elem_of_fmap_2 fst) in Hin.
  - apply IH; [done|]. intros. apply Hb. by right.
Qed.

Lemma nodup_filter {A B} (f : A -> B) (t : A -> bool) l :
  NoDup (map f l) -> NoDup (map f (filter t l)).
Proof.
  induction l as [|a l IH]; [done|]. cbn [map]. intros [Hn Hd]%NoDup_cons.
  rewrite filter_cons. case_decide; cbn [map]; [|auto]. constructor; [|auto].
  intros (b & E & Hin)%list_elem_of_fmap. apply Hn. rewrite E.
  apply (list_elem_of_fmap_2 f). by apply list_elem_of_filter in Hin as [_ Hin].
Qed.

Lemma nonterminal_records_spec l :
  ledger_inv l ->
  NoDup (map lr_execution_id (nonterminal_records l)) /\
  (forall r, r ∈ nonterminal_records l <->
     is_nonterminal r = true /\ get_by_execution_id (lr_execution_id r) l = Some r).
Proof.
  intros Hi. split.
  - apply nodup_filter, (values_nodup _ (fun e => by_execution_id l !! e)); [apply Hi|].
    intros k r Hin. apply (inv_record _ Hi). apply od_In_get; [apply Hi|done].
  - intros r. unfold nonterminal_records. rewrite list_elem_of_filter, Is_true_true. apply and_iff_compat_l. split.
    + intros ([k r0] & -> & Hin)%list_elem_of_fmap. cbn.
      apply od_In_get in Hin; [|apply Hi].
      destruct (inv_record _ Hi _ _ Hin) as (Ek & _ & Ee & [Hok _]).
      unfold get_by_execution_id. rewrite Ee.
      apply validate_snapshot_fields in Hok as (Hs & _).
      destruct (Hs "intent_id") as (s & E & Hne); [by apply str_in_elem|].
      assert (s = k) as -> by (cbn in E; rewrite Ek in E; congruence).
      by destruct (String.eqb_spec k EmptyString).
    + intros G. destruct (lookup_of_get _ _ _ Hi G) as (_ & _ & _ & Gi).
      apply od_get_In in Gi. by apply (list_elem_of_fmap_2 snd) in Gi.
Qed.

(** ** Transitions of a live execution *)

Lemma transition_not_none exec exp st rd tr err now io l r :
  ledger_inv l -> get_by_execution_id exec l = Some r ->
  lr_status r ∈ exp -> lr_status r ∈ NONTERMINAL_STATUSES ->
  (transition_execution exec exp st rd tr err now io l).2 <> Ok None.
Proof.
  intros Hi G Hx Hn. destruct (lookup_of_get _ _ _ Hi G) as (L & _).
  unfold transition_execution, mrequire, mlift, _raise_if_poisoned, mret. unfold mbind at 1.
  destruct (require _ _); [|done]. unfold mbind at 1. destruct (require _ _); [|done].
  unfold mbind at 1. destruct (poisoned_reason l); [done|]. unfold mbind at 1, mget. unfold mbind at 1.
  rewrite L. cbn [fst snd]. rewrite (proj2 (str_in_elem _ _) Hx), (nonterminal_not_terminal _ Hn).
  cbn [negb]. destruct (_ && _); [done|].
  unfold mbind at 1. destruct (require _ _); [|done]. unfold mbind at 1.
  destruct (next_artifacts _ _ _ _) as [art|]; [|done]. unfold mbind at 1.
  destruct (_validate_snapshot_schema _); [|done]. unfold mbind at 1.
  destruct (_validate_terminal_invariants _ _); [|done]. unfold mbind at 1.
  destruct (_validate_history_transition _ _); [|done]. unfold mbind at 1.
  by destruct (_persist_or_poison io _ None l) as [l1 [[]|]].
Qed.

(** A result that passes validation has a terminal status. *)
Lemma valid_result_terminal producer bundle raw result :
  _validate_terminal_result producer bundle raw = Ok result ->
  raw = JObj result /\ exists st, jget "status" result = JStr st /\ st ∈ TERMINAL_STATUSES.
Proof.
  unfold _validate_terminal_result. destruct raw as [| | | | | |d]; try done.
  rewrite !rbind_Ok. intros (? & _ & H0). rewrite !rbind_Ok in H0. destruct H0 as (? & _ & H0).
  rewrite !rbind_Ok in H0. destruct H0 as (? & _ & H0).
  rewrite !rbind_unit_Ok in H0. destruct H0 as (_ & _ & _ & H0).
  rewrite rbind_Ok in H0. destruct H0 as (t & Ht & H0).
  rewrite !rbind_unit_Ok in H0. destruct H0 as (Hr & _ & [= ->]). split; [done|].
  apply require_Ok in Hr as ->. unfold status_in in Ht. destruct (jget "status" result); try done.
  exists s. split; [done|]. apply str_in_elem. congruence.
Qed.

(** A terminal execution reads the same for ever. *)
Lemma get_terminal_forever eid l l' r :
  ledger_inv l -> rtc ledger_step l l' -> get_by_execution_id eid l = Some r ->
  lr_status r ∈ TERMINAL_STATUSES -> get_by_execution_id eid l' = Some r.
Proof.
  intros Hi Hs G Ht. destruct (lookup_of_get _ _ _ Hi G) as (_ & <- & _ & Gi).
  destruct (ledger_steps_record _ _ _ _ Hs Hi Gi) as (r' & G' & S).
  apply terminal_no_step in S as ->; [|done].
  assert (Hi' : ledger_inv l') by by eapply ledger_steps_inv.
  destruct (inv_record _ Hi' _ _ G') as (_ & _ & Ee & _). revert G. unfold get_by_execution_id.
  destruct (by_execution_id l !! _) as [k|] eqn:E; [|done].
  destruct (inv_record _ Hi _ _ Gi) as (_ & _ & E2 & _). rewrite E in E2. injection E2 as ->.
  rewrite Ee. by destruct (String.eqb _ EmptyString).
Qed.

(** ** Properties *)

(** recovery is complete.  When it returns, exactly the nonterminal
    executions this process does not own are FAILED with the orphan error, all
    other records are unchanged, and the count is their number; and it does
    return unless an append fails. *)
Theorem recover_orphans_complete now ios p
  (Hi : ledger_inv (port_ledger p)) (Hnow : now <> EmptyString) :
  let active := od_keys (jobs p) in
  (forall p' n, recover_orphans now ios p = (p', Ok n) ->
     (forall eid, get_by_execution_id eid (port_ledger p') =
                  recovered active now <$> get_by_execution_id eid (port_ledger p)) /\
     n = length (orphans active (nonterminal_records (port_ledger p))) /\
     jobs p' = jobs p) /\
  (poisoned_reason (port_ledger p) = None ->
   persistence (port_ledger p) = None \/
     (Forall (eq AppendOk) ios /\
      forall r, r ∈ nonterminal_records (port_ledger p) ->
        encodable (record_line (failed_record r "FAILED" now orphaned_error)) = true) ->
   exists p' n, recover_orphans now ios p = (p', Ok n)).
Proof.
  cbn zeta. destruct (nonterminal_records_spec _ Hi) as [Hnd Hs].
  assert (Hr : forall r, r ∈ nonterminal_records (port_ledger p) ->
     get_by_execution_id (lr_execution_id r) (port_ledger p) = Some r /\ is_nonterminal r = true).
  { intros r [? ?]%Hs. done. }
  assert (E : recover_orphans now ios p =
    match poisoned_reason (port_ledger p) with
    | Some _ => (p, Raise (RuntimeErr "Idempotency ledger is fail-closed"))
    | None => recover_records (od_keys (jobs p)) (nonterminal_records (port_ledger p)) now ios 0 p
    end).
  { unfold recover_orphans, on_ledger. unfold mbind at 1, mget. unfold mbind at 1.
    rewrite list_nonterminal_eq. clear. destruct p as [l]. cbn [port_ledger]. by destruct (poisoned_reason l). }
  rewrite E. split.
  - intros p' n. destruct (poisoned_reason _); [done|]. intros R.
    destruct (recover_records_spec _ _ _ _ _ _ _ _ Hi Hnow Hnd Hr R) as (-> & Ej & _ & Hg).
    split; [|done]. intros eid. rewrite Hg. destruct (str_in eid _) eqn:Q; [done|].
    destruct (get_by_execution_id eid (port_ledger p)) as [r|] eqn:G; [|done]. cbn.
    unfold recovered. destruct (is_nonterminal r) eqn:Hn; [|done].
    exfalso. apply not_true_iff_false in Q. apply Q, str_in_elem.
    destruct (lookup_of_get _ _ _ Hi G) as (_ & <- & _).
    apply (list_elem_of_fmap_2 lr_execution_id), Hs. done.
  - intros Hp. rewrite Hp. by apply recover_records_total.
Qed.

Lemma cancel_cases eid now io p p' res r
  (Hi : ledger_inv (port_ledger p)) (Hnow : now <> EmptyString)
  (Hg : get_by_execution_id eid (port_ledger p) = Some r)
  (Hc : cancel eid now io p = (p', res)) :
  (lr_status r ∈ TERMINAL_STATUSES /\ p' = p /\ res = Ok None) \/
  ((lr_status r ∉ TERMINAL_STATUSES) /\ poisoned_reason (port_ledger p') <> None /\
   exists e, res = Raise e) \/
  (let r' := failed_record r "CANCELLED" now cancelled_error in
   (lr_status r ∉ TERMINAL_STATUSES) /\ res = Ok (Some r') /\
   (forall j, od_get eid (jobs p') = Some j -> cancellation_requested j = true) /\
   forall l, rtc ledger_step (port_ledger p') l -> get_by_execution_id eid l = Some r').
Proof.
  revert Hc. unfold cancel, mbind, mget, mret, mraise. rewrite Hg.
  destruct (str_in (lr_status r) TERMINAL_STATUSES) eqn:T.
  { intros [= <- <-]. apply str_in_elem in T. by left. }
  assert (Tn : lr_status r ∉ TERMINAL_STATUSES) by (rewrite <- str_in_elem; congruence).
  destruct (lookup_of_get _ _ _ Hi Hg) as (_ & Ee & [Hok _] & _).
  assert (Hn : lr_status r ∈ NONTERMINAL_STATUSES).
  { apply validate_snapshot_fields in Hok as (_ & (st & E & Hk) & _).
    cbn in E. injection E as <-. unfold KNOWN_STATUSES in Hk. apply elem_of_app in Hk. tauto. }
  intros Hc. right. destruct (on_ledger _ p) as [p1 res1] eqn:L.
  apply transition_raise_or in L as (l1 & L & ->).
  destruct (poisoned_reason (port_ledger p)) as [x|] eqn:Hp.
  - left. destruct res1 as [o|x1].
    { exfalso. by apply (poisoned_transition eid NONTERMINAL_STATUSES "CANCELLED" None None
        (Some cancelled_error) now io _ _ Hp o); rewrite L. }
    injection Hc as <- <-. split; [done|]. split; [|by exists x1]. cbn.
    apply transition_cases in L as [[-> _]|(Hq & _)]; [by rewrite Hp|congruence].
  - destruct (fail_transition eid NONTERMINAL_STATUSES "CANCELLED" cancelled_error now io
      (port_ledger p) r Hi Hp Hg Hn eq_refl Hn) as [F|(_ & x & F1 & F2)]; try done.
    { apply str_in_elem. reflexivity. }
    + right. cbn zeta. split; [done|]. rewrite L in F. injection F as -> ->.
      set (r' := failed_record r "CANCELLED" now cancelled_error) in *.
      unfold signal_job, mmodify in Hc. injection Hc as <- <-.
      split; [done|]. split.
      * cbn. destruct (od_get eid (jobs p)) as [j|] eqn:J; cbn; intros j'; [|congruence].
        rewrite od_get_set_eq. by intros [= <-].
      * intros l Hs.
        assert (S1 : ledger_step (port_ledger p) (transitioned_state (lr_intent_id r) r' (port_ledger p)))
          by (by eapply step_transition).
        apply (get_terminal_forever _ (transitioned_state (lr_intent_id r) r' (port_ledger p)));
          [by eapply ledger_step_inv| |rewrite transitioned_get; [by rewrite Ee, String.eqb_refl|done|by rewrite Ee]|].
        -- revert Hs. cbn. by destruct (od_get eid (jobs p)).
        -- apply str_in_elem. reflexivity.
    + left. split; [done|]. rewrite L in F1, F2. cbn in F1, F2. subst res1.
      injection Hc as <- <-. cbn. split; [by rewrite F2|by exists x].
Qed.

(** a cancellation that succeeds is final.  From then on, whatever results
    still arrive, the execution stays CANCELLED with the cancellation error and
    no receipt, and its job is told to stop; a terminal execution is never
    cancelled; and a live one is cancelled unless the ledger fails. *)
Theorem cancel_is_final eid now io p p' res r
  (Hi : ledger_inv (port_ledger p)) (Hnow : now <> EmptyString)
  (Hg : get_by_execution_id eid (port_ledger p) = Some r)
  (Hc : cancel eid now io p = (p', res)) :
  (lr_status r ∈ TERMINAL_STATUSES /\ p' = p /\ res = Ok None) \/
  ((lr_status r ∉ TERMINAL_STATUSES) /\ poisoned_reason (port_ledger p') <> None /\
   exists e, res = Raise e) \/
  (let r' := failed_record r "CANCELLED" now cancelled_error in
   (lr_status r ∉ TERMINAL_STATUSES) /\ res = Ok (Some r') /\
   (forall j, od_get eid (jobs p') = Some j -> cancellation_requested j = true) /\
   forall l, rtc ledger_step (port_ledger p') l -> get_by_execution_id eid l = Some r').
Proof. by eapply cancel_cases. Qed.

(** [doc] carries every expected value. *)
Definition carries (doc : json) (expected : odict json) : Prop :=
  Forall (fun kv => exists v, attr_get doc kv.1 = Ok v /\ py_eq v kv.2 = true) expected.

Lemma no_mismatch doc expected : any_mismatch doc expected = Ok false <-> carries doc expected.
Proof.
  unfold any_mismatch, carries. rewrite rany_false. apply Forall_iff. intros kv. rewrite rbind_Ok.
  setoid_rewrite <- negb_false_iff. split; intros (v & E & Hv); exists v; (split; [done|]); congruence.
Qed.

Lemma py_eq_str_eqb s t : py_eq (JStr s) (JStr t) = String.eqb s t.
Proof. apply eq_iff_eq_true. rewrite py_eq_str, String.eqb_eq. naive_solver. Qed.

(** what the queue records of a completed run is bound to what was
    admitted.  A validated result has the bundle's execution, intent and
    operation; completed with a receipt, that receipt passes the schema, its
    digest is that of its canonical bytes, and its provenance and workload are
    the admitted ones with the port's build commit; any other terminal status
    carries a schema-valid error and no receipt. *)
Theorem worker_result_sound producer bundle raw result
  (Hv : _validate_terminal_result producer bundle raw = Ok result) :
  exists eid iid op st,
    bundle_path bundle "admission" "execution_id" = Ok eid /\
    bundle_path bundle "intent" "intent_id" = Ok iid /\
    bundle_path bundle "intent" "operation" = Ok op /\
    raw = JObj result /\ jget "status" result = JStr st /\ st ∈ TERMINAL_STATUSES /\
    py_eq (jget "execution_id" result) eid = true /\ py_eq (jget "intent_id" result) iid = true /\
    py_eq (jget "operation" result) op = true /\
    if String.eqb st "COMPLETED" then
      jget "dispatched" result = JBool true /\ jget "error" result = JNull /\
      if py_eq op (JStr "MATERIALIZE_DATASET") then
        jget "receipt" result = JNull /\ jget "receipt_digest" result = JNull
      else
        exists receipt bytes provenance workload,
          jget "receipt" result = JObj receipt /\ schema_accepts "receipt-lineage" (JObj receipt) = true /\
          canonicalize_jcs (JObj receipt) = Ok bytes /\
          jget "receipt_digest" result = JStr (sha256_digest bytes) /\
          expected_provenance bundle producer = Ok provenance /\
          carries (get_or_empty "provenance" receipt) provenance /\
          expected_receipt_workload bundle = Ok workload /\
          carries (get_or_empty "workload" receipt) workload
    else
      jget "receipt" result = JNull /\ jget "receipt_digest" result = JNull /\
      exists error, jget "error" result = JObj error /\ schema_accepts "preflight-error" (JObj error) = true.
Proof.
  assert (N : forall j, is_none j = true -> j = JNull) by by intros [].
  assert (SV : forall a d, schema_validate a d = Ok tt -> schema_accepts a d = true).
  { intros a d. unfold schema_validate. rewrite rbind_unit_Ok, !require_Ok. tauto. }
  destruct (valid_result_terminal _ _ _ _ Hv) as (-> & st & Est & Hst). revert Hv.
  unfold _validate_terminal_result. rewrite rbind_Ok. intros (eid & Ee & Hv).
  rewrite rbind_Ok in Hv. destruct Hv as (iid & Ei & Hv).
  rewrite rbind_Ok in Hv. destruct Hv as (op & Eo & Hv).
  rewrite !rbind_unit_Ok, !require_Ok, andb_true_iff in Hv. destruct Hv as ([H1 H2] & H3 & _ & Hv).
  rewrite rbind_Ok in Hv. destruct Hv as (t & _ & Hv). rewrite !rbind_unit_Ok in Hv.
  destruct Hv as (_ & Hv & _). rewrite Est in Hv. rewrite py_eq_str_eqb in Hv.
  exists eid, iid, op, st. do 9 (split; [done|]).
  destruct (String.eqb st "COMPLETED").
  - rewrite rbind_unit_Ok, require_Ok, andb_true_iff in Hv. destruct Hv as ([Hd Hn] & Hv).
    split; [by destruct (jget "dispatched" result) as [|[]| | | | |]|]. split; [by apply N|].
    destruct (py_eq op _).
    + rewrite require_Ok, andb_true_iff in Hv. split; apply N; tauto.
    + destruct (jget "receipt" result) as [| | | | | |receipt]; try done.
      unfold validate_receipt in Hv. rewrite rbind_unit_Ok in Hv. destruct Hv as (Hs & Hv).
      rewrite rbind_Ok in Hv. destruct Hv as (prov & Ep & Hv).
      rewrite rbind_Ok in Hv. destruct Hv as (b1 & M1 & Hv).
      rewrite rbind_unit_Ok, require_Ok, negb_true_iff in Hv. destruct Hv as (-> & Hv).
      rewrite rbind_Ok in Hv. destruct Hv as (wl & Ew & Hv).
      rewrite rbind_Ok in Hv. destruct Hv as (b2 & M2 & Hv).
      rewrite rbind_unit_Ok, require_Ok, negb_true_iff in Hv. destruct Hv as (-> & Hv).
      rewrite rbind_Ok in Hv. destruct Hv as (bytes & Hb & Hv). rewrite require_Ok, py_eq_str in Hv.
      apply no_mismatch in M1, M2. exists receipt, bytes, prov, wl. eauto 10.
  - rewrite !rbind_unit_Ok, !require_Ok, andb_true_iff in Hv. destruct Hv as ([Hr Hd] & Ho & Hs & _).
    split; [by apply N|]. split; [by apply N|]. destruct (jget "error" result); try done. eauto.
Qed.
(** A validated result's artifacts are those of its status. *)
Lemma valid_artifacts producer bundle raw result :
  _validate_terminal_result producer bundle raw = Ok result ->
  next_artifacts (to_str (jget "status" result)) (to_opt_str (jget "receipt_digest" result)) (to_opt_obj (jget "receipt" result))
    (to_opt_obj (jget "error" result))
  = Ok (to_opt_str (jget "receipt_digest" result), to_opt_obj (jget "receipt" result), to_opt_obj (jget "error" result)).
Proof.
  intros V. destruct (worker_result_sound _ _ _ _ V) as (eid & iid & op & st & _ & _ & _ & _ & Es & T & _ & _ & _ & D).
  rewrite Es. cbn [to_str]. unfold next_artifacts. destruct (String.eqb st "COMPLETED") eqn:C.
  - destruct D as (_ & -> & _). reflexivity.
  - destruct D as (-> & -> & e & -> & _).
    assert (F : str_in st ["FAILED"; "TIMED_OUT"; "CANCELLED"] = true); [|by rewrite F].
    apply str_in_elem. repeat (apply elem_of_cons in T as [->|T]; [first [discriminate C|by apply str_in_elem]|]). by apply elem_of_nil in T.
Qed.

(** A validated result the ledger accepts is recorded as it is. *)
Lemma finish_records (q q' : DispatchPort) eid bundle result r now io io2 res :
  ledger_inv (port_ledger q) -> poisoned_reason (port_ledger q) = None ->
  get_by_execution_id eid (port_ledger q) = Some r -> lr_status r = "RUNNING" ->
  _validate_terminal_result (producer_commit q) bundle (JObj result) = Ok result ->
  to_str (jget "status" result) ∈ TERMINAL_STATUSES ->
  next_artifacts (to_str (jget "status" result)) (to_opt_str (jget "receipt_digest" result)) (to_opt_obj (jget "receipt" result))
    (to_opt_obj (jget "error" result))
  = Ok (to_opt_str (jget "receipt_digest" result), to_opt_obj (jget "receipt" result), to_opt_obj (jget "error" result)) ->
  record_ok (expected_producer_commit (port_ledger q)) (recorded r result now) ->
  run_job_finish eid bundle (RunResult (JObj result)) now io io2 q = (q', res) ->
  (res = Ok tt /\ get_by_execution_id eid (port_ledger q') = Some (recorded r result now)) \/
  (~ append_ok io (recorded r result now) (port_ledger q) /\ poisoned_reason (port_ledger q') <> None).
Proof.
  intros Hi Hp G Hs V T N Ok.
  destruct (lookup_of_get _ _ _ Hi G) as (_ & Ee & _).
  assert (Hx : lr_status r ∈ ["RUNNING"]) by (rewrite Hs; by left).
  assert (Hn : lr_status r ∈ NONTERMINAL_STATUSES) by (rewrite Hs; by apply str_in_elem).
  assert (Ht : forall s, s ∈ TERMINAL_STATUSES -> s ∈ KNOWN_STATUSES /\ str_in s NONTERMINAL_STATUSES = false /\
    str_in s (_LEGAL_TRANSITIONS "RUNNING") = true).
  { intros s I. repeat (apply elem_of_cons in I as [->|I]; [by split; [apply str_in_elem|]|]). by apply elem_of_nil in I. }
  destruct (Ht _ T) as (T1 & T2 & T3). rewrite <- Hs in T3.
  pose proof (settle_transition eid ["RUNNING"] _ _ _ _ _ now io (port_ledger q) r Hi Hp G Hx eq_refl Hn T1 T2 T3 N Ok) as Tr.
  cbn zeta in Tr. fold (recorded r result now) in Tr.
  cbn [run_job_finish]. unfold mcatch. unfold mbind at 1, mget. unfold mbind at 1, mlift. rewrite V.
  unfold mbind at 1, on_ledger at 1. destruct (transition_execution _ _ _ _ _ _ _ _ _) as [l1 o] eqn:E.
  destruct Tr as [[= -> ->]|(Ha & x & Ex & Px)].
  - intros [= <- <-]. left. split; [done|]. cbn [port_ledger set_port_ledger].
    rewrite transitioned_get by (done || by rewrite Ee). by rewrite Ee, String.eqb_refl.
  - cbn [fst snd] in Ex, Px. subst o. cbn. destruct (finish_running _ _ _ _ _ _) as [q2 r2] eqn:Fn. intros [= <- <-]. right.
    split; [done|]. revert Fn. unfold finish_running, mbind. destruct (on_ledger _ _) as [q3 r3] eqn:L.
    apply transition_raise_or in L as (l2 & L & ->). apply transition_cases in L as [[-> _]|(Hq & _)]; [|cbn in Hq; congruence].
    destruct r3; intros [= <- _]; cbn; by rewrite Px.
Qed.

(** ** How a worker process settles its execution *)

(** The checks of the ledger's records *)
Definition record_accepted (expected : option string) (r : LedgerRecord) : bool :=
  match _validate_snapshot_schema (JObj (to_dict r)), _validate_terminal_invariants r expected with
  | Ok _, Ok _ => true
  | _, _ => false
  end.

Lemma record_accepted_ok ex r : record_accepted ex r = true <-> record_ok ex r.
Proof.
  unfold record_accepted, record_ok. split.
  - destruct (_validate_snapshot_schema _) as [d|] eqn:V; [|done]. destruct (_validate_terminal_invariants _ _) as [[]|]; [|done].
    by pose proof (validate_snapshot_same _ _ V) as [= <-].
  - by intros [-> ->].
Qed.

(** What an outcome of the worker process makes of the running record, and the
    append it takes: the document of a result that validates and whose record
    the ledger's rules accept, and otherwise the failure it stands for. *)
Definition settlement (producer : string) (expected : option string) (bundle : odict json) (outcome : runner_outcome)
    (now : string) (io io2 : append_outcome) (r : LedgerRecord) : append_outcome * LedgerRecord :=
  match outcome with
  | RunCancelled => (io, failed_record r "CANCELLED" now process_cancelled_error)
  | RunTimedOut => (io, failed_record r "TIMED_OUT" now timed_out_error)
  | RunRaised _ => (io, failed_record r "FAILED" now process_failed_error)
  | RunResult raw =>
      match _validate_terminal_result producer bundle raw with
      | Ok result =>
          if record_accepted expected (recorded r result now) then (io, recorded r result now)
          else (io2, failed_record r "FAILED" now process_failed_error)
      | Raise _ => (io2, failed_record r "FAILED" now process_failed_error)
      end
  end.

Definition settled_as (eid : string) (a : append_outcome) (r' : LedgerRecord) (p p' : DispatchPort) (res : result exn unit) : Prop :=
  (res = Ok tt /\ get_by_execution_id eid (port_ledger p') = Some r') \/
  (poisoned_reason (port_ledger p') <> None /\
   (poisoned_reason (port_ledger p) <> None \/ ~ append_ok a r' (port_ledger p))).

Lemma finish_poisoned eid st e now io p p' res :
  poisoned_reason (port_ledger p) <> None -> finish_running eid st e now io p = (p', res) ->
  poisoned_reason (port_ledger p') <> None.
Proof.
  intros Hp. unfold finish_running, mbind. destruct (on_ledger _ p) as [p1 res1] eqn:L.
  apply transition_raise_or in L as (l1 & L & ->).
  apply transition_cases in L as [[-> _]|(Hq & _)]; [|congruence]. destruct res1; by intros [= <- _].
Qed.

Lemma finish_running_settles eid st e now io p p' res r :
  ledger_inv (port_ledger p) -> get_by_execution_id eid (port_ledger p) = Some r ->
  lr_status r = "RUNNING" -> st ∈ FAILURE_STATUSES -> now <> EmptyString -> e <> [] ->
  finish_running eid st e now io p = (p', res) -> settled_as eid io (failed_record r st now e) p p' res.
Proof.
  intros Hi G Hr Hst Hnow He E. unfold settled_as.
  destruct (poisoned_reason (port_ledger p)) as [x|] eqn:Hp.
  { right. split; [|by left]. eapply finish_poisoned; [|exact E]. congruence. }
  revert E. unfold finish_running. unfold mbind at 1. destruct (on_ledger _ p) as [p1 res1] eqn:L.
  apply transition_raise_or in L as (l1 & L & ->).
  assert (Hn : lr_status r ∈ NONTERMINAL_STATUSES) by (rewrite Hr; by apply str_in_elem).
  destruct (fail_transition eid ["RUNNING"] st e now io (port_ledger p) r) as [F|(Na & x & F1 & F2)];
    try done.
  { rewrite Hr. by left. }
  - rewrite L in F. injection F as -> ->. intros [= <- <-]. left. split; [done|]. cbn.
    destruct (lookup_of_get _ _ _ Hi G) as (_ & Ee & _).
    rewrite transitioned_get; [by rewrite Ee, String.eqb_refl|done|by rewrite Ee].
  - rewrite L in F1, F2. cbn in F1, F2. subst res1. intros [= <- <-]. right. cbn. rewrite F2. split; [done|by right].
Qed.

Lemma run_result_settles eid bundle raw result now io io2 p p' res r :
  ledger_inv (port_ledger p) -> now <> EmptyString -> get_by_execution_id eid (port_ledger p) = Some r -> lr_status r = "RUNNING" ->
  _validate_terminal_result (producer_commit p) bundle raw = Ok result ->
  run_job_finish eid bundle (RunResult raw) now io io2 p = (p', res) ->
  if record_accepted (expected_producer_commit (port_ledger p)) (recorded r result now)
  then settled_as eid io (recorded r result now) p p' res
  else settled_as eid io2 (failed_record r "FAILED" now process_failed_error) p p' res.
Proof.
  intros Hi Hnow Hg Hr V Hf. pose proof (valid_artifacts _ _ _ _ V) as N.
  destruct (valid_result_terminal _ _ _ _ V) as (-> & st & Est & Hst).
  assert (T : to_str (jget "status" result) ∈ TERMINAL_STATUSES) by by rewrite Est.
  destruct (record_accepted _ _) eqn:A.
  - apply record_accepted_ok in A. destruct (poisoned_reason (port_ledger p)) as [x|] eqn:Hp.
    + right. split; [|left; congruence]. revert Hf. cbn [run_job_finish]. unfold mcatch. unfold mbind at 1, mget. unfold mbind at 1, mlift.
      rewrite V. unfold mbind at 1. destruct (on_ledger _ p) as [p1 res1] eqn:L. apply transition_raise_or in L as (l1 & L & ->).
      apply transition_cases in L as [[-> _]|(Hq & _)]; [|congruence]. destruct res1.
      * intros [= <- _]. cbn. congruence.
      * apply finish_poisoned. cbn. congruence.
    + destruct (finish_records _ _ _ _ _ _ _ _ _ _ Hi Hp Hg Hr V T N A Hf) as [R|[Na Pp]]; [by left|]. right. by split; [|right].
  - assert (No : ~ record_ok (expected_producer_commit (port_ledger p)) (recorded r result now))
      by (intros O%record_accepted_ok; congruence).
    revert Hf. cbn [run_job_finish]. unfold mcatch. unfold mbind at 1, mget. unfold mbind at 1, mlift. rewrite V. unfold mbind at 1.
    destruct (on_ledger _ p) as [p1 res1] eqn:L. apply transition_raise_or in L as (l1 & L & ->).
    assert (E : exists x, l1 = port_ledger p /\ res1 = Raise x).
    { destruct (poisoned_reason (port_ledger p)) as [x|] eqn:Hp.
      - pose proof (poisoned_transition eid ["RUNNING"] (to_str (jget "status" result)) (to_opt_str (jget "receipt_digest" result))
          (to_opt_obj (jget "receipt" result)) (to_opt_obj (jget "error" result)) now io _ _ Hp) as Np. rewrite L in Np.
        apply transition_cases in L as [[-> _]|(Hq & _)]; [|congruence]. destruct res1 as [o|x1]; [by destruct (Np o)|by exists x1].
      - assert (F : forall s, s ∈ TERMINAL_STATUSES -> s ∈ KNOWN_STATUSES /\ str_in s NONTERMINAL_STATUSES = false /\
          str_in s (_LEGAL_TRANSITIONS "RUNNING") = true).
        { intros s I. repeat (apply elem_of_cons in I as [->|I]; [by split; [apply str_in_elem|]|]). by apply elem_of_nil in I. }
        destruct (F _ T) as (T1 & T2 & T3). rewrite <- Hr in T3.
        destruct (settle_rejected eid ["RUNNING"] _ _ _ _ _ now io (port_ledger p) r Hi Hp Hg ltac:(rewrite Hr; by left) eq_refl
          ltac:(rewrite Hr; by apply str_in_elem) T1 T2 T3 N No) as [x E]. rewrite L in E. injection E as -> ->. by exists x. }
    destruct E as (x & -> & ->). replace (set_port_ledger (port_ledger p) p) with p by by destruct p.
    apply finish_running_settles; try done. by apply str_in_elem.
Qed.

(** C27: a worker process that comes back settles its execution.  Whatever it
    returns, the record of a RUNNING execution becomes the terminal record the
    outcome stands for: the document itself of a result that validates against
    the bundle and that the ledger's rules accept, with its status, receipt and
    error; CANCELLED or TIMED_OUT for a worker that was cancelled or timed out;
    and FAILED only for one that raised, or whose result is not valid or not
    acceptable.  The only other end is a poisoned ledger, which takes a ledger
    already poisoned or a failed append of that record. *)
Theorem run_job_settles eid bundle outcome now io io2 p p' res r
  (Hi : ledger_inv (port_ledger p)) (Hnow : now <> EmptyString)
  (Hg : get_by_execution_id eid (port_ledger p) = Some r) (Hr : lr_status r = "RUNNING")
  (Hf : run_job_finish eid bundle outcome now io io2 p = (p', res)) :
  let '(append, r') := settlement (producer_commit p) (expected_producer_commit (port_ledger p)) bundle outcome now io io2 r in
  lr_status r' ∈ TERMINAL_STATUSES /\ record_step r r' /\
  ((res = Ok tt /\ get_by_execution_id eid (port_ledger p') = Some r') \/
   (poisoned_reason (port_ledger p') <> None /\
    (poisoned_reason (port_ledger p) <> None \/ ~ append_ok append r' (port_ledger p)))).
Proof.
  assert (St : forall st art, st ∈ TERMINAL_STATUSES -> record_step r (replace_status r st now art)).
  { intros st art T. exists st, now, art. split; [done|]. rewrite Hr.
    repeat (apply elem_of_cons in T as [->|T]; [by apply str_in_elem|]). by apply elem_of_nil in T. }
  assert (F : forall st e a, st ∈ FAILURE_STATUSES -> e <> [] -> finish_running eid st e now a p = (p', res) ->
    lr_status (failed_record r st now e) ∈ TERMINAL_STATUSES /\ record_step r (failed_record r st now e) /\
    settled_as eid a (failed_record r st now e) p p' res).
  { intros st e a I Ne E. assert (T : st ∈ TERMINAL_STATUSES) by by apply failure_status_facts. split; [exact T|].
    split; [by apply St|by eapply finish_running_settles]. }
  destruct outcome as [raw| | |x]; cbn [settlement].
  - destruct (_validate_terminal_result _ _ _) as [result|x] eqn:V.
    + pose proof (run_result_settles _ _ _ _ _ _ _ _ _ _ _ Hi Hnow Hg Hr V Hf) as R.
      destruct (valid_result_terminal _ _ _ _ V) as (_ & st & Est & Hst). destruct (record_accepted _ _).
      * unfold recorded in *. rewrite Est in *. split; [exact Hst|]. split; [by apply St|exact R].
      * split; [by apply str_in_elem|]. split; [by apply St, str_in_elem|exact R].
    + apply F; [by apply str_in_elem|done|]. revert Hf. cbn [run_job_finish]. unfold mcatch. unfold mbind at 1, mget. unfold mbind at 1, mlift.
      by rewrite V.
  - apply F; [by apply str_in_elem|done|exact Hf].
  - apply F; [by apply str_in_elem|done|exact Hf].
  - apply F; [by apply str_in_elem|done|exact Hf].
Qed.
End Settle.
