(* ===== verification/DispatchWitness.v ===== *)
(** * The worker queue on concrete runs

    The ledger run of [LedgerWitness] continued: the admitted execution is
    reserved, queued, started, cancelled and recovered, and a completed result
    is validated. *)

From stdpp Require Import relations.
From S2P Require Import Prelude PyFloat Json JsonText Text Sha256 Errors Canonical LedgerRecord Ledger LedgerInv LedgerSystem LedgerLoad LedgerWitness Dispatch DispatchInv DispatchSettle.
Open Scope string_scope.
Open Scope nat_scope.
Open Scope py_scope.

Definition demo_commit40 : string := "0123456789abcdef0123456789abcdef01234567".
Definition demo_port0 : DispatchPort := fresh_port 2 demo2 demo_commit40.
Definition demo_port1 : DispatchPort := (reserve_capacity "i1" demo_port0).1.
Definition demo_port2 : DispatchPort :=
  (dispatch_publish "e1" "i1" [] "t3" AppendOk true demo_port1).1.1.

Lemma demo_port_steps : rtc (port_step) (demo_port0, []) (demo_port2, []).
Proof.
  eapply rtc_l; [by apply (ps_reserve "i1" demo_port0 demo_port1 (Ok tt))|].
  apply rtc_once.
  apply (ps_publish "e1" "i1" [] "t3" AppendOk true demo_port1 demo_port2 (mkLocals "e1" 0 true true)).
  vm_compute. reflexivity.
Qed.

Lemma queue_capacity_exact_witness :
  capacity demo_port2 = 1 /\ length (jobs demo_port2) = 1 /\
  capacity demo_port2 + size (capacity_reservations demo_port2) + length (jobs demo_port2) + 0 = 2 /\
  length (jobs demo_port2) + size (capacity_reservations demo_port2) <= 2 /\
  (jobs demo_port2 = [] -> capacity_reservations demo_port2 = ∅ -> [] = [] :> list dispatch_locals ->
   capacity demo_port2 = 2).
Proof.
  split; [vm_compute; reflexivity|]. split; [vm_compute; reflexivity|].
  apply (queue_capacity_exact 2 demo2 demo_commit40 demo_port2 []); [apply demo_inv2|apply demo_port_steps].
Defined.

Lemma queue_operations_safe_witness :
  (release_capacity_reservation "i1" demo_port1).2 = Ok tt.
Proof.
  apply (queue_operations_safe 2 demo2 demo_commit40 demo_port1 []); [apply demo_inv2|].
  apply rtc_once. by apply (ps_reserve "i1" demo_port0 demo_port1 (Ok tt)).
Defined.

(** A port that owns no job fails the admitted execution. *)
Lemma recover_orphans_complete_witness :
  exists p' n, recover_orphans "t4" [] demo_port0 = (p', Ok n).
Proof.
  apply (recover_orphans_complete "t4" [] demo_port0); [apply demo_inv2|done|vm_compute; reflexivity|].
  right. split; [constructor|]. intros r Hr.
  assert (r = demo_admitted) as ->.
  { revert Hr. vm_compute. intros Hr. apply list_elem_of_singleton in Hr. exact Hr. }
  vm_compute. reflexivity.
Defined.

Definition demo_cancel_out := Eval vm_compute in cancel "e1" "t4" AppendOk demo_port2.

Lemma cancel_is_final_witness :
  lr_status <$> get_by_execution_id "e1" (port_ledger demo_cancel_out.1) = Some "CANCELLED" /\
  exists r,
    (lr_status r ∈ TERMINAL_STATUSES /\ demo_cancel_out.1 = demo_port2 /\ demo_cancel_out.2 = Ok None) \/
    ((lr_status r ∉ TERMINAL_STATUSES) /\ poisoned_reason (port_ledger demo_cancel_out.1) <> None /\
     exists e, demo_cancel_out.2 = Raise e) \/
    (let r' := failed_record r "CANCELLED" "t4" cancelled_error in
     (lr_status r ∉ TERMINAL_STATUSES) /\ demo_cancel_out.2 = Ok (Some r') /\
     (forall j, od_get "e1" (jobs demo_cancel_out.1) = Some j -> cancellation_requested j = true) /\
     forall l, rtc ledger_step (port_ledger demo_cancel_out.1) l -> get_by_execution_id "e1" l = Some r').
Proof.
  split; [vm_compute; reflexivity|].
  exists (replace_status demo_admitted "QUEUED" "t3" (None, None, None)).
  apply (cancel_is_final "e1" "t4" AppendOk demo_port2).
  - apply (pi_ledger 2 _ _ (port_steps_inv 2 _ _ demo_port_steps (fresh_port_inv 2 _ _ demo_inv2))).
  - done.
  - vm_compute. reflexivity.
  - vm_compute. reflexivity.
Defined.

Definition demo_run := transition_execution "e1" ["ADMITTED"] "RUNNING" None None None "t3" AppendOk.
Definition demo_running : IdempotencyLedger := Eval vm_compute in (demo_run demo2).1.
Definition demo_running_port : DispatchPort := fresh_port 2 demo_running demo_commit40.
Definition demo_timed_out := Eval vm_compute in
  run_job_finish "e1" [] RunTimedOut "t5" AppendOk AppendOk demo_running_port.
Example demo_times_out :
  option_map lr_status (get_by_execution_id "e1" (port_ledger demo_timed_out.1)) = Some "TIMED_OUT".
Proof. reflexivity. Qed.


(** ** A completed result *)

Definition demo_bundle : odict json :=
  [("intent", JObj [("intent_id", JStr "i1"); ("intent_digest", JStr "sha256:aa");
      ("operation", JStr "TRAIN_TICKET");
      ("workload", JObj [("catalog_backend_ref", JStr "cat"); ("model_plugin_id", JStr "plug");
         ("dataset_id", JStr "data"); ("requested_scope", JStr "FULL")])]);
   ("admission", JObj [("admission_id", JStr "a1"); ("admission_digest", JStr "sha256:bb");
      ("execution_id", JStr "e1"); ("policy_context", JObj [("controller_commit", JStr "ctl")])])].
Definition demo_receipt : odict json :=
  [("provenance", JObj [("intent_id", JStr "i1"); ("intent_digest", JStr "sha256:aa");
      ("admission_id", JStr "a1"); ("admission_digest", JStr "sha256:bb");
      ("execution_id", JStr "e1"); ("controller_commit", JStr "ctl");
      ("catalog_backend_ref", JStr "cat"); ("backend_commit", JStr "cat");
      ("producer_commit", JStr demo_commit40)]);
   ("workload", JObj [("model_plugin_id", JStr "plug"); ("dataset_id", JStr "data");
      ("executed_scope", JStr "FULL")])].
Definition demo_receipt_digest : string := Eval vm_compute in
  match canonicalize_jcs (JObj demo_receipt) with Ok b => sha256_digest b | Raise _ => "?" end.
Definition demo_result : odict json :=
  [("execution_id", JStr "e1"); ("intent_id", JStr "i1"); ("operation", JStr "TRAIN_TICKET");
   ("dispatched", JBool true); ("status", JStr "COMPLETED"); ("receipt", JObj demo_receipt);
   ("receipt_digest", JStr demo_receipt_digest)].

Lemma demo_result_valid :
  _validate_terminal_result demo_commit40 demo_bundle (JObj demo_result) = Ok demo_result.
Proof. vm_compute. reflexivity. Qed.

(** The ledger refuses the receipt, which is not that of the record's
    admission: the execution fails. *)
Example demo_refused :
  let out := run_job_finish "e1" demo_bundle (RunResult (JObj demo_result)) "t5" AppendOk AppendOk demo_running_port in
  out.2 = Ok tt /\ option_map lr_status (get_by_execution_id "e1" (port_ledger out.1)) = Some "FAILED".
Proof. vm_compute. split; reflexivity. Qed.

Lemma worker_result_sound_witness :
  exists eid iid op st,
    bundle_path demo_bundle "admission" "execution_id" = Ok eid /\
    bundle_path demo_bundle "intent" "intent_id" = Ok iid /\
    bundle_path demo_bundle "intent" "operation" = Ok op /\
    jget "status" demo_result = JStr st.
Proof.
  destruct (worker_result_sound demo_commit40 demo_bundle (JObj demo_result) demo_result demo_result_valid)
    as (eid & iid & op & st & H1 & H2 & H3 & _ & H4 & _).
  exists eid, iid, op, st. repeat split; assumption.
Defined.
