(* ===== verification/Gate.v ===== *)
(** * The authorization gate ([deltacontroller/gate.py])

    [AuthorizationGate.admit_and_dispatch] runs over a dispatch port and the
    ledger it shares with it.  The port is an interface ([WorkerDispatchPort]):
    its operations and, in [PortLaws], what it promises the gate.  The clock
    readings, UUIDs, append outcomes and the other threads' steps between two
    calls are the fields of [call_env].  Audit logging only writes a log and is
    left out. *)

From S2P Require Import Prelude PyFloat Json JsonText Text Sha256 Errors Canonical LedgerRecord Ledger Quota Policy Ingress Status Dispatch.
Open Scope string_scope.
Open Scope py_scope.

Definition DEFAULT_POLICY_VERSION : string := "step5c-policy-v1".
Definition DEFAULT_ADMISSION_TTL_SECONDS : Z := 300.
Definition _FROZEN_TEST_FIXTURE_ISSUER_ID : string := "step5c-fixture-controller".
Definition _FROZEN_TEST_FIXTURE_KEY_ID : string := "step5c-fixture-ed25519".

(** ** The signing identity *)

Record AdmissionSigningIdentity `{Ed25519} := mkIdentity {
  identity_key : private_key;
  key_id : string;
  issuer_id : string;
}.

(** [__post_init__] *)
Definition signing_identity `{Ed25519} (sk : private_key) (key issuer : string)
  : result exn AdmissionSigningIdentity :=
  require (negb (String.eqb (strip key) EmptyString)) (ValueErr "key_id must be non-empty") ;?
  require (negb (String.eqb (strip issuer) EmptyString)) (ValueErr "issuer_id must be non-empty") ;?
  require (negb (String.eqb key _FROZEN_TEST_FIXTURE_KEY_ID
                 || String.eqb issuer _FROZEN_TEST_FIXTURE_ISSUER_ID))
    (ValueErr "Frozen fixture signing metadata is test-vector-only") ;?
  Ok (mkIdentity _ sk key issuer).

(** ** The port *)

(** [WorkerDispatchPort], with the ledger the port and the gate share.
    [dispatch_env] is what a dispatch reads from outside: clock, disk, threads. *)
Class WorkerDispatchPort (P : Type) := {
  dispatch_env : Type;
  wp_ledger : P -> IdempotencyLedger;
  wp_set_ledger : IdempotencyLedger -> P -> P;
  wp_reserve_capacity : string -> M P unit;
  wp_release_capacity : string -> M P unit;
  wp_dispatch : dispatch_env -> odict json -> M P json;
}.

(** ** The gate *)

Record AuthorizationGate `{Ed25519} := mkGate {
  max_bytes : Z;
  auth_port : StaticAuthenticationPort;
  catalog_validator : CatalogValidator;
  quota_manager : QuotaManager;
  gate_identity : AdmissionSigningIdentity;
  controller_commit : string;
  policy_version : string;
  admission_ttl_seconds : Z;
}.

(** [__init__] with every collaborator given: a durable ledger and an explicit
    build SHA are required. *)
Definition new_gate `{Ed25519} (mb : Z) (auth : option StaticAuthenticationPort)
  (catalog : CatalogValidator) (quota : QuotaManager) (ledger : option IdempotencyLedger)
  (identity : option AdmissionSigningIdentity) (commit : option string) (version : string) (ttl : Z)
  : result exn AuthorizationGate :=
  match auth, identity with
  | None, _ => Raise (ValueErr "AuthorizationGate requires an explicitly configured trusted AuthenticationPort")
  | _, None => Raise (ValueErr "AuthorizationGate requires an explicitly configured Ed25519 AdmissionSigningIdentity")
  | Some auth, Some identity =>
      require (match ledger with Some l => bool_decide (is_Some (persistence l)) | None => false end)
        (ValueErr "AuthorizationGate requires an explicitly configured durable IdempotencyLedger") ;?
      match commit with
      | Some c =>
          require (lower_hex 40 c)
            (ValueErr "AuthorizationGate requires an explicit 40-character lowercase build SHA") ;?
          Ok (mkGate _ mb auth catalog quota identity c version ttl)
      | None => Raise (ValueErr "AuthorizationGate requires an explicit 40-character lowercase build SHA")
      end
  end.

(** ** Worker results *)

(** The identities [_validate_dispatch_result] is called with *)
Record dispatch_expectation := mkExpect {
  ex_intent_id : string;
  ex_execution_id : string;
  ex_admission_id : string;
  ex_intent_digest : string;
  ex_admission_digest : string;
  ex_operation : string;
  ex_controller_commit : string;
  ex_catalog_backend_ref : json;
  ex_model_plugin_id : json;
  ex_dataset_id : json;
  ex_requested_scope : json;
}.

Section Gate.
Context `{SchemaValidator} `{IsoText} `{Ed25519}.

(** The [receipt is not None] block *)
Definition validate_dispatch_receipt (x : dispatch_expectation) (receipt : odict json)
  (receipt_digest : json) : result exn unit :=
  schema_validate "receipt-lineage" (JObj receipt) ;?
  let provenance := get_or_empty "provenance" receipt in
  let? bad := any_mismatch provenance
    [("intent_id", JStr (ex_intent_id x)); ("intent_digest", JStr (ex_intent_digest x));
     ("admission_id", JStr (ex_admission_id x)); ("admission_digest", JStr (ex_admission_digest x));
     ("execution_id", JStr (ex_execution_id x)); ("controller_commit", JStr (ex_controller_commit x));
     ("catalog_backend_ref", ex_catalog_backend_ref x)] in
  require (negb bad) (dispatch_failed "Worker receipt lineage mismatch") ;?
  let? backend := attr_get provenance "backend_commit" in
  require (py_eq backend (ex_catalog_backend_ref x))
    (dispatch_failed "Worker receipt backend reference mismatch") ;?
  let? bad := any_mismatch (get_or_empty "workload" receipt)
    [("model_plugin_id", ex_model_plugin_id x); ("dataset_id", ex_dataset_id x);
     ("executed_scope", ex_requested_scope x)] in
  require (negb bad) (dispatch_failed "Worker receipt workload binding mismatch") ;?
  let execution := get_or_empty "execution" receipt in
  let? verdict := attr_get execution "verdict" in
  (if negb (py_eq verdict (JStr "SUCCESS"))
   then Raise (dispatch_failed "Worker receipt terminal verdict mismatch")
   else let? status := attr_get execution "terminal_status" in
        require (py_eq status (JStr "COMPLETED"))
          (dispatch_failed "Worker receipt terminal verdict mismatch")) ;?
  let? bytes := canonicalize_jcs (JObj receipt) in
  require (py_eq receipt_digest (JStr (sha256_digest bytes)))
    (dispatch_failed "Worker receipt digest mismatch").

Definition ALLOWED_DISPATCH_STATES : list string :=
  ["QUEUED"; "RUNNING"; "COMPLETED"; "FAILED"; "TIMED_OUT"; "CANCELLED"].

Definition _validate_dispatch_result (x : dispatch_expectation) (dispatch_result : json)
  : result exn (odict json) :=
  match dispatch_result with
  | JObj d =>
      require (py_eq (jget "intent_id" d) (JStr (ex_intent_id x)))
        (dispatch_failed "Worker dispatch intent_id mismatch") ;?
      require (py_eq (jget "execution_id" d) (JStr (ex_execution_id x)))
        (dispatch_failed "Worker dispatch execution_id mismatch") ;?
      require (is_bool (jget "dispatched" d))
        (dispatch_failed "Worker dispatch result lacks dispatched boolean") ;?
      let state := jget "status" d in
      let? allowed := status_in state ALLOWED_DISPATCH_STATES in
      require allowed (dispatch_failed "Worker returned invalid status") ;?
      let receipt := jget "receipt" d in
      let receipt_digest := jget "receipt_digest" d in
      let error := jget "error" d in
      (match receipt with
       | JNull => Ok tt
       | JObj r => validate_dispatch_receipt x r receipt_digest
       | _ => Raise (dispatch_failed "Worker receipt must be an object")
       end) ;?
      (if py_eq state (JStr "COMPLETED") then
         require (is_true (jget "dispatched" d))
           (dispatch_failed "Completed worker result was not dispatched") ;?
         require (is_none error) (dispatch_failed "Completed worker result contains an error") ;?
         if String.eqb (ex_operation x) "MATERIALIZE_DATASET" then
           require (is_none receipt && is_none receipt_digest)
             (dispatch_failed "MATERIALIZE_DATASET must not claim a terminal receipt")
         else
           require (negb (is_none receipt || is_none receipt_digest))
             (dispatch_failed "Completed worker result requires a bound terminal receipt")
       else if str_in (to_str state) ["FAILED"; "TIMED_OUT"; "CANCELLED"] then
         require (is_none receipt && is_none receipt_digest)
           (dispatch_failed "Failed worker result must not contain a receipt") ;?
         require (is_obj error) (dispatch_failed "Terminal worker failure requires an error") ;?
         schema_validate "preflight-error" error ;?
         require (negb (str_in (to_str state) ["TIMED_OUT"; "CANCELLED"])
                  || is_true (jget "dispatched" d))
           (dispatch_failed "Worker state requires an attempted dispatch")
       else
         require (is_none receipt && is_none receipt_digest && is_none error)
           (dispatch_failed "Non-terminal worker result must not contain terminal artifacts")) ;?
      Ok d
  | _ => Raise (dispatch_failed "Worker dispatch result must be an object")
  end.

(** ** Steps 1 to 4: preflight *)

Record admitted_request := mkRequest {
  rq_intent : odict json;
  rq_intent_id : string;
  rq_intent_digest : string;
  rq_subject : AuthenticatedSubject;
}.

(** [doc[key]] used as a string (the schema makes it one) *)
Definition string_item (key : string) (doc : odict json) : result exn string :=
  let? v := get_item key doc in as_string v.

Definition preflight (g : AuthorizationGate) (raw : raw_intent) (credentials : option (odict json))
  (now : moment) : result exn admitted_request :=
  let? intent := parse_intent (max_bytes g) raw now in
  let? intent_id := string_item "intent_id" intent in
  let? intent_digest := string_item "intent_digest" intent in
  let? subject := authenticate (auth_port g) credentials in
  evaluate_admission subject intent ;?
  let? workload := get_item "workload" intent in
  let? operation := get_item "operation" intent in
  (match workload with
   | JObj w => catalog_validate (catalog_validator g) w operation
   | _ => Raise (AttributeErr "object has no attribute 'get'")
   end) ;?
  Ok (mkRequest intent intent_id intent_digest subject).

(** ** Steps 7 to 9: the admission record and the bundle *)

(** [now + timedelta(seconds=s)] *)
Definition add_seconds (m : moment) (s : Z) : moment :=
  mkMoment (instant m + s * 1000000)%Z (utc_offset m).

Definition admission_deadline (g : AuthorizationGate) (intent : odict json) (now : moment)
  : result exn moment :=
  let? expires_at := get_item "expires_at" intent in
  match expires_at with
  | JStr s =>
      match fromisoformat (replace_z s) with
      | Some t => moment_min t (add_seconds now (admission_ttl_seconds g))
      | None => Raise (ValueErr "Invalid isoformat string")
      end
  | _ => Raise (AttributeErr "object has no attribute 'replace'")
  end.

Definition admission_skeleton (g : AuthorizationGate) (rq : admitted_request)
  (grants : ResourceGrants) (admission_id execution_id : string) (now expires : moment) : odict json :=
  [("schema_version", JStr "1.0.0");
   ("admission_id", JStr admission_id);
   ("intent_id", JStr (rq_intent_id rq));
   ("intent_digest", JStr (rq_intent_digest rq));
   ("execution_id", JStr execution_id);
   ("authenticated_subject", JObj (subject_to_dict (rq_subject rq)));
   ("policy_context",
    JObj [("policy_version", JStr (policy_version g));
          ("controller_commit", JStr (controller_commit g));
          ("verdict", JStr "ADMITTED")]);
   ("resource_grants", JObj (grants_to_dict grants));
   ("admitted_at", JStr (isoformat now));
   ("admission_expires_at", JStr (isoformat expires))].

Definition authenticator (g : AuthorizationGate) : odict json :=
  [("algorithm", JStr "ED25519"); ("issuer_id", JStr (issuer_id (gate_identity g)));
   ("key_id", JStr (key_id (gate_identity g)))].

(** The signed admission document and its digest *)
Definition signed_admission (g : AuthorizationGate) (skeleton : odict json)
  : result exn (odict json * string) :=
  let? admission_digest := compute_admission_digest skeleton in
  let doc := od_set "admission_digest" (JStr admission_digest) skeleton in
  let doc := od_set "authenticator" (JObj (authenticator g)) doc in
  let? signature := sign_admission doc (identity_key (gate_identity g)) in
  Ok (od_set "authenticator" (JObj (od_set "signature" (JStr signature) (authenticator g))) doc,
      admission_digest).

Definition build_bundle (intent admission : odict json) : odict json :=
  [("schema_version", JStr "1.0.0"); ("intent", JObj intent); ("admission", JObj admission)].

(** A string or [None] argument; anything else fails the ledger's snapshot
    validation. *)
Definition opt_string_arg (j : json) : result exn (option string) :=
  match j with
  | JNull => Ok None
  | JStr s => Ok (Some s)
  | _ => Raise (ValueErr "Ledger field must be a non-empty string")
  end.

(** ** The handler *)

Section Handler.
Context {P : Type} `{WorkerDispatchPort P}.

(** Everything one call reads from outside.  [interfere k] is what other
    threads do between the call's atomic operations. *)
Record call_env := mkEnv {
  env_now : moment;
  env_reserved_at : string;
  env_monotonic : Z;
  env_wakeups : list wakeup;
  env_admission_id : string;
  env_execution_id : string;
  env_commit_at : string;
  env_commit_io : append_outcome;
  env_dispatch : dispatch_env;
  env_fail_at : string;
  env_fail_io : append_outcome;
  env_update_at : string;
  env_update_io : append_outcome;
  env_status_now : string;
  interfere : nat -> P -> P;
}.

(** A ledger method called by the gate *)
Definition gate_ledger {A} (m : M IdempotencyLedger A) : M P A :=
  fun p => let '(l, r) := m (wp_ledger p) in (wp_set_ledger l p, r).

Definition yield_to_others (env : call_env) (k : nat) : M P unit := mmodify (interfere env k).

(** The status document of a durable record *)
Definition record_status (r : LedgerRecord) (now : string) : result exn (odict json) :=
  match lr_admission_record r, lr_operation r with
  | Some admission, Some operation =>
      let? admission_id := get_item "admission_id" admission in
      let? admission_digest := get_item "admission_digest" admission in
      build_execution_status (lr_execution_id r) (lr_intent_id r) (lr_intent_digest r)
        admission_id admission_digest (lr_status r) operation (lr_receipt_digest r) (lr_error r)
        (Some (lr_updated_at r)) now true
  | _, _ => Raise (RuntimeErr "Durable execution record is missing admission metadata")
  end.

(** Step 5, [COMMITTED]: the stored admission, status and receipt *)
Definition already_admitted (env : call_env) (existing : LedgerRecord) : result exn (odict json) :=
  let? status_doc := record_status existing (env_status_now env) in
  Ok [("action", JStr "ALREADY_ADMITTED");
      ("admission", of_opt_obj (lr_admission_record existing));
      ("status", JObj status_doc);
      ("receipt", of_opt_obj (lr_terminal_receipt existing))].

(** Steps 6 to 10, the body of the first [try]: quota, capacity, admission
    record, bundle, durable commit *)
Definition check_quota (g : AuthorizationGate) (rq : admitted_request) : M P ResourceGrants :=
  do! active := gate_ledger (active_count (Some (rq_intent_id rq))) in
  mlift (evaluate_grants (quota_manager g) (rq_intent rq) (Z.of_nat active)).

Definition prepare_admission (g : AuthorizationGate) (env : call_env) (rq : admitted_request)
  (grants : ResourceGrants) : result exn (odict json * string) :=
  let? expires := admission_deadline g (rq_intent rq) (env_now env) in
  let? signed := signed_admission g
    (admission_skeleton g rq grants (env_admission_id env) (env_execution_id env) (env_now env) expires) in
  schema_validate "admission-record" (JObj signed.1) ;?
  schema_validate "authorized-execution" (JObj (build_bundle (rq_intent rq) signed.1)) ;?
  Ok signed.

Definition commit_prepared (env : call_env) (rq : admitted_request) (admission : odict json)
  : M P LedgerRecord :=
  let constraints := get_or_empty "execution_constraints" (rq_intent rq) in
  do! retry := mlift (attr_get constraints "retry_of_intent_id") in
  do! retry_of := mlift (opt_string_arg retry) in
  do! operation := mlift (string_item "operation" (rq_intent rq)) in
  gate_ledger (commit_admission (rq_intent_id rq) (rq_intent_digest rq)
    (subject_id (rq_subject rq)) (env_execution_id env) admission (Some (rq_intent rq)) retry_of
    (Some operation) "ADMITTED" (env_commit_at env) (env_commit_io env)).

(** [except BaseException] of the first [try] *)
Definition undo_reservation (env : call_env) (rq : admitted_request) (capacity_reserved : bool)
  : M P unit :=
  (if capacity_reserved then wp_release_capacity (rq_intent_id rq) else mret tt) ;!
  yield_to_others env 4 ;!
  gate_ledger (release_reservation (rq_intent_id rq)).

Definition reserve_and_commit (g : AuthorizationGate) (env : call_env) (rq : admitted_request)
  : M P (odict json * string) :=
  do! grants := mon_error
    (do! grants := check_quota g rq in
     yield_to_others env 2 ;!
     wp_reserve_capacity (rq_intent_id rq) ;!
     mret grants)
    (fun _ => undo_reservation env rq false) in
  mon_error
    (do! signed := mlift (prepare_admission g env rq grants) in
     yield_to_others env 3 ;!
     commit_prepared env rq signed.1 ;!
     mret signed)
    (fun _ => undo_reservation env rq true).

(** Step 11: what a failed dispatch stores *)
Definition stored_error (e : exn) : odict json :=
  let '(c, m) := match e with
                 | ControllerErr c m => (c, m)
                 | _ => (WorkerDispatchFailedError,
                         "Failed to dispatch authorized execution bundle to worker")
                 end in
  [("schema_version", JStr "1.0.0"); ("error_code", JStr (err_code c));
   ("category", JStr (err_category c)); ("retryable", JBool (err_retryable c));
   ("message", JStr (str_take 512 m))].

Definition expectation (g : AuthorizationGate) (env : call_env) (rq : admitted_request)
  (admission_digest : string) : result exn dispatch_expectation :=
  let? operation := string_item "operation" (rq_intent rq) in
  let? workload := get_item "workload" (rq_intent rq) in
  match workload with
  | JObj w =>
      let? catalog := get_item "catalog_backend_ref" w in
      let? plugin := get_item "model_plugin_id" w in
      let? dataset := get_item "dataset_id" w in
      let? scope := get_item "requested_scope" w in
      Ok (mkExpect (rq_intent_id rq) (env_execution_id env) (env_admission_id env)
            (rq_intent_digest rq) admission_digest operation (controller_commit g)
            catalog plugin dataset scope)
  | _ => Raise (TypeErr "object is not subscriptable")
  end.

(** [finally] of the second [try] *)
Definition mfinally {S A} (m : M S A) (h : M S unit) : M S A :=
  fun s => let '(s', r) := m s in
           match h s' with
           | (s2, Ok _) => (s2, r)
           | (s2, Raise e) => (s2, Raise e)
           end.

Definition dispatch_admitted (g : AuthorizationGate) (env : call_env) (rq : admitted_request)
  (admission : odict json) (admission_digest : string) : M P (odict json) :=
  mfinally
    (mon_error
       (do! raw := wp_dispatch (env_dispatch env) (build_bundle (rq_intent rq) admission) in
        mlift (let? x := expectation g env rq admission_digest in _validate_dispatch_result x raw))
       (fun e =>
          yield_to_others env 5 ;!
          do! r := gate_ledger (transition_execution (env_execution_id env) NONTERMINAL_STATUSES
                     "FAILED" None None (Some (stored_error e)) (env_fail_at env) (env_fail_io env)) in
          mret tt))
    (yield_to_others env 6 ;! wp_release_capacity (rq_intent_id rq)).

(** After a dispatch that returned: the durable record to answer with *)
Definition update_after_dispatch (env : call_env) (dispatch_result : odict json)
  : M P LedgerRecord :=
  let execution_id := env_execution_id env in
  let worker_state := to_str (jget "status" dispatch_result) in
  do! updated :=
    (if String.eqb worker_state "QUEUED" then
       do! p := mget in
       match get_by_execution_id execution_id (wp_ledger p) with
       | Some r =>
           if String.eqb (lr_status r) "ADMITTED" then
             yield_to_others env 8 ;!
             gate_ledger (transition_execution execution_id ["ADMITTED"] "QUEUED" None None None
                            (env_update_at env) (env_update_io env))
           else mret (Some r)
       | None => mret None
       end
     else
       gate_ledger (transition_execution execution_id (NONTERMINAL_STATUSES ++ [worker_state])
         worker_state (to_opt_str (jget "receipt_digest" dispatch_result))
         (to_opt_obj (jget "receipt" dispatch_result)) (to_opt_obj (jget "error" dispatch_result))
         (env_update_at env) (env_update_io env))) in
  match updated with
  | Some r => mret r
  | None =>
      yield_to_others env 9 ;!
      do! p := mget in
      match get_by_execution_id execution_id (wp_ledger p) with
      | Some r => mret r
      | None => mraise (RuntimeErr "Durable execution disappeared during dispatch")
      end
  end.

Definition admitted_response (env : call_env) (rq : admitted_request) (admission : odict json)
  (admission_digest : string) (r : LedgerRecord) : result exn (odict json) :=
  let? operation := string_item "operation" (rq_intent rq) in
  let? status_doc := build_execution_status (env_execution_id env) (rq_intent_id rq)
    (rq_intent_digest rq) (JStr (env_admission_id env)) (JStr admission_digest) (lr_status r)
    operation (lr_receipt_digest r) (lr_error r) (Some (lr_updated_at r)) (env_status_now env) true in
  Ok [("action", JStr "ADMITTED"); ("admission", JObj admission); ("status", JObj status_doc);
      ("receipt", of_opt_obj (lr_terminal_receipt r))].

(** The rest of a call that was granted the reservation *)
Definition run_reserved (g : AuthorizationGate) (env : call_env) (rq : admitted_request)
  : M P (odict json) :=
  do! signed := reserve_and_commit g env rq in
  do! dispatch_result := dispatch_admitted g env rq signed.1 signed.2 in
  yield_to_others env 7 ;!
  do! r := update_after_dispatch env dispatch_result in
  mlift (admitted_response env rq signed.1 signed.2 r).

(** The whole call; [Ok None] is a caller still waiting for another one's
    reservation when the listed wake-ups end. *)
Definition admit_and_dispatch (g : AuthorizationGate) (env : call_env) (raw : raw_intent)
  (credentials : option (odict json)) : M P (option (odict json)) :=
  do! rq := mlift (preflight g raw credentials (env_now env)) in
  yield_to_others env 0 ;!
  do! reservation := gate_ledger (acquire_or_check (rq_intent_id rq) (rq_intent_digest rq)
    (subject_id (rq_subject rq)) (env_reserved_at env) 30000 (env_monotonic env) (env_wakeups env)) in
  match reservation with
  | None => mret None
  | Some (Some existing) => do! doc := mlift (already_admitted env existing) in mret (Some doc)
  | Some None =>
      yield_to_others env 1 ;!
      do! doc := run_reserved g env rq in
      mret (Some doc)
  end.

(** ** Owner reads *)

Definition _get_owned_record (g : AuthorizationGate) (execution_id : string)
  (credentials : option (odict json)) (l : IdempotencyLedger) : result exn (option LedgerRecord) :=
  let? subject := authenticate (auth_port g) credentials in
  match get_by_execution_id execution_id l with
  | None => Ok None
  | Some r =>
      require (String.eqb (lr_authenticated_subject_id r) (subject_id subject))
        (ControllerErr UnauthorizedCallerError "Subject cannot read execution") ;?
      Ok (Some r)
  end.

Definition get_status (g : AuthorizationGate) (execution_id : string)
  (credentials : option (odict json)) (now : string) (l : IdempotencyLedger)
  : result exn (option (odict json)) :=
  let? record := _get_owned_record g execution_id credentials l in
  match record with
  | None => Ok None
  | Some r => let? doc := record_status r now in Ok (Some doc)
  end.

Definition get_receipt (g : AuthorizationGate) (execution_id : string)
  (credentials : option (odict json)) (l : IdempotencyLedger)
  : result exn (option (odict json)) :=
  let? record := _get_owned_record g execution_id credentials l in
  Ok (match record with Some r => lr_terminal_receipt r | None => None end).
End Handler.
End Gate.
