(* ===== verification/GateInv.v ===== *)
(** * The gate over any lawful port

    [PortLaws] is what the gate relies on: the port and the gate share one
    ledger, capacity calls do not touch it, a release returns, and a dispatch
    only makes ledger steps.  Other threads may run between any two calls of the
    gate ([env_ok]): they too only make ledger steps and never use this call's
    fresh execution id.  The theorems follow the whole handler under this
    interference. *)

From stdpp Require Import relations.
From S2P Require Import Prelude PyFloat Json JsonText Text Sha256 Errors Canonical LedgerRecord Ledger LedgerInv LedgerSystem Quota Policy Ingress Status Dispatch DispatchInv DispatchSettle Gate.
Open Scope string_scope.
Open Scope py_scope.

(** What other threads may do to the ledger while a call holds execution id
    [eid] *)
Definition rely `{SchemaValidator} (eid : string) (l l' : IdempotencyLedger) : Prop :=
  rtc ledger_step l l' /\
  (by_execution_id l !! eid = None -> by_execution_id l' !! eid = None).

Class PortLaws (P : Type) `{SchemaValidator} `{WorkerDispatchPort P} := {
  (** the port's own invariant, over a coherent ledger *)
  port_ok : P -> Prop;
  dispatch_env_ok : dispatch_env -> Prop;
  law_ledger p : port_ok p -> ledger_inv (wp_ledger p);
  law_get_set l p : wp_ledger (wp_set_ledger l p) = l;
  law_set p l : port_ok p -> rtc ledger_step (wp_ledger p) l -> port_ok (wp_set_ledger l p);
  law_reserve id p p' r : port_ok p -> wp_reserve_capacity id p = (p', r) ->
    port_ok p' /\ wp_ledger p' = wp_ledger p;
  law_release id p p' r : port_ok p -> wp_release_capacity id p = (p', r) ->
    port_ok p' /\ wp_ledger p' = wp_ledger p /\ r = Ok tt;
  law_dispatch env b p p' r : port_ok p -> dispatch_env_ok env -> wp_dispatch env b p = (p', r) ->
    port_ok p' /\ rtc ledger_step (wp_ledger p) (wp_ledger p');
}.

Section GateInv.
Context `{SchemaValidator} `{IsoText} `{Ed25519} {P : Type} `{WorkerDispatchPort P} `{!PortLaws P}.

Record env_ok (env : call_env) : Prop := {
  eo_interfere : forall k p, port_ok p ->
    port_ok (interfere env k p) /\
    rely (env_execution_id env) (wp_ledger p) (wp_ledger (interfere env k p));
  eo_wakeups : Forall (fun w => forall l, ledger_inv l -> rely (env_execution_id env) l (others w l))
                 (env_wakeups env);
  eo_dispatch : dispatch_env_ok (env_dispatch env);
}.

Lemma rely_refl eid l : rely eid l l.
Proof. split; [apply rtc_refl|done]. Qed.
Lemma rely_trans eid l1 l2 l3 : rely eid l1 l2 -> rely eid l2 l3 -> rely eid l1 l3.
Proof. intros [A1 A2] [B1 B2]. split; [by transitivity l2|auto]. Qed.
Lemma rely_inv eid l l' : rely eid l l' -> ledger_inv l -> ledger_inv l'.
Proof. intros [S _]. by apply ledger_steps_inv. Qed.

(** ** Ledger calls of the gate *)

Lemma gate_ledger_eq {A} (m : M IdempotencyLedger A) (p p' : P) r :
  gate_ledger m p = (p', r) ->
  exists l', m (wp_ledger p) = (l', r) /\ p' = wp_set_ledger l' p.
Proof. unfold gate_ledger. destruct (m (wp_ledger p)). intros [= <- <-]. eauto. Qed.

Lemma gate_ledger_step {A} (m : M IdempotencyLedger A) p p' r :
  port_ok p -> gate_ledger m p = (p', r) ->
  (forall l', m (wp_ledger p) = (l', r) -> rtc ledger_step (wp_ledger p) l') ->
  port_ok p' /\ rtc ledger_step (wp_ledger p) (wp_ledger p').
Proof.
  intros Hok (l' & E & ->)%gate_ledger_eq Hs. apply Hs in E. split; [by apply law_set|].
  by rewrite law_get_set.
Qed.

Lemma yield_eq env k p p' r :
  yield_to_others env k p = (p', r) -> r = Ok tt /\ p' = interfere env k p.
Proof. unfold yield_to_others, mmodify. by intros [= <- <-]. Qed.

Lemma acquire_rely eid id dg who now dl t l l' res :
  acquire_iteration id dg who now dl t l = (l', res) -> rely eid l l'.
Proof.
  intros E. split; [apply rtc_once; by eapply step_acquire|].
  by apply acquire_cases in E as [[-> _]|(_ & _ & -> & _)].
Qed.

(** Waiting for a reservation: the ledger moves by lawful steps, and a granted
    reservation is in it. *)
Lemma acquire_loop_rely eid id dg who now dl wakes : forall t l l' res,
  Forall (fun w => forall l, ledger_inv l -> rely eid l (others w l)) wakes ->
  ledger_inv l -> acquire_loop id dg who now dl t wakes l = (l', res) ->
  rely eid l l' /\
  (res = Ok (Some None) ->
     od_get id (reservations l') = Some (new_reservation id dg who now)).
Proof.
  induction wakes as [|w wakes IH]; intros t l l' res Hw Hi; cbn [acquire_loop];
    unfold mbind at 1; destruct (acquire_iteration _ _ _ _ _ _ l) as [l1 [o|e]] eqn:E;
    pose proof (acquire_rely eid _ _ _ _ _ _ _ _ _ E) as R; try by intros [= <- <-].
  - apply acquire_cases in E as [[-> Hn]|([= ->] & _ & -> & _)].
    + destruct o; [|done|]; by intros [= <- <-].
    + intros [= <- <-]. split; [done|]. intros _. cbn. by rewrite od_get_set_eq.
  - destruct o as [r| |]; try by intros [= <- <-].
    + apply acquire_cases in E as [[-> Hn]|(_ & _ & -> & _)]; [done|].
      intros [= <- <-]. split; [done|]. intros _. cbn. by rewrite od_get_set_eq.
    + apply Forall_cons in Hw as [Hw Hws]. unfold mbind at 1, mmodify. intros E2.
      assert (Hi1 : ledger_inv l1) by by eapply rely_inv.
      apply IH in E2 as [R2 G]; [|done|eapply rely_inv; [by apply Hw|done]]. split; [|done].
      eapply rely_trans; [exact R|]. eapply rely_trans; [by apply Hw|done].
Qed.

(** ** Committing *)

(** The record a call commits *)
Definition call_record (env : call_env) (rq : admitted_request) (admission : odict json)
  (retry_of : option string) (operation : string) : LedgerRecord :=
  admitted_record (rq_intent_id rq) (rq_intent_digest rq) (subject_id (rq_subject rq))
    (env_execution_id env) admission (Some (rq_intent rq)) retry_of (Some operation)
    (env_commit_at env).

(** [r] is the call's record, committed in the ledger of [p]. *)
Definition committed_in (p : P) (r : LedgerRecord) : Prop :=
  od_get (lr_intent_id r) (by_intent_id (wp_ledger p)) = Some r /\
  get_by_execution_id (lr_execution_id r) (wp_ledger p) = Some r.

Lemma commit_prepared_cases env rq admission (p p' : P) res :
  port_ok p -> by_execution_id (wp_ledger p) !! env_execution_id env = None ->
  commit_prepared env rq admission p = (p', res) ->
  port_ok p' /\ rtc ledger_step (wp_ledger p) (wp_ledger p') /\
  forall r, res = Ok r -> exists retry_of operation,
    od_get "operation" (rq_intent rq) = Some (JStr operation) /\
    r = call_record env rq admission retry_of operation /\ committed_in p' r /\
    persistence (wp_ledger p') = appended r (persistence (wp_ledger p)).
Proof.
  intros Hok Hf. unfold commit_prepared. unfold mbind at 1, mlift at 1.
  destruct (attr_get _ _) as [retry|]; [|intros [= <- <-]; split; [done|split; [apply rtc_refl|done]]].
  unfold mbind at 1, mlift at 1.
  destruct (opt_string_arg retry) as [retry_of|]; [|intros [= <- <-]; split; [done|split; [apply rtc_refl|done]]].
  unfold mbind at 1, mlift at 1. destruct (string_item _ _) as [operation|] eqn:Eo;
    [|intros [= <- <-]; split; [done|split; [apply rtc_refl|done]]].
  intros (l' & E & ->)%gate_ledger_eq.
  assert (S : ledger_step (wp_ledger p) l') by (by eapply step_commit).
  split; [apply law_set; [done|by apply rtc_once]|]. rewrite law_get_set.
  split; [by apply rtc_once|]. intros r ->. exists retry_of, operation.
  assert (Hi' : ledger_inv l') by (eapply ledger_step_inv; [exact S|by apply law_ledger]).
  apply commit_cases in E as [[_ [e ?]]|(_ & _ & _ & _ & _ & [([= ->] & -> & _)|(e & ? & _)])]; try done.
  unfold string_item in Eo. apply rbind_Ok in Eo as (v & Ev & Es). unfold get_item in Ev.
  destruct (od_get "operation" (rq_intent rq)) as [v'|]; [|done]. injection Ev as ->.
  destruct v; try done. injection Es as ->.
  split; [done|]. split; [done|]. split; [|done].
  assert (G : od_get (rq_intent_id rq) (by_intent_id (committed_state (rq_intent_id rq)
     (call_record env rq admission retry_of operation) (wp_ledger p)))
     = Some (call_record env rq admission retry_of operation)) by (cbn; by rewrite od_get_set_eq).
  unfold committed_in. rewrite law_get_set. split; [exact G|].
  destruct (nonterminal_records_spec _ Hi') as [_ Hn].
  apply Hn. apply list_elem_of_filter. split; [done|]. apply od_get_In in G.
  by apply (list_elem_of_fmap_2 snd) in G.
Qed.

(** Undoing: the reservation is gone, or the ledger is poisoned. *)
Definition not_reserved (id : string) (l : IdempotencyLedger) : Prop :=
  od_get id (reservations l) = None \/ poisoned_reason l <> None.

Lemma undo_cases env rq b p p' r :
  port_ok p -> env_ok env -> undo_reservation env rq b p = (p', r) ->
  r = Ok tt /\ port_ok p' /\ rtc ledger_step (wp_ledger p) (wp_ledger p') /\
  not_reserved (rq_intent_id rq) (wp_ledger p').
Proof.
  intros Hok He. unfold undo_reservation. unfold mbind at 1.
  assert (exists p1, (if b then wp_release_capacity (rq_intent_id rq) else mret tt) p = (p1, Ok tt) /\
            port_ok p1 /\ wp_ledger p1 = wp_ledger p) as (p1 & -> & Hok1 & E1).
  { destruct b; [|by exists p]. destruct (wp_release_capacity _ p) as [p1 r1] eqn:E.
    destruct (law_release _ _ _ _ Hok E) as (? & ? & ->). eauto. }
  unfold mbind at 1. destruct (yield_to_others env 4 p1) as [p2 r2] eqn:Y.
  apply yield_eq in Y as [-> ->]. destruct (eo_interfere _ He 4 p1 Hok1) as [Hok2 [S2 _]].
  intros E. pose proof E as E'. apply gate_ledger_eq in E' as (l' & E3 & ->).
  destruct (gate_ledger_step _ _ _ _ Hok2 E) as [Hok3 S3].
  { intros l2 E2. apply rtc_once. by eapply step_release. }
  assert (Hi2 : ledger_inv (wp_ledger (interfere env 4 p1))) by by apply law_ledger.
  split; [by apply release_cases in E3 as [-> _]|]. split; [done|]. split.
  { rewrite <- E1. by etransitivity. }
  rewrite law_get_set. unfold not_reserved.
  apply release_cases in E3 as [_ [[-> Hp]|[_ ->]]]; [by right|left]. cbn.
  apply od_get_pop_eq, Hi2.
Qed.

(** The reserved part of a call, as a whole *)
Lemma check_quota_state g (rq : admitted_request) (p p' : P) r :
  check_quota g rq p = (p', r) -> port_ok p ->
  port_ok p' /\ wp_ledger p' = wp_ledger p /\
  forall grants, r = Ok grants ->
    exists active, (active_count (Some (rq_intent_id rq)) (wp_ledger p)).2 = Ok active /\
      evaluate_grants (quota_manager g) (rq_intent rq) (Z.of_nat active) = Ok grants.
Proof.
  unfold check_quota, gate_ledger. unfold mbind at 1.
  destruct (active_count _ (wp_ledger p)) as [l' a] eqn:A.
  assert (l' = wp_ledger p) as ->.
  { revert A. unfold active_count, mbind, _raise_if_poisoned, mget, mret, mraise.
    destruct (poisoned_reason _); [by intros [= <- _]|]. destruct (reservations_before _ _); by intros [= <- _]. }
  assert (Hw : port_ok p -> port_ok (wp_set_ledger (wp_ledger p) p)).
  { intros Hok. apply law_set; [done|apply rtc_refl]. }
  destruct a as [a|e]; intros [= <- <-] Hok; rewrite law_get_set; (split; [auto|split; [done|]]); [|done].
  intros grants E. by exists a.
Qed.

Lemma reserve_and_commit_cases g env rq (p p' : P) res :
  port_ok p -> env_ok env -> by_execution_id (wp_ledger p) !! env_execution_id env = None ->
  reserve_and_commit g env rq p = (p', res) ->
  port_ok p' /\ rtc ledger_step (wp_ledger p) (wp_ledger p') /\
  match res with
  | Ok signed =>
      exists active grants retry_of operation l,
        (active_count (Some (rq_intent_id rq)) (wp_ledger p)).2 = Ok active /\
        evaluate_grants (quota_manager g) (rq_intent rq) (Z.of_nat active) = Ok grants /\
        prepare_admission g env rq grants = Ok signed /\
        od_get "operation" (rq_intent rq) = Some (JStr operation) /\
        let r := call_record env rq signed.1 retry_of operation in
        committed_in p' r /\ persistence (wp_ledger p') = appended r (persistence l)
  | Raise _ => not_reserved (rq_intent_id rq) (wp_ledger p')
  end.
Proof.
  intros Hok He Hf. unfold reserve_and_commit. unfold mbind at 1, mon_error at 1. unfold mbind at 1.
  destruct (check_quota g rq p) as [p1 [grants|e]] eqn:Q;
    destruct (check_quota_state _ _ _ _ _ Q Hok) as (Hok1 & E1 & Hg).
  2: { destruct (undo_reservation env rq false p1) as [p2 r2] eqn:U.
       destruct (undo_cases _ _ _ _ _ _ Hok1 He U) as (-> & Hok2 & S2 & N). intros [= <- <-].
       split; [done|]. by rewrite <- E1. }
  destruct (Hg _ eq_refl) as (active & Ha & Hgr). unfold mbind at 1.
  destruct (yield_to_others env 2 p1) as [p2 r2] eqn:Y. apply yield_eq in Y as [-> ->].
  destruct (eo_interfere _ He 2 p1 Hok1) as [Hok2 [S2 F2]]. set (p2 := interfere env 2 p1) in *.
  unfold mbind at 1. destruct (wp_reserve_capacity (rq_intent_id rq) p2) as [p3 [[]|e]] eqn:R;
    destruct (law_reserve _ _ _ _ Hok2 R) as [Hok3 E3].
  2: { destruct (undo_reservation env rq false p3) as [p4 r4] eqn:U.
       destruct (undo_cases _ _ _ _ _ _ Hok3 He U) as (-> & Hok4 & S4 & N). intros [= <- <-].
       split; [done|]. split; [|done]. rewrite <- E1. etransitivity; [exact S2|]. by rewrite <- E3. }
  cbn [mret]. unfold mret at 1. unfold mon_error. unfold mbind at 1, mlift.
  assert (S3 : rtc ledger_step (wp_ledger p) (wp_ledger p3)) by (rewrite E3, <- E1; done).
  assert (U : forall q e, port_ok q -> rtc ledger_step (wp_ledger p3) (wp_ledger q) ->
     (match undo_reservation env rq true q with
      | (s2, Ok _) => (s2, Raise e) | (s2, Raise e2) => (s2, Raise e2) end) = (p', res) ->
     port_ok p' /\ rtc ledger_step (wp_ledger p) (wp_ledger p') /\
     exists e, res = Raise e /\ not_reserved (rq_intent_id rq) (wp_ledger p')).
  { intros q e Hq Sq. destruct (undo_reservation env rq true q) as [p4 r4] eqn:U.
    destruct (undo_cases _ _ _ _ _ _ Hq He U) as (-> & Hok4 & S4 & N). intros [= <- <-].
    split; [done|]. split; [|by exists e]. etransitivity; [exact S3|]. by etransitivity. }
  destruct (prepare_admission g env rq grants) as [signed|e] eqn:Pa.
  2: { intros E. destruct (U p3 e Hok3 (rtc_refl _ _) E) as (? & ? & x & -> & ?). done. }
  unfold mbind at 1. destruct (yield_to_others env 3 p3) as [p4 r4] eqn:Y.
  apply yield_eq in Y as [-> ->]. destruct (eo_interfere _ He 3 p3 Hok3) as [Hok4 [S4 F4]].
  set (p4 := interfere env 3 p3) in *. unfold mbind at 1.
  destruct (commit_prepared env rq signed.1 p4) as [p5 [r|e]] eqn:C;
    (destruct (commit_prepared_cases _ _ _ _ _ _ Hok4
      ltac:(apply F4; rewrite E3; apply F2; by rewrite E1) C) as (Hok5 & S5 & Hc)).
  2: { intros E. destruct (U p5 e Hok5 ltac:(by etransitivity) E) as (? & ? & x & -> & ?). done. }
  destruct (Hc r eq_refl) as (retry_of & operation & Eo & -> & Hco & Hp).
  unfold mret. intros [= <- <-]. split; [done|].
  split; [etransitivity; [exact S3|]; by etransitivity|].
  exists active, grants, retry_of, operation, (wp_ledger p4). done.
Qed.

(** ** Dispatch and afterwards *)

Lemma get_steps eid l l' r :
  ledger_inv l -> rtc ledger_step l l' -> get_by_execution_id eid l = Some r ->
  exists r', get_by_execution_id eid l' = Some r' /\ rtc record_step r r'.
Proof.
  intros Hi Hs G. destruct (lookup_of_get _ _ _ Hi G) as (_ & Ee & _ & Gi).
  destruct (ledger_steps_record _ _ _ _ Hs Hi Gi) as (r' & G' & S). exists r'. split; [|done].
  assert (Hi' : ledger_inv l') by by eapply ledger_steps_inv.
  destruct (inv_record _ Hi' _ _ G') as (_ & _ & Ex & _).
  assert (E : lr_execution_id r' = lr_execution_id r).
  { clear -S. induction S as [|x y z (? & ? & ? & -> & _) _ IH]; [done|]. by rewrite IH. }
  rewrite E, Ee in Ex. unfold get_by_execution_id. rewrite Ex.
  destruct (inv_record _ Hi _ _ Gi) as (_ & _ & E2 & _). rewrite Ee in E2.
  revert G. unfold get_by_execution_id. rewrite E2. by destruct (String.eqb _ EmptyString).
Qed.

Lemma stored_error_nonempty e : stored_error e <> [].
Proof. unfold stored_error. by destruct e. Qed.

Lemma record_status_known ex r :
  record_ok ex r -> (lr_status r ∉ TERMINAL_STATUSES) -> lr_status r ∈ NONTERMINAL_STATUSES.
Proof.
  intros [Hok _] Ht. apply validate_snapshot_fields in Hok as (_ & (st & E & Hk) & _).
  cbn in E. injection E as <-. unfold KNOWN_STATUSES in Hk. apply elem_of_app in Hk. tauto.
Qed.

(** What a failing transition of a known execution leaves, whoever else moved
    it first: a terminal status or a poisoned ledger *)
Lemma fail_any exec st e now io l l' res r :
  ledger_inv l -> get_by_execution_id exec l = Some r -> st ∈ FAILURE_STATUSES ->
  now <> EmptyString -> e <> [] ->
  transition_execution exec NONTERMINAL_STATUSES st None None (Some e) now io l = (l', res) ->
  poisoned_reason l' <> None \/
  exists r', get_by_execution_id exec l' = Some r' /\ lr_status r' ∈ TERMINAL_STATUSES /\
             (r' = r \/ r' = failed_record r st now e).
Proof.
  intros Hi G Hst Hnow He E. destruct (lookup_of_get _ _ _ Hi G) as (_ & Ee & Hok & _).
  destruct (poisoned_reason l) as [x|] eqn:Hp.
  { left. apply transition_cases in E as [[-> _]|(Hq & _)]; [by rewrite Hp|congruence]. }
  destruct (decide (lr_status r ∈ TERMINAL_STATUSES)) as [Ht|Ht].
  { right. exists r. split; [|by split; [|left]].
    eapply (get_terminal_forever exec l); [done|apply rtc_once; by eapply step_transition|done|done]. }
  pose proof (record_status_known _ _ Hok Ht) as Hn.
  destruct (fail_transition exec NONTERMINAL_STATUSES st e now io l r Hi Hp G Hn eq_refl Hn Hst Hnow He)
    as [F|(_ & x & F1 & F2)].
  - rewrite E in F. injection F as -> _. right. exists (failed_record r st now e).
    split; [|split; [by apply failure_status_facts|by right]].
    rewrite transitioned_get; [by rewrite Ee, String.eqb_refl|done|by rewrite Ee].
  - left. rewrite E in F2. cbn in F2. by rewrite F2.
Qed.

Lemma dispatch_admitted_cases g env rq admission digest (p p' : P) res r :
  port_ok p -> env_ok env -> env_fail_at env <> EmptyString ->
  get_by_execution_id (env_execution_id env) (wp_ledger p) = Some r ->
  dispatch_admitted g env rq admission digest p = (p', res) ->
  port_ok p' /\ rtc ledger_step (wp_ledger p) (wp_ledger p') /\
  (forall e, res = Raise e -> poisoned_reason (wp_ledger p') <> None \/
     exists r', get_by_execution_id (env_execution_id env) (wp_ledger p') = Some r' /\
                lr_status r' ∈ TERMINAL_STATUSES).
Proof.
  intros Hok He Hnow G. unfold dispatch_admitted, mfinally.
  match goal with |- context [mon_error ?m ?h p] => destruct (mon_error m h p) as [p1 r1] eqn:M end.
  assert (B : port_ok p1 /\ rtc ledger_step (wp_ledger p) (wp_ledger p1) /\
    (forall e, r1 = Raise e -> poisoned_reason (wp_ledger p1) <> None \/
     exists r', get_by_execution_id (env_execution_id env) (wp_ledger p1) = Some r' /\
                lr_status r' ∈ TERMINAL_STATUSES)).
  { revert M. unfold mon_error. unfold mbind at 1.
    destruct (wp_dispatch (env_dispatch env) _ p) as [q rq1] eqn:D.
    destruct (law_dispatch _ _ _ _ _ Hok (eo_dispatch _ He) D) as [Hq Sq].
    assert (F : forall e s2 r2,
      (yield_to_others env 5 ;!
       do! r0 := gate_ledger (transition_execution (env_execution_id env) NONTERMINAL_STATUSES
                     "FAILED" None None (Some (stored_error e)) (env_fail_at env) (env_fail_io env)) in
       mret tt) q = (s2, r2) ->
      port_ok s2 /\ rtc ledger_step (wp_ledger p) (wp_ledger s2) /\
      (poisoned_reason (wp_ledger s2) <> None \/
       exists r', get_by_execution_id (env_execution_id env) (wp_ledger s2) = Some r' /\
                  lr_status r' ∈ TERMINAL_STATUSES)).
    { intros e s2 r2. unfold mbind at 1. destruct (yield_to_others env 5 q) as [q2 y] eqn:Y.
      apply yield_eq in Y as [-> ->]. destruct (eo_interfere _ He 5 q Hq) as [Hq2 [S2 _]].
      unfold mbind at 1. destruct (gate_ledger _ _) as [q3 r3] eqn:T. apply gate_ledger_eq in T as (l' & T & ->).
      assert (S3 : ledger_step (wp_ledger (interfere env 5 q)) l') by by eapply step_transition.
      intros E. assert (s2 = wp_set_ledger l' (interfere env 5 q)) as -> by (destruct r3; unfold mret in E; congruence).
      split; [apply law_set; [done|by apply rtc_once]|]. rewrite law_get_set.
      split; [etransitivity; [exact Sq|]; by eapply rtc_r|].
      assert (Sp : rtc ledger_step (wp_ledger p) (wp_ledger (interfere env 5 q))) by by etransitivity.
      destruct (get_steps _ _ _ _ (law_ledger _ Hok) Sp G) as (r5 & G5 & _).
      assert (FS : "FAILED" ∈ FAILURE_STATUSES) by by apply str_in_elem.
      destruct (fail_any _ _ _ _ _ _ _ _ r5 (law_ledger _ Hq2) G5 FS Hnow
        (stored_error_nonempty e) T) as [?|(r6 & ? & ? & _)]; [by left|right; eauto]. }
    destruct rq1 as [raw|e].
    - unfold mlift. destruct (let? x := expectation g env rq digest in _validate_dispatch_result x raw)
        as [d|e].
      + intros [= <- <-]. done.
      + match goal with |- match ?X with _ => _ end = _ -> _ => destruct X as [s2 r2] eqn:Y end.
        destruct (F _ _ _ Y) as (? & ? & ?).
        destruct r2; intros [= <- <-]; done.
    - match goal with |- match ?X with _ => _ end = _ -> _ => destruct X as [s2 r2] eqn:Y end.
        destruct (F _ _ _ Y) as (? & ? & ?).
      destruct r2; intros [= <- <-]; done. }
  destruct B as (Hok1 & S1 & T1). unfold mbind at 1.
  destruct (yield_to_others env 6 p1) as [p2 y] eqn:Y. apply yield_eq in Y as [-> ->].
  destruct (eo_interfere _ He 6 p1 Hok1) as [Hok2 [S2 _]].
  destruct (wp_release_capacity _ _) as [p3 r3] eqn:R.
  destruct (law_release _ _ _ _ Hok2 R) as (Hok3 & E3 & ->). intros [= <- <-].
  split; [done|]. rewrite E3. split; [by etransitivity|].
  intros e ->. destruct (T1 e eq_refl) as [Hp|(r' & G' & Ht)].
  - left. clear -S2 Hp. destruct (poisoned_reason (wp_ledger p1)) as [x|] eqn:Q; [|done].
    by rewrite (poisoned_steps _ _ _ Q S2), Q.
  - right. exists r'. split; [|done]. by apply (get_terminal_forever _ (wp_ledger p1)); [apply law_ledger| | |].
Qed.

Lemma update_cases env d (p p' : P) res :
  port_ok p -> env_ok env -> update_after_dispatch env d p = (p', res) ->
  port_ok p' /\ rtc ledger_step (wp_ledger p) (wp_ledger p') /\
  forall r, res = Ok r -> exists q, get_by_execution_id (env_execution_id env) (wp_ledger q) = Some r /\
    rtc ledger_step (wp_ledger p) (wp_ledger q) /\ rtc ledger_step (wp_ledger q) (wp_ledger p').
Proof.
  intros Hok He. unfold update_after_dispatch.
  assert (T : forall exp st rd tr err q q' r0, port_ok q ->
    gate_ledger (transition_execution (env_execution_id env) exp st rd tr err
      (env_update_at env) (env_update_io env)) q = (q', r0) ->
    port_ok q' /\ rtc ledger_step (wp_ledger q) (wp_ledger q') /\
    forall r, r0 = Ok (Some r) -> get_by_execution_id (env_execution_id env) (wp_ledger q') = Some r).
  { intros exp st rd tr err q q' r0 Hq E.
    destruct (gate_ledger_step _ _ _ _ Hq E) as [Hq' Sq].
    { intros l' E'. apply rtc_once. by eapply step_transition. }
    split; [done|]. split; [done|]. intros r ->. apply gate_ledger_eq in E as (l' & E & ->).
    rewrite law_get_set. by destruct (transition_result _ _ _ _ _ _ _ _ _ _ _ (law_ledger _ Hq) E) as (G & _). }
  unfold mbind at 1.
  match goal with |- context [match ?X with _ => _ end] => destruct X as [p1 r1] eqn:U end.
  assert (B : port_ok p1 /\ rtc ledger_step (wp_ledger p) (wp_ledger p1) /\
    forall r, r1 = Ok (Some r) -> get_by_execution_id (env_execution_id env) (wp_ledger p1) = Some r).
  { revert U. destruct (String.eqb _ "QUEUED"); [|apply T, Hok].
    unfold mbind at 1, mget. destruct (get_by_execution_id _ (wp_ledger p)) as [r|] eqn:G.
    - destruct (String.eqb (lr_status r) "ADMITTED").
      + unfold mbind at 1. destruct (yield_to_others env 8 p) as [q y] eqn:Y. apply yield_eq in Y as [-> ->].
        destruct (eo_interfere _ He 8 p Hok) as [Hq [Sq _]]. intros (H1' & H2' & H3')%T; [|done].
        split; [done|]. split; [by etransitivity|done].
      + intros [= <- <-]. split; [done|]. split; [apply rtc_refl|]. by intros ? [= <-].
    - intros [= <- <-]. split; [done|]. split; [apply rtc_refl|done]. }
  destruct B as (Hok1 & S1 & G1). destruct r1 as [[r|]|e].
  - intros [= <- <-]. split; [done|]. split; [done|]. intros r0 [= <-]. exists p1.
    split; [auto|]. split; [done|apply rtc_refl].
  - unfold mbind at 1. destruct (yield_to_others env 9 p1) as [q y] eqn:Y. apply yield_eq in Y as [-> ->].
    destruct (eo_interfere _ He 9 p1 Hok1) as [Hq [Sq _]]. unfold mbind, mget, mret, mraise.
    assert (S : rtc ledger_step (wp_ledger p) (wp_ledger (interfere env 9 p1))) by by etransitivity.
    destruct (get_by_execution_id (env_execution_id env) (wp_ledger (interfere env 9 p1))) as [r|] eqn:G; cbn beta; intros [= <- <-]; (split; [done|]; split; [done|]); [|done].
    intros r0 [= <-]. exists (interfere env 9 p1). split; [done|]. split; [done|apply rtc_refl].
  - intros [= <- <-]. done.
Qed.

Lemma committed_not_reserved id r l : ledger_inv l -> od_get id (by_intent_id l) = Some r -> not_reserved id l.
Proof.
  intros Hi G. left. destruct (od_get id (reservations l)) as [rs|] eqn:R; [|done].
  destruct (inv_res _ Hi _ _ R) as (_ & N & _). congruence.
Qed.

(** After the commit nothing can take the reservation again. *)
Lemma run_reserved_cases g env rq (p p' : P) res :
  port_ok p -> env_ok env -> env_fail_at env <> EmptyString ->
  by_execution_id (wp_ledger p) !! env_execution_id env = None ->
  run_reserved g env rq p = (p', res) ->
  port_ok p' /\ rtc ledger_step (wp_ledger p) (wp_ledger p') /\
  not_reserved (rq_intent_id rq) (wp_ledger p').
Proof.
  intros Hok He Hnow Hf. unfold run_reserved. unfold mbind at 1.
  destruct (reserve_and_commit g env rq p) as [p1 [signed|e]] eqn:R;
    destruct (reserve_and_commit_cases _ _ _ _ _ _ Hok He Hf R) as (Hok1 & S1 & X);
    [|by intros [= <- <-]].
  destruct X as (active & grants & retry & op & l0 & _ & _ & _ & _ & [G1 G2] & _).
  set (r0 := call_record env rq signed.1 retry op) in *.
  change (lr_intent_id r0) with (rq_intent_id rq) in G1.
  change (lr_execution_id r0) with (env_execution_id env) in G2.
  assert (K : forall q, port_ok q -> rtc ledger_step (wp_ledger p1) (wp_ledger q) ->
     port_ok q /\ rtc ledger_step (wp_ledger p) (wp_ledger q) /\ not_reserved (rq_intent_id rq) (wp_ledger q)).
  { intros q Hq Sq. split; [done|]. split; [by etransitivity|].
    destruct (ledger_steps_record _ _ _ _ Sq (law_ledger _ Hok1) G1) as (r' & G' & _).
    by eapply committed_not_reserved; [apply law_ledger|]. }
  unfold mbind at 1.
  destruct (dispatch_admitted g env rq signed.1 signed.2 p1) as [p2 r2] eqn:D.
  destruct (dispatch_admitted_cases _ _ _ _ _ _ _ _ _ Hok1 He Hnow G2 D) as (Hok2 & S2 & _).
  destruct r2 as [d|e]; [|intros [= <- <-]; by apply K].
  unfold mbind at 1. destruct (yield_to_others env 7 p2) as [p3 y] eqn:Y. apply yield_eq in Y as [-> ->].
  destruct (eo_interfere _ He 7 p2 Hok2) as [Hok3 [S3 _]].
  assert (S13 : rtc ledger_step (wp_ledger p1) (wp_ledger (interfere env 7 p2))) by by etransitivity.
  unfold mbind at 1. destruct (update_after_dispatch env d _) as [p4 r4] eqn:U.
  destruct (update_cases _ _ _ _ _ Hok3 He U) as (Hok4 & S4 & _).
  assert (S14 : rtc ledger_step (wp_ledger p1) (wp_ledger p4)) by by etransitivity.
  destruct r4; [unfold mlift|]; intros [= <- <-]; by apply K.
Qed.
End GateInv.

(** ** The two in-process dispatch ports *)

(** ** The subprocess queue *)

Record queue_env := mkQueueEnv {
  queued_at : string;
  queue_failed_at : string;
  queued_io : append_outcome;
  queue_failed_io : append_outcome;
  submitted : bool;
  before_cleanup : DispatchPort -> DispatchPort;
  before_failure : DispatchPort -> DispatchPort;
}.

#[export] Instance subprocess_port `{SchemaValidator} : WorkerDispatchPort DispatchPort := {
  dispatch_env := queue_env;
  wp_ledger := port_ledger;
  wp_set_ledger := set_port_ledger;
  wp_reserve_capacity := reserve_capacity;
  wp_release_capacity := release_capacity_reservation;
  wp_dispatch env bundle :=
    do! ack := dispatch bundle (queued_at env) (queue_failed_at env) (queued_io env)
                 (queue_failed_io env) (submitted env) (before_cleanup env) (before_failure env) in
    mret (JObj ack);
}.

(** ** The mock *)

Record MockPort := mkMock {
  mock_ledger : IdempotencyLedger;
  dispatched_bundles : list (odict json);
  auto_complete : bool;
}.

Definition mock_dispatch `{SchemaValidator} (bundle : odict json) : M MockPort json :=
  mlift (match schema_validate "authorized-execution" (JObj bundle) with
         | Ok _ => Ok tt
         | Raise _ => Raise (dispatch_failed "Bundle failed authorized-execution schema validation")
         end) ;!
  mmodify (fun p => mkMock (mock_ledger p) (dispatched_bundles p ++ [bundle]) (auto_complete p)) ;!
  do! execution_id := mlift (bundle_path bundle "admission" "execution_id") in
  do! intent_id := mlift (bundle_path bundle "intent" "intent_id") in
  do! p := mget in
  mret (JObj [("dispatched", JBool true); ("execution_id", execution_id); ("intent_id", intent_id);
              ("status", JStr (if auto_complete p then "COMPLETED" else "RUNNING"))]).

#[export] Instance mock_port `{SchemaValidator} : WorkerDispatchPort MockPort := {
  dispatch_env := unit;
  wp_ledger := mock_ledger;
  wp_set_ledger l p := mkMock l (dispatched_bundles p) (auto_complete p);
  wp_reserve_capacity _ := mret tt;
  wp_release_capacity _ := mret tt;
  wp_dispatch _ := mock_dispatch;
}.

Section Laws.
Context `{SchemaValidator}.

(** The mock never touches the ledger. *)
#[export] Instance mock_laws : PortLaws MockPort.
Proof.
  refine {| port_ok p := ledger_inv (mock_ledger p); dispatch_env_ok _ := True |}; try done.
  - intros p l Hi Hs. by eapply ledger_steps_inv.
  - by intros id p p' r Hi [= <- <-].
  - by intros id p p' r Hi [= <- <-].
  - intros env b p p' r Hi _. cbn. unfold mock_dispatch, mbind, mlift, mmodify, mget, mret.
    assert (R : rtc ledger_step (mock_ledger p) (mock_ledger p)) by apply rtc_refl.
    repeat case_match; simplify_eq; intros; simplify_eq/=; done.
Defined.

(** Other threads keep the queue's invariant, with the cleanups they have
    pending themselves. *)
Definition queue_interference (total : nat) (f : DispatchPort -> DispatchPort) : Prop :=
  forall p pend, port_inv total p pend ->
    (exists extra, port_inv total (f p) (pend ++ extra)) /\
    rtc ledger_step (port_ledger p) (port_ledger (f p)).

Lemma publish_step eid iid bundle now io sub p p' loc res :
  dispatch_publish eid iid bundle now io sub p = (p', loc, res) ->
  rtc ledger_step (port_ledger p) (port_ledger p').
Proof.
  unfold dispatch_publish.
  destruct (take_capacity iid _) as [p1 r1] eqn:T.
  apply take_capacity_cases in T as [(e & -> & ->)|(-> & c & r & -> & _)].
  { intros [= <- _ _]. apply rtc_refl. }
  destruct (on_ledger _ _) as [p2 r2] eqn:L. apply on_ledger_transition in L as (l' & -> & S & _).
  apply rtc_once in S. destruct r2 as [[rec|]|e]; [unfold add_job, mmodify| |]; intros [= <- _ _]; exact S.
Qed.

Lemma cleanup_ledger loc p p' r : dispatch_cleanup loc p = (p', r) -> port_ledger p' = port_ledger p.
Proof.
  unfold dispatch_cleanup, mbind, mmodify, mret, release_permit.
  destruct (owns_job _ _ p), (capacity_owned loc); repeat case_match; by intros [= <- _].
Qed.

Lemma dispatch_laws total bundle now now2 io io2 sub f1 f2 p p' r pend :
  queue_interference total f1 -> queue_interference total f2 -> port_inv total p pend ->
  dispatch bundle now now2 io io2 sub f1 f2 p = (p', r) ->
  (exists pend', port_inv total p' pend') /\ rtc ledger_step (port_ledger p) (port_ledger p').
Proof.
  intros F1 F2 Hi. unfold dispatch. destruct (bundle_ids bundle) as [[eid iid]|e].
  2: { intros [= <- _]. split; [eauto|apply rtc_refl]. }
  destruct (dispatch_publish _ _ _ _ _ _ p) as [[p1 loc] r1] eqn:Pu.
  pose proof (publish_step _ _ _ _ _ _ _ _ _ _ Pu) as S1.
  destruct (publish_inv total _ _ _ _ _ _ _ _ _ _ _ Hi Pu) as [(-> & Hi1 & _)|(e & -> & Hi1)].
  { intros [= <- _]. eauto. }
  unfold mbind at 1, mmodify at 1. destruct (F1 _ _ Hi1) as [[x1 Hi2] S2].
  unfold mbind at 1. destruct (dispatch_cleanup loc (f1 p1)) as [p3 r3] eqn:C.
  pose proof (cleanup_ledger _ _ _ _ C) as E3.
  destruct (cleanup_inv total loc _ _ _ [] (pend ++ x1) Hi2 C) as [Hi3 ->]. cbn [app] in Hi3.
  unfold mbind at 1, mmodify at 1. destruct (F2 _ _ Hi3) as [[x2 Hi4] S4].
  assert (S : rtc ledger_step (port_ledger p) (port_ledger (f2 p3))).
  { etransitivity; [exact S1|]. etransitivity; [exact S2|]. by rewrite <- E3. }
  unfold mbind, dispatch_fail, mraise. destruct (queued_committed loc).
  2: { intros [= <- _]. eauto. }
  unfold mbind. destruct (on_ledger _ (f2 p3)) as [p5 r5] eqn:L.
  apply on_ledger_transition in L as (l' & -> & S5 & _).
  intros E. assert (p' = set_port_ledger l' (f2 p3)) as ->.
  { destruct r5; unfold mret in E; congruence. }
  split; [eexists; by apply inv_set_ledger|]. by eapply rtc_r.
Qed.

(** The subprocess queue keeps the gate's contract, whatever its capacity. *)
#[export] Instance subprocess_laws : PortLaws DispatchPort.
Proof.
  refine {|
    port_ok p := exists total pend, port_inv total p pend;
    dispatch_env_ok (e : @dispatch_env DispatchPort _) :=
      forall total, queue_interference total (before_cleanup e) /\ queue_interference total (before_failure e) |};
    try done.
  - intros p (total & pend & Hi). apply Hi.
  - intros p l (total & pend & Hi) Hs. exists total, pend. cbn in Hs.
    assert (forall q, port_inv total q pend -> forall l1, rtc ledger_step (port_ledger q) l1 ->
              port_inv total (set_port_ledger l1 q) pend) as A; [|by apply A].
    clear. intros q Hi l1 Hs. remember (port_ledger q) as l0 eqn:E. revert q Hi E.
    induction Hs as [l|l2 l3 l4 S _ IH]; intros q Hi ->; [by destruct q|].
    apply (IH (set_port_ledger l3 q)); [by apply inv_set_ledger|done].
  - intros id p p' r (total & pend & Hi) E. split; [|].
    + exists total, pend. by eapply reserve_inv.
    + revert E. cbn. unfold reserve_capacity, mrequire, mlift, mbind, mget, try_acquire, mmodify.
      destruct (accepting p); cbn [require]; [|by intros [= <- _]].
      destruct (bool_decide _); cbn [require]; [|by intros [= <- _]].
      destruct (capacity p); by intros [= <- _].
  - intros id p p' r (total & pend & Hi) E. destruct (release_inv total _ _ _ _ _ Hi E) as [Hi' ->].
    split; [by exists total, pend|]. split; [|done].
    revert E. cbn. unfold release_capacity_reservation, mbind, mget, mput, mret, release_permit.
    destruct (bool_decide _); [case_match|]; by intros [= <-].
  - intros e b p p' r (total & pend & Hi) He. destruct (He total) as [F1 F2]. cbn. unfold mbind.
    destruct (dispatch _ _ _ _ _ _ _ _ p) as [q [d|x]] eqn:D;
      destruct (dispatch_laws _ _ _ _ _ _ _ _ _ _ _ _ _ F1 F2 Hi D) as [[pend' Hi'] Hs];
      intros [= <- _]; (split; [by exists total, pend'|done]).
Defined.
End Laws.
