(* ===== verification/GateProps.v ===== *)
(** * Properties of the authorization gate

    For every lawful port and every interference by other threads: what is
    admitted is authorized, signed and durable before it is dispatched, no
    reservation outlives its call, a failed dispatch settles, resubmission is
    idempotent, and only owners read. *)

From stdpp Require Import relations.
From S2P Require Import Prelude PyFloat Json JsonText Text Sha256 Errors Canonical LedgerRecord Ledger LedgerInv LedgerSystem Quota Policy Ingress Status Dispatch DispatchSettle Gate GateInv.
Open Scope string_scope.
Open Scope py_scope.

Section GateProps.
Context `{SchemaValidator} `{IsoText} `{Ed25519} {P : Type} `{WorkerDispatchPort P} `{!PortLaws P}.

(** ** The admission document *)

Lemma preflight_Ok g raw creds now rq :
  preflight g raw creds now = Ok rq ->
  authenticate (auth_port g) creds = Ok (rq_subject rq) /\
  evaluate_admission (rq_subject rq) (rq_intent rq) = Ok tt /\
  parse_intent (max_bytes g) raw now = Ok (rq_intent rq) /\
  od_get "intent_id" (rq_intent rq) = Some (JStr (rq_intent_id rq)) /\
  od_get "intent_digest" (rq_intent rq) = Some (JStr (rq_intent_digest rq)).
Proof.
  assert (SI : forall k d s, string_item k d = Ok s -> od_get k d = Some (JStr s)).
  { intros k d s. unfold string_item, get_item. destruct (od_get k d) as [[]|]; try done.
    by intros [= ->]. }
  unfold preflight. rewrite rbind_Ok. intros (intent & Hp & X).
  rewrite rbind_Ok in X. destruct X as (iid & E1%SI & X).
  rewrite rbind_Ok in X. destruct X as (dg & E2%SI & X).
  rewrite rbind_Ok in X. destruct X as (s & Ha & X).
  rewrite rbind_unit_Ok in X. destruct X as (He & X).
  rewrite rbind_Ok in X. destruct X as (w & _ & X).
  rewrite rbind_Ok in X. destruct X as (op & _ & X).
  rewrite rbind_unit_Ok in X. destruct X as (_ & [= <-]). done.
Qed.

Lemma signed_admission_Ok g skeleton admission digest
  (Hd : od_get "admission_digest" skeleton = None) (Ha : od_get "authenticator" skeleton = None) :
  signed_admission g skeleton = Ok (admission, digest) ->
  verify_admission_signature admission (public_key_of (identity_key (gate_identity g))) = Ok true /\
  compute_admission_digest admission = Ok digest /\
  od_get "admission_digest" admission = Some (JStr digest) /\
  (forall k, k <> "admission_digest" -> k <> "authenticator" -> od_get k admission = od_get k skeleton).
Proof.
  unfold signed_admission. rewrite rbind_Ok. intros (dg & Hdg & X).
  rewrite rbind_Ok in X. destruct X as (sig & Hs & [= <- <-]).
  split; [|split; [|split]].
  - apply (signed_doc_verifies _ (authenticator g)); [by rewrite od_get_set_eq|exact Hs].
  - rewrite <- Hdg. unfold compute_admission_digest. do 3 f_equal.
    rewrite od_set_set. rewrite (od_set_new "admission_digest" _ skeleton Hd).
    rewrite od_set_new.
    2: { apply od_get_None. unfold od_keys. rewrite map_app, elem_of_app. cbn.
         apply od_get_None in Ha. unfold od_keys in Ha. set_solver. }
    assert (Pn : forall k (d : odict json), od_get k d = None -> od_pop k d = d).
    { clear. intros k d. induction d as [|[k' v] d IH]; cbn; [done|].
      destruct (String.eqb k k'); [done|]. intros E. by rewrite IH. }
    assert (Pa : forall k (d d2 : odict json), od_get k d = None -> od_pop k (d ++ d2)%list = (d ++ od_pop k d2)%list).
    { clear. intros k d d2. induction d as [|[k' v] d IH]; cbn; [done|].
      destruct (String.eqb k k'); [done|]. intros E. by rewrite IH. }
    rewrite <- app_assoc. rewrite (Pa "admission_digest" skeleton) by done.
    rewrite (Pa "authenticator" skeleton) by done. cbn. rewrite app_nil_r.
    by rewrite (Pn "admission_digest" skeleton), (Pn "authenticator" skeleton).
  - by rewrite !od_get_set_ne, od_get_set_eq by done.
  - intros k H1' H2'. by rewrite !od_get_set_ne.
Qed.

Lemma admission_deadline_Ok g intent now e :
  admission_deadline g intent now = Ok e ->
  exists s t, od_get "expires_at" intent = Some (JStr s) /\ fromisoformat (replace_z s) = Some t /\
    instant e = Z.min (instant t) (instant now + admission_ttl_seconds g * 1000000) /\
    (e = t \/ e = add_seconds now (admission_ttl_seconds g)).
Proof.
  unfold admission_deadline, get_item. destruct (od_get "expires_at" intent) as [v|]; [|done].
  cbn [rbind]. destruct v as [| | | |s| |]; try done.
  destruct (fromisoformat (replace_z s)) as [t|] eqn:F; [|done]. unfold moment_min, moment_le.
  destruct (Bool.eqb _ _); [|done]. cbn [rbind]. intros E. exists s, t. split; [done|]. split; [done|].
  injection E as <-. unfold add_seconds in *.
  match goal with |- context [(?a <=? ?b)%Z] => destruct (Z.leb_spec a b) as [L|L] end;
    cbn [instant] in *; (split; [lia|]); auto.
Qed.

(** A durable record always has a status document, if the schema takes it. *)
Lemma record_status_total ex r a d op now :
  record_ok ex r -> lr_operation r = Some op ->
  (forall doc, schema_accepts "execution-status" doc = true) ->
  exists doc, build_execution_status (lr_execution_id r) (lr_intent_id r) (lr_intent_digest r) a d
    (lr_status r) op (lr_receipt_digest r) (lr_error r) (Some (lr_updated_at r)) now true = Ok doc /\
    jget "state" doc = JStr (lr_status r) /\ jget "admission_id" doc = a.
Proof.
  intros [Hs Ht] Eo Hacc.
  apply validate_snapshot_fields in Hs as (_ & (st & Est & Hk) & _ & Ho & _).
  cbn in Est. injection Est as <-.
  assert (Hd : lr_receipt_digest r <> Some EmptyString).
  { destruct (Ho "receipt_digest") as [E|(t & E & Hne)]; [by apply str_in_elem|..]; cbn in E;
      destruct (lr_receipt_digest r); cbn in E; congruence. }
  assert (SV : forall doc, schema_validate "execution-status" doc = Ok tt).
  { intros doc. unfold schema_validate. by rewrite Hacc. }
  unfold build_execution_status.
  assert (Hv : str_in (lr_status r) VALID_STATES = true).
  { apply str_in_elem. unfold KNOWN_STATUSES, VALID_STATES in *. set_solver. }
  rewrite Hv. cbn [require rbind]. unfold _validate_terminal_invariants in Ht.
  unfold KNOWN_STATUSES in Hk. apply elem_of_app in Hk as [Hk|Hk].
  - unfold NONTERMINAL_STATUSES in Hk. rewrite !elem_of_cons, elem_of_nil in Hk.
    destruct Hk as [->|[->|[->|[]]]]; eexists; (split; [cbn -[schema_validate]; rewrite SV; reflexivity|done]).
  - unfold TERMINAL_STATUSES in Hk. rewrite !elem_of_cons, elem_of_nil in Hk.
    assert (F : forall st, lr_status r = st -> str_in st ["FAILED"; "TIMED_OUT"; "CANCELLED"] = true ->
       exists x e, lr_error r = Some (x :: e)).
    { intros st E1 E2. rewrite E1 in Ht.
      assert (st = "FAILED" \/ st = "TIMED_OUT" \/ st = "CANCELLED") as X.
      { apply str_in_elem in E2. set_solver. }
      destruct X as [->|[->| ->]]; cbn in Ht; destruct (lr_receipt_digest r), (lr_terminal_receipt r); try done;
        destruct (lr_error r) as [[|x e]|]; try done; eauto. }
    destruct Hk as [E|[E|[E|[E|[]]]]]; pose proof (F _ E) as Fe; rewrite E in *.
    2-4: destruct (Fe eq_refl) as (x & e & ->); eexists; (split; [cbn -[schema_validate]; rewrite SV; reflexivity|done]).
    cbn in Ht. destruct (lr_error r); [done|]. unfold completed_digest.
    destruct (bool_decide_reflect (lr_operation r = Some "MATERIALIZE_DATASET")) as [Em|Em].
    + rewrite Eo in Em. injection Em as ->.
      destruct (lr_receipt_digest r) as [[|c t]|]; eexists; (split; [cbn -[schema_validate]; rewrite SV; reflexivity|done]).
    + destruct (lr_receipt_digest r) as [[|c t]|]; try done. eexists. split; [cbn -[schema_validate]; rewrite SV; reflexivity|done].
Qed.

(** ** Properties *)

(** C5: nothing is dispatched that was not authorized, signed and made durable.
    When the reserved part of a call hands an admission on to dispatch, the
    caller was authenticated with an entitled role, the intent declares its own
    digest, the concurrency limit leaves room, the admission carries its digest
    and a signature that verifies under the gate's key, the intent has not
    expired, the admission expires at the earlier of the intent's deadline and
    the end of the TTL, hence later than the call for a positive TTL, and the
    ledger holds it as the call's ADMITTED record, appended to the log.  The
    hypothesis on the reader of dates, that the empty string is none, is the
    documented behaviour of [datetime.fromisoformat]. *)
Theorem admission_authorized_and_durable g env raw creds rq (p p' : P) admission digest
  (Hiso : fromisoformat EmptyString = None) (Hok : port_ok p) (He : env_ok env)
  (Hf : by_execution_id (wp_ledger p) !! env_execution_id env = None)
  (Hp : preflight g raw creds (env_now env) = Ok rq)
  (Hr : reserve_and_commit g env rq p = (p', Ok (admission, digest))) :
  authenticate (auth_port g) creds = Ok (rq_subject rq) /\
  evaluate_admission (rq_subject rq) (rq_intent rq) = Ok tt /\
  verify_intent_digest (rq_intent rq) = Ok true /\
  (exists active, (active_count (Some (rq_intent_id rq)) (wp_ledger p)).2 = Ok active /\
     (Z.of_nat active < max_concurrency (quota_manager g))%Z) /\
  verify_admission_signature admission (public_key_of (identity_key (gate_identity g))) = Ok true /\
  compute_admission_digest admission = Ok digest /\
  od_get "admission_digest" admission = Some (JStr digest) /\
  (exists s t e, od_get "expires_at" (rq_intent rq) = Some (JStr s) /\
     fromisoformat (replace_z s) = Some t /\
     od_get "admission_expires_at" admission = Some (JStr (isoformat e)) /\
     (instant (env_now env) < instant t)%Z /\
     instant e = Z.min (instant t) (instant (env_now env) + admission_ttl_seconds g * 1000000) /\
     ((0 < admission_ttl_seconds g)%Z -> (instant (env_now env) < instant e)%Z)) /\
  (exists r l, committed_in p' r /\ lr_status r = "ADMITTED" /\
     lr_admission_record r = Some admission /\ lr_intent r = Some (rq_intent rq) /\
     lr_authenticated_subject_id r = subject_id (rq_subject rq) /\
     lr_execution_id r = env_execution_id env /\
     persistence (wp_ledger p') = appended r (persistence l)).
Proof.
  destruct (preflight_Ok _ _ _ _ _ Hp) as (Ha & Hev & Hpi & _).
  destruct (reserve_and_commit_cases _ _ _ _ _ _ Hok He Hf Hr)
    as (_ & _ & active & grants & retry & op & l & Hac & Hgr & Hpr & _ & Hc & Hl).
  split; [done|]. split; [done|].
  apply parse_intent_iff in Hpi as (_ & _ & _ & Hvd & Hexp). split; [done|].
  split.
  { exists active. split; [done|]. unfold evaluate_grants in Hgr.
    apply rbind_unit_Ok in Hgr as [_ Hgr]. apply rbind_unit_Ok in Hgr as [Hgr%require_Ok _].
    apply negb_true_iff, Z.leb_gt in Hgr. done. }
  unfold prepare_admission in Hpr. apply rbind_Ok in Hpr as (e & Hd & Hpr).
  apply rbind_Ok in Hpr as ([adm dg] & Hs & Hpr). rewrite !rbind_unit_Ok in Hpr.
  destruct Hpr as (_ & _ & [= -> ->]).
  apply signed_admission_Ok in Hs as (Hv & Hcd & Hd1 & Hk); [|done|done].
  split; [done|]. split; [done|]. split; [done|]. split.
  - destruct (admission_deadline_Ok _ _ _ _ Hd) as (s & t & Es & Ft & Em & _).
    unfold jget in Hexp. rewrite Es in Hexp. destruct (String.eqb_spec s EmptyString) as [->|Ns].
    { change (replace_z EmptyString) with EmptyString in Ft. congruence. }
    destruct (Hexp (proj2 (negb_true_iff _) (proj2 (String.eqb_neq _ _) Ns))) as (t' & Ft' & _ & Lt). cbn [parse_timestamp] in Ft'.
    rewrite Ft in Ft'. injection Ft' as <-. exists s, t, e.
    split; [done|]. split; [done|]. split; [by rewrite Hk|]. split; [done|]. split; [exact Em|]. lia.
  - exists (call_record env rq admission retry op), l. done.
Qed.

(** C22: no reservation outlives its call.  Whether the call that was granted
    the reservation returns or raises, at quota, capacity, signing, commit,
    dispatch or response, it leaves the port and the ledger coherent and its
    intent unreserved (or the ledger poisoned). *)
Theorem reservation_never_leaks g env rq (p p' : P) res
  (Hok : port_ok p) (He : env_ok env) (Hnow : env_fail_at env <> EmptyString)
  (Hf : by_execution_id (wp_ledger p) !! env_execution_id env = None)
  (Hr : run_reserved g env rq p = (p', res)) :
  port_ok p' /\ rtc ledger_step (wp_ledger p) (wp_ledger p') /\
  (od_get (rq_intent_id rq) (reservations (wp_ledger p')) = None \/
   poisoned_reason (wp_ledger p') <> None).
Proof. exact (run_reserved_cases _ _ _ _ _ _ Hok He Hnow Hf Hr). Qed.

(** a failed dispatch never leaves its execution dangling.  If the port
    raises or returns a result that is rejected, then when the exception
    reaches the caller the execution has a terminal status, or the ledger is
    poisoned. *)
Theorem failed_dispatch_settles g env rq admission digest (p p' : P) e r
  (Hok : port_ok p) (He : env_ok env) (Hnow : env_fail_at env <> EmptyString)
  (Hg : get_by_execution_id (env_execution_id env) (wp_ledger p) = Some r)
  (Hd : dispatch_admitted g env rq admission digest p = (p', Raise e)) :
  port_ok p' /\
  (poisoned_reason (wp_ledger p') <> None \/
   exists r', get_by_execution_id (env_execution_id env) (wp_ledger p') = Some r' /\
              lr_status r' ∈ TERMINAL_STATUSES).
Proof.
  destruct (dispatch_admitted_cases _ _ _ _ _ _ _ _ _ Hok He Hnow Hg Hd) as (? & _ & X).
  split; [done|]. by apply (X e).
Qed.

(** resubmission is idempotent.  An intent that is already committed for the
    same digest and owner is answered from the ledger: no reservation, no
    capacity, no dispatch, and the ledger is untouched. *)
Theorem resubmission_answers_from_ledger g env raw creds rq (p : P) r
  (Hp : preflight g raw creds (env_now env) = Ok rq)
  (Hn : poisoned_reason (wp_ledger (interfere env 0 p)) = None)
  (Hg : od_get (rq_intent_id rq) (by_intent_id (wp_ledger (interfere env 0 p))) = Some r)
  (Hs : lr_authenticated_subject_id r = subject_id (rq_subject rq))
  (Hd : lr_intent_digest r = rq_intent_digest rq) :
  let q := interfere env 0 p in
  admit_and_dispatch g env raw creds p =
  (wp_set_ledger (wp_ledger q) q, let? doc := already_admitted env r in Ok (Some doc)).
Proof.
  cbn zeta. unfold admit_and_dispatch, mbind at 1, mlift at 1. rewrite Hp. unfold mbind at 1.
  unfold yield_to_others at 1, mmodify at 1. unfold mbind at 1.
  assert (A : gate_ledger (acquire_or_check (rq_intent_id rq) (rq_intent_digest rq)
    (subject_id (rq_subject rq)) (env_reserved_at env) 30000 (env_monotonic env) (env_wakeups env))
    (interfere env 0 p) = (wp_set_ledger (wp_ledger (interfere env 0 p)) (interfere env 0 p), Ok (Some (Some r)))).
  { unfold gate_ledger, acquire_or_check.
    destruct (env_wakeups env); cbn [acquire_loop]; unfold mbind at 1;
      by rewrite (acquire_committed _ _ _ _ _ _ _ _ Hn Hg), Hs, Hd, !String.eqb_refl. }
  rewrite A. unfold mbind, mlift, mret. by destruct (already_admitted env r).
Qed.

(** only the owner reads an execution.  Anybody else who authenticates is
    refused by both reads; the owner gets the durable receipt, and the status
    document of every coherent ledger record whose admission carries its
    identifiers, provided the schema accepts the document built. *)
Theorem only_owner_reads g eid creds now l s r
  (Hi : ledger_inv l) (Ha : authenticate (auth_port g) creds = Ok s)
  (Hg : get_by_execution_id eid l = Some r) :
  if String.eqb (lr_authenticated_subject_id r) (subject_id s) then
    get_receipt g eid creds l = Ok (lr_terminal_receipt r) /\
    (forall admission a d op,
       lr_admission_record r = Some admission -> lr_operation r = Some op ->
       od_get "admission_id" admission = Some a -> od_get "admission_digest" admission = Some d ->
       (forall doc, schema_accepts "execution-status" doc = true) ->
       exists doc, get_status g eid creds now l = Ok (Some doc) /\
                   jget "state" doc = JStr (lr_status r) /\ jget "admission_id" doc = a)
  else
    get_receipt g eid creds l = Raise (ControllerErr UnauthorizedCallerError "Subject cannot read execution") /\
    get_status g eid creds now l = Raise (ControllerErr UnauthorizedCallerError "Subject cannot read execution").
Proof.
  assert (E : _get_owned_record g eid creds l =
    if String.eqb (lr_authenticated_subject_id r) (subject_id s) then Ok (Some r)
    else Raise (ControllerErr UnauthorizedCallerError "Subject cannot read execution")).
  { unfold _get_owned_record. rewrite Ha. cbn [rbind]. rewrite Hg. by destruct (String.eqb _ _). }
  unfold get_receipt, get_status. rewrite E. destruct (String.eqb _ _); [|done]. cbn [rbind].
  split; [done|]. intros admission a d op Ea Eo E1 E2 Hs. unfold record_status. rewrite Ea, Eo.
  unfold get_item. rewrite E1, E2. cbn [rbind].
  destruct (lookup_of_get _ _ _ Hi Hg) as (_ & _ & Hok & _).
  destruct (record_status_total (expected_producer_commit l) r a d op now Hok Eo Hs)
    as (doc & -> & Hst & Had). by exists doc.
Qed.
End GateProps.
