(* ===== verification/GateWitness.v ===== *)
(** * The gate on a concrete submission

    An operator submits a training intent to a gate over the subprocess queue;
    the run is evaluated to the acknowledged response, resubmitted, and failed. *)

From stdpp Require Import relations.
From S2P Require Import Prelude PyFloat Json JsonText Text Sha256 Errors Canonical LedgerRecord Ledger LedgerInv LedgerSystem LedgerLoad LedgerWitness Quota Policy Ingress Status Dispatch DispatchInv DispatchSettle DispatchWitness Gate GateInv GateProps.
Open Scope string_scope.
Open Scope py_scope.

Definition sub_intent0 : odict json :=
  [("intent_id", JStr "i9"); ("operation", JStr "TRAIN_TICKET");
   ("expires_at", JStr "2030-01-01T00:00:00Z");
   ("workload", JObj [("catalog_backend_ref", JStr FROZEN_CATALOG_REF);
      ("model_plugin_id", JStr "tabular-10gene-phenotype-v1");
      ("dataset_id", JStr "synthetic-10gene-cohort-v1");
      ("requested_scope", JStr "PLUGIN_BOUNDARY")])].
Definition sub_intent : odict json := Eval vm_compute in
  match compute_intent_digest sub_intent0 with
  | Ok d => od_set "intent_digest" (JStr d) sub_intent0
  | Raise _ => []
  end.

Definition sub_gate : AuthorizationGate (H := toy_ed25519) :=
  mkGate toy_ed25519 MAX_INGRESS_BYTES Policy.demo_port default_catalog default_quota
    (mkIdentity toy_ed25519 "sk" "key-1" "issuer-1") demo_commit40 DEFAULT_POLICY_VERSION 300.

Definition sub_port : DispatchPort := fresh_port 2 demo0 demo_commit40.

Definition quiet_env (io : append_outcome) (submit : bool) : call_env (P := DispatchPort) :=
  mkEnv (P := DispatchPort) (mkMoment 1000 (Some 0%Z)) "t0" 0 [] "a9" "e9" "t1" io
    (mkQueueEnv "t2" "t3" AppendOk AppendOk submit id id : dispatch_env (P := DispatchPort))
    "t4" AppendOk "t5" AppendOk "t6" (fun _ p => p).

Lemma quiet_env_ok io b : env_ok (quiet_env io b).
Proof.
  constructor.
  - intros k p Hp. split; [exact Hp|]. apply rely_refl.
  - constructor.
  - intros total. split; intros p pend Hi; (split; [exists []; by rewrite app_nil_r|apply rtc_refl]).
Qed.

Lemma sub_port_ok : port_ok sub_port.
Proof. exists 2%nat, []. apply fresh_port_inv, inv_empty. Qed.

Definition sub_request : admitted_request := mkRequest sub_intent "i9"
  (to_str (jget "intent_digest" sub_intent)) Policy.demo_operator.

Lemma sub_preflight :
  preflight (H := accept_all) sub_gate (RawDict sub_intent) (Some Policy.demo_credentials)
    (mkMoment 1000 (Some 0%Z)) = Ok sub_request.
Proof. vm_compute. reflexivity. Qed.

(** The reservation, as [acquire_or_check] leaves it *)
Definition reserved_port : DispatchPort := Eval vm_compute in
  (gate_ledger (acquire_or_check "i9" (to_str (jget "intent_digest" sub_intent)) "alice" "t0" 30000 0 [])
     sub_port).1.
Definition committed_out := Eval vm_compute in
  reserve_and_commit sub_gate (quiet_env AppendOk true) sub_request reserved_port.
Definition committed_admission : odict json :=
  match committed_out.2 with Ok s => s.1 | Raise _ => [] end.
Definition committed_digest : string :=
  match committed_out.2 with Ok s => s.2 | Raise _ => EmptyString end.

Lemma reserved_port_ok : port_ok reserved_port.
Proof.
  exists 2%nat, []. change reserved_port with (set_port_ledger (port_ledger reserved_port) sub_port).
  apply inv_set_ledger; [apply fresh_port_inv, inv_empty|].
  eapply (step_acquire "i9" (to_str (jget "intent_digest" sub_intent)) "alice" "t0" 30000 0).
  vm_compute. reflexivity.
Qed.

Lemma committed_port_ok : port_ok committed_out.1.
Proof.
  destruct (reserve_and_commit_cases sub_gate (quiet_env AppendOk true) sub_request reserved_port
    committed_out.1 committed_out.2 reserved_port_ok (quiet_env_ok _ _)) as [Hok _];
    [vm_compute; reflexivity..|done].
Qed.

Lemma toy_iso_empty : fromisoformat (IsoText := toy_iso) EmptyString = None.
Proof. reflexivity. Qed.

Lemma admission_authorized_and_durable_witness :
  verify_admission_signature committed_admission (public_key_of (Ed25519 := toy_ed25519) "sk") = Ok true /\
  (exists e, od_get "admission_expires_at" committed_admission = Some (JStr (isoformat e)) /\
     (instant (env_now (quiet_env AppendOk true)) < instant e)%Z) /\
  exists r l, committed_in committed_out.1 r /\ lr_status r = "ADMITTED" /\
     lr_admission_record r = Some committed_admission /\
     persistence (port_ledger committed_out.1) = appended r (persistence l).
Proof.
  destruct (admission_authorized_and_durable sub_gate (quiet_env AppendOk true) (RawDict sub_intent)
    (Some Policy.demo_credentials) sub_request reserved_port committed_out.1 committed_admission
    committed_digest toy_iso_empty reserved_port_ok (quiet_env_ok _ _) eq_refl sub_preflight)
    as (_ & _ & _ & _ & Hv & _ & _ & (_ & _ & e & _ & _ & Ee & _ & _ & Le) & (r & l & Hc & Hs & Ha & _ & _ & _ & Hp)).
  - vm_compute. reflexivity.
  - split; [exact Hv|]. split; [exists e; split; [exact Ee|apply Le; reflexivity]|].
    exists r, l. repeat split; try assumption; apply Hc.
Defined.

(** The whole call is acknowledged as queued. *)
Definition response_state (r : result exn (option (odict json))) : option json :=
  match r with
  | Ok (Some doc) => match jget "status" doc with JObj s => Some (jget "state" s) | _ => None end
  | _ => None
  end.
Definition admitted_out := Eval vm_compute in
  admit_and_dispatch sub_gate (quiet_env AppendOk true) (RawDict sub_intent)
    (Some Policy.demo_credentials) sub_port.
Example admitted_queued : response_state admitted_out.2 = Some (JStr "QUEUED").
Proof. reflexivity. Qed.

(** The commit's append fails: the call raises and the ledger is poisoned. *)
Definition failed_out := Eval vm_compute in
  run_reserved sub_gate (quiet_env (AppendFails 5 (OSErr "ENOSPC")) true) sub_request reserved_port.

Lemma reservation_never_leaks_witness :
  port_ok failed_out.1 /\ rtc ledger_step (port_ledger reserved_port) (port_ledger failed_out.1) /\
  (od_get "i9" (reservations (port_ledger failed_out.1)) = None \/
   poisoned_reason (port_ledger failed_out.1) <> None).
Proof.
  apply (reservation_never_leaks sub_gate (quiet_env (AppendFails 5 (OSErr "ENOSPC")) true) sub_request
    reserved_port failed_out.1 failed_out.2); [apply reserved_port_ok|apply quiet_env_ok|done|..];
    vm_compute; reflexivity.
Defined.

(** The executor refuses the job: the execution is failed. *)
Definition refused_out := Eval vm_compute in
  dispatch_admitted sub_gate (quiet_env AppendOk false) sub_request committed_admission committed_digest
    committed_out.1.

Lemma failed_dispatch_settles_witness :
  port_ok refused_out.1 /\
  (poisoned_reason (port_ledger refused_out.1) <> None \/
   exists r', get_by_execution_id "e9" (port_ledger refused_out.1) = Some r' /\
              lr_status r' ∈ TERMINAL_STATUSES).
Proof.
  destruct (get_by_execution_id "e9" (port_ledger committed_out.1)) as [r|] eqn:G;
    [|vm_compute in G; discriminate].
  apply (failed_dispatch_settles sub_gate (quiet_env AppendOk false) sub_request committed_admission
    committed_digest committed_out.1 refused_out.1
    (RuntimeErr "cannot schedule new futures after shutdown") r);
    [apply committed_port_ok|apply quiet_env_ok|done|exact G|].
  vm_compute. reflexivity.
Defined.

Lemma resubmission_answers_from_ledger_witness :
  exists r, response_state
    (admit_and_dispatch sub_gate (quiet_env AppendOk true) (RawDict sub_intent)
      (Some Policy.demo_credentials) admitted_out.1).2 = Some (JStr "QUEUED") /\
  admit_and_dispatch sub_gate (quiet_env AppendOk true) (RawDict sub_intent)
      (Some Policy.demo_credentials) admitted_out.1 =
  (set_port_ledger (port_ledger admitted_out.1) admitted_out.1,
   let? doc := already_admitted (quiet_env AppendOk true) r in Ok (Some doc)).
Proof.
  destruct (od_get "i9" (by_intent_id (port_ledger admitted_out.1))) as [r|] eqn:G;
    [|vm_compute in G; discriminate].
  exists r. split; [vm_compute; reflexivity|].
  assert (E : lr_authenticated_subject_id r = "alice" /\
              lr_intent_digest r = to_str (jget "intent_digest" sub_intent)).
  { vm_compute in G. injection G as <-. split; reflexivity. }
  apply (resubmission_answers_from_ledger sub_gate (quiet_env AppendOk true) (RawDict sub_intent)
    (Some Policy.demo_credentials) sub_request admitted_out.1 r sub_preflight);
    [vm_compute; reflexivity|exact G|apply E|apply E].
Defined.

Lemma only_owner_reads_witness :
  get_receipt sub_gate "e1" (Some Policy.demo_credentials) demo3 = Ok None /\
  (forall admission a d op,
     lr_admission_record demo_cancelled = Some admission -> lr_operation demo_cancelled = Some op ->
     od_get "admission_id" admission = Some a -> od_get "admission_digest" admission = Some d ->
     (forall doc, schema_accepts "execution-status" doc = true) ->
     exists doc, get_status sub_gate "e1" (Some Policy.demo_credentials) "t9" demo3 = Ok (Some doc) /\
                 jget "state" doc = JStr "CANCELLED" /\ jget "admission_id" doc = a).
Proof.
  apply (only_owner_reads sub_gate "e1" (Some Policy.demo_credentials) "t9" demo3 Policy.demo_operator
           demo_cancelled).
  - apply demo_inv3.
  - reflexivity.
  - vm_compute. reflexivity.
Defined.
