(* ===== verification/Application.v ===== *)
(** * The runtime application ([deltacontroller/application.py])

    [WorkingVersionApplication] joins the gate and the subprocess queue: it
    derives credentials from the transport, refuses work while draining, and
    cancels only for owners.  Its own errors are built with an explicit code
    instead of an error class. *)

From stdpp Require Import relations.
From S2P Require Import Prelude PyFloat Json JsonText Text Sha256 Errors Canonical LedgerRecord Ledger LedgerInv LedgerSystem Quota Policy Ingress Status LedgerWitness Dispatch DispatchInv DispatchSettle DispatchWitness Gate GateInv GateProps GateWitness.
Open Scope string_scope.
Open Scope py_scope.

(** An exception of the gate or the queue, or a [ControllerError] raised here *)
Inductive app_error :=
| AppRaised (e : exn)
| AppControllerError (code message category : string) (retryable : bool).

Record AppConfig := mkAppConfig {
  is_local : bool;
  profile : string;
  protocol_id : string;
  contract_schema_version : string;
  formal_semantics_id : string;
}.

Record AppState := mkApp {
  app_port : DispatchPort;
  app_ready : bool;
}.

(** ** Credentials *)

Definition ascii_lower (c : ascii) : ascii :=
  let n := nat_of_ascii c in
  if ((65 <=? n) && (n <=? 90))%nat then ascii_of_nat (n + 32) else c.

(** [s.casefold() == "bearer"]: only ASCII letters fold to these. *)
Fixpoint lower (s : string) : string :=
  match s with EmptyString => EmptyString | String c r => String (ascii_lower c) (lower r) end.

(** [s.partition(" ")] *)
Fixpoint partition_space (s : string) : string * bool * string :=
  match s with
  | EmptyString => (EmptyString, false, EmptyString)
  | String c r =>
      if ch_eq c " "%char then (EmptyString, true, r)
      else let '(a, sep, b) := partition_space r in (String c a, sep, b)
  end.

Fixpoint has_space (s : string) : bool :=
  match s with EmptyString => false | String c r => ch_eq c " "%char || has_space r end.

Definition credentials_for_request (cfg : AppConfig) (peer_ip : string)
  (authorization_header : option string) : result exn (odict json) :=
  if is_local cfg then
    require (String.eqb peer_ip "127.0.0.1")
      (ControllerErr AuthenticationFailedError "Local profile accepts loopback peers only") ;?
    match authorization_header with
    | Some _ => Raise (ControllerErr AuthenticationFailedError
                         "Local profile derives identity from loopback and rejects Authorization")
    | None => Ok [("type", JStr "LOCAL_PEER_CREDENTIAL"); ("subject_id", JStr "working-version-loopback")]
    end
  else
    match authorization_header with
    | None => Raise (ControllerErr AuthenticationRequiredError "Bearer authentication is required")
    | Some h =>
        let '(scheme, separator, value) := partition_space h in
        require (negb (negb (String.eqb (lower scheme) "bearer") || negb separator
                       || String.eqb value EmptyString || has_space value))
          (ControllerErr AuthenticationFailedError "Malformed bearer authorization") ;?
        Ok [("type", JStr "TOKEN"); ("token", JStr value)]
    end.

(** ** Requests *)

Definition shutting_down : app_error :=
  AppControllerError "ERR_SHUTTING_DOWN" "Controller is shutting down" "RESOURCE" true.
Definition already_terminal : app_error :=
  AppControllerError "ERR_EXECUTION_TERMINAL" "Execution is already terminal and cannot be cancelled"
    "IDEMPOTENCY" false.
Definition became_terminal : app_error :=
  AppControllerError "ERR_EXECUTION_TERMINAL"
    "Execution became terminal before cancellation committed" "IDEMPOTENCY" false.

Definition app_result {A} (r : result exn A) : result app_error A :=
  match r with Ok a => Ok a | Raise e => Raise (AppRaised e) end.

Section Application.
Context `{SchemaValidator} `{IsoText} `{Ed25519}.

Definition submit (g : AuthorizationGate) (env : call_env (P := DispatchPort)) (body : string)
  (credentials : odict json) (a : AppState) : AppState * result app_error (option (odict json)) :=
  if negb (app_ready a) then (a, Raise shutting_down)
  else
    let '(p, r) := admit_and_dispatch g env (RawBytes body) (Some credentials) (app_port a) in
    (mkApp p (app_ready a), app_result r).

Definition app_get_status (g : AuthorizationGate) (execution_id : string) (credentials : odict json)
  (now : string) (a : AppState) : result app_error (option (odict json)) :=
  app_result (get_status g execution_id (Some credentials) now (port_ledger (app_port a))).

Definition app_get_receipt (g : AuthorizationGate) (execution_id : string) (credentials : odict json)
  (a : AppState) : result app_error (option (odict json)) :=
  app_result (get_receipt g execution_id (Some credentials) (port_ledger (app_port a))).

(** [cancel]; [others1] and [others2] are other threads' steps after the owner
    check and after the cancellation. *)
Definition app_cancel (g : AuthorizationGate) (execution_id : string) (credentials : odict json)
  (now : string) (io : append_outcome) (others1 others2 : DispatchPort -> DispatchPort) (a : AppState)
  : AppState * result app_error (option (odict json)) :=
  match app_get_status g execution_id credentials now a with
  | Raise e => (a, Raise e)
  | Ok None => (a, Ok None)
  | Ok (Some doc) =>
      if str_in (to_str (jget "state" doc)) TERMINAL_STATUSES then (a, Raise already_terminal)
      else
        match cancel execution_id now io (others1 (app_port a)) with
        | (p, Raise e) => (mkApp p (app_ready a), Raise (AppRaised e))
        | (p, Ok None) => (mkApp p (app_ready a), Raise became_terminal)
        | (p, Ok (Some _)) =>
            let a := mkApp (others2 p) (app_ready a) in
            (a, app_get_status g execution_id credentials now a)
        end
  end.

(** ** Operational documents and shutdown *)

Definition health_document (cfg : AppConfig) (build_id instance_id : string) : odict json :=
  [("schema_version", JStr "1.0.0"); ("status", JStr "UP"); ("profile", JStr (profile cfg));
   ("build_id", JStr build_id); ("protocol_id", JStr (protocol_id cfg));
   ("contract_schema_version", JStr (contract_schema_version cfg));
   ("formal_semantics_id", JStr (formal_semantics_id cfg)); ("instance_id", JStr instance_id);
   ("components",
    JObj [("controller", JStr "UP"); ("worker", JStr "SUBPROCESS_BOUNDARY");
          ("admin_ui", JStr "STATIC_LIVE_BUILD"); ("native_runtime", JStr "REFERENCE_ONLY_NOT_STARTED");
          ("jvm_node", JStr "REFERENCE_ONLY_NOT_STARTED")])].

Definition readiness_document (cfg : AppConfig) (g : AuthorizationGate) (build_id instance_id : string)
  (a : AppState) : bool * odict json :=
  let ready := app_ready a in
  (ready,
   [("schema_version", JStr "1.0.0"); ("status", JStr (if ready then "READY" else "DRAINING"));
    ("build_id", JStr build_id); ("protocol_id", JStr (protocol_id cfg));
    ("contract_schema_version", JStr (contract_schema_version cfg));
    ("formal_semantics_id", JStr (formal_semantics_id cfg)); ("instance_id", JStr instance_id);
    ("signing_key_id", JStr (key_id (gate_identity g))); ("worker_trust_root", JStr "EXPLICIT_MATCH")]).

Definition begin_shutdown (a : AppState) : AppState := mkApp (app_port a) false.

(** ** Cancellation *)

Lemma status_doc_state r now doc :
  record_status r now = Ok doc -> jget "state" doc = JStr (lr_status r).
Proof.
  unfold record_status. destruct (lr_admission_record r) as [adm|]; [|done].
  destruct (lr_operation r) as [op|]; [|done]. rewrite rbind_Ok. intros (a & _ & X).
  rewrite rbind_Ok in X. destruct X as (d & _ & X). unfold build_execution_status in X.
  rewrite rbind_unit_Ok in X. destruct X as (_ & X). rewrite rbind_Ok in X. destruct X as (rc & _ & X).
  rewrite rbind_Ok in X. destruct X as (fl & _ & X). rewrite rbind_unit_Ok in X.
  by destruct X as (_ & [= <-]).
Qed.

Lemma get_status_Ok g eid creds now l doc :
  get_status g eid creds now l = Ok (Some doc) ->
  exists s r, authenticate (auth_port g) creds = Ok s /\ get_by_execution_id eid l = Some r /\
    lr_authenticated_subject_id r = subject_id s /\ jget "state" doc = JStr (lr_status r).
Proof.
  unfold get_status, _get_owned_record. rewrite rbind_Ok. intros (o & Ho & X).
  rewrite rbind_Ok in Ho. destruct Ho as (s & Ha & Ho).
  destruct (get_by_execution_id eid l) as [r|]; [|by injection Ho as <-].
  rewrite rbind_unit_Ok, require_Ok, String.eqb_eq in Ho. destruct Ho as (Hs & [= <-]).
  rewrite rbind_Ok in X. destruct X as (d & Hd & [= <-]). exists s, r.
  repeat (split; [done|]). by eapply status_doc_state.
Qed.

(** Cancelling changes something only for the owner of a live execution. *)
Lemma app_cancel_owner g eid creds now io f1 f2 a a' res :
  app_cancel g eid creds now io f1 f2 a = (a', res) ->
  a' = a \/
  exists s r, authenticate (auth_port g) (Some creds) = Ok s /\
    get_by_execution_id eid (port_ledger (app_port a)) = Some r /\
    lr_authenticated_subject_id r = subject_id s /\ (lr_status r ∉ TERMINAL_STATUSES).
Proof.
  unfold app_cancel, app_get_status. intros Hc.
  destruct (get_status g eid (Some creds) now (port_ledger (app_port a))) as [[doc|]|e] eqn:G;
    cbn [app_result] in Hc; [|by injection Hc as <- <-; left|by injection Hc as <- <-; left].
  apply get_status_Ok in G as (s & r & Ha & Hg & Hs & Hst). rewrite Hst in Hc. cbn [to_str] in Hc.
  destruct (str_in (lr_status r) TERMINAL_STATUSES) eqn:T; [injection Hc as <- <-; by left|].
  right. exists s, r. repeat (split; [done|]). rewrite <- str_in_elem. congruence.
Qed.

(** cancellation is authorized and truthful.  The queue is only asked to
    cancel an execution for its authenticated owner and while it is not
    terminal; otherwise nothing changes.  A document is returned only when the
    durable record is CANCELLED, and it says so. *)
Theorem cancellation_authorized g eid creds now io f1 f2 a a' res
  (Hi : ledger_inv (port_ledger (app_port a))) (Hnow : now <> EmptyString)
  (Hf1 : forall p, rtc ledger_step (port_ledger p) (port_ledger (f1 p)))
  (Hf2 : forall p, rtc ledger_step (port_ledger p) (port_ledger (f2 p)))
  (Hc : app_cancel g eid creds now io f1 f2 a = (a', res)) :
  (a' = a \/
   exists s r, authenticate (auth_port g) (Some creds) = Ok s /\
     get_by_execution_id eid (port_ledger (app_port a)) = Some r /\
     lr_authenticated_subject_id r = subject_id s /\ (lr_status r ∉ TERMINAL_STATUSES)) /\
  (forall doc, res = Ok (Some doc) ->
     jget "state" doc = JStr "CANCELLED" /\
     exists r, get_by_execution_id eid (port_ledger (app_port a')) = Some r /\
               lr_status r = "CANCELLED" /\ lr_error r = Some cancelled_error).
Proof.
  split; [by eapply app_cancel_owner|]. unfold app_cancel, app_get_status in Hc.
  destruct (get_status g eid (Some creds) now (port_ledger (app_port a))) as [[doc|]|e] eqn:G;
    cbn [app_result] in Hc; [|by injection Hc as <- <-..].
  apply get_status_Ok in G as (s & r & Ha & Hg & Hs & Hst). rewrite Hst in Hc. cbn [to_str] in Hc.
  destruct (str_in (lr_status r) TERMINAL_STATUSES); [by injection Hc as <- <-|].
  assert (Hi1 : ledger_inv (port_ledger (f1 (app_port a)))) by exact (ledger_steps_inv _ _ (Hf1 _) Hi).
  destruct (get_steps _ _ _ _ Hi (Hf1 (app_port a)) Hg) as (r1 & G1 & _).
  destruct (cancel eid now io (f1 (app_port a))) as [p [[c|]|e]] eqn:C;
    [|by injection Hc as <- <-|by injection Hc as <- <-].
  destruct (cancel_cases _ _ _ _ _ _ _ Hi1 Hnow G1 C) as [(_ & _ & ?)|[(_ & _ & x & ?)|(_ & E & _ & F)]]; try done.
  injection E as ->. injection Hc as <- <-. intros doc'. cbn [app_port].
  pose proof (F _ (Hf2 p)) as Gc.
  destruct (get_status g eid (Some creds) now (port_ledger (f2 p))) as [o|] eqn:G; [|done].
  intros [= ->]. apply get_status_Ok in G as (s' & r' & _ & Hg' & _ & Hst').
  rewrite Gc in Hg'. injection Hg' as <-. split; [done|]. by eexists.
Qed.
End Application.

(** The operator cancels the execution queued in [GateWitness]. *)
Definition app_queued : AppState := Eval vm_compute in mkApp admitted_out.1 true.
Definition app_cancelled := Eval vm_compute in
  app_cancel sub_gate "e9" Policy.demo_credentials "t8" AppendOk (fun p => p) (fun p => p) app_queued.

Lemma app_queued_inv : ledger_inv (port_ledger (app_port app_queued)).
Proof.
  destruct (run_reserved_cases sub_gate (quiet_env AppendOk true) sub_request reserved_port
    app_queued.(app_port) (run_reserved sub_gate (quiet_env AppendOk true) sub_request reserved_port).2
    reserved_port_ok (quiet_env_ok _ _)) as ((total & pend & Hi) & _ & _);
    [done|vm_compute; reflexivity|vm_compute; reflexivity|]. apply (pi_ledger _ _ _ Hi).
Qed.

Lemma cancellation_authorized_witness :
  exists doc, app_cancelled.2 = Ok (Some doc) /\ jget "state" doc = JStr "CANCELLED".
Proof.
  destruct app_cancelled.2 as [[doc|]|] eqn:E; [|discriminate E|discriminate E].
  exists doc. split; [reflexivity|].
  apply (cancellation_authorized sub_gate "e9" Policy.demo_credentials "t8" AppendOk (fun p => p) (fun p => p)
           app_queued app_cancelled.1 app_cancelled.2 app_queued_inv); [done|..].
  - intros p. apply rtc_refl.
  - intros p. apply rtc_refl.
  - vm_compute. reflexivity.
  - exact E.
Defined.
