(* ===== verification/WorkerErrors.v ===== *)
(** * Worker exceptions ([deltatorrent/domain/errors.py])

    A [DeltaError] carries its stable code and its message; the interpolated
    details are not modelled.  [worker_exn] adds the exceptions of the language,
    of the operating system and of torch that the worker modules let through,
    the four of worker/engine.py and any other a callback may raise.  The monad
    of a method that raises them comes with its weakest preconditions. *)

From S2P Require Import Prelude.
Open Scope string_scope.
Open Scope py_scope.

Inductive ErrorCode :=
| ARTIFACT_HASH_MISMATCH
| ARTIFACT_IMMUTABLE_CONFLICT
| ARTIFACT_NOT_FOUND
| FORMAL_SEMANTICS_MISMATCH
| INVALID_CONTENT_ID
| INVALID_MANIFEST
| INVALID_CONTRIBUTION_CANDIDATE
| INVALID_DELTA_TENSOR
| INVALID_LOCAL_COMPLETION
| INVALID_NETWORK_PROFILE
| INVALID_PARAMETER_SCHEMA
| INVALID_SCHEMA_ID
| INVALID_ARTIFACT_LOCATOR
| INVALID_TOKEN_ACCOUNTING
| INVALID_WORK_TICKET
| INVALID_WORKER_TRANSITION
| SCHEMA_INVALID
| NETEM_PLATFORM_UNSUPPORTED
| NETEM_PRIVILEGE_REQUIRED
| NETEM_TC_UNAVAILABLE
| UNKNOWN_MEDIA_TYPE
| UNSAFE_SERIALIZATION
| TICKET_ALREADY_IN_PROGRESS
| TICKET_ID_CONFLICT
| WORKER_CANCELLED
| WORKER_CRASH
| WORKER_DATA_EXHAUSTED
| WORKER_DEADLINE_EXCEEDED
| WORKER_OOM.

#[export] Instance ErrorCode_eq_dec : EqDecision ErrorCode.
Proof. solve_decision. Defined.

(** [code.value] *)
Definition ErrorCode_value (c : ErrorCode) : string :=
  match c with
  | ARTIFACT_HASH_MISMATCH => "ARTIFACT_HASH_MISMATCH"
  | ARTIFACT_IMMUTABLE_CONFLICT => "ARTIFACT_IMMUTABLE_CONFLICT"
  | ARTIFACT_NOT_FOUND => "ARTIFACT_NOT_FOUND"
  | FORMAL_SEMANTICS_MISMATCH => "FORMAL_SEMANTICS_MISMATCH"
  | INVALID_CONTENT_ID => "INVALID_CONTENT_ID"
  | INVALID_MANIFEST => "INVALID_MANIFEST"
  | INVALID_CONTRIBUTION_CANDIDATE => "INVALID_CONTRIBUTION_CANDIDATE"
  | INVALID_DELTA_TENSOR => "INVALID_DELTA_TENSOR"
  | INVALID_LOCAL_COMPLETION => "INVALID_LOCAL_COMPLETION"
  | INVALID_NETWORK_PROFILE => "INVALID_NETWORK_PROFILE"
  | INVALID_PARAMETER_SCHEMA => "INVALID_PARAMETER_SCHEMA"
  | INVALID_SCHEMA_ID => "INVALID_SCHEMA_ID"
  | INVALID_ARTIFACT_LOCATOR => "INVALID_ARTIFACT_LOCATOR"
  | INVALID_TOKEN_ACCOUNTING => "INVALID_TOKEN_ACCOUNTING"
  | INVALID_WORK_TICKET => "INVALID_WORK_TICKET"
  | INVALID_WORKER_TRANSITION => "INVALID_WORKER_TRANSITION"
  | SCHEMA_INVALID => "SCHEMA_INVALID"
  | NETEM_PLATFORM_UNSUPPORTED => "NETEM_PLATFORM_UNSUPPORTED"
  | NETEM_PRIVILEGE_REQUIRED => "NETEM_PRIVILEGE_REQUIRED"
  | NETEM_TC_UNAVAILABLE => "NETEM_TC_UNAVAILABLE"
  | UNKNOWN_MEDIA_TYPE => "UNKNOWN_MEDIA_TYPE"
  | UNSAFE_SERIALIZATION => "UNSAFE_SERIALIZATION"
  | TICKET_ALREADY_IN_PROGRESS => "TICKET_ALREADY_IN_PROGRESS"
  | TICKET_ID_CONFLICT => "TICKET_ID_CONFLICT"
  | WORKER_CANCELLED => "WORKER_CANCELLED"
  | WORKER_CRASH => "WORKER_CRASH"
  | WORKER_DATA_EXHAUSTED => "WORKER_DATA_EXHAUSTED"
  | WORKER_DEADLINE_EXCEEDED => "WORKER_DEADLINE_EXCEEDED"
  | WORKER_OOM => "WORKER_OOM"
  end.

Inductive worker_exn :=
| DeltaError (code : ErrorCode) (message : string)
| WTypeError
| WValueError
| WOverflowError
| WAssertionError
| WUnicodeEncodeError
| WOSError
| WKeyError
| WOutOfMemoryError
| WorkerCancellationRequested
| WorkerDataExhausted
| WorkerDeadlineExceeded
| WorkerInjectedCrash
| WOther (name : string).

#[export] Instance worker_exn_eq_dec : EqDecision worker_exn.
Proof. solve_decision. Defined.

Abbreviation wresult := (result worker_exn).

(** ** The monad of a method *)

Definition WM (S A : Type) : Type := S -> S * wresult A.

Section WorkerMonad.
Context {S : Type}.

Definition wret {A} (a : A) : WM S A := fun s => (s, Ok a).
Definition wraise {A} (e : worker_exn) : WM S A := fun s => (s, Raise e).
Definition wbind {A B} (m : WM S A) (f : A -> WM S B) : WM S B :=
  fun s => match m s with
           | (s', Ok a) => f a s'
           | (s', Raise e) => (s', Raise e)
           end.
Definition wget {A} (f : S -> A) : WM S A := fun s => (s, Ok (f s)).
Definition wmodify (f : S -> S) : WM S unit := fun s => (f s, Ok tt).
Definition wlift {A} (r : wresult A) : WM S A := fun s => (s, r).

(** [try: m  except Exception as e: h(e)] *)
Definition wtry {A} (m : WM S A) (h : worker_exn -> WM S A) : WM S A :=
  fun s => match m s with
           | (s', Ok a) => (s', Ok a)
           | (s', Raise e) => h e s'
           end.
End WorkerMonad.

Notation "'let!' x := m 'in' k" := (wbind m (fun x => k))
  (at level 10, x name, m at level 100, k at level 200) : py_scope.
Notation "m ';!' k" := (wbind m (fun _ => k))
  (at level 199, right associativity) : py_scope.

Lemma wbind_Ok {S A B} (m : WM S A) (f : A -> WM S B) s s' b :
  wbind m f s = (s', Ok b) <-> exists s1 a, m s = (s1, Ok a) /\ f a s1 = (s', Ok b).
Proof. unfold wbind. destruct (m s) as [s1 [a|e]]; naive_solver. Qed.

Lemma wbind_Raise {S A B} (m : WM S A) (f : A -> WM S B) s s' e :
  wbind m f s = (s', Raise e) <->
  m s = (s', Raise e) \/ exists s1 a, m s = (s1, Ok a) /\ f a s1 = (s', Raise e).
Proof. unfold wbind. destruct (m s) as [s1 [a|e1]]; naive_solver. Qed.

(** ** Weakest preconditions

    [wp m Q s]: running [m] from [s] ends in a state and a result that satisfy
    [Q], for a value and for an exception alike. *)
Definition wp {S A} (m : WM S A) (Q : S -> wresult A -> Prop) (s : S) : Prop := Q (m s).1 (m s).2.

Section Wp.
Context {S : Type}.

Lemma wp_elim {A} (m : WM S A) Q s : wp m Q s -> forall s' r, m s = (s', r) -> Q s' r.
Proof. unfold wp. intros H s' r E. by rewrite E in H. Qed.

Lemma wp_intro {A} (m : WM S A) (Q : S -> wresult A -> Prop) s :
  (forall s' r, m s = (s', r) -> Q s' r) -> wp m Q s.
Proof. unfold wp. destruct (m s) as [s' r]. auto. Qed.

Lemma wp_mono {A} (m : WM S A) (P Q : S -> wresult A -> Prop) s :
  wp m P s -> (forall s' r, P s' r -> Q s' r) -> wp m Q s.
Proof. unfold wp. auto. Qed.

Lemma wp_bind {A B} (m : WM S A) (f : A -> WM S B) Q s :
  wp m (fun s1 r => match r with Ok a => wp (f a) Q s1 | Raise e => Q s1 (Raise e) end) s ->
  wp (wbind m f) Q s.
Proof. unfold wp, wbind. by destruct (m s) as [s1 [a|e]]. Qed.

Lemma wp_try {A} (m : WM S A) (h : worker_exn -> WM S A) Q s :
  wp m (fun s1 r => match r with Ok a => Q s1 (Ok a) | Raise e => wp (h e) Q s1 end) s ->
  wp (wtry m h) Q s.
Proof. unfold wp, wtry. by destruct (m s) as [s1 [a|e]]. Qed.

Lemma wp_ret {A} (a : A) (Q : S -> wresult A -> Prop) s : Q s (Ok a) -> wp (wret a) Q s.
Proof. done. Qed.
Lemma wp_raise {A} e (Q : S -> wresult A -> Prop) s : Q s (Raise e) -> wp (wraise e) Q s.
Proof. done. Qed.
Lemma wp_lift {A} (x : wresult A) (Q : S -> wresult A -> Prop) s : Q s x -> wp (wlift x) Q s.
Proof. done. Qed.
Lemma wp_get {A} (f : S -> A) (Q : S -> wresult A -> Prop) s : Q s (Ok (f s)) -> wp (wget f) Q s.
Proof. done. Qed.
Lemma wp_modify (f : S -> S) (Q : S -> wresult unit -> Prop) s : Q (f s) (Ok tt) -> wp (wmodify f) Q s.
Proof. done. Qed.
End Wp.
