(* ===== verification/WorkerCanonical.v ===== *)
(** * Canonical JSON of the worker ([deltatorrent/protocol/canonical.py])

    Documents without floats, printed with [sort_keys=True] and compact
    separators; the content id of bytes.  Sorting objects by key is shared with
    the fixed-point encoder, whose canonical form admits floats. *)

From S2P Require Import Prelude PyFloat Json JsonText Text Sha256 WorkerErrors.
Open Scope string_scope.
Open Scope Z_scope.
Open Scope py_scope.

(** ** Sorted keys *)

(** [sort_keys=True]: every object by the code points of its keys, which is the
    order of their UTF-8 bytes *)
Fixpoint insert_key (x : string * json) (l : odict json) : odict json :=
  match l with
  | [] => [x]
  | y :: r => if String.leb x.1 y.1 then x :: l else y :: insert_key x r
  end.

Fixpoint sort_keys (j : json) : json :=
  match j with
  | JObj o =>
      JObj (fold_right insert_key []
              ((fix go o : odict json :=
                  match o with [] => [] | (k, v) :: r => (k, sort_keys v) :: go r end) o))
  | JArr l => JArr (map sort_keys l)
  | _ => j
  end.

(** ** Field sets *)

(** [set(value) == set(names)] *)
Definition keys_are (value : odict json) (names : list string) : bool :=
  forallb (fun k => str_in k names) (od_keys value) && forallb (fun n => od_mem n value) names.

Lemma keys_are_spec o names :
  keys_are o names = true <-> forall k, k ∈ od_keys o <-> k ∈ names.
Proof.
  unfold keys_are. rewrite andb_true_iff, !forallb_forall. split.
  - intros [H1 H2] k. split; intros K%list_elem_of_In.
    + by apply str_in_elem, H1.
    + apply H2 in K. unfold od_mem in K. destruct (od_get k o) eqn:E; [|done].
      destruct (decide (k ∈ od_keys o)) as [|N]; [done|]. apply od_get_None in N. congruence.
  - intros H. split; intros k K%list_elem_of_In.
    + by apply str_in_elem, H.
    + apply H in K. unfold od_mem. by destruct (od_get_keys k o K) as [v ->].
Qed.

(** ** Canonical bytes *)

(** [_normalize]: a float anywhere is refused.  Documents are JSON values, so
    the other refusals (keys that are no strings, foreign objects) do not arise. *)
Fixpoint has_float (j : json) : bool :=
  match j with
  | JFloat _ => true
  | JArr l => existsb has_float l
  | JObj o => existsb (fun kv => has_float kv.2) o
  | _ => false
  end.

Definition _normalize (value : json) : wresult json :=
  require (negb (has_float value)) WTypeError ;? Ok value.

(** [canonical_json_bytes(value)], the UTF-8 text *)
Definition canonical_json_bytes (value : json) : wresult string :=
  let? normalized := _normalize value in
  let text := dumps_compact (sort_keys normalized) in
  require (encodable text) WUnicodeEncodeError ;?
  Ok text.

Definition sha256_content_id (value : string) : string := "sha256:" +:+ sha256_hex value.

(** ** Sorting changes the order of members only *)

Lemma insert_key_perm x l : insert_key x l ≡ₚ x :: l.
Proof.
  induction l as [|y l IH]; [done|]. cbn [insert_key]. destruct (String.leb _ _); [done|].
  rewrite IH. constructor.
Qed.

Lemma sort_insert_perm l : fold_right insert_key [] l ≡ₚ l.
Proof. induction l as [|x l IH]; [done|]. cbn [fold_right]. by rewrite insert_key_perm, IH. Qed.

Definition sort_members (o : odict json) : odict json := map (fun kv => (kv.1, sort_keys kv.2)) o.

Lemma sort_keys_obj o : sort_keys (JObj o) = JObj (fold_right insert_key [] (sort_members o)).
Proof. cbn [sort_keys]. do 2 f_equal. induction o as [|[k v] o IH]; [done|]. cbn. by rewrite IH. Qed.

Lemma sort_keys_wf j : json_wf j = true -> json_wf (sort_keys j) = true.
Proof.
  induction j as [| | | | |l IH|o IH] using json_ind'; intros Hw; try done.
  - cbn [sort_keys json_wf] in *. rewrite forallb_forall in Hw |- *. rewrite Forall_forall in IH.
    intros x Hx. apply in_map_iff in Hx as (y & <- & Hy). apply IH; [by apply list_elem_of_In|auto].
  - rewrite sort_keys_obj. cbn [json_wf] in *. apply andb_true_iff in Hw as [Hn Hw]. apply andb_true_iff.
    pose proof (sort_insert_perm (sort_members o)) as P. split.
    + apply nodup_keys_NoDup. change (map fst ?x) with (fst <$> x). rewrite P.
      unfold sort_members. rewrite <- list_fmap_compose. by apply nodup_keys_NoDup.
    + rewrite forallb_forall in Hw |- *. rewrite Forall_forall in IH. intros x Hx.
      apply list_elem_of_In in Hx. rewrite P in Hx.
      apply list_elem_of_fmap in Hx as ([k v] & -> & Hx).
      apply (IH (k, v)); [done|]. apply (Hw (k, v)). by apply list_elem_of_In.
Qed.

Lemma od_get_perm k (a b : odict json) : od_wf a -> a ≡ₚ b -> od_get k a = od_get k b.
Proof.
  intros W P. assert (W' : od_wf b) by (unfold od_wf, od_keys in *; change (NoDup (fst <$> b)); by rewrite <- P).
  destruct (od_get k a) as [v|] eqn:E.
  - symmetry. apply od_In_get; [done|]. rewrite <- P. by apply od_get_In.
  - symmetry. rewrite od_get_None in E |- *. intros H. apply E.
    unfold od_keys in *. change (k ∈ fst <$> a). by rewrite P.
Qed.

Lemma od_get_sort_members k o : od_get k (sort_members o) = sort_keys <$> od_get k o.
Proof. induction o as [|[k' v] o IH]; [done|]. cbn. destruct (String.eqb k k'); [done|apply IH]. Qed.

(** Members of equal canonical headers are equal up to the order of keys. *)
Lemma sort_keys_lookup a b k :
  json_wf (JObj a) = true -> json_wf (JObj b) = true -> sort_keys (JObj a) = sort_keys (JObj b) ->
  sort_keys <$> od_get k a = sort_keys <$> od_get k b.
Proof.
  assert (G : forall o, json_wf (JObj o) = true ->
    od_get k (fold_right insert_key [] (sort_members o)) = sort_keys <$> od_get k o).
  { intros o Hw. rewrite <- od_get_sort_members. symmetry. apply od_get_perm; [|by rewrite sort_insert_perm].
    cbn [json_wf] in Hw. apply andb_true_iff in Hw as [Hn _]. apply nodup_keys_NoDup in Hn.
    unfold od_wf, od_keys, sort_members. rewrite map_map. exact Hn. }
  intros Ha Hb E. rewrite !sort_keys_obj in E. injection E as E. by rewrite <- !G, E.
Qed.

Lemma canonical_json_bytes_Ok j t :
  canonical_json_bytes j = Ok t ->
  has_float j = false /\ t = dumps_compact (sort_keys j) /\ encodable t = true.
Proof.
  unfold canonical_json_bytes, _normalize. intros (v & Hv & H)%rbind_Ok.
  apply rbind_unit_Ok in Hv as (F & [= <-]). apply rbind_unit_Ok in H as (E & [= <-]).
  rewrite require_Ok in F, E. by rewrite negb_true_iff in F.
Qed.

(** Equal canonical bytes: equal documents up to the order of keys. *)
Lemma canonical_json_bytes_inj a b t :
  json_wf a = true -> json_wf b = true ->
  canonical_json_bytes a = Ok t -> canonical_json_bytes b = Ok t -> sort_keys a = sort_keys b.
Proof.
  intros Wa Wb (_ & -> & _)%canonical_json_bytes_Ok (_ & E & _)%canonical_json_bytes_Ok.
  by apply dumps_compact_inj in E; [|by apply sort_keys_wf..].
Qed.

(** [json.loads] of the canonical bytes is the document with sorted keys. *)
Lemma canonical_json_bytes_loads j t b :
  json_wf j = true -> canonical_json_bytes j = Ok t -> loads b t = Some (sort_keys j).
Proof.
  intros W (_ & -> & _)%canonical_json_bytes_Ok. apply loads_dumps_compact. by apply sort_keys_wf.
Qed.

(** Two documents with different canonical texts and one digest *)
Definition collide (a b : json) : Prop :=
  exists x y, canonical_json_bytes a = Ok x /\ canonical_json_bytes b = Ok y /\ x <> y /\ sha256_hex x = sha256_hex y.

(** A content id binds its document, up to the order of keys. *)
Lemma document_id_binds a b f :
  json_wf a = true -> json_wf b = true ->
  (let? bytes := canonical_json_bytes a in Ok (sha256_content_id bytes)) = Ok f ->
  (let? bytes := canonical_json_bytes b in Ok (sha256_content_id bytes)) = Ok f ->
  sort_keys a = sort_keys b \/ collide a b.
Proof.
  intros Wa Wb (x & X & F1)%rbind_Ok (y & Y & F2)%rbind_Ok. destruct (decide (x = y)) as [<-|N].
  - left. by eapply canonical_json_bytes_inj.
  - right. exists x, y. repeat split; try done. injection F1 as F1. injection F2 as F2.
    rewrite <- F2 in F1. unfold sha256_content_id in F1. by apply (inj (String.append "sha256:")) in F1.
Qed.
