(* ===== verification/FixedPoint.v ===== *)
(** * The fixed-point encoder
    ([deltatorrent/reference/fixedpoint_encoder.py])

    [int] of text, exact rationals, signed nearest-ties-to-even quantization, the int16
    payload, the bounded DRQ1 envelope and the Merkle root over shard leaves.
    Byte strings are lists of integers below 256. *)

From S2P Require Import Prelude PyFloat Json JsonText Text Sha256 Errors WorkerCanonical.
Open Scope string_scope.
Open Scope Z_scope.
Open Scope py_scope.

Definition Q_MIN : Z := -32767.
Definition Q_MAX : Z := 32767.
Definition I64_MAX : Z := Z.shiftl 1 63 - 1.
Definition I64_MIN : Z := - Z.shiftl 1 63.
Definition MAX_HEADER_BYTES : Z := 65536.
Definition MAX_PAYLOAD_BYTES : Z := 1048576.
Definition ENVELOPE_PREFIX_BYTES : nat := 16.
(** [b"DRQ1"] *)
Definition ENVELOPE_MAGIC : list Z := [68; 82; 81; 49].

(** A [ContractError] with its code, or an exception of the language *)
Inductive encoder_error :=
| ContractError (code : string)
| EncoderValueError
| EncoderTypeError
| ZeroDivisionErr.

Notation eresult := (result encoder_error).

(** ** Decimal strings *)

(** The first digit of every run of ten decimal digits ([str.isdecimal]),
    Unicode 15.0 *)
Definition decimal_zeros : list Z :=
  [48; 1632; 1776; 1984; 2406; 2534; 2662; 2790; 2918; 3046; 3174; 3302; 3430; 3558; 3664; 3792;
   3872; 4160; 4240; 6112; 6160; 6470; 6608; 6784; 6800; 6992; 7088; 7232; 7248; 42528; 43216;
   43264; 43472; 43504; 43600; 44016; 65296; 66720; 68912; 69734; 69872; 69942; 70096; 70384;
   70736; 70864; 71248; 71360; 71472; 71904; 72016; 72784; 73040; 73120; 73552; 92768; 92864;
   93008; 120782; 120792; 120802; 120812; 120822; 123200; 123632; 124144; 125264; 130032].

(** Digits that are not decimal: superscripts, circled digits and the like *)
Definition other_digits : list (Z * Z) :=
  [(178, 179); (185, 185); (4969, 4977); (6618, 6618); (8304, 8304); (8308, 8313); (8320, 8329);
   (9312, 9320); (9332, 9340); (9352, 9360); (9450, 9450); (9461, 9469); (9471, 9471);
   (10102, 10110); (10112, 10120); (10122, 10130); (68160, 68163); (69216, 69224);
   (69714, 69722); (127232, 127242)].

Definition decimal_value (c : Z) : option Z :=
  match List.find (fun z => (z <=? c) && (c <=? z + 9)) decimal_zeros with
  | Some z => Some (c - z)
  | None => None
  end.

(** [chr(c).isdigit()] *)
Definition is_unicode_digit (c : Z) : bool :=
  match decimal_value c with Some _ => true | None => false end
  || existsb (fun ab => (ab.1 <=? c) && (c <=? ab.2)) other_digits.

(** [int(s)] of a string of digits *)
Fixpoint int_of_digits (acc : Z) (l : list Z) : option Z :=
  match l with
  | [] => Some acc
  | c :: r => match decimal_value c with
              | Some d => int_of_digits (acc * 10 + d) r
              | None => None
              end
  end.

Definition minus : Z := 45.
Definition zero : Z := 48.

Definition code_points (s : string) : list Z := match decode s with Some l => l | None => [] end.

Definition starts (c : Z) (l : list Z) : bool := match l with x :: _ => x =? c | [] => false end.

Definition strip_minus (l : list Z) : list Z :=
  match l with x :: r => if x =? minus then r else l | [] => [] end.

Definition parse_decimal_points (l : list Z) : eresult Z :=
  require (negb (bool_decide (l = [minus; zero]) || starts 43 l
                 || (starts zero l && negb (bool_decide (l = [zero])))))
    (ContractError "DECIMAL_NOT_CANONICAL") ;?
  let digits := strip_minus l in
  require (negb (starts minus l && starts zero digits
                 || negb (match digits with [] => false | _ => forallb is_unicode_digit digits end)))
    (ContractError "DECIMAL_NOT_CANONICAL") ;?
  match int_of_digits 0 digits with
  | None => Raise EncoderValueError
  | Some n =>
      let parsed := if starts minus l then - n else n in
      require (negb ((parsed <? I64_MIN) || (I64_MAX <? parsed))) (ContractError "DECIMAL_OUT_OF_RANGE") ;?
      Ok parsed
  end.

Definition _parse_i64_decimal (value : json) : eresult Z :=
  match value with
  | JStr (String _ _ as s) => parse_decimal_points (code_points s)
  | _ => Raise (ContractError "DECIMAL_INVALID")
  end.

Definition _parse_u32 (value : json) : eresult Z :=
  match value with
  | JInt n => require (negb ((n <? 0) || (4294967295 <? n))) (ContractError "U32_INVALID") ;? Ok n
  | _ => Raise (ContractError "U32_INVALID")
  end.

(** ** Rationals *)

Record Rational := mkRational { numerator : Z; denominator : Z }.

Definition Rational_parse (value : odict json) (positive : bool) : eresult Rational :=
  require (keys_are value ["denominator"; "numerator"]) (ContractError "RATIONAL_FIELDS_INVALID") ;?
  let? n := _parse_i64_decimal (jget "numerator" value) in
  let? d := _parse_u32 (jget "denominator" value) in
  require (negb (d =? 0)) (ContractError "RATIONAL_ZERO_DENOMINATOR") ;?
  require (negb (positive && (n <=? 0))) (ContractError "SCALE_NOT_POSITIVE") ;?
  require (negb (positive && (0 <? n) && (4294967295 <? n)))
    (ContractError "SCALE_NUMERATOR_OUT_OF_RANGE") ;?
  require (negb ((n =? 0) && negb (d =? 1))) (ContractError "RATIONAL_ZERO_NOT_CANONICAL") ;?
  require (Z.gcd (Z.abs n) d =? 1) (ContractError "RATIONAL_NOT_REDUCED") ;?
  Ok (mkRational n d).

Definition Rational_to_json (q : Rational) : odict json :=
  [("denominator", JInt (denominator q)); ("numerator", JStr (str_of_int (numerator q)))].

(** ** Quantization *)

Definition _checked_positive_product (left right : Z) : eresult Z :=
  let product := left * right in
  require (negb (I64_MAX <? product)) (ContractError "QUANTIZATION_INTERMEDIATE_OVERFLOW") ;?
  Ok product.

Definition quantize (source quantum : Rational) : eresult Z :=
  require (negb (numerator quantum <=? 0)) (ContractError "SCALE_NOT_POSITIVE") ;?
  let? magnitude := _checked_positive_product (Z.abs (numerator source)) (denominator quantum) in
  let? divisor := _checked_positive_product (denominator source) (numerator quantum) in
  require (negb (divisor =? 0)) ZeroDivisionErr ;?
  let quotient := magnitude / divisor in
  let remainder := magnitude mod divisor in
  let twice_remainder := remainder * 2 in
  let quotient := if (divisor <? twice_remainder)
                     || ((twice_remainder =? divisor) && (quotient mod 2 =? 1))
                  then quotient + 1 else quotient in
  let result := if numerator source <? 0 then - quotient else quotient in
  require (negb ((result <? Q_MIN) || (Q_MAX <? result))) (ContractError "QUANTIZATION_RANGE_EXCEEDED") ;?
  Ok result.

(** ** Payload and envelope *)

(** [n.to_bytes(k, "little")] of the low [8 k] bits *)
Fixpoint le_bytes (k : nat) (n : Z) : list Z :=
  match k with
  | O => []
  | S k => n mod 256 :: le_bytes k (n / 256)
  end.

Definition encode_value (value : json) : eresult (list Z) :=
  match value with
  | JInt q =>
      require (negb ((q <? Q_MIN) || (Q_MAX <? q))) (ContractError "Q_VALUE_OUT_OF_RANGE") ;?
      Ok (le_bytes 2 (q mod 65536))
  | _ => Raise (ContractError "Q_VALUE_OUT_OF_RANGE")
  end.

Definition encode_payload (values : list json) : eresult (list Z) :=
  let? encoded := rmap encode_value values in
  let bytes := concat encoded in
  require (negb (MAX_PAYLOAD_BYTES <? Z.of_nat (length bytes))) (ContractError "SHARD_PAYLOAD_TOO_LARGE") ;?
  Ok bytes.

Definition canonical_json_bytes (value : json) : eresult string :=
  let sorted := sort_keys value in
  require (negb (has_nonfinite sorted)) (ContractError "CANONICAL_JSON_INVALID") ;?
  require (encodable (dumps_compact sorted)) EncoderValueError ;?
  Ok (dumps_compact sorted).

Definition encode_envelope (header : odict json) (payload : list Z) : eresult (list Z) :=
  let? header_text := canonical_json_bytes (JObj header) in
  let header_bytes := bytes_of header_text in
  require (negb (MAX_HEADER_BYTES <? Z.of_nat (length header_bytes)))
    (ContractError "SHARD_HEADER_TOO_LARGE") ;?
  require (negb (MAX_PAYLOAD_BYTES <? Z.of_nat (length payload)))
    (ContractError "SHARD_PAYLOAD_TOO_LARGE") ;?
  let prefix := (ENVELOPE_MAGIC ++ le_bytes 2 1 ++ le_bytes 2 0
                 ++ le_bytes 4 (Z.of_nat (length header_bytes))
                 ++ le_bytes 4 (Z.of_nat (length payload)))%list in
  Ok (prefix ++ header_bytes ++ payload)%list.

(** ** Content ids and the Merkle root *)

Definition is_ascii (s : string) : bool := str_all (fun c => byte_val c <? 128) s.

Definition content_id (domain : string) (payload : list Z) : eresult string :=
  require (is_ascii domain && starts_with "deltareduce.004." domain) (ContractError "HASH_DOMAIN_INVALID") ;?
  Ok ("sha256:" +:+ hex_of_bytes (sha256_bytes (bytes_of domain ++ [0] ++ payload)%list)).

Definition leaf_id (envelope : list Z) : eresult string :=
  content_id "deltareduce.004.shard-leaf.v1" envelope.

Definition leaf_node (leaf : string) : eresult (list Z) :=
  require (starts_with "sha256:" leaf && (length (code_points leaf) =? 71)%nat)
    (ContractError "CONTENT_ID_INVALID") ;?
  match from_hex (str_drop 7 leaf) with
  | Some node => Ok (bytes_of node)
  | None => Raise (ContractError "CONTENT_ID_INVALID")
  end.

Definition merkle_domain : list Z := bytes_of ("deltareduce.004.merkle-node.v1" +:+ String Ascii.zero EmptyString).

Definition node_input (a b : list Z) : list Z := (merkle_domain ++ a ++ b)%list.

(** One level; an odd last node is paired with itself. *)
Fixpoint merkle_level (nodes : list (list Z)) : list (list Z) :=
  match nodes with
  | a :: b :: r => sha256_bytes (node_input a b) :: merkle_level r
  | [a] => [sha256_bytes (node_input a a)]
  | [] => []
  end.

(** [while len(nodes) > 1], with [fuel] levels at most *)
Fixpoint merkle_loop (fuel : nat) (nodes : list (list Z)) : option (list Z) :=
  match nodes with
  | [] => None
  | [root] => Some root
  | _ => match fuel with
         | O => None
         | S k => merkle_loop k (merkle_level nodes)
         end
  end.

Definition merkle_root (leaves : list string) : eresult (option string) :=
  require (match leaves with [] => false | _ => true end) (ContractError "EMPTY_SHARD_TABLE") ;?
  let? nodes := rmap leaf_node leaves in
  Ok (match merkle_loop (length nodes) nodes with
      | Some root => Some ("sha256:" +:+ hex_of_bytes root)
      | None => None
      end).

(** ** [int] of text *)

(** White space and digits outside ASCII become ASCII ones, anything else a
    question mark; an ASCII text is left as it is. *)
Definition to_ascii_point (c : Z) : Z :=
  if c <? 127 then c
  else if existsb (Z.eqb c) whitespace_points then 32
  else match decimal_value c with Some d => 48 + d | None => 63 end.

Definition to_ascii_digits (l : list Z) : list Z :=
  if forallb (fun c => c <? 128) l then l else map to_ascii_point l.

Definition is_space_point (c : Z) : bool := (c =? 32) || in_range 9 13 c.

Fixpoint skip_spaces (l : list Z) : list Z :=
  match l with c :: r => if is_space_point c then skip_spaces r else l | [] => [] end.

(** The value of a digit in any base up to 36 *)
Definition digit_value (c : Z) : option Z :=
  if in_range 48 57 c then Some (c - 48)
  else if in_range 97 122 c then Some (c - 87)
  else if in_range 65 90 c then Some (c - 55)
  else None.

Definition base_digit (base c : Z) : option Z :=
  match digit_value c with Some d => if d <? base then Some d else None | None => None end.

(** A run of digits with single underscores between them: its value, the number
    of its digits, and what follows it *)
Fixpoint scan_base (base : Z) (underscore : bool) (value count : Z) (l : list Z) : option (Z * Z * list Z) :=
  match l with
  | c :: r =>
      if c =? 95 then if underscore then None else scan_base base true value count r
      else match base_digit base c with
           | Some d => scan_base base false (value * base + d) (count + 1) r
           | None => if underscore then None else Some (value, count, l)
           end
  | [] => if underscore then None else Some (value, count, [])
  end.

Definition skip_sign (l : list Z) : bool * list Z :=
  match l with c :: r => if c =? 45 then (true, r) else if c =? 43 then (false, r) else (false, l) | [] => (false, []) end.

(** [0x], and one underscore after it *)
Definition skip_prefix (base : Z) (l : list Z) : list Z :=
  match l with
  | 48 :: c :: r =>
      if (base =? 16) && ((c =? 120) || (c =? 88)) then match r with 95 :: r' => r' | _ => r end else l
  | _ => l
  end.

Definition MAX_DECIMAL_DIGITS : Z := 4300.

(** [int(text, base)], [None] for a [ValueError] *)
Definition py_int (base : Z) (l : list Z) : option Z :=
  let '(negative, unsigned) := skip_sign (skip_spaces (to_ascii_digits l)) in
  match skip_prefix base unsigned with
  | c :: r =>
      match base_digit base c, scan_base base false 0 0 (c :: r) with
      | Some _, Some (value, count, rest) =>
          if (base =? 10) && (MAX_DECIMAL_DIGITS <? count) then None
          else match skip_spaces rest with
               | [] => Some (if negative then - value else value)
               | _ => None
               end
      | _, _ => None
      end
  | [] => None
  end.

(** Readings checked against CPython *)
Example py_int_samples :
  map (py_int 16)
    [[28; 49]; [28; 49; 1635]; [8195; 49]; [48; 120; 95; 49]; [48; 120; 95; 95; 49]; [95; 49]; [49; 95]; [49; 95; 95; 50];
     [43; 48; 88; 49; 102]; [45; 48; 120]; [48; 120]; [1635; 97]; [49; 32]; [127; 49]; [43; 43; 49]; [48; 95; 49]; [49; 0]]
  = [None; None; Some 1; Some 1; None; None; None; None; Some 31; None; None; Some 58; Some 1; None; None; Some 1; None] /\
  map (py_int 10) [[32; 45; 49; 95; 48]; [48; 120; 49]; [48; 48; 55]; [49; 46; 48]] = [Some (-10); None; Some 7; None].
Proof. vm_compute. done. Qed.
