(* ===== verification/FixedPointProps.v ===== *)
(** * The fixed-point encoder: rounding, rationals, envelopes, Merkle roots

    The properties of [FixedPoint]: quantization is division rounded to the
    nearest integer with ties to even, a parsed rational is canonical, an
    envelope determines what was encoded, and a Merkle root binds the ordered
    leaves up to a collision among the inputs it hashed. *)

From S2P Require Import Prelude PyFloat Json JsonText Text Sha256 Errors WorkerCanonical FixedPoint.
Open Scope string_scope.
Open Scope Z_scope.
Open Scope py_scope.

(** ** Rounding *)

(** [q] is the integer nearest to [n / d], the even one of two. *)
Definition nearest_even (n d q : Z) : Prop :=
  2 * Z.abs (n - q * d) <= d /\ (2 * Z.abs (n - q * d) = d -> Z.Even q).

Lemma nearest_even_unique n d p q :
  0 < d -> nearest_even n d p -> nearest_even n d q -> p = q.
Proof.
  intros Hd [P1 P2] [Q1 Q2].
  assert (H : Z.abs (p - q) * d <= d) by nia.
  assert (A : Z.abs (p - q) <= 1) by nia.
  destruct (decide (p = q)) as [|N]; [done|]. exfalso.
  assert (T : p = q + 1 \/ p = q - 1) by lia.
  destruct P2 as [a Ha]; [destruct T; subst; nia|].
  destruct Q2 as [b Hb]; [destruct T; subst; nia|]. lia.
Qed.

Lemma nearest_even_opp n d q : nearest_even n d q -> nearest_even (- n) d (- q).
Proof.
  intros [A B]. unfold nearest_even.
  replace (Z.abs (- n - - q * d)) with (Z.abs (n - q * d)) by lia.
  split; [done|]. intros E. destruct (B E) as [k ->]. exists (- k). lia.
Qed.

(** The quotient and the adjustment [quantize] computes *)
Definition rounded (m d : Z) : Z :=
  if (d <? m mod d * 2) || ((m mod d * 2 =? d) && ((m / d) mod 2 =? 1)) then m / d + 1 else m / d.

Lemma rounded_nearest m d : 0 < d -> nearest_even m d (rounded m d).
Proof.
  intros Hd. pose proof (Z.div_mod m d ltac:(lia)) as E.
  pose proof (Z.mod_pos_bound m d Hd) as B. unfold rounded, nearest_even.
  revert E B. generalize (m / d) (m mod d). intros q r E B.
  assert (P : q mod 2 = 1 <-> ~ Z.Even q).
  { rewrite Zmod_odd, <- Z.negb_even, <- Z.even_spec. destruct (Z.even q); done. }
  destruct (Z.ltb_spec d (r * 2)); cbn [orb].
  - split; [nia|]. intros. nia.
  - destruct (Z.eqb_spec (r * 2) d); cbn [andb]; [destruct (Z.eqb_spec (q mod 2) 1) as [M|M]|];
      (split; [nia|intros T]).
    + rewrite Zmod_odd in M. destruct (Z.odd q) eqn:O; [|done].
      apply Z.odd_spec in O as [k ->]. exists (k + 1). lia.
    + rewrite Zmod_odd in M. destruct (Z.odd q) eqn:O; [done|].
      rewrite <- Z.negb_even in O. apply Z.even_spec. by destruct (Z.even q).
    + exfalso. nia.
Qed.

Lemma rounded_nonneg m d : 0 <= m -> 0 < d -> 0 <= rounded m d.
Proof. intros. pose proof (Z.div_pos m d). unfold rounded. destruct (_ || _); lia. Qed.

Lemma signed_rounded n u d :
  0 < d ->
  nearest_even (n * u) d (let r := rounded (Z.abs n * u) d in if n <? 0 then - r else r).
Proof.
  intros Hd. pose proof (rounded_nearest (Z.abs n * u) d Hd) as R. cbv zeta.
  destruct (Z.ltb_spec n 0).
  - apply nearest_even_opp in R. by replace (n * u) with (- (Z.abs n * u)) by nia.
  - by replace (n * u) with (Z.abs n * u) by nia.
Qed.

Lemma quantize_steps s u q :
  0 < denominator s ->
  quantize s u = Ok q <->
  0 < numerator u /\ Z.abs (numerator s) * denominator u <= I64_MAX /\
  denominator s * numerator u <= I64_MAX /\ Q_MIN <= q <= Q_MAX /\
  q = let r := rounded (Z.abs (numerator s) * denominator u) (denominator s * numerator u) in
      if numerator s <? 0 then - r else r.
Proof.
  intros Hs. unfold quantize, _checked_positive_product. cbv zeta.
  fold (rounded (Z.abs (numerator s) * denominator u) (denominator s * numerator u)).
  destruct (Z.leb_spec (numerator u) 0); cbn [negb]; rewrite ?require_false, ?require_true; cbn [rbind].
  { split; [done|lia]. }
  destruct (Z.ltb_spec I64_MAX (Z.abs (numerator s) * denominator u)); cbn [negb];
    rewrite ?require_false, ?require_true; cbn [rbind].
  { split; [done|lia]. }
  destruct (Z.ltb_spec I64_MAX (denominator s * numerator u)); cbn [negb];
    rewrite ?require_false, ?require_true; cbn [rbind].
  { split; [done|lia]. }
  destruct (Z.eqb_spec (denominator s * numerator u) 0); [nia|]. cbn [negb].
  rewrite require_true. cbn [rbind].
  set (r := if numerator s <? 0 then _ else _).
  destruct (Z.ltb_spec r Q_MIN); cbn [negb orb]; rewrite ?require_false, ?require_true; cbn [rbind].
  { split; [done|]. intros. lia. }
  destruct (Z.ltb_spec Q_MAX r); cbn [negb orb]; rewrite ?require_false, ?require_true; cbn [rbind].
  { split; [done|]. intros. lia. }
  split; [intros [= <-]|by intros (_ & _ & _ & _ & ->)].
  by repeat (split; [lia|]).
Qed.

(** C33: Quantization returns exactly the integer nearest to [source / quantum],
    the even one of two equally near, when the quantum is positive, both
    products fit a signed 64-bit integer and the result is a 16-bit value above
    [-32768]; in every other case it raises a typed contract error. *)
Theorem quantize_nearest_even (s u : Rational) (q : Z)
    (Hs : 0 < denominator s) :
  (quantize s u = Ok q <->
   0 < numerator u /\ Z.abs (numerator s) * denominator u <= 2 ^ 63 - 1 /\
   denominator s * numerator u <= 2 ^ 63 - 1 /\ -32767 <= q <= 32767 /\
   nearest_even (numerator s * denominator u) (denominator s * numerator u) q) /\
  (forall e, quantize s u = Raise e ->
     e = ContractError "SCALE_NOT_POSITIVE" \/
     e = ContractError "QUANTIZATION_INTERMEDIATE_OVERFLOW" \/
     e = ContractError "QUANTIZATION_RANGE_EXCEEDED").
Proof.
  split.
  - rewrite quantize_steps by done. unfold Q_MIN, Q_MAX. change I64_MAX with (2 ^ 63 - 1).
    set (m := Z.abs (numerator s) * denominator u). set (d := denominator s * numerator u).
    split; intros (Hu & Hm & Hd & Hq & E); refine (conj Hu (conj Hm (conj Hd (conj Hq _)))).
    + rewrite E. apply signed_rounded. nia.
    + cbv zeta. apply (nearest_even_unique (numerator s * denominator u) d); [nia|done|].
      apply signed_rounded. nia.
  - intros e. unfold quantize, _checked_positive_product. cbv zeta.
    destruct (Z.leb_spec (numerator u) 0); [intros [= <-]; auto|]. cbn [negb require rbind].
    destruct (I64_MAX <? Z.abs (numerator s) * denominator u); [intros [= <-]; auto|].
    cbn [negb require rbind].
    destruct (I64_MAX <? denominator s * numerator u); [intros [= <-]; auto|].
    cbn [negb require rbind].
    destruct (Z.eqb_spec (denominator s * numerator u) 0); [nia|]. cbn [negb require rbind].
    destruct (_ || _); [|destruct (_ || _)]; cbn [negb require rbind]; intros [= <-]; auto.
Qed.

Lemma quantize_nearest_even_witness :
  quantize (mkRational (-5) 2) (mkRational 1 1) = Ok (-2) /\
  nearest_even (-5 * 1) (2 * 1) (-2).
Proof.
  pose proof (quantize_nearest_even (mkRational (-5) 2) (mkRational 1 1) (-2) eq_refl) as [[H _] _].
  assert (E : quantize (mkRational (-5) 2) (mkRational 1 1) = Ok (-2)) by (vm_compute; reflexivity).
  split; [exact E|]. exact (proj2 (proj2 (proj2 (proj2 (H E))))).
Defined.

(** ** Rationals *)

(** What a parsed rational promises: lowest terms, a positive 32-bit
    denominator, a signed 64-bit numerator, and a positive 32-bit one for a scale. *)
Definition rational_ok (positive : bool) (q : Rational) : Prop :=
  0 < denominator q < 2 ^ 32 /\ - 2 ^ 63 <= numerator q < 2 ^ 63 /\
  Z.gcd (numerator q) (denominator q) = 1 /\
  (positive = true -> 0 < numerator q < 2 ^ 32).

Definition ascii_text (s : string) : bool := str_all (fun c => byte_val c <? 128) s.

Lemma decode_fuel_ascii k s :
  ascii_text s = true -> (String.length s <= k)%nat -> decode_fuel k s = Some (bytes_of s).
Proof.
  revert s. induction k as [|k IH]; intros s Hs Hk; destruct s as [|c s]; try done; [cbn in Hk; lia|].
  cbn [ascii_text str_all] in Hs. apply andb_true_iff in Hs as [Hc Hs].
  cbn [decode_fuel decode_head]. rewrite Hc.
  assert (U : utf8 (byte_val c) = String c EmptyString).
  { unfold utf8. rewrite Hc. unfold chr, byte_val. by rewrite Nat2Z.id, ascii_nat_embedding. }
  assert (B : byte_val c = Z.of_nat (nat_of_ascii c)) by done.
  apply Z.ltb_lt in Hc. rewrite U. cbn [str_take str_drop].
  rewrite String.eqb_refl. cbn [andb].
  destruct (Z.leb_spec 0 (byte_val c)); [|lia]. destruct (Z.ltb_spec (byte_val c) 1114112); [|lia].
  cbn [andb]. rewrite IH; [done|done|]. cbn [String.length] in Hk. lia.
Qed.

(** The code points of an ASCII string are its bytes. *)
Lemma code_points_ascii s : ascii_text s = true -> code_points s = bytes_of s.
Proof. intros H. unfold code_points, decode. by rewrite decode_fuel_ascii. Qed.

Lemma decimal_value_digit c :
  is_digit c = true -> decimal_value (Z.of_nat (nat_of_ascii c)) = Some (digit_val c).
Proof. destruct c as [[] [] [] [] [] [] [] []]; vm_compute; congruence. Qed.

Lemma unicode_digits s : str_all is_digit s = true -> forallb is_unicode_digit (bytes_of s) = true.
Proof.
  induction s as [|c s IH]; [done|]. cbn [str_all].
  intros [Hc Hs]%andb_true_iff. change (bytes_of (String c s)) with (Z.of_nat (nat_of_ascii c) :: bytes_of s).
  cbn [forallb]. unfold is_unicode_digit at 1. by rewrite decimal_value_digit, IH.
Qed.

Lemma int_of_ascii_digits acc s :
  str_all is_digit s = true -> int_of_digits acc (bytes_of s) = Some (digits_acc acc s).
Proof.
  revert acc. induction s as [|c s IH]; intros acc; [done|]. cbn [str_all].
  intros [Hc Hs]%andb_true_iff. change (bytes_of (String c s)) with (Z.of_nat (nat_of_ascii c) :: bytes_of s).
  cbn [int_of_digits digits_acc]. rewrite decimal_value_digit by done. by apply IH.
Qed.

Lemma digits_ascii s : str_all is_digit s = true -> ascii_text s = true.
Proof.
  unfold ascii_text. induction s as [|c s IH]; [done|]. cbn [str_all].
  intros [Hc Hs]%andb_true_iff. rewrite IH by done. rewrite andb_true_r.
  by destruct c as [[] [] [] [] [] [] [] []].
Qed.

(** A digit is neither a sign nor, when not leading zero, the character 0. *)
Lemma digit_byte c :
  is_digit c = true ->
  48 <= Z.of_nat (nat_of_ascii c) <= 57 /\ (Z.of_nat (nat_of_ascii c) = 48 -> c = "0"%char).
Proof. destruct c as [[] [] [] [] [] [] [] []]; vm_compute; repeat split; congruence. Qed.

(** [_parse_i64_decimal] reads back [str(n)]. *)
Lemma parse_str_of_int n :
  - 2 ^ 63 <= n < 2 ^ 63 -> _parse_i64_decimal (JStr (str_of_int n)) = Ok n.
Proof.
  intros Hn. unfold str_of_int.
  assert (R : negb ((n <? I64_MIN) || (I64_MAX <? n)) = true).
  { change I64_MIN with (- 2 ^ 63). change I64_MAX with (2 ^ 63 - 1).
    destruct (Z.ltb_spec n (- 2 ^ 63)), (Z.ltb_spec (2 ^ 63 - 1) n); try lia; done. }
  destruct (Z.ltb_spec n 0) as [N|N].
  - destruct (str_of_nonneg_spec (- n) ltac:(lia)) as (c & s & E & D & V & Z0). rewrite E.
    unfold _parse_i64_decimal. rewrite code_points_ascii by (cbn; by apply digits_ascii in D).
    change (bytes_of (String "-" (String c s))) with (minus :: bytes_of (String c s)).
    unfold parse_decimal_points. cbv zeta.
    pose proof (unicode_digits _ D) as U. pose proof (int_of_ascii_digits 0 _ D) as I.
    cbn [str_all] in D. apply andb_true_iff in D as [D _]. apply digit_byte in D as [B B0].
    change (bytes_of (String c s)) with (Z.of_nat (nat_of_ascii c) :: bytes_of s) in *.
    assert (Z.of_nat (nat_of_ascii c) <> 48) by (intros E0; apply B0 in E0 as E1; apply Z0 in E1; lia).
    rewrite bool_decide_false by (unfold minus, zero; congruence).
    unfold starts, strip_minus, minus, zero. cbn [Z.eqb Pos.eqb andb orb negb require rbind].
    destruct (Z.eqb_spec (Z.of_nat (nat_of_ascii c)) 48); [done|]. cbn [orb negb].
    rewrite U. cbn [negb require rbind]. rewrite I.
    change (digits_acc 0 (String c s)) with (digits_val (String c s)). rewrite V, Z.opp_involutive.
    by rewrite R.
  - destruct (str_of_nonneg_spec n N) as (c & s & E & D & V & Z0). rewrite E.
    unfold _parse_i64_decimal. rewrite code_points_ascii by by apply digits_ascii in D.
    unfold parse_decimal_points. cbv zeta.
    pose proof (unicode_digits _ D) as U. pose proof (int_of_ascii_digits 0 _ D) as I.
    cbn [str_all] in D. apply andb_true_iff in D as [D _]. apply digit_byte in D as [B B0].
    assert (L : starts zero (bytes_of (String c s)) && negb (bool_decide (bytes_of (String c s) = [zero])) = false).
    { apply andb_false_iff. destruct (Z.eqb_spec (Z.of_nat (nat_of_ascii c)) 48) as [e|e].
      - apply B0 in e as ->. destruct (Z0 eq_refl) as [_ ->]. by right.
      - left. by apply Z.eqb_neq. }
    rewrite L. change (bytes_of (String c s)) with (Z.of_nat (nat_of_ascii c) :: bytes_of s) in *.
    rewrite bool_decide_false by (unfold minus, zero; intros [=]; lia).
    unfold starts, strip_minus, minus.
    destruct (Z.eqb_spec (Z.of_nat (nat_of_ascii c)) 43); [lia|].
    destruct (Z.eqb_spec (Z.of_nat (nat_of_ascii c)) 45); [lia|]. cbn [orb andb negb require rbind].
    rewrite U. cbn [negb require rbind]. rewrite I.
    change (digits_acc 0 (String c s)) with (digits_val (String c s)). rewrite V.
    by rewrite R.
Qed.

Lemma parse_i64_range j n : _parse_i64_decimal j = Ok n -> - 2 ^ 63 <= n < 2 ^ 63.
Proof.
  destruct j as [| | | |[|c s]| |]; try done. unfold _parse_i64_decimal, parse_decimal_points. cbv zeta.
  set (l := code_points _). clearbody l.
  intros (_ & H)%rbind_unit_Ok. apply rbind_unit_Ok in H as (_ & H).
  destruct (int_of_digits 0 (strip_minus l)) as [m|]; [|done].
  apply rbind_unit_Ok in H as (R & H). injection H as <-.
  rewrite require_Ok, negb_true_iff, orb_false_iff, !Z.ltb_ge in R.
  change I64_MIN with (- 2 ^ 63) in R. change I64_MAX with (2 ^ 63 - 1) in R. lia.
Qed.

Lemma parse_u32_range j n : _parse_u32 j = Ok n -> j = JInt n /\ 0 <= n < 2 ^ 32.
Proof.
  destruct j; try done. cbn [_parse_u32]. intros (R & [= <-])%rbind_unit_Ok.
  rewrite require_Ok, negb_true_iff, orb_false_iff, !Z.ltb_ge in R. split; [done|lia].
Qed.

Lemma rational_parse_ok o positive q :
  Rational_parse o positive = Ok q -> rational_ok positive q.
Proof.
  unfold Rational_parse. intros (_ & H)%rbind_unit_Ok.
  apply rbind_Ok in H as (n & Hn & H). apply rbind_Ok in H as (d & Hd & H).
  apply parse_i64_range in Hn. apply parse_u32_range in Hd as [_ Hd].
  do 5 (apply rbind_unit_Ok in H as (? & H)). injection H as <-.
  repeat match goal with R : require _ _ = Ok _ |- _ => apply require_Ok in R end. bool_prop.
  unfold rational_ok. cbn [numerator denominator].
  split; [lia|]. split; [lia|]. split.
  - by rewrite <- Z.gcd_abs_l.
  - intros ->. cbn [andb] in *. destruct (Z.leb_spec n 0); [done|].
    destruct (Z.ltb_spec 0 n); [|lia]. cbn [andb] in *. bool_prop. lia.
Qed.

Lemma rational_reparse positive q :
  rational_ok positive q -> Rational_parse (Rational_to_json q) positive = Ok q.
Proof.
  destruct q as [n d]. unfold rational_ok. cbn [numerator denominator].
  intros ([D1 D2] & N & G & P). unfold Rational_parse, Rational_to_json. cbn [numerator denominator].
  change (keys_are _ _) with true. rewrite require_true. cbn [rbind].
  change (jget "numerator" _) with (JStr (str_of_int n)).
  change (jget "denominator" _) with (JInt d). rewrite parse_str_of_int by done. cbn [rbind _parse_u32].
  destruct (Z.ltb_spec d 0); [lia|]. destruct (Z.ltb_spec 4294967295 d); [lia|]. cbn [orb negb require rbind].
  destruct (Z.eqb_spec d 0); [lia|]. cbn [negb require rbind].
  rewrite Z.gcd_abs_l, G. change (1 =? 1) with true.
  assert (Z0 : (n =? 0) && negb (d =? 1) = false).
  { destruct (Z.eqb_spec n 0) as [->|]; [|done]. rewrite Z.gcd_0_l, Z.abs_eq in G by lia. by subst d. }
  rewrite Z0. destruct positive.
  - specialize (P eq_refl). destruct (Z.leb_spec n 0); [lia|].
    destruct (Z.ltb_spec 0 n); [|lia]. destruct (Z.ltb_spec 4294967295 n); [lia|]. done.
  - done.
Qed.

(** a parsed rational is in canonical form (lowest terms, positive 32-bit
    denominator, signed 64-bit numerator, positive 32-bit numerator for a
    scale), its JSON form parses back to it, and every canonical rational has
    such a form. *)
Theorem rational_parse_canonical (o : odict json) (positive : bool) (q : Rational) :
  (Rational_parse o positive = Ok q ->
   rational_ok positive q /\ Rational_parse (Rational_to_json q) positive = Ok q) /\
  (rational_ok positive q -> Rational_parse (Rational_to_json q) positive = Ok q).
Proof.
  split; [|apply rational_reparse]. intros H%rational_parse_ok. split; [done|]. by apply rational_reparse.
Qed.

Lemma rational_parse_canonical_witness :
  let o := [("numerator", JStr "-3"); ("denominator", JInt 8)] in
  Rational_parse o false = Ok (mkRational (-3) 8) /\
  Rational_parse (Rational_to_json (mkRational (-3) 8)) false = Ok (mkRational (-3) 8).
Proof.
  intros o. assert (E : Rational_parse o false = Ok (mkRational (-3) 8)) by (vm_compute; reflexivity).
  split; [exact E|]. exact (proj2 (proj1 (rational_parse_canonical o false (mkRational (-3) 8)) E)).
Defined.

(** A digit of another script is taken as that digit, a superscript is refused
    by [int] with an exception that is not a contract error. *)
Example arabic_three : _parse_i64_decimal (JStr (utf8 1635)) = Ok 3.
Proof. vm_compute. reflexivity. Qed.
Example superscript_two : _parse_i64_decimal (JStr (utf8 178)) = Raise EncoderValueError.
Proof. vm_compute. reflexivity. Qed.

(** ** Payload and envelope *)

Lemma le_bytes_length k n : length (le_bytes k n) = k.
Proof. revert n. induction k as [|k IH]; intros n; [done|]. cbn. by rewrite IH. Qed.

Lemma le_bytes_inj k m n :
  0 <= m < 256 ^ Z.of_nat k -> 0 <= n < 256 ^ Z.of_nat k -> le_bytes k m = le_bytes k n -> m = n.
Proof.
  revert m n. induction k as [|k IH]; intros m n Hm Hn; [cbn in *; lia|].
  rewrite Nat2Z.inj_succ, Z.pow_succ_r in Hm, Hn by lia. cbn [le_bytes].
  intros [= E1 E2]. apply IH in E2.
  - rewrite (Z.div_mod m 256), (Z.div_mod n 256) by lia. congruence.
  - split; [apply Z.div_pos; lia|]. apply Z.div_lt_upper_bound; lia.
  - split; [apply Z.div_pos; lia|]. apply Z.div_lt_upper_bound; lia.
Qed.

Lemma encode_value_Ok v b :
  encode_value v = Ok b ->
  exists q, v = JInt q /\ -32767 <= q <= 32767 /\ b = le_bytes 2 (q mod 65536).
Proof.
  destruct v as [| |q| | | |]; try done. cbn [encode_value]. intros (R & [= <-])%rbind_unit_Ok.
  rewrite require_Ok, negb_true_iff, orb_false_iff, !Z.ltb_ge in R. unfold Q_MIN, Q_MAX in R.
  exists q. split; [done|]. split; [lia|done].
Qed.

Lemma encode_value_inj v w b : encode_value v = Ok b -> encode_value w = Ok b -> v = w.
Proof.
  intros (p & -> & Hp & ->)%encode_value_Ok (q & -> & Hq & E)%encode_value_Ok.
  apply le_bytes_inj in E; [|change (256 ^ _) with 65536; by apply Z.mod_pos_bound..].
  f_equal. pose proof (Z.div_mod p 65536 ltac:(lia)). pose proof (Z.div_mod q 65536 ltac:(lia)). lia.
Qed.

Lemma encode_value_length v b : encode_value v = Ok b -> length b = 2%nat.
Proof. intros (q & _ & _ & ->)%encode_value_Ok. apply le_bytes_length. Qed.

Lemma encode_values_inj vs ws bs cs :
  rmap encode_value vs = Ok bs -> rmap encode_value ws = Ok cs -> concat bs = concat cs -> vs = ws.
Proof.
  rewrite !rmap_Ok. intros Hv. revert ws cs. induction Hv as [|v b vs bs Hb Hv IH]; intros ws cs Hw.
  - destruct Hw as [|w c ws cs Hc Hw]; [done|]. apply encode_value_length in Hc.
    destruct c; [done|]. done.
  - destruct Hw as [|w c ws cs Hc Hw].
    + apply encode_value_length in Hb. by destruct b.
    + cbn [concat]. intros E. apply app_inj_1 in E as [-> E].
      * f_equal; [by eapply encode_value_inj|by eapply IH].
      * by rewrite (encode_value_length _ _ Hb), (encode_value_length _ _ Hc).
Qed.

Lemma encode_payload_Ok vs p :
  encode_payload vs = Ok p ->
  exists bs, rmap encode_value vs = Ok bs /\ p = concat bs /\ length p = (2 * length vs)%nat /\
             Z.of_nat (length p) <= MAX_PAYLOAD_BYTES.
Proof.
  unfold encode_payload. intros (bs & Hb & H)%rbind_Ok. apply rbind_unit_Ok in H as (R & H).
  injection H as <-. rewrite require_Ok, negb_true_iff, Z.ltb_ge in R.
  exists bs. split; [done|]. split; [done|]. split; [|done]. clear R.
  apply rmap_Ok in Hb. induction Hb as [|v b vs bs Hb Hv IH]; [done|].
  cbn [concat]. rewrite length_app, IH, (encode_value_length _ _ Hb). cbn. lia.
Qed.

Lemma bytes_of_inj s t : bytes_of s = bytes_of t -> s = t.
Proof.
  revert t. induction s as [|a s IH]; intros [|b t]; try done.
  change (bytes_of (String ?c ?r)) with (Z.of_nat (nat_of_ascii c) :: bytes_of r).
  intros [= E1 E2]. rewrite (IH _ E2). f_equal. apply Nat2Z.inj in E1.
  by rewrite <- (ascii_nat_embedding a), E1, ascii_nat_embedding.
Qed.

Lemma encode_envelope_Ok h p e :
  encode_envelope h p = Ok e ->
  exists hb, hb = bytes_of (dumps_compact (sort_keys (JObj h))) /\
    Z.of_nat (length hb) <= MAX_HEADER_BYTES /\ Z.of_nat (length p) <= MAX_PAYLOAD_BYTES /\
    e = ((ENVELOPE_MAGIC ++ le_bytes 2 1 ++ le_bytes 2 0 ++ le_bytes 4 (Z.of_nat (length hb))
          ++ le_bytes 4 (Z.of_nat (length p))) ++ hb ++ p)%list.
Proof.
  unfold encode_envelope, canonical_json_bytes. intros (t & Ht & H)%rbind_Ok. cbv zeta in Ht, H.
  apply rbind_unit_Ok in Ht as (_ & Ht). apply rbind_unit_Ok in Ht as (_ & Ht). injection Ht as <-.
  apply rbind_unit_Ok in H as (R1 & H). apply rbind_unit_Ok in H as (R2 & H).
  rewrite require_Ok, negb_true_iff, Z.ltb_ge in R1, R2. injection H as <-.
  by exists (bytes_of (dumps_compact (sort_keys (JObj h)))).
Qed.

(** the bytes of an encoded shard determine the quantized values and the
    canonical header: two shards with the same envelope hold the same values in
    the same order and headers that agree on every key up to the order of nested
    keys; a payload is two bytes per value and the envelope is bounded. *)
Theorem shard_envelope_binds (h1 h2 : odict json) (v1 v2 : list json) (p1 p2 e : list Z)
    (W1 : json_wf (JObj h1) = true) (W2 : json_wf (JObj h2) = true)
    (P1 : encode_payload v1 = Ok p1) (P2 : encode_payload v2 = Ok p2)
    (E1 : encode_envelope h1 p1 = Ok e) (E2 : encode_envelope h2 p2 = Ok e) :
  v1 = v2 /\ (forall k, sort_keys <$> od_get k h1 = sort_keys <$> od_get k h2) /\
  length p1 = (2 * length v1)%nat /\ Z.of_nat (length e) <= 16 + 65536 + 1048576.
Proof.
  apply encode_payload_Ok in P1 as (b1 & B1 & -> & L1 & M1).
  apply encode_payload_Ok in P2 as (b2 & B2 & -> & L2 & M2).
  apply encode_envelope_Ok in E1 as (hb1 & D1 & H1 & _ & ->).
  apply encode_envelope_Ok in E2 as (hb2 & D2 & H2 & _ & E).
  unfold MAX_HEADER_BYTES, MAX_PAYLOAD_BYTES in *.
  apply app_inj_1 in E as [EP E]; [|by rewrite !length_app, !le_bytes_length].
  do 3 apply app_inv_head in EP.
  apply app_inj_1 in EP as [EH EP]; [|by rewrite !le_bytes_length].
  apply le_bytes_inj in EH; [|change (256 ^ _) with 4294967296; lia..].
  apply app_inj_1 in E as [EB E]; [|lia].
  split; [by eapply encode_values_inj|]. split.
  - intros k. apply sort_keys_lookup; [done..|]. apply dumps_compact_inj; [by apply sort_keys_wf..|].
    apply bytes_of_inj. by rewrite <- D1, <- D2.
  - split; [done|]. rewrite !length_app, !le_bytes_length. change (length ENVELOPE_MAGIC) with 4%nat. lia.
Qed.

Lemma shard_envelope_binds_witness :
  let h := [("shard", JInt 1); ("layer", JStr "w")] in
  let h' := [("layer", JStr "w"); ("shard", JInt 1)] in
  exists p e, encode_payload [JInt (-1); JInt 7] = Ok p /\ encode_envelope h p = Ok e /\
    encode_envelope h' p = Ok e /\ length p = 4%nat /\ Z.of_nat (length e) <= 16 + 65536 + 1048576.
Proof.
  intros h h'.
  assert (P : encode_payload [JInt (-1); JInt 7] = Ok [255; 255; 7; 0]) by (vm_compute; reflexivity).
  assert (E : encode_envelope h [255; 255; 7; 0] = encode_envelope h' [255; 255; 7; 0])
    by (vm_compute; reflexivity).
  destruct (encode_envelope h [255; 255; 7; 0]) as [e|] eqn:D; [|vm_compute in D; discriminate].
  exists [255; 255; 7; 0], e.
  split; [exact P|]. split; [exact D|]. split; [symmetry; exact E|].
  exact (proj2 (proj2 (shard_envelope_binds h h' _ _ _ _ e eq_refl eq_refl P P D (eq_sym E)))).
Defined.

(** ** Merkle roots *)

#[local] Opaque sha256_bytes.

(** The inputs hashed on the way to the root *)
Fixpoint level_inputs (nodes : list (list Z)) : list (list Z) :=
  match nodes with
  | a :: b :: r => node_input a b :: level_inputs r
  | [a] => [node_input a a]
  | [] => []
  end.

Fixpoint tree_inputs (fuel : nat) (nodes : list (list Z)) : list (list Z) :=
  match fuel, nodes with
  | S k, _ :: _ :: _ => (level_inputs nodes ++ tree_inputs k (merkle_level nodes))%list
  | _, _ => []
  end.

(** Two different inputs, one hashed for each tree, with the same digest *)
Definition hash_collision (xs ys : list (list Z)) : Prop :=
  exists x y, x ∈ xs /\ y ∈ ys /\ x <> y /\ sha256_bytes x = sha256_bytes y.

(** Induction two elements at a time *)
Lemma list_pair_ind {A} (P : list A -> Prop) :
  P [] -> (forall a, P [a]) -> (forall a b r, P r -> P (a :: b :: r)) -> forall l, P l.
Proof.
  intros H0 H1 H2 l. enough (P l /\ forall a, P (a :: l)) by tauto.
  induction l as [|a l [IH1 IH2]]; auto.
Qed.

Lemma merkle_level_map nodes : merkle_level nodes = map sha256_bytes (level_inputs nodes).
Proof. induction nodes as [| |a b r IH] using list_pair_ind; [done..|]. cbn. by rewrite IH. Qed.

Lemma merkle_level_length nodes : length (merkle_level nodes) = Nat.div2 (S (length nodes)).
Proof. induction nodes as [| |a b r IH] using list_pair_ind; [done..|]. cbn [merkle_level length]. by rewrite IH. Qed.

Lemma merkle_level_digests nodes : Forall (fun n => length n = 32%nat) (merkle_level nodes).
Proof.
  induction nodes as [| |a b r IH] using list_pair_ind; cbn [merkle_level];
    repeat constructor; try apply sha256_bytes_length. done.
Qed.

(** Each level is shorter, so the length of the list is fuel enough. *)
Lemma merkle_loop_total fuel nodes :
  nodes <> [] -> (length nodes <= S fuel)%nat -> Forall (fun n => length n = 32%nat) nodes ->
  exists root, merkle_loop fuel nodes = Some root /\ length root = 32%nat.
Proof.
  revert nodes. induction fuel as [|k IH]; intros nodes N L F.
  - destruct nodes as [|a [|b r]]; [done| |cbn in L; lia].
    apply Forall_cons in F as [F _]. by exists a.
  - destruct nodes as [|a [|b r]]; [done|apply Forall_cons in F as [F _]; by exists a|].
    change (merkle_loop (S k) (a :: b :: r)) with (merkle_loop k (merkle_level (a :: b :: r))).
    apply IH; [done| |apply merkle_level_digests].
    rewrite merkle_level_length. cbn [length] in *. pose proof (Nat.div2_decr (length r) (length r)).
    change (Nat.div2 (S (S (S (length r))))) with (S (Nat.div2 (S (length r)))).
    pose proof (Nat.le_div2 (length r)). lia.
Qed.

Lemma node_input_inj a b c d :
  length a = length c -> node_input a b = node_input c d -> a = c /\ b = d.
Proof. unfold node_input. intros L E%app_inv_head. by apply app_inj_1 in E. Qed.

Lemma collision_mono xs ys xs' ys' :
  xs ⊆ xs' -> ys ⊆ ys' -> hash_collision xs ys -> hash_collision xs' ys'.
Proof. intros Hx Hy (x & y & X & Y & N & E). exists x, y. exact (conj (Hx x X) (conj (Hy y Y) (conj N E))). Qed.

(** Equal digests of inputs of one width: equal inputs or a collision. *)
Lemma pair_binds a b c d :
  length a = length c -> sha256_bytes (node_input a b) = sha256_bytes (node_input c d) ->
  (a = c /\ b = d) \/ hash_collision [node_input a b] [node_input c d].
Proof.
  intros L E. destruct (decide (node_input a b = node_input c d)) as [I|N].
  - left. by apply node_input_inj.
  - right. exists (node_input a b), (node_input c d). repeat split; [set_solver..|done|done].
Qed.

Lemma merkle_level_binds xs ys :
  length xs = length ys ->
  Forall (fun n => length n = 32%nat) xs -> Forall (fun n => length n = 32%nat) ys ->
  merkle_level xs = merkle_level ys -> xs = ys \/ hash_collision (level_inputs xs) (level_inputs ys).
Proof.
  revert ys. induction xs as [|a|a b r IH] using list_pair_ind;
    intros [|c [|d r']]; try done; intros L Fx Fy E.
  - by left.
  - cbn [merkle_level] in E. injection E as E.
    apply Forall_cons in Fx as [Fa _], Fy as [Fc _].
    destruct (pair_binds a a c c) as [[-> _]|C]; [congruence|done|by left|by right].
  - cbn [merkle_level] in E. injection E as E1 E2.
    apply Forall_cons in Fx as [Fa Fx], Fy as [Fc Fy]. apply Forall_cons in Fx as [_ Fx], Fy as [_ Fy].
    destruct (pair_binds a b c d) as [[-> ->]|C]; [congruence|done| |].
    + destruct (IH r') as [->|C]; [by injection L|done..|by left|].
      right. revert C. apply collision_mono; cbn [level_inputs]; set_solver.
    + right. revert C. apply collision_mono; cbn [level_inputs]; set_solver.
Qed.

Lemma merkle_loop_binds fuel xs ys root :
  length xs = length ys ->
  Forall (fun n => length n = 32%nat) xs -> Forall (fun n => length n = 32%nat) ys ->
  merkle_loop fuel xs = Some root -> merkle_loop fuel ys = Some root ->
  xs = ys \/ hash_collision (tree_inputs fuel xs) (tree_inputs fuel ys).
Proof.
  revert xs ys. induction fuel as [|k IH]; intros xs ys L Fx Fy;
    destruct xs as [|a [|b r]], ys as [|c [|d r']]; try done;
    try (intros [= ->] [= ->]; by left).
  set (xs := a :: b :: r) in *. set (ys := c :: d :: r') in *.
  change (merkle_loop (S k) xs) with (merkle_loop k (merkle_level xs)).
  change (merkle_loop (S k) ys) with (merkle_loop k (merkle_level ys)).
  change (tree_inputs (S k) xs) with (level_inputs xs ++ tree_inputs k (merkle_level xs))%list.
  change (tree_inputs (S k) ys) with (level_inputs ys ++ tree_inputs k (merkle_level ys))%list.
  intros Hx Hy. destruct (IH (merkle_level xs) (merkle_level ys)) as [E|C]; try done.
  - by rewrite !merkle_level_length, L.
  - apply merkle_level_digests.
  - apply merkle_level_digests.
  - destruct (merkle_level_binds xs ys) as [->|C]; try done; [by left|].
    right. revert C. apply collision_mono; set_solver.
  - right. revert C. apply collision_mono; set_solver.
Qed.

(** *** Leaves *)

(** The form [content_id] writes: [sha256:] and 64 lowercase hex digits *)
Definition canonical_id (s : string) : bool :=
  match strip_prefix "sha256:" s with Some r => lower_hex 64 r | None => false end.

Lemma lower_hex_char a :
  is_lower_hex a = true ->
  hex_space a = false /\ (byte_val a <? 128) = true /\
  exists x, hex_val a = Some x /\ 0 <= x < 16 /\ hex_digit (Z.to_nat x) = a.
Proof.
  destruct a as [[] [] [] [] [] [] [] []]; intros H; vm_compute in H; try discriminate;
    (split; [reflexivity|split; [reflexivity|]]);
    eexists; (split; [vm_compute; reflexivity|]); (split; [lia|vm_compute; reflexivity]).
Qed.

Lemma from_hex_lower n s :
  String.length s = (2 * n)%nat -> str_all is_lower_hex s = true ->
  exists t, from_hex s = Some t /\ String.length t = n /\ to_hex t = s.
Proof.
  revert s. induction n as [|n IH]; intros s L H.
  - destruct s; [|done]. by exists EmptyString.
  - destruct s as [|a [|b s]]; [done|cbn in L; lia|]. cbn [str_all] in H.
    apply andb_true_iff in H as [Ha H]. apply andb_true_iff in H as [Hb H].
    apply lower_hex_char in Ha as (Sa & _ & x & Vx & Bx & Dx).
    apply lower_hex_char in Hb as (_ & _ & y & Vy & By & Dy).
    destruct (IH s) as (t & E & Lt & Ht); [cbn in L; lia|done|].
    exists (String (byte_char (x * 16 + y)) t). cbn [from_hex]. rewrite Sa, Vx, Vy, E.
    split; [done|]. cbn [String.length to_hex]. split; [lia|].
    assert (N : nat_of_ascii (byte_char (x * 16 + y)) = (Z.to_nat x * 16 + Z.to_nat y)%nat).
    { unfold byte_char. rewrite nat_ascii_embedding; lia. }
    rewrite N, Nat.div_add_l, Nat.div_small, Nat.add_0_r, Dx by lia.
    rewrite Nat.add_comm, Nat.Div0.mod_add, Nat.mod_small, Dy, Ht by lia. done.
Qed.

Lemma lower_hex_ascii s : str_all is_lower_hex s = true -> ascii_text s = true.
Proof.
  unfold ascii_text. induction s as [|c s IH]; [done|]. cbn [str_all].
  intros [Hc Hs]%andb_true_iff. apply lower_hex_char in Hc as (_ & -> & _). by apply IH.
Qed.

Definition node_ok (n : list Z) : Prop := length n = 32%nat /\ Forall (fun b => 0 <= b < 256) n.

Lemma bytes_of_range s : Forall (fun b => 0 <= b < 256) (bytes_of s).
Proof.
  induction s as [|c s IH]; [constructor|].
  change (bytes_of (String c s)) with (Z.of_nat (nat_of_ascii c) :: bytes_of s).
  constructor; [|done]. pose proof (nat_ascii_bounded c). lia.
Qed.

Lemma bytes_of_length s : length (bytes_of s) = String.length s.
Proof. unfold bytes_of. rewrite length_map. induction s; cbn; congruence. Qed.

(** A canonical leaf is decoded, to the 32 bytes its digits spell. *)
Lemma leaf_node_canonical leaf :
  canonical_id leaf = true ->
  exists t, leaf = "sha256:" +:+ to_hex t /\ leaf_node leaf = Ok (bytes_of t) /\ node_ok (bytes_of t).
Proof.
  unfold canonical_id. destruct (strip_prefix "sha256:" leaf) as [r|] eqn:P; [|done].
  assert (E : leaf = "sha256:" +:+ r).
  { cbn [strip_prefix] in P. repeat (destruct leaf as [|? leaf]; [done|];
      cbn [strip_prefix] in P; unfold ch_eq in P at 1;
      match type of P with context [Ascii.eqb ?a ?b] => destruct (Ascii.eqb_spec a b) as [<-|]; [|done] end).
    by injection P as ->. }
  unfold lower_hex. intros [L H]%andb_true_iff. apply Nat.eqb_eq in L.
  destruct (from_hex_lower 32 r) as (t & F & Lt & Ht); [lia|done|].
  exists t. rewrite Ht. split; [done|]. unfold leaf_node. split.
  - rewrite E. rewrite code_points_ascii by (apply lower_hex_ascii in H; exact H).
    rewrite bytes_of_length. change (str_drop 7 ("sha256:" +:+ r)) with r.
    change (String.length ("sha256:" +:+ r)) with (7 + String.length r)%nat. rewrite L, F. done.
  - split; [by rewrite bytes_of_length|apply bytes_of_range].
Qed.

Lemma leaf_nodes_canonical leaves :
  Forall (fun l => canonical_id l = true) leaves ->
  exists nodes, rmap leaf_node leaves = Ok nodes /\ Forall node_ok nodes /\ length nodes = length leaves.
Proof.
  induction 1 as [|l leaves Hl _ (nodes & E & F & L)]; [by exists []|].
  apply leaf_node_canonical in Hl as (t & _ & Et & Ft). exists (bytes_of t :: nodes).
  cbn [rmap]. rewrite Et. cbn [rbind]. rewrite E. cbn [rbind length]. auto with f_equal.
Qed.

Lemma leaf_nodes_inj l1 l2 nodes :
  Forall (fun l => canonical_id l = true) l1 -> Forall (fun l => canonical_id l = true) l2 ->
  rmap leaf_node l1 = Ok nodes -> rmap leaf_node l2 = Ok nodes -> l1 = l2.
Proof.
  rewrite !rmap_Ok. intros F1 F2 H1. revert l2 F2. induction H1 as [|x n l1 nodes Hx H1 IH]; intros l2 F2 H2.
  - by inversion H2.
  - inversion H2 as [|y ? l2' ? Hy H2']; subst. apply Forall_cons in F1 as [C1 F1], F2 as [C2 F2].
    apply leaf_node_canonical in C1 as (t1 & -> & E1 & _). apply leaf_node_canonical in C2 as (t2 & -> & E2 & _).
    rewrite E1 in Hx. rewrite E2 in Hy. f_equal; [|by apply IH].
    do 2 f_equal. apply bytes_of_inj. congruence.
Qed.

Lemma be_bytes_range k n : Forall (fun b => 0 <= b < 256) (be_bytes k n).
Proof.
  revert n. induction k as [|k IH]; intros n; [constructor|]. cbn [be_bytes].
  apply Forall_app. split; [apply IH|]. constructor; [|constructor]. apply Z.mod_pos_bound. lia.
Qed.

Lemma digest_ok m : node_ok (sha256_bytes m).
Proof.
  split; [apply sha256_bytes_length|]. with_strategy transparent [sha256_bytes] unfold sha256_bytes.
  generalize (sha_blocks (length (sha_pad m)) sha_h0 (sha_pad m)). intros l.
  induction l as [|w l IH]; [constructor|]. cbn [flat_map]. apply Forall_app. split; [apply be_bytes_range|done].
Qed.

Lemma hex_char_inj x y : 0 <= x < 16 -> 0 <= y < 16 -> hex_char x = hex_char y -> x = y.
Proof.
  intros Hx Hy E. apply (f_equal nat_of_ascii) in E. unfold hex_char in E.
  rewrite !nat_ascii_embedding in E by (clear E; destruct (_ <? _)%Z; lia).
  destruct (Z.ltb_spec x 10), (Z.ltb_spec y 10); lia.
Qed.

Lemma hex_of_bytes_inj a b :
  Forall (fun b => 0 <= b < 256) a -> Forall (fun b => 0 <= b < 256) b ->
  hex_of_bytes a = hex_of_bytes b -> a = b.
Proof.
  intros Fa. revert b. induction Fa as [|x a Hx Fa IH]; intros b Fb; destruct Fb as [|y b Hy Fb]; try done.
  unfold hex_of_bytes. cbn [flat_map app String.string_of_list_ascii]. intros [= E1 E2 E3].
  pose proof (Z.mod_pos_bound x 16 ltac:(lia)). pose proof (Z.mod_pos_bound y 16 ltac:(lia)).
  pose proof (Z.div_mod x 16 ltac:(lia)). pose proof (Z.div_mod y 16 ltac:(lia)).
  apply hex_char_inj in E1; [|lia..]. apply hex_char_inj in E2; [|lia..].
  f_equal; [lia|]. by apply IH.
Qed.

Lemma merkle_loop_ok fuel nodes root :
  Forall node_ok nodes -> merkle_loop fuel nodes = Some root -> node_ok root.
Proof.
  revert nodes. induction fuel as [|k IH]; intros nodes F;
    destruct nodes as [|a [|b r]]; try done; try (intros [= <-]; by apply Forall_cons in F as [? _]).
  change (merkle_loop (S k) (a :: b :: r)) with (merkle_loop k (merkle_level (a :: b :: r))).
  apply IH. rewrite merkle_level_map. apply Forall_forall.
  intros x (y & -> & _)%list_elem_of_fmap. apply digest_ok.
Qed.

Lemma hex_of_bytes_lower l :
  Forall (fun b => 0 <= b < 256) l -> lower_hex (2 * length l) (hex_of_bytes l) = true.
Proof.
  assert (C : forall x, 0 <= x < 16 -> is_lower_hex (hex_char x) = true).
  { intros x Hx. unfold is_lower_hex, byte_val, hex_char, in_range. rewrite nat_ascii_embedding.
    - destruct (Z.ltb_spec x 10); rewrite Z2Nat.id by lia; apply orb_true_iff; [left|right];
        apply andb_true_iff; rewrite !Z.leb_le; lia.
    - destruct (x <? 10)%Z; lia. }
  intros F. unfold lower_hex. apply andb_true_iff. rewrite Nat.eqb_eq. unfold hex_of_bytes.
  induction F as [|b l Hb F [IH1 IH2]]; [done|].
  pose proof (Z.mod_pos_bound b 16 ltac:(lia)). pose proof (Z.div_mod b 16 ltac:(lia)).
  cbn [flat_map app String.string_of_list_ascii String.length str_all length].
  rewrite IH1, IH2, !C by lia. split; [lia|done].
Qed.

Lemma sha256_hex_lower s : lower_hex 64 (sha256_hex s) = true.
Proof.
  unfold sha256_hex. destruct (digest_ok (bytes_of s)) as [N R]. pose proof (hex_of_bytes_lower _ R) as L. by rewrite N in L.
Qed.

(** The inputs hashed for the root of a list of leaves *)
Definition root_inputs (leaves : list string) : list (list Z) :=
  match rmap leaf_node leaves with
  | Ok nodes => tree_inputs (length nodes) nodes
  | Raise _ => []
  end.

Lemma merkle_root_eq leaves nodes root :
  leaves <> [] -> rmap leaf_node leaves = Ok nodes -> merkle_loop (length nodes) nodes = Some root ->
  merkle_root leaves = Ok (Some ("sha256:" +:+ hex_of_bytes root)).
Proof. intros N E R. unfold merkle_root. rewrite E. destruct leaves; [done|]. cbn [require rbind]. by rewrite R. Qed.

Lemma merkle_root_total leaves :
  leaves <> [] -> Forall (fun l => canonical_id l = true) leaves ->
  exists nodes root, rmap leaf_node leaves = Ok nodes /\ Forall node_ok nodes /\
    length nodes = length leaves /\ merkle_loop (length nodes) nodes = Some root /\ node_ok root /\
    merkle_root leaves = Ok (Some ("sha256:" +:+ hex_of_bytes root)).
Proof.
  intros N F. destruct (leaf_nodes_canonical leaves F) as (nodes & E & Fn & L).
  destruct (merkle_loop_total (length nodes) nodes) as (root & R & _).
  - intros ->. by destruct leaves.
  - lia.
  - eapply Forall_impl; [exact Fn|]. by intros n [? _].
  - exists nodes, root. pose proof (merkle_loop_ok _ _ _ Fn R). eauto 8 using merkle_root_eq.
Qed.

(** the Merkle root of a non-empty list of canonical leaf ids is computed
    after finitely many levels and is a canonical id, and two such lists of the
    same length with the same root are equal, in order, or two different inputs
    hashed on the way to the two roots have the same SHA-256 digest. *)
Theorem merkle_root_binds (l1 l2 : list string)
    (N1 : l1 <> []) (L : length l1 = length l2)
    (F1 : Forall (fun l => canonical_id l = true) l1)
    (F2 : Forall (fun l => canonical_id l = true) l2) :
  exists r1 r2, merkle_root l1 = Ok (Some r1) /\ merkle_root l2 = Ok (Some r2) /\
    canonical_id r1 = true /\ canonical_id r2 = true /\
    (r1 = r2 -> l1 = l2 \/ hash_collision (root_inputs l1) (root_inputs l2)).
Proof.
  assert (N2 : l2 <> []) by (intros ->; by destruct l1).
  destruct (merkle_root_total l1 N1 F1) as (n1 & t1 & E1 & K1 & M1 & R1 & O1 & H1).
  destruct (merkle_root_total l2 N2 F2) as (n2 & t2 & E2 & K2 & M2 & R2 & O2 & H2).
  assert (C : forall t, node_ok t -> canonical_id ("sha256:" +:+ hex_of_bytes t) = true).
  { intros t [Lt Ft]. pose proof (hex_of_bytes_lower t Ft) as H. by rewrite Lt in H. }
  eexists _, _. split; [exact H1|]. split; [exact H2|]. split; [by apply C|]. split; [by apply C|].
  intros E%(inj (String.append "sha256:")). apply hex_of_bytes_inj in E as <-; [|apply O1|apply O2].
  unfold root_inputs. rewrite E1, E2. rewrite M2, <- L, <- M1 in R2 |- *.
  assert (W : forall n, node_ok n -> length n = 32%nat) by by intros n [? _].
  destruct (merkle_loop_binds (length n1) n1 n2 t1) as [->|X]; [congruence|..|by right]; try done.
  - eapply Forall_impl; [exact K1|done].
  - eapply Forall_impl; [exact K2|done].
  - left. by eapply leaf_nodes_inj.
Qed.

Definition demo_leaf (c : ascii) : string := "sha256:" +:+ sha256_hex (String c EmptyString).

Lemma merkle_root_binds_witness :
  let ab := [demo_leaf "a"; demo_leaf "b"; demo_leaf "c"] in
  let ba := [demo_leaf "b"; demo_leaf "a"; demo_leaf "c"] in
  exists r1 r2, merkle_root ab = Ok (Some r1) /\ merkle_root ba = Ok (Some r2) /\
    canonical_id r1 = true /\ canonical_id r2 = true /\
    (r1 = r2 -> ab = ba \/ hash_collision (root_inputs ab) (root_inputs ba)).
Proof.
  intros ab ba.
  assert (F : Forall (fun l => canonical_id l = true) ab) by (repeat constructor; vm_compute; reflexivity).
  assert (G : Forall (fun l => canonical_id l = true) ba) by (repeat constructor; vm_compute; reflexivity).
  exact (merkle_root_binds ab ba ltac:(discriminate) eq_refl F G).
Defined.

(** Lists of different lengths can share a root: the last odd node is paired
    with itself. *)
Example merkle_root_padding :
  let a := demo_leaf "a" in let b := demo_leaf "b" in let c := demo_leaf "c" in
  merkle_root [a; b; c] = merkle_root [a; b; c; c].
Proof. vm_compute. reflexivity. Qed.

(** Upper-case digits name the same node as the canonical id. *)
Example merkle_root_upper :
  let low := "sha256:aaaaaaaaaaaaaaaaaaaaaaaaaaaaaaaaaaaaaaaaaaaaaaaaaaaaaaaaaaaaaaaa" in
  let up := "sha256:AAAAAAAAAAAAAAAAAAAAAAAAAAAAAAAAAAAAAAAAAAAAAAAAAAAAAAAAAAAAAAAA" in
  canonical_id up = false /\ merkle_root [up] = merkle_root [low].
Proof. vm_compute. split; reflexivity. Qed.
