(* ===== verification/TokenAccounting.v ===== *)
(** * Token and cursor accounting at optimizer boundaries
    ([deltatorrent/training/token_accounting.py])

    The ledger of a local round: micro-batches are staged one after the other
    on the cursor, an optimizer step commits all the staged ones or the partial
    accumulation is discarded.  Arguments the code checks with [isinstance] are
    [json] values; attributes are the integers they were checked to be. *)

From S2P Require Import Prelude PyFloat Json WorkerErrors.
Open Scope string_scope.
Open Scope Z_scope.
Open Scope py_scope.

Definition _invalid (message : string) : worker_exn := DeltaError INVALID_TOKEN_ACCOUNTING message.

Definition _non_negative (value : json) : wresult Z :=
  match value with
  | JInt n => require (negb (n <? 0)) (_invalid "ACCOUNTING_NON_NEGATIVE_INTEGER_REQUIRED") ;? Ok n
  | _ => Raise (_invalid "ACCOUNTING_NON_NEGATIVE_INTEGER_REQUIRED")
  end.

Record TokenAccountingRecord := mkAccounting {
  r_effective_steps : Z;
  r_observed_micro_steps : Z;
  r_committed_micro_steps : Z;
  r_processed_tokens : Z;
  r_cursor_start : Z;
  r_cursor_end : Z;
  r_pending_micro_steps : Z }.

(** [TokenAccountingRecord.__post_init__] *)
Definition checked_record (r : TokenAccountingRecord) : wresult TokenAccountingRecord :=
  rforall (fun v => let? _ := _non_negative (JInt v) in Ok tt)
    [r_effective_steps r; r_observed_micro_steps r; r_committed_micro_steps r;
     r_processed_tokens r; r_cursor_start r; r_cursor_end r; r_pending_micro_steps r] ;?
  require (negb (r_cursor_end r <? r_cursor_start r)) (_invalid "ACCOUNTING_CURSOR_INVALID") ;?
  require (negb (r_observed_micro_steps r <? r_committed_micro_steps r))
    (_invalid "ACCOUNTING_MICRO_STEP_RELATION_INVALID") ;?
  Ok r.

Record OptimizerBoundaryLedger := mkBoundary {
  range_start : Z;
  range_end : Z;
  effective_steps : Z;
  observed_micro_steps : Z;
  committed_micro_steps : Z;
  processed_tokens : Z;
  cursor_end : Z;
  _pending_tokens : Z;
  _pending_cursor_end : option Z;
  _pending_micro_steps : Z }.

(** [OptimizerBoundaryLedger(range_start=…, range_end=…)], the other fields at
    their defaults, with the checks of [__post_init__] *)
Definition new_boundary_ledger (start end_ : json) : wresult OptimizerBoundaryLedger :=
  let? range_start := _non_negative start in
  let? range_end := _non_negative end_ in
  require (negb (range_end <=? range_start)) (_invalid "ACCOUNTING_RANGE_INVALID") ;?
  let cursor_end := range_start in
  require ((range_start <=? cursor_end) && (cursor_end <=? range_end))
    (_invalid "ACCOUNTING_CURSOR_INVALID") ;?
  Ok (mkBoundary range_start range_end 0 0 0 0 cursor_end 0 None 0).

Definition expected_start (l : OptimizerBoundaryLedger) : Z :=
  match _pending_cursor_end l with Some c => c | None => cursor_end l end.

Definition stage_microbatch (start end_ tokens : json) (l : OptimizerBoundaryLedger) :
    wresult OptimizerBoundaryLedger :=
  let? cursor_start := _non_negative start in
  let? cursor_end' := _non_negative end_ in
  let? non_padding_tokens := _non_negative tokens in
  require (negb (negb (cursor_start =? expected_start l)
                 || (cursor_end' <=? cursor_start)
                 || (range_end l <? cursor_end')))
    (_invalid "ACCOUNTING_STAGE_RANGE_INVALID") ;?
  Ok (mkBoundary (range_start l) (range_end l) (effective_steps l) (observed_micro_steps l + 1)
        (committed_micro_steps l) (processed_tokens l) (cursor_end l)
        (_pending_tokens l + non_padding_tokens) (Some cursor_end') (_pending_micro_steps l + 1)).

Definition snapshot (l : OptimizerBoundaryLedger) : wresult TokenAccountingRecord :=
  checked_record (mkAccounting (effective_steps l) (observed_micro_steps l) (committed_micro_steps l)
                    (processed_tokens l) (range_start l) (cursor_end l) (_pending_micro_steps l)).

(** The ledger after the call and what the call returns or raises *)
Definition commit_optimizer_step (expected : json) (l : OptimizerBoundaryLedger) :
    OptimizerBoundaryLedger * wresult TokenAccountingRecord :=
  let refused := (l, Raise (_invalid "ACCOUNTING_BOUNDARY_INCOMPLETE")) in
  match expected, _pending_cursor_end l with
  | JInt n, Some c =>
      if (n <=? 0) || negb (_pending_micro_steps l =? n) then refused
      else
        let l' := mkBoundary (range_start l) (range_end l) (effective_steps l + 1)
                    (observed_micro_steps l) (committed_micro_steps l + _pending_micro_steps l)
                    (processed_tokens l + _pending_tokens l) c 0 None 0 in
        (l', snapshot l')
  | _, _ => refused
  end.

Definition discard_partial_accumulation (l : OptimizerBoundaryLedger) :
    OptimizerBoundaryLedger * wresult TokenAccountingRecord :=
  let l' := mkBoundary (range_start l) (range_end l) (effective_steps l) (observed_micro_steps l)
              (committed_micro_steps l) (processed_tokens l) (cursor_end l) 0 None 0 in
  (l', snapshot l').

(** ** Runs *)

Inductive call :=
| Stage (start end_ tokens : json)
| Commit (expected : json)
| Discard.

(** A micro-batch the ledger accepted: the cursor it covers and its tokens *)
Record batch := mkBatch { b_start : Z; b_end : Z; b_tokens : Z }.

(** What happened: the micro-batches of every committed step, those staged
    since, and those discarded *)
Record history := mkHistory {
  h_steps : list (list batch);
  h_pending : list batch;
  h_discarded : list batch }.

Definition exec (c : call) (lh : OptimizerBoundaryLedger * history) : OptimizerBoundaryLedger * history :=
  let '(l, h) := lh in
  match c with
  | Stage (JInt s) (JInt e) (JInt t) =>
      match stage_microbatch (JInt s) (JInt e) (JInt t) l with
      | Ok l' => (l', mkHistory (h_steps h) (h_pending h ++ [mkBatch s e t]) (h_discarded h))
      | Raise _ => (l, h)
      end
  | Stage s e t =>
      match stage_microbatch s e t l with Ok l' => (l', h) | Raise _ => (l, h) end
  | Commit n =>
      match commit_optimizer_step n l with
      | (l', Ok _) => (l', mkHistory (h_steps h ++ [h_pending h]) [] (h_discarded h))
      | (l', Raise _) => (l', h)
      end
  | Discard =>
      ((discard_partial_accumulation l).1,
       mkHistory (h_steps h) [] (h_discarded h ++ h_pending h))
  end.

Definition run_calls (cs : list call) (l : OptimizerBoundaryLedger) : OptimizerBoundaryLedger * history :=
  fold_left (fun lh c => exec c lh) cs (l, mkHistory [] [] []).

(** ** What the counters mean *)

(** The micro-batches cover [a, b) without gap or overlap, in order. *)
Fixpoint tiles (a : Z) (l : list batch) (b : Z) : Prop :=
  match l with
  | [] => a = b
  | x :: r => b_start x = a /\ a < b_end x /\ tiles (b_end x) r b
  end.

Definition tokens_of (l : list batch) : Z := foldr (fun x n => b_tokens x + n) 0 l.

Lemma tiles_app a l m b : tiles a (l ++ m) b <-> exists c, tiles a l c /\ tiles c m b.
Proof.
  revert a. induction l as [|x l IH]; intros a; cbn.
  - split; [intros H; by exists a|by intros (c & -> & H)].
  - rewrite IH. split; [intros (E & L & c & T & U)|intros (c & (E & L & T) & U)]; eauto 6.
Qed.

Lemma tiles_le a l b : tiles a l b -> a <= b.
Proof.
  revert a. induction l as [|x l IH]; intros a; cbn; [lia|]. intros (_ & L & H%IH). lia.
Qed.

Lemma tokens_of_app l m : tokens_of (l ++ m) = tokens_of l + tokens_of m.
Proof. unfold tokens_of. induction l as [|x l IH]; [done|]. simpl in *. rewrite IH. lia. Qed.

(** The counters are those of the history. *)
Record accounts (l : OptimizerBoundaryLedger) (h : history) : Prop := {
  a_committed : tiles (range_start l) (concat (h_steps h)) (cursor_end l);
  a_pending : tiles (cursor_end l) (h_pending h) (expected_start l);
  a_pending_none : _pending_cursor_end l = None <-> h_pending h = [];
  a_range : 0 <= range_start l /\ expected_start l <= range_end l;
  a_effective : effective_steps l = Z.of_nat (length (h_steps h));
  a_committed_steps : committed_micro_steps l = Z.of_nat (length (concat (h_steps h)));
  a_pending_steps : _pending_micro_steps l = Z.of_nat (length (h_pending h));
  a_observed : observed_micro_steps l
    = committed_micro_steps l + _pending_micro_steps l + Z.of_nat (length (h_discarded h));
  a_processed : processed_tokens l = tokens_of (concat (h_steps h));
  a_pending_tokens : _pending_tokens l = tokens_of (h_pending h);
  a_steps : Forall (fun s => s <> []) (h_steps h);
  a_tokens : Forall (fun b => 0 <= b_tokens b) (concat (h_steps h) ++ h_pending h) }.

Lemma non_negative_Ok j n : _non_negative j = Ok n <-> j = JInt n /\ 0 <= n.
Proof.
  destruct j as [| |m| | | |]; cbn; try (split; [done|by intros []]).
  rewrite rbind_unit_Ok, require_Ok, negb_true_iff, Z.ltb_ge. split.
  - intros (H & [= ->]). done.
  - intros ([= ->] & H). done.
Qed.

Lemma tokens_nonneg l : Forall (fun b => 0 <= b_tokens b) l -> 0 <= tokens_of l.
Proof. unfold tokens_of. induction 1 as [|x l Hx Hl IH]; simpl in *; lia. Qed.

(** A ledger whose counters account for a history can always be read. *)
Lemma snapshot_accounts l h :
  accounts l h ->
  snapshot l = Ok (mkAccounting (effective_steps l) (observed_micro_steps l) (committed_micro_steps l)
                     (processed_tokens l) (range_start l) (cursor_end l) (_pending_micro_steps l)).
Proof.
  intros A. destruct A as [Ac Ap An Ar Ae Acs Aps Ao Apr Apt As At].
  apply Forall_app in At as [At _]. apply tokens_nonneg in At. apply tiles_le in Ac.
  unfold snapshot, checked_record. cbn -[Z.ltb].
  assert (N : forall z, 0 <= z -> (z <? 0) = false) by (intros; by apply Z.ltb_ge).
  rewrite !N by lia. cbn -[Z.ltb]. rewrite (proj2 (Z.ltb_ge _ _)) by lia. cbn -[Z.ltb].
  rewrite (proj2 (Z.ltb_ge _ _)) by lia. done.
Qed.

Lemma new_ledger_accounts s e l :
  new_boundary_ledger s e = Ok l -> accounts l (mkHistory [] [] []) /\
  exists a b, s = JInt a /\ e = JInt b /\ range_start l = a /\ range_end l = b /\ a < b.
Proof.
  unfold new_boundary_ledger. intros (a & Ha & H)%rbind_Ok. apply rbind_Ok in H as (b & Hb & H).
  apply non_negative_Ok in Ha as (-> & Ha), Hb as (-> & Hb).
  apply rbind_unit_Ok in H as (R & H). apply rbind_unit_Ok in H as (_ & H). injection H as <-.
  rewrite require_Ok, negb_true_iff, Z.leb_gt in R.
  split; [|exists a, b; auto 6]. constructor; cbn; try done; try (unfold expected_start; cbn); try lia; constructor.
Qed.

Lemma stage_Ok s e t l l' :
  stage_microbatch s e t l = Ok l' <->
  exists a b n, s = JInt a /\ e = JInt b /\ t = JInt n /\ 0 <= a /\ 0 <= n /\
    a = expected_start l /\ a < b <= range_end l /\
    l' = mkBoundary (range_start l) (range_end l) (effective_steps l) (observed_micro_steps l + 1)
           (committed_micro_steps l) (processed_tokens l) (cursor_end l)
           (_pending_tokens l + n) (Some b) (_pending_micro_steps l + 1).
Proof.
  unfold stage_microbatch. split.
  - intros (a & Ha & H)%rbind_Ok. apply rbind_Ok in H as (b & Hb & H). apply rbind_Ok in H as (n & Hn & H).
    apply non_negative_Ok in Ha as (-> & Ha), Hb as (-> & Hb), Hn as (-> & Hn).
    apply rbind_unit_Ok in H as (R & H). injection H as <-.
    rewrite require_Ok, negb_true_iff, !orb_false_iff, negb_false_iff, Z.eqb_eq, Z.leb_gt, Z.ltb_ge in R.
    destruct R as [[R1 R2] R3]. exists a, b, n. auto 10.
  - intros (a & b & n & -> & -> & -> & Ha & Hn & E & [Hb Hr] & ->).
    rewrite (proj2 (non_negative_Ok (JInt a) a)) by done. cbn [rbind].
    rewrite (proj2 (non_negative_Ok (JInt b) b)) by (split; [done|lia]). cbn [rbind].
    rewrite (proj2 (non_negative_Ok (JInt n) n)) by done. cbn [rbind].
    rewrite (proj2 (Z.eqb_eq a _)) by done. rewrite (proj2 (Z.leb_gt b a)) by done.
    rewrite (proj2 (Z.ltb_ge _ b)) by done. done.
Qed.

Lemma stage_accounts s e t l h l' :
  accounts l h -> stage_microbatch s e t l = Ok l' ->
  exec (Stage s e t) (l, h) = (l', (exec (Stage s e t) (l, h)).2) /\
  accounts l' (exec (Stage s e t) (l, h)).2.
Proof.
  intros A H. pose proof H as H'.
  apply stage_Ok in H as (a & b & n & -> & -> & -> & Ha & Hn & E & Hb & ->).
  cbn [exec]. rewrite H'. cbn [snd]. split; [done|].
  destruct A as [Ac Ap An Ar Ae Acs Aps Ao Apr Apt As At].
  constructor; cbn [range_start range_end effective_steps observed_micro_steps committed_micro_steps
    processed_tokens cursor_end _pending_tokens _pending_cursor_end _pending_micro_steps
    h_steps h_pending h_discarded expected_start]; try done.
  - apply tiles_app. exists (expected_start l). split; [done|]. cbn. by split; [|split; [lia|]].
  - split; [done|]. intros N. by apply app_eq_nil in N as [_ ?].
  - unfold expected_start; cbn. lia.
  - rewrite length_app, Aps. cbn. lia.
  - lia.
  - rewrite tokens_of_app, Apt. cbn. lia.
  - rewrite app_assoc. apply Forall_app. split; [done|]. by constructor.
Qed.

Lemma commit_Ok n l h :
  accounts l h -> 0 < n -> n = Z.of_nat (length (h_pending h)) ->
  exists l' r, commit_optimizer_step (JInt n) l = (l', Ok r) /\
    accounts l' (mkHistory (h_steps h ++ [h_pending h]) [] (h_discarded h)) /\
    range_start l' = range_start l /\ range_end l' = range_end l.
Proof.
  intros A Hn En. pose proof A as [Ac Ap An Ar Ae Acs Aps Ao Apr Apt As At].
  assert (P : h_pending h <> []) by (intros P; rewrite P in En; cbn in En; lia).
  unfold commit_optimizer_step.
  destruct (_pending_cursor_end l) as [c|] eqn:C; [|by destruct P; apply An].
  rewrite (proj2 (Z.leb_gt n 0)) by done. rewrite Aps, (proj2 (Z.eqb_eq _ n)) by done. cbn [orb negb].
  set (l' := mkBoundary _ _ _ _ _ _ _ _ _ _).
  assert (A' : accounts l' (mkHistory (h_steps h ++ [h_pending h]) [] (h_discarded h))).
  { constructor; cbn [l' range_start range_end effective_steps observed_micro_steps committed_micro_steps
      processed_tokens cursor_end _pending_tokens _pending_cursor_end _pending_micro_steps
      h_steps h_pending h_discarded]; rewrite ?concat_app; cbn [concat]; rewrite ?app_nil_r; try done.
    - apply tiles_app. exists (cursor_end l). split; [done|]. unfold expected_start in Ap. by rewrite C in Ap.
    - unfold expected_start in Ar. rewrite C in Ar. done.
    - rewrite length_app. cbn. lia.
    - rewrite length_app. lia.
    - lia.
    - rewrite tokens_of_app. lia.
    - apply Forall_app. split; [done|]. by constructor. }
  rewrite (snapshot_accounts _ _ A'). eauto 6.
Qed.

(** What a successful commit moves *)
Lemma commit_values n l l' r :
  commit_optimizer_step (JInt n) l = (l', Ok r) ->
  snapshot l' = Ok r /\ range_start l' = range_start l /\ range_end l' = range_end l /\
  cursor_end l' = expected_start l /\ effective_steps l' = effective_steps l + 1 /\
  committed_micro_steps l' = committed_micro_steps l + _pending_micro_steps l /\
  processed_tokens l' = processed_tokens l + _pending_tokens l.
Proof.
  unfold commit_optimizer_step, expected_start. destruct (_pending_cursor_end l) as [c|]; [|done].
  destruct (_ || _); [done|]. intros [= <- <-]. done.
Qed.

Lemma snapshot_values l r :
  snapshot l = Ok r ->
  r = mkAccounting (effective_steps l) (observed_micro_steps l) (committed_micro_steps l) (processed_tokens l)
        (range_start l) (cursor_end l) (_pending_micro_steps l).
Proof.
  unfold snapshot, checked_record. intros (_ & H)%rbind_unit_Ok. apply rbind_unit_Ok in H as (_ & H).
  apply rbind_unit_Ok in H as (_ & H). by injection H as <-.
Qed.

Lemma commit_refused j l h :
  accounts l h -> (forall n, j = JInt n -> 0 < n -> n <> Z.of_nat (length (h_pending h))) ->
  commit_optimizer_step j l = (l, Raise (_invalid "ACCOUNTING_BOUNDARY_INCOMPLETE")).
Proof.
  intros A Hn. unfold commit_optimizer_step. destruct j as [| |n| | | |]; try done.
  destruct (_pending_cursor_end l); [|done]. rewrite (a_pending_steps _ _ A).
  destruct (Z.leb_spec n 0); [done|]. cbn [orb].
  destruct (Z.eqb_spec (Z.of_nat (length (h_pending h))) n); [|done]. by destruct (Hn n).
Qed.

Lemma discard_accounts l h :
  accounts l h ->
  accounts (discard_partial_accumulation l).1 (mkHistory (h_steps h) [] (h_discarded h ++ h_pending h)).
Proof.
  intros [Ac Ap An Ar Ae Acs Aps Ao Apr Apt As At]. apply tiles_le in Ap.
  constructor; cbn [discard_partial_accumulation fst range_start range_end effective_steps
    observed_micro_steps committed_micro_steps processed_tokens cursor_end _pending_tokens
    _pending_cursor_end _pending_micro_steps h_steps h_pending h_discarded]; try done.
  - unfold expected_start; cbn. lia.
  - rewrite length_app. lia.
  - rewrite app_nil_r. by apply Forall_app in At as [? _].
Qed.

Lemma complete_step j h :
  (exists n, j = JInt n /\ 0 < n /\ n = Z.of_nat (length (h_pending h))) \/
  ~ (exists n, j = JInt n /\ 0 < n /\ n = Z.of_nat (length (h_pending h))).
Proof.
  destruct j as [| |n| | | |]; try (right; naive_solver).
  destruct (decide (0 < n /\ n = Z.of_nat (length (h_pending h)))); [left|right]; naive_solver.
Qed.

(** Every call, refused or not, keeps the books. *)
Lemma exec_accounts c l h l' h' :
  accounts l h -> exec c (l, h) = (l', h') ->
  accounts l' h' /\ range_start l' = range_start l /\ range_end l' = range_end l.
Proof.
  intros A. destruct c as [s e t|j|].
  - destruct (stage_microbatch s e t l) as [m|x] eqn:E.
    + intros H. destruct (stage_accounts _ _ _ _ _ _ A E) as [H1 H2]. rewrite H in H1, H2. cbn [snd] in H1, H2.
      injection H1 as ->. split; [done|]. apply stage_Ok in E. naive_solver.
    + intros H. assert ((l', h') = (l, h)) as [= -> ->]; [|done].
      rewrite <- H. cbn [exec]. rewrite E.
      destruct s; try done; destruct e; try done; destruct t; try done; by rewrite E.
  - cbn [exec]. destruct (complete_step j h) as [(n & -> & Hn & En)|N].
    + destruct (commit_Ok n l h A Hn En) as (l1 & r & -> & A' & R).
      intros [= <- <-]. done.
    + rewrite (commit_refused j l h A); [by intros [= <- <-]|]. naive_solver.
  - cbn [exec]. intros [= <- <-]. split; [by apply discard_accounts|done].
Qed.

Lemma run_calls_accounts cs l0 l h :
  accounts l0 (mkHistory [] [] []) -> run_calls cs l0 = (l, h) ->
  accounts l h /\ range_start l = range_start l0 /\ range_end l = range_end l0.
Proof.
  unfold run_calls. generalize (mkHistory [] [] []). revert l0.
  induction cs as [|c cs IH]; intros l0 h0 A; cbn [fold_left].
  - by intros [= -> ->].
  - destruct (exec c (l0, h0)) as [l1 h1] eqn:E. intros H.
    destruct (exec_accounts _ _ _ _ _ A E) as (A1 & S1 & E1).
    destruct (IH l1 h1 A1 H) as (? & ? & ?). split; [done|]. split; congruence.
Qed.

(** C24: after any sequence of stage, commit and discard calls, refused ones
    included, the ledger's counters are exact: the committed micro-batches cover
    the ticket range from its start to the cursor without gap or overlap and
    never beyond its end, processed tokens, steps and micro-steps count just
    them, a discarded micro-batch stays observed and is never committed, the
    snapshot never raises, and a commit succeeds exactly for the number of
    micro-batches staged since the last boundary. *)
Theorem token_accounting_exact (s e : json) (l0 l : OptimizerBoundaryLedger) (cs : list call) (h : history)
    (N : new_boundary_ledger s e = Ok l0) (R : run_calls cs l0 = (l, h)) :
  s = JInt (range_start l) /\ e = JInt (range_end l) /\
  tiles (range_start l) (concat (h_steps h)) (cursor_end l) /\ cursor_end l <= range_end l /\
  snapshot l = Ok (mkAccounting
    (Z.of_nat (length (h_steps h)))
    (Z.of_nat (length (concat (h_steps h)) + length (h_pending h) + length (h_discarded h)))
    (Z.of_nat (length (concat (h_steps h)))) (tokens_of (concat (h_steps h)))
    (range_start l) (cursor_end l) (Z.of_nat (length (h_pending h)))) /\
  (forall j, (exists r, (commit_optimizer_step j l).2 = Ok r) <->
             exists n, j = JInt n /\ 0 < n /\ n = Z.of_nat (length (h_pending h))).
Proof.
  apply new_ledger_accounts in N as (A0 & a & b & -> & -> & <- & <- & L).
  destruct (run_calls_accounts _ _ _ _ A0 R) as (A & <- & <-).
  split; [done|]. split; [done|]. pose proof A as [Ac Ap An Ar Ae Acs Aps Ao Apr Apt As At].
  pose proof (tiles_le _ _ _ Ap). split; [done|]. split; [lia|]. split.
  - rewrite (snapshot_accounts _ _ A), Ae, Ao, Acs, Aps, Apr. do 2 f_equal. lia.
  - intros j. split.
    + intros [r Hr]. destruct (complete_step j h) as [Y|Y]; [done|].
      rewrite (commit_refused j l h A) in Hr; [done|naive_solver].
    + intros (n & -> & Hn & En). destruct (commit_Ok n l h A Hn En) as (l' & r & -> & _). by exists r.
Qed.

Lemma token_accounting_exact_witness :
  let cs := [Stage (JInt 10) (JInt 12) (JInt 5); Stage (JInt 13) (JInt 14) (JInt 1);
             Stage (JInt 12) (JInt 14) (JInt 3); Commit (JInt 1); Commit (JInt 2);
             Stage (JInt 14) (JInt 15) (JInt 9); Discard] in
  exists l0 l h, new_boundary_ledger (JInt 10) (JInt 18) = Ok l0 /\ run_calls cs l0 = (l, h) /\
    cursor_end l = 14 /\ snapshot l = Ok (mkAccounting 1 3 2 8 10 14 0).
Proof.
  intros cs. eexists _, _, _. split; [vm_compute; reflexivity|]. split; [vm_compute; reflexivity|].
  split; [reflexivity|].
  exact (proj1 (proj2 (proj2 (proj2 (proj2
    (token_accounting_exact (JInt 10) (JInt 18) _ _ cs _ eq_refl eq_refl)))))).
Defined.
