(* ===== verification/ArtifactRef.v ===== *)
(** * Artifact references ([deltatorrent/domain/manifests.py])

    A reference to one immutable artifact and the checks of its constructor.
    [media_type] is only asked to be non-empty and to have a length, so it may be
    any JSON value with one. *)

From S2P Require Import Prelude PyFloat Json JsonText Text WorkerErrors WorkerCanonical.
Open Scope string_scope.
Open Scope Z_scope.
Open Scope py_scope.

Definition SCHEMA_VERSION : string := "1.0.0".

Definition _invalid (message : string) : worker_exn := DeltaError INVALID_MANIFEST message.

(** [len(s)] of a [str]: its code points *)
Definition str_len (s : string) : Z :=
  match decode s with Some l => Z.of_nat (length l) | None => Z.of_nat (String.length s) end.

(** ** Regular expressions *)

Definition is_upper (c : ascii) : bool := in_range 65 90 (byte_val c).
Definition is_lower (c : ascii) : bool := in_range 97 122 (byte_val c).
Definition is_alnum (c : ascii) : bool := is_upper c || is_lower c || is_digit c.

(** [_CONTENT_ID.fullmatch(s)]: [^sha256:[0-9a-f]{64}$] *)
Definition is_content_id (s : string) : bool :=
  match strip_prefix "sha256:" s with Some r => lower_hex 64 r | None => false end.

(** [_IDENTIFIER.fullmatch(s)]: [^[A-Za-z0-9][A-Za-z0-9._-]{0,127}$] *)
Definition is_identifier (s : string) : bool :=
  match s with
  | String c r =>
      is_alnum c && (String.length r <=? 127)%nat
      && str_all (fun c => is_alnum c || str_in (String c EmptyString) ["."; "_"; "-"]) r
  | EmptyString => false
  end.

(** The part of [_SCHEMA_ID] after [SCHEMA-]: [[A-Z0-9-]+-V[0-9]+], tried at
    every position of the dash *)
Definition schema_tail (r : string) (i : nat) : bool :=
  (1 <=? i)%nat
  && str_all (fun c => is_upper c || is_digit c || ch_eq c "-"%char) (str_take i r)
  && match strip_prefix "-V" (str_drop i r) with
     | Some (String _ _ as d) => str_all is_digit d
     | _ => false
     end.

(** [_SCHEMA_ID.fullmatch(s)]: [^SCHEMA-[A-Z0-9-]+-V[0-9]+$] *)
Definition is_schema_id (s : string) : bool :=
  match strip_prefix "SCHEMA-" s with
  | Some r => existsb (schema_tail r) (seq 0 (String.length r))
  | None => false
  end.

(** ** Locators *)

(** [s.split("/")] *)
Fixpoint split_slash (s : string) : list string :=
  match s with
  | EmptyString => [EmptyString]
  | String c r =>
      match split_slash r with
      | [] => []
      | x :: l => if ch_eq c "/"%char then EmptyString :: x :: l else String c x :: l
      end
  end.

(** [PurePosixPath(s).parts] of a relative path: empty and [.] segments vanish. *)
Definition path_parts (s : string) : list string :=
  List.filter (fun x => negb (str_in x [EmptyString; "."])) (split_slash s).

(** [str(PurePosixPath(s))] of a relative path *)
Definition path_str (s : string) : string :=
  match path_parts s with [] => "." | l => join "/" l end.

Definition is_absolute (s : string) : bool :=
  match s with String c _ => ch_eq c "/"%char | EmptyString => false end.

Definition _require_locator (value : string) : wresult unit :=
  require (negb (negb (truthy (JStr value)) || negb (str_all (fun c => negb (ch_eq c backslash)) value)
                 || is_absolute value || str_in ".." (path_parts value)
                 || str_in "." (path_parts value) || negb (String.eqb (path_str value) value)))
    (DeltaError INVALID_ARTIFACT_LOCATOR "artifact locator must be a normalized relative POSIX path").

(** ** The reference *)

Record ArtifactRef := mkArtifactRef {
  content_id : string;
  media_type : json;
  schema_id : string;
  schema_version : string;
  byte_length : Z;
  locator : string }.

(** [len(x)], a [TypeError] for an object without one *)
Definition py_len (x : json) : wresult Z :=
  match x with
  | JStr s => Ok (str_len s)
  | JArr l => Ok (Z.of_nat (length l))
  | JObj o => Ok (Z.of_nat (length o))
  | _ => Raise WTypeError
  end.

(** [re.fullmatch] and [PurePosixPath] raise a [TypeError] on a non-string. *)
Definition need_str (x : json) : wresult string :=
  match x with JStr s => Ok s | _ => Raise WTypeError end.

(** [ArtifactRef(…)] with the checks of [__post_init__] *)
Definition new_ref (v_content_id v_media_type v_schema_id v_schema_version v_byte_length v_locator : json) :
    wresult ArtifactRef :=
  let? content_id := need_str v_content_id in
  require (is_content_id content_id) (DeltaError INVALID_CONTENT_ID "invalid content_id") ;?
  require (truthy v_media_type) (_invalid "invalid media_type") ;?
  let? n := py_len v_media_type in
  require (negb (255 <? n)) (_invalid "invalid media_type") ;?
  let? schema_id := need_str v_schema_id in
  require (is_schema_id schema_id) (DeltaError INVALID_SCHEMA_ID "invalid schema_id") ;?
  require (py_eq v_schema_version (JStr SCHEMA_VERSION)) (_invalid "unsupported schema_version") ;?
  let? byte_length := match v_byte_length with
                      | JInt n => require (negb (n <? 0)) (_invalid "byte_length must be non-negative") ;? Ok n
                      | _ => Raise (_invalid "byte_length must be non-negative")
                      end in
  let? locator := need_str v_locator in
  _require_locator locator ;?
  Ok (mkArtifactRef content_id v_media_type schema_id SCHEMA_VERSION byte_length locator).

Definition ref_to_dict (r : ArtifactRef) : odict json :=
  [("byte_length", JInt (byte_length r)); ("content_id", JStr (content_id r));
   ("locator", JStr (locator r)); ("media_type", media_type r);
   ("schema_id", JStr (schema_id r)); ("schema_version", JStr (schema_version r))].

Definition ref_fields : list string :=
  ["byte_length"; "content_id"; "locator"; "media_type"; "schema_id"; "schema_version"].

Definition _strict_mapping (value : odict json) (expected : list string) (label : string) : wresult unit :=
  require (keys_are value expected) (_invalid (label +:+ " fields do not match the schema")).

(** A [TypeError] of the constructor becomes a manifest error. *)
Definition type_error_as {A} (e : worker_exn) (m : wresult A) : wresult A :=
  match m with Raise WTypeError => Raise e | _ => m end.

Definition ref_from_dict (value : odict json) : wresult ArtifactRef :=
  _strict_mapping value ref_fields "ArtifactRef" ;?
  type_error_as (_invalid "ArtifactRef field type is invalid")
    (new_ref (jget "content_id" value) (jget "media_type" value) (jget "schema_id" value)
       (jget "schema_version" value) (jget "byte_length" value) (jget "locator" value)).

(** ** What the constructor guarantees *)

Record ref_ok (r : ArtifactRef) : Prop := {
  ok_content_id : is_content_id (content_id r) = true;
  ok_media_type : truthy (media_type r) = true /\ exists n, py_len (media_type r) = Ok n /\ n <= 255;
  ok_schema_id : is_schema_id (schema_id r) = true;
  ok_schema_version : schema_version r = SCHEMA_VERSION;
  ok_byte_length : 0 <= byte_length r;
  ok_locator : _require_locator (locator r) = Ok tt }.

Lemma new_ref_Ok a b c d e f r :
  new_ref a b c d e f = Ok r <->
  ref_ok r /\ a = JStr (content_id r) /\ b = media_type r /\ c = JStr (schema_id r) /\
  d = JStr SCHEMA_VERSION /\ e = JInt (byte_length r) /\ f = JStr (locator r).
Proof.
  unfold new_ref, need_str. split.
  - intros (x & Hx & H)%rbind_Ok. apply rbind_unit_Ok in H as (H1 & H). apply rbind_unit_Ok in H as (H2 & H).
    apply rbind_Ok in H as (n & Hn & H). apply rbind_unit_Ok in H as (H3 & H).
    apply rbind_Ok in H as (s & Hs & H). apply rbind_unit_Ok in H as (H4 & H).
    apply rbind_unit_Ok in H as (H5 & H). apply rbind_Ok in H as (m & Hm & H).
    apply rbind_Ok in H as (l & Hl & H). apply rbind_unit_Ok in H as (H6 & H). injection H as <-.
    rewrite require_Ok in H1, H2, H3, H4, H5. rewrite negb_true_iff, Z.ltb_ge in H3.
    destruct a; try done. injection Hx as ->. destruct c; try done. injection Hs as ->.
    destruct f; try done. injection Hl as ->. destruct e as [| |k| | | |]; try done.
    apply rbind_unit_Ok in Hm as (H7 & [= ->]). rewrite require_Ok, negb_true_iff, Z.ltb_ge in H7.
    apply py_eq_str in H5 as ->. split; [|done]. constructor; cbn; eauto.
  - intros ([K1 [K2 (n & K3 & K4)] K5 K6 K7 K8] & -> & -> & -> & -> & -> & ->).
    destruct r as [ci mt si sv bl lo]. cbn [content_id media_type schema_id schema_version byte_length locator] in *.
    cbn [rbind]. rewrite K1, K2, K3. cbn [rbind require]. rewrite (proj2 (Z.ltb_ge 255 n)) by done.
    cbn [negb require rbind]. rewrite K5. cbn [require rbind].
    change (py_eq (JStr SCHEMA_VERSION) (JStr SCHEMA_VERSION)) with true. cbn [require rbind].
    rewrite (proj2 (Z.ltb_ge bl 0)) by done. cbn [negb require rbind]. rewrite K8. cbn [rbind]. by rewrite K6.
Qed.

Lemma type_error_as_Ok {A} e (m : wresult A) a : type_error_as e m = Ok a <-> m = Ok a.
Proof. by destruct m as [|[]]. Qed.


(** ** Locators stay inside the directory they are resolved in *)

Definition no_slash (s : string) : bool := str_all (fun c => negb (ch_eq c "/"%char)) s.

Lemma split_slash_app a b :
  no_slash a = true -> split_slash (a +:+ String "/"%char b) = a :: split_slash b.
Proof.
  unfold no_slash. induction a as [|c a IH]; cbn [str_all].
  - intros _. change (EmptyString +:+ ?x) with x. cbn [split_slash].
    destruct (split_slash b) as [|x l] eqn:E; [|done].
    exfalso. clear -E. destruct b as [|c b]; [done|]. cbn [split_slash] in E.
    destruct (split_slash b) as [|x l] eqn:F; [|by destruct (ch_eq _ _)].
    revert F. clear. induction b as [|c b IH]; [done|]. cbn [split_slash].
    destruct (split_slash b); [by destruct IH|by destruct (ch_eq _ _)].
  - intros [Hc Ha]%andb_true_iff. apply negb_true_iff in Hc.
    change (String c a +:+ ?x) with (String c (a +:+ x)). cbn [split_slash]. by rewrite (IH Ha), Hc.
Qed.

Lemma split_slash_one a : no_slash a = true -> split_slash a = [a].
Proof.
  unfold no_slash. induction a as [|c a IH]; [done|]. cbn [str_all].
  intros [Hc Ha]%andb_true_iff. apply negb_true_iff in Hc. cbn [split_slash]. by rewrite (IH Ha), Hc.
Qed.

Lemma split_slash_join l :
  l <> [] -> Forall (fun s => no_slash s = true) l -> split_slash (join "/" l) = l.
Proof.
  induction l as [|x l IH]; [done|]. intros _ [Hx Hl]%Forall_cons. destruct l as [|y l].
  - by apply split_slash_one.
  - change (join "/" (x :: y :: l)) with (x +:+ String "/"%char (join "/" (y :: l))).
    rewrite split_slash_app, IH; done.
Qed.

Lemma split_slash_nonempty s : exists x l, split_slash s = x :: l.
Proof.
  induction s as [|c s (x & l & IH)]; cbn [split_slash]; [by exists EmptyString, []|].
  rewrite IH. destruct (ch_eq _ _); eauto.
Qed.

Lemma split_slash_spec s :
  join "/" (split_slash s) = s /\ Forall (fun x => no_slash x = true) (split_slash s).
Proof.
  induction s as [|c s [IH1 IH2]]; [by repeat constructor|]. cbn [split_slash].
  destruct (split_slash_nonempty s) as (x & l & E). rewrite E in *.
  apply Forall_cons in IH2 as [Hx Hl].
  destruct (ch_eq c "/"%char) eqn:C.
  - apply Ascii.eqb_eq in C as ->. split; [|by repeat constructor].
    change (join "/" (EmptyString :: x :: l)) with (String "/"%char (join "/" (x :: l))). by rewrite IH1.
  - split; [|constructor; [unfold no_slash in *; cbn [str_all]; by rewrite C, Hx|done]].
    rewrite <- IH1. by destruct l.
Qed.

(** A segment that names a file or directory below *)
Definition plain_segment (x : string) : Prop := x <> EmptyString /\ x <> "." /\ x <> "..".

Lemma path_parts_all s :
  Forall (fun x => x <> EmptyString /\ x <> ".") (split_slash s) -> path_parts s = split_slash s.
Proof.
  unfold path_parts. induction 1 as [|x l [H1 H2] Hl IH]; [done|]. cbn [List.filter].
  assert (str_in x [EmptyString; "."] = false) as ->; [|cbn [negb]; by rewrite IH].
  apply not_true_iff_false. rewrite str_in_elem. set_solver.
Qed.

(** A normalized path is its own list of segments. *)
Lemma path_str_fixed s :
  path_str s = s -> s = "." \/ path_parts s = split_slash s.
Proof.
  unfold path_str. destruct (path_parts s) as [|x l] eqn:P; intros E; [by left|]. right.
  rewrite <- P in E |- *. rewrite <- E at 2. symmetry.
  destruct (split_slash_spec s) as [_ F]. apply split_slash_join; [by rewrite P|].
  unfold path_parts. apply Forall_forall.
    intros y [Hy _]%list_elem_of_In%filter_In. rewrite Forall_forall in F. apply F. by apply list_elem_of_In.
Qed.

(** a locator is accepted exactly when it has no backslash and is ["."] or a
    list of plain segments joined by slashes: nothing absolute, empty, [.] or
    [..], so a joined path never leaves the directory it starts from. *)
Theorem locator_accepted_iff (value : string) :
  _require_locator value = Ok tt <->
  str_all (fun c => negb (ch_eq c backslash)) value = true /\
  (value = "." \/ Forall plain_segment (split_slash value)).
Proof.
  unfold _require_locator. rewrite require_Ok, negb_true_iff, !orb_false_iff, !negb_false_iff. split.
  - intros [[[[[T B] A] D] _] E]. apply String.eqb_eq in E. split; [done|].
    destruct (path_str_fixed _ E) as [->|P]; [by left|right].
    rewrite <- P. apply Forall_forall. intros x Hx. repeat split.
    + unfold path_parts in Hx. apply list_elem_of_In, filter_In in Hx as [_ Hx]. intros ->. done.
    + unfold path_parts in Hx. apply list_elem_of_In, filter_In in Hx as [_ Hx]. intros ->. done.
    + intros ->. apply str_in_elem in Hx. congruence.
  - intros [B [->|F]]; [by vm_compute|].
    assert (P : path_parts value = split_slash value).
    { apply path_parts_all. eapply Forall_impl; [exact F|]. by intros x (? & ? & ?). }
    destruct (split_slash_spec value) as [J _]. destruct (split_slash_nonempty value) as (x & l & S).
    rewrite P. assert (Q : forall y, ~ plain_segment y -> str_in y (split_slash value) = false).
    { intros y Hy. apply not_true_iff_false. rewrite str_in_elem. rewrite Forall_forall in F. auto. }
    assert (PS : path_str value = value) by (unfold path_str; rewrite P, S; rewrite <- S; exact J).
    rewrite !Q by (unfold plain_segment; naive_solver). rewrite PS, B.
    rewrite S in F. apply Forall_cons in F as [(N & _) _].
    destruct value as [|c r]; [injection S as <- <-; done|].
    assert (A : is_absolute (String c r) = false).
    { cbn. destruct (ch_eq c "/"%char) eqn:C; [|done]. cbn [split_slash] in S. rewrite C in S.
      destruct (split_slash r); [done|]. by injection S as <- <-. }
    rewrite A. repeat split; try done. apply String.eqb_refl.
Qed.

Example locator_dot : _require_locator "." = Ok tt.
Proof. vm_compute. reflexivity. Qed.
Example locator_dotdot : _require_locator "a/../b" <> Ok tt.
Proof. vm_compute. discriminate. Qed.
Example media_type_list :
  py_len (JArr [JInt 1]) = Ok 1 /\ truthy (JArr [JInt 1]) = true.
Proof. vm_compute. split; reflexivity. Qed.

(** ** Documents of references *)

Lemma ref_from_dict_ok o r :
  ref_from_dict o = Ok r -> ref_ok r /\ media_type r = jget "media_type" o.
Proof.
  unfold ref_from_dict. intros (_ & H)%rbind_unit_Ok. apply type_error_as_Ok, new_ref_Ok in H.
  naive_solver.
Qed.

Lemma ref_roundtrip r : ref_ok r -> ref_from_dict (ref_to_dict r) = Ok r.
Proof.
  intros K. unfold ref_from_dict. change (_strict_mapping _ _ _) with (@Ok worker_exn unit tt). cbn [rbind].
  apply type_error_as_Ok, new_ref_Ok. rewrite <- (ok_schema_version r K). auto 8.
Qed.

(** Equal up to the order of keys inside a media type that is an object *)
Definition same_ref (a b : ArtifactRef) : Prop :=
  content_id a = content_id b /\ sort_keys (media_type a) = sort_keys (media_type b) /\
  schema_id a = schema_id b /\ schema_version a = schema_version b /\
  byte_length a = byte_length b /\ locator a = locator b.

Lemma ref_to_dict_wf r : json_wf (media_type r) = true -> json_wf (JObj (ref_to_dict r)) = true.
Proof. intros H. cbn. by rewrite H. Qed.

Lemma ref_to_dict_binds a b :
  json_wf (media_type a) = true -> json_wf (media_type b) = true ->
  sort_keys (JObj (ref_to_dict a)) = sort_keys (JObj (ref_to_dict b)) -> same_ref a b.
Proof.
  intros Wa%ref_to_dict_wf Wb%ref_to_dict_wf E.
  pose proof (fun k => sort_keys_lookup _ _ k Wa Wb E) as L.
  pose proof (L "byte_length") as L1. pose proof (L "content_id") as L2. pose proof (L "locator") as L3.
  pose proof (L "media_type") as L4. pose proof (L "schema_id") as L5. pose proof (L "schema_version") as L6.
  cbn in L1, L2, L3, L4, L5, L6. unfold same_ref. repeat split; congruence.
Qed.
