(* ===== verification/WorkTicket.v ===== *)
(** * Work tickets ([deltatorrent/domain/tickets.py])

    The immutable contract of one local round: construction from a document,
    the document of a ticket and its fingerprint. *)

From S2P Require Import Prelude PyFloat Json JsonText Text Sha256 WorkerErrors WorkerCanonical ArtifactRef.
Open Scope string_scope.
Open Scope Z_scope.
Open Scope py_scope.

Definition FORMAL_SEMANTICS_ID : string :=
  "sha256:cc98f15ac20fc3ed265cb76682ca15a936e24660a651e2b8f81638abb3265cb6".

Definition _invalid (message : string) : worker_exn := DeltaError INVALID_WORK_TICKET message.

Definition _positive (value : json) : wresult Z :=
  match value with
  | JInt n => require (negb (n <=? 0)) (_invalid "WORK_TICKET_POSITIVE_INTEGER_REQUIRED") ;? Ok n
  | _ => Raise (_invalid "WORK_TICKET_POSITIVE_INTEGER_REQUIRED")
  end.

Definition _identifier (value : json) : wresult string :=
  match value with
  | JStr s => require (is_identifier s) (_invalid "WORK_TICKET_IDENTIFIER_INVALID") ;? Ok s
  | _ => Raise (_invalid "WORK_TICKET_IDENTIFIER_INVALID")
  end.

Definition _content_id (value : json) : wresult string :=
  match value with
  | JStr s => require (is_content_id s) (_invalid "WORK_TICKET_CONTENT_ID_INVALID") ;? Ok s
  | _ => Raise (_invalid "WORK_TICKET_CONTENT_ID_INVALID")
  end.

Record DataRange := mkDataRange { start : Z; end_ : Z }.

Definition new_range (v_start v_end : json) : wresult DataRange :=
  match v_start, v_end with
  | JInt s, JInt e =>
      require (negb ((s <? 0) || (e <=? s))) (_invalid "WORK_TICKET_DATA_RANGE_INVALID") ;?
      Ok (mkDataRange s e)
  | _, _ => Raise (_invalid "WORK_TICKET_DATA_RANGE_INVALID")
  end.

Definition range_to_dict (r : DataRange) : odict json := [("end", JInt (end_ r)); ("start", JInt (start r))].

Record DomainPureWorkTicket := mkTicket {
  ticket_id : string;
  domain_id : string;
  data : ArtifactRef;
  data_range : DataRange;
  batch_budget : Z;
  step_budget : Z;
  parent_model : ArtifactRef;
  parameter_schema_id : string;
  optimizer_profile_id : string;
  arithmetic_profile_id : string;
  deterministic_seed : Z;
  logical_deadline_ms : Z;
  formal_semantics_id : string;
  schema_version : string }.

(** [__post_init__] of a ticket whose references and range are built, the other
    fields read from the document [value] *)
Definition checked_ticket (data parent : ArtifactRef) (range : DataRange) (value : odict json) :
    wresult DomainPureWorkTicket :=
  let? ticket_id := _identifier (jget "ticket_id" value) in
  let? domain_id := _identifier (jget "domain_id" value) in
  let? batch_budget := _positive (jget "batch_budget" value) in
  let? step_budget := _positive (jget "step_budget" value) in
  let? parameter_schema_id := _content_id (jget "parameter_schema_id" value) in
  let? optimizer_profile_id := _content_id (jget "optimizer_profile_id" value) in
  let? arithmetic_profile_id := _content_id (jget "arithmetic_profile_id" value) in
  let? deterministic_seed :=
    match jget "deterministic_seed" value with
    | JInt n => require (negb (n <? 0)) (_invalid "WORK_TICKET_SEED_INVALID") ;? Ok n
    | _ => Raise (_invalid "WORK_TICKET_SEED_INVALID")
    end in
  let? logical_deadline_ms := _positive (jget "logical_deadline_ms" value) in
  require (py_eq (jget "formal_semantics_id" value) (JStr FORMAL_SEMANTICS_ID))
    (DeltaError FORMAL_SEMANTICS_MISMATCH "work-ticket semantics mismatch") ;?
  require (py_eq (jget "schema_version" value) (JStr "1.0.0"))
    (_invalid "WORK_TICKET_VERSION_UNSUPPORTED") ;?
  Ok (mkTicket ticket_id domain_id data range batch_budget step_budget parent parameter_schema_id
        optimizer_profile_id arithmetic_profile_id deterministic_seed logical_deadline_ms
        FORMAL_SEMANTICS_ID "1.0.0").

Definition ticket_fields : list string :=
  ["ticket_id"; "domain_id"; "data"; "data_range"; "batch_budget"; "step_budget"; "parent_model";
   "parameter_schema_id"; "optimizer_profile_id"; "arithmetic_profile_id"; "deterministic_seed";
   "logical_deadline_ms"; "formal_semantics_id"; "schema_version"].

Definition ticket_from_dict (value : odict json) : wresult DomainPureWorkTicket :=
  require (keys_are value ticket_fields) (_invalid "WORK_TICKET_FIELDS_INVALID") ;?
  match jget "data" value, jget "parent_model" value with
  | JObj data, JObj parent =>
      match jget "data_range" value with
      | JObj range =>
          require (keys_are range ["end"; "start"]) (_invalid "WORK_TICKET_DATA_RANGE_INVALID") ;?
          type_error_as (_invalid "WORK_TICKET_TYPES_INVALID")
            (let? data := ref_from_dict data in
             let? range := new_range (jget "start" range) (jget "end" range) in
             let? parent := ref_from_dict parent in
             checked_ticket data parent range value)
      | _ => Raise (_invalid "WORK_TICKET_DATA_RANGE_INVALID")
      end
  | _, _ => Raise (_invalid "WORK_TICKET_ARTIFACT_REF_INVALID")
  end.

Definition ticket_to_dict (t : DomainPureWorkTicket) : odict json :=
  [("arithmetic_profile_id", JStr (arithmetic_profile_id t));
   ("batch_budget", JInt (batch_budget t));
   ("data", JObj (ref_to_dict (data t)));
   ("data_range", JObj (range_to_dict (data_range t)));
   ("deterministic_seed", JInt (deterministic_seed t));
   ("domain_id", JStr (domain_id t));
   ("formal_semantics_id", JStr (formal_semantics_id t));
   ("logical_deadline_ms", JInt (logical_deadline_ms t));
   ("optimizer_profile_id", JStr (optimizer_profile_id t));
   ("parameter_schema_id", JStr (parameter_schema_id t));
   ("parent_model", JObj (ref_to_dict (parent_model t)));
   ("schema_version", JStr (schema_version t));
   ("step_budget", JInt (step_budget t));
   ("ticket_id", JStr (ticket_id t))].

Definition ticket_fingerprint (t : DomainPureWorkTicket) : wresult string :=
  let? bytes := canonical_json_bytes (JObj (ticket_to_dict t)) in
  Ok (sha256_content_id bytes).

(** ** What a constructed ticket satisfies *)

Record ticket_ok (t : DomainPureWorkTicket) : Prop := {
  t_ticket_id : is_identifier (ticket_id t) = true;
  t_domain_id : is_identifier (domain_id t) = true;
  t_data : ref_ok (data t);
  t_parent : ref_ok (parent_model t);
  t_range : 0 <= start (data_range t) < end_ (data_range t);
  t_budgets : 0 < batch_budget t /\ 0 < step_budget t /\ 0 < logical_deadline_ms t;
  t_schema_id : is_content_id (parameter_schema_id t) = true;
  t_optimizer_id : is_content_id (optimizer_profile_id t) = true;
  t_arithmetic_id : is_content_id (arithmetic_profile_id t) = true;
  t_seed : 0 <= deterministic_seed t;
  t_semantics : formal_semantics_id t = FORMAL_SEMANTICS_ID;
  t_version : schema_version t = "1.0.0" }.

Lemma positive_Ok v n : _positive v = Ok n <-> v = JInt n /\ 0 < n.
Proof.
  destruct v as [| |m| | | |]; cbn; try (split; [done|by intros []]).
  rewrite rbind_unit_Ok, require_Ok, negb_true_iff, Z.leb_gt. naive_solver.
Qed.

Lemma identifier_Ok v s : _identifier v = Ok s <-> v = JStr s /\ is_identifier s = true.
Proof.
  destruct v as [| | | |m| |]; cbn; try (split; [done|by intros []]).
  rewrite rbind_unit_Ok, require_Ok. naive_solver.
Qed.

Lemma content_id_Ok v s : _content_id v = Ok s <-> v = JStr s /\ is_content_id s = true.
Proof.
  destruct v as [| | | |m| |]; cbn; try (split; [done|by intros []]).
  rewrite rbind_unit_Ok, require_Ok. naive_solver.
Qed.

Lemma new_range_Ok a b r :
  new_range a b = Ok r <-> a = JInt (start r) /\ b = JInt (end_ r) /\ 0 <= start r < end_ r.
Proof.
  destruct r as [s e]. cbn [start end_]. split.
  - destruct a as [| |x| | | |]; try done. destruct b as [| |y| | | |]; try done. cbn [new_range].
    intros (H & [= <- <-])%rbind_unit_Ok. rewrite require_Ok, negb_true_iff, orb_false_iff, Z.ltb_ge, Z.leb_gt in H.
    auto with lia.
  - intros (-> & -> & H1 & H2). cbn [new_range]. rewrite (proj2 (Z.ltb_ge s 0)) by done.
    by rewrite (proj2 (Z.leb_gt e s)).
Qed.

Lemma checked_ticket_Ok d p r o t :
  checked_ticket d p r o = Ok t <->
  d = data t /\ p = parent_model t /\ r = data_range t /\
  jget "ticket_id" o = JStr (ticket_id t) /\ is_identifier (ticket_id t) = true /\
  jget "domain_id" o = JStr (domain_id t) /\ is_identifier (domain_id t) = true /\
  jget "batch_budget" o = JInt (batch_budget t) /\ 0 < batch_budget t /\
  jget "step_budget" o = JInt (step_budget t) /\ 0 < step_budget t /\
  jget "parameter_schema_id" o = JStr (parameter_schema_id t) /\ is_content_id (parameter_schema_id t) = true /\
  jget "optimizer_profile_id" o = JStr (optimizer_profile_id t) /\ is_content_id (optimizer_profile_id t) = true /\
  jget "arithmetic_profile_id" o = JStr (arithmetic_profile_id t) /\ is_content_id (arithmetic_profile_id t) = true /\
  jget "deterministic_seed" o = JInt (deterministic_seed t) /\ 0 <= deterministic_seed t /\
  jget "logical_deadline_ms" o = JInt (logical_deadline_ms t) /\ 0 < logical_deadline_ms t /\
  jget "formal_semantics_id" o = JStr FORMAL_SEMANTICS_ID /\ formal_semantics_id t = FORMAL_SEMANTICS_ID /\
  jget "schema_version" o = JStr "1.0.0" /\ schema_version t = "1.0.0".
Proof.
  unfold checked_ticket. split.
  - intros (a & [Ea Va]%identifier_Ok & H)%rbind_Ok. apply rbind_Ok in H as (b & [Eb Vb]%identifier_Ok & H).
    apply rbind_Ok in H as (c & [Ec Vc]%positive_Ok & H). apply rbind_Ok in H as (e & [Ee Ve]%positive_Ok & H).
    apply rbind_Ok in H as (f & [Ef Vf]%content_id_Ok & H). apply rbind_Ok in H as (g & [Eg Vg]%content_id_Ok & H).
    apply rbind_Ok in H as (h & [Eh Vh]%content_id_Ok & H). apply rbind_Ok in H as (i & Hi & H).
    apply rbind_Ok in H as (j & [Ej Vj]%positive_Ok & H).
    apply rbind_unit_Ok in H as (Hs & H). apply rbind_unit_Ok in H as (Hv & H). injection H as <-.
    apply require_Ok, py_eq_str in Hs, Hv.
    destruct (jget "deterministic_seed" o) as [| |n| | | |]; try done.
    apply rbind_unit_Ok in Hi as (R & [= ->]). rewrite require_Ok, negb_true_iff, Z.ltb_ge in R.
    cbn. auto 25.
  - destruct t. cbn. intros (-> & -> & -> & E1 & V1 & E2 & V2 & E3 & V3 & E4 & V4 & E5 & V5 & E6 & V6 &
      E7 & V7 & E8 & V8 & E9 & V9 & E10 & -> & E11 & ->).
    rewrite E1, E2, E3, E4, E5, E6, E7, E8, E9, E10, E11.
    rewrite (proj2 (identifier_Ok _ _) (conj eq_refl V1)). cbn [rbind].
    rewrite (proj2 (identifier_Ok _ _) (conj eq_refl V2)). cbn [rbind].
    rewrite (proj2 (positive_Ok _ _) (conj eq_refl V3)). cbn [rbind].
    rewrite (proj2 (positive_Ok _ _) (conj eq_refl V4)). cbn [rbind].
    rewrite (proj2 (content_id_Ok _ _) (conj eq_refl V5)). cbn [rbind].
    rewrite (proj2 (content_id_Ok _ _) (conj eq_refl V6)). cbn [rbind].
    rewrite (proj2 (content_id_Ok _ _) (conj eq_refl V7)). cbn [rbind].
    rewrite (proj2 (Z.ltb_ge _ 0)) by done. cbn [negb require rbind].
    rewrite (proj2 (positive_Ok _ _) (conj eq_refl V9)). cbn [rbind].
    change (py_eq (JStr FORMAL_SEMANTICS_ID) (JStr FORMAL_SEMANTICS_ID)) with true. done.
Qed.

Lemma ticket_from_dict_ok o t :
  ticket_from_dict o = Ok t ->
  ticket_ok t /\ exists d p, od_get "data" o = Some (JObj d) /\ od_get "parent_model" o = Some (JObj p) /\
    media_type (data t) = jget "media_type" d /\ media_type (parent_model t) = jget "media_type" p.
Proof.
  assert (G : forall k x, jget k o = JObj x -> od_get k o = Some (JObj x))
    by (intros k x; unfold jget; destruct (od_get k o); congruence).
  unfold ticket_from_dict. intros (_ & H)%rbind_unit_Ok.
  destruct (jget "data" o) as [| | | | | |d] eqn:D; try done.
  destruct (jget "parent_model" o) as [| | | | | |p] eqn:P; try done.
  destruct (jget "data_range" o) as [| | | | | |r]; try done.
  apply rbind_unit_Ok in H as (_ & H). apply type_error_as_Ok in H.
  apply rbind_Ok in H as (d' & [Hd Md]%ref_from_dict_ok & H). apply rbind_Ok in H as (r' & Hr & H).
  apply new_range_Ok in Hr as (_ & _ & Hr).
  apply rbind_Ok in H as (p' & [Hp Mp]%ref_from_dict_ok & H). apply checked_ticket_Ok in H.
  destruct H as (-> & -> & -> & H). split; [constructor; naive_solver|].
  exists d, p. auto.
Qed.

Lemma ticket_roundtrip t : ticket_ok t -> ticket_from_dict (ticket_to_dict t) = Ok t.
Proof.
  intros K. unfold ticket_from_dict.
  assert (KA : keys_are (ticket_to_dict t) ticket_fields = true) by (vm_compute; reflexivity). rewrite KA. clear KA. cbn [require rbind].
  change (jget "data" _) with (JObj (ref_to_dict (data t))).
  change (jget "parent_model" _) with (JObj (ref_to_dict (parent_model t))).
  change (jget "data_range" _) with (JObj (range_to_dict (data_range t))). cbv beta iota.
  change (keys_are _ _) with true. cbn [require rbind]. apply type_error_as_Ok.
  rewrite (ref_roundtrip _ (t_data t K)). cbn [rbind].
  rewrite (proj2 (new_range_Ok _ _ (data_range t))); [|split; [done|split; [done|apply (t_range t K)]]].
  cbn [rbind]. rewrite (ref_roundtrip _ (t_parent t K)). cbn [rbind].
  apply checked_ticket_Ok. destruct K as [K1 K2 K3 K4 K5 (B1 & B2 & B3) K6 K7 K8 K9 K10 K11].
  rewrite K10, K11. unfold ticket_to_dict. rewrite K10, K11. auto 30.
Qed.

(** The same round: equal field by field, the references up to the order of
    keys of a media type *)
Definition same_ticket (a b : DomainPureWorkTicket) : Prop :=
  ticket_id a = ticket_id b /\ domain_id a = domain_id b /\ same_ref (data a) (data b) /\
  data_range a = data_range b /\ batch_budget a = batch_budget b /\ step_budget a = step_budget b /\
  same_ref (parent_model a) (parent_model b) /\ parameter_schema_id a = parameter_schema_id b /\
  optimizer_profile_id a = optimizer_profile_id b /\ arithmetic_profile_id a = arithmetic_profile_id b /\
  deterministic_seed a = deterministic_seed b /\ logical_deadline_ms a = logical_deadline_ms b.

Definition ticket_doc_wf (t : DomainPureWorkTicket) : Prop :=
  json_wf (media_type (data t)) = true /\ json_wf (media_type (parent_model t)) = true.

Lemma ticket_doc_wf_json t : ticket_doc_wf t -> json_wf (JObj (ticket_to_dict t)) = true.
Proof. intros [H1 H2]. cbn. by rewrite H1, H2. Qed.

Lemma ticket_to_dict_binds a b :
  ticket_doc_wf a -> ticket_doc_wf b ->
  sort_keys (JObj (ticket_to_dict a)) = sort_keys (JObj (ticket_to_dict b)) -> same_ticket a b.
Proof.
  intros Da Db E. pose proof (ticket_doc_wf_json a Da) as Wa. pose proof (ticket_doc_wf_json b Db) as Wb.
  pose proof (fun k => sort_keys_lookup _ _ k Wa Wb E) as L. clear E Wa Wb.
  assert (S : forall k x y, od_get k (ticket_to_dict a) = Some (JStr x) ->
    od_get k (ticket_to_dict b) = Some (JStr y) -> x = y).
  { intros k x y Hx Hy. pose proof (L k) as F. rewrite Hx, Hy in F. cbn in F. congruence. }
  assert (I : forall k x y, od_get k (ticket_to_dict a) = Some (JInt x) ->
    od_get k (ticket_to_dict b) = Some (JInt y) -> x = y).
  { intros k x y Hx Hy. pose proof (L k) as F. rewrite Hx, Hy in F. cbn in F. congruence. }
  assert (R : data_range a = data_range b).
  { pose proof (L "data_range") as F. change (Some (sort_keys (JObj (range_to_dict (data_range a))))
      = Some (sort_keys (JObj (range_to_dict (data_range b))))) in F.
    destruct (data_range a), (data_range b). vm_compute in F. congruence. }
  pose proof (L "data") as F1. change (Some (sort_keys (JObj (ref_to_dict (data a))))
      = Some (sort_keys (JObj (ref_to_dict (data b))))) in F1.
  pose proof (L "parent_model") as F2. change (Some (sort_keys (JObj (ref_to_dict (parent_model a))))
      = Some (sort_keys (JObj (ref_to_dict (parent_model b))))) in F2.
  destruct Da as [Da1 Da2], Db as [Db1 Db2].
  apply (inj Some) in F1. apply (inj Some) in F2.
  apply ref_to_dict_binds in F1; [|done..]. apply ref_to_dict_binds in F2; [|done..].
  unfold same_ticket. split; [by eapply (S "ticket_id")|]. split; [by eapply (S "domain_id")|].
  split; [done|]. split; [done|]. split; [by eapply (I "batch_budget")|].
  split; [by eapply (I "step_budget")|]. split; [done|].
  split; [by eapply (S "parameter_schema_id")|]. split; [by eapply (S "optimizer_profile_id")|].
  split; [by eapply (S "arithmetic_profile_id")|]. split; [by eapply (I "deterministic_seed")|].
  by eapply (I "logical_deadline_ms").
Qed.

Lemma jget_wf k o x :
  json_wf (JObj o) = true -> od_get k o = Some x -> json_wf x = true.
Proof.
  cbn. intros [_ H]%andb_true_iff G. rewrite forallb_forall in H.
  apply (H (k, x)). apply list_elem_of_In. by apply od_get_In.
Qed.

Lemma jget_wf' k o : json_wf (JObj o) = true -> json_wf (jget k o) = true.
Proof. intros H. unfold jget. destruct (od_get k o) eqn:E; [|done]. by eapply jget_wf. Qed.

Lemma ticket_from_dict_wf o t :
  json_wf (JObj o) = true -> ticket_from_dict o = Ok t -> ticket_doc_wf t.
Proof.
  intros W (_ & d & p & D & P & M1 & M2)%ticket_from_dict_ok. unfold ticket_doc_wf. rewrite M1, M2.
  split; apply jget_wf'; by eapply jget_wf.
Qed.

(** a ticket built from a document satisfies every constructor check and its
    own document builds it again; two tickets built from documents that have
    the same fingerprint are the same round, field by field, or their canonical
    documents are two different texts with the same SHA-256 digest. *)
Theorem work_ticket_identity (o1 o2 : odict json) (t1 t2 : DomainPureWorkTicket) (f : string)
    (W1 : json_wf (JObj o1) = true) (W2 : json_wf (JObj o2) = true)
    (B1 : ticket_from_dict o1 = Ok t1) (B2 : ticket_from_dict o2 = Ok t2)
    (F1 : ticket_fingerprint t1 = Ok f) (F2 : ticket_fingerprint t2 = Ok f) :
  ticket_ok t1 /\ ticket_from_dict (ticket_to_dict t1) = Ok t1 /\
  (same_ticket t1 t2 \/
   exists x y, canonical_json_bytes (JObj (ticket_to_dict t1)) = Ok x /\
     canonical_json_bytes (JObj (ticket_to_dict t2)) = Ok y /\ x <> y /\ sha256_hex x = sha256_hex y).
Proof.
  pose proof (proj1 (ticket_from_dict_ok _ _ B1)) as K1.
  split; [done|]. split; [by apply ticket_roundtrip|].
  apply ticket_from_dict_wf in B1, B2; [|done..].
  destruct (document_id_binds _ _ f (ticket_doc_wf_json t1 B1) (ticket_doc_wf_json t2 B2) F1 F2) as [E|C];
    [left; by apply ticket_to_dict_binds|by right].
Qed.

(** ** A concrete ticket *)

Definition demo_ref (schema media : string) : odict json :=
  [("byte_length", JInt 4096); ("content_id", JStr FORMAL_SEMANTICS_ID); ("locator", JStr "objects/ab/cd");
   ("media_type", JStr media); ("schema_id", JStr schema); ("schema_version", JStr "1.0.0")].

Definition demo_doc : odict json :=
  [("ticket_id", JStr "ticket-1"); ("domain_id", JStr "domain-1");
   ("data", JObj (demo_ref "SCHEMA-CORPUS-TEXT-V1" "text/plain;charset=utf-8"));
   ("data_range", JObj [("start", JInt 0); ("end", JInt 16)]);
   ("batch_budget", JInt 2); ("step_budget", JInt 4);
   ("parent_model", JObj (demo_ref "SCHEMA-SAFETENSORS-V1" "application/vnd.safetensors"));
   ("parameter_schema_id", JStr FORMAL_SEMANTICS_ID); ("optimizer_profile_id", JStr FORMAL_SEMANTICS_ID);
   ("arithmetic_profile_id", JStr FORMAL_SEMANTICS_ID); ("deterministic_seed", JInt 7);
   ("logical_deadline_ms", JInt 60000); ("formal_semantics_id", JStr FORMAL_SEMANTICS_ID);
   ("schema_version", JStr "1.0.0")].

Lemma work_ticket_identity_witness :
  exists t f, ticket_from_dict demo_doc = Ok t /\ ticket_fingerprint t = Ok f /\ ticket_ok t /\
    ticket_from_dict (ticket_to_dict t) = Ok t.
Proof.
  destruct (ticket_from_dict demo_doc) as [t|] eqn:E; [|vm_compute in E; discriminate].
  assert (is_ok : match ticket_from_dict demo_doc with
                  | Ok t => match ticket_fingerprint t with Ok _ => true | _ => false end
                  | _ => false end = true) by (vm_compute; reflexivity).
  rewrite E in is_ok. destruct (ticket_fingerprint t) as [f|] eqn:F; [|discriminate].
  exists t, f. split; [reflexivity|]. split; [exact F|].
  assert (W : json_wf (JObj demo_doc) = true) by (vm_compute; reflexivity).
  destruct (work_ticket_identity demo_doc demo_doc t t f W W E E F F) as (H1 & H2 & _).
  exact (conj H1 H2).
Defined.

(** A media type that is a list of strings is accepted. *)
Example media_type_not_checked :
  exists r, ref_from_dict (od_set "media_type" (JArr [JStr "text/plain"]) (demo_ref "SCHEMA-A-V1" "x")) = Ok r.
Proof. vm_compute. eexists. reflexivity. Qed.
