(* ===== verification/TicketRepository.v ===== *)
(** * The ticket repository ([deltatorrent/worker/repository.py])

    Two directories shared by the processes of a machine: a claim per ticket id,
    linked once, and an outcome per ticket id, linked once.  [claim] and
    [complete] are split at every access to a file, so that other processes run
    in between; a process can crash at any point and every access can fail.
    Temporary files have random names starting with a dot, which no ticket id
    starts with, and are not modelled; a text read back is the text written,
    since canonical JSON has no line breaks. *)

From S2P Require Import Prelude PyFloat Json JsonText Text Sha256 WorkerErrors WorkerCanonical ArtifactRef WorkTicket.
From stdpp Require Import relations.
Open Scope string_scope.
Open Scope py_scope.

Record TicketResultRepository := mkRepository {
  claims : gmap string string;
  outcomes : gmap string string }.

Inductive ClaimDisposition := CLAIMED | REPLAY.

Record ClaimDecision := mkDecision {
  disposition : ClaimDisposition;
  outcome : option (odict json) }.

Definition file_name (t : DomainPureWorkTicket) : string := ticket_id t +:+ ".json".

(** What an access to a file meets: success, a failure with no effect, or (for
    a link) a failure after the link exists *)
Inductive io := IoOk | IoFails | IoUnsynced.

(** [_create_once]: the text is linked under [path] unless it exists. *)
Definition _create_once (i : io) (path value : string) (d : gmap string string) :
    gmap string string * wresult bool :=
  match i with
  | IoFails => (d, Raise WOSError)
  | _ =>
      match d !! path with
      | Some _ => (d, Ok false)
      | None => (<[path := value]> d, match i with IoUnsynced => Raise WOSError | _ => Ok true end)
      end
  end.

Definition read_file (i : io) (path : string) (d : gmap string string) : wresult string :=
  match i, d !! path with
  | IoOk, Some text => Ok text
  | _, _ => Raise WOSError
  end.

(** The bytes of a claim *)
Definition claim_document (t : DomainPureWorkTicket) (fingerprint : string) : odict json :=
  [("schema_version", JStr "1.0.0"); ("ticket_fingerprint", JStr fingerprint);
   ("ticket_id", JStr (ticket_id t))].

Definition expected_claim (t : DomainPureWorkTicket) : wresult string :=
  let? fingerprint := ticket_fingerprint t in
  canonical_json_bytes (JObj (claim_document t fingerprint)).

(** ** The calls, one file access at a time *)

(** Where a process is in [LocalRoundEngine.run].  [fresh] tells a claim made by
    the link from one recovered from an earlier process. *)
Inductive pc :=
| Claiming (t : DomainPureWorkTicket) (recover_incomplete : bool)
| ReadingClaim (t : DomainPureWorkTicket) (recover_incomplete : bool) (expected : string)
| ReadingOutcome (t : DomainPureWorkTicket) (recover_incomplete : bool)
| Executing (t : DomainPureWorkTicket) (fresh : bool)
| Completing (t : DomainPureWorkTicket) (fresh : bool) (outcome : odict json)
| Linking (t : DomainPureWorkTicket) (fresh : bool) (outcome : odict json) (encoded : string)
| Comparing (t : DomainPureWorkTicket) (fresh : bool) (outcome : odict json) (encoded : string)
| Completed (t : DomainPureWorkTicket) (fresh : bool) (outcome : odict json)
| Replayed (t : DomainPureWorkTicket) (outcome : odict json)
| Failed (e : worker_exn)
| Crashed.

(** [claim], up to the link *)
Definition claim_link (i : io) (t : DomainPureWorkTicket) (rec : bool) (r : TicketResultRepository) :
    TicketResultRepository * pc :=
  match expected_claim t with
  | Raise e => (r, Failed e)
  | Ok expected =>
      match _create_once i (file_name t) expected (claims r) with
      | (c, Ok true) => (mkRepository c (outcomes r), Executing t true)
      | (c, Ok false) => (mkRepository c (outcomes r), ReadingClaim t rec expected)
      | (c, Raise e) => (mkRepository c (outcomes r), Failed e)
      end
  end.

(** [claim], the comparison with the existing claim *)
Definition claim_compare (i : io) (t : DomainPureWorkTicket) (rec : bool) (expected : string)
    (r : TicketResultRepository) : pc :=
  match read_file i (file_name t) (claims r) with
  | Raise _ => Failed (DeltaError TICKET_ALREADY_IN_PROGRESS "TICKET_CLAIM_RACE")
  | Ok actual =>
      if String.eqb actual expected then ReadingOutcome t rec
      else Failed (DeltaError TICKET_ID_CONFLICT "TICKET_ID_REUSED_WITH_DIFFERENT_FINGERPRINT")
  end.

(** [_read_outcome] *)
Definition _read_outcome (i : io) (t : DomainPureWorkTicket) (r : TicketResultRepository) :
    wresult (option (odict json)) :=
  match outcomes r !! file_name t with
  | None => Ok None
  | Some _ =>
      match read_file i (file_name t) (outcomes r) with
      | Raise _ => Raise (DeltaError TICKET_ID_CONFLICT "TICKET_OUTCOME_INVALID")
      | Ok text =>
          match loads true text with
          | Some (JObj o) => Ok (Some o)
          | _ => Raise (DeltaError TICKET_ID_CONFLICT "TICKET_OUTCOME_INVALID")
          end
      end
  end.

(** The decision [claim] returns for an existing claim of this ticket *)
Definition claim_existing (i : io) (t : DomainPureWorkTicket) (rec : bool) (r : TicketResultRepository) :
    wresult ClaimDecision :=
  let? stored := _read_outcome i t r in
  match stored with
  | None => if rec then Ok (mkDecision CLAIMED None)
            else Raise (DeltaError TICKET_ALREADY_IN_PROGRESS "TICKET_ALREADY_IN_PROGRESS")
  | Some o => Ok (mkDecision REPLAY (Some o))
  end.

(** What [run] does with that decision *)
Definition follow_decision (t : DomainPureWorkTicket) (d : wresult ClaimDecision) : pc :=
  match d with
  | Ok (mkDecision REPLAY (Some o)) => Replayed t o
  | Ok (mkDecision REPLAY None) => Failed WAssertionError
  | Ok (mkDecision CLAIMED _) => Executing t false
  | Raise e => Failed e
  end.

(** [complete], up to the link: [is_file] answers [False] when it fails. *)
Definition complete_check (i : io) (t : DomainPureWorkTicket) (fresh : bool) (o : odict json)
    (r : TicketResultRepository) : pc :=
  match i, claims r !! file_name t with
  | IoOk, Some _ =>
      match canonical_json_bytes (JObj o) with
      | Ok encoded => Linking t fresh o encoded
      | Raise e => Failed e
      end
  | _, _ => Failed (DeltaError TICKET_ID_CONFLICT "TICKET_OUTCOME_WITHOUT_CLAIM")
  end.

Definition complete_link (i : io) (t : DomainPureWorkTicket) (fresh : bool) (o : odict json) (encoded : string)
    (r : TicketResultRepository) : TicketResultRepository * pc :=
  match _create_once i (file_name t) encoded (outcomes r) with
  | (d, Ok true) => (mkRepository (claims r) d, Completed t fresh o)
  | (d, Ok false) => (mkRepository (claims r) d, Comparing t fresh o encoded)
  | (d, Raise e) => (mkRepository (claims r) d, Failed e)
  end.

Definition complete_compare (i : io) (t : DomainPureWorkTicket) (fresh : bool) (o : odict json) (encoded : string)
    (r : TicketResultRepository) : pc :=
  match read_file i (file_name t) (outcomes r) with
  | Raise e => Failed e
  | Ok text => if String.eqb text encoded then Completed t fresh o
               else Failed (DeltaError TICKET_ID_CONFLICT "TICKET_OUTCOME_CONFLICT")
  end.

(** One access by one process; an executing process makes none. *)
Definition access (i : io) (p : pc) (r : TicketResultRepository) : TicketResultRepository * pc :=
  match p with
  | Claiming t rec => claim_link i t rec r
  | ReadingClaim t rec expected => (r, claim_compare i t rec expected r)
  | ReadingOutcome t rec => (r, follow_decision t (claim_existing i t rec r))
  | Completing t fresh o => (r, complete_check i t fresh o r)
  | Linking t fresh o encoded => complete_link i t fresh o encoded r
  | Comparing t fresh o encoded => (r, complete_compare i t fresh o encoded r)
  | _ => (r, p)
  end.

(** ** The machine: processes and the two directories *)

Definition machine : Type := TicketResultRepository * list pc.

Inductive machine_step : machine -> machine -> Prop :=
| step_start r ps t rec :
    machine_step (r, ps) (r, (ps ++ [Claiming t rec])%list)
| step_access r ps n p i r' p' :
    ps !! n = Some p -> access i p r = (r', p') ->
    machine_step (r, ps) (r', <[n := p']> ps)
| step_round r ps n t fresh o :
    ps !! n = Some (Executing t fresh) -> json_wf (JObj o) = true ->
    machine_step (r, ps) (r, <[n := Completing t fresh o]> ps)
| step_crash r ps n :
    machine_step (r, ps) (r, <[n := Crashed]> ps).

Definition empty_machine : machine := (mkRepository ∅ ∅, []).

Definition machine_reachable (m : machine) : Prop := rtc machine_step empty_machine m.

(** ** What a process knows *)

(** The ticket a process was bound to by the claim file *)
Definition bound (p : pc) : option DomainPureWorkTicket :=
  match p with
  | ReadingOutcome t _ | Executing t _ | Completing t _ _ | Linking t _ _ _ | Comparing t _ _ _
  | Completed t _ _ | Replayed t _ => Some t
  | _ => None
  end.

(** The ticket a process claimed itself, by the link *)
Definition fresh_owner (p : pc) : option DomainPureWorkTicket :=
  match p with
  | Executing t true | Completing t true _ | Linking t true _ _ | Comparing t true _ _
  | Completed t true _ => Some t
  | _ => None
  end.

(** The outcome a call has returned, in canonical key order *)
Definition result_of (p : pc) : option (DomainPureWorkTicket * json) :=
  match p with
  | Completed t _ o => Some (t, sort_keys (JObj o))
  | Replayed t o => Some (t, JObj o)
  | _ => None
  end.

Definition encodes (o : odict json) (text : string) : Prop :=
  json_wf (JObj o) = true /\ canonical_json_bytes (JObj o) = Ok text.

(** The claim file of a ticket is the ticket's own. *)
Definition claimed (r : TicketResultRepository) (t : DomainPureWorkTicket) : Prop :=
  exists x, expected_claim t = Ok x /\ claims r !! file_name t = Some x.

Definition pc_ok (r : TicketResultRepository) (p : pc) : Prop :=
  (forall t, bound p = Some t -> claimed r t) /\
  match p with
  | ReadingClaim t _ x => expected_claim t = Ok x
  | Completing _ _ o => json_wf (JObj o) = true
  | Linking _ _ o text | Comparing _ _ o text => encodes o text
  | Completed t _ o => exists text, encodes o text /\ outcomes r !! file_name t = Some text
  | Replayed t o => exists text, outcomes r !! file_name t = Some text /\ loads true text = Some (JObj o)
  | _ => True
  end.

Definition outcomes_ok (r : TicketResultRepository) : Prop :=
  forall k text, outcomes r !! k = Some text -> exists o, encodes o text.

Definition grows (r r' : TicketResultRepository) : Prop :=
  claims r ⊆ claims r' /\ outcomes r ⊆ outcomes r'.

#[export] Instance grows_preorder : PreOrder grows.
Proof.
  split; [by intros r|]. intros r1 r2 r3 [A B] [C D]. split; by etransitivity.
Qed.

Lemma claimed_mono r r' t : grows r r' -> claimed r t -> claimed r' t.
Proof. intros [C _] (x & E & H). exists x. split; [done|]. by eapply lookup_weaken. Qed.

Lemma pc_ok_mono r r' p : grows r r' -> pc_ok r p -> pc_ok r' p.
Proof.
  intros G [B H]. split; [intros t Ht; by eapply claimed_mono, B|].
  destruct G as [_ O]. destruct p; try done.
  - destruct H as (text & E & L). exists text. split; [done|]. by eapply lookup_weaken.
  - destruct H as (text & L & E). exists text. split; [|done]. by eapply lookup_weaken.
Qed.

Lemma create_once_cases i path value d d' res :
  _create_once i path value d = (d', res) ->
  d ⊆ d' /\ (d' = d \/ (d !! path = None /\ d' = <[path := value]> d)) /\
  (res = Ok true -> d !! path = None /\ d' !! path = Some value) /\
  (res = Ok false -> d' = d /\ is_Some (d !! path)).
Proof.
  unfold _create_once.
  assert (I : forall v, d !! path = None -> d ⊆ <[path := v]> d) by (intros; by apply insert_subseteq).
  destruct i; [|intros [= <- <-]; split; [done|split; [by left|done]]|];
    destruct (d !! path) as [x|] eqn:E; intros [= <- <-]; rewrite ?lookup_insert_eq; naive_solver.
Qed.

Lemma fresh_bound p t : fresh_owner p = Some t -> bound p = Some t.
Proof. destruct p as [| | |? []|? []|? []|? []|? []| | |]; done. Qed.

(** The transition of one process keeps the invariant, and a fresh claim needs
    the claim file to have been missing. *)
Lemma access_ok i p r r' p' :
  outcomes_ok r -> pc_ok r p -> access i p r = (r', p') ->
  grows r r' /\ outcomes_ok r' /\ pc_ok r' p' /\
  (forall t, fresh_owner p' = Some t -> fresh_owner p = Some t \/ claims r !! file_name t = None).
Proof.
  intros O [B H]. destruct p as [t rec|t rec x|t rec|t f|t f o|t f o text|t f o text|t f o|t o|e|]; cbn [access].
  - unfold claim_link. destruct (expected_claim t) as [x|e] eqn:X; [|by intros [= <- <-]].
    destruct (_create_once i (file_name t) x (claims r)) as [c res] eqn:C.
    apply create_once_cases in C as (S & _ & C1 & C2).
    assert (G : grows r (mkRepository c (outcomes r))) by done.
    destruct res as [[]|e]; intros [= <- <-]; (split; [done|split; [done|]]).
    + destruct (C1 eq_refl) as [N E]. split; [|naive_solver]. split; [|done].
      intros t' [= <-]. by exists x.
    + by split.
    + by split.
  - intros [= <- <-]. split; [done|]. split; [done|]. unfold claim_compare, read_file.
    destruct i, (claims r !! file_name t) as [actual|] eqn:E; try by split.
    destruct (String.eqb_spec actual x) as [->|]; [|by split]. split; [|done]. split; [|done].
    intros t' [= <-]. by exists x.
  - intros [= <- <-]. split; [done|]. split; [done|]. pose proof (B t eq_refl) as Bt.
    unfold claim_existing, _read_outcome, read_file.
    destruct (outcomes r !! file_name t) as [text|] eqn:E.
    + destruct i; try by split. destruct (loads true text) as [[]|] eqn:L; try by split.
      cbn [rbind follow_decision]. split; [|done]. split; [|by exists text]. by intros t' [= <-].
    + cbn [rbind]. destruct rec; cbn [follow_decision]; [|by split].
      split; [|done]. split; [|done]. by intros t' [= <-].
  - intros [= <- <-]. split; [done|]. split; [done|]. split; [done|]. auto.
  - intros [= <- <-]. split; [done|]. split; [done|]. unfold complete_check.
    destruct i, (claims r !! file_name t); try by split.
    destruct (canonical_json_bytes (JObj o)) as [text|e] eqn:E; [|by split].
    split; [|destruct f; auto]. split; [|done]. intros t' [= <-]. by apply B.
  - unfold complete_link. destruct (_create_once i (file_name t) text (outcomes r)) as [d res] eqn:C.
    apply create_once_cases in C as (S & C0 & C1 & C2).
    assert (G : grows r (mkRepository (claims r) d)) by done.
    assert (O' : outcomes_ok (mkRepository (claims r) d)).
    { intros k v. cbn. destruct C0 as [->|[N ->]]; [apply O|].
      intros [[<- <-]|[_ L]]%lookup_insert_Some; [by exists o|by apply O in L]. }
    destruct res as [[]|e]; intros [= <- <-]; (split; [done|split; [done|]]).
    + destruct (C1 eq_refl) as [N E]. split; [|destruct f; auto]. split; [|by exists text].
      intros t' [= <-]. by apply (claimed_mono r), B.
    + split; [|destruct f; auto]. split; [|done]. intros t' [= <-]. by apply (claimed_mono r), B.
    + by split.
  - intros [= <- <-]. split; [done|]. split; [done|]. unfold complete_compare, read_file.
    destruct i, (outcomes r !! file_name t) as [x|] eqn:E; try by split.
    destruct (String.eqb_spec x text) as [->|]; [|by split].
    split; [|destruct f; auto]. split; [|by exists text]. intros t' [= <-]. by apply B.
  - intros [= <- <-]. split; [done|]. split; [done|]. split; [done|]. auto.
  - intros [= <- <-]. split; [done|]. split; [done|]. split; [done|]. auto.
  - intros [= <- <-]. by repeat split.
  - intros [= <- <-]. by repeat split.
Qed.

(** ** Every reachable machine *)

Lemma file_name_inj a b : file_name a = file_name b -> ticket_id a = ticket_id b.
Proof.
  unfold file_name. generalize (ticket_id a) (ticket_id b). intros x y E.
  assert (L : String.length x = String.length y).
  { apply (f_equal String.length) in E. rewrite !str_length_app in E. lia. }
  revert y L E. induction x as [|c x IH]; intros [|d y] L; try done.
  intros [= -> E]. f_equal. apply IH; [by injection L|done].
Qed.

Record machine_ok (m : machine) : Prop := {
  m_outcomes : outcomes_ok m.1;
  m_pcs : forall n p, m.2 !! n = Some p -> pc_ok m.1 p;
  m_fresh : forall n k p q t u, n <> k -> m.2 !! n = Some p -> m.2 !! k = Some q ->
    fresh_owner p = Some t -> fresh_owner q = Some u -> ticket_id t <> ticket_id u }.

(** Replacing one process by one that owns no more than it did, or a claim that
    nobody owned *)
Lemma fresh_replace (r : TicketResultRepository) ps n p p' :
  machine_ok (r, ps) -> ps !! n = Some p ->
  (forall t, fresh_owner p' = Some t -> fresh_owner p = Some t \/ claims r !! file_name t = None) ->
  forall a b x y t u, a <> b -> <[n := p']> ps !! a = Some x -> <[n := p']> ps !! b = Some y ->
    fresh_owner x = Some t -> fresh_owner y = Some u -> ticket_id t <> ticket_id u.
Proof.
  intros [_ P F] Hn K.
  assert (S : forall b y t u, n <> b -> ps !! b = Some y -> fresh_owner p' = Some t ->
    fresh_owner y = Some u -> ticket_id t <> ticket_id u).
  { intros b y t u N Hb Ht Hu. destruct (K t Ht) as [Ht'|Free]; [by eapply (F n b p y)|].
    intros E. destruct (proj1 (P b y Hb) u (fresh_bound _ _ Hu)) as (z & _ & C).
    cbn in C. unfold file_name in Free, C. rewrite E in Free. congruence. }
  intros a b x y t u N Ha Hb Ht Hu.
  destruct (decide (n = a)) as [<-|Na]; [|destruct (decide (n = b)) as [<-|Nb]].
  - rewrite list_lookup_insert_eq in Ha by by eapply lookup_lt_Some. injection Ha as <-.
    rewrite list_lookup_insert_ne in Hb by done. by eapply (S b y).
  - rewrite list_lookup_insert_eq in Hb by by eapply lookup_lt_Some. injection Hb as <-.
    rewrite list_lookup_insert_ne in Ha by done. intros E. by eapply (S a x u t).
  - rewrite list_lookup_insert_ne in Ha by done. rewrite list_lookup_insert_ne in Hb by done.
    by eapply (F a b x y).
Qed.

(** Any change of one process that the repository supports *)
Lemma machine_replace r r' ps n p p' :
  machine_ok (r, ps) -> ps !! n = Some p -> grows r r' -> outcomes_ok r' -> pc_ok r' p' ->
  (forall t, fresh_owner p' = Some t -> fresh_owner p = Some t \/ claims r !! file_name t = None) ->
  machine_ok (r', <[n := p']> ps).
Proof.
  intros M Hn G O P' K. constructor; cbn [fst snd]; [done| |by eapply fresh_replace].
  intros a x Ha. apply list_lookup_insert_Some in Ha as [(<- & -> & _)|(N & Ha)]; [done|].
  eapply pc_ok_mono; [done|]. by apply (m_pcs _ M a).
Qed.

Lemma machine_step_ok m m' : machine_ok m -> machine_step m m' -> machine_ok m' /\ grows m.1 m'.1.
Proof.
  intros M S. destruct S as [r ps t rec|r ps n p i r' p' Hn A|r ps n t f o Hn W|r ps n].
  - split; [|done]. destruct M as [O P F].
    assert (L : forall a x, (ps ++ [Claiming t rec])%list !! a = Some x ->
      ps !! a = Some x \/ x = Claiming t rec).
    { intros a x [H|(H1 & H)]%lookup_app_Some; [by left|].
      apply list_lookup_singleton_Some in H as [_ <-]. by right. }
    constructor; cbn [fst snd] in *; [done| |].
    + intros a x [Ha| ->]%L; [by apply (P a)|by split].
    + intros a b x y t1 t2 N [Ha| ->]%L [Hb| ->]%L Ht Hu; try done. by eapply (F a b).
  - pose proof (m_pcs _ M n p Hn) as Pp. pose proof (m_outcomes _ M) as O.
    destruct (access_ok _ _ _ _ _ O Pp A) as (G & O' & P' & K).
    split; [|done]. by eapply machine_replace.
  - split; [|done]. pose proof (m_pcs _ M n _ Hn) as [B _].
    eapply machine_replace; [done..|apply (m_outcomes _ M)| |].
    + split; [exact B|done].
    + intros u. destruct f; cbn; auto.
  - split; [|done]. destruct (ps !! n) as [p|] eqn:Hn.
    + eapply machine_replace; [done..|apply (m_outcomes _ M)|by split|done].
    + rewrite list_insert_ge; [done|by apply lookup_ge_None].
Qed.

Lemma machine_steps_ok m m' : machine_ok m -> rtc machine_step m m' -> machine_ok m' /\ grows m.1 m'.1.
Proof.
  intros M S. induction S as [m|m m1 m2 H S IH]; [done|].
  apply machine_step_ok in H as [M1 G1]; [|done]. destruct (IH M1) as [M2 G2].
  split; [done|]. by etransitivity.
Qed.

Lemma empty_machine_ok : machine_ok empty_machine.
Proof. constructor; cbn; done. Qed.

(** Two tickets with one claim text are one ticket id and one fingerprint. *)
Lemma expected_claim_binds t u x :
  expected_claim t = Ok x -> expected_claim u = Ok x ->
  exists f, ticket_fingerprint t = Ok f /\ ticket_fingerprint u = Ok f.
Proof.
  unfold expected_claim. intros (f & F & X)%rbind_Ok (g & G & Y)%rbind_Ok.
  assert (E : sort_keys (JObj (claim_document t f)) = sort_keys (JObj (claim_document u g)))
    by by eapply canonical_json_bytes_inj.
  assert (W : forall t f, json_wf (JObj (claim_document t f)) = true) by done.
  pose proof (sort_keys_lookup _ _ "ticket_fingerprint" (W t f) (W u g) E) as L. cbn in L.
  injection L as ->. by exists g.
Qed.

Lemma result_text r p t j :
  pc_ok r p -> outcomes_ok r -> result_of p = Some (t, j) ->
  exists text, outcomes r !! file_name t = Some text /\ loads true text = Some j.
Proof.
  intros [_ H] O. destruct p; try done; intros [= <- <-].
  - destruct H as (text & [W E] & L). exists text. split; [done|].
    exact (canonical_json_bytes_loads (JObj _) text true W E).
  - destruct H as (text & L & E). by exists text.
Qed.

(** C10: whatever the interleaving of processes, failed accesses and crashes, no
    two processes hold a fresh claim of one ticket id; processes that passed the
    claim check with one ticket id have tickets with the same fingerprint; every
    outcome returned for a ticket id, completed or replayed, is the same
    document; and claims and outcomes, once linked, never change. *)
Theorem ticket_repository_safe (r r' : TicketResultRepository) (ps ps' : list pc)
    (R : machine_reachable (r, ps)) (S : rtc machine_step (r, ps) (r', ps')) :
  (forall n k p q t u, n <> k -> ps !! n = Some p -> ps !! k = Some q ->
     fresh_owner p = Some t -> fresh_owner q = Some u -> ticket_id t <> ticket_id u) /\
  (forall n k p q t u, ps !! n = Some p -> ps !! k = Some q ->
     bound p = Some t -> bound q = Some u -> ticket_id t = ticket_id u ->
     exists f, ticket_fingerprint t = Ok f /\ ticket_fingerprint u = Ok f) /\
  (forall n k p q t u i j, ps !! n = Some p -> ps' !! k = Some q ->
     result_of p = Some (t, i) -> result_of q = Some (u, j) -> ticket_id t = ticket_id u -> i = j) /\
  claims r ⊆ claims r' /\ outcomes r ⊆ outcomes r'.
Proof.
  destruct (machine_steps_ok _ _ empty_machine_ok R) as [M _].
  destruct (machine_steps_ok _ _ M S) as [M' [GC GO]].
  split; [by apply (m_fresh _ M)|]. split; [|split; [|done]].
  - intros n k p q t u Hn Hk Bt Bu E.
    destruct (proj1 (m_pcs _ M n p Hn) t Bt) as (x & X & Cx).
    destruct (proj1 (m_pcs _ M k q Hk) u Bu) as (y & Y & Cy).
    unfold file_name in Cx, Cy. rewrite E, Cy in Cx. injection Cx as ->.
    by eapply expected_claim_binds.
  - intros n k p q t u i j Hn Hk Ri Rj E.
    destruct (result_text r p t i) as (x & X & Lx); [by apply (m_pcs _ M n)|apply (m_outcomes _ M)|done|].
    destruct (result_text r' q u j) as (y & Y & Ly); [by apply (m_pcs _ M' k)|apply (m_outcomes _ M')|done|].
    apply (lookup_weaken _ (outcomes r')) in X; [|done].
    unfold file_name in X, Y. rewrite E, Y in X. injection X as ->. congruence.
Qed.

(** ** A run *)

Inductive event :=
| Start (t : DomainPureWorkTicket) (rec : bool)
| Access (n : nat) (i : io)
| Round (n : nat) (o : odict json)
| Crash (n : nat).

Definition exec_event (m : machine) (e : event) : machine :=
  let '(r, ps) := m in
  match e with
  | Start t rec => (r, (ps ++ [Claiming t rec])%list)
  | Access n i => match ps !! n with
                  | Some p => let '(r', p') := access i p r in (r', <[n := p']> ps)
                  | None => m
                  end
  | Round n o => match ps !! n with
                 | Some (Executing t fresh) =>
                     if json_wf (JObj o) then (r, <[n := Completing t fresh o]> ps) else m
                 | _ => m
                 end
  | Crash n => (r, <[n := Crashed]> ps)
  end.

Definition run_events (es : list event) (m : machine) : machine := fold_left exec_event es m.

Lemma run_events_steps es m : rtc machine_step m (run_events es m).
Proof.
  revert m. induction es as [|e es IH]; intros m; [done|].
  change (run_events (e :: es) m) with (run_events es (exec_event m e)).
  transitivity (exec_event m e); [|apply IH]. destruct m as [r ps], e as [t rec|n i|n o|n]; cbn [exec_event].
  - apply rtc_once. constructor.
  - destruct (ps !! n) as [p|] eqn:E; [|done]. destruct (access i p r) as [r' p'] eqn:A.
    apply rtc_once. by econstructor.
  - destruct (ps !! n) as [[]|] eqn:E; try done. destruct (json_wf (JObj o)) eqn:W; [|done].
    apply rtc_once. by econstructor.
  - apply rtc_once. constructor.
Qed.

Definition demo_artifact (schema media : string) : ArtifactRef :=
  mkArtifactRef FORMAL_SEMANTICS_ID (JStr media) schema "1.0.0" 4096 "objects/ab/cd".

Definition demo_ticket : DomainPureWorkTicket :=
  mkTicket "ticket-1" "domain-1" (demo_artifact "SCHEMA-CORPUS-TEXT-V1" "text/plain;charset=utf-8")
    (mkDataRange 0 16) 2 4 (demo_artifact "SCHEMA-SAFETENSORS-V1" "application/vnd.safetensors")
    FORMAL_SEMANTICS_ID FORMAL_SEMANTICS_ID FORMAL_SEMANTICS_ID 7 60000 FORMAL_SEMANTICS_ID "1.0.0".

Definition demo_outcome : odict json := [("status", JStr "COMPLETED"); ("loss", JInt 3)].

(** A process claims and crashes, a second is refused, a third recovers the
    claim and completes, a fourth replays the outcome. *)
Definition demo_events : list event :=
  [Start demo_ticket false; Access 0 IoOk; Crash 0;
   Start demo_ticket false; Access 1 IoOk; Access 1 IoOk; Access 1 IoOk;
   Start demo_ticket true; Access 2 IoOk; Access 2 IoOk; Access 2 IoOk;
   Round 2 demo_outcome; Access 2 IoOk; Access 2 IoOk;
   Start demo_ticket false; Access 3 IoOk; Access 3 IoOk; Access 3 IoOk].

Definition pc_name (p : pc) : string :=
  match p with
  | Crashed => "crashed" | Failed (DeltaError c _) => ErrorCode_value c
  | Completed _ _ _ => "completed" | Replayed _ _ => "replayed" | _ => "other"
  end.

Example demo_run :
  map pc_name (run_events demo_events empty_machine).2
  = ["crashed"; "TICKET_ALREADY_IN_PROGRESS"; "completed"; "replayed"].
Proof. vm_compute. reflexivity. Qed.

Lemma ticket_repository_safe_witness :
  let m := run_events demo_events empty_machine in
  machine_reachable m /\
  (forall n k p q t u i j, m.2 !! n = Some p -> m.2 !! k = Some q ->
     result_of p = Some (t, i) -> result_of q = Some (u, j) -> ticket_id t = ticket_id u -> i = j).
Proof.
  intros m. assert (R : machine_reachable m) by (apply run_events_steps).
  split; [exact R|]. destruct m as [r ps].
  exact (proj1 (proj2 (proj2 (ticket_repository_safe r r ps ps R (rtc_refl _ _))))).
Defined.
