(* ===== verification/Network.v ===== *)
(** * Network profiles and the simulated faulty stream
    ([deltatorrent/domain/network.py], [deltatorrent/adapters/netem/simulated.py])

    The constructor checks of a profile, and the seeded link that delays, drops,
    reorders and times out frames.  Times are unbounded integers, as in Python;
    the seed and the sequence number are written in eight bytes. *)

From S2P Require Import Prelude PyFloat Json JsonText Text Sha256 WorkerErrors WorkerCanonical ArtifactRef.
From Stdlib Require Import Sorted.
Open Scope string_scope.
Open Scope Z_scope.
Open Scope py_scope.

Inductive FaultKind := DELAY | DELIVER | DISCONNECT | DROP | REORDER | TIMEOUT.

#[export] Instance FaultKind_eq_dec : EqDecision FaultKind.
Proof. solve_decision. Defined.

Definition FaultKind_value (k : FaultKind) : string :=
  match k with
  | DELAY => "DELAY" | DELIVER => "DELIVER" | DISCONNECT => "DISCONNECT"
  | DROP => "DROP" | REORDER => "REORDER" | TIMEOUT => "TIMEOUT"
  end.

Definition _invalid (message : string) : worker_exn := DeltaError INVALID_NETWORK_PROFILE message.

Record DisconnectWindow := mkWindow { start_ms : Z; end_ms : Z }.

Definition new_window (v_start v_end : json) : wresult DisconnectWindow :=
  match v_start, v_end with
  | JInt s, JInt e =>
      require (negb ((s <? 0) || (e <=? s))) (_invalid "disconnect window is invalid") ;? Ok (mkWindow s e)
  | _, _ => Raise (_invalid "disconnect window is invalid")
  end.

Definition window_to_dict (w : DisconnectWindow) : odict json :=
  [("end_ms", JInt (end_ms w)); ("start_ms", JInt (start_ms w))].

Record NetworkProfile := mkProfile {
  profile_id : json;
  latency_ms : Z;
  jitter_ms : Z;
  bandwidth_bytes_per_second : Z;
  loss_ppm : Z;
  reorder_ppm : Z;
  disconnect_windows : list DisconnectWindow;
  operation_deadline_ms : Z;
  seed : Z;
  schema_version : string }.

(** [isinstance(v, int)] of a number that is not negative *)
Definition non_negative (value : json) (name : string) : wresult Z :=
  match value with
  | JInt n => require (negb (n <? 0)) (_invalid (name +:+ " is invalid")) ;? Ok n
  | _ => Raise (_invalid (name +:+ " is invalid"))
  end.

Definition bounded_positive (value : json) : wresult Z :=
  match value with
  | JInt n => require (negb (n <=? 0)) (_invalid "network bounds are invalid") ;? Ok n
  | _ => Raise (_invalid "network bounds are invalid")
  end.

(** [current < prior] for windows, ordered by start then end *)
Definition window_lt (a b : DisconnectWindow) : bool :=
  (start_ms a <? start_ms b) || ((start_ms a =? start_ms b) && (end_ms a <? end_ms b)).

(** A test of every window against its successor *)
Fixpoint adjacent (f : DisconnectWindow -> DisconnectWindow -> bool) (l : list DisconnectWindow) : bool :=
  match l with
  | a :: (b :: _) as r => f a b && adjacent f r
  | _ => true
  end.

(** [NetworkProfile(…)] with the checks of [__post_init__]; a list sorted by a
    total order equals its sorted copy when no element is below the previous one. *)
Definition new_profile (v_id v_latency v_jitter v_bandwidth v_loss v_reorder : json)
    (windows : list DisconnectWindow) (v_deadline v_seed v_version : json) : wresult NetworkProfile :=
  require (py_eq v_version (JStr "1.0.0") && truthy v_id) (_invalid "network profile identity is invalid") ;?
  let? id_length := py_len v_id in
  require (negb (128 <? id_length)) (_invalid "network profile identity is invalid") ;?
  let? jitter := non_negative v_jitter "jitter_ms" in
  let? latency := non_negative v_latency "latency_ms" in
  let? loss := non_negative v_loss "loss_ppm" in
  let? reorder := non_negative v_reorder "reorder_ppm" in
  let? seed := non_negative v_seed "seed" in
  let? bandwidth := bounded_positive v_bandwidth in
  let? deadline := bounded_positive v_deadline in
  require (negb ((1000000 <? loss) || (1000000 <? reorder))) (_invalid "network bounds are invalid") ;?
  require (adjacent (fun prior current => negb (window_lt current prior)) windows)
    (_invalid "disconnect windows are not sorted") ;?
  require (adjacent (fun prior current => negb (start_ms current <? end_ms prior)) windows)
    (_invalid "disconnect windows overlap") ;?
  Ok (mkProfile v_id latency jitter bandwidth loss reorder windows deadline seed "1.0.0").

Definition profile_to_dict (p : NetworkProfile) : odict json :=
  [("bandwidth_bytes_per_second", JInt (bandwidth_bytes_per_second p));
   ("disconnect_windows", JArr (map (fun w => JObj (window_to_dict w)) (disconnect_windows p)));
   ("jitter_ms", JInt (jitter_ms p)); ("latency_ms", JInt (latency_ms p));
   ("loss_ppm", JInt (loss_ppm p)); ("operation_deadline_ms", JInt (operation_deadline_ms p));
   ("profile_id", profile_id p); ("reorder_ppm", JInt (reorder_ppm p));
   ("schema_version", JStr (schema_version p)); ("seed", JInt (seed p))].

Definition profile_fields : list string :=
  ["profile_id"; "latency_ms"; "jitter_ms"; "bandwidth_bytes_per_second"; "loss_ppm"; "reorder_ppm";
   "disconnect_windows"; "operation_deadline_ms"; "seed"; "schema_version"].

Definition window_shape (item : json) : bool :=
  match item with JObj o => keys_are o ["end_ms"; "start_ms"] | _ => false end.

Definition window_of (item : json) : wresult DisconnectWindow :=
  match item with
  | JObj o => new_window (jget "start_ms" o) (jget "end_ms" o)
  | _ => Raise WTypeError
  end.

Definition profile_from_mapping (value : odict json) : wresult NetworkProfile :=
  require (keys_are value profile_fields) (_invalid "NETWORK_PROFILE_FIELDS_INVALID") ;?
  match jget "disconnect_windows" value with
  | JArr items =>
      require (forallb window_shape items) (_invalid "DISCONNECT_WINDOWS_INVALID") ;?
      type_error_as (_invalid "NETWORK_PROFILE_TYPE_INVALID")
        (let? windows := rmap window_of items in
         new_profile (jget "profile_id" value) (jget "latency_ms" value) (jget "jitter_ms" value)
           (jget "bandwidth_bytes_per_second" value) (jget "loss_ppm" value) (jget "reorder_ppm" value)
           windows (jget "operation_deadline_ms" value) (jget "seed" value) (jget "schema_version" value))
  | _ => Raise (_invalid "DISCONNECT_WINDOWS_INVALID")
  end.

(** ** The simulated stream *)

Record Delivery := mkDelivery {
  sequence : Z;
  sent_at_ms : Z;
  delivered_at_ms : option Z;
  payload : option (list Z);
  events : list FaultKind }.

Definition delivery_to_dict (d : Delivery) : odict json :=
  [("delivered_at_ms", match delivered_at_ms d with Some n => JInt n | None => JNull end);
   ("events", JArr (map (fun k => JStr (FaultKind_value k)) (events d)));
   ("payload_sha256", match payload d with
                      | Some p => JStr (hex_of_bytes (sha256_bytes p))
                      | None => JNull end);
   ("sent_at_ms", JInt (sent_at_ms d)); ("sequence", JInt (sequence d))].

(** [n.to_bytes(8, "big")] of a non-negative integer *)
Definition to_bytes8 (n : Z) : wresult (list Z) :=
  require (n <? 2 ^ 64) WOverflowError ;? Ok (be_bytes 8 n).

(** [int.from_bytes(digest[a:b], "big")] *)
Definition from_bytes (l : list Z) : Z := fold_left (fun acc b => acc * 256 + b) l 0.
Definition digest_word (digest : list Z) (k : nat) : Z := from_bytes (firstn 4 (skipn (4 * k) digest)).

Definition netem_domain : list Z := bytes_of ("deltareduce.netem.v1" +:+ String Ascii.zero EmptyString).

Definition serialization_ms (p : NetworkProfile) (payload : list Z) : Z :=
  Z.max 1 ((Z.of_nat (length payload) * 1000 + bandwidth_bytes_per_second p - 1)
           / bandwidth_bytes_per_second p).

Definition disconnected (p : NetworkProfile) (sent_at delivered_at : Z) : bool :=
  existsb (fun w => (start_ms w <? delivered_at) && (sent_at <? end_ms w)) (disconnect_windows p).

(** [transmit] with the digest of the frame: the link's next free time and the
    delivery *)
Definition transmit_with (p : NetworkProfile) (available : Z) (digest : list Z) (frame : list Z)
    (seq sent_at : Z) : Z * Delivery :=
  let jitter_width := 2 * jitter_ms p + 1 in
  let jitter := digest_word digest 0 mod jitter_width - jitter_ms p in
  let start := Z.max sent_at available in
  let delivered_at := start + Z.max 0 (latency_ms p + jitter) + serialization_ms p frame in
  let available' := start + serialization_ms p frame in
  let lost events := mkDelivery seq sent_at None None events in
  (available',
   if disconnected p sent_at delivered_at then lost [DISCONNECT]
   else if digest_word digest 1 mod 1000000 <? loss_ppm p then lost [DROP]
   else
     let reorder := digest_word digest 2 mod 1000000 <? reorder_ppm p in
     let delivered_at := if reorder then delivered_at + (latency_ms p + jitter_ms p + 1) else delivered_at in
     let events := if reorder then [DELAY; REORDER] else [DELAY] in
     if operation_deadline_ms p <? delivered_at - sent_at then lost (events ++ [TIMEOUT])%list
     else mkDelivery seq sent_at (Some delivered_at) (Some frame) (events ++ [DELIVER])%list).

Definition transmit (p : NetworkProfile) (available : Z) (frame : list Z) (seq sent_at : Z) :
    Z * wresult Delivery :=
  if (seq <? 0) || (sent_at <? 0) then (available, Raise WValueError)
  else
    match (let? s := to_bytes8 (seed p) in let? n := to_bytes8 seq in Ok (s ++ n)%list) with
    | Raise e => (available, Raise e)
    | Ok head =>
        let '(available', d) :=
          transmit_with p available (sha256_bytes (netem_domain ++ head ++ frame)%list) frame seq sent_at in
        (available', Ok d)
    end.

(** The deliveries of [transmit_stream], in the order the frames are sent *)
Fixpoint transmit_all (p : NetworkProfile) (available seq : Z) (frames : list (Z * list Z)) :
    Z * wresult (list Delivery) :=
  match frames with
  | [] => (available, Ok [])
  | (sent_at, frame) :: r =>
      match transmit p available frame seq sent_at with
      | (available', Raise e) => (available', Raise e)
      | (available', Ok d) =>
          let '(final, ds) := transmit_all p available' (seq + 1) r in
          (final, let? ds := ds in Ok (d :: ds))
      end
  end.

(** The sort key: undelivered last, then delivery time, then sequence *)
Definition key_le (a b : Delivery) : bool :=
  match delivered_at_ms a, delivered_at_ms b with
  | Some x, Some y => (x <? y) || ((x =? y) && (sequence a <=? sequence b))
  | Some _, None => true
  | None, Some _ => false
  | None, None => sequence a <=? sequence b
  end.

Fixpoint insert_delivery (d : Delivery) (l : list Delivery) : list Delivery :=
  match l with
  | [] => [d]
  | x :: r => if key_le d x then d :: l else x :: insert_delivery d r
  end.

Definition sort_deliveries (l : list Delivery) : list Delivery := fold_right insert_delivery [] l.

Definition transmit_stream (p : NetworkProfile) (available : Z) (frames : list (Z * list Z)) :
    Z * wresult (list Delivery) :=
  let '(final, ds) := transmit_all p available 0 frames in
  (final, let? ds := ds in Ok (sort_deliveries ds)).

(** ** What a profile guarantees *)

Record profile_ok (p : NetworkProfile) : Prop := {
  p_delays : 0 <= latency_ms p /\ 0 <= jitter_ms p;
  p_rates : 0 <= loss_ppm p <= 1000000 /\ 0 <= reorder_ppm p <= 1000000;
  p_positive : 0 < bandwidth_bytes_per_second p /\ 0 < operation_deadline_ms p;
  p_seed : 0 <= seed p;
  p_windows : adjacent (fun a b => end_ms a <=? start_ms b) (disconnect_windows p) = true }.

Lemma profile_number_Ok v name n : non_negative v name = Ok n <-> v = JInt n /\ 0 <= n.
Proof.
  destruct v as [| |m| | | |]; cbn; try (split; [done|by intros []]).
  rewrite rbind_unit_Ok, require_Ok, negb_true_iff, Z.ltb_ge. naive_solver.
Qed.

Lemma profile_positive_Ok v n : bounded_positive v = Ok n <-> v = JInt n /\ 0 < n.
Proof.
  destruct v as [| |m| | | |]; cbn; try (split; [done|by intros []]).
  rewrite rbind_unit_Ok, require_Ok, negb_true_iff, Z.leb_gt. naive_solver.
Qed.

Lemma adjacent_impl (f g : DisconnectWindow -> DisconnectWindow -> bool) l :
  (forall a b, f a b = true -> g a b = true) -> adjacent f l = true -> adjacent g l = true.
Proof.
  intros H. induction l as [|a [|b l] IH]; [done..|]. cbn [adjacent].
  intros [Hab Hl]%andb_true_iff. apply andb_true_iff. auto.
Qed.

Lemma new_profile_ok a b c d e f w g h i p :
  new_profile a b c d e f w g h i = Ok p -> profile_ok p /\ disconnect_windows p = w.
Proof.
  unfold new_profile. intros (_ & H)%rbind_unit_Ok. apply rbind_Ok in H as (n & _ & H).
  apply rbind_unit_Ok in H as (_ & H).
  apply rbind_Ok in H as (j & [_ Hj]%profile_number_Ok & H). apply rbind_Ok in H as (l & [_ Hl]%profile_number_Ok & H).
  apply rbind_Ok in H as (lo & [_ Hlo]%profile_number_Ok & H). apply rbind_Ok in H as (re & [_ Hre]%profile_number_Ok & H).
  apply rbind_Ok in H as (se & [_ Hse]%profile_number_Ok & H). apply rbind_Ok in H as (bw & [_ Hbw]%profile_positive_Ok & H).
  apply rbind_Ok in H as (de & [_ Hde]%profile_positive_Ok & H).
  apply rbind_unit_Ok in H as (R & H). apply rbind_unit_Ok in H as (_ & H). apply rbind_unit_Ok in H as (W & H).
  injection H as <-. rewrite require_Ok, negb_true_iff, orb_false_iff, !Z.ltb_ge in R. apply require_Ok in W.
  split; [|done]. constructor; cbn; try lia.
  revert W. apply adjacent_impl. intros x y. rewrite negb_true_iff, Z.ltb_ge, Z.leb_le. done.
Qed.

Lemma profile_from_mapping_ok o p : profile_from_mapping o = Ok p -> profile_ok p.
Proof.
  unfold profile_from_mapping. intros (_ & H)%rbind_unit_Ok.
  destruct (jget "disconnect_windows" o); try done. apply rbind_unit_Ok in H as (_ & H).
  apply type_error_as_Ok, rbind_Ok in H as (w & _ & H). by apply new_profile_ok in H as [? _].
Qed.

(** ** What a delivery promises *)

(** The delivery of [frame], sent at [sent] *)
Definition delivery_ok (p : NetworkProfile) (sent : Z) (frame : list Z) (d : Delivery) : Prop :=
  sent_at_ms d = sent /\
  match delivered_at_ms d with
  | None =>
      payload d = None /\
      (events d = [DISCONNECT] \/ events d = [DROP] \/ events d = [DELAY; TIMEOUT] \/
       events d = [DELAY; REORDER; TIMEOUT])
  | Some t =>
      payload d = Some frame /\ sent + serialization_ms p frame <= t <= sent + operation_deadline_ms p /\
      (events d = [DELAY; DELIVER] /\ disconnected p sent t = false \/ events d = [DELAY; REORDER; DELIVER])
  end.

Lemma transmit_with_ok p available digest frame seq sent :
  profile_ok p ->
  let '(available', d) := transmit_with p available digest frame seq sent in
  delivery_ok p sent frame d /\ sequence d = seq /\
  Z.max sent available + serialization_ms p frame = available'.
Proof.
  intros [[P1 P2] _ _ _ _]. unfold transmit_with, delivery_ok. cbv zeta.
  set (j := digest_word digest 0 mod _ - _). set (t0 := Z.max sent available + _ + _).
  assert (T0 : sent + serialization_ms p frame <= t0) by (unfold t0; lia).
  destruct (disconnected p sent t0) eqn:D; [split; [cbn; auto|done]|].
  destruct (_ <? loss_ppm p); [split; [cbn; auto|done]|].
  destruct (_ <? reorder_ppm p).
  - destruct (Z.ltb_spec (operation_deadline_ms p) (t0 + (latency_ms p + jitter_ms p + 1) - sent));
      (split; [|done]); cbn; [auto 6|]. repeat split; [lia|lia|by right].
  - destruct (Z.ltb_spec (operation_deadline_ms p) (t0 - sent));
      (split; [|done]); cbn; [auto 6|]. repeat split; [lia|lia|by left].
Qed.

Lemma transmit_Ok p a frame seq sent a' d :
  profile_ok p -> transmit p a frame seq sent = (a', Ok d) ->
  0 <= sent /\ delivery_ok p sent frame d /\ sequence d = seq /\
  Z.max sent a + serialization_ms p frame = a'.
Proof.
  intros P. unfold transmit. destruct (Z.ltb_spec seq 0); [done|]. cbn [orb].
  destruct (Z.ltb_spec sent 0); [done|].
  destruct (let? s := to_bytes8 (seed p) in _) as [head|]; [|done].
  pose proof (transmit_with_ok p a (sha256_bytes (netem_domain ++ head ++ frame)%list) frame seq sent P) as T.
  revert T. destruct (transmit_with _ _ _ _ _ _) as [x y]. intros (T1 & T2 & T3) [= <- <-]. done.
Qed.

Lemma to_bytes8_Ok n : (exists l, to_bytes8 n = Ok l) <-> n < 2 ^ 64.
Proof.
  unfold to_bytes8. destruct (Z.ltb_spec n (2 ^ 64)); cbn [require rbind]; split; try done; [eauto|by intros []|lia].
Qed.

(** A frame is handled exactly when the numbers fit their fields. *)
Lemma transmit_total p a frame seq sent :
  0 <= seq -> (exists d, (transmit p a frame seq sent).2 = Ok d) <-> 0 <= sent /\ seed p < 2 ^ 64 /\ seq < 2 ^ 64.
Proof.
  intros S. unfold transmit. rewrite (proj2 (Z.ltb_ge seq 0)) by done. cbn [orb].
  destruct (Z.ltb_spec sent 0); [split; [by intros []|lia]|].
  pose proof (to_bytes8_Ok (seed p)) as B1. pose proof (to_bytes8_Ok seq) as B2.
  destruct (to_bytes8 (seed p)) as [x|]; cbn [rbind];
    [|split; [by intros []|intros (_ & [l E]%B1 & _); done]].
  destruct (to_bytes8 seq) as [y|]; cbn [rbind];
    [|split; [by intros []|intros (_ & _ & [l E]%B2); done]].
  destruct (transmit_with _ _ _ _ _ _) as [v w]. cbn [snd]. split; [|eauto].
  intros _. split; [done|]. split; [apply B1|apply B2]; eauto.
Qed.

Lemma serialization_bound p frame :
  0 < bandwidth_bytes_per_second p ->
  0 < serialization_ms p frame /\
  Z.of_nat (length frame) * 1000 <= bandwidth_bytes_per_second p * serialization_ms p frame.
Proof.
  intros B. unfold serialization_ms. set (n := Z.of_nat (length frame) * 1000). set (b := bandwidth_bytes_per_second p) in *.
  pose proof (Z.div_mod (n + b - 1) b ltac:(lia)). pose proof (Z.mod_pos_bound (n + b - 1) b B).
  split; [lia|]. nia.
Qed.

Definition frame_bytes (frames : list (Z * list Z)) : Z :=
  foldr (fun sf n => Z.of_nat (length sf.2) + n) 0 frames.

Lemma transmit_all_ok p frames : forall a seq fin ds,
  profile_ok p -> transmit_all p a seq frames = (fin, Ok ds) ->
  length ds = length frames /\
  (forall (i : nat) s f, frames !! i = Some (s, f) ->
     exists d, ds !! i = Some d /\ sequence d = seq + Z.of_nat i /\ delivery_ok p s f d) /\
  a <= fin /\ frame_bytes frames * 1000 <= bandwidth_bytes_per_second p * (fin - a).
Proof.
  induction frames as [|[s f] r IH]; intros a seq fin ds P; cbn [transmit_all].
  - intros [= <- <-]. split; [done|]. split; [done|]. split; [done|]. cbn. lia.
  - destruct (transmit p a f seq s) as [a' [d|]] eqn:T; [|done].
    destruct (transmit_all p a' (seq + 1) r) as [fin' [ds'|]] eqn:A; [|done].
    cbn [rbind]. intros [= <- <-]. apply transmit_Ok in T as (S & D & Q & <-); [|done].
    apply IH in A as (L & H & G & W); [|done].
    destruct (serialization_bound p f) as [S1 S2]; [apply P|].
    split; [cbn; by rewrite L|]. split; [|split; [lia|]].
    + intros [|i] s' f'; cbn [lookup list_lookup].
      * intros [= <- <-]. exists d. split; [done|]. split; [|done]. cbn. lia.
      * intros [d' (E1 & E2 & E3)]%H. exists d'. split; [done|]. split; [|done]. lia.
    + unfold frame_bytes in *. cbn [foldr snd]. pose proof (proj1 (p_positive p P)). nia.
Qed.

Lemma transmit_all_total p frames : forall a seq,
  0 <= seq ->
  (exists ds, (transmit_all p a seq frames).2 = Ok ds) <->
  Forall (fun sf => 0 <= sf.1) frames /\
  (frames <> [] -> seed p < 2 ^ 64 /\ seq + Z.of_nat (length frames) <= 2 ^ 64).
Proof.
  induction frames as [|[s f] r IH]; intros a seq Q; cbn [transmit_all].
  - split; [done|intros _; by exists []].
  - pose proof (transmit_total p a f seq s Q) as T. destruct (transmit p a f seq s) as [a' [d|]]; cbn [snd] in *.
    + specialize (IH a' (seq + 1) ltac:(lia)). destruct (transmit_all p a' (seq + 1) r) as [fin ds]. cbn [snd] in *.
      destruct (proj1 T) as (T1 & T2 & T3); [by exists d|].
      destruct ds as [ds|e]; cbn [rbind].
      * split; [intros _|by exists (d :: ds)]. destruct (proj1 IH) as [F N]; [by exists ds|].
        split; [by constructor|]. intros _. split; [done|]. cbn [length].
        destruct r; [cbn; lia|]. destruct (N ltac:(done)). lia.
      * split; [by intros []|]. intros [[_ F]%Forall_cons N]. exfalso.
        destruct (proj2 IH) as [? ?]; [|done]. split; [done|]. intros _.
        destruct (N ltac:(done)). cbn [length] in *. lia.
    + split; [by intros []|]. intros [[S _]%Forall_cons N]. exfalso.
      destruct (proj2 T) as [? ?]; [|done]. destruct (N ltac:(done)). cbn [length] in *. split; [done|lia].
Qed.

(** ** The order of a stream *)

Lemma insert_delivery_perm d l : insert_delivery d l ≡ₚ d :: l.
Proof.
  induction l as [|x l IH]; [done|]. cbn [insert_delivery]. destruct (key_le d x); [done|].
  rewrite IH. constructor.
Qed.

Lemma sort_deliveries_perm l : sort_deliveries l ≡ₚ l.
Proof. induction l as [|d l IH]; [done|]. cbn. by rewrite insert_delivery_perm, IH. Qed.

Lemma key_le_total a b : key_le a b = false -> key_le b a = true.
Proof.
  unfold key_le. destruct (delivered_at_ms a) as [x|], (delivered_at_ms b) as [y|]; try done.
  - destruct (Z.ltb_spec x y), (Z.ltb_spec y x), (Z.eqb_spec x y), (Z.eqb_spec y x),
      (Z.leb_spec (sequence a) (sequence b)), (Z.leb_spec (sequence b) (sequence a)); cbn; try done; lia.
  - destruct (Z.leb_spec (sequence a) (sequence b)), (Z.leb_spec (sequence b) (sequence a)); try done; lia.
Qed.

Lemma insert_delivery_sorted d l :
  Sorted (fun a b => key_le a b = true) l -> Sorted (fun a b => key_le a b = true) (insert_delivery d l).
Proof.
  induction 1 as [|x l Hl IH Hx]; cbn [insert_delivery]; [by repeat constructor|].
  destruct (key_le d x) eqn:K; [by repeat constructor|].
  constructor; [done|]. apply key_le_total in K.
  destruct l as [|y l]; cbn [insert_delivery]; [by constructor|].
  destruct (key_le d y); constructor; [done|by inversion Hx].
Qed.

Lemma sort_deliveries_sorted l : Sorted (fun a b => key_le a b = true) (sort_deliveries l).
Proof. induction l as [|d l IH]; [constructor|]. by apply insert_delivery_sorted. Qed.

(** a stream over a valid profile is handled exactly when every send time is
    non-negative and the seed and the sequence numbers fit in eight bytes; every
    frame then has exactly one delivery, which carries the frame unchanged
    within its serialization time and the deadline, or nothing with the reason;
    a frame that was not reordered met no disconnect window; the deliveries are
    sorted by time and the link is never faster than the bandwidth. *)
Theorem netem_stream_sound (o : odict json) (p : NetworkProfile) (a fin : Z)
    (frames : list (Z * list Z)) (ds : list Delivery)
    (B : profile_from_mapping o = Ok p) :
  ((exists ds, (transmit_stream p a frames).2 = Ok ds) <->
   Forall (fun sf => 0 <= sf.1) frames /\
   (frames <> [] -> seed p < 2 ^ 64 /\ Z.of_nat (length frames) <= 2 ^ 64)) /\
  (transmit_stream p a frames = (fin, Ok ds) ->
   length ds = length frames /\
   (forall (i : nat) s f, frames !! i = Some (s, f) ->
      exists d, d ∈ ds /\ sequence d = Z.of_nat i /\ delivery_ok p s f d) /\
   Sorted (fun a b => key_le a b = true) ds /\
   frame_bytes frames * 1000 <= bandwidth_bytes_per_second p * (fin - a)).
Proof.
  apply profile_from_mapping_ok in B. unfold transmit_stream. split.
  - rewrite <- (Z.add_0_l (Z.of_nat (length frames))), <- (transmit_all_total p frames a 0) by done.
    destruct (transmit_all p a 0 frames) as [f [l|]]; cbn; split; try (by intros []); eauto.
  - destruct (transmit_all p a 0 frames) as [f [l|]] eqn:T; [|done]. cbn [rbind]. intros [= <- <-].
    apply transmit_all_ok in T as (L & H & _ & W); [|done].
    split; [by rewrite sort_deliveries_perm|]. split; [|split; [apply sort_deliveries_sorted|done]].
    intros i s g (d & E & Q & D)%H. exists d. split; [|done].
    rewrite sort_deliveries_perm. by eapply list_elem_of_lookup_2.
Qed.

(** ** A concrete stream *)

Definition demo_profile (reorder : Z) (windows : list json) : odict json :=
  [("profile_id", JStr "demo"); ("latency_ms", JInt 10); ("jitter_ms", JInt 0);
   ("bandwidth_bytes_per_second", JInt 1000); ("loss_ppm", JInt 0); ("reorder_ppm", JInt reorder);
   ("disconnect_windows", JArr windows); ("operation_deadline_ms", JInt 100); ("seed", JInt 7);
   ("schema_version", JStr "1.0.0")].

Lemma netem_stream_sound_witness :
  exists p fin ds, profile_from_mapping (demo_profile 0 []) = Ok p /\
    transmit_stream p 0 [(0, [1; 2; 3]); (1, [4])] = (fin, Ok ds) /\
    map delivered_at_ms ds = [Some 13; Some 14] /\
    Sorted (fun a b => key_le a b = true) ds.
Proof.
  destruct (profile_from_mapping (demo_profile 0 [])) as [p|] eqn:P; [|vm_compute in P; discriminate].
  assert (E : match profile_from_mapping (demo_profile 0 []) with
              | Ok p => map delivered_at_ms
                          (match (transmit_stream p 0 [(0, [1; 2; 3]); (1, [4])]).2 with Ok l => l | _ => [] end)
              | _ => [] end = [Some 13; Some 14]) by (vm_compute; reflexivity).
  rewrite P in E. destruct (transmit_stream p 0 [(0, [1; 2; 3]); (1, [4])]) as [fin [ds|]] eqn:T; [|discriminate].
  exists p, fin, ds. split; [reflexivity|]. split; [exact T|]. split; [exact E|].
  exact (proj1 (proj2 (proj2 (proj2 (netem_stream_sound _ p 0 fin _ ds P) T)))).
Defined.

(** A reordered frame is not checked against the windows again: here it arrives
    at 22 after a window from 15 to 20 it was in flight in. *)
Example reordered_through_window :
  match profile_from_mapping (demo_profile 1000000 [JObj [("start_ms", JInt 15); ("end_ms", JInt 20)]]) with
  | Ok p => match (transmit p 0 [] 0 0).2 with
            | Ok d => delivered_at_ms d = Some 22 /\ disconnected p 0 22 = true
            | _ => False
            end
  | _ => False
  end.
Proof. vm_compute. split; reflexivity. Qed.

(** A seed of more than eight bytes is a valid profile and fails on first use. *)
Example wide_seed :
  match profile_from_mapping (od_set "seed" (JInt (2 ^ 64)) (demo_profile 0 [])) with
  | Ok p => (transmit p 0 [] 0 0).2 = Raise WOverflowError
  | _ => False
  end.
Proof. vm_compute. reflexivity. Qed.
