(* ===== verification/Sampler.v ===== *)
(** * Tokens, windows and the sampler ([deltatorrent/training/data.py])

    The tokenizer document, the fixed windows of a corpus and the sampler that
    orders them anew for every epoch.  Reading a corpus or a tokenizer from a
    path is the caller's; the bytes read are the arguments here. *)

From S2P Require Import Prelude PyFloat Json JsonText Text Sha256 WorkerErrors WorkerCanonical.
Open Scope string_scope.
Open Scope Z_scope.
Open Scope py_scope.

Definition _schema (message : string) : worker_exn := DeltaError SCHEMA_INVALID message.

(** ** Sorting *)

Fixpoint insert_by {A} (le : A -> A -> bool) (x : A) (l : list A) : list A :=
  match l with
  | [] => [x]
  | y :: r => if le x y then x :: l else y :: insert_by le x r
  end.

(** [sorted(l, key=…)], stable, by an order on keys computed once *)
Definition sorted_by {A K} (le : K -> K -> bool) (key : A -> K) (l : list A) : list A :=
  map snd (fold_right (insert_by (fun a b => le a.1 b.1)) [] (map (fun x => (key x, x)) l)).

(** ** The tokenizer *)

Record Tokenizer := mkTokenizer {
  vocabulary : odict Z;
  pad_token : string;
  unknown_token : string }.

(** [range(n)] *)
Definition py_range (n : Z) : list Z := seqZ 0 n.

Definition vocabulary_invalid : worker_exn := _schema "TOKENIZER_VOCABULARY_INVALID".

(** [token in vocabulary]: an unhashable key is a [TypeError]. *)
Definition in_vocabulary (token : json) (v : odict Z) : wresult (option string) :=
  match token with
  | JStr s => Ok (if od_mem s v then Some s else None)
  | JArr _ | JObj _ => Raise WTypeError
  | _ => Ok None
  end.

(** [Tokenizer.__post_init__]: the ids are exactly [0 .. len - 1]; the checks
    stop at the first that holds. *)
Definition new_tokenizer (v : odict Z) (pad unknown : json) : wresult Tokenizer :=
  let ids := od_values v in
  require (match v with [] => false | _ => true end && bool_decide (NoDup ids)
           && bool_decide (sorted_by Z.leb id ids = py_range (Z.of_nat (length v)))) vocabulary_invalid ;?
  let? pad_token := in_vocabulary pad v in
  match pad_token with
  | None => Raise vocabulary_invalid
  | Some pad_token =>
      let? unknown_token := in_vocabulary unknown v in
      match unknown_token with
      | None => Raise vocabulary_invalid
      | Some unknown_token => Ok (mkTokenizer v pad_token unknown_token)
      end
  end.

(** The integer entries of a vocabulary document *)
Fixpoint int_items (o : odict json) : wresult (odict Z) :=
  match o with
  | [] => Ok []
  | (k, JInt n) :: r => let? items := int_items r in Ok ((k, n) :: items)
  | _ :: _ => Raise vocabulary_invalid
  end.

Definition tokenizer_from_json_bytes (payload : string) : wresult Tokenizer :=
  require (encodable payload) (_schema "TOKENIZER_JSON_INVALID") ;?
  match loads true payload with
  | None => Raise (_schema "TOKENIZER_JSON_INVALID")
  | Some (JObj value) =>
      require (keys_are value ["pad_token"; "schema_version"; "unknown_token"; "vocabulary"])
        (_schema "TOKENIZER_SCHEMA_INVALID") ;?
      match jget "vocabulary" value with
      | JObj items =>
          require (py_eq (jget "schema_version" value) (JStr "1.0.0")) (_schema "TOKENIZER_SCHEMA_INVALID") ;?
          let? v := int_items items in
          new_tokenizer v (jget "pad_token" value) (jget "unknown_token" value)
      | _ => Raise (_schema "TOKENIZER_SCHEMA_INVALID")
      end
  | Some _ => Raise (_schema "TOKENIZER_SCHEMA_INVALID")
  end.

Definition token_id (t : Tokenizer) (token : string) (default : Z) : Z :=
  match od_get token (vocabulary t) with Some n => n | None => default end.

Definition pad_id (t : Tokenizer) : Z := token_id t (pad_token t) 0.

Definition tokenizer_payload (t : Tokenizer) : odict json :=
  [("pad_token", JStr (pad_token t)); ("schema_version", JStr "1.0.0");
   ("unknown_token", JStr (unknown_token t));
   ("vocabulary", JObj (map (fun kv => (kv.1, JInt kv.2)) (vocabulary t)))].

(** [s.split()]: the maximal runs without white space *)
Fixpoint split_words (fuel : nat) (word s : string) : list string :=
  let flush := match word with EmptyString => [] | _ => [str_rev word] end in
  match fuel, s with
  | S k, String c r =>
      match strip_one whitespace_seqs s with
      | Some t => (flush ++ split_words k EmptyString t)%list
      | None => split_words k (String c word) r
      end
  | _, _ => flush
  end.

Definition py_split (s : string) : list string := split_words (String.length s) EmptyString s.

Definition tokenizer_encode (t : Tokenizer) (text : string) : list Z :=
  let unknown := token_id t (unknown_token t) 0 in
  map (fun token => token_id t token unknown) (py_split text).

(** ** Windows *)

Record TokenSample := mkSample { inputs : list Z; targets : list Z }.

(** [range(0, stop, step)] for a positive step *)
Definition range_step (stop step : Z) : list Z := map (Z.mul step) (py_range ((stop + step - 1) / step)).

Definition window (tokens : list Z) (sequence_length start : Z) : list Z :=
  take (Z.to_nat (sequence_length + 1)) (drop (Z.to_nat start) tokens).

Definition load_samples_from_text (text : string) (t : Tokenizer) (sequence_length : Z) :
    wresult (list TokenSample) :=
  let tokens := tokenizer_encode t text in
  let width := sequence_length + 1 in
  require (negb (sequence_length =? 0)) WValueError ;?
  let starts := if sequence_length <? 0 then []
                else range_step (Z.of_nat (length tokens) - width + 1) sequence_length in
  let samples :=
    omap (fun start =>
            let w := window tokens sequence_length start in
            if Z.of_nat (length w) =? width then Some (mkSample (removelast w) (tail w)) else None) starts in
  require (match samples with [] => false | _ => true end) (_schema "CORPUS_TOO_SHORT") ;?
  Ok samples.

(** ** The sampler *)

Record DeterministicSampler := mkSampler { sample_count : Z; seed : Z; cursor : Z }.

Definition new_sampler (sample_count seed cursor : Z) : wresult DeterministicSampler :=
  require (negb ((sample_count <=? 0) || (seed <? 0) || (cursor <? 0))) WValueError ;?
  Ok (mkSampler sample_count seed cursor).

(** [a <= b] of two byte strings *)
Fixpoint bytes_le (a b : list Z) : bool :=
  match a, b with
  | [], _ => true
  | _ :: _, [] => false
  | x :: a, y :: b => (x <? y) || ((x =? y) && bytes_le a b)
  end.

Definition draw_key (seed epoch index : Z) : list Z :=
  sha256_bytes (bytes_of ("deltareduce.sampler.v1:" +:+ str_of_int seed +:+ ":" +:+ str_of_int epoch
                          +:+ ":" +:+ str_of_int index)).

Definition epoch_order (s : DeterministicSampler) (epoch : Z) : list Z :=
  sorted_by bytes_le (draw_key (seed s) epoch) (py_range (sample_count s)).

Definition _index_at (s : DeterministicSampler) (cursor : Z) : Z :=
  let epoch := cursor / sample_count s in
  let position := cursor mod sample_count s in
  nth (Z.to_nat position) (epoch_order s epoch) 0.

Definition sampler_take (count : Z) (s : DeterministicSampler) : DeterministicSampler * wresult (list Z) :=
  if count <=? 0 then (s, Raise WValueError)
  else (mkSampler (sample_count s) (seed s) (cursor s + count),
        Ok (map (fun offset => _index_at s (cursor s + offset)) (py_range count))).

(** ** Sorting keeps the elements *)

Lemma insert_by_perm {A} (le : A -> A -> bool) x l : insert_by le x l ≡ₚ x :: l.
Proof.
  induction l as [|y l IH]; [done|]. cbn [insert_by]. destruct (le x y); [done|].
  rewrite IH. constructor.
Qed.

Lemma sorted_by_perm {A K} (le : K -> K -> bool) (key : A -> K) l : sorted_by le key l ≡ₚ l.
Proof.
  unfold sorted_by. transitivity (map snd (map (fun x => (key x, x)) l)).
  - change (map snd ?x) with (snd <$> x). f_equiv. generalize (map (fun x => (key x, x)) l).
    intros m. induction m as [|x m IH]; [done|]. cbn [fold_right]. by rewrite insert_by_perm, IH.
  - rewrite map_map. cbn. by rewrite map_id.
Qed.

(** ** The windows of a corpus *)

Lemma py_range_length n : length (py_range n) = Z.to_nat n.
Proof. apply length_seqZ. Qed.

Lemma token_id_in t token d :
  (exists k, (k, token_id t token d) ∈ vocabulary t) \/ token_id t token d = d.
Proof.
  unfold token_id. destruct (od_get token (vocabulary t)) as [n|] eqn:E; [|by right].
  left. exists token. by apply od_get_In.
Qed.

(** What the constructor guarantees: the ids are [0 .. len - 1], each once. *)
Record tokenizer_ok (t : Tokenizer) : Prop := {
  k_ids : od_values (vocabulary t) ≡ₚ py_range (Z.of_nat (length (vocabulary t)));
  k_pad : od_mem (pad_token t) (vocabulary t) = true;
  k_unknown : od_mem (unknown_token t) (vocabulary t) = true }.

Lemma in_vocabulary_Ok j v s : in_vocabulary j v = Ok (Some s) <-> j = JStr s /\ od_mem s v = true.
Proof.
  destruct j as [| | | |x| |]; cbn; try (split; [done|by intros []]).
  destruct (od_mem x v) eqn:E; split; try done; [intros [= <-]; done|intros ([= ->] & _); done|].
  intros ([= ->] & F). congruence.
Qed.

Lemma new_tokenizer_Ok v pad unknown t :
  new_tokenizer v pad unknown = Ok t ->
  vocabulary t = v /\ pad = JStr (pad_token t) /\ unknown = JStr (unknown_token t) /\ tokenizer_ok t.
Proof.
  unfold new_tokenizer. intros (R & H)%rbind_unit_Ok. apply rbind_Ok in H as ([p|] & Hp & H); [|done].
  apply rbind_Ok in H as ([u|] & Hu & H); [|done]. injection H as <-.
  apply in_vocabulary_Ok in Hp as (-> & Hp), Hu as (-> & Hu).
  apply require_Ok, andb_true_iff in R as [_ R]. apply bool_decide_eq_true in R.
  split; [done|]. split; [done|]. split; [done|]. constructor; cbn; [|done..].
  rewrite <- R. symmetry. apply sorted_by_perm.
Qed.

Lemma token_id_bound t token :
  tokenizer_ok t -> 0 <= token_id t token (token_id t (unknown_token t) 0) < Z.of_nat (length (vocabulary t)).
Proof.
  intros [I _ U]. assert (B : forall k n, (k, n) ∈ vocabulary t -> 0 <= n < Z.of_nat (length (vocabulary t))).
  { intros k n H. apply (list_elem_of_fmap_2 snd) in H. cbn in H.
    change (snd <$> vocabulary t) with (od_values (vocabulary t)) in H. rewrite I in H.
    unfold py_range in H. rewrite elem_of_seqZ in H. lia. }
  assert (D : 0 <= token_id t (unknown_token t) 0 < Z.of_nat (length (vocabulary t))).
  { unfold token_id. unfold od_mem in U. destruct (od_get (unknown_token t) (vocabulary t)) eqn:E; [|done].
    apply od_get_In in E. by apply B in E. }
  destruct (token_id_in t token (token_id t (unknown_token t) 0)) as [[k H]| ->]; [by apply (B k)|done].
Qed.

Lemma encode_bound t text :
  tokenizer_ok t -> Forall (fun n => 0 <= n < Z.of_nat (length (vocabulary t))) (tokenizer_encode t text).
Proof.
  intros K. unfold tokenizer_encode. apply Forall_forall. intros n (w & <- & _)%list_elem_of_In%in_map_iff.
  by apply token_id_bound.
Qed.

Definition window_sample (tokens : list Z) (L : Z) (k : nat) : TokenSample :=
  mkSample (take (Z.to_nat L) (drop (k * Z.to_nat L) tokens)) (take (Z.to_nat L) (drop (S (k * Z.to_nat L)) tokens)).

Lemma removelast_take_S {A} n (l : list A) : (n < length l)%nat -> removelast (take (S n) l) = take n l.
Proof.
  revert l. induction n as [|n IH]; intros [|x l] H; cbn in *; [lia|done|lia|].
  specialize (IH l ltac:(lia)). destruct l as [|y l]; [cbn in *; lia|].
  cbn [take] in *. by rewrite IH.
Qed.

Lemma window_full tokens L (k : nat) :
  0 < L -> Z.of_nat k * L + L < Z.of_nat (length tokens) ->
  let w := window tokens L (L * Z.of_nat k) in
  Z.of_nat (length w) = L + 1 /\ mkSample (removelast w) (tail w) = window_sample tokens L k.
Proof.
  intros HL H w. unfold w, window, window_sample.
  replace (Z.to_nat (L + 1)) with (S (Z.to_nat L)) by lia.
  replace (Z.to_nat (L * Z.of_nat k)) with (k * Z.to_nat L)%nat by nia.
  assert (D : (Z.to_nat L < length (drop (k * Z.to_nat L) tokens))%nat) by (rewrite length_drop; nia).
  split; [rewrite length_take; lia|]. f_equal; [by apply removelast_take_S|].
  replace (S (k * Z.to_nat L)) with (k * Z.to_nat L + 1)%nat by lia. rewrite <- drop_drop.
  destruct (drop (k * Z.to_nat L) tokens); cbn; by rewrite ?take_nil, ?drop_0.
Qed.

Lemma range_step_lookup stop step k x :
  0 < step -> range_step stop step !! k = Some x <-> x = step * Z.of_nat k /\ step * Z.of_nat k < stop.
Proof.
  intros H. unfold range_step, py_range. change (map ?f ?l) with (f <$> l).
  rewrite list_lookup_fmap_Some. setoid_rewrite lookup_seqZ.
  assert (E : Z.of_nat k < (stop + step - 1) / step <-> step * Z.of_nat k < stop).
  { split; intros L.
    - pose proof (Z.mul_div_le (stop + step - 1) step H). nia.
    - apply Z.lt_le_trans with (m := Z.of_nat k + 1); [lia|]. apply Z.div_le_lower_bound; nia. }
  setoid_rewrite E. split; [intros (y & -> & -> & ?); split; [lia|done]|intros [-> ?]].
  exists (Z.of_nat k). split; [done|]. split; [lia|done].
Qed.

(** Every start has a full window: the filter of the code drops nothing. *)
Lemma samples_of_starts tokens L l :
  0 < L -> (forall k x, l !! k = Some x -> exists n : nat, x = L * Z.of_nat n /\ L * Z.of_nat n + L < Z.of_nat (length tokens)) ->
  omap (fun start => let w := window tokens L start in
          if Z.of_nat (length w) =? L + 1 then Some (mkSample (removelast w) (tail w)) else None) l
  = map (fun x => window_sample tokens L (Z.to_nat (x / L))) l.
Proof.
  intros H. induction l as [|x l IH]; intros F; [done|].
  destruct (F 0%nat x eq_refl) as (n & -> & B).
  destruct (window_full tokens L n H ltac:(lia)) as [E1 E2].
  cbn [omap list_omap map]. rewrite (proj2 (Z.eqb_eq _ _) E1), E2. f_equal.
  - by rewrite Z.mul_comm, Z.div_mul, Nat2Z.id by lia.
  - apply IH. intros k y Hk. by apply (F (S k)).
Qed.

Lemma concat_windows tokens L n (f : TokenSample -> list Z) j :
  0 < L -> (forall k, f (window_sample tokens L k) = take (Z.to_nat L) (drop (j + k * Z.to_nat L) tokens)) ->
  concat (map f (map (window_sample tokens L) (seq 0 n))) = take (n * Z.to_nat L) (drop j tokens).
Proof.
  intros H E. induction n as [|n IH]; [done|].
  rewrite seq_S, !map_app, concat_app, IH. cbn [map concat]. rewrite app_nil_r, E, Nat.add_0_l.
  replace (S n * Z.to_nat L)%nat with (n * Z.to_nat L + Z.to_nat L)%nat by lia.
  by rewrite <- take_take_drop, drop_drop.
Qed.

Lemma map_seq_lookup {A} (f : nat -> A) n k : map f (seq 0 n) !! k = if (k <? n)%nat then Some (f k) else None.
Proof.
  change (map ?f ?l) with (f <$> l). rewrite list_lookup_fmap.
  destruct (Nat.ltb_spec k n); [by rewrite lookup_seq_lt|by rewrite lookup_seq_ge].
Qed.

(** The samples of a positive window length *)
Lemma load_positive text t L :
  0 < L -> let tokens := tokenizer_encode t text in let n := Z.of_nat (length tokens) in
  (L < n -> load_samples_from_text text t L
            = Ok (map (window_sample tokens L) (seq 0 (Z.to_nat ((n - 1) / L))))) /\
  (n <= L -> load_samples_from_text text t L = Raise (_schema "CORPUS_TOO_SHORT")).
Proof.
  intros HL tokens n. unfold load_samples_from_text. fold tokens n.
  rewrite (proj2 (Z.eqb_neq L 0)), (proj2 (Z.ltb_ge L 0)) by lia. cbn [negb require rbind].
  replace (n - (L + 1) + 1) with (n - L) by lia.
  rewrite samples_of_starts; [|done|].
  2:{ intros k x (-> & H)%range_step_lookup; [|done]. exists k. split; [done|]. subst n. lia. }
  assert (E : map (fun x => window_sample tokens L (Z.to_nat (x / L))) (range_step (n - L) L)
              = map (window_sample tokens L) (seq 0 (Z.to_nat ((n - 1) / L)))).
  { unfold range_step, py_range. rewrite map_map. replace (n - L + L - 1) with (n - 1) by lia.
    unfold seqZ. change (?f <$> ?l) with (map f l). rewrite map_map. apply map_ext. intros k.
    by rewrite Z.mul_comm, Z.div_mul, Z.add_0_r, Nat2Z.id by lia. }
  rewrite E. split; intros H.
  - assert (P : 0 < (n - 1) / L) by (apply Z.div_str_pos; lia).
    destruct (Z.to_nat ((n - 1) / L)) eqn:Q; [lia|done].
  - replace (Z.to_nat ((n - 1) / L)) with 0%nat; [done|].
    destruct (Z.eq_dec n 0) as [->|]; [|rewrite Z.div_small by lia; done].
    assert ((0 - 1) / L < 0) by (apply Z.div_lt_upper_bound; lia). lia.
Qed.

(** a corpus is cut into [(n - 1) / L] windows of [L] inputs, each the [L]
    tokens after the previous one, with the next token of each as its target:
    inputs put together are the first tokens of the corpus without gap or
    repetition, targets the same tokens shifted by one; all are ids of the
    vocabulary.  The cut fails exactly when the length is zero (a [ValueError])
    or when there are not [L + 1] tokens. *)
Theorem training_windows (v : odict Z) (pad unknown : json) (t : Tokenizer) (text : string) (L : Z)
    (B : new_tokenizer v pad unknown = Ok t) :
  let tokens := tokenizer_encode t text in
  let n := Z.of_nat (length tokens) in
  Forall (fun i => 0 <= i < Z.of_nat (length v)) tokens /\
  (forall samples, load_samples_from_text text t L = Ok samples ->
     0 < L /\ Z.of_nat (length samples) = (n - 1) / L /\
     Forall (fun s => Z.of_nat (length (inputs s)) = L /\ Z.of_nat (length (targets s)) = L) samples /\
     concat (map inputs samples) = take (length samples * Z.to_nat L) tokens /\
     concat (map targets samples) = take (length samples * Z.to_nat L) (drop 1 tokens)) /\
  (forall e, load_samples_from_text text t L = Raise e <->
     (L = 0 /\ e = WValueError) \/ (L <> 0 /\ (L < 0 \/ n <= L) /\ e = _schema "CORPUS_TOO_SHORT")).
Proof.
  apply new_tokenizer_Ok in B as (<- & _ & _ & K). intros tokens n.
  split; [by apply encode_bound|]. destruct (Z_lt_le_dec 0 L) as [HL|HL].
  - pose proof (load_positive text t L HL) as E. fold tokens n in E.
    destruct (Z_lt_le_dec L n) as [N|N].
    + destruct E as [E _]. specialize (E N). rewrite E. split; [|intros e; split; [done|naive_solver lia]].
      intros samples [= <-]. rewrite !length_map, length_seq.
      assert (P : 0 <= (n - 1) / L) by (apply Z.div_pos; lia).
      split; [done|]. split; [by rewrite Z2Nat.id|]. split; [|split; [by apply (concat_windows tokens L _ inputs 0)|by apply (concat_windows tokens L _ targets 1)]].
      apply Forall_forall. intros s (k & <- & Hk%in_seq)%list_elem_of_In%in_map_iff. cbn.
      pose proof (Z.mul_div_le (n - 1) L HL).
      rewrite !length_take, !length_drop. assert (n = Z.of_nat (length tokens)) as En by done. clearbody n. rewrite <- ?En in *.
      assert (Z.of_nat k < (n - 1) / L) as Hk' by lia. clear -HL H Hk' En. split; nia.
    + rewrite (proj2 E N). split; [done|]. intros e. split; [intros [= <-]; right; auto with lia|].
      intros [[-> _]|(_ & _ & ->)]; [lia|done].
  - unfold load_samples_from_text. fold tokens. destruct (Z.eqb_spec L 0) as [->|N]; cbn [negb require rbind].
    + split; [done|]. intros e. split; [intros [= <-]; by left|]. by intros [[_ ->]|[[] _]].
    + rewrite (proj2 (Z.ltb_lt L 0)) by lia. cbn. split; [done|]. intros e.
      split; [intros [= <-]; right; auto with lia|]. by intros [[-> _]|(_ & _ & ->)].
Qed.

(** Seven tokens of a three-word vocabulary in windows of two *)
Lemma training_windows_witness :
  exists t samples, new_tokenizer [("<pad>", 0); ("a", 1); ("b", 2)] (JStr "<pad>") (JStr "a") = Ok t /\
    tokenizer_encode t "a b  b zz b a b" = [1; 2; 2; 1; 2; 1; 2] /\
    load_samples_from_text "a b  b zz b a b" t 2 = Ok samples /\
    concat (map inputs samples) = [1; 2; 2; 1; 2; 1].
Proof.
  eexists _, _. split; [vm_compute; reflexivity|]. split; [vm_compute; reflexivity|].
  split; [vm_compute; reflexivity|].
  assert (B : new_tokenizer [("<pad>", 0); ("a", 1); ("b", 2)] (JStr "<pad>") (JStr "a")
              = Ok (mkTokenizer [("<pad>", 0); ("a", 1); ("b", 2)] "<pad>" "a")) by (vm_compute; reflexivity).
  etransitivity; [refine (proj1 (proj2 (proj2 (proj2 (proj1 (proj2
    (training_windows _ _ _ _ "a b  b zz b a b" 2 B)) _ _)))))|]; vm_compute; reflexivity.
Defined.

(** ** One epoch is one permutation *)

Definition sampler_ok (s : DeterministicSampler) : Prop := 0 < sample_count s /\ 0 <= seed s /\ 0 <= cursor s.

Lemma new_sampler_Ok n d c s :
  new_sampler n d c = Ok s <-> s = mkSampler n d c /\ sampler_ok s.
Proof.
  unfold new_sampler, sampler_ok. rewrite rbind_unit_Ok, require_Ok, negb_true_iff, !orb_false_iff, Z.leb_gt, !Z.ltb_ge.
  split; [intros ([[? ?] ?] & [= <-])|intros (-> & ? & ? & ?)]; cbn in *; auto.
Qed.

Lemma epoch_order_perm s e : epoch_order s e ≡ₚ py_range (sample_count s).
Proof. apply sorted_by_perm. Qed.

Lemma epoch_order_length s e : length (epoch_order s e) = Z.to_nat (sample_count s).
Proof. by rewrite epoch_order_perm, py_range_length. Qed.

(** The draws at the cursors [a .. a + n - 1] *)
Definition draws (s : DeterministicSampler) (a n : Z) : list Z := map (fun o => _index_at s (a + o)) (py_range n).

Lemma take_draws n s : 0 < n ->
  sampler_take n s = (mkSampler (sample_count s) (seed s) (cursor s + n), Ok (draws s (cursor s) n)).
Proof. intros H. unfold sampler_take. by rewrite (proj2 (Z.leb_gt n 0)). Qed.

(** The draws depend on the seed, the count and the cursor only. *)
Lemma draws_same s s' a n :
  sample_count s = sample_count s' -> seed s = seed s' -> draws s a n = draws s' a n.
Proof. intros E D. unfold draws, _index_at, epoch_order. by rewrite E, D. Qed.

Lemma draws_app s a m n : 0 <= m -> 0 <= n -> draws s a (m + n) = (draws s a m ++ draws s (a + m) n)%list.
Proof.
  intros Hm Hn. unfold draws, py_range. rewrite seqZ_app, map_app by done. f_equal.
  rewrite Z.add_0_l. rewrite <- (Z.add_0_r m) at 1. rewrite <- fmap_add_seqZ.
  change (map ?f ?l) with (f <$> l). rewrite <- list_fmap_compose. apply list_fmap_ext.
  intros i x _. cbn. f_equal. lia.
Qed.

(** The draws of a whole epoch are its order. *)
Lemma draws_epoch s e : 0 < sample_count s -> draws s (e * sample_count s) (sample_count s) = epoch_order s e.
Proof.
  intros H. unfold draws. apply list_eq_same_length with (length (epoch_order s e)); [done| |].
  - by rewrite length_map, py_range_length, epoch_order_length.
  - rewrite epoch_order_length. intros i x y Hi Hx Hy.
    change (map ?f ?l) with (f <$> l) in Hx. apply list_lookup_fmap_Some in Hx as (o & -> & Ho).
    apply lookup_seqZ in Ho as [-> Ho]. unfold _index_at.
    rewrite Z.add_0_l, Z.div_add_l, Z.div_small, Z.add_0_r by lia.
    rewrite Z.add_comm, Z.mod_add, Z.mod_small, Nat2Z.id by lia.
    by apply nth_lookup_Some.
Qed.

(** ** Every draw is an index *)

Lemma index_at_bound s c : 0 < sample_count s -> 0 <= _index_at s c < sample_count s.
Proof.
  intros H. unfold _index_at.
  pose proof (Z.mod_pos_bound c (sample_count s) H) as B.
  destruct (nth_lookup_or_length (epoch_order s (c / sample_count s)) (Z.to_nat (c mod sample_count s)) 0) as [E|E].
  - apply list_elem_of_lookup_2 in E. revert E. generalize (nth (Z.to_nat (c mod sample_count s)) (epoch_order s (c / sample_count s)) 0).
    intros x. rewrite epoch_order_perm. unfold py_range. rewrite elem_of_seqZ. lia.
  - rewrite epoch_order_length in E. lia.
Qed.

(** [n] whole epochs from the start of epoch [e] *)
Lemma draws_epochs s e n :
  0 < sample_count s -> 0 <= e ->
  draws s (e * sample_count s) (Z.of_nat n * sample_count s)
  ≡ₚ concat (replicate n (py_range (sample_count s))).
Proof.
  intros H. revert e. induction n as [|n IH]; intros e He; [done|].
  replace (Z.of_nat (S n) * sample_count s) with (sample_count s + Z.of_nat n * sample_count s) by lia.
  rewrite draws_app by lia. cbn [replicate concat]. f_equiv.
  - by rewrite draws_epoch, epoch_order_perm.
  - replace (e * sample_count s + sample_count s) with ((e + 1) * sample_count s) by lia. apply IH. lia.
Qed.

(** a valid sampler never fails on a positive batch; its draws are valid
    indices; two batches one after the other draw what one batch of their size
    draws; and over any number of whole epochs every sample is drawn exactly
    once per epoch. *)
Theorem sampler_epochs (n d c : Z) (s : DeterministicSampler) (B : new_sampler n d c = Ok s) :
  (forall k, 0 < k -> exists l, sampler_take k s = (mkSampler n d (c + k), Ok l) /\
     Z.of_nat (length l) = k /\ Forall (fun i => 0 <= i < n) l) /\
  (forall j k s1 s2 l m, sampler_take j s = (s1, Ok l) -> sampler_take k s1 = (s2, Ok m) ->
     sampler_take (j + k) s = (s2, Ok (l ++ m)%list)) /\
  (forall e k s' l, cursor s = e * n -> sampler_take (Z.of_nat k * n) s = (s', Ok l) ->
     l ≡ₚ concat (replicate k (py_range n))).
Proof.
  apply new_sampler_Ok in B as (-> & Hn & Hd & Hc). cbn [sample_count seed cursor] in *.
  split; [|split].
  - intros k Hk. rewrite take_draws by done. cbn. eexists. split; [done|]. split.
    + unfold draws. rewrite length_map, py_range_length. lia.
    + apply Forall_forall. intros i (o & <- & _)%list_elem_of_In%in_map_iff.
      by apply (index_at_bound (mkSampler n d c)).
  - intros j k s1 s2 l m. assert (Q : forall k s r, sampler_take k s = (r, Ok l) \/ sampler_take k s = (r, Ok m) -> 0 < k).
    { intros k0 s0 r0. unfold sampler_take. destruct (Z.leb_spec k0 0); [naive_solver|lia]. }
    intros H1 H2. pose proof (Q _ _ _ (or_introl H1)) as Hj. pose proof (Q _ _ _ (or_intror H2)) as Hk.
    rewrite take_draws in H1 by done. injection H1 as <- <-. rewrite take_draws in H2 by done.
    injection H2 as <- <-. rewrite take_draws by lia. cbn. rewrite Z.add_assoc. do 3 f_equal.
    by rewrite draws_app by lia.
  - intros e k s' l E T. destruct (Z.leb_spec (Z.of_nat k * n) 0) as [L|L].
    + unfold sampler_take in T. by rewrite (proj2 (Z.leb_le _ _)) in T.
    + rewrite take_draws in T by done. injection T as _ <-. cbn. rewrite E.
      apply (draws_epochs (mkSampler n d c)); cbn; [done|]. nia.
Qed.

(** Two epochs of three samples *)
Lemma sampler_epochs_witness :
  exists s s' l, new_sampler 3 7 0 = Ok s /\ sampler_take 6 s = (s', Ok l) /\
    l ≡ₚ concat (replicate 2 (py_range 3)).
Proof.
  eexists _, _, _. split; [reflexivity|]. split; [reflexivity|].
  exact (proj2 (proj2 (sampler_epochs 3 7 0 _ eq_refl)) 0 2%nat _ _ eq_refl eq_refl).
Defined.

(** The tokens of a sample are tokens of its corpus. *)
Lemma samples_bound text t L samples :
  tokenizer_ok t -> load_samples_from_text text t L = Ok samples ->
  samples <> [] /\
  Forall (fun s => Forall (fun n => 0 <= n < Z.of_nat (length (vocabulary t))) (inputs s ++ targets s)%list) samples.
Proof.
  intros K H. split; [unfold load_samples_from_text in H; apply rbind_unit_Ok in H as (_ & H);
    apply rbind_unit_Ok in H as (N & E); injection E as E; rewrite E in N; apply require_Ok in N; by destruct samples|].
  pose proof (encode_bound t text K) as B. destruct (Z_lt_le_dec 0 L) as [HL|HL].
  - destruct (load_positive text t L HL) as [E1 E2].
    destruct (Z_lt_le_dec L (Z.of_nat (length (tokenizer_encode t text)))) as [N|N];
      [|by rewrite E2 in H]. rewrite E1 in H by done. injection H as <-.
    apply Forall_forall. intros s (k & <- & _)%list_elem_of_In%in_map_iff. cbn.
    apply Forall_app. split; apply Forall_take, Forall_drop, B.
  - assert (E : exists e, load_samples_from_text text t L = Raise e); [|destruct E; congruence].
    unfold load_samples_from_text. destruct (Z.eqb_spec L 0) as [->|N]; cbn [negb require rbind]; [by eexists|].
    rewrite (proj2 (Z.ltb_lt L 0)) by lia. by eexists.
Qed.
