(* ===== verification/ArtifactStore.v ===== *)
(** * The artifact store ([deltatorrent/artifacts/filesystem.py])

    Files under one root, each linked once at its locator, with the temporary
    files that interrupted publications leave and the cleanup that removes them.
    The root holds the files the store writes, no symbolic links; directories,
    and a temporary file while its own publication runs, are not modelled; an
    access the file system refuses is one that fails. *)

From S2P Require Import Prelude PyFloat Json JsonText Text Sha256 WorkerErrors WorkerCanonical ArtifactRef Sampler.
From S2P Require FixedPointProps.
From stdpp Require Import relations.
Open Scope string_scope.
Open Scope Z_scope.
Open Scope py_scope.

(** The bytes at each locator *)
Definition FilesystemArtifactStore : Type := gmap string string.

(** What an access meets: success, a failure with no effect, or a failure after
    the link exists *)
Inductive store_io := StoreOk | StoreFails | StoreUnsynced.

Definition _resolve_locator (locator : string) : wresult string :=
  match _require_locator locator with
  | Ok _ => Ok locator
  | Raise _ => Raise (DeltaError INVALID_ARTIFACT_LOCATOR "artifact locator must remain inside the store")
  end.

(** [len(value)] of bytes *)
Definition byte_count (value : string) : Z := Z.of_nat (String.length value).

(** The locator [.] passes the check and is the root directory itself. *)
Definition is_root (path : string) : bool := String.eqb path ".".

Definition store_read (io : store_io) (r : ArtifactRef) (s : FilesystemArtifactStore) : wresult string :=
  let? path := _resolve_locator (locator r) in
  match io with
  | StoreOk =>
      if is_root path then Raise WOSError else
      match s !! path with
      | None => Raise (DeltaError ARTIFACT_NOT_FOUND "referenced artifact does not exist")
      | Some value =>
          require (negb (negb (byte_count value =? byte_length r)
                         || negb (String.eqb (sha256_content_id value) (content_id r))))
            (DeltaError ARTIFACT_HASH_MISMATCH "artifact bytes do not match the immutable reference") ;?
          Ok value
      end
  | _ => Raise WOSError
  end.

Definition store_verify (io : store_io) (r : ArtifactRef) (s : FilesystemArtifactStore) : wresult unit :=
  let? _ := store_read io r s in Ok tt.

(** The link: the file is there afterwards, or the call raises *)
Definition link_artifact (io : store_io) (path value : string) (s : FilesystemArtifactStore) :
    FilesystemArtifactStore * wresult unit :=
  match io with
  | StoreFails => (s, Raise WOSError)
  | _ =>
      if is_root path then (s, Raise WOSError) else
      let synced := match io with StoreUnsynced => Raise WOSError | _ => Ok tt end in
      match s !! path with
      | Some existing =>
          if String.eqb existing value then (s, synced)
          else (s, Raise (DeltaError ARTIFACT_IMMUTABLE_CONFLICT
                            "immutable artifact locator already contains different bytes"))
      | None => (<[path := value]> s, synced)
      end
  end.

Definition _publish_at (io io2 : store_io) (locator value media_type schema_id schema_version : string)
    (s : FilesystemArtifactStore) : FilesystemArtifactStore * wresult ArtifactRef :=
  match _resolve_locator locator with
  | Raise e => (s, Raise e)
  | Ok path =>
      let '(s', linked) := link_artifact io path value s in
      (s',
       let? _ := linked in
       let? reference := new_ref (JStr (sha256_content_id value)) (JStr media_type) (JStr schema_id)
                           (JStr schema_version) (JInt (byte_count value)) (JStr locator) in
       let? _ := store_verify io2 reference s' in
       Ok reference)
  end.

(** [objects/sha256/ab/abcd…] *)
Definition object_locator (value : string) : string :=
  let digest := sha256_hex value in
  "objects/sha256/" +:+ str_take 2 digest +:+ "/" +:+ digest.

Definition publish_bytes (io io2 : store_io) (value media_type schema_id schema_version : string)
    (s : FilesystemArtifactStore) : FilesystemArtifactStore * wresult ArtifactRef :=
  _publish_at io io2 (object_locator value) value media_type schema_id schema_version s.

Definition publish_json (io io2 : store_io) (value : json) (media_type schema_id schema_version : string)
    (s : FilesystemArtifactStore) : FilesystemArtifactStore * wresult ArtifactRef :=
  match canonical_json_bytes value with
  | Raise e => (s, Raise e)
  | Ok bytes => publish_bytes io io2 bytes media_type schema_id schema_version s
  end.

Definition publish_named (io io2 : store_io) (locator value media_type schema_id schema_version : string)
    (s : FilesystemArtifactStore) : FilesystemArtifactStore * wresult ArtifactRef :=
  _publish_at io io2 locator value media_type schema_id schema_version s.

(** ** Temporary files *)

(** [s.endswith(p)] *)
Definition ends_with (p s : string) : bool := String.eqb (str_drop (String.length s - String.length p) s) p.

(** The name of the file matches [.*.tmp]. *)
Definition is_temporary (path : string) : bool :=
  let name := List.last (path_parts path) EmptyString in
  starts_with "." name && ends_with ".tmp" name && (5 <=? String.length name)%nat.

(** Paths compare by their segments. *)
Fixpoint parts_leb (a b : list string) : bool :=
  match a, b with
  | [], _ => true
  | _ :: _, [] => false
  | x :: a, y :: b => if String.eqb x y then parts_leb a b else String.leb x y
  end.

(** [sorted(self.root.rglob(".*.tmp"))] *)
Definition temporary_files (s : FilesystemArtifactStore) : list string :=
  sorted_by parts_leb path_parts (List.filter is_temporary (map_to_list s).*1).

(** A path another process has removed in the meantime is no file any more. *)
Fixpoint unlink_all (io : string -> store_io) (paths removed : list string) (s : FilesystemArtifactStore) :
    FilesystemArtifactStore * wresult (list string) :=
  match paths with
  | [] => (s, Ok removed)
  | path :: paths =>
      match s !! path with
      | None => unlink_all io paths removed s
      | Some _ =>
          match io path with
          | StoreOk => unlink_all io paths (removed ++ [path])%list (delete path s)
          | _ => (s, Raise WOSError)
          end
      end
  end.

Definition cleanup_temporary_files (io : string -> store_io) (s : FilesystemArtifactStore) :
    FilesystemArtifactStore * wresult (list string) :=
  unlink_all io (temporary_files s) [] s.

(** ** Runs: publications, interrupted or not, and cleanups by any process *)

Inductive store_step : FilesystemArtifactStore -> FilesystemArtifactStore -> Prop :=
| step_publish io io2 l v m i ver s s' r :
    publish_named io io2 l v m i ver s = (s', r) -> store_step s s'
| step_publish_bytes io io2 v m i ver s s' r :
    publish_bytes io io2 v m i ver s = (s', r) -> store_step s s'
| step_publish_json io io2 j m i ver s s' r :
    publish_json io io2 j m i ver s = (s', r) -> store_step s s'
| step_interrupted path written s :
    (* a publication dies before it unlinks its new temporary file *)
    is_temporary path = true -> s !! path = None -> store_step s (<[path := written]> s)
| step_cleanup io s s' r :
    cleanup_temporary_files io s = (s', r) -> store_step s s'.

Lemma link_artifact_spec io path value s s' r :
  link_artifact io path value s = (s', r) ->
  s ⊆ s' /\ (r = Ok tt -> is_root path = false /\ s' !! path = Some value) /\
  (forall old, s !! path = Some old -> old <> value -> s' = s /\ (r = Raise WOSError \/
     r = Raise (DeltaError ARTIFACT_IMMUTABLE_CONFLICT
                  "immutable artifact locator already contains different bytes"))).
Proof.
  unfold link_artifact.
  assert (I : s !! path = None -> s ⊆ <[path := value]> s) by (intros; by apply insert_subseteq).
  assert (F : s ⊆ s /\ (Raise WOSError = Ok tt -> is_root path = false /\ s !! path = Some value) /\
    (forall old, s !! path = Some old -> old <> value -> s = s /\ (@Raise worker_exn unit WOSError = Raise WOSError \/
     Raise WOSError = @Raise worker_exn unit (DeltaError ARTIFACT_IMMUTABLE_CONFLICT
                  "immutable artifact locator already contains different bytes")))) by (repeat split; auto; done).
  destruct io; [|by intros [= <- <-]|]; (destruct (is_root path) eqn:W; [by intros [= <- <-]|]);
    (destruct (s !! path) as [x|] eqn:E; [destruct (String.eqb_spec x value) as [->|]|]);
    intros [= <- <-]; (split; [first [done|by apply I]|split]); intros; simplify_map_eq; rewrite ?lookup_insert_eq; try (split; [reflexivity|]); try apply lookup_insert_eq; auto 6.
Qed.

Lemma publish_at_grows io io2 l v m i ver s s' r :
  _publish_at io io2 l v m i ver s = (s', r) -> s ⊆ s'.
Proof.
  unfold _publish_at. destruct (_resolve_locator l) as [path|]; [|by intros [= <- _]].
  destruct (link_artifact io path v s) as [s1 linked] eqn:L. intros [= <- _].
  by apply link_artifact_spec in L as [? _].
Qed.

Lemma store_delete_ne (s : FilesystemArtifactStore) path p : p <> path -> delete path s !! p = s !! p.
Proof. intros N. by apply lookup_delete_ne. Qed.
Lemma store_delete_eq (s : FilesystemArtifactStore) path : delete path s !! path = None.
Proof. apply lookup_delete_eq. Qed.

(** A cleanup removes temporary files alone. *)
Lemma unlink_all_spec io paths removed s s' r :
  NoDup paths -> unlink_all io paths removed s = (s', r) ->
  s' ⊆ s /\ (forall p, p ∉ paths -> s' !! p = s !! p) /\
  (forall l, r = Ok l -> (Forall (fun p => is_Some (s !! p)) paths -> l = (removed ++ paths)%list) /\ forall p, p ∈ paths -> s' !! p = None).
Proof.
  intros N. revert removed s. induction N as [|path paths Np N IH]; intros removed s; cbn [unlink_all].
  { intros [= <- <-]. split; [done|]. split; [done|]. intros l [= <-]. split; [by rewrite app_nil_r|by intros p ?%elem_of_nil]. }
  destruct (s !! path) as [w|] eqn:G.
  - destruct (io path).
    + intros U. apply IH in U as (S & K & R). split; [etransitivity; [exact S|apply delete_subseteq]|]. split.
      * intros p [Ne Ni]%not_elem_of_cons. by rewrite K, store_delete_ne.
      * intros l [R1 R2]%R. split.
        -- intros [_ F]%Forall_cons. rewrite R1, <- app_assoc; [done|]. apply Forall_forall. intros p Ip.
           rewrite Forall_forall in F. rewrite store_delete_ne by (intros ->; done). by apply F.
        -- intros p [->|Ip]%elem_of_cons; [by rewrite K, store_delete_eq|by apply R2].
    + intros [= <- <-]. split; [done|]. by split.
    + intros [= <- <-]. split; [done|]. by split.
  - intros U. apply IH in U as (S & K & R). split; [done|]. split.
    + intros p [Ne Ni]%not_elem_of_cons. by apply K.
    + intros l [R1 R2]%R. split; [intros [[? ?] _]%Forall_cons; congruence|].
      intros p [->|Ip]%elem_of_cons; [by rewrite K|by apply R2].
Qed.

Lemma elem_temporary p s : p ∈ temporary_files s <-> is_temporary p = true /\ is_Some (s !! p).
Proof.
  unfold temporary_files. rewrite (sorted_by_perm parts_leb path_parts), list_elem_of_In, filter_In, <- list_elem_of_In, list_elem_of_fmap.
  split.
  - intros [([k v] & -> & E%elem_of_map_to_list) T]. split; [done|]. by exists v.
  - intros [T [v E]]. split; [|done]. exists (p, v). split; [done|]. by apply elem_of_map_to_list.
Qed.

Lemma temporary_NoDup s : NoDup (temporary_files s).
Proof.
  unfold temporary_files. rewrite (sorted_by_perm parts_leb path_parts). apply NoDup_ListNoDup, List.NoDup_filter, NoDup_ListNoDup, NoDup_fst_map_to_list.
Qed.

Lemma cleanup_spec io s s' r :
  cleanup_temporary_files io s = (s', r) ->
  s' ⊆ s /\ (forall p, is_temporary p = false -> s' !! p = s !! p) /\
  (forall l, r = Ok l -> l = temporary_files s /\ forall p, is_temporary p = true -> s' !! p = None).
Proof.
  intros C. apply unlink_all_spec in C as (S & K & R); [|apply temporary_NoDup]. split; [exact S|]. split.
  - intros p T. apply K. rewrite elem_temporary, T. by intros [].
  - intros l [R1 R2]%R. split.
    + apply R1, Forall_forall. intros p [_ I]%elem_temporary. exact I.
    + intros p T. destruct (s !! p) as [w|] eqn:G; [apply R2, elem_temporary; by eauto|].
      destruct (s' !! p) as [s0|] eqn:G'; [|done]. assert (G2 : s !! p = Some s0) by exact (lookup_weaken _ _ _ _ G' S). congruence.
Qed.

(** A step keeps every stored file but temporary ones. *)
Lemma store_step_keeps s s' p w : store_step s s' -> is_temporary p = false -> s !! p = Some w -> s' !! p = Some w.
Proof.
  intros St T G. destruct St as [? ? ? ? ? ? ? ? ? ? P|? ? ? ? ? ? ? ? ? P|? ? ? ? ? ? ? ? ? P|path ? ? Tp _|? ? ? ? C].
  - apply publish_at_grows in P. by eapply lookup_weaken.
  - apply publish_at_grows in P. by eapply lookup_weaken.
  - unfold publish_json in P. destruct (canonical_json_bytes j); [apply publish_at_grows in P; by eapply lookup_weaken|by simplify_eq].
  - etransitivity; [apply lookup_insert_ne; intros ->; congruence|exact G].
  - apply cleanup_spec in C as (_ & K & _). by rewrite K.
Qed.

Lemma store_steps_keep s s' p w : rtc store_step s s' -> is_temporary p = false -> s !! p = Some w -> s' !! p = Some w.
Proof. intros R T. induction R as [|s s1 s2 St _ IH]; [done|]. intros G. apply IH. by eapply store_step_keeps. Qed.

Lemma resolve_Ok l path : _resolve_locator l = Ok path <-> path = l /\ _require_locator l = Ok tt.
Proof.
  unfold _resolve_locator. destruct (_require_locator l) as [[]|]; split; try done.
  - by intros [= <-].
  - by intros [-> _].
  - by intros [].
Qed.

Lemma publish_at_Ok io io2 l v m i ver s s' r :
  _publish_at io io2 l v m i ver s = (s', Ok r) ->
  ref_ok r /\ locator r = l /\ content_id r = sha256_content_id v /\ byte_length r = byte_count v /\
  is_root l = false /\ s' !! l = Some v.
Proof.
  unfold _publish_at. destruct (_resolve_locator l) as [path|] eqn:R; [|done].
  apply resolve_Ok in R as [-> _].
  destruct (link_artifact io l v s) as [s1 linked] eqn:L. intros [= <- H].
  apply rbind_Ok in H as ([] & -> & H). apply rbind_Ok in H as (x & N & H).
  apply rbind_Ok in H as (_ & _ & H). injection H as ->.
  apply new_ref_Ok in N as (K & E1 & _ & _ & _ & E2 & E3).
  apply link_artifact_spec in L as (_ & L & _). injection E1 as E1. injection E2 as E2. injection E3 as E3.
  rewrite <- E3, <- E1, <- E2. exact (conj K (conj eq_refl (conj eq_refl (conj eq_refl (L eq_refl))))).
Qed.

(** Reading a reference back needs the bytes it names. *)
Lemma store_read_Ok r s v :
  ref_ok r -> store_read StoreOk r s = Ok v <->
  is_root (locator r) = false /\ s !! locator r = Some v /\ byte_count v = byte_length r /\ sha256_content_id v = content_id r.
Proof.
  intros K. unfold store_read. unfold _resolve_locator. rewrite (ok_locator r K). cbn [rbind].
  destruct (is_root (locator r)); [split; [done|by intros []]|].
  destruct (s !! locator r) as [x|]; [|split; [done|by intros (_ & ? & _)]].
  rewrite rbind_unit_Ok, require_Ok, negb_true_iff, orb_false_iff, !negb_false_iff, Z.eqb_eq, String.eqb_eq.
  naive_solver.
Qed.

(** C23: after any publications, interrupted or not, and any cleanups, a
    reference returned by a publication still reads as exactly the bytes
    published, unless its file name is that of a temporary file; whatever a
    reference reads as has its length and its content id, so it is the published
    bytes or a SHA-256 collision with them; nothing stored under another name is
    ever replaced or removed, publishing other bytes at a used locator raises and
    changes nothing, and a cleanup that returns has removed the files it lists:
    the temporary ones, in order, and no other. *)
Theorem artifact_store_immutable (io io2 : store_io) (l v m i ver : string)
    (s s1 s2 : FilesystemArtifactStore) (r : ArtifactRef) (T : is_temporary l = false)
    (P : publish_named io io2 l v m i ver s = (s1, Ok r)) (R : rtc store_step s1 s2) :
  store_read StoreOk r s2 = Ok v /\ s ⊆ s1 /\
  (forall p w, is_temporary p = false -> s1 !! p = Some w -> s2 !! p = Some w) /\
  (forall s3 w, store_read StoreOk r s3 = Ok w -> w = v \/ (w <> v /\ sha256_hex w = sha256_hex v)) /\
  (forall io3 io4 w m' i' ver', w <> v ->
     exists e, publish_named io3 io4 l w m' i' ver' s2 = (s2, Raise e) /\
       (e = WOSError \/ e = DeltaError ARTIFACT_IMMUTABLE_CONFLICT
                              "immutable artifact locator already contains different bytes")) /\
  (forall io3 s3 removed, cleanup_temporary_files io3 s2 = (s3, Ok removed) ->
     removed = temporary_files s2 /\ forall p, s3 !! p = if is_temporary p then None else s2 !! p).
Proof.
  unfold publish_named in *. pose proof (publish_at_grows _ _ _ _ _ _ _ _ _ _ P) as G.
  apply publish_at_Ok in P as (K & <- & C & B & D & E).
  pose proof (store_steps_keep _ _ _ _ R T E) as E2.
  split; [by apply store_read_Ok|]. split; [done|]. split; [intros p w; by apply store_steps_keep|]. split; [|split].
  - intros s3 w (_ & _ & _ & W)%store_read_Ok; [|done]. rewrite C in W. unfold sha256_content_id in W.
    apply (inj (String.append "sha256:")) in W. destruct (decide (w = v)); auto.
  - intros io3 io4 w m' i' ver' N. unfold _publish_at, _resolve_locator. rewrite (ok_locator r K).
    destruct (link_artifact io3 (locator r) w s2) as [s4 linked] eqn:L.
    apply link_artifact_spec in L as (_ & _ & L). destruct (L v E2) as [-> [->| ->]]; [done|..];
      eexists; (split; [reflexivity|auto]).
  - intros io3 s3 removed (_ & Kp & Rm)%cleanup_spec. destruct (Rm _ eq_refl) as [-> Rt]. split; [done|].
    intros p. destruct (is_temporary p) eqn:Tp; [by apply Rt|by apply Kp].
Qed.

(** A temporary file left behind, then the cleanup: the artifact stays. *)
Definition left_behind (s : FilesystemArtifactStore) : FilesystemArtifactStore :=
  <["local-round/t/.completion.json.x1.tmp" := "{"]> s.

Lemma artifact_store_immutable_witness :
  exists s1 r, publish_named StoreOk StoreOk "local-round/t/completion.json" "{}" "application/json"
                 "SCHEMA-A-V1" "1.0.0" ∅ = (s1, Ok r) /\
    let s2 := (cleanup_temporary_files (fun _ => StoreOk) (left_behind s1)).1 in
    (cleanup_temporary_files (fun _ => StoreOk) (left_behind s1)).2 = Ok ["local-round/t/.completion.json.x1.tmp"] /\
    store_read StoreOk r s2 = Ok "{}".
Proof.
  destruct (publish_named StoreOk StoreOk "local-round/t/completion.json" "{}" "application/json"
                 "SCHEMA-A-V1" "1.0.0" ∅) as [s1 [r|e]] eqn:P.
  - exists s1, r. split; [reflexivity|].
    assert (S1 : s1 = {["local-round/t/completion.json" := "{}"]}).
    { transitivity (publish_named StoreOk StoreOk "local-round/t/completion.json" "{}" "application/json" "SCHEMA-A-V1" "1.0.0" ∅).1;
      [by rewrite P|vm_compute; reflexivity]. }
    intros s2. split; [rewrite S1; vm_compute; reflexivity|].
    refine (proj1 (artifact_store_immutable StoreOk StoreOk "local-round/t/completion.json" "{}" "application/json" "SCHEMA-A-V1"
      "1.0.0" ∅ s1 s2 r eq_refl P _)).
    apply (rtc_l _ _ (left_behind s1)).
    + apply step_interrupted; [reflexivity|rewrite S1; vm_compute; reflexivity].
    + apply rtc_once, (step_cleanup (fun _ => StoreOk) _ _ _ (surjective_pairing _)).
  - exfalso. assert (E : match (publish_named StoreOk StoreOk "local-round/t/completion.json" "{}"
       "application/json" "SCHEMA-A-V1" "1.0.0" ∅).2 with Ok _ => true | _ => false end = true)
      by (vm_compute; reflexivity). rewrite P in E. discriminate.
Defined.

(** Locators of temporary names are accepted: what is published there lasts
    until the next cleanup only. *)
Example temporary_locator_lost :
  match publish_named StoreOk StoreOk "a/.x.tmp" "{}" "application/json" "SCHEMA-A-V1" "1.0.0" ∅ with
  | (s, Ok r) => (store_read StoreOk r s, store_read StoreOk r (cleanup_temporary_files (fun _ => StoreOk) s).1)
  | (_, Raise e) => (Raise e, Raise e)
  end = (Ok "{}", Raise (DeltaError ARTIFACT_NOT_FOUND "referenced artifact does not exist")).
Proof. vm_compute. reflexivity. Qed.

(** The locators of [publish_bytes] and [publish_json] are never such names. *)
Lemma object_locator_kept v : is_temporary (object_locator v) = false.
Proof.
  pose proof (FixedPointProps.sha256_hex_lower v) as L. unfold is_temporary, object_locator, path_parts. revert L.
  generalize (sha256_hex v). intros d [N A]%andb_true_iff.
  assert (Sl : forall h, str_all is_lower_hex h = true -> no_slash h = true).
  { induction h as [|c h IH]; [done|]. cbn [str_all]. intros [C H]%andb_true_iff. unfold no_slash in *. cbn [str_all].
    rewrite IH by done. destruct (ch_eq c "/"%char) eqn:E; [|done]. apply Ascii.eqb_eq in E as ->. discriminate C. }
  change ("objects/sha256/" +:+ str_take 2 d +:+ "/" +:+ d) with (JsonText.join "/" ["objects"; "sha256"; str_take 2 d; d]).
  rewrite split_slash_join; [|done|repeat (apply Forall_cons; split; [first [reflexivity|apply Sl; first [exact A|by apply str_all_take]]|]); by apply Forall_nil].
  apply Nat.eqb_eq in N. destruct d as [|c d]; [discriminate N|].
  assert (K : str_in (String c d) [EmptyString; "."] = false).
  { apply not_true_iff_false. intros [E|[E|E%elem_of_nil]%elem_of_cons]%str_in_elem%elem_of_cons; [done|injection E as -> ->; discriminate A|done]. }
  cbn [List.filter]. rewrite K. cbn [negb].
  assert (C : forall p, starts_with "." (String c d) = false -> starts_with "." (List.last (p ++ [String c d])%list EmptyString) && ends_with ".tmp" (List.last (p ++ [String c d])%list EmptyString) && (5 <=? String.length (List.last (p ++ [String c d])%list EmptyString))%nat = false).
  { intros p St. rewrite List.last_last, St. reflexivity. }
  assert (St : starts_with "." (String c d) = false).
  { cbn [str_all] in A. apply andb_true_iff in A as [A _]. unfold starts_with. cbn [JsonText.strip_prefix].
    destruct (ch_eq "."%char c) eqn:E; [|done]. apply Ascii.eqb_eq in E as <-. discriminate A. }
  destruct (negb (str_in (str_take 2 (String c d)) _)); [exact (C ["objects"; "sha256"; _] St)|exact (C ["objects"; "sha256"] St)].
Qed.

