(* ===== verification/Updates.v ===== *)
(** * Local updates ([deltatorrent/domain/updates.py])

    The terminal completion of a local round, the raw delta it names and the
    normalized candidate: construction from documents and the documents. *)

From S2P Require Import Prelude PyFloat Json JsonText Text Sha256 WorkerErrors WorkerCanonical ArtifactRef WorkTicket.
Open Scope string_scope.
Open Scope Z_scope.
Open Scope py_scope.

Definition _SAFETENSORS_MEDIA_TYPE : string := "application/vnd.safetensors".

Definition _invalid_completion (message : string) : worker_exn := DeltaError INVALID_LOCAL_COMPLETION message.
Definition _invalid_candidate (message : string) : worker_exn := DeltaError INVALID_CONTRIBUTION_CANDIDATE message.

(** ** Checks of single values *)

(** A string that passes a test, or [e] *)
Definition checked_str (test : string -> bool) (e : worker_exn) (value : json) : wresult string :=
  match value with
  | JStr s => require (test s) e ;? Ok s
  | _ => Raise e
  end.

(** An integer that passes a test, or [e] *)
Definition checked_int (test : Z -> bool) (e : worker_exn) (value : json) : wresult Z :=
  match value with
  | JInt n => require (test n) e ;? Ok n
  | _ => Raise e
  end.

Definition update_content_id (factory : string -> worker_exn) : json -> wresult string :=
  checked_str is_content_id (factory "CONTENT_ID_INVALID").
Definition update_identifier (factory : string -> worker_exn) : json -> wresult string :=
  checked_str is_identifier (factory "IDENTIFIER_INVALID").
Definition counter : json -> wresult Z :=
  checked_int (fun n => negb (n <? 0)) (_invalid_completion "COUNTER_INVALID").
Definition positive : json -> wresult Z :=
  checked_int (fun n => negb (n <=? 0)) (_invalid_completion "POSITIVE_INTEGER_REQUIRED").

(** [_PARAMETER_NAME.fullmatch(s)]: [^[A-Za-z0-9_][A-Za-z0-9_.-]{0,255}$] *)
Definition is_parameter_name (s : string) : bool :=
  match s with
  | String c r =>
      (is_alnum c || ch_eq c "_"%char) && (String.length r <=? 255)%nat
      && str_all (fun c => is_alnum c || str_in (String c EmptyString) ["_"; "."; "-"]) r
  | EmptyString => false
  end.

(** [_ERROR_CODE.fullmatch(s)]: [^[A-Z][A-Z0-9_]{0,127}$] *)
Definition is_error_code (s : string) : bool :=
  match s with
  | String c r => is_upper c && (String.length r <=? 127)%nat
                  && str_all (fun c => is_upper c || is_digit c || ch_eq c "_"%char) r
  | EmptyString => false
  end.

(** [_PRODUCER_VERSION.fullmatch(s)]: [^[A-Za-z0-9][A-Za-z0-9._+-]{0,127}$] *)
Definition is_producer_version (s : string) : bool :=
  match s with
  | String c r => is_alnum c && (String.length r <=? 127)%nat
                  && str_all (fun c => is_alnum c || str_in (String c EmptyString) ["."; "_"; "+"; "-"]) r
  | EmptyString => false
  end.

Fixpoint sorted_names (l : list string) : bool :=
  match l with
  | a :: (b :: _) as r => String.leb a b && sorted_names r
  | _ => true
  end.

Definition name_of (value : json) : option string :=
  match value with JStr s => if is_parameter_name s then Some s else None | _ => None end.

Fixpoint names_of (l : list json) : option (list string) :=
  match l with
  | [] => Some []
  | v :: r => match name_of v, names_of r with Some s, Some t => Some (s :: t) | _, _ => None end
  end.

(** [_tensor_order]: non-empty, parameter names, sorted, distinct *)
Definition _tensor_order (factory : string -> worker_exn) (value : list json) : wresult (list string) :=
  match names_of value with
  | Some names =>
      require (match names with [] => false | _ => true end && sorted_names names && nodup_keys names)
        (factory "TENSOR_ORDER_INVALID") ;?
      Ok names
  | None => Raise (factory "TENSOR_ORDER_INVALID")
  end.

(** ** Enumerations *)

Inductive CompletionStatus := S_CANCELLED | S_COMPLETED | S_FAILED.
Inductive CompletionReason :=
| R_CANCELLED | R_DATA_EXHAUSTED | R_DEADLINE | R_EXACT_H | R_INTERNAL_FAILURE | R_NON_FINITE | R_OOM.

#[export] Instance CompletionStatus_eq_dec : EqDecision CompletionStatus.
Proof. solve_decision. Defined.
#[export] Instance CompletionReason_eq_dec : EqDecision CompletionReason.
Proof. solve_decision. Defined.

Definition status_value (s : CompletionStatus) : string :=
  match s with S_CANCELLED => "CANCELLED" | S_COMPLETED => "COMPLETED" | S_FAILED => "FAILED" end.

Definition reason_value (r : CompletionReason) : string :=
  match r with
  | R_CANCELLED => "CANCELLED" | R_DATA_EXHAUSTED => "DATA_EXHAUSTED" | R_DEADLINE => "DEADLINE"
  | R_EXACT_H => "EXACT_H" | R_INTERNAL_FAILURE => "INTERNAL_FAILURE"
  | R_NON_FINITE => "NON_FINITE" | R_OOM => "OOM"
  end.

(** [Enum(value)]: the member with that value, a [ValueError] otherwise *)
Definition enum_of {A} (members : list A) (value_of : A -> string) (value : json) : wresult A :=
  match List.find (fun m => py_eq value (JStr (value_of m))) members with
  | Some m => Ok m
  | None => Raise WValueError
  end.

Definition status_of : json -> wresult CompletionStatus :=
  enum_of [S_CANCELLED; S_COMPLETED; S_FAILED] status_value.
Definition reason_of : json -> wresult CompletionReason :=
  enum_of [R_CANCELLED; R_DATA_EXHAUSTED; R_DEADLINE; R_EXACT_H; R_INTERNAL_FAILURE; R_NON_FINITE; R_OOM]
    reason_value.

Definition allowed_reasons (s : CompletionStatus) : list CompletionReason :=
  match s with
  | S_CANCELLED => [R_CANCELLED]
  | S_COMPLETED => [R_EXACT_H]
  | S_FAILED => [R_DATA_EXHAUSTED; R_DEADLINE; R_INTERNAL_FAILURE; R_NON_FINITE; R_OOM]
  end.

(** ** Summaries and the delta *)

Record NumericalSummary := mkNumerical {
  all_finite : bool;
  max_abs_fp32_bits : option string;
  global_l2_norm_fp64_bits : option string }.

(** [None] or a string of [n] lower-case hex digits *)
Definition optional_bits (n : nat) (e : worker_exn) (value : json) : wresult (option string) :=
  match value with
  | JNull => Ok None
  | JStr s => require (lower_hex n s) e ;? Ok (Some s)
  | _ => Raise e
  end.

Definition new_numerical (value : odict json) : wresult NumericalSummary :=
  let? finite := match jget "all_finite" value with
                 | JBool b => Ok b
                 | _ => Raise (_invalid_completion "NUMERICAL_FINITE_FLAG_INVALID")
                 end in
  let? max_abs := optional_bits 8 (_invalid_completion "MAX_ABS_BITS_INVALID") (jget "max_abs_fp32_bits" value) in
  let? l2 := optional_bits 16 (_invalid_completion "GLOBAL_L2_BITS_INVALID") (jget "global_l2_norm_fp64_bits" value) in
  Ok (mkNumerical finite max_abs l2).

Definition numerical_from_dict (value : odict json) : wresult NumericalSummary :=
  require (keys_are value ["all_finite"; "global_l2_norm_fp64_bits"; "max_abs_fp32_bits"])
    (_invalid_completion "NUMERICAL_SUMMARY_FIELDS_INVALID") ;?
  new_numerical value.

Definition opt_str_json (s : option string) : json := match s with Some s => JStr s | None => JNull end.

Definition numerical_to_dict (n : NumericalSummary) : odict json :=
  [("all_finite", JBool (all_finite n)); ("global_l2_norm_fp64_bits", opt_str_json (global_l2_norm_fp64_bits n));
   ("max_abs_fp32_bits", opt_str_json (max_abs_fp32_bits n))].

Record ResourceSummary := mkResource { peak_memory_bytes : Z; wall_time_ms : Z }.

Definition resource_from_dict (value : odict json) : wresult ResourceSummary :=
  require (keys_are value ["peak_memory_bytes"; "wall_time_ms"])
    (_invalid_completion "RESOURCE_SUMMARY_FIELDS_INVALID") ;?
  let? peak := counter (jget "peak_memory_bytes" value) in
  let? wall := counter (jget "wall_time_ms" value) in
  Ok (mkResource peak wall).

Definition resource_to_dict (r : ResourceSummary) : odict json :=
  [("peak_memory_bytes", JInt (peak_memory_bytes r)); ("wall_time_ms", JInt (wall_time_ms r))].

Record LocalDelta := mkDelta {
  d_ticket_id : string;
  d_ticket_fingerprint : string;
  d_parent_model_id : string;
  d_parameter_schema_id : string;
  d_artifact : ArtifactRef;
  d_tensor_order : list string;
  d_sign_convention : string;
  d_storage_dtype : string }.

(** A tensor artifact: its schema and media type *)
Definition is_safetensors (r : ArtifactRef) : bool :=
  String.eqb (schema_id r) "SCHEMA-SAFETENSORS-V1" && py_eq (media_type r) (JStr _SAFETENSORS_MEDIA_TYPE).

Definition new_delta (artifact : ArtifactRef) (order : list json) (value : odict json) : wresult LocalDelta :=
  let? ticket_id := update_identifier _invalid_completion (jget "ticket_id" value) in
  let? fingerprint := update_content_id _invalid_completion (jget "ticket_fingerprint" value) in
  let? parent := update_content_id _invalid_completion (jget "parent_model_id" value) in
  let? schema := update_content_id _invalid_completion (jget "parameter_schema_id" value) in
  require (is_safetensors artifact) (_invalid_completion "LOCAL_DELTA_FORMAT_UNSAFE") ;?
  let? names := _tensor_order _invalid_completion order in
  require (py_eq (jget "sign_convention" value) (JStr "PARENT_MINUS_FINAL"))
    (_invalid_completion "LOCAL_DELTA_SIGN_INVALID") ;?
  require (py_eq (jget "storage_dtype" value) (JStr "float32")) (_invalid_completion "LOCAL_DELTA_DTYPE_INVALID") ;?
  Ok (mkDelta ticket_id fingerprint parent schema artifact names "PARENT_MINUS_FINAL" "float32").

Definition delta_fields : list string :=
  ["ticket_id"; "ticket_fingerprint"; "parent_model_id"; "parameter_schema_id"; "artifact"; "tensor_order";
   "sign_convention"; "storage_dtype"].

Definition delta_from_dict (value : odict json) : wresult LocalDelta :=
  require (keys_are value delta_fields) (_invalid_completion "LOCAL_DELTA_FIELDS_INVALID") ;?
  match jget "artifact" value, jget "tensor_order" value with
  | JObj artifact, JArr order =>
      type_error_as (_invalid_completion "LOCAL_DELTA_TYPES_INVALID")
        (let? artifact := ref_from_dict artifact in new_delta artifact order value)
  | _, _ => Raise (_invalid_completion "LOCAL_DELTA_COLLECTION_FIELDS_INVALID")
  end.

Definition delta_to_dict (d : LocalDelta) : odict json :=
  [("artifact", JObj (ref_to_dict (d_artifact d))); ("parameter_schema_id", JStr (d_parameter_schema_id d));
   ("parent_model_id", JStr (d_parent_model_id d)); ("sign_convention", JStr (d_sign_convention d));
   ("storage_dtype", JStr (d_storage_dtype d)); ("tensor_order", JArr (map JStr (d_tensor_order d)));
   ("ticket_fingerprint", JStr (d_ticket_fingerprint d)); ("ticket_id", JStr (d_ticket_id d))].

(** ** The completion *)

Record LocalRoundCompletion := mkCompletion {
  c_ticket_id : string;
  c_domain_id : string;
  c_worker_id : string;
  c_ticket_fingerprint : string;
  c_data_id : string;
  c_data_range_start : Z;
  c_data_range_end : Z;
  c_parent_model_id : string;
  c_parameter_schema_id : string;
  c_optimizer_profile_id : string;
  c_arithmetic_profile_id : string;
  c_batch_budget : Z;
  c_step_budget : Z;
  c_deterministic_seed : Z;
  c_logical_deadline_ms : Z;
  c_effective_steps : Z;
  c_micro_steps : Z;
  c_processed_tokens : Z;
  c_cursor_start : Z;
  c_cursor_end : Z;
  c_status : CompletionStatus;
  c_reason : CompletionReason;
  c_candidate_eligible : bool;
  c_local_delta : option LocalDelta;
  c_failure_code : option string;
  c_numerical_summary : NumericalSummary;
  c_resource_summary : ResourceSummary;
  c_producer_version : string;
  c_formal_semantics_id : string;
  c_schema_version : string }.

(** The relations of the counters *)
Definition counters_related (c : LocalRoundCompletion) : bool :=
  negb ((c_data_range_end c <=? c_data_range_start c)
        || negb (c_cursor_start c =? c_data_range_start c)
        || (c_cursor_end c <? c_cursor_start c)
        || (c_data_range_end c <? c_cursor_end c)
        || (c_step_budget c <? c_effective_steps c)).

Definition complete (c : LocalRoundCompletion) : bool :=
  bool_decide (c_status c = S_COMPLETED) && bool_decide (c_reason c = R_EXACT_H)
  && (c_effective_steps c =? c_step_budget c).

Definition reason_allowed (c : LocalRoundCompletion) : bool :=
  existsb (fun r => bool_decide (c_reason c = r)) (allowed_reasons (c_status c)).

(** The delta has the lineage of the completion. *)
Definition delta_lineage (c : LocalRoundCompletion) (d : LocalDelta) : bool :=
  String.eqb (d_ticket_id d) (c_ticket_id c) && String.eqb (d_ticket_fingerprint d) (c_ticket_fingerprint c)
  && String.eqb (d_parent_model_id d) (c_parent_model_id c)
  && String.eqb (d_parameter_schema_id d) (c_parameter_schema_id c).

Definition numerical_complete (n : NumericalSummary) : bool :=
  all_finite n && match max_abs_fp32_bits n with Some _ => true | None => false end
  && match global_l2_norm_fp64_bits n with Some _ => true | None => false end.

(** The checks of [__post_init__] after the single fields; [eligible] and
    [failure_code] are still the values given. *)
Definition check_completion (eligible failure_code : json) (c : LocalRoundCompletion) : wresult unit :=
  require (counters_related c) (_invalid_completion "COMPLETION_COUNTER_RELATION_INVALID") ;?
  require (match eligible with JBool b => Bool.eqb b (complete c) | _ => false end)
    (_invalid_completion "COMPLETION_ELIGIBILITY_INVALID") ;?
  require (reason_allowed c) (_invalid_completion "COMPLETION_STATUS_REASON_INVALID") ;?
  if complete c then
    match c_local_delta c with
    | Some d =>
        require (is_none failure_code) (_invalid_completion "COMPLETION_SUCCESS_ARTIFACT_INVALID") ;?
        require (delta_lineage c d) (_invalid_completion "COMPLETION_LOCAL_DELTA_LINEAGE_INVALID") ;?
        require (numerical_complete (c_numerical_summary c))
          (_invalid_completion "COMPLETION_NUMERICAL_SUMMARY_INVALID")
    | None => Raise (_invalid_completion "COMPLETION_SUCCESS_ARTIFACT_INVALID")
    end
  else
    require (match c_local_delta c with None => true | Some _ => false end
             && match failure_code with JStr s => is_error_code s | _ => false end)
      (_invalid_completion "INCOMPLETE_CANDIDATE_MUST_BE_ABSENT").

(** [LocalRoundCompletion(…)] of a document whose parts are built *)
Definition new_completion (value : odict json) (delta : option LocalDelta) (numerical : NumericalSummary)
    (resource : ResourceSummary) (status : CompletionStatus) (reason : CompletionReason) :
    wresult LocalRoundCompletion :=
  let? ticket_id := update_identifier _invalid_completion (jget "ticket_id" value) in
  let? domain_id := update_identifier _invalid_completion (jget "domain_id" value) in
  let? worker_id := update_identifier _invalid_completion (jget "worker_id" value) in
  let? fingerprint := update_content_id _invalid_completion (jget "ticket_fingerprint" value) in
  let? data_id := update_content_id _invalid_completion (jget "data_id" value) in
  let? parent := update_content_id _invalid_completion (jget "parent_model_id" value) in
  let? schema := update_content_id _invalid_completion (jget "parameter_schema_id" value) in
  let? optimizer := update_content_id _invalid_completion (jget "optimizer_profile_id" value) in
  let? arithmetic := update_content_id _invalid_completion (jget "arithmetic_profile_id" value) in
  let? batch_budget := positive (jget "batch_budget" value) in
  let? step_budget := positive (jget "step_budget" value) in
  let? seed := counter (jget "deterministic_seed" value) in
  let? deadline := positive (jget "logical_deadline_ms" value) in
  let? range_start := counter (jget "data_range_start" value) in
  let? range_end := counter (jget "data_range_end" value) in
  let? effective := counter (jget "effective_steps" value) in
  let? micro := counter (jget "micro_steps" value) in
  let? tokens := counter (jget "processed_tokens" value) in
  let? cursor_start := counter (jget "cursor_start" value) in
  let? cursor_end := counter (jget "cursor_end" value) in
  let failure_code := jget "failure_code" value in
  let c := mkCompletion ticket_id domain_id worker_id fingerprint data_id range_start range_end parent schema
             optimizer arithmetic batch_budget step_budget seed deadline effective micro tokens cursor_start
             cursor_end status reason (truthy (jget "candidate_eligible" value)) delta
             (match failure_code with JStr s => Some s | _ => None end) numerical resource
             (match jget "producer_version" value with JStr s => s | _ => EmptyString end)
             FORMAL_SEMANTICS_ID "1.0.0" in
  check_completion (jget "candidate_eligible" value) failure_code c ;?
  require (match jget "producer_version" value with JStr s => is_producer_version s | _ => false end)
    (_invalid_completion "COMPLETION_PRODUCER_VERSION_INVALID") ;?
  require (py_eq (jget "formal_semantics_id" value) (JStr FORMAL_SEMANTICS_ID))
    (DeltaError FORMAL_SEMANTICS_MISMATCH "completion semantics mismatch") ;?
  require (py_eq (jget "schema_version" value) (JStr "1.0.0"))
    (_invalid_completion "COMPLETION_VERSION_UNSUPPORTED") ;?
  Ok c.

Definition completion_fields : list string :=
  ["ticket_id"; "domain_id"; "worker_id"; "ticket_fingerprint"; "data_id"; "data_range_start"; "data_range_end";
   "parent_model_id"; "parameter_schema_id"; "optimizer_profile_id"; "arithmetic_profile_id"; "batch_budget";
   "step_budget"; "deterministic_seed"; "logical_deadline_ms"; "effective_steps"; "micro_steps";
   "processed_tokens"; "cursor_start"; "cursor_end"; "status"; "reason"; "candidate_eligible"; "local_delta";
   "failure_code"; "numerical_summary"; "resource_summary"; "producer_version"; "formal_semantics_id";
   "schema_version"].

(** A [TypeError] or [ValueError] of the constructor becomes [e]. *)
Definition built_or {A} (e : worker_exn) (m : wresult A) : wresult A :=
  match m with Raise WTypeError | Raise WValueError => Raise e | _ => m end.

(** [LocalDelta.from_dict(local_delta) if local_delta else None]: an empty
    object counts as none. *)
Definition optional_delta (value : json) : wresult (option LocalDelta) :=
  match value with
  | JObj ((_ :: _) as o) => let? d := delta_from_dict o in Ok (Some d)
  | _ => Ok None
  end.

Definition completion_from_dict (value : odict json) : wresult LocalRoundCompletion :=
  require (keys_are value completion_fields) (_invalid_completion "COMPLETION_FIELDS_INVALID") ;?
  require (is_none (jget "local_delta" value) || is_obj (jget "local_delta" value))
    (_invalid_completion "COMPLETION_LOCAL_DELTA_INVALID") ;?
  match jget "numerical_summary" value, jget "resource_summary" value with
  | JObj numerical, JObj resource =>
      built_or (_invalid_completion "COMPLETION_TYPES_INVALID")
        (let? delta := optional_delta (jget "local_delta" value) in
         let? numerical := numerical_from_dict numerical in
         let? reason := reason_of (jget "reason" value) in
         let? status := status_of (jget "status" value) in
         let? resource := resource_from_dict resource in
         new_completion value delta numerical resource status reason)
  | _, _ => Raise (_invalid_completion "COMPLETION_SUMMARY_INVALID")
  end.

Definition completion_to_dict (c : LocalRoundCompletion) : odict json :=
  [("arithmetic_profile_id", JStr (c_arithmetic_profile_id c)); ("batch_budget", JInt (c_batch_budget c));
   ("candidate_eligible", JBool (c_candidate_eligible c)); ("cursor_end", JInt (c_cursor_end c));
   ("cursor_start", JInt (c_cursor_start c)); ("data_id", JStr (c_data_id c));
   ("data_range_end", JInt (c_data_range_end c)); ("data_range_start", JInt (c_data_range_start c));
   ("deterministic_seed", JInt (c_deterministic_seed c)); ("domain_id", JStr (c_domain_id c));
   ("effective_steps", JInt (c_effective_steps c)); ("failure_code", opt_str_json (c_failure_code c));
   ("formal_semantics_id", JStr (c_formal_semantics_id c));
   ("local_delta", match c_local_delta c with Some d => JObj (delta_to_dict d) | None => JNull end);
   ("logical_deadline_ms", JInt (c_logical_deadline_ms c)); ("micro_steps", JInt (c_micro_steps c));
   ("numerical_summary", JObj (numerical_to_dict (c_numerical_summary c)));
   ("optimizer_profile_id", JStr (c_optimizer_profile_id c));
   ("parameter_schema_id", JStr (c_parameter_schema_id c)); ("parent_model_id", JStr (c_parent_model_id c));
   ("processed_tokens", JInt (c_processed_tokens c)); ("producer_version", JStr (c_producer_version c));
   ("reason", JStr (reason_value (c_reason c))); ("schema_version", JStr (c_schema_version c));
   ("status", JStr (status_value (c_status c))); ("step_budget", JInt (c_step_budget c));
   ("resource_summary", JObj (resource_to_dict (c_resource_summary c)));
   ("ticket_fingerprint", JStr (c_ticket_fingerprint c)); ("ticket_id", JStr (c_ticket_id c));
   ("worker_id", JStr (c_worker_id c))].

Definition completion_fingerprint (c : LocalRoundCompletion) : wresult string :=
  let? bytes := canonical_json_bytes (JObj (completion_to_dict c)) in
  Ok (sha256_content_id bytes).

(** ** The candidate *)

Record NormalizedContributionCandidate := mkCandidate {
  n_ticket_id : string;
  n_domain_id : string;
  n_ticket_fingerprint : string;
  n_completion_id : string;
  n_parent_model_id : string;
  n_parameter_schema_id : string;
  n_optimizer_profile_id : string;
  n_arithmetic_profile_id : string;
  n_effective_steps : Z;
  n_step_budget : Z;
  n_normalization_denominator : Z;
  n_normalized_delta : ArtifactRef;
  n_tensor_order : list string;
  n_storage_dtype : string;
  n_formal_semantics_id : string;
  n_schema_version : string }.

Definition candidate_steps (value : odict json) : wresult (Z * Z * Z) :=
  match jget "effective_steps" value, jget "step_budget" value, jget "normalization_denominator" value with
  | JInt e, JInt b, JInt d =>
      require (negb ((e <=? 0) || negb (e =? b) || negb (d =? e)))
        (_invalid_candidate "CANDIDATE_REQUIRES_A_EQUALS_H") ;?
      Ok (e, b, d)
  | _, _, _ => Raise (_invalid_candidate "CANDIDATE_REQUIRES_A_EQUALS_H")
  end.

Definition new_candidate (artifact : ArtifactRef) (order : list json) (value : odict json) :
    wresult NormalizedContributionCandidate :=
  let? ticket_id := update_identifier _invalid_candidate (jget "ticket_id" value) in
  let? domain_id := update_identifier _invalid_candidate (jget "domain_id" value) in
  let? fingerprint := update_content_id _invalid_candidate (jget "ticket_fingerprint" value) in
  let? completion := update_content_id _invalid_candidate (jget "completion_id" value) in
  let? parent := update_content_id _invalid_candidate (jget "parent_model_id" value) in
  let? schema := update_content_id _invalid_candidate (jget "parameter_schema_id" value) in
  let? optimizer := update_content_id _invalid_candidate (jget "optimizer_profile_id" value) in
  let? arithmetic := update_content_id _invalid_candidate (jget "arithmetic_profile_id" value) in
  let? steps := candidate_steps value in
  require (is_safetensors artifact) (_invalid_candidate "CANDIDATE_TENSOR_ARTIFACT_INVALID") ;?
  let? names := _tensor_order _invalid_candidate order in
  require (py_eq (jget "storage_dtype" value) (JStr "float32")) (_invalid_candidate "CANDIDATE_DTYPE_INVALID") ;?
  require (py_eq (jget "formal_semantics_id" value) (JStr FORMAL_SEMANTICS_ID))
    (DeltaError FORMAL_SEMANTICS_MISMATCH "candidate semantics mismatch") ;?
  require (py_eq (jget "schema_version" value) (JStr "1.0.0"))
    (_invalid_candidate "CANDIDATE_VERSION_UNSUPPORTED") ;?
  Ok (mkCandidate ticket_id domain_id fingerprint completion parent schema optimizer arithmetic
        steps.1.1 steps.1.2 steps.2 artifact names "float32" FORMAL_SEMANTICS_ID "1.0.0").

Definition candidate_fields : list string :=
  ["ticket_id"; "domain_id"; "ticket_fingerprint"; "completion_id"; "parent_model_id"; "parameter_schema_id";
   "optimizer_profile_id"; "arithmetic_profile_id"; "effective_steps"; "step_budget";
   "normalization_denominator"; "normalized_delta"; "tensor_order"; "storage_dtype"; "formal_semantics_id";
   "schema_version"].

Definition candidate_from_dict (value : odict json) : wresult NormalizedContributionCandidate :=
  require (keys_are value candidate_fields) (_invalid_candidate "CANDIDATE_FIELDS_INVALID") ;?
  match jget "tensor_order" value, jget "normalized_delta" value with
  | JArr order, JObj artifact =>
      built_or (_invalid_candidate "CANDIDATE_TYPES_INVALID")
        (let? artifact := ref_from_dict artifact in new_candidate artifact order value)
  | _, _ => Raise (_invalid_candidate "CANDIDATE_COLLECTION_FIELDS_INVALID")
  end.

Definition candidate_to_dict (n : NormalizedContributionCandidate) : odict json :=
  [("arithmetic_profile_id", JStr (n_arithmetic_profile_id n)); ("completion_id", JStr (n_completion_id n));
   ("domain_id", JStr (n_domain_id n)); ("effective_steps", JInt (n_effective_steps n));
   ("formal_semantics_id", JStr (n_formal_semantics_id n));
   ("normalization_denominator", JInt (n_normalization_denominator n));
   ("normalized_delta", JObj (ref_to_dict (n_normalized_delta n)));
   ("optimizer_profile_id", JStr (n_optimizer_profile_id n));
   ("parameter_schema_id", JStr (n_parameter_schema_id n)); ("parent_model_id", JStr (n_parent_model_id n));
   ("schema_version", JStr (n_schema_version n)); ("step_budget", JInt (n_step_budget n));
   ("storage_dtype", JStr (n_storage_dtype n)); ("tensor_order", JArr (map JStr (n_tensor_order n)));
   ("ticket_fingerprint", JStr (n_ticket_fingerprint n)); ("ticket_id", JStr (n_ticket_id n))].

(** ** Reading back what was written *)

Lemma checked_str_Ok test e v s : checked_str test e v = Ok s <-> v = JStr s /\ test s = true.
Proof.
  destruct v as [| | | |m| |]; cbn; try (split; [done|by intros []]).
  rewrite rbind_unit_Ok, require_Ok. naive_solver.
Qed.

Lemma checked_int_Ok test e v n : checked_int test e v = Ok n <-> v = JInt n /\ test n = true.
Proof.
  destruct v as [| |m| | | |]; cbn; try (split; [done|by intros []]).
  rewrite rbind_unit_Ok, require_Ok. naive_solver.
Qed.

Lemma names_of_Ok l names :
  names_of l = Some names <-> l = map JStr names /\ Forall (fun s => is_parameter_name s = true) names.
Proof.
  revert names. induction l as [|v l IH]; intros names; cbn [names_of].
  - split; [by intros [= <-]|]. intros [E _]. by destruct names.
  - split.
    + destruct v as [| | | |s| |]; try done. cbn [name_of]. destruct (is_parameter_name s) eqn:P; [|done].
      destruct (names_of l) as [t|]; [|done]. intros [= <-].
      destruct (proj1 (IH t) eq_refl) as [-> F]. split; [done|]. by constructor.
    + intros [E F]. destruct names as [|s t]; [done|]. injection E as -> ->.
      apply Forall_cons in F as [P F]. cbn [name_of]. by rewrite P, (proj2 (IH t)).
Qed.

Definition order_ok (names : list string) : Prop :=
  names <> [] /\ sorted_names names = true /\ nodup_keys names = true /\
  Forall (fun s => is_parameter_name s = true) names.

Lemma tensor_order_Ok factory l names :
  _tensor_order factory l = Ok names <-> l = map JStr names /\ order_ok names.
Proof.
  unfold _tensor_order, order_ok. split.
  - destruct (names_of l) as [t|] eqn:E; [|done]. apply names_of_Ok in E as [-> F].
    intros (R & [= <-])%rbind_unit_Ok. apply require_Ok in R.
    apply andb_true_iff in R as [R U]. apply andb_true_iff in R as [N S].
    split; [done|]. split; [by destruct t|]. auto.
  - intros (-> & N & S & U & F). rewrite (proj2 (names_of_Ok _ names)) by done. rewrite S, U.
    by destruct names.
Qed.


Lemma status_of_value s : status_of (JStr (status_value s)) = Ok s.
Proof. by destruct s. Qed.
Lemma reason_of_value r : reason_of (JStr (reason_value r)) = Ok r.
Proof. by destruct r. Qed.

Lemma optional_bits_Ok n e v b :
  optional_bits n e v = Ok b <-> v = opt_str_json b /\ (forall s, b = Some s -> lower_hex n s = true).
Proof.
  destruct v as [| | | |m| |]; cbn [optional_bits]; try (split; [done|by destruct b as [|]; intros []]).
  - split; [intros [= <-]; by split|]. intros [E _]. by destruct b.
  - rewrite rbind_unit_Ok, require_Ok. split.
    + intros [L [= <-]]. split; [done|]. by intros s [= <-].
    + intros [E L]. destruct b as [s|]; [|done]. injection E as ->. split; [by apply L|done].
Qed.

Lemma update_identifier_Ok factory v s :
  update_identifier factory v = Ok s <-> v = JStr s /\ is_identifier s = true.
Proof. apply checked_str_Ok. Qed.

Lemma update_content_id_Ok factory v s :
  update_content_id factory v = Ok s <-> v = JStr s /\ is_content_id s = true.
Proof. apply checked_str_Ok. Qed.

Definition numerical_ok (n : NumericalSummary) : Prop :=
  (forall s, max_abs_fp32_bits n = Some s -> lower_hex 8 s = true) /\
  (forall s, global_l2_norm_fp64_bits n = Some s -> lower_hex 16 s = true).

Lemma new_numerical_ok o n : new_numerical o = Ok n -> numerical_ok n.
Proof.
  unfold new_numerical. intros (b & _ & H)%rbind_Ok. apply rbind_Ok in H as (m & [_ Hm]%optional_bits_Ok & H).
  apply rbind_Ok in H as (l & [_ Hl]%optional_bits_Ok & H). by injection H as <-.
Qed.

Lemma numerical_from_dict_Ok o n : numerical_from_dict o = Ok n -> numerical_ok n.
Proof. unfold numerical_from_dict. intros (_ & H)%rbind_unit_Ok. by eapply new_numerical_ok. Qed.

Lemma numerical_roundtrip n : numerical_ok n -> numerical_from_dict (numerical_to_dict n) = Ok n.
Proof.
  destruct n as [b m l]. intros [Hm Hl]. cbn [max_abs_fp32_bits global_l2_norm_fp64_bits] in *.
  unfold numerical_from_dict. change (keys_are (numerical_to_dict _) _) with true. cbn [require rbind].
  unfold new_numerical. change (jget "all_finite" _) with (JBool b). cbn [rbind].
  change (jget "max_abs_fp32_bits" _) with (opt_str_json m).
  change (jget "global_l2_norm_fp64_bits" _) with (opt_str_json l).
  rewrite (proj2 (optional_bits_Ok _ _ _ m) (conj eq_refl Hm)). cbn [rbind].
  by rewrite (proj2 (optional_bits_Ok _ _ _ l) (conj eq_refl Hl)).
Qed.

Definition resource_ok (r : ResourceSummary) : Prop := 0 <= peak_memory_bytes r /\ 0 <= wall_time_ms r.

Lemma counter_Ok v n : counter v = Ok n <-> v = JInt n /\ 0 <= n.
Proof. unfold counter. by rewrite checked_int_Ok, negb_true_iff, Z.ltb_ge. Qed.

Lemma update_positive_Ok v n : positive v = Ok n <-> v = JInt n /\ 0 < n.
Proof. unfold positive. by rewrite checked_int_Ok, negb_true_iff, Z.leb_gt. Qed.

Lemma resource_from_dict_Ok o r : resource_from_dict o = Ok r -> resource_ok r.
Proof.
  unfold resource_from_dict. intros (_ & H)%rbind_unit_Ok.
  apply rbind_Ok in H as (p & [_ Hp]%counter_Ok & H). apply rbind_Ok in H as (w & [_ Hw]%counter_Ok & H).
  by injection H as <-.
Qed.

Lemma resource_roundtrip r : resource_ok r -> resource_from_dict (resource_to_dict r) = Ok r.
Proof.
  destruct r as [p w]. intros [Hp Hw]. cbn [peak_memory_bytes wall_time_ms] in *.
  unfold resource_from_dict. change (keys_are (resource_to_dict _) _) with true. cbn [require rbind].
  rewrite (proj2 (counter_Ok _ p)) by done. cbn [rbind]. by rewrite (proj2 (counter_Ok _ w)).
Qed.

Record delta_ok (d : LocalDelta) : Prop := {
  k_ticket_id : is_identifier (d_ticket_id d) = true;
  k_ids : is_content_id (d_ticket_fingerprint d) = true /\ is_content_id (d_parent_model_id d) = true /\
          is_content_id (d_parameter_schema_id d) = true;
  k_artifact : ref_ok (d_artifact d) /\ is_safetensors (d_artifact d) = true;
  k_order : order_ok (d_tensor_order d);
  k_formats : d_sign_convention d = "PARENT_MINUS_FINAL" /\ d_storage_dtype d = "float32" }.

Lemma new_delta_ok r order o d : ref_ok r -> new_delta r order o = Ok d -> delta_ok d /\ d_artifact d = r.
Proof.
  intros Hr. unfold new_delta.
  intros (t & [_ Ht]%checked_str_Ok & H)%rbind_Ok. apply rbind_Ok in H as (f & [_ Hf]%checked_str_Ok & H).
  apply rbind_Ok in H as (p & [_ Hp]%checked_str_Ok & H). apply rbind_Ok in H as (s & [_ Hs]%checked_str_Ok & H).
  apply rbind_unit_Ok in H as (S & H). apply rbind_Ok in H as (names & [_ Hn]%tensor_order_Ok & H).
  apply rbind_unit_Ok in H as (_ & H). apply rbind_unit_Ok in H as (_ & H). injection H as <-.
  apply require_Ok in S. split; [by constructor|done].
Qed.

Lemma delta_from_dict_Ok o d : delta_from_dict o = Ok d -> delta_ok d.
Proof.
  unfold delta_from_dict. intros (_ & H)%rbind_unit_Ok.
  destruct (jget "artifact" o) as [| | | | | |a]; try done.
  destruct (jget "tensor_order" o) as [| | | | |l|]; try done.
  apply type_error_as_Ok, rbind_Ok in H as (r & [Hr _]%ref_from_dict_ok & H). exact (proj1 (new_delta_ok _ _ _ _ Hr H)).
Qed.

Lemma delta_roundtrip d : delta_ok d -> delta_from_dict (delta_to_dict d) = Ok d.
Proof.
  destruct d as [t f p s a names sign dt]. intros [K1 (K2 & K3 & K4) (K5 & K6) K7 (K8 & K9)].
  cbn [d_ticket_id d_ticket_fingerprint d_parent_model_id d_parameter_schema_id d_artifact d_tensor_order
    d_sign_convention d_storage_dtype] in *. subst sign dt.
  unfold delta_from_dict. change (keys_are (delta_to_dict _) _) with true. cbn [require rbind].
  change (jget "artifact" _) with (JObj (ref_to_dict a)).
  change (jget "tensor_order" _) with (JArr (map JStr names)). cbv beta iota. apply type_error_as_Ok.
  rewrite (ref_roundtrip a K5). cbn [rbind]. unfold new_delta.
  rewrite (proj2 (update_identifier_Ok _ _ t)) by done. cbn [rbind].
  rewrite (proj2 (update_content_id_Ok _ _ f)) by done. cbn [rbind].
  rewrite (proj2 (update_content_id_Ok _ _ p)) by done. cbn [rbind].
  rewrite (proj2 (update_content_id_Ok _ _ s)) by done. cbn [rbind]. rewrite K6. cbn [require rbind].
  by rewrite (proj2 (tensor_order_Ok _ _ names) (conj eq_refl K7)).
Qed.

(** ** What a completion guarantees *)

Record completion_ok (c : LocalRoundCompletion) : Prop := {
  g_names : is_identifier (c_ticket_id c) = true /\ is_identifier (c_domain_id c) = true /\
            is_identifier (c_worker_id c) = true;
  g_ids : Forall (fun s => is_content_id s = true)
            [c_ticket_fingerprint c; c_data_id c; c_parent_model_id c; c_parameter_schema_id c;
             c_optimizer_profile_id c; c_arithmetic_profile_id c];
  g_positive : Forall (fun n => 0 < n) [c_batch_budget c; c_step_budget c; c_logical_deadline_ms c];
  g_counters : Forall (fun n => 0 <= n)
                 [c_deterministic_seed c; c_data_range_start c; c_data_range_end c; c_effective_steps c;
                  c_micro_steps c; c_processed_tokens c; c_cursor_start c; c_cursor_end c];
  g_range : c_cursor_start c = c_data_range_start c /\ c_cursor_start c <= c_cursor_end c <= c_data_range_end c /\
            c_data_range_start c < c_data_range_end c /\ c_effective_steps c <= c_step_budget c;
  g_eligible : c_candidate_eligible c = true <->
               c_status c = S_COMPLETED /\ c_reason c = R_EXACT_H /\ c_effective_steps c = c_step_budget c;
  g_reason : c_reason c ∈ allowed_reasons (c_status c);
  g_success : c_candidate_eligible c = true ->
              exists d, c_local_delta c = Some d /\ delta_ok d /\ delta_lineage c d = true /\
                c_failure_code c = None /\ numerical_complete (c_numerical_summary c) = true;
  g_failure : c_candidate_eligible c = false ->
              c_local_delta c = None /\ exists code, c_failure_code c = Some code /\ is_error_code code = true;
  g_summaries : numerical_ok (c_numerical_summary c) /\ resource_ok (c_resource_summary c);
  g_producer : is_producer_version (c_producer_version c) = true;
  g_versions : c_formal_semantics_id c = FORMAL_SEMANTICS_ID /\ c_schema_version c = "1.0.0" }.

Lemma counters_related_true c :
  counters_related c = true <->
  c_cursor_start c = c_data_range_start c /\ c_cursor_start c <= c_cursor_end c <= c_data_range_end c /\
  c_data_range_start c < c_data_range_end c /\ c_effective_steps c <= c_step_budget c.
Proof.
  unfold counters_related.
  rewrite negb_true_iff, !orb_false_iff, negb_false_iff, Z.leb_gt, Z.eqb_eq, !Z.ltb_ge. lia.
Qed.

Lemma complete_true c :
  complete c = true <-> c_status c = S_COMPLETED /\ c_reason c = R_EXACT_H /\ c_effective_steps c = c_step_budget c.
Proof. unfold complete. rewrite !andb_true_iff, !bool_decide_eq_true, Z.eqb_eq. tauto. Qed.

Lemma reason_allowed_true c : reason_allowed c = true <-> c_reason c ∈ allowed_reasons (c_status c).
Proof.
  unfold reason_allowed. rewrite existsb_exists. split.
  - intros (r & H & ->%bool_decide_eq_true). by apply list_elem_of_In.
  - intros H. exists (c_reason c). rewrite bool_decide_eq_true. split; [by apply list_elem_of_In|done].
Qed.

Lemma check_completion_Ok eligible code c :
  check_completion eligible code c = Ok tt ->
  counters_related c = true /\ eligible = JBool (complete c) /\ reason_allowed c = true /\
  (complete c = true -> exists d, c_local_delta c = Some d /\ delta_lineage c d = true /\ code = JNull /\
     numerical_complete (c_numerical_summary c) = true) /\
  (complete c = false -> c_local_delta c = None /\ exists s, code = JStr s /\ is_error_code s = true).
Proof.
  unfold check_completion. intros (R1 & H)%rbind_unit_Ok. apply rbind_unit_Ok in H as (R2 & H).
  apply rbind_unit_Ok in H as (R3 & H). rewrite require_Ok in R1, R2, R3.
  split; [done|]. split; [destruct eligible; try done; by apply Bool.eqb_prop in R2 as ->|]. split; [done|].
  destruct (complete c).
  - split; [intros _|done]. destruct (c_local_delta c) as [d|]; [|done].
    apply rbind_unit_Ok in H as (N & H). apply rbind_unit_Ok in H as (L & H).
    rewrite require_Ok in N, L, H. exists d. by destruct code.
  - split; [done|intros _]. rewrite require_Ok in H. apply andb_true_iff in H as [D C].
    destruct (c_local_delta c); [done|]. split; [done|]. destruct code; try done. eauto.
Qed.

Lemma optional_delta_Ok v d : optional_delta v = Ok d -> forall x, d = Some x -> delta_ok x.
Proof.
  destruct v as [| | | | | |[|y o]]; cbn [optional_delta]; try (by intros [= <-]).
  intros (z & Hz%delta_from_dict_Ok & [= <-])%rbind_Ok. by intros x [= <-].
Qed.

Lemma new_completion_ok o d n r s rs c :
  new_completion o d n r s rs = Ok c -> numerical_ok n -> resource_ok r -> (forall x, d = Some x -> delta_ok x) ->
  completion_ok c.
Proof.
  intros R Hn Hr Hd. unfold new_completion in R.
  do 3 (apply rbind_Ok in R as (? & [_ ?]%update_identifier_Ok & R)).
  do 6 (apply rbind_Ok in R as (? & [_ ?]%update_content_id_Ok & R)).
  do 2 (apply rbind_Ok in R as (? & [_ ?]%update_positive_Ok & R)).
  apply rbind_Ok in R as (? & [_ ?]%counter_Ok & R). apply rbind_Ok in R as (? & [_ ?]%update_positive_Ok & R).
  do 7 (apply rbind_Ok in R as (? & [_ ?]%counter_Ok & R)).
  set (c0 := mkCompletion _ _ _ _ _ _ _ _ _ _ _ _ _ _ _ _ _ _ _ _ _ _ _ _ _ _ _ _ _ _) in R.
  cbv zeta in R. apply rbind_unit_Ok in R as (C & R). apply rbind_unit_Ok in R as (P & R).
  apply rbind_unit_Ok in R as (_ & R). apply rbind_unit_Ok in R as (_ & R). injection R as <-.
  apply check_completion_Ok in C as (C1 & C2 & C3 & C4 & C5). apply require_Ok in P.
  assert (E : c_candidate_eligible c0 = complete c0) by (unfold c0 at 1; cbn [c_candidate_eligible]; by rewrite C2).
  apply counters_related_true in C1. apply reason_allowed_true in C3.
  constructor; rewrite ?E; try done.
  - repeat constructor; done.
  - repeat constructor; done.
  - repeat constructor; done.
  - apply complete_true.
  - intros T. destruct (C4 T) as (dx & X & L & N & F). exists dx. split; [done|]. split; [by apply Hd|].
    split; [done|]. split; [|done]. unfold c0. cbn [c_failure_code]. by rewrite N.
  - intros T. destruct (C5 T) as (X & code & N & F). split; [done|]. exists code.
    unfold c0. cbn [c_failure_code]. by rewrite N.
  - unfold c0. cbn [c_producer_version]. by destruct (jget "producer_version" o).
Qed.

Lemma built_or_Ok {A} e (m : wresult A) a : built_or e m = Ok a <-> m = Ok a.
Proof. by destruct m as [|[]]. Qed.

Lemma completion_from_dict_ok o c : completion_from_dict o = Ok c -> completion_ok c.
Proof.
  unfold completion_from_dict. intros (_ & H)%rbind_unit_Ok. apply rbind_unit_Ok in H as (_ & H).
  destruct (jget "numerical_summary" o) as [| | | | | |n]; try done.
  destruct (jget "resource_summary" o) as [| | | | | |r]; try done.
  apply built_or_Ok, rbind_Ok in H as (d & Hd & H). apply rbind_Ok in H as (n' & Hn%numerical_from_dict_Ok & H).
  apply rbind_Ok in H as (rs & _ & H). apply rbind_Ok in H as (st & _ & H).
  apply rbind_Ok in H as (r' & Hr%resource_from_dict_Ok & H).
  eapply new_completion_ok; [exact H|done..|]. by apply (optional_delta_Ok _ _ Hd).
Qed.

(** ** The document of a completion builds it again *)

Lemma check_completion_roundtrip c :
  completion_ok c -> check_completion (JBool (c_candidate_eligible c)) (opt_str_json (c_failure_code c)) c = Ok tt.
Proof.
  intros K. unfold check_completion.
  rewrite (proj2 (counters_related_true c) (g_range c K)). cbn [require rbind].
  assert (E : c_candidate_eligible c = complete c).
  { apply eq_true_iff_eq. by rewrite (g_eligible c K), complete_true. }
  rewrite E, Bool.eqb_reflx. cbn [require rbind].
  rewrite (proj2 (reason_allowed_true c) (g_reason c K)). cbn [require rbind].
  destruct (complete c) eqn:C.
  - destruct (g_success c K E) as (d & -> & _ & L & F & N). rewrite F, L, N. done.
  - destruct (g_failure c K E) as (-> & code & F & N). rewrite F. cbn [opt_str_json]. by rewrite N.
Qed.

(** Read the fields of a completion that is a record. *)
Ltac completion_fields_in :=
  cbn [c_ticket_id c_domain_id c_worker_id c_ticket_fingerprint c_data_id c_data_range_start
    c_data_range_end c_parent_model_id c_parameter_schema_id c_optimizer_profile_id c_arithmetic_profile_id
    c_batch_budget c_step_budget c_deterministic_seed c_logical_deadline_ms c_effective_steps c_micro_steps
    c_processed_tokens c_cursor_start c_cursor_end c_status c_reason c_candidate_eligible c_local_delta
    c_failure_code c_numerical_summary c_resource_summary c_producer_version c_formal_semantics_id
    c_schema_version] in *.

Lemma new_completion_roundtrip c :
  completion_ok c ->
  new_completion (completion_to_dict c) (c_local_delta c) (c_numerical_summary c) (c_resource_summary c)
    (c_status c) (c_reason c) = Ok c.
Proof.
  intros K. pose proof (check_completion_roundtrip c K) as X.
  destruct K as [(I1 & I2 & I3) K2 K3 K4 _ _ _ _ _ _ KP [V1 V2]].
  repeat match goal with F : Forall _ (_ :: _) |- _ => apply Forall_cons in F as [? F] end.
  destruct c. completion_fields_in. subst.
  unfold new_completion.
  do 3 (erewrite (proj2 (update_identifier_Ok _ _ _)) by (split; [reflexivity|eassumption]); cbn [rbind]).
  do 6 (erewrite (proj2 (update_content_id_Ok _ _ _)) by (split; [reflexivity|eassumption]); cbn [rbind]).
  do 2 (erewrite (proj2 (update_positive_Ok _ _)) by (split; [reflexivity|eassumption]); cbn [rbind]).
  erewrite (proj2 (counter_Ok _ _)) by (split; [reflexivity|eassumption]); cbn [rbind].
  erewrite (proj2 (update_positive_Ok _ _)) by (split; [reflexivity|eassumption]); cbn [rbind].
  do 7 (erewrite (proj2 (counter_Ok _ _)) by (split; [reflexivity|eassumption]); cbn [rbind]).
  cbv zeta.
  change (jget "candidate_eligible" _) with (JBool c_candidate_eligible0).
  change (jget "failure_code" _) with (opt_str_json c_failure_code0).
  change (jget "producer_version" _) with (JStr c_producer_version0). cbv beta iota.
  change (truthy (JBool ?b)) with b.
  assert (F : match opt_str_json c_failure_code0 with JStr s => Some s | _ => None end = c_failure_code0)
    by by destruct c_failure_code0.
  rewrite F. completion_fields_in. rewrite X. cbn [rbind]. rewrite KP. done.
Qed.

Lemma completion_roundtrip c : completion_ok c -> completion_from_dict (completion_to_dict c) = Ok c.
Proof.
  intros K. unfold completion_from_dict.
  assert (KA : keys_are (completion_to_dict c) completion_fields = true) by (vm_compute; reflexivity).
  rewrite KA. cbn [require rbind]. clear KA.
  change (jget "local_delta" _) with
    (match c_local_delta c with Some d => JObj (delta_to_dict d) | None => JNull end).
  change (jget "numerical_summary" _) with (JObj (numerical_to_dict (c_numerical_summary c))).
  change (jget "resource_summary" _) with (JObj (resource_to_dict (c_resource_summary c))).
  change (jget "reason" _) with (JStr (reason_value (c_reason c))).
  change (jget "status" _) with (JStr (status_value (c_status c))).
  assert (D : optional_delta (match c_local_delta c with Some d => JObj (delta_to_dict d) | None => JNull end)
              = Ok (c_local_delta c)).
  { destruct (c_candidate_eligible c) eqn:E.
    - destruct (g_success c K E) as (d & -> & Kd & _).
      transitivity (let? x := delta_from_dict (delta_to_dict d) in Ok (Some x)); [reflexivity|].
      by rewrite (delta_roundtrip d Kd).
    - by destruct (g_failure c K E) as (-> & _). }
  assert (S : is_none (match c_local_delta c with Some d => JObj (delta_to_dict d) | None => JNull end)
              || is_obj (match c_local_delta c with Some d => JObj (delta_to_dict d) | None => JNull end) = true)
    by by destruct (c_local_delta c).
  rewrite S. cbn [require rbind]. apply built_or_Ok. rewrite D. cbn [rbind].
  destruct (g_summaries c K) as [Kn Kr]. rewrite (numerical_roundtrip _ Kn). cbn [rbind].
  rewrite reason_of_value. cbn [rbind]. rewrite status_of_value. cbn [rbind].
  rewrite (resource_roundtrip _ Kr). cbn [rbind]. by apply new_completion_roundtrip.
Qed.

(** C40: A completion read from a document is consistent: its cursor stays in
    the data range it starts at, it has no more steps than its budget, it is
    eligible as a candidate exactly when it completed all of them, and then it
    carries a delta of its own ticket, model and schema with a finite numerical
    summary and no failure code, otherwise no delta and a failure code; and a
    consistent completion is read back from its own document. *)
Theorem completion_document_exact (o : odict json) (c : LocalRoundCompletion) :
  (completion_from_dict o = Ok c -> completion_ok c) /\
  (completion_ok c -> completion_from_dict (completion_to_dict c) = Ok c).
Proof. split; [apply completion_from_dict_ok|apply completion_roundtrip]. Qed.

(** ** A concrete completion *)

Definition demo_completion (status reason : string) (eligible : bool) (effective : Z) (delta code bits : json) :
    odict json :=
  [("ticket_id", JStr "ticket-1"); ("domain_id", JStr "domain-1"); ("worker_id", JStr "worker-1");
   ("ticket_fingerprint", JStr FORMAL_SEMANTICS_ID); ("data_id", JStr FORMAL_SEMANTICS_ID);
   ("data_range_start", JInt 0); ("data_range_end", JInt 16); ("parent_model_id", JStr FORMAL_SEMANTICS_ID);
   ("parameter_schema_id", JStr FORMAL_SEMANTICS_ID); ("optimizer_profile_id", JStr FORMAL_SEMANTICS_ID);
   ("arithmetic_profile_id", JStr FORMAL_SEMANTICS_ID); ("batch_budget", JInt 2); ("step_budget", JInt 4);
   ("deterministic_seed", JInt 7); ("logical_deadline_ms", JInt 60000); ("effective_steps", JInt effective);
   ("micro_steps", JInt 8); ("processed_tokens", JInt 100); ("cursor_start", JInt 0); ("cursor_end", JInt 16);
   ("status", JStr status); ("reason", JStr reason); ("candidate_eligible", JBool eligible);
   ("local_delta", delta); ("failure_code", code);
   ("numerical_summary", JObj [("all_finite", JBool (negb (is_none bits))); ("max_abs_fp32_bits", JNull);
                               ("global_l2_norm_fp64_bits", JNull)]);
   ("resource_summary", JObj [("peak_memory_bytes", JInt 0); ("wall_time_ms", JInt 5)]);
   ("producer_version", JStr "deltatorrent-worker-0.1.0"); ("formal_semantics_id", JStr FORMAL_SEMANTICS_ID);
   ("schema_version", JStr "1.0.0")].

Definition demo_failure : odict json :=
  demo_completion "FAILED" "DEADLINE" false 3 JNull (JStr "WORKER_DEADLINE_EXCEEDED") JNull.

Lemma completion_document_exact_witness :
  exists c, completion_from_dict demo_failure = Ok c /\ completion_ok c /\
    completion_from_dict (completion_to_dict c) = Ok c.
Proof.
  destruct (completion_from_dict demo_failure) as [c|e] eqn:E; [|vm_compute in E; discriminate].
  exists c. split; [reflexivity|].
  pose proof (proj1 (completion_document_exact demo_failure c) E) as K.
  exact (conj K (proj2 (completion_document_exact demo_failure c) K)).
Defined.

(** [COMPLETED] for the reason [EXACT_H] with fewer steps than the budget, as a
    candidate that is not eligible, is accepted. *)
Example completed_without_all_steps :
  match completion_from_dict (demo_completion "COMPLETED" "EXACT_H" false 3 JNull (JStr "ANY") JNull) with
  | Ok c => c_status c = S_COMPLETED /\ c_effective_steps c = 3 /\ c_step_budget c = 4
  | _ => False
  end.
Proof. vm_compute. auto. Qed.

(** An empty object in place of the delta reads as none. *)
Example empty_delta_is_none :
  match completion_from_dict (od_set "local_delta" (JObj []) demo_failure) with
  | Ok c => c_local_delta c = None
  | _ => False
  end.
Proof. vm_compute. reflexivity. Qed.
