(* ===== verification/WorkerState.v ===== *)
(** * The lifecycle of a local round
    ([deltatorrent/domain/worker_state.py], [deltatorrent/worker/telemetry.py])

    The states of a round and their transitions, the numbered lifecycle events
    and the metrics recorded while it runs. *)

From S2P Require Import Prelude PyFloat PyArith Json WorkerErrors.
From stdpp Require Import relations.
Open Scope string_scope.
Open Scope Z_scope.
Open Scope py_scope.

Inductive LocalRoundState := ACCEPTED | CANCELLED | COMPLETED | FAILED | RECEIVED | RUNNING.

#[export] Instance LocalRoundState_eq_dec : EqDecision LocalRoundState.
Proof. solve_decision. Defined.

Definition state_value (s : LocalRoundState) : string :=
  match s with
  | ACCEPTED => "ACCEPTED" | CANCELLED => "CANCELLED" | COMPLETED => "COMPLETED"
  | FAILED => "FAILED" | RECEIVED => "RECEIVED" | RUNNING => "RUNNING"
  end.

Definition _TRANSITIONS (s : LocalRoundState) : list LocalRoundState :=
  match s with
  | RECEIVED => [ACCEPTED; FAILED]
  | ACCEPTED => [RUNNING; CANCELLED; FAILED]
  | RUNNING => [COMPLETED; CANCELLED; FAILED]
  | COMPLETED | CANCELLED | FAILED => []
  end.

Definition transition (current target : LocalRoundState) : wresult LocalRoundState :=
  require (bool_decide (target ∈ _TRANSITIONS current))
    (DeltaError INVALID_WORKER_TRANSITION "WORKER_TRANSITION_INVALID") ;?
  Ok target.

(** ** Telemetry *)

Record LifecycleEvent := mkEvent {
  e_sequence : Z;
  e_state : LocalRoundState;
  e_ticket_id : string;
  e_domain_id : string }.

Definition event_to_dict (e : LifecycleEvent) : odict json :=
  [("domain_id", JStr (e_domain_id e)); ("schema_version", JStr "1.0.0"); ("sequence", JInt (e_sequence e));
   ("state", JStr (state_value (e_state e))); ("ticket_id", JStr (e_ticket_id e))].

(** [TrainingMetric] of training/local_round.py *)
Record TrainingMetric := mkTrainingMetric {
  m_step : Z;
  m_optimizer_step : Z;
  m_processed_tokens : Z;
  m_loss : pyfloat;
  m_learning_rate : pyfloat }.

Record LocalRoundMetric := mkMetric {
  l_optimizer_step : Z;
  l_micro_step : Z;
  l_processed_tokens : Z;
  l_loss_fp64_bits : string;
  l_learning_rate_nanos : Z }.

Definition metric_to_dict (m : LocalRoundMetric) : odict json :=
  [("learning_rate_nanos", JInt (l_learning_rate_nanos m)); ("loss_fp64_bits", JStr (l_loss_fp64_bits m));
   ("micro_step", JInt (l_micro_step m)); ("optimizer_step", JInt (l_optimizer_step m));
   ("processed_tokens", JInt (l_processed_tokens m)); ("schema_version", JStr "1.0.0")].

Record LocalRoundTelemetry := mkTelemetry {
  t_ticket_id : string;
  t_domain_id : string;
  t_state : LocalRoundState;
  t_events : list LifecycleEvent;
  t_metrics : list LocalRoundMetric }.

Definition _append_event (t : LocalRoundTelemetry) : LocalRoundTelemetry :=
  mkTelemetry (t_ticket_id t) (t_domain_id t) (t_state t)
    (t_events t ++ [mkEvent (Z.of_nat (length (t_events t))) (t_state t) (t_ticket_id t) (t_domain_id t)])
    (t_metrics t).

(** [LocalRoundTelemetry(ticket_id, domain_id)] *)
Definition new_telemetry (ticket_id domain_id : string) : LocalRoundTelemetry :=
  _append_event (mkTelemetry ticket_id domain_id RECEIVED [] []).

(** A refused transition changes nothing. *)
Definition move_to (target : LocalRoundState) (t : LocalRoundTelemetry) : wresult LocalRoundTelemetry :=
  let? state := transition (t_state t) target in
  Ok (_append_event (mkTelemetry (t_ticket_id t) (t_domain_id t) state (t_events t) (t_metrics t))).

Definition record_optimizer_step (metric : TrainingMetric) (learning_rate_nanos : Z) (t : LocalRoundTelemetry) :
    wresult LocalRoundTelemetry :=
  require (bool_decide (t_state t = RUNNING))
    (DeltaError INVALID_WORKER_TRANSITION "METRIC_OUTSIDE_RUNNING_STATE") ;?
  Ok (mkTelemetry (t_ticket_id t) (t_domain_id t) (t_state t) (t_events t)
        (t_metrics t ++ [mkMetric (m_optimizer_step metric) (m_step metric) (m_processed_tokens metric)
                           (pack_double_hex (m_loss metric)) learning_rate_nanos])).

Definition telemetry_to_dict (t : LocalRoundTelemetry) : odict json :=
  [("domain_id", JStr (t_domain_id t)); ("events", JArr (map (fun e => JObj (event_to_dict e)) (t_events t)));
   ("metrics", JArr (map (fun m => JObj (metric_to_dict m)) (t_metrics t)));
   ("schema_version", JStr "1.0.0"); ("ticket_id", JStr (t_ticket_id t))].

(** ** Runs of calls, refused ones included *)

Inductive tcall :=
| MoveTo (target : LocalRoundState)
| Record_ (metric : TrainingMetric) (learning_rate_nanos : Z).

Definition tcall_result (c : tcall) (t : LocalRoundTelemetry) : wresult LocalRoundTelemetry :=
  match c with
  | MoveTo target => move_to target t
  | Record_ m r => record_optimizer_step m r t
  end.

Definition tcall_step (t : LocalRoundTelemetry) (c : tcall) : LocalRoundTelemetry :=
  match tcall_result c t with Ok t' => t' | Raise _ => t end.

Definition after_calls (ticket_id domain_id : string) (cs : list tcall) : LocalRoundTelemetry :=
  fold_left tcall_step cs (new_telemetry ticket_id domain_id).

Definition terminal (s : LocalRoundState) : bool :=
  match s with COMPLETED | CANCELLED | FAILED => true | _ => false end.

(** One transition of the state machine *)
Definition moves (a b : LocalRoundState) : Prop := transition a b = Ok b.

(** A path of the state machine, from its first to its last state *)
Fixpoint is_path (a : LocalRoundState) (l : list LocalRoundState) : Prop :=
  match l with
  | [] => True
  | b :: r => moves a b /\ is_path b r
  end.

(** Events numbered from 0, all of one ticket, along a path that ends in the
    current state; metrics only once the round has run *)
Record telemetry_ok (t : LocalRoundTelemetry) : Prop := {
  o_events : exists l, e_state <$> t_events t = RECEIVED :: l /\ is_path RECEIVED l /\
    last (RECEIVED :: l) = Some (t_state t);
  o_numbers : forall n e, t_events t !! n = Some e ->
    e_sequence e = Z.of_nat n /\ e_ticket_id e = t_ticket_id t /\ e_domain_id e = t_domain_id t;
  o_metrics : t_metrics t <> [] -> RUNNING ∈ (e_state <$> t_events t) }.

Lemma transition_Ok a b c : transition a b = Ok c <-> c = b /\ b ∈ _TRANSITIONS a.
Proof. unfold transition. rewrite rbind_unit_Ok, require_Ok, bool_decide_eq_true. naive_solver. Qed.

(** Every state is left for good. *)
Lemma moves_acyclic a l : is_path a l -> a ∉ l.
Proof.
  assert (R : forall a l, is_path a l -> forall b, b ∈ l ->
    match a with RECEIVED => 0 | ACCEPTED => 1 | RUNNING => 2 | _ => 3 end <
    match b with RECEIVED => 0 | ACCEPTED => 1 | RUNNING => 2 | _ => 3 end).
  { clear a l. intros a l. revert a. induction l as [|c l IH]; intros a; [by intros _ b ?%elem_of_nil|].
    intros [M P] b. pose proof M as M'. apply transition_Ok in M as [_ M].
    intros [->|B]%elem_of_cons; [|pose proof (IH c P b B)];
      destruct a; set_unfold in M; naive_solver lia. }
  intros P E. pose proof (R a l P a E). lia.
Qed.

Lemma path_snoc a l b c :
  is_path a l -> last (a :: l) = Some b -> moves b c -> is_path a (l ++ [c])%list.
Proof.
  revert a. induction l as [|x l IH]; intros a; cbn [is_path app].
  - intros _ [= ->] M. done.
  - intros [M P] L N. split; [done|]. by apply (IH x).
Qed.

Lemma path_append a l m b : is_path a l -> last (a :: l) = Some b -> is_path b m -> is_path a (l ++ m)%list.
Proof.
  revert a. induction l as [|x l IH]; intros a; cbn [is_path app].
  - by intros _ [= ->] M.
  - intros [M P] L N. split; [done|]. by apply (IH x).
Qed.

Lemma new_telemetry_ok i d : telemetry_ok (new_telemetry i d).
Proof.
  constructor; cbn.
  - exists []. done.
  - intros [|[|n]] e; cbn; [|done|done]. by intros [= <-].
  - done.
Qed.

Lemma move_to_ok target t t' :
  telemetry_ok t -> move_to target t = Ok t' ->
  telemetry_ok t' /\ t_state t' = target /\ moves (t_state t) target /\ t_metrics t' = t_metrics t /\
  e_state <$> t_events t' = ((e_state <$> t_events t) ++ [target])%list /\ t_ticket_id t' = t_ticket_id t.
Proof.
  intros [(l & E & P & L) N M]. unfold move_to. intros (s & T & [= <-])%rbind_Ok.
  pose proof T as T'. apply transition_Ok in T as [-> T]. cbn.
  rewrite fmap_app. split; [|done]. constructor; cbn.
  - exists (l ++ [target])%list. rewrite fmap_app, E. split; [done|]. split; [by eapply path_snoc|].
    by rewrite app_comm_cons, last_snoc.
  - intros n e [H|[H1 H2]]%lookup_app_Some; [by apply N|].
    apply list_lookup_singleton_Some in H2 as [H2 <-]. cbn. split; [lia|done].
  - intros H%M. rewrite fmap_app. apply elem_of_app. by left.
Qed.

Lemma record_ok m r t t' :
  telemetry_ok t -> record_optimizer_step m r t = Ok t' ->
  telemetry_ok t' /\ t_state t = RUNNING /\ t_state t' = RUNNING /\ t_events t' = t_events t /\
  t_ticket_id t' = t_ticket_id t.
Proof.
  intros [(l & E & P & L) N M]. unfold record_optimizer_step. intros (R & [= <-])%rbind_unit_Ok.
  apply require_Ok, bool_decide_eq_true in R. cbn. split; [|done]. constructor; cbn; eauto.
  intros _. rewrite E. rewrite R in L. by apply last_Some_elem_of.
Qed.

Lemma record_metrics m r t t' :
  record_optimizer_step m r t = Ok t' -> length (t_metrics t') = S (length (t_metrics t)).
Proof.
  unfold record_optimizer_step. intros (_ & [= <-])%rbind_unit_Ok. cbn. rewrite length_app. cbn. lia.
Qed.

Lemma tcall_step_ok t c : telemetry_ok t -> telemetry_ok (tcall_step t c).
Proof.
  intros K. unfold tcall_step. destruct (tcall_result c t) as [t'|] eqn:E; [|done].
  destruct c; [eapply move_to_ok|eapply record_ok]; done.
Qed.

Lemma calls_ok t cs : telemetry_ok t -> telemetry_ok (fold_left tcall_step cs t).
Proof. revert t. induction cs as [|c cs IH]; intros t K; [done|]. by apply IH, tcall_step_ok. Qed.

Lemma calls_ids i d cs :
  t_ticket_id (after_calls i d cs) = i /\ t_domain_id (after_calls i d cs) = d.
Proof.
  unfold after_calls. generalize (new_telemetry i d) as t, (eq_refl : t_ticket_id (new_telemetry i d) = i),
    (eq_refl : t_domain_id (new_telemetry i d) = d).
  induction cs as [|c cs IH]; intros t Hi Hd; [done|]. cbn [fold_left].
  assert (S : t_ticket_id (tcall_step t c) = i /\ t_domain_id (tcall_step t c) = d); [|destruct S; by apply IH].
  unfold tcall_step. destruct c as [b|m r]; cbn [tcall_result].
  - unfold move_to. by destruct (transition (t_state t) b).
  - unfold record_optimizer_step. by destruct (require _ _).
Qed.

Lemma path_nodup a l : is_path a l -> NoDup (a :: l).
Proof.
  revert a. induction l as [|b l IH]; intros a P; [apply NoDup_singleton|].
  apply NoDup_cons. split; [by apply moves_acyclic|]. apply IH, P.
Qed.

Lemma path_short l : is_path RECEIVED l -> (length l <= 3)%nat.
Proof.
  assert (T : forall a l, terminal a = true -> is_path a l -> l = []).
  { intros a [|b m] H; [done|]. intros [M%transition_Ok _]. destruct a; set_solver. }
  assert (R : forall l, is_path RUNNING l -> (length l <= 1)%nat).
  { intros [|b m]; [cbn; lia|]. intros [[_ M]%transition_Ok P].
    assert (m = []) as ->; [|cbn; lia]. apply (T b); [|done]. destruct b; try done; by apply (bool_decide_pack _) in M. }
  assert (A : forall l, is_path ACCEPTED l -> (length l <= 2)%nat).
  { intros [|b m]; [cbn; lia|]. intros [[_ M]%transition_Ok P].
    destruct (terminal b) eqn:E; [rewrite (T b m E P); cbn; lia|].
    assert (b = RUNNING) as -> by (destruct b; try done; by apply (bool_decide_pack _) in M). apply R in P. cbn; lia. }
  destruct l as [|b m]; [cbn; lia|]. intros [[_ M]%transition_Ok P].
  destruct (terminal b) eqn:E; [rewrite (T b m E P); cbn; lia|].
  assert (b = ACCEPTED) as -> by (destruct b; try done; by apply (bool_decide_pack _) in M). apply A in P. cbn; lia.
Qed.

(** after any sequence of state changes and metrics, refused ones included,
    the events of a round are numbered from 0, all carry its ticket, and their
    states are a path of the state machine from [RECEIVED] to the current state;
    a terminal state refuses every further change and metric; metrics exist only
    if the round has run; a state is never entered twice, so there are at most
    four events. *)
Theorem telemetry_lifecycle (i d : string) (cs more : list tcall) :
  let t := after_calls i d cs in
  (forall n e, t_events t !! n = Some e ->
     e_sequence e = Z.of_nat n /\ e_ticket_id e = i /\ e_domain_id e = d) /\
  (exists l, e_state <$> t_events t = RECEIVED :: l /\ is_path RECEIVED l /\ NoDup (RECEIVED :: l) /\
     (length l <= 3)%nat /\ last (RECEIVED :: l) = Some (t_state t)) /\
  (t_metrics t <> [] -> RUNNING ∈ (e_state <$> t_events t)) /\
  (terminal (t_state t) = true -> fold_left tcall_step more t = t).
Proof.
  intros t. assert (K : telemetry_ok t) by apply calls_ok, new_telemetry_ok.
  destruct K as [(l & E & P & L) N M].
  split; [|split; [|split; [done|]]].
  - intros n e H. destruct (calls_ids i d cs) as [I D]. apply N in H. unfold t in H. by rewrite I, D in H.
  - exists l. split; [done|]. split; [done|]. split; [by apply path_nodup|]. split; [by apply path_short|done].
  - intros T. clear -T. revert t T. induction more as [|c more IH]; intros t T; [done|].
    cbn [fold_left]. assert (tcall_step t c = t) as ->; [|by apply IH]. unfold tcall_step.
    destruct c as [b|m r]; cbn [tcall_result].
    + unfold move_to, transition. by destruct (t_state t).
    + unfold record_optimizer_step. by destruct (t_state t).
Qed.

(** A cancelled run: a metric before the round runs and a move out of the
    terminal state are refused. *)
Example lifecycle_run :
  let m := mkTrainingMetric 2 1 30 (FFin false 15 (-1)) (FFin false 1 (-3)) in
  let t := after_calls "t" "d" [Record_ m 1000; MoveTo ACCEPTED; MoveTo RUNNING; Record_ m 1000; MoveTo CANCELLED;
                                MoveTo COMPLETED] in
  (map e_state (t_events t), map l_loss_fp64_bits (t_metrics t))
  = ([RECEIVED; ACCEPTED; RUNNING; CANCELLED], ["3ff8000000000000"]).
Proof. vm_compute. reflexivity. Qed.
