(* ===== verification/ParameterSchema.v ===== *)
(** * Parameter schemas ([deltatorrent/domain/parameters.py],
    [included_tensor_names] of deltatorrent/delta/schema.py)

    The canonical list of the tensors of a model, its tied aliases and its
    omission policy: construction from documents, documents, fingerprint. *)

From S2P Require Import Prelude PyFloat Json JsonText Text Sha256 WorkerErrors WorkerCanonical ArtifactRef WorkTicket Updates.
Open Scope string_scope.
Open Scope Z_scope.
Open Scope py_scope.

Definition _invalid_schema (message : string) : worker_exn := DeltaError INVALID_PARAMETER_SCHEMA message.

Inductive LogicalDType := BFLOAT16 | FLOAT16 | FLOAT32 | FLOAT64.
Inductive FrozenOmissionPolicy := INCLUDE_ALL | OMIT_FROZEN.

#[export] Instance LogicalDType_eq_dec : EqDecision LogicalDType.
Proof. solve_decision. Defined.
#[export] Instance FrozenOmissionPolicy_eq_dec : EqDecision FrozenOmissionPolicy.
Proof. solve_decision. Defined.

Definition dtype_value (d : LogicalDType) : string :=
  match d with BFLOAT16 => "bfloat16" | FLOAT16 => "float16" | FLOAT32 => "float32" | FLOAT64 => "float64" end.
Definition policy_value (p : FrozenOmissionPolicy) : string :=
  match p with INCLUDE_ALL => "INCLUDE_ALL" | OMIT_FROZEN => "OMIT_FROZEN" end.

Definition dtype_of : json -> wresult LogicalDType := enum_of [BFLOAT16; FLOAT16; FLOAT32; FLOAT64] dtype_value.
Definition policy_of : json -> wresult FrozenOmissionPolicy := enum_of [INCLUDE_ALL; OMIT_FROZEN] policy_value.

(** ** One parameter *)

Record ParameterSpec := mkSpec {
  p_name : string;
  p_shape : list Z;
  p_logical_dtype : LogicalDType;
  p_trainable : bool }.

#[export] Instance ParameterSpec_eq_dec : EqDecision ParameterSpec.
Proof. solve_decision. Defined.

(** The dimensions of a shape, all positive integers *)
Fixpoint dimensions (l : list json) : option (list Z) :=
  match l with
  | [] => Some []
  | JInt n :: r => if 0 <? n then match dimensions r with Some t => Some (n :: t) | None => None end else None
  | _ => None
  end.

(** [ParameterSpec.__post_init__] on the given values *)
Definition new_spec (name : json) (shape : list json) (dtype : LogicalDType) (trainable : json) : wresult ParameterSpec :=
  let? name := checked_str is_parameter_name (_invalid_schema "PARAMETER_NAME_INVALID") name in
  match trainable with
  | JBool trainable =>
      match dimensions shape with
      | Some shape => Ok (mkSpec name shape dtype trainable)
      | None => Raise (_invalid_schema "PARAMETER_SHAPE_INVALID")
      end
  | _ => Raise (_invalid_schema "PARAMETER_TRAINABLE_INVALID")
  end.

Definition spec_to_dict (p : ParameterSpec) : odict json :=
  [("logical_dtype", JStr (dtype_value (p_logical_dtype p))); ("name", JStr (p_name p));
   ("shape", JArr (map JInt (p_shape p))); ("trainable", JBool (p_trainable p))].

Definition spec_from_dict (value : odict json) : wresult ParameterSpec :=
  require (keys_are value ["logical_dtype"; "name"; "shape"; "trainable"]) (_invalid_schema "PARAMETER_FIELDS_INVALID") ;?
  match jget "shape" value with
  | JArr shape =>
      built_or (_invalid_schema "PARAMETER_TYPES_INVALID")
        (let? dtype := dtype_of (jget "logical_dtype" value) in
         new_spec (jget "name" value) shape dtype (jget "trainable" value))
  | _ => Raise (_invalid_schema "PARAMETER_SHAPE_INVALID")
  end.

(** ** The schema *)

Record ParameterSchema := mkSchema {
  s_parameters : list ParameterSpec;
  s_tied_aliases : odict string;
  s_frozen_omission_policy : FrozenOmissionPolicy;
  s_schema_version : string }.

(** The aliases as strings when every one is a parameter name outside [names]
    whose owner is in [names] *)
Fixpoint checked_aliases (names : list string) (o : odict json) : option (odict string) :=
  match o with
  | [] => Some []
  | (alias, JStr owner) :: r =>
      if is_parameter_name alias && str_in owner names && negb (str_in alias names) then
        match checked_aliases names r with Some t => Some ((alias, owner) :: t) | None => None end
      else None
  | _ => None
  end.

Fixpoint insert_alias (x : string * string) (l : odict string) : odict string :=
  match l with
  | [] => [x]
  | y :: r => if String.leb x.1 y.1 then x :: l else y :: insert_alias x r
  end.

(** [dict(sorted(aliases.items()))]: the keys are distinct *)
Definition sort_aliases (o : odict string) : odict string := fold_right insert_alias [] o.

(** [ParameterSchema.__post_init__]; the sort by name is stable, so the
    parameters are their own sorted list when their names are in order. *)
Definition new_schema (parameters : list ParameterSpec) (aliases : odict json) (policy : FrozenOmissionPolicy)
    (version : json) : wresult ParameterSchema :=
  require (py_eq version (JStr "1.0.0")) (_invalid_schema "PARAMETER_SCHEMA_VERSION_UNSUPPORTED") ;?
  require (match parameters with [] => false | _ => true end) (_invalid_schema "PARAMETER_SET_EMPTY_OR_INVALID") ;?
  let names := map p_name parameters in
  require (sorted_names names) (_invalid_schema "PARAMETERS_NOT_CANONICALLY_ORDERED") ;?
  require (nodup_keys names) (_invalid_schema "PARAMETER_NAME_DUPLICATE") ;?
  match checked_aliases names aliases with
  | Some aliases => Ok (mkSchema parameters (sort_aliases aliases) policy "1.0.0")
  | None => Raise (_invalid_schema "TIED_ALIAS_INVALID")
  end.

Definition schema_to_dict (s : ParameterSchema) : odict json :=
  [("frozen_omission_policy", JStr (policy_value (s_frozen_omission_policy s)));
   ("parameters", JArr (map (fun p => JObj (spec_to_dict p)) (s_parameters s)));
   ("schema_version", JStr (s_schema_version s));
   ("tied_aliases", JObj (map (fun kv => (kv.1, JStr kv.2)) (s_tied_aliases s)))].

Definition schema_fingerprint (s : ParameterSchema) : wresult string :=
  let? bytes := canonical_json_bytes (JObj (schema_to_dict s)) in
  Ok (sha256_content_id bytes).

(** The members of a list that are all objects *)
Fixpoint objects (l : list json) : option (list (odict json)) :=
  match l with
  | [] => Some []
  | JObj o :: r => match objects r with Some t => Some (o :: t) | None => None end
  | _ => None
  end.

Definition schema_from_dict (value : odict json) : wresult ParameterSchema :=
  require (keys_are value ["frozen_omission_policy"; "parameters"; "schema_version"; "tied_aliases"])
    (_invalid_schema "PARAMETER_SCHEMA_FIELDS_INVALID") ;?
  match jget "parameters" value with
  | JArr parameters =>
      match objects parameters with
      | Some parameters =>
          match jget "tied_aliases" value with
          | JObj aliases =>
              built_or (_invalid_schema "PARAMETER_SCHEMA_TYPES_INVALID")
                (let? policy := policy_of (jget "frozen_omission_policy" value) in
                 let? parameters := rmap spec_from_dict parameters in
                 new_schema parameters aliases policy (jget "schema_version" value))
          | _ => Raise (_invalid_schema "TIED_ALIASES_INVALID")
          end
      | None => Raise (_invalid_schema "PARAMETER_SET_INVALID")
      end
  | _ => Raise (_invalid_schema "PARAMETER_SET_INVALID")
  end.

Definition included_tensor_names (s : ParameterSchema) : list string :=
  match s_frozen_omission_policy s with
  | OMIT_FROZEN => map p_name (List.filter p_trainable (s_parameters s))
  | INCLUDE_ALL => map p_name (s_parameters s)
  end.

(** ** Sorted members stay in place *)

Lemma sorted_names_cons a l : sorted_names (a :: l) = true -> sorted_names l = true.
Proof. destruct l as [|b l]; [done|]. cbn [sorted_names]. by intros [_ ?]%andb_true_iff. Qed.

Lemma sorted_names_cons2 a b l : sorted_names (a :: b :: l) = String.leb a b && sorted_names (b :: l).
Proof. done. Qed.

Lemma sorted_members_fixed (o : odict json) :
  sorted_names (od_keys o) = true -> fold_right insert_key [] o = o.
Proof.
  induction o as [|x o IH]; intros S; [done|]. cbn [fold_right]. rewrite IH by by eapply sorted_names_cons.
  destruct o as [|y o]; [done|]. cbn [insert_key]. cbn [od_keys map] in S. rewrite sorted_names_cons2 in S.
  apply andb_true_iff in S as [L _]. by rewrite L.
Qed.

Lemma sort_aliases_fixed (l : odict string) : sorted_names (od_keys l) = true -> sort_aliases l = l.
Proof.
  induction l as [|x l IH]; intros S; [done|]. unfold sort_aliases in *. cbn [fold_right].
  rewrite IH by by eapply sorted_names_cons.
  destruct l as [|y l]; [done|]. cbn [insert_alias]. cbn [od_keys map] in S. rewrite sorted_names_cons2 in S.
  apply andb_true_iff in S as [L _]. by rewrite L.
Qed.

Lemma insert_alias_sorted x (l : odict string) :
  sorted_names (od_keys l) = true -> sorted_names (od_keys (insert_alias x l)) = true.
Proof.
  unfold od_keys. induction l as [|y l IH]; intros S; [done|]. cbn [insert_alias].
  destruct (String.leb x.1 y.1) eqn:L.
  - change (map fst (x :: y :: l)) with (x.1 :: y.1 :: map fst l). rewrite sorted_names_cons2, L. exact S.
  - assert (L' : String.leb y.1 x.1 = true) by (destruct (String.leb_total x.1 y.1); congruence).
    pose proof (IH (sorted_names_cons _ _ S)) as I. destruct l as [|z l]; cbn [insert_alias] in *.
    + change (map fst [y; x]) with [y.1; x.1]. by rewrite sorted_names_cons2, L'.
    + change (map fst (y :: z :: l)) with (y.1 :: z.1 :: map fst l) in S. rewrite sorted_names_cons2 in S.
      apply andb_true_iff in S as [S1 S2]. destruct (String.leb x.1 z.1); cbn [map] in *; rewrite sorted_names_cons2.
      * by rewrite L', I.
      * by rewrite S1, I.
Qed.

Lemma sort_aliases_sorted l : sorted_names (od_keys (sort_aliases l)) = true.
Proof. induction l as [|x l IH]; [done|]. by apply insert_alias_sorted. Qed.

Lemma insert_alias_perm x l : insert_alias x l ≡ₚ x :: l.
Proof.
  induction l as [|y l IH]; [done|]. cbn [insert_alias]. destruct (String.leb _ _); [done|].
  rewrite IH. constructor.
Qed.

Lemma sort_aliases_perm l : sort_aliases l ≡ₚ l.
Proof. induction l as [|x l IH]; [done|]. unfold sort_aliases in *. cbn [fold_right]. by rewrite insert_alias_perm, IH. Qed.

(** ** What a constructed schema satisfies *)

Record spec_ok (p : ParameterSpec) : Prop := {
  g_name : is_parameter_name (p_name p) = true;
  g_shape : Forall (fun n => 0 < n) (p_shape p) }.

Definition alias_ok (names : list string) (kv : string * string) : Prop :=
  is_parameter_name kv.1 = true /\ str_in kv.2 names = true /\ str_in kv.1 names = false.

Record schema_ok (s : ParameterSchema) : Prop := {
  g_specs : Forall spec_ok (s_parameters s);
  g_nonempty : s_parameters s <> [];
  g_sorted : sorted_names (map p_name (s_parameters s)) = true;
  g_distinct : nodup_keys (map p_name (s_parameters s)) = true;
  g_aliases : Forall (alias_ok (map p_name (s_parameters s))) (s_tied_aliases s);
  g_aliases_sorted : sorted_names (od_keys (s_tied_aliases s)) = true;
  g_version : s_schema_version s = "1.0.0" }.

Lemma dimensions_Ok l t : dimensions l = Some t <-> l = map JInt t /\ Forall (fun n => 0 < n) t.
Proof.
  revert t. induction l as [|v l IH]; intros t; cbn [dimensions].
  - split; [by intros [= <-]|]. intros [E _]. by destruct t.
  - split.
    + destruct v as [| |n| | | |]; try done. destruct (Z.ltb_spec 0 n); [|done].
      destruct (dimensions l) as [r|]; [|done]. intros [= <-].
      destruct (proj1 (IH r) eq_refl) as [-> F]. split; [done|]. by constructor.
    + intros [E F]. destruct t as [|n r]; [done|]. injection E as -> ->.
      apply Forall_cons in F as [P F]. rewrite (proj2 (Z.ltb_lt 0 n)) by done. by rewrite (proj2 (IH r)).
Qed.

Lemma dtype_of_value d : dtype_of (JStr (dtype_value d)) = Ok d.
Proof. by destruct d. Qed.
Lemma policy_of_value p : policy_of (JStr (policy_value p)) = Ok p.
Proof. by destruct p. Qed.

Lemma new_spec_Ok name shape d tr p :
  new_spec name shape d tr = Ok p <->
  name = JStr (p_name p) /\ shape = map JInt (p_shape p) /\ d = p_logical_dtype p /\ tr = JBool (p_trainable p) /\
  spec_ok p.
Proof.
  unfold new_spec. split.
  - intros (s & [-> N]%checked_str_Ok & H)%rbind_Ok. destruct tr as [|b| | | | |]; try done.
    destruct (dimensions shape) as [t|] eqn:E; [|done]. apply dimensions_Ok in E as [-> F]. by injection H as <-.
  - destruct p as [n s dt b]. cbn. intros (-> & -> & -> & -> & [N F]). cbn in *. rewrite N. cbn.
    by rewrite (proj2 (dimensions_Ok _ s)).
Qed.

Lemma spec_from_dict_ok o p : spec_from_dict o = Ok p -> spec_ok p.
Proof.
  unfold spec_from_dict. intros (_ & H)%rbind_unit_Ok. destruct (jget "shape" o); try done.
  apply built_or_Ok in H. apply rbind_Ok in H as (d & _ & H). by apply new_spec_Ok in H as (_ & _ & _ & _ & ?).
Qed.

Lemma spec_roundtrip p : spec_ok p -> spec_from_dict (spec_to_dict p) = Ok p.
Proof.
  intros K. unfold spec_from_dict. change (keys_are _ _) with true. cbn [require rbind].
  change (jget "shape" _) with (JArr (map JInt (p_shape p))). cbv beta iota. apply built_or_Ok.
  change (jget "logical_dtype" _) with (JStr (dtype_value (p_logical_dtype p))). rewrite dtype_of_value. cbn [rbind].
  by apply new_spec_Ok.
Qed.

Lemma checked_aliases_Ok names o a :
  checked_aliases names o = Some a <-> o = map (fun kv => (kv.1, JStr kv.2)) a /\ Forall (alias_ok names) a.
Proof.
  revert a. induction o as [|[k v] o IH]; intros a; cbn [checked_aliases].
  - split; [by intros [= <-]|]. intros [E _]. by destruct a.
  - split.
    + destruct v as [| | | |w| |]; try done.
      destruct (is_parameter_name k && str_in w names && negb (str_in k names)) eqn:C; [|done].
      apply andb_true_iff in C as [C C3]. apply andb_true_iff in C as [C1 C2]. apply negb_true_iff in C3.
      destruct (checked_aliases names o) as [t|]; [|done]. intros [= <-].
      destruct (proj1 (IH t) eq_refl) as [-> F]. split; [done|]. by constructor.
    + intros [E F]. destruct a as [|[k' w] t]; [done|]. injection E as -> -> ->.
      apply Forall_cons in F as [(C1 & C2 & C3) F]. cbn in C1, C2, C3 |- *. rewrite C1, C2, C3. cbn.
      by rewrite (proj2 (IH t)).
Qed.

Lemma new_schema_ok ps aliases policy v s :
  Forall spec_ok ps -> new_schema ps aliases policy v = Ok s -> schema_ok s.
Proof.
  intros F. unfold new_schema. intros (_ & H)%rbind_unit_Ok. apply rbind_unit_Ok in H as (N & H).
  apply rbind_unit_Ok in H as (S & H). apply rbind_unit_Ok in H as (D & H).
  apply require_Ok in N, S, D. destruct (checked_aliases _ aliases) as [a|] eqn:E; [|done]. injection H as <-.
  apply checked_aliases_Ok in E as [_ A].
  constructor; cbn; [done|by destruct ps|done|done|by rewrite sort_aliases_perm|apply sort_aliases_sorted|done].
Qed.

Lemma schema_from_dict_ok o s : schema_from_dict o = Ok s -> schema_ok s.
Proof.
  unfold schema_from_dict. intros (_ & H)%rbind_unit_Ok. destruct (jget "parameters" o); try done.
  destruct (objects l) as [ps|]; [|done]. destruct (jget "tied_aliases" o); try done.
  apply built_or_Ok in H. apply rbind_Ok in H as (pol & _ & H). apply rbind_Ok in H as (specs & R & H).
  eapply new_schema_ok; [|done]. apply rmap_Ok in R. apply Forall_forall. intros p Hp.
  apply list_elem_of_lookup in Hp as [i Hi]. destruct (Forall2_lookup_r _ _ _ _ _ R Hi) as (x & _ & E).
  by apply spec_from_dict_ok in E.
Qed.

Lemma objects_map {A} (f : A -> odict json) l : objects (map (fun x => JObj (f x)) l) = Some (map f l).
Proof. induction l as [|x l IH]; [done|]. cbn. by rewrite IH. Qed.

Lemma schema_roundtrip s : schema_ok s -> schema_from_dict (schema_to_dict s) = Ok s.
Proof.
  intros [G1 G2 G3 G4 G5 G6 G7]. destruct s as [ps al po v]. cbn in *. subst v. unfold schema_from_dict.
  change (keys_are _ _) with true. cbn [require rbind].
  change (jget "parameters" _) with (JArr (map (fun p => JObj (spec_to_dict p)) ps)). cbv beta iota.
  rewrite objects_map.
  change (jget "tied_aliases" _) with (JObj (map (fun kv => (kv.1, JStr kv.2)) al)). cbv beta iota.
  apply built_or_Ok. change (jget "frozen_omission_policy" _) with (JStr (policy_value po)).
  rewrite policy_of_value. cbn [rbind].
  assert (R : rmap spec_from_dict (map spec_to_dict ps) = Ok ps).
  { clear -G1. induction G1 as [|p ps K _ IH]; [done|]. cbn [map rmap]. rewrite spec_roundtrip, IH by done. done. }
  rewrite R. cbn [rbind]. unfold new_schema. change (py_eq _ _) with true. cbn [require rbind].
  destruct ps as [|p ps]; [done|]. cbn [require rbind]. rewrite G3, G4. cbn [require rbind].
  rewrite (proj2 (checked_aliases_Ok _ _ al)) by done. by rewrite sort_aliases_fixed.
Qed.

(** ** The document determines the schema *)

Lemma spec_dict_sorted p : sort_keys (JObj (spec_to_dict p)) = JObj (spec_to_dict p).
Proof.
  rewrite sort_keys_obj, sorted_members_fixed by (vm_compute; reflexivity). unfold spec_to_dict, sort_members.
  cbn [map fst snd sort_keys]. rewrite map_map. cbn [sort_keys]. done.
Qed.

Lemma schema_dict_sorted s : schema_ok s -> sort_keys (JObj (schema_to_dict s)) = JObj (schema_to_dict s).
Proof.
  intros K. rewrite sort_keys_obj, sorted_members_fixed by (vm_compute; reflexivity).
  unfold schema_to_dict, sort_members. cbn [map fst snd].
  assert (A : sort_keys (JObj (map (fun kv => (kv.1, JStr kv.2)) (s_tied_aliases s)))
              = JObj (map (fun kv => (kv.1, JStr kv.2)) (s_tied_aliases s))).
  { rewrite sort_keys_obj. unfold sort_members. rewrite map_map. cbn [fst snd sort_keys].
    rewrite sorted_members_fixed; [done|]. unfold od_keys. rewrite map_map. apply (g_aliases_sorted s K). }
  rewrite A. cbn [sort_keys]. rewrite map_map. by rewrite (map_ext _ _ spec_dict_sorted).
Qed.

Lemma schema_to_dict_inj a b : schema_ok a -> schema_ok b -> schema_to_dict a = schema_to_dict b -> a = b.
Proof.
  intros Ka Kb E. pose proof (schema_roundtrip a Ka) as Ra. rewrite E, schema_roundtrip in Ra by done. congruence.
Qed.

Lemma schema_dict_wf s : NoDup (od_keys (s_tied_aliases s)) -> json_wf (JObj (schema_to_dict s)) = true.
Proof.
  intros N. assert (P : forallb json_wf (map (fun p => JObj (spec_to_dict p)) (s_parameters s)) = true).
  { apply forallb_forall. intros j (p & <- & _)%in_map_iff. cbn.
    rewrite (proj2 (forallb_forall json_wf (map JInt (p_shape p)))); [done|]. by intros j (n & <- & _)%in_map_iff. }
  assert (Q : forallb (fun kv : string * json => json_wf kv.2) (map (fun kv => (kv.1, JStr kv.2)) (s_tied_aliases s)) = true).
  { apply forallb_forall. by intros j (p & <- & _)%in_map_iff. }
  assert (M : nodup_keys (map fst (map (fun kv : string * string => (kv.1, JStr kv.2)) (s_tied_aliases s))) = true)
    by (rewrite map_map; by apply nodup_keys_NoDup).
  assert (J : json_wf (JObj (map (fun kv : string * string => (kv.1, JStr kv.2)) (s_tied_aliases s))) = true)
    by (cbn [json_wf]; by rewrite M, Q).
  assert (R : json_wf (JArr (map (fun p => JObj (spec_to_dict p)) (s_parameters s))) = true) by exact P.
  unfold schema_to_dict. revert J R. generalize (JObj (map (fun kv : string * string => (kv.1, JStr kv.2)) (s_tied_aliases s))),
    (JArr (map (fun p => JObj (spec_to_dict p)) (s_parameters s))). intros j r J R. cbn. by rewrite J, R.
Qed.

Lemma new_schema_keys ps aliases policy v s :
  nodup_keys (od_keys aliases) = true -> new_schema ps aliases policy v = Ok s ->
  NoDup (od_keys (s_tied_aliases s)).
Proof.
  intros N%nodup_keys_NoDup. unfold new_schema.
  intros (_ & H)%rbind_unit_Ok. apply rbind_unit_Ok in H as (_ & H).
  apply rbind_unit_Ok in H as (_ & H). apply rbind_unit_Ok in H as (_ & H).
  destruct (checked_aliases _ aliases) as [a|] eqn:E; [|done]. injection H as <-. cbn.
  apply checked_aliases_Ok in E as [-> _]. unfold od_keys in *. rewrite map_map in N. cbn [fst] in N.
  change (map fst ?l) with (fst <$> l) in *. rewrite sort_aliases_perm. exact N.
Qed.

Lemma schema_from_dict_keys o s :
  json_wf (JObj o) = true -> schema_from_dict o = Ok s -> NoDup (od_keys (s_tied_aliases s)).
Proof.
  intros W. unfold schema_from_dict. intros (_ & H)%rbind_unit_Ok. destruct (jget "parameters" o); try done.
  destruct (objects l) as [ps|]; [|done]. destruct (jget "tied_aliases" o) as [| | | | | |al] eqn:A; try done.
  apply built_or_Ok in H. apply rbind_Ok in H as (pol & _ & H). apply rbind_Ok in H as (specs & _ & H).
  eapply new_schema_keys; [|done]. apply (jget_wf' "tied_aliases") in W. rewrite A in W.
  cbn [json_wf] in W. by apply andb_true_iff in W as [W _].
Qed.

(** ** The included names *)

Lemma leb_cons a s b t :
  String.leb (String a s) (String b t) = true <->
  (N_of_ascii a < N_of_ascii b)%N \/ (a = b /\ String.leb s t = true).
Proof.
  unfold String.leb. cbn [String.compare]. unfold Ascii.compare.
  destruct (N.compare_spec (N_of_ascii a) (N_of_ascii b)) as [E|L|L].
  - apply (f_equal ascii_of_N) in E. rewrite !ascii_N_embedding in E. subst b.
    split; [by right|]. intros [L|[_ ?]]; [lia|done].
  - split; [by left|done].
  - split; [done|]. intros [?|[-> _]]; lia.
Qed.

Lemma leb_trans a b c : String.leb a b = true -> String.leb b c = true -> String.leb a c = true.
Proof.
  revert b c. induction a as [|x a IH]; intros [|y b] [|z c]; try done.
  rewrite !leb_cons. intros [L|[-> H]] [M|[-> I]]; [left; lia|by left|by left|]. right. split; [done|]. by eapply IH.
Qed.

Lemma sorted_names_head a l b : sorted_names (a :: l) = true -> b ∈ l -> String.leb a b = true.
Proof.
  revert a. induction l as [|c l IH]; intros a S; [by intros ?%elem_of_nil|].
  rewrite sorted_names_cons2 in S. apply andb_true_iff in S as [L S].
  intros [->|H]%elem_of_cons; [done|]. by eapply leb_trans, IH.
Qed.

Lemma sorted_names_filter (l : list ParameterSpec) f :
  sorted_names (map p_name l) = true -> sorted_names (map p_name (List.filter f l)) = true.
Proof.
  induction l as [|p l IH]; intros S; [done|]. cbn [List.filter].
  pose proof (IH (sorted_names_cons _ _ S)) as I. destruct (f p); [|done]. cbn [map].
  destruct (map p_name (List.filter f l)) as [|b m] eqn:E; [done|].
  rewrite sorted_names_cons2, I, andb_true_r. eapply sorted_names_head; [exact S|].
  assert (b ∈ map p_name (List.filter f l)) as H by (rewrite E; left).
  apply list_elem_of_In in H. apply in_map_iff in H as (q & <- & [H _]%filter_In).
  by apply list_elem_of_In, in_map.
Qed.

Lemma nodup_names_filter (l : list ParameterSpec) f : NoDup (map p_name l) -> NoDup (map p_name (List.filter f l)).
Proof.
  induction l as [|p l IH]; [done|]. cbn. intros [N D]%NoDup_cons. destruct (f p); [|by apply IH].
  cbn. apply NoDup_cons. split; [|by apply IH]. intros H. apply N.
  apply list_elem_of_In in H. apply in_map_iff in H as (q & <- & [H _]%filter_In).
  by apply list_elem_of_In, in_map.
Qed.

Lemma included_names_ok s :
  schema_ok s ->
  sorted_names (included_tensor_names s) = true /\ NoDup (included_tensor_names s) /\
  (forall n, n ∈ included_tensor_names s <->
     exists p, p ∈ s_parameters s /\ p_name p = n /\
       (s_frozen_omission_policy s = OMIT_FROZEN -> p_trainable p = true)).
Proof.
  intros K. pose proof (g_sorted s K) as S. pose proof (g_distinct s K) as D. apply nodup_keys_NoDup in D.
  unfold included_tensor_names. destruct (s_frozen_omission_policy s).
  - split; [done|]. split; [done|]. intros n. rewrite list_elem_of_In, in_map_iff.
    setoid_rewrite list_elem_of_In. naive_solver.
  - split; [by apply sorted_names_filter|]. split; [by apply nodup_names_filter|].
    intros n. rewrite list_elem_of_In, in_map_iff. setoid_rewrite list_elem_of_In. setoid_rewrite filter_In.
    naive_solver.
Qed.

(** a schema built from a document lists distinct well-formed parameters in
    canonical order, with every alias tied to one of them; it is read back from
    its own document; two schemas with one fingerprint are the same schema,
    unless their canonical documents are two texts with one SHA-256 digest; and
    the tensors it includes are in canonical order, without duplicates, all of
    them or just the trainable ones. *)
Theorem parameter_schema_identity (o1 o2 : odict json) (s1 s2 : ParameterSchema) (f : string)
    (W1 : json_wf (JObj o1) = true) (W2 : json_wf (JObj o2) = true)
    (B1 : schema_from_dict o1 = Ok s1) (B2 : schema_from_dict o2 = Ok s2)
    (F1 : schema_fingerprint s1 = Ok f) (F2 : schema_fingerprint s2 = Ok f) :
  schema_ok s1 /\ schema_from_dict (schema_to_dict s1) = Ok s1 /\
  (s1 = s2 \/ collide (JObj (schema_to_dict s1)) (JObj (schema_to_dict s2))) /\
  sorted_names (included_tensor_names s1) = true /\ NoDup (included_tensor_names s1) /\
  (forall n, n ∈ included_tensor_names s1 <->
     exists p, p ∈ s_parameters s1 /\ p_name p = n /\
       (s_frozen_omission_policy s1 = OMIT_FROZEN -> p_trainable p = true)).
Proof.
  pose proof (schema_from_dict_ok _ _ B1) as K1. pose proof (schema_from_dict_ok _ _ B2) as K2.
  split; [done|]. split; [by apply schema_roundtrip|]. split; [|by apply included_names_ok].
  pose proof (schema_dict_wf _ (schema_from_dict_keys _ _ W1 B1)) as D1.
  pose proof (schema_dict_wf _ (schema_from_dict_keys _ _ W2 B2)) as D2.
  destruct (document_id_binds _ _ f D1 D2 F1 F2) as [E|C]; [left|by right].
  rewrite !schema_dict_sorted in E by done. apply schema_to_dict_inj; congruence.
Qed.

(** ** A concrete schema *)

Definition demo_spec (name : string) (trainable : bool) : json :=
  JObj [("name", JStr name); ("shape", JArr [JInt 2; JInt 3]); ("logical_dtype", JStr "float32");
        ("trainable", JBool trainable)].

Definition demo_schema_doc : odict json :=
  [("parameters", JArr [demo_spec "embed.weight" true; demo_spec "frozen" false; demo_spec "out.bias" true]);
   ("tied_aliases", JObj [("out.weight", JStr "embed.weight"); ("alias", JStr "frozen")]);
   ("frozen_omission_policy", JStr "OMIT_FROZEN"); ("schema_version", JStr "1.0.0")].

Lemma parameter_schema_identity_witness :
  exists s f, schema_from_dict demo_schema_doc = Ok s /\ schema_fingerprint s = Ok f /\
    od_keys (s_tied_aliases s) = ["alias"; "out.weight"] /\
    included_tensor_names s = ["embed.weight"; "out.bias"] /\
    schema_from_dict (schema_to_dict s) = Ok s.
Proof.
  destruct (schema_from_dict demo_schema_doc) as [s|] eqn:E; [|vm_compute in E; discriminate].
  assert (C : match schema_from_dict demo_schema_doc with
              | Ok s => match schema_fingerprint s with Ok _ => true | _ => false end
                        && bool_decide (od_keys (s_tied_aliases s) = ["alias"; "out.weight"])
                        && bool_decide (included_tensor_names s = ["embed.weight"; "out.bias"])
              | _ => false end = true) by (vm_compute; reflexivity).
  rewrite E in C. destruct (schema_fingerprint s) as [f|] eqn:F; [|discriminate].
  apply andb_true_iff in C as [C1 C2]. apply bool_decide_eq_true in C1, C2.
  exists s, f. split; [reflexivity|]. split; [exact F|]. split; [exact C1|]. split; [exact C2|].
  assert (W : json_wf (JObj demo_schema_doc) = true) by (vm_compute; reflexivity).
  exact (proj1 (proj2 (parameter_schema_identity demo_schema_doc demo_schema_doc s s f W W E E F F))).
Defined.
