(* ===== verification/BaselineConfig.v ===== *)
(** * Training configuration and execution profiles
    ([deltatorrent/training/config.py], the profiles of
    deltatorrent/worker/validation.py)

    A configuration built from a mapping, and the content ids a ticket names it
    by.  Reading it from a file is the caller's. *)

From S2P Require Import Prelude PyFloat PyArith Json JsonText Text Sha256 WorkerErrors WorkerCanonical ArtifactRef WorkTicket Updates ParameterSchema.
Open Scope string_scope.
Open Scope Z_scope.
Open Scope py_scope.

Definition CONFIG_SCHEMA_VERSION : string := "1.0.0".

Definition _invalid_config (message : string) : worker_exn := DeltaError SCHEMA_INVALID message.

Record BaselineConfig := mkConfig {
  run_id : json;
  corpus_path : json;
  tokenizer_path : json;
  output_dir : json;
  b_seed : Z;
  device : string;
  dtype : string;
  sequence_length : Z;
  batch_size : Z;
  gradient_accumulation_steps : Z;
  optimizer_steps : Z;
  checkpoint_every_optimizer_steps : Z;
  vocab_size : Z;
  hidden_size : Z;
  learning_rate_nanos : Z;
  weight_decay_ppm : Z;
  beta1_ppm : Z;
  beta2_ppm : Z;
  epsilon_nanos : Z;
  b_schema_version : string }.

(** The integer fields, in the order they are checked *)
Definition integer_fields : list string :=
  ["batch_size"; "beta1_ppm"; "beta2_ppm"; "checkpoint_every_optimizer_steps"; "epsilon_nanos";
   "gradient_accumulation_steps"; "hidden_size"; "learning_rate_nanos"; "optimizer_steps"; "seed";
   "sequence_length"; "vocab_size"; "weight_decay_ppm"].

Definition natural (v : json) : bool := match v with JInt n => negb (n <? 0) | _ => false end.

Definition int_of (k : string) (value : odict json) : Z := match jget k value with JInt n => n | _ => 0 end.

(** The configuration of a mapping whose integer fields are integers *)
Definition config_of (value : odict json) : BaselineConfig :=
  let i k := int_of k value in
  mkConfig (jget "run_id" value) (jget "corpus_path" value) (jget "tokenizer_path" value) (jget "output_dir" value)
    (i "seed") "cpu" "float32" (i "sequence_length") (i "batch_size") (i "gradient_accumulation_steps")
    (i "optimizer_steps") (i "checkpoint_every_optimizer_steps") (i "vocab_size") (i "hidden_size")
    (i "learning_rate_nanos") (i "weight_decay_ppm") (i "beta1_ppm") (i "beta2_ppm") (i "epsilon_nanos")
    CONFIG_SCHEMA_VERSION.

Definition positive_fields (c : BaselineConfig) : list Z :=
  [batch_size c; checkpoint_every_optimizer_steps c; epsilon_nanos c; gradient_accumulation_steps c;
   hidden_size c; learning_rate_nanos c; optimizer_steps c; sequence_length c; vocab_size c].

(** [BaselineConfig.__post_init__] *)
Definition new_config (value : odict json) : wresult BaselineConfig :=
  require (py_eq (jget "schema_version" value) (JStr CONFIG_SCHEMA_VERSION)) (_invalid_config "CONFIG_VERSION_UNSUPPORTED") ;?
  require (truthy (jget "run_id" value)) (_invalid_config "run_id is invalid") ;?
  let? n := py_len (jget "run_id" value) in
  require (negb (128 <? n)) (_invalid_config "run_id is invalid") ;?
  require (truthy (jget "corpus_path" value) && truthy (jget "tokenizer_path" value) && truthy (jget "output_dir" value))
    (_invalid_config "config paths must be non-empty") ;?
  require (py_eq (jget "device" value) (JStr "cpu") && py_eq (jget "dtype" value) (JStr "float32"))
    (_invalid_config "feature 001 supports only cpu/float32 reproducibility class") ;?
  require (forallb (fun k => natural (jget k value)) integer_fields)
    (_invalid_config "config integer must be non-negative") ;?
  let c := config_of value in
  require (negb (existsb (Z.eqb 0) (positive_fields c)))
    (_invalid_config "config dimensions and schedules must be positive") ;?
  require ((0 <=? beta1_ppm c) && (beta1_ppm c <? beta2_ppm c) && (beta2_ppm c <? 1000000))
    (_invalid_config "AdamW betas must satisfy 0 <= beta1 < beta2 < 1") ;?
  require (negb (1000000 <? weight_decay_ppm c)) (_invalid_config "weight_decay_ppm cannot exceed one") ;?
  Ok c.

Definition config_fields : list string :=
  ["run_id"; "corpus_path"; "tokenizer_path"; "output_dir"; "seed"; "device"; "dtype"; "sequence_length";
   "batch_size"; "gradient_accumulation_steps"; "optimizer_steps"; "checkpoint_every_optimizer_steps"; "vocab_size";
   "hidden_size"; "learning_rate_nanos"; "weight_decay_ppm"; "beta1_ppm"; "beta2_ppm"; "epsilon_nanos";
   "schema_version"].

Definition config_from_mapping (value : odict json) : wresult BaselineConfig :=
  require (keys_are value config_fields) (_invalid_config "CONFIG_FIELDS_INVALID") ;?
  type_error_as (_invalid_config "CONFIG_FIELD_TYPE_INVALID") (new_config value).

Definition config_to_dict (c : BaselineConfig) : odict json :=
  [("batch_size", JInt (batch_size c)); ("beta1_ppm", JInt (beta1_ppm c)); ("beta2_ppm", JInt (beta2_ppm c));
   ("checkpoint_every_optimizer_steps", JInt (checkpoint_every_optimizer_steps c)); ("corpus_path", corpus_path c);
   ("device", JStr (device c)); ("dtype", JStr (dtype c)); ("epsilon_nanos", JInt (epsilon_nanos c));
   ("gradient_accumulation_steps", JInt (gradient_accumulation_steps c)); ("hidden_size", JInt (hidden_size c));
   ("learning_rate_nanos", JInt (learning_rate_nanos c)); ("optimizer_steps", JInt (optimizer_steps c));
   ("output_dir", output_dir c); ("run_id", run_id c); ("schema_version", JStr (b_schema_version c));
   ("seed", JInt (b_seed c)); ("sequence_length", JInt (sequence_length c)); ("tokenizer_path", tokenizer_path c);
   ("vocab_size", JInt (vocab_size c)); ("weight_decay_ppm", JInt (weight_decay_ppm c))].

Definition migrate_config (value : odict json) : wresult (odict json) :=
  require (py_eq (jget "schema_version" value) (JStr CONFIG_SCHEMA_VERSION)) (_invalid_config "CONFIG_MIGRATION_UNAVAILABLE") ;?
  Ok value.

(** [nanos / 1_000_000_000], an [OverflowError] beyond the floats *)
Definition learning_rate (c : BaselineConfig) : wresult pyfloat :=
  match int_true_div (learning_rate_nanos c) 1000000000 with Some f => Ok f | None => Raise WOverflowError end.

(** ** Limits and profiles *)

Record LocalRoundLimits := mkLimits {
  per_tensor_norm_ceiling_microunits : Z;
  global_norm_ceiling_microunits : Z }.

Definition new_limits (per_tensor global : json) : wresult LocalRoundLimits :=
  match per_tensor, global with
  | JInt p, JInt g =>
      require ((0 <? p) && (0 <? g)) (WorkTicket._invalid "WORK_TICKET_NORM_LIMIT_INVALID") ;? Ok (mkLimits p g)
  | _, _ => Raise (WorkTicket._invalid "WORK_TICKET_NORM_LIMIT_INVALID")
  end.

Definition default_limits : LocalRoundLimits := mkLimits 1000000000000 1000000000000.

(** [microunits / 1_000_000] *)
Definition norm_ceiling (microunits : Z) : wresult pyfloat :=
  match int_true_div microunits 1000000 with Some f => Ok f | None => Raise WOverflowError end.

Definition optimizer_profile_payload (c : BaselineConfig) : odict json :=
  [("beta1_ppm", JInt (beta1_ppm c)); ("beta2_ppm", JInt (beta2_ppm c)); ("epsilon_nanos", JInt (epsilon_nanos c));
   ("kind", JStr "CANONICAL_ADAMW_V1"); ("learning_rate_nanos", JInt (learning_rate_nanos c));
   ("schema_version", JStr "1.0.0"); ("weight_decay_ppm", JInt (weight_decay_ppm c))].

Definition profile_id (payload : odict json) : wresult string :=
  let? bytes := canonical_json_bytes (JObj payload) in Ok (sha256_content_id bytes).

Definition optimizer_profile_id_of (c : BaselineConfig) : wresult string := profile_id (optimizer_profile_payload c).

Definition arithmetic_profile_payload (c : BaselineConfig) (tokenizer_id : string) (limits : LocalRoundLimits) :
    odict json :=
  [("device", JStr (device c)); ("dtype", JStr (dtype c));
   ("global_norm_ceiling_microunits", JInt (global_norm_ceiling_microunits limits));
   ("gradient_accumulation_steps", JInt (gradient_accumulation_steps c)); ("hidden_size", JInt (hidden_size c));
   ("per_tensor_norm_ceiling_microunits", JInt (per_tensor_norm_ceiling_microunits limits));
   ("schema_version", JStr "1.0.0"); ("sequence_length", JInt (sequence_length c));
   ("tokenizer_id", JStr tokenizer_id); ("vocab_size", JInt (vocab_size c))].

Definition arithmetic_profile_id_of (c : BaselineConfig) (tokenizer_id : string) (limits : LocalRoundLimits) :
    wresult string :=
  profile_id (arithmetic_profile_payload c tokenizer_id limits).

(** ** What a constructed configuration satisfies *)

Definition sized (j : json) : Prop := truthy j = true /\ exists n, py_len j = Ok n /\ n <= 128.

Record config_ok (c : BaselineConfig) : Prop := {
  f_run_id : sized (run_id c);
  f_paths : truthy (corpus_path c) = true /\ truthy (tokenizer_path c) = true /\ truthy (output_dir c) = true;
  f_device : device c = "cpu" /\ dtype c = "float32";
  f_positive : Forall (fun n => 0 < n) (positive_fields c);
  f_seed : 0 <= b_seed c;
  f_betas : 0 <= beta1_ppm c < beta2_ppm c /\ beta2_ppm c < 1000000;
  f_decay : 0 <= weight_decay_ppm c <= 1000000;
  f_version : b_schema_version c = CONFIG_SCHEMA_VERSION }.

Lemma natural_int k o : natural (jget k o) = true -> jget k o = JInt (int_of k o) /\ 0 <= int_of k o.
Proof.
  unfold int_of. destruct (jget k o) as [| |n| | | |]; try done. cbn. rewrite negb_true_iff, Z.ltb_ge. done.
Qed.

Lemma new_config_ok o c : new_config o = Ok c -> config_ok c /\ c = config_of o.
Proof.
  unfold new_config. intros (_ & H)%rbind_unit_Ok. apply rbind_unit_Ok in H as (R & H).
  apply rbind_Ok in H as (n & L & H). apply rbind_unit_Ok in H as (B & H). apply rbind_unit_Ok in H as (P & H).
  apply rbind_unit_Ok in H as (_ & H). apply rbind_unit_Ok in H as (I & H). apply rbind_unit_Ok in H as (Z0 & H).
  apply rbind_unit_Ok in H as (Be & H). apply rbind_unit_Ok in H as (D & [= <-]).
  rewrite require_Ok in R, B, P, I, Z0, Be, D. rewrite negb_true_iff in B, D, Z0.
  apply Z.ltb_ge in B, D. rewrite !andb_true_iff in P, Be. rewrite Z.leb_le, !Z.ltb_lt in Be.
  rewrite forallb_forall in I.
  assert (N : forall k, In k integer_fields -> 0 <= int_of k o) by (intros k Hk; by apply natural_int, I).
  split; [|done]. constructor.
  - split; [done|]. by exists n.
  - naive_solver.
  - done.
  - apply Forall_forall. intros x Hx. assert (0 <= x).
    { unfold positive_fields in Hx. repeat (apply elem_of_cons in Hx as [->|Hx]; [apply N; cbn; tauto|]).
      by apply elem_of_nil in Hx. }
    assert (x <> 0); [|lia]. intros ->. apply Bool.not_true_iff_false in Z0. apply Z0. apply existsb_exists.
    exists 0. split; [by apply list_elem_of_In|done].
  - apply N. cbn. tauto.
  - tauto.
  - split; [|done]. apply N. cbn. tauto.
  - done.
Qed.

Lemma config_roundtrip c : config_ok c -> config_from_mapping (config_to_dict c) = Ok c.
Proof.
  intros [[R1 (n & R2 & R3)] (P1 & P2 & P3) [D1 D2] Po S [[B1 B2] B3] [W1 W2] V].
  unfold config_from_mapping. assert (K : keys_are (config_to_dict c) config_fields = true) by (vm_compute; reflexivity).
  rewrite K. cbn [require rbind]. apply type_error_as_Ok.
  assert (E : config_of (config_to_dict c) = c) by (destruct c; cbn in *; by subst).
  unfold new_config. rewrite E. destruct c as [ri co tp od sd dv dt sl bs ga os ck vs hs lr wd b1 b2 ep sv].
  cbn [run_id corpus_path tokenizer_path output_dir b_seed device dtype sequence_length batch_size
    gradient_accumulation_steps optimizer_steps checkpoint_every_optimizer_steps vocab_size hidden_size
    learning_rate_nanos weight_decay_ppm beta1_ppm beta2_ppm epsilon_nanos b_schema_version] in *. subst.
  change (py_eq (jget "schema_version" _) _) with true. cbn [require rbind].
  change (jget "run_id" _) with ri. rewrite R1, R2. cbn [require rbind].
  rewrite (proj2 (Z.ltb_ge 128 n)) by done. cbn [negb require rbind].
  change (jget "corpus_path" _) with co. change (jget "tokenizer_path" _) with tp. change (jget "output_dir" _) with od.
  rewrite P1, P2, P3. cbn [andb require rbind].
  change (py_eq (jget "device" _) _) with true. change (py_eq (jget "dtype" _) _) with true. cbn [andb require rbind].
  unfold positive_fields in Po. cbn in Po. rewrite !Forall_cons in Po.
  destruct Po as (Q1 & Q2 & Q3 & Q4 & Q5 & Q6 & Q7 & Q8 & Q9 & _).
  assert (N : forall k, In k integer_fields -> natural (jget k (config_to_dict (mkConfig ri co tp od sd "cpu" "float32" sl bs ga os
    ck vs hs lr wd b1 b2 ep CONFIG_SCHEMA_VERSION))) = true).
  { intros k Hk. cbn [In integer_fields] in Hk. unfold natural.
    repeat (destruct Hk as [<-|Hk]; [cbn [jget od_get config_to_dict String.eqb Ascii.eqb Bool.eqb]; cbn; apply negb_true_iff, Z.ltb_ge; lia|]). done. }
  apply forallb_forall in N. rewrite N. cbn [require rbind].
  assert (X : existsb (Z.eqb 0) (positive_fields (mkConfig ri co tp od sd "cpu" "float32" sl bs ga os
    ck vs hs lr wd b1 b2 ep CONFIG_SCHEMA_VERSION)) = false).
  { apply Bool.not_true_iff_false. intros (x & Hx & E0%Z.eqb_eq)%existsb_exists. subst x. cbn in Hx. lia. }
  rewrite X. cbn [negb require rbind beta1_ppm beta2_ppm weight_decay_ppm]. rewrite (proj2 (Z.leb_le 0 b1)), (proj2 (Z.ltb_lt b1 b2)), (proj2 (Z.ltb_lt b2 _)) by done.
  cbn [andb require rbind]. by rewrite (proj2 (Z.ltb_ge 1000000 wd)).
Qed.

(** ** Profile ids *)

(** An object of scalars with its keys in order is its own canonical form. *)
Lemma flat_sorted (o : odict json) :
  sorted_names (od_keys o) = true -> sort_members o = o -> sort_keys (JObj o) = JObj o.
Proof. intros S M. by rewrite sort_keys_obj, M, sorted_members_fixed. Qed.

(** The fields an optimizer profile names *)
Definition same_optimizer (c d : BaselineConfig) : Prop :=
  beta1_ppm c = beta1_ppm d /\ beta2_ppm c = beta2_ppm d /\ epsilon_nanos c = epsilon_nanos d /\
  learning_rate_nanos c = learning_rate_nanos d /\ weight_decay_ppm c = weight_decay_ppm d.

(** The fields an arithmetic profile names *)
Definition same_arithmetic (c d : BaselineConfig) : Prop :=
  device c = device d /\ dtype c = dtype d /\ gradient_accumulation_steps c = gradient_accumulation_steps d /\
  hidden_size c = hidden_size d /\ sequence_length c = sequence_length d /\ vocab_size c = vocab_size d.

(** a configuration built from a mapping is within the documented ranges and
    is read back from its own document; the two profile ids by which a ticket
    names its execution determine the optimizer's hyperparameters and,
    respectively, the model's dimensions, the tokenizer and the norm limits, up
    to an exhibited SHA-256 collision. *)
Theorem execution_profiles_bind (o1 o2 : odict json) (c d : BaselineConfig) (t u f g : string)
    (l m : LocalRoundLimits)
    (B1 : config_from_mapping o1 = Ok c) (B2 : config_from_mapping o2 = Ok d)
    (F1 : optimizer_profile_id_of c = Ok f) (F2 : optimizer_profile_id_of d = Ok f)
    (G1 : arithmetic_profile_id_of c t l = Ok g) (G2 : arithmetic_profile_id_of d u m = Ok g) :
  config_ok c /\ config_from_mapping (config_to_dict c) = Ok c /\
  (same_optimizer c d \/ collide (JObj (optimizer_profile_payload c)) (JObj (optimizer_profile_payload d))) /\
  ((same_arithmetic c d /\ t = u /\ l = m) \/
   collide (JObj (arithmetic_profile_payload c t l)) (JObj (arithmetic_profile_payload d u m))).
Proof.
  assert (K : config_ok c).
  { unfold config_from_mapping in B1. apply rbind_unit_Ok in B1 as (_ & H). apply type_error_as_Ok in H.
    by apply new_config_ok in H as [? _]. }
  split; [done|]. split; [by apply config_roundtrip|]. split.
  - destruct (document_id_binds (JObj (optimizer_profile_payload c)) (JObj (optimizer_profile_payload d)) f eq_refl eq_refl F1 F2) as [E|C]; [left|by right].
    rewrite !flat_sorted in E by done. unfold optimizer_profile_payload in E. by injection E.
  - destruct (document_id_binds (JObj (arithmetic_profile_payload c t l)) (JObj (arithmetic_profile_payload d u m)) g
      eq_refl eq_refl G1 G2) as [E|C]; [left|by right].
    rewrite !flat_sorted in E by done. unfold arithmetic_profile_payload in E. injection E.
    destruct l, m. cbn. unfold same_arithmetic. intros. subst. auto 12.
Qed.

Definition demo_config : odict json :=
  [("run_id", JStr "run"); ("corpus_path", JStr "c.txt"); ("tokenizer_path", JStr "t.json"); ("output_dir", JStr "out");
   ("seed", JInt 7); ("device", JStr "cpu"); ("dtype", JStr "float32"); ("sequence_length", JInt 4);
   ("batch_size", JInt 2); ("gradient_accumulation_steps", JInt 2); ("optimizer_steps", JInt 4);
   ("checkpoint_every_optimizer_steps", JInt 1); ("vocab_size", JInt 16); ("hidden_size", JInt 8);
   ("learning_rate_nanos", JInt 1000000); ("weight_decay_ppm", JInt 10000); ("beta1_ppm", JInt 900000);
   ("beta2_ppm", JInt 999000); ("epsilon_nanos", JInt 10); ("schema_version", JStr "1.0.0")].

Lemma execution_profiles_bind_witness :
  exists c f g, config_from_mapping demo_config = Ok c /\ optimizer_profile_id_of c = Ok f /\
    arithmetic_profile_id_of c "t" default_limits = Ok g /\ config_from_mapping (config_to_dict c) = Ok c.
Proof.
  destruct (config_from_mapping demo_config) as [c|] eqn:E; [|vm_compute in E; discriminate].
  assert (C : match config_from_mapping demo_config with
              | Ok c => match optimizer_profile_id_of c, arithmetic_profile_id_of c "t" default_limits with
                        | Ok _, Ok _ => true | _, _ => false end
              | _ => false end = true) by (vm_compute; reflexivity).
  rewrite E in C. destruct (optimizer_profile_id_of c) as [f|] eqn:F; [|discriminate].
  destruct (arithmetic_profile_id_of c "t" default_limits) as [g|] eqn:G; [|discriminate].
  exists c, f, g. split; [reflexivity|]. split; [exact F|]. split; [exact G|].
  exact (proj1 (proj2 (execution_profiles_bind demo_config demo_config c c "t" "t" f g default_limits default_limits
    E E F F G G))).
Defined.
