(* ===== verification/DeltaSchema.v ===== *)
(** * Tensors against a parameter schema
    ([deltatorrent/delta/]: schema.py, validation.py, builder.py,
    normalization.py, reconstruction.py)

    The tensors are torch's: [TensorOps] is what the code asks of them.  A module
    is the list [named_parameters(remove_duplicate=False)] returns. *)

From S2P Require Import Prelude PyFloat PyArith Json JsonText Text Sha256 WorkerErrors WorkerCanonical ArtifactRef WorkTicket Updates ParameterSchema Sampler.
Open Scope string_scope.
Open Scope Z_scope.
Open Scope py_scope.

Definition _invalid_tensor (message : string) : worker_exn := DeltaError INVALID_DELTA_TENSOR message.

Class TensorOps (Tensor : Type) := {
  shape : Tensor -> list Z;
  logical_dtype : Tensor -> option LogicalDType;
  on_cpu : Tensor -> bool;
  is_contiguous : Tensor -> bool;
  all_elements_finite : Tensor -> bool;
  max_abs : Tensor -> pyfloat;
  vector_norm : Tensor -> pyfloat;
  to_fp32 : Tensor -> Tensor;
  sub : Tensor -> Tensor -> Tensor;
  div : Tensor -> Z -> Tensor;
  tensor_equal : Tensor -> Tensor -> bool;
  allclose : Tensor -> Tensor -> bool }.

Section Tensors.
Context {Tensor : Type} `{!TensorOps Tensor}.

(** ** Schemas of modules *)

Record Parameter_ := mkParameter { object_id : Z; requires_grad : bool; value : Tensor }.
Definition Module_ : Type := list (string * Parameter_).

(** [tuple(sorted(module.named_parameters(…)))]: the names are distinct. *)
Definition _all_named_parameters (module : Module_) : Module_ := sorted_by String.leb fst module.

(** [grouped]: the named parameters of each object, in order of appearance *)
Fixpoint add_to_group (x : string * Parameter_) (groups : list (Z * Module_)) : list (Z * Module_) :=
  match groups with
  | [] => [(object_id x.2, [x])]
  | (i, g) :: r => if i =? object_id x.2 then (i, (g ++ [x])%list) :: r else (i, g) :: add_to_group x r
  end.

Definition grouped (l : Module_) : list (Z * Module_) := fold_left (fun gs x => add_to_group x gs) l [].

(** [min(group, key=name)]: the first of the least *)
Definition min_by_name (x : string * Parameter_) (group : Module_) : string * Parameter_ :=
  fold_left (fun best y => if String.ltb y.1 best.1 then y else best) group x.

Definition group_owner (group : Module_) : option (string * Parameter_) :=
  match group with [] => None | x :: r => Some (min_by_name x r) end.

(** The specification of a group *)
Definition owner_spec (owner : string * Parameter_) : wresult ParameterSpec :=
  match logical_dtype (value owner.2) with
  | None => Raise (_invalid_schema "PARAMETER_DTYPE_UNSUPPORTED")
  | Some dtype => new_spec (JStr owner.1) (map JInt (shape (value owner.2))) dtype (JBool (requires_grad owner.2))
  end.

(** [for group in grouped.values()]: the specifications and the aliases *)
Fixpoint describe_groups (groups : list Module_) (aliases : odict string) :
    wresult (list ParameterSpec * odict string) :=
  match groups with
  | [] => Ok ([], aliases)
  | group :: r =>
      match group_owner group with
      | None => Raise WValueError
      | Some owner =>
          let? spec := owner_spec owner in
          let aliases := fold_left (fun a x => if String.eqb x.1 owner.1 then a else od_set x.1 owner.1 a) group aliases in
          let? rest := describe_groups r aliases in
          Ok (spec :: rest.1, rest.2)
      end
  end.

Definition derive_parameter_schema (module : Module_) (policy : FrozenOmissionPolicy) : wresult ParameterSchema :=
  let groups := grouped (_all_named_parameters module) in
  require (match groups with [] => false | _ => true end) (_invalid_schema "PARAMETER_SET_EMPTY_OR_INVALID") ;?
  let? described := describe_groups (map snd groups) [] in
  new_schema (sorted_by String.leb p_name described.1) (map (fun kv => (kv.1, JStr kv.2)) described.2) policy
    (JStr "1.0.0").

(** [{name: f(d[name]) for name in names}], a [KeyError] for a name that is
    missing *)
Definition pick {A B} (f : A -> B) (d : odict A) (names : list string) : wresult (odict B) :=
  rmap (fun name => match od_get name d with Some x => Ok (name, f x) | None => Raise WKeyError end) names.

Definition canonical_parameter_tensors (module : Module_) (schema : ParameterSchema) : wresult (odict Parameter_) :=
  let? actual := derive_parameter_schema module (s_frozen_omission_policy schema) in
  require (py_eq (JObj (schema_to_dict actual)) (JObj (schema_to_dict schema)))
    (_invalid_schema "PARAMETER_SCHEMA_MISMATCH") ;?
  pick id (_all_named_parameters module) (included_tensor_names schema).

Definition spec_shape (schema : ParameterSchema) (name : string) : option (list Z) :=
  match List.find (fun p => String.eqb (p_name p) name) (s_parameters schema) with
  | Some p => Some (p_shape p)
  | None => None
  end.

Definition shape_matches (schema : ParameterSchema) (name : string) (t : Tensor) : bool :=
  bool_decide (spec_shape schema name = Some (shape t)).

Definition validate_parameter_mapping (tensors : odict Tensor) (schema : ParameterSchema) : wresult unit :=
  let expected := included_tensor_names schema in
  require (bool_decide (sorted_by String.leb id (od_keys tensors) = expected))
    (_invalid_schema "PARAMETER_TENSOR_SET_MISMATCH") ;?
  rforall (fun name =>
             require (match od_get name tensors with Some t => shape_matches schema name t | None => false end)
               (_invalid_schema "PARAMETER_TENSOR_SHAPE_MISMATCH")) expected.

(** ** Validation of a bundle *)

Record TensorNormSummary := mkNorms { max_abs_bits : string; global_l2_bits : string }.

Definition _ceiling (value : json) : wresult (option pyfloat) :=
  match value with
  | JNull => Ok None
  | JInt n =>
      match float_of_int n with
      | None => Raise WOverflowError
      | Some f => require (negb (float_lt f (FFin false 0 0))) (_invalid_tensor "NORM_CEILING_INVALID") ;? Ok (Some f)
      end
  | JFloat f =>
      require (float_finite f && negb (float_lt f (FFin false 0 0))) (_invalid_tensor "NORM_CEILING_INVALID") ;?
      Ok (Some f)
  | _ => Raise (_invalid_tensor "NORM_CEILING_INVALID")
  end.

Definition exceeds (x : pyfloat) (limit : option pyfloat) : bool :=
  match limit with Some l => float_lt l x | None => false end.

Definition layout_valid (schema : ParameterSchema) (name : string) (t : Tensor) : bool :=
  shape_matches schema name t && bool_decide (logical_dtype t = Some FLOAT32) && on_cpu t && is_contiguous t.

(** The loop over the tensors: the largest magnitude and the squared norm *)
Fixpoint tensor_norms (schema : ParameterSchema) (per_tensor : option pyfloat) (tensors : odict Tensor)
    (maximum squared_norm : pyfloat) : wresult (pyfloat * pyfloat) :=
  match tensors with
  | [] => Ok (maximum, squared_norm)
  | (name, t) :: r =>
      require (layout_valid schema name t) (_invalid_tensor "DELTA_TENSOR_LAYOUT_INVALID") ;?
      require (all_elements_finite t) (_invalid_tensor "DELTA_TENSOR_NON_FINITE") ;?
      let norm := vector_norm t in
      require (negb (exceeds norm per_tensor)) (_invalid_tensor "DELTA_TENSOR_NORM_EXCEEDED") ;?
      tensor_norms schema per_tensor r (float_max maximum (max_abs t)) (float_add squared_norm (float_mul norm norm))
  end.

Definition validate_fp32_tensor_bundle (tensors : odict Tensor) (schema : ParameterSchema)
    (per_tensor_norm_ceiling global_norm_ceiling : json) : wresult TensorNormSummary :=
  require (bool_decide (od_keys tensors = included_tensor_names schema))
    (_invalid_tensor "DELTA_TENSOR_SET_OR_ORDER_INVALID") ;?
  let? per_tensor_limit := _ceiling per_tensor_norm_ceiling in
  let? global_limit := _ceiling global_norm_ceiling in
  let? norms := tensor_norms schema per_tensor_limit tensors (FFin false 0 0) (FFin false 0 0) in
  match float_sqrt norms.2 with
  | None => Raise WValueError
  | Some global_norm =>
      require (float_finite global_norm) (_invalid_tensor "DELTA_GLOBAL_NORM_NON_FINITE") ;?
      require (negb (exceeds global_norm global_limit)) (_invalid_tensor "DELTA_GLOBAL_NORM_EXCEEDED") ;?
      match pack_single_hex norms.1 with
      | None => Raise WOverflowError
      | Some bits => Ok (mkNorms bits (pack_double_hex global_norm))
      end
  end.

(** ** Snapshots, deltas, normalization *)

Definition snapshot_fp32_parameters (module : Module_) (schema : ParameterSchema) : wresult (odict Tensor) :=
  let? parameters := canonical_parameter_tensors module schema in
  pick (fun p => to_fp32 (value p)) parameters (included_tensor_names schema).

Definition pick2 (f : Tensor -> Tensor -> Tensor) (a b : odict Tensor) (names : list string) : wresult (odict Tensor) :=
  rmap (fun name => match od_get name a, od_get name b with
                    | Some x, Some y => Ok (name, f x y)
                    | _, _ => Raise WKeyError
                    end) names.

Definition build_local_delta (parent final : odict Tensor) (schema : ParameterSchema) : wresult (odict Tensor) :=
  validate_parameter_mapping parent schema ;?
  validate_parameter_mapping final schema ;?
  let? result := pick2 (fun x y => sub (to_fp32 x) (to_fp32 y)) parent final (included_tensor_names schema) in
  let? _ := validate_fp32_tensor_bundle result schema JNull JNull in
  Ok result.

Definition reconstruct_final (parent local_delta : odict Tensor) (schema : ParameterSchema) : wresult (odict Tensor) :=
  validate_parameter_mapping parent schema ;?
  let? _ := validate_fp32_tensor_bundle local_delta schema JNull JNull in
  let? reconstructed := pick2 (fun x d => sub (to_fp32 x) d) parent local_delta (included_tensor_names schema) in
  let? _ := validate_fp32_tensor_bundle reconstructed schema JNull JNull in
  Ok reconstructed.

Definition require_complete_steps (effective_steps step_budget : json) : wresult Z :=
  match effective_steps, step_budget with
  | JInt e, JInt b =>
      require (negb ((e <=? 0) || negb (e =? b)))
        (DeltaError INVALID_CONTRIBUTION_CANDIDATE "CANDIDATE_REQUIRES_A_EQUALS_H") ;?
      Ok e
  | _, _ => Raise (DeltaError INVALID_CONTRIBUTION_CANDIDATE "CANDIDATE_REQUIRES_A_EQUALS_H")
  end.

Definition normalize_local_delta (local_delta : odict Tensor) (schema : ParameterSchema)
    (effective_steps step_budget per_tensor_norm_ceiling global_norm_ceiling : json) : wresult (odict Tensor) :=
  let? denominator := require_complete_steps effective_steps step_budget in
  let? _ := validate_fp32_tensor_bundle local_delta schema JNull JNull in
  let? normalized := pick (fun t => div t denominator) local_delta (included_tensor_names schema) in
  let? _ := validate_fp32_tensor_bundle normalized schema per_tensor_norm_ceiling global_norm_ceiling in
  Ok normalized.

(** ** What an accepted bundle is *)

Definition tensor_valid (schema : ParameterSchema) (limit : option pyfloat) (kv : string * Tensor) : Prop :=
  layout_valid schema kv.1 kv.2 = true /\ all_elements_finite kv.2 = true /\ exceeds (vector_norm kv.2) limit = false.

Lemma tensor_norms_Ok schema limit ts m q r :
  tensor_norms schema limit ts m q = Ok r -> Forall (tensor_valid schema limit) ts.
Proof.
  revert m q. induction ts as [|[name t] ts IH]; intros m q; [done|]. cbn [tensor_norms].
  intros (L & H)%rbind_unit_Ok. apply rbind_unit_Ok in H as (F & H). apply rbind_unit_Ok in H as (N & H).
  rewrite require_Ok in L, F, N. rewrite negb_true_iff in N. constructor; [done|]. by eapply IH.
Qed.

Lemma tensor_norms_valid schema limit ts m q :
  Forall (tensor_valid schema limit) ts -> exists r, tensor_norms schema limit ts m q = Ok r.
Proof.
  intros F. revert m q. induction F as [|[name t] ts (L & A & N) F IH]; intros m q; [by eexists|].
  cbn [tensor_norms]. cbn in L, A, N. rewrite L, A, N. cbn [negb require rbind]. apply IH.
Qed.

Lemma bundle_Ok ts schema a b r :
  validate_fp32_tensor_bundle ts schema a b = Ok r ->
  od_keys ts = included_tensor_names schema /\
  exists limit, _ceiling a = Ok limit /\ Forall (tensor_valid schema limit) ts.
Proof.
  unfold validate_fp32_tensor_bundle. intros (K & H)%rbind_unit_Ok.
  apply require_Ok, bool_decide_eq_true in K. apply rbind_Ok in H as (limit & C & H).
  apply rbind_Ok in H as (gl & _ & H). apply rbind_Ok in H as (n & N & _).
  split; [done|]. exists limit. split; [done|]. by eapply tensor_norms_Ok.
Qed.

(** A bundle within ceilings is valid without them. *)
Lemma tensor_norms_unlimited schema limit ts m q r :
  tensor_norms schema limit ts m q = Ok r -> tensor_norms schema None ts m q = Ok r.
Proof.
  revert m q. induction ts as [|[name t] ts IH]; intros m q; [done|]. cbn [tensor_norms].
  intros (L & H)%rbind_unit_Ok. apply rbind_unit_Ok in H as (F & H). apply rbind_unit_Ok in H as (_ & H).
  rewrite L, F. cbn. by apply IH.
Qed.

Lemma bundle_unlimited ts schema a b r :
  validate_fp32_tensor_bundle ts schema a b = Ok r -> validate_fp32_tensor_bundle ts schema JNull JNull = Ok r.
Proof.
  unfold validate_fp32_tensor_bundle. intros (K & H)%rbind_unit_Ok. rewrite K. cbn [rbind].
  apply rbind_Ok in H as (limit & _ & H). apply rbind_Ok in H as (gl & _ & H). apply rbind_Ok in H as (n & N & H).
  cbn [_ceiling rbind]. rewrite (tensor_norms_unlimited _ _ _ _ _ _ N). cbn [rbind].
  destruct (float_sqrt n.2) as [g|]; [|done]. apply rbind_unit_Ok in H as (F & H). apply rbind_unit_Ok in H as (_ & H).
  rewrite F. cbn [rbind exceeds negb require]. exact H.
Qed.

Lemma pick_Ok {A B} (f : A -> B) d names r :
  pick f d names = Ok r <-> Forall2 (fun n y => exists x, od_get n d = Some x /\ y = (n, f x)) names r.
Proof.
  unfold pick. rewrite rmap_Ok. split; intros H; (eapply Forall2_impl; [exact H|]); intros n y; cbv beta.
  - destruct (od_get n d) as [x|]; [|done]. intros [= <-]. by exists x.
  - intros (x & -> & ->). done.
Qed.

Lemma pick2_Ok f a b names r :
  pick2 f a b names = Ok r <->
  Forall2 (fun n y => exists u v, od_get n a = Some u /\ od_get n b = Some v /\ y = (n, f u v)) names r.
Proof.
  unfold pick2. rewrite rmap_Ok. split; intros H; (eapply Forall2_impl; [exact H|]); intros n y; cbv beta.
  - destruct (od_get n a) as [u|]; [|done]. destruct (od_get n b) as [v|]; [|done]. intros [= <-]. by exists u, v.
  - intros (u & v & -> & -> & ->). done.
Qed.

Lemma pick_lookup {A B} (f : A -> B) d names r n x :
  NoDup names -> pick f d names = Ok r -> n ∈ names -> od_get n d = Some x -> od_get n r = Some (f x).
Proof.
  intros N H. apply pick_Ok in H. revert N. induction H as [|m y names r (x' & Hx & Ey) F IH]; intros N I E;
    [by apply elem_of_nil in I|]. subst y. apply NoDup_cons in N as [N1 N2]. cbn [od_get].
  destruct (String.eqb_spec n m) as [->|Ne]; [congruence|]. apply elem_of_cons in I as [?|I]; [done|]. by apply IH.
Qed.

Lemma require_complete_Ok e b n :
  require_complete_steps e b = Ok n <-> e = JInt n /\ b = JInt n /\ 0 < n.
Proof.
  destruct e as [| |x| | | |], b as [| |y| | | |]; cbn; try (split; [done|by intros (? & ? & _)]).
  rewrite rbind_unit_Ok, require_Ok, negb_true_iff, orb_false_iff, Z.leb_gt, negb_false_iff, Z.eqb_eq.
  naive_solver.
Qed.

Lemma normalize_Ok local schema e b c1 c2 n :
  normalize_local_delta local schema e b c1 c2 = Ok n ->
  exists a, e = JInt a /\ b = JInt a /\ 0 < a /\
    (exists r, validate_fp32_tensor_bundle local schema JNull JNull = Ok r) /\
    pick (fun t => div t a) local (included_tensor_names schema) = Ok n /\
    (exists r, validate_fp32_tensor_bundle n schema c1 c2 = Ok r).
Proof.
  unfold normalize_local_delta. intros (a & (-> & -> & P)%require_complete_Ok & H)%rbind_Ok.
  apply rbind_Ok in H as (r & V & H). apply rbind_Ok in H as (m & Q & H). apply rbind_Ok in H as (r' & V' & H).
  injection H as ->. eauto 10.
Qed.
End Tensors.

(** ** A toy tensor *)

(** A shape and one integer element everywhere *)
Record toy := mkToy { toy_shape : list Z; toy_value : Z }.

#[export] Instance toy_ops : TensorOps toy := {
  shape := toy_shape;
  logical_dtype := fun _ => Some FLOAT32;
  on_cpu := fun _ => true;
  is_contiguous := fun _ => true;
  all_elements_finite := fun _ => true;
  max_abs := fun t => match float_of_int (Z.abs (toy_value t)) with Some f => f | None => FInf false end;
  vector_norm := fun t => match float_of_int (Z.abs (toy_value t)) with Some f => f | None => FInf false end;
  to_fp32 := id;
  sub := fun a b => mkToy (toy_shape a) (toy_value a - toy_value b);
  div := fun a n => mkToy (toy_shape a) (toy_value a / n);
  tensor_equal := fun a b => toy_value a =? toy_value b;
  allclose := fun a b => toy_value a =? toy_value b }.

(** ** Properties *)

Section Derive.
Context {Tensor : Type} `{!TensorOps Tensor}.
Implicit Types (x : string * @Parameter_ Tensor) (g : @Module_ Tensor).

Abbreviation oid x := (object_id (snd x)).

Lemma nodup_submseteq {A} (l k : list A) : l ⊆+ k -> NoDup k -> NoDup l.
Proof. intros [m ->]%submseteq_Permutation [N _]%NoDup_app. done. Qed.

(** ** Groups *)

Record groups_ok (gs : list (Z * @Module_ Tensor)) (l : @Module_ Tensor) : Prop := {
  gr_members : concat (map snd gs) ≡ₚ l;
  gr_ids : NoDup (map fst gs);
  gr_groups : Forall (fun ig => ig.2 <> [] /\ Forall (fun x => oid x = ig.1) ig.2) gs }.

Lemma add_to_group_ids x gs i : i ∈ map fst (add_to_group x gs) <-> i = oid x \/ i ∈ map fst gs.
Proof.
  induction gs as [|[j g] gs IH]; cbn [add_to_group map fst]; [set_solver|].
  destruct (Z.eqb_spec j (oid x)) as [->|N]; cbn [map fst]; [set_solver|].
  rewrite !elem_of_cons, IH. set_solver.
Qed.

Lemma add_to_group_ok x gs l : groups_ok gs l -> groups_ok (add_to_group x gs) (x :: l).
Proof.
  revert l. induction gs as [|[j g] gs IH]; intros l [M I G]; cbn [add_to_group].
  - cbn in M. apply Permutation_nil in M as ->.
    constructor; cbn; [done|apply NoDup_singleton|]. constructor; [split; [done|by repeat constructor]|constructor].
  - cbn [map concat fst snd] in *. apply NoDup_cons in I as [I1 I2]. apply Forall_cons in G as [[G1 G2] G].
    cbn in G1, G2. destruct (Z.eqb_spec j (oid x)) as [->|N].
    + constructor; cbn [map concat fst snd].
      * rewrite <- M, <- (app_assoc g [x]). cbn [app]. symmetry. apply Permutation_middle.
      * by constructor.
      * constructor; [|done]. cbn. split; [by destruct g|]. apply Forall_app. by repeat constructor.
    + assert (K : groups_ok gs (concat (map snd gs))) by done.
      apply IH in K as [M' I' G']. constructor; cbn [map concat fst snd].
      * rewrite M', <- M. symmetry. apply Permutation_middle.
      * constructor; [|done]. rewrite add_to_group_ids. intros [->|?]; done.
      * by constructor.
Qed.

Lemma grouped_ok l : groups_ok (grouped l) l.
Proof.
  unfold grouped. assert (K : groups_ok (@nil (Z * @Module_ Tensor)) []) by (constructor; [done|constructor..]).
  assert (H : forall gs m, groups_ok gs m -> groups_ok (fold_left (fun gs x => add_to_group x gs) l gs) (rev l ++ m)%list).
  { clear K. induction l as [|x l IH]; intros gs m K; [done|]. cbn [fold_left rev].
    rewrite <- app_assoc. by apply IH, add_to_group_ok. }
  destruct (H _ _ K) as [M I G]. constructor; [|done..]. by rewrite M, app_nil_r, <- Permutation_rev.
Qed.

(** ** Owners *)

Lemma not_ltb a b : String.ltb a b = false -> String.leb b a = true.
Proof.
  unfold String.ltb, String.leb. rewrite (String.compare_antisym a b). by destruct (String.compare b a).
Qed.

Lemma leb_refl a : String.leb a a = true.
Proof. by destruct (String.leb_total a a). Qed.

Lemma ltb_leb a b : String.ltb a b = true -> String.leb a b = true.
Proof. unfold String.ltb, String.leb. by destruct (String.compare a b). Qed.

Lemma min_by_name_spec x g :
  min_by_name x g ∈ x :: g /\ forall y, y ∈ x :: g -> String.leb (min_by_name x g).1 y.1 = true.
Proof.
  unfold min_by_name. revert x. induction g as [|z g IH]; intros x; cbn [fold_left].
  - split; [by left|]. intros y [->|?%elem_of_nil]%elem_of_cons; [apply leb_refl|done].
  - destruct (IH (if String.ltb z.1 x.1 then z else x)) as [E L]. split.
    + destruct (String.ltb z.1 x.1); set_solver.
    + intros y [->|[->|H]%elem_of_cons]%elem_of_cons.
      * eapply leb_trans; [apply L; by left|]. destruct (String.ltb z.1 x.1) eqn:C; [by apply ltb_leb|apply leb_refl].
      * eapply leb_trans; [apply L; by left|]. destruct (String.ltb z.1 x.1) eqn:C; [apply leb_refl|by apply not_ltb].
      * apply L. by right.
Qed.

Definition owns (g : @Module_ Tensor) (o : string * @Parameter_ Tensor) : Prop :=
  group_owner g = Some o.

Lemma owns_spec g o : owns g o -> o ∈ g /\ forall y, y ∈ g -> String.leb o.1 y.1 = true.
Proof. unfold owns, group_owner. destruct g as [|x g]; [done|]. intros [= <-]. apply min_by_name_spec. Qed.

(** ** Aliases *)

Definition aliases_of (g : @Module_ Tensor) (o : string) : odict string :=
  map (fun x => (x.1, o)) (List.filter (fun x => negb (String.eqb x.1 o)) g).

Lemma fresh_aliases g o a :
  NoDup (od_keys a ++ map fst g) ->
  fold_left (fun a x => if String.eqb x.1 o then a else od_set x.1 o a) g a = (a ++ aliases_of g o)%list.
Proof.
  unfold aliases_of. revert a. induction g as [|x g IH]; intros a N; cbn [fold_left List.filter map].
  - by rewrite app_nil_r.
  - assert (X : x.1 ∉ od_keys a).
    { intros H. apply NoDup_app in N as (_ & N & _). apply (N x.1 H). cbn. by left. }
    cbn [map] in N. destruct (String.eqb x.1 o) eqn:E; cbn [negb].
    + apply IH. rewrite <- Permutation_middle in N. by apply NoDup_cons in N as [_ N].
    + rewrite od_set_new by by apply od_get_None. rewrite IH.
      * cbn [map]. by rewrite <- app_assoc.
      * unfold od_keys in *. rewrite map_app, <- app_assoc. exact N.
Qed.

Lemma describe_groups_Ok gs a specs a' :
  NoDup (od_keys a ++ map fst (concat gs)) ->
  describe_groups gs a = Ok (specs, a') ->
  exists owners, Forall2 owns gs owners /\ Forall2 (fun o p => owner_spec o = Ok p) owners specs /\
    a' = (a ++ concat (zip_with (fun g o => aliases_of g o.1) gs owners))%list.
Proof.
  revert a specs a'. induction gs as [|g gs IH]; intros a specs a' N; cbn [describe_groups].
  - intros [= <- <-]. exists []. cbn. by rewrite app_nil_r.
  - destruct (group_owner g) as [o|] eqn:O; [|done]. intros (p & P & H)%rbind_Ok.
    cbn [map concat] in N. rewrite map_app, app_assoc in N.
    rewrite fresh_aliases in H by by apply NoDup_app in N as [N _].
    apply rbind_Ok in H as ([specs' a1] & H & [= <- <-]). apply IH in H as (owners & F & S & ->).
    + exists (o :: owners). split; [by constructor|]. split; [by constructor|]. cbn. by rewrite <- app_assoc.
    + unfold od_keys in *. rewrite map_app.
      assert (Sub : map fst (aliases_of g o.1) ⊆+ map fst g).
      { unfold aliases_of. rewrite map_map. cbn. clear. induction g as [|x g IH]; [done|]. cbn [List.filter].
        destruct (negb _); cbn [map]; [by apply submseteq_skip|by apply submseteq_cons]. }
      eapply nodup_submseteq; [|exact N]. by repeat apply submseteq_app.
Qed.

Lemma owner_spec_Ok (o : string * @Parameter_ Tensor) p :
  owner_spec o = Ok p ->
  p_name p = o.1 /\ p_shape p = shape (value o.2) /\ logical_dtype (value o.2) = Some (p_logical_dtype p) /\
  p_trainable p = requires_grad o.2 /\ spec_ok p.
Proof.
  unfold owner_spec. destruct (logical_dtype (value o.2)) as [d|]; [|done].
  intros (N & S & -> & T & K)%new_spec_Ok. injection N as ->. injection T as <-.
  assert (Inj (=) (=) JInt) by by intros ? ? [=]. apply (inj (fmap JInt)) in S. done.
Qed.

(** Every parameter of a module is listed under the least of its names. *)
Lemma derive_Ok (module : @Module_ Tensor) policy s :
  NoDup (map fst module) -> derive_parameter_schema module policy = Ok s ->
  schema_ok s /\ s_frozen_omission_policy s = policy /\
  exists gs owners specs,
    groups_ok gs module /\ Forall2 owns (map snd gs) owners /\ Forall2 (fun o p => owner_spec o = Ok p) owners specs /\
    s_parameters s ≡ₚ specs /\ s_tied_aliases s ≡ₚ concat (zip_with (fun g o => aliases_of g o.1) (map snd gs) owners).
Proof.
  intros N. unfold derive_parameter_schema. intros (_ & H)%rbind_unit_Ok.
  apply rbind_Ok in H as ([specs a] & D & H).
  pose proof (grouped_ok (_all_named_parameters module)) as [M I G].
  assert (P : _all_named_parameters module ≡ₚ module) by apply sorted_by_perm.
  apply describe_groups_Ok in D as (owners & F & S & ->).
  - cbn [fst snd app] in H. assert (Q : Forall spec_ok (sorted_by String.leb p_name specs)).
    { rewrite sorted_by_perm. apply Forall_forall. intros p Hp. apply list_elem_of_lookup in Hp as [i Hi].
      destruct (Forall2_lookup_r _ _ _ _ _ S Hi) as (o & _ & E). by apply owner_spec_Ok in E as (_ & _ & _ & _ & ?). }
    split; [by eapply new_schema_ok|].
    unfold new_schema in H. apply rbind_unit_Ok in H as (_ & H). apply rbind_unit_Ok in H as (_ & H).
    apply rbind_unit_Ok in H as (_ & H). apply rbind_unit_Ok in H as (_ & H).
    destruct (checked_aliases _ _) as [al|] eqn:E; [|done]. injection H as <-. cbn. split; [done|].
    apply checked_aliases_Ok in E as [E _]. 
    assert (Inj (=) (=) (fun kv : string * string => (kv.1, JStr kv.2))) by (intros [] [] [= -> ->]; done).
    apply (inj (fmap (fun kv : string * string => (kv.1, JStr kv.2)))) in E.
    eexists _, owners, specs. split; [split; [by rewrite M|exact I|exact G]|].
    split; [done|]. split; [done|]. split; [apply sorted_by_perm|]. by rewrite sort_aliases_perm, <- E.
  - cbn [od_keys map app]. change (map fst ?l) with (fst <$> l) in *. by rewrite M, P.
Qed.

Lemma filter_names_length (g : @Module_ Tensor) o p :
  NoDup (map fst g) -> (o, p) ∈ g ->
  S (length (List.filter (fun x => negb (String.eqb x.1 o)) g)) = length g.
Proof.
  induction g as [|[n q] g IH]; intros N H; [by apply elem_of_nil in H|]. cbn [map fst] in N.
  apply NoDup_cons in N as [N1 N2]. cbn [List.filter fst]. destruct (String.eqb_spec n o) as [->|Ne]; cbn [negb length].
  - f_equal. assert (A : forall l : @Module_ Tensor, o ∉ map fst l -> List.filter (fun x => negb (String.eqb x.1 o)) l = l).
    { clear. induction l as [|[m r] l IH]; intros O; [done|]. cbn [map fst] in O. apply not_elem_of_cons in O as [O1 O2].
      cbn [List.filter fst]. rewrite (proj2 (String.eqb_neq m o)) by done. cbn [negb]. by rewrite IH. }
    by rewrite A.
  - f_equal. apply IH; [done|]. apply elem_of_cons in H as [[= -> _]|H]; [done|done].
Qed.

Lemma group_aliases_length (gs : list (@Module_ Tensor)) owners :
  NoDup (map fst (concat gs)) -> Forall2 owns gs owners ->
  (length owners + length (concat (zip_with (fun g o => aliases_of g o.1) gs owners)) = length (concat gs))%nat.
Proof.
  intros N F. induction F as [|g o gs owners [O _]%owns_spec F IH]; [done|].
  cbn [zip_with concat length] in *. rewrite map_app in N. apply NoDup_app in N as (N1 & _ & N2).
  rewrite !length_app. specialize (IH N2). destruct o as [o p].
  pose proof (filter_names_length g o p N1 O) as L. unfold aliases_of at 1. rewrite length_map. cbn [fst]. lia.
Qed.

(** the schema derived from a module is canonical and exact: every named
    parameter has an owner, the least name of the same object, listed with the
    shape, type and trainability of that object; every other name is an alias
    of the owner; and there are no further parameters or aliases. *)
Theorem derived_schema_exact (module : @Module_ Tensor) (policy : FrozenOmissionPolicy) (s : ParameterSchema)
    (N : NoDup (map fst module)) (D : derive_parameter_schema module policy = Ok s) :
  schema_ok s /\ s_frozen_omission_policy s = policy /\
  (forall n p, (n, p) ∈ module ->
     exists o q spec, (o, q) ∈ module /\ object_id q = object_id p /\
       (forall m r, (m, r) ∈ module -> object_id r = object_id p -> String.leb o m = true) /\
       spec ∈ s_parameters s /\ p_name spec = o /\ p_shape spec = shape (value q) /\
       logical_dtype (value q) = Some (p_logical_dtype spec) /\ p_trainable spec = requires_grad q /\
       (n <> o -> (n, o) ∈ s_tied_aliases s)) /\
  (length (s_parameters s) + length (s_tied_aliases s) = length module)%nat.
Proof.
  destruct (derive_Ok _ _ _ N D) as (K & P & gs & owners & specs & [M I G] & F & S & E1 & E2).
  split; [done|]. split; [done|]. split.
  - intros n p H. rewrite <- M in H. apply list_elem_of_In, in_concat in H as (g & Hg & H).
    apply in_map_iff in Hg as ([i g'] & <- & Hg). cbn [snd] in H.
    apply list_elem_of_In in H, Hg. apply list_elem_of_lookup in Hg as [k Hk].
    assert (Hk' : map snd gs !! k = Some g') by (change (map snd gs) with (snd <$> gs); by rewrite list_lookup_fmap, Hk).
    destruct (Forall2_lookup_l _ _ _ _ _ F Hk') as ([o q] & Ho & [O1 O2]%owns_spec).
    destruct (Forall2_lookup_l _ _ _ _ _ S Ho) as (spec & Hs & (A1 & A2 & A3 & A4 & _)%owner_spec_Ok).
    pose proof (Forall_lookup_1 _ _ _ _ G Hk) as [_ G']. cbn in G'.
    assert (B : forall m r, (m, r) ∈ g' -> object_id r = i).
    { intros m r Hm%list_elem_of_In. rewrite Stdlib.Lists.List.Forall_forall in G'. by apply (G' (m, r)). }
    assert (T : forall m r, (m, r) ∈ g' -> (m, r) ∈ module).
    { intros m r Hm. rewrite <- M. apply list_elem_of_In, in_concat. exists g'.
      split; [apply list_elem_of_In; by eapply list_elem_of_lookup_2|by apply list_elem_of_In]. }
    exists o, q, spec. split; [by apply T|]. split; [by rewrite (B o q), (B n p)|]. split; [|split; [|split; [done|]]].
    + intros m r Hm Er. rewrite (B n p H) in Er. rewrite <- M in Hm.
      apply list_elem_of_In, in_concat in Hm as (h & Hh & Hm). apply in_map_iff in Hh as ([j h'] & <- & Hh).
      apply list_elem_of_In in Hm, Hh. assert (j = i) as ->.
      { rewrite Stdlib.Lists.List.Forall_forall in G. apply list_elem_of_In in Hh. destruct (G _ Hh) as [_ Gh]. cbn in Gh, Hm.
        rewrite Stdlib.Lists.List.Forall_forall in Gh. apply list_elem_of_In in Hm. by rewrite <- (Gh _ Hm). }
      assert ((i, h') = (i, g')) as [= ->].
      { apply list_elem_of_lookup in Hh as [k2 Hk2]. assert (k2 = k) as ->; [|congruence].
        eapply (NoDup_lookup _ k2 k i I); change (map fst gs) with (fst <$> gs);
          by rewrite list_lookup_fmap, ?Hk, ?Hk2. }
      by apply (O2 (m, r)).
    + rewrite E1. by eapply list_elem_of_lookup_2.
    + split; [done|]. split; [done|]. split; [done|]. intros Ne. rewrite E2.
      apply list_elem_of_In, in_concat. exists (aliases_of g' o). split.
      * apply list_elem_of_In, list_elem_of_lookup. exists k. by rewrite lookup_zip_with, Hk', Ho.
      * unfold aliases_of. apply in_map_iff. exists (n, p). split; [done|]. apply filter_In.
        split; [by apply list_elem_of_In|]. cbn. by rewrite (proj2 (String.eqb_neq n o)).
  - rewrite E1, E2, <- M, <- (Forall2_length _ _ _ S). apply group_aliases_length; [|done].
    change (map fst ?l) with (fst <$> l). by rewrite M.
Qed.
End Derive.

Section Normalize.
Context {Tensor : Type} `{!TensorOps Tensor}.

Lemma pick_keys {A B} (f : A -> B) d names r : pick f d names = Ok r -> od_keys r = names.
Proof.
  intros H%pick_Ok. induction H as [|n y names r (x & _ & E) H IH]; [done|]. subst y. unfold od_keys in *. cbn. by rewrite IH.
Qed.

(** a normalized delta exists only when every step of the budget was taken;
    it lists exactly the tensors the schema includes, in canonical order, each
    the local delta's divided by the number of steps; all are contiguous FP32
    CPU tensors of the schema's shapes, finite, with no norm above the ceiling;
    and the two validations it went through accept it again, the local delta
    included. *)
Theorem normalized_delta_valid (local n : odict Tensor) (schema : ParameterSchema) (e b c1 c2 : json)
    (K : schema_ok schema) (H : normalize_local_delta local schema e b c1 c2 = Ok n) :
  exists a limit, e = JInt a /\ b = JInt a /\ 0 < a /\ _ceiling c1 = Ok limit /\
    od_keys local = included_tensor_names schema /\ od_keys n = included_tensor_names schema /\
    (forall name t, od_get name local = Some t -> od_get name n = Some (div t a)) /\
    Forall (tensor_valid schema limit) n /\
    (exists r, validate_fp32_tensor_bundle n schema c1 c2 = Ok r) /\
    (exists r, validate_fp32_tensor_bundle local schema JNull JNull = Ok r).
Proof.
  apply normalize_Ok in H as (a & -> & -> & P & [r L] & Q & [r' V]).
  pose proof V as V'. apply bundle_Ok in V' as (Kn & limit & C & F).
  pose proof L as L'. apply bundle_Ok in L' as (Kl & _).
  exists a, limit. do 4 (split; [done|]). split; [done|]. split; [done|]. split; [|eauto].
  intros name t E. apply (pick_lookup (fun t => div t a) local (included_tensor_names schema) n name t);
    [apply (included_names_ok schema K)|done| |done].
  rewrite <- Kl. apply od_get_In in E. apply (list_elem_of_fmap_2 fst) in E. exact E.
Qed.
End Normalize.

(** ** Concrete instances *)

Definition toy_module : @Module_ toy :=
  [("tied", mkParameter 1 true (mkToy [2] 10)); ("embed", mkParameter 1 true (mkToy [2] 10));
   ("head", mkParameter 2 false (mkToy [2; 3] 4))].

Definition toy_schema : ParameterSchema :=
  mkSchema [mkSpec "embed" [2] FLOAT32 true; mkSpec "head" [2; 3] FLOAT32 false] [("tied", "embed")] OMIT_FROZEN "1.0.0".

Lemma derived_schema_exact_witness :
  derive_parameter_schema toy_module OMIT_FROZEN = Ok toy_schema /\
  (length (s_parameters toy_schema) + length (s_tied_aliases toy_schema) = length toy_module)%nat.
Proof.
  assert (D : derive_parameter_schema toy_module OMIT_FROZEN = Ok toy_schema) by (vm_compute; reflexivity).
  split; [exact D|].
  assert (N : NoDup (map fst toy_module)) by (apply (bool_decide_eq_true_1 _); vm_compute; reflexivity).
  exact (proj2 (proj2 (proj2 (derived_schema_exact toy_module OMIT_FROZEN toy_schema N D)))).
Defined.

Lemma normalized_delta_valid_witness :
  let local := [("embed", mkToy [2] (-12))] in
  let n := [("embed", mkToy [2] (-3))] in
  normalize_local_delta local toy_schema (JInt 4) (JInt 4) (JFloat (FFin false 3 0)) JNull = Ok n /\
  od_keys n = included_tensor_names toy_schema /\ od_get "embed" n = Some (div (mkToy [2] (-12)) 4).
Proof.
  intros local n.
  assert (D : derive_parameter_schema toy_module OMIT_FROZEN = Ok toy_schema) by (vm_compute; reflexivity).
  assert (N : NoDup (map fst toy_module)) by (apply (bool_decide_eq_true_1 _); vm_compute; reflexivity).
  assert (H : normalize_local_delta local toy_schema (JInt 4) (JInt 4) (JFloat (FFin false 3 0)) JNull = Ok n)
    by (vm_compute; reflexivity).
  split; [exact H|].
  destruct (normalized_delta_valid local n toy_schema _ _ _ _ (proj1 (derive_Ok _ _ _ N D)) H)
    as (a & limit & [= <-] & _ & _ & _ & _ & E & F & _).
  split; [exact E|]. exact (F "embed" _ eq_refl).
Defined.
