(* ===== verification/LocalRound.v ===== *)
(** * One optimizer step ([deltatorrent/training/local_round.py])

    The loop over the micro-batches of a step, with the ledger and the sampler;
    whatever fails before the optimizer has stepped is rolled back to the last
    boundary.  The model, the loss, the gradients and the optimizer are torch's:
    [TrainOps] is what the loop asks of them, on a world [W] that also holds
    whatever the callback before a micro-batch looks at. *)

From S2P Require Import Prelude PyFloat PyArith Json WorkerErrors WorkerState ArtifactRef TokenAccounting Sampler BaselineConfig.
Open Scope string_scope.
Open Scope Z_scope.
Open Scope py_scope.

Class TrainOps (W : Type) := {
  (** the loss of a batch of inputs and targets, a scalar tensor read as a float *)
  forward : list (list Z) -> list (list Z) -> W -> W * wresult pyfloat;
  (** [(loss / steps).backward()] *)
  backward : Z -> W -> W * wresult unit;
  (** [optimizer.step()] *)
  optimizer_step_op : W -> W * wresult unit;
  (** [parameter.grad = None] for every parameter *)
  clear_gradients : W -> W }.

Section Step.
Context {W : Type} `{!TrainOps W}.

(** The mutable training state and the ledger of the round *)
Record TrainingState := mkTraining {
  micro_step : Z;
  optimizer_step : Z;
  processed_tokens : Z;
  sampler : DeterministicSampler;
  ledger : option OptimizerBoundaryLedger;
  world : W }.

Implicit Types s : TrainingState.

Definition set_sampler (x : DeterministicSampler) s :=
  mkTraining (micro_step s) (optimizer_step s) (processed_tokens s) x (ledger s) (world s).
Definition set_ledger (x : option OptimizerBoundaryLedger) s :=
  mkTraining (micro_step s) (optimizer_step s) (processed_tokens s) (sampler s) x (world s).
Definition set_world (x : W) s :=
  mkTraining (micro_step s) (optimizer_step s) (processed_tokens s) (sampler s) (ledger s) x.

(** A call on one part of the state *)
Definition on_world {A} (f : W -> W * wresult A) : WM TrainingState A :=
  fun s => let '(w, r) := f (world s) in (set_world w s, r).
Definition on_sampler {A} (f : DeterministicSampler -> DeterministicSampler * wresult A) : WM TrainingState A :=
  fun s => let '(x, r) := f (sampler s) in (set_sampler x s, r).

(** [if ledger is not None: …] *)
Definition on_ledger (f : OptimizerBoundaryLedger -> OptimizerBoundaryLedger * wresult unit) : WM TrainingState unit :=
  fun s => match ledger s with
           | None => (s, Ok tt)
           | Some l => let '(l', r) := f l in (set_ledger (Some l') s, r)
           end.

(** [samples[index]] *)
Definition sample_at (samples : list TokenSample) (index : Z) : wresult TokenSample :=
  match nth_error samples (Z.to_nat index) with Some x => Ok x | None => Raise (WOther "IndexError") end.

Definition non_padding (targets : list (list Z)) : Z :=
  Z.of_nat (length (List.filter (fun t => negb (t =? 0)) (concat targets))).

(** One micro-batch: its loss and its tokens *)
Definition microbatch (config : BaselineConfig) (samples : list TokenSample) (before : option (W -> W * wresult unit)) :
    WM TrainingState (pyfloat * Z) :=
  match before with Some f => on_world f | None => wret tt end ;!
  let! cursor_start := wget (fun s => cursor (sampler s)) in
  let! indices := on_sampler (sampler_take (batch_size config)) in
  let! cursor_end := wget (fun s => cursor (sampler s)) in
  let! batch := wlift (rmap (sample_at samples) indices) in
  let targets := map Sampler.targets batch in
  let! loss := on_world (forward (map Sampler.inputs batch) targets) in
  wlift (require (float_finite loss) (DeltaError INVALID_MANIFEST "NON_FINITE_LOSS")) ;!
  on_world (backward (gradient_accumulation_steps config)) ;!
  let tokens := non_padding targets in
  on_ledger (fun l => match stage_microbatch (JInt cursor_start) (JInt cursor_end) (JInt tokens) l with
                      | Ok l' => (l', Ok tt)
                      | Raise e => (l, Raise e)
                      end) ;!
  wret (loss, tokens).

(** The micro-batches of a step: the accumulated loss and the pending tokens *)
Fixpoint microbatches (config : BaselineConfig) (samples : list TokenSample) (before : option (W -> W * wresult unit))
    (n : nat) (accumulated_loss : pyfloat) (pending_tokens : Z) : WM TrainingState (pyfloat * Z) :=
  match n with
  | O => wret (accumulated_loss, pending_tokens)
  | S k =>
      let! x := microbatch config samples before in
      microbatches config samples before k (float_add accumulated_loss x.1) (pending_tokens + x.2)
  end.

(** The handler: back to the boundary, and the exception goes on *)
Definition roll_back (starting_cursor : Z) (e : worker_exn) : WM TrainingState (pyfloat * Z) :=
  wmodify (fun s => set_sampler (mkSampler (sample_count (sampler s)) (seed (sampler s)) starting_cursor) s) ;!
  wmodify (fun s => set_world (clear_gradients (world s)) s) ;!
  on_ledger (fun l => let '(l', r) := discard_partial_accumulation l in (l', let? _ := r in Ok tt)) ;!
  wraise e.

Definition advance (steps tokens : Z) s : TrainingState :=
  mkTraining (micro_step s + steps) (optimizer_step s + 1) (processed_tokens s + tokens) (sampler s) (ledger s) (world s).

(** [ledger.commit_optimizer_step(…)] and the comparison with the counters *)
Definition commit_step (config : BaselineConfig) : WM TrainingState unit :=
  fun s => on_ledger (fun l =>
    match commit_optimizer_step (JInt (gradient_accumulation_steps config)) l with
    | (l', Ok record) =>
        (l', require ((r_effective_steps record =? optimizer_step s) && (r_committed_micro_steps record =? micro_step s)
                      && (r_processed_tokens record =? processed_tokens s))
               (DeltaError INVALID_TOKEN_ACCOUNTING "ACCOUNTING_STATE_DIVERGENCE"))
    | (l', Raise e) => (l', Raise e)
    end) s.

Definition training_metric (config : BaselineConfig) (accumulated_loss : pyfloat) s : wresult TrainingMetric :=
  match float_of_int (gradient_accumulation_steps config) with
  | None => Raise WOverflowError
  | Some g =>
      let? rate := learning_rate config in
      Ok (mkTrainingMetric (micro_step s) (optimizer_step s) (processed_tokens s) (float_div accumulated_loss g) rate)
  end.

Definition train_one_optimizer_step (config : BaselineConfig) (samples : list TokenSample)
    (before : option (W -> W * wresult unit)) : WM TrainingState TrainingMetric :=
  let! start := wget id in
  wlift (require (negb (optimizer_steps config <=? optimizer_step start)) WValueError) ;!
  wlift (require (micro_step start mod gradient_accumulation_steps config =? 0) WValueError) ;!
  let! sums :=
    wtry (let! sums := microbatches config samples before (Z.to_nat (gradient_accumulation_steps config)) (FFin false 0 0) 0 in
          on_world optimizer_step_op ;!
          wret sums)
      (roll_back (cursor (sampler start))) in
  wmodify (advance (gradient_accumulation_steps config) sums.2) ;!
  commit_step config ;!
  fun s => (s, training_metric config sums.1 s).
End Step.

(** ** What a step does to the counters *)

Section Steps.
Context {W : Type} `{!TrainOps W}.
Implicit Types s : @TrainingState W.

Definition width (n : Z) (b : batch) : Prop := b_end b = b_start b + n.

(** The state between two micro-batches: the ledger accounts for the history,
    the counters are its committed ones *)
Record in_step s (h : history) (l : OptimizerBoundaryLedger) : Prop := {
  i_ledger : ledger s = Some l;
  i_accounts : accounts l h;
  i_optimizer : optimizer_step s = effective_steps l;
  i_micro : micro_step s = committed_micro_steps l;
  i_tokens : processed_tokens s = TokenAccounting.processed_tokens l;
  i_sampler : sampler_ok (sampler s) }.

(** The same counters and the same sampler but for its cursor *)
Definition same_counters s s' : Prop :=
  micro_step s' = micro_step s /\ optimizer_step s' = optimizer_step s /\ processed_tokens s' = processed_tokens s /\
  sample_count (sampler s') = sample_count (sampler s) /\ seed (sampler s') = seed (sampler s) /\
  0 <= cursor (sampler s').

(** A boundary: nothing pending, the sampler at the ledger's cursor, every
    committed step of full size *)
Record at_boundary (c : BaselineConfig) s (h : history) : Prop := {
  b_step : exists l, in_step s h l /\ cursor (sampler s) = cursor_end l;
  b_pending : h_pending h = [];
  b_sizes : Forall (fun bs => Z.of_nat (length bs) = gradient_accumulation_steps c /\ Forall (width (batch_size c)) bs) (h_steps h) }.

Definition staged (h : history) (bs : list batch) : history :=
  mkHistory (h_steps h) (h_pending h ++ bs) (h_discarded h).

Lemma staged_nil h : staged h [] = h.
Proof. destruct h. unfold staged. cbn. by rewrite app_nil_r. Qed.

Lemma staged_staged h a b : staged (staged h a) b = staged h (a ++ b).
Proof. unfold staged. cbn. by rewrite app_assoc. Qed.

Lemma same_refl s : sampler_ok (sampler s) -> same_counters s s.
Proof. intros (_ & _ & ?). repeat split; done. Qed.

Lemma same_trans s1 s2 s3 : same_counters s1 s2 -> same_counters s2 s3 -> same_counters s1 s3.
Proof. unfold same_counters. intros (? & ? & ? & ? & ? & ?) (? & ? & ? & ? & ? & ?). repeat split; congruence. Qed.

(** The parts of a micro-batch that leave ledger and counters alone *)
Definition quiet s s' : Prop := same_counters s s' /\ ledger s' = ledger s.

Lemma on_world_quiet {A} (f : W -> W * wresult A) s s' r :
  0 <= cursor (sampler s) -> on_world f s = (s', r) -> quiet s s' /\ sampler s' = sampler s.
Proof. intros P. unfold on_world. destruct (f (world s)) as [w x]. intros [= <- <-]. by repeat split. Qed.

Lemma quiet_trans s1 s2 s3 : quiet s1 s2 -> quiet s2 s3 -> quiet s1 s3.
Proof. intros [S1 L1] [S2 L2]. split; [by eapply same_trans|congruence]. Qed.

Lemma in_step_quiet s s' h l : in_step s h l -> quiet s s' -> in_step s' h l.
Proof.
  intros [L A O M T (P & Q & R)] [(E1 & E2 & E3 & E4 & E5 & E6) E7].
  constructor; [congruence|done|congruence|congruence|congruence|]. unfold sampler_ok. rewrite E4, E5. done.
Qed.

(** A call on the world, seen from the step *)
Lemma wp_world {A} (f : W -> W * wresult A) (Q : TrainingState -> wresult A -> Prop) s :
  0 <= cursor (sampler s) ->
  (forall s' r, quiet s s' -> sampler s' = sampler s -> Q s' r) -> wp (on_world f) Q s.
Proof. intros P H. apply wp_intro. intros s' r E. destruct (on_world_quiet f s s' r P E). by apply H. Qed.

(** The same range and the same committed counters *)
Definition kept (l l' : OptimizerBoundaryLedger) : Prop :=
  range_start l' = range_start l /\ range_end l' = range_end l /\ cursor_end l' = cursor_end l /\
  effective_steps l' = effective_steps l /\ committed_micro_steps l' = committed_micro_steps l /\
  TokenAccounting.processed_tokens l' = TokenAccounting.processed_tokens l.

Lemma kept_trans a b c : kept a b -> kept b c -> kept a c.
Proof. unfold kept. intros (? & ? & ? & ? & ? & ?) (? & ? & ? & ? & ? & ?). repeat split; congruence. Qed.

(** What a micro-batch does to the ledger *)
Definition microbatch_post (c : BaselineConfig) s h l (s' : @TrainingState W) (r : wresult (pyfloat * Z)) : Prop :=
  same_counters s s' /\
  match r with
  | Ok (_, tokens) => exists b l', kept l l' /\ in_step s' (staged h [b]) l' /\ cursor (sampler s') = expected_start l' /\
                        width (batch_size c) b /\ b_tokens b = tokens
  | Raise _ => ledger s' = ledger s
  end.

Lemma microbatch_spec c samples before s h l :
  0 < batch_size c -> in_step s h l -> cursor (sampler s) = expected_start l ->
  wp (microbatch c samples before) (microbatch_post c s h l) s.
Proof.
  intros P I C. pose proof (i_sampler _ _ _ I) as (_ & _ & Pc). unfold microbatch.
  assert (B : forall Q : TrainingState -> wresult unit -> Prop,
    (forall s' r, quiet s s' -> sampler s' = sampler s -> Q s' r) ->
    wp (match before with Some f => on_world f | None => wret tt end) Q s).
  { intros Q H. destruct before as [f|]; [by apply wp_world|]. apply wp_ret, H; [|done].
    split; [|done]. apply same_refl. apply (i_sampler _ _ _ I). }
  apply wp_bind, B. clear B. intros s1 [[]|e] Q1 E1; [|by destruct Q1].
  apply wp_bind, wp_get. apply wp_bind, wp_intro. unfold on_sampler. rewrite take_draws by done. rewrite E1.
  intros s2 r2 [= <- <-]. apply wp_bind, wp_get. cbn [sampler set_sampler cursor]. apply wp_bind, wp_lift.
  set (s2 := set_sampler _ s1).
  assert (Q2 : quiet s s2).
  { eapply quiet_trans; [exact Q1|]. split; [|done]. unfold same_counters. cbn. rewrite E1. repeat split; lia. }
  assert (P2 : 0 <= cursor (sampler s2)) by (cbn; lia).
  destruct (rmap (sample_at samples) _) as [batch|e]; [|by destruct Q2].
  apply wp_bind, wp_world; [done|]. intros s3 [loss|e] Q3 E3; pose proof (quiet_trans _ _ _ Q2 Q3) as Q3'; [|by destruct Q3'].
  apply wp_bind, wp_lift. destruct (require _ _) as [[]|e]; [|by destruct Q3'].
  apply wp_bind, wp_world; [by rewrite E3|].
  intros s4 [[]|e] Q4 E4; pose proof (quiet_trans _ _ _ Q3' Q4) as [S4 L4]; [|done].
  apply wp_bind, wp_intro. intros s5 r5. unfold on_ledger. rewrite L4, (i_ledger _ _ _ I).
  set (tokens := non_padding _).
  destruct (stage_microbatch _ _ _ l) as [l'|e] eqn:St; intros [= <- <-].
  2:{ split; [done|]. cbn. by rewrite <- L4, (i_ledger _ _ _ I) in *. }
  apply wp_ret. split; [done|].
  pose proof (in_step_quiet _ _ _ _ I (conj S4 L4)) as I4.
  destruct (stage_accounts _ _ _ _ _ _ (i_accounts _ _ _ I) St) as [_ A]. cbn [exec] in A. rewrite St in A. cbn [snd] in A.
  exists (mkBatch (cursor (sampler s)) (cursor (sampler s) + batch_size c) tokens), l'.
  apply stage_Ok in St as (a & b & n & [= <-] & [= <-] & [= <-] & _ & _ & _ & _ & ->).
  destruct I4 as [_ _ O M T Sm]. split; [done|]. split; [|split; [|done]].
  - constructor; cbn; try done.
  - cbn. rewrite E4, E3. cbn. done.
Qed.

Definition microbatches_post (c : BaselineConfig) s h l (n : nat) (tokens : Z) (s' : @TrainingState W)
    (r : wresult (pyfloat * Z)) : Prop :=
  same_counters s s' /\
  exists bs l', kept l l' /\ ledger s' = Some l' /\ accounts l' (staged h bs) /\ Forall (width (batch_size c)) bs /\
    match r with
    | Ok (_, total) => length bs = n /\ in_step s' (staged h bs) l' /\ cursor (sampler s') = expected_start l' /\
                       total = tokens + tokens_of bs
    | Raise _ => True
    end.

Lemma microbatches_spec c samples before n s h l loss tokens :
  0 < batch_size c -> in_step s h l -> cursor (sampler s) = expected_start l ->
  wp (microbatches c samples before n loss tokens) (microbatches_post c s h l n tokens) s.
Proof.
  intros P. revert s h l loss tokens. induction n as [|n IH]; intros s h l loss tokens I C; cbn [microbatches].
  - apply wp_ret. split; [apply same_refl, (i_sampler _ _ _ I)|]. exists [], l.
    rewrite staged_nil. split; [done|]. split; [apply (i_ledger _ _ _ I)|]. split; [apply (i_accounts _ _ _ I)|].
    split; [done|]. split; [done|]. split; [done|]. split; [done|]. unfold tokens_of. cbn. lia.
  - apply wp_bind. eapply wp_mono; [by eapply microbatch_spec|]. intros s1 [[x t]|e] [S1 H].
    + destruct H as (b & l1 & K1 & I1 & C1 & W1 & T1). eapply wp_mono; [by eapply IH|].
      intros s2 r [S2 (bs & l2 & K2 & L2 & A2 & W2 & R)]. split; [by eapply same_trans|].
      exists (b :: bs), l2. rewrite staged_staged in A2, R. split; [by eapply kept_trans|]. split; [done|]. split; [done|].
      split; [by constructor|]. destruct r as [[? total]|]; [|done]. destruct R as (R1 & R2 & R3 & R4).
      split; [cbn; by rewrite R1|]. split; [done|]. split; [done|]. cbn [snd] in R4. cbn. unfold tokens_of in *. cbn. lia.
    + split; [done|]. exists [], l. rewrite staged_nil, H. split; [done|]. split; [apply (i_ledger _ _ _ I)|].
      split; [apply (i_accounts _ _ _ I)|done].
Qed.

(** ** A step is all or nothing *)

Definition discarded (h : history) : history := mkHistory (h_steps h) [] (h_discarded h ++ h_pending h).

Lemma roll_back_spec c s0 h0 l0 s bs l e :
  in_step s0 h0 l0 -> at_boundary c s0 h0 -> cursor (sampler s0) = cursor_end l0 ->
  same_counters s0 s -> ledger s = Some l -> kept l0 l -> accounts l (staged h0 bs) ->
  wp (roll_back (cursor (sampler s0)) e)
     (fun s' r => r = Raise e /\ at_boundary c s' (discarded (staged h0 bs)) /\ same_counters s0 s' /\
                  sampler s' = sampler s0 /\ exists l', ledger s' = Some l' /\ kept l0 l') s.
Proof.
  intros I0 [_ P0 Z0] C0 (E1 & E2 & E3 & E4 & E5 & E6) L (K1 & K2 & K3 & K4 & K5 & K6) A. unfold roll_back.
  apply wp_bind, wp_modify. apply wp_bind, wp_modify. apply wp_bind, wp_intro. intros s1 r1.
  unfold on_ledger. cbn [set_sampler set_world ledger]. rewrite L.
  pose proof (discard_accounts _ _ A) as D. destruct (discard_partial_accumulation l) as [l' r] eqn:Dl.
  cbn [fst] in D. assert (R : exists x, r = Ok x).
  { unfold discard_partial_accumulation in Dl. injection Dl as <- <-. eexists. by eapply snapshot_accounts. }
  destruct R as [x ->]. intros [= <- <-]. cbn [rbind]. apply wp_raise. split; [done|].
  assert (Smp : mkSampler (sample_count (sampler s)) (seed (sampler s)) (cursor (sampler s0)) = sampler s0).
  { rewrite E4, E5. by destruct (sampler s0). }
  assert (K : kept l0 l') by (unfold discard_partial_accumulation in Dl; injection Dl as <- _; repeat split; done).
  pose proof K as (_ & _ & Kc & Ke & Km & Kp). destruct I0 as [_ A0 O0 M0 T0 S0].
  cbn [set_ledger set_sampler set_world sampler micro_step optimizer_step processed_tokens world ledger].
  split; [|split; [|split; [exact Smp|by exists l']]].
  - constructor; [|done|done]. exists l'. rewrite Smp. split; [|cbn; congruence].
    constructor; cbn; rewrite ?Smp; try done; congruence.
  - repeat split; cbn; rewrite ?Smp; try done. apply S0.
Qed.

Lemma at_boundary_quiet c s s' h :
  at_boundary c s h -> quiet s s' -> sampler s' = sampler s -> at_boundary c s' h.
Proof.
  intros [(l & I & C) P Z] Q E. constructor; [|done..]. exists l. rewrite E. split; [by eapply in_step_quiet|done].
Qed.

(** The loop and the optimizer: staged as a whole, or rolled back *)
Lemma body_spec c samples before s h l :
  config_ok c -> in_step s h l -> at_boundary c s h -> cursor (sampler s) = cursor_end l ->
  wp (wtry (let! sums := microbatches c samples before (Z.to_nat (gradient_accumulation_steps c)) (FFin false 0 0) 0 in
            on_world optimizer_step_op ;!
            wret sums) (roll_back (cursor (sampler s))))
     (fun s' r => same_counters s s' /\ exists bs,
        match r with
        | Ok (_, total) => exists l', kept l l' /\ in_step s' (staged h bs) l' /\
            cursor (sampler s') = expected_start l' /\
            Z.of_nat (length bs) = gradient_accumulation_steps c /\ Forall (width (batch_size c)) bs /\ total = tokens_of bs
        | Raise _ => at_boundary c s' (discarded (staged h bs)) /\ sampler s' = sampler s /\
            exists l', ledger s' = Some l' /\ kept l l'
        end) s.
Proof.
  intros K I B C. assert (Pos : 0 < batch_size c /\ 0 < gradient_accumulation_steps c).
  { pose proof (f_positive c K) as P. unfold positive_fields in P. rewrite !Forall_cons in P. tauto. }
  assert (E : cursor (sampler s) = expected_start l).
  { rewrite C. unfold expected_start. by rewrite (proj2 (a_pending_none _ _ (i_accounts _ _ _ I)) (b_pending _ _ _ B)). }
  apply wp_try, wp_bind. eapply wp_mono; [apply (microbatches_spec c samples before _ s h l); [apply Pos|done|done]|].
  intros s1 [[loss total]|e] [S1 (bs & l1 & K1 & L1 & A1 & W1 & R)].
  - destruct R as (R1 & R2 & R3 & R4). apply wp_bind, wp_world; [apply (i_sampler _ _ _ R2)|].
    intros s2 [[]|e] Q2 E2.
    + apply wp_ret. split; [eapply same_trans; [exact S1|apply Q2]|]. exists bs, l1.
      split; [done|]. split; [by eapply in_step_quiet|]. split; [by rewrite E2|]. split; [lia|]. split; [done|lia].
    + eapply wp_mono; [eapply (roll_back_spec c s h l s2 bs l1); try done|].
      * eapply same_trans; [exact S1|apply Q2].
      * destruct Q2 as [_ Q2]. by rewrite Q2.
      * intros s3 r (-> & B3 & S3 & E3 & L3). split; [done|]. by exists bs.
  - eapply wp_mono; [eapply (roll_back_spec c s h l s1 bs l1); done|].
    intros s3 r (-> & B3 & S3 & E3 & L3). split; [done|]. by exists bs.
Qed.

(** ** The commit *)

Lemma tiles_width a bs b n : tiles a bs b -> Forall (width n) bs -> b = a + n * Z.of_nat (length bs).
Proof.
  intros T F. revert a T. induction F as [|x bs Wx F IH]; intros a; cbn [tiles length]; [lia|].
  intros (E & _ & T). apply IH in T. unfold width in Wx. lia.
Qed.

Lemma steps_multiple n (steps : list (list batch)) :
  Forall (fun bs => Z.of_nat (length bs) = n) steps -> Z.of_nat (length (concat steps)) = n * Z.of_nat (length steps).
Proof. induction 1 as [|bs steps E F IH]; [cbn; lia|]. cbn [concat]. rewrite length_app. cbn [length]. lia. Qed.

Definition committed (h : history) (bs : list batch) : history := mkHistory (h_steps h ++ [bs]) [] (h_discarded h).

(** After the counters have advanced, the commit succeeds and agrees with them. *)
Lemma commit_spec c s0 h l0 s bs l :
  config_ok c -> in_step s0 h l0 -> at_boundary c s0 h -> cursor (sampler s0) = cursor_end l0 ->
  same_counters s0 s -> kept l0 l -> in_step s (staged h bs) l -> cursor (sampler s) = expected_start l ->
  Z.of_nat (length bs) = gradient_accumulation_steps c -> Forall (width (batch_size c)) bs ->
  wp (commit_step c)
     (fun s' r => r = Ok tt /\ at_boundary c s' (committed h bs) /\
        micro_step s' = micro_step s0 + gradient_accumulation_steps c /\ optimizer_step s' = optimizer_step s0 + 1 /\
        processed_tokens s' = processed_tokens s0 + tokens_of bs /\
        sample_count (sampler s') = sample_count (sampler s0) /\ seed (sampler s') = seed (sampler s0) /\
        cursor (sampler s') = cursor (sampler s0) + batch_size c * gradient_accumulation_steps c /\
        exists l', ledger s' = Some l' /\ range_start l' = range_start l0 /\ range_end l' = range_end l0)
     (advance (gradient_accumulation_steps c) (tokens_of bs) s).
Proof.
  intros K I0 B C0 (E1 & E2 & E3 & E4 & E5 & E6) (K1 & K2 & K3 & K4 & K5 & K6) [L A O M T Sm] C N F.
  assert (G : 0 < gradient_accumulation_steps c).
  { pose proof (f_positive c K) as P. unfold positive_fields in P. rewrite !Forall_cons in P. tauto. }
  assert (Pn : h_pending h = []) by apply B.
  assert (Hp : h_pending (staged h bs) = bs) by (cbn; by rewrite Pn).
  destruct (commit_Ok (gradient_accumulation_steps c) l (staged h bs) A G ltac:(rewrite Hp; lia))
    as (l' & r & Cm & A' & R1 & R2).
  pose proof (commit_values _ _ _ _ Cm) as (Sn & _ & _ & V1 & V2 & V3 & V4).
  apply snapshot_values in Sn. rewrite (a_pending_steps _ _ A), Hp, N in V3.
  rewrite (a_pending_tokens _ _ A), Hp in V4. rewrite Hp in A'.
  apply wp_intro. unfold commit_step, on_ledger. cbn [advance ledger]. rewrite L, Cm.
  cbn [advance optimizer_step micro_step processed_tokens].
  assert (X : (r_effective_steps r =? optimizer_step s + 1) && (r_committed_micro_steps r =? micro_step s + gradient_accumulation_steps c)
              && (r_processed_tokens r =? processed_tokens s + tokens_of bs) = true).
  { subst r. cbn. rewrite V2, V3, V4, O, M, T, !Z.eqb_refl. done. }
  rewrite X. cbn [require]. intros s' r' [= <- <-]. split; [done|].
  assert (Cur : cursor (sampler s) = cursor (sampler s0) + batch_size c * gradient_accumulation_steps c).
  { rewrite C, C0, <- N, <- K3. apply tiles_width with (n := batch_size c); [|done].
    pose proof (a_pending _ _ A) as Tp. by rewrite Hp in Tp. }
  cbn [set_ledger advance micro_step optimizer_step processed_tokens sampler ledger].
  split; [|repeat split; [congruence..|done|by exists l'; rewrite R1, R2]].
  constructor; [|done|cbn; apply Forall_app; split; [apply B|by repeat constructor]].
  exists l'. split; [|cbn; congruence]. constructor; cbn; try done; congruence.
Qed.

(** What a step does: rolled back, or committed *)
Definition step_post (c : BaselineConfig) s (h : history) s' (r : wresult TrainingMetric) : Prop :=
  (exists l l', ledger s = Some l /\ ledger s' = Some l' /\ range_start l' = range_start l /\ range_end l' = range_end l) /\
  ((exists e bs, r = Raise e /\ same_counters s s' /\ sampler s' = sampler s /\
      at_boundary c s' (mkHistory (h_steps h) [] (h_discarded h ++ bs)) /\
      (optimizer_steps c <= optimizer_step s -> e = WValueError)) \/
   (exists bs loss, r = training_metric c loss s' /\ at_boundary c s' (committed h bs) /\
      Z.of_nat (length bs) = gradient_accumulation_steps c /\ Forall (width (batch_size c)) bs /\
      optimizer_step s' = optimizer_step s + 1 /\ optimizer_step s' <= optimizer_steps c /\
      micro_step s' = micro_step s + gradient_accumulation_steps c /\
      processed_tokens s' = processed_tokens s + tokens_of bs /\
      cursor (sampler s') = cursor (sampler s) + batch_size c * gradient_accumulation_steps c)).

Lemma train_step_spec c samples before s h :
  config_ok c -> at_boundary c s h -> wp (train_one_optimizer_step c samples before) (step_post c s h) s.
Proof.
  intros K B. pose proof (b_step _ _ _ B) as (l & I & C). pose proof (b_pending _ _ _ B) as Pn.
  assert (Same : same_counters s s) by apply same_refl, (i_sampler _ _ _ I).
  assert (Hs : mkHistory (h_steps h) [] (h_discarded h ++ []) = h) by (rewrite app_nil_r, <- Pn; by destruct h).
  pose proof (i_ledger _ _ _ I) as Ll.
  unfold train_one_optimizer_step. apply wp_bind, wp_get. unfold id. apply wp_bind, wp_lift.
  destruct (Z.leb_spec (optimizer_steps c) (optimizer_step s)) as [Le|Lt]; cbn [negb require]; cbv beta iota.
  { split; [by exists l, l|]. left. exists WValueError, []. by rewrite Hs. }
  apply wp_bind, wp_lift.
  assert (Mod : micro_step s mod gradient_accumulation_steps c = 0).
  { rewrite (i_micro _ _ _ I), (a_committed_steps _ _ (i_accounts _ _ _ I)).
    rewrite (steps_multiple (gradient_accumulation_steps c)); [by rewrite Z.mul_comm, Z_mod_mult|].
    eapply Forall_impl; [apply (b_sizes _ _ _ B)|]. by intros bs [? _]. }
  rewrite Mod. cbn [Z.eqb require]. cbv beta iota.
  apply wp_bind. eapply wp_mono; [by apply (body_spec c samples before s h l)|].
  intros s1 [[loss total]|e] [S1 (bs & R)].
  - destruct R as (l1 & K1 & I1 & C1 & N1 & W1 & ->). cbn [fst snd].
    apply wp_bind, wp_modify. apply wp_bind. eapply wp_mono; [by apply (commit_spec c s h l s1 bs l1)|].
    intros s2 r2 (-> & B2 & M2 & O2 & T2 & _ & _ & Cu2 & (l2 & L2 & R1 & R2)). apply wp_intro. intros s3 r3 [= <- <-].
    split; [by exists l, l2|]. right. exists bs, loss. cbn. split; [done|].
    split; [exact B2|]. split; [done|]. split; [done|]. split; [done|]. split; [lia|]. done.
  - destruct R as (B1 & E1 & (l2 & L2 & (R1 & R2 & _))). split; [by exists l, l2|].
    left. exists e, bs. split; [done|]. split; [done|]. split; [done|].
    split; [|lia]. unfold discarded, staged in B1. cbn in B1. by rewrite Pn in B1.
Qed.

(** C11: an optimizer step is all or nothing.  From a boundary, whatever the
    model, the loss, the optimizer, the clock or the ledger raise, the step ends
    at a boundary with the ledger consistent with the counters: either it
    raises, and counters, sampler and committed steps are as before, with the
    staged micro-batches counted as discarded; or it commits exactly the
    configured number of micro-batches of the configured size, the counters, the
    cursor and the ledger advance together, and the metric reports them.  *)
Theorem optimizer_step_atomic (c : BaselineConfig) (samples : list TokenSample) (before : option (W -> W * wresult unit))
    s s' (r : wresult TrainingMetric) (h : history) (g rate : pyfloat)
    (K : config_ok c) (G : float_of_int (gradient_accumulation_steps c) = Some g) (L : learning_rate c = Ok rate)
    (B : at_boundary c s h) (T : train_one_optimizer_step c samples before s = (s', r)) :
  (exists e bs, r = Raise e /\ same_counters s s' /\ sampler s' = sampler s /\
     at_boundary c s' (mkHistory (h_steps h) [] (h_discarded h ++ bs)) /\
     (optimizer_steps c <= optimizer_step s -> e = WValueError)) \/
  (exists m bs, r = Ok m /\ at_boundary c s' (committed h bs) /\
     Z.of_nat (length bs) = gradient_accumulation_steps c /\ Forall (width (batch_size c)) bs /\
     optimizer_step s' = optimizer_step s + 1 /\ optimizer_step s' <= optimizer_steps c /\
     micro_step s' = micro_step s + gradient_accumulation_steps c /\
     processed_tokens s' = processed_tokens s + tokens_of bs /\
     cursor (sampler s') = cursor (sampler s) + batch_size c * gradient_accumulation_steps c /\
     m_step m = micro_step s' /\ m_optimizer_step m = optimizer_step s' /\
     m_processed_tokens m = processed_tokens s' /\ m_learning_rate m = rate).
Proof.
  destruct (wp_elim _ _ _ (train_step_spec c samples before s h K B) _ _ T) as [_ [?|(bs & loss & -> & R)]]; [by left|].
  right. unfold training_metric. rewrite G, L. cbn [rbind]. eexists _, bs. split; [done|].
  destruct R as (R1 & R2 & R3 & R4 & R5 & R6 & R7 & R8). done.
Qed.
End Steps.

(** ** A concrete step *)

(** A world that runs out of memory after some batches *)
#[export] Instance toy_train : TrainOps Z := {
  forward := fun _ _ w => (w - 1, if w <=? 0 then Raise WOutOfMemoryError else Ok (FFin false 15 (-1)));
  backward := fun _ w => (w, Ok tt);
  optimizer_step_op := fun w => (w, Ok tt);
  clear_gradients := id }.

Definition toy_config : BaselineConfig := config_of demo_config.

Definition toy_samples : list TokenSample :=
  map (fun n => mkSample [n; n + 1; 2; 3] [n + 1; 2; 3; 0]) [1; 2; 3; 4].

Definition toy_state (w : Z) : @TrainingState Z :=
  mkTraining 0 0 0 (mkSampler 4 7 0) (Some (mkBoundary 0 16 0 0 0 0 0 0 None 0)) w.

Lemma toy_config_ok : config_ok toy_config.
Proof.
  destruct (config_from_mapping demo_config) as [c|] eqn:E; [|vm_compute in E; discriminate].
  unfold config_from_mapping in E. apply rbind_unit_Ok in E as (_ & E). apply type_error_as_Ok in E.
  apply new_config_ok in E as [K ->]. exact K.
Qed.

Lemma toy_boundary w : at_boundary toy_config (toy_state w) (mkHistory [] [] []).
Proof.
  constructor; [|done|constructor]. exists (mkBoundary 0 16 0 0 0 0 0 0 None 0).
  split; [|reflexivity]. constructor; try done.
Qed.

(** Enough memory: two micro-batches of two samples are committed.  Memory for
    one: the first micro-batch is discarded and the cursor is back at 0. *)
Lemma optimizer_step_atomic_witness :
  (exists s' m, train_one_optimizer_step toy_config toy_samples None (toy_state 9) = (s', Ok m) /\
     optimizer_step s' = 1 /\ cursor (sampler s') = 4) /\
  (exists s' e, train_one_optimizer_step toy_config toy_samples None (toy_state 1) = (s', Raise e) /\
     sampler s' = mkSampler 4 7 0 /\ optimizer_step s' = 0).
Proof.
  assert (G : float_of_int (gradient_accumulation_steps toy_config) = Some (FFin false 2 0)) by (vm_compute; reflexivity).
  assert (L : learning_rate toy_config = Ok (FFin false 1 (-3))) by (vm_compute; reflexivity).
  split.
  - destruct (train_one_optimizer_step toy_config toy_samples None (toy_state 9)) as [s' r] eqn:T.
    assert (R : match (train_one_optimizer_step toy_config toy_samples None (toy_state 9)).2 with
                | Ok _ => true | _ => false end = true) by (vm_compute; reflexivity).
    rewrite T in R. destruct (optimizer_step_atomic toy_config toy_samples None (toy_state 9) s' r _ _ _
      toy_config_ok G L (toy_boundary 9) T) as [(e & bs & -> & _)|(m & bs & -> & _ & _ & _ & O & _ & _ & _ & C & _)];
      [discriminate R|]. exists s', m. split; [reflexivity|]. split; [exact O|]. rewrite C. reflexivity.
  - destruct (train_one_optimizer_step toy_config toy_samples None (toy_state 1)) as [s' r] eqn:T.
    assert (R : match (train_one_optimizer_step toy_config toy_samples None (toy_state 1)).2 with
                | Ok _ => true | _ => false end = false) by (vm_compute; reflexivity).
    rewrite T in R. destruct (optimizer_step_atomic toy_config toy_samples None (toy_state 1) s' r _ _ _
      toy_config_ok G L (toy_boundary 1) T) as [(e & bs & -> & S & E & _)|(m & bs & -> & _)];
      [|discriminate R]. exists s', e. split; [reflexivity|]. split; [exact E|]. apply S.
Defined.
