(* ===== verification/RoundValidation.v ===== *)
(** * Binding a ticket to its inputs ([deltatorrent/worker/validation.py])

    [resolve_local_round]: the configuration, schema, tokenizer, corpus and
    parent tensors a ticket names, read from the store and checked against it.
    Parsing a safetensors file is the safetensors package's: [load_tensors]. *)

From S2P Require Import Prelude PyFloat PyArith Json JsonText Text Sha256 WorkerErrors WorkerCanonical ArtifactRef WorkTicket ArtifactStore Updates ParameterSchema Sampler BaselineConfig DeltaSchema.
Open Scope string_scope.
Open Scope Z_scope.
Open Scope py_scope.

Definition _invalid_ticket (message : string) : worker_exn := DeltaError INVALID_WORK_TICKET message.

Section Resolve.
Context {Tensor : Type} `{!TensorOps Tensor}.
(** [safetensors.torch.load] *)
Context (load_tensors : string -> wresult (odict Tensor)).

Record ResolvedLocalRound := mkResolved {
  r_ticket : DomainPureWorkTicket;
  r_config : BaselineConfig;
  r_parameter_schema : ParameterSchema;
  r_tokenizer_ref : ArtifactRef;
  r_tokenizer : Tokenizer;
  r_samples : list TokenSample;
  r_parent_parameters : odict Tensor;
  r_limits : LocalRoundLimits }.

(** [schema_id] and [media_type] of a reference *)
Definition ref_is (r : ArtifactRef) (schema media : string) : bool :=
  String.eqb (schema_id r) schema && py_eq (media_type r) (JStr media).

(** The checks against the configuration and the profiles *)
Definition check_bindings (ticket : DomainPureWorkTicket) (config : BaselineConfig) (schema : ParameterSchema) :
    wresult unit :=
  let? fingerprint := schema_fingerprint schema in
  require (String.eqb (parameter_schema_id ticket) fingerprint) (_invalid_ticket "WORK_TICKET_PARAMETER_SCHEMA_MISMATCH") ;?
  require ((batch_budget ticket =? batch_size config) && (step_budget ticket =? optimizer_steps config))
    (_invalid_ticket "WORK_TICKET_BUDGET_MISMATCH") ;?
  require (deterministic_seed ticket =? b_seed config) (_invalid_ticket "WORK_TICKET_SEED_MISMATCH") ;?
  let? profile := optimizer_profile_id_of config in
  require (String.eqb (optimizer_profile_id ticket) profile) (_invalid_ticket "WORK_TICKET_OPTIMIZER_PROFILE_MISMATCH").

(** The tokenizer and the arithmetic profile it takes part in *)
Definition resolve_tokenizer (io : store_io) (ticket : DomainPureWorkTicket) (config : BaselineConfig)
    (tokenizer_ref : ArtifactRef) (limits : LocalRoundLimits) (store : FilesystemArtifactStore) : wresult Tokenizer :=
  require (ref_is tokenizer_ref "SCHEMA-TOKENIZER-V1" "application/vnd.deltareduce.tokenizer+json;version=1")
    (_invalid_ticket "WORK_TICKET_TOKENIZER_REF_INVALID") ;?
  let? tokenizer_bytes := store_read io tokenizer_ref store in
  let? tokenizer := tokenizer_from_json_bytes tokenizer_bytes in
  require ((Z.of_nat (length (vocabulary tokenizer)) =? vocab_size config) && (pad_id tokenizer =? 0))
    (_invalid_ticket "WORK_TICKET_TOKENIZER_PROFILE_MISMATCH") ;?
  let? profile := arithmetic_profile_id_of config (content_id tokenizer_ref) limits in
  require (String.eqb (arithmetic_profile_id ticket) profile) (_invalid_ticket "WORK_TICKET_ARITHMETIC_PROFILE_MISMATCH") ;?
  Ok tokenizer.

(** The corpus, cut into samples *)
Definition resolve_samples (io : store_io) (ticket : DomainPureWorkTicket) (config : BaselineConfig)
    (tokenizer : Tokenizer) (store : FilesystemArtifactStore) : wresult (list TokenSample) :=
  require (ref_is (data ticket) "SCHEMA-CORPUS-TEXT-V1" "text/plain;charset=utf-8")
    (_invalid_ticket "WORK_TICKET_DATA_REF_INVALID") ;?
  let? corpus := store_read io (data ticket) store in
  require (encodable corpus) (_invalid_ticket "WORK_TICKET_DATA_UTF8_INVALID") ;?
  let? samples := load_samples_from_text corpus tokenizer (sequence_length config) in
  let required_draws := batch_budget ticket * gradient_accumulation_steps config * step_budget ticket in
  require (end_ (data_range ticket) - start (data_range ticket) =? required_draws)
    (_invalid_ticket "WORK_TICKET_DATA_RANGE_BUDGET_MISMATCH") ;?
  Ok samples.

(** [{name: … parent[name] … for name in names if name in parent}]; the copies
    are the tensors themselves. *)
Definition canonical_parent (parent : odict Tensor) (names : list string) : odict Tensor :=
  omap (fun name => match od_get name parent with Some t => Some (name, t) | None => None end) names.

(** A [DeltaError] becomes [e]. *)
Definition delta_error_as {A} (e : worker_exn) (m : wresult A) : wresult A :=
  match m with Raise (DeltaError _ _) => Raise e | _ => m end.

Definition resolve_parent (io : store_io) (ticket : DomainPureWorkTicket) (schema : ParameterSchema)
    (store : FilesystemArtifactStore) : wresult (odict Tensor) :=
  require (ref_is (parent_model ticket) "SCHEMA-SAFETENSORS-V1" "application/vnd.safetensors")
    (_invalid_ticket "WORK_TICKET_PARENT_REF_INVALID") ;?
  let? parent := wrap (let? bytes := store_read io (parent_model ticket) store in load_tensors bytes)
                   (_invalid_ticket "WORK_TICKET_PARENT_TENSOR_INVALID") in
  let canonical := canonical_parent parent (included_tensor_names schema) in
  let? _ := delta_error_as (_invalid_ticket "WORK_TICKET_PARENT_TENSOR_INVALID")
              (validate_fp32_tensor_bundle canonical schema JNull JNull) in
  require (forallb (fun k => str_in k (od_keys canonical)) (od_keys parent))
    (_invalid_ticket "WORK_TICKET_PARENT_TENSOR_SET_INVALID") ;?
  Ok canonical.

Definition resolve_local_round (io1 io2 io3 : store_io) (ticket : DomainPureWorkTicket) (config : BaselineConfig)
    (schema : ParameterSchema) (tokenizer_ref : ArtifactRef) (store : FilesystemArtifactStore)
    (limits : option LocalRoundLimits) : wresult ResolvedLocalRound :=
  let resolved_limits := match limits with Some l => l | None => default_limits end in
  check_bindings ticket config schema ;?
  let? tokenizer := resolve_tokenizer io1 ticket config tokenizer_ref resolved_limits store in
  let? samples := resolve_samples io2 ticket config tokenizer store in
  let? parent := resolve_parent io3 ticket schema store in
  Ok (mkResolved ticket config schema tokenizer_ref tokenizer samples parent resolved_limits).

(** ** What a resolved round satisfies *)

Record resolved_ok (store : FilesystemArtifactStore) (r : ResolvedLocalRound) : Prop := {
  v_schema : schema_fingerprint (r_parameter_schema r) = Ok (parameter_schema_id (r_ticket r));
  v_budgets : batch_budget (r_ticket r) = batch_size (r_config r) /\ step_budget (r_ticket r) = optimizer_steps (r_config r);
  v_seed : deterministic_seed (r_ticket r) = b_seed (r_config r);
  v_optimizer : optimizer_profile_id_of (r_config r) = Ok (optimizer_profile_id (r_ticket r));
  v_arithmetic : arithmetic_profile_id_of (r_config r) (content_id (r_tokenizer_ref r)) (r_limits r)
                 = Ok (arithmetic_profile_id (r_ticket r));
  v_vocabulary : Z.of_nat (length (vocabulary (r_tokenizer r))) = vocab_size (r_config r) /\ tokenizer_ok (r_tokenizer r);
  v_tokenizer : exists bytes, store_read StoreOk (r_tokenizer_ref r) store = Ok bytes /\
    tokenizer_from_json_bytes bytes = Ok (r_tokenizer r) /\ pad_id (r_tokenizer r) = 0;
  v_refs : ref_is (r_tokenizer_ref r) "SCHEMA-TOKENIZER-V1" "application/vnd.deltareduce.tokenizer+json;version=1" = true /\
    ref_is (data (r_ticket r)) "SCHEMA-CORPUS-TEXT-V1" "text/plain;charset=utf-8" = true /\
    ref_is (parent_model (r_ticket r)) "SCHEMA-SAFETENSORS-V1" "application/vnd.safetensors" = true;
  v_corpus : exists text, store_read StoreOk (data (r_ticket r)) store = Ok text /\ encodable text = true /\
    load_samples_from_text text (r_tokenizer r) (sequence_length (r_config r)) = Ok (r_samples r);
  v_range : end_ (data_range (r_ticket r)) - start (data_range (r_ticket r))
            = batch_size (r_config r) * gradient_accumulation_steps (r_config r) * optimizer_steps (r_config r);
  v_parent : od_keys (r_parent_parameters r) = included_tensor_names (r_parameter_schema r) /\
    Forall (tensor_valid (r_parameter_schema r) None) (r_parent_parameters r) /\
    exists bytes all, store_read StoreOk (parent_model (r_ticket r)) store = Ok bytes /\ load_tensors bytes = Ok all /\
      forall k, od_get k all = od_get k (r_parent_parameters r) }.

Lemma check_bindings_Ok ticket config schema u :
  check_bindings ticket config schema = Ok u ->
  schema_fingerprint schema = Ok (parameter_schema_id ticket) /\
  batch_budget ticket = batch_size config /\ step_budget ticket = optimizer_steps config /\
  deterministic_seed ticket = b_seed config /\ optimizer_profile_id_of config = Ok (optimizer_profile_id ticket).
Proof.
  unfold check_bindings. intros (f & F & H)%rbind_Ok. apply rbind_unit_Ok in H as (E1 & H).
  apply rbind_unit_Ok in H as (E2 & H). apply rbind_unit_Ok in H as (E3 & H). apply rbind_Ok in H as (p & P & H).
  rewrite require_Ok in E1, E2, E3, H. apply andb_true_iff in E2 as [E2 E2']. rewrite Z.eqb_eq in E2, E2', E3.
  apply String.eqb_eq in E1, H. by subst.
Qed.

Lemma store_read_io io r s v : store_read io r s = Ok v -> store_read StoreOk r s = Ok v.
Proof.
  unfold store_read. destruct (_resolve_locator (locator r)); [|done]. cbn [rbind]. by destruct io.
Qed.

Lemma tokenizer_from_json_ok bytes t : tokenizer_from_json_bytes bytes = Ok t -> tokenizer_ok t.
Proof.
  unfold tokenizer_from_json_bytes. intros (_ & H)%rbind_unit_Ok. destruct (loads true bytes) as [[]|]; try done.
  apply rbind_unit_Ok in H as (_ & H). destruct (jget "vocabulary" o); try done.
  apply rbind_unit_Ok in H as (_ & H). apply rbind_Ok in H as (v & _ & H).
  by apply new_tokenizer_Ok in H as (_ & _ & _ & ?).
Qed.

Lemma resolve_tokenizer_Ok io ticket config ref limits store t :
  resolve_tokenizer io ticket config ref limits store = Ok t ->
  (Z.of_nat (length (vocabulary t)) = vocab_size config /\ tokenizer_ok t) /\
  arithmetic_profile_id_of config (content_id ref) limits = Ok (arithmetic_profile_id ticket) /\
  (exists bytes, store_read StoreOk ref store = Ok bytes /\ tokenizer_from_json_bytes bytes = Ok t /\ pad_id t = 0) /\
  ref_is ref "SCHEMA-TOKENIZER-V1" "application/vnd.deltareduce.tokenizer+json;version=1" = true.
Proof.
  unfold resolve_tokenizer. intros (R%require_Ok & H)%rbind_unit_Ok. apply rbind_Ok in H as (b & B & H).
  apply rbind_Ok in H as (t' & T & H). apply rbind_unit_Ok in H as (V & H). apply rbind_Ok in H as (p & P & H).
  apply rbind_unit_Ok in H as (E & [= ->]). rewrite require_Ok in V, E. apply String.eqb_eq in E. subst p.
  apply andb_true_iff in V as [V%Z.eqb_eq Pd%Z.eqb_eq]. pose proof (tokenizer_from_json_ok _ _ T). apply store_read_io in B.
  repeat (split; [done|]). split; [by exists b|done].
Qed.

Lemma resolve_samples_Ok io ticket config t store samples :
  resolve_samples io ticket config t store = Ok samples ->
  (exists text, store_read StoreOk (data ticket) store = Ok text /\ encodable text = true /\
     load_samples_from_text text t (sequence_length config) = Ok samples) /\
  end_ (data_range ticket) - start (data_range ticket)
  = batch_budget ticket * gradient_accumulation_steps config * step_budget ticket /\
  ref_is (data ticket) "SCHEMA-CORPUS-TEXT-V1" "text/plain;charset=utf-8" = true.
Proof.
  unfold resolve_samples. intros (R%require_Ok & H)%rbind_unit_Ok. apply rbind_Ok in H as (text & T & H).
  apply rbind_unit_Ok in H as (U & H). apply rbind_Ok in H as (s & S & H). apply rbind_unit_Ok in H as (E & [= ->]).
  rewrite require_Ok in U, E. apply Z.eqb_eq in E. apply store_read_io in T. split; [by exists text|done].
Qed.

Lemma canonical_parent_get parent names k :
  od_get k (canonical_parent parent names) = if str_in k names then od_get k parent else None.
Proof.
  unfold canonical_parent. induction names as [|n names IH]; [done|]. cbn [omap list_omap str_in existsb].
  destruct (od_get n parent) as [t|] eqn:E; cbn [od_get].
  - destruct (String.eqb_spec k n) as [->|N]; cbn [orb]; [done|]. exact IH.
  - destruct (String.eqb_spec k n) as [->|N]; cbn [orb]; [|exact IH].
    etransitivity; [exact IH|]. rewrite E. by destruct (str_in n names).
Qed.

Lemma delta_error_as_Ok {A} e (m : wresult A) a : delta_error_as e m = Ok a <-> m = Ok a.
Proof. by destruct m as [|[]]. Qed.

Lemma resolve_parent_Ok io ticket schema store parent :
  resolve_parent io ticket schema store = Ok parent ->
  (od_keys parent = included_tensor_names schema /\ Forall (tensor_valid schema None) parent /\
   exists bytes all, store_read StoreOk (parent_model ticket) store = Ok bytes /\ load_tensors bytes = Ok all /\
     forall k, od_get k all = od_get k parent) /\
  ref_is (parent_model ticket) "SCHEMA-SAFETENSORS-V1" "application/vnd.safetensors" = true.
Proof.
  unfold resolve_parent. intros (Rf%require_Ok & H)%rbind_unit_Ok. apply rbind_Ok in H as (all & R & H).
  apply wrap_Ok in R. apply rbind_Ok in R as (bytes & R & L). apply store_read_io in R.
  apply rbind_Ok in H as (n & V & H). apply delta_error_as_Ok in V. apply bundle_Ok in V as (Kp & limit & C & F).
  apply rbind_unit_Ok in H as (S & [= <-]). apply require_Ok in S. rewrite forallb_forall in S.
  injection C as <-. split; [|exact Rf]. split; [done|]. split; [done|]. exists bytes, all. split; [done|]. split; [done|].
  intros k. rewrite canonical_parent_get. destruct (str_in k (included_tensor_names schema)) eqn:E; [done|].
  apply od_get_None. intros K%list_elem_of_In. apply S in K. rewrite Kp in K. congruence.
Qed.

Lemma resolve_ok io1 io2 io3 ticket config schema ref store limits r :
  resolve_local_round io1 io2 io3 ticket config schema ref store limits = Ok r ->
  r_ticket r = ticket /\ r_config r = config /\ r_parameter_schema r = schema /\ r_tokenizer_ref r = ref /\
  r_limits r = match limits with Some l => l | None => default_limits end /\ resolved_ok store r.
Proof.
  unfold resolve_local_round. intros (B & H)%rbind_unit_Ok. apply rbind_Ok in H as (t & T & H).
  apply rbind_Ok in H as (samples & S & H). apply rbind_Ok in H as (parent & P & [= <-]). cbn.
  apply check_bindings_Ok in B as (B1 & B2 & B3 & B4 & B5). apply resolve_tokenizer_Ok in T as (T1 & T2 & T3 & T4).
  apply resolve_samples_Ok in S as (S1 & S2 & S3). apply resolve_parent_Ok in P as (P1 & P2).
  repeat (split; [done|]). constructor; cbn; try done. rewrite S2, B2, B3. done.
Qed.

(** C36: a round is resolved only if the ticket's schema id, profile ids, budgets
    and seed are those of the schema, configuration, tokenizer and limits at
    hand, its tokenizer, corpus and parent are read from the bytes the store
    holds under the tokenizer reference and the ticket's references, which are
    of the right schemas and media types, the tokenizer has the configuration's
    vocabulary and pads with 0, every sample is made of ids of the model's vocabulary, the parent has
    exactly the schema's tensors, valid and finite, and the ticket's data range
    is exactly the draws of all its optimizer steps. *)
Theorem resolved_round_bound (io1 io2 io3 : store_io) (ticket : DomainPureWorkTicket) (config : BaselineConfig)
    (schema : ParameterSchema) (ref : ArtifactRef) (store : FilesystemArtifactStore)
    (limits : option LocalRoundLimits) (r : ResolvedLocalRound)
    (H : resolve_local_round io1 io2 io3 ticket config schema ref store limits = Ok r) :
  r_ticket r = ticket /\ r_config r = config /\ r_parameter_schema r = schema /\ r_tokenizer_ref r = ref /\
  r_limits r = (match limits with Some l => l | None => default_limits end) /\ resolved_ok store r /\ r_samples r <> [] /\
  Forall (fun s => Forall (fun n => 0 <= n < vocab_size config) (inputs s ++ targets s)%list) (r_samples r).
Proof.
  apply resolve_ok in H as (E1 & E2 & E3 & E4 & E5 & K). do 5 (split; [done|]). split; [done|].
  destruct (v_vocabulary _ _ K) as [V T]. destruct (v_corpus _ _ K) as (text & _ & _ & L).
  apply samples_bound in L as [N F]; [|done]. rewrite V, E2 in F. done.
Qed.
End Resolve.

(** ** A concrete round: a store, a ticket made for it, toy tensors *)

Definition ok_or (d : string) (r : wresult string) : string := match r with Ok s => s | Raise _ => d end.

Definition round_tokenizer : Tokenizer := mkTokenizer [("<pad>", 0); ("a", 1); ("b", 2)] "<pad>" "a".
Definition round_config : BaselineConfig := config_of (od_set "vocab_size" (JInt 3) demo_config).

Definition tokenizer_text : string := ok_or EmptyString (canonical_json_bytes (JObj (tokenizer_payload round_tokenizer))).
Definition corpus_text : string := "a b b a a b a b b b a a b a b a b".
Definition parent_text : string := "tensors".

Definition stored_ref (schema media locator text : string) : ArtifactRef :=
  mkArtifactRef (sha256_content_id text) (JStr media) schema "1.0.0" (byte_count text) locator.

Definition round_tokenizer_ref : ArtifactRef :=
  stored_ref "SCHEMA-TOKENIZER-V1" "application/vnd.deltareduce.tokenizer+json;version=1" "in/tokenizer" tokenizer_text.
Definition round_corpus_ref : ArtifactRef :=
  stored_ref "SCHEMA-CORPUS-TEXT-V1" "text/plain;charset=utf-8" "in/corpus" corpus_text.
Definition round_parent_ref : ArtifactRef :=
  stored_ref "SCHEMA-SAFETENSORS-V1" "application/vnd.safetensors" "in/parent" parent_text.

Definition round_store : FilesystemArtifactStore :=
  <["in/tokenizer" := tokenizer_text]> (<["in/corpus" := corpus_text]> {["in/parent" := parent_text]}).

Definition round_ticket : DomainPureWorkTicket :=
  mkTicket "ticket-1" "domain-1" round_corpus_ref (mkDataRange 0 16) 2 4 round_parent_ref
    (ok_or EmptyString (schema_fingerprint toy_schema)) (ok_or EmptyString (optimizer_profile_id_of round_config))
    (ok_or EmptyString (arithmetic_profile_id_of round_config (content_id round_tokenizer_ref) default_limits))
    7 60000 FORMAL_SEMANTICS_ID "1.0.0".

(** A codec for the one artifact there is *)
Definition toy_load (bytes : string) : wresult (odict toy) := Ok [("embed", mkToy [2] 10)].

Abbreviation resolve_demo :=
  (resolve_local_round toy_load StoreOk StoreOk StoreOk round_ticket round_config toy_schema round_tokenizer_ref
    round_store None).

Lemma resolved_round_bound_witness :
  exists r, resolve_demo = Ok r /\ length (r_samples r) = 4%nat /\ resolved_ok toy_load round_store r.
Proof.
  destruct resolve_demo as [r|e] eqn:E.
  - exists r. split; [reflexivity|]. split.
    + assert (C : match resolve_demo with Ok r => length (r_samples r) | _ => 0%nat end = 4%nat) by (vm_compute; reflexivity).
      rewrite E in C. exact C.
    + exact (proj1 (proj2 (proj2 (proj2 (proj2 (proj2
        (resolved_round_bound toy_load StoreOk StoreOk StoreOk round_ticket round_config toy_schema
          round_tokenizer_ref round_store None r E))))))).
  - exfalso. assert (C : match resolve_demo with Ok _ => true | _ => false end = true) by (vm_compute; reflexivity).
    rewrite E in C. discriminate C.
Defined.
