(* ===== verification/UpdateWriter.v ===== *)
(** * Publication of a round ([deltatorrent/worker/update_writer.py])

    Tensors first, the completion, then the candidate; the verification of what
    was published.  [save_tensors] and [load_tensors] are the safetensors
    package's.  [WorkEnv] is what surrounds the worker: the outcome of each
    access to the store, what other processes publish meanwhile, the clocks, the
    cancellation flag and the fault injector. *)

From S2P Require Import Prelude PyFloat PyArith Json JsonText Text Sha256 WorkerErrors WorkerCanonical ArtifactRef WorkTicket ArtifactStore TokenAccounting Updates ParameterSchema Sampler BaselineConfig DeltaSchema RoundValidation.
Open Scope string_scope.
Open Scope Z_scope.
Open Scope py_scope.

Class WorkEnv (W : Type) := {
  next_io : W -> W * store_io;
  others : W -> FilesystemArtifactStore -> FilesystemArtifactStore;
  others_grow : forall w s, s ⊆ others w s;
  inject : string -> W -> W * wresult unit;
  clock_ns : W -> W * Z;
  logical_clock_ms : W -> W * Z;
  cancellation_requested : W -> W * bool }.

Definition __version__ : string := "0.1.0".

(** ** Published results *)

Record PublishedLocalRound := mkPublished {
  parameter_schema_ref : ArtifactRef;
  local_delta_ref : ArtifactRef;
  completion_ref : ArtifactRef;
  normalized_delta_ref : ArtifactRef;
  candidate_ref : ArtifactRef;
  completion : LocalRoundCompletion;
  candidate : NormalizedContributionCandidate }.

Definition published_to_dict (p : PublishedLocalRound) : odict json :=
  [("candidate", JObj (ref_to_dict (candidate_ref p))); ("completion", JObj (ref_to_dict (completion_ref p)));
   ("local_delta", JObj (ref_to_dict (local_delta_ref p)));
   ("normalized_delta", JObj (ref_to_dict (normalized_delta_ref p)));
   ("parameter_schema", JObj (ref_to_dict (parameter_schema_ref p))); ("schema_version", JStr "1.0.0");
   ("status", JStr "COMPLETED"); ("ticket_id", JStr (n_ticket_id (candidate p)))].

Record PublishedFailure := mkFailure {
  f_parameter_schema_ref : ArtifactRef;
  f_completion_ref : ArtifactRef;
  f_completion : LocalRoundCompletion }.

Definition failure_to_dict (p : PublishedFailure) : odict json :=
  [("candidate", JNull); ("completion", JObj (ref_to_dict (f_completion_ref p)));
   ("parameter_schema", JObj (ref_to_dict (f_parameter_schema_ref p))); ("schema_version", JStr "1.0.0");
   ("status", JStr (status_value (c_status (f_completion p)))); ("ticket_id", JStr (c_ticket_id (f_completion p)))].

(** ** The documents a round publishes *)

Definition delta_args (ticket : DomainPureWorkTicket) (fingerprint : string) : odict json :=
  [("ticket_id", JStr (ticket_id ticket)); ("ticket_fingerprint", JStr fingerprint);
   ("parent_model_id", JStr (content_id (parent_model ticket)));
   ("parameter_schema_id", JStr (parameter_schema_id ticket));
   ("sign_convention", JStr "PARENT_MINUS_FINAL"); ("storage_dtype", JStr "float32")].

(** The fields of a completion that come from the ticket and the accounting *)
Definition completion_args (ticket : DomainPureWorkTicket) (fingerprint worker_id : string)
    (accounting : TokenAccountingRecord) (eligible : bool) (failure_code : json) : odict json :=
  [("arithmetic_profile_id", JStr (arithmetic_profile_id ticket)); ("batch_budget", JInt (batch_budget ticket));
   ("candidate_eligible", JBool eligible); ("cursor_end", JInt (r_cursor_end accounting));
   ("cursor_start", JInt (r_cursor_start accounting)); ("data_id", JStr (content_id (data ticket)));
   ("data_range_end", JInt (end_ (data_range ticket))); ("data_range_start", JInt (start (data_range ticket)));
   ("deterministic_seed", JInt (deterministic_seed ticket)); ("domain_id", JStr (domain_id ticket));
   ("effective_steps", JInt (r_effective_steps accounting)); ("failure_code", failure_code);
   ("logical_deadline_ms", JInt (logical_deadline_ms ticket)); ("micro_steps", JInt (r_observed_micro_steps accounting));
   ("optimizer_profile_id", JStr (optimizer_profile_id ticket));
   ("parameter_schema_id", JStr (parameter_schema_id ticket));
   ("parent_model_id", JStr (content_id (parent_model ticket)));
   ("processed_tokens", JInt (r_processed_tokens accounting));
   ("producer_version", JStr ("deltatorrent-worker-" +:+ __version__));
   ("step_budget", JInt (step_budget ticket)); ("ticket_fingerprint", JStr fingerprint);
   ("ticket_id", JStr (ticket_id ticket)); ("worker_id", JStr worker_id);
   ("formal_semantics_id", JStr FORMAL_SEMANTICS_ID); ("schema_version", JStr "1.0.0")].

Definition resource_args (peak wall : Z) : odict json :=
  [("peak_memory_bytes", JInt peak); ("wall_time_ms", JInt wall)].

Definition numerical_args (finite : bool) (l2 max_abs : json) : odict json :=
  [("all_finite", JBool finite); ("global_l2_norm_fp64_bits", l2); ("max_abs_fp32_bits", max_abs)].

Definition candidate_args (ticket : DomainPureWorkTicket) (fingerprint completion_id : string) (steps : Z) : odict json :=
  [("arithmetic_profile_id", JStr (arithmetic_profile_id ticket)); ("completion_id", JStr completion_id);
   ("domain_id", JStr (domain_id ticket)); ("effective_steps", JInt steps); ("normalization_denominator", JInt steps);
   ("optimizer_profile_id", JStr (optimizer_profile_id ticket));
   ("parameter_schema_id", JStr (parameter_schema_id ticket));
   ("parent_model_id", JStr (content_id (parent_model ticket))); ("step_budget", JInt (step_budget ticket));
   ("ticket_fingerprint", JStr fingerprint); ("ticket_id", JStr (ticket_id ticket));
   ("storage_dtype", JStr "float32"); ("formal_semantics_id", JStr FORMAL_SEMANTICS_ID);
   ("schema_version", JStr "1.0.0")].

Definition success_completion (ticket : DomainPureWorkTicket) (worker_id : string) (accounting : TokenAccountingRecord)
    (summary : TensorNormSummary) (local_ref : ArtifactRef) (order : list string) (wall_time_ms peak_memory_bytes : Z) :
    wresult LocalRoundCompletion :=
  let? fingerprint := ticket_fingerprint ticket in
  let? delta := new_delta local_ref (map JStr order) (delta_args ticket fingerprint) in
  let? numerical := new_numerical (numerical_args true (JStr (global_l2_bits summary)) (JStr (max_abs_bits summary))) in
  let? resource := resource_from_dict (resource_args peak_memory_bytes wall_time_ms) in
  new_completion (completion_args ticket fingerprint worker_id accounting true JNull) (Some delta) numerical resource
    S_COMPLETED R_EXACT_H.

Definition failure_completion (ticket : DomainPureWorkTicket) (worker_id : string) (accounting : TokenAccountingRecord)
    (status : CompletionStatus) (reason : CompletionReason) (failure_code : string)
    (wall_time_ms peak_memory_bytes : Z) : wresult LocalRoundCompletion :=
  let? fingerprint := ticket_fingerprint ticket in
  let? numerical := new_numerical (numerical_args false JNull JNull) in
  let? resource := resource_from_dict (resource_args peak_memory_bytes wall_time_ms) in
  new_completion (completion_args ticket fingerprint worker_id accounting false (JStr failure_code)) None numerical
    resource status reason.

Definition round_candidate (ticket : DomainPureWorkTicket) (completion_id : string) (steps : Z)
    (normalized_ref : ArtifactRef) (order : list string) : wresult NormalizedContributionCandidate :=
  let? fingerprint := ticket_fingerprint ticket in
  new_candidate normalized_ref (map JStr order) (candidate_args ticket fingerprint completion_id steps).

Definition completion_locator (ticket : DomainPureWorkTicket) : string :=
  "local-round/" +:+ ticket_id ticket +:+ "/completion.json".
Definition candidate_locator (ticket : DomainPureWorkTicket) : string :=
  "local-round/" +:+ ticket_id ticket +:+ "/candidate.json".

(** [a == b] of two references *)
Definition ref_eqb (a b : ArtifactRef) : bool :=
  String.eqb (content_id a) (content_id b) && py_eq (media_type a) (media_type b)
  && String.eqb (schema_id a) (schema_id b) && String.eqb (ArtifactRef.schema_version a) (ArtifactRef.schema_version b)
  && (byte_length a =? byte_length b) && String.eqb (locator a) (locator b).

(** ** The writer *)

Section Writer.
Context {Tensor W : Type} `{!TensorOps Tensor} `{!WorkEnv W}.
Context (save_tensors : odict Tensor -> wresult string) (load_tensors : string -> wresult (odict Tensor)).

Record PubState := mkPub { p_store : FilesystemArtifactStore; p_world : W }.

(** One call on the store, after whatever others have published *)
Definition store_call {A} (f : store_io -> store_io -> FilesystemArtifactStore -> FilesystemArtifactStore * wresult A) :
    WM PubState A :=
  fun s =>
    let '(w1, io1) := next_io (p_world s) in
    let '(w2, io2) := next_io w1 in
    let '(s', r) := f io1 io2 (others w2 (p_store s)) in
    (mkPub s' w2, r).

Definition env {A} (f : W -> W * wresult A) : WM PubState A :=
  fun s => let '(w, r) := f (p_world s) in (mkPub (p_store s) w, r).

Definition read_call (r : ArtifactRef) : WM PubState string :=
  store_call (fun io _ s => (s, store_read io r s)).

Definition _publish_tensors (tensors : odict Tensor) : WM PubState ArtifactRef :=
  let! encoded := wlift (save_tensors tensors) in
  store_call (fun io io2 => publish_bytes io io2 encoded _SAFETENSORS_MEDIA_TYPE "SCHEMA-SAFETENSORS-V1" "1.0.0").

Definition publish_schema (schema : ParameterSchema) : WM PubState ArtifactRef :=
  store_call (fun io io2 => publish_json io io2 (JObj (schema_to_dict schema))
    "application/vnd.deltareduce.parameter-schema+json;version=1" "SCHEMA-PARAMETER-SCHEMA-V1" "1.0.0").

Definition publish_completion (ticket : DomainPureWorkTicket) (c : LocalRoundCompletion) : WM PubState ArtifactRef :=
  let! bytes := wlift (canonical_json_bytes (JObj (completion_to_dict c))) in
  store_call (fun io io2 => publish_named io io2 (completion_locator ticket) bytes
    "application/vnd.deltareduce.local-round-completion+json;version=1" "SCHEMA-LOCAL-ROUND-COMPLETION-V1" "1.0.0").

Definition publish_candidate (ticket : DomainPureWorkTicket) (n : NormalizedContributionCandidate) : WM PubState ArtifactRef :=
  let! bytes := wlift (canonical_json_bytes (JObj (candidate_to_dict n))) in
  store_call (fun io io2 => publish_named io io2 (candidate_locator ticket) bytes
    "application/vnd.deltareduce.normalized-contribution-candidate+json;version=1"
    "SCHEMA-NORMALIZED-CONTRIBUTION-CANDIDATE-V1" "1.0.0").

(** The two ceilings of the limits *)
Definition ceilings (limits : LocalRoundLimits) : wresult (json * json) :=
  let? p := norm_ceiling (per_tensor_norm_ceiling_microunits limits) in
  let? g := norm_ceiling (global_norm_ceiling_microunits limits) in
  Ok (JFloat p, JFloat g).

(** The checks before anything is published: the norms of the normalized delta *)
Definition check_success (ticket : DomainPureWorkTicket) (schema : ParameterSchema) (accounting : TokenAccountingRecord)
    (local_delta normalized_delta : odict Tensor) (limits : LocalRoundLimits) : wresult TensorNormSummary :=
  require (negb (negb (r_effective_steps accounting =? step_budget ticket) || negb (r_pending_micro_steps accounting =? 0)))
    (DeltaError INVALID_CONTRIBUTION_CANDIDATE "CANDIDATE_REQUIRES_COMMITTED_A_EQUALS_H") ;?
  let? _ := validate_fp32_tensor_bundle local_delta schema JNull JNull in
  let? limit := ceilings limits in
  validate_fp32_tensor_bundle normalized_delta schema limit.1 limit.2.

Definition publish_success (ticket : DomainPureWorkTicket) (worker_id : string) (schema : ParameterSchema)
    (accounting : TokenAccountingRecord) (local_delta normalized_delta : odict Tensor) (limits : LocalRoundLimits)
    (wall_time_ms peak_memory_bytes : Z) : WM PubState PublishedLocalRound :=
  let! summary := wlift (check_success ticket schema accounting local_delta normalized_delta limits) in
  let! schema_ref := publish_schema schema in
  wlift (require (String.eqb (content_id schema_ref) (parameter_schema_id ticket))
           (DeltaError INVALID_WORK_TICKET "PUBLISHED_SCHEMA_ID_MISMATCH")) ;!
  let! local_ref := _publish_tensors local_delta in
  env (inject "AFTER_LOCAL_DELTA_ARTIFACT") ;!
  let! normalized_ref := _publish_tensors normalized_delta in
  env (inject "AFTER_NORMALIZED_DELTA_ARTIFACT") ;!
  let tensor_order := included_tensor_names schema in
  let! c := wlift (success_completion ticket worker_id accounting summary local_ref tensor_order wall_time_ms peak_memory_bytes) in
  let! c_ref := publish_completion ticket c in
  let! fingerprint := wlift (completion_fingerprint c) in
  wlift (require (String.eqb (content_id c_ref) fingerprint) (_invalid_completion "COMPLETION_ID_MISMATCH")) ;!
  env (inject "AFTER_COMPLETION_MANIFEST") ;!
  let! n := wlift (round_candidate ticket fingerprint (r_effective_steps accounting) normalized_ref tensor_order) in
  let! n_ref := publish_candidate ticket n in
  wret (mkPublished schema_ref local_ref c_ref normalized_ref n_ref c n).

Definition publish_failure (ticket : DomainPureWorkTicket) (worker_id : string) (schema : ParameterSchema)
    (accounting : TokenAccountingRecord) (status : CompletionStatus) (reason : CompletionReason) (failure_code : string)
    (wall_time_ms peak_memory_bytes : Z) : WM PubState PublishedFailure :=
  let! schema_ref := publish_schema schema in
  let! c := wlift (failure_completion ticket worker_id accounting status reason failure_code wall_time_ms peak_memory_bytes) in
  let! c_ref := publish_completion ticket c in
  wret (mkFailure schema_ref c_ref c).

(** ** Verification of what was published *)

Definition load_canonical_tensor_artifact (r : ArtifactRef) (schema : ParameterSchema) : WM PubState (odict Tensor) :=
  wlift (require (is_safetensors r) (_invalid_tensor "TENSOR_ARTIFACT_TYPE_INVALID")) ;!
  let! loaded := wtry (let! bytes := read_call r in wlift (load_tensors bytes))
                   (fun _ => wraise (_invalid_tensor "TENSOR_ARTIFACT_INVALID")) in
  let order := included_tensor_names schema in
  wlift (require (keys_are (map (fun kv => (kv.1, JNull)) loaded) order) (_invalid_tensor "TENSOR_ARTIFACT_SET_INVALID") ;?
         let? canonical := pick id loaded order in
         let? _ := validate_fp32_tensor_bundle canonical schema JNull JNull in
         Ok canonical).

(** The lineage of the published documents, in the order of the comparisons *)
Definition lineage (p : PublishedLocalRound) (ticket : DomainPureWorkTicket) : wresult bool :=
  let c := completion p in
  let n := candidate p in
  if negb (String.eqb (content_id (parameter_schema_ref p)) (parameter_schema_id ticket)
           && String.eqb (c_ticket_id c) (ticket_id ticket) && String.eqb (c_domain_id c) (domain_id ticket)) then Ok false else
  let? fingerprint := ticket_fingerprint ticket in
  if negb (String.eqb (c_ticket_fingerprint c) fingerprint && String.eqb (c_data_id c) (content_id (data ticket))
           && String.eqb (c_parent_model_id c) (content_id (parent_model ticket))
           && String.eqb (c_parameter_schema_id c) (parameter_schema_id ticket)
           && String.eqb (c_optimizer_profile_id c) (optimizer_profile_id ticket)
           && String.eqb (c_arithmetic_profile_id c) (arithmetic_profile_id ticket)
           && match c_local_delta c with Some d => ref_eqb (d_artifact d) (local_delta_ref p) | None => false end
           && String.eqb (n_ticket_id n) (ticket_id ticket) && String.eqb (n_domain_id n) (domain_id ticket)
           && String.eqb (n_ticket_fingerprint n) fingerprint) then Ok false else
  let? completion_id := completion_fingerprint c in
  Ok (String.eqb (n_completion_id n) completion_id
      && String.eqb (n_parent_model_id n) (content_id (parent_model ticket))
      && String.eqb (n_parameter_schema_id n) (parameter_schema_id ticket)
      && String.eqb (n_optimizer_profile_id n) (optimizer_profile_id ticket)
      && String.eqb (n_arithmetic_profile_id n) (arithmetic_profile_id ticket)
      && ref_eqb (n_normalized_delta n) (normalized_delta_ref p)).

(** [a.items() all equal]: [torch.equal] name by name over [expected] *)
Definition same_tensors (normalized expected : odict Tensor) : bool :=
  forallb (fun kv => match od_get kv.1 normalized with Some t => tensor_equal t kv.2 | None => false end) expected.

Definition verify_success (p : PublishedLocalRound) (ticket : DomainPureWorkTicket) (schema : ParameterSchema)
    (limits : LocalRoundLimits) : WM PubState unit :=
  let! linked := wlift (lineage p ticket) in
  wlift (require linked (_invalid_candidate "CANDIDATE_LINEAGE_MISMATCH")) ;!
  let! schema_bytes := read_call (parameter_schema_ref p) in
  let! expected_schema := wlift (canonical_json_bytes (JObj (schema_to_dict schema))) in
  wlift (require (String.eqb schema_bytes expected_schema) (_invalid_schema "PUBLISHED_SCHEMA_BYTES_INVALID")) ;!
  let! completion_bytes := read_call (completion_ref p) in
  let! candidate_bytes := read_call (candidate_ref p) in
  let! expected_completion := wlift (canonical_json_bytes (JObj (completion_to_dict (completion p)))) in
  wlift (require (String.eqb completion_bytes expected_completion) (_invalid_completion "COMPLETION_BYTES_INVALID")) ;!
  let! expected_candidate := wlift (canonical_json_bytes (JObj (candidate_to_dict (candidate p)))) in
  wlift (require (String.eqb candidate_bytes expected_candidate) (_invalid_candidate "CANDIDATE_BYTES_INVALID")) ;!
  let! local := load_canonical_tensor_artifact (local_delta_ref p) schema in
  let! normalized := load_canonical_tensor_artifact (normalized_delta_ref p) schema in
  let! limit := wlift (ceilings limits) in
  wlift (let? _ := validate_fp32_tensor_bundle normalized schema limit.1 limit.2 in
         let? expected := normalize_local_delta local schema (JInt (n_effective_steps (candidate p)))
                            (JInt (n_step_budget (candidate p))) limit.1 limit.2 in
         require (same_tensors normalized expected) (_invalid_candidate "CANDIDATE_NORMALIZATION_MISMATCH")).
End Writer.
