(* ===== verification/PublishProps.v ===== *)
(** * What a publication guarantees ([deltatorrent/worker/update_writer.py])

    The order of the artifacts, what an interrupted publication leaves behind,
    the verification after it, and completions that cannot be replaced. *)

From S2P Require Import Prelude PyFloat PyArith Json JsonText Text Sha256 WorkerErrors WorkerCanonical ArtifactRef WorkTicket ArtifactStore TokenAccounting Updates ParameterSchema Sampler BaselineConfig DeltaSchema RoundValidation UpdateWriter.
Open Scope string_scope.
Open Scope Z_scope.
Open Scope py_scope.

#[local] Opaque sha256_bytes.

(** ** References to what is stored *)

Record holds (s : FilesystemArtifactStore) (r : ArtifactRef) (v : string) : Prop := {
  h_ref : ref_ok r;
  h_file : is_root (locator r) = false /\ s !! locator r = Some v;
  h_size : byte_count v = byte_length r;
  h_id : sha256_content_id v = content_id r;
  h_media : json_wf (media_type r) = true }.

(** A reference made by a publication *)
Record published_ref (r : ArtifactRef) (l v m i : string) : Prop := {
  p_locator : locator r = l;
  p_id : content_id r = sha256_content_id v;
  p_media : media_type r = JStr m;
  p_schema : schema_id r = i }.

Lemma holds_mono s t r v : s ⊆ t -> holds s r v -> holds t r v.
Proof. intros S [K [R F] Z I M]. constructor; try done. split; [done|]. by eapply lookup_weaken. Qed.

Lemma holds_read s r v : holds s r v -> store_read StoreOk r s = Ok v.
Proof. intros [K [R F] Z I _]. by apply store_read_Ok. Qed.

Lemma publish_at_holds io io2 l v m i ver s s' r :
  _publish_at io io2 l v m i ver s = (s', Ok r) -> holds s' r v /\ published_ref r l v m i.
Proof.
  intros P. pose proof (publish_at_Ok _ _ _ _ _ _ _ _ _ _ P) as (K & L & C & B & D & E). revert P.
  unfold _publish_at. destruct (_resolve_locator l) as [path|]; [|done].
  destruct (link_artifact io path v s) as [s1 linked]. intros [= <- H].
  apply rbind_Ok in H as ([] & -> & H). apply rbind_Ok in H as (x & N & H).
  apply rbind_Ok in H as (_ & _ & H). injection H as ->.
  apply new_ref_Ok in N as (_ & _ & M & [= I] & _). subst l. split; constructor; try done. by rewrite <- M.
Qed.

Lemma publish_at_elsewhere io io2 l v m i ver s s' r k :
  _publish_at io io2 l v m i ver s = (s', r) -> k <> l -> s' !! k = s !! k.
Proof.
  unfold _publish_at. destruct (_resolve_locator l) as [path|] eqn:R; [|by intros [= <- _]].
  apply resolve_Ok in R as [-> _]. destruct (link_artifact io l v s) as [s1 linked] eqn:L. intros [= <- _] N.
  unfold link_artifact in L. repeat case_match; simplify_eq; try done; by apply lookup_insert_ne.
Qed.

Lemma publish_at_either io io2 l v m i ver s s' r :
  _publish_at io io2 l v m i ver s = (s', r) -> s' = s \/ s' !! l = Some v.
Proof.
  unfold _publish_at. destruct (_resolve_locator l) as [path|] eqn:R; [|intros [= <- _]; by left].
  apply resolve_Ok in R as [-> _]. destruct (link_artifact io l v s) as [s1 linked] eqn:L. intros [= <- _].
  unfold link_artifact in L. repeat case_match; simplify_eq; try (by left); right; apply lookup_insert_eq.
Qed.

Lemma ref_eqb_refl r m : media_type r = JStr m -> ref_eqb r r = true.
Proof.
  intros M. unfold ref_eqb. rewrite M, !String.eqb_refl, Z.eqb_refl. cbn. by rewrite String.eqb_refl.
Qed.

(** ** The locators of a round *)

Lemma completion_not_candidate t : completion_locator t <> candidate_locator t.
Proof.
  unfold completion_locator, candidate_locator. intros E.
  apply (inj (String.append "local-round/")) in E. apply (inj (String.append (ticket_id t))) in E. discriminate E.
Qed.

Lemma object_not_candidate v t : object_locator v <> candidate_locator t.
Proof. unfold object_locator, candidate_locator. intros E. cbn in E. discriminate E. Qed.

(** ** The documents *)

(** A completion of a ticket *)
Record completion_of (t : DomainPureWorkTicket) (fingerprint worker_id : string) (a : TokenAccountingRecord)
    (c : LocalRoundCompletion) : Prop := {
  q_ticket : c_ticket_id c = ticket_id t /\ c_domain_id c = domain_id t /\ c_worker_id c = worker_id;
  q_fingerprint : c_ticket_fingerprint c = fingerprint;
  q_inputs : c_data_id c = content_id (data t) /\ c_parent_model_id c = content_id (parent_model t);
  q_profiles : c_parameter_schema_id c = parameter_schema_id t /\ c_optimizer_profile_id c = optimizer_profile_id t /\
               c_arithmetic_profile_id c = arithmetic_profile_id t;
  q_steps : c_effective_steps c = r_effective_steps a /\ c_step_budget c = step_budget t;
  q_cursor : c_cursor_end c = r_cursor_end a /\ c_data_range_end c = end_ (data_range t);
  q_tokens : c_processed_tokens c = r_processed_tokens a }.

(** Read a checked field of a constructor. *)
Ltac checked_field R :=
  first [ apply rbind_Ok in R as (? & [?E ?]%update_identifier_Ok & R)
        | apply rbind_Ok in R as (? & [?E ?]%update_content_id_Ok & R)
        | apply rbind_Ok in R as (? & [?E ?]%update_positive_Ok & R)
        | apply rbind_Ok in R as (? & [?E ?]%counter_Ok & R) ].

Lemma new_completion_of t f w a eligible code d n rs st re c :
  new_completion (completion_args t f w a eligible code) d n rs st re = Ok c ->
  completion_of t f w a c /\ c_local_delta c = d /\ c_candidate_eligible c = eligible /\
  c_status c = st /\ c_reason c = re /\ c_numerical_summary c = n /\ c_resource_summary c = rs.
Proof.
  intros R. unfold new_completion in R. repeat checked_field R.
  repeat match goal with E : jget _ _ = _ |- _ => vm_compute in E; injection E as E end.
  cbv zeta in R. repeat (apply rbind_unit_Ok in R as (_ & R)). injection R as <-. subst.
  split; [by constructor|]. by destruct eligible.
Qed.

Lemma resource_args_Ok peak wall r : resource_from_dict (resource_args peak wall) = Ok r -> wall_time_ms r = wall.
Proof.
  unfold resource_from_dict. intros (_ & H)%rbind_unit_Ok. apply rbind_Ok in H as (p & _ & H).
  apply rbind_Ok in H as (w & [E _]%counter_Ok & H). injection H as <-. vm_compute in E. by injection E as <-.
Qed.

Lemma success_completion_Ok t w a summary r order wall peak c :
  ref_ok r -> success_completion t w a summary r order wall peak = Ok c ->
  exists fp, ticket_fingerprint t = Ok fp /\ completion_of t fp w a c /\ completion_ok c /\
    c_status c = S_COMPLETED /\ c_reason c = R_EXACT_H /\ c_candidate_eligible c = true /\
    exists d, c_local_delta c = Some d /\ d_artifact d = r.
Proof.
  intros K R. unfold success_completion in R. apply rbind_Ok in R as (fp & F & R).
  apply rbind_Ok in R as (d & D & R). apply rbind_Ok in R as (n & N & R). apply rbind_Ok in R as (rs & Rs & R).
  exists fp. split; [done|]. pose proof R as R'. apply new_completion_of in R' as (Q & Ed & El & St & Re & _).
  split; [done|]. apply new_delta_ok in D as [Kd Ad]; [|done]. split; [|by eauto 10].
  eapply new_completion_ok; [exact R|by eapply new_numerical_ok|by eapply resource_from_dict_Ok|by intros x [= <-]].
Qed.

Lemma failure_completion_Ok t w a st re code wall peak c :
  failure_completion t w a st re code wall peak = Ok c ->
  exists fp, ticket_fingerprint t = Ok fp /\ completion_of t fp w a c /\ completion_ok c /\
    c_status c = st /\ c_reason c = re /\ c_candidate_eligible c = false /\ c_local_delta c = None.
Proof.
  intros R. unfold failure_completion in R. apply rbind_Ok in R as (fp & F & R).
  apply rbind_Ok in R as (n & N & R). apply rbind_Ok in R as (rs & Rs & R).
  exists fp. split; [done|]. pose proof R as R'. apply new_completion_of in R' as (Q & Ed & El & St & Re & _).
  split; [done|]. split; [|done].
  eapply new_completion_ok; [exact R|by eapply new_numerical_ok|by eapply resource_from_dict_Ok|done].
Qed.

(** A candidate of a ticket *)
Record candidate_of (t : DomainPureWorkTicket) (fingerprint completion_id : string) (steps : Z) (r : ArtifactRef)
    (n : NormalizedContributionCandidate) : Prop := {
  y_ticket : n_ticket_id n = ticket_id t /\ n_domain_id n = domain_id t;
  y_fingerprint : n_ticket_fingerprint n = fingerprint /\ n_completion_id n = completion_id;
  y_profiles : n_parent_model_id n = content_id (parent_model t) /\
    n_parameter_schema_id n = parameter_schema_id t /\ n_optimizer_profile_id n = optimizer_profile_id t /\
    n_arithmetic_profile_id n = arithmetic_profile_id t;
  y_steps : n_effective_steps n = steps /\ n_step_budget n = step_budget t /\ steps = step_budget t;
  y_artifact : n_normalized_delta n = r }.

Lemma round_candidate_Ok t cid steps r order n :
  round_candidate t cid steps r order = Ok n ->
  exists fp, ticket_fingerprint t = Ok fp /\ candidate_of t fp cid steps r n.
Proof.
  intros R. unfold round_candidate in R. apply rbind_Ok in R as (fp & F & R). exists fp. split; [done|].
  unfold new_candidate in R. repeat checked_field R.
  apply rbind_Ok in R as (steps3 & S & R). unfold candidate_steps in S.
  change (jget "effective_steps" _) with (JInt steps) in S. change (jget "step_budget" _) with (JInt (step_budget t)) in S.
  change (jget "normalization_denominator" _) with (JInt steps) in S. cbv beta iota in S.
  apply rbind_unit_Ok in S as (S & [= <-]). apply require_Ok in S.
  repeat match goal with E : jget _ _ = _ |- _ => vm_compute in E; injection E as E end.
  apply rbind_unit_Ok in R as (_ & R). apply rbind_Ok in R as (names & _ & R).
  repeat (apply rbind_unit_Ok in R as (_ & R)). injection R as <-. subst.
  rewrite !negb_orb, !negb_involutive, !andb_true_iff, !Z.eqb_eq in S.
  constructor; cbn; intuition.
Qed.

(** Documents of published rounds are JSON values. *)
Lemma completion_dict_wf c : (forall d, c_local_delta c = Some d -> json_wf (media_type (d_artifact d)) = true) ->
  json_wf (JObj (completion_to_dict c)) = true.
Proof.
  intros M. unfold completion_to_dict.
  assert (D : json_wf (match c_local_delta c with Some d => JObj (delta_to_dict d) | None => JNull end) = true).
  { destruct (c_local_delta c) as [d|]; [|done]. specialize (M d eq_refl).
    assert (O : json_wf (JArr (map JStr (d_tensor_order d))) = true)
      by (cbn [json_wf]; apply forallb_forall; by intros j (x & <- & _)%in_map_iff).
    assert (A : json_wf (JObj (ref_to_dict (d_artifact d))) = true) by by apply ref_to_dict_wf.
    unfold delta_to_dict. revert A O. generalize (JObj (ref_to_dict (d_artifact d))), (JArr (map JStr (d_tensor_order d))).
    intros j l A O. cbn. by rewrite A, O. }
  revert D. generalize (match c_local_delta c with Some d => JObj (delta_to_dict d) | None => JNull end).
  intros j D. cbn. rewrite D. by destruct (c_failure_code c), (c_numerical_summary c) as [? [] []].
Qed.

(** One text, two completions: they agree on what their documents say. *)
Lemma completion_bytes_same c1 c2 v :
  json_wf (JObj (completion_to_dict c1)) = true -> json_wf (JObj (completion_to_dict c2)) = true ->
  canonical_json_bytes (JObj (completion_to_dict c1)) = Ok v ->
  canonical_json_bytes (JObj (completion_to_dict c2)) = Ok v ->
  c_worker_id c1 = c_worker_id c2 /\ c_candidate_eligible c1 = c_candidate_eligible c2 /\
  wall_time_ms (c_resource_summary c1) = wall_time_ms (c_resource_summary c2).
Proof.
  intros W1 W2 B1 B2. pose proof (canonical_json_bytes_inj _ _ _ W1 W2 B1 B2) as E.
  pose proof (fun k => sort_keys_lookup _ _ k W1 W2 E) as L.
  pose proof (L "worker_id") as L1. pose proof (L "candidate_eligible") as L2. pose proof (L "resource_summary") as L3.
  vm_compute in L1, L2, L3. injection L1 as L1. injection L2 as L2. injection L3 as _ L3.
  exact (conj L1 (conj L2 L3)).
Qed.

(** ** Publishing *)

Section Publish.
Context {Tensor W : Type} `{!TensorOps Tensor} `{!WorkEnv W}.
Context (save_tensors : odict Tensor -> wresult string) (load_tensors : string -> wresult (odict Tensor)).
Implicit Types s : @PubState W.

(** What others do leaves a locator alone. *)
Definition undisturbed (l : string) : Prop := forall (w : W) (st : FilesystemArtifactStore), others w st !! l = st !! l.

(** The store has only grown, and the candidate of the ticket is as it was. *)
Definition before (t : DomainPureWorkTicket) s s' : Prop :=
  p_store s ⊆ p_store s' /\
  (undisturbed (candidate_locator t) -> p_store s' !! candidate_locator t = p_store s !! candidate_locator t).

#[export] Instance before_preorder t : PreOrder (before t).
Proof.
  split; [by intros s|]. intros s1 s2 s3 [A1 B1] [A2 B2]. split; [by etransitivity|].
  intros U. rewrite B2 by done. by apply B1.
Qed.

(** A publication at a locator *)
Definition published_at (l v m i : string) s s' (r : wresult ArtifactRef) : Prop :=
  p_store s ⊆ p_store s' /\
  (forall k, k <> l -> undisturbed k -> p_store s' !! k = p_store s !! k) /\
  forall x, r = Ok x -> holds (p_store s') x v /\ published_ref x l v m i.

Lemma store_call_publish l v m i ver s :
  wp (store_call (fun io io2 => _publish_at io io2 l v m i ver)) (published_at l v m i s) s.
Proof.
  apply wp_intro. intros s' r. unfold store_call. destruct (next_io (p_world s)) as [w1 io1].
  destruct (next_io w1) as [w2 io2]. destruct (_publish_at _ _ _ _ _ _ _ _) as [st x] eqn:P. intros [= <- <-].
  split; [|split]; cbn [p_store].
  - etransitivity; [apply (others_grow w2)|]. by eapply publish_at_grows.
  - intros k N U. rewrite (publish_at_elsewhere _ _ _ _ _ _ _ _ _ _ k P N). apply U.
  - intros y ->. by eapply publish_at_holds.
Qed.

Lemma published_before t l v m i s s' r :
  l <> candidate_locator t -> published_at l v m i s s' r -> before t s s'.
Proof. intros N (A & B & _). split; [done|]. intros U. by apply B. Qed.

(** [publish_bytes] and [publish_json] publish at the locator of the content. *)
Lemma publish_json_spec doc m i ver s :
  wp (store_call (fun io io2 => publish_json io io2 doc m i ver))
    (fun s' r => match canonical_json_bytes doc with
                 | Ok v => published_at (object_locator v) v m i s s' r
                 | Raise _ => (forall t, before t s s') /\ exists e, r = Raise e
                 end) s.
Proof.
  unfold publish_json. destruct (canonical_json_bytes doc) as [v|e]; [apply store_call_publish|].
  apply wp_intro. intros s' r. unfold store_call. destruct (next_io (p_world s)) as [w1 io1].
  destruct (next_io w1) as [w2 io2]. intros [= <- <-]. split; [|by eexists].
  intros t. split; cbn [p_store]; [apply others_grow|]. intros U. apply U.
Qed.

Lemma env_before {A} (f : W -> W * wresult A) t s : wp (env f) (fun s' _ => before t s s') s.
Proof. apply wp_intro. intros s' r. unfold env. destruct (f (p_world s)) as [w x]. by intros [= <- _]. Qed.

(** ** A round on its way *)

(** The artifacts of a round up to its completion *)
Record completion_stored (store : FilesystemArtifactStore) (t : DomainPureWorkTicket) (worker_id : string)
    (schema : ParameterSchema) (a : TokenAccountingRecord) (local normalized : odict Tensor) (wall peak : Z)
    (schema_ref local_ref normalized_ref c_ref : ArtifactRef) (c : LocalRoundCompletion) : Prop := {
  z_schema : exists v, canonical_json_bytes (JObj (schema_to_dict schema)) = Ok v /\ holds store schema_ref v /\
               content_id schema_ref = parameter_schema_id t;
  z_local : exists v, save_tensors local = Ok v /\ holds store local_ref v /\ is_safetensors local_ref = true /\
              media_type local_ref = JStr _SAFETENSORS_MEDIA_TYPE;
  z_normalized : exists v, save_tensors normalized = Ok v /\ holds store normalized_ref v /\
              is_safetensors normalized_ref = true /\ media_type normalized_ref = JStr _SAFETENSORS_MEDIA_TYPE;
  z_completion : exists summary, success_completion t worker_id a summary local_ref (included_tensor_names schema) wall peak = Ok c;
  z_bytes : exists v, canonical_json_bytes (JObj (completion_to_dict c)) = Ok v /\ holds store c_ref v /\
              locator c_ref = completion_locator t }.

Lemma completion_stored_mono st st' t w schema a local normalized wall peak r1 r2 r3 r4 c :
  st ⊆ st' -> completion_stored st t w schema a local normalized wall peak r1 r2 r3 r4 c ->
  completion_stored st' t w schema a local normalized wall peak r1 r2 r3 r4 c.
Proof.
  intros S [(v1 & A1 & B1 & C1) (v2 & A2 & B2 & C2) (v3 & A3 & B3 & C3) Z (v4 & A4 & B4 & C4)].
  constructor; try done; eexists; (split; [done|]); (split; [by eapply holds_mono|done]).
Qed.

(** ... and its candidate *)
Definition candidate_stored (store : FilesystemArtifactStore) (t : DomainPureWorkTicket) (worker_id : string)
    (schema : ParameterSchema) (a : TokenAccountingRecord) (local normalized : odict Tensor) (wall peak : Z)
    (p : PublishedLocalRound) : Prop :=
  completion_stored store t worker_id schema a local normalized wall peak (parameter_schema_ref p) (local_delta_ref p)
    (normalized_delta_ref p) (completion_ref p) (completion p) /\
  exists fp v, completion_fingerprint (completion p) = Ok fp /\
    round_candidate t fp (r_effective_steps a) (normalized_delta_ref p) (included_tensor_names schema) = Ok (candidate p) /\
    canonical_json_bytes (JObj (candidate_to_dict (candidate p))) = Ok v /\
    store !! candidate_locator t = Some v.

Lemma candidate_stored_mono st st' t w schema a local normalized wall peak p :
  st ⊆ st' -> candidate_stored st t w schema a local normalized wall peak p ->
  candidate_stored st' t w schema a local normalized wall peak p.
Proof.
  intros S [Z (cid & v & H1 & H2 & H3 & H4)]. split; [by eapply completion_stored_mono|]. exists cid, v.
  split; [done|]. split; [done|]. split; [done|]. by eapply lookup_weaken.
Qed.

Definition success_post (t : DomainPureWorkTicket) (worker_id : string) (schema : ParameterSchema)
    (a : TokenAccountingRecord) (local normalized : odict Tensor) (wall peak : Z) s s' (r : wresult PublishedLocalRound) : Prop :=
  (before t s s' \/
   p_store s ⊆ p_store s' /\ exists p, candidate_stored (p_store s') t worker_id schema a local normalized wall peak p) /\
  match r with
  | Ok p => candidate_stored (p_store s') t worker_id schema a local normalized wall peak p /\
            (exists v, canonical_json_bytes (JObj (candidate_to_dict (candidate p))) = Ok v /\ holds (p_store s') (candidate_ref p) v)
  | Raise _ => True
  end.

Lemma raised_before t w schema a local normalized wall peak s s' e :
  before t s s' -> success_post t w schema a local normalized wall peak s s' (Raise e).
Proof. intros B. by split; [left|]. Qed.

(** A tensor artifact *)
Definition tensors_stored (store : FilesystemArtifactStore) (tensors : odict Tensor) (r : ArtifactRef) : Prop :=
  exists v, save_tensors tensors = Ok v /\ holds store r v /\ is_safetensors r = true /\
    media_type r = JStr _SAFETENSORS_MEDIA_TYPE.

Lemma publish_tensors_spec t tensors s :
  wp (_publish_tensors save_tensors tensors)
    (fun s' r => before t s s' /\ forall x, r = Ok x -> tensors_stored (p_store s') tensors x) s.
Proof.
  unfold _publish_tensors. apply wp_bind, wp_lift. destruct (save_tensors tensors) as [v|e] eqn:E; [|by split].
  eapply wp_mono; [apply store_call_publish|]. intros s' r P. split.
  - eapply published_before; [apply object_not_candidate|exact P].
  - intros x ->. destruct P as (_ & _ & P). destruct (P x eq_refl) as [H Q]. exists v. split; [done|]. split; [done|].
    unfold is_safetensors. rewrite (p_schema _ _ _ _ _ Q), (p_media _ _ _ _ _ Q). by split.
Qed.

Lemma publish_schema_spec t schema s :
  wp (publish_schema schema)
    (fun s' r => before t s s' /\ forall x, r = Ok x ->
       exists v, canonical_json_bytes (JObj (schema_to_dict schema)) = Ok v /\ holds (p_store s') x v) s.
Proof.
  eapply wp_mono; [apply publish_json_spec|]. intros s' r. cbv beta.
  destruct (canonical_json_bytes (JObj (schema_to_dict schema))) as [v|e].
  - intros P. split; [eapply published_before; [apply object_not_candidate|exact P]|].
    intros x ->. destruct P as (_ & _ & P). exists v. split; [done|]. by apply P.
  - intros [B (e' & ->)]. by split.
Qed.

Lemma publish_completion_spec t c s :
  wp (publish_completion t c)
    (fun s' r => before t s s' /\ forall x, r = Ok x ->
       exists v, canonical_json_bytes (JObj (completion_to_dict c)) = Ok v /\ holds (p_store s') x v /\
         locator x = completion_locator t) s.
Proof.
  unfold publish_completion. apply wp_bind, wp_lift.
  destruct (canonical_json_bytes (JObj (completion_to_dict c))) as [v|e]; [|by split].
  eapply wp_mono; [apply store_call_publish|]. intros s' r P.
  split; [eapply published_before; [apply completion_not_candidate|exact P]|].
  intros x ->. destruct P as (_ & _ & P). destruct (P x eq_refl) as [H Q]. exists v. split; [done|].
  split; [done|]. by rewrite (p_locator _ _ _ _ _ Q).
Qed.

(** The last publication: the candidate is there afterwards, or nothing has
    changed where it goes. *)
Lemma publish_candidate_spec t n s :
  wp (publish_candidate t n)
    (fun s' r => (before t s s' \/ p_store s ⊆ p_store s' /\
                    exists v, canonical_json_bytes (JObj (candidate_to_dict n)) = Ok v /\ p_store s' !! candidate_locator t = Some v) /\
       forall x, r = Ok x -> p_store s ⊆ p_store s' /\
         exists v, canonical_json_bytes (JObj (candidate_to_dict n)) = Ok v /\ holds (p_store s') x v /\
           p_store s' !! candidate_locator t = Some v) s.
Proof.
  unfold publish_candidate. apply wp_bind, wp_lift.
  destruct (canonical_json_bytes (JObj (candidate_to_dict n))) as [v|e]; [|by split; [left|]].
  apply wp_intro. intros s' r. unfold store_call. destruct (next_io (p_world s)) as [w1 io1].
  destruct (next_io w1) as [w2 io2]. unfold publish_named.
  destruct (_publish_at _ _ _ _ _ _ _ _) as [st x] eqn:P. intros [= <- <-]. cbn [p_store].
  assert (G : p_store s ⊆ st) by (etransitivity; [apply (others_grow w2)|]; by eapply publish_at_grows).
  split.
  - destruct (publish_at_either _ _ _ _ _ _ _ _ _ _ P) as [->|L]; [left|right; split; [done|by exists v]].
    split; [done|]. intros U. apply U.
  - intros y ->. split; [done|]. exists v. split; [done|]. destruct (publish_at_holds _ _ _ _ _ _ _ _ _ _ P) as [H Q].
    split; [done|]. rewrite <- (p_locator _ _ _ _ _ Q). apply H.
Qed.

Lemma completion_fingerprint_bytes c v :
  canonical_json_bytes (JObj (completion_to_dict c)) = Ok v -> completion_fingerprint c = Ok (sha256_content_id v).
Proof. unfold completion_fingerprint. by intros ->. Qed.

Lemma publish_success_spec t w schema a local normalized limits wall peak s :
  wp (publish_success save_tensors t w schema a local normalized limits wall peak)
    (success_post t w schema a local normalized wall peak s) s.
Proof.
  unfold publish_success. apply wp_bind, wp_lift.
  destruct (check_success t schema a local normalized limits) as [summary|e]; [|by apply raised_before].
  apply wp_bind. eapply wp_mono; [apply (publish_schema_spec t)|]. intros s1 [schema_ref|e] [B1 H1]; [|by apply raised_before].
  destruct (H1 _ eq_refl) as (sv & Sv & Sh). clear H1.
  apply wp_bind, wp_lift. destruct (require _ _) as [[]|e] eqn:C; [|by apply raised_before].
  apply require_Ok, String.eqb_eq in C.
  apply wp_bind. eapply wp_mono; [apply (publish_tensors_spec t)|].
  intros s2 [local_ref|e] [B2 H2]; pose proof (transitivity B1 B2) as B2'; [|by apply raised_before].
  apply wp_bind. eapply wp_mono; [apply (env_before _ t)|].
  intros s3 [[]|e] B3; pose proof (transitivity B2' B3) as B3'; [|by apply raised_before].
  apply wp_bind. eapply wp_mono; [apply (publish_tensors_spec t)|].
  intros s4 [normalized_ref|e] [B4 H4]; pose proof (transitivity B3' B4) as B4'; [|by apply raised_before].
  apply wp_bind. eapply wp_mono; [apply (env_before _ t)|].
  intros s5 [[]|e] B5; pose proof (transitivity B4' B5) as B5'; [|by apply raised_before].
  apply wp_bind, wp_lift. destruct (success_completion _ _ _ _ _ _ _ _) as [c|e] eqn:Ec; [|by apply raised_before].
  apply wp_bind. eapply wp_mono; [apply (publish_completion_spec t)|].
  intros s6 [c_ref|e] [B6 H6]; pose proof (transitivity B5' B6) as B6'; [|by apply raised_before].
  destruct (H6 _ eq_refl) as (cv & Cv & Ch & Cl). clear H6.
  apply wp_bind, wp_lift. rewrite (completion_fingerprint_bytes _ _ Cv).
  apply wp_bind, wp_lift. destruct (require _ _) as [[]|e] eqn:Ci; [|by apply raised_before].
  apply wp_bind. eapply wp_mono; [apply (env_before _ t)|].
  intros s7 [[]|e] B7; pose proof (transitivity B6' B7) as B7'; [|by apply raised_before].
  apply wp_bind, wp_lift. destruct (round_candidate _ _ _ _ _) as [n|e] eqn:En; [|by apply raised_before].
  assert (Z : completion_stored (p_store s7) t w schema a local normalized wall peak schema_ref local_ref normalized_ref c_ref c).
  { apply (completion_stored_mono (p_store s6)); [apply B7|]. constructor.
    - exists sv. split; [done|]. split; [|done]. eapply holds_mono; [|exact Sh].
      etransitivity; [apply B2|]. etransitivity; [apply B3|]. etransitivity; [apply B4|]. etransitivity; [apply B5|apply B6].
    - destruct (H2 _ eq_refl) as (v & V & Vh & Vs). exists v. split; [done|]. split; [|done]. eapply holds_mono; [|exact Vh].
      etransitivity; [apply B3|]. etransitivity; [apply B4|]. etransitivity; [apply B5|apply B6].
    - destruct (H4 _ eq_refl) as (v & V & Vh & Vs). exists v. split; [done|]. split; [|done]. eapply holds_mono; [|exact Vh].
      etransitivity; [apply B5|apply B6].
    - by exists summary.
    - by exists cv. }
  pose (p := fun r => mkPublished schema_ref local_ref c_ref normalized_ref r c n).
  assert (F : completion_fingerprint c = Ok (sha256_content_id cv)) by by apply completion_fingerprint_bytes.
  assert (K : forall s8 v r, p_store s7 ⊆ p_store s8 -> canonical_json_bytes (JObj (candidate_to_dict n)) = Ok v ->
    p_store s8 !! candidate_locator t = Some v -> candidate_stored (p_store s8) t w schema a local normalized wall peak (p r)).
  { intros s8 v r S V L. split; [by eapply completion_stored_mono|]. by exists (sha256_content_id cv), v. }
  apply wp_bind. eapply wp_mono; [apply (publish_candidate_spec t)|]. intros s8 r [E8 H8].
  assert (E8' : before t s s8 \/
    p_store s ⊆ p_store s8 /\ exists p, candidate_stored (p_store s8) t w schema a local normalized wall peak p).
  { destruct E8 as [B8|(S & v & V & L)]; [left; by etransitivity|right]. split; [etransitivity; [apply B7'|done]|].
    exists (p c_ref). by eapply K. }
  destruct r as [n_ref|e]; [|by split]. destruct (H8 _ eq_refl) as (S & v & V & Vh & L).
  apply wp_ret. split; [done|]. split; [by apply (K s8 v n_ref)|by exists v].
Qed.

(** ** Verification *)

(** Every access to the store succeeds. *)
Definition accesses_succeed : Prop := forall w : W, (next_io w).2 = StoreOk.

(** A read of what is stored, and what may go wrong with it *)
Definition expected {A} (a : A) (errors : list worker_exn) (r : wresult A) : Prop :=
  r = Ok a \/ ~ accesses_succeed /\ exists e, r = Raise e /\ e ∈ errors.

Lemma read_call_spec st r v s :
  holds st r v -> st ⊆ p_store s ->
  wp (read_call r) (fun s' x => st ⊆ p_store s' /\ expected v [WOSError] x) s.
Proof.
  intros H S. apply wp_intro. intros s' x. unfold read_call, store_call.
  destruct (next_io (p_world s)) as [w1 io1] eqn:E. destruct (next_io w1) as [w2 io2]. intros [= <- <-]. cbn [p_store].
  assert (S' : st ⊆ others w2 (p_store s)) by (etransitivity; [exact S|apply others_grow]). split; [exact S'|].
  pose proof (holds_read _ _ _ (holds_mono _ _ _ _ S' H)) as R. destruct io1; [by left|..]; right;
    (split; [intros N; specialize (N (p_world s)); by rewrite E in N|]); exists WOSError;
    (split; [|by apply list_elem_of_singleton]); unfold store_read in *; by destruct (_resolve_locator _).
Qed.

(** What safetensors promises: the tensors written are read back, in some order. *)
Definition codec_law : Prop := forall ts bytes, save_tensors ts = Ok bytes ->
  exists loaded, load_tensors bytes = Ok loaded /\ forall n, od_get n loaded = od_get n ts.

(** [torch.equal] of a tensor without NaN and itself *)
Definition equal_law : Prop := forall t : Tensor, all_elements_finite t = true -> tensor_equal t t = true.

Lemma pick_same (d loaded : odict Tensor) :
  NoDup (od_keys d) -> (forall n, od_get n loaded = od_get n d) -> pick id loaded (od_keys d) = Ok d.
Proof.
  intros N L. apply pick_Ok. assert (G : forall n t, (n, t) ∈ d -> od_get n loaded = Some t)
    by (intros n t I; rewrite L; by apply od_In_get). clear L N.
  induction d as [|[n t] d IH]; constructor.
  - exists t. split; [apply G; by left|done].
  - apply IH. intros m u I. apply G. by right.
Qed.

Lemma same_keys (loaded d : odict Tensor) :
  (forall n, od_get n loaded = od_get n d) -> keys_are (map (fun kv => (kv.1, JNull)) loaded) (od_keys d) = true.
Proof.
  intros L. apply keys_are_spec. intros k. unfold od_keys at 1. rewrite map_map. cbn [fst].
  change (map (fun x : string * Tensor => x.1) loaded) with (od_keys loaded).
  assert (G : forall e : odict Tensor, k ∈ od_keys e <-> od_get k e <> None).
  { intros e. rewrite od_get_None. destruct (decide (k ∈ od_keys e)); tauto. }
  by rewrite !G, L.
Qed.

Lemma load_tensors_spec st schema (ts : odict Tensor) r s res :
  codec_law -> schema_ok schema -> tensors_stored st ts r -> st ⊆ p_store s ->
  validate_fp32_tensor_bundle ts schema JNull JNull = Ok res ->
  wp (load_canonical_tensor_artifact load_tensors r schema)
    (fun s' x => st ⊆ p_store s' /\ expected ts [_invalid_tensor "TENSOR_ARTIFACT_INVALID"] x) s.
Proof.
  intros C K (v & V & H & T & _) S B. unfold load_canonical_tensor_artifact.
  destruct (included_names_ok _ K) as (_ & N & _). pose proof (proj1 (bundle_Ok _ _ _ _ _ B)) as Ko. rewrite <- Ko in *.
  destruct (C _ _ V) as (loaded & L & G).
  apply wp_bind, wp_lift. rewrite T. cbn [require]. apply wp_bind, wp_try, wp_bind.
  eapply wp_mono; [by eapply read_call_spec|]. intros s1 x [S1 [->|(A & e & -> & _)]].
  - apply wp_lift. rewrite L. apply wp_lift. split; [done|]. left.
    rewrite (same_keys loaded ts G), (pick_same ts loaded N G). cbn [require rbind]. by rewrite B.
  - apply wp_raise. split; [done|]. right. split; [done|]. eexists. split; [done|]. by apply list_elem_of_singleton.
Qed.

Lemma stored_lineage store t w schema a local normalized wall peak p :
  candidate_stored store t w schema a local normalized wall peak p -> lineage p t = Ok true.
Proof.
  intros [Z (cid & v & F & N & _)].
  destruct (z_schema _ _ _ _ _ _ _ _ _ _ _ _ _ _ Z) as (sv & _ & _ & Es).
  destruct (z_local _ _ _ _ _ _ _ _ _ _ _ _ _ _ Z) as (lv & _ & Hl & _ & Ml).
  destruct (z_normalized _ _ _ _ _ _ _ _ _ _ _ _ _ _ Z) as (mv & _ & _ & _ & Mn).
  destruct (z_completion _ _ _ _ _ _ _ _ _ _ _ _ _ _ Z) as (summary & C).
  apply success_completion_Ok in C as (fp & Fp & Q & _ & _ & _ & _ & d & D & A); [|apply Hl].
  apply round_candidate_Ok in N as (fp' & Fp' & Y). rewrite Fp in Fp'. injection Fp' as <-.
  unfold lineage. destruct Q as [(-> & -> & _) -> (-> & ->) (-> & -> & ->) _ _ _].
  destruct Y as [(-> & ->) (-> & ->) (-> & -> & -> & ->) _ ->]. rewrite Es, Fp, D, A, F.
  cbn [rbind]. rewrite !String.eqb_refl, (ref_eqb_refl _ _ Ml), (ref_eqb_refl _ _ Mn). done.
Qed.

(** Verification only reads. *)
Lemma read_call_grows r s : wp (read_call r) (fun s' _ => p_store s ⊆ p_store s') s.
Proof.
  apply wp_intro. intros s' x. unfold read_call, store_call. destruct (next_io (p_world s)) as [w1 io1].
  destruct (next_io w1) as [w2 io2]. intros [= <- _]. apply (others_grow w2).
Qed.

Lemma load_tensors_grows r schema s :
  wp (load_canonical_tensor_artifact load_tensors r schema) (fun s' _ => p_store s ⊆ p_store s') s.
Proof.
  unfold load_canonical_tensor_artifact. apply wp_bind, wp_lift. destruct (require _ _) as [[]|e]; [|done].
  apply wp_bind, wp_try, wp_bind. eapply wp_mono; [apply read_call_grows|]. intros s1 [x|e] G; [|done].
  apply wp_lift. by destruct (load_tensors x).
Qed.

(** [let! x := m in k] where both only let the store grow *)
Lemma grows_bind {A B} (m : WM PubState A) (f : A -> WM PubState B) s :
  wp m (fun s' _ => p_store s ⊆ p_store s') s ->
  (forall a s1, wp (f a) (fun s' _ => p_store s1 ⊆ p_store s') s1) -> wp (wbind m f) (fun s' _ => p_store s ⊆ p_store s') s.
Proof.
  intros H1 H2. apply wp_bind. eapply wp_mono; [exact H1|]. intros s1 [a|e] G; [|done].
  eapply wp_mono; [apply H2|]. intros s2 r G2. cbv beta in G2. by etransitivity.
Qed.

Lemma verify_success_grows p t schema limits s :
  wp (verify_success load_tensors p t schema limits) (fun s' _ => p_store s ⊆ p_store s') s.
Proof.
  unfold verify_success. repeat (apply grows_bind; [first [apply read_call_grows|apply load_tensors_grows|by apply wp_lift]|intros]).
  by apply wp_lift.
Qed.

Definition verify_errors : list worker_exn := [WOSError; _invalid_tensor "TENSOR_ARTIFACT_INVALID"].

Lemma expected_raise {A B} (a : A) (b : B) es e : es ⊆ verify_errors -> expected a es (Raise e) -> expected b verify_errors (Raise e).
Proof. intros I [?|(N & e' & [= <-] & E)]; [done|]. right. split; [done|]. exists e. split; [done|]. by apply I. Qed.

Lemma expected_Ok {A} (a x : A) es : expected a es (Ok x) -> x = a.
Proof. by intros [[= ->]|(_ & e & ? & _)]. Qed.

Lemma verify_success_spec t w schema a local normalized limits c wall peak p s :
  codec_law -> equal_law -> schema_ok schema -> ceilings limits = Ok c ->
  normalize_local_delta local schema (JInt (r_effective_steps a)) (JInt (step_budget t)) c.1 c.2 = Ok normalized ->
  candidate_stored (p_store s) t w schema a local normalized wall peak p ->
  (exists v, canonical_json_bytes (JObj (candidate_to_dict (candidate p))) = Ok v /\ holds (p_store s) (candidate_ref p) v) ->
  wp (verify_success load_tensors p t schema limits) (fun _ r => expected tt verify_errors r) s.
Proof.
  intros CL EL K Ec Nz P (nv & Nv & Nh). pose proof (stored_lineage _ _ _ _ _ _ _ _ _ _ P) as Li.
  destruct P as [[(sv & Sv & Sh & _) Zl Zn _ (cv & Cv & Ch & _)] (cid & v & _ & Rc & _)].
  apply round_candidate_Ok in Rc as (fp & _ & Y).
  pose proof Nz as Nz'. apply normalize_Ok in Nz' as (n & _ & _ & _ & (lr & Lv) & _ & (nr & Nr)).
  destruct (y_steps _ _ _ _ _ _ Y) as (E1 & E2 & _).
  assert (Nn : exists r, validate_fp32_tensor_bundle normalized schema JNull JNull = Ok r) by (exists nr; by eapply bundle_unlimited).
  destruct Nn as (nr' & Nr'). assert (I1 : [WOSError] ⊆ verify_errors) by (unfold verify_errors; set_solver).
  assert (I2 : [_invalid_tensor "TENSOR_ARTIFACT_INVALID"] ⊆ verify_errors) by (unfold verify_errors; set_solver).
  unfold verify_success. apply wp_bind, wp_lift. rewrite Li. apply wp_bind, wp_lift. cbn [require].
  apply wp_bind. eapply wp_mono; [by apply (read_call_spec (p_store s))|]. intros s1 [x|e] [S1 X]; [|by apply (expected_raise _ _ _ _ I1 X)].
  apply expected_Ok in X as ->. apply wp_bind, wp_lift. rewrite Sv. apply wp_bind, wp_lift. rewrite String.eqb_refl. cbn [require].
  apply wp_bind. eapply wp_mono; [by apply (read_call_spec (p_store s))|]. intros s2 [x|e] [S2 X]; [|by apply (expected_raise _ _ _ _ I1 X)].
  apply expected_Ok in X as ->.
  apply wp_bind. eapply wp_mono; [by apply (read_call_spec (p_store s))|]. intros s3 [x|e] [S3 X]; [|by apply (expected_raise _ _ _ _ I1 X)].
  apply expected_Ok in X as ->. apply wp_bind, wp_lift. rewrite Cv. apply wp_bind, wp_lift. rewrite String.eqb_refl. cbn [require].
  apply wp_bind, wp_lift. rewrite Nv. apply wp_bind, wp_lift. rewrite String.eqb_refl. cbn [require].
  apply wp_bind. eapply wp_mono; [by apply (load_tensors_spec (p_store s) schema local _ _ lr)|]. intros s4 [x|e] [S4 X]; [|by apply (expected_raise _ _ _ _ I2 X)].
  apply expected_Ok in X as ->.
  apply wp_bind. eapply wp_mono; [by apply (load_tensors_spec (p_store s) schema normalized _ _ nr')|]. intros s5 [x|e] [S5 X]; [|by apply (expected_raise _ _ _ _ I2 X)].
  apply expected_Ok in X as ->. apply wp_bind, wp_lift. rewrite Ec. apply wp_lift. rewrite Nr, E1, E2, Nz. cbn [rbind].
  left. unfold same_tensors. rewrite (proj2 (forallb_forall _ _)); [done|]. intros [k u] I.
  apply bundle_Ok in Nr as (Kn & limit & _ & F). destruct (included_names_ok _ K) as (_ & N & _).
  apply list_elem_of_In in I. cbn [fst snd]. assert (od_get k normalized = Some u) as -> by (apply od_In_get; [unfold od_wf; by rewrite Kn|done]).
  apply EL. rewrite List.Forall_forall in F. by destruct (F (k, u)) as (_ & ? & _); [apply list_elem_of_In|].
Qed.

(** A failure completes the ticket too. *)
Definition failure_post (t : DomainPureWorkTicket) (worker_id : string) (a : TokenAccountingRecord) (st : CompletionStatus)
    (re : CompletionReason) (code : string) (wall peak : Z) s s' (r : wresult PublishedFailure) : Prop :=
  before t s s' /\
  forall p, r = Ok p -> failure_completion t worker_id a st re code wall peak = Ok (f_completion p) /\
    exists v, canonical_json_bytes (JObj (completion_to_dict (f_completion p))) = Ok v /\
      holds (p_store s') (f_completion_ref p) v /\ locator (f_completion_ref p) = completion_locator t /\
      json_wf (media_type (f_parameter_schema_ref p)) = true.

Lemma publish_failure_spec t w schema a st re code wall peak s :
  wp (publish_failure t w schema a st re code wall peak) (failure_post t w a st re code wall peak s) s.
Proof.
  unfold publish_failure. apply wp_bind. eapply wp_mono; [apply (publish_schema_spec t)|].
  intros s1 [schema_ref|e] [B1 H1]; [|by split]. destruct (H1 _ eq_refl) as (sv & _ & Sh).
  apply wp_bind, wp_lift. destruct (failure_completion _ _ _ _ _ _ _ _) as [c|e] eqn:C; [|by split].
  apply wp_bind. eapply wp_mono; [apply (publish_completion_spec t)|].
  intros s2 [c_ref|e] [B2 H2]; pose proof (transitivity B1 B2) as B2'; [|by split].
  apply wp_ret. split; [done|]. intros p [= <-]. split; [done|]. destruct (H2 _ eq_refl) as (v & V & H & L).
  exists v. split; [done|]. split; [done|]. split; [done|]. apply (h_media _ _ _ Sh).
Qed.

(** The bytes at the locator of the completion, in a grown store *)
Lemma completion_bytes_kept st t r v v' :
  st !! completion_locator t = Some v -> holds st r v' -> locator r = completion_locator t -> v' = v.
Proof. intros H [_ [_ F] _ _ _] L. rewrite L in F. congruence. Qed.

Lemma success_dict_wf t w a summary r order wall peak c :
  ref_ok r -> media_type r = JStr _SAFETENSORS_MEDIA_TYPE ->
  success_completion t w a summary r order wall peak = Ok c -> json_wf (JObj (completion_to_dict c)) = true.
Proof.
  intros K M C. apply success_completion_Ok in C as (fp & _ & _ & _ & _ & _ & _ & d & D & A); [|done].
  apply completion_dict_wf. intros x X. rewrite D in X. injection X as <-. by rewrite A, M.
Qed.

Lemma failure_dict_wf t w a st re code wall peak c :
  failure_completion t w a st re code wall peak = Ok c -> json_wf (JObj (completion_to_dict c)) = true.
Proof.
  intros (fp & _ & _ & _ & _ & _ & _ & D)%failure_completion_Ok. apply completion_dict_wf. intros d. by rewrite D.
Qed.

Lemma success_completion_eligible t w a summary r order wall peak c :
  ref_ok r -> success_completion t w a summary r order wall peak = Ok c ->
  c_worker_id c = w /\ c_candidate_eligible c = true /\ wall_time_ms (c_resource_summary c) = wall.
Proof.
  intros K C. pose proof C as C'. apply success_completion_Ok in C' as (fp & _ & [(_ & _ & E) _ _ _ _ _ _] & _ & _ & _ & El & _); [|done].
  split; [done|]. split; [done|]. unfold success_completion in C. apply rbind_Ok in C as (x1 & _ & C).
  apply rbind_Ok in C as (x2 & _ & C). apply rbind_Ok in C as (x3 & _ & C). apply rbind_Ok in C as (rs & Rs & C).
  apply new_completion_of in C as (_ & _ & _ & _ & _ & _ & ->). by apply resource_args_Ok in Rs.
Qed.

Lemma failure_completion_ineligible t w a st re code wall peak c :
  failure_completion t w a st re code wall peak = Ok c ->
  c_worker_id c = w /\ c_candidate_eligible c = false /\ wall_time_ms (c_resource_summary c) = wall.
Proof.
  intros C. pose proof C as C'. apply failure_completion_Ok in C' as (fp & _ & [(_ & _ & E) _ _ _ _ _ _] & _ & _ & _ & El & _).
  split; [done|]. split; [done|]. unfold failure_completion in C. apply rbind_Ok in C as (x1 & _ & C).
  apply rbind_Ok in C as (x3 & _ & C). apply rbind_Ok in C as (rs & Rs & C).
  apply new_completion_of in C as (_ & _ & _ & _ & _ & _ & ->). by apply resource_args_Ok in Rs.
Qed.

(** C32: the verification that follows a publication accepts what was published,
    in any later state of the store: the lineage, the bytes of the three
    documents, both tensor artifacts and the normalization recomputed from the
    stored local delta all match; it can only fail when an access to the store
    fails. *)
Theorem published_round_verifies (t : DomainPureWorkTicket) (w : string) (schema : ParameterSchema)
    (a : TokenAccountingRecord) (local normalized : odict Tensor) (limits : LocalRoundLimits) (c : json * json)
    (wall peak : Z) (s s1 s2 : PubState) (p : PublishedLocalRound)
    (CL : codec_law) (EL : equal_law) (K : schema_ok schema) (L : ceilings limits = Ok c)
    (N : normalize_local_delta local schema (JInt (r_effective_steps a)) (JInt (step_budget t)) c.1 c.2 = Ok normalized)
    (P : publish_success save_tensors t w schema a local normalized limits wall peak s = (s1, Ok p))
    (G : p_store s1 ⊆ p_store s2) :
  (accesses_succeed -> (verify_success load_tensors p t schema limits s2).2 = Ok tt) /\
  (forall e, (verify_success load_tensors p t schema limits s2).2 = Raise e -> e ∈ verify_errors).
Proof.
  destruct (wp_elim _ _ _ (publish_success_spec t w schema a local normalized limits wall peak s) _ _ P)
    as [_ [[Z (cid & v & H)] (nv & Nv & Nh)]].
  assert (V : expected tt verify_errors (verify_success load_tensors p t schema limits s2).2).
  { apply (verify_success_spec t w schema a local normalized limits c wall peak p s2); try done.
    - eapply candidate_stored_mono; [exact G|]. split; [done|]. by exists cid, v.
    - exists nv. split; [done|]. by eapply holds_mono. }
  destruct V as [->|(A & e & -> & E)]; [done|]. split; [by intros|]. by intros e' [= <-].
Qed.

(** C14: the candidate comes last.  However a publication ends, at any point, by
    any exception, if the candidate of the ticket is in the store and was not
    before, then so is all it speaks of: the schema, both tensor artifacts and
    the completion whose content id it names, each readable under its reference,
    and the candidate is the normalized one of this round. *)
Theorem candidate_published_last (t : DomainPureWorkTicket) (w : string) (schema : ParameterSchema)
    (a : TokenAccountingRecord) (local normalized : odict Tensor) (limits : LocalRoundLimits)
    (wall peak : Z) (s s' : PubState) (r : wresult PublishedLocalRound) (v : string)
    (U : undisturbed (candidate_locator t)) (A : p_store s !! candidate_locator t = None)
    (P : publish_success save_tensors t w schema a local normalized limits wall peak s = (s', r))
    (H : p_store s' !! candidate_locator t = Some v) :
  exists p, canonical_json_bytes (JObj (candidate_to_dict (candidate p))) = Ok v /\
    completion_fingerprint (completion p) = Ok (n_completion_id (candidate p)) /\
    c_candidate_eligible (completion p) = true /\ n_normalized_delta (candidate p) = normalized_delta_ref p /\
    (exists cv, canonical_json_bytes (JObj (completion_to_dict (completion p))) = Ok cv /\
       store_read StoreOk (completion_ref p) (p_store s') = Ok cv) /\
    (exists sv, canonical_json_bytes (JObj (schema_to_dict schema)) = Ok sv /\
       store_read StoreOk (parameter_schema_ref p) (p_store s') = Ok sv) /\
    (exists lv, save_tensors local = Ok lv /\ store_read StoreOk (local_delta_ref p) (p_store s') = Ok lv) /\
    (exists mv, save_tensors normalized = Ok mv /\ store_read StoreOk (normalized_delta_ref p) (p_store s') = Ok mv).
Proof.
  destruct (wp_elim _ _ _ (publish_success_spec t w schema a local normalized limits wall peak s) _ _ P)
    as [[[_ B]|(_ & p & [Z (cid & v' & F & C & Cv & Ch)])] _]; [rewrite B in H by done; congruence|].
  rewrite H in Ch. injection Ch as <-. exists p. destruct Z as [(sv & Sv & Sh & _) (lv & Lv & Lh & _) (mv & Mv & Mh & _) (su & Z) (cv & Cv' & Ch & _)].
  apply round_candidate_Ok in C as (fp & _ & Y). destruct (y_fingerprint _ _ _ _ _ _ Y) as [_ ->].
  apply success_completion_eligible in Z as (_ & El & _); [|apply Lh].
  split; [done|]. split; [done|]. split; [done|]. split; [apply (y_artifact _ _ _ _ _ _ Y)|].
  split; [exists cv; split; [done|by apply holds_read]|]. split; [exists sv; split; [done|by apply holds_read]|].
  split; [exists lv; split; [done|by apply holds_read]|exists mv; split; [done|by apply holds_read]].
Qed.

(** a published completion is final.  Once the store has the completion of a
    ticket, a publication for that ticket, of a success or of a failure, can
    only return when its own completion has the same worker, outcome and wall
    time; every other one raises.  In particular a worker that recovers the
    ticket of another can neither complete it nor report its failure. *)
Theorem completion_published_once (t : DomainPureWorkTicket) (c0 : LocalRoundCompletion) (v : string) (s : PubState)
    (W0 : json_wf (JObj (completion_to_dict c0)) = true)
    (B0 : canonical_json_bytes (JObj (completion_to_dict c0)) = Ok v)
    (H0 : p_store s !! completion_locator t = Some v) :
  (forall w schema a local normalized limits wall peak s' p,
     publish_success save_tensors t w schema a local normalized limits wall peak s = (s', Ok p) ->
     w = c_worker_id c0 /\ c_candidate_eligible c0 = true /\ wall = wall_time_ms (c_resource_summary c0)) /\
  (forall w schema a st re code wall peak s' p,
     publish_failure t w schema a st re code wall peak s = (s', Ok p) ->
     w = c_worker_id c0 /\ c_candidate_eligible c0 = false /\ wall = wall_time_ms (c_resource_summary c0)).
Proof.
  split.
  - intros w schema a local normalized limits wall peak s' p P.
    destruct (wp_elim _ _ _ (publish_success_spec t w schema a local normalized limits wall peak s) _ _ P) as [X [[Z _] _]].
    assert (G : p_store s ⊆ p_store s') by (destruct X as [[G _]|[G _]]; exact G).
    destruct Z as [_ (lv & _ & Lh & _ & Lm) _ (su & C) (cv & Cv & Ch & Cl)].
    rewrite (completion_bytes_kept _ _ _ v cv (lookup_weaken _ _ _ _ H0 G) Ch Cl) in Cv.
    pose proof (success_completion_eligible _ _ _ _ _ _ _ _ _ (h_ref _ _ _ Lh) C) as (<- & El & <-).
    pose proof (success_dict_wf _ _ _ _ _ _ _ _ _ (h_ref _ _ _ Lh) Lm C) as Wc.
    destruct (completion_bytes_same _ _ v Wc W0 Cv B0) as (-> & <- & ->). by rewrite El.
  - intros w schema a st re code wall peak s' p P.
    destruct (wp_elim _ _ _ (publish_failure_spec t w schema a st re code wall peak s) _ _ P) as [[G _] X].
    destruct (X p eq_refl) as (C & cv & Cv & Ch & Cl & _).
    rewrite (completion_bytes_kept _ _ _ v cv (lookup_weaken _ _ _ _ H0 G) Ch Cl) in Cv.
    pose proof (failure_completion_ineligible _ _ _ _ _ _ _ _ _ C) as (<- & El & <-).
    destruct (completion_bytes_same _ _ v (failure_dict_wf _ _ _ _ _ _ _ _ _ C) W0 Cv B0) as (-> & <- & ->). by rewrite El.
Qed.
End Publish.
