(* ===== verification/Engine.v ===== *)
(** * The local round engine ([deltatorrent/worker/engine.py])

    [LocalRoundEngine.run] between the claim of a ticket and its completion in
    the repository: the training loop with its boundary checks, the delta and its
    normalization, the publication and its verification, and the handler that
    turns a failure into a completion.  The model and the copy of a parameter are
    torch's: [ModelOps]. *)

From S2P Require Import Prelude PyFloat PyArith Json WorkerErrors WorkerState ArtifactRef WorkTicket ArtifactStore TokenAccounting Updates ParameterSchema Sampler BaselineConfig DeltaSchema LocalRound RoundValidation UpdateWriter.
Open Scope string_scope.
Open Scope Z_scope.
Open Scope py_scope.

Class ModelOps (Tensor W : Type) := {
  (** [TrainingState.create]: the seed of torch, the model and its optimizer *)
  create_model : BaselineConfig -> W -> W * wresult unit;
  (** the parameters of [state.model] *)
  model_of : W -> @Module_ Tensor;
  (** [parameter.copy_(tensor)] of the parameter of that name *)
  copy_parameter : string -> Tensor -> W -> W * wresult unit }.

Inductive Published :=
| PublishedSuccess (p : PublishedLocalRound)
| PublishedFailed (p : PublishedFailure).

Record LocalRoundEngineResult := mkResult { published : Published; telemetry : LocalRoundTelemetry }.

Definition result_to_dict (r : LocalRoundEngineResult) : odict json :=
  (match published r with PublishedSuccess p => published_to_dict p | PublishedFailed p => failure_to_dict p end
   ++ [("telemetry", JObj (telemetry_to_dict (telemetry r)))])%list.

(** [_classify_failure]; [None] where it raises the exception again *)
Definition _classify_failure (e : worker_exn) : option (CompletionStatus * CompletionReason * string) :=
  match e with
  | WorkerCancellationRequested => Some (S_CANCELLED, R_CANCELLED, ErrorCode_value WORKER_CANCELLED)
  | WorkerDeadlineExceeded => Some (S_FAILED, R_DEADLINE, ErrorCode_value WORKER_DEADLINE_EXCEEDED)
  | WorkerDataExhausted => Some (S_FAILED, R_DATA_EXHAUSTED, ErrorCode_value WORKER_DATA_EXHAUSTED)
  | WOutOfMemoryError => Some (S_FAILED, R_OOM, ErrorCode_value WORKER_OOM)
  | WorkerInjectedCrash => Some (S_FAILED, R_INTERNAL_FAILURE, ErrorCode_value WORKER_CRASH)
  | DeltaError _ message =>
      if str_in message ["NON_FINITE_GRADIENT"; "NON_FINITE_LOSS"; "NON_FINITE_OPTIMIZER_STATE"; "DELTA_TENSOR_NON_FINITE"]
      then Some (S_FAILED, R_NON_FINITE, "NON_FINITE_STATE") else None
  | _ => None
  end.

Section Engine.
Context {Tensor W : Type} `{!TensorOps Tensor} `{!WorkEnv W} `{!TrainOps W} `{!ModelOps Tensor W}.
Context (save_tensors : odict Tensor -> wresult string) (load_tensors : string -> wresult (odict Tensor)).
Context (worker_id : string).

(** The variables of [run] that change; [wall_time_ms] is [None] until the round
    has an end. *)
Record EngineState := mkEngine {
  e_training : @TrainingState W;
  e_store : FilesystemArtifactStore;
  e_telemetry : LocalRoundTelemetry;
  e_wall : option Z }.

Implicit Types s : EngineState.

Definition pub s : PubState := mkPub (e_store s) (world (e_training s)).

Definition on_training {A} (m : WM TrainingState A) : WM EngineState A :=
  fun s => let '(x, r) := m (e_training s) in (mkEngine x (e_store s) (e_telemetry s) (e_wall s), r).
Definition on_env {A} (f : WM W A) : WM EngineState A := on_training (on_world f).
Definition on_publisher {A} (m : WM PubState A) : WM EngineState A :=
  fun s => let '(x, r) := m (pub s) in
           (mkEngine (set_world (p_world x) (e_training s)) (p_store x) (e_telemetry s) (e_wall s), r).
Definition on_telemetry (f : LocalRoundTelemetry -> wresult LocalRoundTelemetry) : WM EngineState unit :=
  fun s => match f (e_telemetry s) with
           | Ok t => (mkEngine (e_training s) (e_store s) t (e_wall s), Ok tt)
           | Raise e => (s, Raise e)
           end.

(** A call that never raises *)
Definition total {A} (f : W -> W * A) : WM W A := fun w => let '(w', a) := f w in (w', Ok a).

Definition _inject (stage : string) : WM EngineState unit := on_env (inject stage).

Definition _check_boundary (logical_started deadline_ms : Z) : WM W unit :=
  inject "BEFORE_MICROBATCH" ;!
  let! cancelled := total cancellation_requested in
  wlift (require (negb cancelled) WorkerCancellationRequested) ;!
  let! now := total logical_clock_ms in
  wlift (require (negb (deadline_ms <=? now - logical_started)) WorkerDeadlineExceeded).

(** [TrainingState.create], then the sampler of the ticket *)
Definition create_state (config : BaselineConfig) (sample_count : Z) (ticket : DomainPureWorkTicket) : WM EngineState unit :=
  on_env (create_model config) ;!
  let! _ := wlift (new_sampler sample_count (b_seed config) 0) in
  let! sampler := wlift (new_sampler sample_count (deterministic_seed ticket) (start (data_range ticket))) in
  on_training (wmodify (fun t => mkTraining 0 0 0 sampler (ledger t) (world t))).

Fixpoint copy_parameters (names : list string) (parent : odict Tensor) : WM EngineState unit :=
  match names with
  | [] => wret tt
  | name :: r =>
      match od_get name parent with
      | None => wraise WKeyError
      | Some t => on_env (copy_parameter name t) ;! copy_parameters r parent
      end
  end.

Definition model : WM EngineState (@Module_ Tensor) := wget (fun s => model_of (world (e_training s))).

(** [test(a[name], b[name])] for every name of [names], a [KeyError] for one
    that [b] lacks *)
Fixpoint compare_named (test : Tensor -> Tensor -> bool) (e : worker_exn) (a : odict Tensor) (b : odict Tensor) :
    wresult unit :=
  match a with
  | [] => Ok tt
  | (name, t) :: r =>
      match od_get name b with
      | None => Raise WKeyError
      | Some u => require (test t u) e ;? compare_named test e r b
      end
  end.

Definition load_parent (resolved : @ResolvedLocalRound Tensor) : WM EngineState (odict Tensor) :=
  let! m := model in
  let! actual := wlift (canonical_parameter_tensors m (r_parameter_schema resolved)) in
  copy_parameters (od_keys actual) (r_parent_parameters resolved) ;!
  let! m := model in
  let! parent := wlift (snapshot_fp32_parameters m (r_parameter_schema resolved)) in
  wlift (compare_named tensor_equal (DeltaError INVALID_WORK_TICKET "PARENT_LOAD_MISMATCH") parent
           (r_parent_parameters resolved)) ;!
  wret parent.

(** The steps of the round *)
Fixpoint train_steps (resolved : @ResolvedLocalRound Tensor) (logical_started : Z) (n : nat) : WM EngineState unit :=
  match n with
  | O => wret tt
  | S k =>
      let! metric := on_training (train_one_optimizer_step (r_config resolved) (r_samples resolved)
                       (Some (_check_boundary logical_started (logical_deadline_ms (r_ticket resolved))))) in
      on_telemetry (record_optimizer_step metric (learning_rate_nanos (r_config resolved))) ;!
      _inject "AFTER_OPTIMIZER_STEP" ;!
      train_steps resolved logical_started k
  end.

(** [ledger.snapshot()] *)
Definition ledger_snapshot : WM EngineState TokenAccountingRecord :=
  fun s => (s, match ledger (e_training s) with Some l => snapshot l | None => Raise WAssertionError end).

Definition milliseconds (ns : Z) : Z := Z.max 0 (ns / 1000000).

Definition set_wall (started : Z) : WM EngineState Z :=
  let! now := on_env (total clock_ns) in
  let wall := milliseconds (now - started) in
  wmodify (fun s => mkEngine (e_training s) (e_store s) (e_telemetry s) (Some wall)) ;!
  wret wall.

(** The delta of the round and its normalization *)
Definition round_deltas (resolved : @ResolvedLocalRound Tensor) (accounting : TokenAccountingRecord) (parent : odict Tensor)
    (m : @Module_ Tensor) : wresult (odict Tensor * odict Tensor) :=
  let schema := r_parameter_schema resolved in
  let? final := snapshot_fp32_parameters m schema in
  let? local_delta := build_local_delta parent final schema in
  let? reconstructed := reconstruct_final parent local_delta schema in
  let? _ := compare_named (fun f r => allclose r f)
              (DeltaError INVALID_DELTA_TENSOR "LOCAL_DELTA_RECONSTRUCTION_FAILED") final reconstructed in
  let? limit := ceilings (r_limits resolved) in
  let? normalized := normalize_local_delta local_delta schema (JInt (r_effective_steps accounting))
                       (JInt (step_budget (r_ticket resolved))) limit.1 limit.2 in
  Ok (local_delta, normalized).

(** The publication and its verification *)
Definition publish_round (resolved : @ResolvedLocalRound Tensor) (accounting : TokenAccountingRecord)
    (deltas : odict Tensor * odict Tensor) (wall : Z) : WM PubState PublishedLocalRound :=
  let! p := publish_success save_tensors (r_ticket resolved) worker_id (r_parameter_schema resolved) accounting
              deltas.1 deltas.2 (r_limits resolved) wall 0 in
  verify_success load_tensors p (r_ticket resolved) (r_parameter_schema resolved) (r_limits resolved) ;!
  wret p.

(** The body of the [try] *)
Definition round_body (resolved : @ResolvedLocalRound Tensor) (started logical_started : Z) : WM EngineState PublishedLocalRound :=
  let ticket := r_ticket resolved in
  _inject "AFTER_CLAIM" ;!
  on_telemetry (move_to ACCEPTED) ;!
  create_state (r_config resolved) (Z.of_nat (length (r_samples resolved))) ticket ;!
  let! parent := load_parent resolved in
  on_telemetry (move_to RUNNING) ;!
  train_steps resolved logical_started (Z.to_nat (step_budget ticket)) ;!
  let! accounting := ledger_snapshot in
  wlift (require (r_cursor_end accounting =? end_ (data_range ticket)) WorkerDataExhausted) ;!
  let! m := model in
  let! deltas := wlift (round_deltas resolved accounting parent m) in
  _inject "BEFORE_PUBLICATION" ;!
  let! wall := set_wall started in
  let! p := on_publisher (publish_round resolved accounting deltas wall) in
  on_telemetry (move_to COMPLETED) ;!
  wret p.

(** The handler *)
Definition round_failed (resolved : @ResolvedLocalRound Tensor) (started : Z) (e : worker_exn) : WM EngineState LocalRoundEngineResult :=
  match _classify_failure e with
  | None => wraise e
  | Some (status, reason, failure_code) =>
      on_telemetry (move_to (if bool_decide (status = S_CANCELLED) then CANCELLED else FAILED)) ;!
      let! known := wget e_wall in
      let! wall := match known with Some w => wret w | None => set_wall started end in
      let! accounting := ledger_snapshot in
      let! failed := on_publisher (publish_failure (r_ticket resolved) worker_id (r_parameter_schema resolved) accounting
                                     status reason failure_code wall 0) in
      let! t := wget e_telemetry in
      wret (mkResult (PublishedFailed failed) t)
  end.

(** A round from the claim to the completion, on the store and the world *)
Definition start_state (ticket : DomainPureWorkTicket) (l : OptimizerBoundaryLedger) (x : PubState) : EngineState :=
  mkEngine (mkTraining 0 0 0 (mkSampler 0 0 0) (Some l) (p_world x)) (p_store x)
    (new_telemetry (ticket_id ticket) (domain_id ticket)) None.

Definition round_attempt (resolved : @ResolvedLocalRound Tensor) (started logical_started : Z) : WM EngineState LocalRoundEngineResult :=
  wtry (let! p := round_body resolved started logical_started in
        let! t := wget e_telemetry in
        wret (mkResult (PublishedSuccess p) t))
    (round_failed resolved started).

Definition execute_round (resolved : @ResolvedLocalRound Tensor) : WM PubState LocalRoundEngineResult :=
  let ticket := r_ticket resolved in
  let! l := wlift (new_boundary_ledger (JInt (start (data_range ticket))) (JInt (end_ (data_range ticket)))) in
  let! started := env (total clock_ns) in
  let! logical_started := env (total logical_clock_ms) in
  fun x => let '(s, r) := round_attempt resolved started logical_started (start_state ticket l x) in (pub s, r).
End Engine.
