(* ===== verification/EngineProps.v ===== *)
(** * What a round guarantees ([deltatorrent/worker/engine.py])

    The training loop consumes the range of the ticket exactly; a round that
    returns has published the completion it reports. *)

From S2P Require Import Prelude PyFloat PyArith Json WorkerErrors WorkerCanonical WorkerState ArtifactRef WorkTicket ArtifactStore TokenAccounting Updates ParameterSchema Sampler BaselineConfig DeltaSchema LocalRound RoundValidation UpdateWriter PublishProps Engine.
Open Scope string_scope.
Open Scope Z_scope.
Open Scope py_scope.

Section Rounds.
Context {Tensor W : Type} `{!TensorOps Tensor} `{!WorkEnv W} `{!TrainOps W} `{!ModelOps Tensor W}.
Context (save_tensors : odict Tensor -> wresult string) (load_tensors : string -> wresult (odict Tensor)).
Context (worker_id : string).
Implicit Types (s : @EngineState W) (resolved : @ResolvedLocalRound Tensor).

(** ** Calls on a part of the state *)

Lemma wp_training {A} (m : WM TrainingState A) (Q : EngineState -> wresult A -> Prop) s :
  wp m (fun x r => Q (mkEngine x (e_store s) (e_telemetry s) (e_wall s)) r) (e_training s) -> wp (on_training m) Q s.
Proof. unfold wp, on_training. by destruct (m (e_training s)). Qed.

Lemma wp_env {A} (f : WM W A) (Q : EngineState -> wresult A -> Prop) s :
  (forall w r, Q (mkEngine (set_world w (e_training s)) (e_store s) (e_telemetry s) (e_wall s)) r) -> wp (on_env f) Q s.
Proof. intros H. apply wp_training, wp_intro. intros x r. unfold on_world. destruct (f _) as [w y]. by intros [= <- <-]. Qed.

Lemma wp_publisher {A} (m : WM PubState A) (Q : EngineState -> wresult A -> Prop) s :
  wp m (fun x r => Q (mkEngine (set_world (p_world x) (e_training s)) (p_store x) (e_telemetry s) (e_wall s)) r) (pub s) ->
  wp (on_publisher m) Q s.
Proof. unfold wp, on_publisher. by destruct (m (pub s)). Qed.

Lemma wp_telemetry f (Q : EngineState -> wresult unit -> Prop) s :
  (forall t, f (e_telemetry s) = Ok t -> Q (mkEngine (e_training s) (e_store s) t (e_wall s)) (Ok tt)) ->
  (forall e, Q s (Raise e)) -> wp (on_telemetry f) Q s.
Proof. intros H1 H2. unfold wp, on_telemetry. destruct (f (e_telemetry s)) as [t|e] eqn:E; [by apply H1|apply H2]. Qed.

(** ** The state of a round *)

(** The telemetry of the ticket, in a given state with a given number of metrics *)
Definition reports (t : DomainPureWorkTicket) (st : LocalRoundState) (n : nat) s : Prop :=
  telemetry_ok (e_telemetry s) /\ WorkerState.t_ticket_id (e_telemetry s) = ticket_id t /\ t_state (e_telemetry s) = st /\
  length (t_metrics (e_telemetry s)) = n.

(** The telemetry of the ticket, whatever its state *)
Definition tracked (t : DomainPureWorkTicket) s : Prop :=
  telemetry_ok (e_telemetry s) /\ WorkerState.t_ticket_id (e_telemetry s) = ticket_id t.

Lemma reports_tracked t st n s : reports t st n s -> tracked t s.
Proof. by intros (? & ? & _). Qed.

Lemma wp_move t st n target s (Q : EngineState -> wresult unit -> Prop) :
  reports t st n s ->
  (forall x, reports t target n (mkEngine (e_training s) (e_store s) x (e_wall s)) ->
     Q (mkEngine (e_training s) (e_store s) x (e_wall s)) (Ok tt)) ->
  (forall e, Q s (Raise e)) -> wp (on_telemetry (move_to target)) Q s.
Proof.
  intros (K & I & S & N) H1 H2. apply wp_telemetry; [|done]. intros x E. apply H1.
  apply move_to_ok in E as (K' & S' & _ & M' & _ & I'); [|done]. split; [done|]. split; [cbn; congruence|].
  split; [done|]. cbn. by rewrite M'.
Qed.

(** The ledger of a training state covers the range of the ticket. *)
Definition covers (t : DomainPureWorkTicket) (x : @TrainingState W) : Prop :=
  exists l, ledger x = Some l /\ range_start l = start (data_range t) /\ range_end l = end_ (data_range t).

(** After [k] committed steps *)
Record after_steps resolved (k : nat) (x : @TrainingState W) : Prop := {
  w_covers : covers (r_ticket resolved) x;
  w_boundary : exists h, at_boundary (r_config resolved) x h /\ length (h_steps h) = k }.

Lemma after_steps_world resolved k x w : after_steps resolved k x -> after_steps resolved k (set_world w x).
Proof.
  intros [C (h & B & N)]. constructor; [done|]. exists h. split; [|done]. pose proof (b_step _ _ _ B) as (l & I & _).
  eapply at_boundary_quiet; [exact B| |done]. split; [|done]. exact (same_refl x (i_sampler _ _ _ I)).
Qed.

(** One step of the loop: a step more, or none *)
Lemma train_step_after resolved samples before k x :
  config_ok (r_config resolved) -> after_steps resolved k x ->
  wp (train_one_optimizer_step (r_config resolved) samples before)
    (fun x' r => covers (r_ticket resolved) x' /\ (forall m, r = Ok m -> after_steps resolved (S k) x')) x.
Proof.
  intros K [(l & L & R1 & R2) (h & B & N)]. eapply wp_mono; [by apply train_step_spec|].
  intros x' r [(l1 & l2 & L1 & L2 & E1 & E2) H]. rewrite L in L1. injection L1 as <-.
  assert (C : covers (r_ticket resolved) x') by (exists l2; split; [done|]; by rewrite E1, E2).
  split; [done|]. intros m Em. destruct H as [(e & bs & -> & _)|(bs & loss & _ & B' & _)]; [done|].
  constructor; [done|]. exists (committed h bs). split; [done|]. cbn. rewrite length_app, N. cbn. lia.
Qed.

(** The loop: the ticket's telemetry stays running with a metric per step. *)
Lemma train_steps_spec resolved logical n k s :
  config_ok (r_config resolved) -> after_steps resolved k (e_training s) -> reports (r_ticket resolved) RUNNING k s ->
  wp (train_steps resolved logical n)
    (fun s' r => e_store s' = e_store s /\ e_wall s' = e_wall s /\ covers (r_ticket resolved) (e_training s') /\
       tracked (r_ticket resolved) s' /\
       (r = Ok tt -> after_steps resolved (k + n) (e_training s') /\ reports (r_ticket resolved) RUNNING (k + n) s')) s.
Proof.
  intros K. revert k s. induction n as [|n IH]; intros k s A R; cbn [train_steps].
  - apply wp_ret. rewrite Nat.add_0_r. split; [done|]. split; [done|]. split; [apply A|].
    split; [by eapply reports_tracked|done].
  - apply wp_bind, wp_training. eapply wp_mono; [by apply train_step_after|].
    intros x' [m|e] [C H]; [|split; [done|]; split; [done|]; split; [done|]; split; [by eapply (reports_tracked _ _ _ s)|done]].
    specialize (H m eq_refl). apply wp_bind, wp_telemetry.
    2:{ intros e. split; [done|]. split; [done|]. split; [done|]. split; [by eapply (reports_tracked _ _ _ s)|done]. }
    intros t E. destruct R as (Kt & I & St & N). pose proof (record_metrics _ _ _ _ E) as M.
    apply record_ok in E as (K' & _ & S' & _ & I'); [|done].
    assert (R' : reports (r_ticket resolved) RUNNING (S k) (mkEngine x' (e_store s) t (e_wall s)))
      by (split; [done|]; split; [cbn in *; congruence|]; split; [done|]; cbn in *; congruence).
    apply wp_bind, wp_env. intros w [[]|e].
    + rewrite <- Nat.add_succ_comm. eapply wp_mono; [apply (IH (S k)); [by apply after_steps_world|exact R']|].
      intros s' r H'. exact H'.
    + split; [done|]. split; [done|]. split; [done|]. split; [by eapply reports_tracked in R'|done].
Qed.

(** ** The range *)

(** After [n] committed steps of the configured size the ledger has consumed
    [n] steps' worth of the range. *)
Lemma boundary_cursor c (x : @TrainingState W) h l :
  at_boundary c x h -> ledger x = Some l ->
  cursor_end l = range_start l + batch_size c * gradient_accumulation_steps c * Z.of_nat (length (h_steps h)) /\
  effective_steps l = Z.of_nat (length (h_steps h)) /\ _pending_micro_steps l = 0 /\ accounts l h.
Proof.
  intros B L. destruct (b_step _ _ _ B) as (l' & I & _). pose proof (i_ledger _ _ _ I) as L'. rewrite L in L'.
  injection L' as <-. pose proof (i_accounts _ _ _ I) as A. pose proof (b_sizes _ _ _ B) as Z.
  rewrite (tiles_width _ _ _ (batch_size c) (a_committed _ _ A)).
  - rewrite (steps_multiple (gradient_accumulation_steps c)); [|eapply Forall_impl; [exact Z|]; by intros bs [? _]].
    split; [lia|]. split; [apply (a_effective _ _ A)|]. split; [|done].
    by rewrite (a_pending_steps _ _ A), (b_pending _ _ _ B).
  - clear -Z. induction Z as [|bs steps [_ F] Z IH]; [constructor|]. cbn [concat]. by apply Forall_app.
Qed.

Lemma range_consumed resolved st (x : @TrainingState W) l :
  resolved_ok load_tensors st resolved -> after_steps resolved (Z.to_nat (step_budget (r_ticket resolved))) x ->
  0 < step_budget (r_ticket resolved) -> ledger x = Some l ->
  exists a, snapshot l = Ok a /\ r_effective_steps a = step_budget (r_ticket resolved) /\
    r_cursor_end a = end_ (data_range (r_ticket resolved)) /\ r_cursor_start a = start (data_range (r_ticket resolved)) /\
    r_pending_micro_steps a = 0.
Proof.
  intros R [(l' & L' & R1 & R2) (h & B & N)] P L. rewrite L in L'. injection L' as <-.
  destruct (boundary_cursor _ _ _ _ B L) as (C & E & Pn & A). eexists. split; [by eapply snapshot_accounts|].
  cbn. rewrite E, C, N, R1, Pn. rewrite Z2Nat.id by lia. pose proof (v_range _ _ _ R) as V.
  destruct (v_budgets _ _ _ R) as [_ Bu]. rewrite <- Bu in V. repeat split; lia.
Qed.

(** ** The set-up *)

(** Only the world has changed. *)
Definition world_only s s' : Prop :=
  exists w, s' = mkEngine (set_world w (e_training s)) (e_store s) (e_telemetry s) (e_wall s).

Lemma world_only_refl s : world_only s s.
Proof. exists (world (e_training s)). by destruct s as [[] ? ? ?]. Qed.

Lemma world_only_trans s1 s2 s3 : world_only s1 s2 -> world_only s2 s3 -> world_only s1 s3.
Proof. intros [w1 ->] [w2 ->]. by exists w2. Qed.

Lemma env_world_only {A} (f : WM W A) s : wp (on_env f) (fun s' _ => world_only s s') s.
Proof. apply wp_env. intros w r. by exists w. Qed.

Lemma copy_parameters_world names parent s : wp (copy_parameters names parent) (fun s' _ => world_only s s') s.
Proof.
  revert s. induction names as [|name names IH]; intros s; cbn [copy_parameters]; [apply wp_ret, world_only_refl|].
  destruct (od_get name parent) as [t|]; [|apply wp_raise, world_only_refl].
  apply wp_bind. eapply wp_mono; [apply env_world_only|]. intros s1 [[]|e] H1; [|done].
  eapply wp_mono; [apply IH|]. intros s2 r H2. by eapply world_only_trans.
Qed.

Lemma load_parent_world resolved s : wp (load_parent resolved) (fun s' _ => world_only s s') s.
Proof.
  unfold load_parent, model. apply wp_bind, wp_get. apply wp_bind, wp_lift.
  destruct (canonical_parameter_tensors _ _) as [actual|e]; [|apply world_only_refl].
  apply wp_bind. eapply wp_mono; [apply copy_parameters_world|]. intros s1 [[]|e] H; [|done].
  apply wp_bind, wp_get. apply wp_bind, wp_lift. destruct (snapshot_fp32_parameters _ _) as [parent|e]; [|done].
  apply wp_bind, wp_lift. destruct (compare_named _ _ _ _) as [[]|e]; [|done]. by apply wp_ret.
Qed.

(** The ledger [run] starts with *)
Definition fresh_ledger (t : DomainPureWorkTicket) (x : @TrainingState W) : Prop :=
  exists l, ledger x = Some l /\ new_boundary_ledger (JInt (start (data_range t))) (JInt (end_ (data_range t))) = Ok l.

Lemma fresh_covers resolved n seed c w x :
  fresh_ledger (r_ticket resolved) x ->
  new_sampler n seed (start (data_range (r_ticket resolved))) = Ok c ->
  after_steps resolved 0 (mkTraining 0 0 0 c (ledger x) w).
Proof.
  intros (l & L & F) (-> & Sm)%new_sampler_Ok. apply new_ledger_accounts in F as (A & a & b & [= <-] & [= <-] & R1 & R2 & _).
  constructor; [by exists l|]. exists (mkHistory [] [] []). split; [|done]. constructor; [|done|constructor].
  exists l. pose proof (a_committed _ _ A) as T. cbn in T. split; [|cbn; congruence].
  constructor; cbn; try done; [apply (eq_sym (a_effective _ _ A))|apply (eq_sym (a_committed_steps _ _ A))|
    apply (eq_sym (a_processed _ _ A))].
Qed.

Lemma create_state_spec resolved n s :
  fresh_ledger (r_ticket resolved) (e_training s) ->
  wp (create_state (r_config resolved) n (r_ticket resolved))
    (fun s' r => e_store s' = e_store s /\ e_telemetry s' = e_telemetry s /\ e_wall s' = e_wall s /\
       (r = Ok tt -> after_steps resolved 0 (e_training s'))) s.
Proof.
  intros F. unfold create_state. apply wp_bind. eapply wp_mono; [apply env_world_only|].
  intros s1 [[]|e] [w ->]; [|done]. apply wp_bind, wp_lift. destruct (new_sampler n _ 0) as [c0|e]; [|done].
  apply wp_bind, wp_lift. destruct (new_sampler _ _ _) as [c|e] eqn:C; [|done].
  apply wp_training, wp_modify. split; [done|]. split; [done|]. split; [done|]. intros _. by eapply fresh_covers.
Qed.

(** ** The round *)

(** What a round that succeeded has published *)
Definition round_succeeded resolved s' (p : PublishedLocalRound) : Prop :=
  let t := r_ticket resolved in
  exists a local normalized wall,
    candidate_stored save_tensors (e_store s') t worker_id (r_parameter_schema resolved) a local normalized wall 0 p /\
    r_effective_steps a = step_budget t /\ r_cursor_start a = start (data_range t) /\
    r_cursor_end a = end_ (data_range t) /\ r_pending_micro_steps a = 0 /\
    json_wf (media_type (candidate_ref p)) = true /\
    reports t COMPLETED (Z.to_nat (step_budget t)) s'.

(** Nothing of the candidate yet, or a round whose completion is in the store *)
Definition on_the_way resolved (s0 : PubState) s' : Prop :=
  before (r_ticket resolved) s0 (pub s') \/
  p_store s0 ⊆ e_store s' /\ exists a local normalized wall p,
    candidate_stored save_tensors (e_store s') (r_ticket resolved) worker_id (r_parameter_schema resolved) a local normalized wall 0 p.

Definition body_post resolved (s0 : PubState) s' (r : wresult PublishedLocalRound) : Prop :=
  tracked (r_ticket resolved) s' /\ on_the_way resolved s0 s' /\ p_store s0 ⊆ e_store s' /\
  forall p, r = Ok p -> round_succeeded resolved s' p.

(** As long as nothing is published, an exception is harmless. *)
Lemma body_raised resolved (s0 : PubState) s' e :
  tracked (r_ticket resolved) s' -> e_store s' = p_store s0 -> body_post resolved s0 s' (Raise e).
Proof.
  intros T E. split; [done|]. split; [left; split; [by rewrite <- E|by intros _; rewrite <- E]|].
  split; [by rewrite <- E|done].
Qed.

Lemma world_only_tracked t s s' : world_only s s' -> tracked t s -> tracked t s'.
Proof. by intros [w ->]. Qed.

(** The publication and its verification, seen from the store *)
Lemma publish_round_spec resolved a deltas wall x :
  wp (publish_round save_tensors load_tensors worker_id resolved a deltas wall)
    (fun x' r => p_store x ⊆ p_store x' /\
       (before (r_ticket resolved) x x' \/ exists p, candidate_stored save_tensors (p_store x') (r_ticket resolved)
          worker_id (r_parameter_schema resolved) a deltas.1 deltas.2 wall 0 p) /\
       forall p, r = Ok p -> candidate_stored save_tensors (p_store x') (r_ticket resolved)
          worker_id (r_parameter_schema resolved) a deltas.1 deltas.2 wall 0 p /\ json_wf (media_type (candidate_ref p)) = true) x.
Proof.
  unfold publish_round. apply wp_bind. eapply wp_mono; [apply publish_success_spec|].
  intros x1 [p|e] [H1 H2].
  - destruct H2 as [Cs (nv & _ & Nh)]. assert (G : p_store x ⊆ p_store x1) by (destruct H1 as [[G _]|[G _]]; exact G).
    apply wp_bind. eapply wp_mono; [apply verify_success_grows|]. intros x2 r G2.
    assert (C2 : candidate_stored save_tensors (p_store x2) (r_ticket resolved) worker_id (r_parameter_schema resolved) a
                   deltas.1 deltas.2 wall 0 p) by (eapply candidate_stored_mono; [exact G2|exact Cs]).
    destruct r as [[]|e]; [apply wp_ret|]; (split; [by etransitivity|split; [right; by exists p|]]); [|done].
    intros q [= <-]. split; [done|apply (h_media _ _ _ Nh)].
  - split; [by destruct H1 as [[G _]|[G _]]|]. split; [|done]. destruct H1 as [B|(_ & p & C)]; [by left|right; by exists p].
Qed.

(** From the trained model on *)
Definition round_end resolved (started : Z) (parent : odict Tensor) : WM EngineState PublishedLocalRound :=
  let ticket := r_ticket resolved in
  let! accounting := ledger_snapshot in
  wlift (require (r_cursor_end accounting =? end_ (data_range ticket)) WorkerDataExhausted) ;!
  let! m := model in
  let! deltas := wlift (round_deltas resolved accounting parent m) in
  _inject "BEFORE_PUBLICATION" ;!
  let! wall := set_wall started in
  let! p := on_publisher (publish_round save_tensors load_tensors worker_id resolved accounting deltas wall) in
  on_telemetry (move_to COMPLETED) ;!
  wret p.

Lemma set_wall_spec started s :
  wp (set_wall started) (fun s' _ => e_store s' = e_store s /\ e_telemetry s' = e_telemetry s) s.
Proof.
  unfold set_wall. apply wp_bind. eapply wp_mono; [apply env_world_only|]. intros s1 [n|e] [w ->]; [|done].
  apply wp_bind, wp_modify. by apply wp_ret.
Qed.

Lemma round_end_spec resolved st started parent (s0 : PubState) s :
  resolved_ok load_tensors st resolved -> 0 < step_budget (r_ticket resolved) ->
  after_steps resolved (Z.to_nat (step_budget (r_ticket resolved))) (e_training s) ->
  reports (r_ticket resolved) RUNNING (Z.to_nat (step_budget (r_ticket resolved))) s -> e_store s = p_store s0 ->
  wp (round_end resolved started parent) (body_post resolved s0) s.
Proof.
  intros R P A T E. pose proof (reports_tracked _ _ _ _ T) as Tr. unfold round_end, model.
  destruct (w_covers _ _ _ A) as (l & L & _). destruct (range_consumed _ _ _ _ R A P L) as (a & Sn & A1 & A2 & A3 & A4).
  apply wp_bind, wp_intro. unfold ledger_snapshot. rewrite L, Sn. intros s1 r1 [= <- <-].
  apply wp_bind, wp_lift. rewrite A2, Z.eqb_refl. cbn [require]. apply wp_bind, wp_get. apply wp_bind, wp_lift.
  destruct (round_deltas _ _ _ _) as [deltas|e]; [|by apply body_raised].
  apply wp_bind. eapply wp_mono; [apply env_world_only|]. intros s2 [[]|e] [w ->]; [|by apply body_raised].
  apply wp_bind. eapply wp_mono; [apply set_wall_spec|]. intros s3 r3 [E3 T3]. cbn in E3, T3.
  assert (T3' : reports (r_ticket resolved) RUNNING (Z.to_nat (step_budget (r_ticket resolved))) s3)
    by (unfold reports in *; by rewrite T3).
  destruct r3 as [wall|e]; [|apply body_raised; [by eapply reports_tracked|congruence]].
  apply wp_bind, wp_publisher. eapply wp_mono; [apply publish_round_spec|]. intros x r (G & H1 & H2). cbn in G, H1.
  set (s4 := mkEngine _ _ _ _). assert (T4 : reports (r_ticket resolved) RUNNING (Z.to_nat (step_budget (r_ticket resolved))) s4) by exact T3'.
  assert (G4 : p_store s0 ⊆ e_store s4) by (rewrite <- E, <- E3; exact G).
  assert (O4 : on_the_way resolved s0 s4).
  { destruct H1 as [[_ B]|(p & C)]; [left|right; split; [done|by exists a, deltas.1, deltas.2, wall, p]].
    split; [exact G4|]. intros U. specialize (B U). cbn in B |- *. congruence. }
  destruct r as [p|e]; [|split; [by eapply reports_tracked|done]].
  apply wp_bind. eapply wp_move; [exact T4| |intros e; split; [by eapply reports_tracked|done]].
  intros t T5. apply wp_ret. split; [by eapply reports_tracked|]. split; [exact O4|]. split; [exact G4|].
  intros q [= <-]. exists a, deltas.1, deltas.2, wall. destruct (H2 p eq_refl). done.
Qed.

Lemma round_body_spec resolved st started logical (s0 : PubState) s :
  config_ok (r_config resolved) -> resolved_ok load_tensors st resolved -> 0 < step_budget (r_ticket resolved) ->
  fresh_ledger (r_ticket resolved) (e_training s) -> reports (r_ticket resolved) RECEIVED 0 s -> e_store s = p_store s0 ->
  wp (round_body save_tensors load_tensors worker_id resolved started logical) (body_post resolved s0) s.
Proof.
  intros K R P F T E. pose proof (reports_tracked _ _ _ _ T) as Tr. unfold round_body. cbv zeta.
  apply wp_bind. eapply wp_mono; [apply env_world_only|]. intros s1 [[]|e] [w ->]; [|by apply body_raised].
  apply wp_bind. eapply wp_move; [exact T| |intros e; by apply body_raised]. intros t1 T1.
  apply wp_bind. eapply wp_mono; [by apply create_state_spec|]. intros s2 r2 (E2 & Te2 & _ & A2). cbn in E2, Te2.
  assert (T2 : reports (r_ticket resolved) ACCEPTED 0 s2) by (unfold reports in *; by rewrite Te2).
  pose proof (reports_tracked _ _ _ _ T2) as Tr2.
  destruct r2 as [[]|e]; [|apply body_raised; [done|congruence]]. specialize (A2 eq_refl).
  apply wp_bind. eapply wp_mono; [apply load_parent_world|]. intros s3 r3 [w3 ->].
  destruct r3 as [parent|e]; [|apply body_raised; [done|cbn; congruence]].
  apply wp_bind. eapply wp_move; [exact T2| |intros e; apply body_raised; [done|cbn; congruence]]. intros t3 T3.
  apply wp_bind. eapply wp_mono; [apply (train_steps_spec resolved logical _ 0); [done|by apply after_steps_world|exact T3]|].
  intros s4 r4 (E4 & _ & _ & Tr4 & H4). cbn in E4. destruct r4 as [[]|e]; [|apply body_raised; [done|congruence]].
  destruct (H4 eq_refl) as [A4 T4]. apply (round_end_spec resolved st started parent s0 s4); try done. congruence.
Qed.

(** ** Failures *)

Lemma set_wall_known started known s :
  wp (match known with Some w => wret w | None => set_wall started end)
    (fun s' _ => e_store s' = e_store s /\ e_telemetry s' = e_telemetry s) s.
Proof. destruct known as [w|]; [by apply wp_ret|apply set_wall_spec]. Qed.

Definition failed_state (st : CompletionStatus) : LocalRoundState :=
  if bool_decide (st = S_CANCELLED) then CANCELLED else FAILED.

(** The state of the telemetry the handler leaves, and what it has published *)
Definition round_reported resolved (t : LocalRoundTelemetry) (store : FilesystemArtifactStore) (f : PublishedFailure) : Prop :=
  exists a st re code wall v,
    failure_completion (r_ticket resolved) worker_id a st re code wall 0 = Ok (f_completion f) /\
    t_state t = failed_state st /\ telemetry_ok t /\ WorkerState.t_ticket_id t = ticket_id (r_ticket resolved) /\
    canonical_json_bytes (JObj (completion_to_dict (f_completion f))) = Ok v /\ holds store (f_completion_ref f) v /\
    locator (f_completion_ref f) = completion_locator (r_ticket resolved) /\
    json_wf (media_type (f_parameter_schema_ref f)) = true.

Definition failed_post resolved s s' (r : wresult LocalRoundEngineResult) : Prop :=
  before (r_ticket resolved) (pub s) (pub s') /\
  forall res, r = Ok res -> telemetry res = e_telemetry s' /\
    exists f, published res = PublishedFailed f /\ round_reported resolved (telemetry res) (e_store s') f.

Lemma failed_raised resolved s s' e : e_store s' = e_store s -> failed_post resolved s s' (Raise e).
Proof. intros E. split; [|done]. split; cbn; by rewrite E. Qed.

Lemma round_failed_spec resolved started e s :
  tracked (r_ticket resolved) s -> wp (round_failed worker_id resolved started e) (failed_post resolved s) s.
Proof.
  intros [K I]. unfold round_failed. destruct (_classify_failure e) as [[[st re] code]|]; [|by apply failed_raised].
  apply wp_bind. apply (wp_move (r_ticket resolved) (t_state (e_telemetry s)) (length (t_metrics (e_telemetry s))));
    [done| |intros e'; by apply failed_raised]. intros t (K1 & I1 & S1 & _). cbn in K1, I1, S1.
  apply wp_bind, wp_get. apply wp_bind. eapply wp_mono; [apply set_wall_known|]. intros s2 r2 [E2 T2]. cbn in E2, T2.
  destruct r2 as [wall|e']; [|by apply failed_raised].
  apply wp_bind, wp_intro. intros s3 r3. unfold ledger_snapshot. intros [= <- <-].
  destruct (match ledger (e_training s2) with Some l => snapshot l | None => _ end) as [a|e']; [|by apply failed_raised].
  apply wp_bind, wp_publisher. eapply wp_mono; [apply publish_failure_spec|]. intros x r [B H].
  assert (B' : before (r_ticket resolved) (pub s) x) by (destruct B as [B1 B2]; cbn in B1, B2; split; cbn; rewrite <- E2; done).
  destruct r as [f|e']; [|by split]. destruct (H f eq_refl) as (C & v & Cv & Ch & Cl & Cm).
  apply wp_bind, wp_get. apply wp_ret. split; [exact B'|]. intros res [= <-]. cbn. split; [done|].
  exists f. split; [done|]. exists a, st, re, code, wall, v. rewrite T2. done.
Qed.

(** ** The result of a round *)

(** The completion a result speaks of *)
Definition result_completion (r : LocalRoundEngineResult) : LocalRoundCompletion :=
  match published r with PublishedSuccess p => completion p | PublishedFailed f => f_completion f end.
Definition result_completion_ref (r : LocalRoundEngineResult) : ArtifactRef :=
  match published r with PublishedSuccess p => completion_ref p | PublishedFailed f => f_completion_ref f end.
Definition is_success (r : LocalRoundEngineResult) : bool :=
  match published r with PublishedSuccess _ => true | PublishedFailed _ => false end.

(** ** The document of a result *)

Lemma json_wf_map {A} (f : A -> json) l : (forall x, x ∈ l -> json_wf (f x) = true) -> json_wf (JArr (map f l)) = true.
Proof. intros H. cbn [json_wf]. apply forallb_forall. intros j (x & <- & I)%in_map_iff. by apply H, list_elem_of_In. Qed.

Lemma telemetry_dict_wf t : json_wf (JObj (telemetry_to_dict t)) = true.
Proof.
  assert (E : json_wf (JArr (map (fun e => JObj (event_to_dict e)) (t_events t))) = true) by (by apply json_wf_map).
  assert (M : json_wf (JArr (map (fun m => JObj (metric_to_dict m)) (t_metrics t))) = true) by (by apply json_wf_map).
  unfold telemetry_to_dict. revert E M. generalize (JArr (map (fun e => JObj (event_to_dict e)) (t_events t))),
    (JArr (map (fun m => JObj (metric_to_dict m)) (t_metrics t))). intros e m E M. cbn. by rewrite E, M.
Qed.

Lemma result_dict_wf r :
  match published r with
  | PublishedSuccess p => Forall (fun x => json_wf (media_type x) = true)
      [candidate_ref p; completion_ref p; local_delta_ref p; normalized_delta_ref p; parameter_schema_ref p]
  | PublishedFailed f => Forall (fun x => json_wf (media_type x) = true) [f_completion_ref f; f_parameter_schema_ref f]
  end -> json_wf (JObj (result_to_dict r)) = true.
Proof.
  intros H. unfold result_to_dict. pose proof (telemetry_dict_wf (telemetry r)) as T. revert T.
  generalize (JObj (telemetry_to_dict (telemetry r))). intros j T.
  destruct (published r) as [p|f]; repeat (apply Forall_cons in H as [?%ref_to_dict_wf H]);
    unfold published_to_dict, failure_to_dict;
    repeat match goal with R : json_wf (JObj (ref_to_dict ?x)) = true |- _ =>
             revert R; generalize (JObj (ref_to_dict x)); intros ? R end; cbn;
    repeat match goal with R : json_wf ?x = true |- _ => rewrite R; clear R end; done.
Qed.
(** A result of a ticket whose completion is in a store *)
Record result_ok (store : FilesystemArtifactStore) (t : DomainPureWorkTicket) (r : LocalRoundEngineResult) : Prop := {
  u_telemetry : telemetry_ok (telemetry r) /\ WorkerState.t_ticket_id (telemetry r) = ticket_id t;
  u_state : terminal (t_state (telemetry r)) = true /\ (t_state (telemetry r) = COMPLETED <-> is_success r = true);
  u_completion : completion_ok (result_completion r) /\ c_ticket_id (result_completion r) = ticket_id t /\
    ticket_fingerprint t = Ok (c_ticket_fingerprint (result_completion r)) /\
    c_worker_id (result_completion r) = worker_id;
  u_eligible : c_candidate_eligible (result_completion r) = is_success r;
  u_published : exists v, canonical_json_bytes (JObj (completion_to_dict (result_completion r))) = Ok v /\
    store_read StoreOk (result_completion_ref r) store = Ok v /\ locator (result_completion_ref r) = completion_locator t;
  u_document : json_wf (JObj (result_to_dict r)) = true }.

Lemma reported_ok resolved t store f r :
  round_reported resolved t store f -> r = mkResult (PublishedFailed f) t -> result_ok store (r_ticket resolved) r.
Proof.
  intros (a & st & re & code & wall & v & C & S & K & I & V & H & L & M) ->. apply failure_completion_Ok in C as (fp & Fp & [(Q1 & _ & Q2) Q3 _ _ _ _ _] & Kc & _ & _ & El & _).
  assert (D : json_wf (JObj (result_to_dict (mkResult (PublishedFailed f) t))) = true)
    by (apply result_dict_wf; cbn; repeat constructor; [apply (h_media _ _ _ H)|done]).
  constructor; [..|exact D]; clear D; cbn; try done.
  - rewrite S. unfold failed_state. by destruct (bool_decide _).
  - split; [done|]. split; [done|]. split; [congruence|done].
  - exists v. split; [done|]. split; [by apply holds_read|done].
Qed.

Lemma succeeded_ok resolved s p r :
  round_succeeded resolved s p -> r = mkResult (PublishedSuccess p) (e_telemetry s) -> result_ok (e_store s) (r_ticket resolved) r.
Proof.
  intros (a & local & normalized & wall & [[(sv & _ & Sh & _) (lv & _ & Lh & _) (nv & _ & Nh & _) (su & C) (v & V & H & L)] _] & _ & _ & _ & _ & Mc & (K & I & S & _)) ->.
  apply success_completion_Ok in C as (fp & Fp & [(Q1 & _ & Q2) Q3 _ _ _ _ _] & Kc & _ & _ & El & _); [|apply Lh].
  assert (D : json_wf (JObj (result_to_dict (mkResult (PublishedSuccess p) (e_telemetry s)))) = true)
    by (apply result_dict_wf; cbn; repeat constructor; try done; by eapply h_media).
  constructor; [..|exact D]; clear D; cbn; try done.
  - by rewrite S.
  - split; [done|]. split; [done|]. split; [congruence|done].
  - exists v. split; [done|]. split; [by apply holds_read|done].
Qed.

(** A success and a failure cannot both be the completion of a ticket. *)
Lemma outcomes_exclude resolved t store store' f a local normalized wall p :
  store ⊆ store' -> candidate_stored save_tensors store (r_ticket resolved) worker_id (r_parameter_schema resolved) a local normalized wall 0 p ->
  round_reported resolved t store' f -> False.
Proof.
  intros S [[_ (lv & _ & Lh & _ & Lm) _ (su & C) (v & V & H & L)] _] (a' & st & re & code & wall' & v' & C' & _ & _ & _ & V' & H' & L' & _).
  destruct H as [_ [_ F] _ _ _]. rewrite L in F.
  rewrite (completion_bytes_kept _ _ _ v v' (lookup_weaken _ _ _ _ F S) H' L') in V'.
  destruct (completion_bytes_same _ _ v (success_dict_wf _ _ _ _ _ _ _ _ _ (h_ref _ _ _ Lh) Lm C)
              (failure_dict_wf _ _ _ _ _ _ _ _ _ C') V V') as (_ & E & _).
  apply success_completion_eligible in C as (_ & E1 & _); [|apply Lh]. apply failure_completion_ineligible in C' as (_ & E2 & _).
  congruence.
Qed.

Definition attempt_post resolved (s0 : PubState) s' (r : wresult LocalRoundEngineResult) : Prop :=
  p_store s0 ⊆ e_store s' /\
  forall res, r = Ok res ->
    result_ok (e_store s') (r_ticket resolved) res /\ telemetry res = e_telemetry s' /\
    match published res with
    | PublishedSuccess p => round_succeeded resolved s' p
    | PublishedFailed _ => before (r_ticket resolved) s0 (pub s')
    end.

Lemma round_attempt_spec resolved st started logical (s0 : PubState) s :
  config_ok (r_config resolved) -> resolved_ok load_tensors st resolved -> 0 < step_budget (r_ticket resolved) ->
  fresh_ledger (r_ticket resolved) (e_training s) -> reports (r_ticket resolved) RECEIVED 0 s -> e_store s = p_store s0 ->
  wp (round_attempt save_tensors load_tensors worker_id resolved started logical) (attempt_post resolved s0) s.
Proof.
  intros K R P F T E. unfold round_attempt. apply wp_try, wp_bind.
  eapply wp_mono; [by apply (round_body_spec resolved st started logical s0)|]. intros s1 [p|e] (Tr & O & G & H).
  - apply wp_bind, wp_get. apply wp_ret. split; [exact G|]. intros res [= <-]. specialize (H p eq_refl).
    split; [by eapply succeeded_ok|]. split; [done|exact H].
  - eapply wp_mono; [by apply round_failed_spec|]. intros s2 r [B H2].
    split; [etransitivity; [exact G|apply B]|]. intros res Er. destruct (H2 res Er) as (Te & f & Pf & Rf).
    split; [eapply reported_ok; [exact Rf|]; destruct res; cbn in *; congruence|]. split; [exact Te|]. rewrite Pf.
    destruct O as [O|(_ & a & local & normalized & wall & p & Cs)]; [by etransitivity|exfalso].
    eapply outcomes_exclude; [apply B|exact Cs|exact Rf].
Qed.

Lemma start_state_ready resolved l x :
  new_boundary_ledger (JInt (start (data_range (r_ticket resolved)))) (JInt (end_ (data_range (r_ticket resolved)))) = Ok l ->
  fresh_ledger (r_ticket resolved) (e_training (start_state (r_ticket resolved) l x)) /\
  reports (r_ticket resolved) RECEIVED 0 (start_state (r_ticket resolved) l x) /\
  e_store (start_state (r_ticket resolved) l x) = p_store x.
Proof.
  intros E. split; [by exists l|]. split; [|done]. split; [apply new_telemetry_ok|]. done.
Qed.

Definition execute_post resolved (x x' : PubState) (r : wresult LocalRoundEngineResult) : Prop :=
  p_store x ⊆ p_store x' /\
  forall res, r = Ok res -> exists s, pub s = x' /\ attempt_post resolved x s (Ok res).

Lemma execute_round_spec resolved st x :
  config_ok (r_config resolved) -> resolved_ok load_tensors st resolved -> 0 < step_budget (r_ticket resolved) ->
  wp (execute_round save_tensors load_tensors worker_id resolved) (execute_post resolved x) x.
Proof.
  intros K R P. unfold execute_round. cbv zeta. apply wp_bind, wp_lift.
  destruct (new_boundary_ledger _ _) as [l|e] eqn:L; [|by split].
  assert (Ev : forall y (Q : PubState -> wresult Z -> Prop) (f : W -> W * wresult Z),
    (forall w r, Q (mkPub (p_store y) w) r) -> wp (env f) Q y).
  { intros y Q f H. apply wp_intro. intros y' r. unfold env. destruct (f _) as [w z]. by intros [= <- <-]. }
  apply wp_bind, Ev. intros w1 [started|e]; [|by split]. apply wp_bind, Ev. intros w2 [logical|e]; [|by split].
  apply wp_intro. intros x' r. set (y := mkPub (p_store x) w2).
  destruct (start_state_ready resolved l y L) as (F & T & E).
  destruct (round_attempt _ _ _ _ _ _ _) as [s r'] eqn:A. intros [= <- <-].
  pose proof (wp_elim _ _ _ (round_attempt_spec resolved st started logical x _ K R P F T E) _ _ A) as [G H].
  split; [exact G|]. intros res ->. exists s. split; [done|]. by split.
Qed.


(** C18: what a round that returns has done.  For a resolved round, whatever the
    model, the clocks, the fault injector, the store and other processes do: the
    store has only grown, the result's telemetry is that of the ticket in a
    terminal state, and the completion it speaks of is consistent, of this
    ticket and worker, in the store under its locator; a success took exactly
    the steps of the budget, consumed exactly the range of the ticket, recorded
    one metric per step and left its candidate in the store; a failure is not
    eligible and left no candidate. *)
Theorem engine_round_result resolved (st : FilesystemArtifactStore) (x x' : PubState) (res : LocalRoundEngineResult)
    (K : config_ok (r_config resolved)) (R : resolved_ok load_tensors st resolved)
    (P : 0 < step_budget (r_ticket resolved))
    (E : execute_round save_tensors load_tensors worker_id resolved x = (x', Ok res)) :
  p_store x ⊆ p_store x' /\ result_ok (p_store x') (r_ticket resolved) res /\
  match published res with
  | PublishedSuccess p =>
      c_status (completion p) = S_COMPLETED /\ c_effective_steps (completion p) = step_budget (r_ticket resolved) /\
      c_cursor_end (completion p) = end_ (data_range (r_ticket resolved)) /\
      length (t_metrics (telemetry res)) = Z.to_nat (step_budget (r_ticket resolved)) /\
      (exists v, canonical_json_bytes (JObj (candidate_to_dict (candidate p))) = Ok v /\
         p_store x' !! candidate_locator (r_ticket resolved) = Some v)
  | PublishedFailed f =>
      c_candidate_eligible (f_completion f) = false /\
      (undisturbed (W := W) (candidate_locator (r_ticket resolved)) -> p_store x !! candidate_locator (r_ticket resolved) = None ->
       p_store x' !! candidate_locator (r_ticket resolved) = None)
  end.
Proof.
  destruct (wp_elim _ _ _ (execute_round_spec resolved st x K R P) _ _ E) as [G H].
  destruct (H res eq_refl) as (s & <- & [_ H']). destruct (H' res eq_refl) as (Ok' & Te & M).
  split; [exact G|]. split; [exact Ok'|]. destruct Ok' as [_ _ _ El _ _]. unfold result_completion, is_success in El.
  destruct (published res) as [p|f] eqn:Ep.
  - destruct M as (a & local & normalized & wall & [[_ (lv & _ & Lh & _) _ (su & C) _] (cid & v & _ & _ & V & L)] & A1 & _ & A3 & _ & _ & T).
    apply success_completion_Ok in C as (fp & _ & Q & _ & Sc & _); [|apply Lh].
    destruct (q_steps _ _ _ _ _ Q) as [-> _]. destruct (q_cursor _ _ _ _ _ Q) as [-> _].
    split; [exact Sc|]. split; [exact A1|]. split; [exact A3|]. split; [|by exists v].
    destruct T as (_ & _ & _ & T). by rewrite Te.
  - split; [exact El|]. intros U N. destruct M as [_ M]. by rewrite (M U).
Qed.
End Rounds.
