(* ===== verification/EngineSystem.v ===== *)
(** * Engines and the repository

    Many processes run [LocalRoundEngine.run] on one repository and one artifact
    store: the accesses of [claim] and [complete] as in TicketRepository, the
    round between them as in Engine.  Whatever a process returns, its own result
    or the replay of another's, is the document of a round whose completion is
    in the store. *)

From S2P Require Import Prelude PyFloat PyArith Json JsonText WorkerErrors WorkerCanonical WorkerState ArtifactRef WorkTicket TicketRepository ArtifactStore TokenAccounting Updates ParameterSchema Sampler BaselineConfig DeltaSchema LocalRound RoundValidation UpdateWriter PublishProps Engine EngineProps.
From stdpp Require Import relations.
Open Scope string_scope.
Open Scope Z_scope.
Open Scope py_scope.

Section System.
Context {Tensor W : Type} `{!TensorOps Tensor} `{!WorkEnv W} `{!TrainOps W} `{!ModelOps Tensor W}.
Context (save_tensors : odict Tensor -> wresult string) (load_tensors : string -> wresult (odict Tensor)).
Implicit Types (x : @PubState W) (r : TicketResultRepository) (ps : list pc).

Definition system : Type := machine * @PubState W.

(** A round that [resolve_local_round] has accepted *)
Definition round_valid (resolved : @ResolvedLocalRound Tensor) : Prop :=
  config_ok (r_config resolved) /\ 0 < step_budget (r_ticket resolved) /\ exists st, resolved_ok load_tensors st resolved.

(** A round that raises leaves the claim to whoever recovers it, as a crash does. *)
Inductive system_step : system -> system -> Prop :=
| sys_start r ps t rec x :
    system_step ((r, ps), x) ((r, (ps ++ [Claiming t rec])%list), x)
| sys_access r ps n p i r' p' x :
    ps !! n = Some p -> access i p r = (r', p') ->
    system_step ((r, ps), x) ((r', <[n := p']> ps), x)
| sys_round r ps n t fresh worker_id resolved x x' res :
    ps !! n = Some (Executing t fresh) -> r_ticket resolved = t -> round_valid resolved ->
    execute_round save_tensors load_tensors worker_id resolved x = (x', Ok res) ->
    system_step ((r, ps), x) ((r, <[n := Completing t fresh (result_to_dict res)]> ps), x')
| sys_raise r ps n t fresh worker_id resolved x x' e :
    ps !! n = Some (Executing t fresh) -> r_ticket resolved = t -> round_valid resolved ->
    execute_round save_tensors load_tensors worker_id resolved x = (x', Raise e) ->
    system_step ((r, ps), x) ((r, <[n := Crashed]> ps), x')
| sys_crash r ps n x :
    system_step ((r, ps), x) ((r, <[n := Crashed]> ps), x)
| sys_store r ps x st :
    p_store x ⊆ st -> system_step ((r, ps), x) ((r, ps), mkPub st (p_world x)).

Definition system_reachable (s : system) : Prop :=
  exists x, rtc system_step (empty_machine, x) s.

(** ** What a process carries *)

(** The outcome a process has produced itself *)
Definition carried (p : pc) : option (DomainPureWorkTicket * odict json) :=
  match p with
  | Completing t _ o | Linking t _ o _ | Comparing t _ o _ | Completed t _ o => Some (t, o)
  | _ => None
  end.

(** The document of a round whose completion is in the store *)
Definition backed (st : FilesystemArtifactStore) (t : DomainPureWorkTicket) (o : odict json) : Prop :=
  exists worker_id res, o = result_to_dict res /\ result_ok worker_id st t res.

Lemma store_read_mono st st' ref v :
  st ⊆ st' -> store_read StoreOk ref st = Ok v -> store_read StoreOk ref st' = Ok v.
Proof.
  intros S. unfold store_read. destruct (_resolve_locator (locator ref)) as [path|]; [|done]. cbn [rbind].
  destruct (is_root path); [done|]. destruct (st !! path) as [u|] eqn:E; [|done].
  assert (E' : st' !! path = Some u) by (by eapply lookup_weaken). by rewrite E'.
Qed.

Lemma backed_mono st st' t o : st ⊆ st' -> backed st t o -> backed st' t o.
Proof.
  intros S (w & res & -> & [A B C D (v & V & R & L) F]). exists w, res. split; [done|]. constructor; try done.
  exists v. split; [done|]. split; [by eapply store_read_mono|done].
Qed.

(** A result of a ticket is one of every ticket with its id and fingerprint. *)
Lemma backed_same st t u o f :
  ticket_id t = ticket_id u -> ticket_fingerprint t = Ok f -> ticket_fingerprint u = Ok f -> backed st t o -> backed st u o.
Proof.
  intros I Ft Fu (w & res & -> & [[A1 A2] B (C1 & C2 & C3 & C4) D (v & V & R & L) F]). exists w, res. split; [done|].
  constructor; try done; [by rewrite <- I| |].
  - split; [done|]. split; [by rewrite <- I|]. split; [congruence|done].
  - exists v. split; [done|]. split; [done|]. unfold completion_locator in *. by rewrite <- I.
Qed.

Lemma access_carried i p r r' p' t o :
  access i p r = (r', p') -> carried p' = Some (t, o) -> carried p = Some (t, o).
Proof.
  destruct p as [u rec|u rec e|u rec|u f|u f q|u f q e|u f q e|u f q|u q|e|]; cbn [access]; try (by intros [= <- <-]).
  - unfold claim_link. destruct (expected_claim u); [|by intros [= <- <-]].
    destruct (_create_once _ _ _ _) as [c [[]|e]]; by intros [= <- <-].
  - intros [= <- <-]. unfold claim_compare. destruct (read_file _ _ _); [|done]. by destruct (String.eqb _ _).
  - intros [= <- <-]. unfold follow_decision. by destruct (claim_existing i u rec r) as [[[] []]|].
  - intros [= <- <-]. unfold complete_check. destruct i, (claims r !! file_name u); try done.
    by destruct (canonical_json_bytes (JObj q)).
  - unfold complete_link. destruct (_create_once _ _ _ _) as [c [[]|e']]; by intros [= <- <-].
  - intros [= <- <-]. unfold complete_compare. destruct (read_file _ _ _); [|done]. by destruct (String.eqb _ _).
Qed.

Lemma access_outcomes i p r r' p' k text :
  access i p r = (r', p') -> outcomes r' !! k = Some text ->
  outcomes r !! k = Some text \/ exists t f o, p = Linking t f o text /\ k = file_name t.
Proof.
  destruct p as [u rec|u rec e|u rec|u f|u f q|u f q e|u f q e|u f q|u q|e|]; cbn [access];
    try (intros [= <- <-]; by left).
  - unfold claim_link. destruct (expected_claim u); [|intros [= <- <-]; by left].
    destruct (_create_once _ _ _ _) as [c [[]|e]]; intros [= <- <-]; by left.
  - unfold complete_link. destruct (_create_once _ _ _ _) as [d res] eqn:C.
    apply create_once_cases in C as (_ & [->|[_ ->]] & _).
    + destruct res as [[]|e']; intros [= <- <-]; by left.
    + assert (H : <[file_name u := e]> (outcomes r) !! k = Some text ->
        outcomes r !! k = Some text \/ exists t f0 o, Linking u f q e = Linking t f0 o text /\ k = file_name t).
      { intros [[<- <-]|[_ H]]%lookup_insert_Some; [right; by exists u, f, q|by left]. }
      destruct res as [[]|e']; intros [= <- <-]; exact H.
Qed.

(** ** Every reachable system *)

Record system_ok (s : system) : Prop := {
  s_machine : machine_ok s.1;
  s_carried : forall n p t o, s.1.2 !! n = Some p -> carried p = Some (t, o) -> backed (p_store s.2) t o;
  s_outcomes : forall k text, outcomes s.1.1 !! k = Some text ->
    exists t o, k = file_name t /\ claimed s.1.1 t /\ encodes o text /\ backed (p_store s.2) t o }.

Lemma system_store r ps x x' : system_ok ((r, ps), x) -> p_store x ⊆ p_store x' -> system_ok ((r, ps), x').
Proof.
  intros [M C O] S. constructor; [exact M| |].
  - intros n p t o Hn Hc. eapply backed_mono; [exact S|]. by eapply C.
  - intros k text H. destruct (O k text H) as (t & o & E & Cl & En & B). exists t, o.
    split; [done|]. split; [done|]. split; [done|]. by eapply backed_mono.
Qed.

Lemma system_process r ps x n p' :
  system_ok ((r, ps), x) -> machine_ok (r, <[n := p']> ps) ->
  (forall t o, carried p' = Some (t, o) -> backed (p_store x) t o) -> system_ok ((r, <[n := p']> ps), x).
Proof.
  intros [_ C O] M H. constructor; [exact M| |exact O].
  intros k p t o [(<- & -> & _)|(N & Hk)]%list_lookup_insert_Some; [by apply H|by eapply C].
Qed.

Lemma system_step_ok s s' : system_ok s -> system_step s s' -> system_ok s' /\ p_store s.2 ⊆ p_store s'.2.
Proof.
  intros K S. destruct S as [r ps t rec x|r ps n p i r' p' x Hn A|r ps n t f w resolved x x' res Hn T V E|
    r ps n t f w resolved x x' e Hn T V E|r ps n x|r ps x st G].
  - split; [|done]. pose proof K as [M C O]. destruct (machine_step_ok _ _ M (step_start r ps t rec)) as [M' _].
    constructor; [exact M'| |exact O].
    intros n p u o [H|(_ & H)]%lookup_app_Some; [by eapply C|]. by apply list_lookup_singleton_Some in H as [_ <-].
  - split; [|done]. pose proof K as [M C O]. destruct (machine_step_ok _ _ M (step_access r ps n p i r' p' Hn A)) as [M' G].
    constructor; [exact M'| |].
    + intros k q t o [(<- & -> & _)|(N & Hk)]%list_lookup_insert_Some Hc; [|by eapply C].
      eapply C; [exact Hn|]. by eapply access_carried.
    + intros k text H. cbn [fst snd] in *. destruct (access_outcomes _ _ _ _ _ _ _ A H) as [H'|(t & f & o & -> & ->)].
      * destruct (O k text H') as (t & o & E & Cl & En & B). exists t, o. split; [done|]. split; [by eapply claimed_mono|done].
      * destruct (m_pcs _ M n _ Hn) as [Bd En]. exists t, o. split; [done|].
        split; [eapply claimed_mono; [exact G|by apply Bd]|]. split; [exact En|]. by eapply C.
  - destruct V as (Kc & P & st & R). rewrite <- T in *.
    destruct (wp_elim _ _ _ (execute_round_spec save_tensors load_tensors w resolved st x Kc R P) _ _ E) as [G H].
    split; [|exact G]. destruct (H res eq_refl) as (s & <- & [_ H']). destruct (H' res eq_refl) as [Ro _].
    pose proof (s_machine _ K) as M. apply system_process; [by eapply system_store| |].
    + apply (machine_step_ok _ _ M). apply (step_round r ps n _ f _ Hn). by eapply u_document.
    + intros t' o [= <- <-]. by exists w, res.
  - destruct V as (Kc & P & st & R).
    destruct (wp_elim _ _ _ (execute_round_spec save_tensors load_tensors w resolved st x Kc R P) _ _ E) as [G _].
    split; [|exact G]. apply system_process; [by eapply system_store| |done].
    apply (machine_step_ok _ _ (s_machine _ K)). apply step_crash.
  - split; [|done]. apply system_process; [done| |done]. apply (machine_step_ok _ _ (s_machine _ K)). apply step_crash.
  - split; [by eapply system_store|done].
Qed.

Lemma system_steps_ok s s' : system_ok s -> rtc system_step s s' -> system_ok s' /\ p_store s.2 ⊆ p_store s'.2.
Proof.
  intros K S. induction S as [s|s s1 s2 H S IH]; [done|].
  apply system_step_ok in H as [K1 G1]; [|done]. destruct (IH K1) as [K2 G2]. split; [done|]. by etransitivity.
Qed.

Lemma empty_system_ok x : system_ok (empty_machine, x).
Proof. constructor; cbn; [apply empty_machine_ok|done|done]. Qed.

(** C4: whatever the interleaving of processes, accesses that fail, crashes and
    rounds that raise, every result a process returns for a ticket, its own or
    one replayed, is the document of a round of that ticket: its telemetry has
    ended, and the completion it speaks of has the ticket's id and fingerprint
    and is in the store, now and ever after, under the ticket's locator. *)
Theorem engine_outcomes_published (r r' : TicketResultRepository) (ps ps' : list pc) x x' (n : nat) (p : pc)
    (t : DomainPureWorkTicket) (j : json)
    (R : system_reachable ((r, ps), x)) (Hn : ps !! n = Some p) (Hr : result_of p = Some (t, j))
    (S : rtc system_step ((r, ps), x) ((r', ps'), x')) :
  exists worker_id res, j = sort_keys (JObj (result_to_dict res)) /\ result_ok worker_id (p_store x) t res /\
    result_ok worker_id (p_store x') t res.
Proof.
  destruct R as [x0 R]. destruct (system_steps_ok _ _ (empty_system_ok x0) R) as [K _].
  destruct (system_steps_ok _ _ K S) as [_ G]. cbn [snd] in G.
  assert (B : exists o, j = sort_keys (JObj o) /\ backed (p_store x) t o).
  { pose proof (m_pcs _ (s_machine _ K) n p Hn) as [Bd Pp]. cbn [fst] in Bd, Pp.
    destruct p; try done; injection Hr as -> <-.
    - eexists. split; [reflexivity|]. by eapply (s_carried _ K).
    - destruct Pp as (text & L & E). destruct (s_outcomes _ K _ _ L) as (u & o & Fn & Cu & [Wf En] & B).
      exists o. rewrite (canonical_json_bytes_loads _ _ true Wf En) in E. injection E as <-. split; [done|].
      destruct (Bd t eq_refl) as (a & A & Ca). destruct Cu as (b & Eb & Cb). cbn [fst] in Cb.
      rewrite <- Fn, Ca in Cb. injection Cb as <-. destruct (expected_claim_binds _ _ _ A Eb) as (f & Ft & Fu).
      eapply backed_same; [|exact Fu|exact Ft|exact B]. symmetry. by apply file_name_inj. }
  destruct B as (o & -> & B). pose proof (backed_mono _ _ _ _ G B) as B'.
  destruct B as (w & res & -> & Ro). exists w, res. split; [done|]. split; [exact Ro|].
  destruct Ro as [A1 A2 A3 A4 (v & V & Rd & L) A6]. constructor; try done. exists v. split; [done|].
  split; [by eapply store_read_mono|done].
Qed.
End System.
