(* ===== verification/EngineWitness.v ===== *)
(** * A round of toy tensors

    One parameter whose value the training decreases by one per micro-batch, a
    table for the tensor artifacts, a world that is that value.  The properties of
    publications, rounds and systems at a concrete round, and what happens when
    the worker crashes at each stage of the publication. *)

From S2P Require Import Prelude PyFloat PyArith Json JsonText Text Sha256 WorkerErrors WorkerCanonical WorkerState ArtifactRef WorkTicket TicketRepository ArtifactStore TokenAccounting Updates ParameterSchema Sampler BaselineConfig DeltaSchema LocalRound RoundValidation UpdateWriter PublishProps Engine EngineProps EngineSystem.
From stdpp Require Import relations.
Open Scope string_scope.
Open Scope Z_scope.
Open Scope py_scope.

#[local] Opaque sha256_bytes.

#[export] Instance toy_eq_dec : EqDecision toy.
Proof. solve_decision. Defined.

(** Every access succeeds, nobody else publishes, the clocks stand still; the
    fault injector crashes at one stage. *)
Definition toy_env (crash : string) : WorkEnv Z := {|
  next_io := fun w => (w, StoreOk);
  others := fun _ s => s;
  others_grow := fun _ s => reflexivity s;
  inject := fun stage w => (w, if String.eqb stage crash then Raise WorkerInjectedCrash else Ok tt);
  clock_ns := fun w => (w, 5000000);
  logical_clock_ms := fun w => (w, 7);
  cancellation_requested := fun w => (w, false) |}.

#[export] Instance calm : WorkEnv Z := toy_env "none".

#[export] Instance toy_model : ModelOps toy Z := {
  create_model := fun _ w => (w, Ok tt);
  model_of := fun w => [("tied", mkParameter 1 true (mkToy [2] w)); ("embed", mkParameter 1 true (mkToy [2] w));
                        ("head", mkParameter 2 false (mkToy [2; 3] 4))];
  copy_parameter := fun _ t _ => (toy_value t, Ok tt) }.

Definition toy_bundle (v : Z) : odict toy := [("embed", mkToy [2] v)].

Definition toy_save (ts : odict toy) : wresult string :=
  if bool_decide (ts = toy_bundle 8) then Ok "local" else
  if bool_decide (ts = toy_bundle 2) then Ok "normalized" else Raise WValueError.

Definition toy_loads (bytes : string) : wresult (odict toy) :=
  if String.eqb bytes "local" then Ok (toy_bundle 8) else
  if String.eqb bytes "normalized" then Ok (toy_bundle 2) else toy_load bytes.

Lemma toy_codec : codec_law toy_save toy_loads.
Proof.
  intros ts bytes. unfold toy_save. case_bool_decide as A; [|case_bool_decide as B; [|done]]; intros [= <-]; subst ts;
    (eexists; split; [reflexivity|done]).
Qed.

Lemma toy_equal : equal_law (Tensor := toy).
Proof. intros t _. cbn. apply Z.eqb_refl. Qed.

Lemma toy_schema_ok : schema_ok toy_schema.
Proof.
  destruct (schema_from_dict (schema_to_dict toy_schema)) as [s|e] eqn:E; [|vm_compute in E; discriminate E].
  assert (C : match schema_from_dict (schema_to_dict toy_schema) with Ok s => s = toy_schema | _ => False end) by (vm_compute; reflexivity).
  rewrite E in C. subst s. by eapply schema_from_dict_ok.
Qed.

(** ** A publication *)

Definition toy_accounting : TokenAccountingRecord := mkAccounting 4 8 8 16 0 16 0.

Definition start_store : @PubState Z := mkPub round_store 0.

Abbreviation publish_demo := (publish_success toy_save round_ticket "worker-1" toy_schema toy_accounting (toy_bundle 8)
  (toy_bundle 2) default_limits 5 0 start_store).

Definition is_ok {S A} (x : S * wresult A) : bool := match x.2 with Ok _ => true | Raise _ => false end.

Lemma ran {S A} (x : S * wresult A) s r : x = (s, r) -> is_ok x = true -> exists a, r = Ok a.
Proof. intros ->. destruct r as [a|e]; [by exists a|done]. Qed.

(** The publication returned and its candidate is in the store. *)
Definition publish_facts (x : @PubState Z * wresult PublishedLocalRound) : bool :=
  is_ok x && match p_store x.1 !! candidate_locator round_ticket with Some _ => true | None => false end.

Lemma publish_facts_ok x :
  publish_facts x = true -> is_ok x = true /\ exists v, p_store x.1 !! candidate_locator round_ticket = Some v.
Proof. intros [A B]%andb_prop. destruct (p_store x.1 !! _) as [v|]; [|done]. split; [done|by exists v]. Qed.

Lemma publish_demo_facts : publish_facts publish_demo = true.
Proof. vm_compute. reflexivity. Qed.

Lemma toy_ceilings : exists c, ceilings default_limits = Ok c /\
  normalize_local_delta (toy_bundle 8) toy_schema (JInt (r_effective_steps toy_accounting)) (JInt (step_budget round_ticket)) c.1 c.2
  = Ok (toy_bundle 2).
Proof.
  destruct (ceilings default_limits) as [c|e] eqn:E; [|vm_compute in E; discriminate E]. exists c. split; [done|].
  vm_compute in E. injection E as <-. vm_compute. reflexivity.
Qed.

Lemma published_round_verifies_witness :
  exists s1 p, publish_demo = (s1, Ok p) /\ (verify_success toy_loads p round_ticket toy_schema default_limits s1).2 = Ok tt.
Proof.
  destruct publish_demo as [s1 r] eqn:E. destruct (ran _ _ _ E (proj1 (publish_facts_ok _ publish_demo_facts))) as (p & ->). exists s1, p. split; [reflexivity|].
  destruct toy_ceilings as (c & L & N).
  refine (proj1 (published_round_verifies toy_save toy_loads round_ticket "worker-1" toy_schema toy_accounting (toy_bundle 8)
    (toy_bundle 2) default_limits c 5 0 start_store s1 s1 p toy_codec toy_equal toy_schema_ok L N E (reflexivity _)) _).
  intros w. reflexivity.
Defined.

Lemma candidate_published_last_witness :
  exists s1 r v, publish_demo = (s1, r) /\ p_store s1 !! candidate_locator round_ticket = Some v /\
    exists p, canonical_json_bytes (JObj (candidate_to_dict (candidate p))) = Ok v /\
      completion_fingerprint (completion p) = Ok (n_completion_id (candidate p)).
Proof.
  destruct (publish_facts_ok _ publish_demo_facts) as [_ (v & V)].
  destruct publish_demo as [s1 r] eqn:E. cbn [fst] in V.
  exists s1, r, v. split; [reflexivity|]. split; [exact V|].
  assert (U : undisturbed (W := Z) (candidate_locator round_ticket)) by (intros w st; reflexivity).
  assert (A : p_store start_store !! candidate_locator round_ticket = None) by (vm_compute; reflexivity).
  destruct (candidate_published_last toy_save round_ticket "worker-1" toy_schema toy_accounting (toy_bundle 8)
    (toy_bundle 2) default_limits 5 0 start_store s1 r v U A E V) as (p & H1 & H2 & _).
  exists p. exact (conj H1 H2).
Defined.

(** ** A whole round *)

Abbreviation resolve_round :=
  (resolve_local_round toy_loads StoreOk StoreOk StoreOk round_ticket round_config toy_schema round_tokenizer_ref
    round_store None).

(** The round with a crash at one stage *)
Definition round_of (crash : string) (r : wresult (@ResolvedLocalRound toy)) : @PubState Z * wresult LocalRoundEngineResult :=
  match r with
  | Ok resolved => execute_round (WorkEnv0 := toy_env crash) toy_save toy_loads "worker-1" resolved start_store
  | Raise e => (start_store, Raise e)
  end.
Definition round_with (crash : string) : @PubState Z * wresult LocalRoundEngineResult := round_of crash resolve_round.

Definition states_of (r : wresult LocalRoundEngineResult) : list LocalRoundState :=
  match r with Ok res => e_state <$> t_events (telemetry res) | Raise _ => [] end.

(** A crash while training ends in a completion that reports it. *)
Example crash_while_training :
  let r := round_with "AFTER_OPTIMIZER_STEP" in
  (states_of r.2, match r.2 with Ok res => c_failure_code (result_completion res) | _ => None end)
  = ([RECEIVED; ACCEPTED; RUNNING; FAILED], Some "WORKER_CRASH").
Proof. vm_compute. reflexivity. Qed.

(** A crash after the completion has been published cannot be reported: the
    failure's completion is refused at the locator. *)
Lemma crash_after_completion :
  (round_with "AFTER_COMPLETION_MANIFEST").2
  = Raise (DeltaError ARTIFACT_IMMUTABLE_CONFLICT "immutable artifact locator already contains different bytes").
Proof. vm_compute. reflexivity. Qed.

Lemma round_config_ok : config_ok round_config.
Proof.
  destruct (config_from_mapping (od_set "vocab_size" (JInt 3) demo_config)) as [c|] eqn:E; [|vm_compute in E; discriminate].
  unfold config_from_mapping in E. apply rbind_unit_Ok in E as (_ & E). apply type_error_as_Ok in E.
  apply new_config_ok in E as [K ->]. exact K.
Qed.

Definition result_text (r : wresult LocalRoundEngineResult) : option string :=
  match r with
  | Ok res => match canonical_json_bytes (JObj (result_to_dict res)) with Ok text => Some text | Raise _ => None end
  | Raise _ => None
  end.

(** The round returns, and its result and the claim of its ticket are printed. *)
Definition round_facts (x : @PubState Z * wresult LocalRoundEngineResult) : bool :=
  match result_text x.2, expected_claim round_ticket with Some _, Ok _ => true | _, _ => false end.

Lemma round_documents : round_facts (round_with "none") = true.
Proof. vm_compute. reflexivity. Qed.

Lemma round_facts_ok x : round_facts x = true -> is_ok x = true.
Proof. by destruct x as [s [r|e]]. Qed.

Lemma resolved_ticket r : resolve_round = Ok r -> r_ticket r = round_ticket /\ r_config r = round_config.
Proof.
  unfold resolve_local_round. intros (_ & H)%rbind_unit_Ok. apply rbind_Ok in H as (t & _ & H).
  apply rbind_Ok in H as (s & _ & H). apply rbind_Ok in H as (p & _ & H). by injection H as <-.
Qed.

Lemma round_is_valid r : resolve_round = Ok r -> round_valid toy_loads r.
Proof.
  intros E. destruct (resolved_ticket r E) as [T C]. split; [rewrite C; apply round_config_ok|]. split; [by rewrite T|].
  exists round_store. by eapply resolve_ok.
Qed.

Lemma engine_round_result_witness :
  exists resolved x res, resolve_round = Ok resolved /\
    execute_round toy_save toy_loads "worker-1" resolved start_store = (x, Ok res) /\
    result_ok "worker-1" (p_store x) (r_ticket resolved) res.
Proof.
  pose proof (round_facts_ok _ round_documents) as C. unfold round_with in C. unfold round_of in C. destruct resolve_round as [resolved|e] eqn:E; [|discriminate C].
  destruct (execute_round (WorkEnv0 := toy_env "none") toy_save toy_loads "worker-1" resolved start_store) as [x r] eqn:X.
  destruct (ran _ _ _ eq_refl C) as (res & ->). exists resolved, x, res. split; [reflexivity|]. split; [exact X|].
  destruct (round_is_valid resolved E) as (K & P & st & R).
  exact (proj1 (proj2 (engine_round_result toy_save toy_loads "worker-1" resolved st start_store x res K R P X))).
Defined.

Lemma completion_published_once_witness :
  exists s1 p v, publish_demo = (s1, Ok p) /\ p_store s1 !! completion_locator round_ticket = Some v /\
    forall s2 q, publish_success toy_save round_ticket "worker-2" toy_schema toy_accounting (toy_bundle 8) (toy_bundle 2)
                   default_limits 5 0 s1 <> (s2, Ok q).
Proof.
  destruct publish_demo as [s1 r] eqn:E. destruct (ran _ _ _ E (proj1 (publish_facts_ok _ publish_demo_facts))) as (p & ->).
  destruct (wp_elim _ _ _ (publish_success_spec toy_save round_ticket "worker-1" toy_schema toy_accounting (toy_bundle 8)
    (toy_bundle 2) default_limits 5 0 start_store) _ _ E) as [_ [[[_ (lv & _ & Lh & _ & Lm) _ (su & C) (v & V & H & L)] _] _]].
  exists s1, p, v. split; [reflexivity|]. assert (F : p_store s1 !! completion_locator round_ticket = Some v)
    by (rewrite <- L; apply H). split; [exact F|]. intros s2 q Q.
  pose proof (success_dict_wf _ _ _ _ _ _ _ _ _ (h_ref _ _ _ Lh) Lm C) as Wc.
  destruct (proj1 (completion_published_once toy_save round_ticket (completion p) v s1 Wc V F)
    _ _ _ _ _ _ _ _ _ _ Q) as (X & _).
  apply success_completion_eligible in C as (X' & _); [|apply Lh]. rewrite X' in X. discriminate X.
Defined.

(** ** A system of one process *)

(** A process that claims the ticket, runs the round and completes it *)
Lemma round_completes resolved x res text claim :
  round_valid toy_loads resolved -> expected_claim (r_ticket resolved) = Ok claim ->
  execute_round toy_save toy_loads "worker-1" resolved start_store = (x, Ok res) ->
  canonical_json_bytes (JObj (result_to_dict res)) = Ok text ->
  exists r, rtc (system_step toy_save toy_loads) (empty_machine, start_store)
              ((r, [Completed (r_ticket resolved) true (result_to_dict res)]), x).
Proof.
  intros V C E T. set (t := r_ticket resolved). set (o := result_to_dict res).
  set (r1 := mkRepository {[file_name t := claim]} ∅).
  exists (mkRepository {[file_name t := claim]} {[file_name t := text]}).
  eapply rtc_l; [apply (sys_start _ _ _ [] t true)|]. cbn [app].
  eapply rtc_l; [apply (sys_access _ _ _ _ 0 (Claiming t true) IoOk r1 (Executing t true)); [done|]|].
  { cbn [access]. unfold claim_link. fold t in C. by rewrite C. }
  eapply rtc_l; [by apply (sys_round _ _ _ _ 0 t true "worker-1" resolved start_store x res)|].
  eapply rtc_l; [apply (sys_access _ _ _ _ 0 (Completing t true o) IoOk r1 (Linking t true o text)); [done|]|].
  { cbn [access]. unfold complete_check. assert (K : claims r1 !! file_name t = Some claim) by apply lookup_singleton_eq.
    rewrite K. fold o in T. by rewrite T. }
  eapply rtc_l; [apply (sys_access _ _ _ _ 0 (Linking t true o text) IoOk
    (mkRepository {[file_name t := claim]} {[file_name t := text]}) (Completed t true o)); done|].
  apply rtc_refl.
Qed.

Lemma engine_outcomes_published_witness :
  exists r ps x p t j, system_reachable (W := Z) toy_save toy_loads ((r, ps), x) /\ ps !! 0%nat = Some p /\
    result_of p = Some (t, j) /\
    exists worker_id res, j = sort_keys (JObj (result_to_dict res)) /\ result_ok worker_id (p_store x) t res.
Proof.
  pose proof (round_facts_ok _ round_documents) as C. pose proof round_documents as D. unfold round_with in C, D. unfold round_of in C, D.
  destruct resolve_round as [resolved|e] eqn:E; [|discriminate C].
  destruct (execute_round (WorkEnv0 := toy_env "none") toy_save toy_loads "worker-1" resolved start_store) as [x r] eqn:X.
  destruct (ran _ _ _ eq_refl C) as (res & ->). unfold round_facts, result_text in D. cbn [snd] in D.
  destruct (canonical_json_bytes (JObj (result_to_dict res))) as [text|e] eqn:T; [|discriminate D].
  destruct (expected_claim round_ticket) as [claim|e] eqn:Ec; [|discriminate D].
  rewrite <- (proj1 (resolved_ticket resolved E)) in Ec.
  destruct (round_completes resolved x res text claim (round_is_valid resolved E) Ec X T) as (r & S).
  assert (R : system_reachable (W := Z) toy_save toy_loads ((r, [Completed (r_ticket resolved) true (result_to_dict res)]), x))
    by (exists start_store; exact S).
  eexists r, _, x, _, _, _. split; [exact R|]. split; [reflexivity|]. split; [reflexivity|].
  destruct (engine_outcomes_published toy_save toy_loads r r _ _ x x 0%nat _ _ _ R eq_refl eq_refl (rtc_refl _ _))
    as (w & res' & J & K & _).
  exists w, res'. exact (conj J K).
Defined.
