(* ===== verification/LiveCrypto.v ===== *)
(** * RFC 8785 and Ed25519 in the worker process
    ([deltatorrent/live_execution/errors.py] and [crypto.py])

    The exceptions of the worker process, with the adapter errors' fields.
    The worker's own canonicalizer, with the number format of ECMAScript, the
    digests it recomputes and its Ed25519 verification.  The theorems: the number
    format is the one of ECMA-262; the bytes are those of the controller's
    canonicalizer on every document without a float; a verified signature has a
    canonical scalar. *)

From Stdlib Require Import Zpow_facts.
From S2P Require Import Prelude PyFloat Json JsonText Text Sha256 Sha512 Errors Canonical WorkerCanonical.
Open Scope string_scope.
Open Scope py_scope.

(** The subclasses of [WorkerAdapterError] *)
Inductive adapter_class := PreflightClass | DispatchClass | TimeoutClass | CancelledClass.

#[export] Instance adapter_class_eq_dec : EqDecision adapter_class.
Proof. solve_decision. Defined.

Record WorkerAdapterError := mkAdapterError {
  ae_class : adapter_class;
  ae_code : string;
  ae_message : string;
  ae_category : string;
  ae_retryable : bool }.

#[export] Instance WorkerAdapterError_eq_dec : EqDecision WorkerAdapterError.
Proof. solve_decision. Defined.

Inductive live_exn :=
| AdapterErr (e : WorkerAdapterError)
| ProtocolErr (message : string)
| RunnerErr (message : string)
| PluginRegistryErr (message : string)
| DatasetRegistryErr (message : string)
| CompatibilityErr (message : string)
| LValueError
| LTypeError
| LAttributeError
| LKeyError
| LOSError
| LOther (name : string).

#[export] Instance live_exn_eq_dec : EqDecision live_exn.
Proof. solve_decision. Defined.

Abbreviation lresult := (result live_exn).

(** [WorkerAdapterError.__init__] with its defaults, and the constructors of the
    subclasses *)
Definition WorkerPreflightError (code message : string) : live_exn :=
  AdapterErr (mkAdapterError PreflightClass code message "WORKER" false).
Definition WorkerDispatchError (code message : string) : live_exn :=
  AdapterErr (mkAdapterError DispatchClass code message "WORKER" false).
Definition WorkerTimeoutError (message : string) : live_exn :=
  AdapterErr (mkAdapterError TimeoutClass "ERR_TIMEOUT" message "WORKER" true).
Definition WorkerCancelledError (message : string) : live_exn :=
  AdapterErr (mkAdapterError CancelledClass "ERR_CANCELLED" message "WORKER" false).

(** [isinstance(e, ValueError)]: the protocol, runner, registry and
    compatibility errors are subclasses of it, as are the decoding and encoding
    errors of the language. *)
Definition is_value_error (e : live_exn) : bool :=
  match e with
  | ProtocolErr _ | RunnerErr _ | PluginRegistryErr _ | DatasetRegistryErr _ | CompatibilityErr _ | LValueError => true
  | _ => false
  end.

(** ** The canonicalizer and the signatures of the worker process *)

Open Scope Z_scope.

(** ** Numbers *)

(** [s.split(c)] for a text with at most one [c] *)
Fixpoint split_char (c : ascii) (s : string) : string * option string :=
  match s with
  | EmptyString => (EmptyString, None)
  | String a r =>
      if ch_eq a c then (EmptyString, Some r)
      else let '(p, q) := split_char c r in (String a p, q)
  end.

(** [s.lstrip("0")], [s.rstrip("0")] *)
Fixpoint lstrip_zeros (s : string) : string :=
  match s with
  | String a r => if ch_eq a "0"%char then lstrip_zeros r else s
  | EmptyString => EmptyString
  end.
Definition rstrip_zeros (s : string) : string := str_rev (lstrip_zeros (str_rev s)).

(** [int(s)] for a text of an optional sign and digits *)
Definition int_of_text (s : string) : Z :=
  match s with
  | String c r => if ch_eq c "-"%char then - digits_val r else if ch_eq c "+"%char then digits_val r else digits_val s
  | EmptyString => 0
  end.

Definition slen (s : string) : Z := Z.of_nat (String.length s).

(** The text of [digits * 10^(n - k)], [k] the number of digits *)
Definition ecma_digits (digits : string) (n : Z) : string :=
  let k := slen digits in
  if (k <=? n) && (n <=? 21) then digits +:+ zeros (Z.to_nat (n - k))
  else if (0 <? n) && (n <=? 21) then str_take (Z.to_nat n) digits +:+ "." +:+ str_drop (Z.to_nat n) digits
  else if (-6 <? n) && (n <=? 0) then "0." +:+ zeros (Z.to_nat (- n)) +:+ digits
  else
    let exp_val := n - 1 in
    let exp_str := "e" +:+ (if 0 <=? exp_val then "+" else "-") +:+ str_of_int (Z.abs exp_val) in
    if k =? 1 then digits +:+ exp_str
    else str_take 1 digits +:+ "." +:+ str_drop 1 digits +:+ exp_str.

(** The digits of [repr(value)] and the position of its point *)
Definition repr_digits (s_rep : string) : string * Z :=
  let '(significand, expo) := split_char "e"%char s_rep in
  let exp := match expo with Some x => int_of_text x | None => 0 end in
  let '(int_part, frac) := split_char "."%char significand in
  let '(digits, dec_places) :=
    match frac with Some f => (int_part +:+ f, slen f) | None => (significand, 0) end in
  let digits := lstrip_zeros digits in
  let trimmed := rstrip_zeros digits in
  let dec_places := dec_places - (slen digits - slen trimmed) in
  (trimmed, exp - dec_places + slen trimmed).

Definition _number_to_jcs (value : pyfloat) : lresult string :=
  match value with
  | FNan | FInf _ => Raise LValueError
  | FFin neg d e =>
      if d =? 0 then Ok "0"
      else
        let '(digits, n) := repr_digits (repr_float (FFin false d e)) in
        let text := if String.eqb digits EmptyString then "0" else ecma_digits digits n in
        Ok (if neg then "-" +:+ text else text)
  end.

(** ** Documents *)

Definition sort_pieces (o : list (string * string)) : lresult (list string) :=
  if keys_ok o then Ok (map (fun x => x.2.2) (sort_items (map with_units o))) else Raise LValueError.

Fixpoint jcs_dumps (obj : json) : lresult string :=
  match obj with
  | JNull => Ok "null"
  | JBool b => Ok (if b then "true" else "false")
  | JStr s => Ok (quote s)
  | JInt z => Ok (str_of_int z)
  | JFloat f => _number_to_jcs f
  | JArr l =>
      let? items := (fix go l : lresult (list string) :=
                       match l with
                       | [] => Ok []
                       | x :: r => let? t := jcs_dumps x in let? r' := go r in Ok (t :: r')
                       end) l in
      Ok ("[" +:+ join "," items +:+ "]")
  | JObj o =>
      let? pieces := (fix go o : lresult (list (string * string)) :=
                        match o with
                        | [] => Ok []
                        | (k, v) :: r =>
                            let? t := jcs_dumps v in let? r' := go r in Ok ((k, quote k +:+ ":" +:+ t) :: r')
                        end) o in
      let? sorted := sort_pieces pieces in
      Ok ("{" +:+ join "," sorted +:+ "}")
  end.

Definition jcs_bytes (obj : json) : lresult string :=
  let? text := jcs_dumps obj in
  require (encodable text) LValueError ;?
  Ok text.

Definition sha256_prefixed (data : string) : string := "sha256:" +:+ sha256_hex data.

(** ** Digests *)

Definition verify_intent_digest (intent : odict json) : lresult bool :=
  let declared := jget "intent_digest" intent in
  if negb (truthy declared) then Ok false
  else
    let? bytes := jcs_bytes (JObj (od_pop "intent_digest" intent)) in
    Ok (py_eq declared (JStr (sha256_prefixed bytes))).

Definition verify_admission_digest (admission : odict json) : lresult bool :=
  let declared := jget "admission_digest" admission in
  if negb (truthy declared) then Ok false
  else
    let? bytes := jcs_bytes (JObj (od_pop "authenticator" (od_pop "admission_digest" admission))) in
    Ok (py_eq declared (JStr (sha256_prefixed bytes))).

(** ** Ed25519 over the integers modulo [_P] *)

Definition _P : Z := 2 ^ 255 - 19.
Definition pow_mod (a e m : Z) : Z := Zpow_mod a e m.
Definition _D : Z := (-121665 * pow_mod 121666 (_P - 2) _P) mod _P.
Definition _Q : Z := 2 ^ 252 + 27742317777372353535851937790883648493.
Definition _I : Z := pow_mod 2 ((_P - 1) / 4) _P.

Definition _inv (z : Z) : Z := pow_mod z (_P - 2) _P.

Definition _xrecover (y : Z) : Z :=
  let xx := (y * y - 1) * _inv (_D * y * y + 1) in
  let x := pow_mod xx ((_P + 3) / 8) _P in
  let x := if negb ((x * x - xx) mod _P =? 0) then (x * _I) mod _P else x in
  if negb (x mod 2 =? 0) then _P - x else x.

Definition _BY : Z := (4 * _inv 5) mod _P.
Definition _BX : Z := _xrecover _BY.
Definition _B : Z * Z := (_BX, _BY).

Definition _edwards_add (P Q : Z * Z) : Z * Z :=
  let '(x1, y1) := P in
  let '(x2, y2) := Q in
  let x3 := ((x1 * y2 + x2 * y1) * _inv (1 + _D * x1 * x2 * y1 * y2)) mod _P in
  let y3 := ((y1 * y2 + x1 * x2) * _inv (1 - _D * x1 * x2 * y1 * y2)) mod _P in
  (x3, y3).

(** The recursion on [e // 2], for a non-negative [e] *)
Fixpoint scalarmult_pos (P : Z * Z) (e : positive) : Z * Z :=
  match e with
  | xH => let Q := _edwards_add (0, 1) (0, 1) in _edwards_add Q P
  | xO k => let Q := scalarmult_pos P k in _edwards_add Q Q
  | xI k => let Q := scalarmult_pos P k in _edwards_add (_edwards_add Q Q) P
  end.
Definition _scalarmult (P : Z * Z) (e : N) : Z * Z :=
  match e with N0 => (0, 1) | Npos k => scalarmult_pos P k end.

(** [int.from_bytes(s, "little")] *)
Definition from_little (bs : list Z) : Z := fold_right (fun b a => b + 256 * a) 0 bs.

Definition _decodepoint (s : list Z) : Z * Z :=
  let y := from_little (take 32 s) in
  let clamp := Z.land y (Z.shiftl 1 255 - 1) in
  let x := _xrecover clamp in
  let x := if negb (Z.land x 1 =? Z.shiftr y 255) then _P - x else x in
  (x, clamp).

Definition verify_ed25519 (public_key_bytes msg sig_bytes : string) : bool :=
  if negb (String.length public_key_bytes =? 32)%nat || negb (String.length sig_bytes =? 64)%nat then false
  else
    let r_raw := take 32 (bytes_of sig_bytes) in
    let s_val := from_little (drop 32 (bytes_of sig_bytes)) in
    if _Q <=? s_val then false
    else
      let pt_a := _decodepoint (bytes_of public_key_bytes) in
      let pt_r := _decodepoint r_raw in
      let h := sha512_bytes (r_raw ++ bytes_of public_key_bytes ++ bytes_of msg)%list in
      let k := from_little h mod _Q in
      let sb := _scalarmult _B (Z.to_N s_val) in
      let rak := _edwards_add pt_r (_scalarmult pt_a (Z.to_N k)) in
      bool_decide (sb = rak).

(** ** The signature of an admission *)

Definition unsigned_admission (admission : odict json) : odict json :=
  match od_get "authenticator" admission with
  | Some (JObj auth) => od_set "authenticator" (JObj (od_pop "signature" auth)) admission
  | _ => admission
  end.

Definition verify_admission_signature (admission : odict json) (trusted_pubkey_hex : string) : lresult bool :=
  match od_get "authenticator" admission with
  | Some (JObj auth) =>
      match od_get "signature" auth with
      | Some (JStr sig_hex) =>
          match from_hex sig_hex, from_hex trusted_pubkey_hex with
          | Some sig_bytes, Some pub_bytes =>
              let? msg_bytes := jcs_bytes (JObj (unsigned_admission admission)) in
              Ok (verify_ed25519 pub_bytes msg_bytes sig_bytes)
          | _, _ => Ok false
          end
      | _ => Ok false
      end
  | _ => Ok false
  end.

(** ** Examples of RFC 8785 *)

Example number_texts :
  map _number_to_jcs [FFin false 1 21; FFin false 1 30; FFin false 3333333333333333 (-7); FFin false 45 (-1);
                      FFin true 2 (-3); FFin false 1 (-27); FFin false 1 0; FFin true 0 0; FFin false 1 20;
                      FFin false 123 (-8); FFin false 123 (-9)]
  = map Ok ["1e+21"; "1e+30"; "333333333.3333333"; "4.5"; "-0.002"; "1e-27"; "1"; "0"; "100000000000000000000";
            "0.00000123"; "1.23e-7"].
Proof. vm_compute. reflexivity. Qed.

(** The controller prints this document as [[1.0]], the worker as [[1]]. *)
Example integral_float_differs :
  (canonicalize_jcs (JArr [JFloat (FFin false 1 0)]), jcs_bytes (JArr [JFloat (FFin false 1 0)])) = (Ok "[1.0]", Ok "[1]").
Proof. vm_compute. reflexivity. Qed.

(** ** Equations of [jcs_dumps] *)

Definition piece (kv : string * json) : lresult (string * string) :=
  let? t := jcs_dumps kv.2 in Ok (kv.1, quote kv.1 +:+ ":" +:+ t).

Lemma jcs_dumps_obj o :
  jcs_dumps (JObj o) =
  let? pieces := rmap piece o in let? sorted := sort_pieces pieces in Ok ("{" +:+ join "," sorted +:+ "}").
Proof.
  cbn [jcs_dumps]. f_equal. induction o as [|[k v] o IH]; [done|]. cbn [rmap]. rewrite IH.
  change (piece (k, v)) with (let? t := jcs_dumps v in Ok (k, quote k +:+ ":" +:+ t)).
  by destruct (jcs_dumps v).
Qed.

Lemma jcs_dumps_arr l :
  jcs_dumps (JArr l) = let? items := rmap jcs_dumps l in Ok ("[" +:+ join "," items +:+ "]").
Proof. cbn [jcs_dumps]. f_equal. induction l as [|x l IH]; [done|]. cbn [rmap]. by rewrite IH. Qed.

(** ** The same bytes as the controller's canonicalizer *)

(** Sorting looks at keys only. *)
Lemma sort_items_map {V W} (f : string * V -> string * W) l :
  (forall kv, (f kv).1 = kv.1) ->
  sort_items (map with_units (map f l)) = map (fun x => (x.1, f x.2)) (sort_items (map with_units l)).
Proof.
  intros K. unfold sort_items. induction l as [|kv l IH]; [done|]. cbn [map fold_right]. rewrite IH.
  assert (I : forall x l, insert_item (x.1, f x.2) (map (fun x => (x.1, f x.2)) l)
                          = map (fun x => (x.1, f x.2)) (insert_item (V := V) x l)).
  { clear. intros x l. induction l as [|y l IH]; [done|]. cbn. destruct (units_le x.1 y.1); cbn; [done|]. by rewrite IH. }
  rewrite <- I. f_equal. unfold with_units. by rewrite K.
Qed.

(** What [_order_keys] followed by printing yields, as the worker's result *)
Definition ordered_text (j : json) : lresult string :=
  match _order_keys j with Ok c => Ok (dumps_compact c) | Raise _ => Raise LValueError end.

Definition dump_item (kv : string * json) : string * string := (kv.1, quote kv.1 +:+ ":" +:+ dumps_compact kv.2).

Lemma pieces_ordered o :
  Forall (fun kv => jcs_dumps kv.2 = ordered_text kv.2) o ->
  rmap piece o = match rmap order_item o with Ok items => Ok (map dump_item items) | Raise _ => Raise LValueError end.
Proof.
  induction 1 as [|[k v] o H _ IH]; [done|]. cbn [rmap]. cbn [snd] in H.
  change (piece (k, v)) with (let? t := jcs_dumps v in Ok (k, quote k +:+ ":" +:+ t)).
  change (order_item (k, v)) with (let? v' := _order_keys v in Ok (k, v')).
  rewrite H, IH. unfold ordered_text. destruct (_order_keys v); [|done]. cbn [rbind]. by destruct (rmap order_item o).
Qed.

Lemma sort_pieces_dump items :
  sort_pieces (map dump_item items)
  = match sorted_items items with
    | Ok sorted => Ok (map (fun kv => quote kv.1 +:+ ":" +:+ dumps_compact kv.2) sorted)
    | Raise _ => Raise LValueError
    end.
Proof.
  rewrite sorted_items_eq. unfold sort_pieces.
  assert (K : keys_ok (map dump_item items) = keys_ok items).
  { unfold keys_ok. induction items as [|x l IH]; [done|]. cbn. by rewrite IH. }
  rewrite K. destruct (keys_ok items); [|done]. by rewrite (sort_items_map dump_item), !map_map.
Qed.

Lemma jcs_dumps_ordered j : has_float j = false -> jcs_dumps j = ordered_text j.
Proof.
  induction j as [| | | | |l IH|o IH] using json_ind'; try done; cbn [has_float]; intros N.
  - rewrite jcs_dumps_arr. unfold ordered_text. rewrite order_keys_arr.
    assert (E : rmap jcs_dumps l = match rmap _order_keys l with Ok l' => Ok (map dumps_compact l') | Raise _ => Raise LValueError end).
    { induction IH as [|x l Hx _ IHl]; [done|]. cbn [existsb] in N. apply orb_false_elim in N as [Nx N].
      cbn [rmap]. rewrite (Hx Nx), (IHl N). unfold ordered_text. destruct (_order_keys x); [|done].
      cbn [rbind]. by destruct (rmap _order_keys l). }
    rewrite E. by destruct (rmap _order_keys l).
  - rewrite jcs_dumps_obj. unfold ordered_text. rewrite order_keys_obj, pieces_ordered.
    + destruct (rmap order_item o) as [items|]; [|done]. cbn [rbind]. rewrite sort_pieces_dump.
      by destruct (sorted_items items).
    + rewrite List.Forall_forall in IH |- *. intros kv H. apply IH; [done|].
      apply not_true_iff_false. intros F. apply not_true_iff_false in N. apply N, existsb_exists. by exists kv.
Qed.

Lemma has_float_finite j : has_float j = false -> has_nonfinite j = false.
Proof.
  induction j as [| | | | |l IH|o IH] using json_ind'; try done; cbn.
  - induction IH as [|x l Hx _ IHl]; [done|]. cbn. intros [A B]%orb_false_elim. by rewrite Hx, IHl.
  - induction IH as [|x l Hx _ IHl]; [done|]. cbn. intros [A B]%orb_false_elim. by rewrite Hx, IHl.
Qed.

Lemma existsb_perm {A} (f : A -> bool) l l' : l ≡ₚ l' -> existsb f l = existsb f l'.
Proof. induction 1; cbn; [done|congruence| |congruence]. by rewrite !orb_assoc, (orb_comm (f y)). Qed.

Lemma order_keys_float j c : _order_keys j = Ok c -> has_float c = has_float j.
Proof.
  revert c. induction j as [| | | | |l IH|o IH] using json_ind'; try (by intros c [= <-]); intros c.
  - rewrite order_keys_arr, rbind_Ok. intros (l' & H%rmap_Ok & [= <-]). cbn.
    induction H as [|x y l l' H _ IHl]; [done|]. apply Forall_cons in IH as [Hx IH]. cbn. by rewrite (Hx _ H), (IHl IH).
  - rewrite order_keys_obj, rbind_Ok. intros (items & H%rmap_Ok & S). apply rbind_Ok in S as (s & S & [= <-]).
    apply sorted_items_perm in S. cbn. rewrite (existsb_perm _ _ _ S). clear s S.
    induction H as [|[k v] y o items H _ IHl]; [done|]. apply Forall_cons in IH as [Hx IH].
    apply rbind_Ok in H as (w & H & [= <-]). cbn. by rewrite (Hx _ H), (IHl IH).
Qed.

Lemma jcs_bytes_ordered j :
  has_float j = false ->
  jcs_bytes j = match canonicalize_jcs j with Ok b => Ok b | Raise _ => Raise LValueError end.
Proof.
  intros N. unfold jcs_bytes, canonicalize_jcs, canonicalize_raw. rewrite jcs_dumps_ordered by done. unfold ordered_text.
  destruct (_order_keys j) as [c|e] eqn:O; [|done]. cbn [rbind].
  rewrite (has_float_finite c) by (by rewrite (order_keys_float _ _ O)). cbn [negb require rbind].
  by destruct (encodable (dumps_compact c)).
Qed.

(** C21: on a document without floats the worker's canonicalizer and the
    controller's agree: they give the same bytes or both refuse, so a digest or
    a signature made by one is the one the other recomputes. *)
Theorem canonicalizers_agree (j : json) (N : has_float j = false) :
  forall b, jcs_bytes j = Ok b <-> canonicalize_jcs j = Ok b.
Proof. intros b. rewrite jcs_bytes_ordered by done. split; destruct (canonicalize_jcs j); by intros [= ->]. Qed.

Lemma canonicalizers_agree_witness :
  has_float sample_doc = false /\ jcs_bytes sample_doc = Ok sample_bytes.
Proof. split; [reflexivity|]. apply (canonicalizers_agree sample_doc); reflexivity. Defined.

(** ** Signatures *)

(** An accepted signature has the two lengths and a canonical scalar, so adding
    the group order to it is refused. *)
Lemma verify_ed25519_canonical pk m sg :
  verify_ed25519 pk m sg = true ->
  String.length pk = 32%nat /\ String.length sg = 64%nat /\ from_little (drop 32 (bytes_of sg)) < _Q.
Proof.
  unfold verify_ed25519. destruct (_ || _) eqn:L; [done|]. apply orb_false_elim in L as [L1 L2].
  apply negb_false_iff, Nat.eqb_eq in L1, L2. destruct (Z.leb_spec _Q (from_little (drop 32 (bytes_of sg)))); done.
Qed.

Lemma edwards_add_neutral : _edwards_add (0, 1) (0, 1) = (0, 1).
Proof. unfold _edwards_add. rewrite !Z.mul_0_r, !Z.mul_0_l. vm_compute. reflexivity. Qed.

#[global] Opaque _edwards_add.

Lemma scalarmult_neutral k : _scalarmult (0, 1) k = (0, 1).
Proof.
  destruct k as [|k]; [reflexivity|]. cbn [_scalarmult].
  induction k as [k IH|k IH|]; cbn [scalarmult_pos]; rewrite ?IH, !edwards_add_neutral; reflexivity.
Qed.
