(* ===== verification/LivePreflight.v ===== *)
(** * Preflight of an authorized execution ([deltatorrent/live_execution/preflight.py])

    What the worker process checks before it runs anything: the intent and the
    admission belong together, both digests are recomputed, the admission is
    signed by a pinned key, it is fresh, its scope is allowed and its grants are
    within bounds.  Values of the bundle are JSON; a pinned set is the list of
    its elements. *)

From S2P Require Import Prelude PyFloat Json JsonText Text Sha256 Errors Canonical LedgerRecord Ingress WorkerCanonical LiveCrypto.
Open Scope string_scope.
Open Scope Z_scope.
Open Scope py_scope.

(** [str] of a list or a dict, and of an exception *)
Class PyText := {
  container_str : json -> string;
  exn_str : live_exn -> string }.

(** [str(value)] *)
Definition py_str `{PyText} (j : json) : string :=
  match j with
  | JNull => "None"
  | JBool b => if b then "True" else "False"
  | JInt z => str_of_int z
  | JFloat f => repr_float f
  | JStr s => s
  | _ => container_str j
  end.

(** [o.get(k, d)] *)
Definition get_or (k : string) (d : json) (o : odict json) : json :=
  match od_get k o with Some v => v | None => d end.

(** The dict of a value that must have a method [get] *)
Definition as_dict (j : json) : lresult (odict json) :=
  match j with JObj o => Ok o | _ => Raise LAttributeError end.

Record PreflightContext := mkContext {
  x_execution_id : json;
  x_intent_id : json;
  x_intent_digest : json;
  x_admission_id : json;
  x_admission_digest : json;
  x_controller_commit : json;
  x_operation : string;
  x_operation_payload : json;
  x_model_plugin_id : string;
  x_dataset_id : string;
  x_requested_scope : string;
  x_catalog_backend_ref : string;
  x_allow_downloads : bool;
  x_timeout_seconds : Z;
  x_max_memory_bytes : Z;
  x_admission_expires_at : json;
  x_intent : odict json;
  x_admission : odict json }.

Record AuthorizedExecutionPreflight := mkPreflight {
  trusted_keys : odict string;
  pinned_key_ids : list string;
  trusted_public_key_hex : option string }.

(** ** Trust roots *)

Definition _validate_trusted_key (key_id public_key_hex : string) : lresult unit :=
  require (negb (String.eqb key_id EmptyString)) LValueError ;?
  match from_hex public_key_hex with
  | None => Raise LValueError
  | Some public_key => require (String.length public_key =? 32)%nat LValueError
  end.

(** The loop over the pinned ids *)
Fixpoint bind_pinned (hex : string) (ids : list string) (keys : odict string) : lresult (odict string) :=
  match ids with
  | [] => Ok keys
  | key_id :: r =>
      require (match od_get key_id keys with Some configured => String.eqb configured hex | None => true end)
        LValueError ;?
      bind_pinned hex r (od_set key_id hex keys)
  end.

Definition new_preflight (hex : option string) (pinned : option (list string)) (keys : odict string) :
    lresult AuthorizedExecutionPreflight :=
  let? keys :=
    match hex with
    | Some h =>
        match pinned with
        | None | Some [] => Raise LValueError
        | Some ids => bind_pinned h ids keys
        end
    | None => Ok keys
    end in
  rforall (fun kv => _validate_trusted_key kv.1 kv.2) keys ;?
  let ids := match pinned with Some ids => ids | None => od_keys keys end in
  require (forallb (fun id => match od_get id keys with Some _ => true | None => false end) ids) LValueError ;?
  Ok (mkPreflight keys ids hex).

Definition register_trusted_key (key_id public_key_hex : string) (p : AuthorizedExecutionPreflight) :
    lresult AuthorizedExecutionPreflight :=
  _validate_trusted_key key_id public_key_hex ;?
  Ok (mkPreflight (od_set key_id public_key_hex (trusted_keys p))
        (if str_in key_id (pinned_key_ids p) then pinned_key_ids p else pinned_key_ids p ++ [key_id])%list
        (trusted_public_key_hex p)).

(** ** The checks of [validate], in its order *)

Definition invalid_bundle (m : string) : live_exn := WorkerPreflightError "ERR_SCHEMA_VALIDATION_FAILED" m.
Definition parity_mismatch (m : string) : live_exn := WorkerPreflightError "ERR_AUTHORIZED_EXECUTION_PARITY_MISMATCH" m.
Definition bad_signature (m : string) : live_exn := WorkerPreflightError "ERR_ADMISSION_SIGNATURE_INVALID" m.
Definition admission_expired (m : string) : live_exn := WorkerPreflightError "ERR_ADMISSION_EXPIRED" m.

Definition check_parity (intent admission : odict json) : lresult unit :=
  require (truthy (jget "intent_id" intent) && py_eq (jget "intent_id" intent) (jget "intent_id" admission))
    (parity_mismatch "intent_id mismatch") ;?
  require (truthy (jget "intent_digest" intent) && py_eq (jget "intent_digest" intent) (jget "intent_digest" admission))
    (parity_mismatch "intent_digest parity mismatch between intent and admission").

Definition check_digests (intent admission : odict json) : lresult unit :=
  let? intent_ok := verify_intent_digest intent in
  require intent_ok (WorkerPreflightError "ERR_INTENT_DIGEST_MISMATCH" "Recomputed digest does not match declared intent_digest") ;?
  let? admission_ok := verify_admission_digest admission in
  require admission_ok
    (WorkerPreflightError "ERR_ADMISSION_DIGEST_MISMATCH" "Recomputed digest does not match declared admission_digest").

(** [value in s] for a set of strings *)
Definition in_strings (value : json) (l : list string) : lresult bool :=
  match value with
  | JStr s => Ok (str_in s l)
  | JArr _ | JObj _ => Raise LTypeError
  | _ => Ok false
  end.

(** The trusted key of the admission's authenticator *)
Definition pinned_key (p : AuthorizedExecutionPreflight) (key_id : json) : lresult string :=
  let unknown := bad_signature "Unknown or un-pinned key_id" in
  if negb (truthy key_id) then Raise unknown
  else
    let? pinned := in_strings key_id (pinned_key_ids p) in
    match key_id with
    | JStr k => match od_get k (trusted_keys p) with
                | Some hex => if pinned then Ok hex else Raise unknown
                | None => Raise unknown
                end
    | _ => Raise unknown
    end.

Definition check_authenticator (p : AuthorizedExecutionPreflight) (admission : odict json) : lresult unit :=
  match get_or "authenticator" (JObj []) admission with
  | JObj authenticator =>
      require (py_eq (jget "algorithm" authenticator) (JStr "ED25519")) (bad_signature "Unsupported signature algorithm") ;?
      let? trusted_pubkey := pinned_key p (jget "key_id" authenticator) in
      let? ok := verify_admission_signature admission trusted_pubkey in
      require ok (bad_signature "Admission signature verification failed over RFC8785(admission \ signature)")
  | _ => Raise (bad_signature "AdmissionRecord missing authenticator block")
  end.

(** [a <= b] *)
Definition before_or_at (a b : moment) : lresult bool :=
  if Bool.eqb (aware a) (aware b) then Ok (instant a <=? instant b) else Raise LTypeError.

Section Validate.
Context {ISO : IsoText} {PYT : PyText}.

Definition check_freshness (intent admission : odict json) (now : moment) : lresult unit :=
  let admitted_at_str := jget "admitted_at" admission in
  let admission_expires_at_str := jget "admission_expires_at" admission in
  let intent_expires_at_str := jget "expires_at" intent in
  require (truthy admitted_at_str && truthy admission_expires_at_str && truthy intent_expires_at_str)
    (invalid_bundle "Missing required TTL timestamp fields") ;?
  match parse_timestamp admitted_at_str, parse_timestamp admission_expires_at_str, parse_timestamp intent_expires_at_str with
  | Some admitted_at, Some admission_expires_at, Some intent_expires_at =>
      let? in_order := before_or_at admitted_at admission_expires_at in
      require in_order (admission_expired "admitted_at is after expires_at") ;?
      let? within := before_or_at admission_expires_at intent_expires_at in
      require within (admission_expired "admission_expires_at exceeds intent.expires_at") ;?
      let? expired := before_or_at admission_expires_at now in
      require (negb expired) (admission_expired "Admission expired")
  | _, _, _ => Raise (invalid_bundle "Malformed ISO-8601 date-time in TTL fields")
  end.

Definition check_scope (workload : odict json) (operation : json) : lresult unit :=
  require (negb (py_eq (jget "requested_scope" workload) (JStr "STAGE_C_REAL_DRQ1")))
    (WorkerPreflightError "ERR_STAGE_C_FORBIDDEN" "Local worker adapter cannot execute STAGE_C_REAL_DRQ1 operations") ;?
  require (negb (py_eq operation (JStr "TRAIN_TICKET")
                 && negb (py_eq (jget "requested_scope" workload) (JStr "PLUGIN_BOUNDARY"))))
    (WorkerPreflightError "ERR_OPERATION_SCOPE_UNSUPPORTED" "TRAIN_TICKET requires scope 'PLUGIN_BOUNDARY'").

(** An [int] that is no [bool], within bounds *)
Definition int_within (lo : Z) (hi : option Z) (j : json) : option Z :=
  match j with
  | JInt z => if (lo <=? z) && (match hi with Some h => z <=? h | None => true end) then Some z else None
  | _ => None
  end.

(** [allow_downloads], [timeout_seconds], [max_memory_bytes] *)
Definition checked_grants (admission : odict json) : lresult (bool * Z * Z) :=
  match jget "resource_grants" admission with
  | JObj grants =>
      match jget "allow_downloads" grants with
      | JBool allow_downloads =>
          match int_within 1 (Some 3600) (jget "timeout_seconds" grants) with
          | Some timeout_seconds =>
              match int_within 1 None (jget "max_memory_bytes" grants) with
              | Some max_memory_bytes => Ok (allow_downloads, timeout_seconds, max_memory_bytes)
              | None => Raise (invalid_bundle "resource_grants missing or invalid 'max_memory_bytes' integer grant")
              end
          | None => Raise (invalid_bundle "resource_grants missing or invalid 'timeout_seconds' integer grant")
          end
      | _ => Raise (invalid_bundle "resource_grants missing or invalid 'allow_downloads' boolean grant")
      end
  | _ => Raise (invalid_bundle "AdmissionRecord missing required 'resource_grants' object")
  end.

Definition build_context (intent admission workload : odict json) (grants : bool * Z * Z) : lresult PreflightContext :=
  let execution_id := jget "execution_id" admission in
  require (truthy execution_id) (invalid_bundle "AdmissionRecord missing authoritative execution_id") ;?
  let? policy_context := as_dict (get_or "policy_context" (JObj []) admission) in
  Ok (mkContext execution_id (jget "intent_id" intent) (jget "intent_digest" intent)
        (get_or "admission_id" (JStr EmptyString) admission) (get_or "admission_digest" (JStr EmptyString) admission)
        (get_or "controller_commit" (JStr EmptyString) policy_context)
        (py_str (jget "operation" intent)) (get_or "operation_payload" (JObj []) intent)
        (py_str (get_or "model_plugin_id" (JStr EmptyString) workload))
        (py_str (get_or "dataset_id" (JStr EmptyString) workload))
        (py_str (jget "requested_scope" workload))
        (py_str (get_or "catalog_backend_ref" (JStr EmptyString) workload))
        grants.1.1 grants.1.2 grants.2 (jget "admission_expires_at" admission) intent admission).

Definition validate_documents (p : AuthorizedExecutionPreflight) (intent admission : odict json) (now : moment) :
    lresult PreflightContext :=
  check_parity intent admission ;?
  check_digests intent admission ;?
  check_authenticator p admission ;?
  check_freshness intent admission now ;?
  let? workload := as_dict (get_or "workload" (JObj []) intent) in
  check_scope workload (jget "operation" intent) ;?
  let? grants := checked_grants admission in
  build_context intent admission workload grants.

Definition validate (p : AuthorizedExecutionPreflight) (bundle : json) (now : moment) : lresult PreflightContext :=
  match bundle with
  | JObj bundle =>
      require (py_eq (jget "schema_version" bundle) (JStr "1.0.0")) (invalid_bundle "Unsupported schema_version") ;?
      match jget "intent" bundle, jget "admission" bundle with
      | JObj intent, JObj admission => validate_documents p intent admission now
      | _, _ => Raise (invalid_bundle "AuthorizedExecution bundle must contain 'intent' and 'admission' objects")
      end
  | _ => Raise (invalid_bundle "AuthorizedExecution bundle must be an object")
  end.
End Validate.

(** ** Properties *)

#[local] Opaque sha256_bytes.

(** ** The checks one by one *)

Lemma check_parity_Ok intent admission :
  check_parity intent admission = Ok tt <->
  (truthy (jget "intent_id" intent) = true /\ py_eq (jget "intent_id" intent) (jget "intent_id" admission) = true) /\
  truthy (jget "intent_digest" intent) = true /\
  py_eq (jget "intent_digest" intent) (jget "intent_digest" admission) = true.
Proof. unfold check_parity. by rewrite rbind_unit_Ok, !require_Ok, !andb_true_iff. Qed.

(** A document under a key declares the digest of the rest *)
Definition declares (key : string) (rest doc : odict json) : Prop :=
  exists bytes, jcs_bytes (JObj rest) = Ok bytes /\ jget key doc = JStr (sha256_prefixed bytes).

Lemma declared_digest_Ok key rest doc :
  (if negb (truthy (jget key doc)) then Ok false
   else let? bytes := jcs_bytes (JObj rest) in Ok (py_eq (jget key doc) (JStr (sha256_prefixed bytes)))) = Ok true <->
  declares key rest doc.
Proof.
  unfold declares. split.
  - destruct (truthy _); [|done]. cbn [negb]. rewrite rbind_Ok. intros (b & B & [= E]). exists b. split; [done|].
    by apply py_eq_str in E.
  - intros (b & -> & ->). cbn [rbind truthy]. unfold sha256_prefixed. by rewrite py_eq_refl.
Qed.

Lemma check_digests_Ok intent admission :
  check_digests intent admission = Ok tt <->
  declares "intent_digest" (od_pop "intent_digest" intent) intent /\
  declares "admission_digest" (od_pop "authenticator" (od_pop "admission_digest" admission)) admission.
Proof.
  rewrite <- !declared_digest_Ok. unfold check_digests. rewrite rbind_Ok. setoid_rewrite rbind_unit_Ok.
  setoid_rewrite rbind_Ok. setoid_rewrite require_Ok. unfold verify_intent_digest, verify_admission_digest. naive_solver.
Qed.

(** A signature of the admission under a pinned key *)
Record signed_by (p : AuthorizedExecutionPreflight) (admission : odict json) : Prop := {
  s_authenticator : exists auth kid hex sig pk sg payload,
    od_get "authenticator" admission = Some (JObj auth) /\ jget "algorithm" auth = JStr "ED25519" /\
    jget "key_id" auth = JStr kid /\ kid <> EmptyString /\ kid ∈ pinned_key_ids p /\
    od_get kid (trusted_keys p) = Some hex /\ from_hex hex = Some pk /\
    od_get "signature" auth = Some (JStr sig) /\ from_hex sig = Some sg /\
    jcs_bytes (JObj (unsigned_admission admission)) = Ok payload /\ verify_ed25519 pk payload sg = true }.

Lemma pinned_key_Ok p v hex :
  pinned_key p v = Ok hex <->
  exists kid, v = JStr kid /\ kid <> EmptyString /\ kid ∈ pinned_key_ids p /\ od_get kid (trusted_keys p) = Some hex.
Proof.
  unfold pinned_key. split.
  - destruct (truthy v) eqn:T; [|done]. cbn [negb]. rewrite rbind_Ok. intros (b & B & H). destruct v as [| | | |k| |]; try done.
    destruct (od_get k (trusted_keys p)) as [h|] eqn:G; [|done]. destruct b; [|done]. injection H as ->.
    injection B as B. apply str_in_elem in B. exists k. split; [done|]. split; [by intros ->|]. done.
  - intros (k & -> & N & I & G). apply str_in_elem in I. destruct k as [|c k]; [done|].
    cbn [truthy negb in_strings rbind]. by rewrite I, G.
Qed.

Lemma verify_admission_signature_Ok admission hex :
  verify_admission_signature admission hex = Ok true <->
  exists auth sig pk sg payload, od_get "authenticator" admission = Some (JObj auth) /\ from_hex hex = Some pk /\
    od_get "signature" auth = Some (JStr sig) /\ from_hex sig = Some sg /\
    jcs_bytes (JObj (unsigned_admission admission)) = Ok payload /\ verify_ed25519 pk payload sg = true.
Proof.
  unfold verify_admission_signature. split.
  - destruct (od_get "authenticator" admission) as [[| | | | | |auth]|] eqn:A; try done.
    destruct (od_get "signature" auth) as [[| | | |sig| |]|] eqn:G; try done.
    destruct (from_hex sig) as [sg|] eqn:F; [|done]. destruct (from_hex hex) as [pk|] eqn:K; [|done].
    rewrite rbind_Ok. intros (payload & J & [= V]). by exists auth, sig, pk, sg, payload.
  - intros (auth & sig & pk & sg & payload & -> & K & -> & F & J & V). by rewrite F, K, J; cbn [rbind]; rewrite V.
Qed.

Lemma check_authenticator_Ok p admission : check_authenticator p admission = Ok tt <-> signed_by p admission.
Proof.
  unfold check_authenticator, get_or. split.
  - destruct (od_get "authenticator" admission) as [[| | | | | |auth]|] eqn:A; try done.
    rewrite rbind_unit_Ok, rbind_Ok. intros (G%require_Ok%py_eq_str & hex & (kid & K & N & I & T)%pinned_key_Ok & H).
    apply rbind_Ok in H as (b & V & ->%require_Ok).
    apply verify_admission_signature_Ok in V as (auth' & sig & pk & sg & payload & A' & V). rewrite A in A'. injection A' as <-.
    constructor. by exists auth, kid, hex, sig, pk, sg, payload; naive_solver.
  - intros [(auth & kid & hex & sig & pk & sg & payload & A & G & K & N & I & T & F & S & F' & J & V)]. rewrite A, G.
    rewrite py_eq_refl by done. cbn [require rbind].
    assert (P : pinned_key p (jget "key_id" auth) = Ok hex) by (apply pinned_key_Ok; eauto). rewrite P. cbn [rbind].
    assert (W : verify_admission_signature admission hex = Ok true)
      by (apply verify_admission_signature_Ok; by exists auth, sig, pk, sg, payload).
    by rewrite W.
Qed.

Section Preflight.
Context {ISO : IsoText} {PYT : PyText}.

(** Admitted, then expiring no later than the intent, in the future of [now] *)
Definition fresh (intent admission : odict json) (now : moment) : Prop :=
  exists sa a se e st t, jget "admitted_at" admission = JStr sa /\ parse_timestamp (JStr sa) = Some a /\
    jget "admission_expires_at" admission = JStr se /\ parse_timestamp (JStr se) = Some e /\
    jget "expires_at" intent = JStr st /\ parse_timestamp (JStr st) = Some t /\
    sa <> EmptyString /\ se <> EmptyString /\ st <> EmptyString /\
    aware a = aware e /\ aware e = aware t /\ aware e = aware now /\
    instant a <= instant e <= instant t /\ instant now < instant e.

Lemma before_or_at_Ok a b r : before_or_at a b = Ok r <-> aware a = aware b /\ r = (instant a <=? instant b).
Proof. unfold before_or_at. destruct (Bool.eqb_spec (aware a) (aware b)); naive_solver. Qed.

Lemma parse_timestamp_str v t : parse_timestamp v = Some t -> exists s, v = JStr s.
Proof. destruct v; try done. eauto. Qed.

Lemma truthy_str s : truthy (JStr s) = true <-> s <> EmptyString.
Proof. by destruct s. Qed.

Lemma check_freshness_Ok intent admission now :
  check_freshness intent admission now = Ok tt <-> fresh intent admission now.
Proof.
  unfold check_freshness. rewrite rbind_unit_Ok, require_Ok, !andb_true_iff. split.
  - intros [[[Ta Te] Tt] H]. destruct (parse_timestamp (jget "admitted_at" admission)) as [a|] eqn:A; [|done].
    destruct (parse_timestamp (jget "admission_expires_at" admission)) as [e|] eqn:E; [|done].
    destruct (parse_timestamp (jget "expires_at" intent)) as [t|] eqn:T; [|done].
    apply rbind_Ok in H as (b1 & (K1 & ->)%before_or_at_Ok & H). apply rbind_unit_Ok in H as [L1%require_Ok H].
    apply rbind_Ok in H as (b2 & (K2 & ->)%before_or_at_Ok & H). apply rbind_unit_Ok in H as [L2%require_Ok H].
    apply rbind_Ok in H as (b3 & (K3 & ->)%before_or_at_Ok & L3%require_Ok).
    destruct (parse_timestamp_str _ _ A) as [sa Sa], (parse_timestamp_str _ _ E) as [se Se], (parse_timestamp_str _ _ T) as [st St].
    rewrite Sa in Ta, A. rewrite Se in Te, E. rewrite St in Tt, T. apply truthy_str in Ta, Te, Tt.
    apply Z.leb_le in L1, L2. apply negb_true_iff, Z.leb_gt in L3. exists sa, a, se, e, st, t. repeat (split; [done|]). done.
  - intros (sa & a & se & e & st & t & -> & -> & -> & -> & -> & -> & Ta & Te & Tt & K1 & K2 & K3 & [L1 L2] & L3).
    split; [by rewrite !truthy_str|]. unfold before_or_at. rewrite K1, K2, <- K2, K3, !Bool.eqb_reflx. cbn [rbind].
    apply Z.leb_le in L1, L2. apply Z.leb_gt in L3. by rewrite L1, L2, L3.
Qed.

Definition scope_allowed (workload : odict json) (operation : json) : Prop :=
  jget "requested_scope" workload <> JStr "STAGE_C_REAL_DRQ1" /\
  (operation = JStr "TRAIN_TICKET" -> jget "requested_scope" workload = JStr "PLUGIN_BOUNDARY").

Lemma py_eq_str_false j s : py_eq j (JStr s) = false <-> j <> JStr s.
Proof. rewrite <- not_true_iff_false. by rewrite py_eq_str. Qed.

Lemma check_scope_Ok workload operation : check_scope workload operation = Ok tt <-> scope_allowed workload operation.
Proof.
  unfold check_scope, scope_allowed.
  rewrite rbind_unit_Ok, !require_Ok, !negb_true_iff, andb_false_iff, negb_false_iff, !py_eq_str_false, py_eq_str.
  split; intros [A B]; (split; [done|]); [intros E; by destruct B|].
  destruct (py_eq operation (JStr "TRAIN_TICKET")) eqn:E; [right; apply B; by apply py_eq_str in E|left].
  by apply py_eq_str_false in E.
Qed.

Lemma checked_grants_Ok admission d t m :
  checked_grants admission = Ok (d, t, m) <->
  exists grants, jget "resource_grants" admission = JObj grants /\ jget "allow_downloads" grants = JBool d /\
    jget "timeout_seconds" grants = JInt t /\ 1 <= t <= 3600 /\ jget "max_memory_bytes" grants = JInt m /\ 1 <= m.
Proof.
  assert (I : forall lo hi j z, int_within lo hi j = Some z <->
    j = JInt z /\ lo <= z /\ match hi with Some h => z <= h | None => True end).
  { intros lo hi j z. destruct j as [|b|n|f|s|l|o]; cbn [int_within]; try (by split; [|intros [? _]]). split.
    - destruct hi as [h|]; destruct (Z.leb_spec lo n); cbn [andb]; try done; [|by intros [= <-]].
      destruct (Z.leb_spec n h); [by intros [= <-]|done].
    - intros ([= ->] & L & U). apply Z.leb_le in L as ->. cbn [andb]. destruct hi as [h|]; [|done].
      by apply Z.leb_le in U as ->. }
  unfold checked_grants. split.
  - destruct (jget "resource_grants" admission) as [| | | | | |grants]; try done. destruct (jget "allow_downloads" grants) as [|b| | | | |] eqn:D; try done.
    destruct (int_within 1 (Some 3600) _) as [t'|] eqn:T; [|done]. destruct (int_within 1 None _) as [m'|] eqn:M; [|done].
    intros [= <- <- <-]. apply I in T as (T & B), M as (M & C & _). by exists grants.
  - intros (grants & -> & -> & T & Bt & M & Bm).
    assert (E1 : int_within 1 (Some 3600) (jget "timeout_seconds" grants) = Some t) by (by apply I).
    assert (E2 : int_within 1 None (jget "max_memory_bytes" grants) = Some m) by (by apply I).
    by rewrite E1, E2.
Qed.

(** ** What is accepted *)

Record authorized (p : AuthorizedExecutionPreflight) (intent admission : odict json) (now : moment) : Prop := {
  a_intent_id : truthy (jget "intent_id" intent) = true /\ py_eq (jget "intent_id" intent) (jget "intent_id" admission) = true;
  a_same_intent : jget "intent_digest" admission = jget "intent_digest" intent;
  a_intent : declares "intent_digest" (od_pop "intent_digest" intent) intent;
  a_admission : declares "admission_digest" (od_pop "authenticator" (od_pop "admission_digest" admission)) admission;
  a_signed : signed_by p admission;
  a_fresh : fresh intent admission now }.

(** The context of an authorized bundle *)
Definition context_of (intent admission workload policy : odict json) (d : bool) (t m : Z) : PreflightContext :=
  mkContext (jget "execution_id" admission) (jget "intent_id" intent) (jget "intent_digest" intent)
    (get_or "admission_id" (JStr EmptyString) admission) (get_or "admission_digest" (JStr EmptyString) admission)
    (get_or "controller_commit" (JStr EmptyString) policy)
    (py_str (jget "operation" intent)) (get_or "operation_payload" (JObj []) intent)
    (py_str (get_or "model_plugin_id" (JStr EmptyString) workload)) (py_str (get_or "dataset_id" (JStr EmptyString) workload))
    (py_str (jget "requested_scope" workload)) (py_str (get_or "catalog_backend_ref" (JStr EmptyString) workload))
    d t m (jget "admission_expires_at" admission) intent admission.

Lemma same_digest intent v w :
  declares "intent_digest" v intent ->
  (truthy (jget "intent_digest" intent) = true /\ py_eq (jget "intent_digest" intent) w = true) <-> w = jget "intent_digest" intent.
Proof.
  intros (b & _ & ->). split; [|by intros ->; unfold sha256_prefixed; rewrite py_eq_refl].
  generalize (sha256_prefixed b). intros s [_ E]. destruct w as [| | | |x| |]; try done.
  by apply String.eqb_eq in E as ->.
Qed.

Lemma validate_documents_Ok p intent admission now ctx :
  validate_documents p intent admission now = Ok ctx <->
  authorized p intent admission now /\
  exists workload policy grants d t m,
    get_or "workload" (JObj []) intent = JObj workload /\ scope_allowed workload (jget "operation" intent) /\
    jget "resource_grants" admission = JObj grants /\ jget "allow_downloads" grants = JBool d /\
    jget "timeout_seconds" grants = JInt t /\ 1 <= t <= 3600 /\ jget "max_memory_bytes" grants = JInt m /\ 1 <= m /\
    truthy (jget "execution_id" admission) = true /\ get_or "policy_context" (JObj []) admission = JObj policy /\
    ctx = context_of intent admission workload policy d t m.
Proof.
  unfold validate_documents. rewrite !rbind_unit_Ok, check_parity_Ok, check_digests_Ok, check_authenticator_Ok, check_freshness_Ok.
  split.
  - intros ([Pi Pd] & [Di Da] & S & F & H). split.
    { constructor; try done. by apply (same_digest _ _ _ Di). }
    apply rbind_Ok in H as (workload & W & H). apply rbind_unit_Ok in H as [C%check_scope_Ok H].
    apply rbind_Ok in H as ([[d t] m] & (grants & G)%checked_grants_Ok & H). unfold build_context in H.
    apply rbind_unit_Ok in H as [X%require_Ok H]. apply rbind_Ok in H as (policy & Pc & [= <-]).
    destruct (get_or "workload" (JObj []) intent) eqn:Ew; try done. injection W as ->.
    destruct (get_or "policy_context" (JObj []) admission) eqn:Ep; try done. injection Pc as ->.
    exists workload, policy, grants, d, t, m. naive_solver.
  - intros [[Pi E Di Da S F] (workload & policy & grants & d & t & m & W & C & G1 & G2 & G3 & G4 & G5 & G6 & X & Pc & ->)].
    split; [split; [done|by apply (same_digest _ _ _ Di)]|]. do 3 (split; [done|]). rewrite W. cbn [as_dict rbind].
    apply check_scope_Ok in C. rewrite C. cbn [rbind].
    assert (G : checked_grants admission = Ok (d, t, m)) by (apply checked_grants_Ok; by exists grants).
    rewrite G. cbn [rbind]. unfold build_context. by rewrite X, Pc.
Qed.

Lemma validate_Ok p bundle now ctx :
  validate p bundle now = Ok ctx <->
  exists b intent admission, bundle = JObj b /\ jget "schema_version" b = JStr "1.0.0" /\
    jget "intent" b = JObj intent /\ jget "admission" b = JObj admission /\ validate_documents p intent admission now = Ok ctx.
Proof.
  unfold validate. split.
  - destruct bundle as [| | | | | |b]; try done. rewrite rbind_unit_Ok, require_Ok. intros [V%py_eq_str H].
    destruct (jget "intent" b) as [| | | | | |intent] eqn:I; try done.
    destruct (jget "admission" b) as [| | | | | |admission] eqn:A; try done.
    by exists b, intent, admission.
  - intros (b & intent & admission & -> & -> & -> & -> & H). by rewrite py_eq_refl.
Qed.
End Preflight.
