(* ===== verification/PluginRegistry.v ===== *)
(** * Model plugins and dataset providers
    ([deltatorrent/model_plugins/base.py], [model_plugins/registry.py],
    [data/base.py], [data/registry.py])

    A plugin and a provider are records of the operations their protocols name:
    the numpy code behind them is a parameter.  A registry maps ids to
    descriptors and factories; each call of a factory may answer differently, so
    a factory is given the number of the call. *)

From S2P Require Import Prelude PyFloat Json JsonText Text Sha256 WorkerErrors WorkerCanonical ArtifactRef WorkTicket Updates ParameterSchema Sampler LiveCrypto.
Open Scope string_scope.
Open Scope Z_scope.
Open Scope py_scope.

Record PluginDescriptor := mkPluginDescriptor {
  d_plugin_id : string;
  d_plugin_name : string;
  d_model_family : string;
  d_task_type : string;
  d_sample_kind : string;
  d_target_kind : string;
  d_deterministic : bool;
  d_supports_stage_c : bool;
  d_parameter_schema_id : option string }.

Record DatasetDescriptor := mkDatasetDescriptor {
  ds_dataset_id : string;
  ds_display_name : string;
  ds_sample_kind : string;
  ds_target_kind : string;
  ds_deterministic : bool;
  ds_supports_offline_cache : bool;
  ds_description : string;
  ds_version : string }.

#[export] Instance DatasetDescriptor_eq_dec : EqDecision DatasetDescriptor.
Proof. solve_decision. Defined.

(** [Data] is the arrays of a partition or of an evaluation set, [Model] the
    objects plugins create. *)
Section Registries.
Context {Data Model : Type}.

Record LocalTrainingResult := mkTrainingResult { lt_ticket_id : string; lt_tensors : Data; lt_metadata : odict json }.
Record EvaluationResult := mkEvaluation { accuracy_ppm : Z; loss : option pyfloat; metrics : odict json }.

(** A partition; [p_samples_length] is [len(samples)], 0 for samples without a
    length. *)
Record DataPartition := mkPartition {
  p_partition_id : string;
  p_data : Data;
  p_samples_length : Z;
  p_metadata : odict json }.

Record ModelPlugin := mkPlugin {
  m_plugin_id : string;
  m_total_elements : Z;
  m_train_ticket : string -> Data -> option Model -> lresult LocalTrainingResult;
  m_load_applied_checkpoint : json -> lresult Model;
  m_evaluate : Model -> Data -> lresult EvaluationResult }.

(** [training_partition] answers [None] for an object that is no
    [DataPartition]. *)
Record DatasetProvider := mkProvider {
  v_dataset_id : string;
  v_descriptor : DatasetDescriptor;
  v_materialize : string -> bool -> lresult (odict json);
  v_training_partition : string -> lresult (option DataPartition);
  v_evaluation_data : lresult Data }.

Definition check_compatibility (model_sample_kind model_target_kind : string) (d : DatasetDescriptor) : lresult unit :=
  require (String.eqb model_sample_kind (ds_sample_kind d)) (CompatibilityErr "SAMPLE_KIND_MISMATCH") ;?
  require (String.eqb model_target_kind (ds_target_kind d)) (CompatibilityErr "TARGET_KIND_MISMATCH").

(** A factory's answer at a call: an object of the protocol, or another one
    ([None]) *)
Definition Factory (A : Type) : Type := nat -> lresult (option A).

(** ** Model plugins *)

Record ModelPluginRegistry := mkPluginRegistry {
  plugin_factories : odict (Factory ModelPlugin);
  plugin_descriptors : odict PluginDescriptor }.

Definition empty_plugin_registry : ModelPluginRegistry := mkPluginRegistry [] [].

Definition register_plugin (call : nat) (descriptor : PluginDescriptor) (factory : Factory ModelPlugin) (r : ModelPluginRegistry) :
    lresult ModelPluginRegistry :=
  let plugin_id := d_plugin_id descriptor in
  require (negb (String.eqb plugin_id EmptyString)) (PluginRegistryErr "INVALID_PLUGIN_ID") ;?
  require (negb (str_in plugin_id (od_keys (plugin_descriptors r)))) (PluginRegistryErr "DUPLICATE_PLUGIN_ID") ;?
  let? sample := factory call in
  match sample with
  | None => Raise (PluginRegistryErr "FACTORY_NOT_MODEL_PLUGIN")
  | Some p =>
      require (String.eqb (m_plugin_id p) plugin_id) (PluginRegistryErr "DESCRIPTOR_PLUGIN_ID_MISMATCH") ;?
      Ok (mkPluginRegistry (od_set plugin_id factory (plugin_factories r)) (od_set plugin_id descriptor (plugin_descriptors r)))
  end.

(** [get]: an object without [plugin_id] has no such attribute *)
Definition get_plugin (call : nat) (plugin_id : string) (r : ModelPluginRegistry) : lresult ModelPlugin :=
  match od_get plugin_id (plugin_factories r) with
  | None => Raise (PluginRegistryErr "UNKNOWN_PLUGIN_ID")
  | Some factory =>
      let? plugin := factory call in
      match plugin with
      | None => Raise LAttributeError
      | Some p =>
          require (String.eqb (m_plugin_id p) plugin_id) (PluginRegistryErr "PLUGIN_INSTANCE_ID_MISMATCH") ;?
          Ok p
      end
  end.

Definition get_plugin_descriptor (plugin_id : string) (r : ModelPluginRegistry) : lresult PluginDescriptor :=
  match od_get plugin_id (plugin_descriptors r) with
  | None => Raise (PluginRegistryErr "UNKNOWN_PLUGIN_ID")
  | Some d => Ok d
  end.

(** In the order of the sorted ids *)
Definition list_plugin_descriptors (r : ModelPluginRegistry) : list PluginDescriptor :=
  map snd (sorted_by String.leb fst (plugin_descriptors r)).

(** ** Dataset providers *)

Record DatasetRegistry := mkDatasetRegistry {
  dataset_factories : odict (Factory DatasetProvider);
  dataset_descriptors : odict DatasetDescriptor }.

Definition empty_dataset_registry : DatasetRegistry := mkDatasetRegistry [] [].

Definition register_dataset (call : nat) (descriptor : DatasetDescriptor) (factory : Factory DatasetProvider) (r : DatasetRegistry) :
    lresult DatasetRegistry :=
  let dataset_id := ds_dataset_id descriptor in
  require (negb (String.eqb dataset_id EmptyString)) (DatasetRegistryErr "INVALID_DATASET_ID") ;?
  require (negb (str_in dataset_id (od_keys (dataset_descriptors r)))) (DatasetRegistryErr "DUPLICATE_DATASET_ID") ;?
  let? sample := factory call in
  match sample with
  | None => Raise (DatasetRegistryErr "FACTORY_NOT_DATASET_PROVIDER")
  | Some p =>
      require (String.eqb (v_dataset_id p) dataset_id) (DatasetRegistryErr "DESCRIPTOR_DATASET_ID_MISMATCH") ;?
      require (bool_decide (v_descriptor p = descriptor)) (DatasetRegistryErr "DESCRIPTOR_FACTORY_MISMATCH") ;?
      Ok (mkDatasetRegistry (od_set dataset_id factory (dataset_factories r)) (od_set dataset_id descriptor (dataset_descriptors r)))
  end.

Definition get_dataset (call : nat) (dataset_id : string) (r : DatasetRegistry) : lresult DatasetProvider :=
  match od_get dataset_id (dataset_factories r) with
  | None => Raise (DatasetRegistryErr "UNKNOWN_DATASET_ID")
  | Some factory =>
      let? provider := factory call in
      match provider with
      | None => Raise LAttributeError
      | Some p =>
          require (String.eqb (v_dataset_id p) dataset_id) (DatasetRegistryErr "DATASET_INSTANCE_ID_MISMATCH") ;?
          match od_get dataset_id (dataset_descriptors r) with
          | None => Raise LKeyError
          | Some d =>
              require (bool_decide (v_descriptor p = d)) (DatasetRegistryErr "DATASET_INSTANCE_DESCRIPTOR_MISMATCH") ;?
              Ok p
          end
      end
  end.

Definition get_dataset_descriptor (dataset_id : string) (r : DatasetRegistry) : lresult DatasetDescriptor :=
  match od_get dataset_id (dataset_descriptors r) with
  | None => Raise (DatasetRegistryErr "UNKNOWN_DATASET_ID")
  | Some d => Ok d
  end.

Definition list_dataset_descriptors (r : DatasetRegistry) : list DatasetDescriptor :=
  map snd (sorted_by String.leb fst (dataset_descriptors r)).
End Registries.

Arguments ModelPlugin : clear implicits.
Arguments DatasetProvider : clear implicits.
Arguments ModelPluginRegistry : clear implicits.
Arguments DatasetRegistry : clear implicits.
Arguments DataPartition : clear implicits.
Arguments LocalTrainingResult : clear implicits.

(** ** The built-in descriptors *)

Definition MNIST_CENTROID_DESCRIPTOR : PluginDescriptor :=
  mkPluginDescriptor "mnist-centroid-v1" "MNIST Nearest Centroid" "centroid" "cv_classification"
    "image/grayscale-28x28" "class-id/0-9" true true None.
Definition EEG_BANDPOWER_DESCRIPTOR : PluginDescriptor :=
  mkPluginDescriptor "eeg-bandpower-centroid-v1" "EEG Bandpower Centroid Classifier" "centroid" "classification"
    "eeg/bandpower-4ch-4band" "class-id/0-1" true false None.

(** The schema of the QLoRA adapter: one flat tensor *)
Definition QLORA_PARAMETER_SCHEMA : wresult ParameterSchema :=
  let? p := new_spec (JStr "qlora.adapter.flat") [JInt 8] FLOAT32 (JBool true) in
  new_schema [p] [] INCLUDE_ALL (JStr "1.0.0").
Definition QLORA_PARAMETER_SCHEMA_ID : option string := Eval vm_compute in
  match (let? s := QLORA_PARAMETER_SCHEMA in schema_fingerprint s) with Ok f => Some f | Raise _ => None end.

Definition QLORA_DESCRIPTOR : PluginDescriptor :=
  mkPluginDescriptor "qlora-tiny-adapter-v1" "QLoRA Tiny Quantized Adapter" "qlora" "adapter_regression"
    "vector/tiny-qlora-2d" "regression/vector-2d" true true QLORA_PARAMETER_SCHEMA_ID.
Definition PHENOTYPE_10GENE_DESCRIPTOR : PluginDescriptor :=
  mkPluginDescriptor "tabular-10gene-phenotype-v1" "Synthetic 10-Gene Phenotype Centroid" "centroid" "phenotype_classification"
    "tabular/genomic-10gene-vector" "class-id/0-1" true true None.

Definition MNIST_DESCRIPTOR : DatasetDescriptor :=
  mkDatasetDescriptor "mnist-v1" "MNIST Handwritten Digits" "image/grayscale-28x28" "class-id/0-9" true true
    "Standard 28x28 grayscale handwritten digit classification dataset." "1.0.0".
Definition EEG_DATASET_DESCRIPTOR : DatasetDescriptor :=
  mkDatasetDescriptor "eeg-synthetic-bci-v1" "Synthetic BCI EEG 4-Channel Bandpower" "eeg/bandpower-4ch-4band" "class-id/0-1"
    true true
    "Deterministic 4-channel windowed EEG bandpower features (delta, theta, alpha, beta) for binary rest vs. motor imagery classification."
    "1.0.0".
Definition QLORA_DATASET_DESCRIPTOR : DatasetDescriptor :=
  mkDatasetDescriptor "tiny-qlora-regression-v1" "Tiny QLoRA 2D Regression Dataset" "vector/tiny-qlora-2d" "regression/vector-2d"
    true false "Deterministic synthetic 2D regression dataset for QLoRA adapter training." "1.0.0".
Definition SYNTHETIC_10GENE_DESCRIPTOR : DatasetDescriptor :=
  mkDatasetDescriptor "synthetic-10gene-cohort-v1" "Synthetic 10-Gene Cohort Benchmark" "tabular/genomic-10gene-vector"
    "class-id/0-1" true true
    "Deterministic synthetic cohort benchmark containing normalized 10-gene expression vectors for binary phenotype classification."
    "1.0.0".

(** The default registries, given the four factories of each *)
Section Default.
Context {Data Model : Type}.

Definition build_default_registry (mnist eeg qlora phenotype : Factory (ModelPlugin Data Model)) :
    lresult (ModelPluginRegistry Data Model) :=
  let? r := register_plugin 0 MNIST_CENTROID_DESCRIPTOR mnist empty_plugin_registry in
  let? r := register_plugin 0 EEG_BANDPOWER_DESCRIPTOR eeg r in
  let? r := register_plugin 0 QLORA_DESCRIPTOR qlora r in
  register_plugin 0 PHENOTYPE_10GENE_DESCRIPTOR phenotype r.

Definition build_default_dataset_registry (mnist eeg qlora phenotype : Factory (DatasetProvider Data)) :
    lresult (DatasetRegistry Data) :=
  let? r := register_dataset 0 MNIST_DESCRIPTOR mnist empty_dataset_registry in
  let? r := register_dataset 0 EEG_DATASET_DESCRIPTOR eeg r in
  let? r := register_dataset 0 QLORA_DATASET_DESCRIPTOR qlora r in
  register_dataset 0 SYNTHETIC_10GENE_DESCRIPTOR phenotype r.

Lemma register_plugin_Ok call d f (r r' : ModelPluginRegistry Data Model) :
  register_plugin call d f r = Ok r' ->
  plugin_descriptors r' = od_set (d_plugin_id d) d (plugin_descriptors r) /\
  plugin_factories r' = od_set (d_plugin_id d) f (plugin_factories r).
Proof.
  unfold register_plugin. rewrite !rbind_unit_Ok, rbind_Ok. intros (_ & _ & [p|] & _ & H); [|done].
  by apply rbind_unit_Ok in H as (_ & [= <-]).
Qed.

Lemma register_dataset_Ok call d f (r r' : DatasetRegistry Data) :
  register_dataset call d f r = Ok r' ->
  dataset_descriptors r' = od_set (ds_dataset_id d) d (dataset_descriptors r) /\
  dataset_factories r' = od_set (ds_dataset_id d) f (dataset_factories r).
Proof.
  unfold register_dataset. rewrite !rbind_unit_Ok, rbind_Ok. intros (_ & _ & [p|] & _ & H); [|done].
  by apply rbind_unit_Ok in H as (_ & (_ & [= <-])%rbind_unit_Ok).
Qed.

Lemma default_descriptors fm fe fq fp (r : ModelPluginRegistry Data Model) :
  build_default_registry fm fe fq fp = Ok r ->
  plugin_descriptors r = map (fun d => (d_plugin_id d, d))
    [MNIST_CENTROID_DESCRIPTOR; EEG_BANDPOWER_DESCRIPTOR; QLORA_DESCRIPTOR; PHENOTYPE_10GENE_DESCRIPTOR].
Proof.
  unfold build_default_registry. rewrite rbind_Ok. intros (r1 & [E1 _]%register_plugin_Ok & H).
  apply rbind_Ok in H as (r2 & [E2 _]%register_plugin_Ok & H). apply rbind_Ok in H as (r3 & [E3 _]%register_plugin_Ok & H).
  apply register_plugin_Ok in H as [E4 _]. by rewrite E4, E3, E2, E1.
Qed.

Lemma default_factories fm fe fq fp (r : ModelPluginRegistry Data Model) :
  build_default_registry fm fe fq fp = Ok r -> map snd (plugin_factories r) = [fm; fe; fq; fp].
Proof.
  unfold build_default_registry. rewrite rbind_Ok. intros (r1 & [_ E1]%register_plugin_Ok & H).
  apply rbind_Ok in H as (r2 & [_ E2]%register_plugin_Ok & H). apply rbind_Ok in H as (r3 & [_ E3]%register_plugin_Ok & H).
  apply register_plugin_Ok in H as [_ E4]. by rewrite E4, E3, E2, E1.
Qed.

Lemma default_dataset_factories fm fe fq fp (r : DatasetRegistry Data) :
  build_default_dataset_registry fm fe fq fp = Ok r -> map snd (dataset_factories r) = [fm; fe; fq; fp].
Proof.
  unfold build_default_dataset_registry. rewrite rbind_Ok. intros (r1 & [_ E1]%register_dataset_Ok & H).
  apply rbind_Ok in H as (r2 & [_ E2]%register_dataset_Ok & H). apply rbind_Ok in H as (r3 & [_ E3]%register_dataset_Ok & H).
  apply register_dataset_Ok in H as [_ E4]. by rewrite E4, E3, E2, E1.
Qed.

Lemma default_dataset_descriptors fm fe fq fp (r : DatasetRegistry Data) :
  build_default_dataset_registry fm fe fq fp = Ok r ->
  dataset_descriptors r = map (fun d => (ds_dataset_id d, d))
    [MNIST_DESCRIPTOR; EEG_DATASET_DESCRIPTOR; QLORA_DATASET_DESCRIPTOR; SYNTHETIC_10GENE_DESCRIPTOR].
Proof.
  unfold build_default_dataset_registry. rewrite rbind_Ok. intros (r1 & [E1 _]%register_dataset_Ok & H).
  apply rbind_Ok in H as (r2 & [E2 _]%register_dataset_Ok & H). apply rbind_Ok in H as (r3 & [E3 _]%register_dataset_Ok & H).
  apply register_dataset_Ok in H as [E4 _]. by rewrite E4, E3, E2, E1.
Qed.
End Default.
