(* ===== verification/PluginRunner.v ===== *)
(** * The plugin runner ([deltatorrent/model_plugins/runner.py])

    A runner binds one model plugin to one dataset provider of compatible kinds,
    remembers what it executed last and emits receipts for it; several bindings
    make a multi-domain run.  Model and data are the plugins' own. *)

From S2P Require Import Prelude PyFloat Json JsonText Text Sha256 LiveCrypto LivePreflight PluginRegistry.
Open Scope string_scope.
Open Scope Z_scope.
Open Scope py_scope.

Definition VALID_DOMAIN_ROLES : list string := ["PRIMARY_DELTA_EXECUTION"; "WORKLOAD_DOMAIN"; "PLUGIN_BINDING_SMOKE"].
Definition VALID_EXECUTION_SCOPES : list string := ["STAGE_C_REAL_DRQ1"; "PLUGIN_BOUNDARY"; "MODEL_DATASET_BINDING_ONLY"].

Definition validate_model_dataset_capability (model : PluginDescriptor) (dataset : DatasetDescriptor) (scope : string) : lresult unit :=
  require (str_in scope VALID_EXECUTION_SCOPES) (RunnerErr "INVALID_EXECUTION_SCOPE") ;?
  check_compatibility (d_sample_kind model) (d_target_kind model) dataset ;?
  require (negb (String.eqb scope "STAGE_C_REAL_DRQ1" && negb (d_supports_stage_c model))) (RunnerErr "CAPABILITY_MISMATCH").

(** ** Regular expressions

    [re.match] with a final [$] also accepts one line feed at the end. *)

Definition drop_newline (s : string) : string :=
  let n := (String.length s - 1)%nat in
  if String.eqb (str_drop n s) (String newline EmptyString) then str_take n s else s.

Definition hex40 (s : string) : bool := lower_hex 40 (drop_newline s).
Definition sha256_re (s : string) : bool :=
  match strip_prefix "sha256:" (drop_newline s) with Some r => lower_hex 64 r | None => false end.

(** Groups of lower-case hex digits of the given lengths, with [-] between *)
Fixpoint hex_groups (lens : list nat) (s : string) : bool :=
  match lens with
  | [] => String.eqb s EmptyString
  | [n] => lower_hex n s
  | n :: r =>
      lower_hex n (str_take n s) &&
      match strip_prefix "-" (str_drop n s) with Some t => hex_groups r t | None => false end
  end.
Definition uuid_re (s : string) : bool := hex_groups [8; 4; 4; 4; 12]%nat (drop_newline s).

Section Runner.
Context {Data Model : Type}.

Record ModelDatasetBinding := mkBinding {
  b_model_plugin : ModelPlugin Data Model;
  b_model_descriptor : PluginDescriptor;
  b_dataset_provider : DatasetProvider Data;
  b_dataset_descriptor : DatasetDescriptor }.

(** ** Operations of a binding *)

Definition binding_materialize (b : ModelDatasetBinding) (cache_dir : option string) (allow_download : bool) : lresult (odict json) :=
  let resolved_cache :=
    match cache_dir with Some d => d | None => ".cache/deltatorrent/" +:+ ds_dataset_id (b_dataset_descriptor b) end in
  v_materialize (b_dataset_provider b) resolved_cache allow_download.

(** One item of the ticket context *)
Definition context_item (item : json) : lresult unit :=
  match item with
  | JObj o =>
      rforall (fun key => require (match jget key o with JStr v => negb (String.eqb v EmptyString) | _ => false end)
                            (RunnerErr "TICKET_CONTEXT_KEY_MISSING"))
        ["session_id"; "data_window_id"; "intervention_event_id"]
  | _ => Raise (RunnerErr "INVALID_TICKET_CONTEXT_ITEM")
  end.

Definition check_ticket_context (p : DataPartition Data) : lresult unit :=
  match jget "ticket_context" (p_metadata p) with
  | JNull => Ok tt
  | JArr items =>
      require (Z.of_nat (length items) =? p_samples_length p) (RunnerErr "TICKET_CONTEXT_COUNT_MISMATCH") ;?
      rforall context_item items
  | _ => Raise (RunnerErr "INVALID_TICKET_CONTEXT_TYPE")
  end.

Definition binding_train_ticket (b : ModelDatasetBinding) (ticket_id partition_id : string) (parent_model : option Model) :
    lresult (LocalTrainingResult Data) :=
  require (negb (String.eqb ticket_id EmptyString)) (RunnerErr "INVALID_TICKET_ID") ;?
  require (negb (String.eqb partition_id EmptyString)) (RunnerErr "INVALID_PARTITION_ID") ;?
  let? partition := v_training_partition (b_dataset_provider b) partition_id in
  match partition with
  | None => Raise (RunnerErr "INVALID_DATA_PARTITION")
  | Some p =>
      check_ticket_context p ;?
      let? result := m_train_ticket (b_model_plugin b) ticket_id (p_data p) parent_model in
      Ok (mkTrainingResult (lt_ticket_id result) (lt_tensors result)
            (od_set "data_partition_metadata" (JObj (p_metadata p))
               (od_set "data_partition_id" (JStr (p_partition_id p)) (lt_metadata result))))
  end.

Definition binding_evaluate (b : ModelDatasetBinding) (model : Model) : lresult EvaluationResult :=
  let? test := v_evaluation_data (b_dataset_provider b) in
  m_evaluate (b_model_plugin b) model test.

Definition binding_evaluate_checkpoint (b : ModelDatasetBinding) (values : json) : lresult EvaluationResult :=
  let? model := m_load_applied_checkpoint (b_model_plugin b) values in
  binding_evaluate b model.

(** ** Binding *)

Definition bind_model_and_dataset (call : nat) (models : ModelPluginRegistry Data Model) (datasets : DatasetRegistry Data)
    (model_plugin_id dataset_id scope : string) : lresult ModelDatasetBinding :=
  let? model_descriptor := get_plugin_descriptor model_plugin_id models in
  let? dataset_descriptor := get_dataset_descriptor dataset_id datasets in
  validate_model_dataset_capability model_descriptor dataset_descriptor scope ;?
  let? model_plugin := get_plugin call model_plugin_id models in
  let? dataset_provider := get_dataset call dataset_id datasets in
  Ok (mkBinding model_plugin model_descriptor dataset_provider dataset_descriptor).

(** ** The runner *)

Record ModelPluginRunner := mkRunner {
  r_binding : ModelDatasetBinding;
  r_execution_scope : string;
  r_last_execution : option (odict json) }.

Definition new_runner (call : nat) (models : ModelPluginRegistry Data Model) (datasets : DatasetRegistry Data)
    (plugin_id dataset_id scope : string) : lresult ModelPluginRunner :=
  require (negb (String.eqb plugin_id EmptyString)) (RunnerErr "INVALID_PLUGIN_ID") ;?
  require (negb (String.eqb dataset_id EmptyString)) (RunnerErr "INVALID_DATASET_ID") ;?
  let? binding := bind_model_and_dataset call models datasets plugin_id dataset_id scope in
  Ok (mkRunner binding scope None).

Definition executed (e : odict json) (r : ModelPluginRunner) : ModelPluginRunner :=
  mkRunner (r_binding r) (r_execution_scope r) (Some e).

(** A method: the runner after it, and the result; an exception leaves
    [_last_execution] as it was. *)
Definition materialize_dataset (cache_dir : option string) (allow_download : bool) (r : ModelPluginRunner) :
    ModelPluginRunner * lresult (odict json) :=
  (r, binding_materialize (r_binding r) cache_dir allow_download).

Definition train_ticket (ticket_id partition_id : string) (parent_model : option Model) (r : ModelPluginRunner) :
    ModelPluginRunner * lresult (LocalTrainingResult Data) :=
  match binding_train_ticket (r_binding r) ticket_id partition_id parent_model with
  | Ok t => (executed [("type", JStr "TRAIN_TICKET"); ("ticket_id", JStr ticket_id); ("partition_id", JStr partition_id)] r, Ok t)
  | Raise e => (r, Raise e)
  end.

Definition evaluate (model : Model) (r : ModelPluginRunner) : ModelPluginRunner * lresult EvaluationResult :=
  match binding_evaluate (r_binding r) model with
  | Ok t => (executed [("type", JStr "EVALUATE")] r, Ok t)
  | Raise e => (r, Raise e)
  end.

Definition evaluate_checkpoint (values : json) (r : ModelPluginRunner) : ModelPluginRunner * lresult EvaluationResult :=
  match binding_evaluate_checkpoint (r_binding r) values with
  | Ok t => (executed [("type", JStr "EVALUATE_CHECKPOINT")] r, Ok t)
  | Raise e => (r, Raise e)
  end.

(** ** Receipts *)

(** The arguments of [emit_execution_receipt]; [JNull] for a lineage field that
    is not given *)
Record receipt_args := mkReceiptArgs {
  ra_backend_commit : string;
  ra_catalog_backend_ref : option string;
  ra_producer_commit : option string;
  ra_controller_commit : json;
  ra_intent_id : json;
  ra_intent_digest : json;
  ra_admission_id : json;
  ra_admission_digest : json;
  ra_execution_id : json;
  ra_repository : string;
  ra_produced_at : option string }.

Definition DEFAULT_BACKEND_COMMIT : string := "670b58f6458fe84620f4f9f46401f855d04ae05d".

(** [not value or not re.match(value)] raises *)
Definition matching (re : string -> bool) (error : string) (value : json) : lresult string :=
  require (truthy value) (RunnerErr error) ;?
  match value with
  | JStr s => require (re s) (RunnerErr error) ;? Ok s
  | _ => Raise LTypeError
  end.

(** The lineage fields, when the intent or the execution is named *)
Definition lineage (a : receipt_args) : lresult (odict json) :=
  match ra_intent_id a, ra_execution_id a with
  | JNull, JNull => Ok []
  | _, _ =>
      let? controller_commit := matching hex40 "INVALID_CONTROLLER_COMMIT" (ra_controller_commit a) in
      let? intent_id := matching uuid_re "INVALID_INTENT_ID" (ra_intent_id a) in
      let? intent_digest := matching sha256_re "INVALID_INTENT_DIGEST" (ra_intent_digest a) in
      let? admission_id := matching uuid_re "INVALID_ADMISSION_ID" (ra_admission_id a) in
      let? admission_digest := matching sha256_re "INVALID_ADMISSION_DIGEST" (ra_admission_digest a) in
      let? execution_id := matching uuid_re "INVALID_EXECUTION_ID" (ra_execution_id a) in
      Ok [("controller_commit", JStr controller_commit); ("intent_id", JStr intent_id); ("intent_digest", JStr intent_digest);
          ("admission_id", JStr admission_id); ("admission_digest", JStr admission_digest); ("execution_id", JStr execution_id)]
  end.

Definition workload_config_digest (r : ModelPluginRunner) (catalog_backend_ref : string) : string :=
  "sha256:" +:+ sha256_hex
    (d_plugin_id (b_model_descriptor (r_binding r)) +:+ ":" +:+ ds_dataset_id (b_dataset_descriptor (r_binding r)) +:+ ":"
     +:+ r_execution_scope r +:+ ":" +:+ catalog_backend_ref).

(** The producer commit when no argument gives it: the two environment variables,
    then [git rev-parse HEAD] *)
Definition resolve_producer (environment git : option string) (given : option string) : option string :=
  match given with
  | Some c => Some c
  | None => match environment with
            | Some c => Some c
            | None => match git with Some c => if hex40 c then Some c else None | None => None end
            end
  end.

Definition emit_execution_receipt (a : receipt_args) (environment git : option string) (now : string) (r : ModelPluginRunner) :
    lresult (odict json) :=
  require (negb (String.eqb (r_execution_scope r) "STAGE_C_REAL_DRQ1"))
    (RunnerErr "STAGE_C_REAL_DRQ1_REQUIRES_NATIVE_CONSENSUS_HARNESS") ;?
  require (match r_last_execution r with Some _ => true | None => false end) (RunnerErr "NO_EXECUTION_RECORDED") ;?
  require (hex40 (ra_backend_commit a)) (RunnerErr "INVALID_BACKEND_COMMIT") ;?
  let? catalog_backend_ref :=
    match ra_catalog_backend_ref a with
    | Some c =>
        require (hex40 c) (RunnerErr "INVALID_CATALOG_BACKEND_REF") ;?
        require (String.eqb c (ra_backend_commit a)) (RunnerErr "PROVENANCE_REF_MISMATCH") ;?
        Ok c
    | None => Ok (ra_backend_commit a)
    end in
  match resolve_producer environment git (ra_producer_commit a) with
  | None => Raise (RunnerErr "PRODUCER_COMMIT_REQUIRED")
  | Some producer =>
      require (hex40 producer) (RunnerErr "INVALID_PRODUCER_COMMIT") ;?
      let produced_at := match ra_produced_at a with Some (String _ _ as t) => t | _ => now end in
      let? more := lineage a in
      Ok [("schema_version", JStr "1.0.0");
          ("receipt_type", JStr "DELTAREDUCE_EXECUTION_RECEIPT");
          ("provenance",
           JObj ([("repository", JStr (ra_repository a)); ("backend_commit", JStr (ra_backend_commit a));
                  ("catalog_backend_ref", JStr catalog_backend_ref); ("producer_commit", JStr producer);
                  ("produced_at", JStr produced_at)]
                 ++ more)%list);
          ("workload",
           JObj [("model_plugin_id", JStr (d_plugin_id (b_model_descriptor (r_binding r))));
                 ("dataset_id", JStr (ds_dataset_id (b_dataset_descriptor (r_binding r))));
                 ("executed_scope", JStr (r_execution_scope r));
                 ("workload_config_digest", JStr (workload_config_digest r catalog_backend_ref))]);
          ("execution", JObj [("verdict", JStr "SUCCESS"); ("terminal_status", JStr "COMPLETED")])]
  end.
(** ** Several domains *)

Record DomainBindingSpec := mkDomainSpec {
  sp_domain_id : string;
  sp_model_plugin_id : string;
  sp_dataset_id : string;
  sp_role : string;
  sp_execution_scope : string }.

(** [__post_init__] *)
Definition new_domain_spec (domain_id model_plugin_id dataset_id role scope : string) : lresult DomainBindingSpec :=
  require (negb (String.eqb domain_id EmptyString)) (RunnerErr "DOMAIN_ID_EMPTY") ;?
  require (negb (String.eqb model_plugin_id EmptyString)) (RunnerErr "DOMAIN_MODEL_PLUGIN_ID_EMPTY") ;?
  require (negb (String.eqb dataset_id EmptyString)) (RunnerErr "DOMAIN_DATASET_ID_EMPTY") ;?
  require (str_in role VALID_DOMAIN_ROLES) (RunnerErr "INVALID_DOMAIN_ROLE") ;?
  require (str_in scope VALID_EXECUTION_SCOPES) (RunnerErr "INVALID_EXECUTION_SCOPE") ;?
  Ok (mkDomainSpec domain_id model_plugin_id dataset_id role scope).

Record MultiDomainBinding := mkMulti { md_bindings : odict ModelDatasetBinding; md_specs : odict DomainBindingSpec }.

Definition domain_ids (m : MultiDomainBinding) : list string := od_keys (md_bindings m).

Definition get_domain (domain_id : string) (m : MultiDomainBinding) : lresult ModelDatasetBinding :=
  match od_get domain_id (md_bindings m) with
  | Some b => Ok b
  | None => Raise (RunnerErr "UNKNOWN_DOMAIN_ID")
  end.

Definition describe_domain (domain_id : string) (b : ModelDatasetBinding) (spec : DomainBindingSpec) : odict json :=
  [("contract_compatibility", JStr "PASS");
   ("dataset_id", JStr (ds_dataset_id (b_dataset_descriptor b)));
   ("dataset_name", JStr (ds_display_name (b_dataset_descriptor b)));
   ("domain_id", JStr domain_id);
   ("execution_scope", JStr (sp_execution_scope spec));
   ("model_name", JStr (d_plugin_name (b_model_descriptor b)));
   ("model_plugin_id", JStr (d_plugin_id (b_model_descriptor b)));
   ("requested_execution_scope", JStr (sp_execution_scope spec));
   ("role", JStr (sp_role spec));
   ("sample_kind", JStr (d_sample_kind (b_model_descriptor b)));
   ("supports_stage_c_real_drq1", JBool (d_supports_stage_c (b_model_descriptor b)));
   ("target_kind", JStr (d_target_kind (b_model_descriptor b)));
   ("total_elements", JInt (m_total_elements (b_model_plugin b)))].

Definition describe (m : MultiDomainBinding) : lresult (list (odict json)) :=
  rmap (fun kv => match od_get kv.1 (md_specs m) with
                  | Some spec => Ok (describe_domain kv.1 kv.2 spec)
                  | None => Raise LKeyError
                  end) (md_bindings m).

(** The loop over the specs; the first binding is call [call]. *)
Fixpoint bind_specs (call : nat) (models : ModelPluginRegistry Data Model) (datasets : DatasetRegistry Data)
    (specs : list DomainBindingSpec) (m : MultiDomainBinding) : lresult MultiDomainBinding :=
  match specs with
  | [] => Ok m
  | spec :: r =>
      require (negb (str_in (sp_domain_id spec) (od_keys (md_bindings m)))) (RunnerErr "DUPLICATE_DOMAIN_ID") ;?
      let? binding := bind_model_and_dataset call models datasets (sp_model_plugin_id spec) (sp_dataset_id spec)
                        (sp_execution_scope spec) in
      bind_specs (S call) models datasets r
        (mkMulti (od_set (sp_domain_id spec) binding (md_bindings m)) (od_set (sp_domain_id spec) spec (md_specs m)))
  end.

Definition bind_model_dataset_domains (call : nat) (models : ModelPluginRegistry Data Model) (datasets : DatasetRegistry Data)
    (specs : list DomainBindingSpec) : lresult MultiDomainBinding :=
  require (match specs with [] => false | _ => true end) (RunnerErr "DOMAIN_BINDING_SET_EMPTY") ;?
  bind_specs call models datasets specs (mkMulti [] []).

(** ** What a binding is *)

(** Ids and kinds agree, and the scope is one the plugin supports. *)
Record bound (models : ModelPluginRegistry Data Model) (datasets : DatasetRegistry Data) (plugin dataset scope : string)
    (b : ModelDatasetBinding) : Prop := {
  bd_plugin : m_plugin_id (b_model_plugin b) = plugin;
  bd_dataset : v_dataset_id (b_dataset_provider b) = dataset;
  bd_model_descriptor : od_get plugin (plugin_descriptors models) = Some (b_model_descriptor b);
  bd_dataset_descriptor : od_get dataset (dataset_descriptors datasets) = Some (b_dataset_descriptor b);
  bd_provider_descriptor : v_descriptor (b_dataset_provider b) = b_dataset_descriptor b;
  bd_sample : d_sample_kind (b_model_descriptor b) = ds_sample_kind (b_dataset_descriptor b);
  bd_target : d_target_kind (b_model_descriptor b) = ds_target_kind (b_dataset_descriptor b);
  bd_scope : scope ∈ VALID_EXECUTION_SCOPES;
  bd_stage_c : scope = "STAGE_C_REAL_DRQ1" -> d_supports_stage_c (b_model_descriptor b) = true }.

Lemma bind_Ok call models datasets plugin dataset scope b :
  bind_model_and_dataset call models datasets plugin dataset scope = Ok b -> bound models datasets plugin dataset scope b.
Proof.
  unfold bind_model_and_dataset, get_plugin_descriptor, get_dataset_descriptor. rewrite rbind_Ok. intros (m & M & H).
  destruct (od_get plugin (plugin_descriptors models)) as [m'|] eqn:Em; [|done]. injection M as ->.
  apply rbind_Ok in H as (d & D & H). destruct (od_get dataset (dataset_descriptors datasets)) as [d'|] eqn:Ed; [|done]. injection D as ->.
  apply rbind_unit_Ok in H as (V & H). unfold validate_model_dataset_capability, check_compatibility in V.
  apply rbind_unit_Ok in V as (Vs%require_Ok%str_in_elem & V). apply rbind_unit_Ok in V as (V & Vc%require_Ok%negb_true_iff).
  apply rbind_unit_Ok in V as (K1%require_Ok%String.eqb_eq & K2%require_Ok%String.eqb_eq).
  apply rbind_Ok in H as (p & P & H). apply rbind_Ok in H as (v & D & [= <-]). unfold get_plugin in P. unfold get_dataset in D.
  destruct (od_get plugin (plugin_factories models)) as [f|]; [|done]. apply rbind_Ok in P as ([p'|] & _ & P); [|done].
  apply rbind_unit_Ok in P as (I%require_Ok%String.eqb_eq & [= ->]).
  destruct (od_get dataset (dataset_factories datasets)) as [g|]; [|done]. apply rbind_Ok in D as ([v'|] & _ & D); [|done].
  apply rbind_unit_Ok in D as (J%require_Ok%String.eqb_eq & D). rewrite Ed in D.
  apply rbind_unit_Ok in D as (E%require_Ok%bool_decide_eq_true & [= ->]).
  constructor; try done. cbn. intros ->. cbn in Vc. by apply negb_false_iff in Vc.
Qed.

(** The bindings of a run are those of its specs, one per domain. *)
Lemma bind_specs_Ok call models datasets specs m m' :
  bind_specs call models datasets specs m = Ok m' ->
  od_keys (md_bindings m') = (od_keys (md_bindings m) ++ map sp_domain_id specs)%list /\
 (od_keys (md_specs m) = od_keys (md_bindings m) -> od_keys (md_specs m') = od_keys (md_bindings m')) /\
 (NoDup (od_keys (md_bindings m)) -> NoDup (od_keys (md_bindings m'))) /\
 (forall k, k ∈ od_keys (md_bindings m) -> od_get k (md_bindings m') = od_get k (md_bindings m) /\ od_get k (md_specs m') = od_get k (md_specs m)) /\
 (forall spec, spec ∈ specs -> exists b, od_get (sp_domain_id spec) (md_bindings m') = Some b /\
    od_get (sp_domain_id spec) (md_specs m') = Some spec /\
    bound models datasets (sp_model_plugin_id spec) (sp_dataset_id spec) (sp_execution_scope spec) b).
Proof.
  revert call m. induction specs as [|spec r IH]; intros call m.
  - intros [= ->]. cbn [map]. rewrite app_nil_r. repeat split; try done. by intros ? ?%elem_of_nil.
  - cbn [bind_specs]. rewrite rbind_unit_Ok. intros [N%require_Ok%negb_true_iff H]. apply rbind_Ok in H as (b & B%bind_Ok & H).
    apply IH in H as (K & S & D & F & A). cbn [md_bindings md_specs] in *.
    assert (N' : sp_domain_id spec ∉ od_keys (md_bindings m)) by (intros E%str_in_elem; congruence).
    assert (Ks : od_keys (od_set (sp_domain_id spec) b (md_bindings m)) = (od_keys (md_bindings m) ++ [sp_domain_id spec])%list).
    { rewrite od_set_new by (by apply od_get_None). unfold od_keys. by rewrite map_app. }
    rewrite Ks in K, F, D. split; [|split; [|split; [|split]]].
    + rewrite K, <- app_assoc. done.
    + intros E. apply S. rewrite Ks. rewrite od_set_new by (apply od_get_None; by rewrite E). unfold od_keys in *. rewrite map_app. by rewrite E.
    + intros Nd. apply D. apply NoDup_app. split; [done|]. split; [|repeat constructor; set_solver]. set_solver.
    + intros k Hk. destruct (F k) as [-> ->]; [set_solver|]. by rewrite !od_get_set_ne by (intros ->; done).
    + intros s [->|Hs]%elem_of_cons; [|by apply A]. destruct (F (sp_domain_id spec)) as [-> ->]; [set_solver|].
      exists b. by rewrite !od_get_set_eq.
Qed.

(** a multi-domain run is exactly its specs: the domains are those of the
    specs, in their order and without duplicates; each is bound to the plugin
    and the provider its spec names, instances of the registered descriptors,
    with equal sample and target kinds and a scope the plugin supports; and
    every domain can be looked up and described. *)
Theorem domain_bindings_exact (call : nat) (models : ModelPluginRegistry Data Model) (datasets : DatasetRegistry Data)
    (specs : list DomainBindingSpec) (m : MultiDomainBinding)
    (B : bind_model_dataset_domains call models datasets specs = Ok m) :
  domain_ids m = map sp_domain_id specs /\ NoDup (domain_ids m) /\
 (forall spec, spec ∈ specs -> exists b, get_domain (sp_domain_id spec) m = Ok b /\
    bound models datasets (sp_model_plugin_id spec) (sp_dataset_id spec) (sp_execution_scope spec) b) /\
 (exists docs, describe m = Ok docs /\ map (jget "domain_id") docs = map (fun i => JStr i) (domain_ids m)).
Proof.
  unfold bind_model_dataset_domains in B. apply rbind_unit_Ok in B as (_ & B).
  apply bind_specs_Ok in B as (K & S & D & _ & A). cbn [md_bindings md_specs od_keys map app] in *. unfold domain_ids.
  split; [done|]. split; [apply D; constructor|]. split.
  - intros spec H. destruct (A spec H) as (b & G & _ & Hb). exists b. unfold get_domain. by rewrite G.
  - specialize (S eq_refl). unfold describe. assert (T : forall k, k ∈ od_keys (md_bindings m) -> is_Some (od_get k (md_specs m))).
    { intros k Hk. rewrite <- S in Hk. destruct (od_get k (md_specs m)) eqn:E; [done|]. by apply od_get_None in E. }
    clear - T. unfold od_keys in *. induction (md_bindings m) as [|[k b] l IH]; [by exists []|].
    destruct IH as (docs & E & M). { intros j Hj. apply T. by right. }
    destruct (T k) as [spec Sp]; [by left|]. cbn [rmap fst snd]. rewrite Sp. cbn [rbind]. rewrite E. cbn [rbind].
    eexists. split; [reflexivity|]. cbn [map]. by rewrite M.
Qed.
End Runner.

Arguments ModelDatasetBinding : clear implicits.
Arguments ModelPluginRunner : clear implicits.
