(* ===== verification/LiveDispatch.v ===== *)
(** * The dispatcher of the worker process ([deltatorrent/live_execution/dispatch.py])

    Three operations of a closed table, run in a thread that may time out, with
    cancellation read at four points.  Whether the thread finishes in time and
    what a token answers are the environment's. *)

From S2P Require Import Prelude PyFloat Json JsonText Text Sha256 Errors Canonical LedgerRecord Ingress LiveCrypto LivePreflight PluginRegistry PluginRunner.
Open Scope string_scope.
Open Scope Z_scope.
Open Scope py_scope.

(** The readings of [token.is_cancelled] in the order of the code *)
Inductive check_point := BeforeStart | InThread | BeforeWork | AfterWork.

(** [CancellationToken]: what it answers at each reading *)
Definition CancellationToken : Type := check_point -> bool.

(** A token nobody cancels *)
Definition fresh_token : CancellationToken := fun _ => false.

Record run_env := mkRunEnv {
  re_timed_out : bool;
  re_now : string;
  re_call : nat }.

Definition APPROVED_OPERATIONS : list string := ["TRAIN_TICKET"; "EVALUATE_CHECKPOINT"; "MATERIALIZE_DATASET"].

Record ClosedEnumWorkerDispatcher := mkDispatcher { dp_producer_commit : option string; dp_cache_root : string }.

Definition new_dispatcher (producer_commit : option string) (cache_root : option string) : lresult ClosedEnumWorkerDispatcher :=
  require (match producer_commit with Some c => lower_hex 40 c | None => true end) LValueError ;?
  Ok (mkDispatcher producer_commit (match cache_root with Some r => r | None => ".cache/deltatorrent" end)).

Definition bad_payload (m : string) : live_exn := WorkerDispatchError "ERR_SCHEMA_VALIDATION_FAILED" m.
Definition unsupported_operation : live_exn :=
  WorkerDispatchError "ERR_OPERATION_SCOPE_UNSUPPORTED" "Operation is not in approved closed enum table".

(** A non-empty string of the payload *)
Definition payload_string (key message : string) (payload : odict json) : lresult string :=
  match jget key payload with
  | JStr (String _ _ as s) => Ok s
  | _ => Raise (bad_payload message)
  end.

Definition check_cancelled (token : CancellationToken) (p : check_point) (message : string) : lresult unit :=
  require (negb (token p)) (WorkerCancelledError message).

(** [":" in s] *)
Definition has_char (c : ascii) (s : string) : bool := negb (str_all (fun a => negb (ch_eq a c)) s).
(** [".." in s] *)
Fixpoint has_dots (s : string) : bool :=
  match s with
  | EmptyString => false
  | String a r => starts_with ".." s || has_dots r
  end.

Definition illegal_key (s : string) : bool :=
  has_dots s || starts_with "/" s || starts_with (String backslash EmptyString) s || has_char ":"%char s.

(** The cache directory of a key: only a string has all three tests. *)
Definition cache_dir (root : string) (cache_key : json) : lresult (option string) :=
  if negb (truthy cache_key) then Ok None
  else
    match cache_key with
    | JStr s => require (negb (illegal_key s)) (bad_payload "Illegal cache_key") ;? Ok (Some (root +:+ "/" +:+ s))
    | JArr l => if existsb (fun x => py_eq x (JStr "..")) l then Raise (bad_payload "Illegal cache_key") else Raise LAttributeError
    | JObj o => if str_in ".." (od_keys o) then Raise (bad_payload "Illegal cache_key") else Raise LAttributeError
    | _ => Raise LTypeError
    end.

Section Dispatch.
Context {Data Model : Type}.
Context (models : ModelPluginRegistry Data Model) (datasets : DatasetRegistry Data).

(** The receipt of a runner for a context *)
Definition context_receipt (r : ModelPluginRunner Data Model) (x : PreflightContext) (producer now : string) : lresult (odict json) :=
  emit_execution_receipt
    (mkReceiptArgs DEFAULT_BACKEND_COMMIT None (Some producer) (x_controller_commit x) (x_intent_id x) (x_intent_digest x)
       (x_admission_id x) (x_admission_digest x) (x_execution_id x) "chartjs333/delta" None)
    None None now r.

Definition _execute_train_ticket (r : ModelPluginRunner Data Model) (x : PreflightContext) (token : CancellationToken)
    (producer now : string) : lresult (odict json) :=
  let? payload := as_dict (x_operation_payload x) in
  let? ticket_id := payload_string "ticket_id" "Missing or invalid ticket_id" payload in
  let? partition_id := payload_string "partition_id" "Missing or invalid partition_id" payload in
  check_cancelled token BeforeWork "Operation cancelled before ticket training" ;?
  let '(r, trained) := train_ticket ticket_id partition_id None r in
  let? trained := trained in
  check_cancelled token AfterWork "Operation cancelled after ticket training" ;?
  let? receipt := context_receipt r x producer now in
  Ok [("status", JStr "COMPLETED"); ("execution_id", x_execution_id x); ("operation", JStr "TRAIN_TICKET");
      ("result_metadata", JObj (lt_metadata trained)); ("receipt", JObj receipt)].

(** A descriptor has no attribute [parameter_schema], so its length is never
    compared with that of the coordinates. *)
Definition _execute_evaluate_checkpoint (r : ModelPluginRunner Data Model) (x : PreflightContext) (token : CancellationToken)
    (producer now : string) : lresult (odict json) :=
  let? payload := as_dict (x_operation_payload x) in
  let coordinates := jget "checkpoint_coordinates" payload in
  require (match coordinates with JArr _ | JStr _ => true | _ => false end)
    (bad_payload "Missing or invalid checkpoint_coordinates") ;?
  let? _ := get_plugin_descriptor (x_model_plugin_id x) models in
  check_cancelled token BeforeWork "Operation cancelled before checkpoint evaluation" ;?
  let '(r, evaluated) := evaluate_checkpoint coordinates r in
  let? evaluated := evaluated in
  check_cancelled token AfterWork "Operation cancelled after checkpoint evaluation" ;?
  let? receipt := context_receipt r x producer now in
  Ok [("status", JStr "COMPLETED"); ("execution_id", x_execution_id x); ("operation", JStr "EVALUATE_CHECKPOINT");
      ("metrics", JObj (metrics evaluated)); ("receipt", JObj receipt)].

Definition _execute_materialize_dataset (root : string) (r : ModelPluginRunner Data Model) (x : PreflightContext)
    (token : CancellationToken) : lresult (odict json) :=
  let? payload := as_dict (x_operation_payload x) in
  let? dir := cache_dir root (jget "cache_key" payload) in
  check_cancelled token BeforeWork "Operation cancelled before materialization" ;?
  let? info := (materialize_dataset dir (x_allow_downloads x) r).2 in
  Ok [("status", JStr "COMPLETED"); ("execution_id", x_execution_id x); ("operation", JStr "MATERIALIZE_DATASET");
      ("materialize_info", JObj info); ("receipt", JNull)].

(** [_timed_run], what the thread does *)
Definition timed_run (d : ClosedEnumWorkerDispatcher) (x : PreflightContext) (token : CancellationToken)
    (runner_override : option (ModelPluginRunner Data Model)) (producer : string) (env : run_env) : lresult (odict json) :=
  check_cancelled token InThread "Operation cancelled before start" ;?
  let? runner :=
    match runner_override with
    | Some r => Ok r
    | None => new_runner (re_call env) models datasets (x_model_plugin_id x) (x_dataset_id x) (x_requested_scope x)
    end in
  if String.eqb (x_operation x) "TRAIN_TICKET" then _execute_train_ticket runner x token producer (re_now env)
  else if String.eqb (x_operation x) "EVALUATE_CHECKPOINT" then _execute_evaluate_checkpoint runner x token producer (re_now env)
  else if String.eqb (x_operation x) "MATERIALIZE_DATASET" then _execute_materialize_dataset (dp_cache_root d) runner x token
  else Raise unsupported_operation.

(** [producer_commit or self.producer_commit] *)
Definition effective_producer (given : option string) (d : ClosedEnumWorkerDispatcher) : option string :=
  match given with Some (String _ _ as c) => Some c | _ => dp_producer_commit d end.

Definition dispatch (d : ClosedEnumWorkerDispatcher) (x : PreflightContext) (token : option CancellationToken)
    (runner_override : option (ModelPluginRunner Data Model)) (producer_commit : option string) (env : run_env) : lresult (odict json) :=
  match effective_producer producer_commit d with
  | None => Raise (WorkerDispatchError "ERR_WORKER_DISPATCH_FAILED" "An explicit 40-character producer_commit is required")
  | Some producer =>
      require (lower_hex 40 producer)
        (WorkerDispatchError "ERR_WORKER_DISPATCH_FAILED" "An explicit 40-character producer_commit is required") ;?
      require (match token with Some t => negb (t BeforeStart) | None => true end)
        (WorkerCancelledError "Operation was cancelled before start") ;?
      require (str_in (x_operation x) APPROVED_OPERATIONS) unsupported_operation ;?
      let local_token := match token with Some t => t | None => fresh_token end in
      if re_timed_out env then Raise (WorkerTimeoutError "Execution timed out")
      else timed_run d x local_token runner_override producer env
  end.
End Dispatch.
