(* ===== verification/LiveProcess.v ===== *)
(** * The worker process ([deltatorrent/live_execution/process.py])

    One bounded document on standard input, one document on standard output: the
    trust roots, the preflight, the dispatch, and the translation of every error
    into a document.  The bytes of files and streams and the environment of the
    run are arguments. *)

From S2P Require Import Prelude PyFloat Json JsonText Text Sha256 Errors Canonical LedgerRecord Ingress LiveCrypto LivePreflight PluginRegistry PluginRunner LiveDispatch.
Open Scope string_scope.
Open Scope Z_scope.
Open Scope py_scope.

Definition MAX_AUTHORIZED_EXECUTION_BYTES : Z := 10 * 1024 * 1024.
Definition MAX_TRUST_ROOTS_BYTES : Z := 64 * 1024.
Definition MAX_JSON_DEPTH : nat := 32.
Definition _FIXTURE_KEY_ID : string := "step5c-fixture-ed25519".
Definition _FIXTURE_ISSUER_ID : string := "step5c-fixture-controller".

Definition _ERROR_METADATA : odict (string * bool) :=
  [("ERR_SCHEMA_VALIDATION_FAILED", ("SCHEMA", false));
   ("ERR_INTENT_DIGEST_MISMATCH", ("DIGEST", false));
   ("ERR_ADMISSION_DIGEST_MISMATCH", ("DIGEST", false));
   ("ERR_ADMISSION_SIGNATURE_INVALID", ("WORKER", false));
   ("ERR_ADMISSION_EXPIRED", ("AUTHZ", false));
   ("ERR_OPERATION_SCOPE_UNSUPPORTED", ("CATALOG", false));
   ("ERR_AUTHORIZED_EXECUTION_PARITY_MISMATCH", ("LINEAGE", false));
   ("ERR_STAGE_C_FORBIDDEN", ("CONSENSUS_BOUNDARY", false));
   ("ERR_TIMEOUT", ("WORKER", true));
   ("ERR_CANCELLED", ("WORKER", true));
   ("ERR_WORKER_DISPATCH_FAILED", ("DISPATCH", true))].

(** ** Reading *)

(** [stream.read(limit + 1)] of a stream with these bytes *)
Definition _read_bounded (stream : string) (limit : Z) : lresult string :=
  require (slen stream <=? limit) (ProtocolErr "stdin exceeds the process limit") ;?
  require (negb (String.eqb stream EmptyString)) (ProtocolErr "stdin contains no AuthorizedExecution document") ;?
  Ok stream.

Fixpoint _check_depth (value : json) (depth : nat) : lresult unit :=
  require (depth <=? MAX_JSON_DEPTH)%nat (ProtocolErr "AuthorizedExecution exceeds JSON depth 32") ;?
  match value with
  | JObj o => (fix go (o : odict json) : lresult unit :=
                 match o with [] => Ok tt | kv :: r => _check_depth kv.2 (S depth) ;? go r end) o
  | JArr l => (fix go (l : list json) : lresult unit :=
                 match l with [] => Ok tt | x :: r => _check_depth x (S depth) ;? go r end) l
  | _ => Ok tt
  end.

(** [json.loads(raw.decode("utf-8"))], both errors replaced *)
Definition load_document (raw message : string) : lresult json :=
  require (encodable raw) (ProtocolErr message) ;?
  match loads true raw with Some j => Ok j | None => Raise (ProtocolErr message) end.

(** [set(d) == set(names)] *)
Definition keys_exactly (d : odict json) (names : list string) : bool :=
  forallb (fun k => str_in k names) (od_keys d) && forallb (fun k => str_in k (od_keys d)) names.

(** ** Trust roots *)

Fixpoint configured_keys (items : list json) (keys : odict string) : lresult (odict string) :=
  match items with
  | [] => Ok keys
  | JObj item :: r =>
      require (keys_exactly item ["key_id"; "algorithm"; "public_key_hex"]) (ProtocolErr "trust-root key entry has an invalid shape") ;?
      match jget "key_id" item, jget "public_key_hex" item with
      | JStr key_id, JStr public_key_hex =>
          require (py_eq (jget "algorithm" item) (JStr "ED25519")) (ProtocolErr "trust-root algorithm must be ED25519") ;?
          require (negb (String.eqb key_id _FIXTURE_KEY_ID)) (ProtocolErr "frozen fixture trust is forbidden in the Worker process") ;?
          require (negb (str_in key_id (od_keys keys))) (ProtocolErr "duplicate trust-root key_id") ;?
          configured_keys r (od_set key_id public_key_hex keys)
      | _, _ => Raise (ProtocolErr "trust-root key fields must be strings")
      end
  | _ :: _ => Raise (ProtocolErr "trust-root key entry has an invalid shape")
  end.

Definition load_trust_roots (raw : string) : lresult (string * odict string) :=
  require (slen raw <=? MAX_TRUST_ROOTS_BYTES) (ProtocolErr "trust-roots document exceeds 64 KiB") ;?
  let? document := load_document raw "trust-roots document is not valid UTF-8 JSON" in
  match document with
  | JObj document =>
      require (keys_exactly document ["schema_version"; "issuer_id"; "keys"]) (ProtocolErr "trust-roots document has an invalid shape") ;?
      require (py_eq (jget "schema_version" document) (JStr "1.0.0")) (ProtocolErr "unsupported trust-roots schema_version") ;?
      match jget "issuer_id" document with
      | JStr issuer_id =>
          require (negb (String.eqb (strip issuer_id) EmptyString)) (ProtocolErr "trust-roots issuer_id must be a non-empty string") ;?
          require (negb (String.eqb issuer_id _FIXTURE_ISSUER_ID)) (ProtocolErr "frozen fixture issuer is forbidden in trust roots") ;?
          match jget "keys" document with
          | JArr items =>
              require (match items with [] => false | _ => true end) (ProtocolErr "at least one explicit Worker trust root is required") ;?
              let? trusted_keys := configured_keys items [] in
              let? _ := new_preflight None None trusted_keys in
              Ok (issuer_id, trusted_keys)
          | _ => Raise (ProtocolErr "at least one explicit Worker trust root is required")
          end
      | _ => Raise (ProtocolErr "trust-roots issuer_id must be a non-empty string")
      end
  | _ => Raise (ProtocolErr "trust-roots document has an invalid shape")
  end.

(** ** Executing *)

Definition _error_document (e : WorkerAdapterError) : odict json :=
  let '(category, retryable) := match od_get (ae_code e) _ERROR_METADATA with Some m => m | None => ("DISPATCH", true) end in
  [("schema_version", JStr "1.0.0");
   ("error_code", JStr (if str_in (ae_code e) (od_keys _ERROR_METADATA) then ae_code e else "ERR_WORKER_DISPATCH_FAILED"));
   ("category", JStr category);
   ("retryable", JBool retryable);
   ("message", JStr (str_take 512 (ae_message e)))].

(** The document of a failed execution *)
Definition failure_document (dispatched : bool) (execution_id intent_id operation : json) (status : string)
    (e : WorkerAdapterError) : odict json :=
  [("dispatched", JBool dispatched); ("execution_id", execution_id); ("intent_id", intent_id); ("operation", operation);
   ("status", JStr status); ("error", JObj (_error_document e)); ("receipt", JNull); ("receipt_digest", JNull)].

Definition failure_status (e : WorkerAdapterError) : string :=
  match ae_class e with TimeoutClass => "TIMED_OUT" | CancelledClass => "CANCELLED" | _ => "FAILED" end.

Definition receipt_digest_of (receipt : json) : lresult json :=
  match receipt with
  | JObj o => let? bytes := jcs_bytes receipt in Ok (JStr (sha256_prefixed bytes))
  | _ => Ok JNull
  end.

Section Process.
Context {ISO : IsoText} {PYT : PyText} {Data Model : Type}.
Context (models : ModelPluginRegistry Data Model) (datasets : DatasetRegistry Data).

Definition _identity (bundle : odict json) : json * json * json :=
  match jget "intent" bundle, jget "admission" bundle with
  | JObj intent, JObj admission =>
      (JStr (py_str (get_or "execution_id" (JStr EmptyString) admission)), JStr (py_str (get_or "intent_id" (JStr EmptyString) intent)),
       JStr (py_str (get_or "operation" (JStr EmptyString) intent)))
  | _, _ => (JStr EmptyString, JStr EmptyString, JStr EmptyString)
  end.

(** What follows the preflight *)
Definition execute_context (x : PreflightContext) (producer_commit cache_root : string) (env : run_env) : lresult (odict json) :=
  let? dispatcher := new_dispatcher (Some producer_commit) (Some cache_root) in
  let outcome :=
    let? worker_result := dispatch models datasets dispatcher x None None None env in
    let receipt := jget "receipt" worker_result in
    let? receipt_digest := receipt_digest_of receipt in
    Ok [("dispatched", JBool true); ("execution_id", x_execution_id x); ("intent_id", x_intent_id x);
        ("operation", JStr (x_operation x)); ("status", jget "status" worker_result); ("receipt", receipt);
        ("receipt_digest", receipt_digest); ("metrics", jget "metrics" worker_result);
        ("materialize_info", jget "materialize_info" worker_result)] in
  match outcome with
  | Raise (AdapterErr e) =>
      Ok (failure_document true (x_execution_id x) (x_intent_id x) (JStr (x_operation x)) (failure_status e) e)
  | _ => outcome
  end.

Definition issuer_matches (document : odict json) (trusted_issuer_id : string) : bool :=
  match jget "admission" document with
  | JObj admission =>
      match jget "authenticator" admission with
      | JObj authenticator => py_eq (jget "issuer_id" authenticator) (JStr trusted_issuer_id)
      | _ => false
      end
  | _ => false
  end.

Definition execute_authorized_document (document : odict json) (trusted_keys : odict string)
    (trusted_issuer_id producer_commit cache_root : string) (now : moment) (env : run_env) : lresult (odict json) :=
  require (lower_hex 40 producer_commit) (ProtocolErr "producer_commit must be an explicit 40-character lowercase build SHA") ;?
  let '(execution_id, intent_id, operation) := _identity document in
  require (issuer_matches document trusted_issuer_id) (ProtocolErr "admission issuer_id does not match the configured issuer") ;?
  let? preflight := new_preflight None None trusted_keys in
  match validate preflight (JObj document) now with
  | Ok x => execute_context x producer_commit cache_root env
  | Raise (AdapterErr e) =>
      if bool_decide (ae_class e = PreflightClass)
      then Ok (failure_document false execution_id intent_id operation "FAILED" e)
      else Raise (AdapterErr e)
  | Raise e => Raise e
  end.

Definition execute_authorized_bytes (raw : string) (trusted_keys : odict string)
    (trusted_issuer_id producer_commit cache_root : string) (now : moment) (env : run_env) : lresult (odict json) :=
  require (slen raw <=? MAX_AUTHORIZED_EXECUTION_BYTES) (ProtocolErr "AuthorizedExecution exceeds 10485760 bytes") ;?
  let? document := load_document raw "stdin is not one valid UTF-8 JSON document" in
  match document with
  | JObj o =>
      _check_depth document 1 ;?
      execute_authorized_document o trusted_keys trusted_issuer_id producer_commit cache_root now env
  | _ => Raise (ProtocolErr "AuthorizedExecution must be a JSON object")
  end.

(** The document of a protocol error; [str(exc)[:512]] counts code points *)
Definition protocol_error (e : live_exn) : odict json :=
  let text := exn_str e in
  let message := match decode text with Some points => encode (take 512 points) | None => str_take 512 text end in
  [("protocol_error", JObj [("error_code", JStr "ERR_WORKER_DISPATCH_FAILED"); ("message", JStr message)])].

(** [main]: the exit code and the document printed on standard output *)
Definition main (trust_roots stdin : lresult string) (producer_commit cache_root : string) (now : moment) (env : run_env) :
    lresult (Z * odict json) :=
  let outcome :=
    let? raw := trust_roots in
    let? roots := load_trust_roots raw in
    let? stream := stdin in
    let? payload := _read_bounded stream MAX_AUTHORIZED_EXECUTION_BYTES in
    execute_authorized_bytes payload roots.2 roots.1 producer_commit cache_root now env in
  match outcome with
  | Ok result => Ok (0, result)
  | Raise e =>
      if bool_decide (e = LOSError) || is_value_error e then Ok (2, protocol_error e) else Raise e
  end.
End Process.
