(* ===== verification/EndToEnd.v ===== *)
(** * From the gate to the worker process

    The controller and the worker are separate programs with separate
    canonicalizers, digests and clocks.  An admission the gate built and stored
    is accepted by a worker that trusts the gate's key, as long as it is fresh
    and no number in it is a float. *)

From stdpp Require Import relations.
From S2P Require Import Prelude PyFloat Json JsonText Text Sha256 Errors Canonical LedgerRecord Ledger LedgerInv Quota Policy Ingress WorkerCanonical LiveCrypto LivePreflight Dispatch Gate GateInv GateProps.
Open Scope string_scope.
Open Scope Z_scope.
Open Scope py_scope.

#[local] Opaque sha256_bytes.

(** ** What the two programs rely on outside their sources *)

(** A signature of the signing library passes RFC 8032 verification with the raw
    public key, as the worker implements it. *)
Class RFC8032 (ED : Ed25519) := {
  rfc_key_length : forall sk, String.length (public_bytes_raw (public_key_of sk)) = 32%nat;
  rfc_verifies : forall sk m, verify_ed25519 (public_bytes_raw (public_key_of sk)) m (ed_sign sk m) = true }.

(** Printing and reading a point in time *)
Class IsoLaws (ISO : IsoText) := {
  iso_reads : forall m, fromisoformat (replace_z (isoformat m)) = Some m;
  iso_empty : fromisoformat EmptyString = None }.

(** What the admission schema says of the grants; a JSON schema's integer may
    also be written as a float. *)
Class AdmissionSchema (SV : SchemaValidator) := {
  schema_grants : forall admission, schema_accepts "admission-record" (JObj admission) = true ->
    has_float (JObj admission) = false ->
    exists grants t m, jget "resource_grants" admission = JObj grants /\ jget "timeout_seconds" grants = JInt t /\
      1 <= t <= 3600 /\ jget "max_memory_bytes" grants = JInt m /\ 1 <= m }.

(** ** Documents without floats *)

Lemma has_float_pop k (o : odict json) : has_float (JObj o) = false -> has_float (JObj (od_pop k o)) = false.
Proof.
  cbn. induction o as [|[k' v] o IH]; [done|]. cbn. intros [A B]%orb_false_elim.
  destruct (String.eqb k k'); [done|]. cbn. by rewrite A, IH.
Qed.

Lemma has_float_set k v (o : odict json) :
  has_float (JObj o) = false -> has_float v = false -> has_float (JObj (od_set k v o)) = false.
Proof.
  cbn. induction o as [|[k' v'] o IH]; cbn; [by intros _ ->|]. intros [A B]%orb_false_elim V.
  destruct (String.eqb k k'); cbn; [by rewrite V|]. by rewrite A, IH.
Qed.

Lemma has_float_get k v (o : odict json) : has_float (JObj o) = false -> od_get k o = Some v -> has_float v = false.
Proof.
  cbn. induction o as [|[k' v'] o IH]; cbn; [done|]. intros [A B]%orb_false_elim.
  destruct (String.eqb k k'); [by intros [= <-]|by apply IH].
Qed.

Lemma has_float_jget k j o : attr_get j k = Ok o -> has_float j = false -> has_float o = false.
Proof.
  destruct j as [| | | | | |d]; try done. cbn [attr_get]. intros [= <-] F. unfold jget.
  destruct (od_get k d) as [v|] eqn:G; [by apply (has_float_get k v d)|done].
Qed.

(** A digest the controller computed is one the worker recomputes. *)
Lemma declares_canonical key rest doc d :
  has_float (JObj rest) = false -> canonicalize_jcs (JObj rest) = Ok d -> od_get key doc = Some (JStr (sha256_digest d)) ->
  declares key rest doc.
Proof.
  intros F C G. exists d. rewrite jcs_bytes_ordered, C by done. split; [done|]. unfold jget. by rewrite G.
Qed.

(** ** The admission document *)

Section Admission.
Context {SV : SchemaValidator} {ISO : IsoText} {ED : Ed25519}.

Lemma skeleton_no_float g rq grants aid eid now e :
  has_float (timeout_seconds grants) = false -> has_float (JObj (admission_skeleton g rq grants aid eid now e)) = false.
Proof.
  intros T. cbn. rewrite T. cbn. induction (effective_roles (rq_subject rq)) as [|r l IH]; [done|]. exact IH.
Qed.

Lemma grants_no_float q intent n grants :
  has_float (JObj intent) = false -> evaluate_grants q intent n = Ok grants -> has_float (timeout_seconds grants) = false.
Proof.
  intros F. unfold evaluate_grants. rewrite !rbind_unit_Ok, rbind_Ok. intros (_ & _ & t & A & H).
  apply rbind_Ok in H as (timeout & T & [= <-]). cbn [timeout_seconds].
  assert (Ft : has_float t = false).
  { eapply has_float_jget; [exact A|]. destruct (od_get "execution_constraints" intent) as [c|] eqn:G; [|done].
    by apply (has_float_get "execution_constraints" c intent). }
  destruct (is_none t); [by injection T as <-|]. apply rbind_Ok in T as (b & _ & T). by apply rbind_unit_Ok in T as (_ & [= <-]).
Qed.

(** The parts of a signed admission *)
Lemma signed_admission_parts g skeleton admission digest :
  signed_admission g skeleton = Ok (admission, digest) ->
  exists payload,
    od_get "authenticator" admission
    = Some (JObj (od_set "signature" (JStr (to_hex (ed_sign (identity_key (gate_identity g)) payload))) (authenticator g))) /\
    get_admission_signing_payload admission = Ok payload /\
    (has_float (JObj skeleton) = false -> has_float (JObj admission) = false).
Proof.
  unfold signed_admission. rewrite rbind_Ok. intros (dg & _ & H). apply rbind_Ok in H as (sig & S & [= <- <-]).
  unfold sign_admission in S. apply rbind_Ok in S as (payload & Pl & [= <-]). exists payload. split; [by rewrite od_get_set_eq|].
  split.
  - etransitivity; [|exact Pl]. apply (signing_payload_set_signature _ (authenticator g)). by rewrite od_get_set_eq.
  - intros F. apply has_float_set; [|done]. apply has_float_set; [|done]. by apply has_float_set.
Qed.

(** It is signed by a key the worker pins. *)
Lemma admission_signed `{!RFC8032 ED} g skeleton admission digest (pf : AuthorizedExecutionPreflight) :
  signed_admission g skeleton = Ok (admission, digest) -> has_float (JObj skeleton) = false ->
  key_id (gate_identity g) <> EmptyString -> key_id (gate_identity g) ∈ pinned_key_ids pf ->
  od_get (key_id (gate_identity g)) (trusted_keys pf) = Some (get_public_key_hex (identity_key (gate_identity g))) ->
  signed_by pf admission.
Proof.
  intros S F N I T. destruct (signed_admission_parts _ _ _ _ S) as (payload & A & Pl & Fa). specialize (Fa F). constructor.
  eexists _, _, _, _, _, _, payload. split; [exact A|]. split; [reflexivity|]. split; [reflexivity|]. split; [exact N|].
  split; [exact I|]. split; [exact T|]. split; [apply from_hex_to_hex|]. split; [reflexivity|]. split; [apply from_hex_to_hex|].
  split; [|apply rfc_verifies].
  change (unsigned_admission admission) with (admission_signing_doc admission).
  unfold get_admission_signing_payload in Pl. rewrite jcs_bytes_ordered, Pl; [done|].
  unfold admission_signing_doc. rewrite A. apply has_float_set; [done|].
  apply has_float_pop. by cbn.
Qed.

(** The point at which it expires *)
Lemma deadline_aware g intent now e :
  admission_deadline g intent now = Ok e ->
  exists s t, od_get "expires_at" intent = Some (JStr s) /\ fromisoformat (replace_z s) = Some t /\
    aware t = aware now /\ aware e = aware now /\ instant e <= instant t /\
    (instant now <= instant t -> 0 <= admission_ttl_seconds g -> instant now <= instant e).
Proof.
  unfold admission_deadline, get_item. destruct (od_get "expires_at" intent) as [v|]; [|done]. cbn [rbind]. destruct v as [| | | |s| |]; try done.
  destruct (fromisoformat (replace_z s)) as [t|] eqn:F; [|done]. unfold moment_min, moment_le.
  destruct (Bool.eqb_spec (aware t) (aware (add_seconds now (admission_ttl_seconds g)))) as [A|]; [|done].
  assert (B : aware (add_seconds now (admission_ttl_seconds g)) = aware now) by reflexivity. cbn [rbind].
  intros E. exists s, t. split; [done|]. split; [done|]. rewrite B in A. split; [done|]. injection E as <-. cbn [instant add_seconds] in *.
  match goal with |- context [(?a <=? ?b)] => destruct (Z.leb_spec a b) as [L|L] end; cbn [instant add_seconds] in *.
  - split; [done|]. split; [lia|]. intros; lia.
  - split; [exact B|]. split; [lia|]. intros; lia.
Qed.

(** ** A prepared admission is accepted *)

Lemma preflight_workload g raw creds now rq :
  Gate.preflight g raw creds now = Ok rq ->
  exists w op, od_get "workload" (rq_intent rq) = Some (JObj w) /\ od_get "operation" (rq_intent rq) = Some op /\
    catalog_validate (catalog_validator g) w op = Ok tt.
Proof.
  unfold Gate.preflight. rewrite rbind_Ok. intros (intent & _ & H). apply rbind_Ok in H as (i & _ & H). apply rbind_Ok in H as (d & _ & H).
  apply rbind_Ok in H as (s & _ & H). apply rbind_unit_Ok in H as (_ & H). apply rbind_Ok in H as (w & W & H).
  apply rbind_Ok in H as (op & O & H). apply rbind_unit_Ok in H as (C & [= <-]). cbn [rq_intent].
  unfold get_item in W, O. destruct (od_get "workload" intent) as [w'|]; [|done]. injection W as ->.
  destruct (od_get "operation" intent) as [op'|]; [|done]. injection O as ->. destruct w; try done. eauto.
Qed.

(** The catalog's matrix allows nothing the worker's scope check forbids. *)
Lemma catalog_scope c w op :
  capability_matrix c = ALLOWED_CAPABILITY_MATRIX -> catalog_validate c w op = Ok tt -> scope_allowed w op.
Proof.
  unfold catalog_validate. intros M. rewrite rbind_unit_Ok. intros (_ & H). apply rbind_Ok in H as (b1 & _ & H).
  apply rbind_unit_Ok in H as (_ & H). apply rbind_Ok in H as (b2 & _ & H). apply rbind_unit_Ok in H as (_ & H).
  apply rbind_Ok in H as ([scopes|] & D & H); [|done]. apply rbind_Ok in H as (b3 & S & ->%require_Ok).
  apply in_set_true in S as (s & Es & Is). apply dict_get_Some in D as (o & -> & D). rewrite M in D.
  unfold scope_allowed. rewrite Es. apply od_get_In in D. unfold ALLOWED_CAPABILITY_MATRIX in D.
  repeat (apply elem_of_cons in D as [[= -> ->]|D]); [..|by apply elem_of_nil in D];
    repeat (apply elem_of_cons in Is as [->|Is]); try (by apply elem_of_nil in Is); (split; [discriminate|]);
    first [reflexivity|discriminate].
Qed.
End Admission.

Section EndToEnd.
Context {SV : SchemaValidator} {ISO : IsoText} {PYT : PyText} {ED : Ed25519} {P : Type} {WP : WorkerDispatchPort P} {PL : PortLaws P}.
Context {RFC : RFC8032 ED} {IL : IsoLaws ISO} {AS : AdmissionSchema SV}.

(** The timestamps of a prepared admission, read by the worker *)
Lemma admission_fresh g (rq : admitted_request) grants aid eid now e admission worker_now max_bytes raw :
  parse_intent max_bytes raw now = Ok (rq_intent rq) -> admission_deadline g (rq_intent rq) now = Ok e ->
  0 <= admission_ttl_seconds g ->
  (forall k, k <> "admission_digest" -> k <> "authenticator" ->
     od_get k admission = od_get k (admission_skeleton g rq grants aid eid now e)) ->
  aware worker_now = aware now -> instant worker_now < instant e ->
  fresh (rq_intent rq) admission worker_now.
Proof.
  intros Pi D T K A L. destruct (deadline_aware _ _ _ _ D) as (s & t & Es & Ft & At & Ae & Le & Lo).
  assert (Sn : s <> EmptyString) by (intros ->; cbn in Ft; rewrite iso_empty in Ft; discriminate Ft).
  assert (In : forall m, isoformat m <> EmptyString).
  { intros m E. pose proof (iso_reads m) as R. rewrite E in R. cbn in R. rewrite iso_empty in R. discriminate R. }
  apply parse_intent_iff in Pi as (_ & _ & _ & _ & X). unfold jget in X. rewrite Es in X.
  destruct X as (t' & Ft' & _ & Lt); [by apply truthy_str|]. cbn [parse_timestamp] in Ft'. rewrite Ft in Ft'. injection Ft' as <-.
  exists (isoformat now), now, (isoformat e), e, s, t.
  unfold jget. rewrite !K by done. rewrite Es. cbn [parse_timestamp]. rewrite !iso_reads, Ft.
  split; [reflexivity|]. split; [reflexivity|]. split; [reflexivity|]. split; [reflexivity|]. split; [reflexivity|]. split; [reflexivity|].
  split; [apply In|]. split; [apply In|]. split; [exact Sn|]. split; [congruence|]. split; [congruence|]. split; [congruence|].
  split; [|exact L]. split; [apply Lo; [lia|exact T]|exact Le].
Qed.

(** What the worker of an admission has in common with the gate: it pins the
    gate's key, it runs before the admission expires, and no number of the
    intent is a float. *)
Record agreed (g : AuthorizationGate) (env : call_env (P := P)) (rq : admitted_request) (admission : odict json)
    (pf : AuthorizedExecutionPreflight) (worker_now : moment) : Prop := {
  ag_no_float : has_float (JObj (rq_intent rq)) = false;
  ag_matrix : capability_matrix (catalog_validator g) = ALLOWED_CAPABILITY_MATRIX;
  ag_ttl : 0 <= admission_ttl_seconds g;
  ag_key_id : key_id (gate_identity g) <> EmptyString;
  ag_pinned : key_id (gate_identity g) ∈ pinned_key_ids pf;
  ag_trusted : od_get (key_id (gate_identity g)) (trusted_keys pf) = Some (get_public_key_hex (identity_key (gate_identity g)));
  ag_intent_id : rq_intent_id rq <> EmptyString;
  ag_execution_id : env_execution_id env <> EmptyString;
  ag_clock : aware worker_now = aware (env_now env);
  ag_expires : exists e, parse_timestamp (jget "admission_expires_at" admission) = Some e /\ instant worker_now < instant e }.

Definition admitted_policy (g : AuthorizationGate) : odict json :=
  [("policy_version", JStr (policy_version g)); ("controller_commit", JStr (controller_commit g)); ("verdict", JStr "ADMITTED")].

(** The entries of an admission the worker and the queue read *)
Record admission_of (g : AuthorizationGate) (env : call_env (P := P)) (rq : admitted_request) (admission : odict json)
    (digest : string) : Prop := {
  ad_intent_id : od_get "intent_id" admission = Some (JStr (rq_intent_id rq));
  ad_intent_digest : od_get "intent_digest" admission = Some (JStr (rq_intent_digest rq));
  ad_execution_id : od_get "execution_id" admission = Some (JStr (env_execution_id env));
  ad_admission_id : od_get "admission_id" admission = Some (JStr (env_admission_id env));
  ad_digest : od_get "admission_digest" admission = Some (JStr digest);
  ad_policy : od_get "policy_context" admission = Some (JObj (admitted_policy g)) }.

Section AdmittedBundle.
Context (g : AuthorizationGate) (env : call_env (P := P)) (raw : raw_intent) (creds : option (odict json)) (rq : admitted_request)
  (p p' : P) (admission : odict json) (digest : string) (pf : AuthorizedExecutionPreflight) (worker_now : moment).
Context (Hok : port_ok p) (He : env_ok env) (Hf : by_execution_id (wp_ledger p) !! env_execution_id env = None)
  (Hp : Gate.preflight g raw creds (env_now env) = Ok rq)
  (Hr : reserve_and_commit g env rq p = (p', Ok (admission, digest))) (A : agreed g env rq admission pf worker_now).

Lemma admitted_validates :
  admission_of g env rq admission digest /\
  exists w op d t m, od_get "workload" (rq_intent rq) = Some (JObj w) /\ od_get "operation" (rq_intent rq) = Some op /\
    catalog_validate (catalog_validator g) w op = Ok tt /\
    od_get "intent_id" (rq_intent rq) = Some (JStr (rq_intent_id rq)) /\
    od_get "intent_digest" (rq_intent rq) = Some (JStr (rq_intent_digest rq)) /\
    validate pf (JObj (build_bundle (rq_intent rq) admission)) worker_now
    = Ok (context_of (rq_intent rq) admission w (admitted_policy g) d t m).
Proof.
  destruct A as [F M T K Kp Kt Ii Ie Wa (e' & We & Wl)].
  destruct (preflight_Ok _ _ _ _ _ Hp) as (_ & _ & Hpi & Ei & Ed).
  destruct (preflight_workload _ _ _ _ _ Hp) as (w & op & Ew & Eo & C).
  destruct (reserve_and_commit_cases _ _ _ _ _ _ Hok He Hf Hr) as (_ & _ & active & grants & _ & _ & _ & _ & Hgr & Hpr & _).
  unfold prepare_admission in Hpr. apply rbind_Ok in Hpr as (e & Hd & Hpr). apply rbind_Ok in Hpr as ([adm dg] & Hs & Hpr).
  apply rbind_unit_Ok in Hpr as (Sa & Hpr). apply rbind_unit_Ok in Hpr as (_ & [= -> ->]).
  pose proof (skeleton_no_float g rq grants (env_admission_id env) (env_execution_id env) (env_now env) e (grants_no_float _ _ _ _ F Hgr)) as Fs.
  destruct (signed_admission_parts _ _ _ _ Hs) as (payload & _ & _ & Fa). specialize (Fa Fs).
  pose proof (admission_signed _ _ _ _ pf Hs Fs K Kp Kt) as Sg.
  apply signed_admission_Ok in Hs as (_ & Cd & Gd & Gk); [|done|done].
  unfold jget in We. rewrite Gk in We by done. cbn [parse_timestamp] in We.
  cbn -[isoformat] in We. rewrite iso_reads in We. injection We as <-.
  pose proof (admission_fresh _ _ _ _ _ _ _ _ _ _ _ Hpi Hd T Gk Wa Wl) as Fr.
  apply parse_intent_iff in Hpi as (_ & _ & _ & (d & Gi & Ci)%verify_intent_digest_true & _).
  rewrite Ed in Gi. injection Gi as <-. apply compute_intent_digest_Ok in Ci as (bi & Ci & Di).
  unfold compute_admission_digest in Cd. apply rbind_Ok in Cd as (ba & Ca & [= <-]).
  apply rbind_unit_Ok in Sa as (_ & Sa%require_Ok). destruct (schema_grants admission Sa Fa) as (gr & t & m & G1 & G2 & Bt & G3 & Bm).
  assert (Gr : gr = grants_to_dict grants).
  { unfold jget in G1. rewrite Gk in G1 by done. by injection G1 as <-. }
  assert (V : validate_documents pf (rq_intent rq) admission worker_now = Ok (context_of (rq_intent rq) admission w (admitted_policy g) (allow_downloads grants) t m)).
  { apply validate_documents_Ok. split.
    - constructor; try done.
      + unfold jget. rewrite Ei, Gk by done. change (od_get "intent_id" _) with (Some (JStr (rq_intent_id rq))). cbn [option_map].
        split; [apply truthy_str, Ii|by rewrite py_eq_refl].
      + unfold jget. by rewrite Ed, Gk.
      + apply (declares_canonical _ _ _ bi); [by apply has_float_pop|exact Ci|]. by rewrite Ed, Di.
      + apply (declares_canonical _ _ _ ba); [by apply has_float_pop, has_float_pop|exact Ca|exact Gd].
    - exists w, (admitted_policy g), gr, (allow_downloads grants), t, m. unfold get_or. rewrite Ew. split; [done|].
      split; [unfold jget; rewrite Eo; by apply (catalog_scope (catalog_validator g))|]. split; [done|].
      split; [by rewrite Gr|]. do 4 (split; [done|]). split; [|by rewrite Gk].
      unfold jget. rewrite Gk by done. apply truthy_str, Ie. }
  split; [constructor; rewrite ?Gk by done; first [reflexivity|exact Gd]|].
  exists w, op, (allow_downloads grants), t, m. do 5 (split; [done|]).
  unfold build_bundle, validate. cbn -[validate_documents]. exact V.
Qed.
End AdmittedBundle.

(** C9: what the gate admits, the worker accepts.  An admission the gate has
    reserved, signed and stored passes the preflight of a worker that pins the
    gate's key, at any moment before the admission expires and for an intent
    without floats: the worker recomputes both digests and the signature with
    its own code, and runs the very intent, execution id, digest and commit
    that were admitted. *)
Theorem admitted_bundle_accepted (g : AuthorizationGate) (env : call_env (P := P)) raw creds rq (p p' : P) admission digest
    (pf : AuthorizedExecutionPreflight) (worker_now : moment)
    (Hok : port_ok p) (He : env_ok env) (Hf : by_execution_id (wp_ledger p) !! env_execution_id env = None)
    (Hp : Gate.preflight g raw creds (env_now env) = Ok rq)
    (Hr : reserve_and_commit g env rq p = (p', Ok (admission, digest)))
    (A : agreed g env rq admission pf worker_now) :
  exists x, validate pf (JObj (build_bundle (rq_intent rq) admission)) worker_now = Ok x /\
    x_intent x = rq_intent rq /\ x_admission x = admission /\ x_execution_id x = JStr (env_execution_id env) /\
    x_intent_id x = JStr (rq_intent_id rq) /\ x_intent_digest x = JStr (rq_intent_digest rq) /\
    x_admission_digest x = JStr digest /\ x_controller_commit x = JStr (controller_commit g).
Proof.
  destruct (admitted_validates g env raw creds rq p p' admission digest pf worker_now Hok He Hf Hp Hr A)
    as ([] & w & op & d & t & m & _ & _ & _ & Ei & Ed & V).
  eexists. split; [exact V|]. unfold context_of, jget, get_or.
  cbn [x_intent x_admission x_execution_id x_intent_id x_intent_digest x_admission_digest x_controller_commit].
  by rewrite ad_execution_id0, ad_digest0, Ei, Ed.
Qed.
End EndToEnd.
