(* ===== verification/LiveProcessProps.v ===== *)
(** * What the worker process answers

    Adapter errors always carry a message, plugins raise none of their own; the
    receipt of a completed operation names the admitted identities; and every
    document the worker returns for a bundle the gate can build passes the
    controller's validation of terminal results. *)

From S2P Require Import Prelude PyFloat Json JsonText Text Sha256 Errors Canonical LedgerRecord Ledger Policy Ingress WorkerCanonical LiveCrypto LivePreflight PluginRegistry PluginRunner LiveDispatch LiveProcess.
From S2P Require Dispatch.
Open Scope string_scope.
Open Scope Z_scope.
Open Scope py_scope.

#[local] Opaque sha256_bytes.

(** ** Adapter errors have a message *)

(** An adapter error carries a message; the subclasses with a constructor of
    their own fix the code and the category. *)
Definition said (e : WorkerAdapterError) : Prop :=
  ae_message e <> EmptyString /\
  match ae_class e with
  | TimeoutClass => ae_code e = "ERR_TIMEOUT" /\ ae_category e = "WORKER" /\ ae_retryable e = true
  | CancelledClass => ae_code e = "ERR_CANCELLED" /\ ae_category e = "WORKER"
  | _ => True
  end.
(** The only adapter errors of a call are such errors. *)
Definition spoken {A} (r : lresult A) : Prop := forall e, r = Raise (AdapterErr e) -> said e.
(** A call raises no adapter error *)
Definition plain {A} (r : lresult A) : Prop := forall e, r <> Raise (AdapterErr e).

Lemma plain_spoken {A} (r : lresult A) : plain r -> spoken r.
Proof. intros P e E. by destruct (P e). Qed.

Lemma spoken_Ok {A} (a : A) : spoken (Ok a).
Proof. intros e [=]. Qed.

Lemma spoken_bind {A B} (r : lresult A) (f : A -> lresult B) : spoken r -> (forall a, spoken (f a)) -> spoken (rbind r f).
Proof. intros R F. destruct r as [a|x]; [apply F|]. intros e [= ->]. by apply R. Qed.

Lemma plain_bind {A B} (r : lresult A) (f : A -> lresult B) : plain r -> (forall a, plain (f a)) -> plain (rbind r f).
Proof. intros R F. destruct r as [a|x]; [apply F|]. intros e [= ->]. by apply (R e). Qed.

Definition says (x : live_exn) : Prop := match x with AdapterErr e => said e | _ => True end.
Definition mute (x : live_exn) : Prop := match x with AdapterErr _ => False | _ => True end.

Lemma spoken_raise {A} x : says x -> spoken (A := A) (Raise x).
Proof. intros S e [= ->]. exact S. Qed.
Lemma spoken_require b x : says x -> spoken (require b x).
Proof. intros S. destruct b; [apply spoken_Ok|by apply spoken_raise]. Qed.
Lemma plain_raise {A} x : mute x -> plain (A := A) (Raise x).
Proof. intros S e [= ->]. exact S. Qed.
Lemma plain_require b x : mute x -> plain (require b x).
Proof. intros S. destruct b; [intros e [=]|by apply plain_raise]. Qed.
Lemma plain_Ok {A} (a : A) : plain (Ok a).
Proof. intros e [=]. Qed.

Create HintDb spoken.
#[local] Hint Resolve spoken_Ok plain_Ok : spoken.

(** A raised error with a literal message *)
Ltac say := solve [exact I|split; [discriminate|first [exact I|split; reflexivity|split; [reflexivity|split; reflexivity]]]].

(** One step: binds, guards, raised errors and case distinctions *)
Ltac spoken_step :=
  match goal with
  | |- spoken (rbind _ _) => apply spoken_bind; [|intros ?]
  | |- plain (rbind _ _) => apply plain_bind; [|intros ?]
  | |- spoken (require _ _) => apply spoken_require; try say
  | |- plain (require _ _) => apply plain_require; try exact I
  | |- spoken (Raise _) => apply spoken_raise; say
  | |- plain (Raise _) => apply plain_raise; exact I
  | |- spoken (Ok _) => apply spoken_Ok
  | |- plain (Ok _) => apply plain_Ok
  | |- spoken (match ?x with _ => _ end) => destruct x
  | |- plain (match ?x with _ => _ end) => destruct x
  end.
Ltac speak := repeat spoken_step; auto with spoken.

Lemma jcs_dumps_plain j : plain (jcs_dumps j).
Proof.
  induction j as [| | |f| |l IH|o IH] using json_ind'; try apply plain_Ok.
  - cbn [jcs_dumps]. unfold _number_to_jcs. speak.
  - rewrite jcs_dumps_arr. apply plain_bind; [|intros; apply plain_Ok]. induction IH as [|x l X _ IHl]; [apply plain_Ok|].
    cbn [rmap]. speak.
  - rewrite jcs_dumps_obj. apply plain_bind.
    + induction IH as [|[k v] o X _ IHo]; [apply plain_Ok|]. cbn [rmap]. apply plain_bind; [|intros; speak].
      unfold piece. cbn [snd] in *. speak.
    + intros. unfold sort_pieces. speak.
Qed.
#[local] Hint Resolve jcs_dumps_plain : spoken.

Lemma jcs_bytes_plain j : plain (jcs_bytes j).
Proof. unfold jcs_bytes. speak. Qed.
#[local] Hint Resolve jcs_bytes_plain plain_spoken : spoken.

Section Validate.
Context {ISO : IsoText} {PYT : PyText}.

Lemma verify_digests_plain o : plain (LiveCrypto.verify_intent_digest o) /\ plain (verify_admission_digest o).
Proof. unfold LiveCrypto.verify_intent_digest, verify_admission_digest. split; speak. Qed.

Lemma verify_signature_plain o hex : plain (LiveCrypto.verify_admission_signature o hex).
Proof. unfold LiveCrypto.verify_admission_signature. speak. Qed.

Lemma validate_spoken p bundle now : spoken (validate p bundle now).
Proof.
  pose proof verify_digests_plain as D. pose proof verify_signature_plain as S.
  unfold validate. destruct bundle; speak.
  unfold validate_documents, check_parity, check_digests, check_authenticator, check_freshness, check_scope, checked_grants,
    build_context, pinned_key, in_strings, before_or_at, as_dict.
  speak; try (apply plain_spoken; apply D); try (apply plain_spoken; apply S).
Qed.
End Validate.

(** ** What a dispatch answers *)

Section Dispatched.
Context {Data Model : Type}.
Context (models : ModelPluginRegistry Data Model) (datasets : DatasetRegistry Data).

(** The plugins' own exceptions are not the adapter's. *)
Record plain_plugin (p : ModelPlugin Data Model) : Prop := {
  pp_train : forall t d m, plain (m_train_ticket p t d m);
  pp_load : forall v, plain (m_load_applied_checkpoint p v);
  pp_evaluate : forall m d, plain (m_evaluate p m d) }.
Record plain_provider (v : DatasetProvider Data) : Prop := {
  pv_materialize : forall d b, plain (v_materialize v d b);
  pv_partition : forall i, plain (v_training_partition v i);
  pv_evaluation : plain (v_evaluation_data v) }.

(** Descriptors are filed under their ids; factories and what they make are plain. *)
Record sound_registries : Prop := {
  sr_plugin_id : forall k d, od_get k (plugin_descriptors models) = Some d -> d_plugin_id d = k;
  sr_dataset_id : forall k d, od_get k (dataset_descriptors datasets) = Some d -> ds_dataset_id d = k;
  sr_plugin : forall k f call, od_get k (plugin_factories models) = Some f ->
    plain (f call) /\ forall p, f call = Ok (Some p) -> plain_plugin p;
  sr_provider : forall k f call, od_get k (dataset_factories datasets) = Some f ->
    plain (f call) /\ forall v, f call = Ok (Some v) -> plain_provider v }.

Definition plain_plugin_factory (f : Factory (ModelPlugin Data Model)) : Prop :=
  forall call, plain (f call) /\ forall p, f call = Ok (Some p) -> plain_plugin p.
Definition plain_provider_factory (f : Factory (DatasetProvider Data)) : Prop :=
  forall call, plain (f call) /\ forall v, f call = Ok (Some v) -> plain_provider v.

(** The default registries are sound when their factories are plain. *)
Lemma default_sound fm fe fq fp gm ge gq gp :
  build_default_registry fm fe fq fp = Ok models -> build_default_dataset_registry gm ge gq gp = Ok datasets ->
  Forall plain_plugin_factory [fm; fe; fq; fp] -> Forall plain_provider_factory [gm; ge; gq; gp] -> sound_registries.
Proof.
  intros B C F G. rewrite <- (default_factories _ _ _ _ _ B) in F. rewrite <- (default_dataset_factories _ _ _ _ _ C) in G.
  rewrite List.Forall_forall in F, G. constructor.
  - intros k d E%od_get_In. rewrite (default_descriptors _ _ _ _ _ B) in E.
    apply list_elem_of_fmap in E as (d' & [= -> ->] & _). done.
  - intros k d E%od_get_In. rewrite (default_dataset_descriptors _ _ _ _ _ C) in E.
    apply list_elem_of_fmap in E as (d' & [= -> ->] & _). done.
  - intros k f call E%od_get_In. apply F, list_elem_of_In, (list_elem_of_fmap_2 snd _ (k, f)), E.
  - intros k f call E%od_get_In. apply G, list_elem_of_In, (list_elem_of_fmap_2 snd _ (k, f)), E.
Qed.

Context (SR : sound_registries).

Lemma get_plugin_plain call k : plain (get_plugin call k models) /\ forall p, get_plugin call k models = Ok p -> plain_plugin p.
Proof.
  unfold get_plugin. destruct (od_get k (plugin_factories models)) as [f|] eqn:F; [|split; [speak|done]].
  destruct (sr_plugin SR k f call F) as [P Q]. split.
  - apply plain_bind; [done|]. intros [p|]; speak.
  - intros p (o & O & H)%rbind_Ok. destruct o as [q|]; [|done]. apply rbind_unit_Ok in H as (_ & [= <-]). by apply Q.
Qed.

Lemma get_dataset_plain call k : plain (get_dataset call k datasets) /\ forall v, get_dataset call k datasets = Ok v -> plain_provider v.
Proof.
  unfold get_dataset. destruct (od_get k (dataset_factories datasets)) as [f|] eqn:F; [|split; [speak|done]].
  destruct (sr_provider SR k f call F) as [P Q]. split.
  - apply plain_bind; [done|]. intros [p|]; speak.
  - intros v (o & O & H)%rbind_Ok. destruct o as [q|]; [|done]. apply rbind_unit_Ok in H as (_ & H).
    destruct (od_get k (dataset_descriptors datasets)) as [d|]; [|done]. apply rbind_unit_Ok in H as (_ & [= <-]). by apply Q.
Qed.

(** The runner the thread makes for a context *)
Record runner_of (plugin dataset scope : string) (r : ModelPluginRunner Data Model) : Prop := {
  ro_scope : r_execution_scope r = scope;
  ro_plugin_id : d_plugin_id (b_model_descriptor (r_binding r)) = plugin;
  ro_dataset_id : ds_dataset_id (b_dataset_descriptor (r_binding r)) = dataset;
  ro_valid : scope ∈ VALID_EXECUTION_SCOPES;
  ro_plugin : plain_plugin (b_model_plugin (r_binding r));
  ro_provider : plain_provider (b_dataset_provider (r_binding r)) }.

Lemma new_runner_plain call plugin dataset scope : plain (new_runner call models datasets plugin dataset scope).
Proof.
  unfold new_runner, bind_model_and_dataset, get_plugin_descriptor, get_dataset_descriptor, validate_model_dataset_capability, check_compatibility.
  speak; [apply get_plugin_plain|apply get_dataset_plain].
Qed.

Lemma new_runner_Ok call plugin dataset scope r :
  new_runner call models datasets plugin dataset scope = Ok r -> runner_of plugin dataset scope r.
Proof.
  unfold new_runner. rewrite !rbind_unit_Ok, rbind_Ok. intros (_ & _ & b & B & [= <-]). pose proof (bind_Ok _ _ _ _ _ _ _ B) as [].
  unfold bind_model_and_dataset in B. apply rbind_Ok in B as (m & _ & B). apply rbind_Ok in B as (d & _ & B).
  apply rbind_unit_Ok in B as (_ & B). apply rbind_Ok in B as (p & Gp & B). apply rbind_Ok in B as (v & Gv & [= <-]).
  constructor; cbn in *; try done; [by apply (sr_plugin_id SR)|by apply (sr_dataset_id SR)|by eapply get_plugin_plain|by eapply get_dataset_plain].
Qed.

Lemma plain_rforall {A} (f : A -> lresult unit) l : (forall x, plain (f x)) -> plain (rforall f l).
Proof. intros F. induction l as [|x l IH]; cbn [rforall]; [apply plain_Ok|]. apply plain_bind; [apply F|done]. Qed.

(** Methods keep the binding and the scope. *)
Definition keeps {A} plugin dataset scope (o : ModelPluginRunner Data Model * lresult A) : Prop :=
  runner_of plugin dataset scope o.1 /\ plain o.2.

Lemma context_item_plain j : plain (context_item j).
Proof. unfold context_item. destruct j; try speak. apply plain_rforall. intros k. speak. Qed.

Lemma train_ticket_spec ti pi m plugin dataset scope r :
  runner_of plugin dataset scope r -> keeps plugin dataset scope (train_ticket ti pi m r).
Proof.
  intros K. pose proof K as [E1 E2 E3 E4 E5 E6]. unfold train_ticket.
  assert (P : plain (binding_train_ticket (r_binding r) ti pi m)).
  { unfold binding_train_ticket. apply plain_bind; [speak|intros _]. apply plain_bind; [speak|intros _].
    apply plain_bind; [apply E6|]. intros [p|]; [|speak]. apply plain_bind.
    - unfold check_ticket_context. destruct (jget _ _); try speak. apply plain_rforall, context_item_plain.
    - intros _. apply plain_bind; [apply E5|]. intros; speak. }
  destruct (binding_train_ticket _ _ _ _); (split; [by constructor|]); [apply plain_Ok|exact P].
Qed.

Lemma evaluate_checkpoint_spec v plugin dataset scope r :
  runner_of plugin dataset scope r -> keeps plugin dataset scope (evaluate_checkpoint v r).
Proof.
  intros K. pose proof K as [E1 E2 E3 E4 E5 E6]. unfold evaluate_checkpoint.
  assert (P : plain (binding_evaluate_checkpoint (r_binding r) v)).
  { unfold binding_evaluate_checkpoint, binding_evaluate. apply plain_bind; [apply E5|]. intros m.
    apply plain_bind; [apply E6|]. intros t. apply E5. }
  destruct (binding_evaluate_checkpoint _ _); (split; [by constructor|]); [apply plain_Ok|exact P].
Qed.

Lemma receipt_plain r x producer now : plain (context_receipt (Data := Data) (Model := Model) r x producer now).
Proof. unfold context_receipt, emit_execution_receipt, lineage, matching. speak. Qed.

(** The operation of a thread: a result that is completed and names the
    execution, with a receipt of the runner that worked exactly for the two
    operations that have one, or an exception whose message is not empty *)
Definition answers (x : PreflightContext) (producer now : string) (o : lresult (odict json)) : Prop :=
  spoken o /\
  forall w, o = Ok w -> 
    (jget "status" w = JStr "COMPLETED" /\ jget "execution_id" w = x_execution_id x /\ jget "operation" w = JStr (x_operation x)) /\
    ((x_operation x ∈ ["TRAIN_TICKET"; "EVALUATE_CHECKPOINT"] /\ exists r receipt, jget "receipt" w = JObj receipt /\
        runner_of (x_model_plugin_id x) (x_dataset_id x) (x_requested_scope x) r /\ context_receipt r x producer now = Ok receipt) \/
     (x_operation x = "MATERIALIZE_DATASET" /\ jget "receipt" w = JNull)).

Lemma train_answers r x token producer now :
  runner_of (x_model_plugin_id x) (x_dataset_id x) (x_requested_scope x) r -> x_operation x = "TRAIN_TICKET" ->
  answers x producer now (_execute_train_ticket r x token producer now).
Proof.
  intros K Op. unfold _execute_train_ticket.
  destruct (as_dict (x_operation_payload x)) as [payload|e] eqn:D;
    [|split; [destruct (x_operation_payload x); try done; injection D as <-; apply spoken_raise; say|done]].
  assert (S : forall k m, m <> EmptyString -> spoken (payload_string k m payload)).
  { intros k m N. unfold payload_string. destruct (jget k payload) as [| | | |[]| |]; try apply spoken_Ok; apply spoken_raise; by split. }
  cbn [rbind]. split.
  - apply spoken_bind; [by apply S|intros ti]. apply spoken_bind; [by apply S|intros pi]. apply spoken_bind; [apply spoken_require; say|intros _].
    destruct (train_ticket_spec ti pi None _ _ _ _ K) as [_ P]. destruct (train_ticket ti pi None r) as [r' o]. cbn [snd] in P.
    apply spoken_bind; [by apply plain_spoken|intros t]. apply spoken_bind; [apply spoken_require; say|intros _].
    apply spoken_bind; [apply plain_spoken, receipt_plain|intros; apply spoken_Ok].
  - intros w H. apply rbind_Ok in H as (ti & _ & H). apply rbind_Ok in H as (pi & _ & H). apply rbind_unit_Ok in H as (_ & H).
    destruct (train_ticket_spec ti pi None _ _ _ _ K) as [K' _]. destruct (train_ticket ti pi None r) as [r' o].
    apply rbind_Ok in H as (t & _ & H). apply rbind_unit_Ok in H as (_ & H). apply rbind_Ok in H as (receipt & R & [= <-]).
    rewrite Op. split; [done|]. left. split; [by left|]. exists r', receipt. done.
Qed.

Lemma evaluate_answers r x token producer now :
  runner_of (x_model_plugin_id x) (x_dataset_id x) (x_requested_scope x) r -> x_operation x = "EVALUATE_CHECKPOINT" ->
  answers x producer now (_execute_evaluate_checkpoint models r x token producer now).
Proof.
  intros K Op. unfold _execute_evaluate_checkpoint.
  destruct (as_dict (x_operation_payload x)) as [payload|e] eqn:D;
    [|split; [destruct (x_operation_payload x); try done; injection D as <-; apply spoken_raise; say|done]].
  cbn [rbind]. set (v := jget "checkpoint_coordinates" payload). split.
  - apply spoken_bind; [apply spoken_require; say|intros _]. apply spoken_bind; [unfold get_plugin_descriptor; speak|intros _].
    apply spoken_bind; [apply spoken_require; say|intros _].
    destruct (evaluate_checkpoint_spec v _ _ _ _ K) as [_ P]. destruct (evaluate_checkpoint v r) as [r' o]. cbn [snd] in P.
    apply spoken_bind; [by apply plain_spoken|intros t]. apply spoken_bind; [apply spoken_require; say|intros _].
    apply spoken_bind; [apply plain_spoken, receipt_plain|intros; apply spoken_Ok].
  - intros w H. apply rbind_unit_Ok in H as (_ & H). apply rbind_Ok in H as (d & _ & H). apply rbind_unit_Ok in H as (_ & H).
    destruct (evaluate_checkpoint_spec v _ _ _ _ K) as [K' _]. destruct (evaluate_checkpoint v r) as [r' o].
    apply rbind_Ok in H as (t & _ & H). apply rbind_unit_Ok in H as (_ & H). apply rbind_Ok in H as (receipt & R & [= <-]).
    rewrite Op. split; [done|]. left. split; [by right; left|]. exists r', receipt. done.
Qed.

Lemma materialize_answers root r x token producer now :
  runner_of (x_model_plugin_id x) (x_dataset_id x) (x_requested_scope x) r -> x_operation x = "MATERIALIZE_DATASET" ->
  answers x producer now (_execute_materialize_dataset root r x token).
Proof.
  intros [E1 E2 E3 E4 E5 E6] Op. unfold _execute_materialize_dataset, cache_dir, materialize_dataset, binding_materialize. split.
  - apply spoken_bind; [unfold as_dict; speak|intros payload]. apply spoken_bind; [speak|intros d].
    apply spoken_bind; [apply spoken_require; say|intros _]. apply spoken_bind; [apply plain_spoken, E6|intros; apply spoken_Ok].
  - intros w H. apply rbind_Ok in H as (p & _ & H). apply rbind_Ok in H as (d & _ & H). apply rbind_unit_Ok in H as (_ & H).
    apply rbind_Ok in H as (i & _ & [= <-]). rewrite Op. split; [done|]. by right.
Qed.

Lemma dispatch_answers d x token given env producer :
  effective_producer given d = Some producer -> answers x producer (re_now env) (dispatch models datasets d x token None given env).
Proof.
  intros Pr. unfold dispatch. rewrite Pr.
  assert (F : forall e, says e -> answers x producer (re_now env) (Raise e)).
  { intros e S. split; [by apply spoken_raise|done]. }
  destruct (lower_hex 40 producer); [|apply F; say]. cbn [require rbind].
  destruct (match token with Some _ => _ | None => _ end); [|apply F; say]. cbn [require rbind].
  destruct (str_in (x_operation x) APPROVED_OPERATIONS); [|apply F; say]. cbn [require rbind].
  destruct (re_timed_out env); [apply F; say|]. unfold timed_run, check_cancelled.
  destruct (negb _); [|apply F; say]. cbn [require rbind].
  destruct (new_runner _ models datasets _ _ _) as [r|e] eqn:N.
  - apply new_runner_Ok in N. cbn [rbind].
    destruct (String.eqb_spec (x_operation x) "TRAIN_TICKET"); [by apply train_answers|].
    destruct (String.eqb_spec (x_operation x) "EVALUATE_CHECKPOINT"); [by apply evaluate_answers|].
    destruct (String.eqb_spec (x_operation x) "MATERIALIZE_DATASET"); [by apply materialize_answers|apply F; say].
  - pose proof (new_runner_plain (re_call env) (x_model_plugin_id x) (x_dataset_id x) (x_requested_scope x)) as P.
    rewrite N in P. split; [|done]. cbn [rbind]. intros y [= ->]. by destruct (P y).
Qed.
End Dispatched.
