(* ===== verification/TerminalResult.v ===== *)
(** * Worker results and the controller's validation

    [execute_authorized_document] of the worker against
    [_validate_terminal_result] of the controller's queue: two programs that
    agree on identities, statuses, receipts and digests only through documents. *)

From S2P Require Import Prelude PyFloat Json JsonText Text Sha256 Errors Canonical LedgerRecord Ledger Policy Ingress WorkerCanonical LiveCrypto LivePreflight FixedPointProps PluginRegistry PluginRunner LiveDispatch LiveProcess LiveProcessProps.
From S2P Require Dispatch.
Open Scope string_scope.
Open Scope Z_scope.
Open Scope py_scope.

#[local] Opaque sha256_bytes.

(** ** The receipt of a context *)

Definition receipt_document (producer now cc iid idg aid adg eid plugin dataset scope config : string) : odict json :=
  [("schema_version", JStr "1.0.0");
   ("receipt_type", JStr "DELTAREDUCE_EXECUTION_RECEIPT");
   ("provenance",
    JObj [("repository", JStr "chartjs333/delta"); ("backend_commit", JStr DEFAULT_BACKEND_COMMIT);
          ("catalog_backend_ref", JStr DEFAULT_BACKEND_COMMIT); ("producer_commit", JStr producer); ("produced_at", JStr now);
          ("controller_commit", JStr cc); ("intent_id", JStr iid); ("intent_digest", JStr idg);
          ("admission_id", JStr aid); ("admission_digest", JStr adg); ("execution_id", JStr eid)]);
   ("workload",
    JObj [("model_plugin_id", JStr plugin); ("dataset_id", JStr dataset); ("executed_scope", JStr scope);
          ("workload_config_digest", JStr config)]);
   ("execution", JObj [("verdict", JStr "SUCCESS"); ("terminal_status", JStr "COMPLETED")])].

(** [^[a-z0-9-]+$], at most 64 characters *)
Definition slug (s : string) : bool :=
  negb (String.eqb s EmptyString) && (String.length s <=? 64)%nat &&
  str_all (fun c => in_range 97 122 (byte_val c) || is_digit c || ch_eq c "-"%char) s.

(** ** The two result schemas

    [execution-receipt-lineage-extension.schema.json] and
    [preflight-error.schema.json], rule by rule: [required], [additionalProperties],
    [propertyNames], [const], [enum], [pattern], [minLength] and [maxLength].  The
    validator asserts no [format].  Lengths count bytes, so that a string within
    a bound here has no more characters than the schema allows. *)

Definition consensus_names : list string :=
  ["round_id"; "state_root"; "wal_sequence"; "qc"; "apply_qc"; "consensus_round"; "validator_signatures"; "bft_quorum";
   "stage_c_claim"; "consensus_view"; "proposal_hash"; "commit_certificate"].

(** [#/$defs/safeExtensionValue] *)
Fixpoint safeExtensionValue (v : json) : bool :=
  match v with
  | JArr l => forallb safeExtensionValue l
  | JObj o => forallb (fun '(k, x) => negb (str_in k consensus_names) && safeExtensionValue x) o
  | _ => true
  end.

Definition text (rule : string -> bool) (v : json) : bool := match v with JStr s => rule s | _ => false end.
Definition any_text (_ : string) : bool := true.

(** An object with the listed required properties and the rule for any other *)
Definition object_of (properties : list (string * (json -> bool))) (additional : string -> json -> bool) (v : json) : bool :=
  match v with
  | JObj o =>
      forallb (fun f => od_mem f.1 o) properties &&
      forallb (fun '(k, x) => match od_get k properties with Some rule => rule x | None => additional k x end) o
  | _ => false
  end.

Definition extension (k : string) (v : json) : bool := negb (str_in k consensus_names) && safeExtensionValue v.
Definition closed (_ : string) (_ : json) : bool := false.

Definition slug_re (s : string) : bool := slug (drop_newline s) && (String.length s <=? 64)%nat.

Definition receipt_provenance : json -> bool := object_of
  [("repository", text (String.eqb "chartjs333/delta")); ("backend_commit", text hex40); ("catalog_backend_ref", text hex40);
   ("producer_commit", text hex40); ("controller_commit", text hex40); ("produced_at", text any_text);
   ("intent_id", text any_text); ("intent_digest", text sha256_re); ("admission_id", text any_text);
   ("admission_digest", text sha256_re); ("execution_id", text any_text)] extension.
Definition receipt_workload : json -> bool := object_of
  [("model_plugin_id", text slug_re); ("dataset_id", text slug_re);
   ("executed_scope", text (fun s => str_in s ["PLUGIN_BOUNDARY"; "MODEL_DATASET_BINDING_ONLY"]));
   ("workload_config_digest", text sha256_re)] extension.
Definition receipt_execution : json -> bool := object_of
  [("verdict", text (fun s => str_in s ["SUCCESS"; "FAILED"]));
   ("terminal_status", text (fun s => str_in s ["COMPLETED"; "FAILED"; "TIMED_OUT"; "CANCELLED"]))] extension.

Definition receipt_schema : json -> bool := object_of
  [("schema_version", text (String.eqb "1.0.0")); ("receipt_type", text (String.eqb "DELTAREDUCE_EXECUTION_RECEIPT"));
   ("provenance", receipt_provenance); ("workload", receipt_workload); ("execution", receipt_execution)] extension.

Definition error_codes (s : string) : bool := str_in s
  ["ERR_SCHEMA_VERSION_UNSUPPORTED"; "ERR_SCHEMA_VALIDATION_FAILED"; "ERR_JCS_CANONICALIZATION_FAILED";
   "ERR_INTENT_DIGEST_MISMATCH"; "ERR_ADMISSION_DIGEST_MISMATCH"; "ERR_INTENT_EXPIRED"; "ERR_ADMISSION_EXPIRED";
   "ERR_AUTHENTICATION_REQUIRED"; "ERR_AUTHENTICATION_FAILED"; "ERR_UNAUTHORIZED_CALLER"; "ERR_POLICY_DENIED";
   "ERR_ROLE_FORBIDDEN"; "ERR_CATALOG_REF_MISMATCH"; "ERR_UNKNOWN_PLUGIN_ID"; "ERR_UNKNOWN_DATASET_ID";
   "ERR_OPERATION_SCOPE_UNSUPPORTED"; "ERR_INTENT_ID_DIGEST_CONFLICT"; "ERR_INTENT_COLLISION_DETECTED";
   "ERR_QUOTA_EXCEEDED"; "ERR_WORKER_DISPATCH_FAILED"; "ERR_ADMISSION_SIGNATURE_INVALID";
   "ERR_AUTHORIZED_EXECUTION_PARITY_MISMATCH"; "ERR_RECEIPT_LINEAGE_MISMATCH"; "ERR_TIMEOUT"; "ERR_CANCELLED";
   "ERR_STAGE_C_FORBIDDEN"].
Definition error_categories (s : string) : bool := str_in s
  ["SCHEMA"; "CANONICALIZATION"; "DIGEST"; "AUTHN"; "AUTHZ"; "POLICY"; "CATALOG"; "IDEMPOTENCY"; "RESOURCE"; "DISPATCH";
   "WORKER"; "LINEAGE"; "CONSENSUS_BOUNDARY"].

Definition error_schema : json -> bool := object_of
  [("schema_version", text (String.eqb "1.0.0"));
   ("error_code", text error_codes); ("category", text error_categories);
   ("retryable", fun v => match v with JBool _ => true | _ => false end);
   ("message", text (fun s => negb (String.eqb s EmptyString) && (String.length s <=? 512)%nat))] closed.

(** What the validators of the two result schemas accept *)
Class ResultSchemas (SV : SchemaValidator) := {
  schema_receipt : forall v, receipt_schema v = true -> schema_accepts "receipt-lineage" v = true;
  schema_error : forall v, error_schema v = true -> schema_accepts "preflight-error" v = true }.

(** A text without line feeds has none to drop. *)
Lemma drop_newline_all p s : str_all p s = true -> p newline = false -> drop_newline s = s.
Proof.
  intros A N. unfold drop_newline. destruct (String.eqb_spec (str_drop (String.length s - 1) s) (String newline EmptyString)) as [E|]; [|done].
  apply (str_all_drop p (String.length s - 1)) in A. rewrite E in A. cbn in A. by rewrite N in A.
Qed.

Lemma slug_slug_re s : slug s = true -> slug_re s = true.
Proof.
  intros S. pose proof S as [[N L]%andb_true_iff A]%andb_true_iff. unfold slug_re.
  rewrite (drop_newline_all _ s A eq_refl), S. exact L.
Qed.

(** The prefixed digests of the programs match the schemas' pattern. *)
Lemma sha256_prefixed_re s : sha256_re ("sha256:" +:+ sha256_hex s) = true.
Proof.
  pose proof (sha256_hex_lower s) as L. revert L. generalize (sha256_hex s). intros h L. unfold sha256_re.
  rewrite (drop_newline_all (fun c => negb (ch_eq c newline)) ("sha256:" +:+ h)); [exact L| |reflexivity].
  apply andb_true_iff in L as [_ L]. change (str_all (fun c => negb (ch_eq c newline)) h = true).
  revert L. induction h as [|c h IH]; [done|]. cbn [str_all]. intros [C H]%andb_true_iff.
  apply andb_true_iff. split; [|by apply IH].
  destruct (ch_eq c newline) eqn:E; [|done]. apply Ascii.eqb_eq in E as ->. discriminate C.
Qed.

(** The receipts the worker builds follow the schema. *)
Lemma receipt_document_schema producer now cc iid idg aid adg eid plugin dataset scope config :
  hex40 producer = true -> hex40 cc = true -> sha256_re idg = true -> sha256_re adg = true ->
  slug plugin = true -> slug dataset = true -> scope ∈ ["PLUGIN_BOUNDARY"; "MODEL_DATASET_BINDING_ONLY"] -> sha256_re config = true ->
  receipt_schema (JObj (receipt_document producer now cc iid idg aid adg eid plugin dataset scope config)) = true.
Proof.
  intros P C I A Pl%slug_slug_re D%slug_slug_re S Cf.
  assert (B : hex40 DEFAULT_BACKEND_COMMIT = true) by reflexivity.
  assert (Sc : str_in scope ["PLUGIN_BOUNDARY"; "MODEL_DATASET_BINDING_ONLY"] = true) by by apply str_in_elem.
  unfold receipt_schema, receipt_document, receipt_provenance, receipt_workload, receipt_execution.
  cbn -[hex40 sha256_re slug_re str_in DEFAULT_BACKEND_COMMIT]. rewrite B, P, C, I, A, Pl, D, Cf.
  cbn -[str_in]. rewrite Sc. reflexivity.
Qed.

Lemma matching_Ok re error v s : matching re error v = Ok s <-> v = JStr s /\ s <> EmptyString /\ re s = true.
Proof.
  unfold matching. rewrite rbind_unit_Ok, require_Ok. split.
  - intros [T H]. destruct v as [| | | |t| |]; try done. apply rbind_unit_Ok in H as (R%require_Ok & [= <-]). by apply truthy_str in T.
  - intros (-> & N & ->). split; [by apply truthy_str|done].
Qed.

Lemma context_receipt_Ok {Data Model} (r : ModelPluginRunner Data Model) x producer now receipt :
  truthy (x_execution_id x) = true -> context_receipt r x producer now = Ok receipt ->
  exists cc iid idg aid adg eid config,
    (x_controller_commit x = JStr cc /\ x_intent_id x = JStr iid /\ x_intent_digest x = JStr idg /\ x_admission_id x = JStr aid /\
     x_admission_digest x = JStr adg /\ x_execution_id x = JStr eid) /\
    (cc <> EmptyString /\ aid <> EmptyString /\ adg <> EmptyString) /\
    (hex40 producer = true /\ hex40 cc = true /\ uuid_re iid = true /\ sha256_re idg = true /\ uuid_re aid = true /\
     sha256_re adg = true /\ uuid_re eid = true) /\
    r_execution_scope r <> "STAGE_C_REAL_DRQ1" /\ sha256_re config = true /\
    receipt = receipt_document producer now cc iid idg aid adg eid (d_plugin_id (b_model_descriptor (r_binding r)))
                (ds_dataset_id (b_dataset_descriptor (r_binding r))) (r_execution_scope r) config.
Proof.
  intros T. unfold context_receipt, emit_execution_receipt. rewrite !rbind_unit_Ok. cbn [ra_catalog_backend_ref ra_producer_commit rbind resolve_producer].
  intros (S%require_Ok%negb_true_iff%String.eqb_neq & _ & _ & H). apply rbind_unit_Ok in H as (Hp%require_Ok & H).
  apply rbind_Ok in H as (more & L & [= <-]). unfold lineage in L. cbn [ra_intent_id ra_execution_id ra_controller_commit
    ra_intent_digest ra_admission_id ra_admission_digest] in L.
  assert (L' : (let? controller_commit := matching hex40 "INVALID_CONTROLLER_COMMIT" (x_controller_commit x) in
      let? intent_id := matching uuid_re "INVALID_INTENT_ID" (x_intent_id x) in
      let? intent_digest := matching sha256_re "INVALID_INTENT_DIGEST" (x_intent_digest x) in
      let? admission_id := matching uuid_re "INVALID_ADMISSION_ID" (x_admission_id x) in
      let? admission_digest := matching sha256_re "INVALID_ADMISSION_DIGEST" (x_admission_digest x) in
      let? execution_id := matching uuid_re "INVALID_EXECUTION_ID" (x_execution_id x) in
      Ok [("controller_commit", JStr controller_commit); ("intent_id", JStr intent_id); ("intent_digest", JStr intent_digest);
          ("admission_id", JStr admission_id); ("admission_digest", JStr admission_digest); ("execution_id", JStr execution_id)]) = Ok more).
  { destruct (x_intent_id x), (x_execution_id x); try exact L. discriminate T. }
  clear L. apply rbind_Ok in L' as (cc & (E1 & N1 & R1)%matching_Ok & L). apply rbind_Ok in L as (iid & (E2 & _ & R2)%matching_Ok & L).
  apply rbind_Ok in L as (idg & (E3 & _ & R3)%matching_Ok & L). apply rbind_Ok in L as (aid & (E4 & N4 & R4)%matching_Ok & L).
  apply rbind_Ok in L as (adg & (E5 & N5 & R5)%matching_Ok & L). apply rbind_Ok in L as (eid & (E6 & _ & R6)%matching_Ok & [= <-]).
  eexists cc, iid, idg, aid, adg, eid, _. split; [done|]. split; [done|]. split; [done|]. split; [done|].
  split; [|reflexivity]. apply sha256_prefixed_re.
Qed.

(** ** Bundles whose identities are strings, as their schema demands *)

Record string_bundle (b intent admission workload : odict json) (eid iid op plugin dataset scope : string) : Prop := {
  sb_intent : od_get "intent" b = Some (JObj intent);
  sb_admission : od_get "admission" b = Some (JObj admission);
  sb_workload : od_get "workload" intent = Some (JObj workload);
  sb_execution_id : od_get "execution_id" admission = Some (JStr eid);
  sb_intent_id : od_get "intent_id" intent = Some (JStr iid);
  sb_operation : od_get "operation" intent = Some (JStr op);
  sb_plugin : od_get "model_plugin_id" workload = Some (JStr plugin) /\ slug plugin = true;
  sb_dataset : od_get "dataset_id" workload = Some (JStr dataset) /\ slug dataset = true;
  sb_scope : od_get "requested_scope" workload = Some (JStr scope);
  sb_catalog : od_get "catalog_backend_ref" workload = Some (JStr FROZEN_CATALOG_REF) }.

Lemma get_or_str k s o : get_or k (JStr EmptyString) o = JStr s -> s <> EmptyString -> od_get k o = Some (JStr s).
Proof. unfold get_or. destruct (od_get k o); [by intros ->|]. by intros [= <-]. Qed.

Lemma keys_are (p : string -> bool) l s : forallb p l = true -> s ∈ l -> p s = true.
Proof. intros F I. rewrite forallb_forall in F. apply F. by apply list_elem_of_In. Qed.

Lemma error_document_accepted {SV : SchemaValidator} {RS : ResultSchemas SV} e :
  ae_message e <> EmptyString -> schema_accepts "preflight-error" (JObj (_error_document e)) = true.
Proof.
  intros N. apply schema_error. unfold _error_document.
  assert (M : (String.length (str_take 512 (ae_message e)) <=? 512)%nat = true).
  { apply Nat.leb_le. generalize 512%nat. intros n. generalize (ae_message e). intros s. revert n.
    induction s as [|c s IH]; intros [|n]; cbn; try lia. specialize (IH n). lia. }
  assert (M' : String.eqb (str_take 512 (ae_message e)) EmptyString = false) by (by destruct (ae_message e)).
  revert M M'. generalize (str_take 512 (ae_message e)). intros message M M'.
  assert (X : match od_get (ae_code e) _ERROR_METADATA with Some m => m | None => ("DISPATCH", true) end
              ∈ ("DISPATCH", true) :: map snd _ERROR_METADATA).
  { destruct (od_get _ _) as [m|] eqn:G; [|by left]. right. apply od_get_In in G. by apply (list_elem_of_fmap_2 snd) in G. }
  destruct (match od_get (ae_code e) _ERROR_METADATA with Some m => m | None => ("DISPATCH", true) end) as [category retryable].
  apply (list_elem_of_fmap_2 fst) in X. cbn [fst] in X.
  set (code := if str_in (ae_code e) _ then _ else _).
  assert (K : code ∈ od_keys _ERROR_METADATA).
  { unfold code. destruct (str_in _ _) eqn:S; [by apply str_in_elem in S|by apply str_in_elem]. }
  revert K. generalize code. clear - M M' X. intros code K.
  assert (Cc : error_codes code = true) by (revert K; apply keys_are; reflexivity).
  assert (Cg : error_categories category = true) by (revert X; apply keys_are; reflexivity).
  unfold error_schema. cbn -[error_codes error_categories str_in]. rewrite Cc, Cg, M, M'. reflexivity.
Qed.

(** Every listed field holds its string. *)
Ltac all_match := repeat (apply Forall_cons; split; [split; [reflexivity|eauto]|]); apply Forall_nil; exact I.

Section Accepted.
Context {SV : SchemaValidator} {RS : ResultSchemas SV} {ISO : IsoText} {PYT : PyText} {Data Model : Type}.
Context (models : ModelPluginRegistry Data Model) (datasets : DatasetRegistry Data) (SR : sound_registries models datasets).

(** A failure document of the execution the bundle names *)
Lemma failure_accepted b intent admission workload eid iid op plugin dataset scope producer dispatched e :
  string_bundle b intent admission workload eid iid op plugin dataset scope -> ae_message e <> EmptyString ->
  (dispatched = false -> ae_class e = PreflightClass) ->
  let result := failure_document dispatched (JStr eid) (JStr iid) (JStr op) (if dispatched then failure_status e else "FAILED") e in
  Dispatch._validate_terminal_result producer b (JObj result) = Ok result.
Proof.
  intros [Bi Ba _ Be Bii Bo _ _ _ _] N C result. unfold Dispatch._validate_terminal_result, Dispatch.bundle_path, get_item.
  rewrite Bi, Ba. cbn [rbind]. rewrite Be, Bii. cbn [rbind]. rewrite Bo. cbn [rbind].
  pose proof (error_document_accepted e N) as A. unfold result, failure_document.
  set (st := if dispatched then failure_status e else "FAILED").
  change (jget "execution_id" _) with (JStr eid). change (jget "intent_id" _) with (JStr iid). change (jget "operation" _) with (JStr op).
  change (jget "dispatched" _) with (JBool dispatched). change (jget "status" _) with (JStr st). change (jget "receipt" _) with JNull.
  change (jget "receipt_digest" _) with JNull. change (jget "error" _) with (JObj (_error_document e)).
  rewrite !py_eq_refl by done. cbn [andb require rbind is_bool Dispatch.status_in].
  assert (St : st = "FAILED" \/ (dispatched = true /\ (st = "TIMED_OUT" \/ st = "CANCELLED"))).
  { unfold st, failure_status. destruct dispatched; [|by left]. destruct (ae_class e); auto. }
  assert (V : forall a, schema_accepts "preflight-error" a = true -> schema_validate "preflight-error" a = Ok tt)
    by (intros a E; unfold schema_validate; by rewrite E).
  destruct St as [->|(-> & [->| ->])]; cbn [is_none require rbind]; change (py_eq (JStr ?a) (JStr ?b)) with (String.eqb a b);
    cbn -[schema_validate _error_document]; by rewrite (V _ A).
Qed.
(** The context a string bundle is accepted with *)
Lemma bundle_context b intent admission workload eid iid op plugin dataset scope p now x :
  string_bundle b intent admission workload eid iid op plugin dataset scope -> validate p (JObj b) now = Ok x ->
  x_execution_id x = JStr eid /\ x_intent_id x = JStr iid /\ x_operation x = op /\ x_model_plugin_id x = plugin /\
  x_dataset_id x = dataset /\ x_requested_scope x = scope /\ eid <> EmptyString /\
  exists policy, get_or "policy_context" (JObj []) admission = JObj policy /\
    x_controller_commit x = get_or "controller_commit" (JStr EmptyString) policy /\
    x_intent_digest x = jget "intent_digest" intent /\
    x_admission_id x = get_or "admission_id" (JStr EmptyString) admission /\
    x_admission_digest x = get_or "admission_digest" (JStr EmptyString) admission.
Proof.
  intros [Bi Ba Bw Be Bii Bo [Bp _] [Bd _] Bs _] V. apply validate_Ok in V as (b' & i & a & [= <-] & _ & I & A & V).
  unfold jget in I, A. rewrite Bi in I. rewrite Ba in A. injection I as <-. injection A as <-.
  apply validate_documents_Ok in V as (_ & w & policy & grants & d & t & m & W & _ & _ & _ & _ & _ & _ & _ & T & Pc & ->).
  unfold get_or in W. rewrite Bw in W. injection W as <-. unfold jget in T. rewrite Be in T. apply truthy_str in T.
  unfold context_of, jget, get_or. cbn [x_execution_id x_intent_id x_operation x_model_plugin_id x_dataset_id x_requested_scope
    x_controller_commit x_intent_digest x_admission_id x_admission_digest]. rewrite Be, Bii, Bo, Bp, Bd, Bs.
  repeat (split; [done|]). by exists policy.
Qed.

(** What the identities of a bundle are *)
Record bundle_names (intent admission : odict json) (cc idg aid adg : string) : Prop := {
  bn_intent_digest : od_get "intent_digest" intent = Some (JStr idg);
  bn_admission_id : od_get "admission_id" admission = Some (JStr aid);
  bn_admission_digest : od_get "admission_digest" admission = Some (JStr adg);
  bn_policy : exists policy, od_get "policy_context" admission = Some (JObj policy) /\
                od_get "controller_commit" policy = Some (JStr cc) }.

(** The receipt of an execution is the document of the bundle's names, and the
    receipt schema accepts it. *)
Lemma receipt_names b intent admission workload eid iid op plugin dataset scope p now x producer at_ r receipt :
  string_bundle b intent admission workload eid iid op plugin dataset scope -> validate p (JObj b) now = Ok x ->
  runner_of (x_model_plugin_id x) (x_dataset_id x) (x_requested_scope x) r ->
  context_receipt (Data := Data) (Model := Model) r x producer at_ = Ok receipt ->
  exists cc idg aid adg config, bundle_names intent admission cc idg aid adg /\
    receipt = receipt_document producer at_ cc iid idg aid adg eid plugin dataset scope config /\
    schema_accepts "receipt-lineage" (JObj receipt) = true.
Proof.
  intros B V K R. destruct (bundle_context _ _ _ _ _ _ _ _ _ _ _ _ _ B V) as (Xe & Xi & _ & Xp & Xd & Xs & Ne & policy & Pc & Xc & Xg & Xa & Xh).
  apply context_receipt_Ok in R as (cc & iid' & idg & aid & adg & eid' & config & (E1 & E2 & E3 & E4 & E5 & E6) & (N1 & N4 & N5) & Rx & S & Cf & ->);
    [|rewrite Xe; by apply truthy_str].
  destruct B as [Bi Ba Bw Be Bii Bo [Bp Sp] [Bd Sd] Bs Bc]. destruct K as [K1 K2 K3 K4 _ _].
  rewrite Xe in E6. injection E6 as <-. rewrite Xi in E2. injection E2 as <-.
  rewrite Xc in E1. apply get_or_str in E1; [|done]. rewrite Xa in E4. apply get_or_str in E4; [|done].
  rewrite Xh in E5. apply get_or_str in E5; [|done]. rewrite Xg in E3. unfold jget in E3. rewrite K1, K2, K3, Xp, Xd, Xs in *.
  exists cc, idg, aid, adg, config. split; [constructor; [|done|done|exists policy; split; [|done]]|split; [done|]].
  - destruct (od_get "intent_digest" intent); [by f_equal|discriminate E3].
  - unfold get_or in Pc. destruct (od_get "policy_context" admission); [by f_equal|]. injection Pc as <-. discriminate E1.
  - apply schema_receipt, receipt_document_schema; try apply Rx; try done. apply elem_of_cons in K4 as [E|K4]; [by destruct (S E)|exact K4].
Qed.

(** Fields that hold the strings they should *)
Lemma names_match l d :
  Forall (fun kv : string * json => jget kv.1 d = kv.2 /\ exists s, kv.2 = JStr s) l -> Dispatch.any_mismatch (JObj d) l = Ok false.
Proof.
  unfold Dispatch.any_mismatch. induction 1 as [|[k v] l [G (s & E)] _ IH]; [done|].
  cbn [fst snd] in G, E. cbn [rany fst snd attr_get rbind]. rewrite G, E, py_eq_refl by done. exact IH.
Qed.

Lemma receipt_accepted b intent admission workload eid iid op plugin dataset scope p now x producer at_ r receipt bytes :
  string_bundle b intent admission workload eid iid op plugin dataset scope -> validate p (JObj b) now = Ok x ->
  runner_of (x_model_plugin_id x) (x_dataset_id x) (x_requested_scope x) r ->
  context_receipt (Data := Data) (Model := Model) r x producer at_ = Ok receipt -> jcs_bytes (JObj receipt) = Ok bytes ->
  Dispatch.validate_receipt b producer receipt (JStr (sha256_prefixed bytes)) = Ok tt.
Proof.
  intros B V K R J.
  destruct (receipt_names _ _ _ _ _ _ _ _ _ _ _ _ _ _ _ _ _ B V K R) as (cc & idg & aid & adg & config & [N1 N2 N3 (policy & N4 & N5)] & -> & Sc).
  destruct B as [Bi Ba Bw Be Bii Bo [Bp _] [Bd _] Bs Bc].
  unfold Dispatch.validate_receipt, schema_validate. rewrite Sc. cbn [rbind].
  assert (Ep : Dispatch.expected_provenance b producer = Ok
    [("intent_id", JStr iid); ("intent_digest", JStr idg); ("admission_id", JStr aid); ("admission_digest", JStr adg);
     ("execution_id", JStr eid); ("controller_commit", JStr cc); ("catalog_backend_ref", JStr FROZEN_CATALOG_REF);
     ("backend_commit", JStr FROZEN_CATALOG_REF); ("producer_commit", JStr producer)]).
  { unfold Dispatch.expected_provenance, Dispatch.bundle_controller_commit, Dispatch.workload_item, Dispatch.bundle_path, get_item.
    rewrite Bi, Ba. cbn [rbind]. rewrite Bii, N1, N2, N3, Be, N4, Bw. cbn [rbind]. rewrite N5, Bc. reflexivity. }
  assert (Ew : Dispatch.expected_receipt_workload b = Ok
    [("model_plugin_id", JStr plugin); ("dataset_id", JStr dataset); ("executed_scope", JStr scope)]).
  { unfold Dispatch.expected_receipt_workload, Dispatch.workload_item, Dispatch.bundle_path, get_item.
    rewrite Bi. cbn [rbind]. rewrite Bw. cbn [rbind]. rewrite Bp, Bd, Bs. reflexivity. }
  rewrite Ep. cbn [rbind].
  change (Dispatch.get_or_empty "provenance" _) with (JObj [("repository", JStr "chartjs333/delta"); ("backend_commit", JStr DEFAULT_BACKEND_COMMIT);
          ("catalog_backend_ref", JStr DEFAULT_BACKEND_COMMIT); ("producer_commit", JStr producer); ("produced_at", JStr at_);
          ("controller_commit", JStr cc); ("intent_id", JStr iid); ("intent_digest", JStr idg);
          ("admission_id", JStr aid); ("admission_digest", JStr adg); ("execution_id", JStr eid)]).
  rewrite names_match by all_match. cbn [rbind negb require]. rewrite Ew. cbn [rbind].
  change (Dispatch.get_or_empty "workload" _) with (JObj [("model_plugin_id", JStr plugin); ("dataset_id", JStr dataset);
    ("executed_scope", JStr scope); ("workload_config_digest", JStr config)]).
  rewrite names_match by all_match. cbn [rbind negb require]. rewrite jcs_bytes_ordered in J by reflexivity.
  destruct (canonicalize_jcs _) as [bytes'|]; [|discriminate J]. injection J as ->. cbn [rbind].
  change (sha256_digest bytes) with (sha256_prefixed bytes). by rewrite py_eq_refl.
Qed.

(** ** The documents of the worker process *)

Definition completed_document (eid iid op : string) (receipt digest metrics info : json) : odict json :=
  [("dispatched", JBool true); ("execution_id", JStr eid); ("intent_id", JStr iid); ("operation", JStr op);
   ("status", JStr "COMPLETED"); ("receipt", receipt); ("receipt_digest", digest); ("metrics", metrics); ("materialize_info", info)].

(** Every document is a failure of the bundle's execution, or reports a completed
    operation, with the receipt of a runner of the accepted context and its
    digest for all operations but materialization. *)
Inductive worker_answer (b : odict json) (now : moment) (eid iid op producer at_ : string) (p : AuthorizedExecutionPreflight) :
    odict json -> Prop :=
| answer_failure dispatched e :
    ae_message e <> EmptyString -> (dispatched = false -> ae_class e = PreflightClass) ->
    (dispatched = false -> exists e', validate p (JObj b) now = Raise e') ->
    worker_answer b now eid iid op producer at_ p
      (failure_document dispatched (JStr eid) (JStr iid) (JStr op) (if dispatched then failure_status e else "FAILED") e)
| answer_receipt x r receipt bytes metrics info :
    validate p (JObj b) now = Ok x -> op ∈ ["TRAIN_TICKET"; "EVALUATE_CHECKPOINT"] ->
    runner_of (Data := Data) (Model := Model) (x_model_plugin_id x) (x_dataset_id x) (x_requested_scope x) r ->
    context_receipt r x producer at_ = Ok receipt -> jcs_bytes (JObj receipt) = Ok bytes ->
    worker_answer b now eid iid op producer at_ p
      (completed_document eid iid op (JObj receipt) (JStr (sha256_prefixed bytes)) metrics info)
| answer_materialized metrics info :
    op = "MATERIALIZE_DATASET" ->
    worker_answer b now eid iid op producer at_ p (completed_document eid iid op JNull JNull metrics info).

Lemma worker_answers b intent admission workload eid iid op plugin dataset scope keys issuer producer root now env result :
  string_bundle b intent admission workload eid iid op plugin dataset scope ->
  execute_authorized_document models datasets b keys issuer producer root now env = Ok result ->
  exists p, new_preflight None None keys = Ok p /\ worker_answer b now eid iid op producer (re_now env) p result.
Proof.
  intros B R. unfold execute_authorized_document in R. apply rbind_unit_Ok in R as (_ & R).
  assert (Id : _identity b = (JStr eid, JStr iid, JStr op)).
  { destruct B as [Bi Ba _ Be Bii Bo _ _ _ _]. unfold _identity, jget, get_or. by rewrite Bi, Ba, Be, Bii, Bo. }
  rewrite Id in R. apply rbind_unit_Ok in R as (_ & R). apply rbind_Ok in R as (pf & Pf & R). exists pf. split; [exact Pf|].
  pose proof (validate_spoken pf (JObj b) now) as Sv. destruct (validate pf (JObj b) now) as [x|e] eqn:V.
  - destruct (bundle_context _ _ _ _ _ _ _ _ _ _ _ _ _ B V) as (Xe & Xi & Xo & _).
    unfold execute_context in R. apply rbind_Ok in R as (d & D & R). unfold new_dispatcher in D. apply rbind_unit_Ok in D as (_ & [= <-]).
    pose proof (dispatch_answers models datasets SR (mkDispatcher (Some producer) root) x None None env producer eq_refl) as [Sd Ad].
    rewrite Xe, Xi, Xo in R. destruct (dispatch models datasets _ x None None None env) as [w|e] eqn:W; cbn [rbind] in R.
    + destruct (Ad w eq_refl) as ((St & _ & _) & [(Op & r & receipt & Er & K & Rc)|(Op & Er)]); rewrite St, Er in R; cbn [receipt_digest_of rbind] in R;
        rewrite Xo in Op; [|injection R as <-; by apply answer_materialized].
      pose proof (jcs_bytes_plain (JObj receipt)) as Pl. destruct (jcs_bytes (JObj receipt)) as [bytes|e] eqn:J; cbn [rbind] in R.
      * injection R as <-. by apply (answer_receipt _ _ _ _ _ _ _ _ x r).
      * destruct e; try discriminate R. by destruct (Pl e).
    + destruct e; try discriminate R. injection R as <-. apply (answer_failure _ _ _ _ _ _ _ _ true); [by apply Sd|done|done].
  - destruct e; try discriminate R. destruct (bool_decide_reflect (ae_class e = PreflightClass)) as [C|]; [|discriminate R].
    injection R as <-. apply (answer_failure _ _ _ _ _ _ _ _ false); [by apply Sv|done|by eauto].
Qed.

Lemma completed_accepted b intent admission workload eid iid op plugin dataset scope producer receipt digest metrics info :
  string_bundle b intent admission workload eid iid op plugin dataset scope ->
  (if py_eq (JStr op) (JStr "MATERIALIZE_DATASET") then receipt = JNull /\ digest = JNull
   else exists o, receipt = JObj o /\ Dispatch.validate_receipt b producer o digest = Ok tt) ->
  let result := completed_document eid iid op receipt digest metrics info in
  Dispatch._validate_terminal_result producer b (JObj result) = Ok result.
Proof.
  intros [Bi Ba _ Be Bii Bo _ _ _ _] V result. unfold Dispatch._validate_terminal_result, Dispatch.bundle_path, get_item.
  rewrite Bi, Ba. cbn [rbind]. rewrite Be, Bii. cbn [rbind]. rewrite Bo. cbn [rbind]. unfold result.
  cbn -[py_eq Dispatch.validate_receipt]. rewrite !py_eq_refl by done. cbn [andb require rbind].
  destruct (py_eq (JStr op) (JStr "MATERIALIZE_DATASET")); [by destruct V as [-> ->]|]. destruct V as (o & -> & V). by rewrite V.
Qed.

Lemma answer_accepted b intent admission workload eid iid op plugin dataset scope producer now at_ p result :
  string_bundle b intent admission workload eid iid op plugin dataset scope ->
  worker_answer b now eid iid op producer at_ p result -> Dispatch._validate_terminal_result producer b (JObj result) = Ok result.
Proof.
  intros B [dispatched e S C _|x r receipt bytes metrics info V Op K Rc J|metrics info Op].
  - by eapply failure_accepted.
  - apply (completed_accepted _ _ _ _ _ _ _ _ _ _ _ _ _ _ _ B).
    assert (Om : py_eq (JStr op) (JStr "MATERIALIZE_DATASET") = false).
    { apply py_eq_str_false. intros [= ->]. by apply str_in_elem in Op. }
    rewrite Om. exists receipt. split; [done|]. by eapply receipt_accepted.
  - apply (completed_accepted _ _ _ _ _ _ _ _ _ _ _ _ _ _ _ B). by rewrite Op.
Qed.

(** C16: whatever the worker process answers for an authorized execution, the
    controller accepts.  For a bundle whose identities are strings and whose
    catalog reference is the frozen one, every document the worker returns, of
    a completed operation with its receipt and digest, a failure, a timeout, a
    cancellation or a refused preflight, passes the queue's validation of
    terminal results for the same producer commit. *)
Theorem worker_result_accepted b intent admission workload eid iid op plugin dataset scope keys issuer producer root now env result
    (B : string_bundle b intent admission workload eid iid op plugin dataset scope)
    (R : execute_authorized_document models datasets b keys issuer producer root now env = Ok result) :
  Dispatch._validate_terminal_result producer b (JObj result) = Ok result.
Proof.
  destruct (worker_answers _ _ _ _ _ _ _ _ _ _ _ _ _ _ _ _ _ B R) as (p & _ & W). by eapply answer_accepted.
Qed.
End Accepted.
