(* ===== verification/RoundTrip.v ===== *)
(** * From the gate to the worker and back to the ledger

    The composition of the two programs: an execution the gate admitted, run by
    a worker process that trusts its key, ends in the ledger exactly as the
    worker reported it. *)

From stdpp Require Import relations.
From S2P Require Import Prelude PyFloat Json JsonText Text Sha256 Errors Canonical LedgerRecord Ledger LedgerInv LedgerSystem Quota Policy Ingress WorkerCanonical LiveCrypto LivePreflight PluginRegistry PluginRunner LiveDispatch LiveProcess Dispatch DispatchSettle Gate GateInv GateProps EndToEnd LiveProcessProps TerminalResult.
Open Scope string_scope.
Open Scope Z_scope.
Open Scope py_scope.

#[local] Opaque sha256_bytes.

(** ** The ledger accepts what the worker answers *)

(** The record of an execution and its bundle name the same things. *)
Record record_of (r : LedgerRecord) (intent admission : odict json) (eid iid op : string) : Prop := {
  rs_intent_id : lr_intent_id r = iid;
  rs_intent_digest : jget "intent_digest" intent = JStr (lr_intent_digest r);
  rs_execution_id : lr_execution_id r = eid;
  rs_operation : lr_operation r = Some op;
  rs_admission : lr_admission_record r = Some admission;
  rs_intent : lr_intent r = Some intent }.

Section Recorded.
Context {SV : SchemaValidator} {RS : ResultSchemas SV} {ISO : IsoText} {PYT : PyText} {Data Model : Type}.

Lemma no_lineage_mismatch l d :
  Forall (fun kv : string * json => jget kv.1 d = kv.2 /\ exists s, kv.2 = JStr s) l ->
  rany (lineage_field_mismatch (JObj d)) l = Ok false.
Proof.
  induction 1 as [|[k v] l [G (s & E)] _ IH]; [done|]. cbn [fst snd] in G, E. cbn [rany].
  unfold lineage_field_mismatch at 1. cbn [fst snd]. rewrite E in *. cbn [is_str negb attr_get rbind].
  rewrite G, py_eq_refl by done. exact IH.
Qed.

(** A receipt of the bundle's names has the lineage of the record. *)
Lemma lineage_accepted b intent admission workload eid iid op plugin dataset scope r producer at_ cc idg aid adg config ex :
  string_bundle b intent admission workload eid iid op plugin dataset scope -> record_of r intent admission eid iid op ->
  bundle_names intent admission cc idg aid adg -> ex = None \/ ex = Some producer ->
  validate_receipt_lineage r (receipt_document producer at_ cc iid idg aid adg eid plugin dataset scope config) ex = Ok tt.
Proof.
  intros [_ _ Bw _ _ _ [Bp _] [Bd _] Bs Bc] [I1 I2 I3 _ I4 I5] [N1 N2 N3 (policy & N4 & N5)] X.
  unfold validate_receipt_lineage, get_item. change (od_get "provenance" _) with
    (Some (JObj [("repository", JStr "chartjs333/delta"); ("backend_commit", JStr DEFAULT_BACKEND_COMMIT);
          ("catalog_backend_ref", JStr DEFAULT_BACKEND_COMMIT); ("producer_commit", JStr producer); ("produced_at", JStr at_);
          ("controller_commit", JStr cc); ("intent_id", JStr iid); ("intent_digest", JStr idg);
          ("admission_id", JStr aid); ("admission_digest", JStr adg); ("execution_id", JStr eid)])).
  cbn [rbind]. rewrite I4, I5. unfold jget in I2. rewrite N1 in I2. injection I2 as E.
  unfold expected_lineage, expected_workload, jget. rewrite N2, N3, N4, N5, Bw, I1, I3, <- E, Bc, Bp, Bd, Bs.
  rewrite no_lineage_mismatch by (destruct X as [->| ->]; all_match).
  cbn [rbind negb require]. unfold workload_mismatch. cbn. by rewrite !String.eqb_refl.
Qed.

(** A completed record with a receipt is valid. *)
Lemma receipt_record_ok r receipt bytes ex :
  lr_status r = "COMPLETED" -> lr_operation r <> Some "MATERIALIZE_DATASET" -> lr_error r = None ->
  lr_receipt_digest r = Some (sha256_prefixed bytes) -> lr_terminal_receipt r = Some receipt ->
  canonicalize_jcs (JObj receipt) = Ok bytes -> schema_accepts "receipt-lineage" (JObj receipt) = true ->
  validate_receipt_lineage r receipt ex = Ok tt -> _validate_terminal_invariants r ex = Ok tt.
Proof.
  intros E1 E2 E3 E4 E5 C S L. unfold _validate_terminal_invariants. rewrite E1, E3, E4, E5.
  change (str_in "COMPLETED" NONTERMINAL_STATUSES) with false. rewrite String.eqb_refl, bool_decide_eq_false_2 by exact E2.
  rewrite C. unfold schema_validate. rewrite S. cbn [wrap_if wrap rbind].
  change (sha256_digest bytes) with (sha256_prefixed bytes). rewrite String.eqb_refl. exact L.
Qed.

Lemma recorded_ok b intent admission workload eid iid op plugin dataset scope r producer at_ now clock p ex result :
  string_bundle b intent admission workload eid iid op plugin dataset scope -> record_of r intent admission eid iid op ->
  record_ok ex r -> ex = None \/ ex = Some producer -> now <> EmptyString ->
  worker_answer (Data := Data) (Model := Model) b clock eid iid op producer at_ p result ->
  record_ok ex (recorded r result now) /\
  next_artifacts (to_str (jget "status" result)) (to_opt_str (jget "receipt_digest" result)) (to_opt_obj (jget "receipt" result))
    (to_opt_obj (jget "error" result))
  = Ok (to_opt_str (jget "receipt_digest" result), to_opt_obj (jget "receipt" result), to_opt_obj (jget "error" result)) /\
  to_str (jget "status" result) ∈ TERMINAL_STATUSES.
Proof.
  intros B [R1 R2 R3 R4 R5 R6] K X N W.
  destruct W as [dispatched e S C _|x rn receipt bytes metrics info V Op Kr Rc J|metrics info Op].
  - set (st := if dispatched then failure_status e else "FAILED").
    assert (St : st ∈ FAILURE_STATUSES).
    { unfold st, failure_status. destruct dispatched; [destruct (ae_class e)|]; by apply str_in_elem. }
    change (recorded _ _ _) with (failed_record r st now (_error_document e)).
    split; [apply failed_record_ok; [exact K|exact St|exact N|]|].
    { unfold _error_document. destruct (match od_get _ _ with Some m => m | None => _ end). discriminate. }
    change (jget "status" _) with (JStr st). cbn [to_str].
    destruct (failure_status_facts st St) as (_ & T & _ & E). split; [|done]. unfold next_artifacts. rewrite E.
    apply str_in_elem in St. unfold FAILURE_STATUSES in St. by rewrite St.
  - assert (Om : Some op <> Some "MATERIALIZE_DATASET").
    { intros [= E]. rewrite E in Op. apply str_in_elem in Op. discriminate Op. }
    split; [|by split; [|apply str_in_elem]].
    change (recorded _ _ _) with (replace_status r "COMPLETED" now (Some (sha256_prefixed bytes), Some receipt, None)).
    split; [apply replace_status_snapshot; [apply K|by apply str_in_elem|exact N|discriminate]|].
    destruct (receipt_names _ _ _ _ _ _ _ _ _ _ _ _ _ _ _ _ _ B V Kr Rc) as (cc & idg & aid & adg & config & Bn & -> & Sc).
    rewrite jcs_bytes_ordered in J by reflexivity.
    apply (receipt_record_ok _ (receipt_document producer at_ cc iid idg aid adg eid plugin dataset scope config) bytes); try reflexivity.
    + cbn [lr_operation replace_status]. by rewrite R4.
    + destruct (canonicalize_jcs _) as [bytes'|]; [|discriminate J]. by injection J as ->.
    + exact Sc.
    + eapply (lineage_accepted _ _ _ _ _ _ _ _ _ _ _ _ _ _ _ _ _ _ _ B); [by constructor|exact Bn|exact X].
  - split; [|by split; [|apply str_in_elem]].
    change (recorded _ _ _) with (replace_status r "COMPLETED" now (None, None, None)).
    split; [by apply replace_status_snapshot; [apply K|by apply str_in_elem| |]|].
    unfold _validate_terminal_invariants. cbn. rewrite R4, Op. by rewrite bool_decide_eq_true_2.
Qed.
End Recorded.

(** ** The round trip *)

Lemma jget_str k s (o : odict json) : jget k o = JStr s -> od_get k o = Some (JStr s).
Proof. unfold jget. destruct (od_get k o); [by intros ->|done]. Qed.

(** The default catalog fixes strings. *)
Lemma default_catalog_strings w op :
  catalog_validate default_catalog w op = Ok tt ->
  exists o plugin dataset scope, op = JStr o /\ (od_get "model_plugin_id" w = Some (JStr plugin) /\ slug plugin = true) /\
    (od_get "dataset_id" w = Some (JStr dataset) /\ slug dataset = true) /\
    od_get "requested_scope" w = Some (JStr scope) /\ od_get "catalog_backend_ref" w = Some (JStr FROZEN_CATALOG_REF).
Proof.
  unfold catalog_validate. rewrite rbind_unit_Ok. intros (Hb%require_Ok%py_eq_str%jget_str & H).
  apply rbind_Ok in H as (b1 & H1 & H). apply rbind_unit_Ok in H as (->%require_Ok & H).
  apply rbind_Ok in H as (b2 & H2 & H). apply rbind_unit_Ok in H as (->%require_Ok & H).
  apply rbind_Ok in H as ([scopes|] & D & H); [|done]. apply rbind_Ok in H as (b3 & S & ->%require_Ok).
  apply in_set_true in H1 as (plugin & ->%jget_str & I1), H2 as (dataset & ->%jget_str & I2), S as (scope & ->%jget_str & _).
  apply dict_get_Some in D as (o & -> & _). exists o, plugin, dataset, scope.
  cbn [known_plugins known_datasets default_catalog] in I1, I2. unfold DEFAULT_KNOWN_PLUGINS, DEFAULT_KNOWN_DATASETS in *.
  rewrite list_elem_of_singleton in I1, I2. subst. done.
Qed.

Section RoundTrip.
Context {SV : SchemaValidator} {ISO : IsoText} {PYT : PyText} {ED : Ed25519} {P : Type} {WP : WorkerDispatchPort P} {PL : PortLaws P}.
Context {RFC : RFC8032 ED} {IL : IsoLaws ISO} {AS : AdmissionSchema SV} {RS : ResultSchemas SV} {Data Model : Type}.
Context (models : ModelPluginRegistry Data Model) (datasets : DatasetRegistry Data) (SR : sound_registries models datasets).

(** The record of an admitted execution, in whatever later ledger *)
Lemma admitted_record_of (env : call_env (P := P)) rq admission retry op l l' r :
  od_get "intent_digest" (rq_intent rq) = Some (JStr (rq_intent_digest rq)) ->
  ledger_inv l -> rtc ledger_step l l' ->
  get_by_execution_id (env_execution_id env) l = Some (call_record env rq admission retry op) ->
  get_by_execution_id (env_execution_id env) l' = Some r ->
  record_of r (rq_intent rq) admission (env_execution_id env) (rq_intent_id rq) op.
Proof.
  intros Ed Hi Hs G0 G. destruct (get_steps _ _ _ _ Hi Hs G0) as (r' & G' & [I _]%record_steps_identity).
  rewrite G in G'. injection G' as <-. unfold identity_of in I. injection I as I1 I2 _ I4 _ I6 _ I8 I9.
  constructor; try done. unfold jget. by rewrite Ed, I2.
Qed.

(** C2: a round trip.  For an execution the gate admitted and a worker that
    trusts the gate's key, as long as the admission is fresh, the worker
    dispatches it; and when its record is running in whatever later state of
    the ledger, the queue records exactly what the worker answered, with its
    status, receipt, receipt digest and error, never a failure of the queue's
    own, unless the append of that record fails and poisons the ledger. *)
Theorem admitted_execution_recorded (g : AuthorizationGate) (env : call_env (P := P)) raw creds rq (p p' : P) admission digest
    (pf : AuthorizedExecutionPreflight) worker_now keys issuer root wenv result (q q' : DispatchPort) r now io io2 res
    (Hok : port_ok p) (He : env_ok env) (Hf : by_execution_id (wp_ledger p) !! env_execution_id env = None)
    (Hp : Gate.preflight g raw creds (env_now env) = Ok rq)
    (Hr : reserve_and_commit g env rq p = (p', Ok (admission, digest)))
    (A : agreed g env rq admission pf worker_now) (C : catalog_validator g = default_catalog)
    (K : new_preflight None None keys = Ok pf)
    (R : execute_authorized_document models datasets (build_bundle (rq_intent rq) admission) keys issuer (producer_commit q) root
           worker_now wenv = Ok result)
    (Hq : rtc ledger_step (wp_ledger p') (port_ledger q)) (Hl : poisoned_reason (port_ledger q) = None)
    (Hg : get_by_execution_id (env_execution_id env) (port_ledger q) = Some r) (Hs : lr_status r = "RUNNING")
    (Hc : expected_producer_commit (port_ledger q) = None \/ expected_producer_commit (port_ledger q) = Some (producer_commit q))
    (Hn : now <> EmptyString)
    (F : run_job_finish (env_execution_id env) (build_bundle (rq_intent rq) admission) (RunResult (JObj result)) now io io2 q = (q', res)) :
  jget "dispatched" result = JBool true /\
  ((res = Ok tt /\ get_by_execution_id (env_execution_id env) (port_ledger q') = Some (recorded r result now) /\
    jget "status" result = JStr (lr_status (recorded r result now)) /\ lr_status (recorded r result now) ∈ TERMINAL_STATUSES) \/
   (~ append_ok io (recorded r result now) (port_ledger q) /\ poisoned_reason (port_ledger q') <> None)).
Proof.
  destruct (admitted_validates g env raw creds rq p p' admission digest pf worker_now Hok He Hf Hp Hr A)
    as (D & w & op & d & t & m & Ew & Eo & Cv & Ei & Ed & V).
  rewrite C in Cv. apply default_catalog_strings in Cv as (o & plugin & dataset & scope & -> & Sp & Sd & Ss & Sr).
  assert (B : string_bundle (build_bundle (rq_intent rq) admission) (rq_intent rq) admission w (env_execution_id env)
                (rq_intent_id rq) o plugin dataset scope) by (destruct D; by constructor).
  destruct (worker_answers models datasets SR _ _ _ _ _ _ _ _ _ _ _ _ _ _ _ _ _ B R) as (pf' & K' & W).
  rewrite K in K'. injection K' as <-. split.
  { destruct W as [[] e _ _ Vf|x rn receipt bytes metrics info|metrics info]; try reflexivity.
    destruct (Vf eq_refl) as [e' Ve]. by rewrite V in Ve. }
  destruct (reserve_and_commit_cases _ _ _ _ _ _ Hok He Hf Hr) as (Hok' & _ & active & grants & retry & op & l & _ & _ & _ & Eo' & [_ G0] & _).
  rewrite Eo in Eo'. injection Eo' as <-.
  pose proof (law_ledger _ Hok') as Hi'. pose proof (ledger_steps_inv _ _ Hq Hi') as Hi.
  pose proof (admitted_record_of _ _ _ _ _ _ _ _ Ed Hi' Hq G0 Hg) as Ro.
  destruct (lookup_of_get _ _ _ Hi Hg) as (_ & _ & Hro & _).
  destruct (recorded_ok _ _ _ _ _ _ _ _ _ _ _ _ _ now _ _ _ _ B Ro Hro Hc Hn W) as (Rk & Na & Te).
  pose proof (answer_accepted _ _ _ _ _ _ _ _ _ _ _ _ _ _ _ B W) as Va.
  destruct (finish_records _ _ _ _ _ _ _ _ _ _ Hi Hl Hg Hs Va Te Na Rk F) as [[-> G]|X]; [left|by right].
  split; [done|]. split; [exact G|]. split; [|exact Te].
  destruct (valid_result_terminal _ _ _ _ Va) as (_ & st & Est & _).
  change (lr_status (recorded r result now)) with (to_str (jget "status" result)). rewrite Est. reflexivity.
Qed.
End RoundTrip.
