(* ===== verification/LiveWitness.v ===== *)
(** * One execution from the gate to the worker and back

    An operator's training intent is admitted by a gate with a real admission
    document, validated and executed by the worker process, and its result is
    accepted by the queue.  First the toy parameters: a codec of instants, schemas
    that read grants, a key of the neutral point, and plugins that count. *)

From stdpp Require Import relations.
From S2P Require Import Prelude PyFloat Json JsonText Text Sha256 Errors Canonical LedgerRecord Ledger LedgerInv LedgerSystem Quota Policy Ingress Status WorkerCanonical LiveCrypto LivePreflight PluginRegistry PluginRunner LiveDispatch LiveProcess Dispatch DispatchInv DispatchSettle Gate GateInv GateProps EndToEnd LiveProcessProps TerminalResult RoundTrip.
Open Scope string_scope.
Open Scope Z_scope.
Open Scope py_scope.

(** ** Signatures *)

Definition neutral_bytes (n : nat) : string := String (ascii_of_nat 1) (String.string_of_list_ascii (List.repeat (ascii_of_nat 0) n)).
Definition neutral_key : string := Eval vm_compute in neutral_bytes 31.
Definition neutral_signature : string := Eval vm_compute in neutral_bytes 63.

Lemma xrecover_neutral : _xrecover 1 = 0.
Proof.
  unfold _xrecover. change (1 * 1 - 1) with 0. rewrite !Z.mul_0_l. generalize _I. intros i. vm_compute. reflexivity.
Qed.

Lemma neutral_point : _decodepoint (bytes_of neutral_key) = (0, 1).
Proof.
  unfold _decodepoint. change (from_little (take 32 (bytes_of neutral_key))) with 1.
  change (Z.land 1 (Z.shiftl 1 255 - 1)) with 1. rewrite xrecover_neutral. reflexivity.
Qed.

Lemma neutral_verifies m : verify_ed25519 neutral_key m neutral_signature = true.
Proof.
  unfold verify_ed25519.
  change (String.length neutral_key) with 32%nat. change (String.length neutral_signature) with 64%nat. cbn [Nat.eqb negb orb].
  change (take 32 (bytes_of neutral_signature)) with (bytes_of neutral_key). rewrite neutral_point.
  change (from_little (drop 32 (bytes_of neutral_signature))) with 0.
  change (_Q <=? 0) with false. cbn iota.
  change (_scalarmult _B (Z.to_N 0)) with (0, 1).
  rewrite scalarmult_neutral, edwards_add_neutral. apply bool_decide_eq_true_2. reflexivity.
Qed.

#[export, program] Instance neutral_ed25519 : Ed25519 := {
  private_key := unit; public_key := string;
  public_key_of _ := neutral_key; public_bytes_raw pk := pk;
  ed_sign _ _ := neutral_signature;
  ed_verify pk sg _ := String.eqb pk neutral_key && String.eqb sg neutral_signature }.
Next Obligation. intros. reflexivity. Defined.

#[export] Instance neutral_rfc8032 : RFC8032 neutral_ed25519.
Proof. split; [done|]. intros. apply neutral_verifies. Defined.

(** ** Points in time *)

Definition offset_json (m : moment) : json := match utc_offset m with Some z => JInt z | None => JNull end.
Definition print_moment (m : moment) : string := to_hex (dumps_compact (JArr [JInt (instant m); offset_json m])).
Definition read_moment (s : string) : option moment :=
  match from_hex s with
  | None => None
  | Some t =>
      match loads true t with
      | Some (JArr [JInt z; JInt o]) => Some (mkMoment z (Some o))
      | Some (JArr [JInt z; JNull]) => Some (mkMoment z None)
      | _ => None
      end
  end.

#[export] Instance hex_iso : IsoText := {| fromisoformat := read_moment; isoformat := print_moment |}.

Lemma replace_z_hex s : replace_z (to_hex s) = to_hex s.
Proof.
  induction s as [|c s IH]; [done|]. cbn [to_hex].
  assert (D : forall n r, (n < 16)%nat -> replace_z (String (hex_digit n) r) = String (hex_digit n) (replace_z r)).
  { intros n r L. do 16 (destruct n as [|n]; [reflexivity|]). lia. }
  assert (B : (nat_of_ascii c < 256)%nat) by apply nat_ascii_bounded.
  rewrite !D, IH; [done|by apply Nat.mod_upper_bound|by apply Nat.Div0.div_lt_upper_bound].
Qed.

#[export] Instance hex_iso_laws : IsoLaws hex_iso.
Proof.
  split; [|reflexivity]. intros [z o]. cbn [fromisoformat isoformat hex_iso]. unfold print_moment, read_moment.
  rewrite replace_z_hex, from_hex_to_hex. rewrite loads_dumps_compact by (by destruct o). by destruct o.
Qed.

(** ** Schemas *)

(** The grants of an admission are read, receipts and errors are checked against
    their schemas; every other document is accepted. *)
Definition grants_ok (admission : odict json) : bool :=
  match jget "resource_grants" admission with
  | JObj g =>
      match jget "timeout_seconds" g, jget "max_memory_bytes" g with
      | JInt t, JInt m => (1 <=? t) && (t <=? 3600) && (1 <=? m)
      | _, _ => false
      end
  | _ => false
  end.
#[export] Instance grant_schemas : SchemaValidator := {|
  schema_accepts name doc :=
    if String.eqb name "receipt-lineage" then receipt_schema doc
    else if String.eqb name "preflight-error" then error_schema doc
    else match doc with JObj o => if String.eqb name "admission-record" then grants_ok o else true | _ => true end |}.

#[export] Instance grant_admission_schema : AdmissionSchema grant_schemas.
Proof.
  split. intros a. cbn. unfold grants_ok. destruct (jget "resource_grants" a) as [| | | | | |g] eqn:G; try done.
  destruct (jget "timeout_seconds" g) as [| |t| | | |] eqn:T; try done.
  destruct (jget "max_memory_bytes" g) as [| |m| | | |] eqn:M; try done.
  intros [[A%Z.leb_le B%Z.leb_le]%andb_true_iff C%Z.leb_le]%andb_true_iff _. by exists g, t, m.
Qed.

#[export] Instance grant_result_schemas : ResultSchemas grant_schemas.
Proof. split; done. Qed.

#[export] Instance toy_text : PyText := {| container_str _ := "..."; exn_str _ := "error" |}.

(** ** Plugins and datasets: a model is the number of samples it saw *)

Definition toy_plugin (id : string) : ModelPlugin Z Z :=
  mkPlugin id 20 (fun ticket d m => Ok (mkTrainingResult ticket (d + match m with Some m => m | None => 0 end) []))
    (fun v => match v with JArr l => Ok (Z.of_nat (length l)) | _ => Raise LValueError end)
    (fun m d => Ok (mkEvaluation 1000000 None [("seen", JInt (m + d))])).
Definition toy_provider (d : DatasetDescriptor) : DatasetProvider Z :=
  mkProvider (ds_dataset_id d) d (fun c _ => Ok [("cache_dir", JStr c)])
    (fun i => Ok (Some (mkPartition i 4 4 []))) (Ok 2).

Definition toy_model_factory (id : string) : Factory (ModelPlugin Z Z) := fun _ => Ok (Some (toy_plugin id)).
Definition toy_dataset_factory (d : DatasetDescriptor) : Factory (DatasetProvider Z) := fun _ => Ok (Some (toy_provider d)).

Definition toy_model_registry : lresult (ModelPluginRegistry Z Z) :=
  build_default_registry (toy_model_factory "mnist-centroid-v1") (toy_model_factory "eeg-bandpower-centroid-v1")
    (toy_model_factory "qlora-tiny-adapter-v1") (toy_model_factory "tabular-10gene-phenotype-v1").
Definition toy_dataset_registry : lresult (DatasetRegistry Z) :=
  build_default_dataset_registry (toy_dataset_factory MNIST_DESCRIPTOR) (toy_dataset_factory EEG_DATASET_DESCRIPTOR)
    (toy_dataset_factory QLORA_DATASET_DESCRIPTOR) (toy_dataset_factory SYNTHETIC_10GENE_DESCRIPTOR).
Definition toy_models : ModelPluginRegistry Z Z := match toy_model_registry with Ok r => r | Raise _ => empty_plugin_registry end.
Definition toy_datasets : DatasetRegistry Z := match toy_dataset_registry with Ok r => r | Raise _ => empty_dataset_registry end.

(** The default registries answer. *)
Example toy_registries :
  (map d_plugin_id (list_plugin_descriptors toy_models), map ds_dataset_id (list_dataset_descriptors toy_datasets))
  = (["eeg-bandpower-centroid-v1"; "mnist-centroid-v1"; "qlora-tiny-adapter-v1"; "tabular-10gene-phenotype-v1"],
     ["eeg-synthetic-bci-v1"; "mnist-v1"; "synthetic-10gene-cohort-v1"; "tiny-qlora-regression-v1"]).
Proof. vm_compute. reflexivity. Qed.

Lemma toy_plugin_plain id : plain_plugin_factory (toy_model_factory id).
Proof. intros c. split; [done|]. intros p [= <-]. split; [done| |done]. intros v. destruct v; done. Qed.
Lemma toy_provider_plain d : plain_provider_factory (toy_dataset_factory d).
Proof. intros c. split; [done|]. intros v [= <-]. by split. Qed.

Lemma toy_built : toy_model_registry = Ok toy_models /\ toy_dataset_registry = Ok toy_datasets.
Proof. split; reflexivity. Qed.

Lemma toy_sound : sound_registries toy_models toy_datasets.
Proof.
  destruct toy_built as [M D]. apply (default_sound _ _ _ _ _ _ _ _ _ _ M D);
    repeat (apply Forall_cons; split; [first [apply toy_plugin_plain|apply toy_provider_plain]|]); apply Forall_nil; exact I.
Qed.

(** ** One execution *)

(** ** The gate's side *)

Definition live_commit : string := "0123456789abcdef0123456789abcdef01234567".
Definition live_intent_id : string := "11111111-1111-4111-8111-111111111111".
Definition live_execution_id : string := "22222222-2222-4222-8222-222222222222".
Definition live_admission_id : string := "33333333-3333-4333-8333-333333333333".

Definition live_intent0 : odict json :=
  [("intent_id", JStr live_intent_id); ("operation", JStr "TRAIN_TICKET");
   ("operation_payload", JObj [("ticket_id", JStr "ticket-1"); ("partition_id", JStr "part-1")]);
   ("expires_at", JStr (print_moment (mkMoment 2000 (Some 0))));
   ("execution_constraints", JObj [("timeout_seconds", JInt 60)]);
   ("workload", JObj [("catalog_backend_ref", JStr FROZEN_CATALOG_REF);
      ("model_plugin_id", JStr "tabular-10gene-phenotype-v1");
      ("dataset_id", JStr "synthetic-10gene-cohort-v1");
      ("requested_scope", JStr "PLUGIN_BOUNDARY")])].
Definition live_intent_digest : string := Eval vm_compute in
  match compute_intent_digest live_intent0 with Ok d => d | Raise _ => EmptyString end.
Definition live_intent : odict json := od_set "intent_digest" (JStr live_intent_digest) live_intent0.

Definition live_gate : AuthorizationGate :=
  mkGate neutral_ed25519 MAX_INGRESS_BYTES Policy.demo_port default_catalog default_quota
    (mkIdentity neutral_ed25519 tt "key-1" "issuer-1") live_commit DEFAULT_POLICY_VERSION 300.

Definition live_env : call_env (P := DispatchPort) :=
  mkEnv (P := DispatchPort) (mkMoment 1000 (Some 0%Z)) "t0" 0 [] live_admission_id live_execution_id "t1" AppendOk
    (mkQueueEnv "t2" "t3" AppendOk AppendOk true id id : dispatch_env (P := DispatchPort))
    "t4" AppendOk "t5" AppendOk "t6" (fun _ p => p).

Lemma live_env_ok : env_ok live_env.
Proof.
  constructor.
  - intros k p Hp. split; [exact Hp|]. apply rely_refl.
  - constructor.
  - intros total. split; intros p pend Hi; (split; [exists []; by rewrite app_nil_r|apply rtc_refl]).
Qed.

Definition live_port : DispatchPort := fresh_port 2 (empty_ledger (Some EmptyString) None) live_commit.
Definition live_request : admitted_request := mkRequest live_intent live_intent_id live_intent_digest Policy.demo_operator.

Lemma live_admitted : Gate.preflight live_gate (RawDict live_intent) (Some Policy.demo_credentials) (env_now live_env) = Ok live_request.
Proof. vm_compute. reflexivity. Qed.

Definition live_reserved : DispatchPort := Eval vm_compute in
  (gate_ledger (acquire_or_check live_intent_id live_intent_digest "alice" "t0" 30000 0 []) live_port).1.

Lemma live_reserved_ok : port_ok live_reserved.
Proof.
  exists 2%nat, []. change live_reserved with (set_port_ledger (port_ledger live_reserved) live_port).
  apply inv_set_ledger; [apply fresh_port_inv, inv_empty|].
  eapply (step_acquire live_intent_id live_intent_digest "alice" "t0" 30000 0). vm_compute. reflexivity.
Qed.

Definition live_committed := Eval vm_compute in reserve_and_commit live_gate live_env live_request live_reserved.
Definition live_admission : odict json := match live_committed.2 with Ok s => s.1 | Raise _ => [] end.
Definition live_digest : string := match live_committed.2 with Ok s => s.2 | Raise _ => EmptyString end.

Lemma live_reserve : reserve_and_commit live_gate live_env live_request live_reserved = (live_committed.1, Ok (live_admission, live_digest)).
Proof. vm_compute. reflexivity. Qed.

(** ** The worker's side *)

Definition live_keys : odict string := [("key-1", to_hex neutral_key)].
Definition live_preflight : AuthorizedExecutionPreflight := mkPreflight live_keys ["key-1"] None.
Definition live_now : moment := mkMoment 1100 (Some 0).

Lemma live_agreed : agreed live_gate live_env live_request live_admission live_preflight live_now.
Proof.
  constructor; try reflexivity; try discriminate; [by left|]. exists (mkMoment 2000 (Some 0)). split; [vm_compute; reflexivity|done].
Qed.

Lemma admitted_bundle_accepted_witness :
  exists x, validate live_preflight (JObj (build_bundle live_intent live_admission)) live_now = Ok x /\
    x_execution_id x = JStr live_execution_id /\ x_controller_commit x = JStr live_commit.
Proof.
  destruct (admitted_bundle_accepted live_gate live_env (RawDict live_intent) (Some Policy.demo_credentials) live_request
    live_reserved live_committed.1 live_admission live_digest live_preflight live_now live_reserved_ok live_env_ok
    eq_refl live_admitted live_reserve live_agreed) as (x & V & _ & _ & E & _ & _ & _ & C).
  exists x. split; [exact V|]. split; [exact E|exact C].
Defined.

(** ** The run *)

Definition live_run : run_env := mkRunEnv false "2030-01-01T00:00:01+00:00" 7.
Definition live_bundle : odict json := build_bundle live_intent live_admission.
Definition live_workload : odict json :=
  match jget "workload" live_intent with JObj w => w | _ => [] end.

Lemma live_validates :
  exists d t m, validate live_preflight (JObj live_bundle) live_now
                = Ok (context_of live_intent live_admission live_workload (admitted_policy live_gate) d t m).
Proof.
  destruct (admitted_validates live_gate live_env (RawDict live_intent) (Some Policy.demo_credentials) live_request
    live_reserved live_committed.1 live_admission live_digest live_preflight live_now live_reserved_ok live_env_ok
    eq_refl live_admitted live_reserve live_agreed) as (_ & w & op & d & t & m & Ew & _ & _ & _ & _ & V).
  change (od_get "workload" _) with (Some (JObj live_workload)) in Ew. injection Ew as <-. by exists d, t, m.
Qed.

Definition live_result : odict json := Eval vm_compute in
  match execute_context toy_models toy_datasets
          (context_of live_intent live_admission live_workload (admitted_policy live_gate) false 60 1) live_commit "/cache" live_run with
  | Ok result => result
  | Raise _ => []
  end.

Lemma live_executed :
  execute_authorized_document toy_models toy_datasets live_bundle live_keys "issuer-1" live_commit "/cache" live_now live_run
  = Ok live_result.
Proof.
  unfold execute_authorized_document. change (lower_hex 40 live_commit) with true. cbn [require rbind].
  change (_identity live_bundle) with (JStr live_execution_id, JStr live_intent_id, JStr "TRAIN_TICKET").
  change (issuer_matches live_bundle "issuer-1") with true. cbn [require rbind].
  change (new_preflight None None live_keys) with (Ok (E := live_exn) live_preflight). cbn [rbind].
  destruct live_validates as (d & t & m & ->). vm_compute. reflexivity.
Qed.

Lemma live_string_bundle :
  string_bundle live_bundle live_intent live_admission live_workload live_execution_id live_intent_id "TRAIN_TICKET"
    "tabular-10gene-phenotype-v1" "synthetic-10gene-cohort-v1" "PLUGIN_BOUNDARY".
Proof. by constructor. Qed.

Lemma worker_result_accepted_witness :
  jget "status" live_result = JStr "COMPLETED" /\
  Dispatch._validate_terminal_result live_commit live_bundle (JObj live_result) = Ok live_result.
Proof.
  split; [reflexivity|].
  apply (worker_result_accepted toy_models toy_datasets toy_sound live_bundle live_intent live_admission live_workload
    live_execution_id live_intent_id "TRAIN_TICKET" "tabular-10gene-phenotype-v1" "synthetic-10gene-cohort-v1" "PLUGIN_BOUNDARY"
    live_keys "issuer-1" live_commit "/cache" live_now live_run live_result live_string_bundle live_executed).
Defined.

(** ** Back in the queue *)

Definition live_running_ledger := Eval vm_compute in
  transition_execution live_execution_id ["ADMITTED"] "RUNNING" None None None "t7" AppendOk (port_ledger live_committed.1).
Definition live_running : DispatchPort := set_port_ledger live_running_ledger.1 live_committed.1.

Lemma live_runs : rtc ledger_step (port_ledger live_committed.1) (port_ledger live_running).
Proof.
  apply rtc_once. eapply (step_transition live_execution_id ["ADMITTED"] "RUNNING" None None None "t7" AppendOk).
  vm_compute. reflexivity.
Qed.

Definition live_record : LedgerRecord := Eval vm_compute in
  match get_by_execution_id live_execution_id (port_ledger live_running) with
  | Some r => r
  | None => admitted_record EmptyString EmptyString EmptyString EmptyString [] None None None EmptyString
  end.
Definition live_finished := Eval vm_compute in
  run_job_finish live_execution_id live_bundle (RunResult (JObj live_result)) "t8" AppendOk AppendOk live_running.

Lemma live_finish :
  run_job_finish live_execution_id live_bundle (RunResult (JObj live_result)) "t8" AppendOk AppendOk live_running
  = (live_finished.1, live_finished.2).
Proof. vm_compute. reflexivity. Qed.

Lemma admitted_execution_recorded_witness :
  jget "dispatched" live_result = JBool true /\
  get_by_execution_id live_execution_id (port_ledger live_finished.1) = Some (recorded live_record live_result "t8") /\
  lr_status (recorded live_record live_result "t8") = "COMPLETED".
Proof.
  destruct (admitted_execution_recorded toy_models toy_datasets toy_sound live_gate live_env (RawDict live_intent)
    (Some Policy.demo_credentials) live_request live_reserved live_committed.1 live_admission live_digest live_preflight live_now
    live_keys "issuer-1" "/cache" live_run live_result live_running live_finished.1 live_record "t8" AppendOk AppendOk live_finished.2
    live_reserved_ok live_env_ok eq_refl live_admitted live_reserve live_agreed eq_refl eq_refl live_executed live_runs)
    as [Dp [(_ & G & _)|[N _]]]; [vm_compute; reflexivity..|left; reflexivity|discriminate|exact live_finish| |].
  - split; [exact Dp|]. split; [exact G|reflexivity].
  - destruct N. right. split; [reflexivity|vm_compute; reflexivity].
Defined.

(** The result settles the running execution, COMPLETED with its receipt. *)
Lemma live_running_inv : ledger_inv (port_ledger live_running).
Proof.
  eapply ledger_steps_inv; [exact live_runs|].
  destruct (reserve_and_commit_cases live_gate live_env live_request live_reserved live_committed.1 live_committed.2
    live_reserved_ok live_env_ok) as [Hok _]; [vm_compute; reflexivity..|]. exact (law_ledger _ Hok).
Qed.

Lemma run_job_settles_witness :
  get_by_execution_id live_execution_id (port_ledger live_finished.1) = Some (recorded live_record live_result "t8") /\
  lr_status (recorded live_record live_result "t8") = "COMPLETED".
Proof.
  assert (S : settlement (producer_commit live_running) (expected_producer_commit (port_ledger live_running)) live_bundle
    (RunResult (JObj live_result)) "t8" AppendOk AppendOk live_record = (AppendOk, recorded live_record live_result "t8"))
    by (vm_compute; reflexivity).
  assert (G : get_by_execution_id live_execution_id (port_ledger live_running) = Some live_record) by (vm_compute; reflexivity).
  pose proof (run_job_settles live_execution_id live_bundle (RunResult (JObj live_result)) "t8" AppendOk AppendOk live_running
    live_finished.1 live_finished.2 live_record live_running_inv ltac:(discriminate) G eq_refl live_finish) as R.
  rewrite S in R. destruct R as (_ & _ & [[_ R]|[P _]]); [split; [exact R|reflexivity]|].
  assert (N : poisoned_reason (port_ledger live_finished.1) = None) by (vm_compute; reflexivity). rewrite N in P. by destruct P.
Defined.

(** ** Several domains *)

Definition two_domains : list DomainBindingSpec :=
  [mkDomainSpec "vision" "mnist-centroid-v1" "mnist-v1" "PRIMARY_DELTA_EXECUTION" "STAGE_C_REAL_DRQ1";
   mkDomainSpec "genes" "tabular-10gene-phenotype-v1" "synthetic-10gene-cohort-v1" "WORKLOAD_DOMAIN" "PLUGIN_BOUNDARY"].
Definition two_bindings : MultiDomainBinding (Data := Z) (Model := Z) :=
  match bind_model_dataset_domains 3 toy_models toy_datasets two_domains with Ok m => m | Raise _ => mkMulti [] [] end.

Lemma domain_bindings_exact_witness :
  domain_ids two_bindings = ["vision"; "genes"] /\
  (exists b, get_domain "genes" two_bindings = Ok b /\
     bound toy_models toy_datasets "tabular-10gene-phenotype-v1" "synthetic-10gene-cohort-v1" "PLUGIN_BOUNDARY" b).
Proof.
  destruct (domain_bindings_exact 3 toy_models toy_datasets two_domains two_bindings eq_refl) as (I & _ & S & _).
  split; [exact I|]. destruct (S (mkDomainSpec "genes" "tabular-10gene-phenotype-v1" "synthetic-10gene-cohort-v1" "WORKLOAD_DOMAIN"
    "PLUGIN_BOUNDARY")) as (b & G & B); [right; left|]. exists b. split; [exact G|exact B].
Defined.
