(* ===== verification/BundleVerifier.v ===== *)
(** * Manifests and the bundle verifier ([deltatorrent/domain/manifests.py],
    [deltatorrent/artifacts/verifier.py])

    First run and checkpoint manifests with their checks, then the verifier.
    From one run manifest, every object it reaches is looked up in the protocol
    registry, read from the store and compared with its reference.  What a file
    outside the store answers, what the store holds and whether it can be read
    at each access are arguments: another process may change the store between
    two reads.  The set of verified objects is an attribute that outlives a
    call. *)

From S2P Require Import Prelude PyFloat Json JsonText Text Sha256 WorkerErrors WorkerCanonical ArtifactRef WorkTicket Updates ParameterSchema ArtifactStore LiveCrypto LivePreflight.
Open Scope string_scope.
Open Scope Z_scope.
Open Scope py_scope.

Inductive RunStatus := RUN_RUNNING | RUN_COMPLETED | RUN_FAILED.

#[export] Instance RunStatus_eq_dec : EqDecision RunStatus.
Proof. solve_decision. Defined.

Definition run_status_value (s : RunStatus) : string :=
  match s with RUN_RUNNING => "RUNNING" | RUN_COMPLETED => "COMPLETED" | RUN_FAILED => "FAILED" end.

Definition run_status_of : json -> wresult RunStatus := enum_of [RUN_RUNNING; RUN_COMPLETED; RUN_FAILED] run_status_value.

(** ** Parts of the constructors *)

Definition _require_content_id (value : json) (field : string) : wresult string :=
  let? s := need_str value in
  require (is_content_id s) (DeltaError INVALID_CONTENT_ID ("invalid " +:+ field)) ;? Ok s.

Definition _require_identifier (value : json) (field : string) : wresult string :=
  let? s := need_str value in
  require (is_identifier s) (_invalid ("invalid " +:+ field)) ;? Ok s.

(** A counter: an exact integer, not a bool, not negative *)
Definition as_counter (value : json) : option Z :=
  match value with JInt n => if n <? 0 then None else Some n | _ => None end.

(** [len({item.content_id for item in refs}) == len(refs)] *)
Definition unique_content (refs : list ArtifactRef) : bool := bool_decide (NoDup (content_id <$> refs)).

(** [dict(sorted(value.items()))], the keys of a dict being distinct *)
Fixpoint insert_member {V} (x : string * V) (l : odict V) : odict V :=
  match l with [] => [x] | y :: r => if String.leb x.1 y.1 then x :: l else y :: insert_member x r end.
Definition sorted_members {V} (o : odict V) : odict V := fold_right insert_member [] o.

Fixpoint string_items (o : odict json) : option (odict string) :=
  match o with
  | [] => Some []
  | (k, JStr v) :: r => match string_items r with Some t => Some ((k, v) :: t) | None => None end
  | _ => None
  end.

Definition _freeze_string_mapping (value : odict json) (field : string) : wresult (odict string) :=
  match value, string_items value with
  | _ :: _, Some items => Ok (sorted_members items)
  | _, _ => Raise (_invalid (field +:+ " must be a non-empty string mapping"))
  end.

Fixpoint seed_items (o : odict json) : option (odict Z) :=
  match o with
  | [] => Some []
  | (k, v) :: r =>
      match as_counter v, seed_items r with Some n, Some t => Some ((k, n) :: t) | _, _ => None end
  end.

Definition _freeze_seed_mapping (value : odict json) : wresult (odict Z) :=
  match value, seed_items value with
  | _ :: _, Some items => Ok (sorted_members items)
  | _, _ => Raise (_invalid "seeds must be a non-empty mapping of non-negative integers")
  end.

(** [except (TypeError, ValueError)] *)
Definition field_error_as {A} (e : worker_exn) (m : wresult A) : wresult A :=
  match m with Raise WTypeError | Raise WValueError => Raise e | _ => m end.

(** ** Checkpoints *)

Record CheckpointManifest := mkCheckpoint {
  cp_run_id : string;
  checkpoint_id : string;
  cp_step : Z;
  cp_optimizer_step : Z;
  cp_processed_tokens : Z;
  cp_sampler_cursor : Z;
  cp_artifacts : list ArtifactRef }.

Definition counters_invalid : worker_exn := _invalid "checkpoint counters must be non-negative integers".

Definition need_counter (e : worker_exn) (value : json) : wresult Z :=
  match as_counter value with Some n => Ok n | None => Raise e end.

(** [CheckpointManifest(…)] with the checks of [__post_init__]; what they leave of
    [boundary], [formal_semantics_id] and [schema_version] is one value each. *)
Definition new_checkpoint (run_id checkpoint_id step optimizer_step processed_tokens sampler_cursor boundary : json)
    (artifacts : list ArtifactRef) (formal_semantics_id schema_version : json) : wresult CheckpointManifest :=
  let? run_id := _require_identifier run_id "run_id" in
  let? checkpoint_id := _require_identifier checkpoint_id "checkpoint_id" in
  require (py_eq formal_semantics_id (JStr FORMAL_SEMANTICS_ID))
    (DeltaError FORMAL_SEMANTICS_MISMATCH "checkpoint semantics mismatch") ;?
  require (py_eq schema_version (JStr SCHEMA_VERSION)) (_invalid "unsupported checkpoint schema_version") ;?
  let? step := need_counter counters_invalid step in
  let? optimizer_step := need_counter counters_invalid optimizer_step in
  let? processed_tokens := need_counter counters_invalid processed_tokens in
  let? sampler_cursor := need_counter counters_invalid sampler_cursor in
  require (py_eq boundary (JStr "OPTIMIZER_STEP")) (_invalid "checkpoint boundary must be OPTIMIZER_STEP") ;?
  require (match artifacts with [] => false | _ => unique_content artifacts end)
    (_invalid "checkpoint artifacts must be non-empty and unique") ;?
  Ok (mkCheckpoint run_id checkpoint_id step optimizer_step processed_tokens sampler_cursor artifacts).

Definition refs_to_json (refs : list ArtifactRef) : json := JArr (map (fun r => JObj (ref_to_dict r)) refs).

Definition checkpoint_to_dict (c : CheckpointManifest) : odict json :=
  [("artifacts", refs_to_json (cp_artifacts c)); ("boundary", JStr "OPTIMIZER_STEP");
   ("checkpoint_id", JStr (checkpoint_id c)); ("formal_semantics_id", JStr FORMAL_SEMANTICS_ID);
   ("optimizer_step", JInt (cp_optimizer_step c)); ("processed_tokens", JInt (cp_processed_tokens c));
   ("run_id", JStr (cp_run_id c)); ("sampler_cursor", JInt (cp_sampler_cursor c));
   ("schema_version", JStr SCHEMA_VERSION); ("step", JInt (cp_step c))].

Definition checkpoint_fields : list string :=
  ["artifacts"; "boundary"; "checkpoint_id"; "formal_semantics_id"; "optimizer_step"; "processed_tokens"; "run_id";
   "sampler_cursor"; "schema_version"; "step"].

(** The objects of an array field *)
Definition object_array (value : json) (e : worker_exn) : wresult (list (odict json)) :=
  match value with
  | JArr l => match objects l with Some os => Ok os | None => Raise e end
  | _ => Raise e
  end.

Definition checkpoint_from_dict (value : odict json) : wresult CheckpointManifest :=
  _strict_mapping value checkpoint_fields "CheckpointManifest" ;?
  let? artifacts := object_array (jget "artifacts" value) (_invalid "checkpoint artifacts must be an array of objects") in
  field_error_as (_invalid "CheckpointManifest field type is invalid")
    (let? refs := rmap ref_from_dict artifacts in
     new_checkpoint (jget "run_id" value) (jget "checkpoint_id" value) (jget "step" value) (jget "optimizer_step" value)
       (jget "processed_tokens" value) (jget "sampler_cursor" value) (jget "boundary" value) refs
       (jget "formal_semantics_id" value) (jget "schema_version" value)).

(** ** Runs *)

Record RunManifest := mkRunManifest {
  run_id : string;
  run_status : RunStatus;
  config_id : string;
  code_revision : json;
  dependency_lock_id : string;
  run_dataset_id : string;
  model_id : string;
  tokenizer_id : string;
  processed_tokens : Z;
  platform : odict string;
  seeds : odict Z;
  run_artifacts : list ArtifactRef;
  checkpoint_refs : list ArtifactRef;
  failure_code : json }.

(** [RunManifest(…)] with the checks of [__post_init__] *)
Definition new_run (v_run_id : json) (status : RunStatus)
    (v_config_id v_code_revision v_dependency_lock_id v_dataset_id v_model_id v_tokenizer_id v_processed_tokens : json)
    (v_platform v_seeds : odict json) (artifacts checkpoints : list ArtifactRef)
    (v_failure_code v_formal_semantics_id v_schema_version : json) : wresult RunManifest :=
  let? run_id := _require_identifier v_run_id "run_id" in
  let? config_id := _require_content_id v_config_id "config_id" in
  let? dependency_lock_id := _require_content_id v_dependency_lock_id "dependency_lock_id" in
  let? dataset_id := _require_content_id v_dataset_id "dataset_id" in
  let? model_id := _require_content_id v_model_id "model_id" in
  let? tokenizer_id := _require_content_id v_tokenizer_id "tokenizer_id" in
  require (py_eq v_formal_semantics_id (JStr FORMAL_SEMANTICS_ID))
    (DeltaError FORMAL_SEMANTICS_MISMATCH "run semantics mismatch") ;?
  require (py_eq v_schema_version (JStr SCHEMA_VERSION)) (_invalid "unsupported run schema_version") ;?
  require (truthy v_code_revision) (_invalid "invalid code_revision") ;?
  let? n := py_len v_code_revision in
  require (negb (128 <? n)) (_invalid "invalid code_revision") ;?
  let? processed_tokens := need_counter (_invalid "processed_tokens must be non-negative") v_processed_tokens in
  require (negb (bool_decide (status = RUN_COMPLETED) && negb (is_none v_failure_code)))
    (_invalid "completed run cannot have failure_code") ;?
  require (negb (bool_decide (status = RUN_FAILED) && negb (truthy v_failure_code)))
    (_invalid "failed run requires failure_code") ;?
  let? platform := _freeze_string_mapping v_platform "platform" in
  let? seeds := _freeze_seed_mapping v_seeds in
  require (unique_content (artifacts ++ checkpoints)) (_invalid "run artifact references must be unique") ;?
  Ok (mkRunManifest run_id status config_id v_code_revision dependency_lock_id dataset_id model_id tokenizer_id
        processed_tokens platform seeds artifacts checkpoints v_failure_code).

Definition run_to_dict (m : RunManifest) : odict json :=
  [("artifacts", refs_to_json (run_artifacts m)); ("checkpoint_refs", refs_to_json (checkpoint_refs m));
   ("code_revision", code_revision m); ("config_id", JStr (config_id m)); ("dataset_id", JStr (run_dataset_id m));
   ("dependency_lock_id", JStr (dependency_lock_id m)); ("failure_code", failure_code m);
   ("formal_semantics_id", JStr FORMAL_SEMANTICS_ID); ("model_id", JStr (model_id m));
   ("platform", JObj (map (fun kv => (kv.1, JStr kv.2)) (platform m))); ("processed_tokens", JInt (processed_tokens m));
   ("run_id", JStr (run_id m)); ("schema_version", JStr SCHEMA_VERSION);
   ("seeds", JObj (map (fun kv => (kv.1, JInt kv.2)) (seeds m))); ("status", JStr (run_status_value (run_status m)));
   ("tokenizer_id", JStr (tokenizer_id m))].

Definition run_fields : list string :=
  ["artifacts"; "checkpoint_refs"; "code_revision"; "config_id"; "dataset_id"; "dependency_lock_id"; "failure_code";
   "formal_semantics_id"; "model_id"; "platform"; "processed_tokens"; "run_id"; "schema_version"; "seeds"; "status";
   "tokenizer_id"].

Definition run_from_dict (value : odict json) : wresult RunManifest :=
  _strict_mapping value run_fields "RunManifest" ;?
  let? artifacts := object_array (jget "artifacts" value) (_invalid "run artifacts must be an array of objects") in
  let? checkpoints := object_array (jget "checkpoint_refs" value) (_invalid "checkpoint_refs must be an array of objects") in
  match jget "platform" value, jget "seeds" value with
  | JObj platform, JObj seeds =>
      field_error_as (_invalid "RunManifest field type is invalid")
        (let? artifacts := rmap ref_from_dict artifacts in
         let? checkpoints := rmap ref_from_dict checkpoints in
         let? status := run_status_of (jget "status" value) in
         new_run (jget "run_id" value) status (jget "config_id" value) (jget "code_revision" value)
           (jget "dependency_lock_id" value) (jget "dataset_id" value) (jget "model_id" value)
           (jget "tokenizer_id" value) (jget "processed_tokens" value) platform seeds artifacts checkpoints
           (jget "failure_code" value) (jget "formal_semantics_id" value) (jget "schema_version" value))
  | _, _ => Raise (_invalid "platform and seeds must be objects")
  end.

(** ** The verifier *)

Record BundleVerificationResult := mkVerification {
  vr_run_id : string;
  run_manifest_id : string;
  verified_objects : Z }.

Definition verification_to_dict (r : BundleVerificationResult) : odict json :=
  [("run_id", JStr (vr_run_id r)); ("run_manifest_id", JStr (run_manifest_id r)); ("schema_version", JStr "1.0.0");
   ("status", JStr "PASS"); ("verified_objects", JInt (verified_objects r))].

(** A path resolved against a directory and read: it leaves the directory, it
    cannot be read, or it has contents. *)
Inductive file_outcome := Escapes | Unreadable | Contents (bytes : string).

Definition _decode_object (value error : string) : wresult (odict json) :=
  require (encodable value) (_invalid error) ;?
  match loads true value with
  | Some (JObj o) => Ok o
  | _ => Raise (_invalid error)
  end.

(** [set(value) == set(names)] of any dict *)
Definition has_keys {V} (value : odict V) (names : list string) : bool :=
  forallb (fun k => str_in k names) (od_keys value) && forallb (fun n => od_mem n value) names.

(** ** The registry *)

Section Registry.
Context `{PyText} (schema_file : string -> file_outcome).

(** One record of [schemas]: its id, once the file has its digest *)
Definition registry_schema (record : json) : wresult string :=
  match record with
  | JObj r =>
      require (has_keys r ["id"; "path"; "sha256"]) (_invalid "REGISTRY_SCHEMA_INVALID") ;?
      match schema_file (py_str (jget "path" r)) with
      | Escapes => Raise (_invalid "REGISTRY_SCHEMA_PATH_INVALID")
      | Unreadable => Raise (_invalid "REGISTRY_SCHEMA_MISSING")
      | Contents bytes =>
          require (py_eq (JStr (sha256_hex bytes)) (jget "sha256" r))
            (DeltaError ARTIFACT_HASH_MISMATCH "registry schema hash mismatch") ;?
          Ok (py_str (jget "id" r))
      end
  | _ => Raise (_invalid "REGISTRY_SCHEMA_INVALID")
  end.

(** The loop over [media_types]: a media type of two records selects no schema. *)
Fixpoint register_media (schema_ids : list string) (result : odict (option string)) (media_types : list json) :
    wresult (odict (option string)) :=
  match media_types with
  | [] => Ok result
  | JObj r :: rest =>
      require (has_keys r ["id"; "schema_id"; "value"]) (_invalid "REGISTRY_MEDIA_TYPE_INVALID") ;?
      let schema_id := py_str (jget "schema_id" r) in
      let media_type := py_str (jget "value" r) in
      require (str_in schema_id schema_ids) (_invalid "REGISTRY_MEDIA_TYPE_INVALID") ;?
      register_media schema_ids
        (od_set media_type (if od_mem media_type result then None else Some schema_id) result) rest
  | _ => Raise (_invalid "REGISTRY_MEDIA_TYPE_INVALID")
  end.

(** [BundleVerifier._load_registry], given what reading the registry answers *)
Definition _load_registry (registry_bytes : option string) : wresult (odict (option string)) :=
  match registry_bytes with
  | None => Raise (DeltaError ARTIFACT_NOT_FOUND "protocol registry does not exist")
  | Some bytes =>
      let? value := _decode_object bytes "REGISTRY_JSON_INVALID" in
      require (py_eq (jget "formal_semantics_id" value) (JStr FORMAL_SEMANTICS_ID))
        (DeltaError FORMAL_SEMANTICS_MISMATCH "registry semantics mismatch") ;?
      match jget "schemas" value, jget "media_types" value with
      | JArr schemas, JArr media_types =>
          let? schema_ids := rmap registry_schema schemas in
          register_media schema_ids [] media_types
      | _, _ => Raise (_invalid "REGISTRY_FIELDS_INVALID")
      end
  end.
End Registry.

(** ** Indices *)

(** [{item.schema_id: item for item in references}] *)
Definition by_schema (references : list ArtifactRef) : odict ArtifactRef :=
  fold_left (fun d r => od_set (schema_id r) r d) references [].

Definition _index_by_schema (references : list ArtifactRef) (error : string) : wresult (odict ArtifactRef) :=
  let result := by_schema references in
  require (Nat.eqb (length result) (length references)) (_invalid error) ;? Ok result.

Definition _require_single (references : odict ArtifactRef) (schema_id : string) : wresult ArtifactRef :=
  match od_get schema_id references with
  | Some r => Ok r
  | None => Raise (_invalid "RUN_ARTIFACT_MISSING")
  end.

Definition _require_identity (references : odict ArtifactRef) (schema_id id : string) : wresult unit :=
  let? r := _require_single references schema_id in
  require (String.eqb (content_id r) id) (_invalid "RUN_ARTIFACT_IDENTITY_MISMATCH").

(** [references[schema_id]] *)
Definition index_ref (references : odict ArtifactRef) (schema_id : string) : wresult ArtifactRef :=
  match od_get schema_id references with Some r => Ok r | None => Raise WKeyError end.

(** ** The verifier *)

Definition state_fields : list string :=
  ["checkpoint_id"; "formal_semantics_id"; "model_schema_id"; "optimizer"; "rng"; "run_id"; "sampler"; "scaler";
   "scheduler"; "schema_version"].

(** [BundleVerifier._verify_checkpoint_state] *)
Definition _verify_checkpoint_state (c : CheckpointManifest) (state : odict json) : wresult unit :=
  require (has_keys state state_fields) (_invalid "CHECKPOINT_STATE_FIELDS_INVALID") ;?
  require
    (py_eq (jget "formal_semantics_id" state) (JStr FORMAL_SEMANTICS_ID)
     && py_eq (jget "schema_version" state) (JStr "1.0.0")
     && py_eq (jget "run_id" state) (JStr (cp_run_id c))
     && py_eq (jget "checkpoint_id" state) (JStr (checkpoint_id c))
     && match jget "optimizer" state with
        | JObj optimizer =>
            has_keys optimizer ["kind"; "step"] && py_eq (jget "kind" optimizer) (JStr "CANONICAL_ADAMW_V1")
            && py_eq (jget "step" optimizer) (JInt (cp_optimizer_step c))
        | _ => false
        end
     && match jget "sampler" state with
        | JObj sampler =>
            has_keys sampler ["cursor"; "sample_count"; "seed"]
            && py_eq (jget "cursor" sampler) (JInt (cp_sampler_cursor c))
        | _ => false
        end)
    (_invalid "CHECKPOINT_STATE_MISMATCH").

(** [max(checkpoints, key=lambda item: (item.optimizer_step, item.step))]: the
    first of the greatest *)
Definition checkpoint_before (a b : CheckpointManifest) : bool :=
  (cp_optimizer_step a <? cp_optimizer_step b)
  || (cp_optimizer_step a =? cp_optimizer_step b) && (cp_step a <? cp_step b).

Fixpoint latest (best : CheckpointManifest) (l : list CheckpointManifest) : CheckpointManifest :=
  match l with
  | [] => best
  | c :: r => latest (if checkpoint_before best c then c else best) r
  end.

(** [_verified], and the number of reads so far *)
Record VerifierState := mkVerifier { verified : list (string * string); reads : nat }.

Definition new_verifier : VerifierState := mkVerifier [] 0.

Definition add_verified (r : ArtifactRef) (v : list (string * string)) : list (string * string) :=
  if bool_decide ((content_id r, locator r) ∈ v) then v else (content_id r, locator r) :: v.

Section Verifier.
Context (media_schemas : odict (option string)).
Context (store : nat -> FilesystemArtifactStore) (io : nat -> store_io).

(** [self.store.read(reference)], the [n]th read *)
Definition read_at (n : nat) (r : ArtifactRef) : wresult string := store_read (io n) r (store n).

Definition read_ref (r : ArtifactRef) : WM VerifierState string :=
  fun s => (mkVerifier (verified s) (S (reads s)), read_at (reads s) r).

(** [media_type in self._media_schemas]: an unhashable key is a [TypeError]. *)
Definition media_schema (media_type : json) : wresult (option string) :=
  let unknown := DeltaError UNKNOWN_MEDIA_TYPE "artifact media type is not registered" in
  match media_type with
  | JStr m => match od_get m media_schemas with Some expected => Ok expected | None => Raise unknown end
  | JArr _ | JObj _ => Raise WTypeError
  | _ => Raise unknown
  end.

Definition check_media (r : ArtifactRef) : wresult unit :=
  let? expected_schema := media_schema (media_type r) in
  match expected_schema with
  | None => Raise (DeltaError INVALID_SCHEMA_ID "shared denylisted media type cannot select an artifact schema")
  | Some expected =>
      require (String.eqb expected (schema_id r))
        (DeltaError INVALID_SCHEMA_ID "artifact media type and schema do not match")
  end.

Definition _verify_reference (r : ArtifactRef) : WM VerifierState string :=
  wlift (check_media r) ;!
  let! value := read_ref r in
  wmodify (fun s => mkVerifier (add_verified r (verified s)) (reads s)) ;!
  wret value.

Fixpoint verify_references (l : list ArtifactRef) : WM VerifierState unit :=
  match l with
  | [] => wret tt
  | r :: rest => let! _ := _verify_reference r in verify_references rest
  end.

Definition _verify_checkpoint (expected_run_id : string) (r : ArtifactRef) : WM VerifierState CheckpointManifest :=
  wlift (require (String.eqb (schema_id r) "SCHEMA-CHECKPOINT-MANIFEST-V1")
           (DeltaError INVALID_SCHEMA_ID "checkpoint reference has the wrong schema")) ;!
  let! bytes := _verify_reference r in
  let! value := wlift (_decode_object bytes "CHECKPOINT_MANIFEST_JSON_INVALID") in
  let! checkpoint := wlift (checkpoint_from_dict value) in
  wlift (require (String.eqb (cp_run_id checkpoint) expected_run_id) (_invalid "CHECKPOINT_RUN_ID_MISMATCH")) ;!
  let! artifacts := wlift (_index_by_schema (cp_artifacts checkpoint) "CHECKPOINT_ARTIFACT_SET_INVALID") in
  wlift (require (has_keys artifacts ["SCHEMA-SAFETENSORS-V1"; "SCHEMA-TRAINING-STATE-V1"])
           (_invalid "CHECKPOINT_ARTIFACT_SET_INVALID")) ;!
  verify_references (cp_artifacts checkpoint) ;!
  let! state_ref := wlift (index_ref artifacts "SCHEMA-TRAINING-STATE-V1") in
  let! state_bytes := read_ref state_ref in
  let! state := wlift (_decode_object state_bytes "CHECKPOINT_STATE_JSON_INVALID") in
  wlift (_verify_checkpoint_state checkpoint state) ;!
  wret checkpoint.

Fixpoint verify_checkpoints (expected_run_id : string) (l : list ArtifactRef) :
    WM VerifierState (list CheckpointManifest) :=
  match l with
  | [] => wret []
  | r :: rest =>
      let! c := _verify_checkpoint expected_run_id r in
      let! cs := verify_checkpoints expected_run_id rest in
      wret (c :: cs)
  end.

Definition _verify_model_identity (checkpoint : CheckpointManifest) (id : string) : WM VerifierState unit :=
  let! artifacts := wlift (_index_by_schema (cp_artifacts checkpoint) "CHECKPOINT_ARTIFACT_SET_INVALID") in
  let! state_ref := wlift (index_ref artifacts "SCHEMA-TRAINING-STATE-V1") in
  let! state_bytes := read_ref state_ref in
  let! state := wlift (_decode_object state_bytes "CHECKPOINT_STATE_JSON_INVALID") in
  wlift (require (py_eq (jget "model_schema_id" state) (JStr id)) (_invalid "RUN_MODEL_ID_MISMATCH")).

(** [_read_trust_root], given what reading the path answers *)
Definition _read_trust_root (file : file_outcome) : wresult string :=
  match file with
  | Escapes => Raise (DeltaError INVALID_ARTIFACT_LOCATOR "run manifest escaped store root")
  | Unreadable => Raise (DeltaError ARTIFACT_NOT_FOUND "run manifest does not exist")
  | Contents bytes => Ok bytes
  end.

(** The manifest of canonical bytes *)
Definition read_manifest (manifest_bytes : string) : wresult RunManifest :=
  let? value := _decode_object manifest_bytes "RUN_MANIFEST_JSON_INVALID" in
  let? manifest := run_from_dict value in
  let? bytes := canonical_json_bytes (JObj (run_to_dict manifest)) in
  require (String.eqb bytes manifest_bytes) (_invalid "RUN_MANIFEST_NOT_CANONICAL") ;?
  Ok manifest.

(** The direct artifacts by schema, with the identities the manifest names *)
Definition direct_artifacts (manifest : RunManifest) : wresult (odict ArtifactRef) :=
  let? direct := _index_by_schema (run_artifacts manifest) "RUN_ARTIFACT_SET_INVALID" in
  _require_identity direct "SCHEMA-BASELINE-CONFIG-V1" (config_id manifest) ;?
  _require_identity direct "SCHEMA-CORPUS-TEXT-V1" (run_dataset_id manifest) ;?
  _require_identity direct "SCHEMA-TOKENIZER-V1" (tokenizer_id manifest) ;?
  _require_identity direct "SCHEMA-UV-LOCK-V1" (dependency_lock_id manifest) ;?
  (if bool_decide (run_status manifest = RUN_COMPLETED)
   then let? _ := _require_single direct "SCHEMA-METRICS-JSONL-V1" in Ok tt else Ok tt) ;?
  Ok direct.

(** The last checkpoint against the manifest *)
Definition check_final (manifest : RunManifest) (checkpoints : list CheckpointManifest) : WM VerifierState unit :=
  match checkpoints with
  | [] => wret tt
  | c :: rest =>
      let final := latest c rest in
      wlift (require (cp_processed_tokens final =? processed_tokens manifest)
               (_invalid "RUN_CHECKPOINT_TOKEN_COUNT_MISMATCH")) ;!
      _verify_model_identity final (model_id manifest)
  end.

(** [BundleVerifier.verify] *)
Definition verify (file : file_outcome) : WM VerifierState BundleVerificationResult :=
  let! manifest_bytes := wlift (_read_trust_root file) in
  let! manifest := wlift (read_manifest manifest_bytes) in
  let! direct := wlift (direct_artifacts manifest) in
  verify_references (run_artifacts manifest) ;!
  wlift (require (negb (bool_decide (run_status manifest = RUN_COMPLETED)
                        && match checkpoint_refs manifest with [] => true | _ => false end))
           (_invalid "COMPLETED_RUN_HAS_NO_CHECKPOINT")) ;!
  let! checkpoints := verify_checkpoints (run_id manifest) (checkpoint_refs manifest) in
  check_final manifest checkpoints ;!
  let! config_ref := wlift (index_ref direct "SCHEMA-BASELINE-CONFIG-V1") in
  let! config_bytes := read_ref config_ref in
  let! config := wlift (_decode_object config_bytes "BASELINE_CONFIG_JSON_INVALID") in
  wlift (require (py_eq (jget "run_id" config) (JStr (run_id manifest))) (_invalid "RUN_CONFIG_IDENTITY_MISMATCH")) ;!
  let! objects := wget (fun s => Z.of_nat (length (verified s))) in
  wret (mkVerification (run_id manifest) (sha256_content_id manifest_bytes) objects).
End Verifier.

(** [infer_store_root], on the segments of the resolved path below the root
    directory: the segments of the store root *)
Definition infer_store_root (segments : list string) : wresult (list string) :=
  match rev segments with
  | name :: _ :: runs :: above =>
      require (String.eqb name "run-manifest.json" && String.eqb runs "runs")
        (DeltaError INVALID_ARTIFACT_LOCATOR "cannot infer artifact store root from run manifest path") ;?
      Ok (rev above)
  | _ => Raise (DeltaError INVALID_ARTIFACT_LOCATOR "cannot infer artifact store root from run manifest path")
  end.
