(* ===== verification/BundleVerifierProps.v ===== *)
(** * What a verified bundle is

    When [verify] passes, every object the manifest reaches was read from the
    store with the bytes, the length and the media type its reference names, and
    the documents along the way agree with each other. *)

From stdpp Require Import sorting.
From S2P Require Import Prelude PyFloat Json JsonText Text Sha256 WorkerErrors WorkerCanonical ArtifactRef WorkTicket ArtifactStore Updates LiveCrypto LivePreflight BundleVerifier.
Open Scope string_scope.
Open Scope Z_scope.
Open Scope py_scope.

(** ** Indices *)

Lemma by_schema_from (refs : list ArtifactRef) (d : odict ArtifactRef) k r :
  od_get k (fold_left (fun d r => od_set (schema_id r) r d) refs d) = Some r ->
  (r ∈ refs /\ schema_id r = k) \/ od_get k d = Some r.
Proof.
  revert d. induction refs as [|x refs IH]; intros d; cbn [fold_left]; [by right|].
  intros [[Hr E]|H]%IH; [left; split; [by right|done]|]. rewrite od_get_set in H.
  destruct (String.eqb_spec k (schema_id x)) as [->|]; [|by right]. injection H as ->. left. split; [left|done].
Qed.

Lemma index_get refs error d k r :
  _index_by_schema refs error = Ok d -> od_get k d = Some r -> r ∈ refs /\ schema_id r = k.
Proof.
  unfold _index_by_schema. intros [_ [= <-]]%rbind_unit_Ok. intros [H|H]%by_schema_from; done.
Qed.

Lemma require_identity_Ok refs error d k id :
  _index_by_schema refs error = Ok d -> _require_identity d k id = Ok tt ->
  exists r, r ∈ refs /\ schema_id r = k /\ content_id r = id.
Proof.
  intros D. unfold _require_identity, _require_single. intros (r & H & E)%rbind_Ok.
  destruct (od_get k d) eqn:G; [|done]. injection H as <-. apply require_Ok, String.eqb_eq in E.
  destruct (index_get _ _ _ _ _ D G). by exists a.
Qed.

Section VerifierProps.
Context (media_schemas : odict (option string)).
Context (store : nat -> FilesystemArtifactStore) (io : nat -> store_io).

(** The bytes a reference names, found in the store at some read *)
Record object_ok (r : ArtifactRef) (bytes : string) : Prop := {
  oo_media : exists m, media_type r = JStr m /\ od_get m media_schemas = Some (Some (schema_id r));
  oo_found : exists n, store n !! locator r = Some bytes;
  oo_length : byte_count bytes = byte_length r;
  oo_digest : sha256_content_id bytes = content_id r }.

(** The training state of a checkpoint: its document *)
Definition state_of (c : CheckpointManifest) (state : odict json) : Prop :=
  exists r bytes, r ∈ cp_artifacts c /\ schema_id r = "SCHEMA-TRAINING-STATE-V1" /\ object_ok r bytes /\
    _decode_object bytes "CHECKPOINT_STATE_JSON_INVALID" = Ok state.

Record checkpoint_ok (m : RunManifest) (r : ArtifactRef) (c : CheckpointManifest) : Prop := {
  co_schema : schema_id r = "SCHEMA-CHECKPOINT-MANIFEST-V1";
  co_document : exists bytes value, object_ok r bytes /\
    _decode_object bytes "CHECKPOINT_MANIFEST_JSON_INVALID" = Ok value /\ checkpoint_from_dict value = Ok c;
  co_run : cp_run_id c = run_id m;
  co_artifacts : forall a, a ∈ cp_artifacts c -> exists bytes, object_ok a bytes;
  co_state : exists state, state_of c state /\ _verify_checkpoint_state c state = Ok tt }.

Lemma read_at_Ok n r b :
  read_at store io n r = Ok b ->
  store n !! locator r = Some b /\ byte_count b = byte_length r /\ sha256_content_id b = content_id r.
Proof.
  unfold read_at, store_read, _resolve_locator. destruct (_require_locator _); [|done]. cbn [rbind].
  destruct (io n); [|done..]. destruct (is_root _); [done|]. destruct (store n !! _) as [v|]; [|done].
  intros [E [= <-]]%rbind_unit_Ok. apply require_Ok in E.
  apply negb_true_iff, orb_false_iff in E as [E1%negb_false_iff E2%negb_false_iff].
  apply Z.eqb_eq in E1. by apply String.eqb_eq in E2.
Qed.

Lemma check_media_Ok r :
  check_media media_schemas r = Ok tt ->
  exists m, media_type r = JStr m /\ od_get m media_schemas = Some (Some (schema_id r)).
Proof.
  unfold check_media, media_schema. intros (e & H & E)%rbind_Ok.
  destruct (media_type r) as [| | | |m| |]; try done. destruct (od_get m media_schemas) as [[x|]|] eqn:G; try done.
  - injection H as <-. apply require_Ok, String.eqb_eq in E as ->. by exists m.
  - by injection H as <-.
Qed.

(** ** The set of verified objects *)

Definition key_of (r : ArtifactRef) : string * string := (content_id r, locator r).

Definition adds (s s' : VerifierState) (refs : list ArtifactRef) : Prop :=
  (forall p, p ∈ verified s' <-> p ∈ verified s \/ p ∈ key_of <$> refs) /\
  (NoDup (verified s) -> NoDup (verified s')).

Lemma adds_same s s' : verified s' = verified s -> adds s s' [].
Proof. intros E. unfold adds. rewrite E. split; [|done]. intros p. split; [by left|]. intros [|[]%elem_of_nil]; done. Qed.

Lemma adds_app s s1 s2 l m : adds s s1 l -> adds s1 s2 m -> adds s s2 (l ++ m).
Proof.
  intros [A1 N1] [A2 N2]. split; [|auto]. intros p. rewrite A2, A1, fmap_app, elem_of_app. tauto.
Qed.

Lemma read_ref_Ok r s s' b :
  read_ref store io r s = (s', Ok b) -> adds s s' [] /\ exists n, read_at store io n r = Ok b.
Proof. unfold read_ref. intros [= <- H]. split; [by apply adds_same|by exists (reads s)]. Qed.

Lemma verify_reference_Ok r s s' b :
  _verify_reference media_schemas store io r s = (s', Ok b) -> adds s s' [r] /\ object_ok r b.
Proof.
  unfold _verify_reference. intros (s1 & u & H1 & H)%wbind_Ok. injection H1 as <- C. destruct u.
  apply check_media_Ok in C. apply wbind_Ok in H as (s2 & b' & (A & n & R)%read_ref_Ok & H).
  apply wbind_Ok in H as (s3 & u & H3 & H). injection H3 as <- _. injection H as <- <-.
  apply read_at_Ok in R as (F & L & D). split; [|constructor; eauto].
  destruct A as [A N]. unfold adds. cbn [verified]. unfold add_verified, key_of. split.
  - intros p.
    assert (A' : forall p, p ∈ verified s2 <-> p ∈ verified s).
    { intros q. rewrite A. split; [|by left]. intros [|[]%elem_of_nil]; done. }
    case_bool_decide as K; rewrite ?elem_of_cons, <- A'; cbn [fmap list_fmap]; rewrite list_elem_of_singleton.
    + split; [by left|]. intros [| ->]; done.
    + tauto.
  - intros M%N. case_bool_decide; [done|by constructor].
Qed.

Lemma verify_references_Ok l s s' :
  verify_references media_schemas store io l s = (s', Ok tt) ->
  adds s s' l /\ forall r, r ∈ l -> exists b, object_ok r b.
Proof.
  revert s. induction l as [|r l IH]; intros s; cbn [verify_references].
  - intros [= <-]. split; [by apply adds_same|]. by intros r []%elem_of_nil.
  - intros (s1 & b & [A O]%verify_reference_Ok & [A' H]%IH)%wbind_Ok. split; [exact (adds_app _ _ _ [r] l A A')|].
    intros x [->|Hx]%elem_of_cons; eauto.
Qed.

Lemma state_read_Ok c d k s s1 s' b ref e :
  _index_by_schema (cp_artifacts c) e = Ok d -> (forall a, a ∈ cp_artifacts c -> exists b, object_ok a b) ->
  wlift (index_ref d k) s = (s1, Ok ref) -> read_ref store io ref s1 = (s', Ok b) ->
  adds s s' [] /\ exists r, r ∈ cp_artifacts c /\ schema_id r = k /\ object_ok r b.
Proof.
  intros D O [= <- I] (A & n & R)%read_ref_Ok. split; [done|].
  unfold index_ref in I. destruct (od_get k d) eqn:G; [|done]. injection I as ->.
  destruct (index_get _ _ _ _ _ D G) as [Hr E]. exists ref. split; [done|]. split; [done|].
  destruct (O ref Hr) as (b' & [M _ _ _]). apply read_at_Ok in R as (F & L & X). constructor; eauto.
Qed.

(** ** Checkpoints *)

Lemma verify_checkpoint_Ok m r c s s' :
  _verify_checkpoint media_schemas store io (run_id m) r s = (s', Ok c) ->
  adds s s' (r :: cp_artifacts c) /\ checkpoint_ok m r c.
Proof.
  unfold _verify_checkpoint. intros H.
  apply wbind_Ok in H as (s0 & u & H0 & H). injection H0 as <- S. apply require_Ok, String.eqb_eq in S.
  apply wbind_Ok in H as (s1 & bytes & [A1 O]%verify_reference_Ok & H).
  apply wbind_Ok in H as (s2 & value & H2 & H). injection H2 as <- V.
  apply wbind_Ok in H as (s3 & c' & H3 & H). injection H3 as <- C.
  apply wbind_Ok in H as (s4 & u4 & H4 & H). injection H4 as <- R. apply require_Ok, String.eqb_eq in R.
  apply wbind_Ok in H as (s5 & d & H5 & H). injection H5 as <- D.
  apply wbind_Ok in H as (s6 & u6 & H6 & H). injection H6 as <- _.
  apply wbind_Ok in H as (s7 & u7 & H7 & H). destruct u7. apply verify_references_Ok in H7 as [A7 F].
  apply wbind_Ok in H as (s8 & ref & H8 & H). apply wbind_Ok in H as (s9 & b & H9 & H).
  destruct (state_read_Ok _ _ _ _ _ _ _ _ _ D F H8 H9) as (A9 & x & Hx & E & Ox).
  apply wbind_Ok in H as (s10 & state & H10 & H). injection H10 as <- T.
  apply wbind_Ok in H as (s11 & u11 & H11 & H). injection H11 as <- Y. destruct u11. injection H as <- <-.
  split.
  - rewrite <- (app_nil_r (r :: cp_artifacts c')). apply (adds_app s s7); [|done].
    exact (adds_app s s1 s7 [r] (cp_artifacts c') A1 A7).
  - constructor; try done; [by exists bytes, value|]. exists state. split; [by exists x, b|done].
Qed.

Fixpoint checkpoint_objects (l : list ArtifactRef) (cs : list CheckpointManifest) : list ArtifactRef :=
  match l, cs with
  | r :: l, c :: cs => (r :: cp_artifacts c) ++ checkpoint_objects l cs
  | _, _ => []
  end.

Lemma verify_checkpoints_Ok m l cs s s' :
  verify_checkpoints media_schemas store io (run_id m) l s = (s', Ok cs) ->
  adds s s' (checkpoint_objects l cs) /\ Forall2 (checkpoint_ok m) l cs.
Proof.
  revert cs s s'. induction l as [|r l IH]; intros cs s s'; cbn [verify_checkpoints].
  - intros [= <- <-]. split; [by apply adds_same|constructor].
  - intros (s1 & c & [A1 K]%verify_checkpoint_Ok & H)%wbind_Ok.
    apply wbind_Ok in H as (s2 & cs' & [A2 F]%IH & H). injection H as <- <-.
    split; [exact (adds_app _ _ _ _ _ A1 A2)|by constructor].
Qed.

Lemma before_trans a b c : checkpoint_before a b = false -> checkpoint_before b c = false -> checkpoint_before a c = false.
Proof. unfold checkpoint_before. lia. Qed.

Lemma latest_spec best l :
  latest best l ∈ best :: l /\ forall c, c ∈ best :: l -> checkpoint_before (latest best l) c = false.
Proof.
  assert (R : forall a, checkpoint_before a a = false) by (intros a; unfold checkpoint_before; lia).
  revert best. induction l as [|x l IH]; intros best; cbn [latest].
  - split; [left|]. by intros c ->%list_elem_of_singleton.
  - destruct (IH (if checkpoint_before best x then x else best)) as [I M].
    pose proof (M _ ltac:(left)) as B. split.
    + apply elem_of_cons in I as [->|I]; [|do 2 right; done]. destruct (checkpoint_before best x); [right; left|left].
    + intros c [->|[->|Hc]%elem_of_cons]%elem_of_cons; [| |apply M; by right];
        (eapply before_trans; [exact B|]); destruct (checkpoint_before best x) eqn:E; try done;
        revert E; unfold checkpoint_before; lia.
Qed.

(** ** A verified bundle *)

(** What a manifest and its checkpoints refer to *)
Definition reached (m : RunManifest) (cs : list CheckpointManifest) (r : ArtifactRef) : Prop :=
  r ∈ run_artifacts m \/ r ∈ checkpoint_refs m \/ exists c, c ∈ cs /\ r ∈ cp_artifacts c.

Definition named_artifact (m : RunManifest) (schema id : string) : Prop :=
  exists r, r ∈ run_artifacts m /\ schema_id r = schema /\ content_id r = id.

(** The last checkpoint, by optimizer step and step, agrees with the run. *)
Definition final_ok (m : RunManifest) (cs : list CheckpointManifest) : Prop :=
  cs <> [] -> exists f state, f ∈ cs /\ (forall c, c ∈ cs -> checkpoint_before f c = false) /\
    cp_processed_tokens f = processed_tokens m /\
    state_of f state /\ jget "model_schema_id" state = JStr (model_id m).

Record bundle_ok (m : RunManifest) (cs : list CheckpointManifest) : Prop := {
  bo_objects : forall r, reached m cs r -> exists bytes, object_ok r bytes;
  bo_config_id : named_artifact m "SCHEMA-BASELINE-CONFIG-V1" (config_id m);
  bo_dataset_id : named_artifact m "SCHEMA-CORPUS-TEXT-V1" (run_dataset_id m);
  bo_tokenizer_id : named_artifact m "SCHEMA-TOKENIZER-V1" (tokenizer_id m);
  bo_lock_id : named_artifact m "SCHEMA-UV-LOCK-V1" (dependency_lock_id m);
  bo_checkpoints : Forall2 (checkpoint_ok m) (checkpoint_refs m) cs;
  bo_completed : run_status m = RUN_COMPLETED -> cs <> [];
  bo_final : final_ok m cs;
  bo_config : exists r bytes config, r ∈ run_artifacts m /\ object_ok r bytes /\
    _decode_object bytes "BASELINE_CONFIG_JSON_INVALID" = Ok config /\ jget "run_id" config = JStr (run_id m) }.

Lemma checkpoint_objects_In m l cs r :
  Forall2 (checkpoint_ok m) l cs -> r ∈ checkpoint_objects l cs <-> r ∈ l \/ exists c, c ∈ cs /\ r ∈ cp_artifacts c.
Proof.
  induction 1 as [|x c l cs _ F IH]; cbn [checkpoint_objects].
  - rewrite elem_of_nil. split; [done|]. intros [[]|(c & []%elem_of_nil & _)].
  - rewrite elem_of_app, !elem_of_cons, IH. setoid_rewrite elem_of_cons. naive_solver.
Qed.

Lemma adds_reached m cs s s' :
  Forall2 (checkpoint_ok m) (checkpoint_refs m) cs ->
  adds s s' (run_artifacts m ++ checkpoint_objects (checkpoint_refs m) cs) ->
  (forall p, p ∈ verified s' <-> p ∈ verified s \/ exists r, reached m cs r /\ p = key_of r) /\
  (NoDup (verified s) -> NoDup (verified s')).
Proof.
  intros F [A N]. split; [|done]. intros p. rewrite A, list_elem_of_fmap.
  setoid_rewrite elem_of_app. setoid_rewrite (checkpoint_objects_In _ _ _ _ F). unfold reached. naive_solver.
Qed.

Lemma direct_artifacts_Ok m d :
  direct_artifacts m = Ok d ->
  (exists e, _index_by_schema (run_artifacts m) e = Ok d) /\
  named_artifact m "SCHEMA-BASELINE-CONFIG-V1" (config_id m) /\
  named_artifact m "SCHEMA-CORPUS-TEXT-V1" (run_dataset_id m) /\
  named_artifact m "SCHEMA-TOKENIZER-V1" (tokenizer_id m) /\
  named_artifact m "SCHEMA-UV-LOCK-V1" (dependency_lock_id m).
Proof.
  unfold direct_artifacts. intros (d' & D & H)%rbind_Ok.
  apply rbind_unit_Ok in H as [H1 H]. apply rbind_unit_Ok in H as [H2 H]. apply rbind_unit_Ok in H as [H3 H].
  apply rbind_unit_Ok in H as [H4 H]. apply rbind_unit_Ok in H as [_ [= <-]].
  split; [by eexists|]. split; [|split; [|split]]; by eapply require_identity_Ok.
Qed.

Lemma check_final_Ok m cs s s' :
  Forall2 (checkpoint_ok m) (checkpoint_refs m) cs ->
  check_final store io m cs s = (s', Ok tt) -> adds s s' [] /\ final_ok m cs.
Proof.
  intros F. unfold check_final, final_ok. destruct cs as [|c cs]; [intros [= <-]; split; [by apply adds_same|done]|].
  intros H. apply wbind_Ok in H as (s1 & u & H1 & H). injection H1 as <- T. apply require_Ok, Z.eqb_eq in T.
  unfold _verify_model_identity in H. apply wbind_Ok in H as (s2 & d & H2 & H). injection H2 as <- D.
  apply wbind_Ok in H as (s3 & ref & H3 & H). apply wbind_Ok in H as (s4 & b & H4 & H).
  destruct (latest_spec c cs) as [I M].
  assert (O : forall a, a ∈ cp_artifacts (latest c cs) -> exists b, object_ok a b).
  { apply list_elem_of_lookup in I as [i Hi]. destruct (Forall2_lookup_r _ _ _ _ _ F Hi) as (r & _ & K). apply K. }
  destruct (state_read_Ok _ _ _ _ _ _ _ _ _ D O H3 H4) as (A & r & Hr & E & Or).
  apply wbind_Ok in H as (s5 & state & H5 & H). injection H5 as <- V. injection H as <- Q.
  apply require_Ok, py_eq_str in Q. split; [done|]. intros _. exists (latest c cs), state.
  repeat split; try done. by exists r, b.
Qed.

End VerifierProps.

(** C15: when the verifier passes a run manifest, the file holds the canonical
    bytes of a manifest, whose id is reported; every object the manifest and its
    checkpoints refer to was in the store with the length and the digest of its
    reference, under a registered media type of its schema; configuration,
    corpus, tokenizer and lock are the artifacts named; each checkpoint belongs
    to the run and its state agrees with it; a completed run has a checkpoint,
    the last one has the run's tokens and model; and exactly these objects were
    added to the verified set, whose size is reported.  All this holds although
    the store may change between two reads. *)
Theorem verified_bundle_sound (media_schemas : odict (option string)) (store : nat -> FilesystemArtifactStore)
    (io : nat -> store_io) (file : file_outcome) (s s' : VerifierState) (result : BundleVerificationResult)
    (H : verify media_schemas store io file s = (s', Ok result)) :
  exists bytes m cs,
    file = Contents bytes /\ read_manifest bytes = Ok m /\ bundle_ok media_schemas store m cs /\
    vr_run_id result = run_id m /\ run_manifest_id result = sha256_content_id bytes /\
    (forall p, p ∈ verified s' <-> p ∈ verified s \/ exists r, reached m cs r /\ p = key_of r) /\
    (NoDup (verified s) -> NoDup (verified s')) /\
    verified_objects result = Z.of_nat (length (verified s')).
Proof.
  unfold verify in H. apply wbind_Ok in H as (s1 & bytes & H1 & H). injection H1 as <- R.
  destruct file as [| |bytes']; try done. injection R as ->.
  apply wbind_Ok in H as (s2 & m & H2 & H). injection H2 as <- M.
  apply wbind_Ok in H as (s3 & d & H3 & H). injection H3 as <- D.
  apply direct_artifacts_Ok in D as ((e & D) & N1 & N2 & N3 & N4).
  apply wbind_Ok in H as (s4 & u4 & H4 & H). destruct u4. apply verify_references_Ok in H4 as [A4 O4].
  apply wbind_Ok in H as (s5 & u5 & H5 & H). injection H5 as <- C. apply require_Ok, negb_true_iff in C.
  apply wbind_Ok in H as (s6 & cs & [A6 F]%verify_checkpoints_Ok & H).
  apply wbind_Ok in H as (s7 & u7 & H7 & H). destruct u7. apply (check_final_Ok _ _ _ _ _ _ _ F) in H7 as [A7 L].
  apply wbind_Ok in H as (s8 & ref & H8 & H). injection H8 as <- I.
  apply wbind_Ok in H as (s9 & b & [A9 (n & B)]%read_ref_Ok & H).
  apply wbind_Ok in H as (s10 & config & H10 & H). injection H10 as <- V.
  apply wbind_Ok in H as (s11 & u11 & H11 & H). injection H11 as <- Q. apply require_Ok, py_eq_str in Q.
  injection H as <- <-. exists bytes, m, cs. split; [done|]. split; [done|].
  pose proof (adds_app _ _ _ _ _ (adds_app _ _ _ _ _ (adds_app _ _ _ _ _ A4 A6) A7) A9) as A.
  rewrite !app_nil_r in A. apply (adds_reached _ _ _ _ _ _ F) in A as [A N].
  split; [|done]. constructor; try done.
  - intros r [Hr|[Hr|(c & Hc & Hr)]]; [by apply O4| |].
    + apply list_elem_of_lookup in Hr as [i Hi]. destruct (Forall2_lookup_l _ _ _ _ _ F Hi) as (c & _ & K).
      destruct (co_document _ _ _ _ _ K) as (x & _ & Ox & _). by exists x.
    + apply list_elem_of_lookup in Hc as [i Hi]. destruct (Forall2_lookup_r _ _ _ _ _ F Hi) as (x & _ & K).
      by apply (co_artifacts _ _ _ _ _ K).
  - intros E ->. rewrite E in C. inversion F as [K|]. rewrite <- K in C. done.
  - unfold index_ref in I. destruct (od_get _ d) as [ref'|] eqn:G; [|done]. injection I as ->.
    destruct (index_get _ _ _ _ _ D G) as [Hr _]. exists ref, b, config. split; [done|]. split; [|done].
    destruct (O4 ref Hr) as (b' & [X _ _ _]). apply read_at_Ok in B as (Y1 & Y2 & Y3). constructor; eauto.
Qed.

(** ** The registry *)

(** Media types and schemas of the records, in their order *)
Definition media_pairs `{PyText} (media_types : list json) : list (string * string) :=
  map (fun j => match j with JObj r => (py_str (jget "value" r), py_str (jget "schema_id" r)) | _ => (EmptyString, EmptyString) end)
    media_types.

Lemma register_media_get `{PyText} ids media acc reg m :
  register_media ids acc media = Ok reg ->
  od_get m reg =
    match od_get m acc, List.filter (fun p => String.eqb p.1 m) (media_pairs media) with
    | x, [] => x
    | None, [p] => Some (Some p.2)
    | _, _ => Some None
    end.
Proof.
  revert acc. induction media as [|j media IH]; intros acc; cbn [register_media media_pairs map List.filter].
  - intros [= ->]. by destruct (od_get m reg).
  - destruct j as [| | | | | |r]; try done. intros [_ H1]%rbind_unit_Ok. apply rbind_unit_Ok in H1 as [_ H1].
    rewrite (IH _ H1), od_get_set. fold (media_pairs media). cbn [fst]. rewrite (String.eqb_sym m).
    destruct (String.eqb_spec (py_str (jget "value" r)) m) as [<-|N]; [|done].
    unfold od_mem. destruct (od_get _ acc), (List.filter _ (media_pairs media)); done.
Qed.

Lemma register_media_ids `{PyText} ids media acc reg p :
  register_media ids acc media = Ok reg -> p ∈ media_pairs media -> p.2 ∈ ids.
Proof.
  revert acc. induction media as [|j media IH]; intros acc; cbn [register_media media_pairs map].
  - intros _ []%elem_of_nil.
  - destruct j as [| | | | | |r]; try done. intros [_ H1]%rbind_unit_Ok. apply rbind_unit_Ok in H1 as [S H1].
    intros [->|Hp]%elem_of_cons; [by apply require_Ok, str_in_elem in S|by eapply IH].
Qed.

(** A schema record whose file has its digest *)
Definition registered_schema `{PyText} (schema_file : string -> file_outcome) (schemas : list json) (id : string) : Prop :=
  exists r bytes, JObj r ∈ schemas /\ py_str (jget "id" r) = id /\
    schema_file (py_str (jget "path" r)) = Contents bytes /\ jget "sha256" r = JStr (sha256_hex bytes).

Lemma registry_schema_Ok `{PyText} schema_file schemas ids id :
  rmap (registry_schema schema_file) schemas = Ok ids -> id ∈ ids -> registered_schema schema_file schemas id.
Proof.
  intros F%rmap_Ok Hi. apply list_elem_of_lookup in Hi as [i Hi].
  destruct (Forall2_lookup_r _ _ _ _ _ F Hi) as (j & Hj & E). unfold registry_schema in E.
  destruct j as [| | | | | |r]; try done. apply rbind_unit_Ok in E as [_ E].
  destruct (schema_file _) as [| |bytes] eqn:S; try done. apply rbind_unit_Ok in E as [D [= <-]].
  apply require_Ok in D. exists r, bytes. split; [by eapply list_elem_of_lookup_2|]. split; [done|]. split; [done|].
  destruct (jget "sha256" r) as [| | | |x| |]; try done. cbn [py_eq] in D. by apply String.eqb_eq in D as ->.
Qed.

(** a registry that loads is one document of this formal semantics in which a
    media type of exactly one record selects the schema of that record, which is
    registered with the digest its file has; a media type of several records
    selects no schema, and others are unknown. *)
Theorem registry_selects_unshared {PT : PyText} (schema_file : string -> file_outcome) (registry_bytes : option string)
    (registry : odict (option string)) (H : _load_registry schema_file registry_bytes = Ok registry) :
  exists bytes value schemas media_types,
    registry_bytes = Some bytes /\ _decode_object bytes "REGISTRY_JSON_INVALID" = Ok value /\
    jget "formal_semantics_id" value = JStr FORMAL_SEMANTICS_ID /\
    jget "schemas" value = JArr schemas /\ jget "media_types" value = JArr media_types /\
    forall m, match List.filter (fun p => String.eqb p.1 m) (media_pairs media_types) with
              | [] => od_get m registry = None
              | [p] => od_get m registry = Some (Some p.2) /\ registered_schema schema_file schemas p.2
              | _ => od_get m registry = Some None
              end.
Proof.
  unfold _load_registry in H. destruct registry_bytes as [bytes|]; [|done].
  apply rbind_Ok in H as (value & V & H). apply rbind_unit_Ok in H as [S H].
  apply require_Ok, py_eq_str in S. destruct (jget "schemas" value) as [| | | | |schemas|] eqn:Es; try done.
  destruct (jget "media_types" value) as [| | | | |media|] eqn:Em; try done.
  apply rbind_Ok in H as (ids & I & H). exists bytes, value, schemas, media. do 5 (split; [done|]). intros m.
  pose proof (register_media_get _ _ _ _ m H) as G. cbn [od_get] in G.
  destruct (List.filter _ _) as [|p [|q l]] eqn:F; [done| |done]. split; [done|].
  apply (registry_schema_Ok _ _ _ _ I). eapply register_media_ids; [exact H|].
  assert (K : In p (List.filter (fun p => String.eqb p.1 m) (media_pairs media))) by (rewrite F; by left).
  apply filter_In in K as [K _]. by apply list_elem_of_In.
Qed.

(** ** A concrete bundle *)

#[export] Instance plain_text : PyText := {| container_str _ := "..."; exn_str _ := "error" |}.

(** ** The registry *)

Definition schema_record (id : string) : json :=
  JObj [("id", JStr id); ("path", JStr "schema.json"); ("sha256", JStr (sha256_hex "{}"))].
Definition media_record (id schema media : string) : json :=
  JObj [("id", JStr id); ("schema_id", JStr schema); ("value", JStr media)].

Definition demo_registry_bytes : string := Eval vm_compute in
  dumps_compact (JObj
    [("formal_semantics_id", JStr FORMAL_SEMANTICS_ID);
     ("schemas", JArr (map schema_record ["SCHEMA-BASELINE-CONFIG-V1"; "SCHEMA-CORPUS-TEXT-V1"; "SCHEMA-TOKENIZER-V1";
        "SCHEMA-UV-LOCK-V1"; "SCHEMA-METRICS-JSONL-V1"; "SCHEMA-CHECKPOINT-MANIFEST-V1"; "SCHEMA-SAFETENSORS-V1";
        "SCHEMA-TRAINING-STATE-V1"]));
     ("media_types", JArr [media_record "M1" "SCHEMA-BASELINE-CONFIG-V1" "config"; media_record "M2" "SCHEMA-CORPUS-TEXT-V1" "corpus";
        media_record "M3" "SCHEMA-TOKENIZER-V1" "tokenizer"; media_record "M4" "SCHEMA-UV-LOCK-V1" "lock";
        media_record "M5" "SCHEMA-METRICS-JSONL-V1" "metrics"; media_record "M6" "SCHEMA-CHECKPOINT-MANIFEST-V1" "checkpoint";
        media_record "M7" "SCHEMA-SAFETENSORS-V1" "tensors"; media_record "M8" "SCHEMA-TRAINING-STATE-V1" "state";
        media_record "M9" "SCHEMA-CORPUS-TEXT-V1" "shared"; media_record "M10" "SCHEMA-UV-LOCK-V1" "shared"])]).

Definition demo_schema_file (path : string) : file_outcome :=
  if String.eqb path "schema.json" then Contents "{}" else Unreadable.

Definition demo_media : odict (option string) := Eval vm_compute in
  match _load_registry demo_schema_file (Some demo_registry_bytes) with Ok r => r | Raise _ => [] end.

Lemma demo_registry_loads : _load_registry demo_schema_file (Some demo_registry_bytes) = Ok demo_media.
Proof. vm_compute. reflexivity. Qed.

(** ** The bundle *)

Definition ref_of (schema media bytes : string) : ArtifactRef :=
  mkArtifactRef (sha256_content_id bytes) (JStr media) schema "1.0.0" (byte_count bytes) (object_locator bytes).

Definition config_bytes : string := Eval vm_compute in dumps_compact (JObj [("run_id", JStr "run-1")]).
Definition model_hash : string := Eval vm_compute in sha256_content_id "model".

Definition state_bytes : string := Eval vm_compute in
  dumps_compact (JObj
    [("checkpoint_id", JStr "step-4"); ("formal_semantics_id", JStr FORMAL_SEMANTICS_ID); ("model_schema_id", JStr model_hash);
     ("optimizer", JObj [("kind", JStr "CANONICAL_ADAMW_V1"); ("step", JInt 2)]); ("rng", JNull); ("run_id", JStr "run-1");
     ("sampler", JObj [("cursor", JInt 16); ("sample_count", JInt 8); ("seed", JInt 7)]); ("scaler", JNull);
     ("scheduler", JNull); ("schema_version", JStr "1.0.0")]).

Definition demo_checkpoint : CheckpointManifest := Eval vm_compute in
  mkCheckpoint "run-1" "step-4" 4 2 64 16
    [ref_of "SCHEMA-SAFETENSORS-V1" "tensors" "weights"; ref_of "SCHEMA-TRAINING-STATE-V1" "state" state_bytes].

Definition checkpoint_bytes : string := Eval vm_compute in dumps_compact (JObj (checkpoint_to_dict demo_checkpoint)).

Definition demo_manifest : RunManifest := Eval vm_compute in
  mkRunManifest "run-1" RUN_COMPLETED (sha256_content_id config_bytes) (JStr "abc123") (sha256_content_id "lock")
    (sha256_content_id "corpus") model_hash (sha256_content_id "tokenizer") 64 [("python", "3.12")] [("global", 7)]
    [ref_of "SCHEMA-BASELINE-CONFIG-V1" "config" config_bytes; ref_of "SCHEMA-CORPUS-TEXT-V1" "corpus" "corpus";
     ref_of "SCHEMA-TOKENIZER-V1" "tokenizer" "tokenizer"; ref_of "SCHEMA-UV-LOCK-V1" "lock" "lock";
     ref_of "SCHEMA-METRICS-JSONL-V1" "metrics" "metrics"]
    [ref_of "SCHEMA-CHECKPOINT-MANIFEST-V1" "checkpoint" checkpoint_bytes] JNull.

Definition manifest_bytes : string := Eval vm_compute in dumps_compact (sort_keys (JObj (run_to_dict demo_manifest))).

Definition demo_files : list (string * string) := Eval vm_compute in
  map (fun b => (object_locator b, b))
    [config_bytes; "corpus"; "tokenizer"; "lock"; "metrics"; checkpoint_bytes; "weights"; state_bytes].

Definition demo_store (n : nat) : FilesystemArtifactStore := list_to_map demo_files.

Definition verified_demo : BundleVerificationResult := Eval vm_compute in
  match (verify demo_media demo_store (fun _ => StoreOk) (Contents manifest_bytes) new_verifier).2 with
  | Ok r => r | Raise _ => mkVerification "" "" 0 end.

Definition demo_verifier : VerifierState := Eval vm_compute in
  (verify demo_media demo_store (fun _ => StoreOk) (Contents manifest_bytes) new_verifier).1.

Lemma demo_verifies :
  verify demo_media demo_store (fun _ => StoreOk) (Contents manifest_bytes) new_verifier = (demo_verifier, Ok verified_demo).
Proof. vm_compute. reflexivity. Qed.

Lemma demo_counts : verified_objects verified_demo = 8 /\ length (verified demo_verifier) = 8%nat.
Proof. vm_compute. done. Qed.

Lemma verified_bundle_sound_witness :
  exists m cs, bundle_ok demo_media demo_store m cs /\ vr_run_id verified_demo = run_id m /\ verified_objects verified_demo = 8.
Proof.
  destruct (verified_bundle_sound demo_media demo_store (fun _ => StoreOk) (Contents manifest_bytes) new_verifier
    demo_verifier verified_demo demo_verifies) as (b & m & cs & _ & _ & B & R & _ & _ & _ & _).
  exists m, cs. split; [exact B|]. split; [exact R|]. exact (proj1 demo_counts).
Defined.

Lemma registry_selects_unshared_witness :
  (exists bytes value, Some demo_registry_bytes = Some bytes /\ _decode_object bytes "REGISTRY_JSON_INVALID" = Ok value) /\
  od_get "config" demo_media = Some (Some "SCHEMA-BASELINE-CONFIG-V1") /\ od_get "shared" demo_media = Some None.
Proof.
  destruct (registry_selects_unshared demo_schema_file (Some demo_registry_bytes) demo_media demo_registry_loads)
    as (b & v & schemas & media & E & V & _).
  split; [exists b, v; exact (conj E V)|]. vm_compute. split; reflexivity.
Defined.

(** A corpus that changed is not verified. *)
Example tampered_corpus :
  (verify demo_media (fun _ => <[object_locator "corpus" := "Corpus"]> (demo_store 0)) (fun _ => StoreOk)
     (Contents manifest_bytes) new_verifier).2
  = Raise (DeltaError ARTIFACT_HASH_MISMATCH "artifact bytes do not match the immutable reference").
Proof. vm_compute. reflexivity. Qed.
