(* ===== verification/DataBinding.v ===== *)
(** * Data bindings ([deltatorrent/data/binding.py])

    Before training, a provider proposes which data window belongs to which
    event, an authority accepts, rejects or sends each proposal to review, and
    only accepted windows reach a ticket.  Assertions, decisions and resolved
    sets are content-addressed: their constructors recompute the id.  Fields
    annotated [str] are strings; the offsets, whose type the code checks, are
    JSON values.  Values interpolated into messages are not modelled. *)

From S2P Require Import Prelude PyFloat Json JsonText Text Sha256 WorkerErrors WorkerCanonical ArtifactRef FixedPoint Sampler.
Open Scope string_scope.
Open Scope Z_scope.
Open Scope py_scope.

(** ** Exceptions *)

Inductive binding_exn :=
| BindingAssertionError (message : string)
| BindingDecisionError (message : string)
| ResolvedBindingSetError (message : string)
| BindingValueError
| BindingUnicodeError
| BindingKeyError.

Abbreviation bresult := (result binding_exn).

(** Whether [int(text, 16)] returns *)
Definition int_base16 (l : list Z) : bool := match py_int 16 l with Some _ => true | None => false end.

Definition is_sha256_content_id (value : string) : bool :=
  match strip_prefix "sha256:" value with
  | Some rest =>
      (str_len value =? 71) && match decode rest with Some l => int_base16 l | None => false end
  | None => false
  end.

(** ** Canonical bytes *)

Definition BINDING_ASSERTION_SCHEMA_VERSION : string := "1.0.0".
Definition BINDING_ASSERTION_TYPE : string := "DELTAREDUCE_DATA_BINDING_ASSERTION".
Definition BINDING_DECISION_TYPE : string := "DELTAREDUCE_DATA_BINDING_DECISION".
Definition RESOLVED_BINDING_SET_TYPE : string := "DELTAREDUCE_RESOLVED_BINDING_SET".
Definition BINDING_ASSERTION_STATUS_PROPOSED : string := "PROPOSED".
Definition BINDING_DECISION_ACCEPTED : string := "ACCEPTED".
Definition BINDING_DECISION_REJECTED : string := "REJECTED".
Definition BINDING_DECISION_REVIEW : string := "REVIEW".
Definition VALID_BINDING_RELATIONS : list string := ["baseline"; "post"].
Definition VALID_BINDING_PROVIDER_TYPES : list string := ["HUMAN"; "RULE"; "MODEL"; "TRIGGER"].
Definition VALID_BINDING_DECISIONS : list string :=
  [BINDING_DECISION_ACCEPTED; BINDING_DECISION_REJECTED; BINDING_DECISION_REVIEW].

(** [json.dumps(value, ensure_ascii=False, allow_nan=False, sort_keys=True, …)],
    encoded *)
Definition _canonical_bytes (value : odict json) : bresult string :=
  let text := dumps_compact (sort_keys (JObj value)) in
  require (negb (has_nonfinite (JObj value))) BindingValueError ;?
  require (encodable text) BindingUnicodeError ;?
  Ok text.

Definition _content_id (value : odict json) : bresult string :=
  let? bytes := _canonical_bytes value in
  Ok (sha256_content_id bytes).

(** ** Assertions *)

Record BindingAssertion := mkAssertion {
  ba_id : string;
  modality : string;
  dataset_id : string;
  session_id : string;
  intervention_event_id : string;
  data_window_id : string;
  relation : string;
  start_offset_ms : json;
  end_offset_ms : json;
  acquisition_profile_id : string;
  preprocessing_profile_id : string;
  raw_data_hash : string;
  binding_provider_id : string;
  binding_provider_type : string;
  ba_status : string;
  ba_schema_version : string;
  ba_type_name : string }.

#[export] Instance BindingAssertion_eq_dec : EqDecision BindingAssertion.
Proof. solve_decision. Defined.

Definition _assertion_payload (modality dataset_id session_id intervention_event_id data_window_id relation : string)
    (start_offset_ms end_offset_ms : json)
    (acquisition_profile_id preprocessing_profile_id raw_data_hash binding_provider_id binding_provider_type : string) :
    odict json :=
  [("acquisition_profile_id", JStr acquisition_profile_id); ("binding_provider_id", JStr binding_provider_id);
   ("binding_provider_type", JStr binding_provider_type); ("data_window_id", JStr data_window_id);
   ("dataset_id", JStr dataset_id); ("end_offset_ms", end_offset_ms);
   ("intervention_event_id", JStr intervention_event_id); ("modality", JStr modality);
   ("preprocessing_profile_id", JStr preprocessing_profile_id); ("raw_data_hash", JStr raw_data_hash);
   ("relation", JStr relation); ("schema_version", JStr BINDING_ASSERTION_SCHEMA_VERSION);
   ("session_id", JStr session_id); ("start_offset_ms", start_offset_ms);
   ("status", JStr BINDING_ASSERTION_STATUS_PROPOSED); ("type_name", JStr BINDING_ASSERTION_TYPE)].

(** [BindingAssertion.canonical_payload] *)
Definition assertion_payload (a : BindingAssertion) : odict json :=
  _assertion_payload (modality a) (dataset_id a) (session_id a) (intervention_event_id a) (data_window_id a)
    (relation a) (start_offset_ms a) (end_offset_ms a) (acquisition_profile_id a) (preprocessing_profile_id a)
    (raw_data_hash a) (binding_provider_id a) (binding_provider_type a).

Definition nonempty (s : string) : bool := negb (String.eqb s EmptyString).

(** The checks of the offsets: exact integers, in order, on the side of the
    event the relation names *)
Definition check_offsets (relation : string) (start_offset end_offset : json) : bresult unit :=
  match start_offset, end_offset with
  | JInt s, JInt e =>
      require (s <? e) (BindingAssertionError "BINDING_OFFSET_RANGE_INVALID") ;?
      require (negb (String.eqb relation "baseline" && (0 <? e))) (BindingAssertionError "BINDING_BASELINE_AFTER_EVENT") ;?
      require (negb (String.eqb relation "post" && (s <? 0))) (BindingAssertionError "BINDING_POST_BEFORE_EVENT")
  | _, _ => Raise (BindingAssertionError "BINDING_OFFSETS_NOT_INTEGER")
  end.

(** [BindingAssertion.__post_init__] *)
Definition check_assertion (a : BindingAssertion) : bresult unit :=
  let ok (b : bool) m := require b (BindingAssertionError m) in
  ok (String.eqb (ba_type_name a) BINDING_ASSERTION_TYPE) "BINDING_ASSERTION_TYPE_INVALID" ;?
  ok (String.eqb (ba_schema_version a) BINDING_ASSERTION_SCHEMA_VERSION) "BINDING_ASSERTION_SCHEMA_VERSION_INVALID" ;?
  ok (String.eqb (ba_status a) BINDING_ASSERTION_STATUS_PROPOSED) "BINDING_ASSERTION_STATUS_INVALID" ;?
  ok (is_sha256_content_id (ba_id a)) "BINDING_ASSERTION_ID_INVALID" ;?
  ok (nonempty (modality a)) "BINDING_MODALITY_EMPTY" ;?
  ok (nonempty (dataset_id a)) "BINDING_DATASET_ID_EMPTY" ;?
  ok (nonempty (session_id a)) "BINDING_SESSION_ID_EMPTY" ;?
  ok (nonempty (intervention_event_id a)) "BINDING_INTERVENTION_EVENT_ID_EMPTY" ;?
  ok (nonempty (data_window_id a)) "BINDING_DATA_WINDOW_ID_EMPTY" ;?
  ok (str_in (relation a) VALID_BINDING_RELATIONS) "BINDING_RELATION_INVALID" ;?
  check_offsets (relation a) (start_offset_ms a) (end_offset_ms a) ;?
  ok (nonempty (acquisition_profile_id a)) "BINDING_ACQUISITION_PROFILE_ID_EMPTY" ;?
  ok (nonempty (preprocessing_profile_id a)) "BINDING_PREPROCESSING_PROFILE_ID_EMPTY" ;?
  ok (is_sha256_content_id (raw_data_hash a)) "BINDING_RAW_DATA_HASH_INVALID" ;?
  ok (nonempty (binding_provider_id a)) "BINDING_PROVIDER_ID_EMPTY" ;?
  ok (str_in (binding_provider_type a) VALID_BINDING_PROVIDER_TYPES) "BINDING_PROVIDER_TYPE_INVALID" ;?
  let? expected_id := _content_id (assertion_payload a) in
  ok (String.eqb (ba_id a) expected_id) "BINDING_ASSERTION_ID_MISMATCH".

(** [BindingAssertion.create] *)
Definition create_assertion (modality dataset_id session_id intervention_event_id data_window_id relation : string)
    (start_offset_ms end_offset_ms : json)
    (acquisition_profile_id preprocessing_profile_id raw_data_hash binding_provider_id binding_provider_type : string) :
    bresult BindingAssertion :=
  let? id := _content_id (_assertion_payload modality dataset_id session_id intervention_event_id data_window_id
      relation start_offset_ms end_offset_ms acquisition_profile_id preprocessing_profile_id raw_data_hash
      binding_provider_id binding_provider_type) in
  let a := mkAssertion id modality dataset_id session_id intervention_event_id data_window_id relation
      start_offset_ms end_offset_ms acquisition_profile_id preprocessing_profile_id raw_data_hash
      binding_provider_id binding_provider_type BINDING_ASSERTION_STATUS_PROPOSED
      BINDING_ASSERTION_SCHEMA_VERSION BINDING_ASSERTION_TYPE in
  check_assertion a ;? Ok a.

(** ** Decisions *)

Record BindingDecision := mkDecision {
  bd_id : string;
  bd_assertion_id : string;
  bd_authority_id : string;
  decision : string;
  reason_code : string;
  bd_schema_version : string;
  bd_type_name : string }.

#[export] Instance BindingDecision_eq_dec : EqDecision BindingDecision.
Proof. solve_decision. Defined.

Definition _decision_payload (binding_assertion_id binding_authority_id decision reason_code : string) : odict json :=
  [("binding_assertion_id", JStr binding_assertion_id); ("binding_authority_id", JStr binding_authority_id);
   ("decision", JStr decision); ("reason_code", JStr reason_code);
   ("schema_version", JStr BINDING_ASSERTION_SCHEMA_VERSION); ("type_name", JStr BINDING_DECISION_TYPE)].

(** [BindingDecision.canonical_payload] *)
Definition decision_payload (d : BindingDecision) : odict json :=
  _decision_payload (bd_assertion_id d) (bd_authority_id d) (decision d) (reason_code d).

(** [BindingDecision.__post_init__] *)
Definition check_decision (d : BindingDecision) : bresult unit :=
  let ok (b : bool) m := require b (BindingDecisionError m) in
  ok (String.eqb (bd_type_name d) BINDING_DECISION_TYPE) "BINDING_DECISION_TYPE_INVALID" ;?
  ok (String.eqb (bd_schema_version d) BINDING_ASSERTION_SCHEMA_VERSION) "BINDING_DECISION_SCHEMA_VERSION_INVALID" ;?
  ok (is_sha256_content_id (bd_id d)) "BINDING_DECISION_ID_INVALID" ;?
  ok (is_sha256_content_id (bd_assertion_id d)) "BINDING_DECISION_ASSERTION_ID_INVALID" ;?
  ok (nonempty (bd_authority_id d)) "BINDING_AUTHORITY_ID_EMPTY" ;?
  ok (str_in (decision d) VALID_BINDING_DECISIONS) "BINDING_DECISION_INVALID" ;?
  ok (nonempty (reason_code d)) "BINDING_DECISION_REASON_EMPTY" ;?
  let? expected_id := _content_id (decision_payload d) in
  ok (String.eqb (bd_id d) expected_id) "BINDING_DECISION_ID_MISMATCH".

(** [BindingDecision.create] *)
Definition create_decision (binding_assertion_id binding_authority_id decision reason_code : string) :
    bresult BindingDecision :=
  let? id := _content_id (_decision_payload binding_assertion_id binding_authority_id decision reason_code) in
  let d := mkDecision id binding_assertion_id binding_authority_id decision reason_code
      BINDING_ASSERTION_SCHEMA_VERSION BINDING_DECISION_TYPE in
  check_decision d ;? Ok d.

(** [BindingDecision.accepted] *)
Definition accepted (d : BindingDecision) : bool := String.eqb (decision d) BINDING_DECISION_ACCEPTED.

(** ** Resolved sets *)

Fixpoint decisions_from (by_id : odict BindingDecision) (decisions : list BindingDecision) :
    bresult (odict BindingDecision) :=
  match decisions with
  | [] => Ok by_id
  | d :: r =>
      require (negb (od_mem (bd_assertion_id d) by_id)) (ResolvedBindingSetError "DUPLICATE_BINDING_DECISION") ;?
      decisions_from (od_set (bd_assertion_id d) d by_id) r
  end.

Definition decisions_by_assertion_id (decisions : list BindingDecision) : bresult (odict BindingDecision) :=
  decisions_from [] decisions.

(** [decision_map[assertion.binding_assertion_id].accepted] *)
Definition accepted_in (decision_map : odict BindingDecision) (a : BindingAssertion) : bresult bool :=
  match od_get (ba_id a) decision_map with Some d => Ok (accepted d) | None => Raise BindingKeyError end.

(** [[a for a in assertions if decision_map[a.binding_assertion_id].accepted]] *)
Fixpoint accepted_of (decision_map : odict BindingDecision) (assertions : list BindingAssertion) :
    bresult (list BindingAssertion) :=
  match assertions with
  | [] => Ok []
  | a :: r =>
      let? yes := accepted_in decision_map a in
      let? rest := accepted_of decision_map r in
      Ok (if yes then a :: rest else rest)
  end.

(** The loop that requires a decision for every assertion *)
Definition require_decisions (decision_map : odict BindingDecision) (assertions : list BindingAssertion) : bresult unit :=
  rforall (fun a => require (od_mem (ba_id a) decision_map) (ResolvedBindingSetError "MISSING_BINDING_DECISION")) assertions.

Definition _resolved_set_payload (binding_authority_id : string) (assertions : list BindingAssertion)
    (decisions : list BindingDecision) : bresult (odict json) :=
  let? decision_map := decisions_by_assertion_id decisions in
  require_decisions decision_map assertions ;?
  let? ok := accepted_of decision_map assertions in
  Ok [("accepted_assertion_ids", JArr (map (fun a => JStr (ba_id a)) ok));
      ("binding_authority_id", JStr binding_authority_id);
      ("decision_ids", JArr (map (fun d => JStr (bd_id d)) decisions));
      ("schema_version", JStr BINDING_ASSERTION_SCHEMA_VERSION); ("type_name", JStr RESOLVED_BINDING_SET_TYPE)].

(** The loop over [seen_assertion_ids]: the ids seen *)
Fixpoint unique_ids (seen : list string) (assertions : list BindingAssertion) : bresult (list string) :=
  match assertions with
  | [] => Ok seen
  | a :: r =>
      require (negb (str_in (ba_id a) seen)) (ResolvedBindingSetError "DUPLICATE_BINDING_ASSERTION_ID") ;?
      unique_ids (ba_id a :: seen) r
  end.

(** The loop over [accepted_window_ids] of accepted assertions *)
Fixpoint unique_windows (seen : list string) (accepted_assertions : list BindingAssertion) : bresult unit :=
  match accepted_assertions with
  | [] => Ok tt
  | a :: r =>
      require (negb (str_in (data_window_id a) seen)) (ResolvedBindingSetError "DUPLICATE_ACCEPTED_BINDING_FOR_WINDOW") ;?
      unique_windows (data_window_id a :: seen) r
  end.

Record ResolvedBindingSet := mkResolved {
  rs_id : string;
  rs_authority_id : string;
  assertions : list BindingAssertion;
  decisions : list BindingDecision;
  rs_schema_version : string;
  rs_type_name : string }.

Definition sort_assertions : list BindingAssertion -> list BindingAssertion := sorted_by String.leb ba_id.
Definition sort_decisions : list BindingDecision -> list BindingDecision := sorted_by String.leb bd_assertion_id.

(** [ResolvedBindingSet.accepted_assertions] *)
Definition accepted_assertions (s : ResolvedBindingSet) : bresult (list BindingAssertion) :=
  let? decision_by_id := decisions_by_assertion_id (decisions s) in
  accepted_of decision_by_id (assertions s).

(** [set(decision_by_id) == seen_assertion_ids] *)
Definition same_ids (decision_by_id : odict BindingDecision) (seen : list string) : bool :=
  forallb (fun k => str_in k seen) (od_keys decision_by_id) && forallb (fun k => od_mem k decision_by_id) seen.

(** [ResolvedBindingSet.__post_init__] *)
Definition check_resolved (s : ResolvedBindingSet) : bresult unit :=
  let ok (b : bool) m := require b (ResolvedBindingSetError m) in
  ok (String.eqb (rs_type_name s) RESOLVED_BINDING_SET_TYPE) "RESOLVED_BINDING_SET_TYPE_INVALID" ;?
  ok (String.eqb (rs_schema_version s) BINDING_ASSERTION_SCHEMA_VERSION) "RESOLVED_BINDING_SET_SCHEMA_VERSION_INVALID" ;?
  ok (is_sha256_content_id (rs_id s)) "RESOLVED_BINDING_SET_ID_INVALID" ;?
  ok (nonempty (rs_authority_id s)) "RESOLVED_BINDING_AUTHORITY_ID_EMPTY" ;?
  ok (bool_decide (sort_assertions (assertions s) = assertions s)) "RESOLVED_BINDING_ASSERTIONS_NOT_SORTED" ;?
  ok (bool_decide (sort_decisions (decisions s) = decisions s)) "RESOLVED_BINDING_DECISIONS_NOT_SORTED" ;?
  let? seen := unique_ids [] (assertions s) in
  let? decision_by_id := decisions_by_assertion_id (decisions s) in
  require_decisions decision_by_id (assertions s) ;?
  ok (same_ids decision_by_id seen) "RESOLVED_BINDING_DECISION_COVERAGE_INVALID" ;?
  ok (forallb (fun d => String.eqb (bd_authority_id d) (rs_authority_id s)) (decisions s))
    "RESOLVED_BINDING_DECISION_AUTHORITY_MISMATCH" ;?
  let? yes := accepted_assertions s in
  unique_windows [] yes ;?
  let? payload := _resolved_set_payload (rs_authority_id s) (assertions s) (decisions s) in
  let? expected_id := _content_id payload in
  ok (String.eqb (rs_id s) expected_id) "RESOLVED_BINDING_SET_ID_MISMATCH".

(** [ResolvedBindingSet.create].  When the counts differ there are more
    decisions than assertions, so that [sorted(unmatched)[0]] exists. *)
Definition create_resolved (binding_authority_id : string) (assertions : list BindingAssertion)
    (decisions : list BindingDecision) : bresult ResolvedBindingSet :=
  let? seen := unique_ids [] assertions in
  let? decision_map := decisions_by_assertion_id decisions in
  require_decisions decision_map assertions ;?
  require (Nat.eqb (length decision_map) (length assertions)) (ResolvedBindingSetError "UNMATCHED_BINDING_DECISION") ;?
  let? yes := accepted_of decision_map assertions in
  unique_windows [] yes ;?
  let sorted_assertions := sort_assertions assertions in
  let sorted_decisions := sort_decisions decisions in
  let? payload := _resolved_set_payload binding_authority_id sorted_assertions sorted_decisions in
  let? id := _content_id payload in
  let s := mkResolved id binding_authority_id sorted_assertions sorted_decisions
      BINDING_ASSERTION_SCHEMA_VERSION RESOLVED_BINDING_SET_TYPE in
  check_resolved s ;? Ok s.

Definition accepted_count (s : ResolvedBindingSet) : bresult Z :=
  let? yes := accepted_assertions s in Ok (Z.of_nat (length yes)).

Definition count_decisions (value : string) (s : ResolvedBindingSet) : Z :=
  Z.of_nat (length (List.filter (fun d => String.eqb (decision d) value) (decisions s))).
Definition rejected_count (s : ResolvedBindingSet) : Z := count_decisions BINDING_DECISION_REJECTED s.
Definition review_count (s : ResolvedBindingSet) : Z := count_decisions BINDING_DECISION_REVIEW s.

Definition assertion_for_window (s : ResolvedBindingSet) (window : string) : bresult BindingAssertion :=
  let? yes := accepted_assertions s in
  match List.filter (fun a => String.eqb (data_window_id a) window) yes with
  | [a] => Ok a
  | _ => Raise (ResolvedBindingSetError "ACCEPTED_BINDING_FOR_WINDOW_NOT_UNIQUE")
  end.

Definition decision_for_assertion_id (s : ResolvedBindingSet) (binding_assertion_id : string) : bresult BindingDecision :=
  let? by_id := decisions_by_assertion_id (decisions s) in
  match od_get binding_assertion_id by_id with
  | Some d => Ok d
  | None => Raise (ResolvedBindingSetError "UNKNOWN_BINDING_ASSERTION_ID")
  end.

(** The metadata of a ticket *)
Definition ticket_context (s : ResolvedBindingSet) (a : BindingAssertion) (d : BindingDecision) : odict json :=
  [("acquisition_profile_id", JStr (acquisition_profile_id a)); ("binding_assertion_id", JStr (ba_id a));
   ("binding_authority_id", JStr (rs_authority_id s)); ("binding_decision_id", JStr (bd_id d));
   ("binding_schema_version", JStr (ba_schema_version a)); ("data_window_id", JStr (data_window_id a));
   ("intervention_event_id", JStr (intervention_event_id a));
   ("preprocessing_profile_id", JStr (preprocessing_profile_id a)); ("raw_data_hash", JStr (raw_data_hash a));
   ("resolved_binding_set_id", JStr (rs_id s)); ("session_id", JStr (session_id a))].

Definition ticket_context_for_assertion (s : ResolvedBindingSet) (a : BindingAssertion) : bresult (odict json) :=
  let? d := decision_for_assertion_id s (ba_id a) in
  require (accepted d) (ResolvedBindingSetError "BINDING_ASSERTION_NOT_ACCEPTED") ;?
  Ok (ticket_context s a d).

Definition ticket_context_for_window (s : ResolvedBindingSet) (window : string) : bresult (odict json) :=
  let? a := assertion_for_window s window in
  ticket_context_for_assertion s a.

(** ** The deterministic authority *)

Record DeterministicBindingAuthority := mkAuthority {
  au_id : string;
  default_decision : string;
  default_reason_code : string;
  decision_overrides : odict string;
  reason_overrides : odict string }.

(** [DeterministicBindingAuthority.__post_init__] *)
Definition check_authority (au : DeterministicBindingAuthority) : bresult unit :=
  require (nonempty (au_id au)) (BindingDecisionError "BINDING_AUTHORITY_ID_EMPTY") ;?
  require (str_in (default_decision au) VALID_BINDING_DECISIONS) (BindingDecisionError "BINDING_DECISION_INVALID") ;?
  require (nonempty (default_reason_code au)) (BindingDecisionError "BINDING_DECISION_REASON_EMPTY").

Definition get_default (k : string) (d : odict string) (default : string) : string :=
  match od_get k d with Some v => v | None => default end.

(** The decision about one proposal *)
Definition decide_assertion (au : DeterministicBindingAuthority) (a : BindingAssertion) : bresult BindingDecision :=
  create_decision (ba_id a) (au_id au) (get_default (ba_id a) (decision_overrides au) (default_decision au))
    (get_default (ba_id a) (reason_overrides au) (default_reason_code au)).

Definition resolve_bindings (au : DeterministicBindingAuthority) (proposed_assertions : list BindingAssertion) :
    bresult ResolvedBindingSet :=
  let sorted_assertions := sort_assertions proposed_assertions in
  let? decisions := rmap (decide_assertion au) sorted_assertions in
  create_resolved (au_id au) sorted_assertions decisions.
