(* ===== verification/DataBindingProps.v ===== *)
(** * Properties of data bindings

    A resolution is exactly its proposals and the authority's decisions about
    them, in whatever order they were proposed; tickets carry accepted windows
    only; one id stands for one set, up to a SHA-256 collision. *)

From stdpp Require Import sorting.
From S2P Require Import Prelude PyFloat Json JsonText Text Sha256 WorkerErrors WorkerCanonical ArtifactRef Sampler FixedPoint FixedPointProps ParameterSchema DataBinding.
Open Scope string_scope.
Open Scope Z_scope.
Open Scope py_scope.

(** ** Sorting by string keys *)

Section SortedBy.
Context {A : Type} (key : A -> string).
Implicit Types (l : list A).

Let le (a b : A) : bool := String.leb (key a) (key b).
Let leP (a b : A) : Prop := String.leb (key a) (key b) = true.

Lemma insert_by_snd x (m : list (string * A)) :
  Forall (fun p => p.1 = key p.2) m ->
  map snd (insert_by (fun a b => String.leb a.1 b.1) (key x, x) m) = insert_by le x (map snd m) /\
  Forall (fun p => p.1 = key p.2) (insert_by (fun a b => String.leb a.1 b.1) (key x, x) m).
Proof.
  induction m as [|y m IH]; cbn [insert_by map].
  - intros _. split; [done|]. by repeat constructor.
  - intros [Ey Hm]%Forall_cons. destruct (IH Hm) as [E F]. unfold le at 1. cbn [fst].
    rewrite Ey. destruct (String.leb _ _).
    + split; [done|]. by repeat constructor.
    + cbn [map]. rewrite E. split; [done|]. by constructor.
Qed.

Lemma sorted_by_insert l : sorted_by String.leb key l = fold_right (insert_by le) [] l.
Proof.
  unfold sorted_by.
  set (f := fold_right _ [] (map (fun x => (key x, x)) l)).
  enough (map snd f = fold_right (insert_by le) [] l /\ Forall (fun p => p.1 = key p.2) f) as [H _] by done.
  subst f. induction l as [|x l [E F]]; [by split|]. cbn [map fold_right].
  destruct (insert_by_snd x _ F) as [E' F']. split; [|done]. by rewrite E', E.
Qed.

Lemma insert_by_strong x l : StronglySorted leP l -> StronglySorted leP (insert_by le x l).
Proof.
  induction l as [|y l IH]; intros S; cbn [insert_by]; [by repeat constructor|].
  apply StronglySorted_inv in S as [S F]. destruct (le x y) eqn:L.
  - constructor; [by constructor|]. constructor; [done|].
    eapply Forall_impl; [exact F|]. intros z Hz. by eapply leb_trans.
  - constructor; [by apply IH|]. rewrite insert_by_perm. constructor; [|done].
    unfold leP, le in *. destruct (String.leb_total (key x) (key y)); congruence.
Qed.

Lemma sorted_by_strong l : StronglySorted leP (sorted_by String.leb key l).
Proof.
  rewrite sorted_by_insert. induction l as [|x l IH]; [constructor|]. by apply insert_by_strong.
Qed.

Lemma key_inj l x y : NoDup (key <$> l) -> x ∈ l -> y ∈ l -> key x = key y -> x = y.
Proof.
  intros N Hx Hy E. apply list_elem_of_lookup in Hx as [i Hi], Hy as [j Hj].
  assert (i = j) as ->; [|congruence].
  apply (NoDup_lookup _ i j (key x) N); rewrite list_lookup_fmap; [by rewrite Hi|by rewrite Hj, E].
Qed.

(** Lists with distinct keys have one sorting. *)
Lemma strong_perm_eq l l' :
  NoDup (key <$> l) -> StronglySorted leP l -> StronglySorted leP l' -> l ≡ₚ l' -> l = l'.
Proof.
  intros N S S' P. apply (StronglySorted_unique_strong leP); try done.
  intros x y Hx Hy L1 L2. apply (key_inj l); try done; [by rewrite P|].
  by apply String.leb_antisym.
Qed.

Lemma sorted_by_perm_eq l l' :
  NoDup (key <$> l) -> l ≡ₚ l' -> sorted_by String.leb key l = sorted_by String.leb key l'.
Proof.
  intros N P. apply strong_perm_eq; [by rewrite sorted_by_perm|apply sorted_by_strong..|].
  by rewrite !sorted_by_perm.
Qed.

Lemma sorted_by_fixed l : NoDup (key <$> l) -> StronglySorted leP l -> sorted_by String.leb key l = l.
Proof.
  intros N S. apply strong_perm_eq; [by rewrite sorted_by_perm|apply sorted_by_strong|done|apply sorted_by_perm].
Qed.

Lemma fixed_strong l : sorted_by String.leb key l = l -> StronglySorted leP l.
Proof. intros <-. apply sorted_by_strong. Qed.
End SortedBy.

(** Two sorted lists of keys *)
Lemma strong_keys {A} (key : A -> string) (l : list A) :
  StronglySorted (fun a b => String.leb (key a) (key b) = true) l ->
  StronglySorted (fun a b => String.leb a b = true) (key <$> l).
Proof.
  induction 1 as [|x l S IH F]; [constructor|]. rewrite fmap_cons. constructor; [done|].
  by apply Forall_fmap.
Qed.

(** ** Loops *)

Lemma decisions_from_Ok m l m' :
  decisions_from m l = Ok m' <->
  NoDup (bd_assertion_id <$> l) /\ (forall d, d ∈ l -> od_get (bd_assertion_id d) m = None) /\
  m' = (m ++ map (fun d => (bd_assertion_id d, d)) l)%list.
Proof.
  revert m. induction l as [|d l IH]; intros m; cbn [decisions_from map fmap list_fmap].
  - rewrite app_nil_r. split; [intros [= <-]|by intros (_ & _ & ->)].
    split; [constructor|]. split; [|done]. by intros d []%elem_of_nil.
  - rewrite rbind_unit_Ok, require_Ok, negb_true_iff, IH. unfold od_mem. split.
    + intros (G & N & D & ->). destruct (od_get (bd_assertion_id d) m) eqn:E; [done|].
      rewrite od_set_new by done. split; [|split].
      * constructor; [|done]. intros (d' & E' & H)%list_elem_of_fmap. specialize (D d' H).
        rewrite E', od_get_set_eq in D. done.
      * intros d' [->|H]%elem_of_cons; [done|]. specialize (D d' H). rewrite od_get_set in D.
        by destruct (String.eqb _ _).
      * by rewrite <- app_assoc.
    + intros ([N1 N]%NoDup_cons & D & ->). pose proof (D d ltac:(left)) as E. rewrite E.
      split; [done|]. split; [done|]. split.
      * intros d' H. rewrite od_get_set. destruct (String.eqb_spec (bd_assertion_id d') (bd_assertion_id d)) as [F|].
        -- destruct N1. rewrite <- F. by apply list_elem_of_fmap_2.
        -- apply D. by right.
      * rewrite od_set_new by done. by rewrite <- app_assoc.
Qed.

Definition by_assertion (l : list BindingDecision) : odict BindingDecision :=
  map (fun d => (bd_assertion_id d, d)) l.

Lemma decisions_by_Ok l m :
  decisions_by_assertion_id l = Ok m <-> NoDup (bd_assertion_id <$> l) /\ m = by_assertion l.
Proof.
  unfold decisions_by_assertion_id. rewrite decisions_from_Ok. cbn [app]. split; [naive_solver|].
  intros [N ->]. done.
Qed.

Lemma by_assertion_keys l : od_keys (by_assertion l) = bd_assertion_id <$> l.
Proof. unfold od_keys, by_assertion. by rewrite map_map. Qed.

Lemma by_assertion_get l id d :
  NoDup (bd_assertion_id <$> l) ->
  od_get id (by_assertion l) = Some d <-> d ∈ l /\ bd_assertion_id d = id.
Proof.
  intros N. split.
  - intros H%od_get_In. apply list_elem_of_fmap in H as (d' & [= -> ->] & H). done.
  - intros [H <-]. apply od_In_get.
    + unfold od_wf. by rewrite by_assertion_keys.
    + by apply (list_elem_of_fmap_2 (fun d => (bd_assertion_id d, d))).
Qed.

Lemma str_in_false x l : str_in x l = false <-> x ∉ l.
Proof. rewrite <- str_in_elem. by destruct (str_in x l). Qed.

Lemma unique_ids_Ok seen l s :
  unique_ids seen l = Ok s <->
  NoDup (ba_id <$> l) /\ (forall a, a ∈ l -> ba_id a ∉ seen) /\ s = (rev (ba_id <$> l) ++ seen)%list.
Proof.
  revert seen. induction l as [|a l IH]; intros seen; cbn [unique_ids fmap list_fmap rev app].
  - split; [intros [= <-]|by intros (_ & _ & ->)].
    split; [constructor|]. split; [|done]. by intros d []%elem_of_nil.
  - rewrite rbind_unit_Ok, require_Ok, negb_true_iff, IH. rewrite NoDup_cons, <- app_assoc. cbn [app].
    rewrite str_in_false. setoid_rewrite elem_of_cons. split.
    + intros (H & N & D & ->). split; [split; [|done]|split; [|done]].
      * intros (a' & E & H')%list_elem_of_fmap. apply (D a' H'). by left.
      * intros a' [->|H']; [done|]. intros S. by apply (D a' H'); right.
    + intros ([N1 N] & D & ->). split; [by apply D; left|]. split; [done|]. split; [|done].
      intros a' H' [E|S].
      * destruct N1. rewrite <- E. by apply list_elem_of_fmap_2.
      * by apply (D a'); [right|].
Qed.

Lemma unique_windows_Ok seen l u :
  unique_windows seen l = Ok u <-> NoDup (data_window_id <$> l) /\ (forall a, a ∈ l -> data_window_id a ∉ seen).
Proof.
  revert seen. induction l as [|a l IH]; intros seen; cbn [unique_windows fmap list_fmap].
  - split; [intros _|by destruct u]. split; [constructor|]. by intros d []%elem_of_nil.
  - rewrite rbind_unit_Ok, require_Ok, negb_true_iff, IH, NoDup_cons.
    rewrite str_in_false. setoid_rewrite elem_of_cons. split.
    + intros (H & N & D). split; [split; [|done]|].
      * intros (a' & E & H')%list_elem_of_fmap. apply (D a' H'). by left.
      * intros a' [->|H']; [done|]. intros S. by apply (D a' H'); right.
    + intros ([N1 N] & D). split; [by apply D; left|]. split; [done|].
      intros a' H' [E|S].
      * destruct N1. rewrite <- E. by apply list_elem_of_fmap_2.
      * by apply (D a'); [right|].
Qed.

(** ** Content ids have their form *)

(** The code points of lower-case hexadecimal text *)
Definition hex_point (z : Z) : Prop := in_range 48 57 z = true \/ in_range 97 102 z = true.

Lemma hex_point_digit z :
  hex_point z ->
  is_Some (base_digit 16 z) /\ z < 127 /\ is_space_point z = false /\
  z <> 120 /\ z <> 88 /\ z <> 43 /\ z <> 45 /\ z <> 95.
Proof.
  unfold hex_point, base_digit, digit_value, is_space_point. intros H.
  assert (B : 48 <= z <= 57 \/ 97 <= z <= 102) by (unfold in_range in H; lia).
  split; [|unfold in_range; lia]. destruct B as [B|B].
  - assert (E : in_range 48 57 z = true) by (unfold in_range; lia). rewrite E.
    destruct (Z.ltb_spec (z - 48) 16); [by eexists|lia].
  - assert (E : in_range 48 57 z = false) by (unfold in_range; lia). rewrite E.
    assert (E' : in_range 97 122 z = true) by (unfold in_range; lia). rewrite E'.
    destruct (Z.ltb_spec (z - 87) 16); [by eexists|lia].
Qed.

Lemma bytes_hex_point s : str_all is_lower_hex s = true -> Forall hex_point (bytes_of s).
Proof.
  induction s as [|c s IH]; [constructor|]. cbn [str_all]. intros [H1 H]%andb_true_iff.
  change (bytes_of (String c s)) with (byte_val c :: bytes_of s). constructor; [|auto].
  revert H1. unfold is_lower_hex, hex_point. rewrite orb_true_iff. done.
Qed.

Lemma scan_base_hex l v n : Forall hex_point l -> exists w m, scan_base 16 false v n l = Some (w, m, []).
Proof.
  intros F. revert v n. induction F as [|z l Hz _ IH]; intros v n; [by do 2 eexists|]. cbn [scan_base].
  destruct (hex_point_digit z Hz) as ([d ->] & _ & _ & _ & _ & _ & _ & N).
  destruct (Z.eqb_spec z 95); [done|]. apply IH.
Qed.

Lemma int_base16_hex l : l <> [] -> Forall hex_point l -> int_base16 l = true.
Proof.
  intros N F. destruct (scan_base_hex l 0 0 F) as (v & n & K).
  assert (A : forallb (fun c => c <? 128) l = true).
  { apply forallb_forall. intros x Hx%list_elem_of_In. rewrite Forall_forall in F.
    destruct (hex_point_digit x (F x Hx)). lia. }
  unfold int_base16, py_int, to_ascii_digits. rewrite A. destruct l as [|a l]; [done|].
  pose proof F as [Ha Fl]%Forall_cons. apply hex_point_digit in Ha as ([d Ea] & _ & Sa & _ & _ & P43 & P45 & _).
  cbn [skip_spaces]. rewrite Sa. cbn [skip_sign].
  destruct (Z.eqb_spec a 45); [done|]. destruct (Z.eqb_spec a 43); [done|].
  assert (S : skip_prefix 16 (a :: l) = a :: l).
  { unfold skip_prefix. destruct l as [|b l']; [by repeat case_match|].
    apply Forall_cons in Fl as [Hb _]. apply hex_point_digit in Hb as (_ & _ & _ & X1 & X2 & _).
    destruct (Z.eqb_spec b 120); [done|]. destruct (Z.eqb_spec b 88); [done|]. by repeat case_match. }
  by rewrite S, Ea, K.
Qed.

Lemma sha256_content_id_form t : is_sha256_content_id (sha256_content_id t) = true.
Proof.
  pose proof (sha256_hex_lower t) as L.
  unfold is_sha256_content_id, sha256_content_id. revert L. generalize (sha256_hex t). intros h H.
  unfold lower_hex in H. apply andb_true_iff in H as [N%Nat.eqb_eq H].
  change (strip_prefix "sha256:" (String.append "sha256:" h)) with (Some h).
  assert (A : ascii_text h = true) by by apply lower_hex_ascii.
  unfold str_len, decode. rewrite (decode_fuel_ascii _ h A) by lia.
  rewrite (decode_fuel_ascii _ (String.append "sha256:" h)) by (exact A || (cbn; lia)).
  rewrite bytes_of_length, str_length_app, N. rewrite int_base16_hex; [done| |by apply bytes_hex_point].
  by destruct h.
Qed.

(** ** What the checks of a set say *)

Definition accepts (m : odict BindingDecision) (a : BindingAssertion) : bool :=
  match od_get (ba_id a) m with Some d => accepted d | None => false end.

Lemma require_decisions_Ok m l u :
  require_decisions m l = Ok u <-> Forall (fun a => is_Some (od_get (ba_id a) m)) l.
Proof.
  unfold require_decisions. rewrite rforall_Ok. apply Forall_iff. intros a. rewrite require_Ok.
  unfold od_mem. destruct (od_get _ m); [by split; [eexists|]|]. split; [done|by intros []].
Qed.

Lemma accepted_of_Ok m l :
  Forall (fun a => is_Some (od_get (ba_id a) m)) l -> accepted_of m l = Ok (List.filter (accepts m) l).
Proof.
  induction 1 as [|a l [d Hd] _ IH]; [done|]. cbn [accepted_of List.filter]. unfold accepted_in, accepts at 1.
  rewrite Hd. cbn [rbind]. rewrite IH. done.
Qed.

(** The accepted assertions of a set, and the document its id is taken of *)
Definition accepted_list (l : list BindingAssertion) (ds : list BindingDecision) : list BindingAssertion :=
  List.filter (accepts (by_assertion ds)) l.

Definition set_payload (authority : string) (l : list BindingAssertion) (ds : list BindingDecision) : odict json :=
  [("accepted_assertion_ids", JArr (map (fun a => JStr (ba_id a)) (accepted_list l ds)));
   ("binding_authority_id", JStr authority);
   ("decision_ids", JArr (map (fun d => JStr (bd_id d)) ds));
   ("schema_version", JStr BINDING_ASSERTION_SCHEMA_VERSION); ("type_name", JStr RESOLVED_BINDING_SET_TYPE)].

(** The decisions are, in the order of the assertions, about them. *)
Record aligned (l : list BindingAssertion) (ds : list BindingDecision) : Prop := {
  al_ids : bd_assertion_id <$> ds = ba_id <$> l;
  al_nodup : NoDup (ba_id <$> l);
  al_sorted : sort_assertions l = l }.

Lemma aligned_nodup l ds : aligned l ds -> NoDup (bd_assertion_id <$> ds).
Proof. intros [-> N _]. done. Qed.

Lemma aligned_covers l ds :
  aligned l ds -> Forall (fun a => is_Some (od_get (ba_id a) (by_assertion ds))) l.
Proof.
  intros K. pose proof (aligned_nodup l ds K) as N. apply Forall_forall. intros a Ha.
  destruct (od_get_keys (ba_id a) (by_assertion ds)) as [d ->]; [|by eexists].
  rewrite by_assertion_keys, (al_ids l ds K). by apply list_elem_of_fmap_2.
Qed.

Lemma aligned_sorted_decisions l ds : aligned l ds -> sort_decisions ds = ds.
Proof.
  intros K. apply sorted_by_fixed; [by apply (aligned_nodup l)|].
  pose proof (strong_keys _ _ (fixed_strong ba_id l (al_sorted l ds K))) as S.
  rewrite <- (al_ids l ds K) in S. clear K. induction ds as [|d ds IH]; [constructor|].
  rewrite fmap_cons in S. apply StronglySorted_inv in S as [S F]. constructor; [by apply IH|].
  by apply Forall_fmap in F.
Qed.

Lemma same_ids_perm (l : list BindingAssertion) (ds : list BindingDecision) seen :
  NoDup (ba_id <$> l) -> NoDup (bd_assertion_id <$> ds) -> (forall x, x ∈ seen <-> x ∈ ba_id <$> l) ->
  same_ids (by_assertion ds) seen = true <-> bd_assertion_id <$> ds ≡ₚ ba_id <$> l.
Proof.
  intros N1 N2 S. unfold same_ids. rewrite andb_true_iff, !forallb_forall, by_assertion_keys. split.
  - intros [H1 H2]. apply NoDup_Permutation; try done. intros x. rewrite <- S. split; intros H.
    + by apply str_in_elem, H1, list_elem_of_In.
    + apply list_elem_of_In, H2 in H. unfold od_mem in H. rewrite <- by_assertion_keys.
      destruct (od_get x _) eqn:E; [|done]. apply od_get_In in E. by apply (list_elem_of_fmap_2 fst _ (x, b)).
  - intros P. split; intros x H%list_elem_of_In.
    + by rewrite str_in_elem, S, <- P.
    + apply S in H. rewrite <- P, <- by_assertion_keys in H. unfold od_mem. by destruct (od_get_keys x _ H) as [d ->].
Qed.

Lemma sorted_aligned l ds :
  NoDup (ba_id <$> l) -> bd_assertion_id <$> ds ≡ₚ ba_id <$> l ->
  sort_assertions l = l -> sort_decisions ds = ds -> aligned l ds.
Proof.
  intros N P S1 S2. constructor; [|done..].
  apply (StronglySorted_unique_strong (fun a b => String.leb a b = true)); [|by apply strong_keys, fixed_strong..|done].
  intros x y _ _. apply String.leb_antisym.
Qed.

Lemma set_payload_Ok authority l ds :
  aligned l ds -> _resolved_set_payload authority l ds = Ok (set_payload authority l ds).
Proof.
  intros K. unfold _resolved_set_payload.
  assert (D : decisions_by_assertion_id ds = Ok (by_assertion ds)) by (apply decisions_by_Ok; by eauto using aligned_nodup).
  rewrite D. cbn [rbind].
  assert (C : require_decisions (by_assertion ds) l = Ok tt) by (apply require_decisions_Ok; by apply aligned_covers).
  rewrite C. cbn [rbind]. rewrite accepted_of_Ok by by apply aligned_covers. done.
Qed.

Record resolved_set_ok (s : ResolvedBindingSet) : Prop := {
  ro_type : rs_type_name s = RESOLVED_BINDING_SET_TYPE;
  ro_version : rs_schema_version s = BINDING_ASSERTION_SCHEMA_VERSION;
  ro_named : rs_authority_id s <> EmptyString;
  ro_aligned : aligned (assertions s) (decisions s);
  ro_authority : Forall (fun d => bd_authority_id d = rs_authority_id s) (decisions s);
  ro_windows : NoDup (data_window_id <$> accepted_list (assertions s) (decisions s));
  ro_id : _content_id (set_payload (rs_authority_id s) (assertions s) (decisions s)) = Ok (rs_id s) }.

Lemma nonempty_true s : nonempty s = true <-> s <> EmptyString.
Proof. unfold nonempty. rewrite negb_true_iff. by destruct (String.eqb_spec s EmptyString). Qed.

Lemma content_id_form o id : _content_id o = Ok id -> is_sha256_content_id id = true.
Proof. unfold _content_id. intros (t & _ & [= <-])%rbind_Ok. apply sha256_content_id_form. Qed.

Lemma decisions_by_aligned l ds : aligned l ds -> decisions_by_assertion_id ds = Ok (by_assertion ds).
Proof. intros K. apply decisions_by_Ok. by eauto using aligned_nodup. Qed.

Lemma accepted_assertions_aligned s :
  aligned (assertions s) (decisions s) -> accepted_assertions s = Ok (accepted_list (assertions s) (decisions s)).
Proof.
  intros K. unfold accepted_assertions. rewrite (decisions_by_aligned _ _ K). cbn [rbind].
  by apply accepted_of_Ok, aligned_covers.
Qed.

Lemma seen_ids (l : list string) x : x ∈ (rev l ++ [])%list <-> x ∈ l.
Proof. by rewrite app_nil_r, <- Permutation_rev. Qed.

Lemma check_resolved_Ok s : check_resolved s = Ok tt <-> resolved_set_ok s.
Proof.
  unfold check_resolved. rewrite !rbind_unit_Ok, !require_Ok, !nonempty_true, !String.eqb_eq, !bool_decide_eq_true. split.
  - intros (T & V & _ & A & S1 & S2 & (seen & H1 & H)%rbind_Ok).
    apply unique_ids_Ok in H1 as (N1 & _ & ->). apply rbind_Ok in H as (m & (N2 & ->)%decisions_by_Ok & H).
    rewrite !rbind_unit_Ok, !require_Ok in H. destruct H as (_ & P & B & H).
    apply (same_ids_perm _ _ _ N1 N2 (fun x => seen_ids _ x)) in P.
    pose proof (sorted_aligned _ _ N1 P S1 S2) as K.
    rewrite (accepted_assertions_aligned s K), (set_payload_Ok _ _ _ K) in H. cbn [rbind] in H.
    apply rbind_unit_Ok in H as ([W _]%unique_windows_Ok & (id & I & E)%rbind_Ok).
    apply require_Ok, String.eqb_eq in E as <-. constructor; try done.
    apply Forall_forall. intros d Hd. rewrite forallb_forall in B. by apply String.eqb_eq, B, list_elem_of_In.
  - intros [T V A K B W I]. pose proof (aligned_nodup _ _ K) as N.
    do 2 (split; [done|]). split; [by eapply content_id_form|]. split; [done|]. split; [apply K|].
    split; [by eapply aligned_sorted_decisions|].
    apply rbind_Ok. eexists. split; [apply unique_ids_Ok; split; [apply K|split; [|reflexivity]]|].
    { intros a _ []%elem_of_nil. }
    rewrite (decisions_by_aligned _ _ K). cbn [rbind]. rewrite !rbind_unit_Ok, !require_Ok.
    split; [by apply require_decisions_Ok, aligned_covers|]. split; [|split].
    + apply (same_ids_perm _ _ _ (al_nodup _ _ K) N (fun x => seen_ids _ x)). by rewrite (al_ids _ _ K).
    + apply forallb_forall. intros d Hd%list_elem_of_In. rewrite Forall_forall in B. by apply String.eqb_eq, B.
    + rewrite (accepted_assertions_aligned s K), (set_payload_Ok _ _ _ K). cbn [rbind].
      apply rbind_unit_Ok. split; [apply unique_windows_Ok; split; [done|by intros a _ []%elem_of_nil]|].
      rewrite I. cbn [rbind]. by rewrite String.eqb_refl.
Qed.

(** ** Resolution *)

Lemma decide_Ok au a d :
  decide_assertion au a = Ok d ->
  bd_assertion_id d = ba_id a /\ bd_authority_id d = au_id au /\ check_decision d = Ok tt.
Proof.
  unfold decide_assertion, create_decision. intros (id & _ & H)%rbind_Ok.
  apply rbind_unit_Ok in H as (C & [= <-]). done.
Qed.

Lemma decided_ids au l ds :
  Forall2 (fun a d => decide_assertion au a = Ok d) l ds ->
  bd_assertion_id <$> ds = ba_id <$> l /\ Forall (fun d => bd_authority_id d = au_id au) ds.
Proof.
  induction 1 as [|a d l ds (E & B & _)%decide_Ok _ [IH1 IH2]]; [done|].
  split; [by rewrite !fmap_cons, E, IH1|by constructor].
Qed.

(** Creating a set of aligned assertions and decisions *)
Lemma create_aligned authority l ds s :
  aligned l ds ->
  create_resolved authority l ds = Ok s <->
  resolved_set_ok s /\ rs_authority_id s = authority /\ assertions s = l /\ decisions s = ds.
Proof.
  intros K. unfold create_resolved. rewrite (decisions_by_aligned _ _ K). cbn [rbind].
  rewrite (al_sorted _ _ K), (aligned_sorted_decisions _ _ K), (set_payload_Ok _ _ _ K).
  rewrite (accepted_of_Ok _ _ (aligned_covers _ _ K)). cbn [rbind].
  rewrite (proj2 (require_decisions_Ok _ _ tt) (aligned_covers _ _ K)).
  assert (L : length (by_assertion ds) = length l).
  { unfold by_assertion. rewrite length_map, <- (length_fmap bd_assertion_id), (al_ids _ _ K). apply length_fmap. }
  rewrite L, Nat.eqb_refl. cbn [rbind require].
  rewrite (proj2 (unique_ids_Ok [] l _) (conj (al_nodup _ _ K) (conj (fun a _ => not_elem_of_nil _) eq_refl))).
  cbn [rbind]. rewrite rbind_unit_Ok, rbind_Ok. split.
  - intros (_ & id & _ & [R%check_resolved_Ok [= <-]]%rbind_unit_Ok). done.
  - intros (R & <- & <- & <-). split; [apply unique_windows_Ok; split; [apply R|by intros a _ []%elem_of_nil]|].
    exists (rs_id s). split; [apply R|]. apply rbind_unit_Ok. pose proof R as [T V _ _ _ _ _].
    assert (E : mkResolved (rs_id s) (rs_authority_id s) (assertions s) (decisions s)
      BINDING_ASSERTION_SCHEMA_VERSION RESOLVED_BINDING_SET_TYPE = s) by (destruct s; cbn in *; by subst).
    rewrite E. split; [by apply check_resolved_Ok|done].
Qed.

Lemma sorted_ids_perm l l' :
  l' ≡ₚ l -> ba_id <$> sort_assertions l' = ba_id <$> sort_assertions l.
Proof.
  intros P. apply (StronglySorted_unique_strong (fun a b => String.leb a b = true)).
  - intros x y _ _. apply String.leb_antisym.
  - apply strong_keys, sorted_by_strong.
  - apply strong_keys, sorted_by_strong.
  - unfold sort_assertions. by rewrite !sorted_by_perm, P.
Qed.

(** The decisions depend on the ids only. *)
Lemma decisions_same au l l' :
  ba_id <$> l' = ba_id <$> l -> rmap (decide_assertion au) l' = rmap (decide_assertion au) l.
Proof.
  revert l'. induction l as [|a l IH]; intros [|a' l']; try done. rewrite !fmap_cons. intros [= E E'].
  cbn [rmap]. rewrite (IH _ E'). unfold decide_assertion. by rewrite E.
Qed.

Lemma unique_ids_same l l' seen :
  ba_id <$> l' = ba_id <$> l -> unique_ids seen l' = unique_ids seen l.
Proof.
  revert l' seen. induction l as [|a l IH]; intros [|a' l'] seen; try done. rewrite !fmap_cons. intros [= E E'].
  cbn [unique_ids]. rewrite E. destruct (require _ _); [|done]. apply (IH _ _ E').
Qed.

Lemma resolve_perm au l l' : l' ≡ₚ l -> resolve_bindings au l' = resolve_bindings au l.
Proof.
  intros P. destruct (decide (NoDup (ba_id <$> l))) as [N|N].
  - unfold resolve_bindings. assert (E : sort_assertions l' = sort_assertions l); [|by rewrite E].
    apply sorted_by_perm_eq; [by rewrite P|done].
  - unfold resolve_bindings. pose proof (sorted_ids_perm l l' P) as E. rewrite (decisions_same au _ _ E).
    destruct (rmap _ _) as [ds|]; [|done]. cbn [rbind]. unfold create_resolved.
    rewrite (unique_ids_same _ _ [] E). destruct (unique_ids _ _) as [seen|] eqn:U; [|done].
    apply unique_ids_Ok in U as [U _]. destruct N. unfold sort_assertions in U. by rewrite sorted_by_perm in U.
Qed.

(** C37: an authority resolves proposals to a set exactly when the set passes every
    check of its constructor, is under the authority's name, holds exactly the
    proposals, and holds for each one, in the same order, the decision the
    authority's rule and overrides give; in whatever order the same proposals
    come, the answer, a set or an exception, is the same. *)
Theorem binding_resolution_exact (au : DeterministicBindingAuthority) (l : list BindingAssertion) :
  (forall s, resolve_bindings au l = Ok s <->
     check_resolved s = Ok tt /\ rs_authority_id s = au_id au /\ assertions s ≡ₚ l /\
     Forall2 (fun a d => decide_assertion au a = Ok d) (assertions s) (decisions s)) /\
  (forall l', l' ≡ₚ l -> resolve_bindings au l' = resolve_bindings au l).
Proof.
  split; [|intros l'; apply resolve_perm]. intros s. rewrite check_resolved_Ok. unfold resolve_bindings. split.
  - intros (ds & H%rmap_Ok & C)%rbind_Ok. destruct (decided_ids _ _ _ H) as [I _].
    assert (N : NoDup (ba_id <$> sort_assertions l)).
    { unfold create_resolved in C. apply rbind_Ok in C as (seen & U & _). by apply unique_ids_Ok in U as [? _]. }
    assert (K : aligned (sort_assertions l) ds).
    { constructor; [done..|]. apply sorted_by_fixed; [done|apply sorted_by_strong]. }
    apply (create_aligned _ _ _ _ K) in C as (R & A & -> & ->).
    do 2 (split; [done|]). split; [apply sorted_by_perm|done].
  - intros (R & A & P & H). pose proof (ro_aligned s R) as K.
    assert (E : sort_assertions l = assertions s).
    { rewrite <- (al_sorted _ _ K). symmetry. apply sorted_by_perm_eq; [apply K|done]. }
    rewrite E, (proj2 (rmap_Ok _ _ _) H). cbn [rbind]. by apply (create_aligned _ _ _ _ K).
Qed.

(** ** Tickets *)

Lemma accepted_list_In l ds a :
  NoDup (bd_assertion_id <$> ds) ->
  a ∈ accepted_list l ds <-> a ∈ l /\ exists d, d ∈ ds /\ bd_assertion_id d = ba_id a /\ accepted d = true.
Proof.
  intros N. unfold accepted_list. rewrite list_elem_of_In, filter_In, <- list_elem_of_In. unfold accepts. split.
  - intros [H A]. split; [done|]. destruct (od_get _ _) as [d|] eqn:G; [|done].
    apply by_assertion_get in G as [Hd E]; [|done]. by exists d.
  - intros (H & d & Hd & E & A). split; [done|]. by rewrite (proj2 (by_assertion_get ds (ba_id a) d N)).
Qed.

Lemma filter_unique {A} (key : A -> string) w l :
  NoDup (key <$> l) ->
  match List.filter (fun a => String.eqb (key a) w) l with
  | [] => forall a, a ∈ l -> key a <> w
  | [a] => a ∈ l /\ key a = w
  | _ => False
  end.
Proof.
  induction l as [|a l IH]; cbn [List.filter].
  - intros _ a []%elem_of_nil.
  - rewrite fmap_cons. intros [N1 N]%NoDup_cons. specialize (IH N).
    destruct (String.eqb_spec (key a) w) as [<-|D].
    + destruct (List.filter _ l) as [|b [|c r]]; [split; [left|done]| |done].
      destruct IH as [Hb E]. destruct N1. rewrite <- E. by apply list_elem_of_fmap_2.
    + destruct (List.filter _ l) as [|b [|c r]]; [|split; [right|]; apply IH|done].
      intros b [->|Hb]%elem_of_cons; [done|auto].
Qed.

(** for a set that passed its constructor, the context of a window's ticket
    is that of an assertion of the set for this window, with the decision of the
    set about it, which accepts it and is the set's authority's; when no accepted
    assertion has the window, an exception says so. *)
Theorem tickets_from_accepted (s : ResolvedBindingSet) (H : check_resolved s = Ok tt) (window : string) :
  match ticket_context_for_window s window with
  | Ok context =>
      exists a d, a ∈ assertions s /\ d ∈ decisions s /\ bd_assertion_id d = ba_id a /\ data_window_id a = window /\
        decision d = BINDING_DECISION_ACCEPTED /\ bd_authority_id d = rs_authority_id s /\
        context = ticket_context s a d
  | Raise e =>
      e = ResolvedBindingSetError "ACCEPTED_BINDING_FOR_WINDOW_NOT_UNIQUE" /\
      forall a d, a ∈ assertions s -> d ∈ decisions s -> bd_assertion_id d = ba_id a -> data_window_id a = window ->
        decision d <> BINDING_DECISION_ACCEPTED
  end.
Proof.
  apply check_resolved_Ok in H. pose proof (ro_aligned s H) as K. pose proof (aligned_nodup _ _ K) as N.
  unfold ticket_context_for_window, assertion_for_window. rewrite (accepted_assertions_aligned s K). cbn [rbind].
  pose proof (filter_unique data_window_id window _ (ro_windows s H)) as F.
  destruct (List.filter _ _) as [|a [|b r]]; [| |done]; cbn [rbind].
  - split; [done|]. intros a d Ha Hd E W A. apply (F a); [|done]. apply accepted_list_In; [done|].
    split; [done|]. exists d. split; [done|]. split; [done|]. by apply String.eqb_eq.
  - destruct F as [(Ha & d & Hd & E & A)%accepted_list_In W]; [|done].
    unfold ticket_context_for_assertion, decision_for_assertion_id. rewrite (decisions_by_aligned _ _ K). cbn [rbind].
    rewrite (proj2 (by_assertion_get (decisions s) (ba_id a) d N)) by done. cbn [rbind].
    rewrite A. cbn [require rbind]. exists a, d. apply String.eqb_eq in A.
    pose proof (ro_authority s H) as B. rewrite Forall_forall in B. repeat split; auto.
Qed.

(** ** One id, one set *)

(** Two documents with different canonical texts and one digest *)
Definition bindings_collide (a b : odict json) : Prop :=
  exists x y, _canonical_bytes a = Ok x /\ _canonical_bytes b = Ok y /\ x <> y /\ sha256_hex x = sha256_hex y.

Lemma canonical_bytes_text o t : _canonical_bytes o = Ok t -> t = dumps_compact (sort_keys (JObj o)).
Proof.
  unfold _canonical_bytes. intros H. apply rbind_unit_Ok in H as [_ H]. apply rbind_unit_Ok in H as [_ H].
  by inversion H.
Qed.

Lemma content_id_binds a b id :
  json_wf (JObj a) = true -> json_wf (JObj b) = true -> _content_id a = Ok id -> _content_id b = Ok id ->
  sort_keys (JObj a) = sort_keys (JObj b) \/ bindings_collide a b.
Proof.
  intros Wa Wb (x & X & E1)%rbind_Ok (y & Y & E2)%rbind_Ok. destruct (decide (x = y)) as [<-|N].
  - left. apply canonical_bytes_text in X, Y. apply dumps_compact_inj; [by apply sort_keys_wf..|]. by rewrite <- X, Y.
  - right. exists x, y. repeat split; try done. injection E1 as E1. injection E2 as E2. rewrite <- E2 in E1.
    unfold sha256_content_id in E1. by apply (inj (String.append "sha256:")) in E1.
Qed.

Record assertion_ok (a : BindingAssertion) : Prop := {
  ao_type : ba_type_name a = BINDING_ASSERTION_TYPE;
  ao_version : ba_schema_version a = BINDING_ASSERTION_SCHEMA_VERSION;
  ao_status : ba_status a = BINDING_ASSERTION_STATUS_PROPOSED;
  ao_offsets : exists s e, start_offset_ms a = JInt s /\ end_offset_ms a = JInt e;
  ao_id : _content_id (assertion_payload a) = Ok (ba_id a) }.

Lemma check_assertion_ok a : check_assertion a = Ok tt -> assertion_ok a.
Proof.
  unfold check_assertion. rewrite !rbind_unit_Ok, !require_Ok, !String.eqb_eq.
  intros (T & V & S & _ & _ & _ & _ & _ & _ & _ & O & _ & _ & _ & _ & _ & (id & I & E)%rbind_Ok).
  apply require_Ok, String.eqb_eq in E as <-. constructor; try done.
  unfold check_offsets in O. repeat case_match; try done. by eauto.
Qed.

Record decision_ok (d : BindingDecision) : Prop := {
  do_type : bd_type_name d = BINDING_DECISION_TYPE;
  do_version : bd_schema_version d = BINDING_ASSERTION_SCHEMA_VERSION;
  do_id : _content_id (decision_payload d) = Ok (bd_id d) }.

Lemma check_decision_ok d : check_decision d = Ok tt -> decision_ok d.
Proof.
  unfold check_decision. rewrite !rbind_unit_Ok, !require_Ok, !String.eqb_eq.
  intros (T & V & _ & _ & _ & _ & _ & (id & I & E)%rbind_Ok).
  by apply require_Ok, String.eqb_eq in E as <-.
Qed.

Lemma assertion_id_binds a b :
  assertion_ok a -> assertion_ok b -> ba_id a = ba_id b ->
  a = b \/ bindings_collide (assertion_payload a) (assertion_payload b).
Proof.
  intros [T V S (s & e & O1 & O2) I] [T' V' S' (s' & e' & O1' & O2') I'] E. rewrite <- E in I'.
  assert (W : json_wf (JObj (assertion_payload a)) = true).
  { unfold assertion_payload. by rewrite O1, O2. }
  assert (W' : json_wf (JObj (assertion_payload b)) = true).
  { unfold assertion_payload. by rewrite O1', O2'. }
  destruct (content_id_binds _ _ _ W W' I I') as [F|C]; [left|by right].
  destruct a, b; cbn in *; subst. vm_compute in F. clear -F. injection F. intros. by subst.
Qed.

Lemma decision_id_binds d d' :
  decision_ok d -> decision_ok d' -> bd_id d = bd_id d' ->
  d = d' \/ bindings_collide (decision_payload d) (decision_payload d').
Proof.
  intros [T V I] [T' V' I'] E. rewrite <- E in I'.
  destruct (content_id_binds (decision_payload d) (decision_payload d') _ eq_refl eq_refl I I') as [F|C]; [left|by right].
  destruct d, d'; cbn in *; subst. vm_compute in F. clear -F. injection F. intros. by subst.
Qed.

(** Lists whose ids agree are equal, or two elements at one position collide. *)
Lemma lists_bind {A} (id : A -> string) (P : A -> Prop) (C : A -> A -> Prop) :
  (forall a b, P a -> P b -> id a = id b -> a = b \/ C a b) ->
  forall l l', Forall P l -> Forall P l' -> id <$> l = id <$> l' ->
  l = l' \/ exists i a b, l !! i = Some a /\ l' !! i = Some b /\ C a b.
Proof.
  intros B l l' F. revert l'. induction F as [|a l Ha F IH]; intros [|b l'] F' E; try done; [by left|].
  rewrite !fmap_cons in E. injection E as E1 E. apply Forall_cons in F' as [Hb F'].
  destruct (B a b Ha Hb E1) as [<-|Cab]; [|right; by exists 0%nat, a, b].
  destruct (IH l' F' E) as [<-|(i & x & y & Hx & Hy & Cxy)]; [by left|right; by exists (S i), x, y].
Qed.

Lemma set_payload_wf authority l ds : json_wf (JObj (set_payload authority l ds)) = true.
Proof.
  assert (S : forall A (f : A -> string) (m : list A), forallb json_wf (map (fun x => JStr (f x)) m) = true)
    by (intros A f m; induction m; done).
  cbn. by rewrite !S.
Qed.

Lemma set_payload_binds u v l m ds es :
  sort_keys (JObj (set_payload u l ds)) = sort_keys (JObj (set_payload v m es)) ->
  u = v /\ bd_id <$> ds = bd_id <$> es.
Proof.
  intros E. pose proof (fun k => sort_keys_lookup _ _ k (set_payload_wf u l ds) (set_payload_wf v m es) E) as L.
  split.
  - pose proof (L "binding_authority_id") as F. by injection F.
  - pose proof (L "decision_ids") as F. change (Some (sort_keys (JArr (map (fun d => JStr (bd_id d)) ds)))
      = Some (sort_keys (JArr (map (fun d => JStr (bd_id d)) es)))) in F.
    cbn [sort_keys] in F. injection F as F. rewrite !map_map in F. cbn [sort_keys] in F.
    clear -F. revert es F. induction ds as [|d ds IH]; intros [|e es] F; try done.
    cbn [map] in F. injection F as F1 F. rewrite !fmap_cons, F1. f_equal. by apply IH.
Qed.

(** two resolved sets that passed their constructors, as did all their
    assertions and decisions, and that have one id are equal, rejected and
    reviewed proposals included; or two documents at the same place, of the
    sets, of two decisions or of two assertions, have different canonical texts
    and one SHA-256 digest. *)
Theorem resolved_set_id_binds (s t : ResolvedBindingSet)
    (Hs : check_resolved s = Ok tt) (Ht : check_resolved t = Ok tt)
    (As : Forall (fun a => check_assertion a = Ok tt) (assertions s))
    (At : Forall (fun a => check_assertion a = Ok tt) (assertions t))
    (Ds : Forall (fun d => check_decision d = Ok tt) (decisions s))
    (Dt : Forall (fun d => check_decision d = Ok tt) (decisions t))
    (E : rs_id s = rs_id t) :
  s = t \/
  bindings_collide (set_payload (rs_authority_id s) (assertions s) (decisions s))
    (set_payload (rs_authority_id t) (assertions t) (decisions t)) \/
  (exists i d e, decisions s !! i = Some d /\ decisions t !! i = Some e /\
     bindings_collide (decision_payload d) (decision_payload e)) \/
  (exists i a b, assertions s !! i = Some a /\ assertions t !! i = Some b /\
     bindings_collide (assertion_payload a) (assertion_payload b)).
Proof.
  apply check_resolved_Ok in Hs, Ht. destruct Hs as [Ts Vs _ Ks _ _ Is], Ht as [Tt Vt _ Kt _ _ It].
  rewrite <- E in It.
  destruct (content_id_binds _ _ _ (set_payload_wf _ _ _) (set_payload_wf _ _ _) Is It) as [F|C]; [|right; by left].
  apply set_payload_binds in F as [U D].
  eapply Forall_impl in Ds; [|apply check_decision_ok]. eapply Forall_impl in Dt; [|apply check_decision_ok].
  destruct (lists_bind bd_id _ _ decision_id_binds _ _ Ds Dt D) as [D'|C]; [|do 2 right; by left].
  eapply Forall_impl in As; [|apply check_assertion_ok]. eapply Forall_impl in At; [|apply check_assertion_ok].
  assert (I : ba_id <$> assertions s = ba_id <$> assertions t) by by rewrite <- (al_ids _ _ Ks), <- (al_ids _ _ Kt), D'.
  destruct (lists_bind ba_id _ _ assertion_id_binds _ _ As At I) as [A'|C]; [left|by do 3 right].
  destruct s, t; cbn in *; by subst.
Qed.

(** ** A concrete resolution *)

Definition raw_hash : string := Eval vm_compute in sha256_content_id "raw".

Definition demo_binding (window : string) (relation : string) (s e : Z) : bresult BindingAssertion :=
  create_assertion "eeg" "eeg-v1" "session-1" "event-1" window relation (JInt s) (JInt e) "acquisition-1"
    "preprocessing-1" raw_hash "rule-1" "RULE".

Definition before_event : BindingAssertion := Eval vm_compute in
  match demo_binding "w-1" "baseline" (-500) 0 with Ok a => a | Raise _ =>
    mkAssertion "" "" "" "" "" "" "" JNull JNull "" "" "" "" "" "" "" "" end.

Definition after_event : BindingAssertion := Eval vm_compute in
  match demo_binding "w-2" "post" 0 500 with Ok a => a | Raise _ =>
    mkAssertion "" "" "" "" "" "" "" JNull JNull "" "" "" "" "" "" "" "" end.

Definition demo_authority : DeterministicBindingAuthority :=
  mkAuthority "authority-1" BINDING_DECISION_ACCEPTED "RULE_ACCEPTED"
    [(ba_id after_event, BINDING_DECISION_REJECTED)] [(ba_id after_event, "ARTIFACT")].

Definition demo_resolved : ResolvedBindingSet := Eval vm_compute in
  match resolve_bindings demo_authority [before_event; after_event] with Ok s => s | Raise _ =>
    mkResolved "" "" [] [] "" "" end.

Lemma demo_resolves : resolve_bindings demo_authority [before_event; after_event] = Ok demo_resolved.
Proof. vm_compute. reflexivity. Qed.

Lemma demo_checked : check_resolved demo_resolved = Ok tt.
Proof. vm_compute. reflexivity. Qed.

Lemma demo_members :
  Forall (fun a => check_assertion a = Ok tt) (assertions demo_resolved) /\
  Forall (fun d => check_decision d = Ok tt) (decisions demo_resolved).
Proof.
  split; (apply rforall_Ok with (u := tt); vm_compute; reflexivity).
Qed.

Lemma binding_resolution_exact_witness :
  resolve_bindings demo_authority [after_event; before_event] = Ok demo_resolved /\
  rejected_count demo_resolved = 1.
Proof.
  split; [|vm_compute; reflexivity].
  rewrite (proj2 (binding_resolution_exact demo_authority [before_event; after_event]) [after_event; before_event]
    (perm_swap before_event after_event [])).
  exact demo_resolves.
Defined.

Lemma tickets_from_accepted_witness :
  (exists context, ticket_context_for_window demo_resolved "w-1" = Ok context) /\
  ticket_context_for_window demo_resolved "w-2"
    = Raise (ResolvedBindingSetError "ACCEPTED_BINDING_FOR_WINDOW_NOT_UNIQUE").
Proof.
  pose proof (tickets_from_accepted demo_resolved demo_checked "w-1") as H1.
  pose proof (tickets_from_accepted demo_resolved demo_checked "w-2") as H2.
  split.
  - destruct (ticket_context_for_window demo_resolved "w-1") as [context|e] eqn:E; [by exists context|].
    exfalso. vm_compute in E. discriminate E.
  - destruct (ticket_context_for_window demo_resolved "w-2") as [context|e] eqn:E.
    + exfalso. vm_compute in E. discriminate E.
    + by destruct H2 as [-> _].
Defined.

Lemma resolved_set_id_binds_witness :
  exists s, check_resolved s = Ok tt /\ length (decisions s) = 2%nat /\
    (s = demo_resolved \/ exists a b, bindings_collide a b).
Proof.
  exists demo_resolved. split; [exact demo_checked|]. split; [vm_compute; reflexivity|].
  destruct demo_members as [A D].
  destruct (resolved_set_id_binds demo_resolved demo_resolved demo_checked demo_checked A A D D eq_refl)
    as [H|[H|[(i & d & e & _ & _ & H)|(i & a & b & _ & _ & H)]]]; [by left|right..]; by do 2 eexists.
Defined.

(** A content id may have a prefix, underscores, capitals, spaces or digits of
    other scripts. *)
Definition forty_zeros : string := "0000000000000000000000000000000000000000".

Example loose_content_ids :
  is_sha256_content_id ("sha256:0x" +:+ forty_zeros +:+ "0000000000000000000000") = true /\
  is_sha256_content_id ("sha256:ABCD_EF0" +:+ forty_zeros +:+ "0000000000000000") = true /\
  is_sha256_content_id ("sha256: -1" +:+ forty_zeros +:+ "00000000000000000000 ") = true /\
  is_sha256_content_id ("sha256:" +:+ utf8 1632 +:+ forty_zeros +:+ "00000000000000000000000") = true.
Proof. vm_compute. repeat split. Qed.
