(* ===== verification/RuntimeConfig.v ===== *)
(** * Runtime configuration ([deltacontroller/runtime_config.py])

    [urlsplit], the deployment descriptor, the signing identity with its trust roots, the
    remote authentication port and the lease of the data directory.  The content
    of a file is an argument, [None] when it cannot be read; the two identity
    files are a state, whose writes may fail or be the last thing a process
    does.  PEM is the class [KeyCodec].  Resolving paths, creating directories
    and file modes are not modelled. *)

From S2P Require Import Prelude PyFloat Json JsonText Text Sha256 Errors Canonical LedgerRecord Policy Ingress PyArith ArtifactRef WorkerCanonical Dispatch Gate Application BundleVerifier.
Open Scope string_scope.
Open Scope Z_scope.
Open Scope py_scope.

(** [_checknetloc] of a non-ASCII authority, [_check_bracketed_netloc] *)
Class AuthorityChecks := {
  normalizes_safely : string -> bool;
  bracketed_ok : string -> bool }.

(** [s.partition(c)] and [s.rpartition(c)]: before, whether found, after *)
Fixpoint partition (c : ascii) (s : string) : string * bool * string :=
  match s with
  | EmptyString => (EmptyString, false, EmptyString)
  | String d r =>
      if ch_eq d c then (EmptyString, true, r)
      else let '(a, found, b) := partition c r in (String d a, found, b)
  end.

Fixpoint rpartition (c : ascii) (s : string) : string * bool * string :=
  match s with
  | EmptyString => (EmptyString, false, EmptyString)
  | String d r =>
      let '(a, found, b) := rpartition c r in
      if found then (String d a, true, b)
      else if ch_eq d c then (EmptyString, true, r)
      else (EmptyString, false, String d r)
  end.

(** [c in s] *)
Fixpoint has_char (c : ascii) (s : string) : bool :=
  match s with EmptyString => false | String d r => ch_eq d c || has_char c r end.

Definition is_ascii_char (c : ascii) : bool := byte_val c <? 128.
Definition is_alpha (c : ascii) : bool := in_range 65 90 (byte_val c) || in_range 97 122 (byte_val c).
Definition is_scheme_char (c : ascii) : bool :=
  is_alpha c || is_digit c || ch_eq c "+"%char || ch_eq c "-"%char || ch_eq c "."%char.

(** [url.lstrip(_WHATWG_C0_CONTROL_OR_SPACE)] *)
Fixpoint lstrip_controls (s : string) : string :=
  match s with
  | String c r => if byte_val c <=? 32 then lstrip_controls r else s
  | EmptyString => EmptyString
  end.

(** Without the characters of [_UNSAFE_URL_BYTES_TO_REMOVE] *)
Fixpoint remove_unsafe (s : string) : string :=
  match s with
  | EmptyString => EmptyString
  | String c r =>
      if (byte_val c =? 9) || (byte_val c =? 10) || (byte_val c =? 13) then remove_unsafe r
      else String c (remove_unsafe r)
  end.

(** The scheme, when the text before the first colon is one *)
Definition split_scheme (url : string) : string * string :=
  let '(head, found, rest) := partition ":"%char url in
  match head with
  | String c _ => if found && is_alpha c && str_all is_scheme_char head then (lower head, rest) else (EmptyString, url)
  | EmptyString => (EmptyString, url)
  end.

(** [_splitnetloc(url, 2)] of what follows the two slashes *)
Fixpoint split_netloc (s : string) : string * string :=
  match s with
  | EmptyString => (EmptyString, EmptyString)
  | String c r =>
      if ch_eq c "/"%char || ch_eq c "?"%char || ch_eq c "#"%char then (EmptyString, s)
      else let '(a, b) := split_netloc r in (String c a, b)
  end.

Record SplitResult := mkSplit {
  u_scheme : string;
  u_netloc : string;
  u_path : string;
  u_query : string;
  u_fragment : string }.

Section UrlSplit.
Context `{AuthorityChecks}.

Definition check_netloc (netloc : string) : result exn unit :=
  let opens := has_char "["%char netloc in
  let closes := has_char "]"%char netloc in
  require (Bool.eqb opens closes) (ValueErr "Invalid IPv6 URL") ;?
  require (negb opens || bracketed_ok netloc) (ValueErr "Invalid IPv6 URL") ;?
  require (str_all is_ascii_char netloc || normalizes_safely netloc)
    (ValueErr "netloc contains invalid characters under NFKC normalization").

(** [urlsplit(url)] *)
Definition urlsplit (url : string) : result exn SplitResult :=
  let '(scheme, url) := split_scheme (remove_unsafe (lstrip_controls url)) in
  let '(netloc, url) :=
    match strip_prefix "//" url with Some rest => split_netloc rest | None => (EmptyString, url) end in
  check_netloc netloc ;?
  let '(url, _, fragment) := partition "#"%char url in
  let '(path, _, query) := partition "?"%char url in
  Ok (mkSplit scheme netloc path query fragment).
End UrlSplit.

(** [username] and [password] *)
Definition userinfo (u : SplitResult) : option string * option string :=
  let '(info, have_info, _) := rpartition "@"%char (u_netloc u) in
  if have_info then
    let '(username, have_password, password) := partition ":"%char info in
    (Some username, if have_password then Some password else None)
  else (None, None).

(** [_hostinfo] *)
Definition hostinfo (u : SplitResult) : string * option string :=
  let '(_, _, host) := rpartition "@"%char (u_netloc u) in
  let '(_, have_open_br, bracketed) := partition "["%char host in
  let '(hostname, port) :=
    if have_open_br then
      let '(hostname, _, after) := partition "]"%char bracketed in
      let '(_, _, port) := partition ":"%char after in (hostname, port)
    else let '(hostname, _, port) := partition ":"%char host in (hostname, port) in
  (hostname, if String.eqb port EmptyString then None else Some port).

(** [hostname is not None] *)
Definition has_hostname (u : SplitResult) : bool := negb (String.eqb (hostinfo u).1 EmptyString).

(** [port] *)
Definition url_port (u : SplitResult) : result exn (option Z) :=
  match (hostinfo u).2 with
  | None => Ok None
  | Some text =>
      require (str_all is_digit text) (ValueErr "Port could not be cast to integer value") ;?
      let port := digits_val text in
      require ((0 <=? port) && (port <=? 65535)) (ValueErr "Port out of range 0-65535") ;?
      Ok (Some port)
  end.

(** ** The runtime configuration *)

Definition FORMAL_SEMANTICS_ID : string :=
  "sha256:cc98f15ac20fc3ed265cb76682ca15a936e24660a651e2b8f81638abb3265cb6".
Definition HTTP_PROTOCOL_ID : string := "deltareduce.step5c.http.v1".
Definition CONTRACT_SCHEMA_VERSION : string := "1.0.0".
Definition RUNTIME_DESCRIPTOR_VERSION : string := "1.0.0".
Definition MAX_REQUEST_BYTES : Z := 10 * 1024 * 1024.
Definition MAX_JSON_DEPTH : Z := 32.
Definition _FIXTURE_KEY_IDS : list string := ["step5c-fixture-ed25519"].
Definition _FIXTURE_ISSUER_IDS : list string := ["step5c-fixture-controller"].

(** ** Fields *)

(** [_load_strict_json] of a file's text, then [_require_object] *)
Definition _load_strict_json (payload : string) : result exn json :=
  match loads false payload with
  | Some j => Ok j
  | None => Raise (ValueErr "not valid JSON")
  end.

Definition _require_object (value : json) : result exn (odict json) :=
  match value with JObj o => Ok o | _ => Raise (ValueErr "must be a JSON object") end.

Definition read_object (file : option string) : result exn (odict json) :=
  match file with
  | None => Raise (ValueErr "cannot read")
  | Some text =>
      require (encodable text) (ValueErr "invalid utf-8") ;?
      let? value := _load_strict_json text in _require_object value
  end.

Definition _require_int (value : json) (minimum maximum : Z) : result exn Z :=
  match value with
  | JInt z => require ((minimum <=? z) && (z <=? maximum)) (ValueErr "must be in range") ;? Ok z
  | _ => Raise (ValueErr "must be an integer")
  end.

(** [f < z] for an int [z] *)
Definition float_lt_int (f : pyfloat) (z : Z) : bool :=
  match f with FNan => false | _ => negb (float_gt_int f z) && negb (float_eq_int f z) end.

Definition number_in (f : pyfloat) (minimum maximum : Z) : bool :=
  negb (negb (float_finite f) || float_lt_int f minimum || float_gt_int f maximum).

Definition _require_number (value : json) (minimum maximum : Z) : result exn pyfloat :=
  let? number := match value with
                 | JInt z => match float_of_int z with Some f => Ok f | None => Raise (ValueErr "must be in range") end
                 | JFloat f => Ok f
                 | _ => Raise (ValueErr "must be a number")
                 end in
  require (number_in number minimum maximum) (ValueErr "must be in range") ;?
  Ok number.

(** A non-empty array of strings *)
Fixpoint string_array (l : list json) : option (list string) :=
  match l with
  | [] => Some []
  | JStr s :: r => match string_array r with Some rest => Some (s :: rest) | None => None end
  | _ => None
  end.

Definition role_array (value : json) : option (list string) :=
  match value with JArr ((_ :: _) as l) => string_array l | _ => None end.

(** [value == s] *)
Definition is_text (s : string) (value : json) : bool := py_eq value (JStr s).

(** ** The deployment descriptor *)

Record WorkingVersionConfig := mkWorkingVersion {
  wv_profile : string;
  bind_host : string;
  port : Z;
  allowed_origins : list string;
  request_limit_bytes : Z;
  json_max_depth : Z;
  request_timeout_seconds : pyfloat;
  max_inflight_requests : Z;
  wv_queue_size : Z;
  worker_queue_capacity : Z;
  worker_processes : Z;
  wv_shutdown_grace : pyfloat;
  local_subject_id : string;
  local_effective_roles : list string;
  wv_protocol_id : string;
  wv_schema_version : string;
  wv_semantics_id : string }.

(** [is_local] *)
Definition config_is_local (c : WorkingVersionConfig) : bool := String.eqb (wv_profile c) "LOCAL_LOOPBACK".

Section Descriptor.
Context `{AuthorityChecks}.

(** One allowed origin *)
Definition check_origin (profile : string) (origin : json) : result exn string :=
  match origin with
  | JStr text =>
      require (negb (String.eqb text EmptyString || has_char "*"%char text))
        (ValueErr "allowed origins must be exact non-wildcard strings") ;?
      let? parsed := urlsplit text in
      let? parsed_port := url_port parsed in
      require (has_hostname parsed && bool_decide (userinfo parsed = (None, None))
               && String.eqb (u_path parsed) EmptyString && String.eqb (u_query parsed) EmptyString
               && String.eqb (u_fragment parsed) EmptyString)
        (ValueErr "allowed origins must contain only a scheme and authority") ;?
      require (negb (String.eqb profile "REMOTE_TLS" && negb (String.eqb (u_scheme parsed) "https")))
        (ValueErr "REMOTE_TLS allowed origins must use https://") ;?
      require (match parsed_port with Some p => (1 <=? p) && (p <=? 65535) | None => true end)
        (ValueErr "allowed origin port must be in [1, 65535]") ;?
      Ok text
  | _ => Raise (ValueErr "allowed origins must be exact non-wildcard strings")
  end.

Definition check_origins (profile : string) (port : Z) (raw_origins : json) : result exn (list string) :=
  match raw_origins with
  | JArr ((_ :: _) as l) =>
      let? origins := rmap (check_origin profile) l in
      require (bool_decide (NoDup origins)) (ValueErr "bindings.allowed_origins must not contain duplicates") ;?
      require (negb (String.eqb profile "LOCAL_LOOPBACK"
                     && negb (bool_decide (origins = ["http://127.0.0.1" +:+
                                                      (if port =? 80 then EmptyString else ":" +:+ str_of_int port)]))))
        (ValueErr "LOCAL_LOOPBACK requires exactly its own loopback origin") ;?
      Ok origins
  | _ => Raise (ValueErr "bindings.allowed_origins must be a non-empty array")
  end.

(** [bindings.host] *)
Definition check_host (profile : string) (value : json) : result exn string :=
  match value with
  | JStr host =>
      require (negb (String.eqb host EmptyString)) (ValueErr "bindings.host must be a non-empty string") ;?
      require (negb (String.eqb profile "LOCAL_LOOPBACK" && negb (String.eqb host "127.0.0.1")))
        (ValueErr "LOCAL_LOOPBACK profile must bind exactly 127.0.0.1") ;?
      Ok host
  | _ => Raise (ValueErr "bindings.host must be a non-empty string")
  end.

Definition check_profile (value : json) : result exn string :=
  let? known := in_set value ["LOCAL_LOOPBACK"; "REMOTE_TLS"] in
  require known (ValueErr "profile must be LOCAL_LOOPBACK or REMOTE_TLS") ;?
  Ok (to_str value).

(** The local identity *)
Definition check_identity (identity : odict json) : result exn (string * list string) :=
  match jget "local_subject_id" identity with
  | JStr subject =>
      require (negb (String.eqb (strip subject) EmptyString))
        (ValueErr "identity.local_subject_id must be a non-empty string") ;?
      match role_array (jget "local_effective_roles" identity) with
      | Some roles => Ok (subject, roles)
      | None => Raise (ValueErr "identity.local_effective_roles must be a non-empty string array")
      end
  | _ => Raise (ValueErr "identity.local_subject_id must be a non-empty string")
  end.

(** [load_working_version_config] *)
Definition load_working_version_config (file : option string) : result exn WorkingVersionConfig :=
  let? document := read_object file in
  require (is_text RUNTIME_DESCRIPTOR_VERSION (jget "schema_version" document))
    (ValueErr "deployment descriptor schema_version") ;?
  require (is_text "required-cli-argument" (jget "build_id_source" document))
    (ValueErr "deployment descriptor build_id_source must be required-cli-argument") ;?
  let? bindings := _require_object (jget "bindings" document) in
  let? limits := _require_object (jget "limits" document) in
  let? identity := _require_object (jget "identity" document) in
  let? profile := check_profile (jget "profile" document) in
  let? host := check_host profile (jget "host" bindings) in
  let? port := _require_int (jget "port" bindings) 1 65535 in
  let? origins := check_origins profile port (jget "allowed_origins" bindings) in
  require (is_text HTTP_PROTOCOL_ID (jget "protocol_id" document)) (ValueErr "protocol_id") ;?
  require (is_text CONTRACT_SCHEMA_VERSION (jget "contract_schema_version" document)) (ValueErr "contract_schema_version") ;?
  require (is_text FORMAL_SEMANTICS_ID (jget "formal_semantics_id" document))
    (ValueErr "formal_semantics_id does not match the accepted Formal GO") ;?
  let? request_limit := _require_int (jget "request_bytes" limits) 1 MAX_REQUEST_BYTES in
  require (request_limit =? MAX_REQUEST_BYTES) (ValueErr "limits.request_bytes must be exact") ;?
  let? json_depth := _require_int (jget "json_depth" limits) 1 MAX_JSON_DEPTH in
  require (json_depth =? MAX_JSON_DEPTH) (ValueErr "limits.json_depth must be exact") ;?
  let? ' (subject, roles) := check_identity identity in
  let? request_timeout := _require_number (jget "request_timeout_seconds" limits) 1 120 in
  let? max_inflight := _require_int (jget "max_inflight_requests" limits) 1 1024 in
  let? queue_size := _require_int (jget "request_queue_size" limits) 1 1024 in
  let? queue_capacity := _require_int (jget "worker_queue_capacity" limits) 1 128 in
  let? processes := _require_int (jget "worker_processes" limits) 1 32 in
  let? grace := _require_number (jget "shutdown_grace_seconds" limits) 0 300 in
  Ok (mkWorkingVersion profile host port origins request_limit json_depth request_timeout max_inflight queue_size
        queue_capacity processes grace subject roles HTTP_PROTOCOL_ID CONTRACT_SCHEMA_VERSION FORMAL_SEMANTICS_ID).
End Descriptor.

Definition validate_build_id (build_id : string) : result exn string :=
  require (lower_hex 40 build_id) (ValueErr "build_id must be an exact 40-character lowercase Git SHA") ;?
  Ok build_id.

(** ** The signing identity and its trust roots *)

(** [_load_trust_roots]: issuer, key id and public key *)
Definition trust_root_key (keys : json) : result exn (string * string) :=
  match keys with
  | JArr [JObj key] =>
      require (has_keys key ["key_id"; "algorithm"; "public_key_hex"])
        (ValueErr "Worker trust-root key must use the exact runtime schema") ;?
      match jget "key_id" key with
      | JStr key_id =>
          require (negb (String.eqb key_id EmptyString || str_in key_id _FIXTURE_KEY_IDS))
            (ValueErr "Worker trust roots require a non-fixture key_id") ;?
          require (is_text "ED25519" (jget "algorithm" key)) (ValueErr "Worker trust root algorithm must be ED25519") ;?
          match jget "public_key_hex" key with
          | JStr public_key_hex =>
              require (lower_hex 64 public_key_hex)
                (ValueErr "Worker Ed25519 public key must be exactly 32 bytes of lowercase hex") ;?
              Ok (key_id, public_key_hex)
          | _ => Raise (ValueErr "Worker Ed25519 public key must be exactly 32 bytes of lowercase hex")
          end
      | _ => Raise (ValueErr "Worker trust roots require a non-fixture key_id")
      end
  | _ => Raise (ValueErr "Worker trust roots must contain exactly one explicit key")
  end.

Definition _load_trust_roots (file : option string) : result exn (string * string * string) :=
  let? document := read_object file in
  require (has_keys document ["schema_version"; "issuer_id"; "keys"])
    (ValueErr "Worker trust roots must use the exact runtime schema") ;?
  require (is_text "1.0.0" (jget "schema_version" document)) (ValueErr "Worker trust roots schema_version must be 1.0.0") ;?
  match jget "issuer_id" document with
  | JStr issuer_id =>
      require (negb (String.eqb issuer_id EmptyString || str_in issuer_id _FIXTURE_ISSUER_IDS))
        (ValueErr "Worker trust roots require a non-fixture issuer_id") ;?
      let? ' (key_id, public_key_hex) := trust_root_key (jget "keys" document) in
      Ok (issuer_id, key_id, public_key_hex)
  | _ => Raise (ValueErr "Worker trust roots require a non-fixture issuer_id")
  end.

(** A write of [_atomic_write]: done; failed before the file was replaced; or
    failed, or the process gone, once it was. *)
Inductive write_outcome := Written | NotWritten (message : string) | WrittenThen (message : string).

Section Identity.
Context `{Ed25519}.

(** PEM files: [None] is no private key, [Some None] one of another kind. *)
Class KeyCodec := {
  private_pem : private_key -> string;
  load_pem : string -> option (option private_key);
  load_private_pem : forall sk, load_pem (private_pem sk) = Some (Some sk) }.
Context `{KeyCodec}.

(** The two files, with their contents *)
Record identity_files := mkFiles { key_file : option string; roots_file : option string }.

Record RuntimeIdentity := mkRuntimeIdentity {
  signing : AdmissionSigningIdentity;
  public_key_hex : string }.

Definition write_key (io : write_outcome) (payload : string) : M identity_files unit := fun f =>
  match io with
  | Written => (mkFiles (Some payload) (roots_file f), Ok tt)
  | NotWritten m => (f, Raise (OSErr m))
  | WrittenThen m => (mkFiles (Some payload) (roots_file f), Raise (OSErr m))
  end.
Definition write_roots (io : write_outcome) (payload : string) : M identity_files unit := fun f =>
  match io with
  | Written => (mkFiles (key_file f) (Some payload), Ok tt)
  | NotWritten m => (f, Raise (OSErr m))
  | WrittenThen m => (mkFiles (key_file f) (Some payload), Raise (OSErr m))
  end.

Definition bootstrap_issuer : string := "delta-working-version-local".
Definition bootstrap_key_id (sk : private_key) : string :=
  "working-version-" +:+ str_take 16 (sha256_hex (public_bytes_raw (public_key_of sk))).
Definition roots_document (sk : private_key) : json :=
  JObj [("schema_version", JStr "1.0.0"); ("issuer_id", JStr bootstrap_issuer);
        ("keys", JArr [JObj [("key_id", JStr (bootstrap_key_id sk)); ("algorithm", JStr "ED25519");
                             ("public_key_hex", JStr (get_public_key_hex sk))]])].
Definition roots_text (sk : private_key) : string :=
  dumps_compact (sort_keys (roots_document sk)) +:+ String newline EmptyString.

(** Reading the identity back *)
Definition load_identity (f : identity_files) : result exn RuntimeIdentity :=
  let? loaded := match key_file f with
                 | None => Raise (ValueErr "Cannot load Controller signing key")
                 | Some pem =>
                     match load_pem pem with
                     | None => Raise (ValueErr "Cannot load Controller signing key")
                     | Some None => Raise (ValueErr "Controller signing key must be Ed25519")
                     | Some (Some sk) => Ok sk
                     end
                 end in
  let? ' (issuer_id, key_id, trusted_public_hex) := _load_trust_roots (roots_file f) in
  require (String.eqb (get_public_key_hex loaded) trusted_public_hex)
    (ValueErr "Controller signing key does not match the explicit Worker trust root") ;?
  let? identity := signing_identity loaded key_id issuer_id in
  Ok (mkRuntimeIdentity identity trusted_public_hex).

(** [load_or_bootstrap_runtime_identity]; [sk] is what [generate] returns. *)
Definition load_or_bootstrap_runtime_identity (allow_local_bootstrap : bool) (sk : private_key)
  (key_io roots_io : write_outcome) : M identity_files RuntimeIdentity :=
  do! f := mget in
  let key_exists := bool_decide (is_Some (key_file f)) in
  let roots_exist := bool_decide (is_Some (roots_file f)) in
  mrequire (Bool.eqb key_exists roots_exist)
    (ValueErr "Controller signing key and Worker trust roots must both exist or both be absent") ;!
  (if key_exists then mret tt
   else
     mrequire allow_local_bootstrap
       (ValueErr "Explicit Controller signing key and Worker trust roots are required") ;!
     write_key key_io (private_pem sk) ;!
     write_roots roots_io (roots_text sk)) ;!
  do! f := mget in
  mlift (load_identity f).
End Identity.

(** ** Remote authentication *)

(** [HashedTokenAuthenticationPort]: subjects by the SHA-256 of their token *)
Record HashedTokenAuthenticationPort := mkHashedPort { _subjects : odict AuthenticatedSubject }.

(** [__init__] *)
Definition new_hashed_port (subjects : odict AuthenticatedSubject) : result exn HashedTokenAuthenticationPort :=
  require (match subjects with [] => false | _ => true end)
    (ValueErr "At least one remote token fingerprint is required") ;?
  require (forallb (lower_hex 64) (od_keys subjects))
    (ValueErr "Remote token fingerprints must be 64 lowercase hex characters") ;?
  Ok (mkHashedPort subjects).

(** One entry of [token_subjects] *)
Definition token_subject (entry : json) : result exn (string * AuthenticatedSubject) :=
  match entry with
  | JObj o =>
      require (has_keys o ["token_sha256"; "subject_id"; "effective_roles"])
        (ValueErr "remote auth token_subjects entries must use the exact schema") ;?
      match jget "token_sha256" o with
      | JStr fingerprint =>
          match jget "subject_id" o with
          | JStr subject =>
              require (negb (String.eqb subject EmptyString)) (ValueErr "remote auth entry requires subject_id") ;?
              match role_array (jget "effective_roles" o) with
              | Some roles => Ok (fingerprint, mkSubject subject "TOKEN" roles)
              | None => Raise (ValueErr "remote auth entry requires effective_roles")
              end
          | _ => Raise (ValueErr "remote auth entry requires subject_id")
          end
      | _ => Raise (ValueErr "remote auth entry requires token_sha256")
      end
  | _ => Raise (ValueErr "remote auth token_subjects entries must use the exact schema")
  end.

(** The loop over the entries *)
Fixpoint token_subjects (entries : list json) (subjects : odict AuthenticatedSubject)
  : result exn (odict AuthenticatedSubject) :=
  match entries with
  | [] => Ok subjects
  | entry :: rest =>
      let? ' (fingerprint, subject) := token_subject entry in
      require (negb (od_mem fingerprint subjects)) (ValueErr "duplicate remote token fingerprint") ;?
      token_subjects rest (od_set fingerprint subject subjects)
  end.

(** [from_file] *)
Definition hashed_port_from_file (file : option string) : result exn HashedTokenAuthenticationPort :=
  let? document := read_object file in
  require (has_keys document ["schema_version"; "token_subjects"])
    (ValueErr "remote auth config must use the exact runtime schema") ;?
  require (is_text "1.0.0" (jget "schema_version" document)) (ValueErr "remote auth config schema_version must be 1.0.0") ;?
  match jget "token_subjects" document with
  | JArr ((_ :: _) as entries) => let? subjects := token_subjects entries [] in new_hashed_port subjects
  | _ => Raise (ValueErr "remote auth config token_subjects must be a non-empty array")
  end.

(** [authenticate] *)
Definition hashed_authenticate (p : HashedTokenAuthenticationPort) (credentials : option (odict json))
  : result exn AuthenticatedSubject :=
  match credentials with
  | None | Some [] => Raise (ControllerErr AuthenticationRequiredError "Bearer authentication is required")
  | Some c =>
      require (is_text "TOKEN" (jget "type" c)) (auth_failed "Unsupported remote authentication mechanism") ;?
      match jget "token" c with
      | JStr token =>
          require (negb (String.eqb token EmptyString)) (auth_failed "Missing bearer token") ;?
          require (encodable token) (ValueErr "surrogates not allowed") ;?
          match od_get (sha256_hex token) (_subjects p) with
          | Some subject => Ok subject
          | None => Raise (auth_failed "Invalid or unknown bearer token")
          end
      | _ => Raise (auth_failed "Missing bearer token")
      end
  end.

(** ** The lease of the data directory

    A lease is an object of some process.  The kernel's lock has one holder and
    goes with its process; the owner file stays. *)

(** Where a lease is: [Idle] has no stream; [Locked] took the lock and is about
    to write the owner file; [Owned] has written it; [Unlinked] is in [release],
    with the owner file removed. *)
Inductive lease_phase := Idle | Locked | Owned | Unlinked.

#[export] Instance lease_phase_eq_dec : EqDecision lease_phase.
Proof. solve_decision. Defined.

Record lease_dir := mkLease {
  lock_holder : option positive;
  owner_file : option string;
  lease_at : gmap positive lease_phase }.

Definition phase_of (c : positive) (d : lease_dir) : lease_phase :=
  match lease_at d !! c with Some ph => ph | None => Idle end.

Definition owner_text (pid : Z) (build_id data_dir : string) : string :=
  dumps_compact (sort_keys (JObj [("schema_version", JStr "1.0.0"); ("pid", JInt pid); ("build_id", JStr build_id);
                                  ("data_dir", JStr data_dir)])) +:+ String newline EmptyString.

Section Lease.
Context (owner : positive -> string).

(** [acquire] up to the lock, without waiting *)
Definition acquire_lock (c : positive) : M lease_dir unit := fun d =>
  match phase_of c d with
  | Idle =>
      match lock_holder d with
      | Some _ => (d, Raise (RuntimeErr "Durable data directory is already owned by another process"))
      | None => (mkLease (Some c) (owner_file d) (<[c := Locked]> (lease_at d)), Ok tt)
      end
  | _ => (d, Raise (RuntimeErr "Data directory lease is already held"))
  end.

(** The rest of [acquire]: when the write fails the lease keeps the lock. *)
Definition write_owner (c : positive) (io : write_outcome) : M lease_dir unit := fun d =>
  match io with
  | Written => (mkLease (lock_holder d) (Some (owner c)) (<[c := Owned]> (lease_at d)), Ok tt)
  | NotWritten m => (d, Raise (OSErr m))
  | WrittenThen m => (mkLease (lock_holder d) (Some (owner c)) (<[c := Owned]> (lease_at d)), Raise (OSErr m))
  end.

(** [release]: the owner file first, then the lock *)
Definition unlink_owner (c : positive) : M lease_dir unit := fun d =>
  match phase_of c d with
  | Idle => (d, Ok tt)
  | _ => (mkLease (lock_holder d) None (<[c := Unlinked]> (lease_at d)), Ok tt)
  end.
Definition unlock (c : positive) (d : lease_dir) : lease_dir :=
  mkLease None (owner_file d) (<[c := Idle]> (lease_at d)).

(** Steps of any number of leases and processes; a process may die at any time,
    and the kernel drops its lock. *)
Inductive lease_step : lease_dir -> lease_dir -> Prop :=
| step_acquire_lock c d d' : acquire_lock c d = (d', Ok tt) -> lease_step d d'
| step_write_owner c io d d' r : phase_of c d = Locked -> write_owner c io d = (d', r) -> lease_step d d'
| step_unlink c d d' : phase_of c d = Locked \/ phase_of c d = Owned -> unlink_owner c d = (d', Ok tt) -> lease_step d d'
| step_unlock c d : phase_of c d = Unlinked -> lease_step d (unlock c d)
| step_dies c d : phase_of c d <> Idle -> lease_step d (unlock c d).
End Lease.
