(* ===== verification/RuntimeConfigProps.v ===== *)
(** * Properties of the runtime configuration

    An accepted descriptor is confined to its profile; remote tokens
    authenticate exactly the subjects listed for their hash; an identity is
    one the worker trusts, and a bootstrapped one is found again; a data
    directory has one owner. *)

From stdpp Require Import relations.
From S2P Require Import Prelude PyFloat Json JsonText Text Sha256 Errors Canonical LedgerRecord Policy Ingress PyArith ArtifactRef WorkerCanonical Dispatch Gate Application BundleVerifier RuntimeConfig.
Open Scope string_scope.
Open Scope Z_scope.
Open Scope py_scope.

(** The steps of a successful run, in order *)
Ltac run_steps X :=
  repeat first
    [rewrite rbind_unit_Ok in X; let K := fresh "R" in destruct X as [K X]; rewrite ?require_Ok in K
    |rewrite rbind_Ok in X; let x := fresh "x" in let K := fresh "R" in destruct X as (x & K & X)].

(** ** The descriptor *)

Lemma require_int_Ok value lo hi z : _require_int value lo hi = Ok z -> value = JInt z /\ lo <= z <= hi.
Proof.
  destruct value; try done. cbn [_require_int]. rewrite rbind_unit_Ok, require_Ok, andb_true_iff, !Z.leb_le.
  by intros [B [= <-]].
Qed.

Lemma require_number_Ok value lo hi f : _require_number value lo hi = Ok f -> number_in f lo hi = true.
Proof.
  unfold _require_number. rewrite rbind_Ok. intros (g & _ & X). rewrite rbind_unit_Ok, require_Ok in X.
  by destruct X as [X [= <-]].
Qed.

(** An origin is a scheme and an authority: no wildcard, user, path, query or
    fragment; [https] under the remote profile. *)
Record origin_ok `{AuthorityChecks} (profile origin : string) (u : SplitResult) : Prop := {
  or_split : urlsplit origin = Ok u;
  or_exact : origin <> EmptyString /\ has_char "*"%char origin = false;
  or_host : has_hostname u = true;
  or_user : userinfo u = (None, None);
  or_bare : u_path u = EmptyString /\ u_query u = EmptyString /\ u_fragment u = EmptyString;
  or_port : exists p, url_port u = Ok p /\ forall n, p = Some n -> 1 <= n <= 65535;
  or_https : profile = "REMOTE_TLS" -> u_scheme u = "https" }.

Lemma negb_andb_negb a b : negb (a && negb b) = true <-> (a = true -> b = true).
Proof. destruct a, b; naive_solver. Qed.

Section Descriptor.
Context `{AuthorityChecks}.

Lemma check_origin_Ok profile value origin :
  check_origin profile value = Ok origin -> value = JStr origin /\ exists u, origin_ok profile origin u.
Proof.
  destruct value as [| | | |text| |]; try done. cbn [check_origin]. rewrite rbind_unit_Ok, require_Ok. intros [E X].
  rewrite rbind_Ok in X. destruct X as (u & Su & X). rewrite rbind_Ok in X. destruct X as (p & Pu & X).
  rewrite !rbind_unit_Ok, !require_Ok in X. destruct X as (A & Hs & Hp & [= <-]).
  split; [done|]. exists u. apply negb_true_iff, orb_false_iff in E as [E1 E2].
  rewrite !andb_true_iff, bool_decide_eq_true, !String.eqb_eq in A. destruct A as [[[[A1 A2] A3] A4] A5].
  apply String.eqb_neq in E1. rewrite negb_andb_negb, !String.eqb_eq in Hs.
  constructor; try done.
  exists p. split; [done|]. intros n ->. rewrite andb_true_iff, !Z.leb_le in Hp. lia.
Qed.

Definition own_origin (port : Z) : string :=
  "http://127.0.0.1" +:+ (if port =? 80 then EmptyString else ":" +:+ str_of_int port).

Lemma check_origins_Ok profile port value origins :
  check_origins profile port value = Ok origins ->
  origins <> [] /\ NoDup origins /\ (forall o, o ∈ origins -> exists u, origin_ok profile o u) /\
  (profile = "LOCAL_LOOPBACK" -> origins = [own_origin port]).
Proof.
  destruct value as [| | | | |[|v l]|]; try done. unfold check_origins. rewrite rbind_Ok. intros (os & R & X).
  rewrite !rbind_unit_Ok, !require_Ok, negb_andb_negb, !bool_decide_eq_true, String.eqb_eq in X.
  destruct X as (N & L & [= <-]). apply rmap_Ok in R. split; [by intros ->; inversion R|]. split; [done|]. split; [|exact L].
  clear N L. induction R as [|v' o l' os' C R IH]; [by intros ? []%elem_of_nil|].
  intros x [->|Hx]%elem_of_cons; [by apply check_origin_Ok in C as [_ C]|by apply IH].
Qed.

Lemma string_array_nonempty v l roles : string_array (v :: l) = Some roles -> roles <> [].
Proof. cbn [string_array]. destruct v; try done. destruct (string_array l); [|done]. by intros [= <-]. Qed.

Lemma check_identity_Ok identity subject roles :
  check_identity identity = Ok (subject, roles) -> strip subject <> EmptyString /\ roles <> [].
Proof.
  unfold check_identity. destruct (jget "local_subject_id" identity); try done.
  rewrite rbind_unit_Ok, require_Ok, negb_true_iff. intros [E X]. apply String.eqb_neq in E.
  destruct (role_array _) as [rs|] eqn:R; [|done]. injection X as <- <-. split; [done|].
  unfold role_array in R. destruct (jget _ identity) as [| | | | |[|v l]|]; try done. by eapply string_array_nonempty.
Qed.

Lemma check_profile_Ok value profile :
  check_profile value = Ok profile -> profile = "LOCAL_LOOPBACK" \/ profile = "REMOTE_TLS".
Proof.
  unfold check_profile. rewrite rbind_Ok. intros (k & K & X). rewrite rbind_unit_Ok, require_Ok in X.
  destruct X as [-> [= <-]]. destruct value; try done. injection K as K. change (str_in s ["LOCAL_LOOPBACK"; "REMOTE_TLS"] = true) in K. apply str_in_elem in K.
  cbn [to_str]. apply elem_of_cons in K as [->|K]; [by left|]. apply list_elem_of_singleton in K as ->. by right.
Qed.

Lemma check_host_Ok profile value host :
  check_host profile value = Ok host -> host <> EmptyString /\ (profile = "LOCAL_LOOPBACK" -> host = "127.0.0.1").
Proof.
  destruct value; try done. cbn [check_host]. rewrite !rbind_unit_Ok, !require_Ok, negb_andb_negb, negb_true_iff, !String.eqb_eq.
  intros (E & L & [= <-]). split; [by apply String.eqb_neq|done].
Qed.

(** What holds of a descriptor that was accepted *)
Record confined (c : WorkingVersionConfig) : Prop := {
  cf_profile : wv_profile c = "LOCAL_LOOPBACK" /\ bind_host c = "127.0.0.1" /\ allowed_origins c = [own_origin (port c)] \/
    wv_profile c = "REMOTE_TLS" /\
    (forall o, o ∈ allowed_origins c -> exists u, origin_ok "REMOTE_TLS" o u /\ u_scheme u = "https");
  cf_origins : allowed_origins c <> [] /\ NoDup (allowed_origins c) /\
    (forall o, o ∈ allowed_origins c -> exists u, origin_ok (wv_profile c) o u);
  cf_port : 1 <= port c <= 65535;
  cf_request : request_limit_bytes c = MAX_REQUEST_BYTES;
  cf_depth : json_max_depth c = MAX_JSON_DEPTH;
  cf_timeout : number_in (request_timeout_seconds c) 1 120 = true;
  cf_inflight : 1 <= max_inflight_requests c <= 1024;
  cf_queue : 1 <= wv_queue_size c <= 1024;
  cf_capacity : 1 <= worker_queue_capacity c <= 128;
  cf_processes : 1 <= worker_processes c <= 32;
  cf_grace : number_in (wv_shutdown_grace c) 0 300 = true;
  cf_identity : strip (local_subject_id c) <> EmptyString /\ local_effective_roles c <> [];
  cf_frozen : wv_protocol_id c = HTTP_PROTOCOL_ID /\ wv_schema_version c = CONTRACT_SCHEMA_VERSION /\
    wv_semantics_id c = FORMAL_SEMANTICS_ID }.

Lemma profile_cases profile host port origins raw_host raw_origins :
  profile = "LOCAL_LOOPBACK" \/ profile = "REMOTE_TLS" ->
  check_host profile raw_host = Ok host -> check_origins profile port raw_origins = Ok origins ->
  profile = "LOCAL_LOOPBACK" /\ host = "127.0.0.1" /\ origins = [own_origin port] \/
  profile = "REMOTE_TLS" /\ (forall o, o ∈ origins -> exists u, origin_ok "REMOTE_TLS" o u /\ u_scheme u = "https").
Proof.
  intros P Hh Ho. apply check_host_Ok in Hh as [_ Hh]. apply check_origins_Ok in Ho as (_ & _ & Ha & Hl).
  destruct P as [P|P]; [left|right]; split; [done| |done|].
  - split; [by apply Hh|by apply Hl].
  - intros o Hin. destruct (Ha o Hin) as [u U]. rewrite P in U. exists u. split; [done|]. by apply (or_https _ _ _ U).
Qed.

Lemma confined_descriptor (file : option string) (c : WorkingVersionConfig) :
  load_working_version_config file = Ok c -> confined c.
Proof.
  intros Hc. unfold load_working_version_config in Hc. run_steps Hc.
  match type of Hc with context [match ?p with (_, _) => _ end] => destruct p as [subject roles] eqn:? end. run_steps Hc.
  injection Hc as <-. simplify_eq.
  constructor; cbn [wv_profile bind_host port allowed_origins request_limit_bytes json_max_depth request_timeout_seconds
    max_inflight_requests wv_queue_size worker_queue_capacity worker_processes wv_shutdown_grace local_subject_id
    local_effective_roles wv_protocol_id wv_schema_version wv_semantics_id];
    repeat match goal with
    | R : _require_int _ _ _ = Ok _ |- _ => apply require_int_Ok in R as [_ R]
    | R : _require_number _ _ _ = Ok _ |- _ => apply require_number_Ok in R
    | R : check_identity _ = Ok _ |- _ => apply check_identity_Ok in R
    | R : (_ =? _) = true |- _ => apply Z.eqb_eq in R
    | R : check_profile _ = Ok _ |- _ => apply check_profile_Ok in R
    end; try assumption.
  - by eapply profile_cases.
  - match goal with R : check_origins _ _ _ = Ok _ |- _ => apply check_origins_Ok in R as (A & B & C & _) end. done.
  - done.
Qed.

(** C34: an accepted deployment descriptor is confined to its profile: the local
    one binds loopback and allows only its own origin, the remote one only
    [https] origins that are a bare authority; ports, queues, processes, time
    limits and the request size are within their bounds, and the protocol and
    the formal semantics are the frozen ones. *)
Theorem deployment_confined (file : option string) (c : WorkingVersionConfig)
    (Hc : load_working_version_config file = Ok c) : confined c.
Proof. by eapply confined_descriptor. Qed.
End Descriptor.

(** ** Remote tokens *)

Lemma token_subjects_get entries subjects all fp s :
  token_subjects entries subjects = Ok all ->
  od_get fp all = Some s <->
  od_get fp subjects = Some s \/ exists e, e ∈ entries /\ token_subject e = Ok (fp, s).
Proof.
  revert subjects. induction entries as [|e entries IH]; intros subjects; cbn [token_subjects].
  - intros [= ->]. split; [by left|]. intros [|(e & He & _)]; [done|]. by apply elem_of_nil in He.
  - rewrite rbind_Ok. intros ([fp' s'] & E & X). rewrite rbind_unit_Ok, require_Ok, negb_true_iff in X.
    destruct X as [N X]. rewrite (IH _ X), od_get_set. destruct (String.eqb_spec fp fp') as [->|D].
    + unfold od_mem in N. destruct (od_get fp' subjects); [done|]. split.
      * intros [Q|(e' & He & Ee)]; [injection Q as <-|]; right; [exists e|exists e']; (split; [|done]); [left|by right].
      * intros [|(e' & [->|He]%elem_of_cons & Ee)]; [done| |right; by exists e'].
        left. rewrite E in Ee. by injection Ee as <-.
    + split; (intros [|(e' & He & Ee)]; [by left|right; exists e']); [split; [by right|done]|].
      apply elem_of_cons in He as [->|He]; [|done]. rewrite E in Ee. by injection Ee as <- _.
Qed.

Lemma hashed_port_from_file_Ok file p :
  hashed_port_from_file file = Ok p ->
  exists document entries, read_object file = Ok document /\ jget "token_subjects" document = JArr entries /\
    token_subjects entries [] = Ok (_subjects p) /\ forallb (lower_hex 64) (od_keys (_subjects p)) = true.
Proof.
  unfold hashed_port_from_file, new_hashed_port. intros X. run_steps X.
  destruct (jget "token_subjects" x) as [| | | | |[|v l]|] eqn:J; try done. run_steps X. injection X as <-.
  by exists x, (v :: l).
Qed.

(** C35: a remote authentication port loaded from its file authenticates a
    caller exactly when it presents a non-empty token whose SHA-256 an entry of
    the file lists, and then as that entry's subject with its roles: the port
    never holds a token itself, only fingerprints of 64 hexadecimal digits. *)
Theorem token_authentication_exact (file : option string) (p : HashedTokenAuthenticationPort)
    (Hp : hashed_port_from_file file = Ok p) :
  Forall (fun k => lower_hex 64 k = true) (od_keys (_subjects p)) /\
  exists document entries, read_object file = Ok document /\ jget "token_subjects" document = JArr entries /\
    forall credentials s,
      hashed_authenticate p credentials = Ok s <->
      exists c token entry, credentials = Some c /\ jget "type" c = JStr "TOKEN" /\ jget "token" c = JStr token /\
        token <> EmptyString /\ encodable token = true /\
        entry ∈ entries /\ token_subject entry = Ok (sha256_hex token, s).
Proof.
  apply hashed_port_from_file_Ok in Hp as (document & entries & D & J & T & L).
  split; [by apply Forall_forall; intros k Hk; apply (forallb_forall (lower_hex 64) (od_keys (_subjects p))); [|apply list_elem_of_In]|].
  exists document, entries. split; [done|]. split; [done|]. intros credentials s. split.
  - unfold hashed_authenticate. destruct credentials as [[|kv c]|]; try done. set (o := kv :: c). intros X.
    run_steps X. destruct (jget "token" o) as [| | | |token| |] eqn:K; try done. run_steps X.
    destruct (od_get (sha256_hex token) (_subjects p)) as [s'|] eqn:G; [|done]. injection X as ->.
    apply (token_subjects_get _ _ _ _ _ T) in G as [|(e & He & Ee)]; [done|].
    apply negb_true_iff, String.eqb_neq in R0. exists o, token, e. unfold is_text in R.
    destruct (jget "type" o); try done. apply String.eqb_eq in R as ->. done.
  - intros (c & token & e & -> & Ty & K & N & En & He & Ee). unfold hashed_authenticate.
    destruct c as [|kv c]; [done|]. rewrite Ty, K. cbn [is_text py_eq]. rewrite String.eqb_refl. cbn [require rbind].
    apply String.eqb_neq in N. rewrite N, En. cbn [negb require rbind].
    assert (G : od_get (sha256_hex token) (_subjects p) = Some s).
    { apply (token_subjects_get _ _ _ _ _ T). right. by exists e. }
    by rewrite G.
Qed.
