(* ===== verification/RuntimeIdentity.v ===== *)
(** * The signing identity and the data directory's lease

    An identity that is returned is one the worker trusts; a bootstrapped one is
    found again by every later start, and a bootstrap that stopped half-way is
    never repeated with another key.  One lease owns the directory. *)

From stdpp Require Import relations.
From S2P Require Import Prelude PyFloat Json JsonText Text Sha256 Errors Canonical LedgerRecord Policy Ingress PyArith ArtifactRef WorkerCanonical FixedPoint FixedPointProps Dispatch Gate Application BundleVerifier RuntimeConfig RuntimeConfigProps.
Open Scope string_scope.
Open Scope Z_scope.
Open Scope py_scope.

(** ** Texts of the identity files *)

Lemma ascii_text_app a b : ascii_text (a +:+ b) = ascii_text a && ascii_text b.
Proof. apply str_all_app. Qed.

Lemma ascii_encodable s : ascii_text s = true -> encodable s = true.
Proof.
  intros A. unfold encodable, decode. rewrite decode_fuel_ascii by (done || lia).
  apply forallb_forall. intros n Hn. unfold bytes_of in Hn. apply in_map_iff in Hn as (c & <- & _).
  pose proof (nat_ascii_bounded c). unfold is_surrogate, in_range. apply negb_true_iff, andb_false_iff. left. apply Z.leb_gt. lia.
Qed.

Lemma escape_ascii s : ascii_text s = true -> ascii_text (escape s) = true.
Proof.
  unfold ascii_text. induction s as [|c s IH]; [done|]. cbn [str_all escape]. rewrite andb_true_iff, str_all_app.
  intros [C S]. rewrite (IH S), andb_true_r. revert C. by destruct c as [[] [] [] [] [] [] [] []].
Qed.

Lemma to_hex_lower s : lower_hex (2 * String.length s) (to_hex s) = true.
Proof.
  unfold lower_hex. assert (L : String.length (to_hex s) = (2 * String.length s)%nat /\ str_all is_lower_hex (to_hex s) = true).
  { induction s as [|c s [IL IA]]; [done|]. cbn [to_hex String.length str_all]. split; [lia|]. rewrite IA, andb_true_r.
    destruct c as [[] [] [] [] [] [] [] []]; reflexivity. }
  destruct L as [-> ->]. by rewrite Nat.eqb_refl.
Qed.

Lemma lower_hex_text n s : lower_hex n s = true -> ascii_text s = true.
Proof. intros [_ H]%andb_true_iff. by apply lower_hex_ascii. Qed.

Lemma str_take_ascii n s : ascii_text s = true -> ascii_text (str_take n s) = true.
Proof.
  unfold ascii_text. revert n. induction s as [|c s IH]; intros [|n]; try done. cbn [str_take str_all].
  intros [-> H]%andb_true_iff. by apply IH.
Qed.

(** Visible ASCII text has nothing to strip. *)
Definition visible (c : ascii) : bool := in_range 33 126 (byte_val c).

Lemma visible_strip_one seqs c s :
  Forall (fun w => match w with String d _ => visible d = false | EmptyString => False end) seqs ->
  visible c = true -> strip_one seqs (String c s) = None.
Proof.
  intros F V. induction F as [|[|d w] seqs N F IH]; [done|done|]. cbn [strip_one strip_prefix].
  destruct (ch_eq c d) eqn:E; [apply Ascii.eqb_eq in E as ->; congruence|].
  destruct (ch_eq d c) eqn:E'; [apply Ascii.eqb_eq in E' as ->; congruence|]. exact IH.
Qed.

Lemma visible_strip_left k seqs s :
  Forall (fun w => match w with String d _ => visible d = false | EmptyString => False end) seqs ->
  str_all visible s = true -> strip_left k seqs s = s.
Proof.
  intros F V. destruct k, s as [|c s]; try done.
  - cbn [strip_left]. assert (E : strip_one seqs EmptyString = None); [|by rewrite E].
    clear V. induction F as [|[|d w] seqs N F IH]; done.
  - cbn [strip_left]. apply andb_true_iff in V as [V _]. by rewrite visible_strip_one.
Qed.

Lemma str_all_rev p s : str_all p (str_rev s) = str_all p s.
Proof.
  induction s as [|c s IH]; [done|]. change (String c s) with (String c EmptyString +:+ s) at 1.
  rewrite str_rev_app, str_all_app, IH. cbn. by rewrite andb_true_r, andb_comm.
Qed.

Lemma strip_visible s : str_all visible s = true -> strip s = s.
Proof.
  intros V. unfold strip, lstrip. rewrite visible_strip_left; [|by repeat constructor|done].
  unfold rstrip. rewrite visible_strip_left; [apply str_rev_involutive|by repeat constructor|by rewrite str_all_rev].
Qed.

(** [json.loads] of a printed document and a final line break *)
Lemma loads_dumps_line b j :
  json_wf j = true -> loads b (dumps_compact j +:+ String newline EmptyString) = Some j.
Proof.
  intros W. unfold loads, dumps_compact. rewrite (skip_ws_dump EmptyString EmptyString) by done.
  rewrite (scan_value_ok EmptyString EmptyString b (fun _ => eq_refl) (fun _ => eq_refl) j W); [done| |done].
  pose proof (need_length EmptyString EmptyString j W). rewrite str_length_app. lia.
Qed.

(** ** The identity *)

Section Identity.
Context {ED : Ed25519} {KC : KeyCodec}.

Lemma signing_identity_Ok sk key issuer i :
  signing_identity sk key issuer = Ok i -> identity_key i = sk /\ key_id i = key /\ issuer_id i = issuer.
Proof. unfold signing_identity. intros X. run_steps X. by injection X as <-. Qed.

Lemma not_in_set s l e : negb (String.eqb s e || str_in s l) = true -> s <> e /\ s ∉ l.
Proof. rewrite negb_true_iff, orb_false_iff, <- str_in_elem. intros [E ->]. split; [by apply String.eqb_neq|done]. Qed.

Lemma trust_root_key_Ok keys key hex :
  trust_root_key keys = Ok (key, hex) -> (key <> EmptyString /\ key ∉ _FIXTURE_KEY_IDS) /\ lower_hex 64 hex = true.
Proof.
  unfold trust_root_key. intros T. destruct keys as [| | | | |[|[| | | | | |o] []]|]; try done. run_steps T.
  destruct (jget "key_id" o) as [| | | |k| |]; try done. run_steps T.
  destruct (jget "public_key_hex" o) as [| | | |h| |]; try done. run_steps T. injection T as <- <-.
  split; [by apply not_in_set|done].
Qed.

Lemma trust_roots_Ok file issuer key hex :
  _load_trust_roots file = Ok (issuer, key, hex) ->
  (key <> EmptyString /\ (key ∉ _FIXTURE_KEY_IDS)) /\ (issuer <> EmptyString /\ (issuer ∉ _FIXTURE_ISSUER_IDS)) /\
  lower_hex 64 hex = true.
Proof.
  unfold _load_trust_roots. intros X. run_steps X.
  destruct (jget "issuer_id" x) as [| | | |i| |]; try done. run_steps X. destruct x0 as [k h].
  injection X as -> -> ->. apply not_in_set in R2. by destruct (trust_root_key_Ok _ _ _ R3) as [K L].
Qed.

(** The files are as they were, or a permitted bootstrap has written both. *)
Definition files_after (allow : bool) (sk : private_key) (f f' : identity_files) : Prop :=
  f' = f \/
  (allow = true /\ f = mkFiles None None /\ f' = mkFiles (Some (private_pem sk)) (Some (roots_text sk))).

Lemma write_key_Ok io t f f' u : write_key io t f = (f', Ok u) -> f' = mkFiles (Some t) (roots_file f).
Proof. destruct io; by intros [= <-]. Qed.
Lemma write_roots_Ok io t f f' u : write_roots io t f = (f', Ok u) -> f' = mkFiles (key_file f) (Some t).
Proof. destruct io; by intros [= <-]. Qed.

Lemma identity_run allow sk kio rio f f' i :
  load_or_bootstrap_runtime_identity allow sk kio rio f = (f', Ok i) ->
  files_after allow sk f f' /\ load_identity f' = Ok i.
Proof.
  unfold load_or_bootstrap_runtime_identity. rewrite mbind_Ok. intros (s0 & f0 & G & X). injection G as <- <-.
  cbv zeta in X. rewrite mbind_Ok in X. destruct X as (s1 & u & R & X).
  apply mlift_Ok in R as [-> R]. apply require_Ok, Bool.eqb_prop in R.
  rewrite mbind_Ok in X. destruct X as (s2 & u2 & W & X). rewrite mbind_Ok in X. destruct X as (s3 & f1 & G & X).
  injection G as -> ->. apply mlift_Ok in X as [-> L]. split; [|done].
  destruct (bool_decide (is_Some (key_file f))) eqn:K; [left; by injection W as <-|right].
  rewrite mbind_Ok in W. destruct W as (s4 & u4 & A & W). apply mlift_Ok in A as [-> A%require_Ok].
  rewrite mbind_Ok in W. destruct W as (s5 & u5 & WK%write_key_Ok & WR%write_roots_Ok). subst s5.
  split; [done|]. symmetry in R. apply bool_decide_eq_false, eq_None_not_Some in R, K.
  destruct f as [fk fr]. cbn in K, R. by subst.
Qed.

Lemma load_identity_Ok f i :
  load_identity f = Ok i ->
  exists pem text key, key_file f = Some pem /\ roots_file f = Some text /\ load_pem pem = Some (Some key) /\
    identity_key (signing i) = key /\ public_key_hex i = get_public_key_hex key /\
    _load_trust_roots (Some text) = Ok (issuer_id (signing i), key_id (signing i), public_key_hex i).
Proof.
  unfold load_identity. destruct (key_file f) as [pem|]; [|done]. destruct (load_pem pem) as [[key|]|] eqn:P; [|done..].
  cbn [rbind]. intros X. rewrite rbind_Ok in X. destruct X as ([[issuer kid] hex] & T & X). run_steps X. injection X as <-.
  apply String.eqb_eq in R. apply signing_identity_Ok in R0 as (E1 & E2 & E3). cbn [signing public_key_hex]. subst.
  destruct (roots_file f) as [text|]; [|done]. exists pem, text, (identity_key x). done.
Qed.

(** C31: a runtime identity that is returned is one the worker trusts: the key
    file holds its private key, the trust roots name its key id, its issuer and
    exactly its public key, with a key id and an issuer that are not the
    published fixture's; and the files are the operator's, or those of one permitted bootstrap. *)
Theorem identity_trusted (allow : bool) (sk : private_key) (kio rio : write_outcome) (f f' : identity_files)
    (i : RuntimeIdentity)
    (Hi : load_or_bootstrap_runtime_identity allow sk kio rio f = (f', Ok i)) :
  files_after allow sk f f' /\
  (exists pem text, f' = mkFiles (Some pem) (Some text) /\
     load_pem pem = Some (Some (identity_key (signing i))) /\
     public_key_hex i = get_public_key_hex (identity_key (signing i)) /\
     _load_trust_roots (Some text) = Ok (issuer_id (signing i), key_id (signing i), public_key_hex i)) /\
  lower_hex 64 (public_key_hex i) = true /\
  (key_id (signing i) ∉ _FIXTURE_KEY_IDS) /\ (issuer_id (signing i) ∉ _FIXTURE_ISSUER_IDS).
Proof.
  apply identity_run in Hi as [F L]. split; [done|].
  apply load_identity_Ok in L as (pem & text & key & K & R & P & E & Hx & T). subst key.
  pose proof (trust_roots_Ok _ _ _ _ T) as ([_ A] & [_ B] & C). split; [|done].
  exists pem, text. split; [|done]. destruct f' as [k r]. cbn in K, R. by subst.
Qed.

(** ** A bootstrap is found again *)

Definition sorted_roots (sk : private_key) : json :=
  JObj [("issuer_id", JStr bootstrap_issuer);
        ("keys", JArr [JObj [("algorithm", JStr "ED25519"); ("key_id", JStr (bootstrap_key_id sk));
                             ("public_key_hex", JStr (get_public_key_hex sk))]]);
        ("schema_version", JStr "1.0.0")].

Lemma sort_roots sk : sort_keys (roots_document sk) = sorted_roots sk.
Proof. reflexivity. Qed.

Lemma hex_text sk : ascii_text (get_public_key_hex sk) = true.
Proof. eapply lower_hex_text, to_hex_lower. Qed.

Lemma key_id_text sk : ascii_text (bootstrap_key_id sk) = true.
Proof.
  unfold bootstrap_key_id. rewrite ascii_text_app. apply andb_true_iff. split; [done|].
  eapply str_take_ascii, lower_hex_text, sha256_hex_lower.
Qed.

Lemma quote_ascii s : ascii_text s = true -> ascii_text (quote s) = true.
Proof.
  intros A. unfold quote. change (ascii_text (escape s +:+ String dquote EmptyString) = true).
  by rewrite ascii_text_app, escape_ascii.
Qed.

Lemma roots_text_ascii sk : ascii_text (roots_text sk) = true.
Proof.
  unfold roots_text. rewrite sort_roots. unfold dumps_compact, sorted_roots. cbn [dumps map join fst snd].
  rewrite !ascii_text_app, (quote_ascii (bootstrap_key_id sk)), (quote_ascii (get_public_key_hex sk))
    by (apply key_id_text || apply hex_text). reflexivity.
Qed.

Lemma bootstrap_roots sk :
  String.length (public_bytes_raw (public_key_of sk)) = 32%nat ->
  _load_trust_roots (Some (roots_text sk)) = Ok (bootstrap_issuer, bootstrap_key_id sk, get_public_key_hex sk).
Proof.
  intros N. unfold _load_trust_roots, read_object. rewrite (ascii_encodable _ (roots_text_ascii sk)).
  unfold _load_strict_json, roots_text. rewrite sort_roots, loads_dumps_line by reflexivity.
  cbn [require rbind sorted_roots _require_object].
  change (require (has_keys _ _) _) with (Ok (E := exn) tt). change (require (is_text _ _) _) with (Ok (E := exn) tt).
  cbn [rbind]. change (jget "issuer_id" _) with (JStr bootstrap_issuer). cbn beta iota.
  change (require (negb (_ || str_in bootstrap_issuer _)) _) with (Ok (E := exn) tt). cbn [rbind].
  change (jget "keys" _) with (JArr [JObj [("algorithm", JStr "ED25519"); ("key_id", JStr (bootstrap_key_id sk));
                                           ("public_key_hex", JStr (get_public_key_hex sk))]]).
  pose proof (to_hex_lower (public_bytes_raw (public_key_of sk))) as L. rewrite N in L.
  change (2 * 32)%nat with 64%nat in L. fold (get_public_key_hex sk) in L. unfold trust_root_key.
  change (require (has_keys _ _) _) with (Ok (E := exn) tt). cbn [rbind].
  change (jget "key_id" _) with (JStr (bootstrap_key_id sk)). cbn beta iota.
  change (require (negb (String.eqb (bootstrap_key_id sk) _ || _)) _) with (Ok (E := exn) tt). cbn [rbind].
  change (jget "public_key_hex" _) with (JStr (get_public_key_hex sk)).
  change (require (is_text _ _) _) with (Ok (E := exn) tt). cbn [rbind]. rewrite L. reflexivity.
Qed.

Lemma key_id_strip sk : strip (bootstrap_key_id sk) = bootstrap_key_id sk.
Proof.
  apply strip_visible. unfold bootstrap_key_id. rewrite str_all_app. apply andb_true_iff. split; [done|].
  pose proof (sha256_hex_lower (public_bytes_raw (public_key_of sk))) as [_ L]%andb_true_iff. revert L.
  generalize (sha256_hex (public_bytes_raw (public_key_of sk))). generalize 16%nat.
  intros n s. revert n. induction s as [|c s IH]; intros [|n]; try done. cbn [str_all str_take].
  intros [C L]%andb_true_iff. rewrite (IH n L), andb_true_r. unfold is_lower_hex in C. unfold visible, in_range in *. lia.
Qed.

(** The identity of a bootstrap *)
Definition bootstrapped (sk : private_key) : RuntimeIdentity :=
  mkRuntimeIdentity (mkIdentity _ sk (bootstrap_key_id sk) bootstrap_issuer) (get_public_key_hex sk).

Lemma load_bootstrapped sk :
  String.length (public_bytes_raw (public_key_of sk)) = 32%nat ->
  load_identity (mkFiles (Some (private_pem sk)) (Some (roots_text sk))) = Ok (bootstrapped sk).
Proof.
  intros N. unfold load_identity. cbn [key_file roots_file]. rewrite load_private_pem. cbn [rbind].
  rewrite bootstrap_roots by done. cbn [rbind]. rewrite String.eqb_refl. cbn [require rbind].
  unfold signing_identity. rewrite key_id_strip. reflexivity.
Qed.

Lemma bootstrap_fresh sk :
  String.length (public_bytes_raw (public_key_of sk)) = 32%nat ->
  load_or_bootstrap_runtime_identity true sk Written Written (mkFiles None None) =
  (mkFiles (Some (private_pem sk)) (Some (roots_text sk)), Ok (bootstrapped sk)).
Proof.
  intros L%load_bootstrapped. unfold load_or_bootstrap_runtime_identity, mbind, mget, mret, mrequire, mlift.
  cbn [key_file roots_file]. rewrite !bool_decide_false by (by intros []).
  cbn [Bool.eqb require key_file roots_file write_key write_roots]. cbn beta iota. by rewrite L.
Qed.

Lemma bootstrap_found allow sk sk' kio rio :
  String.length (public_bytes_raw (public_key_of sk)) = 32%nat ->
  load_or_bootstrap_runtime_identity allow sk' kio rio (mkFiles (Some (private_pem sk)) (Some (roots_text sk))) =
  (mkFiles (Some (private_pem sk)) (Some (roots_text sk)), Ok (bootstrapped sk)).
Proof.
  intros L%load_bootstrapped. unfold load_or_bootstrap_runtime_identity, mbind, mget, mret, mrequire, mlift.
  cbn [key_file roots_file]. rewrite !bool_decide_true by (by eexists). cbn [Bool.eqb require]. cbn beta iota. by rewrite L.
Qed.

(** C29: a bootstrap is decided once.  On an empty directory it writes a key and
    its trust roots, and every later start, whether or not it may bootstrap,
    finds that identity and leaves the files alone.  When it stops in between,
    whatever the reason, the private key it wrote is never replaced: every later
    start raises and leaves the files alone. *)
Theorem bootstrap_decided_once (sk sk' : private_key) (allow : bool) (kio rio : write_outcome)
    (N : String.length (public_bytes_raw (public_key_of sk)) = 32%nat) :
  let f := mkFiles (Some (private_pem sk)) (Some (roots_text sk)) in
  let half := mkFiles (Some (private_pem sk)) None in
  load_or_bootstrap_runtime_identity true sk Written Written (mkFiles None None) = (f, Ok (bootstrapped sk)) /\
  load_or_bootstrap_runtime_identity allow sk' kio rio f = (f, Ok (bootstrapped sk)) /\
  (forall kio' rio' f', (load_or_bootstrap_runtime_identity true sk kio' rio' (mkFiles None None)).1 = f' ->
     f' = mkFiles None None \/ f' = half \/ f' = f) /\
  exists e, load_or_bootstrap_runtime_identity allow sk' kio rio half = (half, Raise e).
Proof.
  cbv zeta. split; [|split; [|split]].
  - by apply bootstrap_fresh.
  - by apply bootstrap_found.
  - intros kio' rio' f' <-. unfold load_or_bootstrap_runtime_identity, mbind, mget, mrequire, mlift.
    destruct kio', rio'; cbn; auto.
  - unfold load_or_bootstrap_runtime_identity, mbind, mget, mret, mrequire, mlift. cbn [key_file roots_file].
    rewrite (bool_decide_true (is_Some (Some _))) by (by eexists). rewrite (bool_decide_false (is_Some None)) by (by intros []).
    cbn [Bool.eqb require]. by eexists.
Qed.
End Identity.

(** ** The lease *)

Section Lease.
Context (owner : positive -> string).

Record lease_inv (d : lease_dir) : Prop := {
  li_holder : forall c, phase_of c d <> Idle -> lock_holder d = Some c;
  li_held : forall c, lock_holder d = Some c -> phase_of c d <> Idle;
  li_owner : forall c, phase_of c d = Owned -> owner_file d = Some (owner c) }.

Lemma phase_insert c c' ph h o (m : gmap positive lease_phase) :
  phase_of c (mkLease h o (<[c' := ph]> m)) = if decide (c = c') then ph else phase_of c (mkLease h o m).
Proof.
  unfold phase_of. cbn [lease_at]. case_decide as E; [by rewrite E, lookup_insert_eq|by rewrite lookup_insert_ne].
Qed.

(** The lease that moves is the holder, or nobody is: the others are idle. *)
Lemma lease_move d c ph h o :
  lease_inv d -> (phase_of c d <> Idle \/ lock_holder d = None) ->
  h = (if decide (ph = Idle) then None else Some c) -> (ph = Owned -> o = Some (owner c)) ->
  lease_inv (mkLease h o (<[c := ph]> (lease_at d))).
Proof.
  intros [I1 I2 I3] Hd -> Ho.
  assert (Others : forall x, x <> c -> phase_of x d = Idle).
  { intros x N. destruct (decide (phase_of x d = Idle)) as [|P]; [done|]. apply I1 in P. destruct Hd as [Hd|Hd]; [|congruence].
    apply I1 in Hd. congruence. }
  constructor; cbn [lock_holder owner_file]; intros x; rewrite phase_insert.
  - case_decide as E; [subst; intros N; by rewrite decide_False|]. intros P. by destruct P; apply Others.
  - case_decide as E; [done|]. intros [= ->]. by rewrite decide_True.
  - case_decide as E; [subst; done|]. intros P. change (phase_of x d = Owned) in P. by rewrite Others in P.
Qed.

Lemma lease_step_inv d d' : lease_inv d -> lease_step owner d d' -> lease_inv d'.
Proof.
  intros I St. destruct St as [c d d' A|c io d d' r P W|c d d' P U|c d P|c d P].
  - unfold acquire_lock in A. destruct (phase_of c d) eqn:Ph; [|done..].
    destruct (lock_holder d) eqn:L; [done|]. injection A as <-. apply (lease_move d); auto; discriminate.
  - destruct io as [|m|m]; injection W as <- _; [| exact I |];
      (apply (lease_move d); [done|left; congruence| |done]); rewrite (li_holder _ I c); [done|congruence|done|congruence].
  - unfold unlink_owner in U. destruct (phase_of c d) eqn:Ph; [by destruct P|..]; injection U as <-;
      (apply (lease_move d); [done|left; congruence| |done]; rewrite (li_holder _ I c); [done|congruence]).
  - apply (lease_move d); [done|left; congruence|done|done].
  - apply (lease_move d); [done|by left|done|done].
Qed.

Lemma lease_steps_inv d d' : lease_inv d -> rtc (lease_step owner) d d' -> lease_inv d'.
Proof. intros I St. induction St; [done|]. eauto using lease_step_inv. Qed.

(** C30: whatever leases, of one process or of many, are acquired, released or
    lost with their process, and whatever owner file an earlier process left:
    at most one lease is held at a time, it is the one that has the lock, and
    from the moment it has written the owner file until it releases, the file
    names it. *)
Theorem lease_exclusive (stale : option string) (d : lease_dir)
    (Hr : rtc (lease_step owner) (mkLease None stale ∅) d) :
  (forall c c', phase_of c d <> Idle -> phase_of c' d <> Idle -> c = c') /\
  (forall c, phase_of c d <> Idle <-> lock_holder d = Some c) /\
  (forall c, phase_of c d = Owned -> owner_file d = Some (owner c)) /\
  (forall c, phase_of c d = Idle -> lock_holder d <> None ->
     exists m, acquire_lock c d = (d, Raise (RuntimeErr m))).
Proof.
  assert (I : lease_inv d).
  { eapply lease_steps_inv; [|exact Hr]. constructor; [by intros c []|done|]. intros c. unfold phase_of. cbn. by rewrite lookup_empty. }
  destruct I as [I1 I2 I3]. split; [|split; [|split; [done|]]].
  - intros c c' Hc%I1 Hc'%I1. congruence.
  - intros c. split; [apply I1|apply I2].
  - intros c P L. unfold acquire_lock. rewrite P. destruct (lock_holder d); [by eexists|done].
Qed.
End Lease.
