(* ===== verification/HttpHost.v ===== *)
(** * The HTTP request handler ([deltacontroller/http_host.py])

    [WorkingVersionRequestHandler]: what a request must look like before an
    operation of the runtime is called, which operation it is, and what is sent
    back.  The operations are an interface, [WorkingVersionApi], as in the code;
    [HttpDeployment] instantiates it.  Slots and deadlines are
    [HttpServer]'s; sockets and TLS are not modelled: a request is what
    [http.server] parsed, its target a word of the request line with one leading
    slash, reading its body answers what the connection gives, and so does
    writing each response: a response whose head or body cannot be written is
    sent with that outcome, and the exception goes where the code lets it go.
    The status line, [Server] and [Date] headers of the standard library are
    left out. *)

From S2P Require Import Prelude PyFloat Json JsonText Text Sha256 Errors Ingress ArtifactRef WorkerCanonical FixedPoint Application.
Open Scope string_scope.
Open Scope Z_scope.
Open Scope py_scope.

(** ** Requests, configuration, responses *)

Inductive http_method := OPTIONS | GET | HEAD | POST.

#[export] Instance http_method_eq_dec : EqDecision http_method.
Proof. solve_decision. Defined.

(** [rfile.read(n)]: the bytes there are, up to [n], or an exception *)
Inductive body_outcome := BodyBytes (bytes : string) | BodyTimeout | BodyBroken.

(** Writing a response: done, or the exception of the socket *)
Inductive send_outcome := SentWhole | SendTimedOut | SendBroke.

#[export] Instance send_outcome_eq_dec : EqDecision send_outcome.
Proof. solve_decision. Defined.

(** [rq_write n] is the outcome of writing the response after [n] others. *)
Record http_request := mkRequest {
  rq_method : http_method;
  rq_target : string;
  rq_http11 : bool;
  rq_headers : list (string * string);
  rq_peer : string;
  rq_read : Z -> body_outcome;
  rq_write : nat -> send_outcome }.

(** What the handler uses of the configuration; [h_authorities] are the
    [urlsplit(origin).netloc.casefold()] of the allowed origins. *)
Record http_config := mkHttpConfig {
  h_local : bool;
  h_port : Z;
  h_allowed_origins : list string;
  h_authorities : list string;
  h_request_limit : Z }.

Record http_response := mkResponse {
  r_status : Z;
  r_headers : list (string * string);
  r_body : option string;
  r_written : send_outcome }.

(** The file a path names below the UI directory *)
Inductive static_file := StaticOutside | StaticMissing | StaticBytes (media_type : string) (html : bool) (payload : string).

(** [self.headers.get(name)]: the first value, whatever the case of the name *)
Definition header_values (name : string) (headers : list (string * string)) : list string :=
  map snd (List.filter (fun h => String.eqb (lower h.1) (lower name)) headers).

Definition header (name : string) (q : http_request) : option string :=
  match header_values name (rq_headers q) with v :: _ => Some v | [] => None end.

(** [s.casefold()] of header text, which is Latin-1 *)
Definition casefold_point (c : Z) : list Z :=
  if in_range 65 90 c then [c + 32]
  else if c =? 181 then [956]
  else if c =? 223 then [115; 115]
  else if in_range 192 222 c && negb (c =? 215) then [c + 32]
  else [c].

Definition casefold (s : string) : string :=
  match decode s with Some l => encode (flat_map casefold_point l) | None => s end.

(** [s.split(sep)] *)
Fixpoint split_on (sep : ascii) (s : string) : list string :=
  match s with
  | EmptyString => [EmptyString]
  | String c r =>
      if ch_eq c sep then EmptyString :: split_on sep r
      else match split_on sep r with x :: l => String c x :: l | [] => [String c EmptyString] end
  end.

(** [s[:n]] *)
Definition take_points (n : nat) (s : string) : string :=
  match decode s with Some l => encode (take n l) | None => s end.

(** [urlsplit(target).path]: up to the query or the fragment *)
Fixpoint url_path (target : string) : string :=
  match target with
  | EmptyString => EmptyString
  | String c r => if ch_eq c "?"%char || ch_eq c "#"%char then EmptyString else String c (url_path r)
  end.

Definition is_uuid_char (c : ascii) : bool :=
  is_digit c || in_range 97 102 (byte_val c) || in_range 65 70 (byte_val c) || ch_eq c "-"%char.

(** [_EXECUTION_ROUTE.fullmatch(path)]: the execution id and the operation *)
Definition execution_route (path : string) : option (string * string) :=
  match strip_prefix "/api/v1/execution/" path with
  | Some rest =>
      let id := str_take 36 rest in
      if (String.length id =? 36)%nat && str_all is_uuid_char id then
        match strip_prefix "/" (str_drop 36 rest) with
        | Some operation => if str_in operation ["status"; "receipt"; "cancel"] then Some (id, operation) else None
        | None => None
        end
      else None
  | None => None
  end.

(** ** The interface of the runtime *)

(** [WorkingVersionApi].  [None] of [submit] is a call that is still waiting;
    [None] of the others is Python's. *)
Class WorkingVersionApi (S : Type) := {
  credentials_for : string -> option string -> result app_error (odict json);
  api_submit : string -> odict json -> S -> S * result app_error (option (odict json));
  api_get_status : string -> odict json -> S -> result app_error (option (odict json));
  api_get_receipt : string -> odict json -> S -> result app_error (option (odict json));
  api_cancel : string -> odict json -> S -> S * result app_error (option (odict json));
  api_health : S -> odict json;
  api_readiness : S -> bool * odict json }.

(** ** Exceptions *)

Inductive http_exn :=
| ApiError (e : app_error)
| HttpBroken
| HttpTimeout
| HttpValueError (message : string)
| HttpWaiting.

(** [_HTTP_STATUS_BY_ERROR] *)
Definition _HTTP_STATUS_BY_ERROR : list (string * Z) :=
  [("ERR_AUTHENTICATION_REQUIRED", 401); ("ERR_AUTHENTICATION_FAILED", 401); ("ERR_UNAUTHORIZED_CALLER", 403);
   ("ERR_POLICY_DENIED", 403); ("ERR_ROLE_FORBIDDEN", 403); ("ERR_CATALOG_REF_MISMATCH", 403);
   ("ERR_UNKNOWN_PLUGIN_ID", 403); ("ERR_UNKNOWN_DATASET_ID", 403); ("ERR_OPERATION_SCOPE_UNSUPPORTED", 403);
   ("ERR_STAGE_C_FORBIDDEN", 403); ("ERR_INTENT_ID_DIGEST_CONFLICT", 409); ("ERR_INTENT_COLLISION_DETECTED", 409);
   ("ERR_EXECUTION_TERMINAL", 409); ("ERR_QUOTA_EXCEEDED", 429); ("ERR_SHUTTING_DOWN", 503);
   ("ERR_WORKER_DISPATCH_FAILED", 503)].

Definition error_document (code category message : string) (retryable : bool) : odict json :=
  [("schema_version", JStr "1.0.0");
   ("error", JObj [("schema_version", JStr "1.0.0"); ("error_code", JStr code); ("category", JStr category);
                   ("retryable", JBool retryable); ("message", JStr (take_points 512 message))])].

(** The status and the error of a [ControllerError] *)
Definition controller_error_of (code category message : string) (retryable : bool) : Z * (string * string * string * bool) :=
  let status := match od_get code _HTTP_STATUS_BY_ERROR with Some n => n | None => 400 end in
  (status, (code, category, if status =? 401 then "Authentication failed" else message, retryable)).

(** What an exception of the runtime is answered with.  An [OSError] of the
    runtime is taken to be none of the client's connection. *)
Definition error_of (e : app_error) : Z * (string * string * string * bool) :=
  match e with
  | AppControllerError code message category retryable => controller_error_of code category message retryable
  | AppRaised (ControllerErr c message) => controller_error_of (err_code c) (err_category c) message (err_retryable c)
  | AppRaised (ValueErr message) | AppRaised (KeyErr message) => (400, ("ERR_SCHEMA_VALIDATION_FAILED", "TRANSPORT", message, false))
  | AppRaised (TimeoutErr _) => (408, ("ERR_REQUEST_TIMEOUT", "TRANSPORT", "HTTP request timed out", true))
  | AppRaised _ => (500, ("ERR_INTERNAL", "TRANSPORT", "Internal request failure", true))
  end.

Section Handler.
Context {S : Type} {API : WorkingVersionApi S}.
Context (cfg : http_config) (stopping : bool) (ui : option (string -> static_file)) (q : http_request).

(** The state of the runtime, and what was sent *)
Definition HM (A : Type) : Type := (S * list http_response) -> (S * list http_response) * result http_exn A.

Definition hret {A} (a : A) : HM A := fun s => (s, Ok a).
Definition hraise {A} (e : http_exn) : HM A := fun s => (s, Raise e).
Definition hbind {A B} (m : HM A) (f : A -> HM B) : HM B :=
  fun s => match m s with (s', Ok a) => f a s' | (s', Raise e) => (s', Raise e) end.
Definition hcatch (m : HM unit) (h : http_exn -> HM unit) : HM unit :=
  fun s => match m s with (s', Ok a) => (s', Ok a) | (s', Raise e) => h e s' end.
Definition hlift {A} (r : result http_exn A) : HM A := fun s => (s, r).

Definition api_result {A} (r : result app_error A) : result http_exn A :=
  match r with Ok a => Ok a | Raise e => Raise (ApiError e) end.

(** An operation that changes the runtime, and one that reads it *)
Definition on_api {A} (f : S -> S * result app_error A) : HM A :=
  fun s => ((f s.1).1, s.2, api_result (f s.1).2).
Definition of_api {A} (f : S -> A) : HM A := fun s => (s, Ok (f s.1)).

(** ** Responses *)

Definition send_response (status : Z) (headers : list (string * string)) (body : option string) : HM unit :=
  fun s =>
    let written := rq_write q (length s.2) in
    ((s.1, s.2 ++ [mkResponse status headers body written])%list,
     match written with SentWhole => Ok tt | SendTimedOut => Raise HttpTimeout | SendBroke => Raise HttpBroken end).

(** [_response_origin] *)
Definition _response_origin : option string :=
  match header "Origin" q with
  | Some o => if str_in o (h_allowed_origins cfg) then Some o else None
  | None => None
  end.

(** [_send_common_headers] *)
Definition common_headers (origin : option string) (api_response : bool) : list (string * string) :=
  ([("Connection", "close"); ("X-Content-Type-Options", "nosniff"); ("Referrer-Policy", "no-referrer");
    ("X-Frame-Options", "DENY")]
   ++ (if api_response then [("Cache-Control", "no-store")] else [])
   ++ match origin with Some o => [("Access-Control-Allow-Origin", o); ("Vary", "Origin")] | None => [] end)%list.

(** [_send_json] *)
Definition _send_json (status : Z) (document : odict json) : HM unit :=
  let payload := dumps_compact (sort_keys (JObj document)) in
  if negb (encodable payload) then hraise (HttpValueError "surrogates not allowed")
  else
    send_response status
      (common_headers _response_origin true
       ++ [("Content-Type", "application/json; charset=utf-8"); ("Content-Length", str_of_int (string_bytes payload))]
       ++ (if status =? 401 then [("WWW-Authenticate", "Bearer realm=" +:+ quote "delta-working-version")] else [])
       ++ (if status =? 429 then [("Retry-After", "1")] else []))%list
      (if bool_decide (rq_method q = HEAD) then None else Some payload).

(** [_send_error_document] of the five fields of an error *)
Definition _send_error_document (status : Z) (code category message : string) (retryable : bool) : HM unit :=
  _send_json status (error_document code category message retryable).

Definition _send_transport_error (status : Z) (code message : string) (retryable : bool) : HM unit :=
  _send_error_document status code "TRANSPORT" message retryable.

(** ** Checks of a request *)

(** [_validate_host_and_request_target] *)
Definition host_allowed (supplied : string) : bool :=
  if h_local cfg then
    String.eqb supplied (if h_port cfg =? 80 then "127.0.0.1" else "127.0.0.1:" +:+ str_of_int (h_port cfg))
  else str_in supplied (h_authorities cfg).

Definition _validate_host_and_request_target : HM bool :=
  if negb (starts_with "/" (rq_target q)) then
    hbind (_send_transport_error 400 "ERR_REQUEST_TARGET_INVALID" "Only origin-form HTTP request targets are accepted" false)
      (fun _ => hret false)
  else
    match header_values "Host" (rq_headers q) with
    | [host] =>
        if host_allowed (casefold (strip host)) then hret true
        else hbind (_send_transport_error 400 "ERR_HOST_HEADER_INVALID"
                      "Host header does not match the configured service authority" false) (fun _ => hret false)
    | _ => hbind (_send_transport_error 400 "ERR_HOST_HEADER_INVALID" "Exactly one Host header is required" false)
             (fun _ => hret false)
    end.

(** [_validated_origin]: [None] once an error was sent, else the origin if there
    is one *)
Definition _validated_origin (required : bool) : HM (option (option string)) :=
  match header "Origin" q with
  | None =>
      if required then
        hbind (_send_transport_error 403 "ERR_ORIGIN_FORBIDDEN" "Origin is required for CORS preflight" false)
          (fun _ => hret None)
      else hret (Some None)
  | Some origin =>
      if str_in origin (h_allowed_origins cfg) then hret (Some (Some origin))
      else hbind (_send_transport_error 403 "ERR_ORIGIN_FORBIDDEN" "Request origin is not configured" false)
             (fun _ => hret None)
  end.

(** Whether a [Content-Type] is [application/json] with optional [charset=utf-8] *)
Definition json_content_type (content_type : string) : bool :=
  match map (fun part => lower (strip part)) (split_on ";"%char content_type) with
  | first :: rest =>
      String.eqb first "application/json"
      && forallb (fun part => String.eqb part EmptyString || String.eqb part "charset=utf-8") rest
  | [] => false
  end.

(** [_validate_api_request] *)
Definition _validate_api_request (require_json : bool) : HM bool :=
  let refuse status code message retryable :=
    hbind (_send_transport_error status code message retryable) (fun _ => hret false) in
  if stopping then refuse 503 "ERR_SHUTTING_DOWN" "Controller is shutting down" true
  else
    hbind (_validated_origin false) (fun origin =>
    match origin with
    | None => hret false
    | Some _ =>
        if negb (bool_decide (header "X-Delta-Request" q = Some "1")) then
          refuse 400 "ERR_DELTA_REQUEST_HEADER_REQUIRED" "X-Delta-Request: 1 is required" false
        else if require_json then
          match header "Content-Type" q with
          | None => refuse 400 "ERR_CONTENT_TYPE_REQUIRED" "Content-Type: application/json is required" false
          | Some content_type =>
              if json_content_type content_type then hret true
              else refuse 400 "ERR_CONTENT_TYPE_UNSUPPORTED"
                     "Content-Type must be application/json with optional charset=utf-8" false
          end
        else hret true
    end).

Definition _credentials : HM (odict json) :=
  hlift (api_result (credentials_for (rq_peer q) (header "Authorization" q))).

(** [int(text, 10)] of header text *)
Definition header_int (text : string) : option Z :=
  match decode text with Some l => py_int 10 l | None => None end.

(** [_read_bounded_body]: [None] once an error was sent *)
Definition _read_bounded_body (allow_empty : bool) : HM (option string) :=
  let refuse status code message :=
    hbind (_send_transport_error status code message false) (fun _ => hret None) in
  match header "Transfer-Encoding" q, header "Content-Length" q with
  | Some _, _ => refuse 400 "ERR_TRANSFER_ENCODING_UNSUPPORTED" "Chunked request bodies are not supported"
  | None, None => refuse 400 "ERR_CONTENT_LENGTH_REQUIRED" "Content-Length is required"
  | None, Some raw_length =>
      match header_int raw_length with
      | None => refuse 400 "ERR_CONTENT_LENGTH_INVALID" "Content-Length must be a non-negative integer"
      | Some content_length =>
          if content_length <? 0 then
            refuse 400 "ERR_CONTENT_LENGTH_INVALID" "Content-Length must be a non-negative integer"
          else if h_request_limit cfg <? content_length then
            refuse 413 "ERR_PAYLOAD_TOO_LARGE" "Request body exceeds the 10 MiB limit"
          else if (content_length =? 0) && negb allow_empty then
            refuse 400 "ERR_SCHEMA_VALIDATION_FAILED" "JSON request body must not be empty"
          else
            match rq_read q content_length with
            | BodyTimeout => hraise HttpTimeout
            | BodyBroken => hraise HttpBroken
            | BodyBytes body =>
                if string_bytes body =? content_length then hret (Some body)
                else refuse 400 "ERR_TRUNCATED_BODY" "Request body ended before Content-Length bytes were received"
            end
      end
  end.

(** ** The handlers *)

Definition _handle_options : HM unit :=
  hbind (_validated_origin true) (fun origin =>
  match origin with
  | Some (Some o) =>
      send_response 204
        (common_headers (Some o) true
         ++ [("Access-Control-Allow-Methods", "GET, POST, OPTIONS");
             ("Access-Control-Allow-Headers", "Content-Type, Authorization, X-Delta-Request");
             ("Access-Control-Max-Age", "600"); ("Content-Length", "0")])%list None
  | _ => hret tt
  end).

Definition content_security_policy : string :=
  "default-src 'self'; connect-src 'self'; img-src 'self' blob: data:; style-src 'self' 'unsafe-inline'; script-src 'self'; object-src 'none'; base-uri 'none'; form-action 'none'".

(** [_handle_static]; unquoting and resolving the path belong to [ui]. *)
Definition _handle_static (head_only : bool) : HM unit :=
  match ui with
  | None => _send_transport_error 404 "ERR_UI_NOT_CONFIGURED" "Admin UI is not configured" false
  | Some lookup =>
      match lookup (url_path (rq_target q)) with
      | StaticOutside => _send_transport_error 404 "ERR_STATIC_PATH_INVALID" "Static resource not found" false
      | StaticMissing => _send_transport_error 404 "ERR_STATIC_NOT_FOUND" "Static resource not found" false
      | StaticBytes media_type html payload =>
          send_response 200
            (common_headers None false
             ++ [("Content-Type", media_type); ("Content-Length", str_of_int (string_bytes payload))]
             ++ (if html then [("Content-Security-Policy", content_security_policy); ("Cache-Control", "no-store")]
                 else [("Cache-Control", "public, max-age=31536000, immutable")]))%list
            (if head_only then None else Some payload)
      end
  end.

(** A document, or an error when there is none *)
Definition send_found (result : option (odict json)) (missing : string) : HM unit :=
  match result with
  | None => _send_transport_error 404 "ERR_EXECUTION_NOT_FOUND" missing false
  | Some document => _send_json 200 document
  end.

Definition _handle_get : HM unit :=
  let path := url_path (rq_target q) in
  if String.eqb path "/healthz" then hbind (of_api api_health) (_send_json 200)
  else if String.eqb path "/readyz" then
    hbind (of_api api_readiness) (fun r => _send_json (if r.1 then 200 else 503) r.2)
  else
    let other :=
      if starts_with "/api/" path
      then _send_transport_error 404 "ERR_ENDPOINT_NOT_FOUND" "API endpoint not found" false
      else _handle_static false in
    match execution_route path with
    | Some (execution_id, operation) =>
        if str_in operation ["status"; "receipt"] then
          hbind (_validate_api_request false) (fun valid =>
          if negb valid then hret tt
          else
            hbind _credentials (fun credentials =>
            hbind (of_api (if String.eqb operation "status" then api_get_status execution_id credentials
                           else api_get_receipt execution_id credentials)) (fun r =>
            hbind (hlift (api_result r)) (fun result =>
            send_found result "Execution or terminal receipt is unavailable"))))
        else other
    | None => other
    end.

(** What a client sees of a submission: a [bundle] stays inside. *)
Definition public_result (result : odict json) : odict json :=
  List.filter (fun kv => negb (String.eqb kv.1 "bundle")) result.

(** The cancellation body is empty or an empty JSON object. *)
Definition check_cancel_body (body : string) : result http_exn unit :=
  let invalid := HttpValueError "Cancellation body must be an empty JSON object" in
  if str_in body [EmptyString; "{}"; "{ }"] then Ok tt
  else
    require (encodable body) invalid ;?
    match loads true body with
    | Some (JObj []) => Ok tt
    | _ => Raise invalid
    end.

Definition _handle_post : HM unit :=
  let path := url_path (rq_target q) in
  hbind (_validate_api_request true) (fun valid =>
  if negb valid then hret tt
  else
    hbind _credentials (fun credentials =>
    if String.eqb path "/api/v1/intent/submit" then
      hbind (_read_bounded_body false) (fun body =>
      match body with
      | None => hret tt
      | Some body =>
          hbind (on_api (api_submit body credentials)) (fun result =>
          match result with
          | None => hraise HttpWaiting
          | Some result =>
              _send_json (if py_eq (jget "action" (public_result result)) (JStr "ADMITTED") then 201 else 200)
                (public_result result)
          end)
      end)
    else
      let not_found := _send_transport_error 404 "ERR_ENDPOINT_NOT_FOUND" "API endpoint not found" false in
      match execution_route path with
      | Some (execution_id, operation) =>
          if String.eqb operation "cancel" then
            hbind (_read_bounded_body true) (fun body =>
            match body with
            | None => hret tt
            | Some body =>
                hbind (hlift (check_cancel_body body)) (fun _ =>
                hbind (on_api (api_cancel execution_id credentials)) (fun result =>
                send_found result "Execution is unavailable"))
            end)
          else not_found
      | None => not_found
      end)).

(** ** Bounding a request *)

(** The [except] clauses of [_bounded] *)
Definition handle_exception (e : http_exn) : HM unit :=
  match e with
  | HttpWaiting => hraise HttpWaiting
  | HttpBroken => hret tt
  | HttpTimeout => _send_transport_error 408 "ERR_REQUEST_TIMEOUT" "HTTP request timed out" true
  | HttpValueError message => _send_transport_error 400 "ERR_SCHEMA_VALIDATION_FAILED" message false
  | ApiError x =>
      let '(status, (code, category, message, retryable)) := error_of x in
      _send_error_document status code category message retryable
  end.

Definition operation_of (m : http_method) : HM unit :=
  match m with OPTIONS => _handle_options | GET => _handle_get | HEAD => _handle_static true | POST => _handle_post end.

(** [_bounded] *)
Definition _bounded : HM unit :=
  hbind _validate_host_and_request_target (fun valid =>
  if negb valid then hret tt else hcatch (operation_of (rq_method q)) handle_exception).

(** [handle_expect_100]: whether the request goes on *)
Definition handle_expect_100 : HM bool :=
  let content_length := match header "Content-Length" q with
                        | Some text => match header_int text with Some n => n | None => -1 end
                        | None => -1
                        end in
  if content_length <? 0 then
    hbind (_send_transport_error 400 "ERR_SCHEMA_VALIDATION_FAILED" "A valid Content-Length header is required" false)
      (fun _ => hret false)
  else if h_request_limit cfg <? content_length then
    hbind (_send_transport_error 413 "ERR_PAYLOAD_TOO_LARGE" "Request body exceeds the 10 MiB limit" false)
      (fun _ => hret false)
  else hbind (send_response 100 [] None) (fun _ => hret true).

(** A parsed request: [http.server] asks [handle_expect_100] first. *)
Definition handle_request : HM unit :=
  let expects := match header "Expect" q with Some e => String.eqb (lower e) "100-continue" | None => false end in
  if expects && rq_http11 q then
    hbind handle_expect_100 (fun go_on => if go_on then _bounded else hret tt)
  else _bounded.
End Handler.
