(* ===== verification/HttpProps.v ===== *)
(** * Properties of the HTTP handler

    A request changes the runtime only through one guarded operation; every
    request is answered once; a bundle a submission returns is never sent. *)

From S2P Require Import Prelude PyFloat Json JsonText Text Sha256 Errors Ingress ArtifactRef WorkerCanonical FixedPoint Application HttpHost.
Open Scope string_scope.
Open Scope Z_scope.
Open Scope py_scope.

Section HttpProps.
Context {S : Type} {API : WorkingVersionApi S}.
Context (cfg : http_config) (stopping : bool) (ui : option (string -> static_file)) (q : http_request).
Abbreviation HM := (HM (S := S)).

(** ** What an action sends

    [sends m fin]: when [m] returns [a] it has sent one final response in full if
    [fin a], and nothing otherwise; when it raises, either it has sent nothing
    and the exception has one of the known origins, or writing its response has
    failed. *)
Definition final (x : http_response) : Prop := r_status x <> 100.

(** The client broke the connection while its body was read. *)
Definition client_broke : Prop := exists n, rq_read q n = BodyBroken.

(** An operation of the runtime raised [e]. *)
Definition runtime_raised (e : app_error) : Prop :=
  credentials_for (rq_peer q) (header "Authorization" q) = Raise e \/
  exists credentials (s : S),
    (exists body, (api_submit body credentials s).2 = Raise e) \/
    (exists id, (api_cancel id credentials s).2 = Raise e \/ api_get_status id credentials s = Raise e \/
       api_get_receipt id credentials s = Raise e).

(** A submission that is still waiting *)
Definition still_waiting : Prop := exists body credentials (s : S), (api_submit body credentials s).2 = Ok None.

(** Where an exception comes from when nothing was sent *)
Definition raised_ok (e : http_exn) : Prop :=
  match e with
  | ApiError x => runtime_raised x
  | HttpBroken => client_broke
  | HttpTimeout => exists n, rq_read q n = BodyTimeout
  | HttpValueError m => m ∈ ["surrogates not allowed"; "Cancellation body must be an empty JSON object"]
  | HttpWaiting => still_waiting
  end.

(** A response whose writing failed, and the exception of it *)
Definition failed_write (x : http_response) (e : http_exn) : Prop :=
  (r_written x = SendTimedOut /\ e = HttpTimeout) \/ (r_written x = SendBroke /\ e = HttpBroken).

Definition sends {A} (m : HM A) (fin : A -> bool) : Prop :=
  forall s s' r, m s = (s', r) -> exists new, s'.2 = (s.2 ++ new)%list /\
    match r with
    | Ok a => if fin a then exists x, new = [x] /\ final x /\ r_written x = SentWhole else new = []
    | Raise e => (new = [] /\ raised_ok e) \/ exists x, new = [x] /\ final x /\ failed_write x e
    end.

Definition quiet {A} (m : HM A) : Prop := forall s s' r, m s = (s', r) -> s'.1 = s.1.

Lemma sends_ret {A} (a : A) fin : fin a = false -> sends (hret a) fin.
Proof. intros E s s' r [= <- <-]. exists []. by rewrite app_nil_r, E. Qed.

Lemma sends_raise {A} e (fin : A -> bool) : raised_ok e -> sends (hraise e) fin.
Proof. intros E s s' r [= <- <-]. exists []. rewrite app_nil_r. split; [done|by left]. Qed.

Lemma sends_lift {A} (x : result http_exn A) (fin : A -> bool) :
  (forall a, x = Ok a -> fin a = false) -> (forall e, x = Raise e -> raised_ok e) -> sends (hlift x) fin.
Proof.
  intros H1 H2 s s' r [= <- <-]. exists []. rewrite app_nil_r. split; [done|].
  destruct x; [by rewrite (H1 a eq_refl)|left; split; [done|by apply H2]].
Qed.

Lemma sends_bind {A B} (m : HM A) (f : A -> HM B) fin fin' :
  sends m fin ->
  (forall a, fin a = true -> exists b, f a = hret b /\ fin' b = true) ->
  (forall a, fin a = false -> sends (f a) fin') -> sends (hbind m f) fin'.
Proof.
  intros M D N s s' r. unfold hbind. destruct (m s) as [s1 [a|e]] eqn:E; destruct (M _ _ _ E) as (new & L & K); cbn in K.
  - destruct (fin a) eqn:F.
    + destruct (D a F) as (b & -> & Fb). intros [= <- <-]. exists new. by rewrite Fb.
    + subst new. rewrite app_nil_r in L. intros H. destruct (N a F _ _ _ H) as (new & L' & K). rewrite L in L'. by exists new.
  - intros [= <- <-]. by exists new.
Qed.

(** An action that sends its response, then ends with [b] *)
Lemma sends_then {A B} (m : HM A) (b : B) fin' :
  sends m (fun _ => true) -> fin' b = true -> sends (hbind m (fun _ => hret b)) fin'.
Proof. intros M F. eapply sends_bind; [exact M|by intros a _; exists b|done]. Qed.

Lemma quiet_ret {A} (a : A) : quiet (hret a).
Proof. by intros s s' r [= <- <-]. Qed.
Lemma quiet_raise {A} e : quiet (A := A) (hraise e).
Proof. by intros s s' r [= <- <-]. Qed.
Lemma quiet_lift {A} (x : result http_exn A) : quiet (hlift x).
Proof. by intros s s' r [= <- <-]. Qed.
Lemma quiet_of_api {A} (f : S -> A) : quiet (of_api f).
Proof. by intros s s' r [= <- <-]. Qed.
Lemma quiet_bind {A B} (m : HM A) (f : A -> HM B) : quiet m -> (forall a, quiet (f a)) -> quiet (hbind m f).
Proof.
  intros M F s s' r. unfold hbind. destruct (m s) as [s1 [a|e]] eqn:E; pose proof (M _ _ _ E) as K.
  - intros H. rewrite <- K. by eapply F.
  - by intros [= <- <-].
Qed.

(** Sending one response: it is written, or its failure is the exception. *)
Lemma send_response_cases status headers body s s' r :
  send_response (S := S) q status headers body s = (s', r) ->
  exists x, s'.2 = (s.2 ++ [x])%list /\ r_status x = status /\
    match r with Ok _ => r_written x = SentWhole | Raise e => failed_write x e end.
Proof.
  unfold send_response. cbv zeta. intros [= <- <-]. eexists. split; [reflexivity|]. split; [reflexivity|]. unfold failed_write.
  cbn [r_written]. destruct (rq_write q _); [done|left|right]; done.
Qed.

Lemma send_response_sends status headers body :
  status <> 100 -> sends (send_response q status headers body) (fun _ => true).
Proof.
  intros N s s' r H. apply send_response_cases in H as (x & L & St & W). exists [x]. split; [exact L|].
  assert (F : final x) by (unfold final; congruence). destruct r; [by exists x|right; by exists x].
Qed.

Lemma send_json_sends status document : status <> 100 -> sends (_send_json cfg q status document) (fun _ => true).
Proof.
  intros N. unfold _send_json. cbv zeta. destruct (encodable _); cbn [negb].
  - by apply send_response_sends.
  - apply sends_raise. left.
Qed.

Lemma transport_error_sends status code message retryable :
  status <> 100 -> sends (_send_transport_error cfg q status code message retryable) (fun _ => true).
Proof. apply send_json_sends. Qed.

Lemma quiet_send status headers body : quiet (send_response q status headers body).
Proof. by intros s s' r [= <- <-]. Qed.
Lemma quiet_json status document : quiet (_send_json cfg q status document).
Proof.
  unfold _send_json. cbv zeta. destruct (encodable _); cbn [negb]; [apply quiet_send|apply quiet_raise].
Qed.
End HttpProps.

Create HintDb http.
#[export] Hint Resolve sends_ret sends_then transport_error_sends send_json_sends send_response_sends : http.
#[export] Hint Resolve quiet_ret quiet_raise quiet_lift quiet_of_api quiet_bind quiet_send quiet_json : http.

(** Reads the guards of a handler one by one. *)
Ltac http_cases :=
  repeat match goal with
  | |- context [if ?b then _ else _] => destruct b eqn:?
  | |- context [match ?x with Some _ => _ | None => _ end] => destruct x eqn:?
  end.

Section HttpFacts.
Context {S : Type} {API : WorkingVersionApi S}.
Context (cfg : http_config) (stopping : bool) (ui : option (string -> static_file)) (q : http_request).
Abbreviation sends := (sends (S := S) q).

Lemma validated_origin_sends required :
  sends (_validated_origin cfg q required) (fun o => match o with Some _ => false | None => true end).
Proof.
  unfold _validated_origin. destruct (header _ _); [destruct (str_in _ _)|destruct required]; by eauto with http.
Qed.

Lemma validate_api_sends require_json : sends (_validate_api_request cfg stopping q require_json) negb.
Proof.
  unfold _validate_api_request. cbv zeta. destruct stopping; [by eauto with http|].
  eapply sends_bind; [apply validated_origin_sends|intros [o|]; [done|by exists false]|intros [o|]; [intros _|done]].
  http_cases; by eauto with http.
Qed.

Lemma read_body_sends allow_empty :
  sends (_read_bounded_body cfg q allow_empty) (fun o => match o with Some _ => false | None => true end).
Proof.
  unfold _read_bounded_body. cbv zeta.
  destruct (header "Transfer-Encoding" q); [by eauto with http|].
  destruct (header "Content-Length" q) as [raw|]; [|by eauto with http].
  destruct (header_int raw) as [n|]; [|by eauto with http].
  destruct (n <? 0); [by eauto with http|]. destruct (_ <? n); [by eauto with http|].
  destruct (_ && _); [by eauto with http|].
  destruct (rq_read q n) as [b| |] eqn:R.
  - destruct (_ =? n); by eauto with http.
  - apply sends_raise. by exists n.
  - apply sends_raise. by exists n.
Qed.

Lemma credentials_sends : sends (_credentials q) (fun _ => false).
Proof. apply sends_lift; [done|]. intros e. unfold api_result. destruct (credentials_for _ _) eqn:C; [done|]. intros [= <-]. by left. Qed.

Lemma send_found_sends result missing : sends (send_found cfg q result missing) (fun _ => true).
Proof. unfold send_found. destruct result; by eauto with http. Qed.

Lemma static_sends head_only : sends (_handle_static cfg ui q head_only) (fun _ => true).
Proof.
  unfold _handle_static. destruct ui as [lookup|]; [|by eauto with http].
  destruct (lookup _); by eauto with http.
Qed.

Lemma of_api_sends {A} (f : S -> A) : sends (of_api f) (fun _ => false).
Proof. intros s s' r [= <- <-]. exists []. by rewrite app_nil_r. Qed.

Lemma on_api_sends {A} (f : S -> S * Prelude.result app_error A) :
  (forall s e, (f s).2 = Raise e -> runtime_raised (S := S) q e) -> sends (on_api f) (fun _ => false).
Proof.
  intros R s s' r [= <- <-]. exists []. rewrite app_nil_r. split; [done|].
  destruct (f s.1).2 as [a|e] eqn:E; [done|]. left. split; [done|]. by eapply R.
Qed.

(** A submission that returns has an answer, or is still waiting. *)
Lemma submit_then body credentials (k : odict json -> HM (S := S) unit) fin :
  (forall d, sends (k d) fin) ->
  sends (hbind (on_api (api_submit body credentials)) (fun result =>
    match result with None => hraise HttpWaiting | Some d => k d end)) fin.
Proof.
  intros K s s' r. unfold hbind, on_api. destruct (api_submit body credentials s.1) as [s1 [[d|]|e]] eqn:E; cbn [api_result fst snd].
  - intros H. destruct (K d _ _ _ H) as (new & L & X). by exists new.
  - intros [= <- <-]. exists []. rewrite app_nil_r. split; [done|]. left. split; [done|]. exists body, credentials, s.1. by rewrite E.
  - intros [= <- <-]. exists []. rewrite app_nil_r. split; [done|]. left. split; [done|]. right. exists credentials, s.1. left.
    exists body. by rewrite E.
Qed.

(** Reading the runtime *)
Lemma read_then {A B} (f : S -> Prelude.result app_error A) (k : A -> HM (S := S) B) fin :
  (forall s e, f s = Raise e -> runtime_raised (S := S) q e) -> (forall a, sends (k a) fin) ->
  sends (hbind (of_api f) (fun r => hbind (hlift (api_result r)) k)) fin.
Proof.
  intros R K s s' r. unfold hbind, of_api, hlift. destruct (f s.1) as [a|e] eqn:E; cbn [api_result].
  - apply K.
  - intros [= <- <-]. exists []. rewrite app_nil_r. split; [done|]. left. split; [done|]. by eapply R.
Qed.

Lemma options_sends : sends (_handle_options cfg q) (fun _ => true).
Proof.
  unfold _handle_options. eapply sends_bind with (fin := fun o => match o with Some (Some _) => false | _ => true end).
  - unfold _validated_origin. destruct (header _ _); [destruct (str_in _ _)|]; by eauto with http.
  - intros [[o|]|]; [done|by exists tt..].
  - intros [[o|]|]; [intros _|done..]. by apply send_response_sends.
Qed.

Lemma get_sends : sends (_handle_get cfg stopping ui q) (fun _ => true).
Proof.
  unfold _handle_get. cbv zeta.
  destruct (String.eqb _ _).
  { eapply sends_bind; [apply of_api_sends|done|]. intros d _. by apply send_json_sends. }
  destruct (String.eqb _ _).
  { eapply sends_bind; [apply of_api_sends|done|]. intros d _. apply send_json_sends. by destruct d.1. }
  assert (O : sends (if starts_with "/api/" (url_path (rq_target q))
     then _send_transport_error cfg q 404 "ERR_ENDPOINT_NOT_FOUND" "API endpoint not found" false
     else _handle_static cfg ui q false) (fun _ => true)).
  { destruct (starts_with _ _); [by apply transport_error_sends|apply static_sends]. }
  destruct (execution_route _) as [[id op]|]; [|done]. destruct (str_in op _); [|done].
  eapply sends_bind; [apply validate_api_sends|intros []; [done|by exists tt]|]. intros [] F; [clear F|done].
  eapply sends_bind; [apply credentials_sends|done|]. intros creds _.
  apply read_then; [|intros x; apply send_found_sends].
  intros s e R. right. exists creds, s. right. exists id. right. destruct (String.eqb _ _); [by left|by right].
Qed.

Lemma check_cancel_raised body e : check_cancel_body body = Raise e -> raised_ok (S := S) q e.
Proof.
  unfold check_cancel_body. cbv zeta. destruct (str_in _ _); [done|].
  assert (K : raised_ok (S := S) q (HttpValueError "Cancellation body must be an empty JSON object")) by (right; left).
  destruct (encodable body); cbn [require rbind]; [|by intros [= <-]].
  destruct (loads true body) as [[| | | | | |[|]]|]; try done; by intros [= <-].
Qed.

Lemma post_sends : sends (_handle_post cfg stopping q) (fun _ => true).
Proof.
  unfold _handle_post. cbv zeta.
  eapply sends_bind; [apply validate_api_sends|intros []; [done|by exists tt]|]. intros [] F; [clear F|done].
  eapply sends_bind; [apply credentials_sends|done|]. intros creds _.
  destruct (String.eqb _ _).
  { eapply sends_bind; [apply read_body_sends|intros [b|]; [done|by exists tt]|]. intros [b|] F; [clear F|done].
    apply submit_then. intros x. apply send_json_sends. by destruct (py_eq _ _). }
  destruct (execution_route _) as [[id op]|]; [|by apply transport_error_sends].
  destruct (String.eqb op "cancel"); [|by apply transport_error_sends].
  eapply sends_bind; [apply read_body_sends|intros [b|]; [done|by exists tt]|]. intros [b|] F; [clear F|done].
  eapply sends_bind with (fin := fun _ => false); [|done|].
  - apply sends_lift; [done|]. intros e. apply check_cancel_raised.
  - intros _ _. eapply sends_bind; [apply on_api_sends|done|intros x _; apply send_found_sends].
    intros s e R. right. exists creds, s. right. exists id. by left.
Qed.

Lemma error_status code : match od_get code _HTTP_STATUS_BY_ERROR with Some n => n | None => 400 end <> 100.
Proof.
  unfold _HTTP_STATUS_BY_ERROR. cbn [od_get]. repeat (destruct (String.eqb code _); [done|]). done.
Qed.

Lemma error_of_status x : (error_of x).1 <> 100.
Proof.
  assert (C : forall code category message retryable, (controller_error_of code category message retryable).1 <> 100)
    by (intros; apply error_status).
  destruct x as [x|]; [destruct x; try discriminate|]; apply C.
Qed.

(** The error document of an exception has no UTF-8: a lone surrogate in it. *)
Definition unprintable (x : app_error) : Prop :=
  let '(code, category, message, retryable) := (error_of x).2 in
  encodable (dumps_compact (sort_keys (JObj (error_document code category message retryable)))) = false.

(** A printable document is sent. *)
Lemma printable_sends status d (s s' : S * list http_response) (r : Prelude.result http_exn unit) :
  status <> 100 -> encodable (dumps_compact (sort_keys (JObj d))) = true -> _send_json cfg q status d s = (s', r) ->
  exists x, s'.2 = (s.2 ++ [x])%list /\ r_status x = status /\
    match r with Ok _ => r_written x = SentWhole | Raise e => failed_write x e end.
Proof. intros N P. unfold _send_json. cbv zeta. rewrite P. cbn [negb]. apply send_response_cases. Qed.

(** Every exception but a waiting call and a broken connection is answered,
    unless its document has no UTF-8 or cannot be written. *)
Lemma handle_exception_sends e (s s' : S * list http_response) (r : Prelude.result http_exn unit) :
  (e = HttpTimeout \/ raised_ok (S := S) q e) -> e <> HttpBroken -> handle_exception cfg q e s = (s', r) ->
  (exists x, s'.2 = (s.2 ++ [x])%list /\ final x /\ (e = HttpTimeout -> r_status x = 408) /\
     match r with Ok _ => r_written x = SentWhole | Raise e' => failed_write x e' end) \/
  (s'.2 = s.2 /\ e <> HttpTimeout /\
   ((r = Raise HttpWaiting /\ still_waiting (S := S)) \/ exists x e', r = Raise e' /\ runtime_raised (S := S) q x /\ unprintable x)).
Proof.
  intros R N.
  assert (P : forall status d, status <> 100 -> (e = HttpTimeout -> status = 408) ->
    encodable (dumps_compact (sort_keys (JObj d))) = true -> _send_json cfg q status d s = (s', r) ->
    exists x, s'.2 = (s.2 ++ [x])%list /\ final x /\ (e = HttpTimeout -> r_status x = 408) /\
      match r with Ok _ => r_written x = SentWhole | Raise e' => failed_write x e' end).
  { intros status d Ns T En H. apply printable_sends in H as (x & L & St & W); [|exact Ns|exact En].
    exists x. split; [exact L|]. split; [unfold final; congruence|]. split; [intros E; rewrite St; by apply T|exact W]. }
  destruct e as [x| | |m|]; cbn [handle_exception].
  - destruct R as [?|R]; [done|]. pose proof (error_of_status x) as Ns. unfold unprintable.
    destruct (error_of x) as [status [[[code category] message] retryable]] eqn:Eo. cbn [fst] in Ns. intros H. unfold _send_error_document in H.
    destruct (encodable (dumps_compact (sort_keys (JObj (error_document code category message retryable))))) eqn:En.
    + left. by eapply P.
    + right. unfold _send_json in H. rewrite En in H. cbn in H. injection H as <- <-. split; [done|]. split; [done|]. right.
      eexists x, _. split; [reflexivity|]. split; [exact R|]. by rewrite Eo.
  - by destruct N.
  - intros H. left. eapply P; [| | |exact H]; [discriminate|reflexivity|vm_compute; reflexivity].
  - destruct R as [?|R]; [done|]. intros H. left. eapply P; [| | |exact H]; [discriminate|discriminate|].
    cbn in R. repeat (apply elem_of_cons in R as [->|R]; [vm_compute; reflexivity|]). by apply elem_of_nil in R.
  - destruct R as [?|R]; [done|]. intros [= <- <-]. right. split; [done|]. split; [done|]. left. by split.
Qed.

(** ** What a request is given *)

Definition finals (l : list http_response) : list http_response := List.filter (fun x => negb (r_status x =? 100)) l.

(** How a request ends, by the responses [new] that were begun for it *)
Inductive handled (new : list http_response) : Prelude.result http_exn unit -> Prop :=
| handled_answered before x :
    new = (before ++ [x])%list -> final x -> r_written x = SentWhole -> (length (finals before) <= 1)%nat ->
    Forall (fun y => r_status y = 100 \/ (r_written y = SendTimedOut /\ r_status x = 408)) before -> handled new (Ok tt)
| handled_lost r :
    client_broke q \/ (exists y, y ∈ new /\ r_written y <> SentWhole) ->
    Forall (fun y => final y -> r_written y <> SentWhole) new ->
    r = Ok tt \/ r = Raise HttpTimeout \/ r = Raise HttpBroken -> handled new r
| handled_waiting : finals new = [] -> still_waiting (S := S) -> handled new (Raise HttpWaiting)
| handled_unprintable x e :
    finals new = [] -> runtime_raised (S := S) q x -> unprintable x -> handled new (Raise e).

Lemma failed_not_written x e : failed_write x e -> r_written x <> SentWhole /\ (e = HttpTimeout \/ e = HttpBroken).
Proof. intros [[-> ->]|[-> ->]]; (split; [done|]); auto. Qed.

Lemma lost_write x e : final x -> failed_write x e -> handled [x] (Raise e).
Proof.
  intros F [W E]%failed_not_written. apply handled_lost.
  - right. exists x. split; [left|exact W].
  - by repeat constructor.
  - destruct E as [->| ->]; auto.
Qed.

Lemma single_answered x : final x -> r_written x = SentWhole -> handled [x] (Ok tt).
Proof. intros F W. apply (handled_answered [x] [] x); [reflexivity|exact F|exact W|cbn; lia|constructor]. Qed.

Lemma operation_sends : sends (operation_of cfg stopping ui q (rq_method q)) (fun _ => true).
Proof. destruct (rq_method q); [apply options_sends|apply get_sends|apply static_sends|apply post_sends]. Qed.

(** The operation under the [except] clauses *)
Lemma caught_handled s s' r :
  hcatch (operation_of cfg stopping ui q (rq_method q)) (handle_exception cfg q) s = (s', r) ->
  exists new, s'.2 = (s.2 ++ new)%list /\ handled new r.
Proof.
  unfold hcatch. destruct (operation_of _ _ _ _ _ s) as [s1 [[]|e]] eqn:O; destruct (operation_sends _ _ _ O) as (new & L & K); cbn in K.
  - intros [= <- <-]. exists new. split; [exact L|]. destruct K as (x & -> & F & W). by apply single_answered.
  - assert (D : e = HttpBroken \/ e <> HttpBroken) by (destruct e; by (left; reflexivity) || right). destruct D as [->|N].
    { cbn. intros [= <- <-]. exists new. split; [exact L|]. apply handled_lost; [| |by left].
      - destruct K as [[-> B]|(x & -> & F & W)]; [by left|right]. exists x. split; [left|by apply failed_not_written in W as [W _]].
      - destruct K as [[-> B]|(x & -> & F & W)]; [constructor|]. apply failed_not_written in W as [W _]. by repeat constructor. }
    intros H. apply handle_exception_sends in H; [| |exact N].
    2: { destruct K as [[_ B]|(x & _ & _ & W)]; [by right|left]. by destruct W as [[_ ->]|[_ ->]]. }
    destruct K as [[-> B]|(x & -> & F & W)].
    + rewrite app_nil_r in L. destruct H as [(y & L' & Fy & _ & Y)|(L' & Nt & H)]; rewrite L in L'.
      * exists [y]. split; [exact L'|]. destruct r as [[]|e']; [by apply single_answered|by apply lost_write].
      * exists []. rewrite app_nil_r. split; [exact L'|].
        destruct H as [(-> & Wt)|(z & e' & -> & Rz & Uz)]; [by apply handled_waiting|by apply (handled_unprintable _ z)].
    + assert (E : e = HttpTimeout) by (destruct W as [[_ ->]|[_ ->]]; done). subst e.
      destruct H as [(y & L' & Fy & T & Y)|(_ & Nt & _)]; [|done]. rewrite L, <- app_assoc in L'. exists [x; y]. split; [exact L'|].
      destruct W as [[W _]|[_ ?]]; [|done]. destruct r as [[]|e'].
      * apply (handled_answered _ [x] y); try done.
        -- unfold finals. cbn. destruct (negb _); cbn; lia.
        -- constructor; [right; split; [exact W|by apply T]|constructor].
      * apply failed_not_written in Y as [Wy E]. apply handled_lost.
        -- right. exists y. split; [right; left|exact Wy].
        -- constructor; [intros _; by rewrite W|by repeat constructor].
        -- destruct E as [->| ->]; auto.
Qed.

(** A refusal with a printable message *)
Lemma refuse_sends {A} status code message retryable (a : A) (s s' : S * list http_response) (r : Prelude.result http_exn A) :
  status <> 100 ->
  encodable (dumps_compact (sort_keys (JObj (error_document code "TRANSPORT" message retryable)))) = true ->
  hbind (_send_transport_error cfg q status code message retryable) (fun _ => hret a) s = (s', r) ->
  exists x, s'.2 = (s.2 ++ [x])%list /\ final x /\
    match r with Ok b => b = a /\ r_written x = SentWhole | Raise e => failed_write x e end.
Proof.
  intros N P. unfold hbind, _send_transport_error, _send_error_document. destruct (_send_json _ _ _ _ s) as [s1 x] eqn:E.
  apply printable_sends in E as (y & L & St & W); [|exact N|exact P].
  assert (F : final y) by (unfold final; congruence).
  destruct x as [u|e]; intros H; injection H as <- <-; exists y; by repeat split.
Qed.

Lemma validate_host_answers (s s' : S * list http_response) (r : Prelude.result http_exn bool) :
  _validate_host_and_request_target cfg q s = (s', r) ->
  (s' = s /\ r = Ok true) \/
  exists x, s'.2 = (s.2 ++ [x])%list /\ final x /\
    match r with Ok b => b = false /\ r_written x = SentWhole | Raise e => failed_write x e end.
Proof.
  assert (Rf : forall status code message, status <> 100 ->
    encodable (dumps_compact (sort_keys (JObj (error_document code "TRANSPORT" message false)))) = true ->
    hbind (_send_transport_error cfg q status code message false) (fun _ => hret false) s = (s', r) ->
    (s' = s /\ r = Ok true) \/ exists x, s'.2 = (s.2 ++ [x])%list /\ final x /\
      match r with Ok b => b = false /\ r_written x = SentWhole | Raise e => failed_write x e end).
  { intros status code message N P H. right. exact (refuse_sends _ _ _ _ _ _ _ _ N P H). }
  unfold _validate_host_and_request_target. destruct (negb _); [apply Rf; [discriminate|vm_compute; reflexivity]|].
  destruct (header_values _ _) as [|h [|h' l]]; [apply Rf; [discriminate|vm_compute; reflexivity]| |apply Rf; [discriminate|vm_compute; reflexivity]].
  destruct (host_allowed _ _); [intros H; injection H as <- <-; by left|apply Rf; [discriminate|vm_compute; reflexivity]].
Qed.

Lemma bounded_handled s s' r :
  _bounded cfg stopping ui q s = (s', r) -> exists new, s'.2 = (s.2 ++ new)%list /\ handled new r.
Proof.
  unfold _bounded, hbind. destruct (_validate_host_and_request_target cfg q s) as [s1 [v|e]] eqn:V;
    apply validate_host_answers in V as [[-> E]|(x & L & F & K)]; try discriminate E.
  - injection E as ->. cbn [negb]. apply caught_handled.
  - destruct K as [-> W]. intros [= <- <-]. exists [x]. split; [exact L|by apply single_answered].
  - intros [= <- <-]. exists [x]. split; [exact L|by apply lost_write].
Qed.

Lemma expect_answers (s s' : S * list http_response) (r : Prelude.result http_exn bool) :
  handle_expect_100 cfg q s = (s', r) ->
  exists x, s'.2 = (s.2 ++ [x])%list /\
    match r with
    | Ok true => r_status x = 100 /\ r_written x = SentWhole
    | Ok false => final x /\ r_written x = SentWhole
    | Raise e => failed_write x e
    end.
Proof.
  unfold handle_expect_100. cbv zeta.
  set (n := match header "Content-Length" q with Some _ => _ | None => _ end). clearbody n.
  assert (Rf : forall x, final x /\ (match r with Ok b => b = false /\ r_written x = SentWhole | Raise e => failed_write x e end) ->
    match r with Ok true => r_status x = 100 /\ r_written x = SentWhole | Ok false => final x /\ r_written x = SentWhole
    | Raise e => failed_write x e end).
  { intros x [F K]. destruct r as [b|e]; [by destruct K as [-> K]|exact K]. }
  destruct (n <? 0); [|destruct (_ <? n)]; intros H.
  1, 2: apply refuse_sends in H as (x & L & K); [|discriminate|vm_compute; reflexivity]; exists x; split; [exact L|by apply Rf].
  unfold hbind in H. destruct (send_response q 100 [] None s) as [s1 y] eqn:E. apply send_response_cases in E as (x & L & St & W).
  destruct y as [u|e]; injection H as <- <-; by exists x.
Qed.

(** A 100 before the answer *)
Lemma handled_after_continue x new r :
  r_status x = 100 -> r_written x = SentWhole -> handled new r -> handled (x :: new) r.
Proof.
  intros St W H.
  assert (Fi : forall l, finals (x :: l) = finals l) by (intros l; unfold finals; cbn [List.filter]; by rewrite St).
  destruct H as [before y -> F Wy N All|r L All E|E Wt|z e E Rz U].
  - apply (handled_answered _ (x :: before) y); try done; [by rewrite Fi|]. constructor; [by left|exact All].
  - apply handled_lost; [|constructor; [intros F; by destruct F|exact All]|exact E].
    destruct L as [B|(y & I & Wy)]; [by left|right]. exists y. split; [by right|exact Wy].
  - apply handled_waiting; [by rewrite Fi|exact Wt].
  - apply (handled_unprintable _ z); [by rewrite Fi|done|done].
Qed.
End HttpFacts.


(** ** What may change the runtime *)

Section Guards.
Context {S : Type} {API : WorkingVersionApi S}.
Context (cfg : http_config) (stopping : bool) (ui : option (string -> static_file)) (q : http_request).
Abbreviation quiet := (quiet (S := S)).

(** The request names the service, comes from an allowed origin if it has one,
    carries the header no cross-site form can set, is JSON, and arrives before
    the shutdown. *)
Record guarded : Prop := {
  gd_target : starts_with "/" (rq_target q) = true;
  gd_host : exists h, header_values "Host" (rq_headers q) = [h] /\ host_allowed cfg (casefold (strip h)) = true;
  gd_running : stopping = false;
  gd_origin : forall o, header "Origin" q = Some o -> o ∈ h_allowed_origins cfg;
  gd_header : header "X-Delta-Request" q = Some "1";
  gd_json : exists ct, header "Content-Type" q = Some ct /\ json_content_type ct = true }.

(** The body is what [Content-Length] announces, within the limit. *)
Record body_read (body : string) : Prop := {
  br_plain : header "Transfer-Encoding" q = None;
  br_length : exists raw, header "Content-Length" q = Some raw /\ header_int raw = Some (string_bytes body);
  br_limit : string_bytes body <= h_request_limit cfg;
  br_bytes : rq_read q (string_bytes body) = BodyBytes body }.

Lemma refuse_quiet {A} status code message retryable (a : A) s s' b :
  hbind (_send_transport_error (S := S) cfg q status code message retryable) (fun _ => hret a) s = (s', Ok b) -> b = a.
Proof. unfold hbind. destruct (_send_transport_error _ _ _ _ _ _ s) as [s1 [u|e]]; by intros [= _ <-]. Qed.

Lemma validate_host_true s s' :
  _validate_host_and_request_target (S := S) cfg q s = (s', Ok true) ->
  s' = s /\ starts_with "/" (rq_target q) = true /\
  exists h, header_values "Host" (rq_headers q) = [h] /\ host_allowed cfg (casefold (strip h)) = true.
Proof.
  unfold _validate_host_and_request_target. destruct (starts_with _ _); cbn [negb]; [|intros Rf%refuse_quiet; discriminate].
  destruct (header_values _ _) as [|h [|h' l]]; [intros Rf%refuse_quiet; discriminate| |intros Rf%refuse_quiet; discriminate].
  destruct (host_allowed _ _) eqn:E; [|intros Rf%refuse_quiet; discriminate].
  intros [= <-]. split; [done|]. split; [done|]. by exists h.
Qed.

Lemma validated_origin_Ok s s' o :
  _validated_origin (S := S) cfg q false s = (s', Ok (Some o)) ->
  s' = s /\ forall x, header "Origin" q = Some x -> x ∈ h_allowed_origins cfg.
Proof.
  unfold _validated_origin. destruct (header "Origin" q) as [x|].
  - destruct (str_in x _) eqn:E; [|intros Rf%refuse_quiet; discriminate]. apply str_in_elem in E.
    intros [= <- <-]. split; [done|]. by intros y [= <-].
  - by intros [= <- <-].
Qed.

Lemma validate_api_true s s' :
  _validate_api_request (S := S) cfg stopping q true s = (s', Ok true) ->
  s' = s /\ stopping = false /\ (forall o, header "Origin" q = Some o -> o ∈ h_allowed_origins cfg) /\
  header "X-Delta-Request" q = Some "1" /\ exists ct, header "Content-Type" q = Some ct /\ json_content_type ct = true.
Proof.
  unfold _validate_api_request. cbv zeta. destruct stopping; [intros Rf%refuse_quiet; discriminate|].
  unfold hbind at 1. destruct (_validated_origin _ _ _ s) as [s1 [[o|]|e]] eqn:V; [|intros [= _ H]; discriminate|done].
  apply validated_origin_Ok in V as [-> O]. case_bool_decide as X; cbn [negb]; [|intros Rf%refuse_quiet; discriminate].
  destruct (header "Content-Type" q) as [ct|]; [|intros Rf%refuse_quiet; discriminate].
  destruct (json_content_type ct) eqn:J; [|intros Rf%refuse_quiet; discriminate].
  intros [= <-]. repeat (split; [done|]). by exists ct.
Qed.

Lemma read_body_Some ae s s' body :
  _read_bounded_body (S := S) cfg q ae s = (s', Ok (Some body)) -> s' = s /\ body_read body.
Proof.
  unfold _read_bounded_body. cbv zeta. destruct (header "Transfer-Encoding" q) eqn:T; [intros Rf%refuse_quiet; discriminate|].
  destruct (header "Content-Length" q) as [raw|] eqn:L; [|intros Rf%refuse_quiet; discriminate].
  destruct (header_int raw) as [n|] eqn:N; [|intros Rf%refuse_quiet; discriminate].
  destruct (n <? 0); [intros Rf%refuse_quiet; discriminate|].
  destruct (Z.ltb_spec (h_request_limit cfg) n); [intros Rf%refuse_quiet; discriminate|].
  destruct (_ && _); [intros Rf%refuse_quiet; discriminate|].
  destruct (rq_read q n) as [b| |] eqn:R; [|done..].
  destruct (Z.eqb_spec (string_bytes b) n) as [<-|]; [|intros Rf%refuse_quiet; discriminate].
  intros [= <- <-]. split; [done|]. constructor; eauto.
Qed.

(** ** Quiet parts *)

Lemma transport_quiet status code message retryable : quiet (_send_transport_error cfg q status code message retryable).
Proof. apply quiet_json. Qed.

Lemma validated_origin_quiet required : quiet (_validated_origin cfg q required).
Proof.
  unfold _validated_origin. destruct (header _ _); [destruct (str_in _ _)|destruct required];
    auto using quiet_ret, quiet_bind, transport_quiet.
Qed.

Lemma validate_api_quiet rj : quiet (_validate_api_request cfg stopping q rj).
Proof.
  unfold _validate_api_request. cbv zeta. destruct stopping; [auto using quiet_ret, quiet_bind, transport_quiet|].
  apply quiet_bind; [apply validated_origin_quiet|]. intros [o|]; [|apply quiet_ret].
  http_cases; auto using quiet_ret, quiet_bind, transport_quiet.
Qed.

Lemma read_body_quiet ae : quiet (_read_bounded_body cfg q ae).
Proof.
  unfold _read_bounded_body. cbv zeta.
  destruct (header "Transfer-Encoding" q), (header "Content-Length" q) as [raw|];
    auto using quiet_ret, quiet_bind, transport_quiet.
  destruct (header_int raw) as [n|]; [|auto using quiet_ret, quiet_bind, transport_quiet].
  do 3 (destruct (_ : bool); [auto using quiet_ret, quiet_bind, transport_quiet|]).
  destruct (rq_read q n); [|apply quiet_raise..]. destruct (_ =? _); auto using quiet_ret, quiet_bind, transport_quiet.
Qed.

Lemma send_found_quiet result missing : quiet (send_found cfg q result missing).
Proof. unfold send_found. destruct result; [apply quiet_json|apply transport_quiet]. Qed.

Lemma static_quiet head_only : quiet (_handle_static cfg ui q head_only).
Proof.
  unfold _handle_static. destruct ui as [lookup|]; [destruct (lookup _)|]; auto using transport_quiet, quiet_send.
Qed.

Lemma not_post_quiet : rq_method q <> POST -> quiet (operation_of cfg stopping ui q (rq_method q)).
Proof.
  intros N. destruct (rq_method q); cbn [operation_of]; [| |apply static_quiet|done].
  - unfold _handle_options. apply quiet_bind; [apply validated_origin_quiet|].
    intros [[o|]|]; auto using quiet_ret, quiet_send.
  - unfold _handle_get. cbv zeta. destruct (String.eqb _ _).
    { apply quiet_bind; [apply quiet_of_api|]. intros d. apply quiet_json. }
    destruct (String.eqb _ _).
    { apply quiet_bind; [apply quiet_of_api|]. intros d. apply quiet_json. }
    destruct (execution_route _) as [[id op]|]; [|destruct (starts_with _ _); [apply transport_quiet|apply static_quiet]].
    destruct (str_in op _); [|destruct (starts_with _ _); [apply transport_quiet|apply static_quiet]].
    apply quiet_bind; [apply validate_api_quiet|]. intros []; [cbn [negb]|apply quiet_ret].
    apply quiet_bind; [apply quiet_lift|]. intros creds. apply quiet_bind; [apply quiet_of_api|]. intros r.
    apply quiet_bind; [apply quiet_lift|]. intros x. apply send_found_quiet.
Qed.

Lemma handle_exception_quiet e : quiet (handle_exception cfg q e).
Proof.
  unfold handle_exception. cbv zeta.
  destruct e as [[x|code message category retryable]| | | |];
    [destruct x; apply quiet_json|apply quiet_json|apply quiet_ret|apply quiet_json|apply quiet_json|apply quiet_raise].
Qed.

Lemma expect_quiet : quiet (handle_expect_100 cfg q).
Proof.
  unfold handle_expect_100. cbv zeta. destruct (_ <? 0); [|destruct (_ <? _)];
    auto using quiet_ret, quiet_bind, transport_quiet, quiet_send.
Qed.

(** The one operation a request may have run *)
Definition ran (s s' : S) : Prop :=
  exists credentials body,
    credentials_for (rq_peer q) (header "Authorization" q) = Ok credentials /\ body_read body /\
    ((url_path (rq_target q) = "/api/v1/intent/submit" /\ s' = (api_submit body credentials s).1) \/
     exists id, execution_route (url_path (rq_target q)) = Some (id, "cancel") /\ check_cancel_body body = Ok tt /\
       s' = (api_cancel id credentials s).1).

(** Either [hbind] ends after its first part, or the second part runs. *)
Lemma hbind_cases {A B} (m : HM (S := S) A) (f : A -> HM B) s s' r :
  hbind m f s = (s', r) ->
  (exists e, m s = (s', Raise e)) \/ exists s1 a, m s = (s1, Ok a) /\ f a s1 = (s', r).
Proof.
  unfold hbind. destruct (m s) as [s1 [a|e]]; intros H; [right; by exists s1, a|left]. injection H as <- _. by exists e.
Qed.

Lemma on_api_then {A B} (f : S -> S * Prelude.result app_error A) (k : A -> HM (S := S) B) s s' r :
  (forall a, quiet (k a)) -> hbind (on_api f) k s = (s', r) -> s'.1 = (f s.1).1.
Proof.
  intros Q [[e H]|(s1 & a & H & K)]%hbind_cases.
  - by injection H as <- _.
  - injection H as <- _. by apply Q in K.
Qed.

Lemma post_runs s s' r :
  _handle_post cfg stopping q s = (s', r) ->
  s'.1 = s.1 \/
  (ran s.1 s'.1 /\ stopping = false /\ (forall o, header "Origin" q = Some o -> o ∈ h_allowed_origins cfg) /\
   header "X-Delta-Request" q = Some "1" /\ exists ct, header "Content-Type" q = Some ct /\ json_content_type ct = true).
Proof.
  unfold _handle_post. cbv zeta. intros [[e H]|(s1 & v & V & H)]%hbind_cases; [left; by apply validate_api_quiet in H|].
  destruct v; cbn [negb] in H; [|left; injection H as <- _; by apply validate_api_quiet in V].
  apply validate_api_true in V as (-> & G).
  apply hbind_cases in H as [[e H]|(s2 & creds & C & H)]; [left; by apply quiet_lift in H|].
  injection C as <- C. destruct (credentials_for _ _) as [c|] eqn:CR; [|done]. injection C as <-.
  destruct (String.eqb_spec (url_path (rq_target q)) "/api/v1/intent/submit") as [P|_].
  - apply hbind_cases in H as [[e H]|(s3 & ob & B & H)]; [left; by apply read_body_quiet in H|].
    destruct ob as [body|]; [|left; injection H as <- _; by apply read_body_quiet in B].
    apply read_body_Some in B as [-> B]. apply on_api_then in H; [|intros [x|]; [apply quiet_json|apply quiet_raise]].
    right. split; [|done]. exists c, body. split; [done|]. split; [done|]. by left.
  - destruct (execution_route _) as [[id op]|] eqn:R; [|left; by apply transport_quiet in H].
    destruct (String.eqb_spec op "cancel") as [->|]; [|left; by apply transport_quiet in H].
    apply hbind_cases in H as [[e H]|(s3 & ob & B & H)]; [left; by apply read_body_quiet in H|].
    destruct ob as [body|]; [|left; injection H as <- _; by apply read_body_quiet in B].
    apply read_body_Some in B as [-> B].
    apply hbind_cases in H as [[e H]|(s4 & u & K & H)]; [left; by apply quiet_lift in H|].
    injection K as <- K. destruct u. apply on_api_then in H; [|intros x; apply send_found_quiet].
    right. split; [|done]. exists c, body. split; [done|]. split; [done|]. right. by exists id.
Qed.

Lemma validate_host_quiet : quiet (_validate_host_and_request_target cfg q).
Proof.
  unfold _validate_host_and_request_target. destruct (negb _); [auto using quiet_ret, quiet_bind, transport_quiet|].
  destruct (header_values _ _) as [|h [|h' l]]; auto using quiet_ret, quiet_bind, transport_quiet.
  destruct (host_allowed _ _); auto using quiet_ret, quiet_bind, transport_quiet.
Qed.

(** The operation of the request's method, its exceptions handled *)
Lemma operation_runs s s' r :
  hcatch (operation_of cfg stopping ui q (rq_method q)) (handle_exception cfg q) s = (s', r) ->
  s'.1 = s.1 \/
  (rq_method q = POST /\ ran s.1 s'.1 /\ stopping = false /\
   (forall o, header "Origin" q = Some o -> o ∈ h_allowed_origins cfg) /\
   header "X-Delta-Request" q = Some "1" /\ exists ct, header "Content-Type" q = Some ct /\ json_content_type ct = true).
Proof.
  unfold hcatch. destruct (operation_of _ _ _ _ _ s) as [s1 x] eqn:E. intros K.
  assert (X : s'.1 = s1.1).
  { destruct x as [u|e]; [by injection K as <- _|by apply handle_exception_quiet in K]. }
  rewrite X. destruct (decide (rq_method q = POST)) as [P|N].
  - rewrite P in E. cbn [operation_of] in E. apply post_runs in E as [E|E]; [by left|]. right. by split.
  - left. exact (not_post_quiet N _ _ _ E).
Qed.

Lemma bounded_runs s s' r :
  _bounded cfg stopping ui q s = (s', r) -> s'.1 = s.1 \/ (rq_method q = POST /\ guarded /\ ran s.1 s'.1).
Proof.
  unfold _bounded. intros [[e H]|(s1 & v & V & H)]%hbind_cases; [left; by apply validate_host_quiet in H|].
  destruct v; cbn [negb] in H; [|left; injection H as <- _; by apply validate_host_quiet in V].
  apply validate_host_true in V as (-> & T & Hh).
  apply operation_runs in H as [H|(P & R & St & O & X & J)]; [by left|right].
  split; [done|]. split; [by constructor|done].
Qed.

(** A request changes the runtime only as a POST that is [guarded], and then has
    run exactly one operation under the credentials of its connection. *)
Lemma runs_guarded (s s' : S) (sent sent' : list http_response) (r : Prelude.result http_exn unit) :
  handle_request cfg stopping ui q (s, sent) = ((s', sent'), r) ->
  s' = s \/ (rq_method q = POST /\ guarded /\ ran s s').
Proof.
  intros H. unfold handle_request in H. cbv zeta in H. destruct (_ && _); [|exact (bounded_runs _ _ _ H)].
  apply hbind_cases in H as [[e H]|([s1 l1] & b & X & H)]; [left; exact (expect_quiet _ _ _ H)|].
  pose proof (expect_quiet _ _ _ X) as Q. cbn in Q. subst s1.
  destruct b; [exact (bounded_runs _ _ _ H)|]. injection H as <- _ _. by left.
Qed.
End Guards.

(** ** What a submission does not reveal *)

Section Hidden.
Context {S : Type} {API : WorkingVersionApi S}.

(** Two answers of a submission that differ at most in the bundle *)
Definition same_public (x y : S * Prelude.result app_error (option (odict json))) : Prop :=
  x.1 = y.1 /\
  match x.2, y.2 with
  | Ok (Some a), Ok (Some b) => public_result a = public_result b
  | a, b => a = b
  end.

(** The runtime with another submission *)
Definition with_submit (f : string -> odict json -> S -> S * Prelude.result app_error (option (odict json)))
  : WorkingVersionApi S := {|
  credentials_for := credentials_for;
  api_submit := f;
  api_get_status := api_get_status;
  api_get_receipt := api_get_receipt;
  api_cancel := api_cancel;
  api_health := api_health;
  api_readiness := api_readiness |}.

Context (f : string -> odict json -> S -> S * Prelude.result app_error (option (odict json))).
Context (cfg : http_config) (stopping : bool) (ui : option (string -> static_file)) (q : http_request).

Lemma hbind_ext {A B} (m : HM (S := S) A) (k k' : A -> HM (S := S) B) s :
  (forall a s, k a s = k' a s) -> hbind m k s = hbind m k' s.
Proof. intros E. unfold hbind. destruct (m s) as [s1 [a|e]]; [apply E|done]. Qed.

Lemma handle_post_hides s :
  (forall body credentials s, same_public (f body credentials s) (api_submit body credentials s)) ->
  _handle_post (API := with_submit f) cfg stopping q s = _handle_post cfg stopping q s.
Proof.
  intros P. unfold _handle_post. cbv zeta. apply hbind_ext. intros [] s1; cbn [negb]; [|done].
  apply hbind_ext. intros creds s2. destruct (String.eqb _ _); [|done].
  apply hbind_ext. intros [body|] s3; [|done]. unfold hbind, on_api. cbn [api_submit with_submit].
  destruct (P body creds s3.1) as [E R]. rewrite E. unfold api_result.
  destruct (f body creds s3.1).2 as [[a|]|e], (api_submit body creds s3.1).2 as [[b|]|e']; try discriminate R.
  - by rewrite R.
  - done.
  - by injection R as ->.
Qed.

Lemma bounded_hides s :
  (forall body credentials s, same_public (f body credentials s) (api_submit body credentials s)) ->
  _bounded (API := with_submit f) cfg stopping ui q s = _bounded cfg stopping ui q s.
Proof.
  intros P. unfold _bounded. apply hbind_ext. intros [] s1; cbn [negb]; [|done]. unfold hcatch.
  destruct (rq_method q); cbn [operation_of]; [done..|]. by rewrite handle_post_hides.
Qed.

(** a bundle a submission returns never reaches a client.  With another
    runtime whose submissions differ at most in the [bundle] they return,
    every request leaves the same state and sends the same responses. *)
Theorem bundle_never_sent
    (H : forall body credentials s, same_public (f body credentials s) (api_submit body credentials s))
    (s : S) (sent : list http_response) :
  handle_request (API := with_submit f) cfg stopping ui q (s, sent) = handle_request cfg stopping ui q (s, sent).
Proof.
  unfold handle_request. cbv zeta. destruct (_ && _); [|by apply bounded_hides].
  apply hbind_ext. intros [] s1; [by apply bounded_hides|done].
Qed.
End Hidden.
