(* ===== verification/HttpDeployment.v ===== *)
(** * A deployed host

    The application as the interface of the request handler
    ([application_api]), the configuration a descriptor gives both, and what it
    confines a request to. *)

From S2P Require Import Prelude PyFloat Json JsonText Text Sha256 Errors Canonical LedgerRecord Ledger LedgerInv LedgerSystem Quota Policy Ingress Status PyArith ArtifactRef WorkerCanonical Dispatch DispatchInv DispatchSettle Gate GateInv GateProps Application BundleVerifier FixedPoint RuntimeConfig RuntimeConfigProps HttpHost HttpProps.
Open Scope string_scope.
Open Scope Z_scope.
Open Scope py_scope.

Section Composition.
Context `{SchemaValidator} `{IsoText} `{Ed25519}.

Record app_env := mkAppEnv {
  ae_call : call_env (P := DispatchPort);
  ae_now : string;
  ae_cancel_io : append_outcome;
  ae_others1 : DispatchPort -> DispatchPort;
  ae_others2 : DispatchPort -> DispatchPort }.

Context (acfg : AppConfig) (g : AuthorizationGate) (build_id instance_id : string) (env : app_env).

(** [WorkingVersionApplication] implements the protocol. *)
Definition application_api : WorkingVersionApi AppState := {|
  credentials_for peer authorization := app_result (credentials_for_request acfg peer authorization);
  api_submit body credentials a := submit g (ae_call env) body credentials a;
  api_get_status id credentials a := app_get_status g id credentials (ae_now env) a;
  api_get_receipt id credentials a := app_get_receipt g id credentials a;
  api_cancel id credentials a :=
    app_cancel g id credentials (ae_now env) (ae_cancel_io env) (ae_others1 env) (ae_others2 env) a;
  api_health _ := health_document acfg build_id instance_id;
  api_readiness a := readiness_document acfg g build_id instance_id a |}.

(** What the connection of a request proves about its sender *)
Definition peer_authority (q : http_request) (credentials : odict json) : Prop :=
  if is_local acfg then
    rq_peer q = "127.0.0.1" /\ header "Authorization" q = None /\
    credentials = [("type", JStr "LOCAL_PEER_CREDENTIAL"); ("subject_id", JStr "working-version-loopback")]
  else
    exists scheme token,
      (exists h, header "Authorization" q = Some h /\ partition_space h = (scheme, true, token)) /\
      lower scheme = "bearer" /\ token <> EmptyString /\ has_space token = false /\
      credentials = [("type", JStr "TOKEN"); ("token", JStr token)].

Lemma credentials_authority q credentials :
  app_result (credentials_for_request acfg (rq_peer q) (header "Authorization" q)) = Ok credentials ->
  peer_authority q credentials.
Proof.
  unfold app_result, peer_authority, credentials_for_request. destruct (is_local acfg).
  - destruct (String.eqb_spec (rq_peer q) "127.0.0.1") as [->|]; [|done]. cbn [require rbind].
    destruct (header "Authorization" q); [done|]. by intros [= <-].
  - destruct (header "Authorization" q) as [h|]; [|done].
    destruct (partition_space h) as [[scheme sep] token] eqn:P.
    destruct (String.eqb_spec (lower scheme) "bearer") as [L|]; [|done].
    destruct sep; [|done]. destruct (String.eqb_spec token EmptyString) as [|N]; [done|].
    destruct (has_space token) eqn:Sp; [done|]. cbn. intros [= <-]. exists scheme, token. by split; [exists h|].
Qed.

(** C7: from the socket to the queue.  A request changes the application only
    when it is guarded and its connection proves its sender: loopback without
    [Authorization] under the local profile, one bearer token otherwise.  Then
    the change is the admission of exactly the announced body under those
    credentials, while the controller is ready, or a cancellation by the
    authenticated owner of an execution that was not terminal. *)
Theorem http_authority (cfg : http_config) (stopping : bool) (ui : option (string -> static_file))
    (q : http_request) (a a' : AppState) (sent sent' : list http_response) (r : Prelude.result http_exn unit)
    (Hr : handle_request (API := application_api) cfg stopping ui q (a, sent) = ((a', sent'), r)) :
  a' = a \/
  (guarded cfg stopping q /\
   exists credentials, peer_authority q credentials /\
     ((exists body, body_read cfg q body /\ app_ready a = true /\
         a' = mkApp (admit_and_dispatch g (ae_call env) (RawBytes body) (Some credentials) (app_port a)).1 true) \/
      (exists id s record, execution_route (url_path (rq_target q)) = Some (id, "cancel") /\
         authenticate (auth_port g) (Some credentials) = Ok s /\
         get_by_execution_id id (port_ledger (app_port a)) = Some record /\
         lr_authenticated_subject_id record = subject_id s /\ (lr_status record ∉ TERMINAL_STATUSES)))).
Proof.
  destruct (runs_guarded (API := application_api) cfg stopping ui q _ _ _ _ _ Hr) as [E|(_ & G & R)]; [by left|].
  destruct R as (creds & body & C & B & [[_ E]|(id & Rt & _ & E)]); cbn [credentials_for api_submit api_cancel application_api] in C, E.
  - apply credentials_authority in C. unfold submit in E. destruct (app_ready a) eqn:Rd; cbn [negb] in E; [|by left].
    right. split; [done|]. exists creds. split; [done|]. left. exists body. split; [done|]. split; [done|]. rewrite E.
    by destruct (admit_and_dispatch g (ae_call env) (RawBytes body) (Some creds) (app_port a)).
  - apply credentials_authority in C.
    destruct (app_cancel g id creds (ae_now env) (ae_cancel_io env) (ae_others1 env) (ae_others2 env) a) as [a1 res] eqn:K.
    cbn [fst] in E. subst a1. apply app_cancel_owner in K as [K|(s & rec & K)]; [by left|].
    right. split; [done|]. exists creds. split; [done|]. right. by exists id, s, rec.
Qed.
End Composition.

(** ** The deployed host *)

Section Deployment.
Context `{AuthorityChecks}.

(** The authorities [_validate_host_and_request_target] computes *)
Definition authority_of (origin : string) : option string :=
  match urlsplit origin with Ok u => Some (casefold (u_netloc u)) | Raise _ => None end.

(** What the handler reads of the configuration; the server listens on its port. *)
Definition http_config_of (c : WorkingVersionConfig) : http_config :=
  mkHttpConfig (config_is_local c) (port c) (allowed_origins c) (omap authority_of (allowed_origins c))
    (request_limit_bytes c).

(** The application reads the same configuration. *)
Definition app_config_of (c : WorkingVersionConfig) : AppConfig :=
  mkAppConfig (config_is_local c) (wv_profile c) (wv_protocol_id c) (wv_schema_version c) (wv_semantics_id c).

Lemma authority_defined profile origin u : origin_ok profile origin u -> authority_of origin = Some (casefold (u_netloc u)).
Proof. intros O. unfold authority_of. by rewrite (or_split _ _ _ O). Qed.

(** A request as a browser of the operator sends it: to the host itself, from a
    page of an allowed origin or none, under the size limit *)
Record local_request (c : WorkingVersionConfig) (q : http_request) : Prop := {
  lr_peer : rq_peer q = "127.0.0.1";
  lr_anonymous : header "Authorization" q = None;
  lr_host : exists h, header_values "Host" (rq_headers q) = [h] /\
    casefold (strip h) = (if port c =? 80 then "127.0.0.1" else "127.0.0.1:" +:+ str_of_int (port c));
  lr_origin : forall o, header "Origin" q = Some o -> o = own_origin (port c) }.

Record remote_request (c : WorkingVersionConfig) (q : http_request) (token : string) : Prop := {
  rr_bearer : exists scheme h, header "Authorization" q = Some h /\ partition_space h = (scheme, true, token) /\
    lower scheme = "bearer" /\ token <> EmptyString /\ has_space token = false;
  rr_host : exists h o u, header_values "Host" (rq_headers q) = [h] /\ o ∈ allowed_origins c /\
    origin_ok "REMOTE_TLS" o u /\ casefold (strip h) = casefold (u_netloc u);
  rr_origin : forall o, header "Origin" q = Some o ->
    o ∈ allowed_origins c /\ exists u, urlsplit o = Ok u /\ u_scheme u = "https" }.

Context `{SchemaValidator} `{IsoText} `{Ed25519}.
Context (g : AuthorizationGate) (build_id instance_id : string) (env : app_env).

Lemma host_of_remote c h :
  confined c -> wv_profile c = "REMOTE_TLS" -> host_allowed (http_config_of c) (casefold (strip h)) = true ->
  exists o u, o ∈ allowed_origins c /\ origin_ok "REMOTE_TLS" o u /\ casefold (strip h) = casefold (u_netloc u).
Proof.
  intros C P Hh. unfold host_allowed, http_config_of, config_is_local in Hh. cbn [h_local h_authorities] in Hh.
  rewrite P in Hh. apply str_in_elem, list_elem_of_omap in Hh as (o & Ho & A).
  destruct (cf_origins _ C) as (_ & _ & O). destruct (O o Ho) as [u U]. rewrite P in U.
  rewrite (authority_defined _ _ _ U) in A. injection A as A. by exists o, u.
Qed.

(** C6: a deployed controller is changed only by requests its descriptor
    admits.  Under the local profile they come over loopback without
    credentials, name the service by its own address and, when a page sends
    them, are sent by the service's own page; under the remote profile they
    carry one bearer token, name an allowed authority and come from an [https]
    origin of the descriptor or from no page at all.  Either way they carry
    [X-Delta-Request: 1] and a body of at most 10 MiB. *)
Theorem deployment_requests_confined (file : option string) (c : WorkingVersionConfig)
    (stopping : bool) (ui : option (string -> static_file)) (q : http_request)
    (a a' : AppState) (sent sent' : list http_response) (r : Prelude.result http_exn unit)
    (Hc : load_working_version_config file = Ok c)
    (Hr : handle_request (API := application_api (app_config_of c) g build_id instance_id env)
            (http_config_of c) stopping ui q (a, sent) = ((a', sent'), r))
    (Hne : a' <> a) :
  rq_method q = POST /\ stopping = false /\ header "X-Delta-Request" q = Some "1" /\
  (exists body, body_read (http_config_of c) q body /\ string_bytes body <= 10485760) /\
  if config_is_local c then local_request c q else exists token, remote_request c q token.
Proof.
  assert (C : confined c) by by eapply confined_descriptor.
  destruct (runs_guarded (API := application_api (app_config_of c) g build_id instance_id env) _ _ _ _ _ _ _ _ _ Hr)
    as [E|(Mt & G & creds & body & Cr & B & _)]; [done|].
  cbn [credentials_for application_api] in Cr. apply credentials_authority in Cr.
  split; [done|]. split; [apply (gd_running _ _ _ G)|]. split; [apply (gd_header _ _ _ G)|].
  split. { exists body. split; [done|]. pose proof (br_limit _ _ _ B) as L. cbn [http_config_of h_request_limit] in L.
    by rewrite (cf_request _ C) in L. }
  destruct (gd_host _ _ _ G) as (h & Hh & Ha). pose proof (gd_origin _ _ _ G) as Ho. cbn [http_config_of h_allowed_origins] in Ho.
  unfold peer_authority in Cr. cbn [app_config_of is_local] in Cr.
  destruct (cf_profile _ C) as [(P & _ & O)|(P & O)]; unfold config_is_local in *; rewrite P in *; cbn [String.eqb] in *.
  - destruct Cr as (Pe & Au & _). constructor; [done|done| |].
    + exists h. split; [done|]. unfold host_allowed, http_config_of, config_is_local in Ha. rewrite P in Ha.
      by apply String.eqb_eq in Ha.
    + intros o E. apply Ho in E. rewrite O in E. by apply list_elem_of_singleton in E.
  - destruct Cr as (scheme & token & (hd & Au & Pa) & L & N & Sp & _). exists token. constructor.
    + by exists scheme, hd.
    + destruct (host_of_remote c h C P Ha) as (o & u & Hin & U & E). by exists h, o, u.
    + intros o E. apply Ho in E. split; [done|]. destruct (O o E) as (u & U & S). exists u. split; [apply (or_split _ _ _ U)|done].
Qed.
End Deployment.
