(* ===== verification/HttpWitness.v ===== *)
(** * The HTTP handler on concrete requests

    The submission of [GateWitness] arrives as a POST of an operator's browser;
    the same request with a foreign origin, without the request header, with a
    short body and after the shutdown is refused. *)

From stdpp Require Import relations.
From S2P Require Import Prelude PyFloat Json JsonText Text Sha256 Errors Canonical LedgerRecord Ledger LedgerInv LedgerSystem Quota Policy Ingress Status LedgerWitness PyArith ArtifactRef WorkerCanonical Dispatch DispatchInv DispatchSettle DispatchWitness Gate GateInv GateProps GateWitness Application BundleVerifier FixedPoint RuntimeConfig RuntimeConfigProps RuntimeIdentity HttpHost HttpProps HttpDeployment.
Open Scope string_scope.
Open Scope Z_scope.
Open Scope py_scope.

Definition web_config : http_config :=
  mkHttpConfig false 443 ["https://ops.example"] ["ops.example"] 10485760.
Definition web_app_config : AppConfig :=
  mkAppConfig false "shared" "p" "1.0.0" "f".
Definition web_env : app_env := mkAppEnv (quiet_env AppendOk true) "t8" AppendOk id id.
Definition web_app : AppState := mkApp sub_port true.
#[local] Instance web_api : WorkingVersionApi AppState :=
  application_api (H := accept_all) (H1 := toy_ed25519) web_app_config sub_gate "build-1" "instance-1" web_env.

Definition web_body : string := Eval vm_compute in dumps_compact (JObj sub_intent).
Definition web_headers (origin : string) : list (string * string) :=
  [("host", " Ops.Example "); ("Origin", origin); ("Authorization", "Bearer s3cret"); ("x-delta-request", "1");
   ("Content-Type", "application/json; charset=UTF-8");
   ("Content-Length", str_of_int (string_bytes web_body))].
Definition web_request (origin body : string) : http_request :=
  mkRequest POST "/api/v1/intent/submit?x=1" true (web_headers origin) "10.0.0.7" (fun _ => BodyBytes body) (fun _ => SentWhole).

Definition web_run (stopping : bool) (q : http_request) := handle_request web_config stopping None q (web_app, []).

Definition web_out := Eval vm_compute in web_run false (web_request "https://ops.example" web_body).

Lemma web_out_eq :
  handle_request web_config false None (web_request "https://ops.example" web_body) (web_app, []) =
  ((web_out.1.1, web_out.1.2), web_out.2).
Proof. vm_compute. reflexivity. Qed.

(** It is admitted and dispatched. *)
Example web_admitted : map r_status web_out.1.2 = [201] /\ web_out.1.1 <> web_app.
Proof. split; [reflexivity|discriminate]. Qed.

(** Nothing else of it is. *)
Definition web_refusals := Eval vm_compute in
  [web_run false (web_request "https://evil.example" web_body);
   web_run false (web_request "https://ops.example" "{}");
   web_run true (web_request "https://ops.example" web_body)].
Example web_refused :
  map (fun x => map r_status x.1.2) web_refusals = [[403]; [400]; [503]] /\
  Forall (fun x => x.1.1 = web_app) web_refusals.
Proof. split; [reflexivity|]. repeat constructor. Qed.

(** A client that does not take its answer in time is begun a second one, one
    that breaks the connection none. *)
Definition slow_request (outcome : nat -> send_outcome) : http_request :=
  mkRequest GET "/healthz" true [("Host", "ops.example")] "10.0.0.7" (fun _ => BodyTimeout) outcome.
Example slow_answers :
  map (fun outcome => (map (fun x => (r_status x, r_written x)) (web_run false (slow_request outcome)).1.2,
                       (web_run false (slow_request outcome)).2))
    [fun _ => SentWhole; fun n => if (n =? 0)%nat then SendTimedOut else SentWhole; fun _ => SendTimedOut; fun _ => SendBroke] =
  [([(200, SentWhole)], Ok tt); ([(200, SendTimedOut); (408, SentWhole)], Ok tt);
   ([(200, SendTimedOut); (408, SendTimedOut)], Raise HttpTimeout); ([(200, SendBroke)], Ok tt)].
Proof. vm_compute. reflexivity. Qed.


(** The operator's bearer token is all the authority there is. *)
Lemma http_authority_witness :
  guarded web_config false (web_request "https://ops.example" web_body) /\
  exists credentials, peer_authority web_app_config (web_request "https://ops.example" web_body) credentials.
Proof.
  destruct (http_authority (H := accept_all) (H1 := toy_ed25519) web_app_config sub_gate "build-1" "instance-1" web_env
              web_config false None (web_request "https://ops.example" web_body)
              web_app web_out.1.1 [] web_out.1.2 web_out.2) as [E|(G & c & P & _)].
  - exact web_out_eq.
  - exfalso. revert E. exact (proj2 web_admitted).
  - split; [exact G|]. exists c. exact P.
Defined.

(** A runtime that returns another bundle with every submission *)
Definition redacted (body : string) (credentials : odict json) (a : AppState)
  : AppState * Prelude.result app_error (option (odict json)) :=
  let '(a', r) := api_submit body credentials a in
  (a', match r with Ok (Some d) => Ok (Some (("bundle", JStr "redacted") :: public_result d)) | _ => r end).

Lemma public_result_idem d : public_result (public_result d) = public_result d.
Proof.
  unfold public_result. induction d as [|kv d IH]; [done|]. cbn [List.filter].
  destruct (negb _) eqn:E; [|exact IH]. cbn [List.filter]. by rewrite E, IH.
Qed.

Lemma redacted_public body credentials a : same_public (redacted body credentials a) (api_submit body credentials a).
Proof.
  unfold redacted, same_public. destruct (api_submit body credentials a) as [a' [[d|]|e]]; [|done..].
  split; [done|]. exact (public_result_idem d).
Qed.

Lemma bundle_never_sent_witness :
  handle_request (API := with_submit redacted) web_config false None (web_request "https://ops.example" web_body)
    (web_app, []) = web_out.
Proof.
  rewrite (bundle_never_sent redacted web_config false None _ redacted_public web_app []).
  exact web_out_eq.
Defined.

(** The gate returns no bundle, the other runtime does. *)
Definition returns_bundle (r : Prelude.result app_error (option (odict json))) : bool :=
  match r with Ok (Some d) => bool_decide (is_Some (od_get "bundle" d)) | _ => false end.
Example redaction_matters :
  (returns_bundle (api_submit web_body Policy.demo_credentials web_app).2,
   returns_bundle (redacted web_body Policy.demo_credentials web_app).2) = (false, true).
Proof. vm_compute. reflexivity. Qed.

(** ** Concrete configurations *)

(** No authority outside ASCII, no address in brackets *)
#[local] Instance ascii_authorities : AuthorityChecks := {| normalizes_safely _ := false; bracketed_ok _ := false |}.

Example split_origin :
  urlsplit "https://ops.example:8443" = Ok (mkSplit "https" "ops.example:8443" EmptyString EmptyString EmptyString) /\
  url_port (mkSplit "https" "ops.example:8443" EmptyString EmptyString EmptyString) = Ok (Some 8443) /\
  urlsplit "HTTP://u:p@h/a?b#c" = Ok (mkSplit "http" "u:p@h" "/a" "b" "c").
Proof. repeat split; reflexivity. Qed.

Definition descriptor (profile host : string) (port : Z) (origins : list string) : string :=
  dumps_compact (JObj
    [("schema_version", JStr "1.0.0"); ("build_id_source", JStr "required-cli-argument"); ("profile", JStr profile);
     ("bindings", JObj [("host", JStr host); ("port", JInt port); ("allowed_origins", JArr (map JStr origins))]);
     ("limits", JObj [("request_bytes", JInt 10485760); ("json_depth", JInt 32); ("request_timeout_seconds", JFloat (float_of_decimal false 15 0));
                      ("max_inflight_requests", JInt 32); ("request_queue_size", JInt 64); ("worker_queue_capacity", JInt 8);
                      ("worker_processes", JInt 2); ("shutdown_grace_seconds", JInt 20)]);
     ("identity", JObj [("local_subject_id", JStr "operator"); ("local_effective_roles", JArr [JStr "OPERATOR"])]);
     ("protocol_id", JStr HTTP_PROTOCOL_ID); ("contract_schema_version", JStr CONTRACT_SCHEMA_VERSION);
     ("formal_semantics_id", JStr FORMAL_SEMANTICS_ID)]).

Definition loaded (file : string) : option WorkingVersionConfig :=
  match load_working_version_config (Some file) with Ok c => Some c | Raise _ => None end.

Definition local_file : string := Eval vm_compute in descriptor "LOCAL_LOOPBACK" "127.0.0.1" 8080 ["http://127.0.0.1:8080"].
Definition remote_file : string := Eval vm_compute in descriptor "REMOTE_TLS" "0.0.0.0" 443 ["https://ops.example"].

(** What a descriptor may not ask for *)
Example descriptors_refused :
  forallb (fun file => match loaded file with None => true | Some _ => false end)
    [descriptor "LOCAL_LOOPBACK" "0.0.0.0" 8080 ["http://127.0.0.1:8080"];
     descriptor "LOCAL_LOOPBACK" "127.0.0.1" 8080 ["http://localhost:8080"];
     descriptor "REMOTE_TLS" "0.0.0.0" 443 ["http://ops.example"];
     descriptor "REMOTE_TLS" "0.0.0.0" 443 ["https://*.example"];
     descriptor "REMOTE_TLS" "0.0.0.0" 443 ["https://ops.example/admin"];
     descriptor "REMOTE_TLS" "0.0.0.0" 0 ["https://ops.example"]] = true.
Proof. vm_compute. reflexivity. Qed.

Definition local_config : WorkingVersionConfig := Eval vm_compute in
  match load_working_version_config (Some local_file) with Ok c => c | Raise _ => mkWorkingVersion "" "" 0 [] 0 0 FNan 0 0 0 0 FNan "" [] "" "" "" end.
Lemma local_loaded : load_working_version_config (Some local_file) = Ok local_config.
Proof. vm_compute. reflexivity. Qed.

Lemma deployment_confined_witness :
  confined local_config /\ bind_host local_config = "127.0.0.1" /\ allowed_origins local_config = ["http://127.0.0.1:8080"].
Proof. split; [exact (deployment_confined (Some local_file) local_config local_loaded)|split; reflexivity]. Defined.

Definition remote_config : WorkingVersionConfig := Eval vm_compute in
  match load_working_version_config (Some remote_file) with Ok c => c | Raise _ => local_config end.
Lemma remote_loaded : load_working_version_config (Some remote_file) = Ok remote_config.
Proof. vm_compute. reflexivity. Qed.

Lemma remote_run :
  handle_request
    (API := application_api (H := accept_all) (H1 := toy_ed25519) (app_config_of remote_config) sub_gate "build-1" "instance-1" web_env)
    (http_config_of remote_config) false None (web_request "https://ops.example" web_body) (web_app, [])
  = ((web_out.1.1, web_out.1.2), web_out.2).
Proof. vm_compute. reflexivity. Qed.

Lemma deployment_requests_confined_witness :
  exists token, remote_request remote_config (web_request "https://ops.example" web_body) token.
Proof.
  destruct (deployment_requests_confined (H0 := accept_all) (H2 := toy_ed25519) sub_gate "build-1" "instance-1" web_env
              (Some remote_file) remote_config false None (web_request "https://ops.example" web_body)
              web_app web_out.1.1 [] web_out.1.2 web_out.2 remote_loaded remote_run (proj2 web_admitted)) as (_ & _ & _ & _ & T).
  exact T.
Defined.

(** ** Tokens *)

Definition token_file : string := Eval vm_compute in
  dumps_compact (JObj [("schema_version", JStr "1.0.0");
    ("token_subjects", JArr [JObj [("token_sha256", JStr (sha256_hex "s3cret")); ("subject_id", JStr "alice");
                                   ("effective_roles", JArr [JStr "OPERATOR"])]])]).
Definition token_port : HashedTokenAuthenticationPort := Eval vm_compute in
  match hashed_port_from_file (Some token_file) with Ok p => p | Raise _ => mkHashedPort [] end.

Example token_refused :
  hashed_authenticate token_port (Some [("type", JStr "TOKEN"); ("token", JStr (sha256_hex "s3cret"))]) =
  Raise (auth_failed "Invalid or unknown bearer token").
Proof. vm_compute. reflexivity. Qed.

Lemma token_authentication_exact_witness :
  hashed_authenticate token_port (Some [("type", JStr "TOKEN"); ("token", JStr "s3cret")]) =
    Ok (mkSubject "alice" "TOKEN" ["OPERATOR"]) /\
  exists token : string, token <> EmptyString /\ encodable token = true.
Proof.
  assert (A : hashed_authenticate token_port (Some [("type", JStr "TOKEN"); ("token", JStr "s3cret")]) =
              Ok (mkSubject "alice" "TOKEN" ["OPERATOR"])) by (vm_compute; reflexivity).
  split; [exact A|].
  assert (L : hashed_port_from_file (Some token_file) = Ok token_port) by (vm_compute; reflexivity).
  destruct (token_authentication_exact (Some token_file) token_port L) as (_ & doc & entries & _ & _ & E).
  apply E in A. destruct A as (c & token & entry & _ & _ & _ & N & En & _). exists token. split; [exact N|exact En].
Defined.

(** ** The signing identity *)

#[local] Instance toy_codec : KeyCodec (H := toy_ed25519) := {|
  private_pem sk := ("PEM " +:+ sk)%string;
  load_pem t := match strip_prefix "PEM " t with Some sk => Some (Some sk) | None => None end;
  load_private_pem sk := eq_refl |}.

Definition toy_key : private_key (Ed25519 := toy_ed25519) := "0123456789abcdef0123456789abcdef".
Definition toy_identity : RuntimeIdentity (H := toy_ed25519) := bootstrapped (ED := toy_ed25519) toy_key.

Lemma identity_trusted_witness :
  lower_hex 64 (public_key_hex (H := toy_ed25519) toy_identity) = true /\
  (key_id (signing (H := toy_ed25519) toy_identity) ∉ _FIXTURE_KEY_IDS).
Proof.
  destruct (identity_trusted (ED := toy_ed25519) true toy_key Written Written (mkFiles None None)
              (mkFiles (Some (private_pem toy_key)) (Some (roots_text toy_key))) toy_identity (bootstrap_fresh (ED := toy_ed25519) toy_key eq_refl))
    as (_ & _ & L & K & _).
  split; [exact L|exact K].
Defined.

Lemma bootstrap_decided_once_witness :
  exists e : exn,
    load_or_bootstrap_runtime_identity (H := toy_ed25519) true "another key" Written Written
      (mkFiles (Some (private_pem toy_key)) None) = (mkFiles (Some (private_pem toy_key)) None, Raise e).
Proof.
  destruct (bootstrap_decided_once (ED := toy_ed25519) toy_key "another key" true Written Written eq_refl)
    as (_ & _ & _ & E). exact E.
Defined.

(** ** The lease *)

Definition toy_owner (c : positive) : string := owner_text (Zpos c) "build-1" "/data".
Definition lease0 : lease_dir := mkLease None (Some "stale") ∅.
Definition lease1 : lease_dir := Eval vm_compute in (acquire_lock 1%positive lease0).1.
Definition lease2 : lease_dir := Eval vm_compute in (write_owner toy_owner 1%positive Written lease1).1.
Definition lease3 : lease_dir := Eval vm_compute in unlock 1%positive lease2.
Definition lease4 : lease_dir := Eval vm_compute in (acquire_lock 2%positive lease3).1.

(** The first process dies; the second takes over. *)
Lemma lease_run : rtc (lease_step toy_owner) lease0 lease4.
Proof.
  eapply rtc_l; [exact (step_acquire_lock toy_owner 1%positive lease0 lease1 eq_refl)|].
  eapply rtc_l; [exact (step_write_owner toy_owner 1%positive Written lease1 lease2 (Ok tt) eq_refl eq_refl)|].
  eapply rtc_l; [apply (step_dies toy_owner 1%positive lease2); discriminate|].
  eapply rtc_l; [exact (step_acquire_lock toy_owner 2%positive lease3 lease4 eq_refl)|]. apply rtc_refl.
Qed.

Lemma lease_exclusive_witness : exists m, acquire_lock 3%positive lease4 = (lease4, Raise (RuntimeErr m)).
Proof.
  destruct (lease_exclusive toy_owner (Some "stale") lease4 lease_run) as (_ & _ & _ & E).
  apply E; [reflexivity|discriminate].
Defined.
