(* ===== verification/HttpServer.v ===== *)
(** * The HTTP server ([WorkingVersionHttpServer] of [deltacontroller/http_host.py])

    The accept loop, one thread per admitted connection and the thread that
    enforces deadlines share a semaphore of request slots and a dictionary of
    deadlines under one condition.  Each block under the condition and each
    access of the semaphore is one function; [server_step] lets the threads take
    them in any order.  A connection is a number; its socket is open until
    someone closes it.  Clock readings, the start of a thread and what a
    connection sends are arguments.  Timeouts of single socket calls, TLS
    handshakes beyond their success and the waiting of the monitor are not
    modelled. *)

From stdpp Require Import gmap relations.
From S2P Require Import Prelude PyFloat Json JsonText Text Ingress WorkerCanonical.
Open Scope string_scope.
Open Scope Z_scope.
Open Scope py_scope.

Abbreviation conn := positive.

(** Where a connection is in the code *)
Inductive phase :=
| Accepted      (* returned by [get_request] *)
| Rejecting     (* no slot: [_reject_connection_at_capacity] *)
| Acquired      (* holds a slot, [_track_request] is next *)
| Refused       (* [_track_request] said no: release, close *)
| Registered    (* has a deadline, its thread is being started *)
| StartFailed   (* the thread did not start: untrack, release, close *)
| Running       (* in [process_request_thread] *)
| Finishing     (* closed by its thread, the [finally] block is next *)
| Releasing     (* untracked, its slot is next *)
| Done.

#[export] Instance phase_eq_dec : EqDecision phase.
Proof. solve_decision. Defined.

(** The attributes of the server, and the sockets its threads hold.
    [sv_pending] are the sockets taken from the dictionary to be closed. *)
Record http_server := mkServer {
  request_slots : Z;
  request_deadlines : gmap conn Z;
  sv_stopping : bool;
  deadline_monitor_stopping : bool;
  sv_phases : gmap conn phase;
  sv_open : gset conn;
  sv_pending : gset conn }.

(** [__init__] *)
Definition new_server (max_inflight_requests : Z) : http_server :=
  mkServer max_inflight_requests ∅ false false ∅ ∅ ∅.

Definition at_phase (c : conn) (ph : phase) (v : http_server) : http_server :=
  mkServer (request_slots v) (request_deadlines v) (sv_stopping v) (deadline_monitor_stopping v)
    (<[c := ph]> (sv_phases v)) (sv_open v) (sv_pending v).

(** [shutdown_request] and [_close_request_socket] *)
Definition close_socket (c : conn) (v : http_server) : http_server :=
  mkServer (request_slots v) (request_deadlines v) (sv_stopping v) (deadline_monitor_stopping v)
    (sv_phases v) (sv_open v ∖ {[c]}) (sv_pending v ∖ {[c]}).

Definition set_deadlines (d : gmap conn Z) (v : http_server) : http_server :=
  mkServer (request_slots v) d (sv_stopping v) (deadline_monitor_stopping v) (sv_phases v) (sv_open v) (sv_pending v).

(** The semaphore; [release] of a [BoundedSemaphore] raises above its bound. *)
Definition acquire_slot (v : http_server) : option http_server :=
  if 0 <? request_slots v then
    Some (mkServer (request_slots v - 1) (request_deadlines v) (sv_stopping v) (deadline_monitor_stopping v)
            (sv_phases v) (sv_open v) (sv_pending v))
  else None.

Definition release_slot (bound : Z) (v : http_server) : option http_server :=
  if request_slots v <? bound then
    Some (mkServer (request_slots v + 1) (request_deadlines v) (sv_stopping v) (deadline_monitor_stopping v)
            (sv_phases v) (sv_open v) (sv_pending v))
  else None.

(** [_track_request] *)
Definition _track_request (c : conn) (now timeout : Z) (v : http_server) : http_server * bool :=
  let deadline := now + timeout in
  if sv_stopping v || deadline_monitor_stopping v then (v, false)
  else (set_deadlines (<[c := deadline]> (request_deadlines v)) v, true).

(** [_untrack_request] *)
Definition _untrack_request (c : conn) (v : http_server) : http_server :=
  set_deadlines (delete c (request_deadlines v)) v.

(** One pass of [_enforce_request_deadlines] under its lock: [None] when it
    waits or ends, else the expired connections are taken to be closed. *)
Definition expired (now : Z) (v : http_server) : gmap conn Z :=
  filter (fun kv => kv.2 <= now) (request_deadlines v).

Definition take_all (cs : gset conn) (d : gmap conn Z) (v : http_server) : http_server :=
  mkServer (request_slots v) d (sv_stopping v) (deadline_monitor_stopping v)
    (sv_phases v) (sv_open v) (sv_pending v ∪ cs).

Definition _enforce_request_deadlines (now : Z) (v : http_server) : option http_server :=
  if deadline_monitor_stopping v then None
  else if bool_decide (expired now v = ∅) then None
  else Some (take_all (dom (expired now v)) (filter (fun kv => ~ kv.2 <= now) (request_deadlines v)) v).

(** [_close_active_requests] *)
Definition _close_active_requests (v : http_server) : http_server :=
  take_all (dom (request_deadlines v)) ∅ v.

(** [_stop_deadline_monitor] *)
Definition _stop_deadline_monitor (v : http_server) : http_server :=
  mkServer (request_slots v) ∅ (sv_stopping v) true (sv_phases v) (sv_open v)
    (sv_pending v ∪ dom (request_deadlines v)).

(** [stopping.set()] *)
Definition set_stopping (v : http_server) : http_server :=
  mkServer (request_slots v) (request_deadlines v) true (deadline_monitor_stopping v)
    (sv_phases v) (sv_open v) (sv_pending v).

(** [shutdown] and [server_close], as far as they go before waiting *)
Definition shutdown_requests (v : http_server) : http_server := _close_active_requests (set_stopping v).
Definition close_server (v : http_server) : http_server := _stop_deadline_monitor (set_stopping v).

(** ** The threads *)

(** [process_request] up to its first decision *)
Definition process_request (c : conn) (v : http_server) : http_server :=
  match acquire_slot v with
  | None => at_phase c Rejecting v
  | Some v => at_phase c Acquired v
  end.

(** Its [_track_request] *)
Definition process_track (c : conn) (now timeout : Z) (v : http_server) : http_server :=
  let '(v, tracked) := _track_request c now timeout v in
  at_phase c (if tracked then Registered else Refused) v.

Section Steps.
Context (bound timeout : Z).

(** A step of some thread.  The accept loop takes a connection from [Accepted]
    to [Done] or starts its thread; the thread takes it from [Running]. *)
Inductive server_step : http_server -> http_server -> Prop :=
| step_accept c v : sv_phases v !! c = None ->
    server_step v (at_phase c Accepted
      (mkServer (request_slots v) (request_deadlines v) (sv_stopping v) (deadline_monitor_stopping v)
         (sv_phases v) ({[c]} ∪ sv_open v) (sv_pending v)))
| step_acquire c v : sv_phases v !! c = Some Accepted -> server_step v (process_request c v)
| step_reject c v : sv_phases v !! c = Some Rejecting -> server_step v (at_phase c Done (close_socket c v))
| step_track c now v : sv_phases v !! c = Some Acquired -> server_step v (process_track c now timeout v)
| step_refuse c v v' : sv_phases v !! c = Some Refused -> release_slot bound v = Some v' ->
    server_step v (at_phase c Done (close_socket c v'))
| step_start c started v : sv_phases v !! c = Some Registered ->
    server_step v (at_phase c (if (started : bool) then Running else StartFailed) v)
| step_start_failed c v v' : sv_phases v !! c = Some StartFailed ->
    release_slot bound (_untrack_request c v) = Some v' -> server_step v (at_phase c Done (close_socket c v'))
| step_finish c v : sv_phases v !! c = Some Running -> server_step v (at_phase c Finishing (close_socket c v))
| step_untrack c v : sv_phases v !! c = Some Finishing -> server_step v (at_phase c Releasing (_untrack_request c v))
| step_release c v v' : sv_phases v !! c = Some Releasing -> release_slot bound v = Some v' ->
    server_step v (at_phase c Done v')
| step_enforce now v v' : _enforce_request_deadlines now v = Some v' -> server_step v v'
| step_close c v : c ∈ sv_pending v -> server_step v (close_socket c v)
| step_stopping v : server_step v (set_stopping v)
| step_close_active v : sv_stopping v = true -> server_step v (_close_active_requests v)
| step_stop_monitor v : sv_stopping v = true -> server_step v (_stop_deadline_monitor v).
End Steps.

(** ** Rejecting at capacity *)

Definition crlf : string := String (ascii_of_nat 13) (String (ascii_of_nat 10) EmptyString).

Definition backpressure_document : json :=
  JObj [("schema_version", JStr "1.0.0");
        ("error", JObj [("schema_version", JStr "1.0.0"); ("error_code", JStr "ERR_BACKPRESSURE");
                        ("category", JStr "TRANSPORT"); ("retryable", JBool true);
                        ("message", JStr "HTTP request concurrency limit reached")])].

Definition backpressure_payload : string := dumps_compact (sort_keys backpressure_document).
Definition backpressure_head : string :=
  ("HTTP/1.1 429 Too Many Requests" +:+ crlf +:+ "Connection: close" +:+ crlf +:+ "Cache-Control: no-store" +:+ crlf
   +:+ "Content-Type: application/json; charset=utf-8" +:+ crlf
   +:+ "Content-Length: " +:+ str_of_int (string_bytes backpressure_payload) +:+ crlf
   +:+ "Retry-After: 1" +:+ crlf +:+ "X-Content-Type-Options: nosniff" +:+ crlf +:+ crlf)%string.

(** [recv(n)]: at most [n] bytes, none at the end of the stream, or an [OSError] *)
Inductive recv_outcome := Received (bytes : string) | RecvFails.

Definition blank_line : string := (crlf +:+ crlf)%string.
Definition has_blank_line (s : string) : bool :=
  match String.index 0 blank_line s with Some _ => true | None => false end.

(** The loop, one [recv] a step, of the bytes [received] so far; [None] is an
    [OSError], which a connection that stays silent ends in too. *)
Fixpoint drain_request (peer : list (Z -> recv_outcome)) (received : string) : option string :=
  if negb (has_blank_line received) && (string_bytes received <=? 65536) then
    match peer with
    | [] => None
    | recv :: peer =>
        match recv (Z.min 4096 (65537 - string_bytes received)) with
        | RecvFails => None
        | Received EmptyString => Some received
        | Received chunk => drain_request peer (received +:+ chunk)
        end
    end
  else Some received.

(** [_reject_connection_at_capacity]: what is sent, if anything *)
Definition _reject_connection_at_capacity (peer : list (Z -> recv_outcome)) : option string :=
  match drain_request peer EmptyString with
  | Some received =>
      if has_blank_line received then Some (backpressure_head +:+ backpressure_payload)%string else None
  | None => None
  end.
