(* ===== verification/HttpServerProps.v ===== *)
(** * Properties of the HTTP server

    Slots are conserved under every interleaving, a connection with a thread has
    a deadline as long as it is open, and a shutdown leaves none open. *)

From stdpp Require Import gmap relations.
From S2P Require Import Prelude PyFloat Json JsonText Text Ingress WorkerCanonical HttpServer.
Open Scope string_scope.
Open Scope Z_scope.
Open Scope py_scope.

(** The phases in which a connection holds a slot, and a registered one *)
Definition holds_slot (ph : phase) : bool :=
  match ph with
  | Acquired | Refused | Registered | StartFailed | Running | Finishing | Releasing => true
  | Accepted | Rejecting | Done => false
  end.
Definition may_be_tracked (ph : phase) : bool :=
  match ph with Registered | StartFailed | Running | Finishing => true | _ => false end.
Definition is_closed (ph : phase) : bool :=
  match ph with Finishing | Releasing | Done => true | _ => false end.
Definition served (ph : phase) : bool := match ph with Registered | Running => true | _ => false end.

Definition slot_holders (m : gmap conn phase) : gmap conn phase := filter (fun kv => holds_slot kv.2 = true) m.
Definition slots_taken (m : gmap conn phase) : Z := Z.of_nat (size (slot_holders m)).

(** ** Counting slots *)

Lemma slots_taken_insert c ph m :
  slots_taken (<[c := ph]> m) =
  slots_taken m + (if holds_slot ph then 1 else 0) -
  (match m !! c with Some old => if holds_slot old then 1 else 0 | None => 0 end).
Proof.
  unfold slots_taken, slot_holders.
  assert (D : size (filter (fun kv => holds_slot kv.2 = true) (delete c m)) =
              (size (filter (fun kv => holds_slot kv.2 = true) m) -
               match m !! c with Some old => if holds_slot old then 1 else 0 | None => 0 end)%nat).
  { rewrite map_filter_delete. destruct (m !! c) as [old|] eqn:E.
    - destruct (holds_slot old) eqn:Ho.
      + rewrite map_size_delete_Some; [lia|]. exists old. by rewrite map_lookup_filter_Some.
      + rewrite map_size_delete_None; [lia|]. rewrite map_lookup_filter_None. right. intros x Ex. cbn. congruence.
    - rewrite map_size_delete_None; [lia|]. rewrite map_lookup_filter_None. by left. }
  rewrite <- insert_delete_eq. destruct (holds_slot ph) eqn:Hp.
  - rewrite map_filter_insert_True by done. rewrite map_size_insert_None.
    + rewrite D. destruct (m !! c) as [old|] eqn:E; [|lia]. destruct (holds_slot old) eqn:Ho; [|lia].
      assert (size (filter (fun kv => holds_slot kv.2 = true) m) <> 0%nat); [|lia].
      apply map_size_ne_0_lookup. exists c. exists old. by rewrite map_lookup_filter_Some.
    + rewrite map_lookup_filter_None. left. apply lookup_delete_eq.
  - rewrite map_filter_insert_False by (cbn; congruence). rewrite delete_delete_eq, D.
    destruct (m !! c) as [old|] eqn:E; [|lia]. destruct (holds_slot old) eqn:Ho; [|lia].
    assert (size (filter (fun kv => holds_slot kv.2 = true) m) <> 0%nat); [|lia].
    apply map_size_ne_0_lookup. exists c. exists old. by rewrite map_lookup_filter_Some.
Qed.

(** ** The invariant *)

Record server_inv (bound : Z) (v : http_server) : Prop := {
  si_slots : request_slots v + slots_taken (sv_phases v) = bound;
  si_bound : 0 <= request_slots v;
  si_tracked : forall c d, request_deadlines v !! c = Some d ->
    exists ph, sv_phases v !! c = Some ph /\ may_be_tracked ph = true;
  si_served : forall c ph, sv_phases v !! c = Some ph -> served ph = true -> c ∈ sv_open v ->
    is_Some (request_deadlines v !! c) \/ c ∈ sv_pending v;
  si_closed : forall c ph, sv_phases v !! c = Some ph -> is_closed ph = true -> c ∉ sv_open v }.

(** Looks the phase of [x] up after [c] has moved. *)
Ltac move_cases x c :=
  destruct (decide (x = c)) as [->|?];
  [rewrite ?lookup_insert_eq in * |rewrite ?lookup_insert_ne in * by done].

(** Moving [c] between two phases: what the slots, the deadlines and the open
    sockets must be for the invariant to survive. *)
Lemma inv_at_phase bound v w c ph :
  server_inv bound v ->
  sv_phases w = sv_phases v ->
  request_slots w + (if holds_slot ph then 1 else 0) -
    (match sv_phases v !! c with Some old => if holds_slot old then 1 else 0 | None => 0 end) = request_slots v ->
  0 <= request_slots w ->
  (forall x d, request_deadlines w !! x = Some d -> x <> c -> is_Some (request_deadlines v !! x)) ->
  (is_Some (request_deadlines w !! c) -> may_be_tracked ph = true) ->
  (forall x, x <> c -> is_Some (request_deadlines v !! x) \/ x ∈ sv_pending v -> x ∈ sv_open w ->
    is_Some (request_deadlines w !! x) \/ x ∈ sv_pending w) ->
  (forall x, x <> c -> x ∈ sv_open w -> x ∈ sv_open v) ->
  (served ph = true -> c ∈ sv_open w -> is_Some (request_deadlines w !! c) \/ c ∈ sv_pending w) ->
  (is_closed ph = true -> c ∉ sv_open w) ->
  server_inv bound (at_phase c ph w).
Proof.
  intros [I1 I2 I3 I4 I5] Ep Es Eb Ed Et Ek Eo Es' Ec. constructor; cbn [at_phase request_slots request_deadlines sv_phases sv_open sv_pending].
  - rewrite Ep, slots_taken_insert. lia.
  - done.
  - rewrite Ep. intros x d Hx. move_cases x c; [exists ph; split; [done|apply Et; by exists d]|].
    destruct (Ed x d Hx) as [d' Hd]; [done|]. exact (I3 x d' Hd).
  - rewrite Ep. intros x p Hx Sp Op. move_cases x c; [injection Hx as <-; by apply Es'|].
    apply Ek; [done| |done]. apply (I4 x p); auto.
  - rewrite Ep. intros x p Hx Cp. move_cases x c; [injection Hx as <-; by apply Ec|].
    intros Op. by apply (I5 x p Hx Cp), Eo.
Qed.

Lemma inv_new bound : 0 <= bound -> server_inv bound (new_server bound).
Proof. intros B. constructor; cbn; try done. unfold slots_taken, slot_holders. rewrite map_filter_empty, map_size_empty. lia. Qed.

Lemma inv_close bound c v : server_inv bound v -> server_inv bound (close_socket c v).
Proof.
  intros [I1 I2 I3 I4 I5]. constructor; cbn [close_socket request_slots request_deadlines sv_phases sv_open sv_pending]; try done.
  - intros x ph Hx Sp Op. destruct (I4 x ph Hx Sp) as [|]; [set_solver|by left|right; set_solver].
  - intros x ph Hx Cp Op. apply (I5 x ph Hx Cp). set_solver.
Qed.

(** Taking connections out of the dictionary to close them *)
Lemma inv_take bound (v w : http_server) :
  server_inv bound v -> request_slots w = request_slots v -> sv_phases w = sv_phases v -> sv_open w = sv_open v ->
  request_deadlines w ⊆ request_deadlines v -> sv_pending v ⊆ sv_pending w ->
  (forall x, is_Some (request_deadlines v !! x) -> is_Some (request_deadlines w !! x) \/ x ∈ sv_pending w) ->
  server_inv bound w.
Proof.
  intros [I1 I2 I3 I4 I5] Es Ep Eo Ed Ek Et. constructor; rewrite ?Es, ?Ep, ?Eo; try done.
  - intros c d Hd. apply (I3 c d). exact (lookup_weaken _ _ _ _ Hd Ed).
  - intros x ph Hx Sp Op. destruct (I4 x ph Hx Sp Op) as [|]; [by apply Et|right; set_solver].
Qed.

Lemma enforce_Some now v v' :
  _enforce_request_deadlines now v = Some v' ->
  v' = take_all (dom (expired now v)) (filter (fun kv => ~ kv.2 <= now) (request_deadlines v)) v.
Proof.
  unfold _enforce_request_deadlines. destruct (deadline_monitor_stopping v); [done|]. case_bool_decide; [done|]. by intros [= <-].
Qed.

Lemma split_deadlines now v c d :
  request_deadlines v !! c = Some d ->
  if d <=? now then c ∈ dom (expired now v)
  else filter (fun kv : conn * Z => ~ kv.2 <= now) (request_deadlines v) !! c = Some d.
Proof.
  intros E. destruct (Z.leb_spec d now).
  - apply elem_of_dom. exists d. by apply map_lookup_filter_Some.
  - apply map_lookup_filter_Some. split; [done|]. cbn. lia.
Qed.

Lemma inv_enforce bound now v v' :
  server_inv bound v -> _enforce_request_deadlines now v = Some v' -> server_inv bound v'.
Proof.
  intros I ->%enforce_Some. apply (inv_take bound v); [done|done|done|done|apply map_filter_subseteq|set_solver|].
  intros x [d E]. pose proof (split_deadlines now v x d E) as K. cbn [take_all request_deadlines sv_pending].
  destruct (d <=? now); [right; set_solver|left; by exists d].
Qed.

Lemma acquire_slot_Some v v' :
  acquire_slot v = Some v' -> 0 < request_slots v /\ request_slots v' = request_slots v - 1 /\
  request_deadlines v' = request_deadlines v /\ sv_phases v' = sv_phases v /\ sv_open v' = sv_open v /\
  sv_pending v' = sv_pending v.
Proof. unfold acquire_slot. destruct (Z.ltb_spec 0 (request_slots v)); [|done]. by intros [= <-]. Qed.

Lemma release_slot_Some bound v v' :
  release_slot bound v = Some v' -> request_slots v' = request_slots v + 1 /\
  request_deadlines v' = request_deadlines v /\ sv_phases v' = sv_phases v /\ sv_open v' = sv_open v /\
  sv_pending v' = sv_pending v.
Proof. unfold release_slot. destruct (_ <? _); [|done]. by intros [= <-]. Qed.

(** The slot a connection that holds one gives back is missing. *)
Lemma holder_missing bound v c ph :
  server_inv bound v -> sv_phases v !! c = Some ph -> holds_slot ph = true -> request_slots v < bound.
Proof.
  intros I E Hh. assert (0 < slots_taken (sv_phases v)); [|pose proof (si_slots _ _ I); lia].
  unfold slots_taken. assert (size (slot_holders (sv_phases v)) <> 0%nat); [|lia].
  apply map_size_ne_0_lookup. exists c, ph. by apply map_lookup_filter_Some.
Qed.

Ltac server_simpl :=
  cbn [at_phase close_socket set_deadlines _untrack_request request_slots request_deadlines sv_phases sv_open sv_pending
       holds_slot may_be_tracked is_closed served] in *.

Lemma process_request_inv bound c v :
  server_inv bound v -> sv_phases v !! c = Some Accepted -> server_inv bound (process_request c v).
Proof.
  intros I E. unfold process_request. pose proof (si_bound _ _ I).
  assert (T : is_Some (request_deadlines v !! c) -> False).
  { intros [d D]. destruct (si_tracked _ _ I c d D) as (ph & E' & M). rewrite E in E'. by injection E' as <-. }
  destruct (acquire_slot v) as [v'|] eqn:A.
  - apply acquire_slot_Some in A as (Q & Es & Ed & Ep & Eo & Ek).
    apply (inv_at_phase bound v v' c); rewrite ?Es, ?Ed, ?Ep, ?Eo, ?Ek, ?E; server_simpl; eauto; try lia; done.
  - apply (inv_at_phase bound v v c); rewrite ?E; server_simpl; eauto; try lia; done.
Qed.

Lemma track_inv bound timeout c now v :
  server_inv bound v -> sv_phases v !! c = Some Acquired -> server_inv bound (process_track c now timeout v).
Proof.
  intros I E. unfold process_track, _track_request. cbv zeta. pose proof (si_bound _ _ I).
  assert (T : is_Some (request_deadlines v !! c) -> False).
  { intros [d D]. destruct (si_tracked _ _ I c d D) as (ph & E' & M). rewrite E in E'. by injection E' as <-. }
  destruct (_ || _).
  - apply (inv_at_phase bound v v c); rewrite ?E; server_simpl; eauto; try lia; done.
  - apply (inv_at_phase bound v _ c); rewrite ?E; server_simpl; eauto; try lia; try done.
    + intros x d Hx N. rewrite lookup_insert_ne in Hx by done. by exists d.
    + intros x N [K|K] _; [left; by rewrite lookup_insert_ne|by right].
    + intros _ _. left. rewrite lookup_insert_eq. by eexists.
Qed.

(** Giving the slot back, with the socket closed *)
Lemma release_slots_inv bound c ph v v' :
  server_inv bound v -> sv_phases v !! c = Some ph -> holds_slot ph = true ->
  release_slot bound (_untrack_request c v) = Some v' ->
  server_inv bound (at_phase c Done (close_socket c v')).
Proof.
  intros I E Hh (Es & Ed & Ep & Eo & Ek)%release_slot_Some. server_simpl. pose proof (si_bound _ _ I).
  apply (inv_at_phase bound v (close_socket c v') c); server_simpl; rewrite ?Es, ?Ed, ?Ep, ?Eo, ?Ek, ?E, ?Hh; eauto; try lia; try done.
  - intros x d Hx N. rewrite lookup_delete_ne in Hx by done. by exists d.
  - rewrite lookup_delete_eq. by intros [].
  - intros x N [K|K] _; [left; by rewrite lookup_delete_ne|right; set_solver].
  - set_solver.
  - set_solver.
Qed.

Lemma untracked_delete bound c ph v :
  server_inv bound v -> sv_phases v !! c = Some ph -> may_be_tracked ph = false -> _untrack_request c v = v.
Proof.
  intros I E M. unfold _untrack_request, set_deadlines. rewrite delete_id; [by destruct v|].
  destruct (request_deadlines v !! c) as [d|] eqn:D; [|done].
  destruct (si_tracked _ _ I c d D) as (ph' & E' & M'). rewrite E in E'. injection E' as <-. congruence.
Qed.

(** A thread that ends: it closes its socket, forgets the deadline, and gives
    the slot back. *)
Lemma finish_slots_inv bound c v :
  server_inv bound v -> sv_phases v !! c = Some Running -> server_inv bound (at_phase c Finishing (close_socket c v)).
Proof.
  intros I E. pose proof (si_bound _ _ I).
  apply (inv_at_phase bound v (close_socket c v) c); rewrite ?E; server_simpl; eauto; try lia; try done; [|set_solver..].
  intros x N [K|K] _; [by left|right; set_solver].
Qed.

Lemma untrack_inv bound c v :
  server_inv bound v -> sv_phases v !! c = Some Finishing -> server_inv bound (at_phase c Releasing (_untrack_request c v)).
Proof.
  intros I E. pose proof (si_bound _ _ I).
  apply (inv_at_phase bound v (_untrack_request c v) c); rewrite ?E; server_simpl; eauto; try lia; try done.
  - intros x d Hx N. rewrite lookup_delete_ne in Hx by done. by exists d.
  - rewrite lookup_delete_eq. by intros [].
  - intros x N [K|K] _; [left; by rewrite lookup_delete_ne|by right].
  - intros _. by apply (si_closed _ _ I c Finishing).
Qed.

Lemma give_back_inv bound c v v' :
  server_inv bound v -> sv_phases v !! c = Some Releasing -> release_slot bound v = Some v' ->
  server_inv bound (at_phase c Done v').
Proof.
  intros I E (Es & Ed & Ep & Eo & Ek)%release_slot_Some. pose proof (si_bound _ _ I).
  apply (inv_at_phase bound v v' c); rewrite ?Es, ?Ed, ?Ep, ?Eo, ?Ek, ?E; server_simpl; eauto; try lia; try done.
  - intros [d D]. destruct (si_tracked _ _ I c d D) as (ph & E' & M). rewrite E in E'. by injection E' as <-.
  - intros _. by apply (si_closed _ _ I c Releasing).
Qed.

Lemma server_step_inv bound timeout v v' :
  server_inv bound v -> server_step bound timeout v v' -> server_inv bound v'.
Proof.
  intros I St. pose proof (si_bound _ _ I) as B. destruct St as [c v E|c v E|c v E|c now v E|c v v' E R|c started v E
    |c v v' E R|c v E|c v E|c v v' E R|now v v' R|c v E|v|v E|v E].
  - apply (inv_at_phase bound v _ c); rewrite ?E; server_simpl; eauto; try lia; try done; [|set_solver].
    intros [d D]. destruct (si_tracked _ _ I c d D) as (ph & E' & M). by rewrite E in E'.
  - by apply process_request_inv.
  - apply (inv_at_phase bound v (close_socket c v) c); rewrite ?E; server_simpl; eauto; try lia; try done; [|intros x N [K|K] _; [by left|right; set_solver]|set_solver..].
    intros [d D]. destruct (si_tracked _ _ I c d D) as (ph & E' & M). rewrite E in E'. by injection E' as <-.
  - by apply track_inv.
  - rewrite <- (untracked_delete bound c Refused v) in R by done. by eapply release_slots_inv.
  - apply (inv_at_phase bound v v c); rewrite ?E; destruct started; server_simpl; eauto; try lia; try done.
    intros _ Op. by apply (si_served _ _ I c Registered).
  - by eapply release_slots_inv.
  - by apply finish_slots_inv.
  - by apply untrack_inv.
  - by eapply give_back_inv.
  - by eapply inv_enforce.
  - by apply inv_close.
  - destruct I. by constructor.
  - apply (inv_take bound v); try done; [apply map_empty_subseteq|set_solver|].
    intros x [d D]. right. cbn [_close_active_requests take_all sv_pending]. apply elem_of_union_r, elem_of_dom. by exists d.
  - apply (inv_take bound v); try done; [apply map_empty_subseteq|set_solver|].
    intros x [d D]. right. cbn [_stop_deadline_monitor sv_pending]. apply elem_of_union_r, elem_of_dom. by exists d.
Qed.

Lemma server_steps_inv bound timeout v v' :
  server_inv bound v -> rtc (server_step bound timeout) v v' -> server_inv bound v'.
Proof. intros I St. induction St; [done|]. eauto using server_step_inv. Qed.

(** ** The limits of the server *)

Lemma reachable_inv bound timeout v :
  0 <= bound -> rtc (server_step bound timeout) (new_server bound) v -> server_inv bound v.
Proof. intros B. apply server_steps_inv. by apply inv_new. Qed.

(** C13: under every interleaving of the accept loop, the request threads, the
    deadline monitor and a shutdown, the free slots and the connections that
    hold one add up to the bound, so no more than [bound] requests are in
    flight; giving a slot back never raises; and the dictionary of deadlines
    only holds connections that hold a slot. *)
Theorem request_slots_exact (bound timeout : Z) (v : http_server) (Hb : 0 <= bound)
    (Hr : rtc (server_step bound timeout) (new_server bound) v) :
  request_slots v + slots_taken (sv_phases v) = bound /\ 0 <= request_slots v <= bound /\
  (forall c ph, sv_phases v !! c = Some ph -> holds_slot ph = true -> is_Some (release_slot bound v)) /\
  (dom (request_deadlines v) ⊆ dom (slot_holders (sv_phases v))).
Proof.
  apply reachable_inv in Hr; [|done]. pose proof (si_slots _ _ Hr). pose proof (si_bound _ _ Hr).
  assert (0 <= slots_taken (sv_phases v)) by (unfold slots_taken; lia).
  split; [done|]. split; [lia|]. split.
  - intros c ph E Hh. apply (holder_missing bound v c ph Hr E) in Hh. unfold release_slot.
    destruct (Z.ltb_spec (request_slots v) bound); [by eexists|lia].
  - intros c [d D]%elem_of_dom. destruct (si_tracked _ _ Hr c d D) as (ph & E & M).
    apply elem_of_dom. exists ph. apply map_lookup_filter_Some. split; [done|]. by destruct ph.
Qed.

(** After [shutdown] nothing is registered any more. *)
Record drained (v0 v : http_server) : Prop := {
  dr_stopping : sv_stopping v = true;
  dr_deadlines : request_deadlines v = ∅;
  dr_registered : forall c, sv_phases v !! c = Some Registered -> sv_phases v0 !! c = Some Registered }.

Lemma drained_at v0 v w c ph :
  drained v0 v -> sv_stopping w = sv_stopping v -> request_deadlines w = ∅ -> sv_phases w = sv_phases v ->
  ph <> Registered -> drained v0 (at_phase c ph w).
Proof.
  intros [S D R] Es Ed Ep N. constructor; cbn [at_phase sv_stopping request_deadlines sv_phases]; [by rewrite Es|done|].
  rewrite Ep. intros x Hx. move_cases x c; [by injection Hx as ->|by apply R].
Qed.

Lemma release_slot_stopping bound v v' : release_slot bound v = Some v' -> sv_stopping v' = sv_stopping v.
Proof. unfold release_slot. destruct (_ <? _); [|done]. by intros [= <-]. Qed.

Lemma drained_step bound timeout v0 v v' : drained v0 v -> server_step bound timeout v v' -> drained v0 v'.
Proof.
  intros Dr St. pose proof Dr as [S D R]. destruct St as [c v E|c v E|c v E|c now v E|c v v' E Rl|c started v E
    |c v v' E Rl|c v E|c v E|c v v' E Rl|now v v' En|c v E|v|v E|v E].
  - by apply (drained_at v0 v).
  - unfold process_request. destruct (acquire_slot v) as [w|] eqn:A; [|by apply (drained_at v0 v)].
    pose proof A as (_ & _ & Ed & Ep & _)%acquire_slot_Some. apply (drained_at v0 v); rewrite ?Ed; try done.
    revert A. unfold acquire_slot. destruct (_ <? _); [|done]. by intros [= <-].
  - by apply (drained_at v0 v).
  - unfold process_track, _track_request. cbv zeta. rewrite S. cbn [orb]. by apply (drained_at v0 v).
  - pose proof Rl as (_ & Ed & Ep & _)%release_slot_Some. apply release_slot_stopping in Rl.
    apply (drained_at v0 v); cbn [close_socket sv_stopping request_deadlines sv_phases]; rewrite ?Ed; done.
  - by apply (drained_at v0 v); [..|destruct started].
  - pose proof Rl as (_ & Ed & Ep & _)%release_slot_Some. apply release_slot_stopping in Rl.
    apply (drained_at v0 v); cbn [close_socket sv_stopping request_deadlines sv_phases]; rewrite ?Ed; try done.
    cbn [_untrack_request set_deadlines request_deadlines]. by rewrite D, delete_empty.
  - by apply (drained_at v0 v).
  - apply (drained_at v0 v); try done. cbn [_untrack_request set_deadlines request_deadlines]. by rewrite D, delete_empty.
  - pose proof Rl as (_ & Ed & Ep & _)%release_slot_Some. apply release_slot_stopping in Rl.
    apply (drained_at v0 v); rewrite ?Ed; done.
  - apply enforce_Some in En as ->. constructor; cbn [take_all sv_stopping request_deadlines sv_phases]; [done| |done].
    by rewrite D, map_filter_empty.
  - by constructor.
  - by constructor.
  - by constructor.
  - by constructor.
Qed.

Lemma drained_steps bound timeout v0 v v' : drained v0 v -> rtc (server_step bound timeout) v v' -> drained v0 v'.
Proof. intros Dr St. induction St; [done|]. eauto using drained_step. Qed.

(** C26: a request never outlives its deadline or a shutdown.  A connection with
    a thread that is open is either about to be closed or has a deadline, and
    the monitor's next pass takes it to be closed exactly when that has passed.
    Once a shutdown has closed the active requests, in whatever order the
    threads go on, no connection gets a deadline or a new thread, and every one
    that still has a thread is closed or about to be: after the closers, none
    is open. *)
Theorem requests_released (bound timeout now : Z) (v v' : http_server) (Hb : 0 <= bound)
    (Hr : rtc (server_step bound timeout) (new_server bound) v)
    (Hs : rtc (server_step bound timeout) (shutdown_requests v) v') :
  (forall c ph, sv_phases v !! c = Some ph -> served ph = true -> c ∈ sv_open v -> c ∉ sv_pending v ->
     exists d, request_deadlines v !! c = Some d /\
       if d <=? now then
         deadline_monitor_stopping v = false ->
         exists w, _enforce_request_deadlines now v = Some w /\ c ∈ sv_pending w
       else forall w, _enforce_request_deadlines now v = Some w ->
         request_deadlines w !! c = Some d /\ c ∉ sv_pending w) /\
  request_deadlines v' = ∅ /\
  (forall c, sv_phases v' !! c = Some Registered -> sv_phases v !! c = Some Registered) /\
  (forall c ph, sv_phases v' !! c = Some ph -> served ph = true -> c ∈ sv_open v' -> c ∈ sv_pending v').
Proof.
  pose proof (reachable_inv bound timeout v Hb Hr) as I.
  assert (I1 : server_inv bound (shutdown_requests v)).
  { apply (server_step_inv bound timeout (set_stopping v)); [|by apply step_close_active].
    apply (server_step_inv bound timeout v); [done|apply step_stopping]. }
  assert (Dr : drained v v') by (eapply drained_steps; [|exact Hs]; by constructor).
  split; [|split; [by apply dr_deadlines in Dr|split; [apply (dr_registered _ _ Dr)|]]].
  - intros c ph E Sv Op N. destruct (si_served _ _ I c ph E Sv Op) as [[d D]|]; [|done]. exists d. split; [done|].
    pose proof (split_deadlines now v c d D) as Sp. destruct (d <=? now) eqn:L.
    + intros M. unfold _enforce_request_deadlines. rewrite M. case_bool_decide as X.
      { by rewrite X, dom_empty, elem_of_empty in Sp. }
      eexists. split; [done|]. by apply elem_of_union_r.
    + intros w ->%enforce_Some. cbn [take_all request_deadlines sv_pending]. split; [done|].
      intros [|[d' K]%elem_of_dom]%elem_of_union; [done|]. apply map_lookup_filter_Some in K as [K T].
      rewrite D in K. injection K as <-. apply Z.leb_gt in L. cbn in T. lia.
  - intros c ph E Sv Op. pose proof (server_steps_inv bound timeout _ _ I1 Hs) as I2.
    destruct (si_served _ _ I2 c ph E Sv Op) as [K|]; [|done]. rewrite (dr_deadlines _ _ Dr), lookup_empty in K. by destruct K.
Qed.

(** ** A connection rejected at capacity *)

Definition recv_within (peer : list (Z -> recv_outcome)) : Prop :=
  Forall (fun recv => forall n bytes, recv n = Received bytes -> string_bytes bytes <= n) peer.

Lemma string_bytes_app a b : string_bytes (a +:+ b) = string_bytes a + string_bytes b.
Proof. unfold string_bytes. rewrite str_length_app. lia. Qed.

(** A client that never ends its headers is read for 64 KiB and a byte. *)
Lemma drain_bounded peer received all :
  recv_within peer -> string_bytes received <= 65537 -> drain_request peer received = Some all -> string_bytes all <= 65537.
Proof.
  intros P. revert received. induction P as [|recv peer W P IH]; intros received B; cbn [drain_request].
  - destruct (_ && _); [done|by intros [= <-]].
  - destruct (negb (has_blank_line received)); [|by intros [= <-]]. cbn [andb].
    destruct (Z.leb_spec (string_bytes received) 65536) as [L|L]; [|by intros [= <-]].
    destruct (recv _) as [[|ch bytes]|] eqn:E; [by intros [= <-]| |done].
    apply W in E. apply IH. rewrite string_bytes_app. lia.
Qed.

(** ** A concrete run: one slot *)

Definition accept (c : conn) (v : http_server) : http_server :=
  at_phase c Accepted
    (mkServer (request_slots v) (request_deadlines v) (sv_stopping v) (deadline_monitor_stopping v)
       (sv_phases v) ({[c]} ∪ sv_open v) (sv_pending v)).

Definition busy1 : http_server := Eval vm_compute in accept 1%positive (new_server 1).
Definition busy2 : http_server := Eval vm_compute in process_request 1%positive busy1.
Definition busy3 : http_server := Eval vm_compute in process_track 1%positive 100 15 busy2.
Definition busy4 : http_server := Eval vm_compute in at_phase 1%positive Running busy3.
Definition busy5 : http_server := Eval vm_compute in accept 2%positive busy4.
Definition busy : http_server := Eval vm_compute in process_request 2%positive busy5.

Lemma busy_run : rtc (server_step 1 15) (new_server 1) busy.
Proof.
  eapply rtc_l; [exact (step_accept 1 15 1%positive (new_server 1) eq_refl)|].
  eapply rtc_l; [exact (step_acquire 1 15 1%positive busy1 eq_refl)|].
  eapply rtc_l; [exact (step_track 1 15 1%positive 100 busy2 eq_refl)|].
  eapply rtc_l; [exact (step_start 1 15 1%positive true busy3 eq_refl)|].
  eapply rtc_l; [exact (step_accept 1 15 2%positive busy4 eq_refl)|].
  eapply rtc_l; [exact (step_acquire 1 15 2%positive busy5 eq_refl)|]. apply rtc_refl.
Qed.

(** The second connection is rejected; the monitor closes the first at 115. *)
Example busy_phases :
  sv_phases busy !! 1%positive = Some Running /\ sv_phases busy !! 2%positive = Some Rejecting /\
  (if _enforce_request_deadlines 114 busy is Some _ then false else true) = true /\
  (if _enforce_request_deadlines 115 busy is Some v then bool_decide (1%positive ∈ sv_pending v) else false) = true.
Proof. repeat split; vm_compute; reflexivity. Qed.

Lemma request_slots_exact_witness : is_Some (release_slot 1 busy) /\ request_slots busy = 0.
Proof.
  destruct (request_slots_exact 1 15 busy) as (E & _ & R & _); [discriminate|exact busy_run|].
  split; [exact (R 1%positive Running eq_refl eq_refl)|reflexivity].
Defined.

(** The third connection takes no slot's deadline after the shutdown. *)
Definition closing1 : http_server := Eval vm_compute in close_socket 1%positive (shutdown_requests busy).
Definition closing2 : http_server := Eval vm_compute in at_phase 1%positive Finishing (close_socket 1%positive closing1).
Lemma closing_run : rtc (server_step 1 15) (shutdown_requests busy) closing2.
Proof.
  eapply rtc_l; [apply (step_close 1 15 1%positive); apply elem_of_union_r, elem_of_dom; eexists; reflexivity|].
  eapply rtc_l; [exact (step_finish 1 15 1%positive closing1 eq_refl)|]. apply rtc_refl.
Qed.

Lemma requests_released_witness :
  request_deadlines closing2 = ∅ /\
  exists d, request_deadlines busy !! 1%positive = Some d /\
    exists w, _enforce_request_deadlines 115 busy = Some w /\ 1%positive ∈ sv_pending w.
Proof.
  destruct (requests_released 1 15 115 busy closing2) as (T & D & _ & _); [discriminate|exact busy_run|exact closing_run|].
  split; [exact D|].
  destruct (T 1%positive Running) as (d & E & K); [reflexivity|reflexivity|vm_compute; tauto| |].
  - intros F. vm_compute in F. discriminate F.
  - exists d. split; [exact E|]. vm_compute in E. injection E as <-. exact (K eq_refl).
Defined.

(** A rejected client that sends its headers gets a 429; one that does not,
    nothing. *)
Example rejected_at_capacity :
  let whole : Z -> recv_outcome := fun _ => Received ("GET / HTTP/1.1" +:+ blank_line)%string in
  let part : Z -> recv_outcome := fun _ => Received "GET / HTTP/1.1" in
  (bool_decide (_reject_connection_at_capacity [part; whole] = Some (backpressure_head +:+ backpressure_payload)%string),
   _reject_connection_at_capacity [part; fun _ => RecvFails],
   _reject_connection_at_capacity [part; fun _ => Received EmptyString]) = (true, None, None).
Proof. vm_compute. reflexivity. Qed.
