(* ===== verification/WorkerRunner.v ===== *)
(** * Running a worker process ([JsonSubprocessWorkerRunner] of [deltacontroller/dispatch.py])

    One bundle on standard input, one document on standard output, and a loop
    that watches the child: cancellation, the size of its outputs, the deadline.
    What the loop observes, whether the child can be stopped and what it left in
    its output files are arguments.  Clock readings and the grace are integers
    of one unit, [second] of which make a second. *)

From S2P Require Import Prelude PyFloat Json JsonText Text Sha256 Errors Canonical LedgerRecord Ledger Ingress Dispatch FixedPoint FixedPointProps RuntimeConfigProps RuntimeIdentity.
Open Scope string_scope.
Open Scope Z_scope.
Open Scope py_scope.

(** [__init__] *)
Record JsonSubprocessWorkerRunner := mkRunner {
  command : list string;
  max_output_bytes : Z;
  startup_grace : Z }.

Definition new_worker_runner (argv : list string) (limit grace : Z) : result exn JsonSubprocessWorkerRunner :=
  require (match argv with [] => false | _ => true end && forallb (fun part => negb (String.eqb part EmptyString)) argv)
    (ValueErr "worker command must be a non-empty fixed argv sequence") ;?
  require (1 <=? limit) (ValueErr "max_output_bytes must be positive") ;?
  Ok (mkRunner argv limit grace).

(** ** The environment of the child *)

Definition allowed_names : list string :=
  ["PATH"; "SYSTEMROOT"; "WINDIR"; "TEMP"; "TMP"; "TMPDIR"; "LANG"; "LC_ALL"].
Definition fixed_environment : odict string :=
  [("PYTHONIOENCODING", "utf-8"); ("PYTHONNOUSERSITE", "1"); ("PYTHONUTF8", "1")].

(** [os.environ.get(name)], when it is not empty *)
Definition inherited (os_environ : odict string) (name : string) : option (string * string) :=
  match od_get name os_environ with
  | Some v => if String.eqb v EmptyString then None else Some (name, v)
  | None => None
  end.

Definition _sanitized_environment (os_environ : odict string) : odict string :=
  fold_left (fun d kv => od_set kv.1 kv.2 d) fixed_environment (omap (inherited os_environ) allowed_names).

(** ** The grant *)

Definition _execution_timeout (bundle : odict json) : result exn Z :=
  let grants := match jget "admission" bundle with JObj admission => jget "resource_grants" admission | _ => JNull end in
  match (match grants with JObj g => jget "timeout_seconds" g | _ => JNull end) with
  | JInt timeout =>
      require ((1 <=? timeout) && (timeout <=? 3600)) (dispatch_failed "AuthorizedExecution has an invalid timeout grant") ;?
      Ok timeout
  | _ => Raise (dispatch_failed "AuthorizedExecution has an invalid timeout grant")
  end.

(** ** The child *)

(** How [_terminate] ends: the child had exited; it was stopped; or both waits
    ran out ([TimeoutExpired], an exception like any other for the caller). *)
Inductive stop_outcome := HadExited | Stopped | Unstoppable.

(** What becomes of the child *)
Inductive child_end := NotStarted | ChildExited | ChildStopped | ChildLeft.

Definition child_after (s : stop_outcome) : child_end :=
  match s with HadExited => ChildExited | Stopped => ChildStopped | Unstoppable => ChildLeft end.

(** [self._terminate(process)], then [raise] *)
Definition terminate_then (s : stop_outcome) (outcome : runner_outcome) : runner_outcome * child_end :=
  (match s with Unstoppable => RunRaised (RuntimeErr "TimeoutExpired") | _ => outcome end, child_after s).

(** One pass of the loop: whether a cancellation was requested, the sizes of the
    two outputs, the clock, and the exit status if the child ends in the wait *)
Record observation := mkObservation {
  o_cancelled : bool;
  o_stdout : Z;
  o_stderr : Z;
  o_now : Z;
  o_exit : option Z }.

Definition second : Z := 1000000000.

Section Run.
Context (r : JsonSubprocessWorkerRunner).

(** The loop: the exit status, or how the run ended before it; [None] while the
    observations last. *)
Fixpoint watch (deadline : Z) (stopping : stop_outcome) (seen : list observation)
  : option (Z + runner_outcome * child_end) :=
  match seen with
  | [] => None
  | o :: rest =>
      if o_cancelled o then Some (inr (terminate_then stopping RunCancelled))
      else if (max_output_bytes r <? o_stdout o) || (max_output_bytes r <? o_stderr o) then
        Some (inr (terminate_then stopping (RunRaised (dispatch_failed "Worker process output exceeded its bounded limit"))))
      else if deadline - o_now o <=? 0 then Some (inr (terminate_then stopping RunTimedOut))
      else
        match o_exit o with
        | Some status => Some (inl status)
        | None => watch deadline stopping rest
        end
  end.

(** What is left in the output files of a child that has exited *)
Definition read_result (status : Z) (stdout : string) (stderr_size : Z) : runner_outcome :=
  let failed m := RunRaised (dispatch_failed m) in
  if (max_output_bytes r <? string_bytes stdout) || (max_output_bytes r <? stderr_size) then
    failed "Worker process output exceeded its bounded limit"
  else if negb (status =? 0) then failed "Worker process exited with a status"
  else if negb (encodable stdout) then failed "Worker process stdout is not one UTF-8 JSON document"
  else
    match loads true stdout with
    | None => failed "Worker process stdout is not one UTF-8 JSON document"
    | Some (JObj o) => RunResult (JObj o)
    | Some _ => failed "Worker process result must be a JSON object"
    end.

(** What a run meets *)
Record run_surroundings := mkSurroundings {
  popen : result exn unit;
  started_at : Z;
  seen : list observation;
  stopping : stop_outcome;
  stdout_file : string;
  stderr_size : Z }.

(** [run]: [None] while the child is still watched *)
Definition run (bundle : odict json) (s : run_surroundings) : option (runner_outcome * child_end) :=
  match canonicalize_jcs (JObj bundle) with
  | Raise e => Some (RunRaised e, NotStarted)
  | Ok _ =>
      match _execution_timeout bundle with
      | Raise e => Some (RunRaised e, NotStarted)
      | Ok timeout =>
          match popen s with
          | Raise e => Some (RunRaised e, NotStarted)
          | Ok _ =>
              match watch (started_at s + timeout * second + startup_grace r) (stopping s) (seen s) with
              | None => None
              | Some (inr ended) => Some ended
              | Some (inl status) => Some (read_result status (stdout_file s) (stderr_size s), ChildExited)
              end
          end
      end
  end.

(** ** Properties *)

Lemma execution_timeout_Ok bundle t : _execution_timeout bundle = Ok t -> 1 <= t <= 3600.
Proof.
  unfold _execution_timeout. destruct (match _ with JObj g => jget "timeout_seconds" g | _ => JNull end); try done.
  rewrite rbind_unit_Ok, require_Ok, andb_true_iff, !Z.leb_le. by intros [B [= <-]].
Qed.

(** A reading at or past the deadline ends the loop. *)
Lemma watch_ends deadline stop l o : o ∈ l -> deadline <= o_now o -> watch deadline stop l <> None.
Proof.
  intros H L. induction l as [|x l IH]; [by apply elem_of_nil in H|]. cbn [watch].
  apply elem_of_cons in H as [<-|H].
  - destruct (o_cancelled o); [done|]. destruct (_ || _); [done|]. destruct (Z.leb_spec (deadline - o_now o) 0); [done|lia].
  - destruct (o_cancelled x); [done|]. destruct (_ || _); [done|]. destruct (_ <=? 0); [done|].
    destruct (o_exit x); [done|by apply IH].
Qed.

(** The pass that ends the loop, and those before it *)
Definition quiet_pass (deadline : Z) (o : observation) : Prop :=
  o_cancelled o = false /\ o_stdout o <= max_output_bytes r /\ o_stderr o <= max_output_bytes r /\ o_now o < deadline.

Lemma watch_cases deadline stop l res :
  watch deadline stop l = Some res ->
  exists before o after, l = (before ++ o :: after)%list /\
    Forall (fun x => quiet_pass deadline x /\ o_exit x = None) before /\
    ((exists status, res = inl status /\ quiet_pass deadline o /\ o_exit o = Some status) \/
     (res = inr (terminate_then stop RunCancelled) /\ o_cancelled o = true) \/
     (exists e, res = inr (terminate_then stop (RunRaised e))) \/
     (res = inr (terminate_then stop RunTimedOut) /\ o_cancelled o = false /\ deadline <= o_now o)).
Proof.
  induction l as [|x l IH]; cbn [watch]; [done|].
  assert (Here : forall P : observation -> Prop, P x ->
    exists before o after, x :: l = (before ++ o :: after)%list /\
      Forall (fun x => quiet_pass deadline x /\ o_exit x = None) before /\ P o).
  { intros P Px. by exists [], x, l. }
  destruct (o_cancelled x) eqn:C; [intros [= <-]; apply Here; right; by left|].
  destruct (_ || _) eqn:Sz; [intros [= <-]; apply Here; right; right; left; by eexists|].
  apply orb_false_iff in Sz as [S1%Z.ltb_ge S2%Z.ltb_ge].
  destruct (Z.leb_spec (deadline - o_now x) 0) as [L|L].
  { intros [= <-]. apply Here. right. right. right. split; [done|]. split; [done|lia]. }
  assert (Q : quiet_pass deadline x) by (split; [done|]; split; [lia|]; split; lia).
  destruct (o_exit x) as [status|] eqn:E; [intros [= <-]; apply Here; left; by exists status|].
  intros W. destruct (IH W) as (before & o & after & -> & F & K). exists (x :: before), o, after.
  split; [done|]. split; [by constructor|done].
Qed.

Lemma read_result_RunResult status out err j :
  read_result status out err = RunResult j ->
  status = 0 /\ string_bytes out <= max_output_bytes r /\ err <= max_output_bytes r /\ encodable out = true /\
  loads true out = Some j /\ exists o, j = JObj o.
Proof.
  unfold read_result. cbv zeta. destruct (_ || _) eqn:Sz; [done|]. apply orb_false_iff in Sz as [S1%Z.ltb_ge S2%Z.ltb_ge].
  destruct (Z.eqb_spec status 0); [|done]. cbn [negb]. destruct (encodable out); [|done]. cbn [negb].
  destruct (loads true out) as [[| | | | | |o]|]; try done. intros [= <-]. repeat (split; [done|]). by exists o.
Qed.

Lemma read_result_kind status out err :
  (exists j, read_result status out err = RunResult j) \/ exists e, read_result status out err = RunRaised e.
Proof.
  unfold read_result. cbv zeta. destruct (_ || _); [right; by eexists|]. destruct (negb _); [right; by eexists|].
  destruct (negb _); [right; by eexists|]. destruct (loads true out) as [[| | | | | |o]|]; [right; by eexists..|left|right]; by eexists.
Qed.
Lemma watch_exits deadline stop before o after status :
  Forall (fun x => quiet_pass deadline x /\ o_exit x = None) before -> quiet_pass deadline o -> o_exit o = Some status ->
  watch deadline stop (before ++ o :: after) = Some (inl status).
Proof.
  assert (Pass : forall x l, quiet_pass deadline x ->
    watch deadline stop (x :: l) = match o_exit x with Some st => Some (inl st) | None => watch deadline stop l end).
  { intros x l (C & S1 & S2 & L). cbn [watch]. rewrite C.
    destruct (Z.ltb_spec (max_output_bytes r) (o_stdout x)); [lia|]. destruct (Z.ltb_spec (max_output_bytes r) (o_stderr x)); [lia|].
    cbn [orb]. destruct (Z.leb_spec (deadline - o_now x) 0); [lia|done]. }
  intros F Q E. induction F as [|x before [Qx Ex] F IH]; cbn [app]; rewrite Pass by done; [by rewrite E|by rewrite Ex].
Qed.

Lemma read_result_of status out err o :
  status = 0 -> string_bytes out <= max_output_bytes r -> err <= max_output_bytes r -> encodable out = true ->
  loads true out = Some (JObj o) -> read_result status out err = RunResult (JObj o).
Proof.
  intros -> S1 S2 E L. unfold read_result. cbv zeta.
  destruct (Z.ltb_spec (max_output_bytes r) (string_bytes out)); [lia|].
  destruct (Z.ltb_spec (max_output_bytes r) err); [lia|]. cbn [orb Z.eqb negb]. by rewrite E, L.
Qed.

(** The run of a child that exits while every pass is quiet *)
Record child_exits (bundle : odict json) (s : run_surroundings) (timeout status : Z) : Prop := {
  ce_bytes : exists bytes, canonicalize_jcs (JObj bundle) = Ok bytes;
  ce_timeout : _execution_timeout bundle = Ok timeout;
  ce_started : popen s = Ok tt;
  ce_passes : exists before last after, seen s = (before ++ last :: after)%list /\
    Forall (fun x => quiet_pass (started_at s + timeout * second + startup_grace r) x /\ o_exit x = None) before /\
    quiet_pass (started_at s + timeout * second + startup_grace r) last /\ o_exit last = Some status }.

Lemma run_exits bundle s timeout status :
  child_exits bundle s timeout status ->
  run bundle s = Some (read_result status (stdout_file s) (stderr_size s), ChildExited).
Proof.
  intros [[bytes B] T P (before & last & after & E & F & Q & X)]. unfold run. rewrite B, T, P, E.
  by erewrite watch_exits.
Qed.

Lemma inr_inj {A B} (a b : B) : @inr A B a = inr b -> a = b.
Proof. by intros [= ->]. Qed.

(** Either the run ended before the child was watched, or by a pass. *)
Lemma run_cases bundle s out c :
  run bundle s = Some (out, c) ->
  (exists e, out = RunRaised e /\ c = NotStarted) \/
  (exists timeout status, child_exits bundle s timeout status /\ c = ChildExited /\
     out = read_result status (stdout_file s) (stderr_size s)) \/
  (exists timeout o outcome, _execution_timeout bundle = Ok timeout /\ o ∈ seen s /\
     (out, c) = terminate_then (stopping s) outcome /\
     ((outcome = RunCancelled /\ o_cancelled o = true) \/ (exists e, outcome = RunRaised e) \/
      (outcome = RunTimedOut /\ o_cancelled o = false /\ started_at s + timeout * second + startup_grace r <= o_now o))).
Proof.
  unfold run. destruct (canonicalize_jcs _) as [bytes|e] eqn:B; [|intros [= <- <-]; left; by exists e].
  destruct (_execution_timeout bundle) as [t|e] eqn:T; [|intros [= <- <-]; left; by exists e].
  destruct (popen s) as [[]|e] eqn:P; [|intros [= <- <-]; left; by exists e].
  destruct (watch _ _ _) as [[status|ended]|] eqn:W; [| |done];
    apply watch_cases in W as (before & o & after & E & F & K).
  - intros [= <- <-]. right. left. destruct K as [(st & K & Q & X)|[[K _]|[[? K]|[K _]]]]; try done. injection K as <-.
    exists t, status. split; [|done]. constructor; [by exists bytes|done|done|by exists before, o, after].
  - intros [= ->]. right. right. assert (Hin : o ∈ seen s) by (rewrite E; set_solver).
    destruct K as [(st & K & _)|[[K C]|[[e K]|(K & C & L)]]]; [done|..]; apply inr_inj in K; rewrite K;
      exists t, o; eexists; (split; [done|]); (split; [done|]); (split; [reflexivity|]); eauto 6.
Qed.

(** C28: a worker process is watched to its end.  A run ends at the latest with
    the first reading of the clock past the granted time and the grace; it then
    leaves no child behind that can be stopped.  It is cancelled only on request
    and times out only past its deadline.  A result is the JSON object a child
    printed that exited with status 0, in time, not cancelled, within the bound
    on both of its outputs; and every such child's object is the result. *)
Theorem worker_run_confined (bundle : odict json) (s : run_surroundings) :
  (forall o, o ∈ seen s -> started_at s + 3600 * second + startup_grace r <= o_now o -> run bundle s <> None) /\
  (forall out c, run bundle s = Some (out, c) ->
     (c = ChildLeft -> stopping s = Unstoppable) /\
     (out = RunCancelled -> exists o, o ∈ seen s /\ o_cancelled o = true) /\
     (out = RunTimedOut -> exists timeout o, _execution_timeout bundle = Ok timeout /\ o ∈ seen s /\
        started_at s + timeout * second + startup_grace r <= o_now o)) /\
  (forall o, run bundle s = Some (RunResult (JObj o), ChildExited) <->
     exists timeout, child_exits bundle s timeout 0 /\
       string_bytes (stdout_file s) <= max_output_bytes r /\ stderr_size s <= max_output_bytes r /\
       encodable (stdout_file s) = true /\ loads true (stdout_file s) = Some (JObj o)).
Proof.
  split; [|split].
  - intros o Hin L. unfold run. destruct (canonicalize_jcs _); [|done].
    destruct (_execution_timeout bundle) as [t|] eqn:T; [|done]. apply execution_timeout_Ok in T.
    destruct (popen s); [|done].
    destruct (watch _ _ _) as [[]|] eqn:W; [done..|]. exfalso. revert W. apply (watch_ends _ _ _ o Hin). unfold second in *. lia.
  - intros out c [(e & -> & ->)|[(t & st & _ & -> & ->)|(t & o & outcome & T & Hin & E & K)]]%run_cases; [done|..].
    { destruct (read_result_kind st (stdout_file s) (stderr_size s)) as [[j ->]|[e ->]]; done. }
    unfold terminate_then in E. destruct (stopping s); injection E as -> ->; (split; [done|]); try done;
      (split; intros ->; destruct K as [[K C]|[[e K]|(K & C & L)]]; try done; eauto).
  - intros o. split.
    + intros [(e & ? & _)|[(t & st & X & _ & E)|(t & x & outcome & _ & _ & E & K)]]%run_cases; [done|..].
      * symmetry in E. apply read_result_RunResult in E as (-> & S1 & S2 & En & L & _). by exists t.
      * unfold terminate_then in E. destruct K as [[-> _]|[[e ->]|[-> _]]]; by destruct (stopping s).
    + intros (t & X & S1 & S2 & En & L). rewrite (run_exits _ _ _ _ X). by rewrite (read_result_of 0 _ _ o).
Qed.
End Run.

(** The answer of the worker's [main], printed with a line break, arrives. *)
Lemma answer_delivered r bundle s timeout answer :
  child_exits r bundle s timeout 0 -> json_wf (JObj answer) = true ->
  stdout_file s = dumps_compact (JObj answer) +:+ String newline EmptyString -> encodable (stdout_file s) = true ->
  string_bytes (stdout_file s) <= max_output_bytes r -> stderr_size s <= max_output_bytes r ->
  run r bundle s = Some (RunResult (JObj answer), ChildExited).
Proof.
  intros X W E En S1 S2. rewrite (run_exits _ _ _ _ _ X). rewrite (read_result_of r 0 _ _ answer); try done.
  rewrite E. by apply loads_dumps_line.
Qed.

(** ** The environment carries nothing else *)

Lemma sanitized_environment_exact os_environ name v :
  od_get name (_sanitized_environment os_environ) = Some v ->
  (name, v) ∈ fixed_environment \/ (name ∈ allowed_names /\ od_get name os_environ = Some v /\ v <> EmptyString).
Proof.
  unfold _sanitized_environment.
  assert (G : forall l d, od_get name (fold_left (fun d kv => od_set kv.1 kv.2 d) l d) = Some v ->
    (name, v) ∈ l \/ od_get name d = Some v).
  { induction l as [|[k x] l IH]; intros d; cbn [fold_left fst snd]; [by right|]. intros H. apply IH in H as [H|H]; [left; by right|].
    rewrite od_get_set in H. destruct (String.eqb_spec name k) as [->|]; [|by right]. injection H as ->. left. left. }
  intros H. apply G in H as [H|H]; [by left|right]. apply od_get_In, list_elem_of_omap in H as (n & Hn & E).
  unfold inherited in E. destruct (od_get n os_environ) as [w|] eqn:O; [|done].
  destruct (String.eqb_spec w EmptyString); [done|]. by injection E as -> ->.
Qed.

(** ** Concrete runs *)

Definition demo_runner : JsonSubprocessWorkerRunner := mkRunner ["python"; "-m"; "worker"] 1024 (15 * second).
Definition demo_bundle : odict json :=
  [("admission", JObj [("resource_grants", JObj [("timeout_seconds", JInt 60)])])].
Definition demo_pass (cancelled : bool) (size seconds : Z) (exit : option Z) : observation :=
  mkObservation cancelled size 0 (seconds * second) exit.
Definition demo_surroundings (passes : list observation) (stdout : string) : run_surroundings :=
  mkSurroundings (Ok tt) (100 * second) passes Stopped stdout 0.

Definition demo_answer : string := Eval vm_compute in
  (dumps_compact (JObj [("status", JStr "COMPLETED")]) +:+ String newline EmptyString)%string.
Definition demo_done : run_surroundings :=
  demo_surroundings [demo_pass false 0 100 None; demo_pass false 20 101 (Some 0)] demo_answer.

Example demo_runs :
  map (run demo_runner demo_bundle)
    [demo_done;
     demo_surroundings [demo_pass false 0 100 None; demo_pass true 0 101 (Some 0)] demo_answer;
     demo_surroundings [demo_pass false 0 174 None; demo_pass false 0 175 (Some 0)] demo_answer;
     demo_surroundings [demo_pass false 0 100 None] demo_answer;
     demo_surroundings [demo_pass false 0 100 (Some 0)] "[]"] =
  [Some (RunResult (JObj [("status", JStr "COMPLETED")]), ChildExited);
   Some (RunCancelled, ChildStopped);
   Some (RunTimedOut, ChildStopped);
   None;
   Some (RunRaised (dispatch_failed "Worker process result must be a JSON object"), ChildExited)].
Proof. vm_compute. reflexivity. Qed.

Lemma worker_run_confined_witness :
  exists timeout, child_exits demo_runner demo_bundle demo_done timeout 0 /\ string_bytes (stdout_file demo_done) <= 1024.
Proof.
  destruct (worker_run_confined demo_runner demo_bundle demo_done) as (_ & _ & R).
  destruct (proj1 (R [("status", JStr "COMPLETED")])) as (t & X & S1 & _); [vm_compute; reflexivity|].
  exists t. split; [exact X|exact S1].
Defined.
