(* ===== verification/IntegratedPort.v ===== *)
(** * Dispatching in process ([IntegratedWorkerDispatchPort] of [deltacontroller/dispatch.py])

    The port that hands a bundle to the worker's preflight and dispatcher in the
    same process and turns what they return or raise into one document.  The
    ledger is the gate's: the port never touches it.  The port's cancellation
    token is shared by all of its executions: whether it is set is part of the
    state, what other threads cancel meanwhile an argument.  The registries are
    the default ones of the process. *)

From stdpp Require Import relations.
From S2P Require Import Prelude PyFloat Json JsonText Text Sha256 Errors Canonical LedgerRecord Ledger LedgerInv LedgerSystem Quota Policy Ingress WorkerCanonical LiveCrypto LivePreflight PluginRegistry PluginRunner LiveDispatch LiveProcess Dispatch DispatchSettle Gate GateInv GateProps EndToEnd LiveProcessProps TerminalResult RoundTrip LiveWitness.
Open Scope string_scope.
Open Scope Z_scope.
Open Scope py_scope.

Definition _PREFLIGHT_ERROR_METADATA : odict (string * bool) :=
  [("ERR_SCHEMA_VALIDATION_FAILED", ("SCHEMA", false));
   ("ERR_INTENT_DIGEST_MISMATCH", ("DIGEST", false));
   ("ERR_ADMISSION_DIGEST_MISMATCH", ("DIGEST", false));
   ("ERR_ADMISSION_SIGNATURE_INVALID", ("WORKER", false));
   ("ERR_ADMISSION_EXPIRED", ("AUTHZ", false));
   ("ERR_OPERATION_SCOPE_UNSUPPORTED", ("CATALOG", false));
   ("ERR_AUTHORIZED_EXECUTION_PARITY_MISMATCH", ("LINEAGE", false));
   ("ERR_STAGE_C_FORBIDDEN", ("CONSENSUS_BOUNDARY", false))].

(** [cancellation_token]: [None], or whether the token is set *)
Record IntegratedWorkerDispatchPort {Data Model : Type} := mkIntegrated {
  shared_ledger : IdempotencyLedger;
  worker_preflight : AuthorizedExecutionPreflight;
  worker_dispatcher : ClosedEnumWorkerDispatcher;
  cancellation_token : option bool;
  integrated_commit : string;
  dispatch_count : Z;
  default_models : ModelPluginRegistry Data Model;
  default_datasets : DatasetRegistry Data }.
Arguments IntegratedWorkerDispatchPort : clear implicits.

(** What a dispatch reads from outside: the clock of the preflight, the run, and
    what others have cancelled at each reading of the token *)
Record integrated_env := mkIntegratedEnv {
  iv_now : moment;
  iv_run : run_env;
  iv_cancels : check_point -> bool }.

(** [__init__] *)
Definition new_integrated {Data Model} (ledger : IdempotencyLedger) (preflight : AuthorizedExecutionPreflight)
    (dispatcher : option ClosedEnumWorkerDispatcher) (token : option bool) (producer_commit : option string)
    (models : ModelPluginRegistry Data Model) (datasets : DatasetRegistry Data)
  : result exn (IntegratedWorkerDispatchPort Data Model) :=
  let missing := ValueErr "IntegratedWorkerDispatchPort requires an explicit 40-character build SHA" in
  match producer_commit with
  | None => Raise missing
  | Some commit =>
      require (lower_hex 40 commit) missing ;?
      let? d :=
        match dispatcher with
        | Some d => Ok d
        | None =>
            match new_dispatcher (Some commit) None with
            | Ok d => Ok d
            | Raise _ => Raise (ValueErr "producer_commit must be a 40-character lowercase build SHA")
            end
        end in
      Ok (mkIntegrated Data Model ledger preflight d token commit 0 models datasets)
  end.

(** ** Results *)

Definition _error_result (bundle : odict json) (error_code category : string) (retryable : bool) (message : string)
    (dispatched : bool) (status : string) : result exn (odict json) :=
  let? execution_id := bundle_path bundle "admission" "execution_id" in
  let? intent_id := bundle_path bundle "intent" "intent_id" in
  Ok [("dispatched", JBool dispatched); ("execution_id", execution_id); ("intent_id", intent_id); ("status", JStr status);
      ("error", JObj [("schema_version", JStr "1.0.0"); ("error_code", JStr error_code); ("category", JStr category);
                      ("retryable", JBool retryable); ("message", JStr (str_take 512 message))]);
      ("receipt", JNull)].

(** The code, category and retryability of an adapter error: an unknown code is
    a failed dispatch. *)
Definition preflight_metadata (code : string) : string * string * bool :=
  match od_get code _PREFLIGHT_ERROR_METADATA with
  | Some (category, retryable) => (code, category, retryable)
  | None => ("ERR_WORKER_DISPATCH_FAILED", "DISPATCH", true)
  end.

Definition metadata_result (bundle : odict json) (e : WorkerAdapterError) (dispatched : bool) : result exn (odict json) :=
  let '(code, category, retryable) := preflight_metadata (ae_code e) in
  _error_result bundle code category retryable (ae_message e) dispatched "FAILED".

Definition mismatch_result (bundle : odict json) (message : string) : result exn (odict json) :=
  _error_result bundle "ERR_RECEIPT_LINEAGE_MISMATCH" "LINEAGE" false message true "FAILED".

(** The [except] clauses after the dispatch *)
Definition adapter_result (bundle : odict json) (e : WorkerAdapterError) : result exn (odict json) :=
  match ae_class e with
  | TimeoutClass =>
      _error_result bundle (ae_code e) (ae_category e) (ae_retryable e) (ae_message e) true "TIMED_OUT"
  | CancelledClass => _error_result bundle (ae_code e) (ae_category e) true (ae_message e) true "CANCELLED"
  | _ => metadata_result bundle e true
  end.
Definition failed_result (bundle : odict json) : result exn (odict json) :=
  _error_result bundle "ERR_WORKER_DISPATCH_FAILED" "DISPATCH" true "Worker dispatch failed" true "FAILED".

Definition worker_lineage (x : PreflightContext) (producer : string) : odict json :=
  [("intent_id", x_intent_id x); ("intent_digest", x_intent_digest x); ("admission_id", x_admission_id x);
   ("admission_digest", x_admission_digest x); ("execution_id", x_execution_id x); ("producer_commit", JStr producer)].

Section Results.
Context {SV : SchemaValidator}.

(** The [try] block, given what the dispatcher returned *)
Definition checked_result (bundle : odict json) (x : PreflightContext) (producer : string) (worker_result : odict json)
  : result exn (odict json) :=
  let receipt := jget "receipt" worker_result in
  let answer receipt_digest :=
    [("dispatched", JBool true); ("execution_id", x_execution_id x); ("intent_id", x_intent_id x);
     ("operation", JStr (x_operation x)); ("status", jget "status" worker_result); ("receipt", receipt);
     ("receipt_digest", receipt_digest); ("metrics", jget "metrics" worker_result);
     ("materialize_info", jget "materialize_info" worker_result)] in
  if negb (py_eq (jget "execution_id" worker_result) (x_execution_id x)) then
    mismatch_result bundle "Worker result execution_id does not match AuthorizedExecution"
  else if negb (py_eq (jget "operation" worker_result) (JStr (x_operation x))) then
    mismatch_result bundle "Worker result operation does not match AuthorizedExecution"
  else if negb (py_eq (jget "status" worker_result) (JStr "COMPLETED")) then
    _error_result bundle "ERR_WORKER_DISPATCH_FAILED" "DISPATCH" true "Worker returned a missing or unsupported status" true "FAILED"
  else if is_none receipt then Ok (answer JNull)
  else
    schema_validate "receipt-lineage" receipt ;?
    let? provenance :=
      match receipt with
      | JObj r => Ok (get_or_empty "provenance" r)
      | _ => Raise (AttributeErr "object has no attribute 'get'")
      end in
    let? mismatch := any_mismatch provenance (worker_lineage x producer) in
    if mismatch then mismatch_result bundle "Worker receipt provenance does not match AuthorizedExecution"
    else
      let? bytes := canonicalize_jcs receipt in
      Ok (answer (JStr (sha256_digest bytes))).

(** ** The dispatch *)

(** What the token answers; a timeout sets the very token it was given
    ([local_token.cancel()] of the dispatcher). *)
Definition token_readings (set : bool) (env : integrated_env) : CancellationToken := fun c => set || iv_cancels env c.
Definition timed_out (outcome : lresult (odict json)) : bool :=
  match outcome with Raise (AdapterErr e) => bool_decide (ae_class e = TimeoutClass) | _ => false end.
Definition token_after (set : bool) (env : integrated_env) (outcome : lresult (odict json)) : bool :=
  set || existsb (iv_cancels env) [BeforeStart; InThread; BeforeWork; AfterWork] || timed_out outcome.

(** An exception of the worker package that leaves the port *)
Definition escaped (e : live_exn) : exn :=
  if is_value_error e then ValueErr "worker"
  else match e with
       | LTypeError => TypeErr "worker"
       | LAttributeError => AttributeErr "worker"
       | LKeyError => KeyErr "worker"
       | LOSError => OSErr "worker"
       | LOther name => RuntimeErr name
       | _ => RuntimeErr "worker"
       end.

Context {ISO : IsoText} {PYT : PyText} {Data Model : Type}.
Abbreviation Port := (IntegratedWorkerDispatchPort Data Model).

Definition worker_outcome (p : Port) (x : PreflightContext) (env : integrated_env) : lresult (odict json) :=
  LiveDispatch.dispatch (default_models p) (default_datasets p) (worker_dispatcher p) x
    (option_map (fun set => token_readings set env) (cancellation_token p)) None (Some (integrated_commit p)) (iv_run env).

(** [self.dispatch_count += 1] and the token the dispatcher was given *)
Definition counted (env : integrated_env) (outcome : lresult (odict json)) (p : Port) : Port :=
  mkIntegrated _ _ (shared_ledger p) (worker_preflight p) (worker_dispatcher p)
    (option_map (fun set => token_after set env outcome) (cancellation_token p))
    (integrated_commit p) (dispatch_count p + 1) (default_models p) (default_datasets p).

Definition translated (bundle : odict json) (x : PreflightContext) (producer : string) (outcome : lresult (odict json))
  : result exn (odict json) :=
  match outcome with
  | Ok worker_result =>
      match checked_result bundle x producer worker_result with
      | Ok d => Ok d
      | Raise _ => failed_result bundle
      end
  | Raise (AdapterErr e) => adapter_result bundle e
  | Raise _ => failed_result bundle
  end.

Definition integrated_dispatch (env : integrated_env) (bundle : odict json) : M Port (odict json) :=
  mlift (match schema_validate "authorized-execution" (JObj bundle) with
         | Ok _ => Ok tt
         | Raise _ => Raise (dispatch_failed "Bundle failed authorized-execution schema validation")
         end) ;!
  do! p := mget in
  match validate (worker_preflight p) (JObj bundle) (iv_now env) with
  | Ok x =>
      let outcome := worker_outcome p x env in
      mput (counted env outcome p) ;!
      mlift (translated bundle x (integrated_commit p) outcome)
  | Raise (AdapterErr e) =>
      if bool_decide (ae_class e = PreflightClass) then mlift (metadata_result bundle e false)
      else mraise (escaped (AdapterErr e))
  | Raise e => mraise (escaped e)
  end.

#[export] Instance integrated_port : WorkerDispatchPort Port := {
  dispatch_env := integrated_env;
  wp_ledger := shared_ledger;
  wp_set_ledger l p := mkIntegrated _ _ l (worker_preflight p) (worker_dispatcher p) (cancellation_token p)
                         (integrated_commit p) (dispatch_count p) (default_models p) (default_datasets p);
  wp_reserve_capacity _ := mret tt;
  wp_release_capacity _ := mret tt;
  wp_dispatch env bundle := do! d := integrated_dispatch env bundle in mret (JObj d);
}.
End Results.

(** ** The port and the gate's contract *)

Section Port.
Context {SV : SchemaValidator} {ISO : IsoText} {PYT : PyText} {Data Model : Type}.
Abbreviation Port := (IntegratedWorkerDispatchPort Data Model).

Lemma integrated_dispatch_cases env bundle (p p' : Port) r :
  integrated_dispatch env bundle p = (p', r) ->
  shared_ledger p' = shared_ledger p /\
  (schema_accepts "authorized-execution" (JObj bundle) = true ->
   match validate (worker_preflight p) (JObj bundle) (iv_now env) with
   | Ok x =>
       p' = counted env (worker_outcome p x env) p /\
       r = translated bundle x (integrated_commit p) (worker_outcome p x env)
   | Raise (AdapterErr e) =>
       p' = p /\ (ae_class e = PreflightClass -> r = metadata_result bundle e false)
   | Raise _ => p' = p
   end).
Proof.
  unfold integrated_dispatch, schema_validate, mbind, mlift, mget, mput, mraise.
  destruct (schema_accepts _ _); cbn [require]; [|by intros [= <- _]].
  destruct (validate _ _ _) as [x|e]; [by intros [= <- <-]|].
  destruct e as [e| | | | | | | | | | |]; try (by intros [= <- _]).
  destruct (bool_decide_reflect (ae_class e = PreflightClass)); intros [= <- <-]; by split.
Qed.

(** Like the mock, the port never touches the ledger. *)
#[export] Instance integrated_laws : PortLaws Port.
Proof.
  refine {| port_ok (p : Port) := ledger_inv (shared_ledger p); dispatch_env_ok _ := True |}; try done.
  - intros p l Hi Hs. by eapply ledger_steps_inv.
  - by intros id p p' r Hi [= <- <-].
  - by intros id p p' r Hi [= <- <-].
  - intros env b p p' r Hi _. cbn. unfold mbind, mret.
    destruct (integrated_dispatch env b p) as [q [d|e]] eqn:D; apply integrated_dispatch_cases in D as [D _];
      intros [= <- _]; rewrite D; (split; [done|apply rtc_refl]).
Defined.

(** ** Answers *)

(** The document of the port says what a document of the worker process says. *)
Definition alike (d w : odict json) : Prop :=
  forall k, k ∈ ["dispatched"; "execution_id"; "intent_id"; "status"; "receipt"; "receipt_digest"; "error"] -> jget k d = jget k w.

Definition error_answer (dispatched : bool) (eid iid status : string) (e : WorkerAdapterError) : odict json :=
  [("dispatched", JBool dispatched); ("execution_id", JStr eid); ("intent_id", JStr iid); ("status", JStr status);
   ("error", JObj (_error_document e)); ("receipt", JNull)].

(** The error of every other exception *)
Definition unnamed_failure : WorkerAdapterError :=
  mkAdapterError DispatchClass "ERR_WORKER_DISPATCH_FAILED" "Worker dispatch failed" EmptyString false.

Lemma error_answer_alike dispatched eid iid op status e :
  alike (error_answer dispatched eid iid status e) (failure_document dispatched (JStr eid) (JStr iid) op status e).
Proof. intros k K. repeat (apply elem_of_cons in K as [->|K]; [reflexivity|]). by apply elem_of_nil in K. Qed.

Section Answers.
Context {RS : ResultSchemas SV}.
Context (b intent admission workload : odict json) (eid iid op plugin dataset scope : string).
Context (B : string_bundle b intent admission workload eid iid op plugin dataset scope).

Lemma error_result_Ok code category retryable message dispatched status :
  _error_result b code category retryable message dispatched status =
  Ok [("dispatched", JBool dispatched); ("execution_id", JStr eid); ("intent_id", JStr iid); ("status", JStr status);
      ("error", JObj [("schema_version", JStr "1.0.0"); ("error_code", JStr code); ("category", JStr category);
                      ("retryable", JBool retryable); ("message", JStr (str_take 512 message))]);
      ("receipt", JNull)].
Proof.
  destruct B as [Bi Ba _ Be Bii _ _ _ _ _]. unfold _error_result, bundle_path, get_item.
  rewrite Bi, Ba. cbn [rbind]. by rewrite Be, Bii.
Qed.

(** The two programs' tables agree on the codes of the preflight. *)
Lemma metadata_result_Ok e dispatched :
  exists c, metadata_result b e dispatched = Ok (error_answer dispatched eid iid "FAILED" (mkAdapterError PreflightClass c (ae_message e) EmptyString false)).
Proof.
  unfold metadata_result, preflight_metadata. destruct (od_get (ae_code e) _PREFLIGHT_ERROR_METADATA) as [[category retryable]|] eqn:G.
  - exists (ae_code e). rewrite error_result_Ok. apply od_get_In in G. unfold error_answer, _error_document. cbn [ae_code ae_message].
    unfold _PREFLIGHT_ERROR_METADATA in G.
    repeat (apply elem_of_cons in G as [[= -> -> ->]|G]; [reflexivity|]). by apply elem_of_nil in G.
  - exists "ERR_WORKER_DISPATCH_FAILED". by rewrite error_result_Ok.
Qed.

Lemma said_result_Ok e :
  said e ->
  exists e', ae_message e' <> EmptyString /\ adapter_result b e = Ok (error_answer true eid iid (failure_status e') e').
Proof.
  intros [N S]. unfold adapter_result, failure_status. destruct e as [class code message category retryable]. cbn [ae_class ae_message ae_code ae_category ae_retryable] in *.
  destruct class.
  1, 2: destruct (metadata_result_Ok (mkAdapterError PreflightClass code message category retryable) true) as [c E];
    exists (mkAdapterError PreflightClass c message EmptyString false); (split; [exact N|exact E]).
  - destruct S as (-> & -> & ->). exists (mkAdapterError TimeoutClass "ERR_TIMEOUT" message EmptyString false).
    split; [exact N|by rewrite error_result_Ok].
  - destruct S as (-> & ->). exists (mkAdapterError CancelledClass "ERR_CANCELLED" message EmptyString false).
    split; [exact N|by rewrite error_result_Ok].
Qed.

Lemma failed_result_Ok :
  failed_result b = Ok (error_answer true eid iid (failure_status unnamed_failure) unnamed_failure).
Proof. unfold failed_result. by rewrite error_result_Ok. Qed.

(** ** What the dispatcher returned passes the checks *)

Context (p : AuthorizedExecutionPreflight) (now : moment) (x : PreflightContext) (producer at_ : string).
Context (V : validate p (JObj b) now = Ok x).

Lemma checked_materialized w :
  op = "MATERIALIZE_DATASET" -> jget "status" w = JStr "COMPLETED" -> jget "execution_id" w = x_execution_id x ->
  jget "operation" w = JStr (x_operation x) -> jget "receipt" w = JNull ->
  checked_result b x producer w =
  Ok (completed_document eid iid op JNull JNull (jget "metrics" w) (jget "materialize_info" w)).
Proof.
  intros Op S E O R. destruct (bundle_context _ _ _ _ _ _ _ _ _ _ _ _ _ B V) as (Xe & Xi & Xo & _).
  unfold checked_result. cbv zeta. rewrite S, E, O, R, Xe, Xi, Xo, !py_eq_refl by done. reflexivity.
Qed.

(** A receipt of the accepted context is let through, with its digest. *)
Lemma checked_receipt w r receipt :
  jget "status" w = JStr "COMPLETED" -> jget "execution_id" w = x_execution_id x -> jget "operation" w = JStr (x_operation x) ->
  jget "receipt" w = JObj receipt -> runner_of (x_model_plugin_id x) (x_dataset_id x) (x_requested_scope x) r ->
  context_receipt (Data := Data) (Model := Model) r x producer at_ = Ok receipt ->
  checked_result b x producer w =
  let? bytes := canonicalize_jcs (JObj receipt) in
  Ok (completed_document eid iid op (JObj receipt) (JStr (sha256_digest bytes)) (jget "metrics" w) (jget "materialize_info" w)).
Proof.
  intros S E O R K Rc.
  destruct (bundle_context _ _ _ _ _ _ _ _ _ _ _ _ _ B V) as (Xe & Xi & Xo & _ & _ & _ & _ & policy & _ & _ & Xg & Xa & Xh).
  destruct (receipt_names _ _ _ _ _ _ _ _ _ _ _ _ _ _ _ _ _ B V K Rc) as (cc & idg & aid & adg & config & [N1 N2 N3 _] & Er & Sc).
  unfold checked_result. cbv zeta. rewrite S, E, O, R, !py_eq_refl by (rewrite ?Xe; done). cbn [negb is_none].
  unfold schema_validate. rewrite Sc. cbn [rbind].
  unfold worker_lineage. rewrite Xe, Xi, Xo, Xg, Xa, Xh. unfold get_or, jget at 1. rewrite N1, N2, N3.
  rewrite Er. change (get_or_empty "provenance" _) with
    (JObj [("repository", JStr "chartjs333/delta"); ("backend_commit", JStr DEFAULT_BACKEND_COMMIT);
          ("catalog_backend_ref", JStr DEFAULT_BACKEND_COMMIT); ("producer_commit", JStr producer); ("produced_at", JStr at_);
          ("controller_commit", JStr cc); ("intent_id", JStr iid); ("intent_digest", JStr idg);
          ("admission_id", JStr aid); ("admission_digest", JStr adg); ("execution_id", JStr eid)]).
  rewrite names_match by all_match. reflexivity.
Qed.

Abbreviation answer := (worker_answer (Data := Data) (Model := Model) b now eid iid op producer at_ p).

Lemma error_answered e : ae_message e <> EmptyString -> answer (failure_document true (JStr eid) (JStr iid) (JStr op) (failure_status e) e).
Proof. intros N. by apply (answer_failure _ _ _ _ _ _ _ _ true). Qed.

(** Whatever the dispatcher does, the port answers, and like the worker process. *)
Lemma translated_answers outcome :
  answers (Data := Data) (Model := Model) x producer at_ outcome ->
  exists d w, translated b x producer outcome = Ok d /\ alike d w /\ answer w /\ jget "dispatched" d = JBool true.
Proof.
  intros [S A].
  assert (Fail : forall (r : result exn (odict json)) e, r = Ok (error_answer true eid iid (failure_status e) e) -> ae_message e <> EmptyString ->
    exists d w, r = Ok d /\ alike d w /\ answer w /\ jget "dispatched" d = JBool true).
  { intros r e -> N. eexists _, _. split; [reflexivity|]. split; [apply (error_answer_alike _ _ _ (JStr op))|].
    split; [by apply error_answered|reflexivity]. }
  destruct outcome as [w|e].
  - destruct (A w eq_refl) as ((St & Ee & Eo) & [(Op & r & receipt & Er & K & Rc)|(Op & Er)]).
    + assert (E : translated b x producer (Ok w) = match checked_result b x producer w with Ok d => Ok d | Raise _ => failed_result b end) by reflexivity.
      rewrite E, (checked_receipt w r receipt) by done. destruct (canonicalize_jcs (JObj receipt)) as [bytes|e] eqn:J.
      2: { cbn [rbind]. rewrite failed_result_Ok. by eapply (Fail _ unnamed_failure). }
      cbn [rbind]. eexists _, _. split; [reflexivity|]. split; [by intros k|]. split; [|reflexivity].
      destruct (bundle_context _ _ _ _ _ _ _ _ _ _ _ _ _ B V) as (_ & _ & Xo & _). rewrite Xo in Op.
      apply (answer_receipt _ _ _ _ _ _ _ _ x r); [done..|].
      destruct (receipt_names _ _ _ _ _ _ _ _ _ _ _ _ _ _ _ _ _ B V K Rc) as (cc & idg & aid & adg & config & _ & Ec & _).
      rewrite Ec in *. rewrite jcs_bytes_ordered, J by reflexivity. reflexivity.
    + destruct (bundle_context _ _ _ _ _ _ _ _ _ _ _ _ _ B V) as (_ & _ & Xo & _). rewrite Xo in Op.
      cbn [translated]. rewrite checked_materialized by done. eexists _, _. split; [reflexivity|]. split; [by intros k|].
      split; [by apply answer_materialized|reflexivity].
  - destruct e as [e| | | | | | | | | | |]; cbn [translated];
      try (rewrite failed_result_Ok; by eapply (Fail _ unnamed_failure)).
    destruct (said_result_Ok e (S e eq_refl)) as (e' & N & E). by eapply Fail.
Qed.
End Answers.

(** ** The gate accepts every answer *)

Section Accepted.
Context {RS : ResultSchemas SV}.
Context (b intent admission workload : odict json) (eid iid op plugin dataset scope : string).
Context (B : string_bundle b intent admission workload eid iid op plugin dataset scope).

(** What the gate expects is what the bundle names. *)
Record expects (e : dispatch_expectation) : Prop := {
  xp_intent_id : ex_intent_id e = iid;
  xp_execution_id : ex_execution_id e = eid;
  xp_operation : ex_operation e = op;
  xp_catalog : ex_catalog_backend_ref e = JStr FROZEN_CATALOG_REF;
  xp_plugin : ex_model_plugin_id e = JStr plugin;
  xp_dataset : ex_dataset_id e = JStr dataset;
  xp_scope : ex_requested_scope e = JStr scope;
  xp_names : bundle_names intent admission (ex_controller_commit e) (ex_intent_digest e) (ex_admission_id e) (ex_admission_digest e) }.

Context (e : dispatch_expectation) (X : expects e).

Lemma bundle_names_inj cc idg aid adg cc' idg' aid' adg' :
  bundle_names intent admission cc idg aid adg -> bundle_names intent admission cc' idg' aid' adg' ->
  cc = cc' /\ idg = idg' /\ aid = aid' /\ adg = adg'.
Proof. intros [A1 A2 A3 (q & A4 & A5)] [C1 C2 C3 (q' & C4 & C5)]. repeat split; congruence. Qed.

Lemma gate_receipt_accepted p now x producer at_ r receipt bytes :
  validate p (JObj b) now = Ok x -> runner_of (x_model_plugin_id x) (x_dataset_id x) (x_requested_scope x) r ->
  context_receipt (Data := Data) (Model := Model) r x producer at_ = Ok receipt -> jcs_bytes (JObj receipt) = Ok bytes ->
  validate_dispatch_receipt e receipt (JStr (sha256_prefixed bytes)) = Ok tt.
Proof.
  intros V K R J. destruct X as [X1 X2 X3 X4 X5 X6 X7 Xn].
  destruct (receipt_names _ _ _ _ _ _ _ _ _ _ _ _ _ _ _ _ _ B V K R) as (cc & idg & aid & adg & config & Bn & -> & Sc).
  destruct (bundle_names_inj _ _ _ _ _ _ _ _ Bn Xn) as (-> & -> & -> & ->).
  unfold validate_dispatch_receipt, schema_validate. rewrite Sc, X1, X2, X4, X5, X6, X7. cbn [rbind].
  change (get_or_empty "provenance" _) with
    (JObj [("repository", JStr "chartjs333/delta"); ("backend_commit", JStr DEFAULT_BACKEND_COMMIT);
          ("catalog_backend_ref", JStr DEFAULT_BACKEND_COMMIT); ("producer_commit", JStr producer); ("produced_at", JStr at_);
          ("controller_commit", JStr (ex_controller_commit e)); ("intent_id", JStr iid); ("intent_digest", JStr (ex_intent_digest e));
          ("admission_id", JStr (ex_admission_id e)); ("admission_digest", JStr (ex_admission_digest e)); ("execution_id", JStr eid)]).
  rewrite names_match by all_match. cbn [rbind negb require attr_get].
  change (get_or_empty "workload" _) with (JObj [("model_plugin_id", JStr plugin); ("dataset_id", JStr dataset);
    ("executed_scope", JStr scope); ("workload_config_digest", JStr config)]).
  rewrite names_match by all_match. rewrite jcs_bytes_ordered in J by reflexivity.
  destruct (canonicalize_jcs _) as [bytes'|]; [|discriminate J]. injection J as ->.
  change (sha256_digest bytes) with (sha256_prefixed bytes). cbn -[py_eq sha256_prefixed].
  change DEFAULT_BACKEND_COMMIT with FROZEN_CATALOG_REF. rewrite !py_eq_refl by done. reflexivity.
Qed.

(** The validation reads the seven fields alone. *)
Lemma alike_valid d w :
  alike d w -> _validate_dispatch_result e (JObj w) = Ok w -> _validate_dispatch_result e (JObj d) = Ok d.
Proof.
  intros A. assert (K : forall k, str_in k ["dispatched"; "execution_id"; "intent_id"; "status"; "receipt"; "receipt_digest"; "error"] = true ->
    jget k d = jget k w) by (intros k I; apply A; by apply str_in_elem).
  unfold _validate_dispatch_result. rewrite !K by reflexivity.
  repeat match goal with |- rbind ?m _ = _ -> _ => destruct m as [?|?]; cbn [rbind]; [|discriminate] end. done.
Qed.

Lemma gate_failure_accepted dispatched err :
  ae_message err <> EmptyString -> (dispatched = false -> ae_class err = PreflightClass) ->
  let w := failure_document dispatched (JStr eid) (JStr iid) (JStr op) (if dispatched then failure_status err else "FAILED") err in
  _validate_dispatch_result e (JObj w) = Ok w.
Proof.
  intros N C w. destruct X as [X1 X2 _ _ _ _ _ _]. unfold _validate_dispatch_result. rewrite X1, X2. unfold w, failure_document.
  set (st := if dispatched then failure_status err else "FAILED").
  change (jget "execution_id" _) with (JStr eid). change (jget "intent_id" _) with (JStr iid).
  change (jget "dispatched" _) with (JBool dispatched). change (jget "status" _) with (JStr st). change (jget "receipt" _) with JNull.
  change (jget "receipt_digest" _) with JNull. change (jget "error" _) with (JObj (_error_document err)).
  rewrite !py_eq_refl by done. cbn [require rbind is_bool].
  assert (St : st = "FAILED" \/ (dispatched = true /\ (st = "TIMED_OUT" \/ st = "CANCELLED"))).
  { unfold st, failure_status. destruct dispatched; [|by left]. destruct (ae_class err); auto. }
  assert (V : schema_validate "preflight-error" (JObj (_error_document err)) = Ok tt)
    by (unfold schema_validate; by rewrite (error_document_accepted err N)).
  destruct St as [->|(-> & [->| ->])]; cbn -[schema_validate _error_document]; by rewrite V.
Qed.

Lemma gate_completed_accepted receipt digest metrics info :
  (if String.eqb op "MATERIALIZE_DATASET" then receipt = JNull /\ digest = JNull
   else exists o d, receipt = JObj o /\ digest = JStr d /\ validate_dispatch_receipt e o digest = Ok tt) ->
  let w := completed_document eid iid op receipt digest metrics info in
  _validate_dispatch_result e (JObj w) = Ok w.
Proof.
  intros V w. destruct X as [X1 X2 X3 _ _ _ _ _]. unfold _validate_dispatch_result. rewrite X1, X2, X3. unfold w.
  cbn -[py_eq validate_dispatch_receipt String.eqb]. rewrite !py_eq_refl by done. cbn [require rbind].
  destruct (String.eqb op "MATERIALIZE_DATASET"); [by destruct V as [-> ->]|]. destruct V as (o & d & -> & -> & V).
  cbn -[validate_dispatch_receipt]. by rewrite V.
Qed.

Lemma gate_accepts now producer at_ p d w :
  worker_answer (Data := Data) (Model := Model) b now eid iid op producer at_ p w -> alike d w ->
  _validate_dispatch_result e (JObj d) = Ok d.
Proof.
  intros W A. apply (alike_valid d w A).
  destruct W as [dispatched err S C _|x r receipt bytes metrics info V Op K Rc J|metrics info Op].
  - by apply gate_failure_accepted.
  - apply gate_completed_accepted.
    assert (Om : String.eqb op "MATERIALIZE_DATASET" = false).
    { apply String.eqb_neq. intros E. rewrite E in Op. apply str_in_elem in Op. discriminate Op. }
    rewrite Om. eexists _, _. split; [reflexivity|]. split; [reflexivity|]. by eapply gate_receipt_accepted.
  - apply gate_completed_accepted. by rewrite Op.
Qed.
End Accepted.
End Port.

(** ** The shared token

    A timeout sets the token of the port, and a set token cancels every later
    execution before it starts. *)

Section Token.
Context {SV : SchemaValidator} {ISO : IsoText} {PYT : PyText} {Data Model : Type}.
Abbreviation Port := (IntegratedWorkerDispatchPort Data Model).

Lemma set_token_cancels (p : Port) x env :
  cancellation_token p = Some true -> lower_hex 40 (integrated_commit p) = true ->
  worker_outcome p x env = Raise (WorkerCancelledError "Operation was cancelled before start").
Proof.
  intros T K. unfold worker_outcome, LiveDispatch.dispatch, effective_producer. rewrite T.
  destruct (integrated_commit p); [discriminate K|]. by rewrite K.
Qed.

(** After one execution of a port with a token has timed out, none runs any
    more: whatever bundle comes next is cancelled before its start. *)
Theorem timeout_cancels_port (p p1 p2 : Port) env bundle r set x :
  cancellation_token p = Some set -> lower_hex 40 (integrated_commit p) = true ->
  schema_accepts "authorized-execution" (JObj bundle) = true ->
  validate (worker_preflight p) (JObj bundle) (iv_now env) = Ok x ->
  timed_out (worker_outcome p x env) = true -> integrated_dispatch env bundle p = (p1, r) ->
  cancellation_token p2 = cancellation_token p1 -> integrated_commit p2 = integrated_commit p1 ->
  forall env' x', worker_outcome p2 x' env' = Raise (WorkerCancelledError "Operation was cancelled before start").
Proof.
  intros T K S V O D T2 K2 env' x'. apply integrated_dispatch_cases in D as [_ D]. specialize (D S). rewrite V in D.
  destruct D as [-> _]. apply set_token_cancels; [|by rewrite K2].
  rewrite T2. cbn. rewrite T. unfold token_after. cbn [option_map]. by rewrite O, orb_true_r.
Qed.
End Token.

(** ** Recording an answer *)

Section Update.
Context {SV : SchemaValidator} {ISO : IsoText} {ED : Ed25519} {P : Type} {WP : WorkerDispatchPort P} {PL : PortLaws P}.

(** A terminal answer the ledger accepts is recorded as it is, for a record that
    no queue has claimed. *)
Lemma update_records (env : call_env (P := P)) d (q q' : P) r res :
  ledger_inv (wp_ledger q) -> poisoned_reason (wp_ledger q) = None ->
  get_by_execution_id (env_execution_id env) (wp_ledger q) = Some r -> lr_status r ∈ ["ADMITTED"; "RUNNING"] ->
  to_str (jget "status" d) ∈ TERMINAL_STATUSES ->
  next_artifacts (to_str (jget "status" d)) (to_opt_str (jget "receipt_digest" d)) (to_opt_obj (jget "receipt" d))
    (to_opt_obj (jget "error" d))
  = Ok (to_opt_str (jget "receipt_digest" d), to_opt_obj (jget "receipt" d), to_opt_obj (jget "error" d)) ->
  record_ok (expected_producer_commit (wp_ledger q)) (recorded r d (env_update_at env)) ->
  update_after_dispatch env d q = (q', res) ->
  (res = Ok (recorded r d (env_update_at env)) /\
   get_by_execution_id (env_execution_id env) (wp_ledger q') = Some (recorded r d (env_update_at env))) \/
  (~ append_ok (env_update_io env) (recorded r d (env_update_at env)) (wp_ledger q) /\ poisoned_reason (wp_ledger q') <> None).
Proof.
  intros Hi Hp G Hs T N Ok.
  destruct (lookup_of_get _ _ _ Hi G) as (_ & Ee & _).
  assert (F : forall s st, s ∈ ["ADMITTED"; "RUNNING"] -> st ∈ TERMINAL_STATUSES ->
    (s ∈ NONTERMINAL_STATUSES ++ [st])%list /\ s ∈ NONTERMINAL_STATUSES /\ st ∈ KNOWN_STATUSES /\
    str_in st NONTERMINAL_STATUSES = false /\ str_in st (_LEGAL_TRANSITIONS s) = true /\ String.eqb st "QUEUED" = false /\
    forallb (fun s => str_in s KNOWN_STATUSES) (NONTERMINAL_STATUSES ++ [st])%list = true).
  { intros s st I J. repeat (apply elem_of_cons in I as [->|I]); try (by apply elem_of_nil in I);
      repeat (apply elem_of_cons in J as [->|J]); try (by apply elem_of_nil in J);
      repeat split; first [by apply str_in_elem|reflexivity]. }
  destruct (F _ _ Hs T) as (F1 & F2 & F3 & F4 & F5 & F6 & F7).
  pose proof (settle_transition (env_execution_id env) _ _ _ _ _ _ (env_update_at env) (env_update_io env) (wp_ledger q) r
    Hi Hp G F1 F7 F2 F3 F4 F5 N Ok) as Tr.
  cbn zeta in Tr. fold (recorded r d (env_update_at env)) in Tr.
  unfold update_after_dispatch. rewrite F6. unfold mbind at 1, gate_ledger at 1.
  destruct (transition_execution _ _ _ _ _ _ _ _ _) as [l1 o] eqn:E. destruct Tr as [[= -> ->]|(Ha & x & Ex & Px)].
  - intros [= <- <-]. left. split; [done|]. rewrite law_get_set, transitioned_get by (done || by rewrite Ee).
    by rewrite Ee, String.eqb_refl.
  - cbn [fst snd] in Ex, Px. subst o. intros [= <- <-]. right. split; [done|]. by rewrite law_get_set, Px.
Qed.
End Update.

(** ** From the gate through the port to the ledger *)

Section AdmittedExecution.
Context {SV : SchemaValidator} {ISO : IsoText} {PYT : PyText} {ED : Ed25519} {Data Model : Type}.
Context {RFC : RFC8032 ED} {IL : IsoLaws ISO} {AS : AdmissionSchema SV} {RS : ResultSchemas SV}.
Abbreviation Port := (IntegratedWorkerDispatchPort Data Model).

Lemma alike_recorded d w r now : alike d w -> recorded r d now = recorded r w now.
Proof. intros A. unfold recorded. by rewrite !A by (by apply str_in_elem). Qed.

Lemma expectation_expects g (env : call_env (P := Port)) rq admission digest w o plugin dataset scope :
  admission_of g env rq admission digest ->
  string_bundle (build_bundle (rq_intent rq) admission) (rq_intent rq) admission w (env_execution_id env) (rq_intent_id rq) o plugin dataset scope ->
  od_get "intent_digest" (rq_intent rq) = Some (JStr (rq_intent_digest rq)) ->
  exists e, expectation g env rq digest = Ok e /\
    expects (rq_intent rq) admission (env_execution_id env) (rq_intent_id rq) o plugin dataset scope e.
Proof.
  intros [D1 D2 D3 D4 D5 D6] [_ _ Bw _ _ Bo [Bp _] [Bd _] Bs Bc] Ed. unfold expectation, string_item, get_item.
  rewrite Bo. cbn [rbind as_string]. rewrite Bw. cbn [rbind]. rewrite Bc. cbn [rbind]. rewrite Bp. cbn [rbind]. rewrite Bd. cbn [rbind].
  rewrite Bs. cbn [rbind]. eexists. split; [reflexivity|]. constructor; try reflexivity. constructor; try done. by exists (admitted_policy g).
Qed.

Lemma wp_dispatch_Ok (env : integrated_env) bundle (p : Port) x d :
  schema_accepts "authorized-execution" (JObj bundle) = true ->
  validate (worker_preflight p) (JObj bundle) (iv_now env) = Ok x ->
  translated bundle x (integrated_commit p) (worker_outcome p x env) = Ok d ->
  wp_dispatch (WorkerDispatchPort := integrated_port) env bundle p = (counted env (worker_outcome p x env) p, Ok (JObj d)).
Proof.
  intros S V T. cbn. unfold mbind at 1. destruct (integrated_dispatch env bundle p) as [p' r] eqn:D.
  apply integrated_dispatch_cases in D as [_ D]. specialize (D S). rewrite V in D. destruct D as [-> ->]. by rewrite T.
Qed.

(** The bundle of a committed admission passed the schema. *)
Lemma committed_bundle_accepted g (env : call_env (P := Port)) rq (p p' : Port) admission digest :
  port_ok p -> env_ok env -> by_execution_id (wp_ledger p) !! env_execution_id env = None ->
  reserve_and_commit g env rq p = (p', Ok (admission, digest)) ->
  schema_accepts "authorized-execution" (JObj (build_bundle (rq_intent rq) admission)) = true.
Proof.
  intros Hok He Hf Hr. destruct (reserve_and_commit_cases _ _ _ _ _ _ Hok He Hf Hr) as (_ & _ & active & grants & _ & _ & _ & _ & _ & Hpr & _).
  unfold prepare_admission in Hpr. apply rbind_Ok in Hpr as (e & _ & Hpr). apply rbind_Ok in Hpr as ([adm dg] & _ & Hpr).
  apply rbind_unit_Ok in Hpr as (_ & Hpr). apply rbind_unit_Ok in Hpr as (S & [= -> _]).
  unfold schema_validate in S. by apply rbind_unit_Ok in S as (_ & S%require_Ok).
Qed.

(** C3: an execution dispatched in process is recorded as the worker answered
    it.  What the gate admitted while the port's worker trusts its key and the
    admission is fresh is dispatched, and whatever the worker does - complete,
    fail, time out, be cancelled, raise - the gate gets one document that it
    accepts, never an exception.  As long as no other thread has settled or
    queued the execution, the durable update then records exactly that document,
    with its status, receipt, receipt digest and error, or the append of the
    record fails and poisons the ledger. *)
Theorem integrated_execution_recorded (g : AuthorizationGate) (env : call_env (P := Port)) raw creds rq (p p' : Port) admission digest
    (ienv : integrated_env)
    (Hok : port_ok p) (He : env_ok env) (Hf : by_execution_id (wp_ledger p) !! env_execution_id env = None)
    (Hp : Gate.preflight g raw creds (env_now env) = Ok rq)
    (Hr : reserve_and_commit g env rq p = (p', Ok (admission, digest)))
    (Hd : env_dispatch env = ienv) (A : agreed g env rq admission (worker_preflight p') (iv_now ienv))
    (C : catalog_validator g = default_catalog) (SR : sound_registries (default_models p') (default_datasets p'))
    (K : lower_hex 40 (integrated_commit p') = true) :
  exists d q0, dispatch_admitted g env rq admission digest p' = (interfere env 6 q0, Ok d) /\
    jget "dispatched" d = JBool true /\ wp_ledger q0 = wp_ledger p' /\ dispatch_count q0 = dispatch_count p' + 1 /\
    forall (q q' : Port) r res,
      rtc ledger_step (wp_ledger p') (wp_ledger q) -> poisoned_reason (wp_ledger q) = None ->
      get_by_execution_id (env_execution_id env) (wp_ledger q) = Some r -> lr_status r ∈ ["ADMITTED"; "RUNNING"] ->
      expected_producer_commit (wp_ledger q) = None \/ expected_producer_commit (wp_ledger q) = Some (integrated_commit p') ->
      env_update_at env <> EmptyString -> update_after_dispatch env d q = (q', res) ->
      (res = Ok (recorded r d (env_update_at env)) /\
       get_by_execution_id (env_execution_id env) (wp_ledger q') = Some (recorded r d (env_update_at env)) /\
       lr_status (recorded r d (env_update_at env)) ∈ TERMINAL_STATUSES) \/
      (~ append_ok (env_update_io env) (recorded r d (env_update_at env)) (wp_ledger q) /\ poisoned_reason (wp_ledger q') <> None).
Proof.
  destruct (admitted_validates g env raw creds rq p p' admission digest _ _ Hok He Hf Hp Hr A)
    as (D & w & op & dl & t & m & Ew & Eo & Cv & Ei & Ed & V).
  rewrite C in Cv. apply default_catalog_strings in Cv as (o & plugin & dataset & scope & -> & Sp & Sd & Ss & Sr).
  assert (B : string_bundle (build_bundle (rq_intent rq) admission) (rq_intent rq) admission w (env_execution_id env)
                (rq_intent_id rq) o plugin dataset scope) by (destruct D; by constructor).
  pose proof (committed_bundle_accepted _ _ _ _ _ _ _ Hok He Hf Hr) as Sc.
  set (x := context_of _ _ _ _ _ _ _) in V.
  assert (An : answers (Data := Data) (Model := Model) x (integrated_commit p') (re_now (iv_run ienv)) (worker_outcome p' x ienv)).
  { apply (dispatch_answers _ _ SR). unfold effective_producer. by destruct (integrated_commit p'). }
  destruct (translated_answers _ _ _ _ _ _ _ _ _ _ B _ _ _ _ _ V _ An) as (d & wd & T & Al & W & Dp).
  destruct (expectation_expects _ _ _ _ _ _ _ _ _ _ D B Ed) as (e & Ex & Xp).
  exists d, (counted ienv (worker_outcome p' x ienv) p'). split; [|split; [exact Dp|split; [reflexivity|split; [reflexivity|]]]].
  - unfold dispatch_admitted, mfinally, mon_error. unfold mbind at 1. rewrite Hd, (wp_dispatch_Ok ienv _ p' x d Sc V T).
    unfold mlift. rewrite Ex. cbn [rbind]. by rewrite (gate_accepts _ _ _ _ _ _ _ _ _ _ B e Xp _ _ _ _ _ _ W Al).
  - intros q q' r res Hs Hl Hg Hn Hc Hnow U.
    destruct (reserve_and_commit_cases _ _ _ _ _ _ Hok He Hf Hr) as (Hok' & _ & active & grants & retry & op & l & _ & _ & _ & Eo' & [_ G0] & _).
    rewrite Eo in Eo'. injection Eo' as <-.
    pose proof (law_ledger _ Hok') as Hi'. pose proof (ledger_steps_inv _ _ Hs Hi') as Hi.
    pose proof (admitted_record_of _ _ _ _ _ _ _ _ Ed Hi' Hs G0 Hg) as Ro.
    destruct (lookup_of_get _ _ _ Hi Hg) as (_ & _ & Hro & _).
    destruct (recorded_ok _ _ _ _ _ _ _ _ _ _ _ _ _ (env_update_at env) _ _ _ _ B Ro Hro Hc Hnow W) as (Rk & Na & Te).
    rewrite <- (alike_recorded d) in Rk by done. 
    rewrite <- (Al "status"), <- (Al "receipt_digest"), <- (Al "receipt"), <- (Al "error") in Na by (by apply str_in_elem).
    rewrite <- (Al "status") in Te by (by apply str_in_elem).
    destruct (update_records _ _ _ _ _ _ Hi Hl Hg Hn Te Na Rk U) as [[-> G]|F]; [left|by right].
    split; [done|]. split; [exact G|exact Te].
Qed.
End AdmittedExecution.

(** ** A concrete execution *)

Definition integrated_live_env : integrated_env := mkIntegratedEnv live_now live_run (fun _ => false).
Definition integrated_call : call_env (P := IntegratedWorkerDispatchPort Z Z) :=
  mkEnv (P := IntegratedWorkerDispatchPort Z Z) (mkMoment 1000 (Some 0)) "t0" 0 [] live_admission_id live_execution_id "t1" AppendOk
    (integrated_live_env : dispatch_env (P := IntegratedWorkerDispatchPort Z Z))
    "t4" AppendOk "t5" AppendOk "t6" (fun _ p => p).

Lemma integrated_call_ok : env_ok integrated_call.
Proof. constructor; [|constructor|exact I]. intros k p Hp. split; [exact Hp|]. apply rely_refl. Qed.

Definition integrated_reserved : IntegratedWorkerDispatchPort Z Z :=
  mkIntegrated Z Z (port_ledger live_reserved) live_preflight (mkDispatcher (Some live_commit) "/cache") (Some false) live_commit 0
    toy_models toy_datasets.

Lemma integrated_reserved_ok : port_ok integrated_reserved.
Proof. exact (law_ledger live_reserved live_reserved_ok). Qed.

Definition integrated_committed := reserve_and_commit live_gate integrated_call live_request integrated_reserved.

Lemma integrated_commits :
  reserve_and_commit live_gate integrated_call live_request integrated_reserved
  = (integrated_committed.1, Ok (live_admission, live_digest)).
Proof.
  assert (E : integrated_committed.2 = Ok (live_admission, live_digest)) by (vm_compute; reflexivity).
  rewrite <- E. unfold integrated_committed. apply surjective_pairing.
Qed.

(** The gate leaves the rest of the port alone. *)
Lemma integrated_kept :
  worker_preflight integrated_committed.1 = live_preflight /\ default_models integrated_committed.1 = toy_models /\
  default_datasets integrated_committed.1 = toy_datasets /\ integrated_commit integrated_committed.1 = live_commit.
Proof. vm_compute. auto. Qed.

Lemma integrated_agreed : agreed live_gate integrated_call live_request live_admission live_preflight live_now.
Proof. destruct live_agreed as [A1 A2 A3 A4 A5 A6 A7 A8 A9 A10]. constructor; [exact A1|exact A2|exact A3|exact A4|exact A5|exact A6|exact A7|exact A8|exact A9|exact A10]. Qed.

Lemma integrated_fresh : by_execution_id (wp_ledger integrated_reserved) !! env_execution_id integrated_call = None.
Proof. vm_compute. reflexivity. Qed.

Lemma integrated_admitted :
  Gate.preflight live_gate (RawDict live_intent) (Some Policy.demo_credentials) (env_now integrated_call) = Ok live_request.
Proof. exact live_admitted. Qed.

(** The record the gate admitted, and the document the worker answers with *)
Definition integrated_record : LedgerRecord := Eval vm_compute in
  match get_by_execution_id live_execution_id (wp_ledger integrated_committed.1) with Some r => r | None => live_record end.
Definition integrated_answer := (dispatch_admitted live_gate integrated_call live_request live_admission live_digest integrated_committed.1).2.
Definition document_of (r : result exn (odict json)) : odict json := match r with Ok d => d | Raise _ => [] end.
Definition integrated_document : odict json := Eval vm_compute in document_of integrated_answer.

Lemma integrated_answers :
  (dispatch_admitted live_gate integrated_call live_request live_admission live_digest integrated_committed.1).2 = Ok integrated_document.
Proof. vm_compute. reflexivity. Qed.

Lemma integrated_ready :
  get_by_execution_id (env_execution_id integrated_call) (wp_ledger integrated_committed.1) = Some integrated_record /\
  poisoned_reason (wp_ledger integrated_committed.1) = None /\ expected_producer_commit (wp_ledger integrated_committed.1) = None /\
  lr_status integrated_record = "ADMITTED" /\ encodable (record_line (recorded integrated_record integrated_document "t5")) = true /\
  jget "status" integrated_document = JStr "COMPLETED".
Proof. vm_compute. repeat split. Qed.

Lemma integrated_execution_recorded_witness :
  exists d q0 q' r, dispatch_admitted live_gate integrated_call live_request live_admission live_digest integrated_committed.1 = (q0, Ok d) /\
    jget "dispatched" d = JBool true /\ jget "status" d = JStr "COMPLETED" /\
    update_after_dispatch integrated_call d integrated_committed.1 = (q', Ok (recorded r d "t5")) /\
    get_by_execution_id live_execution_id (wp_ledger q') = Some (recorded r d "t5").
Proof.
  destruct integrated_kept as (Kp & Km & Kd & Kc).
  destruct (integrated_execution_recorded live_gate integrated_call (RawDict live_intent) (Some Policy.demo_credentials) live_request
    integrated_reserved integrated_committed.1 live_admission live_digest integrated_live_env integrated_reserved_ok integrated_call_ok
    integrated_fresh integrated_admitted integrated_commits eq_refl) as (d & q0 & D & J & _ & _ & U).
  - rewrite Kp. exact integrated_agreed.
  - reflexivity.
  - rewrite Km, Kd. exact toy_sound.
  - rewrite Kc. reflexivity.
  - pose proof integrated_answers as E. rewrite D in E. injection E as ->.
    destruct integrated_ready as (G & Np & Pc & Ad & En & St).
    destruct (update_after_dispatch integrated_call integrated_document integrated_committed.1) as [q' res] eqn:Ud.
    destruct (U integrated_committed.1 q' integrated_record res (rtc_refl _ _) Np G) as [(-> & G' & _)|(F & _)].
    + rewrite Ad. by left.
    + by left.
    + discriminate.
    + exact Ud.
    + exists integrated_document, (interfere integrated_call 6 q0), q', integrated_record.
      split; [exact D|]. split; [exact J|]. split; [exact St|]. split; [exact Ud|exact G'].
    + destruct F. right. split; [reflexivity|exact En].
Defined.
